(* ===== verification/_CoqProject ===== *)
-Q . S2P
Prelude.v
CString.v
ByteOrder.v
Message.v
OpenSSL.v
Toy.v
KeyFiles.v
AesMessage.v
Registry.v
Forward.v
Server.v
Peers.v
GenList.v
SharedData.v
Quicksort.v
LcsCommon.v
Calendar.v
World.v
ToyWorld.v
Directories.v
Config.v
Manager.v
Cluster.v
Daemon.v
Insert.v
Moving.v
Analysis.v
Fetch.v
Template.v
TenMinutes.v
TripleDes.v
WhServer.v
Listener.v
WhClient.v
SharedTables.v
CallReport.v
AgentReport.v
Counting.v
Reports.v
Handover.v
Chain.v
Delivery.v
Night.v
Download.v
