(* ===== verification/Prelude.v ===== *)
(** * A notification service, a warehouse of call records, and what they share, verified

    The repository holds several C programs.  This library models those with logic of their
    own and proves what makes them correct.

    ** The programs

    - src/notify.system: devices register with a server ([list_dev_id.h]), obtain the AES key
      of the service over RSA, tell the server their address with tracking messages, receive
      notifications and confirm them.  msg_notify.c and .h hold the messages, the
      cryptography, the registration table and the sending of the forward list; server.c is
      the server with its two threads, client.c and notifier.c are the two peers, gen_list.c
      is a queue of bytes that is shared under a mutex.
    - src/common/shared_data.c with src/shared_data: writers and one reader share a segment
      of memory; the reader sleeps when it is empty and is signalled; a third program stops
      the group.
    - src/quicksort, src/cluster/quicksort, src/cluster/common/lcs_common.c: sorting, with
      recursion, with a list and with two arrays of segments.
    - src/cluster: a warehouse of the calls of telephone servers. The manager
      (manager/manager.c) asks every server for its first and last day, goes through the days
      and starts, for each server and day, the programs that process it, each with a
      configuration file it writes. The export (cluster/main.c) cuts a day into windows, copies
      the rows of each window from the database into the directory of that window and starts
      the insertion (insert_sqlite/main.c; moving/main.c is an older copy), which loads them
      into a database in that directory. Before the days, and for each of them, the manager
      starts programs that copy tables whole: gentemplate makes the statements that create and
      fill the tables, getagent copies the agents and customers, gethistory the history of a
      day. The analysis (analysis/analysis.c) starts the reports of a day, each of which starts
      programs for its hours, and those for five minutes. Programs count the calls in such a
      database by outcome and add the counts up by hour and day (A_000001 to A_000004, each
      with programs for five minutes, an hour and a day), or join them with tables of customers
      and agents (A_000007 to A_000010) that other programs load into shared memory (shmcreate,
      shmcreate_audd, shmunlink); the reports of five minutes are put together by hour and day
      (A_000005 to A_000009). The warehouse server (whserver/main.c) answers requests for the
      results, under triple DES (rsa_des/src/lcs_rsa_des.c), each in a process of its own that a
      thread of the listening process waits for, and odbc/main.c is its client. The manager and
      the export sleep in [pause] until a signal makes them look for a command in a file.
      A_000001_10m/main.c holds an older version of gentemplate.
      lcs_common.c holds what they share: times, files, processes, directories, the merging of
      counted rows.

    ** How the code is modelled

    An object in memory is a list of bytes, and every access goes through [rd], [wr] and
    [rd1] of this file, which check the bounds; an array of numbers is a list accessed
    through [Quicksort.get] and [Quicksort.put].  A computation is [Ok] with its results or
    the [fault] it runs into: what C leaves undefined (an access outside an object, a null or
    dead pointer, an overflow, a division by zero) or [exit].  A theorem that a call is [Ok]
    therefore says that it stays inside its objects.  Integers are [Z]; [wrap], [as_int] and
    [z2b] are the conversions of the code.  State that outlives a call (tables, lists,
    buffers, a segment) is passed explicitly; a function under a mutex is atomic.

    Loops are structural or carry fuel.  The definitions compute the fuel from the sizes
    involved and the theorems exclude [NoFuel], except where the caller decides how long a
    loop runs: [Lcs.quick_sort], [Recursive.quicksort] and the queue of [Recursive] take the
    length of the array or one more; [Manager.days] one more than the number of days and
    one for the end; [Cluster.circles] the number of windows and one; the insertions the
    number of lines and two or three, or the number of characters and two; the loader of the
    analysis the characters of its file and one; the receiver of TripleDes one for each message,
    the client of the warehouse one for each part of the file and two.  Two loops of the code
    have no end of their own, and no fuel is enough for them: the waiting of a program for
    signals, which is a step relation instead (Daemon), and the receiver behind a closed
    connection, for which that is the theorem ([vanished_client]).

    The programs of src/cluster talk to the operating system and to databases.  World.v has
    these calls as a class whose results may depend on the trace of everything done before,
    and [io], a computation that extends the trace.  Theorems that need a law of the
    environment state it: a file that was written is read back ([reads_back]), the database
    accepts ([Insert.accepting]).  A structure of character arrays, as the configurations
    are, is the map [Config.cfg] from member names to their bytes, with every copy checked
    against the size of the member.  OpenSSL, the allocator and the network are classes of
    operations too (OpenSSL.v, [Forward.Network], [TripleDes.DESLib]); what the code relies on
    is stated as laws: decryption undoes encryption, the tag is a function of key, iv and
    ciphertext, chaining.  Toy.v and ToyWorld.v have instances of all of them, so every
    theorem is also applied at concrete data.

    ** The files

    - Prelude: outcomes, memory, integers, C strings, tactics and the shared lemmas.
    - CString: the functions of the C library the code calls on text ([sprintf] with numbers,
      [strstr], [strtok], [sscanf] of numbers).
    - ByteOrder: the conversions between integers and arrays; they are inverse, and equal
      the reference [le_bytes] and [le_val].
    - Message: constants, the layout of [MSG_COMMON], [hash_func], [put_time_to_msg],
      [dum_msg].  The header of 100 bytes and its members determine each other; the hash of
      an identifier is a polynomial modulo 10001 and an index into the table; the log line
      fits its buffer for the routes that have a text.
    - OpenSSL, Toy: the environment and its instances.
    - KeyFiles: [file_2_bytes], [rsa_enc], [rsa_dec] and their users; round trip and every
      error result.
    - AesMessage: [gcm_encrypt] to [msg_aes_dec], [ntf_aes_encrypt], [ntf_aes_file]; the
      framing of a datagram, its round trip, the refusal of a forged tag, the bounds.
    - Registry: the table as a map from identifiers ([reg_lookup], [reg_addr]) under the
      invariant [reg_ok]; registration, tracking and loading refine insert and update, and any
      sequence of calls is, faults included, one of a directory with one place for each value
      of the hash ([registry_refines]).
    - Forward: the forward list and [send_to_dst], tracking messages and requests; which
      datagram goes where, and what stops the loop.
    - Server: one round of each thread as a function, the threads together as [sys_step]; no
      message is lost or sent twice in any interleaving unless it is dropped as undeliverable,
      and what is dropped is accounted for ([sys_conservation]); what the server does with a
      notification, a request for the key, a forged datagram and a tracking message.
    - Peers: client and notifier; the exchange of the key end to end, the datagram of a
      notification, the confirmation.
    - GenList: the queue of bytes is first in, first out, whatever the order of operations.
    - SharedData: the segment is a bounded buffer that drops its content rather than
      overflow; sequences of operations refine it.  Reader, signals and writers are steps of one
      system ([share_step]): which round signals, which signal wakes, which one is lost, and that
      the reader alone gets everything within three steps ([wakes_reader]); the stop is final.
    - Quicksort: the sorts end, stay inside their arrays and sort; the three variants of
      one file give the same result.
    - LcsCommon: text helpers and the merging of counted rows of lcs_common.c.
    - Calendar: [mktime], [localtime], [strptime] and [strftime] as the code uses them, on the
      Gregorian calendar with a fixed offset from UTC; [lcs_str2_time] and [lcs_time2_str].
      Times and texts determine each other, and the order of texts is the order of times.
    - World, ToyWorld: the environment of src/cluster; commands, environment directories and
      the moving of a file from lcs_common.c.
    - Directories: listing and hashing directories; which directories the array of 62 names
      holds.
    - Config: the configuration loader the programs share, on maps of character arrays.
    - Manager: every function of manager.c that starts a process or decides which; every day
      of every server is processed once ([manager_days]); the threads of a day and the
      counter as a step relation ([mstep]) with its invariant and termination.
    - Cluster: the export.  The windows and their queries tile the day ([windows_tile]);
      [lcs_start_bdata] as a whole never reaches them, since it follows a pointer to a dead
      variable once the four blocks are made ([start_bdata_faults]).  The rounds of its loop are
      modelled nevertheless, on blocks whose connection is there ([circles_tile]).
    - Daemon: the signals of the manager and the export, the loop around [pause] with every
      place a signal can come at, and both main programs.  The manager returns 0 and only when
      an alarm found it asleep and the file of commands said so ([manager_returns]); an alarm
      that finds the program in [pause] is obeyed, one in front of it is lost
      ([alarm_in_time]); the export returns only from the cleaning of a day
      ([export_returns]).
    - Insert: the insertion; what a circle exports is stored as it was exported, and what
      happens with the buffer for the context table.
    - Moving: the older insertion; it is the same program where everything is accepted
      ([moving_inserts]), and hides a row that is refused ([moving_hides]).
    - Fetch: getagent and gethistory; their rows always fit their buffers.
    - Template: gentemplate; the statements it writes are those of the columns.
    - TenMinutes: A_000001_10m and the older gentemplate in it, which differs from the one in use
      in the errors it reports and after a query that failed ([templ_versions]).
    - Analysis: the list of reports of a day, the search for their programs, what is started.
    - TripleDes: frames under triple DES; a message arrives as it was sent.
    - WhServer: a connection of the warehouse server; requests, session key, files.  A request
      is taken over exactly when every field fits its member ([request_bounds]); a client that
      leaves after the greeting keeps its process for ever ([vanished_client]).
    - Listener: the listening process, its children and the threads that wait for them
      ([wstep]).  Every child is watched by one thread or known not to be, no socket is left
      open in the parent ([whs_house]), every ended child that is watched is reaped
      ([zombies_reaped]), one [fork] that fails ends the service ([whs_gives_up]).
    - WhClient: the client of the warehouse.
    - SharedTables: the tables of agents and customers in shared memory: loading, the chains
      of the hash and the search.  Every row is stored at its place, and the search finds it if
      and only if it was one of the first of its bucket ([customers_found], [agents_found]).
    - CallReport: the report of the calls that were not connected is the join of the calls
      with the customers ([report_joins]); a call without a customer ends the program through a
      null pointer, with the lines before it in the file, each of which is an event of its own.
    - AgentReport: the reports A_000007, A_000009 and A_000010 are the joins of the calls with
      the agents and customers ([agents_join], [talks_join]).  The older callbacks of these
      programs, which nothing calls, are translated too.
    - Counting: the counts by outcome.  The hour and the day write the sums of all the texts
      below them, start what is missing once, and for the day the order of the threads does
      not matter ([hour_counts], [day_counts]).
    - Reports: the reports by hour and by day.  That of an hour is those of its subdirectories
      in order ([hour_report]), the counts of A_000005 are merged ([hour_merges]), that of a
      day is those of its hours, behind what an earlier run left when none was missing
      ([day_report], [day_merges]).
    - Handover: the programs composed through the files they hand to each other: manager to
      export, export to insertion, export to warehouse server.
    - Chain: manager to analysis ([analysis_schedules]), and the name of the tables in shared
      memory from the manager through analysis, day and hour to the programs for five minutes
      ([table_name_arrives]).
    - Delivery: manager to gentemplate, getagent and gethistory: from the configuration the
      manager writes, which tables are asked for, what is written where, what is started
      ([templates_delivered], [agents_delivered], [history_delivered]).
    - Night: the work of one thread of the manager as a whole: which programs it starts in which
      order on which files, and what it leaves in the files and in /dev/shm ([thread_work]).
    - Download: client and server of the warehouse against each other.  Where the connection
      keeps the messages apart, the report the client asks for arrives as it is in the
      warehouse, whatever its size, and nobody waits in vain; a stream may join two of them, and
      then the file arrives without its beginning ([report_downloaded]).

    Files earlier in the list are used by later ones: Message builds on ByteOrder, Registry and
    Forward on Message and KeyFiles, Server on Registry, Forward and AesMessage, Peers on
    Server; the programs of src/cluster build on World and Config, Insert on the rows of
    Cluster, Moving on Insert, Fetch and Template on the rows of Cluster, WhServer and WhClient
    on TripleDes, CallReport, AgentReport and Counting on SharedTables, Reports on Counting and
    LcsCommon, Daemon on Manager and Cluster, Listener on WhServer, TenMinutes on Template,
    Handover, Chain, Delivery, Night and Download on the programs they connect.

    ** What is not modelled

    Log output that cannot fault; creation and options of the sockets of the notification
    service and of the client of the warehouse, which are given by their results; [main]
    functions that only fill arrays and print; daemonising.  In Manager a signal is the command
    it makes the program read; in SharedData SIGALRM is pending or not, for the process
    and for its reading thread, and for the stop the process it is sent to.  Time zones with daylight saving and leap seconds.  Of src/cluster: odbc.c, an
    older client that is not built and cannot be, as it uses two names that no header defines;
    [lcs_multi_query] of the export, which is commented out; the demonstration of rsa_des.  An
    allocation that fails.  The sources of books, Open vSwitch's vlog.c and the demonstrations of
    tools are third-party code or have no logic of their own. *)
From Stdlib Require Export ZArith Lia Strings.Byte String.
From stdpp Require Export base tactics numbers option list gmap.
#[global] Open Scope Z_scope.

Declare Scope cmem_scope.
Delimit Scope cmem_scope with C.

(** ** Outcomes of C code *)

(** What the C standard leaves undefined, and the end of the process. *)
Inductive fault :=
| OobRead        (** a read outside the object *)
| OobWrite       (** a write outside the object *)
| NullDeref      (** a null pointer is dereferenced *)
| DeadObject     (** an object is used after [free] or a moving [realloc] *)
| BadShift       (** a shift by at least the width of the promoted operand *)
| IntOverflow    (** a signed sum outside the range of [int] *)
| DivByZero      (** a division or remainder by zero *)
| Exited         (** [exit] was called *)
| NoFuel.        (** the model's own bound on a loop was too small; theorems exclude it *)

Inductive res (A : Type) :=
| Ok (a : A)
| Fault (f : fault).
Arguments Ok {A} _.
Arguments Fault {A} _.

#[global] Instance byte_eq_dec : EqDecision byte := Byte.byte_eq_dec.
#[global] Instance fault_eq_dec : EqDecision fault.
Proof. solve_decision. Defined.
#[global] Instance res_ret : MRet res := fun A a => Ok a.
#[global] Instance res_bind : MBind res := fun A B k m =>
  match m with Ok a => k a | Fault f => Fault f end.
#[global] Instance res_fmap : FMap res := fun A B g m =>
  match m with Ok a => Ok (g a) | Fault f => Fault f end.

(** ** Machine integers *)

Definition wrap (w z : Z) : Z := z mod 2 ^ w.

Definition b2z (b : byte) : Z := Z.of_N (Byte.to_N b).
Definition z2b (z : Z) : byte :=
  match Byte.of_N (Z.to_N (z mod 256)) with Some b => b | None => x00 end.

(** [char] is signed on the platform the program is built for. *)
Definition schar (b : byte) : Z := if 128 <=? b2z b then b2z b - 256 else b2z b.

(** ** Objects in memory *)

Definition zlen {A} (l : list A) : Z := Z.of_nat (length l).
Definition zeros (n : Z) : list byte := replicate (Z.to_nat n) x00.

Definition in_bounds (m : list byte) (off len : Z) : bool :=
  (0 <=? off) && (0 <=? len) && (off + len <=? zlen m).

(** Reading and writing [len] bytes at [off] of an object: [memcpy] and the
    accesses to arrays and struct members are written with these. *)
Definition rd (m : list byte) (off len : Z) : res (list byte) :=
  if in_bounds m off len
  then Ok (take (Z.to_nat len) (drop (Z.to_nat off) m)) else Fault OobRead.
Definition wr (m : list byte) (off : Z) (src : list byte) : res (list byte) :=
  if in_bounds m off (zlen src)
  then Ok (take (Z.to_nat off) m ++ src ++ drop (Z.to_nat off + length src) m)
  else Fault OobWrite.
Definition rd1 (m : list byte) (off : Z) : res byte :=
  match m !! Z.to_nat off with
  | Some b => if 0 <=? off then Ok b else Fault OobRead
  | None => Fault OobRead
  end.

(** Following a pointer: [None] is an object that is gone. *)
Definition deref {A} (p : option A) : res A :=
  match p with Some a => Ok a | None => Fault DeadObject end.

(** ** C strings *)

Definition str (s : string) : list byte := list_byte_of_string s.

(** The characters before the terminating zero; a fault when the object ends first. *)
Fixpoint cstr (m : list byte) : res (list byte) :=
  match m with
  | [] => Fault OobRead
  | b :: m' => if b2z b =? 0 then Ok [] else s ← cstr m'; Ok (b :: s)
  end.
Definition cstr_at (m : list byte) (off : Z) : res (list byte) :=
  if (0 <=? off) && (off <=? zlen m) then cstr (drop (Z.to_nat off) m)
  else Fault OobRead.
Definition strlen_at (m : list byte) (off : Z) : res Z := zlen <$> cstr_at m off.

Fixpoint strncmp (n : nat) (a b : list byte) : res Z :=
  match n with
  | O => Ok 0
  | S n' =>
    match a, b with
    | x :: a', y :: b' =>
      if b2z x =? b2z y
      then if b2z x =? 0 then Ok 0 else strncmp n' a' b'
      else Ok (b2z x - b2z y)
    | _, _ => Fault OobRead
    end
  end.

(** [strcmp] on two objects: what follows a terminating zero does not count, and the end of
    the list stands for one. *)
Fixpoint strcmp (a b : list byte) : Z :=
  match a, b with
  | [], [] => 0
  | [], y :: _ => - b2z y
  | x :: _, [] => b2z x
  | x :: a', y :: b' =>
    if b2z x =? b2z y then if b2z x =? 0 then 0 else strcmp a' b' else b2z x - b2z y
  end.

(** ** Little-endian encoding, the reference *)

Fixpoint le_bytes (n : nat) (z : Z) : list byte :=
  match n with
  | O => []
  | S n' => z2b z :: le_bytes n' (z / 256)
  end.
Fixpoint le_val (l : list byte) : Z :=
  match l with
  | [] => 0
  | b :: l' => b2z b + 256 * le_val l'
  end.

(** ** Automation *)

Create HintDb cmem.
Create Rewrite HintDb cmem.
Create Rewrite HintDb len.
#[export] Hint Rewrite @length_app @length_take @length_drop @length_replicate
  @length_insert @length_fmap @length_map : len.

(** Goals about the lengths of lists. *)
Ltac len :=
  unfold zlen, zeros in *; autorewrite with len in *; cbn [length] in *; lia.

(** [case_res H] takes an equation between a computation and an outcome apart
    along its binds. *)
Ltac case_res :=
  repeat match goal with
  | H : Ok _ = Ok _ |- _ => injection H as H
  | H : Ok _ = Fault _ |- _ => discriminate H
  | H : Fault _ = Ok _ |- _ => discriminate H
  | H : (?m ≫= _) = Ok _ |- _ =>
      let E := fresh "E" in destruct m eqn:E; cbn [mbind res_bind fmap res_fmap] in H; [|discriminate H]
  | H : (_ <$> ?m) = Ok _ |- _ =>
      let E := fresh "E" in destruct m eqn:E; cbn [mbind res_bind fmap res_fmap] in H; [|discriminate H]
  end.

(** Run a computation along its binds with the outcomes the hypotheses give. *)
Ltac run :=
  repeat (cbn [mbind res_bind];
          match goal with H : ?a = Ok _ |- context [?a] => rewrite H end);
  cbn [mbind res_bind].

(** A closed decidable proposition. *)
Ltac decided := match goal with |- ?P => apply (bool_decide_unpack P); vm_compute; exact I end.

(** Closed side conditions, by evaluation. *)
Ltac vm_side := vm_compute; repeat split; solve [reflexivity | discriminate].

(** Boolean comparisons in hypotheses and goals, turned into propositions. *)
Ltac b2p :=
  repeat match goal with
  | H : (_ && _)%bool = true |- _ => apply andb_true_iff in H; destruct H
  | H : (_ || _)%bool = false |- _ => apply orb_false_iff in H; destruct H
  | H : negb _ = true |- _ => apply negb_true_iff in H
  | H : negb _ = false |- _ => apply negb_false_iff in H
  | H : (_ =? _) = true |- _ => apply Z.eqb_eq in H
  | H : (_ =? _) = false |- _ => apply Z.eqb_neq in H
  | H : (_ <? _) = true |- _ => apply Z.ltb_lt in H
  | H : (_ <? _) = false |- _ => apply Z.ltb_ge in H
  | H : (_ <=? _) = true |- _ => apply Z.leb_le in H
  | H : (_ <=? _) = false |- _ => apply Z.leb_gt in H
  end.

(** Decide the comparisons of the goal that follow from the hypotheses. *)
Ltac decide_cmp :=
  repeat match goal with
  | |- context [?a =? ?b] =>
      first [ replace (a =? b) with true by (symmetry; apply Z.eqb_eq; lia)
            | replace (a =? b) with false by (symmetry; apply Z.eqb_neq; lia) ]
  | |- context [?a <? ?b] =>
      first [ replace (a <? b) with true by (symmetry; apply Z.ltb_lt; lia)
            | replace (a <? b) with false by (symmetry; apply Z.ltb_ge; lia) ]
  | |- context [?a <=? ?b] =>
      first [ replace (a <=? b) with true by (symmetry; apply Z.leb_le; lia)
            | replace (a <=? b) with false by (symmetry; apply Z.leb_gt; lia) ]
  end.

(** ** Lemmas: bytes *)

Lemma b2z_range b : 0 <= b2z b < 256.
Proof. unfold b2z. pose proof (Byte.to_N_bounded b). lia. Qed.

Lemma b2z_z2b z : b2z (z2b z) = z mod 256.
Proof.
  unfold b2z, z2b. pose proof (Z.mod_pos_bound z 256 eq_refl) as Hz.
  destruct (Byte.of_N (Z.to_N (z mod 256))) as [b|] eqn:E.
  - apply Byte.to_of_N in E. rewrite E. lia.
  - apply Byte.of_N_None_iff in E. lia.
Qed.

Lemma z2b_b2z b : z2b (b2z b) = b.
Proof.
  unfold z2b. rewrite (Z.mod_small (b2z b)) by apply b2z_range.
  unfold b2z. rewrite N2Z.id, Byte.of_to_N. done.
Qed.

Lemma b2z_inj a b : b2z a = b2z b -> a = b.
Proof. intros E. rewrite <- (z2b_b2z a), E. apply z2b_b2z. Qed.

Lemma z2b_mod z : z2b (z mod 256) = z2b z.
Proof. unfold z2b. by rewrite Z.mod_mod. Qed.

Lemma b2z_zero b : b2z b = 0 <-> b = x00.
Proof. split; [|by intros ->]. intros E. by apply b2z_inj. Qed.

(** ** Lemmas: objects *)

Lemma zlen_app {A} (l k : list A) : zlen (l ++ k) = zlen l + zlen k.
Proof. unfold zlen. rewrite length_app. lia. Qed.
Lemma zlen_cons {A} (x : A) l : zlen (x :: l) = 1 + zlen l.
Proof. unfold zlen. simpl. lia. Qed.
Lemma zlen_nonneg {A} (l : list A) : 0 <= zlen l.
Proof. unfold zlen. lia. Qed.
Lemma zlen_zeros n : 0 <= n -> zlen (zeros n) = n.
Proof. intros. unfold zlen, zeros. rewrite length_replicate. lia. Qed.
Lemma zlen_replicate n (b : byte) : zlen (replicate n b) = Z.of_nat n.
Proof. unfold zlen. by rewrite length_replicate. Qed.

Lemma in_bounds_true m off len :
  in_bounds m off len = true <-> 0 <= off /\ 0 <= len /\ off + len <= zlen m.
Proof. unfold in_bounds. rewrite !andb_true_iff, !Z.leb_le. lia. Qed.

Lemma rd_ok m off len :
  0 <= off -> 0 <= len -> off + len <= zlen m ->
  rd m off len = Ok (take (Z.to_nat len) (drop (Z.to_nat off) m)).
Proof. intros. unfold rd. by rewrite (proj2 (in_bounds_true _ _ _)). Qed.

Lemma rd_inv m off len s :
  rd m off len = Ok s ->
  0 <= off /\ 0 <= len /\ off + len <= zlen m /\ zlen s = len /\
  s = take (Z.to_nat len) (drop (Z.to_nat off) m).
Proof.
  unfold rd. destruct (in_bounds m off len) eqn:E; [|done].
  apply in_bounds_true in E. intros H; injection H as <-.
  unfold zlen in *. rewrite length_take, length_drop. repeat split; lia.
Qed.

Lemma rd_oob m off len :
  off < 0 \/ len < 0 \/ zlen m < off + len -> rd m off len = Fault OobRead.
Proof.
  intros H. unfold rd. destruct (in_bounds m off len) eqn:E; [|done].
  apply in_bounds_true in E. lia.
Qed.

Lemma wr_ok m off s :
  0 <= off -> off + zlen s <= zlen m ->
  wr m off s = Ok (take (Z.to_nat off) m ++ s ++ drop (Z.to_nat off + length s) m).
Proof.
  intros. unfold wr. pose proof (zlen_nonneg s).
  by rewrite (proj2 (in_bounds_true _ _ _)).
Qed.

Lemma wr_oob m off s :
  off < 0 \/ zlen m < off + zlen s -> wr m off s = Fault OobWrite.
Proof.
  intros H. unfold wr. destruct (in_bounds m off (zlen s)) eqn:E; [|done].
  apply in_bounds_true in E. lia.
Qed.

Lemma wr_inv m off s m' :
  wr m off s = Ok m' ->
  0 <= off /\ off + zlen s <= zlen m /\ zlen m' = zlen m /\
  m' = take (Z.to_nat off) m ++ s ++ drop (Z.to_nat off + length s) m.
Proof.
  unfold wr. destruct (in_bounds m off (zlen s)) eqn:E; [|done].
  apply in_bounds_true in E. intros H; injection H as <-.
  unfold zlen in *. rewrite !length_app, length_take, length_drop. repeat split; lia.
Qed.

Lemma rd_wr_same m off s m' :
  wr m off s = Ok m' -> rd m' off (zlen s) = Ok s.
Proof.
  intros (H1 & H2 & H3 & ->)%wr_inv. pose proof (zlen_nonneg s).
  rewrite rd_ok by lia. f_equal. unfold zlen in *. rewrite Nat2Z.id.
  rewrite drop_app_ge; rewrite length_take; [|lia].
  rewrite Nat.min_l by lia. rewrite Nat.sub_diag, drop_0. apply take_app_length.
Qed.

Lemma rd_wr_disjoint m off s m' off' len :
  wr m off s = Ok m' -> off' + len <= off \/ off + zlen s <= off' ->
  rd m' off' len = rd m off' len.
Proof.
  intros (H1 & H2 & H3 & ->)%wr_inv Hd. unfold rd, in_bounds. rewrite H3.
  destruct ((0 <=? off') && (0 <=? len) && (off' + len <=? zlen m)) eqn:E; [|done].
  b2p. f_equal. unfold zlen in *. destruct Hd as [Hd|Hd].
  - rewrite drop_app_le by (rewrite length_take; lia).
    rewrite take_app_le by (rewrite length_drop, length_take; lia).
    rewrite skipn_firstn_comm, take_take. f_equal. lia.
  - rewrite (app_assoc _ s), drop_app_ge; rewrite length_app, length_take; [|lia].
    rewrite drop_drop. do 2 f_equal. lia.
Qed.

Lemma rd1_rd m off b : rd1 m off = Ok b <-> rd m off 1 = Ok [b].
Proof.
  unfold rd1. split.
  - destruct (m !! Z.to_nat off) eqn:E; [|done].
    destruct (0 <=? off) eqn:E2; [|done]. intros H; injection H as <-. b2p.
    pose proof (lookup_lt_Some _ _ _ E).
    rewrite rd_ok by (unfold zlen; lia). f_equal.
    rewrite (drop_S _ _ _ E). done.
  - intros (H1 & _ & H2 & _ & H3)%rd_inv.
    destruct (m !! Z.to_nat off) eqn:E.
    + rewrite (drop_S _ _ _ E) in H3. simpl in H3. injection H3 as ->.
      by decide_cmp.
    + apply lookup_ge_None in E. unfold zlen in H2. lia.
Qed.

Lemma rd_split m off a b :
  0 <= a -> 0 <= b ->
  rd m off (a + b) = (x ← rd m off a; y ← rd m (off + a) b; Ok (x ++ y)).
Proof.
  intros Ha Hb. destruct (in_bounds m off (a + b)) eqn:E.
  - apply in_bounds_true in E. rewrite !rd_ok by lia. simpl. f_equal.
    rewrite (Z2Nat.inj_add off a), Z2Nat.inj_add, <- drop_drop by lia.
    rewrite <- (take_drop (Z.to_nat a) (drop (Z.to_nat off) m)) at 1.
    unfold zlen in E. rewrite take_app_ge; rewrite length_take, length_drop; [|lia].
    do 2 f_equal; lia.
  - assert (Hn : ~ (0 <= off /\ 0 <= a + b /\ off + (a + b) <= zlen m))
      by (rewrite <- in_bounds_true, E; done).
    rewrite rd_oob by lia. destruct (rd m off a) as [s|f] eqn:E1; simpl.
    + apply rd_inv in E1. by rewrite rd_oob by lia.
    + unfold rd in E1. destruct (in_bounds m off a); congruence.
Qed.

(** ** Lemmas: the little-endian encoding *)

Lemma length_le_bytes n z : length (le_bytes n z) = n.
Proof. revert z. induction n; intros; simpl; auto. Qed.

Lemma le_val_le_bytes n z : le_val (le_bytes n z) = z mod 256 ^ Z.of_nat n.
Proof.
  revert z. induction n as [|n IH]; intros z; cbn [le_bytes le_val].
  - by rewrite Z.mod_1_r.
  - rewrite IH, b2z_z2b, Nat2Z.inj_succ, Z.pow_succ_r by lia.
    rewrite (Z.rem_mul_r z 256 (256 ^ Z.of_nat n)); lia.
Qed.

Lemma le_val_range l : 0 <= le_val l < 256 ^ zlen l.
Proof.
  induction l as [|b l IH]; cbn [le_val]; [done|].
  rewrite zlen_cons, Z.pow_add_r by (unfold zlen; lia).
  pose proof (b2z_range b). lia.
Qed.

Lemma le_bytes_le_val l : le_bytes (length l) (le_val l) = l.
Proof.
  induction l as [|b l IH]; cbn [le_val length le_bytes]; [done|].
  pose proof (b2z_range b). f_equal.
  - rewrite <- z2b_mod. replace ((b2z b + 256 * le_val l) mod 256) with (b2z b).
    + apply z2b_b2z.
    + rewrite (Z.mul_comm 256), Z.mod_add, Z.mod_small; lia.
  - rewrite (Z.mul_comm 256), Z.div_add, Z.div_small by lia. apply IH.
Qed.

Lemma le_bytes_mod n z : le_bytes n (z mod 256 ^ Z.of_nat n) = le_bytes n z.
Proof. by rewrite <- le_val_le_bytes, <- (length_le_bytes n z) at 1; rewrite le_bytes_le_val. Qed.

(** ** Lemmas: C strings *)

Definition no_nul (s : list byte) : Prop := Forall (fun b => b <> x00) s.

Lemma cstr_terminated s rest :
  no_nul s -> cstr (s ++ x00 :: rest) = Ok s.
Proof.
  induction 1 as [|b s Hb _ IH]; simpl; [done|].
  destruct (b2z b =? 0) eqn:E; b2p; [by apply b2z_zero in E|]. by rewrite IH.
Qed.

Lemma cstr_inv m s :
  cstr m = Ok s -> no_nul s /\ exists rest, m = s ++ x00 :: rest.
Proof.
  revert s. induction m as [|b m IH]; intros s; cbn [cstr]; [done|].
  destruct (b2z b =? 0) eqn:E; intros H; b2p.
  - case_res. subst. apply b2z_zero in E as ->. split; [constructor|]. by exists m.
  - case_res. subst. destruct (IH _ eq_refl) as [Hn [r ->]]. split.
    + constructor; [|done]. intros ->. done.
    + by exists r.
Qed.

#[export] Hint Rewrite length_le_bytes : len.
#[export] Hint Rewrite @zlen_app @zlen_cons b2z_z2b z2b_b2z : cmem.
#[export] Hint Resolve b2z_range zlen_nonneg : cmem.

Lemma rd_take_drop m off len s :
  rd m off len = Ok s -> s = take (Z.to_nat len) (drop (Z.to_nat off) m).
Proof. by intros (_ & _ & _ & _ & H)%rd_inv. Qed.

Lemma rd_app_l m rest off len s : rd m off len = Ok s -> rd (m ++ rest) off len = Ok s.
Proof.
  intros (H1 & H2 & H3 & H4 & ->)%rd_inv.
  rewrite rd_ok by (rewrite ?zlen_app; pose proof (zlen_nonneg rest); lia).
  unfold zlen in *. f_equal. rewrite drop_app_le by lia.
  by rewrite take_app_le by (rewrite length_drop; lia).
Qed.

(** Reading a part of a concatenation. *)
Lemma rd_mid p s rest : rd (p ++ s ++ rest) (zlen p) (zlen s) = Ok s.
Proof.
  pose proof (zlen_nonneg p). pose proof (zlen_nonneg s). pose proof (zlen_nonneg rest).
  rewrite rd_ok by (rewrite ?zlen_app; lia). unfold zlen. rewrite !Nat2Z.id.
  by rewrite drop_app_length, take_app_length.
Qed.

Lemma rd_part m p s rest off len :
  m = p ++ s ++ rest -> off = zlen p -> len = zlen s -> rd m off len = Ok s.
Proof. intros -> -> ->. apply rd_mid. Qed.

(** Writing a part of a concatenation. *)
Lemma wr_mid p s s' rest :
  zlen s = zlen s' -> wr (p ++ s ++ rest) (zlen p) s' = Ok (p ++ s' ++ rest).
Proof.
  intros Hs. pose proof (zlen_nonneg p). pose proof (zlen_nonneg rest).
  rewrite wr_ok by (rewrite ?zlen_app; lia). unfold zlen in *. f_equal.
  rewrite Nat2Z.id, take_app_length. do 2 f_equal.
  rewrite drop_app_add. apply drop_app_length'. lia.
Qed.

Lemma wr_head m s :
  zlen s <= zlen m -> wr m 0 s = Ok (s ++ drop (length s) m).
Proof.
  intros H. rewrite wr_ok by lia. change (Z.to_nat 0) with 0%nat. by rewrite take_0.
Qed.

Lemma rd_head m n : 0 <= n <= zlen m -> rd m 0 n = Ok (take (Z.to_nat n) m).
Proof. intros. rewrite rd_ok by lia. by rewrite drop_0. Qed.

Lemma wr_nil m off : 0 <= off <= zlen m -> wr m off [] = Ok m.
Proof.
  intros. rewrite wr_ok by (rewrite ?zlen_cons; change (zlen []) with 0; lia).
  rewrite Nat.add_0_r. simpl. by rewrite take_drop.
Qed.

(** The lengths of the literal strings of a goal. *)
Ltac lit :=
  repeat match goal with
  | |- context [zlen (str ?s)] =>
      let n := eval vm_compute in (zlen (str s)) in change (zlen (str s)) with n
  end.

(** ** Lemmas: C strings in objects *)

Lemma cstr_at_inv m off s :
  cstr_at m off = Ok s ->
  0 <= off /\ off + zlen s < zlen m /\ rd m off (zlen s) = Ok s /\ no_nul s.
Proof.
  unfold cstr_at. destruct (0 <=? off) eqn:E1; cbn [andb]; [|done].
  destruct (off <=? zlen m) eqn:E2; [|done]. b2p.
  intros (Hn & rest & Hm)%cstr_inv.
  assert (Hl : zlen s + 1 + zlen rest = zlen m - off).
  { transitivity (zlen (drop (Z.to_nat off) m)); [|len].
    rewrite Hm, zlen_app, zlen_cons. lia. }
  pose proof (zlen_nonneg rest). pose proof (zlen_nonneg s).
  split; [done|]. split; [lia|]. split; [|done].
  rewrite rd_ok by lia. rewrite Hm. unfold zlen. by rewrite Nat2Z.id, take_app_length.
Qed.

Lemma cstr_at_rd m off s :
  cstr_at m off = Ok s <-> no_nul s /\ rd m off (zlen s + 1) = Ok (s ++ [x00]).
Proof.
  pose proof (zlen_nonneg s). split.
  - intros Hs. pose proof (cstr_at_inv _ _ _ Hs) as (H0 & H1 & _ & Hn). split; [done|].
    unfold cstr_at in Hs. destruct (_ && _)%bool; [|done].
    apply cstr_inv in Hs as (_ & rest & Hm). rewrite rd_ok by lia. rewrite Hm.
    change (x00 :: rest) with ([x00] ++ rest). rewrite app_assoc. f_equal.
    apply take_app_length'. rewrite length_app. unfold zlen. cbn [length]. lia.
  - intros [Hn (H0 & _ & H1 & _ & H2)%rd_inv]. unfold cstr_at.
    replace ((0 <=? off) && (off <=? zlen m))%bool with true
      by (symmetry; apply andb_true_iff; split; apply Z.leb_le; lia).
    rewrite <- (take_drop (Z.to_nat (zlen s + 1)) (drop _ _)), <- H2, <- app_assoc.
    by apply cstr_terminated.
Qed.

(** [strncmp] on two terminated strings compares their first [n] characters. *)
Lemma strncmp_spec n a b x y :
  cstr a = Ok x -> cstr b = Ok y ->
  exists k, strncmp n a b = Ok k /\ (k = 0 <-> take n x = take n y).
Proof.
  revert a b x y. induction n as [|n IH]; intros a b x y Ha Hb; cbn [strncmp].
  { exists 0. split; [done|]. by rewrite !take_0. }
  destruct a as [|c a]; [done|]. destruct b as [|d b]; [done|]. cbn [cstr] in Ha, Hb.
  destruct (b2z c =? b2z d) eqn:E; b2p.
  - apply b2z_inj in E as <-. destruct (b2z c =? 0) eqn:E0.
    + case_res. subst. exists 0. by rewrite !take_nil.
    + case_res. subst. edestruct (IH a b) as (k & -> & Hk); [eassumption..|].
      exists k. split; [done|]. cbn [take]. rewrite Hk. split; [by intros ->|congruence].
  - exists (b2z c - b2z d). split; [done|]. split; [lia|]. intros Ht.
    destruct (b2z c =? 0) eqn:E1, (b2z d =? 0) eqn:E2; b2p; case_res; subst; try congruence;
      cbn [take] in Ht; congruence.
Qed.

Lemma cstr_at_cstr m off s : cstr_at m off = Ok s -> cstr (drop (Z.to_nat off) m) = Ok s.
Proof. unfold cstr_at. by destruct (_ && _)%bool. Qed.

Lemma cstr_total s : exists c, cstr (s ++ [x00]) = Ok c.
Proof.
  induction s as [|b s [c IH]]; cbn [app cstr]; [by exists []|].
  destruct (b2z b =? 0); [by exists []|]. rewrite IH. cbn. eauto.
Qed.

Lemma wr_part m p s s' rest off :
  m = p ++ s ++ rest -> off = zlen p -> zlen s = zlen s' ->
  wr m off s' = Ok (p ++ s' ++ rest).
Proof. intros -> -> H. by apply wr_mid. Qed.

Lemma zeros_add a b : 0 <= a -> 0 <= b -> zeros (a + b) = zeros a ++ zeros b.
Proof. intros. unfold zeros. by rewrite Z2Nat.inj_add, replicate_add by lia. Qed.

Lemma wr_zeros n s :
  zlen s <= n -> wr (zeros n) 0 s = Ok (s ++ zeros (n - zlen s)).
Proof.
  intros H. pose proof (zlen_nonneg s). rewrite wr_ok by (rewrite ?zlen_zeros; lia).
  f_equal. change (Z.to_nat 0) with 0%nat. rewrite take_0. cbn [app Nat.add]. f_equal. unfold zeros, zlen in *.
  rewrite drop_replicate. f_equal. lia.
Qed.

Lemma rd1_some m off : 0 <= off < zlen m -> exists b, rd1 m off = Ok b.
Proof.
  intros H. unfold rd1. destruct (m !! Z.to_nat off) eqn:E.
  - decide_cmp. eauto.
  - apply lookup_ge_None in E. unfold zlen in H. lia.
Qed.

Lemma wr_some m off s :
  0 <= off -> off + zlen s <= zlen m -> exists m', wr m off s = Ok m' /\ zlen m' = zlen m.
Proof.
  intros H0 H. pose proof (wr_ok m off s H0 H) as E. eexists. split; [done|].
  by apply wr_inv in E as (_ & _ & ? & _).
Qed.

(** ** Lemmas: comparing strings *)

Lemma strcmp_flip a b : strcmp a b = - strcmp b a.
Proof.
  revert b. induction a as [|x a IH]; intros [|y b]; cbn [strcmp]; try lia.
  destruct (b2z x =? b2z y) eqn:E; b2p.
  - rewrite (proj2 (Z.eqb_eq (b2z y) (b2z x))) by done.
    replace (b2z y =? 0) with (b2z x =? 0) by (by rewrite E).
    destruct (b2z x =? 0); [done|apply IH].
  - replace (b2z y =? b2z x) with false by (symmetry; apply Z.eqb_neq; lia). lia.
Qed.

Lemma strcmp_trans a b c : strcmp a b <= 0 -> strcmp b c <= 0 -> strcmp a c <= 0.
Proof.
  revert b c. induction a as [|x a IH]; intros [|y b] [|z c]; cbn [strcmp]; try lia;
    repeat match goal with b : byte |- _ => pose proof (b2z_range b); revert b end; intros;
    repeat match goal with
           | |- context [?a =? ?b] => destruct (Z.eqb_spec a b)
           | H : context [?a =? ?b] |- _ => destruct (Z.eqb_spec a b)
           end; try lia.
  by apply (IH b c).
Qed.
