(* ===== verification/CString.v ===== *)
(** * Text formatting used by the program: the conversions of [sprintf] it relies on,
      [strstr] and [strtok] on whole strings

    [sprintf(buf + len, ...)] writes the characters and a terminating zero; [emit] is one
    such call whose text is already put together, and returns the number of characters. *)
From S2P Require Import Prelude.

(** ** Definitions *)

Definition digit (d : Z) : byte := z2b (48 + d).

(** Decimal digits, most significant first; [fuel] digits are enough for numbers below
    [10 ^ fuel]. *)
Fixpoint utoa_fuel (fuel : nat) (n : Z) : list byte :=
  match fuel with
  | O => []
  | S f => if n <? 10 then [digit n] else utoa_fuel f (n / 10) ++ [digit (n mod 10)]
  end.
(** ["%u"], ["%lu"], ["%llu"]: 20 digits hold every 64-bit integer. *)
Definition utoa (n : Z) : list byte := utoa_fuel 20 n.
(** ["%d"]. *)
Definition itoa (n : Z) : list byte :=
  if n <? 0 then str "-" ++ utoa (- n) else utoa n.

Definition emit (buf : list byte) (len : Z) (piece : list byte) : res (list byte * Z) :=
  buf' ← wr buf len (piece ++ [x00]); Ok (buf', zlen piece).

(** [strstr] on strings given by their characters: the offset of the first match. *)
Fixpoint prefixb (p s : list byte) : bool :=
  match p, s with
  | [], _ => true
  | x :: p', y :: s' => (b2z x =? b2z y) && prefixb p' s'
  | _ :: _, [] => false
  end.
Fixpoint strstr (s p : list byte) : option Z :=
  if prefixb p s then Some 0
  else match s with
       | [] => None
       | _ :: s' => Z.succ <$> strstr s' p
       end.

(** The tokens successive calls of [strtok] return: the maximal runs of characters that
    are not delimiters, with the offset each starts at. *)
Definition is_delim (delims : list byte) (b : byte) : bool :=
  existsb (fun d => b2z d =? b2z b) delims.
Fixpoint strtok_all (delims s : list byte) (off : Z) (cur : option (Z * list byte))
    : list (Z * list byte) :=
  match s with
  | [] => match cur with Some t => [t] | None => [] end
  | b :: s' =>
    if is_delim delims b
    then match cur with
         | Some t => t :: strtok_all delims s' (off + 1) None
         | None => strtok_all delims s' (off + 1) None
         end
    else match cur with
         | Some (o, t) => strtok_all delims s' (off + 1) (Some (o, t ++ [b]))
         | None => strtok_all delims s' (off + 1) (Some (off, [b]))
         end
  end.
Definition strtok (delims s : list byte) : list (Z * list byte) :=
  strtok_all delims s 0 None.

(** The value of a string of decimal digits. *)
Definition atou (s : list byte) : Z :=
  fold_left (fun acc b => 10 * acc + (b2z b - 48)) s 0.

(** [sscanf(s, "%d", &v)]: [None] when nothing is converted; white space and one sign may
    come first, and the conversion ends at the first other character. *)
Definition is_digit (b : byte) : bool := (48 <=? b2z b) && (b2z b <=? 57).
Definition is_space (b : byte) : bool := (b2z b =? 32) || (9 <=? b2z b) && (b2z b <=? 13).
Fixpoint take_while (p : byte -> bool) (s : list byte) : list byte :=
  match s with
  | b :: s' => if p b then b :: take_while p s' else []
  | [] => []
  end.
Fixpoint drop_while (p : byte -> bool) (s : list byte) : list byte :=
  match s with
  | b :: s' => if p b then drop_while p s' else s
  | [] => []
  end.
Definition scan_digits (s : list byte) : option Z :=
  match take_while is_digit s with [] => None | ds => Some (atou ds) end.
Definition scan_d (s : list byte) : option Z :=
  match drop_while is_space s with
  | b :: s' =>
    if b2z b =? 45 then Z.opp <$> scan_digits s'
    else if b2z b =? 43 then scan_digits s'
    else scan_digits (b :: s')
  | [] => None
  end.

(** [sscanf(s, "%lu", &v)]: a value that does not fit is replaced by the greatest, a sign
    negates at the width. *)
Definition sat64 (n : Z) : Z := if 2 ^ 64 <=? n then 2 ^ 64 - 1 else n.
Definition scan_lu (s : list byte) : option Z :=
  match drop_while is_space s with
  | b :: s' =>
    if b2z b =? 45
    then (fun n => if 2 ^ 64 <=? n then 2 ^ 64 - 1 else wrap 64 (- n)) <$> scan_digits s'
    else if b2z b =? 43 then sat64 <$> scan_digits s'
    else sat64 <$> scan_digits (b :: s')
  | [] => None
  end.

(** ** Lemmas *)

Lemma utoa_fuel_length fuel n : zlen (utoa_fuel fuel n) <= Z.of_nat fuel.
Proof.
  revert n. induction fuel as [|f IH]; intros n; cbn [utoa_fuel]; [done|].
  destruct (n <? 10); [len|]. rewrite zlen_app. specialize (IH (n / 10)). len.
Qed.

Lemma utoa_length n : zlen (utoa n) <= 20.
Proof. apply utoa_fuel_length. Qed.

Lemma itoa_length n : zlen (itoa n) <= 21.
Proof.
  unfold itoa. destruct (n <? 0).
  - rewrite zlen_app. change (zlen (str "-")) with 1. pose proof (utoa_length (- n)). lia.
  - pose proof (utoa_length n). lia.
Qed.

Lemma atou_utoa_fuel fuel n :
  0 <= n < 10 ^ Z.of_nat fuel -> atou (utoa_fuel fuel n) = n.
Proof.
  unfold atou. revert n. induction fuel as [|f IH]; intros n Hn; cbn [utoa_fuel].
  - cbn in *. lia.
  - destruct (n <? 10) eqn:E; b2p.
    + cbn [fold_left]. unfold digit. rewrite b2z_z2b, Z.mod_small; lia.
    + rewrite fold_left_app, IH.
      * cbn [fold_left]. unfold digit.
        pose proof (Z.mod_pos_bound n 10 eq_refl).
        rewrite b2z_z2b, Z.mod_small by lia. pose proof (Z.div_mod n 10). lia.
      * rewrite Nat2Z.inj_succ, Z.pow_succ_r in Hn by lia.
        split; [apply Z.div_pos; lia|]. apply Z.div_lt_upper_bound; lia.
Qed.

Lemma atou_utoa n : 0 <= n < 2 ^ 64 -> atou (utoa n) = n.
Proof. intros H. apply atou_utoa_fuel. cbn in *. lia. Qed.

Lemma emit_ok buf len piece :
  0 <= len -> len + zlen piece < zlen buf ->
  exists buf', emit buf len piece = Ok (buf', zlen piece) /\ zlen buf' = zlen buf.
Proof.
  intros Hl Hb. unfold emit.
  rewrite wr_ok by (rewrite ?zlen_app; change (zlen [x00]) with 1; lia).
  eexists. split; [done|]. len.
Qed.

(** Every token lies in the string at its offset. *)
Lemma strtok_all_in delims p s off cur o t :
  off = zlen p ->
  match cur with
  | Some (oc, tc) => exists q, p = q ++ tc /\ oc = zlen q
  | None => True
  end ->
  (o, t) ∈ strtok_all delims s off cur ->
  exists q r, p ++ s = q ++ t ++ r /\ o = zlen q.
Proof.
  revert p off cur. induction s as [|b s IH]; intros p off cur Ho Hc Hin; cbn [strtok_all] in Hin.
  - destruct cur as [[oc tc]|]; [|by apply not_elem_of_nil in Hin].
    apply list_elem_of_singleton in Hin. injection Hin as -> ->.
    destruct Hc as (q & -> & ->). exists q, []. by rewrite !app_nil_r.
  - assert (Hp : off + 1 = zlen (p ++ [b])) by (rewrite zlen_app; change (zlen [b]) with 1; lia).
    assert (Hs : (p ++ [b]) ++ s = p ++ b :: s) by (by rewrite <- app_assoc).
    destruct (is_delim delims b); destruct cur as [[oc tc]|].
    + apply elem_of_cons in Hin as [[= -> ->]|Hin].
      * destruct Hc as (q & -> & ->). exists q, (b :: s). by rewrite <- app_assoc.
      * rewrite <- Hs. by apply (IH (p ++ [b]) (off + 1) None).
    + rewrite <- Hs. by apply (IH (p ++ [b]) (off + 1) None).
    + rewrite <- Hs. eapply (IH (p ++ [b]) (off + 1) (Some (oc, tc ++ [b]))); [done| |done].
      destruct Hc as (q & -> & ->). exists q. by rewrite <- app_assoc.
    + rewrite <- Hs. eapply (IH (p ++ [b]) (off + 1) (Some (off, [b]))); [done| |done].
      exists p. done.
Qed.

Lemma strtok_in delims s o t :
  (o, t) ∈ strtok delims s -> exists q r, s = q ++ t ++ r /\ o = zlen q.
Proof. intros H. by apply (strtok_all_in delims [] s 0 None o t) in H. Qed.

(** A token followed by a delimiter comes first. *)
Lemma strtok_token delims t d rest off :
  t <> [] -> Forall (fun b => is_delim delims b = false) t -> is_delim delims d = true ->
  strtok_all delims (t ++ d :: rest) off None
  = (off, t) :: strtok_all delims rest (off + zlen t + 1) None.
Proof.
  intros Hne Ht Hd. destruct t as [|b t]; [done|]. apply Forall_cons in Ht as [Hb Ht].
  cbn [app strtok_all]. rewrite Hb.
  enough (H : forall o c, strtok_all delims (t ++ d :: rest) o (Some (off, c))
              = (off, c ++ t) :: strtok_all delims rest (o + zlen t + 1) None).
  { rewrite H, zlen_cons. do 3 f_equal. lia. }
  clear Hne Hb. induction Ht as [|x t Hx _ IH]; intros o c; cbn [app strtok_all].
  - rewrite Hd, app_nil_r. change (zlen []) with 0. do 2 f_equal. lia.
  - rewrite Hx, IH, zlen_cons, <- app_assoc. cbn [app]. do 2 f_equal. lia.
Qed.

(** Printed numbers are digits, and are read back. *)
Lemma digit_is_digit d : 0 <= d < 10 -> is_digit (digit d) = true.
Proof.
  intros H. unfold is_digit, digit. rewrite b2z_z2b, Z.mod_small by lia.
  apply andb_true_iff. rewrite !Z.leb_le. lia.
Qed.

Lemma utoa_fuel_digits fuel n :
  0 <= n -> Forall (fun b => is_digit b = true) (utoa_fuel fuel n).
Proof.
  revert n. induction fuel as [|f IH]; intros n Hn; cbn [utoa_fuel]; [constructor|].
  destruct (n <? 10) eqn:E; b2p.
  - constructor; [|constructor]. apply digit_is_digit. lia.
  - apply Forall_app. split; [apply IH, Z.div_pos; lia|].
    constructor; [|constructor]. apply digit_is_digit, Z.mod_pos_bound. lia.
Qed.

Lemma utoa_ne n : utoa n <> [].
Proof.
  unfold utoa. cbn [utoa_fuel]. destruct (n <? 10); [done|].
  intros H. by apply app_eq_nil in H as [_ ?].
Qed.

Lemma take_while_all p s : Forall (fun b => p b = true) s -> take_while p s = s.
Proof. induction 1 as [|b s Hb _ IH]; cbn; [done|]. by rewrite Hb, IH. Qed.

Lemma scan_d_itoa n : 0 <= n < 2 ^ 64 -> scan_d (itoa n) = Some n.
Proof.
  intros Hn. unfold itoa. replace (n <? 0) with false by (symmetry; apply Z.ltb_ge; lia).
  pose proof (utoa_fuel_digits 20 n (proj1 Hn)) as Hd. fold (utoa n) in Hd.
  assert (Hs : scan_digits (utoa n) = Some n).
  { unfold scan_digits. rewrite take_while_all by done. pose proof (utoa_ne n).
    destruct (utoa n) eqn:E; [done|]. f_equal. rewrite <- E. by apply atou_utoa. }
  pose proof (utoa_ne n). unfold scan_d. destruct (utoa n) as [|b s] eqn:E; [done|].
  apply Forall_cons in Hd as [Hb _]. unfold is_digit in Hb. b2p.
  cbn [drop_while]. unfold is_space. decide_cmp.
  replace (b2z b <=? 13) with false by (symmetry; apply Z.leb_gt; lia).
  rewrite andb_false_r. cbn [orb]. by decide_cmp.
Qed.

Lemma digit_nonspace b : is_digit b = true -> is_space b = false.
Proof.
  unfold is_digit, is_space. intros. b2p. decide_cmp.
  replace (b2z b <=? 13) with false by (symmetry; apply Z.leb_gt; lia).
  by rewrite andb_false_r.
Qed.

Lemma take_while_stop p a b s :
  Forall (fun x => p x = true) a -> p b = false -> take_while p (a ++ b :: s) = a.
Proof. intros Ha Hb. induction Ha as [|x a Hx _ IH]; cbn; [by rewrite Hb|]. by rewrite Hx, IH. Qed.
Lemma drop_while_stop p a b s :
  Forall (fun x => p x = true) a -> p b = false -> drop_while p (a ++ b :: s) = b :: s.
Proof. intros Ha Hb. induction Ha as [|x a Hx _ IH]; cbn; [by rewrite Hb|]. by rewrite Hx, IH. Qed.


(** A number is read back in front of anything that is not a digit. *)
Lemma utoa_digits n : 0 <= n -> Forall (fun b => is_digit b = true) (utoa n).
Proof. apply utoa_fuel_digits. Qed.

Lemma scan_digits_utoa n rest :
  0 <= n < 10 ^ 20 -> (forall b s, rest = b :: s -> is_digit b = false) ->
  scan_digits (utoa n ++ rest) = Some n.
Proof.
  intros Hn Hr. pose proof (utoa_digits n (proj1 Hn)) as Hd. unfold scan_digits.
  assert (Ht : take_while is_digit (utoa n ++ rest) = utoa n).
  { destruct rest as [|b s]; [rewrite app_nil_r; by apply take_while_all|].
    apply take_while_stop; [done|by eapply Hr]. }
  rewrite Ht. pose proof (utoa_ne n). destruct (utoa n) eqn:E; [done|].
  rewrite <- E. f_equal. by apply atou_utoa_fuel.
Qed.

Lemma scan_lu_utoa n rest :
  0 <= n < 2 ^ 64 -> (forall b s, rest = b :: s -> is_digit b = false) ->
  scan_lu (utoa n ++ rest) = Some n.
Proof.
  intros Hn Hr. assert (Hs := scan_digits_utoa n rest ltac:(lia) Hr).
  pose proof (utoa_digits n (proj1 Hn)) as Hd. pose proof (utoa_ne n). unfold scan_lu.
  destruct (utoa n) as [|b s] eqn:E; [done|]. apply Forall_cons in Hd as [Hb _].
  cbn [app drop_while] in *. rewrite digit_nonspace by done.
  assert (Hb' := Hb). unfold is_digit in Hb'. b2p. decide_cmp. rewrite Hs. cbn. unfold sat64.
  by decide_cmp.
Qed.
