(* ===== verification/ByteOrder.v ===== *)
(** * Integers in byte arrays: [uint64_2_arr] and its five companions of
      src/notify.system/msg_notify.c

    The six C functions share two loops, [store_loop] and [load_loop]; each function
    is the loop at its integer widths.  The pointer arguments may be null, which is
    [None]; every function returns the constant 0, which is left out. *)
From S2P Require Import Prelude.

(** ** The functions *)

(** [for(i = 0; i < sz; ++i) arr[i] = (n >> (i*8)) & 0xFF;] where the promoted type
    of [n] has [w] bits; [k] iterations are left. *)
Fixpoint store_loop (w n : Z) (arr : list byte) (i : Z) (k : nat) : res (list byte) :=
  match k with
  | O => Ok arr
  | S k' =>
    if w <=? i * 8 then Fault BadShift
    else arr' ← wr arr i [z2b (Z.land (Z.shiftr n (i * 8)) 255)];
         store_loop w n arr' (i + 1) k'
  end.

(** [for(i = 0; i < sz; ++i) { t = arr[i]; *n |= (t << (i*8)); }] where [t] has [tw]
    bits and [*n] has [w] bits. *)
Fixpoint load_loop (w tw : Z) (arr : list byte) (acc i : Z) (k : nat) : res Z :=
  match k with
  | O => Ok acc
  | S k' =>
    b ← rd1 arr i;
    if tw <=? i * 8 then Fault BadShift
    else load_loop w tw arr (wrap w (Z.lor acc (wrap tw (Z.shiftl (b2z b) (i * 8)))))
           (i + 1) k'
  end.

Definition store_int (nw w : Z) (arr : option (list byte)) (n sz : Z)
    : res (option (list byte)) :=
  match arr with
  | None => Ok None
  | Some a => a' ← store_loop w (wrap nw n) a 0 (Z.to_nat sz); Ok (Some a')
  end.
Definition load_int (w tw : Z) (arr : option (list byte)) (n : option Z) (sz : Z)
    : res (option Z) :=
  match arr, n with
  | Some a, Some _ => v ← load_loop w tw a 0 0 (Z.to_nat sz); Ok (Some v)
  | _, _ => Ok n
  end.

Definition uint64_2_arr (arr : option (list byte)) (n sz : Z) := store_int 64 64 arr n sz.
Definition arr_2_uint64 (arr : option (list byte)) (n : option Z) (sz : Z) :=
  load_int 64 64 arr n sz.
Definition uint32_2_arr (arr : option (list byte)) (n sz : Z) := store_int 32 32 arr n sz.
Definition arr_2_uint32 (arr : option (list byte)) (n : option Z) (sz : Z) :=
  load_int 32 32 arr n sz.
(** A [uint16_t] is promoted to the 32-bit [int] before the shift, and [t] is a
    [uint32_t] here too. *)
Definition uint16_2_arr (arr : option (list byte)) (n sz : Z) := store_int 16 32 arr n sz.
Definition arr_2_uint16 (arr : option (list byte)) (n : option Z) (sz : Z) :=
  load_int 16 32 arr n sz.

(** ** The loops against the reference encoding *)

Lemma low_byte n i : 0 <= i -> z2b (Z.land (Z.shiftr n (i * 8)) 255) = z2b (n / 256 ^ i).
Proof.
  intros Hi. change 255 with (Z.ones 8). rewrite Z.land_ones by lia.
  change (2 ^ 8) with 256. rewrite z2b_mod, Z.shiftr_div_pow2 by lia.
  rewrite (Z.mul_comm i), Z.pow_mul_r by lia. done.
Qed.

Lemma store_loop_spec w n k arr i :
  0 <= i -> i + Z.of_nat k <= zlen arr -> k = O \/ (i + Z.of_nat k - 1) * 8 < w ->
  store_loop w n arr i k =
  Ok (take (Z.to_nat i) arr ++ le_bytes k (n / 256 ^ i) ++ drop (Z.to_nat i + k) arr).
Proof.
  revert arr i. induction k as [|k IH]; intros arr i Hi Hlen Hw; cbn [store_loop].
  - simpl. by rewrite Nat.add_0_r, take_drop.
  - decide_cmp. rewrite low_byte by done.
    rewrite wr_ok by len. cbn [mbind res_bind].
    assert (Hl : (Z.to_nat i < length arr)%nat) by (unfold zlen in Hlen; lia).
    rewrite IH; [|lia| |lia].
    + f_equal. replace (Z.to_nat (i + 1)) with (S (Z.to_nat i)) by lia.
      rewrite take_app_ge; rewrite length_take, Nat.min_l by lia; [|lia].
      replace (S (Z.to_nat i) - Z.to_nat i)%nat with 1%nat by lia.
      rewrite <- app_assoc. f_equal. cbn [le_bytes app take]. rewrite take_0.
      cbn [app]. f_equal. f_equal.
      * by rewrite Z.pow_add_r, Z.pow_1_r, Zdiv.Zdiv_Zdiv by lia.
      * rewrite drop_app_ge; rewrite length_take, Nat.min_l by lia; [|lia].
        replace (S (Z.to_nat i) + k - Z.to_nat i)%nat with (S k) by lia.
        cbn [drop length]. rewrite drop_drop. f_equal. lia.
    + len.
Qed.

Lemma lor_shiftl_add a b i : 0 <= i -> 0 <= a < 2 ^ i -> 0 <= b ->
  Z.lor a (Z.shiftl b i) = a + b * 2 ^ i.
Proof.
  intros Hi Ha Hb. rewrite <- Z.shiftl_mul_pow2 by lia.
  rewrite <- Z.lxor_lor, <- Z.add_nocarry_lxor; auto.
  all: apply Z.bits_inj'; intros j Hj; rewrite Z.land_spec, Z.bits_0.
  all: destruct (Z.lt_ge_cases j i) as [Hlt|Hge].
  1, 3: rewrite (Z.shiftl_spec_low b) by lia; apply andb_false_r.
  all: rewrite <- (Z.mod_small a (2 ^ i)), Z.mod_pow2_bits_high by lia; done.
Qed.

Lemma load_loop_spec w tw k arr acc i s :
  0 <= i -> rd arr i (Z.of_nat k) = Ok s -> 0 <= acc < 2 ^ (i * 8) ->
  (i + Z.of_nat k) * 8 <= tw -> w <= tw ->
  (i + Z.of_nat k) * 8 <= w ->
  load_loop w tw arr acc i k = Ok (acc + le_val s * 2 ^ (i * 8)).
Proof.
  revert arr acc i s. induction k as [|k IH]; intros arr acc i s Hi Hrd Hacc Htw Hw1 Hw;
    cbn [load_loop].
  - apply rd_inv in Hrd as (_ & _ & _ & _ & ->). rewrite Nat2Z.id, take_0. cbn. f_equal. lia.
  - rewrite Nat2Z.inj_succ, <- Z.add_1_l, rd_split in Hrd by lia.
    destruct (rd arr i 1) as [h|] eqn:E; [cbn in Hrd|done].
    destruct (rd arr (i + 1) (Z.of_nat k)) as [s'|] eqn:E2; [cbn in Hrd|done].
    injection Hrd as <-. apply rd_inv in E as E'. destruct E' as (_ & _ & _ & Hl & _).
    destruct h as [|b [|]]; [done| |len].
    apply rd1_rd in E. rewrite E. cbn [mbind res_bind]. decide_cmp.
    pose proof (b2z_range b) as Hb.
    assert (Hpow : 2 ^ ((i + 1) * 8) = 2 ^ (i * 8) * 256)
      by (rewrite Z.mul_add_distr_r, Z.pow_add_r by lia; done).
    assert (Hple : 2 ^ ((i + 1) * 8) <= 2 ^ w) by (apply Z.pow_le_mono_r; lia).
    assert (Hplet : 2 ^ w <= 2 ^ tw) by (apply Z.pow_le_mono_r; lia).
    assert (Hpos : 0 < 2 ^ (i * 8)) by (apply Z.pow_pos_nonneg; lia).
    unfold wrap.
    assert (Hsh : 0 <= Z.shiftl (b2z b) (i * 8) < 2 ^ ((i + 1) * 8)).
    { rewrite Z.shiftl_mul_pow2 by lia. nia. }
    rewrite (Z.mod_small _ (2 ^ tw)), lor_shiftl_add by lia.
    rewrite Z.mod_small by nia.
    rewrite (IH arr _ _ s'); [|lia|done|nia|lia|lia|lia].
    f_equal. cbn [app le_val]. rewrite Hpow. lia.
Qed.

Lemma store_int_spec nw w arr n sz :
  0 <= sz <= zlen arr -> sz * 8 <= w ->
  store_int nw w (Some arr) n sz =
  Ok (Some (le_bytes (Z.to_nat sz) (wrap nw n) ++ drop (Z.to_nat sz) arr)).
Proof.
  intros Hsz Hw. unfold store_int. rewrite store_loop_spec by lia.
  cbn. by rewrite Z.div_1_r.
Qed.

Lemma load_int_spec w tw arr n0 sz s :
  rd arr 0 sz = Ok s -> sz * 8 <= w -> w <= tw ->
  load_int w tw (Some arr) (Some n0) sz = Ok (Some (le_val s)).
Proof.
  intros Hrd Hw Htw. unfold load_int. apply rd_inv in Hrd as H'.
  rewrite (load_loop_spec w tw _ _ 0 0 s); rewrite ?Z2Nat.id; try lia; [|done].
  cbn. do 2 f_equal. lia.
Qed.

Lemma store_load nw w w' tw' arr n sz n0 :
  0 <= sz <= zlen arr -> sz * 8 <= nw -> sz * 8 <= w -> sz * 8 <= w' -> w' <= tw' ->
  exists arr', store_int nw w (Some arr) n sz = Ok (Some arr') /\
  zlen arr' = zlen arr /\ drop (Z.to_nat sz) arr' = drop (Z.to_nat sz) arr /\
  load_int w' tw' (Some arr') (Some n0) sz = Ok (Some (n mod 2 ^ (8 * sz))).
Proof.
  intros Hsz Hnw Hw Hw' Htw. rewrite store_int_spec by lia.
  eexists. split; [done|]. split; [|split].
  - len.
  - rewrite drop_app_ge; rewrite length_le_bytes; [|lia]. by rewrite Nat.sub_diag.
  - erewrite load_int_spec; [| |lia|lia].
    2: { rewrite rd_ok; [reflexivity|lia..|len]. }
    do 2 f_equal. rewrite drop_0, take_app_le by (by rewrite length_le_bytes).
    rewrite take_ge by (by rewrite length_le_bytes).
    rewrite le_val_le_bytes, Z2Nat.id by lia. unfold wrap.
    change 256 with (2 ^ 8). rewrite <- Z.pow_mul_r by lia.
    rewrite Z.mod_mod_divide; [done|].
    exists (2 ^ (nw - 8 * sz)). rewrite <- Z.pow_add_r by lia. f_equal. lia.
Qed.

(** ** Properties *)

(** writing an unsigned 64-, 32- or 16-bit integer to an array with
    [uint64_2_arr], [uint32_2_arr] or [uint16_2_arr] and reading the same number of bytes
    back with [arr_2_uint64], [arr_2_uint32] or [arr_2_uint16] yields the integer modulo
    two to the number of bits written; the write succeeds whenever the array has that many
    bytes, and changes no byte past them. *)
Theorem uint_arr_roundtrip arr n n0 sz :
  0 <= sz <= zlen arr ->
  (sz <= 8 -> exists arr',
     uint64_2_arr (Some arr) n sz = Ok (Some arr') /\
     zlen arr' = zlen arr /\ drop (Z.to_nat sz) arr' = drop (Z.to_nat sz) arr /\
     arr_2_uint64 (Some arr') (Some n0) sz = Ok (Some (n mod 2 ^ (8 * sz)))) /\
  (sz <= 4 -> exists arr',
     uint32_2_arr (Some arr) n sz = Ok (Some arr') /\
     zlen arr' = zlen arr /\ drop (Z.to_nat sz) arr' = drop (Z.to_nat sz) arr /\
     arr_2_uint32 (Some arr') (Some n0) sz = Ok (Some (n mod 2 ^ (8 * sz)))) /\
  (sz <= 2 -> exists arr',
     uint16_2_arr (Some arr) n sz = Ok (Some arr') /\
     zlen arr' = zlen arr /\ drop (Z.to_nat sz) arr' = drop (Z.to_nat sz) arr /\
     arr_2_uint16 (Some arr') (Some n0) sz = Ok (Some (n mod 2 ^ (8 * sz)))).
Proof.
  intros Hlen. unfold uint64_2_arr, uint32_2_arr, uint16_2_arr,
    arr_2_uint64, arr_2_uint32, arr_2_uint16.
  split; [|split]; intros Hsz; apply store_load; lia.
Qed.

Lemma uint_arr_roundtrip_witness :
  exists arr', uint64_2_arr (Some (zeros 8)) 0x112233446677 8 = Ok (Some arr') /\
  arr_2_uint64 (Some arr') (Some 0) 8 = Ok (Some 0x112233446677).
Proof.
  destruct (uint_arr_roundtrip (zeros 8) 0x112233446677 0 8) as [H _].
  - vm_compute. split; discriminate.
  - destruct H as (a & H1 & _ & _ & H2); [discriminate|]. exists a. split; assumption.
Defined.
