(* ===== verification/Message.v ===== *)
(** * Messages of the notification service: layout, identifiers, logging

    Models the constants, enumerations and [MSG_COMMON] of
    src/notify.system/msg_notify.h and [hash_func], [put_time_to_msg] and [dum_msg] of
    src/notify.system/msg_notify.c.  A message is the object it lies in, a list of bytes
    with the message at offset 0, because the program casts its buffers to [MSG_COMMON]
    and [MSG_DATA] and writes into them by offset; [MSG_COMMON] is the decoded header. *)
From S2P Require Import Prelude CString ByteOrder.

(** ** Constants and enumerations *)

Definition LEN_DEVID : Z := 40.
Definition LEN_U64INT : Z := 8.
Definition LEN_U16INT : Z := 2.
Definition MAX_MSG : Z := 1200.
Definition AES_BYTES : Z := 32.
Definition AES_IV_BYTES : Z := 16.   (* AES_BLOCK_SIZE of OpenSSL *)
Definition HASH_SIZE : Z := 10001.
Definition MIN (a b : Z) : Z := if a >? b then b else a.

Inductive MSG_ENUM := MSG_REG | MSG_TRA | MSG_NTF | MSG_CNF | MSG_GET_AES.
Inductive MSG_ROUTE :=
| G_NTF_CLI | F_NTF_CLI | G_CLI_NTF | F_CLI_NTF | G_CLI_SRV | F_SRV_CLI | G_NTF_SRV
| F_SRV_NTF.
Inductive RSA_AES := ENCRYPT_NON | ENCRYPT_SRV_PUB | ENCRYPT_CLI_PUB | ENCRYPT_AES.

Definition msg_enum (t : MSG_ENUM) : byte :=
  match t with
  | MSG_REG => x00 | MSG_TRA => x01 | MSG_NTF => x02 | MSG_CNF => x03 | MSG_GET_AES => x04
  end.
Definition msg_route (r : MSG_ROUTE) : byte :=
  match r with
  | G_NTF_CLI => x00 | F_NTF_CLI => x01 | G_CLI_NTF => x02 | F_CLI_NTF => x03
  | G_CLI_SRV => x04 | F_SRV_CLI => x05 | G_NTF_SRV => x06 | F_SRV_NTF => x07
  end.
Definition rsa_aes (e : RSA_AES) : byte :=
  match e with
  | ENCRYPT_NON => x00 | ENCRYPT_SRV_PUB => x01 | ENCRYPT_CLI_PUB => x02
  | ENCRYPT_AES => x03
  end.

#[global] Instance msg_enum_eq_dec : EqDecision MSG_ENUM.
Proof. solve_decision. Defined.
#[global] Instance msg_route_eq_dec : EqDecision MSG_ROUTE.
Proof. solve_decision. Defined.

Definition is_type (b : byte) (t : MSG_ENUM) : bool := b2z b =? b2z (msg_enum t).
Definition is_route (b : byte) (r : MSG_ROUTE) : bool := b2z b =? b2z (msg_route r).
Definition is_enc (b : byte) (e : RSA_AES) : bool := b2z b =? b2z (rsa_aes e).

(** ** The header *)

Record MSG_COMMON := {
  com_type : byte;
  com_ifroute : byte;
  com_dev_id : list byte;    (* char[LEN_DEVID] *)
  com_ntf_id : list byte;    (* char[LEN_DEVID] *)
  com_second : list byte;    (* unsigned char[LEN_U64INT] *)
  com_nano : list byte;      (* unsigned char[LEN_U64INT] *)
  com_len : list byte        (* unsigned char[LEN_U16INT] *)
}.

(** Offsets of the members; every member is a character array, so there is no padding. *)
Definition off_type : Z := 0.
Definition off_ifroute : Z := 1.
Definition off_dev_id : Z := 2.
Definition off_ntf_id : Z := 42.
Definition off_second : Z := 82.
Definition off_nano : Z := 90.
Definition off_len : Z := 98.
(** [sizeof(MSG_COMMON)], also the offset of [MSG_DATA.data]. *)
Definition SZ_COM : Z := 100.

Definition com_bytes (c : MSG_COMMON) : list byte :=
  [com_type c; com_ifroute c] ++ com_dev_id c ++ com_ntf_id c ++ com_second c ++
  com_nano c ++ com_len c.

Definition com_wf (c : MSG_COMMON) : Prop :=
  zlen (com_dev_id c) = LEN_DEVID /\ zlen (com_ntf_id c) = LEN_DEVID /\
  zlen (com_second c) = LEN_U64INT /\ zlen (com_nano c) = LEN_U64INT /\
  zlen (com_len c) = LEN_U16INT.

Definition com_at (m : list byte) : res MSG_COMMON :=
  t ← rd1 m off_type;
  r ← rd1 m off_ifroute;
  d ← rd m off_dev_id LEN_DEVID;
  n ← rd m off_ntf_id LEN_DEVID;
  s ← rd m off_second LEN_U64INT;
  a ← rd m off_nano LEN_U64INT;
  l ← rd m off_len LEN_U16INT;
  Ok {| com_type := t; com_ifroute := r; com_dev_id := d; com_ntf_id := n;
        com_second := s; com_nano := a; com_len := l |}.

(** ** Member updates through the byte-order functions *)

(** [uint64_2_arr(msg->member, v, LEN_U64INT)] on the member at [off]. *)
Definition put_u64 (m : list byte) (off v : Z) : res (list byte) :=
  a ← rd m off LEN_U64INT;
  a' ← uint64_2_arr (Some a) v LEN_U64INT;
  match a' with Some a' => wr m off a' | None => Ok m end.
Definition put_u16 (m : list byte) (off v : Z) : res (list byte) :=
  a ← rd m off LEN_U16INT;
  a' ← uint16_2_arr (Some a) v LEN_U16INT;
  match a' with Some a' => wr m off a' | None => Ok m end.
Definition get_u16 (m : list byte) (off : Z) : res Z :=
  a ← rd m off LEN_U16INT;
  v ← arr_2_uint16 (Some a) (Some 0) LEN_U16INT;
  Ok (default 0 v).
Definition get_u64 (m : list byte) (off : Z) : res Z :=
  a ← rd m off LEN_U64INT;
  v ← arr_2_uint64 (Some a) (Some 0) LEN_U64INT;
  Ok (default 0 v).

Record timespec := { tv_sec : Z; tv_nsec : Z }.

Definition put_time_to_msg (msg : option (list byte)) (t : option timespec)
    : res (option (list byte)) :=
  match t with
  | None => Ok msg
  | Some t =>
    match msg with
    | None => Ok None
    | Some m =>
      m1 ← wr m off_second (zeros LEN_U64INT);
      m2 ← wr m1 off_nano (zeros LEN_U64INT);
      m3 ← put_u64 m2 off_second (tv_sec t);
      m4 ← put_u64 m3 off_nano (tv_nsec t);
      Ok (Some m4)
    end
  end.

(** ** The hash of an identifier *)

(** [k] after [j] rounds of [k *= 71; k %= HASH_SIZE]. *)
Fixpoint hash_pow (j : nat) : Z :=
  match j with
  | O => 1
  | S j' => wrap 64 (hash_pow j' * 71) mod HASH_SIZE
  end.

(** [id[i]] is a signed [char], converted to [unsigned long long] by the product. *)
Definition hash_term (b : byte) (i : nat) : Z :=
  wrap 64 (wrap 64 (schar b) * hash_pow i) mod HASH_SIZE.

Fixpoint hash_loop (m : list byte) (off : Z) (i k : nat) (acc : Z) : res Z :=
  match k with
  | O => Ok acc
  | S k' =>
    b ← rd1 m (off + Z.of_nat i);
    hash_loop m off (S i) k' (wrap 32 (acc + hash_term b i))
  end.

(** [hash_func(id, n)] for the identifier at offset [off] of the object [m]. *)
Definition hash_func (m : list byte) (off n : Z) : res Z :=
  s ← hash_loop m off 0 (Z.to_nat n) 0; Ok (s mod HASH_SIZE).

(** [len = MIN(MAX_MSG, strlen(id)); hash_func(id, len)] *)
Definition hash_id (m : list byte) (off : Z) : res Z :=
  l ← strlen_at m off; hash_func m off (MIN MAX_MSG l).

(** ** The log line of a message *)

Definition dum_text : list (list byte) :=
  [str "Register"; str "Trace"; str "Notify"; str "Confirm"; str ""].
Definition dum_ifr : list (list byte) :=
  [str "From a notifier to server"; str "The server forwards to client";
   str "From the server feedback to a notifier";
   str " From a client to the server in order to confirm";
   str "From the notifier feedback to the server to confirm and clean the list"; str ""].

Definition nth_text (a : list (list byte)) (b : byte) : res (list byte) :=
  match a !! Z.to_nat (b2z b) with Some s => Ok s | None => Fault OobRead end.

(** A [short] read back as the [int] that ["%d"] prints. *)
Definition as_short (v : Z) : Z := if 32768 <=? v then v - 65536 else v.

(** [buf[2048]]: the whole log line is put together there. *)
Definition DUM_BUF : Z := 2048.

Definition dum_msg (item : option (list byte)) (f fu : list byte) (line : Z)
    : res (list byte) :=
  let buf := zeros DUM_BUF in
  match item with
  | None => Ok buf
  | Some m =>
    type ← rd1 m off_type;
    ifro ← rd1 m off_ifroute;
    tx ← nth_text dum_text type;
    '(buf, n0) ← emit buf 0 (str "------File: " ++ f ++ str ", Func: " ++ fu ++
        str " line: " ++ itoa line ++ str " -------- Type of message: " ++ tx ++ str ". ");
    dev ← cstr_at m off_dev_id;
    '(buf, n1) ← emit buf n0 (str "------Device ID: " ++ dev ++ str ". ");
    ntf ← cstr_at m off_ntf_id;
    '(buf, n2) ← emit buf (n0 + n1) (str "------Notifier ID: " ++ ntf ++ str ". ");
    let sz := MIN MAX_MSG (zlen dev) in
    h1 ← hash_func m off_dev_id sz;
    '(buf, n3) ← emit buf (n0 + n1 + n2)
        (str "-------- Hash number device id: " ++ utoa h1 ++ str ". ");
    h2 ← hash_func m off_ntf_id sz;
    '(buf, n4) ← emit buf (n0 + n1 + n2 + n3)
        (str "-------- Hash number notifier id: " ++ utoa h2 ++ str ". ");
    ix ← nth_text dum_ifr ifro;
    '(buf, n5) ← emit buf (n0 + n1 + n2 + n3 + n4)
        (str "-------- ifroute: " ++ ix ++ str ". ");
    ldta ← get_u16 m off_len;
    '(buf, n6) ← emit buf (n0 + n1 + n2 + n3 + n4 + n5)
        (str "-------- Len data: " ++ itoa (as_short ldta) ++ str ". ");
    sec ← get_u64 m off_second;
    nsec ← get_u64 m off_nano;
    '(buf, _) ← emit buf (n0 + n1 + n2 + n3 + n4 + n5 + n6)
        (str "-------- (sec, nano) = (" ++ utoa sec ++ str ", " ++ utoa nsec ++ str ")");
    Ok buf
  end.

(** ** Lemmas: the hash *)

(** The polynomial the identifier is the coefficients of. *)
Fixpoint hash_poly (s : list byte) : Z :=
  match s with
  | [] => 0
  | b :: s' => b2z b + 71 * hash_poly s'
  end.
Definition ascii (s : list byte) : Prop := Forall (fun b => b2z b < 128) s.

Lemma hash_pow_spec j : hash_pow j = 71 ^ Z.of_nat j mod HASH_SIZE.
Proof.
  induction j as [|j IH]; [done|]. cbn [hash_pow].
  pose proof (Z.mod_pos_bound (71 ^ Z.of_nat j) HASH_SIZE eq_refl).
  rewrite IH, Nat2Z.inj_succ, Z.pow_succ_r by lia. unfold wrap, HASH_SIZE in *.
  rewrite (Z.mod_small _ (2 ^ 64)) by lia.
  by rewrite Z.mul_comm, Zmult_mod_idemp_r.
Qed.

Lemma hash_term_range b i : 0 <= hash_term b i < HASH_SIZE.
Proof. by apply Z.mod_pos_bound. Qed.

Lemma hash_term_ascii b i :
  b2z b < 128 -> hash_term b i = (b2z b * 71 ^ Z.of_nat i) mod HASH_SIZE.
Proof.
  intros Hb. pose proof (b2z_range b). unfold hash_term, schar. decide_cmp.
  rewrite hash_pow_spec. pose proof (Z.mod_pos_bound (71 ^ Z.of_nat i) HASH_SIZE eq_refl).
  unfold wrap, HASH_SIZE in *. rewrite (Z.mod_small (b2z b)) by lia.
  rewrite (Z.mod_small _ (2 ^ 64)) by nia. by rewrite Zmult_mod_idemp_r.
Qed.

Lemma hash_loop_spec m off k i acc s :
  0 <= off -> rd m (off + Z.of_nat i) (Z.of_nat k) = Ok s ->
  0 <= acc -> acc + Z.of_nat k * HASH_SIZE < 2 ^ 32 ->
  exists v, hash_loop m off i k acc = Ok v /\ 0 <= v /\
    (ascii s -> v mod HASH_SIZE = (acc + 71 ^ Z.of_nat i * hash_poly s) mod HASH_SIZE).
Proof.
  unfold HASH_SIZE. intros Hoff. revert i acc s.
  induction k as [|k IH]; intros i acc s Hrd Hacc Hb; cbn [hash_loop].
  - apply rd_take_drop in Hrd as ->. rewrite take_0. exists acc. split; [done|].
    split; [done|]. intros _. cbn [hash_poly]. f_equal. lia.
  - rewrite Nat2Z.inj_succ, <- Z.add_1_l, rd_split in Hrd by lia. case_res. subst s.
    pose proof (rd_inv _ _ _ _ E) as (_ & _ & _ & Hl & _).
    destruct a as [|b [|]]; [done| |len].
    apply rd1_rd in E. rewrite E. cbn [mbind res_bind].
    pose proof (hash_term_range b i) as Ht. unfold HASH_SIZE in Ht.
    assert (Hw : wrap 32 (acc + hash_term b i) = acc + hash_term b i)
      by (unfold wrap; apply Z.mod_small; lia).
    rewrite Hw. destruct (IH (S i) (acc + hash_term b i) a0) as (v & Hv & Hv0 & Hm).
    + rewrite <- E0. f_equal. lia.
    + lia.
    + lia.
    + exists v. split; [done|]. split; [done|]. intros Ha. inversion Ha; subst.
      rewrite Hm, hash_term_ascii by done. unfold HASH_SIZE.
      cbn [app hash_poly]. rewrite Nat2Z.inj_succ, Z.pow_succ_r by lia.
      rewrite <- (Z.add_mod_idemp_l (acc + _)), Z.add_mod_idemp_r, Z.add_mod_idemp_l by lia.
      f_equal. lia.
Qed.

Lemma hash_func_spec m off n s :
  0 <= off -> rd m off n = Ok s -> n <= MAX_MSG ->
  exists h, hash_func m off n = Ok h /\ 0 <= h < HASH_SIZE /\
    (ascii s -> h = hash_poly s mod HASH_SIZE).
Proof.
  intros Hoff Hrd Hn. pose proof (rd_inv _ _ _ _ Hrd) as (_ & Hn0 & _).
  unfold MAX_MSG in Hn. unfold hash_func.
  destruct (hash_loop_spec m off (Z.to_nat n) 0 0 s) as (v & -> & Hv & Hm).
  - done.
  - by rewrite Z.add_0_r, Z2Nat.id.
  - done.
  - unfold HASH_SIZE. lia.
  - eexists. split; [done|]. split; [by apply Z.mod_pos_bound|].
    intros Ha. rewrite Hm by done. f_equal. cbn [Z.of_nat]. lia.
Qed.

Lemma MIN_spec a b : MIN a b = Z.min a b.
Proof. unfold MIN. rewrite Z.gtb_ltb. destruct (b <? a) eqn:E; b2p; lia. Qed.

(** What the hash of an identifier is, and that it is always an index of the table. *)
Lemma hash_id_poly m off s :
  cstr_at m off = Ok s ->
  exists h, hash_id m off = Ok h /\ 0 <= h < HASH_SIZE /\
    (ascii s -> h = hash_poly (take (Z.to_nat MAX_MSG) s) mod HASH_SIZE).
Proof.
  intros Hs. pose proof (cstr_at_inv _ _ _ Hs) as (H0 & H1 & H2 & _).
  unfold hash_id, strlen_at. rewrite Hs. cbn [fmap res_fmap mbind res_bind].
  rewrite MIN_spec. pose proof (zlen_nonneg s).
  destruct (hash_func_spec m off (Z.min MAX_MSG (zlen s)) (take (Z.to_nat MAX_MSG) s))
    as (h & Hh & Hr & Hp).
  - done.
  - rewrite rd_ok by (unfold MAX_MSG; lia). f_equal. apply rd_take_drop in H2.
    rewrite H2 at 2. rewrite take_take. f_equal. unfold MAX_MSG, zlen in *. lia.
  - lia.
  - exists h. split; [done|]. split; [done|]. intros Ha. apply Hp. by apply Forall_take.
Qed.

(** The hash as a function of the characters alone. *)
Fixpoint hash_sum (s : list byte) (i : nat) (acc : Z) : Z :=
  match s with
  | [] => acc
  | b :: s' => hash_sum s' (S i) (wrap 32 (acc + hash_term b i))
  end.
Definition id_hash (s : list byte) : Z :=
  hash_sum (take (Z.to_nat MAX_MSG) s) 0 0 mod HASH_SIZE.

Lemma hash_loop_sum m off k i acc s :
  rd m (off + Z.of_nat i) (Z.of_nat k) = Ok s ->
  hash_loop m off i k acc = Ok (hash_sum s i acc).
Proof.
  revert i acc s. induction k as [|k IH]; intros i acc s Hrd; cbn [hash_loop].
  - apply rd_take_drop in Hrd as ->. by rewrite take_0.
  - rewrite Nat2Z.inj_succ, <- Z.add_1_l, rd_split in Hrd by lia. case_res. subst s.
    pose proof (rd_inv _ _ _ _ E) as (_ & _ & _ & Hl & _).
    destruct a as [|b [|]]; [done| |len].
    apply rd1_rd in E. rewrite E. cbn [mbind res_bind app hash_sum]. apply IH.
    rewrite <- E0. f_equal. lia.
Qed.

Lemma hash_id_chars m off s : cstr_at m off = Ok s -> hash_id m off = Ok (id_hash s).
Proof.
  intros Hs. pose proof (cstr_at_inv _ _ _ Hs) as (H0 & H1 & H2 & _).
  unfold hash_id, strlen_at, hash_func. rewrite Hs. cbn [fmap res_fmap mbind res_bind].
  rewrite MIN_spec. pose proof (zlen_nonneg s).
  rewrite (hash_loop_sum _ _ _ _ _ (take (Z.to_nat MAX_MSG) s)); [done|].
  rewrite Z.add_0_r, Z2Nat.id, rd_ok by (unfold MAX_MSG; lia). f_equal.
  apply rd_take_drop in H2. rewrite H2 at 2. rewrite take_take. f_equal.
  unfold MAX_MSG, zlen in *. lia.
Qed.

Lemma id_hash_range s : 0 <= id_hash s < HASH_SIZE.
Proof. by apply Z.mod_pos_bound. Qed.

(** ** Lemmas: the layout *)

Lemma com_bytes_length c : com_wf c -> zlen (com_bytes c) = SZ_COM.
Proof.
  intros (H1 & H2 & H3 & H4 & H5). unfold com_bytes.
  rewrite !zlen_app, H1, H2, H3, H4, H5. done.
Qed.

Lemma com_at_bytes c rest : com_wf c -> com_at (com_bytes c ++ rest) = Ok c.
Proof.
  destruct c as [t r d n s a l].
  intros (H1 & H2 & H3 & H4 & H5). cbn in H1, H2, H3, H4, H5.
  unfold com_at, com_bytes, off_dev_id, off_ntf_id, off_second, off_nano, off_len.
  cbn [com_type com_ifroute com_dev_id com_ntf_id com_second com_nano com_len].
  set (m := _ ++ rest).
  change (rd1 m off_type) with (Ok t). change (rd1 m off_ifroute) with (Ok r).
  cbn [mbind res_bind].
  rewrite (rd_part m [t; r] d (n ++ s ++ a ++ l ++ rest) 2 LEN_DEVID).
  2-4: rewrite ?zlen_app, ?H1; unfold m; rewrite <- ?app_assoc; done.
  cbn [mbind res_bind]. rewrite (rd_part m ([t; r] ++ d) n (s ++ a ++ l ++ rest) 42 LEN_DEVID).
  2-4: rewrite ?zlen_app, ?H1, ?H2; unfold m; rewrite <- ?app_assoc; done.
  cbn [mbind res_bind]. rewrite (rd_part m ([t; r] ++ d ++ n) s (a ++ l ++ rest) 82 LEN_U64INT).
  2-4: rewrite ?zlen_app, ?H1, ?H2, ?H3; unfold m; rewrite <- ?app_assoc; done.
  cbn [mbind res_bind]. rewrite (rd_part m ([t; r] ++ d ++ n ++ s) a (l ++ rest) 90 LEN_U64INT).
  2-4: rewrite ?zlen_app, ?H1, ?H2, ?H3, ?H4; unfold m; rewrite <- ?app_assoc; done.
  cbn [mbind res_bind]. rewrite (rd_part m ([t; r] ++ d ++ n ++ s ++ a) l rest 98 LEN_U16INT).
  2-4: rewrite ?zlen_app, ?H1, ?H2, ?H3, ?H4, ?H5; unfold m; rewrite <- ?app_assoc; done.
  done.
Qed.

Lemma com_at_inv m c :
  com_at m = Ok c ->
  com_wf c /\ SZ_COM <= zlen m /\ m = com_bytes c ++ drop (Z.to_nat SZ_COM) m.
Proof.
  unfold com_at. intros H. case_res. subst c.
  apply rd1_rd in E, E0. unfold off_type, off_ifroute in *.
  assert (Hrd : rd m 0 (1 + (1 + (LEN_DEVID + (LEN_DEVID + (LEN_U64INT + (LEN_U64INT
      + LEN_U16INT)))))) = Ok ([a] ++ [a0] ++ a1 ++ a2 ++ a3 ++ a4 ++ a5)).
  { rewrite !rd_split, E by done.
    change (0 + 1) with off_ifroute. unfold off_ifroute. rewrite E0.
    change (1 + 1) with off_dev_id. rewrite E1.
    change (off_dev_id + LEN_DEVID) with off_ntf_id. rewrite E2.
    change (off_ntf_id + LEN_DEVID) with off_second. rewrite E3.
    change (off_second + LEN_U64INT) with off_nano. rewrite E4.
    change (off_nano + LEN_U64INT) with off_len. by rewrite E5. }
  change (1 + _) with SZ_COM in Hrd.
  pose proof (rd_inv _ _ _ _ Hrd) as (_ & _ & Hl & _ & Hb).
  repeat match goal with H : rd m _ _ = Ok _ |- _ => apply rd_inv in H as (_ & _ & _ & H & _) end.
  split; [by repeat split|]. split; [lia|].
  unfold com_bytes. cbn [com_type com_ifroute com_dev_id com_ntf_id com_second com_nano com_len].
  rewrite <- (take_drop (Z.to_nat SZ_COM) m) at 1. f_equal. rewrite drop_0 in Hb.
  by rewrite <- Hb.
Qed.

(** ** Lemmas: the member updates *)

Lemma zlen_le_bytes n z : zlen (le_bytes n z) = Z.of_nat n.
Proof. unfold zlen. by rewrite length_le_bytes. Qed.

Lemma put_u64_wr m off v :
  0 <= off -> off + 8 <= zlen m -> put_u64 m off v = wr m off (le_bytes 8 v).
Proof.
  intros H0 H. unfold put_u64, uint64_2_arr, LEN_U64INT.
  rewrite rd_ok by lia. cbn [mbind res_bind].
  rewrite store_int_spec by len. cbn [mbind res_bind].
  rewrite drop_ge by len. rewrite app_nil_r.
  change (wrap 64 v) with (v mod 256 ^ Z.of_nat 8). by rewrite le_bytes_mod.
Qed.

Lemma put_u16_wr m off v :
  0 <= off -> off + 2 <= zlen m -> put_u16 m off v = wr m off (le_bytes 2 v).
Proof.
  intros H0 H. unfold put_u16, uint16_2_arr, LEN_U16INT.
  rewrite rd_ok by lia. cbn [mbind res_bind].
  rewrite store_int_spec by len. cbn [mbind res_bind].
  rewrite drop_ge by len. rewrite app_nil_r.
  change (wrap 16 v) with (v mod 256 ^ Z.of_nat 2). by rewrite le_bytes_mod.
Qed.

Lemma rd_whole s : rd s 0 (zlen s) = Ok s.
Proof.
  pose proof (zlen_nonneg s). rewrite rd_ok by lia. rewrite drop_0, take_ge; [done|].
  unfold zlen. lia.
Qed.

Lemma get_u64_rd m off s : rd m off 8 = Ok s -> get_u64 m off = Ok (le_val s).
Proof.
  intros H. unfold get_u64, LEN_U64INT, arr_2_uint64. rewrite H. cbn [mbind res_bind].
  apply rd_inv in H as (_ & _ & _ & Hl & _).
  rewrite (load_int_spec 64 64 s 0 8 s); [done| |done|done]. rewrite <- Hl. apply rd_whole.
Qed.

Lemma get_u16_rd m off s : rd m off 2 = Ok s -> get_u16 m off = Ok (le_val s).
Proof.
  intros H. unfold get_u16, LEN_U16INT, arr_2_uint16. rewrite H. cbn [mbind res_bind].
  apply rd_inv in H as (_ & _ & _ & Hl & _).
  rewrite (load_int_spec 16 32 s 0 2 s); [| |done|done].
  - cbn [mbind res_bind default]. done.
  - rewrite <- Hl. apply rd_whole.
Qed.

Lemma get_u64_wr m off v m' :
  wr m off (le_bytes 8 v) = Ok m' -> get_u64 m' off = Ok (v mod 2 ^ 64).
Proof.
  intros H%rd_wr_same. rewrite zlen_le_bytes in H.
  rewrite (get_u64_rd _ _ _ H). by rewrite le_val_le_bytes.
Qed.

Lemma get_u16_wr m off v m' :
  wr m off (le_bytes 2 v) = Ok m' -> get_u16 m' off = Ok (v mod 2 ^ 16).
Proof.
  intros H%rd_wr_same. rewrite zlen_le_bytes in H.
  rewrite (get_u16_rd _ _ _ H). by rewrite le_val_le_bytes.
Qed.

Lemma get_u64_disjoint m off s m' off' :
  wr m off s = Ok m' -> off' + 8 <= off \/ off + zlen s <= off' ->
  get_u64 m' off' = get_u64 m off'.
Proof.
  intros H Hd. unfold get_u64, LEN_U64INT. by rewrite (rd_wr_disjoint _ _ _ _ _ _ H Hd).
Qed.

Lemma put_time_ok m t :
  SZ_COM <= zlen m ->
  exists m', put_time_to_msg (Some m) (Some t) = Ok (Some m') /\ zlen m' = zlen m /\
    get_u64 m' off_second = Ok (tv_sec t mod 2 ^ 64) /\
    get_u64 m' off_nano = Ok (tv_nsec t mod 2 ^ 64) /\
    forall off len, off + len <= off_second \/ off_len <= off -> rd m' off len = rd m off len.
Proof.
  unfold SZ_COM. intros H. cbn [put_time_to_msg].
  unfold off_second, off_nano, off_len, LEN_U64INT.
  pose proof (zlen_zeros 8 ltac:(done)) as Hz.
  destruct (wr_some m 82 (zeros 8)) as (m1 & E1 & L1); [lia..|].
  destruct (wr_some m1 90 (zeros 8)) as (m2 & E2 & L2); [lia..|].
  pose proof (zlen_le_bytes 8 (tv_sec t)) as Hs. pose proof (zlen_le_bytes 8 (tv_nsec t)) as Hn.
  destruct (wr_some m2 82 (le_bytes 8 (tv_sec t))) as (m3 & E3 & L3); [lia..|].
  destruct (wr_some m3 90 (le_bytes 8 (tv_nsec t))) as (m4 & E4 & L4); [lia..|].
  rewrite E1. cbn [mbind res_bind]. rewrite E2. cbn [mbind res_bind].
  rewrite put_u64_wr by lia. rewrite E3. cbn [mbind res_bind].
  rewrite put_u64_wr by lia. rewrite E4. cbn [mbind res_bind].
  exists m4. split; [done|]. split; [lia|]. split; [|split].
  - rewrite (get_u64_disjoint _ _ _ _ _ E4) by lia. by apply get_u64_wr in E3.
  - by apply get_u64_wr in E4.
  - intros off len Hd.
    rewrite (rd_wr_disjoint _ _ _ _ _ _ E4), (rd_wr_disjoint _ _ _ _ _ _ E3),
      (rd_wr_disjoint _ _ _ _ _ _ E2), (rd_wr_disjoint _ _ _ _ _ _ E1); [done|lia..].
Qed.

(** ** Lemmas: the log line *)

Lemma rd1_ok m off b : rd1 m off = Ok b -> 0 <= off < zlen m.
Proof. rewrite rd1_rd. intros (H1 & _ & H3 & _)%rd_inv. lia. Qed.

Lemma utoa_nonneg n : 0 <= zlen (utoa n) <= 20.
Proof. split; [apply zlen_nonneg|apply utoa_length]. Qed.
Lemma itoa_nonneg n : 0 <= zlen (itoa n) <= 21.
Proof. split; [apply zlen_nonneg|apply itoa_length]. Qed.

Lemma nth_text_length a b s k :
  nth_text a b = Ok s -> Forall (fun x => zlen x <= k) a -> 0 <= zlen s <= k.
Proof.
  unfold nth_text. intros H Ha. split; [apply zlen_nonneg|].
  destruct (a !! Z.to_nat (b2z b)) eqn:E; [|done]. injection H as <-.
  by apply (proj1 (Forall_lookup _ _) Ha _ _ E).
Qed.

Lemma nth_text_ok a b : b2z b < zlen a -> exists s, nth_text a b = Ok s.
Proof.
  intros H. unfold nth_text. pose proof (b2z_range b).
  destruct (a !! Z.to_nat (b2z b)) eqn:E; [eauto|].
  apply lookup_ge_None in E. unfold zlen in H. lia.
Qed.

Lemma nth_text_oob a b : zlen a <= b2z b -> nth_text a b = Fault OobRead.
Proof.
  intros H. unfold nth_text. destruct (a !! Z.to_nat (b2z b)) eqn:E; [|done].
  apply lookup_lt_Some in E. unfold zlen in H. lia.
Qed.

(** One [sprintf] of the log line that fits the buffer. *)
Ltac emit_step :=
  match goal with
  | |- context [emit ?b ?l ?p] =>
      let E := fresh "E" in let B := fresh "B" in let H := fresh "Hlen" in
      destruct (emit_ok b l p) as (B & E & H);
      [ rewrite ?zlen_app; lit; lia
      | rewrite ?zlen_app; lit; lia
      | rewrite E; cbn [mbind res_bind]; clear E; rewrite ?zlen_app; lit ]
  end.

(** ** Properties *)

(** the hash of an identifier of at most [MAX_MSG] characters below 128 is the value
    modulo [HASH_SIZE] of the polynomial whose coefficients are the characters, at 71; for
    every terminated identifier it exists and is an index of the registration table, also
    when the characters are negative as [char]. *)
Theorem hash_id_spec m off s :
  cstr_at m off = Ok s ->
  exists h, hash_id m off = Ok h /\ 0 <= h < HASH_SIZE /\
    (ascii s -> zlen s <= MAX_MSG -> h = hash_poly s mod HASH_SIZE).
Proof.
  intros Hs. destruct (hash_id_poly m off s Hs) as (h & Hh & Hr & Hp).
  exists h. split; [done|]. split; [done|]. intros Ha Hl. rewrite Hp by done.
  rewrite take_ge; [done|]. unfold MAX_MSG, zlen in *. lia.
Qed.

(** the layout of a message header: the 100 bytes of a header decode to its members,
    whatever follows them, and every object of at least 100 bytes is the encoding of the
    header it decodes to, followed by the data. *)
Theorem com_layout :
  (forall c rest, com_wf c -> com_at (com_bytes c ++ rest) = Ok c) /\
  (forall m c, com_at m = Ok c -> com_wf c /\ m = com_bytes c ++ drop (Z.to_nat SZ_COM) m) /\
  (forall m, SZ_COM <= zlen m <-> exists c, com_at m = Ok c).
Proof.
  split; [exact com_at_bytes|]. split.
  - intros m c H. by apply com_at_inv in H as (? & _ & ?).
  - intros m. split; [|intros [c Hc]; by apply com_at_inv in Hc as (_ & ? & _)].
    unfold SZ_COM. intros H. unfold com_at.
    rewrite !rd_ok by (unfold off_dev_id, off_ntf_id, off_second, off_nano, off_len,
      LEN_DEVID, LEN_U64INT, LEN_U16INT; lia).
    destruct m as [|a [|b m]]; [len|len|]. cbn. eauto.
Qed.

(** [put_time_to_msg] stores the seconds and nanoseconds, read back by
    [arr_2_uint64], and touches no byte outside those two members; without a time or a
    message it does nothing. *)
Theorem put_time_to_msg_spec m t :
  SZ_COM <= zlen m ->
  put_time_to_msg (Some m) None = Ok (Some m) /\
  put_time_to_msg None (Some t) = Ok None /\
  exists m', put_time_to_msg (Some m) (Some t) = Ok (Some m') /\ zlen m' = zlen m /\
    get_u64 m' off_second = Ok (tv_sec t mod 2 ^ 64) /\
    get_u64 m' off_nano = Ok (tv_nsec t mod 2 ^ 64) /\
    forall off len, off + len <= off_second \/ off_len <= off -> rd m' off len = rd m off len.
Proof.
  intros H. split; [done|]. split; [done|]. by apply put_time_ok.
Qed.

(** [dum_msg] puts the whole log line together without a fault for every message whose
    type is one of the five, whose route is one of the first six, and whose identifiers
    are terminated and short; with the routes [G_NTF_SRV] and [F_SRV_NTF], which the
    program uses for the key exchange of notifiers, it reads past the end of [ifr]. *)
Theorem dum_msg_spec m f fu line t r dev ntf :
  SZ_COM <= zlen m -> rd1 m off_type = Ok t -> rd1 m off_ifroute = Ok r ->
  cstr_at m off_dev_id = Ok dev -> cstr_at m off_ntf_id = Ok ntf ->
  zlen dev < LEN_DEVID -> zlen ntf < LEN_DEVID -> zlen f + zlen fu <= 1000 ->
  b2z t < 5 ->
  (b2z r < 6 -> exists buf, dum_msg (Some m) f fu line = Ok buf) /\
  (is_route r G_NTF_SRV || is_route r F_SRV_NTF = true ->
   dum_msg (Some m) f fu line = Fault OobRead).
Proof.
  unfold SZ_COM, LEN_DEVID. intros Hm Ht Hr Hd Hn Ld Ln Lf Ht5.
  pose proof (zlen_nonneg f). pose proof (zlen_nonneg fu).
  pose proof (zlen_nonneg dev). pose proof (zlen_nonneg ntf).
  destruct (nth_text_ok dum_text t) as (tx & Htx); [done|].
  assert (Hlt : 0 <= zlen tx <= 20)
    by (eapply nth_text_length; [exact Htx|]; repeat constructor; done).
  pose proof (itoa_nonneg line).
  destruct (hash_func_spec m off_dev_id (MIN MAX_MSG (zlen dev))
    (take (Z.to_nat (MIN MAX_MSG (zlen dev))) (drop 2 m))) as (h1 & Hh1 & _).
  { done. } { rewrite MIN_spec, rd_ok; [done|unfold off_dev_id, MAX_MSG; lia..]. }
  { rewrite MIN_spec. unfold MAX_MSG. lia. }
  destruct (hash_func_spec m off_ntf_id (MIN MAX_MSG (zlen dev))
    (take (Z.to_nat (MIN MAX_MSG (zlen dev))) (drop 42 m))) as (h2 & Hh2 & _).
  { done. } { rewrite MIN_spec, rd_ok; [done|unfold off_ntf_id, MAX_MSG; lia..]. }
  { rewrite MIN_spec. unfold MAX_MSG. lia. }
  pose proof (utoa_nonneg h1). pose proof (utoa_nonneg h2).
  pose proof (zlen_zeros DUM_BUF ltac:(done)). unfold dum_msg, DUM_BUF in *. rewrite Ht, Hr. cbn [mbind res_bind]. rewrite Htx.
  cbn [mbind res_bind]. emit_step. rewrite Hd. cbn [mbind res_bind]. emit_step.
  rewrite Hn. cbn [mbind res_bind]. emit_step.
  rewrite Hh1. cbn [mbind res_bind]. emit_step.
  rewrite Hh2. cbn [mbind res_bind]. emit_step.
  split.
  - intros Hr6. destruct (nth_text_ok dum_ifr r) as (ix & Hix); [done|].
    assert (0 <= zlen ix <= 80)
      by (eapply nth_text_length; [exact Hix|]; repeat constructor; done).
    rewrite Hix. cbn [mbind res_bind]. emit_step.
    erewrite get_u16_rd by (apply rd_ok; unfold off_len; lia). cbn [mbind res_bind].
    pose proof (itoa_nonneg (as_short (le_val
      (take (Z.to_nat 2) (drop (Z.to_nat off_len) m))))). emit_step.
    do 2 (erewrite get_u64_rd by (apply rd_ok; unfold off_second, off_nano; lia);
      cbn [mbind res_bind]).
    pose proof (utoa_nonneg (le_val (take (Z.to_nat 8) (drop (Z.to_nat off_second) m)))).
    pose proof (utoa_nonneg (le_val (take (Z.to_nat 8) (drop (Z.to_nat off_nano) m)))).
    emit_step. eauto.
  - intros Hr6. rewrite nth_text_oob; [done|]. unfold is_route in Hr6.
    apply orb_true_iff in Hr6 as [Hr6|Hr6]; b2p; rewrite Hr6; done.
Qed.

(** ** The properties at concrete messages *)

Definition sample_id : list byte := str "b7bb3690-ebcb-4bf9-88b0-31c130ec44a2".
Definition sample_ntf : list byte := str "ed628094-63f3-452a-91c8-3ae24f281dd2".
Definition sample_com (t : MSG_ENUM) (r : MSG_ROUTE) : MSG_COMMON :=
  {| com_type := msg_enum t; com_ifroute := msg_route r;
     com_dev_id := sample_id ++ zeros 4; com_ntf_id := sample_ntf ++ zeros 4;
     com_second := zeros 8; com_nano := zeros 8; com_len := zeros 2 |}.
Definition sample_msg (t : MSG_ENUM) (r : MSG_ROUTE) : list byte := com_bytes (sample_com t r).

Lemma hash_id_spec_witness :
  exists h, hash_id (sample_msg MSG_REG G_NTF_CLI) off_dev_id = Ok h /\
  h = hash_poly sample_id mod HASH_SIZE /\ h = 6991.
Proof.
  destruct (hash_id_spec (sample_msg MSG_REG G_NTF_CLI) off_dev_id sample_id)
    as (h & H1 & _ & H2).
  - vm_compute. reflexivity.
  - exists h. split; [exact H1|]. rewrite H2.
    + split; [reflexivity|vm_compute; reflexivity].
    + repeat constructor.
    + vm_compute. discriminate.
Defined.

Lemma com_layout_witness :
  com_at (sample_msg MSG_NTF G_NTF_CLI ++ str "data") = Ok (sample_com MSG_NTF G_NTF_CLI).
Proof.
  apply (proj1 com_layout). repeat split; vm_compute; reflexivity.
Defined.

Lemma put_time_to_msg_spec_witness :
  exists m', put_time_to_msg (Some (sample_msg MSG_REG G_NTF_CLI))
    (Some {| tv_sec := 1682500000; tv_nsec := 999999999 |}) = Ok (Some m') /\
  get_u64 m' off_second = Ok 1682500000 /\ get_u64 m' off_nano = Ok 999999999.
Proof.
  destruct (put_time_to_msg_spec (sample_msg MSG_REG G_NTF_CLI)
    {| tv_sec := 1682500000; tv_nsec := 999999999 |}) as (_ & _ & m' & H1 & _ & H2 & H3 & _).
  - vm_compute. discriminate.
  - exists m'. repeat split; assumption.
Defined.

Lemma dum_msg_spec_witness :
  (exists buf, dum_msg (Some (sample_msg MSG_NTF G_CLI_NTF)) (str "server.c") (str "main") 7
     = Ok buf) /\
  dum_msg (Some (sample_msg MSG_GET_AES G_NTF_SRV)) (str "server.c") (str "main") 7
     = Fault OobRead.
Proof.
  split.
  - apply (dum_msg_spec _ _ _ 7 x02 x02 sample_id sample_ntf);
      try (vm_compute; first [reflexivity | discriminate]).
  - apply (dum_msg_spec _ _ _ 7 x04 x06 sample_id sample_ntf);
      try (vm_compute; first [reflexivity | discriminate]).
Defined.
