(* ===== verification/OpenSSL.v ===== *)
(** * What the program uses of OpenSSL and of the file system

    OpenSSL is not part of the repository: it is given by type classes, one per family of
    calls, and the laws are the documented behaviour the theorems rely on.  A call that
    fails returns [None] or an arbitrary length, as the program either tests a null result
    or ignores the return code.  The random bytes of the PKCS#1 padding belong to the
    instance; nothing below compares two encryptions. *)
From S2P Require Import Prelude.

(** ** RSA keys *)

Class RSALib := {
  RSA : Type;
  (** The bytes of the key object in memory. *)
  RSA_object : RSA -> list byte;
  RSA_size : RSA -> Z;
  RSA_public_encrypt : list byte -> RSA -> option (list byte);
  RSA_private_decrypt : list byte -> RSA -> option (list byte);
  (** A memory BIO over the characters of a string; null for a null string. *)
  BIO : Type;
  BIO_new_mem_buf : list byte -> option BIO;
  BIO_set_flags : BIO -> BIO;
  PEM_read_bio_RSA_PUBKEY : BIO -> option RSA;
  PEM_read_bio_RSAPrivateKey : BIO -> option RSA
}.

(** PKCS#1 padding takes 11 bytes of the block. *)
Class RSALaws `{RSALib} := {
  key_pair : RSA -> RSA -> Prop;
  key_pair_size pub prv : key_pair pub prv -> RSA_size prv = RSA_size pub;
  key_pair_size_pos pub prv : key_pair pub prv -> 11 < RSA_size pub;
  RSA_encrypt_ok pub prv pt :
    key_pair pub prv -> zlen pt <= RSA_size pub - 11 ->
    exists ct, RSA_public_encrypt pt pub = Some ct;
  RSA_encrypt_size pub prv pt ct :
    key_pair pub prv -> RSA_public_encrypt pt pub = Some ct -> zlen ct = RSA_size pub;
  RSA_decrypt_encrypt pub prv pt ct :
    key_pair pub prv -> RSA_public_encrypt pt pub = Some ct ->
    RSA_private_decrypt ct prv = Some pt
}.

(** ** AES-256-GCM through the EVP calls *)

(** Contexts are opaque; an update returns the bytes it writes to its output buffer and
    the value it stores in [len].  [aad] updates have a null output buffer. *)
Class EVPLib := {
  EVP_CTX : Type;
  EVP_CIPHER_CTX_new : EVP_CTX;
  EVP_EncryptInit_cipher : EVP_CTX -> EVP_CTX;
  EVP_EncryptInit_key : EVP_CTX -> list byte -> list byte -> EVP_CTX;
  EVP_CTRL_GCM_SET_IVLEN : EVP_CTX -> Z -> EVP_CTX;
  EVP_EncryptUpdate_aad : EVP_CTX -> list byte -> EVP_CTX * Z;
  EVP_EncryptUpdate : EVP_CTX -> list byte -> EVP_CTX * list byte * Z;
  EVP_EncryptFinal_ex : EVP_CTX -> EVP_CTX * list byte * Z;
  EVP_CTRL_GCM_GET_TAG : EVP_CTX -> list byte;
  EVP_DecryptInit_cipher : EVP_CTX -> EVP_CTX;
  EVP_DecryptInit_key : EVP_CTX -> list byte -> list byte -> EVP_CTX;
  EVP_DecryptUpdate_aad : EVP_CTX -> list byte -> EVP_CTX * Z;
  EVP_DecryptUpdate : EVP_CTX -> list byte -> EVP_CTX * list byte * Z;
  EVP_CTRL_GCM_SET_TAG : EVP_CTX -> list byte -> EVP_CTX;
  EVP_DecryptFinal_ex : EVP_CTX -> EVP_CTX * list byte * Z * Z
}.

Definition evp_enc_start `{EVPLib} (key iv : list byte) : EVP_CTX :=
  EVP_EncryptInit_key
    (EVP_CTRL_GCM_SET_IVLEN (EVP_EncryptInit_cipher EVP_CIPHER_CTX_new) (zlen iv)) key iv.
Definition evp_dec_start `{EVPLib} (key iv : list byte) : EVP_CTX :=
  EVP_DecryptInit_key
    (EVP_CTRL_GCM_SET_IVLEN (EVP_DecryptInit_cipher EVP_CIPHER_CTX_new) (zlen iv)) key iv.

(** GCM is counter mode with a 16-byte tag over the additional data and the ciphertext:
    the key stream is its own inverse, the final calls write nothing, and the decryption
    succeeds exactly when the tag is the one computed. *)
Class GCMLaws `{EVPLib} := {
  gctr : list byte -> list byte -> list byte -> list byte;
  gtag : list byte -> list byte -> list byte -> list byte -> list byte;
  gctr_length key iv s : length (gctr key iv s) = length s;
  gctr_inv key iv s : gctr key iv (gctr key iv s) = s;
  gtag_length key iv aad ct : zlen (gtag key iv aad ct) = 16;
  evp_encrypt key iv aad pt : zlen key = 32 -> zlen iv = 16 ->
    let '(c1, _) := EVP_EncryptUpdate_aad (evp_enc_start key iv) aad in
    let '(c2, ct, len) := EVP_EncryptUpdate c1 pt in
    let '(c3, fin, len') := EVP_EncryptFinal_ex c2 in
    ct = gctr key iv pt /\ len = zlen pt /\ fin = [] /\ len' = 0 /\
    EVP_CTRL_GCM_GET_TAG c3 = gtag key iv aad ct;
  evp_decrypt key iv aad ct tag : zlen key = 32 -> zlen iv = 16 -> zlen tag = 16 ->
    let '(c1, _) := EVP_DecryptUpdate_aad (evp_dec_start key iv) aad in
    let '(c2, pt, len) := EVP_DecryptUpdate c1 ct in
    let '(_, fin, len', ret) := EVP_DecryptFinal_ex (EVP_CTRL_GCM_SET_TAG c2 tag) in
    pt = gctr key iv ct /\ len = zlen ct /\ fin = [] /\ len' = 0 /\
    (0 <? ret) = bool_decide (tag = gtag key iv aad ct)
}.

(** ** The AES block interface *)

(** [AES_cfb128_encrypt] on one block: the bytes it writes; the [iv] and [num] it updates
    are set again before every call. *)
Class AESLib := {
  AES_KEY : Type;
  AES_set_encrypt_key : list byte -> Z -> Z * AES_KEY;
  AES_set_decrypt_key : list byte -> Z -> Z * AES_KEY;
  AES_cfb128_encrypt : list byte -> AES_KEY -> list byte -> Z -> Z -> list byte
}.
Class AESLaws `{AESLib} := {
  cfb128_length i wctx iv num enc :
    length (AES_cfb128_encrypt i wctx iv num enc) = length i
}.

(** ** The heap and the file system *)

(** Whether [realloc] moves an object, and the bytes fresh memory holds. *)
Class Heap := {
  realloc_moves : list byte -> Z -> bool;
  garbage : Z -> byte
}.

(** The first [n] bytes of fresh memory after offset [off]. *)
Definition fresh_bytes `{Heap} (off : Z) (n : nat) : list byte :=
  map (fun i => garbage (off + Z.of_nat i)) (seq 0 n).
Definition realloc_obj `{Heap} (m : list byte) (n : Z) : list byte :=
  take (Z.to_nat n) m ++ fresh_bytes (zlen m) (Z.to_nat n - length m).

(** What the calls on an open file return: [ftell] at the end, the bytes [fread]
    delivers, and [fclose]. *)
Record FILE := { f_tell : Z; f_bytes : list byte; f_close : Z }.

(** [fopen]: [None] is the null pointer. *)
Class FileSystem := fopen : list byte -> option FILE.

(** [MY_MALLOC(p, n)]: zeroed memory; a negative [int] becomes a size no allocator can
    serve, and the macro exits. *)
Definition MY_MALLOC (n : Z) : res (list byte) :=
  if n <? 0 then Fault Exited else Ok (zeros n).

Lemma MY_MALLOC_ok n : 0 <= n -> MY_MALLOC n = Ok (zeros n).
Proof. intros. unfold MY_MALLOC. by decide_cmp. Qed.

Lemma realloc_obj_length `{Heap} m n : 0 <= n -> zlen (realloc_obj m n) = n.
Proof.
  intros. unfold realloc_obj, fresh_bytes. rewrite zlen_app. unfold zlen.
  rewrite length_map, length_seq, length_take. lia.
Qed.

Lemma realloc_obj_grow `{Heap} m n :
  zlen m <= n ->
  realloc_obj m n = m ++ fresh_bytes (zlen m) (Z.to_nat n - length m).
Proof. intros. unfold realloc_obj. rewrite take_ge; [done|]. unfold zlen in *. lia. Qed.
