(* ===== verification/Toy.v ===== *)
(** * Concrete instances of the interfaces of OpenSSL.v

    They satisfy the laws and evaluate, so that the theorems proved against the interfaces
    can be applied at concrete inputs: a one-byte exclusive-or key with the length in front
    for RSA, a repeating key stream and a checksum tag for GCM. *)
From S2P Require Import Prelude OpenSSL.

Definition xor_byte (a b : byte) : byte := z2b (Z.lxor (b2z a) (b2z b)).

Lemma xor_byte_inv a b : xor_byte (xor_byte a b) b = a.
Proof.
  unfold xor_byte. rewrite b2z_z2b. pose proof (b2z_range a). pose proof (b2z_range b).
  assert (Hr : 0 <= Z.lxor (b2z a) (b2z b) < 256).
  { change 256 with (2 ^ 8) in *. rewrite <- (Z.mod_small (b2z a) (2 ^ 8)),
      <- (Z.mod_small (b2z b) (2 ^ 8)), <- !Z.land_ones by lia.
    replace (Z.lxor _ _) with (Z.land (Z.lxor (b2z a) (b2z b)) (Z.ones 8)).
    - rewrite Z.land_ones by lia. by apply Z.mod_pos_bound.
    - apply Z.bits_inj'. intros n _. rewrite Z.land_spec, !Z.lxor_spec, !Z.land_spec.
      by destruct (Z.testbit (b2z a) n), (Z.testbit (b2z b) n), (Z.testbit (Z.ones 8) n). }
  rewrite Z.mod_small, Z.lxor_assoc, Z.lxor_nilpotent, Z.lxor_0_r by done.
  apply z2b_b2z.
Qed.

(** ** RSA: keys are single bytes, the block is 512 bytes *)

Definition toy_block : Z := 512.

Definition toy_rsa_block (pt : list byte) (k : byte) : list byte :=
  map (fun b => xor_byte b k)
    (le_bytes 2 (zlen pt) ++ pt ++ zeros (toy_block - 2 - zlen pt)).
Definition toy_rsa_encrypt (pt : list byte) (k : byte) : option (list byte) :=
  if zlen pt <=? toy_block - 11 then Some (toy_rsa_block pt k) else None.
Definition toy_rsa_decrypt (ct : list byte) (k : byte) : option (list byte) :=
  if zlen ct =? toy_block
  then let m := map (fun b => xor_byte b k) ct in
       Some (take (Z.to_nat (le_val (take 2 m))) (drop 2 m))
  else None.

#[global] Instance toy_rsa : RSALib := {|
  RSA := byte;
  RSA_object k := replicate 8 k;
  RSA_size _ := toy_block;
  RSA_public_encrypt := toy_rsa_encrypt;
  RSA_private_decrypt := toy_rsa_decrypt;
  BIO := list byte;
  BIO_new_mem_buf s := Some s;
  BIO_set_flags s := s;
  PEM_read_bio_RSA_PUBKEY s := head s;
  PEM_read_bio_RSAPrivateKey s := head s
|}.

(** The keys of the examples: of a device and of the server. *)
Definition key_K : @RSA toy_rsa := x4b.
Definition key_S : @RSA toy_rsa := x53.

Lemma map_xor_inv k s :
  map (fun b => xor_byte b k) (map (fun b => xor_byte b k) s) = s.
Proof.
  induction s as [|b s IH]; [done|]. cbn [map]. by rewrite xor_byte_inv, IH.
Qed.

#[global, refine] Instance toy_rsa_laws : RSALaws := {| key_pair := fun pub prv => pub = prv |}.
Proof.
  - done.
  - done.
  - intros pub prv pt _ H. cbn [RSA_size toy_rsa RSA_public_encrypt] in *.
    unfold toy_rsa_encrypt. decide_cmp. eauto.
  - intros pub prv pt ct _. cbn [RSA_size toy_rsa RSA_public_encrypt].
    unfold toy_rsa_encrypt, toy_block. destruct (zlen pt <=? _) eqn:E; [|done].
    b2p. intros H; injection H as <-. unfold toy_rsa_block, toy_block. len.
  - intros pub prv pt ct <-. cbn [RSA_public_encrypt RSA_private_decrypt toy_rsa].
    unfold toy_rsa_encrypt, toy_rsa_decrypt, toy_block.
    destruct (zlen pt <=? _) eqn:E; [|done].
    b2p. intros H; injection H as <-. unfold toy_rsa_block, toy_block.
    replace (_ =? 512) with true by (symmetry; apply Z.eqb_eq; len).
    f_equal. cbv zeta. rewrite map_xor_inv.
    pose proof (zlen_nonneg pt).
    rewrite (take_app_length' _ _ 2), (drop_app_length' _ _ 2) by (by rewrite length_le_bytes).
    rewrite le_val_le_bytes, Z.mod_small by (change (256 ^ Z.of_nat 2) with 65536; lia).
    apply take_app_length'. len.
Defined.

(** ** AES-256-GCM *)

Definition toy_pad (key iv : list byte) (i : nat) : byte :=
  xor_byte (nth (i mod 32) key x00) (nth (i mod 16) iv x00).
Definition toy_gctr (key iv s : list byte) : list byte :=
  imap (fun i b => xor_byte b (toy_pad key iv i)) s.
Definition toy_sum (s : list byte) : Z := foldr (fun b a => 31 * a + b2z b) 7 s mod 2 ^ 64.
Definition toy_gtag (key iv aad ct : list byte) : list byte :=
  le_bytes 8 (toy_sum ct) ++ le_bytes 8 (toy_sum (key ++ iv ++ aad)).

Record toy_ctx := {
  tc_key : list byte; tc_iv : list byte; tc_aad : list byte; tc_ct : list byte;
  tc_tag : list byte
}.
Definition toy_new : toy_ctx := Build_toy_ctx [] [] [] [] [].
Definition toy_key (c : toy_ctx) (key iv : list byte) : toy_ctx :=
  Build_toy_ctx key iv (tc_aad c) (tc_ct c) (tc_tag c).
Definition toy_aad (c : toy_ctx) (aad : list byte) : toy_ctx * Z :=
  (Build_toy_ctx (tc_key c) (tc_iv c) aad (tc_ct c) (tc_tag c), zlen aad).
Definition toy_tag (c : toy_ctx) : list byte :=
  toy_gtag (tc_key c) (tc_iv c) (tc_aad c) (tc_ct c).
Definition toy_update (c : toy_ctx) (pt ct : list byte) (out : list byte)
    : toy_ctx * list byte * Z :=
  (Build_toy_ctx (tc_key c) (tc_iv c) (tc_aad c) ct (tc_tag c), out, zlen pt).

#[global] Instance toy_evp : EVPLib := {|
  EVP_CTX := toy_ctx;
  EVP_CIPHER_CTX_new := toy_new;
  EVP_EncryptInit_cipher c := c;
  EVP_EncryptInit_key := toy_key;
  EVP_CTRL_GCM_SET_IVLEN c _ := c;
  EVP_EncryptUpdate_aad := toy_aad;
  EVP_EncryptUpdate c pt :=
    let ct := toy_gctr (tc_key c) (tc_iv c) pt in toy_update c pt ct ct;
  EVP_EncryptFinal_ex c := (c, [], 0);
  EVP_CTRL_GCM_GET_TAG := toy_tag;
  EVP_DecryptInit_cipher c := c;
  EVP_DecryptInit_key := toy_key;
  EVP_DecryptUpdate_aad := toy_aad;
  EVP_DecryptUpdate c ct := toy_update c ct ct (toy_gctr (tc_key c) (tc_iv c) ct);
  EVP_CTRL_GCM_SET_TAG c tag :=
    Build_toy_ctx (tc_key c) (tc_iv c) (tc_aad c) (tc_ct c) tag;
  EVP_DecryptFinal_ex c := (c, [], 0, if bool_decide (tc_tag c = toy_tag c) then 1 else 0)
|}.

#[global, refine] Instance toy_gcm : GCMLaws := {| gctr := toy_gctr; gtag := toy_gtag |}.
Proof.
  - intros. apply length_imap.
  - intros key iv s. unfold toy_gctr. apply list_eq. intros i.
    rewrite !list_lookup_imap. destruct (s !! i) as [b|]; cbn; [|done].
    by rewrite xor_byte_inv.
  - intros. unfold toy_gtag. len.
  - intros. cbn. unfold toy_tag. cbn. auto.
  - intros. cbn. unfold toy_tag. cbn. case_bool_decide; auto.
Defined.

(** ** AES blocks, the heap, files *)

#[global] Instance toy_aes : AESLib := {|
  AES_KEY := list byte;
  AES_set_encrypt_key key bits := (if bits =? 256 then 0 else -2, key);
  AES_set_decrypt_key key bits := (if bits =? 256 then 0 else -2, key);
  AES_cfb128_encrypt i key iv _ _ :=
    imap (fun j b => xor_byte b (toy_pad key iv j)) i
|}.
#[global] Instance toy_aes_laws : AESLaws.
Proof. constructor. intros. apply length_imap. Qed.

Definition toy_heap (moves : bool) : Heap := {|
  realloc_moves _ _ := moves;
  garbage i := z2b (i * 37)
|}.

Definition toy_file (s : list byte) : FILE :=
  {| f_tell := zlen s; f_bytes := s; f_close := 0 |}.

(** The file system given by an association list. *)
Definition toy_fs (l : list (list byte * FILE)) : FileSystem := fun path =>
  match list_find (fun x => fst x = path) l with
  | Some (_, (_, f)) => Some f
  | None => None
  end.

Lemma toy_fs_small l :
  Forall (fun x => 0 <= f_tell (snd x) < 2 ^ 32 - 1) l ->
  forall p f, toy_fs l p = Some f -> 0 <= f_tell f < 2 ^ 32 - 1.
Proof.
  intros Hl p f. unfold toy_fs. destruct (list_find _ l) as [[i [q g]]|] eqn:E; [|done].
  intros [= <-]. apply list_find_Some in E as (E & _ & _).
  by apply (proj1 (Forall_lookup _ _) Hl) in E.
Qed.

Lemma toy_keys_long (k : @RSA toy_rsa) : 8 <= zlen (RSA_object k).
Proof. done. Qed.
