(* ===== verification/KeyFiles.v ===== *)
(** * RSA keys in files and RSA encryption

    Models [file_2_bytes], [file_2_pubrsa], [file_2_prvrsa], [rsa_enc], [rsa_dec],
    [put_pubkey_msg], [get_srv_prv], [get_cli_pub] and [get_cli_prv] of
    src/notify.system/msg_notify.c.  An out-parameter is an option (null or the object it
    points to) that the function takes and gives back next to its return value; a buffer
    pointer inside it is an option again. *)
From S2P Require Import Prelude CString Message OpenSSL Toy.

(** [if(p) *p = v;] *)
Definition store_out {A} (p : option A) (v : A) : option A :=
  match p with Some _ => Some v | None => None end.

Definition MAX_PATH : Z := 2048.

(** ** Reading a key file *)

Section Files.
Context `{FS : FileSystem}.

(** [sz] and [n] are [unsigned int]; on an error the buffer is freed and nulled, and then
    the result of [fclose] replaces the error. *)
Definition file_2_bytes (path : option (list byte)) (output : option (option (list byte)))
    : res (Z * option (option (list byte))) :=
  (* the do-block: err, the open file, the buffer *)
  '(err, fp, output) ←
    match path, output with
    | None, _ => Ok (1, None, output)
    | Some _, None => Ok (1, None, None)
    | Some p, Some _ =>
      match fopen p with
      | None => Ok (1, None, output)
      | Some fp =>
        let sz := wrap 32 (f_tell fp) in
        let got := take (Z.to_nat sz) (f_bytes fp) in
        let n := zlen got in
        buf ← wr (zeros (wrap 32 (sz + 1))) 0 got;
        Ok (if n =? sz then 0 else 1, Some fp, Some (Some buf))
      end
    end;
  output ← (if err =? 0 then Ok output
            else match output with
                 | None => Fault NullDeref      (* *output *)
                 | Some _ => Ok (Some None)     (* MY_FREE sets it to 0 *)
                 end);
  Ok (match fp with Some fp => f_close fp | None => err end, output).

Context `{RL : RSALib}.

(** The string the BIO is built over: [-1] asks for its [strlen]. *)
Definition new_mem_buf (s : option (list byte)) : res (option BIO) :=
  match s with
  | None => Ok None
  | Some s => c ← cstr s; Ok (BIO_new_mem_buf c)
  end.

(** The two loaders differ in the BIO flags and the parser. *)
Definition file_2_rsa (parse : BIO -> option RSA) (path : option (list byte))
    (output : option (option RSA)) : res (Z * option (option RSA)) :=
  match output with
  | None => Ok (1, None)
  | Some _ =>
    '(err, s) ← file_2_bytes path (Some None);
    if negb (err =? 0) then Ok (err, output)
    else
      bio ← new_mem_buf (default None s);
      match bio with
      | None => Ok (1, output)
      | Some bio => Ok (0, Some (parse bio))
      end
  end.
Definition file_2_pubrsa (path : option (list byte)) (output : option (option RSA)) :=
  file_2_rsa (fun bio => PEM_read_bio_RSA_PUBKEY (BIO_set_flags bio)) path output.
Definition file_2_prvrsa (path : option (list byte)) (output : option (option RSA)) :=
  file_2_rsa PEM_read_bio_RSAPrivateKey path output.

(** [static RSA *p]: the cached key is the state. *)
Definition get_srv_prv (p : option RSA) : res (option RSA) :=
  match p with
  | Some _ => Ok p
  | None =>
    '(_, out) ← file_2_prvrsa (Some (str "srv-private-key.pem")) (Some None);
    Ok (default None out)
  end.

(** [path[1024]] holds the file name. *)
Definition get_cli_pub (idd : list byte) : res (option RSA) :=
  '(path, _) ← emit (zeros 1024) 0 (idd ++ str ".public-key.pem");
  c ← cstr path;
  '(_, out) ← file_2_pubrsa (Some c) (Some None);
  Ok (default None out).
Definition get_cli_prv (idd : list byte) : res (option RSA) :=
  '(path, _) ← emit (zeros 1024) 0 (idd ++ str ".private-key.pem");
  c ← cstr path;
  '(_, out) ← file_2_prvrsa (Some c) (Some None);
  Ok (default None out).
End Files.

(** ** Encryption and decryption *)

Section Rsa.
Context `{RL : RSALib}.

(** [lenin] rounded up to whole blocks, plus one; [%] is the remainder of C. *)
Definition rsa_buflen (lenin block : Z) : Z :=
  if Z.rem lenin block =? 0 then lenin + 1
  else lenin + (block - Z.rem lenin block) + 1.

Definition rsa_enc (pubkey : option RSA) (input : list byte)
    (out : option (option (list byte))) (lenin : Z) (outlen : option Z)
    : res (Z * option (option (list byte)) * option Z) :=
  match pubkey, out with
  | None, _ => Ok (1, out, outlen)
  | Some _, None => Ok (1, out, outlen)
  | Some pubkey, Some _ =>
    let rsa_block := RSA_size pubkey in
    if rsa_block <? 1 then Ok (0, out, outlen)
    else
      buf ← MY_MALLOC (rsa_buflen lenin rsa_block);
      src ← rd input 0 lenin;
      match RSA_public_encrypt src pubkey with
      | None => Ok (0, out, outlen)
      | Some ct =>
        buf ← wr buf 0 ct;
        if zlen ct <? 1 then Ok (0, out, outlen)
        else Ok (0, Some (Some buf), store_out outlen (zlen ct))
      end
  end.

Definition rsa_dec (priv : option RSA) (input : option (list byte))
    (out : option (option (list byte))) (lenin : Z) (outlen : option Z)
    : res (Z * option (option (list byte)) * option Z) :=
  match priv, input, out with
  | None, _, _ | _, None, _ | _, _, None => Ok (1, out, outlen)
  | Some priv, Some input, Some _ =>
    let rsa_block := RSA_size priv in
    if rsa_block <? 1 then Ok (0, out, outlen)
    else
      buf ← MY_MALLOC (rsa_buflen lenin rsa_block);
      src ← rd input 0 lenin;
      match RSA_private_decrypt src priv with
      | None => Ok (1, out, outlen)
      | Some pt =>
        buf ← wr buf 0 pt;
        if zlen pt <? 1 then Ok (1, out, outlen)
        else Ok (0, Some (Some buf), store_out outlen (zlen pt))
      end
  end.

(** ** The public key of a device, appended to its message *)

Context `{FS : FileSystem} `{HP : Heap}.

(** The message the caller's pointer denotes afterwards: [realloc] replaces the local [m]
    only, so a moved object leaves the caller with a dangling pointer. *)
Definition put_pubkey_msg (m : option (list byte)) (n : Z)
    : res (Z * option (list byte) * Z) :=
  match m with
  | None => Ok (1, None, n)
  | Some obj =>
    dev ← cstr_at obj off_dev_id;
    let path := take (Z.to_nat (MAX_PATH - 1)) (dev ++ str ".public-key.pem.") in
    '(err, rsa) ← file_2_pubrsa (Some path) (Some None);
    match (if err =? 0 then default None rsa else None) with
    | None => Ok (1, m, n)
    | Some rsa =>
      let k := 8 in (* sizeof(RSA * ) *)
      let obj' := realloc_obj obj (n + k) in
      obj1 ← wr obj' SZ_COM (zeros k);
      src ← rd (RSA_object rsa) 0 k;
      obj2 ← wr obj1 SZ_COM src;
      obj3 ← put_u16 obj2 off_len k;
      Ok (0, if realloc_moves obj (n + k) then None else Some obj3, n + k)
    end
  end.
End Rsa.

(** ** Lemmas *)

Lemma rsa_buflen_bounds lenin b :
  0 <= lenin -> 0 < b ->
  lenin < rsa_buflen lenin b <= lenin + b + 1 /\ (0 < lenin -> b < rsa_buflen lenin b).
Proof.
  intros Hl Hb. unfold rsa_buflen. rewrite Z.rem_mod_nonneg by lia.
  pose proof (Z.mod_pos_bound lenin b Hb). pose proof (Z.div_mod lenin b).
  destruct (lenin mod b =? 0) eqn:E; b2p; [|split; [lia|]].
  - split; [lia|]. intros. assert (0 < lenin / b) by nia. nia.
  - intros. assert (0 <= lenin / b) by (apply Z.div_pos; lia). nia.
Qed.

Lemma rd_take input n src :
  rd input 0 n = Ok src -> src = take (Z.to_nat n) input /\ zlen src = n.
Proof. intros (_ & _ & _ & H & ->)%rd_inv. by rewrite drop_0 in *. Qed.

Lemma rsa_enc_ok `{RSALaws} pub prv input out0 lenin outlen :
  key_pair pub prv -> 1 <= lenin <= RSA_size pub - 11 -> lenin <= zlen input ->
  exists ct pad,
    RSA_public_encrypt (take (Z.to_nat lenin) input) pub = Some ct /\
    zlen ct = RSA_size pub /\ 1 <= zlen pad /\
    rsa_enc (Some pub) input (Some out0) lenin outlen
    = Ok (0, Some (Some (ct ++ pad)), store_out outlen (RSA_size pub)).
Proof.
  intros Hk Hl Hi. pose proof (key_pair_size_pos _ _ Hk).
  assert (Hsrc : rd input 0 lenin = Ok (take (Z.to_nat lenin) input))
    by (rewrite rd_ok by lia; by rewrite drop_0).
  destruct (RSA_encrypt_ok pub prv (take (Z.to_nat lenin) input) Hk) as (ct & Hct); [len|].
  pose proof (RSA_encrypt_size _ _ _ _ Hk Hct) as Hsz.
  destruct (rsa_buflen_bounds lenin (RSA_size pub)) as (Hb & Hb'); [lia..|].
  exists ct, (zeros (rsa_buflen lenin (RSA_size pub) - zlen ct)).
  split; [done|]. split; [done|]. split; [rewrite zlen_zeros; lia|].
  unfold rsa_enc. decide_cmp. rewrite MY_MALLOC_ok by lia. cbn [mbind res_bind].
  rewrite Hsrc. cbn [mbind res_bind]. rewrite Hct, wr_zeros by lia. cbn [mbind res_bind].
  decide_cmp. by rewrite Hsz.
Qed.

Lemma rsa_dec_ok `{RSALaws} pub prv ct rest out0 pt outlen :
  key_pair pub prv -> RSA_public_encrypt pt pub = Some ct ->
  1 <= zlen pt <= RSA_size pub ->
  exists pad, 1 <= zlen pad /\
    rsa_dec (Some prv) (Some (ct ++ rest)) (Some out0) (RSA_size pub) outlen
    = Ok (0, Some (Some (pt ++ pad)), store_out outlen (zlen pt)).
Proof.
  intros Hk Hct Hl. pose proof (key_pair_size_pos _ _ Hk).
  pose proof (RSA_encrypt_size _ _ _ _ Hk Hct) as Hsz.
  pose proof (key_pair_size _ _ Hk) as Hs.
  destruct (rsa_buflen_bounds (RSA_size pub) (RSA_size pub)) as (Hb & _); [lia..|].
  exists (zeros (rsa_buflen (RSA_size pub) (RSA_size pub) - zlen pt)).
  split; [rewrite zlen_zeros; lia|].
  unfold rsa_dec. rewrite Hs. decide_cmp. rewrite MY_MALLOC_ok by lia. cbn [mbind res_bind].
  assert (Hrd : rd (ct ++ rest) 0 (RSA_size pub) = Ok ct)
    by (by apply (rd_part _ [] ct rest)).
  rewrite Hrd. cbn [mbind res_bind].
  rewrite (RSA_decrypt_encrypt _ _ _ _ Hk Hct), wr_zeros by lia. cbn [mbind res_bind].
  by decide_cmp.
Qed.

(** A key file: the loaders parse its characters up to the first zero. *)
Lemma file_2_rsa_ok `{FileSystem} `{RL : RSALib} parse path s rest p0 (bio : BIO) :
  fopen path = Some {| f_tell := zlen s + zlen rest; f_bytes := s ++ rest; f_close := 0 |} ->
  zlen s + zlen rest < 2 ^ 32 - 1 -> no_nul s -> rest = [] \/ head rest = Some x00 ->
  BIO_new_mem_buf s = Some bio ->
  file_2_rsa parse (Some path) (Some p0) = Ok (0, Some (parse bio)).
Proof.
  intros Hf Hl Hs Hr Hbio. pose proof (zlen_nonneg s). pose proof (zlen_nonneg rest).
  unfold file_2_rsa, file_2_bytes. rewrite Hf. cbn [f_tell f_bytes f_close mbind res_bind].
  unfold wrap. rewrite !Z.mod_small by lia.
  rewrite take_ge by (rewrite length_app; unfold zlen; lia).
  rewrite wr_zeros by (rewrite zlen_app; lia). cbn [mbind res_bind].
  rewrite zlen_app. decide_cmp. cbn [mbind res_bind negb Z.eqb default from_option id new_mem_buf].
  replace (_ - _) with 1 by lia. change (zeros 1) with [x00].
  assert (Hc : cstr ((s ++ rest) ++ [x00]) = Ok s).
  { destruct Hr as [->|Hr].
    - rewrite app_nil_r. by apply cstr_terminated.
    - destruct rest as [|b rest]; [done|]. injection Hr as ->.
      rewrite <- app_assoc. by apply cstr_terminated. }
  rewrite Hc. cbn [mbind res_bind]. by rewrite Hbio.
Qed.

(** ** Properties *)

Lemma file_2_bytes_ok `{FileSystem} path b0 :
  (forall f, fopen path = Some f -> 0 <= f_tell f < 2 ^ 32 - 1 ->
     file_2_bytes (Some path) (Some b0) =
     Ok (f_close f,
         if f_tell f <=? zlen (f_bytes f)
         then Some (Some (take (Z.to_nat (f_tell f)) (f_bytes f) ++ [x00]))
         else Some None)) /\
  (fopen path = None -> file_2_bytes (Some path) (Some b0) = Ok (1, Some None)) /\
  file_2_bytes None (Some b0) = Ok (1, Some None) /\
  file_2_bytes (Some path) None = Fault NullDeref.
Proof.
  split; [|split; [|done]].
  - intros f Hf Ht. unfold file_2_bytes. rewrite Hf. cbn [mbind res_bind].
    unfold wrap. rewrite !Z.mod_small by lia.
    pose proof (zlen_nonneg (f_bytes f)).
    assert (Hz : zlen (take (Z.to_nat (f_tell f)) (f_bytes f))
                 = Z.min (f_tell f) (zlen (f_bytes f))) by len.
    rewrite wr_zeros by lia. cbn [mbind res_bind]. rewrite Hz.
    destruct (f_tell f <=? zlen (f_bytes f)) eqn:E; b2p; decide_cmp; cbn [mbind res_bind Z.eqb];
      [|done].
    rewrite Z.min_l by lia. by replace (_ + 1 - _) with 1 by lia.
  - intros Hf. unfold file_2_bytes. by rewrite Hf.
Qed.

(** every outcome of [file_2_bytes] on a file below the range of [unsigned int]: the
    whole content with a zero after it, and the result of [fclose] as the error; on a
    short read no buffer, yet again only the result of [fclose], so the read error is
    lost; without a file the error 1; without an output pointer a null pointer is
    followed on the error path. *)
Theorem file_2_bytes_spec `{FileSystem} path b0 :
  (forall f, fopen path = Some f -> 0 <= f_tell f < 2 ^ 32 - 1 ->
     file_2_bytes (Some path) (Some b0) =
     Ok (f_close f,
         if f_tell f <=? zlen (f_bytes f)
         then Some (Some (take (Z.to_nat (f_tell f)) (f_bytes f) ++ [x00]))
         else Some None)) /\
  (fopen path = None -> file_2_bytes (Some path) (Some b0) = Ok (1, Some None)) /\
  file_2_bytes None (Some b0) = Ok (1, Some None) /\
  file_2_bytes (Some path) None = Fault NullDeref.
Proof. apply file_2_bytes_ok. Qed.

(** [rsa_dec] with the private key undoes [rsa_enc] with the public key for every
    input that fits one padded block: the block length and the input length are reported,
    the decrypted buffer starts with the input. *)
Theorem rsa_roundtrip `{RSALaws} pub prv input lenin n0 b0 b1 :
  key_pair pub prv -> 1 <= lenin <= RSA_size pub - 11 -> lenin <= zlen input ->
  exists ct pt,
    rsa_enc (Some pub) input (Some b0) lenin (Some n0)
      = Ok (0, Some (Some ct), Some (RSA_size pub)) /\
    rsa_dec (Some prv) (Some ct) (Some b1) (RSA_size pub) (Some n0)
      = Ok (0, Some (Some pt), Some lenin) /\
    take (Z.to_nat lenin) pt = take (Z.to_nat lenin) input.
Proof.
  intros Hk Hl Hi.
  destruct (rsa_enc_ok pub prv input b0 lenin (Some n0) Hk Hl Hi)
    as (ct & pad & Hct & Hsz & Hp & Henc).
  assert (Hpt : zlen (take (Z.to_nat lenin) input) = lenin) by len.
  destruct (rsa_dec_ok pub prv ct pad b1 _ (Some n0) Hk Hct) as (pad' & Hp' & Hdec); [lia|].
  rewrite Hpt in Hdec. exists (ct ++ pad), (take (Z.to_nat lenin) input ++ pad').
  split; [exact Henc|]. split; [exact Hdec|].
  apply take_app_length'. unfold zlen in *. lia.
Qed.

(** the error results of [rsa_enc] and [rsa_dec] differ: without a key both return 1,
    but when the library cannot encrypt, [rsa_enc] returns 0 and leaves the output as it
    was, where [rsa_dec] returns 1. *)
Theorem rsa_error_results `{RSALib} key input b0 lenin n0 :
  0 <= lenin <= zlen input -> 1 <= RSA_size key ->
  rsa_enc None input (Some b0) lenin (Some n0) = Ok (1, Some b0, Some n0) /\
  rsa_dec None (Some input) (Some b0) lenin (Some n0) = Ok (1, Some b0, Some n0) /\
  (RSA_public_encrypt (take (Z.to_nat lenin) input) key = None ->
   rsa_enc (Some key) input (Some b0) lenin (Some n0) = Ok (0, Some b0, Some n0)) /\
  (RSA_private_decrypt (take (Z.to_nat lenin) input) key = None ->
   rsa_dec (Some key) (Some input) (Some b0) lenin (Some n0) = Ok (1, Some b0, Some n0)).
Proof.
  intros Hl Hk. split; [done|]. split; [done|].
  destruct (rsa_buflen_bounds lenin (RSA_size key)) as (Hb & _); [lia..|].
  assert (Hsrc : rd input 0 lenin = Ok (take (Z.to_nat lenin) input))
    by (rewrite rd_ok by lia; by rewrite drop_0).
  split; intros E; unfold rsa_enc, rsa_dec; decide_cmp;
    rewrite MY_MALLOC_ok by lia; cbn [mbind res_bind]; rewrite Hsrc; cbn [mbind res_bind];
    by rewrite E.
Qed.

Lemma put_pubkey_msg_ok `{RSALib} `{FileSystem} `{Heap} obj dev out err :
  let n := zlen obj in
  SZ_COM <= n -> cstr_at obj off_dev_id = Ok dev ->
  file_2_pubrsa (Some (take 2047 (dev ++ str ".public-key.pem."))) (Some None)
    = Ok (err, Some out) ->
  match (if err =? 0 then out else None) with
  | None => put_pubkey_msg (Some obj) n = Ok (1, Some obj, n)
  | Some rsa => 8 <= zlen (RSA_object rsa) -> exists obj',
      put_pubkey_msg (Some obj) n
      = Ok (0, if realloc_moves obj (n + 8) then None else Some obj', n + 8) /\
      zlen obj' = n + 8 /\ rd obj' SZ_COM 8 = Ok (take 8 (RSA_object rsa)) /\
      get_u16 obj' off_len = Ok 8 /\
      forall off len, 0 <= off -> off + len <= n -> off + len <= off_len \/ SZ_COM + 8 <= off ->
        rd obj' off len = rd obj off len
  end.
Proof.
  intros n Hn Hd Hf. unfold put_pubkey_msg. rewrite Hd. cbn [mbind res_bind].
  change (Z.to_nat (MAX_PATH - 1)) with 2047%nat. rewrite Hf.
  cbn [mbind res_bind default from_option id]. destruct (if err =? 0 then out else None) as [rsa|]; [|done]. intros Hk.
  pose proof (realloc_obj_grow obj (n + 8)) as Hg. fold n in Hg.
  pose proof (realloc_obj_length obj (n + 8)) as Hlo.
  pose proof (zlen_zeros 8 ltac:(done)) as Hz. unfold SZ_COM in *.
  set (o := realloc_obj obj (n + 8)) in *.
  destruct (wr_some o 100 (zeros 8)) as (o1 & E1 & L1); [lia..|].
  rewrite E1. cbn [mbind res_bind]. rewrite rd_ok by lia. cbn [mbind res_bind].
  rewrite drop_0. change (Z.to_nat 8) with 8%nat.
  assert (Ht : zlen (take 8 (RSA_object rsa)) = 8) by len.
  destruct (wr_some o1 100 (take 8 (RSA_object rsa))) as (o2 & E2 & L2); [lia..|].
  rewrite E2. cbn [mbind res_bind]. rewrite put_u16_wr by (unfold off_len; lia).
  pose proof (zlen_le_bytes 2 8) as Hle.
  destruct (wr_some o2 off_len (le_bytes 2 8)) as (o3 & E3 & L3); [unfold off_len; lia..|].
  rewrite E3. cbn [mbind res_bind]. exists o3. split; [done|]. split; [lia|].
  split; [|split].
  - rewrite (rd_wr_disjoint _ _ _ _ _ _ E3) by (unfold off_len; lia).
    rewrite <- Ht at 1. by apply rd_wr_same in E2.
  - by apply get_u16_wr in E3.
  - unfold off_len in *. intros off len Ho Hle' Hd'.
    rewrite (rd_wr_disjoint _ _ _ _ _ _ E3), (rd_wr_disjoint _ _ _ _ _ _ E2),
      (rd_wr_disjoint _ _ _ _ _ _ E1) by lia.
    rewrite Hg by lia. destruct (Z.le_gt_cases 0 len).
    + rewrite (rd_ok obj) by lia. apply rd_app_l. by rewrite rd_ok by lia.
    + by rewrite !rd_oob by lia.
Qed.

(** when the key file of a device loads, [put_pubkey_msg] grows the message by eight
    bytes, stores the first eight bytes of the key object where the data starts, records
    the length 8, and keeps every other byte of the message; the caller's pointer is left
    dangling exactly when [realloc] moves the object.  When the key does not load the
    message is untouched and the error is 1. *)
Theorem put_pubkey_msg_spec `{RSALib} `{FileSystem} `{Heap} obj dev out err :
  let n := zlen obj in
  SZ_COM <= n -> cstr_at obj off_dev_id = Ok dev ->
  file_2_pubrsa (Some (take 2047 (dev ++ str ".public-key.pem."))) (Some None)
    = Ok (err, Some out) ->
  match (if err =? 0 then out else None) with
  | None => put_pubkey_msg (Some obj) n = Ok (1, Some obj, n)
  | Some rsa => 8 <= zlen (RSA_object rsa) -> exists obj',
      put_pubkey_msg (Some obj) n
      = Ok (0, if realloc_moves obj (n + 8) then None else Some obj', n + 8) /\
      zlen obj' = n + 8 /\ rd obj' SZ_COM 8 = Ok (take 8 (RSA_object rsa)) /\
      get_u16 obj' off_len = Ok 8 /\
      forall off len, 0 <= off -> off + len <= n -> off + len <= off_len \/ SZ_COM + 8 <= off ->
        rd obj' off len = rd obj off len
  end.
Proof. apply put_pubkey_msg_ok. Qed.

(** ** The properties at concrete files *)

Definition toy_keys : FileSystem :=
  toy_fs [(sample_id ++ str ".public-key.pem.", toy_file (str "K"));
          (sample_id ++ str ".public-key.pem", toy_file (str "K"));
          (sample_id ++ str ".private-key.pem", toy_file (str "K"));
          (str "srv-public-key.pem", toy_file (str "S"));
          (str "srv-private-key.pem", toy_file (str "S"));
          (str "short", {| f_tell := 9; f_bytes := str "cut"; f_close := 0 |})].

Lemma file_2_bytes_spec_witness :
  @file_2_bytes toy_keys (Some (str "srv-public-key.pem")) (Some None)
    = Ok (0, Some (Some (str "S" ++ [x00]))) /\
  @file_2_bytes toy_keys (Some (str "short")) (Some None) = Ok (0, Some None).
Proof.
  split.
  - apply (proj1 (@file_2_bytes_spec toy_keys (str "srv-public-key.pem") None)
      (toy_file (str "S"))); [vm_compute; reflexivity|vm_compute; split; congruence].
  - apply (proj1 (@file_2_bytes_spec toy_keys (str "short") None)
      {| f_tell := 9; f_bytes := str "cut"; f_close := 0 |});
      [vm_compute; reflexivity|vm_compute; split; congruence].
Defined.

Lemma rsa_roundtrip_witness :
  exists ct pt,
    rsa_enc (Some key_K) (sample_msg MSG_TRA G_NTF_CLI) (Some None) 100 (Some 0)
      = Ok (0, Some (Some ct), Some 512) /\
    rsa_dec (Some key_K) (Some ct) (Some None) 512 (Some 0) = Ok (0, Some (Some pt), Some 100) /\
    take 100 pt = sample_msg MSG_TRA G_NTF_CLI.
Proof.
  apply (rsa_roundtrip key_K key_K (sample_msg MSG_TRA G_NTF_CLI) 100 0 None None);
    [vm_compute; reflexivity|vm_compute; split; discriminate|vm_compute; discriminate].
Defined.

Lemma rsa_error_results_witness :
  rsa_enc (Some key_K) (zeros 600) (Some None) 600 (Some 0) = Ok (0, Some None, Some 0) /\
  rsa_dec (Some key_K) (Some (zeros 600)) (Some None) 600 (Some 0) = Ok (1, Some None, Some 0).
Proof.
  destruct (rsa_error_results key_K (zeros 600) None 600 0) as (_ & _ & H1 & H2).
  - vm_compute; split; discriminate.
  - vm_compute; discriminate.
  - split; [apply H1|apply H2]; vm_compute; reflexivity.
Defined.

Lemma put_pubkey_msg_spec_witness :
  exists obj', @put_pubkey_msg toy_rsa toy_keys (toy_heap false)
      (Some (sample_msg MSG_REG G_NTF_CLI)) 100 = Ok (0, Some obj', 108) /\
    rd obj' SZ_COM 8 = Ok (replicate 8 x4b).
Proof.
  destruct (@put_pubkey_msg_spec toy_rsa toy_keys (toy_heap false)
    (sample_msg MSG_REG G_NTF_CLI) sample_id (Some key_K) 0) as (o & H1 & _ & H2 & _).
  - vm_compute; discriminate.
  - vm_compute; reflexivity.
  - vm_compute; reflexivity.
  - vm_compute; discriminate.
  - exists o. split; [exact H1|exact H2].
Defined.
