(* ===== verification/AesMessage.v ===== *)
(** * AES encryption of messages and files

    Models [gcm_encrypt], [gcm_decrypt], [ev_aes_enc], [ev_aes_dec], [msg_aes_enc],
    [msg_aes_dec], [ntf_aes_encrypt], [ntf_aes_file] and [get_aes256_key] of
    src/notify.system/msg_notify.c.  [handleErrors] only prints, so the result of an EVP
    call never changes the control flow; each call is written in its place. *)
From S2P Require Import Prelude Message OpenSSL KeyFiles Toy.

Definition aes_key : list byte :=
  [xf0; xa1; xb3; xc0; xd5; x11; x13; x17; x70; xa2; xb5; x70; xd1; x1a; x12; x87;
   x70; xa2; xb5; x70; xd1; x1a; x12; x87; x70; xa2; xb5; x70; xd1; x1a; x12; x87].
(** A string literal, with its terminating zero; the program uses its first 16 bytes. *)
Definition aes_iv : list byte := str "!@#$%^&*()(*&^%$#@!@#$%^&*(*&%$#@@@))" ++ [x00].

(** ** One GCM encryption *)

Section Gcm.
Context `{EL : EVPLib}.

(** Returns [ciphertext_len] and the objects [ciphertext] and [tag] point to. *)
Definition gcm_encrypt (plaintext : list byte) (plaintext_len : Z) (aad : list byte)
    (aad_len : Z) (key iv : list byte) (iv_len : Z) (ciphertext tag : list byte)
    : res (Z * list byte * list byte) :=
  let ctx := EVP_CIPHER_CTX_new in
  let ctx := EVP_EncryptInit_cipher ctx in
  let ctx := EVP_CTRL_GCM_SET_IVLEN ctx iv_len in
  k ← rd key 0 AES_BYTES;
  v ← rd iv 0 iv_len;
  let ctx := EVP_EncryptInit_key ctx k v in
  a ← rd aad 0 aad_len;
  let '(ctx, _) := EVP_EncryptUpdate_aad ctx a in
  p ← rd plaintext 0 plaintext_len;
  let '(ctx, ct, len) := EVP_EncryptUpdate ctx p in
  ciphertext ← wr ciphertext 0 ct;
  let ciphertext_len := len in
  let '(ctx, fin, len) := EVP_EncryptFinal_ex ctx in
  ciphertext ← wr ciphertext ciphertext_len fin;
  let ciphertext_len := ciphertext_len + len in
  tag ← wr tag 0 (EVP_CTRL_GCM_GET_TAG ctx);
  Ok (ciphertext_len, ciphertext, tag).

(** Returns the length, [-1] when the tag does not verify, and the object [plaintext]
    points to, which is written in both cases. *)
Definition gcm_decrypt (ciphertext : list byte) (ciphertext_len : Z) (aad : list byte)
    (aad_len : Z) (tag key iv : list byte) (iv_len : Z) (plaintext : list byte)
    : res (Z * list byte) :=
  let ctx := EVP_CIPHER_CTX_new in
  let ctx := EVP_DecryptInit_cipher ctx in
  let ctx := EVP_CTRL_GCM_SET_IVLEN ctx iv_len in
  k ← rd key 0 AES_BYTES;
  v ← rd iv 0 iv_len;
  let ctx := EVP_DecryptInit_key ctx k v in
  a ← rd aad 0 aad_len;
  let '(ctx, _) := EVP_DecryptUpdate_aad ctx a in
  c ← rd ciphertext 0 ciphertext_len;
  let '(ctx, pt, len) := EVP_DecryptUpdate ctx c in
  plaintext ← wr plaintext 0 pt;
  let plaintext_len := len in
  t ← rd tag 0 16;
  let ctx := EVP_CTRL_GCM_SET_TAG ctx t in
  let '(ctx, fin, len, ret) := EVP_DecryptFinal_ex ctx in
  plaintext ← wr plaintext plaintext_len fin;
  if 0 <? ret then Ok (plaintext_len + len, plaintext) else Ok (-1, plaintext).

(** ** Encryption with a separate tag *)

Definition ev_aes_enc (input : option (list byte)) (out : option (option (list byte)))
    (key iv : option (list byte)) (lenin : Z) (outlen : option Z) (tag : list byte)
    : res (Z * option (option (list byte)) * option Z * list byte) :=
  match input, out, key, iv, outlen with
  | Some input, Some _, Some key, Some iv, Some _ =>
    tag ← wr tag 0 (zeros 8);     (* sizeof(tag) is the size of a pointer *)
    let buf := zeros (MAX_MSG + 1) in
    '(n, buf, tag) ← gcm_encrypt input lenin iv AES_IV_BYTES key iv AES_IV_BYTES buf tag;
    if n <? 1 then Ok (1, out, outlen, tag)
    else
      p ← MY_MALLOC (n + 1);
      s ← rd buf 0 n;
      p ← wr p 0 s;
      Ok (0, Some (Some p), Some n, tag)
  | _, _, _, _, _ => Ok (1, out, outlen, tag)
  end.

Definition ev_aes_dec (input : option (list byte)) (out : option (option (list byte)))
    (key iv : option (list byte)) (lenin : Z) (outlen : option Z) (tag : list byte)
    : res (Z * option (option (list byte)) * option Z) :=
  match input, out, key, iv, outlen with
  | Some input, Some _, Some key, Some iv, Some _ =>
    let buf := zeros (MAX_MSG + 1) in
    '(n, buf) ← gcm_decrypt input lenin iv AES_IV_BYTES tag key iv AES_IV_BYTES buf;
    if n <? 1 then Ok (1, out, outlen)
    else
      p ← MY_MALLOC (n + 1);
      s ← rd buf 0 n;
      p ← wr p 0 s;
      Ok (0, Some (Some p), Some n)
  | _, _, _, _, _ => Ok (1, out, outlen)
  end.

(** ** Encrypted datagrams: ciphertext, tag, marker byte *)

Definition msg_aes_enc (input buffer key iv : option (list byte)) (lenin : Z)
    (lenout : option Z) (lim : Z) : res (Z * option (list byte) * option Z) :=
  match input, buffer, key, iv, lenout with
  | Some input, Some buf, Some key, Some iv, Some _ =>
    if lim <? lenin + 1 + AES_IV_BYTES then Ok (1, buffer, lenout)
    else
      let tag := zeros (AES_IV_BYTES + 1) in
      '(len, buf, tag) ← gcm_encrypt input lenin iv AES_IV_BYTES key iv AES_IV_BYTES buf tag;
      if len <? 0 then Ok (1, Some buf, lenout)
      else
        t ← rd tag 0 AES_IV_BYTES;
        buf ← wr buf len t;
        let len := len + AES_IV_BYTES in
        buf ← wr buf len [rsa_aes ENCRYPT_AES];
        let len := len + 1 in
        Ok (0, Some buf, Some len)
  | _, _, _, _, _ => Ok (1, buffer, lenout)
  end.

Definition msg_aes_dec (input buf key iv : option (list byte)) (lenin : Z)
    (lenout : option Z) (lim : Z) : res (Z * option (list byte) * option Z) :=
  match input, buf, key, iv, lenout with
  | Some input, Some b, Some key, Some iv, Some _ =>
    if lenin >? MAX_MSG + 1 then Ok (1, buf, lenout)
    else if lenin <? AES_IV_BYTES + 1 then Ok (1, buf, lenout)
    else if lim <? lenin - 1 - AES_IV_BYTES then Ok (1, buf, lenout)
    else
      t ← rd input (lenin - 1 - AES_IV_BYTES) AES_IV_BYTES;
      tag ← wr (zeros (AES_IV_BYTES + 1)) 0 t;
      '(len, b) ← gcm_decrypt input (lenin - 1 - AES_IV_BYTES) iv AES_IV_BYTES tag
                    key iv AES_IV_BYTES b;
      if len <? 0 then Ok (1, Some b, Some 0) else Ok (0, Some b, Some len)
  | _, _, _, _, _ => Ok (1, buf, lenout)
  end.

(** [*key] and [*iv] after the call. *)
Definition get_aes256_key (key iv : option (option (list byte)))
    : res (Z * option (option (list byte)) * option (option (list byte))) :=
  match key, iv with
  | Some _, Some _ =>
    k ← MY_MALLOC 32;
    v ← MY_MALLOC 16;
    sk ← rd aes_key 0 32;
    k ← wr k 0 sk;
    sv ← rd aes_iv 0 16;
    v ← wr v 0 sv;
    Ok (0, Some (Some k), Some (Some v))
  | _, _ => Ok (1, key, iv)
  end.
End Gcm.

(** ** Block-wise encryption *)

Section Blocks.
Context `{AL : AESLib}.

Definition AES_BLOCK_SIZE : Z := 16.
Definition AES_BITS : Z := 256.

Definition aes_set_key (key : list byte) (enc : Z) : res (Z * AES_KEY) :=
  k ← rd key 0 (AES_BITS / 8);
  Ok (if negb (enc =? 0) then AES_set_encrypt_key k AES_BITS
      else AES_set_decrypt_key k AES_BITS).

(** One call of [AES_cfb128_encrypt] on a block, with [iv[17]] and [i] set anew. *)
Definition aes_block (wctx : AES_KEY) (ivec : list byte) (enc : Z) (b : list byte)
    : res (list byte) :=
  v ← rd ivec 0 AES_BLOCK_SIZE;
  iv ← wr (zeros (AES_BLOCK_SIZE + 1)) 0 v;
  Ok (AES_cfb128_encrypt b wctx iv AES_BLOCK_SIZE enc).

(** [while (k < n)] *)
Fixpoint aes_blocks (fuel : nat) (input out : list byte) (wctx : AES_KEY)
    (ivec : list byte) (k n enc : Z) : res (list byte) :=
  match fuel with
  | O => Fault NoFuel
  | S fuel' =>
    if k <? n then
      b ← rd input k AES_BLOCK_SIZE;
      c ← aes_block wctx ivec enc b;
      out ← wr out k c;
      aes_blocks fuel' input out wctx ivec (k + AES_BLOCK_SIZE) n enc
    else Ok out
  end.

(** The objects [in] and [out] are distinct. *)
Definition ntf_aes_encrypt (input out key ivec : list byte) (n enc : Z)
    : res (Z * list byte) :=
  if (n <? 1) || negb (Z.rem n AES_BLOCK_SIZE =? 0) then Ok (1, out)
  else
    '(err, wctx) ← aes_set_key key enc;
    if negb (err =? 0) then Ok (err, out)
    else
      out ← aes_blocks (S (Z.to_nat n)) input out wctx ivec 0 n enc;
      Ok (0, out).

(** The file written to: how many bytes the disk takes, and the result of [fclose]. *)
Record OUTFILE := { o_room : Z; o_close : Z }.

(** The block loop of [ntf_aes_file]: [rest] is what [fread] has not delivered yet, [acc]
    what [fwrite] has accepted. *)
Fixpoint file_blocks (fuel : nat) (rest acc : list byte) (room : Z) (wctx : AES_KEY)
    (ivec : list byte) (enc : Z) : res (list byte) :=
  match fuel with
  | O => Fault NoFuel
  | S fuel' =>
    let got := take (Z.to_nat AES_BLOCK_SIZE) rest in
    let k := zlen got in
    bin ← wr (zeros (AES_BLOCK_SIZE + 1)) 0 got;
    if k <? 1 then Ok acc
    else
      b ← rd bin 0 AES_BLOCK_SIZE;
      c ← aes_block wctx ivec enc b;
      bout ← wr (zeros (AES_BLOCK_SIZE + 1)) 0 c;
      s ← rd bout 0 k;
      let s := take (Z.to_nat (room - zlen acc)) s in
      let l := zlen s in
      if negb (l =? k) then Ok (acc ++ s)
      else if k <? AES_BLOCK_SIZE then Ok (acc ++ s)
      else file_blocks fuel' (drop (Z.to_nat AES_BLOCK_SIZE) rest) (acc ++ s) room wctx ivec enc
  end.

(** [fopen(out, "w+b")] is [wopen]; the result is the error and what was written to [out].
    Each [fclose] overwrites the error. *)
Definition ntf_aes_file `{FileSystem} (wopen : list byte -> option OUTFILE)
    (input out : option (list byte)) (key ivec : list byte) (enc : Z)
    : res (Z * option (list byte)) :=
  match input, out with
  | None, _ | _, None => Ok (1, None)
  | Some pin, Some pout =>
    match fopen pin with
    | None => Ok (1, None)
    | Some fin =>
      match wopen pout with
      | None => Ok (f_close fin, None)
      | Some fout =>
        '(err, wctx) ← aes_set_key key enc;
        if negb (err =? 0) then Ok (o_close fout, Some [])
        else
          w ← file_blocks (S (length (f_bytes fin))) (f_bytes fin) [] (o_room fout)
                wctx ivec enc;
          Ok (o_close fout, Some w)
      end
    end
  end.
End Blocks.

(** ** Lemmas: GCM *)

Lemma drop_split_17 {A} (l : list A) n :
  (n + 17 <= length l)%nat ->
  exists t m rest, drop n l = t ++ m :: rest /\ length t = 16%nat /\ drop (n + 17) l = rest.
Proof.
  intros H. destruct (lookup_lt_is_Some_2 l (n + 16)) as [m Hm]; [lia|].
  exists (take 16 (drop n l)), m, (drop (n + 17) l). split; [|split; [|done]].
  - rewrite <- (take_drop 16 (drop n l)) at 1. f_equal. rewrite drop_drop.
    rewrite (drop_S _ _ _ Hm). f_equal. f_equal. lia.
  - rewrite length_take, length_drop. lia.
Qed.

Section GcmLemmas.
Context `{GL : GCMLaws}.

(** The two arguments OpenSSL sees. *)
Definition key32 (key : list byte) : list byte := take 32 key.
Definition iv16 (iv : list byte) : list byte := take 16 iv.
Definition seal (key iv pt : list byte) : list byte := gctr (key32 key) (iv16 iv) pt.
Definition tag_of (key iv ct : list byte) : list byte :=
  gtag (key32 key) (iv16 iv) (iv16 iv) ct.

Lemma zlen_seal key iv pt : zlen (seal key iv pt) = zlen pt.
Proof. unfold zlen, seal. by rewrite gctr_length. Qed.
Lemma seal_seal key iv pt : seal key iv (seal key iv pt) = pt.
Proof. apply gctr_inv. Qed.

Lemma gcm_encrypt_ok input lenin key iv buf tag :
  32 <= zlen key -> 16 <= zlen iv -> 0 <= lenin <= zlen input -> lenin <= zlen buf ->
  16 <= zlen tag ->
  let ct := seal key iv (take (Z.to_nat lenin) input) in
  gcm_encrypt input lenin iv 16 key iv 16 buf tag
  = Ok (lenin, ct ++ drop (Z.to_nat lenin) buf, tag_of key iv ct ++ drop 16 tag).
Proof.
  intros Hk Hv Hl Hb Ht ct. unfold gcm_encrypt, AES_BYTES.
  rewrite !rd_head by lia. cbn [mbind res_bind].
  change (Z.to_nat 32) with 32%nat. change (Z.to_nat 16) with 16%nat.
  pose proof (evp_encrypt (take 32 key) (take 16 iv) (take 16 iv) (take (Z.to_nat lenin) input))
    as HE.
  assert (zlen (take 32 key) = 32) by len. assert (Hv16 : zlen (take 16 iv) = 16) by len.
  unfold evp_enc_start in HE. rewrite Hv16 in HE.
  destruct (EVP_EncryptUpdate_aad _ _) as [c1 l1].
  destruct (EVP_EncryptUpdate _ _) as [[c2 ct'] l2] eqn:EU.
  destruct (EVP_EncryptFinal_ex _) as [[c3 fin] l3] eqn:EF.
  destruct HE as (-> & -> & -> & -> & Htag); [done..|].
  assert (Hc : zlen ct = lenin) by (unfold ct; rewrite zlen_seal; len).
  change (gctr (take 32 key) (take 16 iv) (take (Z.to_nat lenin) input)) with ct in *.
  replace (zlen (take (Z.to_nat lenin) input)) with lenin by len.
  clearbody ct. rewrite (wr_head buf) by lia. cbn [mbind res_bind].
  rewrite wr_nil by (rewrite ?zlen_app; pose proof (zlen_nonneg (drop (length ct) buf)); lia).
  cbn [mbind res_bind]. rewrite Htag.
  change (gtag (take 32 key) (take 16 iv) (take 16 iv) ct) with (tag_of key iv ct).
  pose proof (gtag_length (key32 key) (iv16 iv) (iv16 iv) ct) as Hg.
  rewrite wr_head by (unfold tag_of; lia). cbn [mbind res_bind].
  f_equal. f_equal; [|unfold tag_of, zlen in *; do 2 f_equal; lia].
  f_equal; [lia|]. f_equal. f_equal. unfold zlen in Hc. lia.
Qed.

Lemma gcm_decrypt_ok input clen tag key iv buf :
  32 <= zlen key -> 16 <= zlen iv -> 0 <= clen <= zlen input -> clen <= zlen buf ->
  16 <= zlen tag ->
  let ct := take (Z.to_nat clen) input in
  gcm_decrypt input clen iv 16 tag key iv 16 buf
  = Ok (if bool_decide (take 16 tag = tag_of key iv ct) then clen else -1,
        seal key iv ct ++ drop (Z.to_nat clen) buf).
Proof.
  intros Hk Hv Hl Hb Ht ct. unfold gcm_decrypt, AES_BYTES.
  rewrite !rd_head by lia. cbn [mbind res_bind].
  change (Z.to_nat 32) with 32%nat. change (Z.to_nat 16) with 16%nat.
  pose proof (evp_decrypt (take 32 key) (take 16 iv) (take 16 iv) ct (take 16 tag)) as HD.
  assert (zlen (take 32 key) = 32) by len. assert (Hv16 : zlen (take 16 iv) = 16) by len.
  assert (zlen (take 16 tag) = 16) by len.
  unfold evp_dec_start in HD. rewrite Hv16 in HD. fold ct.
  destruct (EVP_DecryptUpdate_aad _ _) as [c1 l1].
  destruct (EVP_DecryptUpdate _ _) as [[c2 pt] l2].
  destruct (EVP_DecryptFinal_ex _) as [[[c3 fin] l3] ret].
  destruct HD as (-> & -> & -> & -> & Hret); [done..|].
  change (gctr (take 32 key) (take 16 iv) ct) with (seal key iv ct).
  change (gtag (take 32 key) (take 16 iv) (take 16 iv) ct) with (tag_of key iv ct) in Hret.
  assert (Hc : zlen ct = clen) by (unfold ct; len).
  pose proof (zlen_seal key iv ct) as Hs.
  rewrite (wr_head buf) by lia. cbn [mbind res_bind].
  pose proof (zlen_nonneg (drop (length (seal key iv ct)) buf)).
  rewrite wr_nil by (rewrite ?zlen_app; lia). cbn [mbind res_bind].
  assert (Hlen : length (seal key iv ct) = Z.to_nat clen) by (unfold zlen in *; lia).
  rewrite Hlen, Hret. case_bool_decide; do 2 f_equal; lia.
Qed.

(** ** Lemmas: framed messages *)

(** A datagram: ciphertext, tag, marker. *)
Definition frame (key iv pt : list byte) : list byte :=
  seal key iv pt ++ tag_of key iv (seal key iv pt) ++ [rsa_aes ENCRYPT_AES].

Lemma zlen_tag key iv ct : zlen (tag_of key iv ct) = 16.
Proof. apply gtag_length. Qed.
Lemma zlen_frame key iv pt : zlen (frame key iv pt) = zlen pt + 17.
Proof.
  unfold frame. rewrite !zlen_app, zlen_seal, zlen_tag. change (zlen [_]) with 1. lia.
Qed.

Lemma msg_aes_enc_ok input buf key iv lenin n0 lim :
  32 <= zlen key -> 16 <= zlen iv -> 0 <= lenin <= zlen input -> lim <= zlen buf ->
  msg_aes_enc (Some input) (Some buf) (Some key) (Some iv) lenin (Some n0) lim
  = Ok (if lim <? lenin + 17 then (1, Some buf, Some n0)
        else (0, Some (frame key iv (take (Z.to_nat lenin) input)
                       ++ drop (Z.to_nat lenin + 17) buf), Some (lenin + 17))).
Proof.
  intros Hk Hv Hl Hb. unfold msg_aes_enc, AES_IV_BYTES.
  replace (lenin + 1 + 16) with (lenin + 17) by lia.
  destruct (lim <? lenin + 17) eqn:E; b2p; [done|].
  rewrite gcm_encrypt_ok by (rewrite ?zlen_zeros; lia). cbn [mbind res_bind]. decide_cmp.
  unfold frame. set (pt := take _ input). set (ct := seal key iv pt).
  assert (Hc : zlen ct = lenin) by (unfold ct, pt; rewrite zlen_seal; len).
  pose proof (zlen_tag key iv ct) as Ht. set (tag := tag_of key iv ct) in *.
  clearbody ct tag. clear pt.
  rewrite (rd_part _ [] tag (drop 16 (zeros (16 + 1))) 0 16) by done. cbn [mbind res_bind].
  destruct (drop_split_17 buf (Z.to_nat lenin)) as (t & m & rest & Hd & Hlt & Hr);
    [unfold zlen in *; lia|].
  rewrite Hd, <- Hc. assert (zlen t = zlen tag) by (unfold zlen in *; lia).
  rewrite wr_mid by done. cbn [mbind res_bind].
  replace (zlen ct + 16) with (zlen (ct ++ tag)) by (rewrite zlen_app; lia).
  rewrite app_assoc. change (m :: rest) with ([m] ++ rest). rewrite wr_mid by done.
  cbn [mbind res_bind]. rewrite <- Hr, <- !app_assoc. rewrite zlen_app, Ht.
  replace (Z.to_nat (zlen ct)) with (Z.to_nat lenin) by (by rewrite Hc).
  do 3 f_equal. lia.
Qed.

Lemma msg_aes_dec_ok input buf key iv lenin n0 lim :
  32 <= zlen key -> 16 <= zlen iv -> lenin <= zlen input -> lim <= zlen buf ->
  let ct := take (Z.to_nat (lenin - 17)) input in
  let tag := take 16 (drop (Z.to_nat (lenin - 17)) input) in
  msg_aes_dec (Some input) (Some buf) (Some key) (Some iv) lenin (Some n0) lim
  = Ok (if (lenin >? 1201) || (lenin <? 17) || (lim <? lenin - 17)
        then (1, Some buf, Some n0)
        else let b := seal key iv ct ++ drop (Z.to_nat (lenin - 17)) buf in
             if bool_decide (tag = tag_of key iv ct)
             then (0, Some b, Some (lenin - 17)) else (1, Some b, Some 0)).
Proof.
  intros Hk Hv Hl Hb ct tag. unfold msg_aes_dec, AES_IV_BYTES, MAX_MSG.
  change (1200 + 1) with 1201. change (16 + 1) with 17.
  replace (lenin - 1 - 16) with (lenin - 17) by lia.
  destruct (lenin >? 1201) eqn:E1; [done|].
  destruct (lenin <? 17) eqn:E2; [done|]. destruct (lim <? lenin - 17) eqn:E3; [done|].
  rewrite Z.gtb_ltb in E1. b2p. cbn [orb].
  rewrite rd_ok by lia. change (Z.to_nat 16) with 16%nat. fold tag. cbn [mbind res_bind].
  assert (Ht : zlen tag = 16) by (unfold tag; len).
  rewrite wr_zeros by lia. cbn [mbind res_bind].
  rewrite gcm_decrypt_ok by (rewrite ?zlen_app, ?zlen_zeros; lia). cbn [mbind res_bind].
  rewrite (take_app_length' tag) by (unfold zlen in Ht; lia). fold ct.
  case_bool_decide; by decide_cmp.
Qed.

Lemma rd_frame_tag key iv pt rest :
  let ct := seal key iv pt in
  take (length pt) (frame key iv pt ++ rest) = ct /\
  take 16 (drop (length pt) (frame key iv pt ++ rest)) = tag_of key iv ct.
Proof.
  intros ct. unfold frame. fold ct.
  assert (Hc : length ct = length pt) by apply gctr_length.
  rewrite <- Hc, <- app_assoc. split; [by rewrite take_app_length|].
  rewrite drop_app_length, <- app_assoc.
  apply take_app_length'. pose proof (zlen_tag key iv ct). unfold zlen in *. lia.
Qed.

Lemma ev_aes_enc_ok input key iv lenin n0 p0 tag :
  32 <= zlen key -> 16 <= zlen iv -> 0 <= lenin <= zlen input -> lenin <= 1201 ->
  16 <= zlen tag ->
  let ct := seal key iv (take (Z.to_nat lenin) input) in
  ev_aes_enc (Some input) (Some p0) (Some key) (Some iv) lenin (Some n0) tag
  = Ok (if lenin <? 1 then (1, Some p0, Some n0, tag_of key iv ct ++ drop 16 tag)
        else (0, Some (Some (ct ++ [x00])), Some lenin, tag_of key iv ct ++ drop 16 tag)).
Proof.
  intros Hk Hv Hl Hb Ht ct. unfold ev_aes_enc, AES_IV_BYTES, MAX_MSG.
  change (1200 + 1) with 1201.
  rewrite wr_head by (rewrite zlen_zeros; lia). cbn [mbind res_bind].
  change (length (zeros 8)) with 8%nat.
  assert (Ht8 : zlen (zeros 8 ++ drop 8 tag) = zlen tag) by len.
  rewrite gcm_encrypt_ok by (rewrite ?zlen_zeros; lia).
  cbn [mbind res_bind]. fold ct.
  rewrite (drop_app_ge (zeros 8)) by (change (length (zeros 8)) with 8%nat; lia).
  change (16 - length (zeros 8))%nat with 8%nat. rewrite drop_drop.
  change (8 + 8)%nat with 16%nat. destruct (lenin <? 1) eqn:E; b2p; [done|].
  rewrite MY_MALLOC_ok by lia. cbn [mbind res_bind].
  assert (Hc : zlen ct = lenin) by (unfold ct; rewrite zlen_seal; len). clearbody ct.
  rewrite (rd_part _ [] ct (drop (Z.to_nat lenin) (zeros 1201)) 0 lenin) by done.
  cbn [mbind res_bind]. rewrite wr_zeros by lia. cbn [mbind res_bind].
  replace (lenin + 1 - zlen ct) with 1 by lia. done.
Qed.

Lemma ev_aes_dec_ok input key iv lenin n0 p0 tag :
  32 <= zlen key -> 16 <= zlen iv -> 0 <= lenin <= zlen input -> lenin <= 1201 ->
  16 <= zlen tag ->
  let ct := take (Z.to_nat lenin) input in
  ev_aes_dec (Some input) (Some p0) (Some key) (Some iv) lenin (Some n0) tag
  = Ok (if bool_decide (take 16 tag = tag_of key iv ct) && (1 <=? lenin)
        then (0, Some (Some (seal key iv ct ++ [x00])), Some lenin)
        else (1, Some p0, Some n0)).
Proof.
  intros Hk Hv Hl Hb Ht ct. unfold ev_aes_dec, AES_IV_BYTES, MAX_MSG.
  change (1200 + 1) with 1201.
  rewrite gcm_decrypt_ok by (rewrite ?zlen_zeros; lia). cbn [mbind res_bind]. fold ct.
  case_bool_decide; cbn [andb]; [|done].
  destruct (1 <=? lenin) eqn:E; b2p; decide_cmp; [|done].
  rewrite MY_MALLOC_ok by lia. cbn [mbind res_bind].
  assert (Hc : zlen (seal key iv ct) = lenin) by (rewrite zlen_seal; unfold ct; len).
  set (pt := seal key iv ct) in *. clearbody pt.
  rewrite (rd_part _ [] pt (drop (Z.to_nat lenin) (zeros 1201)) 0 lenin) by done.
  cbn [mbind res_bind]. rewrite wr_zeros by lia. cbn [mbind res_bind].
  replace (lenin + 1 - zlen pt) with 1 by lia. done.
Qed.
End GcmLemmas.

(** ** Lemmas: blocks *)

Section BlockLemmas.
Context `{AS : AESLaws}.

(** The reference: a function applied to each block of 16 bytes. *)
Fixpoint map_blocks (f : list byte -> list byte) (k : nat) (s : list byte) : list byte :=
  match k with
  | O => []
  | S k' => f (take 16 s) ++ map_blocks f k' (drop 16 s)
  end.

Definition cfb_block (wctx : AES_KEY) (ivec : list byte) (enc : Z) (b : list byte)
    : list byte :=
  AES_cfb128_encrypt b wctx (take 16 ivec ++ [x00]) 16 enc.

Lemma aes_block_ok wctx ivec enc b :
  16 <= zlen ivec -> aes_block wctx ivec enc b = Ok (cfb_block wctx ivec enc b).
Proof.
  intros Hv. unfold aes_block, AES_BLOCK_SIZE. rewrite rd_head by lia. cbn [mbind res_bind].
  assert (Hl : zlen (take (Z.to_nat 16) ivec) = 16) by len.
  rewrite wr_zeros by lia. cbn [mbind res_bind]. by rewrite Hl.
Qed.

Lemma cfb_block_length wctx ivec enc b : length (cfb_block wctx ivec enc b) = length b.
Proof. apply cfb128_length. Qed.

Lemma aes_blocks_ok fuel input out wctx ivec j m enc :
  16 <= zlen ivec -> 16 * Z.of_nat (j + m) <= zlen input ->
  16 * Z.of_nat (j + m) <= zlen out -> (m < fuel)%nat ->
  aes_blocks fuel input out wctx ivec (16 * Z.of_nat j) (16 * Z.of_nat (j + m)) enc
  = Ok (take (16 * j) out ++ map_blocks (cfb_block wctx ivec enc) m (drop (16 * j) input)
        ++ drop (16 * (j + m)) out).
Proof.
  intros Hv. revert fuel out j. induction m as [|m IH]; intros fuel out j Hi Ho Hf;
    (destruct fuel as [|fuel]; [lia|]); cbn [aes_blocks].
  - decide_cmp. cbn [map_blocks app]. rewrite Nat.add_0_r, take_drop. done.
  - decide_cmp. unfold AES_BLOCK_SIZE. rewrite rd_ok by lia. cbn [mbind res_bind].
    rewrite aes_block_ok by done. cbn [mbind res_bind].
    replace (Z.to_nat (16 * Z.of_nat j)) with (16 * j)%nat by lia.
    change (Z.to_nat 16) with 16%nat.
    set (c := cfb_block wctx ivec enc (take 16 (drop (16 * j) input))).
    assert (Hc : length c = 16%nat)
      by (unfold c, zlen in *; rewrite cfb_block_length, length_take, length_drop; lia).
    rewrite wr_ok by (unfold zlen in *; lia). cbn [mbind res_bind].
    replace (Z.to_nat (16 * Z.of_nat j)) with (16 * j)%nat by lia. rewrite Hc.
    replace (16 * Z.of_nat j + 16) with (16 * Z.of_nat (S j)) by lia.
    replace (j + S m)%nat with (S j + m)%nat by lia.
    rewrite IH; [|lia| |lia].
    + f_equal. cbn [map_blocks]. rewrite drop_drop.
      replace (16 * S j)%nat with (16 * j + 16)%nat by lia. fold c.
      rewrite (take_app_add' _ _ (16 * j) 16) by (unfold zlen in *; rewrite length_take; lia).
      rewrite (take_app_length' c) by done. rewrite <- !app_assoc. do 2 f_equal.
      rewrite drop_app_ge; rewrite length_take, Nat.min_l by (unfold zlen in *; lia); [|lia].
      rewrite drop_app_ge by lia. rewrite drop_drop. f_equal. f_equal. lia.
    + unfold zlen in *. rewrite !length_app, Hc, length_take, length_drop. lia.
Qed.

(** A file: whole blocks, the last one padded with zeros and its result cut again. *)
Definition map_file (f : list byte -> list byte) (m : nat) (s : list byte) : list byte :=
  take (length s) (map_blocks f m (s ++ replicate (16 * m - length s) x00)).

Lemma pad_block s n :
  (length s <= 16 <= n)%nat -> take 16 (s ++ replicate (n - length s) x00)
  = s ++ replicate (16 - length s) x00.
Proof.
  intros Hs. rewrite take_app, take_ge by lia. f_equal. rewrite take_replicate. f_equal. lia.
Qed.

(** The bytes of the next block of a file, padded with zeros. *)
Lemma next_block rest m :
  take 16 (rest ++ replicate (16 * S m - length rest) x00)
  = take 16 rest ++ replicate (16 - length (take 16 rest)) x00.
Proof.
  rewrite length_take. destruct (Nat.le_gt_cases 16 (length rest)).
  - rewrite take_app_le by lia. rewrite Nat.min_l by lia. by rewrite app_nil_r.
  - rewrite (take_ge rest), Nat.min_r by lia. apply pad_block. lia.
Qed.

Lemma file_blocks_ok fuel rest acc room wctx ivec enc m :
  16 <= zlen ivec -> (length rest < fuel)%nat -> (length rest <= 16 * m)%nat ->
  zlen acc + zlen rest <= room ->
  file_blocks fuel rest acc room wctx ivec enc
  = Ok (acc ++ map_file (cfb_block wctx ivec enc) m rest).
Proof.
  intros Hv. revert rest acc m. induction fuel as [|fuel IH]; intros rest acc m Hf Hm Hr; [lia|].
  cbn [file_blocks]. unfold AES_BLOCK_SIZE. change (Z.to_nat 16) with 16%nat.
  change (16 + 1) with 17. remember (take 16 rest) as got eqn:Hgot.
  assert (Hg : length got = (16 `min` length rest)%nat) by (subst got; apply length_take).
  rewrite wr_zeros by (unfold zlen; lia). cbn [mbind res_bind].
  destruct (zlen got <? 1) eqn:E; b2p.
  { unfold zlen in E. destruct rest; [|cbn in Hg; lia].
    unfold map_file. cbn [length]. by rewrite take_0, app_nil_r. }
  destruct m as [|m]; [unfold zlen in E; lia|].
  assert (Hbin : rd (got ++ zeros (17 - zlen got)) 0 16
                 = Ok (got ++ replicate (16 - length got) x00)).
  { rewrite rd_head by (rewrite zlen_app, zlen_zeros; unfold zlen in *; lia).
    change (Z.to_nat 16) with 16%nat. unfold zeros, zlen.
    replace (Z.to_nat (17 - Z.of_nat (length got))) with (17 - length got)%nat by lia.
    by rewrite pad_block by lia. }
  rewrite Hbin. cbn [mbind res_bind]. rewrite aes_block_ok by done. cbn [mbind res_bind].
  set (c := cfb_block wctx ivec enc (got ++ replicate (16 - length got) x00)).
  assert (Hc : length c = 16%nat)
    by (unfold c; rewrite cfb_block_length, length_app, length_replicate; lia).
  rewrite wr_zeros by (unfold zlen; lia). cbn [mbind res_bind].
  rewrite rd_head by (rewrite zlen_app, zlen_zeros; unfold zlen in *; lia).
  cbn [mbind res_bind]. rewrite take_app_le by (unfold zlen; lia).
  rewrite take_take, Nat.min_r by (unfold zlen in *; lia).
  replace (Z.to_nat (zlen got)) with (length got) by (unfold zlen; lia).
  assert (Hs : zlen (take (length got) c) = zlen got) by (unfold zlen; rewrite length_take; lia).
  rewrite Hs, Z.eqb_refl. cbn [negb].
  assert (Hfirst : take 16 (rest ++ replicate (16 * S m - length rest) x00)
                   = got ++ replicate (16 - length got) x00)
    by (rewrite Hgot; apply next_block).
  unfold map_file. cbn [map_blocks]. rewrite Hfirst. fold c.
  destruct (zlen got <? 16) eqn:E2; b2p.
  - f_equal. f_equal. unfold zlen in E2. replace (length got) with (length rest) by lia.
    by rewrite take_app_le by lia.
  - rewrite (IH _ _ m); [| |rewrite length_drop|]; [|len|lia|].
    + unfold zlen in E2. rewrite <- app_assoc. f_equal. f_equal.
      assert (Hl : (length got = 16 /\ 16 <= length rest)%nat) by lia. destruct Hl as [Hl Hl'].
      rewrite Hl, (take_ge c), (take_app_ge c) by lia. f_equal. unfold map_file.
      rewrite Hc, length_drop. f_equal. f_equal.
      rewrite drop_app_le by lia. do 2 f_equal. lia.
    + rewrite zlen_app, Hs. unfold zlen in *. rewrite length_drop. lia.
Qed.
End BlockLemmas.

(** ** Properties *)

Section Properties.
Context `{GL : GCMLaws}.

(** [msg_aes_enc] never writes outside the output buffer when the limit it is given is
    at most the buffer's size: below the limit the buffer holds ciphertext, tag and marker,
    17 bytes more than the plaintext, and is unchanged behind them; at a smaller limit
    nothing is written and the error is 1. *)
Theorem msg_aes_enc_spec input buf key iv lenin n0 lim :
  32 <= zlen key -> 16 <= zlen iv -> 0 <= lenin <= zlen input -> lim <= zlen buf ->
  msg_aes_enc (Some input) (Some buf) (Some key) (Some iv) lenin (Some n0) lim
  = Ok (if lim <? lenin + 17 then (1, Some buf, Some n0)
        else (0, Some (frame key iv (take (Z.to_nat lenin) input)
                       ++ drop (Z.to_nat lenin + 17) buf), Some (lenin + 17))).
Proof. apply msg_aes_enc_ok. Qed.

(** [msg_aes_dec] accepts a datagram exactly when the tag in it is the one of the
    ciphertext in it under the key; a rejected datagram sets the length to 0 and the error
    to 1, and one whose length is outside the allowed range changes nothing. *)
Theorem msg_aes_dec_spec input buf key iv lenin n0 lim :
  32 <= zlen key -> 16 <= zlen iv -> lenin <= zlen input -> lim <= zlen buf ->
  exists err buf' n,
    msg_aes_dec (Some input) (Some buf) (Some key) (Some iv) lenin (Some n0) lim
      = Ok (err, Some buf', Some n) /\
    let ct := take (Z.to_nat (lenin - 17)) input in
    let tag := take 16 (drop (Z.to_nat (lenin - 17)) input) in
    if (17 <=? lenin) && (lenin <=? MAX_MSG + 1) && (lenin - 17 <=? lim) then
      buf' = seal key iv ct ++ drop (Z.to_nat (lenin - 17)) buf /\
      (err = 0 /\ n = lenin - 17 /\ tag = tag_of key iv ct \/
       err = 1 /\ n = 0 /\ tag <> tag_of key iv ct)
    else err = 1 /\ buf' = buf /\ n = n0.
Proof.
  intros Hk Hv Hl Hb. rewrite msg_aes_dec_ok by done. cbv zeta.
  change (MAX_MSG + 1) with 1201. rewrite Z.gtb_ltb.
  destruct (17 <=? lenin) eqn:E1; b2p; cbn [andb orb].
  2: { replace (lenin <? 17) with true by (symmetry; apply Z.ltb_lt; lia).
       rewrite orb_true_r. eauto 10. }
  destruct (lenin <=? 1201) eqn:E2; b2p; cbn [andb orb].
  2: { replace (1201 <? lenin) with true by (symmetry; apply Z.ltb_lt; lia). eauto 10. }
  destruct (lenin - 17 <=? lim) eqn:E3; b2p; decide_cmp; cbn [orb]; [|eauto 10].
  case_bool_decide; eauto 15.
Qed.

(** C6: a datagram built by [msg_aes_enc] is decrypted by [msg_aes_dec] under the same key
    and initial vector to the same bytes, whatever follows it in the receive buffer, as long
    as it fits the largest datagram. *)
Theorem msg_aes_roundtrip input buf buf' key iv lenin n0 n1 rest :
  32 <= zlen key -> 16 <= zlen iv -> 0 <= lenin <= zlen input ->
  lenin + 17 <= zlen buf -> lenin + 17 <= MAX_MSG + 1 -> lenin <= zlen buf' ->
  exists out len, msg_aes_enc (Some input) (Some buf) (Some key) (Some iv) lenin (Some n0)
      (zlen buf) = Ok (0, Some out, Some len) /\
  exists pt, msg_aes_dec (Some (take (Z.to_nat len) out ++ rest)) (Some buf') (Some key)
      (Some iv) len (Some n1) (zlen buf') = Ok (0, Some pt, Some lenin) /\
  take (Z.to_nat lenin) pt = take (Z.to_nat lenin) input.
Proof.
  intros Hk Hv Hl Hb Hm Hb'. rewrite msg_aes_enc_ok by lia. decide_cmp.
  eexists _, (lenin + 17). split; [reflexivity|].
  set (p := take (Z.to_nat lenin) input).
  assert (Hp : zlen p = lenin) by (unfold p; len).
  assert (Hpl : Z.to_nat lenin = length p) by (unfold zlen in Hp; lia).
  pose proof (zlen_frame key iv p) as Hf.
  rewrite take_app_length' by (unfold zlen in *; lia).
  unfold MAX_MSG in Hm. pose proof (zlen_nonneg rest).
  rewrite msg_aes_dec_ok by (rewrite ?zlen_app; lia). rewrite Z.gtb_ltb. decide_cmp.
  cbn [orb]. replace (lenin + 17 - 17) with lenin by lia. rewrite Hpl.
  destruct (rd_frame_tag key iv p rest) as [-> ->]. rewrite bool_decide_true by done.
  eexists. split; [reflexivity|]. rewrite seal_seal. apply take_app_length.
Qed.

(** [ev_aes_dec] with the tag of [ev_aes_enc] gives the plaintext back in a fresh
    zero-terminated buffer; a changed tag or an empty message is refused. *)
Theorem ev_aes_roundtrip input key iv lenin n0 p0 n1 p1 tag :
  32 <= zlen key -> 16 <= zlen iv -> 1 <= lenin <= zlen input -> lenin <= MAX_MSG + 1 ->
  16 <= zlen tag ->
  exists ct tag',
    ev_aes_enc (Some input) (Some p0) (Some key) (Some iv) lenin (Some n0) tag
      = Ok (0, Some (Some ct), Some lenin, tag') /\
    ev_aes_dec (Some ct) (Some p1) (Some key) (Some iv) lenin (Some n1) tag'
      = Ok (0, Some (Some (take (Z.to_nat lenin) input ++ [x00])), Some lenin) /\
    forall tag'', 16 <= zlen tag'' -> take 16 tag'' <> take 16 tag' ->
      ev_aes_dec (Some ct) (Some p1) (Some key) (Some iv) lenin (Some n1) tag''
      = Ok (1, Some p1, Some n1).
Proof.
  unfold MAX_MSG. intros Hk Hv Hl Hm Ht.
  rewrite ev_aes_enc_ok by lia. decide_cmp. eexists _, _. split; [reflexivity|].
  set (p := take (Z.to_nat lenin) input). set (ct := seal key iv p).
  assert (Hc : zlen ct = lenin) by (unfold ct, p; rewrite zlen_seal; len).
  assert (Hcl : Z.to_nat lenin = length ct) by (unfold zlen in Hc; lia).
  pose proof (zlen_tag key iv ct) as Hg.
  assert (Hg' : 16%nat = length (tag_of key iv ct)) by (unfold zlen in Hg; lia).
  pose proof (zlen_nonneg (drop 16 tag)).
  assert (Hz : zlen (ct ++ [x00]) = lenin + 1) by (rewrite zlen_app, Hc; done).
  assert (Hz' : 16 <= zlen (tag_of key iv ct ++ drop 16 tag)) by (rewrite zlen_app; lia).
  split.
  - rewrite ev_aes_dec_ok by lia.
    rewrite Hcl, take_app_length, (take_app_length' _ _ 16) by done.
    rewrite bool_decide_true by done. decide_cmp. cbn [andb]. unfold ct at 1.
    by rewrite seal_seal.
  - intros tag'' Ht'' Hd. rewrite ev_aes_dec_ok by lia.
    rewrite (take_app_length' _ _ 16) in Hd by done.
    rewrite Hcl, take_app_length. by rewrite bool_decide_false by done.
Qed.
End Properties.

(** on a positive multiple of 16 bytes [ntf_aes_encrypt] applies one block function to
    each block on its own, the chaining being restarted for every block, and leaves the
    rest of the output alone; every other length is refused without a write, and so is a
    key the library refuses. *)
Theorem ntf_aes_encrypt_spec `{AESLaws} input out key ivec n enc :
  32 <= zlen key -> 16 <= zlen ivec -> n <= zlen input -> n <= zlen out ->
  let ks := if negb (enc =? 0) then AES_set_encrypt_key (take 32 key) AES_BITS
            else AES_set_decrypt_key (take 32 key) AES_BITS in
  ntf_aes_encrypt input out key ivec n enc
  = Ok (if (1 <=? n) && (n mod 16 =? 0)
        then if fst ks =? 0
             then (0, map_blocks (cfb_block (snd ks) ivec enc) (Z.to_nat (n / 16)) input
                      ++ drop (Z.to_nat n) out)
             else (fst ks, out)
        else (1, out)).
Proof.
  intros Hk Hv Hi Ho ks. unfold ntf_aes_encrypt, aes_set_key, AES_BLOCK_SIZE.
  destruct (1 <=? n) eqn:E1; b2p; decide_cmp; cbn [orb andb]; [|done].
  rewrite Z.rem_mod_nonneg by lia.
  destruct (n mod 16 =? 0) eqn:E2; cbn [negb]; b2p; [|done].
  change (AES_BITS / 8) with 32. rewrite rd_head by lia. change (Z.to_nat 32) with 32%nat.
  cbn [mbind res_bind]. fold ks. destruct ks as [err wctx]. cbn [fst snd].
  destruct (err =? 0) eqn:E3; cbn [negb]; [|done].
  pose proof (aes_blocks_ok (S (Z.to_nat n)) input out wctx ivec 0 (Z.to_nat (n / 16)) enc Hv)
    as HB.
  pose proof (Z.div_mod n 16 ltac:(lia)) as Hd.
  assert (0 <= n / 16) by (apply Z.div_pos; lia).
  rewrite Nat.add_0_l in HB. change (16 * Z.of_nat 0) with 0 in HB.
  replace (16 * Z.of_nat (Z.to_nat (n / 16))) with n in HB by lia.
  rewrite HB by lia. cbn [mbind res_bind]. rewrite Nat.mul_0_r, take_0, drop_0. cbn [app].
  do 4 f_equal. lia.
Qed.

(** [ntf_aes_file] writes a file of the same length whose blocks are encrypted one by
    one, the last one padded with zeros for the cipher and cut back, when the disk has
    room; whether it worked or not, the result is that of the last [fclose], so a failed
    [fopen] of the output, a refused key and a short [fwrite] are lost. *)
Theorem ntf_aes_file_spec `{AESLaws} `{FileSystem} wopen pin pout fin fout key ivec enc :
  32 <= zlen key -> 16 <= zlen ivec -> fopen pin = Some fin ->
  (wopen pout = Some fout -> zlen (f_bytes fin) <= o_room fout ->
   let ks := if negb (enc =? 0) then AES_set_encrypt_key (take 32 key) AES_BITS
             else AES_set_decrypt_key (take 32 key) AES_BITS in
   let n := length (f_bytes fin) in
   ntf_aes_file wopen (Some pin) (Some pout) key ivec enc
   = Ok (o_close fout,
         Some (if fst ks =? 0
               then map_file (cfb_block (snd ks) ivec enc) (n / 16 + 1) (f_bytes fin)
               else []))) /\
  (wopen pout = None ->
   ntf_aes_file wopen (Some pin) (Some pout) key ivec enc = Ok (f_close fin, None)).
Proof.
  intros Hk Hv Hf. unfold ntf_aes_file, aes_set_key. rewrite Hf.
  change (AES_BITS / 8) with 32. rewrite rd_head by lia. change (Z.to_nat 32) with 32%nat.
  split; intros Hw; rewrite Hw; [|done]. cbn [mbind res_bind].
  intros Hr. destruct (if negb (enc =? 0) then _ else _) as [err wctx]. cbn [fst snd].
  destruct (err =? 0); cbn [negb]; [|done].
  rewrite (file_blocks_ok _ _ _ _ _ _ _ (length (f_bytes fin) / 16 + 1)); [done|done|lia| |done].
  pose proof (Nat.div_mod (length (f_bytes fin)) 16 ltac:(lia)).
  pose proof (Nat.mod_upper_bound (length (f_bytes fin)) 16 ltac:(lia)). lia.
Qed.

(** ** The properties at concrete inputs *)

Lemma msg_aes_enc_spec_witness :
  exists b, msg_aes_enc (Some (str "hello")) (Some (zeros 30)) (Some aes_key) (Some aes_iv) 5
    (Some 0) 30 = Ok (0, Some b, Some 22) /\
  msg_aes_enc (Some (str "hello")) (Some (zeros 30)) (Some aes_key) (Some aes_iv) 5
    (Some 0) 21 = Ok (1, Some (zeros 30), Some 0).
Proof.
  eexists. split.
  - refine (msg_aes_enc_spec (str "hello") (zeros 30) aes_key aes_iv 5 0 30 _ _ _ _); vm_side.
  - refine (msg_aes_enc_spec (str "hello") (zeros 30) aes_key aes_iv 5 0 21 _ _ _ _); vm_side.
Defined.

Lemma msg_aes_dec_spec_witness :
  exists buf', msg_aes_dec (Some (zeros 22)) (Some (zeros 30)) (Some aes_key) (Some aes_iv) 22
    (Some 9) 30 = Ok (1, Some buf', Some 0).
Proof.
  destruct (msg_aes_dec_spec (zeros 22) (zeros 30) aes_key aes_iv 22 9 30)
    as (err & b & n & H1 & H2); [vm_side..|].
  cbn [Z.leb Z.compare] in H2. destruct H2 as [_ [(-> & -> & H2)|(-> & -> & H2)]].
  - exfalso. vm_compute in H2. discriminate.
  - exists b. exact H1.
Defined.

Lemma msg_aes_roundtrip_witness :
  exists out len, msg_aes_enc (Some (str "hello")) (Some (zeros 30)) (Some aes_key)
      (Some aes_iv) 5 (Some 0) 30 = Ok (0, Some out, Some len) /\
  exists pt, msg_aes_dec (Some (take (Z.to_nat len) out ++ [])) (Some (zeros 30))
      (Some aes_key) (Some aes_iv) len (Some 0) 30 = Ok (0, Some pt, Some 5) /\
  take 5 pt = str "hello".
Proof.
  apply (msg_aes_roundtrip (str "hello") (zeros 30) (zeros 30) aes_key aes_iv 5 0 0 []); vm_side.
Defined.

Lemma ev_aes_roundtrip_witness :
  exists ct tag',
    ev_aes_enc (Some (str "hello")) (Some None) (Some aes_key) (Some aes_iv) 5 (Some 0) (zeros 16)
      = Ok (0, Some (Some ct), Some 5, tag') /\
    ev_aes_dec (Some ct) (Some None) (Some aes_key) (Some aes_iv) 5 (Some 0) tag'
      = Ok (0, Some (Some (str "hello" ++ [x00])), Some 5).
Proof.
  destruct (ev_aes_roundtrip (str "hello") aes_key aes_iv 5 0 None 0 None (zeros 16))
    as (ct & tag & H1 & H2 & _); [vm_side..|].
  exists ct, tag. split; [exact H1|exact H2].
Defined.

Lemma ntf_aes_encrypt_spec_witness :
  exists out, ntf_aes_encrypt (zeros 40) (zeros 40) aes_key aes_iv 32 1 = Ok (0, out) /\
  ntf_aes_encrypt (zeros 40) (zeros 40) aes_key aes_iv 33 1 = Ok (1, zeros 40).
Proof.
  eexists. split.
  - refine (ntf_aes_encrypt_spec (zeros 40) (zeros 40) aes_key aes_iv 32 1 _ _ _ _); vm_side.
  - refine (ntf_aes_encrypt_spec (zeros 40) (zeros 40) aes_key aes_iv 33 1 _ _ _ _); vm_side.
Defined.

Lemma ntf_aes_file_spec_witness :
  let fs := toy_fs [(str "in", toy_file (str "a file of twenty-two.."))] in
  exists w, @ntf_aes_file _ fs (fun _ => Some {| o_room := 100; o_close := 0 |})
    (Some (str "in")) (Some (str "out")) aes_key aes_iv 1 = Ok (0, Some w) /\
  @ntf_aes_file _ fs (fun _ => None) (Some (str "in")) (Some (str "out")) aes_key aes_iv 1
    = Ok (0, None).
Proof.
  intros fs. eexists. split.
  - refine (proj1 (@ntf_aes_file_spec _ _ fs (fun _ => Some {| o_room := 100; o_close := 0 |})
      (str "in") (str "out") (toy_file (str "a file of twenty-two.."))
      {| o_room := 100; o_close := 0 |} aes_key aes_iv 1 _ _ _) _ _); vm_side.
  - refine (proj2 (@ntf_aes_file_spec _ _ fs (fun _ => None)
      (str "in") (str "out") (toy_file (str "a file of twenty-two.."))
      {| o_room := 100; o_close := 0 |} aes_key aes_iv 1 _ _ _) _); vm_side.
Defined.
