(* ===== verification/Registry.v ===== *)
(** * The registration table

    Models [reg_to_table], [hl_track_msg] and [load_reg_list] of
    src/notify.system/msg_notify.c over [list_reg_dev].  A bucket is a [HASH_LIST] with
    its counter and its linked list; an item points to its message, [None] when the object
    is gone.  The mutex makes the two functions atomic; that it fails is only logged. *)
From S2P Require Import Prelude CString ByteOrder Message OpenSSL KeyFiles Toy.

(** ** Data *)

Record sockaddr_in := { sin_family : Z; sin_addr : Z; sin_port : Z }.
Definition sockaddr_zero : sockaddr_in := {| sin_family := 0; sin_addr := 0; sin_port := 0 |}.
#[global] Instance sockaddr_eq_dec : EqDecision sockaddr_in.
Proof. solve_decision. Defined.

Record HASH_ITEM := {
  hi_ipv4 : sockaddr_in;
  hi_n_msg : Z;
  hi_msg : option (list byte)
}.
Definition SZ_HASH_ITEM : Z := 96.

Record HASH_LIST := { hl_n : Z; hl_group : list HASH_ITEM }.
Definition hash_list_zero : HASH_LIST := {| hl_n := 0; hl_group := [] |}.

(** [HASH_LIST list_reg_dev[HASH_SIZE + 1]], zero where nothing was stored. *)
Abbreviation table := (gmap Z HASH_LIST).
Definition bucket (tb : table) (hn : Z) : HASH_LIST := default hash_list_zero (tb !! hn).

(** [&list_reg_dev[hn]] *)
Definition table_at (tb : table) (hn : Z) : res HASH_LIST :=
  if (0 <=? hn) && (hn <=? HASH_SIZE) then Ok (bucket tb hn) else Fault OobRead.

Definition put_time (m : list byte) (t : timespec) : res (list byte) :=
  r ← put_time_to_msg (Some m) (Some t); Ok (default m r).

(** [strncmp(com->dev_id, item->msg->com.dev_id, LEN_DEVID)] for an identifier at [off]
    of the object [m]. *)
Definition id_cmp (m : list byte) (off : Z) (it : HASH_ITEM) : res Z :=
  o ← deref (hi_msg it);
  strncmp (Z.to_nat LEN_DEVID) (drop (Z.to_nat off) m) (drop (Z.to_nat off_dev_id) o).

(** ** Registration *)

(** The search loop of [reg_to_table], which stamps the message in every round: whether
    the identifier was found, and the message. *)
Fixpoint reg_search (msg : list byte) (t : timespec) (n j : Z) (g : list HASH_ITEM)
    : res (bool * list byte) :=
  match g with
  | [] => Ok (false, msg)
  | it :: g' =>
    k ← id_cmp msg off_dev_id it;
    msg ← put_time msg t;
    if k =? 0 then Ok (true, msg)
    else if n <=? j + 1 then Ok (false, msg)
    else reg_search msg t n (j + 1) g'
  end.

Section Reg.
Context `{RL : RSALib} `{FS : FileSystem} `{HP : Heap}.

(** A new item whose message buffer has [size] bytes. *)
Definition reg_item (msg : list byte) (n size : Z) : res HASH_ITEM :=
  buf ← MY_MALLOC size;
  s ← rd msg 0 n;
  buf ← wr buf 0 s;
  '(_, m, _) ← put_pubkey_msg (Some buf) n;
  Ok {| hi_ipv4 := sockaddr_zero; hi_n_msg := 0; hi_msg := m |}.

(** 1 when the message was added; the table, and the message the caller passed. *)
Definition reg_to_table (tb : table) (msg : list byte) (n : Z) (t : timespec)
    : res (Z * table * list byte) :=
  hn ← hash_id msg off_dev_id;
  hi ← table_at tb hn;
  if negb (hl_n hi =? 0) then
    match hl_group hi with
    | [] => Ok (0, <[hn := {| hl_n := 0; hl_group := [] |}]> tb, msg)
    | g =>
      '(found, msg) ← reg_search msg t (hl_n hi) 0 g;
      if (found : bool) then Ok (0, tb, msg)
      else
        it ← reg_item msg n SZ_HASH_ITEM;
        Ok (1, <[hn := {| hl_n := hl_n hi + 1; hl_group := it :: g |}]> tb, msg)
    end
  else
    it ← reg_item msg n n;
    Ok (1, <[hn := {| hl_n := 1; hl_group := [it] |}]> tb, msg).
End Reg.

(** ** Tracking *)

(** The position of the item with the identifier. *)
Fixpoint trk_search (msg : list byte) (n j : Z) (i : nat) (g : list HASH_ITEM)
    : res (option nat) :=
  match g with
  | [] => Ok None
  | it :: g' =>
    k ← id_cmp msg off_dev_id it;
    if k =? 0 then Ok (Some i)
    else if n <=? j + 1 then Ok None
    else trk_search msg n (j + 1) (S i) g'
  end.

Definition set_ipv4 (a : sockaddr_in) (it : HASH_ITEM) : HASH_ITEM :=
  {| hi_ipv4 := a; hi_n_msg := hi_n_msg it; hi_msg := hi_msg it |}.

Definition hl_track_msg (tb : table) (msg : list byte) (addr : sockaddr_in)
    : res (Z * table) :=
  hn ← hash_id msg off_dev_id;
  hi ← table_at tb hn;
  if negb (hl_n hi =? 0) then
    match hl_group hi with
    | [] => Ok (0, <[hn := {| hl_n := 0; hl_group := [] |}]> tb)
    | g =>
      r ← trk_search msg (hl_n hi) 0 0 g;
      match r with
      | None => Ok (0, tb)
      | Some i =>
        Ok (1, <[hn := {| hl_n := hl_n hi; hl_group := alter (set_ipv4 addr) i g |}]> tb)
      end
    end
  else Ok (0, tb).

(** ** A run of calls on the table

    The registrations of the loader and the tracking messages, in the order in which the mutex
    lets them in. *)
Inductive reg_op :=
| Register (msg : list byte) (n : Z) (t : timespec)
| Track (msg : list byte) (addr : sockaddr_in).

Section Run.
Context `{RL : RSALib} `{FS : FileSystem} `{HP : Heap}.
Definition reg_do (tb : table) (o : reg_op) : res (Z * table) :=
  match o with
  | Register msg n t => '(r, tb, _) ← reg_to_table tb msg n t; Ok (r, tb)
  | Track msg addr => hl_track_msg tb msg addr
  end.
Fixpoint reg_run (tb : table) (ops : list reg_op) : res (list Z * table) :=
  match ops with
  | [] => Ok ([], tb)
  | o :: ops =>
    '(r, tb) ← reg_do tb o;
    '(rs, tb) ← reg_run tb ops;
    Ok (r :: rs, tb)
  end.
End Run.

(** ** Loading the list of devices *)

Section Load.
Context `{RL : RSALib} `{FS : FileSystem} `{HP : Heap}.

(** [fread] in pieces of 1024 bytes, each copied behind the previous ones. *)
Fixpoint read_pieces (fuel : nat) (rest data : list byte) (len : Z) : res (list byte) :=
  match fuel with
  | O => Fault NoFuel
  | S fuel' =>
    let buf := take 1024 rest in
    if zlen buf <? 1 then Ok data
    else
      data ← wr data len buf;
      read_pieces fuel' (drop 1024 rest) data (len + zlen buf)
  end.

(** [while (pch)]: the tokens with their offsets in [data]; [strtok] has put a zero at the
    end of the current one. *)
Fixpoint load_tokens (toks : list (Z * list byte)) (data : list byte) (clock : Z -> timespec)
    (i : Z) (tb : table) (ret : Z) : res (Z * table) :=
  match toks with
  | [] => Ok (ret, tb)
  | (off, pch) :: toks' =>
    if 30 <? zlen pch then
      let d := <[Z.to_nat (off + zlen pch) := x00]> data in
      id ← rd d off LEN_DEVID;
      msg ← wr (zeros SZ_COM) off_dev_id id;
      '(r, tb, _) ← reg_to_table tb msg SZ_COM (clock i);
      load_tokens toks' data clock (i + 1) tb r
    else load_tokens toks' data clock (i + 1) tb ret
  end.

Definition load_reg_list (tb : table) (clock : Z -> timespec) : res (Z * table) :=
  match fopen (str "list_dev_id.h") with
  | None => Ok (0, tb)
  | Some fp =>
    let len := wrap 64 (f_tell fp) in
    if len <? 1 then Ok (0, tb)
    else
      data ← MY_MALLOC (wrap 64 (len + 1));
      data ← read_pieces (S (length (f_bytes fp))) (f_bytes fp) data 0;
      s ← cstr data;
      load_tokens (strtok [x0d; x0a] s) data clock 0 tb 0
  end.
End Load.

(** ** The table as a map from identifiers *)

(** The identifier an item is registered under; none for a dangling message or an
    identifier that fills its field. *)
Definition item_id (it : HASH_ITEM) : option (list byte) :=
  match hi_msg it with
  | Some o =>
    match cstr_at o off_dev_id with
    | Ok s => if zlen s <? LEN_DEVID then Some s else None
    | Fault _ => None
    end
  | None => None
  end.

Definition reg_lookup (tb : table) (s : list byte) : option (nat * HASH_ITEM) :=
  list_find (fun it => item_id it = Some s) (hl_group (bucket tb (id_hash s))).
(** Where messages for an identifier go. *)
Definition reg_addr (tb : table) (s : list byte) : option sockaddr_in :=
  hi_ipv4 ∘ snd <$> reg_lookup tb s.

(** The counter is the length of the list, and the list has the items of distinct
    identifiers that hash to the bucket. *)
Definition bucket_ok (hn : Z) (b : HASH_LIST) : Prop :=
  hl_n b = zlen (hl_group b) /\
  exists ids, map item_id (hl_group b) = map Some ids /\ NoDup ids /\
    Forall (fun s => id_hash s = hn) ids.
Definition reg_ok (tb : table) : Prop := map_Forall bucket_ok tb.

Lemma reg_ok_bucket tb hn : reg_ok tb -> bucket_ok hn (bucket tb hn).
Proof.
  intros H. unfold bucket. destruct (tb !! hn) as [b|] eqn:E; [by apply H|].
  split; [done|]. exists []. split; [done|]. split; [constructor|constructor].
Qed.

Lemma table_at_ok tb s : table_at tb (id_hash s) = Ok (bucket tb (id_hash s)).
Proof. unfold table_at. pose proof (id_hash_range s). by decide_cmp. Qed.

Lemma item_id_inv it s :
  item_id it = Some s ->
  exists o, hi_msg it = Some o /\ cstr_at o off_dev_id = Ok s /\ zlen s < LEN_DEVID.
Proof.
  unfold item_id. destruct (hi_msg it) as [o|]; [|done].
  destruct (cstr_at o off_dev_id) as [x|] eqn:E; [|done].
  destruct (zlen x <? LEN_DEVID) eqn:E2; [|done]. b2p. intros [= <-]. eauto.
Qed.

Lemma id_cmp_ok msg off s it x :
  cstr_at msg off = Ok s -> zlen s < LEN_DEVID -> item_id it = Some x ->
  exists k, id_cmp msg off it = Ok k /\ (k =? 0) = bool_decide (item_id it = Some s).
Proof.
  intros Hs Hl Hx. destruct (item_id_inv _ _ Hx) as (o & Ho & Hc & Hlx).
  unfold id_cmp. rewrite Ho. cbn [deref mbind res_bind].
  destruct (strncmp_spec (Z.to_nat LEN_DEVID) _ _ _ _ (cstr_at_cstr _ _ _ Hs)
    (cstr_at_cstr _ _ _ Hc)) as (k & -> & Hk).
  exists k. split; [done|]. unfold zlen, LEN_DEVID in *. rewrite !take_ge in Hk by lia.
  rewrite Hx. case_bool_decide as Hd.
  - apply Z.eqb_eq, Hk. congruence.
  - apply Z.eqb_neq. intros ->. apply Hd. f_equal. symmetry. by apply Hk.
Qed.

Lemma trk_search_ok msg s n j i g ids :
  cstr_at msg off_dev_id = Ok s -> zlen s < LEN_DEVID ->
  map item_id g = map Some ids -> n = j + zlen g ->
  trk_search msg n j i g
  = Ok ((fun p => i + fst p)%nat <$> list_find (fun it => item_id it = Some s) g).
Proof.
  intros Hs Hl. revert j i ids. induction g as [|it g IH]; intros j i ids Hg Hn; [done|].
  destruct ids as [|x ids]; [done|]. cbn [map] in Hg. injection Hg as Hx Hg.
  cbn [trk_search]. destruct (id_cmp_ok msg off_dev_id s it x Hs Hl Hx) as (k & -> & Hk).
  cbn [mbind res_bind list_find]. rewrite Hk. case_bool_decide as Hd.
  - rewrite decide_True by done. cbn. by rewrite Nat.add_0_r.
  - rewrite decide_False by done. rewrite zlen_cons in Hn. destruct g as [|it' g].
    + change (zlen []) with 0 in Hn. by decide_cmp.
    + pose proof (zlen_nonneg g). pose proof (zlen_cons it' g). decide_cmp.
      erewrite IH; [|exact Hg|lia].
      destruct (list_find _ _) as [[p q]|]; [|done]. cbn. do 2 f_equal. lia.
Qed.

(** The stamped message of the search keeps its identifier. *)
Lemma put_time_ok' msg t s :
  SZ_COM <= zlen msg -> cstr_at msg off_dev_id = Ok s -> zlen s < LEN_DEVID ->
  exists msg', put_time msg t = Ok msg' /\ zlen msg' = zlen msg /\
    cstr_at msg' off_dev_id = Ok s /\
    forall off len, off + len <= off_second \/ off_len <= off ->
      rd msg' off len = rd msg off len.
Proof.
  intros Hl Hs Hsl. destruct (put_time_ok msg t Hl) as (m & Hm & Hz & _ & _ & Hr).
  exists m. split; [unfold put_time; by rewrite Hm|]. split; [done|]. split; [|done].
  apply cstr_at_rd in Hs as [Hn Hs]. apply cstr_at_rd. split; [done|].
  rewrite Hr; [done|]. unfold off_dev_id, off_second, LEN_DEVID in *. lia.
Qed.

Lemma reg_search_ok msg t s n j g ids :
  SZ_COM <= zlen msg -> cstr_at msg off_dev_id = Ok s -> zlen s < LEN_DEVID ->
  map item_id g = map Some ids -> n = j + zlen g ->
  exists msg', reg_search msg t n j g = Ok (bool_decide (s ∈ ids), msg') /\
    zlen msg' = zlen msg /\ cstr_at msg' off_dev_id = Ok s.
Proof.
  revert msg j ids. induction g as [|it g IH]; intros msg j ids Hz Hs Hl Hg Hn.
  { destruct ids; [|done]. exists msg. rewrite bool_decide_false by apply not_elem_of_nil. done. }
  destruct ids as [|x ids]; [done|]. cbn [map] in Hg. injection Hg as Hx Hg.
  cbn [reg_search]. destruct (id_cmp_ok msg off_dev_id s it x Hs Hl Hx) as (k & -> & Hk).
  destruct (put_time_ok' msg t s Hz Hs Hl) as (m & Hm & Hmz & Hms & _).
  cbn [mbind res_bind]. rewrite Hm. cbn [mbind res_bind]. rewrite Hk, Hx.
  destruct (decide (x = s)) as [->|Hd].
  - rewrite bool_decide_true by done. exists m.
    rewrite bool_decide_true by apply list_elem_of_here. done.
  - rewrite (bool_decide_false (Some x = Some s)) by congruence.
    rewrite zlen_cons in Hn. destruct g as [|it' g].
    + change (zlen []) with 0 in Hn. decide_cmp. destruct ids; [|done]. exists m.
      rewrite bool_decide_false; [done|]. rewrite list_elem_of_singleton. congruence.
    + pose proof (zlen_nonneg g). pose proof (zlen_cons it' g). decide_cmp.
      destruct (IH m (j + 1) ids) as (m' & -> & H1 & H2); [lia|done|done|done|lia|].
      exists m'. split; [|split; [lia|done]]. do 2 f_equal. apply bool_decide_ext.
      rewrite elem_of_cons. split; [auto|]. intros [->|]; [done|done].
Qed.

(** ** Lemmas: what the operations do to a well-formed table *)

Lemma list_find_ids s g ids :
  map item_id g = map Some ids ->
  (exists p, list_find (fun it => item_id it = Some s) g = Some p) <-> s ∈ ids.
Proof.
  intros Hg. assert (He : s ∈ ids <-> Some s ∈ map item_id g).
  { rewrite Hg. rewrite list_elem_of_fmap. split; [eauto|]. intros (y & [= ->] & Hy). done. }
  rewrite He, list_elem_of_fmap. split.
  - intros [[i it] Hf]. apply list_find_Some in Hf as (Hi & Hp & _).
    exists it. split; [done|]. by eapply list_elem_of_lookup_2.
  - intros (it & Hp & Hin). 
    destruct (list_find_elem_of (fun it => item_id it = Some s) g it Hin) as [p Hf];
      [congruence|eauto].
Qed.

Lemma bucket_insert tb hn b : bucket (<[hn := b]> tb) hn = b.
Proof. unfold bucket. by rewrite lookup_insert_eq. Qed.
Lemma bucket_insert_ne tb hn h b : hn <> h -> bucket (<[hn := b]> tb) h = bucket tb h.
Proof. intros. unfold bucket. by rewrite lookup_insert_ne. Qed.

Section RegLemmas.
Context `{RL : RSALib} `{FS : FileSystem} `{HP : Heap}.
(** Files below four gigabytes, and key objects of at least a pointer. *)
Context (Hfiles : forall p f, fopen p = Some f -> 0 <= f_tell f < 2 ^ 32 - 1)
        (Hkeys : forall k, 8 <= zlen (RSA_object k)).

(** Whether the message of a device is moved when its key is appended: a key was found for the
    identifier, and [realloc] gives another object. *)
Definition key_moves (msg : list byte) (n : Z) (s : list byte) : bool :=
  match file_2_pubrsa (Some (take 2047 (s ++ str ".public-key.pem."))) (Some None) with
  | Ok (0, Some (Some _)) => realloc_moves (take (Z.to_nat n) msg) (n + 8)
  | _ => false
  end.

Lemma file_2_rsa_total parse p :
  exists err out, file_2_rsa parse (Some p) (Some None) = Ok (err, Some out).
Proof.
  unfold file_2_rsa. destruct (fopen p) as [f|] eqn:E.
  - destruct (file_2_bytes_ok p None) as [H _].
    rewrite (H f E (Hfiles p f E)). cbn [mbind res_bind].
    destruct (f_close f =? 0); cbn [negb]; [|eauto].
    destruct (f_tell f <=? _); cbn [default from_option id new_mem_buf mbind res_bind]; [|eauto].
    destruct (cstr_total (take (Z.to_nat (f_tell f)) (f_bytes f))) as [c ->].
    cbn [mbind res_bind]. destruct (BIO_new_mem_buf c); eauto.
  - destruct (file_2_bytes_ok p None) as (_ & H & _). rewrite (H E).
    cbn [mbind res_bind Z.eqb negb]. eauto.
Qed.

Lemma cstr_at_same m m' off s :
  cstr_at m off = Ok s -> rd m' off (zlen s + 1) = rd m off (zlen s + 1) ->
  cstr_at m' off = Ok s.
Proof. rewrite !cstr_at_rd. intros [Hn Hr] ->. done. Qed.

Lemma reg_item_ok msg n s :
  SZ_COM <= n <= zlen msg -> cstr_at msg off_dev_id = Ok s -> zlen s < LEN_DEVID ->
  exists it, reg_item msg n n = Ok it /\ hi_ipv4 it = sockaddr_zero /\
    if key_moves msg n s then hi_msg it = None else item_id it = Some s.
Proof.
  unfold SZ_COM, LEN_DEVID. intros Hn Hs Hl. unfold reg_item.
  rewrite MY_MALLOC_ok by lia. cbn [mbind res_bind]. rewrite rd_head by lia.
  cbn [mbind res_bind]. set (buf := take (Z.to_nat n) msg).
  assert (Hb : zlen buf = n) by (unfold buf; len). rewrite wr_zeros by lia.
  cbn [mbind res_bind]. rewrite Hb, Z.sub_diag. change (zeros 0) with (@nil byte).
  rewrite app_nil_r.
  assert (Hbs : cstr_at buf off_dev_id = Ok s).
  { apply (cstr_at_same msg); [done|]. pose proof (zlen_nonneg s). unfold off_dev_id.
    rewrite !rd_ok by lia. f_equal. unfold buf. rewrite skipn_firstn_comm, take_take.
    f_equal. lia. }
  destruct (file_2_rsa_total (fun bio => PEM_read_bio_RSA_PUBKEY (BIO_set_flags bio))
    (take 2047 (s ++ str ".public-key.pem."))) as (err & out & Hf).
  pose proof (put_pubkey_msg_ok buf s out err) as Hput. rewrite Hb in Hput. cbv zeta in Hput.
  specialize (Hput ltac:(unfold SZ_COM; lia) Hbs Hf).
  assert (Hm : key_moves msg n s = match (if err =? 0 then out else None) with
                                   | Some _ => realloc_moves buf (n + 8) | None => false end).
  { unfold key_moves, file_2_pubrsa. rewrite Hf. by destruct err, out. }
  rewrite Hm. destruct (if err =? 0 then out else None) as [rsa|].
  - destruct (Hput (Hkeys rsa)) as (o & -> & Ho & _ & _ & Hr).
    cbn [mbind res_bind]. eexists. split; [done|]. split; [done|]. destruct (realloc_moves _ _); [done|].
    unfold item_id, LEN_DEVID. cbn [hi_msg]. rewrite (cstr_at_same buf o off_dev_id s); [by decide_cmp|done|].
    apply Hr; unfold off_dev_id, off_len; pose proof (zlen_nonneg s); lia.
  - rewrite Hput. cbn [mbind res_bind]. eexists. split; [done|]. split; [done|].
    unfold item_id, LEN_DEVID. cbn [hi_msg]. rewrite Hbs. by decide_cmp.
Qed.

Lemma reg_lookup_ids tb s ids :
  map item_id (hl_group (bucket tb (id_hash s))) = map Some ids ->
  (exists p, reg_lookup tb s = Some p) <-> s ∈ ids.
Proof. apply list_find_ids. Qed.

(** Registering a full message: the three outcomes. *)
Lemma reg_to_table_ok tb msg n t s :
  reg_ok tb -> SZ_COM <= n <= zlen msg -> cstr_at msg off_dev_id = Ok s ->
  zlen s < LEN_DEVID ->
  (forall p, reg_lookup tb s = Some p ->
     exists msg', reg_to_table tb msg n t = Ok (0, tb, msg') /\ zlen msg' = zlen msg) /\
  (hl_group (bucket tb (id_hash s)) = [] ->
     exists it, reg_to_table tb msg n t
       = Ok (1, <[id_hash s := {| hl_n := 1; hl_group := [it] |}]> tb, msg) /\
     hi_ipv4 it = sockaddr_zero /\ if key_moves msg n s then hi_msg it = None else item_id it = Some s) /\
  (hl_group (bucket tb (id_hash s)) <> [] -> reg_lookup tb s = None ->
     reg_to_table tb msg n t = Fault OobWrite).
Proof.
  intros Hok Hn Hs Hl. destruct (reg_ok_bucket tb (id_hash s) Hok) as (Hbn & ids & Hids & _ & _).
  pose proof (reg_lookup_ids tb s ids Hids) as Hlk.
  destruct (reg_search_ok msg t s (hl_n (bucket tb (id_hash s))) 0 _ ids
    ltac:(lia) Hs Hl Hids ltac:(lia)) as (m & Hm & Hmz & Hms).
  unfold reg_to_table. rewrite (hash_id_chars _ _ _ Hs). cbn [mbind res_bind].
  rewrite table_at_ok. cbn [mbind res_bind]. unfold SZ_COM in Hn.
  destruct (hl_group (bucket tb (id_hash s))) as [|it g] eqn:Eg.
  - rewrite Hbn. change (zlen [] =? 0) with true. cbn [negb]. split; [|split; [|done]].
    + intros p Hp. destruct ids; [|done]. exfalso.
      apply (not_elem_of_nil s), Hlk. by exists p.
    + intros _. destruct (reg_item_ok msg n s Hn Hs Hl) as (it & Hi & Ha & Hid).
      rewrite Hi. cbn [mbind res_bind]. eauto.
  - assert (Hb0 : negb (hl_n (bucket tb (id_hash s)) =? 0) = true).
    { rewrite Hbn, zlen_cons. pose proof (zlen_nonneg g). by decide_cmp. }
    rewrite Hb0, Hm. cbn [mbind res_bind]. split; [|split; [done|]].
    + intros p Hp. rewrite bool_decide_true by (apply Hlk; by exists p). eauto.
    + intros _ Hp. rewrite bool_decide_false.
      2: { intros [q Hq]%Hlk. congruence. }
      unfold reg_item, SZ_HASH_ITEM. rewrite MY_MALLOC_ok by done. cbn [mbind res_bind].
      rewrite rd_head by lia. cbn [mbind res_bind]. rewrite wr_oob; [done|].
      rewrite zlen_zeros by done. right. unfold zlen in *. rewrite length_take. lia.
Qed.

(** A bucket whose first message was moved: whoever looks into it follows the old pointer. *)
Lemma dead_bucket tb s it msg n t s' :
  bucket tb (id_hash s) = {| hl_n := 1; hl_group := [it] |} -> hi_msg it = None ->
  cstr_at msg off_dev_id = Ok s' -> id_hash s' = id_hash s ->
  reg_to_table tb msg n t = Fault DeadObject.
Proof.
  intros Hb Hm Hs' Hh. unfold reg_to_table. rewrite (hash_id_chars _ _ _ Hs'), Hh. cbn [mbind res_bind].
  rewrite table_at_ok, Hb. cbn [mbind res_bind hl_n hl_group Z.eqb negb reg_search].
  unfold id_cmp. by rewrite Hm.
Qed.
End RegLemmas.

(** ** Lemmas: the invariant and the addresses after an operation *)

Lemma reg_ok_insert tb s it :
  reg_ok tb -> item_id it = Some s ->
  reg_ok (<[id_hash s := {| hl_n := 1; hl_group := [it] |}]> tb).
Proof.
  intros Hok Hid. apply map_Forall_insert_2; [|done]. split; [done|]. exists [s].
  cbn [map hl_group]. rewrite Hid. split; [done|].
  split; [apply NoDup_singleton|by repeat constructor].
Qed.

Lemma reg_addr_insert tb s it s' :
  hl_group (bucket tb (id_hash s)) = [] -> item_id it = Some s ->
  reg_addr (<[id_hash s := {| hl_n := 1; hl_group := [it] |}]> tb) s'
  = if decide (s' = s) then Some (hi_ipv4 it) else reg_addr tb s'.
Proof.
  intros Hb Hid. unfold reg_addr, reg_lookup. destruct (decide (id_hash s = id_hash s')) as [He|He].
  - rewrite <- He, bucket_insert, Hb. cbn [hl_group list_find].
    destruct (decide (s' = s)) as [->|Hne].
    + by rewrite decide_True.
    + by rewrite decide_False by congruence.
  - rewrite bucket_insert_ne by done. by rewrite decide_False by congruence.
Qed.

Lemma map_alter_ids g i a : map item_id (alter (set_ipv4 a) i g) = map item_id g.
Proof.
  revert i. induction g as [|it g IH]; intros [|i]; cbn; [done..|]. f_equal. apply IH.
Qed.

Lemma list_find_alter (s s' : list byte) g ids i p a :
  map item_id g = map Some ids -> NoDup ids ->
  list_find (fun it => item_id it = Some s) g = Some (i, p) ->
  hi_ipv4 ∘ snd <$> list_find (fun it => item_id it = Some s') (alter (set_ipv4 a) i g)
  = if decide (s' = s) then Some a
    else hi_ipv4 ∘ snd <$> list_find (fun it => item_id it = Some s') g.
Proof.
  revert ids i. induction g as [|it g IH]; intros ids i Hg Hnd Hf; [done|].
  destruct ids as [|x ids]; [done|]. cbn [map] in Hg. injection Hg as Hx Hg.
  inversion Hnd as [|? ? Hnx Hnd']; subst. cbn [list_find] in Hf |- *.
  destruct (decide (item_id it = Some s)) as [Hi|Hi].
  - injection Hf as <- <-. cbn [alter list_alter list_find].
    change (item_id (set_ipv4 a it)) with (item_id it).
    destruct (decide (s' = s)) as [->|Hne].
    + by rewrite decide_True.
    + by rewrite !decide_False by congruence.
  - destruct (list_find _ g) as [[j q]|] eqn:Hj; [|done]. injection Hf as <- <-.
    cbn [alter list_alter list_find].
    destruct (decide (item_id it = Some s')) as [Hi'|Hi'].
    + rewrite decide_False; [done|]. intros ->. done.
    + specialize (IH ids j Hg Hnd' eq_refl).
      assert (He : forall o : option (nat * HASH_ITEM),
        hi_ipv4 ∘ snd <$> (prod_map S id <$> o) = hi_ipv4 ∘ snd <$> o)
        by (by intros [[? ?]|]).
      by rewrite !He.
Qed.

(** ** The specification of a run

    A directory with one place for each value of the hash: the identifier that took it, with
    the address messages for it go to, or a place whose object is gone. *)
Inductive dir_entry := Held (id : list byte) (addr : sockaddr_in) | Gone.
Abbreviation directory := (gmap Z dir_entry).
Definition dir_addr (d : directory) (s : list byte) : option sockaddr_in :=
  match d !! id_hash s with
  | Some (Held s' a) => if decide (s' = s) then Some a else None
  | _ => None
  end.

Section Directory.
Context `{RL : RSALib} `{FS : FileSystem} `{HP : Heap}.
Context (Hfiles : forall p f, fopen p = Some f -> 0 <= f_tell f < 2 ^ 32 - 1)
        (Hkeys : forall k, 8 <= zlen (RSA_object k)).

Definition op_id (o : reg_op) : res (list byte) :=
  match o with Register msg _ _ | Track msg _ => cstr_at msg off_dev_id end.
(** What a place becomes, and the result of the operation on it. *)
Definition dir_entry_do (s : list byte) (o : reg_op) (c : option dir_entry) : res (Z * option dir_entry) :=
  match c, o with
  | Some Gone, _ => Fault DeadObject
  | None, Register msg n _ => Ok (1, Some (if key_moves msg n s then Gone else Held s sockaddr_zero))
  | None, Track _ _ => Ok (0, None)
  | Some (Held s' a), Register _ _ _ => if decide (s' = s) then Ok (0, c) else Fault OobWrite
  | Some (Held s' a), Track _ addr => if decide (s' = s) then Ok (1, Some (Held s addr)) else Ok (0, c)
  end.
Definition dir_do (d : directory) (o : reg_op) : res (Z * directory) :=
  s ← op_id o;
  '(r, c) ← dir_entry_do s o (d !! id_hash s);
  Ok (r, partial_alter (fun _ => c) (id_hash s) d).
Fixpoint dir_run (d : directory) (ops : list reg_op) : res (list Z * directory) :=
  match ops with
  | [] => Ok ([], d)
  | o :: ops =>
    '(r, d) ← dir_do d o;
    '(rs, d) ← dir_run d ops;
    Ok (r :: rs, d)
  end.

(** The messages the server takes: an identifier that ends in its field, at least a header. *)
Definition op_ok (o : reg_op) : Prop :=
  (exists s, op_id o = Ok s /\ zlen s < LEN_DEVID) /\
  match o with Register msg n _ => SZ_COM <= n <= zlen msg | Track _ _ => True end.

(** The bucket that implements a place. *)
Definition implements (h : Z) (b : HASH_LIST) (c : option dir_entry) : Prop :=
  match c with
  | None => b = hash_list_zero
  | Some Gone => exists it, b = {| hl_n := 1; hl_group := [it] |} /\ hi_msg it = None
  | Some (Held s a) =>
    exists it, b = {| hl_n := 1; hl_group := [it] |} /\ item_id it = Some s /\ hi_ipv4 it = a /\ id_hash s = h
  end.
Definition represents (tb : table) (d : directory) : Prop :=
  forall h, implements h (bucket tb h) (d !! h).

Lemma represents_at tb d h b c :
  represents tb d -> implements h b c -> represents (<[h := b]> tb) (partial_alter (fun _ => c) h d).
Proof.
  intros Hr Hi h'. destruct (decide (h = h')) as [<-|Hne].
  - by rewrite bucket_insert, lookup_partial_alter_eq.
  - rewrite bucket_insert_ne, lookup_partial_alter_ne by done. apply Hr.
Qed.
Lemma represents_same tb d h c : represents tb d -> d !! h = c -> represents tb (partial_alter (fun _ => c) h d).
Proof. intros Hr <-. by rewrite partial_alter_self. Qed.

Lemma represents_addr tb d s : represents tb d -> reg_addr tb s = dir_addr d s.
Proof.
  intros Hr. specialize (Hr (id_hash s)). unfold reg_addr, reg_lookup, dir_addr.
  destruct (d !! id_hash s) as [[s' a|]|]; cbn in Hr.
  - destruct Hr as (it & -> & Hid & <- & _). cbn [hl_group list_find]. rewrite Hid.
    destruct (decide (s' = s)) as [->|Hne]; [by rewrite decide_True|by rewrite decide_False by congruence].
  - destruct Hr as (it & -> & Hm). cbn [hl_group list_find]. unfold item_id. by rewrite Hm.
  - by rewrite Hr.
Qed.

(** One registration on the bucket of its identifier. *)
Lemma register_entry tb d msg n t s :
  represents tb d -> SZ_COM <= n <= zlen msg -> cstr_at msg off_dev_id = Ok s -> zlen s < LEN_DEVID ->
  match dir_entry_do s (Register msg n t) (d !! id_hash s) with
  | Ok (r, c) => exists tb' msg', reg_to_table tb msg n t = Ok (r, tb', msg') /\
      represents tb' (partial_alter (fun _ => c) (id_hash s) d)
  | Fault f => reg_to_table tb msg n t = Fault f
  end.
Proof.
  intros Hr Hn Hs Hl. pose proof (Hr (id_hash s)) as Hb.
  destruct (d !! id_hash s) as [[s' a|]|] eqn:E; cbn [dir_entry_do implements] in *.
  - destruct Hb as (it & Hb & Hid & Ha & Hh).
    destruct (reg_search_ok msg t s 1 0 [it] [s'] ltac:(unfold SZ_COM in *; lia) Hs Hl
      ltac:(cbn; by rewrite Hid) eq_refl) as (m & Hm & Hmz & _).
    unfold reg_to_table. rewrite (hash_id_chars _ _ _ Hs). cbn [mbind res_bind].
    rewrite table_at_ok, Hb. cbn [mbind res_bind hl_n hl_group Z.eqb negb]. rewrite Hm. cbn [mbind res_bind].
    destruct (decide (s' = s)) as [->|Hne].
    + rewrite bool_decide_true by apply list_elem_of_here. do 2 eexists. split; [done|]. by apply represents_same.
    + rewrite bool_decide_false by (rewrite list_elem_of_singleton; congruence). unfold SZ_COM in Hn.
      unfold reg_item, SZ_HASH_ITEM. rewrite MY_MALLOC_ok by done. cbn [mbind res_bind].
      rewrite rd_head by lia. cbn [mbind res_bind]. rewrite wr_oob; [done|].
      rewrite zlen_zeros by done. right. unfold zlen in *. rewrite length_take. lia.
  - destruct Hb as (it & Hb & Hm). by apply (dead_bucket tb s it msg n t s).
  - destruct (reg_item_ok Hfiles Hkeys msg n s Hn Hs Hl) as (it & Hi & Ha & Hid).
    unfold reg_to_table. rewrite (hash_id_chars _ _ _ Hs). cbn [mbind res_bind].
    rewrite table_at_ok, Hb. cbn [mbind res_bind hash_list_zero hl_n Z.eqb negb]. rewrite Hi. cbn [mbind res_bind].
    do 2 eexists. split; [done|]. apply represents_at; [done|]. destruct (key_moves msg n s); exists it; eauto.
Qed.

Lemma track_entry tb d msg addr s :
  represents tb d -> cstr_at msg off_dev_id = Ok s -> zlen s < LEN_DEVID ->
  match dir_entry_do s (Track msg addr) (d !! id_hash s) with
  | Ok (r, c) => exists tb', hl_track_msg tb msg addr = Ok (r, tb') /\
      represents tb' (partial_alter (fun _ => c) (id_hash s) d)
  | Fault f => hl_track_msg tb msg addr = Fault f
  end.
Proof.
  intros Hr Hs Hl. pose proof (Hr (id_hash s)) as Hb.
  unfold hl_track_msg. rewrite (hash_id_chars _ _ _ Hs). cbn [mbind res_bind]. rewrite table_at_ok.
  destruct (d !! id_hash s) as [[s' a|]|] eqn:E; cbn [dir_entry_do implements] in *.
  - destruct Hb as (it & Hb & Hid & Ha & Hh). rewrite Hb. cbn [mbind res_bind hl_n hl_group Z.eqb negb].
    rewrite (trk_search_ok msg s 1 0 0 [it] [s'] Hs Hl ltac:(cbn; by rewrite Hid) eq_refl). cbn [mbind res_bind list_find].
    rewrite Hid. destruct (decide (s' = s)) as [->|Hne].
    + rewrite decide_True by done. cbn. eexists. split; [done|]. apply represents_at; [done|]. by exists (set_ipv4 addr it).
    + rewrite decide_False by congruence. cbn. eexists. split; [done|]. by apply represents_same.
  - destruct Hb as (it & Hb & Hm). rewrite Hb. cbn. unfold id_cmp. by rewrite Hm.
  - rewrite Hb. cbn. eexists. split; [done|]. by apply represents_same.
Qed.

Lemma reg_run_ok tb d ops :
  represents tb d -> Forall op_ok ops ->
  match dir_run d ops with
  | Ok (rs, d') => exists tb', reg_run tb ops = Ok (rs, tb') /\ represents tb' d'
  | Fault f => reg_run tb ops = Fault f
  end.
Proof.
  intros Hr Hops. revert tb d Hr. induction Hops as [|o ops [(s & Hs & Hl) Ho] _ IH]; intros tb d Hr; [by exists tb|].
  assert (Hdo : match dir_do d o with
    | Ok (r, d') => exists tb', reg_do tb o = Ok (r, tb') /\ represents tb' d'
    | Fault f => reg_do tb o = Fault f end).
  { unfold dir_do. rewrite Hs. cbn [mbind res_bind]. destruct o as [msg n t|msg addr]; cbn [reg_do op_id] in *.
    - pose proof (register_entry tb d msg n t s Hr Ho Hs Hl) as H1. destruct (dir_entry_do _ _ _) as [[r c]|f]; cbn [mbind res_bind].
      + destruct H1 as (tb' & msg' & -> & H1). by exists tb'.
      + by rewrite H1.
    - pose proof (track_entry tb d msg addr s Hr Hs Hl) as H1. destruct (dir_entry_do _ _ _) as [[r c]|f]; exact H1. }
  cbn [dir_run reg_run]. destruct (dir_do d o) as [[r d']|f]; cbn [mbind res_bind]; [|by rewrite Hdo].
  destruct Hdo as (tb' & -> & Hr'). cbn [mbind res_bind]. specialize (IH tb' d' Hr').
  destruct (dir_run d' ops) as [[rs d2]|f]; cbn [mbind res_bind]; [|by rewrite IH].
  destruct IH as (tb2 & -> & Hr2). by exists tb2.
Qed.
End Directory.

(** ** Lemmas: loading *)

Definition delims : list byte := [x0d; x0a].
(** The lines the loader registers: those of more than 30 characters. *)
Definition long_line (p : Z * list byte) : bool := 30 <? zlen (snd p).
Definition lines (s : list byte) : list (Z * list byte) :=
  List.filter long_line (strtok delims s).
(** A line the copy of [LEN_DEVID] bytes stays inside the loaded text for. *)
Definition line_fits (data : list byte) (p : Z * list byte) : bool :=
  fst p + LEN_DEVID <=? zlen data.

Lemma read_pieces_ok fuel rest data len :
  (length rest < fuel)%nat -> 0 <= len -> len + zlen rest <= zlen data ->
  read_pieces fuel rest data len
  = Ok (take (Z.to_nat len) data ++ rest ++ drop (Z.to_nat len + length rest) data).
Proof.
  revert rest data len. induction fuel as [|fuel IH]; intros rest data len Hf Hl Hd; [lia|].
  cbn [read_pieces]. destruct (zlen (take 1024 rest) <? 1) eqn:E; b2p.
  - destruct rest; [|unfold zlen in E; cbn in E; lia].
    cbn [app length]. by rewrite Nat.add_0_r, take_drop.
  - assert (Hz : zlen (take 1024 rest) = Z.min 1024 (zlen rest)) by len.
    destruct (wr_some data len (take 1024 rest)) as (d & Hwr & Hdz); [lia..|].
    rewrite Hwr. cbn [mbind res_bind]. apply wr_inv in Hwr as (_ & _ & _ & ->).
    rewrite IH; [|len|lia|rewrite Hdz; len]. f_equal.
    replace (Z.to_nat (len + zlen (take 1024 rest)))
      with (Z.to_nat len + length (take 1024 rest))%nat by (unfold zlen; lia).
    rewrite (take_app_add' _ _ (Z.to_nat len)) by len.
    rewrite take_app_length, <- app_assoc. f_equal.
    rewrite app_assoc, take_drop. f_equal.
    rewrite (app_assoc _ (take 1024 rest)), drop_app_ge by len.
    rewrite drop_drop. f_equal. len.
Qed.

Section LoadLemmas.
Context `{RL : RSALib} `{FS : FileSystem} `{HP : Heap}.
Context (Hfiles : forall p f, fopen p = Some f -> 0 <= f_tell f < 2 ^ 32 - 1)
        (Hkeys : forall k, 8 <= zlen (RSA_object k))
        (Hstay : forall o n, realloc_moves o n = false).

Lemma key_stays msg n s : key_moves msg n s = false.
Proof.
  unfold key_moves. destruct (file_2_pubrsa _ _) as [[e [[rsa|]|]]|f]; [|by destruct e..|done].
  rewrite Hstay. by destruct e.
Qed.

(** The message made of a line has the line as its identifier. *)
Lemma line_msg s q t r :
  s = q ++ t ++ r -> no_nul s -> zlen t < LEN_DEVID ->
  line_fits (s ++ [x00]) (zlen q, t) = true ->
  exists id msg,
    rd (<[Z.to_nat (zlen q + zlen t) := x00]> (s ++ [x00])) (zlen q) LEN_DEVID = Ok id /\
    wr (zeros SZ_COM) off_dev_id id = Ok msg /\ zlen msg = SZ_COM /\
    cstr_at msg off_dev_id = Ok t.
Proof.
  unfold line_fits, LEN_DEVID, SZ_COM, off_dev_id. intros Hs Hn Ht Hf. cbn [fst] in Hf. b2p.
  assert (Hd : exists r', <[Z.to_nat (zlen q + zlen t) := x00]> (s ++ [x00])
                          = q ++ t ++ x00 :: r').
  { exists (tail (r ++ [x00])). subst s. rewrite <- !app_assoc.
    replace (Z.to_nat (zlen q + zlen t)) with (length (q ++ t) + 0)%nat
      by (rewrite length_app; unfold zlen; lia).
    rewrite (app_assoc q), insert_app_r, <- app_assoc. do 2 f_equal.
    by destruct r. }
  destruct Hd as [r' Hd]. set (d := <[_ := _]> _) in *.
  assert (Hdl : zlen d = zlen (s ++ [x00])) by (unfold d, zlen; by rewrite length_insert).
  rewrite <- Hdl in Hf. pose proof (zlen_nonneg q). pose proof (zlen_nonneg t).
  exists (take 40 (drop (length q) d)). rewrite rd_ok by lia.
  replace (Z.to_nat (zlen q)) with (length q) by (unfold zlen; lia).
  change (Z.to_nat 40) with 40%nat. set (id := take 40 (drop (length q) d)).
  assert (Hid : zlen id = 40) by (unfold id, zlen in *; rewrite length_take, length_drop; lia).
  destruct (wr_some (zeros 100) 2 id) as (m & Hm & Hmz); [lia|rewrite zlen_zeros; lia|].
  exists m. split; [done|]. split; [done|].
  split; [by rewrite Hmz, zlen_zeros|]. apply cstr_at_rd. split.
  { rewrite Hs in Hn. by apply Forall_app in Hn as [_ [Hn _]%Forall_app]. }
  pose proof (rd_wr_same _ _ _ _ Hm) as Hrd. rewrite Hid in Hrd.
  apply rd_inv in Hrd as (_ & _ & Hr1 & _ & Hr2).
  rewrite rd_ok by lia. f_equal.
  replace (take (Z.to_nat (zlen t + 1)) (drop (Z.to_nat 2) m))
    with (take (Z.to_nat (zlen t + 1)) id) by (rewrite Hr2, take_take; f_equal; lia).
  unfold id. rewrite take_take, Hd, drop_app_length.
  change (x00 :: r') with ([x00] ++ r'). rewrite app_assoc, take_app_length'; [done|].
  rewrite length_app. cbn [length]. unfold zlen in *. lia.
Qed.

Lemma reg_addr_lookup tb s : is_Some (reg_addr tb s) <-> exists p, reg_lookup tb s = Some p.
Proof.
  unfold reg_addr. destruct (reg_lookup tb s); split; intros [? ?]; try done; by eexists.
Qed.

(** One registration, as the loader uses it. *)
Lemma reg_step tb msg t s :
  reg_ok tb -> zlen msg = SZ_COM -> cstr_at msg off_dev_id = Ok s -> zlen s < LEN_DEVID ->
  match reg_to_table tb msg SZ_COM t with
  | Ok (_, tb', _) => reg_ok tb' /\
      forall s', is_Some (reg_addr tb' s') <-> is_Some (reg_addr tb s') \/ s' = s
  | Fault f => f = OobWrite
  end.
Proof.
  intros Hok Hz Hs Hl.
  destruct (reg_to_table_ok Hfiles Hkeys tb msg SZ_COM t s Hok ltac:(lia) Hs Hl)
    as (H1 & H2 & H3). rewrite key_stays in H2.
  destruct (reg_lookup tb s) as [p|] eqn:Ep.
  - destruct (H1 p eq_refl) as (m & -> & _). split; [done|]. intros s'. split; [auto|].
    intros [? | ->]; [done|]. apply reg_addr_lookup. eauto.
  - destruct (hl_group (bucket tb (id_hash s))) as [|it g] eqn:Eg.
    + destruct (H2 eq_refl) as (it & -> & _ & Hid).
      split; [by apply reg_ok_insert|]. intros s'. rewrite reg_addr_insert by done.
      destruct (decide (s' = s)) as [Hd|Hd].
      * split; [auto|]. intros _. by eexists.
      * split; [auto|]. intros [?|?]; done.
    + by rewrite H3.
Qed.

Lemma load_tokens_ok s toks i clock tb ret :
  no_nul s -> reg_ok tb ->
  (forall o t, (o, t) ∈ toks -> exists q r, s = q ++ t ++ r /\ o = zlen q) ->
  (forall p, p ∈ List.filter long_line toks ->
     zlen (snd p) < LEN_DEVID /\ line_fits (s ++ [x00]) p = true) ->
  match load_tokens toks (s ++ [x00]) clock i tb ret with
  | Ok (_, tb') => reg_ok tb' /\
      forall s', is_Some (reg_addr tb' s') <->
        is_Some (reg_addr tb s') \/ s' ∈ map snd (List.filter long_line toks)
  | Fault f => f = OobWrite
  end.
Proof.
  intros Hn. revert i tb ret. induction toks as [|[o t] toks IH]; intros i tb ret Hok Hin Hl.
  { cbn. split; [done|]. intros s'. rewrite elem_of_nil. tauto. }
  assert (IH' : forall i tb ret, reg_ok tb -> _) by
    (intros i' tb' ret' Hok'; apply (IH i' tb' ret' Hok');
     [intros; apply Hin; by apply list_elem_of_further
     |intros p Hp; apply Hl; cbn [List.filter]; destruct (long_line _);
      [by apply list_elem_of_further|done]]).
  cbn [load_tokens List.filter]. change (30 <? zlen t) with (long_line (o, t)).
  destruct (long_line (o, t)) eqn:E; [|by apply IH'].
  destruct (Hl (o, t)) as [Ht Hf].
  { cbn [List.filter]. rewrite E. apply list_elem_of_here. }
  destruct (Hin o t (list_elem_of_here _ _)) as (q & r & Hs & ->). cbn [snd] in Ht.
  destruct (line_msg s q t r Hs Hn Ht Hf) as (id & msg & Hid & Hm & Hz & Hc).
  rewrite Hid. cbn [mbind res_bind]. rewrite Hm. cbn [mbind res_bind].
  pose proof (reg_step tb msg (clock i) t Hok Hz Hc Ht) as Hstep.
  destruct (reg_to_table tb msg SZ_COM (clock i)) as [[[ret' tb'] m']|]; [|done].
  cbn [mbind res_bind]. destruct Hstep as [Hok' Hd].
  specialize (IH' (i + 1) tb' ret' Hok').
  destruct (load_tokens _ _ _ _ _ _) as [[r' tb'']|]; [|done].
  destruct IH' as [Hok'' Hd'']. split; [done|]. intros s'. rewrite Hd'', Hd. cbn [map snd].
  rewrite elem_of_cons. tauto.
Qed.

Lemma load_tokens_oob data toks i clock tb ret p :
  p ∈ List.filter long_line toks -> line_fits data p = false ->
  exists f, load_tokens toks data clock i tb ret = Fault f.
Proof.
  revert i tb ret. induction toks as [|[o t] toks IH]; intros i tb ret Hp Hf;
    cbn [List.filter] in Hp; [by apply not_elem_of_nil in Hp|].
  cbn [load_tokens]. change (30 <? zlen t) with (long_line (o, t)).
  destruct (long_line (o, t)) eqn:E; [|by apply IH].
  destruct (rd _ o LEN_DEVID) as [id|f] eqn:Hrd; cbn [mbind res_bind]; [|eauto].
  apply elem_of_cons in Hp as [->|Hp].
  { apply rd_inv in Hrd as (_ & _ & Hb & _). unfold line_fits in Hf. cbn [fst] in Hf.
    unfold zlen in *. rewrite length_insert in Hb. b2p. lia. }
  destruct (wr _ _ id); cbn [mbind res_bind]; [|eauto].
  destruct (reg_to_table _ _ _ _) as [[[r tb'] m']|]; cbn [mbind res_bind]; [|eauto].
  by apply IH.
Qed.

Lemma load_reg_list_tokens tb clock f :
  fopen (str "list_dev_id.h") = Some f -> f_tell f = zlen (f_bytes f) -> 1 <= f_tell f ->
  no_nul (f_bytes f) ->
  load_reg_list tb clock
  = load_tokens (strtok delims (f_bytes f)) (f_bytes f ++ [x00]) clock 0 tb 0.
Proof.
  intros Hf Ht H1 Hn. unfold load_reg_list. rewrite Hf. pose proof (Hfiles _ _ Hf).
  unfold wrap. rewrite (Z.mod_small (f_tell f)) by lia. decide_cmp.
  rewrite Z.mod_small, MY_MALLOC_ok by lia. cbn [mbind res_bind].
  rewrite read_pieces_ok by (rewrite ?zlen_zeros; lia). cbn [mbind res_bind].
  change (Z.to_nat 0) with 0%nat. rewrite take_0. cbn [app Nat.add].
  assert (Hd : drop (length (f_bytes f)) (zeros (f_tell f + 1)) = [x00]).
  { unfold zeros. rewrite drop_replicate.
    replace (_ - _)%nat with 1%nat by (unfold zlen in *; lia). done. }
  rewrite Hd, cstr_terminated by done. done.
Qed.
End LoadLemmas.

(** ** Properties *)

Section Properties.
Context `{RL : RSALib} `{FS : FileSystem} `{HP : Heap}.
Context (Hfiles : forall p f, fopen p = Some f -> 0 <= f_tell f < 2 ^ 32 - 1)
        (Hkeys : forall k, 8 <= zlen (RSA_object k))
        (Hstay : forall o n, realloc_moves o n = false).

(** C9: registering a message of at least a header with a terminated identifier, in a well-formed
    table, with key files below four gigabytes and key objects of at least a pointer: a known
    identifier leaves the table as it is and gives 0; with an empty bucket the identifier is
    added without an address, every other identifier keeps its own, the table stays well-formed
    and the result is 1, provided that no key was found for the identifier or [realloc] left the
    message where it was when the key was appended. Otherwise the result is 1 as well, but the
    table keeps the pointer to the old object, and the next registration of any identifier with
    this hash follows it. When the bucket holds only other identifiers, a hash collision, the
    copy overflows the 96 bytes that were allocated for it. *)
Theorem reg_to_table_spec tb msg n t s :
  reg_ok tb -> SZ_COM <= n <= zlen msg -> cstr_at msg off_dev_id = Ok s ->
  zlen s < LEN_DEVID ->
  (is_Some (reg_addr tb s) -> exists msg', reg_to_table tb msg n t = Ok (0, tb, msg')) /\
  (hl_group (bucket tb (id_hash s)) = [] -> exists tb',
     reg_to_table tb msg n t = Ok (1, tb', msg) /\
     if key_moves msg n s then
       forall msg' n' t' s', cstr_at msg' off_dev_id = Ok s' -> id_hash s' = id_hash s ->
         reg_to_table tb' msg' n' t' = Fault DeadObject
     else reg_ok tb' /\
       forall s', reg_addr tb' s' = if decide (s' = s) then Some sockaddr_zero
                                    else reg_addr tb s') /\
  (hl_group (bucket tb (id_hash s)) <> [] -> reg_addr tb s = None ->
     reg_to_table tb msg n t = Fault OobWrite).
Proof.
  intros Hok Hn Hs Hl.
  destruct (reg_to_table_ok Hfiles Hkeys tb msg n t s Hok Hn Hs Hl) as (H1 & H2 & H3).
  split; [|split].
  - intros [p Hp]%reg_addr_lookup. destruct (H1 p Hp) as (m & Hm & _). eauto.
  - intros Hb. destruct (H2 Hb) as (it & Hr & Ha & Hid). eexists. split; [exact Hr|].
    destruct (key_moves msg n s).
    + intros msg' n' t' s' Hs' Hh. eapply dead_bucket; [apply bucket_insert|exact Hid|exact Hs'|exact Hh].
    + split; [by apply reg_ok_insert|]. intros s'. rewrite reg_addr_insert by done.
      by rewrite Ha.
  - intros Hb Hp. apply H3; [done|]. unfold reg_addr in Hp. by destruct (reg_lookup tb s).
Qed.

Lemma hl_track_msg_ok tb msg addr s :
  reg_ok tb -> cstr_at msg off_dev_id = Ok s -> zlen s < LEN_DEVID ->
  (reg_addr tb s = None -> hl_track_msg tb msg addr = Ok (0, tb)) /\
  (is_Some (reg_addr tb s) -> exists tb',
     hl_track_msg tb msg addr = Ok (1, tb') /\ reg_ok tb' /\
     forall s', reg_addr tb' s' = if decide (s' = s) then Some addr else reg_addr tb s').
Proof.
  intros Hok Hs Hl. destruct (reg_ok_bucket tb (id_hash s) Hok) as (Hbn & ids & Hids & Hnd & Hh).
  pose proof (trk_search_ok msg s (hl_n (bucket tb (id_hash s))) 0 0 _ ids Hs Hl Hids
    ltac:(lia)) as Hsearch.
  unfold hl_track_msg. rewrite (hash_id_chars _ _ _ Hs). cbn [mbind res_bind].
  rewrite table_at_ok. cbn [mbind res_bind]. unfold reg_addr, reg_lookup at 1 2.
  destruct (hl_group (bucket tb (id_hash s))) as [|it g] eqn:Eg.
  { rewrite Hbn. change (zlen [] =? 0) with true. cbn. split; [done|]. by intros [? ?]. }
  assert (Hb0 : negb (hl_n (bucket tb (id_hash s)) =? 0) = true).
  { rewrite Hbn, zlen_cons. pose proof (zlen_nonneg g). by decide_cmp. }
  rewrite Hb0, Hsearch. cbn [mbind res_bind].
  destruct (list_find _ (it :: g)) as [[i p]|] eqn:Ef.
  - split; [done|]. intros _. cbn [fmap option_fmap option_map fst Nat.add].
    eexists. split; [reflexivity|]. split.
    + apply map_Forall_insert_2; [|done]. split; cbn [hl_n hl_group].
      * rewrite Hbn. unfold zlen. by rewrite length_alter.
      * exists ids. by rewrite map_alter_ids.
    + intros s'. unfold reg_addr, reg_lookup.
      destruct (decide (id_hash s = id_hash s')) as [He|He].
      * rewrite <- He, bucket_insert, Eg. cbn [hl_group].
        by apply (list_find_alter s s' (it :: g) ids i p addr).
      * rewrite bucket_insert_ne by done. by rewrite decide_False by congruence.
  - split; [done|]. intros [? ?]. done.
Qed.

(** C40: The table over any run of calls, from the empty table and for every sequence of
    registrations and tracking messages, each with an identifier that ends within its field and,
    to be registered, with at least a header: it is a directory with one place for each value of
    the hash.  The first identifier takes the place, known identifiers are told so, a tracking
    message gives its own identifier an address and no other, and the table finds for every
    identifier the address the directory has.  The run ends, with the same fault, exactly where
    the directory has none of this: a second identifier with the hash of a registered one is
    copied past the end of its buffer, and a place whose object was moved when its key was
    appended is read through the old pointer.  The results of all calls agree.  Key files are
    below four gigabytes and key objects at least a pointer. *)
Theorem registry_refines ops :
  Forall op_ok ops ->
  match dir_run ∅ ops with
  | Ok (rs, d) => exists tb, reg_run ∅ ops = Ok (rs, tb) /\ forall s, reg_addr tb s = dir_addr d s
  | Fault f => reg_run ∅ ops = Fault f
  end.
Proof.
  intros Hops. pose proof (reg_run_ok Hfiles Hkeys ∅ ∅ ops ltac:(intros h; unfold bucket; by rewrite !lookup_empty) Hops) as H1.
  destruct (dir_run ∅ ops) as [[rs d]|f]; [|exact H1]. destruct H1 as (tb & Hr & Hd).
  exists tb. split; [done|]. intros s. by apply represents_addr.
Qed.

(** a tracking message sets the address of its identifier, and of no other, when the
    identifier is registered, and gives 1; otherwise the table does not change and the
    result is 0. The table stays well-formed. *)
Theorem hl_track_msg_spec tb msg addr s :
  reg_ok tb -> cstr_at msg off_dev_id = Ok s -> zlen s < LEN_DEVID ->
  (reg_addr tb s = None -> hl_track_msg tb msg addr = Ok (0, tb)) /\
  (is_Some (reg_addr tb s) -> exists tb',
     hl_track_msg tb msg addr = Ok (1, tb') /\ reg_ok tb' /\
     forall s', reg_addr tb' s' = if decide (s' = s) then Some addr else reg_addr tb s').
Proof. apply hl_track_msg_ok. Qed.

(** loading the list of devices: when every long line is shorter than the field and
    has enough text behind it, the table holds afterwards exactly the identifiers it held
    and those of the long lines, unless two of them collide; when a long line starts
    within the last 39 bytes of the loaded text, as the last line of a file of
    36-character identifiers does, the copy reads past the buffer. *)
Theorem load_reg_list_spec tb clock f :
  reg_ok tb -> fopen (str "list_dev_id.h") = Some f -> f_tell f = zlen (f_bytes f) ->
  1 <= f_tell f -> no_nul (f_bytes f) ->
  ((forall p, p ∈ lines (f_bytes f) ->
      zlen (snd p) < LEN_DEVID /\ line_fits (f_bytes f ++ [x00]) p = true) ->
   match load_reg_list tb clock with
   | Ok (_, tb') => reg_ok tb' /\
       forall s, is_Some (reg_addr tb' s) <->
         is_Some (reg_addr tb s) \/ s ∈ map snd (lines (f_bytes f))
   | Fault e => e = OobWrite
   end) /\
  ((exists p, p ∈ lines (f_bytes f) /\ line_fits (f_bytes f ++ [x00]) p = false) ->
   exists e, load_reg_list tb clock = Fault e).
Proof.
  intros Hok Hf Ht H1 Hn. rewrite (load_reg_list_tokens Hfiles tb clock f Hf Ht H1 Hn).
  split.
  - intros Hl. apply (load_tokens_ok Hfiles Hkeys Hstay); [done..| |done].
    intros o t. apply strtok_in.
  - intros (p & Hp & Hnf). by eapply load_tokens_oob.
Qed.
End Properties.

(** ** The properties at a concrete list *)

Definition list_text : list byte :=
  sample_id ++ [x0a] ++ sample_ntf ++ [x0a] ++ str "2323232" ++ [x0a].
Definition list_fs : FileSystem := toy_fs [(str "list_dev_id.h", toy_file list_text)].
Definition zero_clock (_ : Z) : timespec := {| tv_sec := 0; tv_nsec := 0 |}.

Lemma list_fs_small p f : list_fs p = Some f -> 0 <= f_tell f < 2 ^ 32 - 1.
Proof. apply toy_fs_small. repeat constructor; vm_compute; congruence. Qed.

Lemma reg_to_table_spec_witness :
  exists tb', @reg_to_table toy_rsa list_fs (toy_heap false) ∅
      (sample_msg MSG_REG G_NTF_CLI) 100 (zero_clock 0)
    = Ok (1, tb', sample_msg MSG_REG G_NTF_CLI) /\
  reg_addr tb' sample_id = Some sockaddr_zero.
Proof.
  destruct (proj1 (proj2 (@reg_to_table_spec toy_rsa list_fs (toy_heap false) list_fs_small
    toy_keys_long ∅ (sample_msg MSG_REG G_NTF_CLI) 100 (zero_clock 0)
    sample_id (map_Forall_empty _) ltac:(vm_compute; split; discriminate)
    ltac:(vm_compute; reflexivity) ltac:(vm_compute; reflexivity)))
    ltac:(vm_compute; reflexivity)) as (tb' & H1 & _ & H2).
  exists tb'. split; [exact H1|]. rewrite H2. reflexivity.
Defined.

Lemma hl_track_msg_spec_witness :
  hl_track_msg ∅ (sample_msg MSG_TRA G_NTF_CLI) sockaddr_zero = Ok (0, ∅).
Proof.
  apply (hl_track_msg_spec ∅ (sample_msg MSG_TRA G_NTF_CLI) sockaddr_zero sample_id);
    [exact (map_Forall_empty _)|vm_compute; reflexivity..].
Defined.

Lemma load_reg_list_spec_witness :
  match @load_reg_list toy_rsa list_fs (toy_heap false) ∅ zero_clock with
  | Ok (_, tb') => reg_ok tb' /\
      forall s, is_Some (reg_addr tb' s) <->
        is_Some (reg_addr ∅ s) \/ s ∈ map snd (lines list_text)
  | Fault e => e = OobWrite
  end.
Proof.
  apply (proj1 (@load_reg_list_spec toy_rsa list_fs (toy_heap false) list_fs_small
    toy_keys_long (fun _ _ => eq_refl) ∅ zero_clock (toy_file list_text)
    (map_Forall_empty _) ltac:(vm_compute; reflexivity) ltac:(vm_compute; reflexivity)
    ltac:(vm_compute; discriminate) ltac:(repeat constructor; discriminate))).
  apply Forall_forall. assert (E : lines list_text = [(0, sample_id); (37, sample_ntf)])
    by (vm_compute; reflexivity).
  change (f_bytes (toy_file list_text)) with list_text. rewrite E.
  repeat constructor; vm_compute; reflexivity.
Defined.

(** A device registers twice and is tracked; the address found is the one it was tracked at. *)
Definition here : sockaddr_in := {| sin_family := 2; sin_addr := 16777343; sin_port := 9090 |}.
Definition sample_ops : list reg_op :=
  [Track (sample_msg MSG_TRA G_NTF_CLI) here; Register (sample_msg MSG_REG G_NTF_CLI) 100 (zero_clock 0);
   Track (sample_msg MSG_TRA G_NTF_CLI) here; Register (sample_msg MSG_REG G_NTF_CLI) 100 (zero_clock 0)].
Lemma registry_refines_witness :
  exists tb, @reg_run toy_rsa list_fs (toy_heap false) ∅ sample_ops = Ok ([0; 1; 1; 0], tb) /\
    reg_addr tb sample_id = Some here.
Proof.
  assert (Hops : Forall op_ok sample_ops).
  { repeat constructor; try (exists sample_id; split; by vm_compute); by vm_compute. }
  pose proof (@registry_refines toy_rsa list_fs (toy_heap false) list_fs_small toy_keys_long sample_ops Hops) as H.
  assert (E : @dir_run toy_rsa list_fs (toy_heap false) ∅ sample_ops = Ok ([0; 1; 1; 0], {[id_hash sample_id := Held sample_id here]})) by (vm_compute; reflexivity).
  rewrite E in H. destruct H as (tb & H1 & H2). exists tb. split; [exact H1|]. rewrite H2. vm_compute. reflexivity.
Defined.
