(* ===== verification/Forward.v ===== *)
(** * Sending: the forward list, tracking messages and requests to the server

    Models [add_to_item_list], [send_to_dst], [send_msg_track] and [cmd_2_srv] of
    src/notify.system/msg_notify.c.  The datagrams a function hands to [sendto] are part of
    its result; what [sendto], [socket], [close] and [inet_addr] return is given by the
    class [Network].  Times read from the clock are arguments. *)
From S2P Require Import Prelude CString ByteOrder Message OpenSSL KeyFiles.
From S2P Require Import AesMessage Registry Toy.

Definition PORT : Z := 7770.
Definition AF_INET : Z := 2.
Definition SZ_BUF : Z := MAX_MSG + 1.

Class Network := {
  sendto_rc : sockaddr_in -> list byte -> Z;
  socket_rc : Z;
  close_rc : Z;
  inet_addr : list byte -> Z
}.
Definition datagram : Type := sockaddr_in * list byte.

(** [sendto(sockfd, buf, n, ...)]: a negative [n] is a size beyond every datagram, which
    the kernel refuses. *)
Definition sendto `{Network} (buf : list byte) (n : Z) (dst : sockaddr_in)
    : res (Z * list datagram) :=
  if n <? 0 then Ok (-1, [])
  else p ← rd buf 0 n; Ok (sendto_rc dst p, [(dst, p)]).

(** [memcpy] from a buffer a callee may not have allocated; no byte of it is then used. *)
Definition rd_out (p : option (list byte)) (n : Z) : res (list byte) :=
  match p with
  | Some b => rd b 0 n
  | None => if n =? 0 then Ok [] else Fault NullDeref
  end.

(** ** The forward list *)

(** [l] is the list the pointer argument points to, newest item first. *)
Definition add_to_item_list (msg : list byte) (l : option (list HASH_ITEM)) (sz : Z)
    : res (Z * option (list HASH_ITEM)) :=
  match l with
  | None => Ok (1, None)
  | Some l =>
    let n := sz in
    buf ← MY_MALLOC n;
    s ← rd msg 0 n;
    m ← wr buf 0 s;
    let hi := {| hi_ipv4 := sockaddr_zero; hi_n_msg := n; hi_msg := Some m |} in
    Ok (0, Some (hi :: l))
  end.

Section Send.
Context `{RL : RSALib} `{EL : EVPLib} `{FS : FileSystem} `{NW : Network}.

(** Which identifier a message is sent to: its offset in the message. *)
Definition dst_off (ifroute : byte) : option Z :=
  if is_route ifroute G_NTF_CLI then Some off_dev_id
  else if is_route ifroute F_SRV_CLI then Some off_dev_id
  else if is_route ifroute G_NTF_SRV then Some off_dev_id
  else if is_route ifroute F_SRV_NTF then Some off_dev_id
  else if is_route ifroute G_CLI_NTF then Some off_ntf_id
  else None.

(** [while (gr)]: the first item whose message has the identifier. *)
Fixpoint dst_search (m : list byte) (off : Z) (g : list HASH_ITEM) : res (option HASH_ITEM) :=
  match g with
  | [] => Ok None
  | it :: g' =>
    k ← id_cmp m off it;
    if k =? 0 then Ok (Some it) else dst_search m off g'
  end.

(** What is put into [buffer] for one item: the error, the buffer and [sn].  The inner
    [bool] says that the loop is left. *)
Definition pack_msg (m : list byte) (n_msg : Z) (iid : list byte) (err sn : Z)
    : res (Z * list byte * Z * bool) :=
  let buffer := zeros SZ_BUF in
  type ← rd1 m off_type;
  if is_type type MSG_GET_AES then
    pubkey ← get_cli_pub iid;
    match pubkey with
    | Some pubkey =>
      '(_, out, sn') ← rsa_enc (Some pubkey) m (Some None) n_msg (Some sn);
      let sn := default sn sn' in
      match default None out with
      | Some out =>
        s ← rd out 0 sn;
        buffer ← wr buffer 0 s;
        buffer ← wr buffer sn [rsa_aes ENCRYPT_CLI_PUB];
        Ok (err, buffer, sn + 1, false)
      | None => Ok (err, buffer, sn, false)
      end
    | None => Ok (1, buffer, sn, false)
    end
  else if is_type type MSG_NTF then
    '(err, b, sn') ← msg_aes_enc (Some m) (Some buffer) (Some aes_key) (Some aes_iv) n_msg
                       (Some sn) SZ_BUF;
    let buffer := default buffer b in
    if negb (err =? 0) then Ok (err, buffer, 0, true)
    else Ok (err, buffer, default sn sn', false)
  else
    s ← rd m 0 n_msg;
    buffer ← wr buffer 0 s;
    Ok (err, buffer, n_msg, false).

Record sent := {
  s_err : Z;                       (* the return value *)
  s_count : Z;                     (* *count *)
  s_out : list datagram;
  s_dropped : list HASH_ITEM       (* items of the detached list that were never sent *)
}.

(** [while (hi)]: [t] is the target the previous round left behind. *)
Fixpoint send_loop (tb : table) (clear : bool) (l : list HASH_ITEM) (t : option HASH_ITEM)
    (err sn count : Z) (out : list datagram) : res sent :=
  let stop err := Ok {| s_err := err; s_count := count; s_out := out; s_dropped := l |} in
  match l with
  | [] => stop err
  | hi :: l' =>
    m ← deref (hi_msg hi);
    ifroute ← rd1 m off_ifroute;
    match dst_off ifroute with
    | None => stop err
    | Some off =>
      iid ← cstr_at m off;
      index ← hash_id m off;
      b ← table_at tb index;
      match hl_group b with
      | [] => stop 1
      | g =>
        f ← dst_search m off g;
        let t := match f with Some it => Some it | None => t end in
        match t with
        | None => stop 1
        | Some t =>
          '(err, buffer, sn, brk) ← pack_msg m (hi_n_msg hi) iid err sn;
          if (brk : bool) then stop err
          else
            '(sn, o) ← sendto buffer sn (hi_ipv4 t);
            (* t = hi; hi = hi->next; if (clear) MY_FREE(t) sets t to 0 *)
            send_loop tb clear l' (if clear then None else Some hi) err sn (count + 1)
              (out ++ o)
        end
      end
    end
  end.

(** The list is detached under the mutex, so [*l] is empty afterwards. *)
Definition send_to_dst (tb : table) (l : option (list HASH_ITEM)) (clear : bool)
    : res (sent * option (list HASH_ITEM)) :=
  match l with
  | None => Ok ({| s_err := 1; s_count := 0; s_out := []; s_dropped := [] |}, None)
  | Some l => r ← send_loop tb clear l None 0 0 0 []; Ok (r, Some [])
  end.

(** ** Messages to the server *)

Definition srv_key : res (option RSA) :=
  '(_, out) ← file_2_pubrsa (Some (str "srv-public-key.pem")) (Some None);
  Ok (default None out).

(** The buffer of a tracking message. *)
Definition track_fill (iid : list byte) (t : timespec) : res (list byte) :=
  buf ← put_time (zeros SZ_BUF) t;
  buf ← wr buf off_type [msg_enum MSG_TRA];
  id ← rd iid 0 LEN_DEVID;
  wr buf off_dev_id id.

(** Returns what [sendto] returned, 0 when nothing was sent.  The argument [port] is not
    used by the code; the datagram goes to [PORT + 1]. *)
Definition send_msg_track (iid ipaddr : option (list byte)) (t : option timespec)
    (key256 iv : option (list byte)) : res (Z * list datagram) :=
  match ipaddr with
  | None => Fault NullDeref                       (* inet_addr(ipaddr) *)
  | Some ip =>
    let addr := {| sin_family := AF_INET; sin_addr := inet_addr ip; sin_port := PORT + 1 |} in
    match t, iid with
    | Some t, Some iid =>
      buf ← track_fill iid t;
      match key256 with
      | None =>
        pubkey ← srv_key;
        '(err, data, len) ← rsa_enc pubkey buf (Some None) SZ_COM (Some 0);
        if negb (err =? 0) then Ok (0, [])
        else
          let rsa_len := default 0 len in
          if MAX_MSG <=? rsa_len then Ok (0, [])
          else
            s ← rd_out (default None data) rsa_len;
            buf ← wr buf 0 s;
            buf ← wr buf rsa_len [rsa_aes ENCRYPT_SRV_PUB];
            sendto buf (rsa_len + 1) addr
      | Some _ =>
        (* bufout is not initialised; only bytes written to it are sent *)
        '(err, bufout, n) ← msg_aes_enc (Some buf) (Some (zeros SZ_BUF)) key256 iv SZ_COM
                              (Some 0) SZ_BUF;
        if negb (err =? 0) then Ok (0, [])
        else sendto (default [] bufout) (default 0 n) addr
      end
    | _, _ => Ok (0, [])
    end
  end.

(** The buffer of a request and the length of the message in it. *)
Definition cmd_fill (cmd : MSG_ENUM) (r : MSG_ROUTE) (data : option (list byte)) (len : Z)
    (idd : list byte) (t : timespec) : res (list byte * Z) :=
  buffer ← wr (zeros SZ_BUF) off_type [msg_enum cmd];
  buffer ← wr buffer off_ifroute [msg_route r];
  id ← rd (idd ++ [x00]) 0 (MIN LEN_DEVID (zlen idd + 1));
  buffer ← wr buffer off_dev_id id;
  '(buffer, n) ←
    match data with
    | Some data =>
      d ← rd data 0 len;
      buffer ← wr buffer SZ_COM d;
      buffer ← put_u16 buffer off_len len;
      Ok (buffer, wrap 16 (SZ_COM + len))
    | None => Ok (buffer, SZ_COM)
    end;
  buffer ← put_u64 buffer off_second (tv_sec t);
  buffer ← put_u64 buffer off_nano (tv_nsec t);
  Ok (buffer, n).

(** [log] is [DUM_MSG] on the message. *)
Definition cmd_2_srv (log : list byte -> res unit) (cmd : MSG_ENUM) (r : MSG_ROUTE)
    (data : option (list byte)) (len : Z) (idd ip : list byte) (t : timespec)
    : res (Z * list datagram) :=
  if socket_rc <? 0 then Ok (1, [])
  else
    let servaddr := {| sin_family := AF_INET; sin_addr := inet_addr ip; sin_port := PORT |} in
    '(buffer, n) ← cmd_fill cmd r data len idd t;
    _ ← log buffer;
    pubkey ← srv_key;
    '(err, rdata, rlen) ← rsa_enc pubkey buffer (Some None) n (Some 0);
    '(err, out) ←
      (if negb (err =? 0) then Ok (err, [])
       else
         let rsa_len := default 0 rlen in
         if MAX_MSG <=? rsa_len then Ok (err, [])
         else
           s ← rd_out (default None rdata) rsa_len;
           buffer ← wr buffer 0 s;
           buffer ← wr buffer rsa_len [rsa_aes ENCRYPT_SRV_PUB];
           '(_, o) ← sendto buffer (rsa_len + 1) servaddr;
           Ok (err, o));
    Ok (if 0 <? socket_rc then close_rc else err, out).
End Send.

(** ** Lemmas: building a header in a zeroed buffer *)

(** Any header and data, written out in members. *)
Definition obj (t r : byte) (dev ntf sec nano len rest : list byte) : list byte :=
  [t] ++ [r] ++ dev ++ ntf ++ sec ++ nano ++ len ++ rest.
Definition obj_wf (dev ntf sec nano len : list byte) : Prop :=
  zlen dev = 40 /\ zlen ntf = 40 /\ zlen sec = 8 /\ zlen nano = 8 /\ zlen len = 2.

Lemma obj_zeros n :
  SZ_COM <= n -> zeros n = obj x00 x00 (zeros 40) (zeros 40) (zeros 8) (zeros 8) (zeros 2)
                             (zeros (n - SZ_COM)).
Proof.
  unfold SZ_COM. intros H. unfold obj.
  replace n with (1 + (1 + (40 + (40 + (8 + (8 + (2 + (n - 100)))))))) at 1 by lia.
  by rewrite !zeros_add by lia.
Qed.

Lemma obj_com t r dev ntf sec nano len rest :
  obj t r dev ntf sec nano len rest
  = com_bytes {| com_type := t; com_ifroute := r; com_dev_id := dev; com_ntf_id := ntf;
                 com_second := sec; com_nano := nano; com_len := len |} ++ rest.
Proof. unfold obj, com_bytes. cbn. by rewrite <- !app_assoc. Qed.

Lemma zlen_obj t r dev ntf sec nano len rest :
  obj_wf dev ntf sec nano len ->
  zlen (obj t r dev ntf sec nano len rest) = 100 + zlen rest.
Proof.
  intros (H1 & H2 & H3 & H4 & H5). unfold obj. rewrite !zlen_app, H1, H2, H3, H4, H5.
  change (zlen [t]) with 1. change (zlen [r]) with 1. lia.
Qed.

Section Obj.
Context (t r : byte) (dev ntf sec nano len rest : list byte).
Context (W : obj_wf dev ntf sec nano len).

Ltac obj_side :=
  destruct W as (? & ? & ? & ? & ?); unfold off_type, off_ifroute, off_dev_id, off_ntf_id,
    off_second, off_nano, off_len, SZ_COM in *; rewrite ?zlen_app, ?zlen_cons;
  change (@zlen byte []) with 0; try lia.

Lemma obj_type v : wr (obj t r dev ntf sec nano len rest) off_type [v]
  = Ok (obj v r dev ntf sec nano len rest).
Proof. by apply (wr_part _ [] [t] [v] ([r] ++ dev ++ ntf ++ sec ++ nano ++ len ++ rest)). Qed.

Lemma obj_route v : wr (obj t r dev ntf sec nano len rest) off_ifroute [v]
  = Ok (obj t v dev ntf sec nano len rest).
Proof. by apply (wr_part _ [t] [r] [v] (dev ++ ntf ++ sec ++ nano ++ len ++ rest)). Qed.

Lemma obj_dev v : zlen v <= 40 -> wr (obj t r dev ntf sec nano len rest) off_dev_id v
  = Ok (obj t r (v ++ drop (length v) dev) ntf sec nano len rest).
Proof.
  intros Hv. unfold obj.
  rewrite (wr_part _ ([t] ++ [r]) (take (length v) dev) v
    (drop (length v) dev ++ ntf ++ sec ++ nano ++ len ++ rest)).
  - by rewrite <- !app_assoc.
  - by rewrite (app_assoc (take _ _)), take_drop, <- app_assoc.
  - done.
  - destruct W as (? & _). len.
Qed.

Lemma obj_second v : zlen v = 8 -> wr (obj t r dev ntf sec nano len rest) off_second v
  = Ok (obj t r dev ntf v nano len rest).
Proof.
  intros Hv. unfold obj.
  rewrite (wr_part _ ([t] ++ [r] ++ dev ++ ntf) sec v (nano ++ len ++ rest));
    [by rewrite <- !app_assoc|by rewrite <- !app_assoc|obj_side|obj_side].
Qed.

Lemma obj_nano v : zlen v = 8 -> wr (obj t r dev ntf sec nano len rest) off_nano v
  = Ok (obj t r dev ntf sec v len rest).
Proof.
  intros Hv. unfold obj.
  rewrite (wr_part _ ([t] ++ [r] ++ dev ++ ntf ++ sec) nano v (len ++ rest));
    [by rewrite <- !app_assoc|by rewrite <- !app_assoc|obj_side|obj_side].
Qed.

Lemma obj_len v : zlen v = 2 -> wr (obj t r dev ntf sec nano len rest) off_len v
  = Ok (obj t r dev ntf sec nano v rest).
Proof.
  intros Hv. unfold obj.
  rewrite (wr_part _ ([t] ++ [r] ++ dev ++ ntf ++ sec ++ nano) len v rest);
    [by rewrite <- !app_assoc|by rewrite <- !app_assoc|obj_side|obj_side].
Qed.

Lemma obj_put_second v : put_u64 (obj t r dev ntf sec nano len rest) off_second v
  = Ok (obj t r dev ntf (le_bytes 8 v) nano len rest).
Proof.
  pose proof (zlen_obj t r dev ntf sec nano len rest W). pose proof (zlen_nonneg rest).
  rewrite put_u64_wr by (unfold off_second; lia). by apply obj_second.
Qed.

Lemma obj_put_nano v : put_u64 (obj t r dev ntf sec nano len rest) off_nano v
  = Ok (obj t r dev ntf sec (le_bytes 8 v) len rest).
Proof.
  pose proof (zlen_obj t r dev ntf sec nano len rest W). pose proof (zlen_nonneg rest).
  rewrite put_u64_wr by (unfold off_nano; lia). by apply obj_nano.
Qed.

Lemma obj_put_len v : put_u16 (obj t r dev ntf sec nano len rest) off_len v
  = Ok (obj t r dev ntf sec nano (le_bytes 2 v) rest).
Proof.
  pose proof (zlen_obj t r dev ntf sec nano len rest W). pose proof (zlen_nonneg rest).
  rewrite put_u16_wr by (unfold off_len; lia). by apply obj_len.
Qed.
End Obj.

Lemma obj_put_time t r dev ntf sec nano len rest ts :
  obj_wf dev ntf sec nano len ->
  put_time (obj t r dev ntf sec nano len rest) ts
  = Ok (obj t r dev ntf (le_bytes 8 (tv_sec ts)) (le_bytes 8 (tv_nsec ts)) len rest).
Proof.
  intros W. destruct W as (H1 & H2 & H3 & H4 & H5).
  unfold put_time. cbn [put_time_to_msg]. unfold LEN_U64INT.
  rewrite obj_second by done. cbn [mbind res_bind].
  rewrite obj_nano by done. cbn [mbind res_bind].
  rewrite obj_put_second by done. cbn [mbind res_bind].
  rewrite obj_put_nano by done. done.
Qed.

(** ** The datagram an item of the forward list becomes *)

Section SendLemmas.
Context `{RL : RSALib} `{GL : GCMLaws} `{FS : FileSystem} `{NW : Network}.

(** Whom a message is for: answers to a notifier go to the notifier it names, everything
    else that is routed to the device it names. *)
Inductive addressee : byte -> Z -> Prop :=
| to_device r :
    r ∈ [G_NTF_CLI; F_SRV_CLI; G_NTF_SRV; F_SRV_NTF] -> addressee (msg_route r) off_dev_id
| to_notifier : addressee (msg_route G_CLI_NTF) off_ntf_id.

Lemma addressee_off r off : addressee r off -> dst_off r = Some off.
Proof.
  intros [x Hx|]; [|done].
  repeat (apply elem_of_cons in Hx as [->|Hx]; [done|]). by apply not_elem_of_nil in Hx.
Qed.

(** The item has a route and an identifier with an address in the table. *)
Definition routed (tb : table) (it : HASH_ITEM) (m : list byte) (a : sockaddr_in)
    (s : list byte) : Prop :=
  hi_msg it = Some m /\ zlen s < LEN_DEVID /\ reg_addr tb s = Some a /\
  exists r off, rd1 m off_ifroute = Ok r /\ addressee r off /\ cstr_at m off = Ok s.

(** The bytes of the message on the wire: encrypted with the key of the device, under the
    AES key of the server, or as they are. *)
Inductive packed (m : list byte) (n : Z) (s : list byte) : list byte -> Prop :=
| packed_key b pk ct :
    rd1 m off_type = Ok b -> is_type b MSG_GET_AES = true ->
    get_cli_pub s = Ok (Some pk) -> 1 <= RSA_size pk ->
    RSA_public_encrypt (take (Z.to_nat n) m) pk = Some ct ->
    0 <= n <= zlen m -> 1 <= zlen ct < SZ_BUF -> zlen ct <= rsa_buflen n (RSA_size pk) ->
    packed m n s (ct ++ [rsa_aes ENCRYPT_CLI_PUB])
| packed_aes b :
    rd1 m off_type = Ok b -> is_type b MSG_NTF = true ->
    0 <= n <= zlen m -> n + 17 <= SZ_BUF ->
    packed m n s (frame aes_key aes_iv (take (Z.to_nat n) m))
| packed_plain b :
    rd1 m off_type = Ok b -> is_type b MSG_GET_AES = false -> is_type b MSG_NTF = false ->
    0 <= n <= zlen m -> n <= SZ_BUF ->
    packed m n s (take (Z.to_nat n) m).

Definition wire (tb : table) (it : HASH_ITEM) (d : datagram) : Prop :=
  exists m s, routed tb it m (fst d) s /\ packed m (hi_n_msg it) s (snd d).

Lemma is_type_excl b : is_type b MSG_NTF = true -> is_type b MSG_GET_AES = false.
Proof. unfold is_type. intros Hb. b2p. by rewrite Hb. Qed.

Lemma rsa_enc_some pk m n ct sn :
  0 <= n <= zlen m -> 1 <= RSA_size pk ->
  RSA_public_encrypt (take (Z.to_nat n) m) pk = Some ct ->
  1 <= zlen ct <= rsa_buflen n (RSA_size pk) ->
  exists pad, rsa_enc (Some pk) m (Some None) n (Some sn)
    = Ok (0, Some (Some (ct ++ pad)), Some (zlen ct)).
Proof.
  intros Hn Hb Hct Hl. eexists. unfold rsa_enc. decide_cmp.
  rewrite MY_MALLOC_ok by lia. cbn [mbind res_bind]. rewrite rd_head by lia.
  cbn [mbind res_bind]. rewrite Hct, wr_zeros by lia. cbn [mbind res_bind].
  by decide_cmp.
Qed.

(** A prefix of the buffer, and a byte behind it. *)
Lemma wr_buf s n : zlen s <= n -> wr (zeros n) 0 s = Ok (s ++ zeros (n - zlen s)).
Proof. apply wr_zeros. Qed.

Lemma wr_behind s b k :
  1 <= k -> wr (s ++ zeros k) (zlen s) [b] = Ok ((s ++ [b]) ++ zeros (k - 1)).
Proof.
  intros Hk. replace k with (1 + (k - 1)) at 1 by lia. rewrite zeros_add by lia.
  rewrite wr_mid by done. by rewrite <- app_assoc.
Qed.

Lemma pack_msg_ok m n s sn p :
  packed m n s p ->
  exists rest, pack_msg m n s 0 sn = Ok (0, p ++ rest, zlen p, false).
Proof.
  unfold SZ_BUF, MAX_MSG.
  destruct 1 as [b pk ct Hb Ht Hk Hs Hct Hn Hl Hbl|b Hb Ht Hn Hl|b Hb Ht1 Ht2 Hn Hl];
    unfold pack_msg, SZ_BUF, MAX_MSG; rewrite Hb; cbn [mbind res_bind].
  - rewrite Ht, Hk. cbn [mbind res_bind]. unfold SZ_BUF, MAX_MSG in Hl.
    destruct (rsa_enc_some pk m n ct sn Hn Hs Hct ltac:(lia)) as [pad Hr].
    rewrite Hr. cbn [mbind res_bind default from_option id].
    rewrite (rd_part _ [] ct pad 0 (zlen ct)) by done. cbn [mbind res_bind].
    rewrite wr_buf by lia. cbn [mbind res_bind]. rewrite wr_behind by lia.
    cbn [mbind res_bind]. eexists. rewrite zlen_app. done.
  - rewrite (is_type_excl _ Ht), Ht.
    rewrite msg_aes_enc_ok by (try done; rewrite ?zlen_zeros; unfold SZ_BUF, MAX_MSG in *; lia).
    unfold SZ_BUF, MAX_MSG in Hl. decide_cmp. cbn [mbind res_bind negb Z.eqb default from_option id].
    eexists. rewrite zlen_frame. replace (zlen (take _ m)) with n by len. done.
  - rewrite Ht1, Ht2, rd_head by lia. cbn [mbind res_bind]. unfold SZ_BUF, MAX_MSG in Hl.
    assert (Hz : zlen (take (Z.to_nat n) m) = n) by len.
    rewrite wr_buf by lia. cbn [mbind res_bind]. rewrite Hz. eauto.
Qed.

Lemma dst_search_ok m off s g ids :
  cstr_at m off = Ok s -> zlen s < LEN_DEVID -> map item_id g = map Some ids ->
  dst_search m off g = Ok (snd <$> list_find (fun it => item_id it = Some s) g).
Proof.
  intros Hs Hl. revert ids. induction g as [|it g IH]; intros ids Hg; [done|].
  destruct ids as [|x ids]; [done|]. cbn [map] in Hg. injection Hg as Hx Hg.
  cbn [dst_search]. destruct (id_cmp_ok m off s it x Hs Hl Hx) as (k & -> & Hk).
  cbn [mbind res_bind list_find]. rewrite Hk. case_bool_decide as Hd.
  - by rewrite decide_True.
  - rewrite decide_False by done. rewrite (IH ids Hg). by destruct (list_find _ g) as [[? ?]|].
Qed.

Lemma sendto_ok p rest a :
  sendto (p ++ rest) (zlen p) a = Ok (sendto_rc a p, [(a, p)]).
Proof.
  unfold sendto. pose proof (zlen_nonneg p). decide_cmp.
  by rewrite (rd_part _ [] p rest 0 (zlen p)).
Qed.

(** One round of the loop on an item that can be delivered. *)
Lemma send_loop_step tb it d l sn count out :
  reg_ok tb -> wire tb it d ->
  send_loop tb true (it :: l) None 0 sn count out
  = send_loop tb true l None 0 (sendto_rc (fst d) (snd d)) (count + 1) (out ++ [d]).
Proof.
  intros Hok (m & s & (Hm & Hl & Ha & r & off & Hr & Ho & Hs) & Hp). apply addressee_off in Ho.
  destruct (reg_ok_bucket tb (id_hash s) Hok) as (_ & ids & Hids & _ & _).
  cbn [send_loop]. rewrite Hm. cbn [deref mbind res_bind]. rewrite Hr. cbn [mbind res_bind].
  rewrite Ho, Hs. cbn [mbind res_bind]. rewrite (hash_id_chars _ _ _ Hs).
  cbn [mbind res_bind]. rewrite table_at_ok. cbn [mbind res_bind].
  unfold reg_addr, reg_lookup in Ha.
  pose proof (dst_search_ok m off s _ ids Hs Hl Hids) as Hsearch.
  destruct (hl_group (bucket tb (id_hash s))) as [|it0 g] eqn:Eg; [done|].
  rewrite Hsearch. cbn [mbind res_bind].
  destruct (list_find _ (it0 :: g)) as [[i p]|]; [|done].
  cbn [fmap option_fmap option_map compose snd] in Ha |- *. injection Ha as Ha.
  destruct (pack_msg_ok m (hi_n_msg it) s sn (snd d) Hp) as [rest Hpk].
  rewrite Hpk. cbn [mbind res_bind]. rewrite sendto_ok. cbn [mbind res_bind].
  rewrite Ha. by destruct d.
Qed.

(** An item whose identifier has no address stops the loop. *)
Lemma send_loop_stop tb it m r off s l err sn count out :
  reg_ok tb -> hi_msg it = Some m -> rd1 m off_ifroute = Ok r -> dst_off r = Some off ->
  cstr_at m off = Ok s -> zlen s < LEN_DEVID -> reg_addr tb s = None ->
  send_loop tb true (it :: l) None err sn count out
  = Ok {| s_err := 1; s_count := count; s_out := out; s_dropped := it :: l |}.
Proof.
  intros Hok Hm Hr Ho Hs Hl Ha.
  destruct (reg_ok_bucket tb (id_hash s) Hok) as (_ & ids & Hids & _ & _).
  cbn [send_loop]. rewrite Hm. cbn [deref mbind res_bind]. rewrite Hr. cbn [mbind res_bind].
  rewrite Ho, Hs. cbn [mbind res_bind]. rewrite (hash_id_chars _ _ _ Hs).
  cbn [mbind res_bind]. rewrite table_at_ok. cbn [mbind res_bind].
  unfold reg_addr, reg_lookup in Ha.
  pose proof (dst_search_ok m off s _ ids Hs Hl Hids) as Hsearch.
  destruct (hl_group (bucket tb (id_hash s))) as [|it0 g] eqn:Eg; [done|].
  rewrite Hsearch. cbn [mbind res_bind]. by destruct (list_find _ (it0 :: g)).
Qed.

Lemma send_loop_all tb l ds rest sn count out :
  reg_ok tb -> Forall2 (wire tb) l ds ->
  exists sn', send_loop tb true (l ++ rest) None 0 sn count out
    = send_loop tb true rest None 0 sn' (count + zlen l) (out ++ ds).
Proof.
  intros Hok Hf. revert sn count out. induction Hf as [|it d l ds Hw Hf IH]; intros sn count out.
  - exists sn. rewrite app_nil_r. change (zlen []) with 0. by rewrite Z.add_0_r.
  - cbn [app]. rewrite (send_loop_step tb it d) by done.
    destruct (IH (sendto_rc (fst d) (snd d)) (count + 1) (out ++ [d])) as [sn' ->].
    exists sn'. rewrite zlen_cons, <- app_assoc. f_equal. lia.
Qed.

Lemma add_ok msg l n :
  0 <= n <= zlen msg ->
  add_to_item_list msg (Some l) n
  = Ok (0, Some ({| hi_ipv4 := sockaddr_zero; hi_n_msg := n;
                    hi_msg := Some (take (Z.to_nat n) msg) |} :: l)).
Proof.
  intros Hn. unfold add_to_item_list. rewrite MY_MALLOC_ok by lia. cbn [mbind res_bind].
  rewrite rd_head by lia. cbn [mbind res_bind].
  assert (Hz : zlen (take (Z.to_nat n) msg) = n) by len.
  rewrite wr_zeros by lia. rewrite Hz, Z.sub_diag. change (zeros 0) with (@nil byte).
  by rewrite app_nil_r.
Qed.
End SendLemmas.

(** ** Lemmas: requests to the server *)

(** An identifier in its field. *)
Definition id_field (s : list byte) : list byte := s ++ zeros (LEN_DEVID - zlen s).
Definition request (cmd : MSG_ENUM) (r : MSG_ROUTE) (idd : list byte) (t : timespec)
    : MSG_COMMON :=
  {| com_type := msg_enum cmd; com_ifroute := msg_route r; com_dev_id := id_field idd;
     com_ntf_id := zeros 40; com_second := le_bytes 8 (tv_sec t);
     com_nano := le_bytes 8 (tv_nsec t); com_len := zeros 2 |}.
Definition srv_addr `{Network} (ip : list byte) (port : Z) : sockaddr_in :=
  {| sin_family := AF_INET; sin_addr := inet_addr ip; sin_port := port |}.

Lemma request_wf cmd r idd t : zlen idd < LEN_DEVID -> com_wf (request cmd r idd t).
Proof.
  unfold LEN_DEVID. intros H. unfold com_wf, request, id_field, LEN_DEVID.
  cbn [com_dev_id com_ntf_id com_second com_nano com_len].
  rewrite !zlen_le_bytes, zlen_app, !zlen_zeros by lia. repeat split; lia.
Qed.

Section RequestLemmas.
Context `{RL : RSALaws} `{FS : FileSystem} `{NW : Network}.

(** The tail both senders share: encrypt [n] bytes with the key of the server, mark, send. *)
Lemma rsa_send pub prv buf n ip port :
  key_pair pub prv -> 1 <= n <= RSA_size pub - 11 -> n <= zlen buf ->
  RSA_size pub < MAX_MSG -> zlen buf = SZ_BUF ->
  exists ct data,
    RSA_public_encrypt (take (Z.to_nat n) buf) pub = Some ct /\
    RSA_private_decrypt ct prv = Some (take (Z.to_nat n) buf) /\
    zlen ct = RSA_size pub /\
    rsa_enc (Some pub) buf (Some None) n (Some 0)
      = Ok (0, Some (Some data), Some (RSA_size pub)) /\
    rd_out (Some data) (RSA_size pub) = Ok ct /\
    exists b1 b2, wr buf 0 ct = Ok b1 /\ wr b1 (RSA_size pub) [rsa_aes ENCRYPT_SRV_PUB] = Ok b2 /\
      sendto b2 (RSA_size pub + 1) (srv_addr ip port)
      = Ok (sendto_rc (srv_addr ip port) (ct ++ [rsa_aes ENCRYPT_SRV_PUB]),
            [(srv_addr ip port, ct ++ [rsa_aes ENCRYPT_SRV_PUB])]).
Proof.
  unfold SZ_BUF, MAX_MSG. intros Hk Hn Hb Hs Hz. pose proof (key_pair_size_pos _ _ Hk).
  destruct (rsa_enc_ok pub prv buf None n (Some 0) Hk Hn Hb) as (ct & pad & Hct & Hsz & _ & He).
  exists ct, (ct ++ pad). split; [done|].
  split; [by eapply RSA_decrypt_encrypt|]. split; [done|]. split; [exact He|]. split.
  { cbn [rd_out]. by apply (rd_part _ [] ct pad). }
  assert (Hd : exists c rest, drop (length ct) buf = c :: rest).
  { destruct (drop (length ct) buf) as [|c rest] eqn:E; [|eauto].
    apply (f_equal length) in E. rewrite length_drop in E. cbn in E. unfold zlen in *. lia. }
  destruct Hd as (c & rest & Hd).
  exists (ct ++ drop (length ct) buf). eexists. split; [apply wr_head; lia|].
  rewrite Hd, <- Hsz. split.
  - change (c :: rest) with ([c] ++ rest). by rewrite wr_mid.
  - rewrite app_assoc.
    replace (zlen ct + 1) with (zlen (ct ++ [rsa_aes ENCRYPT_SRV_PUB])) by (by rewrite zlen_app).
    apply sendto_ok.
Qed.

Lemma request_buffer cmd r idd t :
  zlen idd < LEN_DEVID ->
  cmd_fill cmd r None 0 idd t
  = Ok (com_bytes (request cmd r idd t) ++ zeros 1101, SZ_COM).
Proof.
  unfold LEN_DEVID. intros Hl. pose proof (zlen_nonneg idd). unfold cmd_fill, LEN_DEVID.
  rewrite (obj_zeros SZ_BUF) by done. rewrite obj_type by done. cbn [mbind res_bind].
  rewrite obj_route by done. cbn [mbind res_bind].
  rewrite MIN_spec, Z.min_r by lia.
  replace (zlen idd + 1) with (zlen (idd ++ [x00])) by (by rewrite zlen_app).
  rewrite rd_whole. cbn [mbind res_bind].
  rewrite obj_dev by (done || rewrite zlen_app; change (zlen [x00]) with 1; lia).
  cbn [mbind res_bind].
  assert (Hid : (idd ++ [x00]) ++ drop (length (idd ++ [x00])) (zeros 40) = id_field idd).
  { unfold id_field, LEN_DEVID, zeros. rewrite <- app_assoc. f_equal.
    rewrite length_app, drop_replicate. cbn [length app]. 
    replace (Z.to_nat (40 - zlen idd)) with (S (Z.to_nat 40 - (length idd + 1)))
      by (unfold zlen in *; lia). done. }
  rewrite Hid.
  assert (W : obj_wf (id_field idd) (zeros 40) (zeros 8) (zeros 8) (zeros 2)).
  { unfold obj_wf, id_field, LEN_DEVID. rewrite zlen_app, !zlen_zeros by lia.
    repeat split; lia. }
  rewrite obj_put_second by done. cbn [mbind res_bind].
  rewrite obj_put_nano; [cbn [mbind res_bind]; by rewrite obj_com|].
  destruct W as (? & ? & ? & ? & ?). repeat split; done.
Qed.

Definition tracking (iid : list byte) (t : timespec) : MSG_COMMON :=
  {| com_type := msg_enum MSG_TRA; com_ifroute := x00; com_dev_id := take 40 iid;
     com_ntf_id := zeros 40; com_second := le_bytes 8 (tv_sec t);
     com_nano := le_bytes 8 (tv_nsec t); com_len := zeros 2 |}.

Lemma tracking_length iid t : LEN_DEVID <= zlen iid -> zlen (com_bytes (tracking iid t)) = 100.
Proof.
  unfold LEN_DEVID. intros Hl. apply com_bytes_length. unfold com_wf, tracking, LEN_DEVID.
  cbn [com_dev_id com_ntf_id com_second com_nano com_len].
  rewrite !zlen_le_bytes, !zlen_zeros by lia. repeat split. len.
Qed.

Lemma tracking_buffer iid t :
  LEN_DEVID <= zlen iid ->
  track_fill iid t
  = Ok (com_bytes (tracking iid t) ++ zeros 1101).
Proof.
  unfold LEN_DEVID. intros Hl. unfold track_fill, LEN_DEVID. rewrite (obj_zeros SZ_BUF) by done.
  rewrite obj_put_time by done. cbn [mbind res_bind]. rewrite obj_type by done.
  cbn [mbind res_bind]. rewrite rd_head by lia. cbn [mbind res_bind].
  change (Z.to_nat 40) with 40%nat. assert (Hz : zlen (take 40 iid) = 40) by len.
  rewrite obj_dev by (done || lia). rewrite drop_ge, app_nil_r by (unfold zlen in Hz |- *; len).
  by rewrite obj_com.
Qed.
End RequestLemmas.

(** ** Properties *)

Section SendProperties.
Context `{RL : RSALib} `{GL : GCMLaws} `{FS : FileSystem} `{NW : Network}.

Lemma send_to_dst_ok tb l ds :
  reg_ok tb -> Forall2 (wire tb) l ds ->
  send_to_dst tb (Some l) true
  = Ok ({| s_err := 0; s_count := zlen l; s_out := ds; s_dropped := [] |}, Some []).
Proof.
  intros Hok Hf. unfold send_to_dst.
  destruct (send_loop_all tb l ds [] 0 0 [] Hok Hf) as [sn' E].
  rewrite app_nil_r in E. rewrite E. done.
Qed.

(** C7: when every item of the forward list has a route, an identifier with an address and
    a message that fits, one call of [send_to_dst] with [clear] set sends exactly one
    datagram for each, to the address registered for its identifier, newest message
    first, encrypted as its type demands; it counts them, returns 0 and leaves the list
    empty. *)
Theorem send_to_dst_delivers tb l ds :
  reg_ok tb -> Forall2 (wire tb) l ds ->
  send_to_dst tb (Some l) true
  = Ok ({| s_err := 0; s_count := zlen l; s_out := ds; s_dropped := [] |}, Some []).
Proof. apply send_to_dst_ok. Qed.

(** at the first item whose identifier has no address [send_to_dst] stops with the
    error 1: what was before it is delivered, and the item and everything behind it are
    lost, because the list was already detached. *)
Theorem send_to_dst_stops tb l1 ds it l2 m r off s :
  reg_ok tb -> Forall2 (wire tb) l1 ds ->
  hi_msg it = Some m -> rd1 m off_ifroute = Ok r -> addressee r off ->
  cstr_at m off = Ok s -> zlen s < LEN_DEVID -> reg_addr tb s = None ->
  send_to_dst tb (Some (l1 ++ it :: l2)) true
  = Ok ({| s_err := 1; s_count := zlen l1; s_out := ds; s_dropped := it :: l2 |}, Some []).
Proof.
  intros Hok Hf Hm Hr Ho%addressee_off Hs Hl Ha. unfold send_to_dst.
  destruct (send_loop_all tb l1 ds (it :: l2) 0 0 [] Hok Hf) as [sn' E]. rewrite E.
  by rewrite (send_loop_stop tb it m r off s).
Qed.
End SendProperties.

Lemma cmd_2_srv_ok `{RSALaws} `{FileSystem} `{Network} log cmd r idd ip t pub prv :
  srv_key = Ok (Some pub) -> key_pair pub prv -> 111 <= RSA_size pub < MAX_MSG ->
  0 <= socket_rc -> zlen idd < LEN_DEVID ->
  log (com_bytes (request cmd r idd t) ++ zeros 1101) = Ok tt ->
  exists ct,
    cmd_2_srv log cmd r None 0 idd ip t
    = Ok (if 0 <? socket_rc then close_rc else 0,
          [(srv_addr ip PORT, ct ++ [rsa_aes ENCRYPT_SRV_PUB])]) /\
    zlen ct = RSA_size pub /\
    RSA_public_encrypt (com_bytes (request cmd r idd t)) pub = Some ct /\
    RSA_private_decrypt ct prv = Some (com_bytes (request cmd r idd t)).
Proof.
  intros Hkey Hk Hs Hsock Hl Hlog. pose proof (request_buffer cmd r idd t Hl) as Hbuf.
  pose proof (com_bytes_length _ (request_wf cmd r idd t Hl)) as Hz. unfold SZ_COM in Hz.
  set (h := com_bytes (request cmd r idd t)) in *.
  assert (Hzb : zlen (h ++ zeros 1101) = SZ_BUF) by (rewrite zlen_app, Hz; done).
  assert (Ht : take (Z.to_nat 100) (h ++ zeros 1101) = h)
    by (apply take_app_length'; unfold zlen in Hz; lia).
  destruct (rsa_send pub prv (h ++ zeros 1101) 100 ip PORT) as
    (ct & data & Hpe & Hdec & Hcz & Henc & Hrd & b1 & b2 & Hw1 & Hw2 & Hsend);
    [done|lia|rewrite Hzb; done|lia|done|].
  exists ct. rewrite Ht in Hdec, Hpe. split; [|done].
  unfold cmd_2_srv. replace (socket_rc <? 0) with false by (symmetry; apply Z.ltb_ge; lia).
  rewrite Hbuf. cbn [mbind res_bind]. rewrite Hlog. cbn [mbind res_bind].
  rewrite Hkey. cbn [mbind res_bind]. unfold SZ_COM. rewrite Henc. cbn [mbind res_bind negb Z.eqb default from_option id].
  unfold MAX_MSG in *. decide_cmp. rewrite Hrd. cbn [mbind res_bind]. rewrite Hw1.
  cbn [mbind res_bind]. rewrite Hw2. cbn [mbind res_bind].
  fold (srv_addr ip PORT). by rewrite Hsend.
Qed.

(** a request without data is one datagram to the server's port: the header with the
    command, the route, the identifier and the time, encrypted with the server's public
    key and marked as such; the server's private key opens it. *)
Theorem cmd_2_srv_spec `{RSALaws} `{FileSystem} `{Network} log cmd r idd ip t pub prv :
  srv_key = Ok (Some pub) -> key_pair pub prv -> 111 <= RSA_size pub < MAX_MSG ->
  0 <= socket_rc -> zlen idd < LEN_DEVID ->
  log (com_bytes (request cmd r idd t) ++ zeros 1101) = Ok tt ->
  exists ct,
    cmd_2_srv log cmd r None 0 idd ip t
    = Ok (if 0 <? socket_rc then close_rc else 0,
          [(srv_addr ip PORT, ct ++ [rsa_aes ENCRYPT_SRV_PUB])]) /\
    zlen ct = RSA_size pub /\
    RSA_public_encrypt (com_bytes (request cmd r idd t)) pub = Some ct /\
    RSA_private_decrypt ct prv = Some (com_bytes (request cmd r idd t)).
Proof. apply cmd_2_srv_ok. Qed.

(** a tracking message is one datagram to the port behind the server's: encrypted with
    the AES key when there is one, with the server's public key otherwise, it carries the
    first 40 bytes of the identifier and the time.  An identifier object of fewer than 40
    bytes, such as the literal of 36 characters in the client, is read past its end. *)
Theorem send_msg_track_spec `{RSALaws} `{GCMLaws} `{FileSystem} `{Network} iid ip t key iv
    pub prv :
  32 <= zlen key -> 16 <= zlen iv ->
  srv_key = Ok (Some pub) -> key_pair pub prv -> 111 <= RSA_size pub < MAX_MSG ->
  let addr := srv_addr ip (PORT + 1) in
  let h := com_bytes (tracking iid t) in
  (LEN_DEVID <= zlen iid ->
   send_msg_track (Some iid) (Some ip) (Some t) (Some key) (Some iv)
   = Ok (sendto_rc addr (frame key iv h), [(addr, frame key iv h)])) /\
  (LEN_DEVID <= zlen iid -> exists ct,
   send_msg_track (Some iid) (Some ip) (Some t) None (Some iv)
   = Ok (sendto_rc addr (ct ++ [rsa_aes ENCRYPT_SRV_PUB]),
         [(addr, ct ++ [rsa_aes ENCRYPT_SRV_PUB])]) /\
   RSA_private_decrypt ct prv = Some h) /\
  (zlen iid < LEN_DEVID -> forall k,
   send_msg_track (Some iid) (Some ip) (Some t) k (Some iv) = Fault OobRead).
Proof.
  intros Hkl Hvl Hkey Hk Hs addr h. unfold send_msg_track. split; [|split].
  - intros Hl. pose proof (tracking_buffer iid t Hl) as Hb.
    pose proof (tracking_length iid t Hl) as Hz. fold h in Hb, Hz.
    assert (Hzb : zlen (h ++ zeros 1101) = 1201) by (rewrite zlen_app, Hz; done).
    rewrite Hb. cbn [mbind res_bind]. unfold SZ_COM, SZ_BUF, MAX_MSG.
    pose proof (zlen_zeros (1200 + 1) ltac:(done)).
    rewrite msg_aes_enc_ok by lia.
    change (1200 + 1 <? 100 + 17) with false. cbn [mbind res_bind negb Z.eqb default from_option id].
    rewrite take_app_length' by (unfold zlen in Hz; lia).
    replace (100 + 17) with (zlen (frame key iv h)) by (rewrite zlen_frame; lia).
    apply sendto_ok.
  - intros Hl. pose proof (tracking_buffer iid t Hl) as Hb.
    pose proof (tracking_length iid t Hl) as Hz. fold h in Hb, Hz.
    assert (Hzb : zlen (h ++ zeros 1101) = 1201) by (rewrite zlen_app, Hz; done).
    assert (Ht : take (Z.to_nat 100) (h ++ zeros 1101) = h)
      by (apply take_app_length'; unfold zlen in Hz; lia).
    destruct (rsa_send pub prv (h ++ zeros 1101) 100 ip (PORT + 1)) as
      (ct & data & _ & Hdec & Hcz & Henc & Hrd & b1 & b2 & Hw1 & Hw2 & Hsend);
      [done|lia|rewrite Hzb; done|lia|done|].
    exists ct. rewrite Ht in Hdec. split; [|done]. rewrite Hb, Hkey. cbn [mbind res_bind]. unfold SZ_COM.
    rewrite Henc. cbn [mbind res_bind negb Z.eqb default from_option id].
    unfold MAX_MSG in *. decide_cmp. rewrite Hrd. cbn [mbind res_bind]. rewrite Hw1.
    cbn [mbind res_bind]. rewrite Hw2. cbn [mbind res_bind]. fold (srv_addr ip (PORT + 1)).
    exact Hsend.
  - intros Hl k. unfold track_fill, LEN_DEVID in *. rewrite (obj_zeros SZ_BUF), obj_put_time by done. cbn [mbind res_bind].
    rewrite obj_type by done. cbn [mbind res_bind]. by rewrite rd_oob by lia.
Qed.

(** ** The properties at concrete lists *)

#[global] Instance toy_net : Network := {|
  sendto_rc _ p := zlen p;
  socket_rc := 3;
  close_rc := 0;
  inet_addr _ := 2130706433
|}.

Definition toy_addr : sockaddr_in := {| sin_family := 2; sin_addr := 167772161; sin_port := 7000 |}.
Definition toy_item (a : sockaddr_in) (m : list byte) : HASH_ITEM :=
  {| hi_ipv4 := a; hi_n_msg := zlen m; hi_msg := Some m |}.
(** The table with the device of the examples. *)
Definition toy_table : table :=
  <[id_hash sample_id :=
      {| hl_n := 1; hl_group := [toy_item toy_addr (sample_msg MSG_REG G_NTF_CLI)] |}]> ∅.

Lemma toy_table_ok : reg_ok toy_table.
Proof. apply reg_ok_insert; [apply map_Forall_empty|vm_compute; reflexivity]. Qed.
Lemma toy_table_addr : reg_addr toy_table sample_id = Some toy_addr.
Proof. vm_compute. reflexivity. Qed.

Definition toy_plain : HASH_ITEM := toy_item sockaddr_zero (sample_msg MSG_CNF G_NTF_CLI).
Definition toy_ntf : HASH_ITEM := toy_item sockaddr_zero (sample_msg MSG_NTF G_NTF_CLI).
(** To the notifier, which is not registered. *)
Definition toy_lost : HASH_ITEM := toy_item sockaddr_zero (sample_msg MSG_NTF G_CLI_NTF).

Lemma toy_routed ty :
  routed toy_table (toy_item sockaddr_zero (sample_msg ty G_NTF_CLI)) (sample_msg ty G_NTF_CLI)
    toy_addr sample_id.
Proof.
  split; [done|]. split; [done|]. split; [exact toy_table_addr|].
  exists x00, off_dev_id. split; [by destruct ty|].
  split; [apply (to_device G_NTF_CLI); by left|]. destruct ty; vm_compute; reflexivity.
Qed.

Lemma toy_wire_plain `{RL : RSALib} `{GL : GCMLaws} `{FS : FileSystem} :
  wire toy_table toy_plain (toy_addr, sample_msg MSG_CNF G_NTF_CLI).
Proof.
  eexists _, sample_id. split; [exact (toy_routed MSG_CNF)|].
  apply (packed_plain (sample_msg MSG_CNF G_NTF_CLI) 100 sample_id x03); vm_side.
Qed.

Lemma toy_wire_ntf `{RL : RSALib} `{GL : GCMLaws} `{FS : FileSystem} :
  wire toy_table toy_ntf (toy_addr, frame aes_key aes_iv (sample_msg MSG_NTF G_NTF_CLI)).
Proof.
  eexists _, sample_id. split; [exact (toy_routed MSG_NTF)|].
  apply (packed_aes (sample_msg MSG_NTF G_NTF_CLI) 100 sample_id x02); vm_side.
Qed.

Lemma send_to_dst_delivers_witness :
  @send_to_dst toy_rsa toy_evp toy_keys toy_net toy_table (Some [toy_ntf; toy_plain]) true
  = Ok ({| s_err := 0; s_count := 2;
           s_out := [(toy_addr, frame aes_key aes_iv (sample_msg MSG_NTF G_NTF_CLI));
                     (toy_addr, sample_msg MSG_CNF G_NTF_CLI)];
           s_dropped := [] |}, Some []).
Proof.
  apply (@send_to_dst_delivers toy_rsa toy_evp toy_gcm toy_keys toy_net); [exact toy_table_ok|].
  constructor; [exact toy_wire_ntf|]. constructor; [exact toy_wire_plain|constructor].
Defined.

Lemma send_to_dst_stops_witness :
  @send_to_dst toy_rsa toy_evp toy_keys toy_net toy_table
    (Some ([toy_ntf] ++ toy_lost :: [toy_plain])) true
  = Ok ({| s_err := 1; s_count := 1;
           s_out := [(toy_addr, frame aes_key aes_iv (sample_msg MSG_NTF G_NTF_CLI))];
           s_dropped := [toy_lost; toy_plain] |}, Some []).
Proof.
  apply (@send_to_dst_stops toy_rsa toy_evp toy_gcm toy_keys toy_net toy_table [toy_ntf] _
    toy_lost [toy_plain] (sample_msg MSG_NTF G_CLI_NTF) x02 off_ntf_id sample_ntf);
    [exact toy_table_ok| |vm_compute; reflexivity|vm_compute; reflexivity|exact to_notifier
    |vm_compute; reflexivity..].
  constructor; [exact toy_wire_ntf|constructor].
Defined.

Lemma cmd_2_srv_spec_witness :
  exists ct, @cmd_2_srv toy_rsa toy_keys toy_net (fun _ => Ok tt) MSG_GET_AES G_CLI_SRV None 0
      sample_id (str "10.0.0.1") {| tv_sec := 1; tv_nsec := 2 |}
    = Ok (0, [(srv_addr (str "10.0.0.1") PORT, ct ++ [rsa_aes ENCRYPT_SRV_PUB])]) /\
  RSA_private_decrypt ct key_S
    = Some (com_bytes (request MSG_GET_AES G_CLI_SRV sample_id {| tv_sec := 1; tv_nsec := 2 |})).
Proof.
  destruct (@cmd_2_srv_spec toy_rsa toy_rsa_laws toy_keys toy_net (fun _ => Ok tt) MSG_GET_AES
    G_CLI_SRV sample_id (str "10.0.0.1") {| tv_sec := 1; tv_nsec := 2 |} key_S key_S)
    as (ct & H1 & _ & _ & H2); [vm_side..|].
  exists ct. split; [exact H1|exact H2].
Defined.

Lemma send_msg_track_spec_witness :
  @send_msg_track toy_rsa toy_evp toy_keys toy_net (Some (sample_id ++ [x00]))
    (Some (str "10.0.0.1")) (Some {| tv_sec := 1; tv_nsec := 2 |}) None (Some aes_iv)
    = Fault OobRead.
Proof.
  apply (@send_msg_track_spec toy_rsa toy_rsa_laws toy_evp toy_gcm toy_keys toy_net
    (sample_id ++ [x00]) (str "10.0.0.1") {| tv_sec := 1; tv_nsec := 2 |} aes_key aes_iv
    key_S key_S); vm_side.
Defined.
