(* ===== verification/Server.v ===== *)
(** * The server: receiving thread, sending thread, signals

    Models src/notify.system/server.c: the loop body of [main] ([main_step]), the loop body
    of [sending_routine_thread] ([send_step]), [handler], [set_waiting] and [get_waiting].
    A received datagram is [Some] bytes, an empty socket is [None], for which [recvfrom]
    returns -1.  [bufout] keeps its bytes from one round to the next in both loops, the
    receive buffers are cleared.  The two threads share the forward list, which each of
    them changes in one critical section, and [g_runnow]; [sys_step] interleaves them. *)
From S2P Require Import Prelude ByteOrder Message OpenSSL KeyFiles AesMessage.
From S2P Require Import Registry Forward Toy.

(** ** Small state *)

(** [g_waiting] after [set_waiting(w)]; the return value is the one of the mutex. *)
Definition set_waiting (w : Z) : Z := if w =? 0 then 0 else 1.

(** A null [ret] is noted as an error and then followed. *)
Definition get_waiting (g_waiting : Z) (ret : option Z) : res (Z * option Z) :=
  match ret with
  | None => Fault NullDeref
  | Some _ => Ok (0, Some g_waiting)
  end.

(** Whether the signal is passed on to the sending thread, and [g_runnow] afterwards. *)
Definition handler (from_self is_reader : bool) (g_runnow : Z) : bool * Z :=
  (negb from_self, if is_reader then 1 else g_runnow).

(** [recvfrom] into a cleared buffer of [SZ_BUF] bytes, at most [lim] of them. *)
Definition recvfrom (d : option (list byte)) (lim : Z) : Z * list byte :=
  match d with
  | None => (-1, zeros SZ_BUF)
  | Some p =>
    let q := take (Z.to_nat lim) p in (zlen q, q ++ zeros (SZ_BUF - zlen q))
  end.

Section Server.
Context `{RL : RSALib} `{EL : EVPLib} `{FS : FileSystem} `{NW : Network}.

(** ** The receiving thread *)

Record main_st := {
  m_fwd : list HASH_ITEM;        (* imd_fwd_lt *)
  m_prv : option RSA;            (* the key cached by get_srv_prv *)
  m_bufout : list byte
}.
Definition set_fwd (st : main_st) (l : list HASH_ITEM) : main_st :=
  {| m_fwd := l; m_prv := m_prv st; m_bufout := m_bufout st |}.
Definition set_prv (st : main_st) (k : option RSA) : main_st :=
  {| m_fwd := m_fwd st; m_prv := k; m_bufout := m_bufout st |}.
Definition set_bufout (st : main_st) (b : list byte) : main_st :=
  {| m_fwd := m_fwd st; m_prv := m_prv st; m_bufout := b |}.

(** Removing the encryption of a received datagram: the state, and the object the message
    is in with its length, unless the datagram is dropped.  [inb] tells whether that object
    is [bufout].  A failed [rsa_dec] leaves the datagram as it is. *)
Definition decrypt_step (st : main_st) (enc : byte) (buffer : list byte) (n : Z)
    : res (main_st * option (bool * list byte * Z)) :=
  if is_enc enc ENCRYPT_SRV_PUB then
    prv ← get_srv_prv (m_prv st);
    let st := set_prv st prv in
    match prv with
    | None => Ok (st, None)
    | Some _ =>
      '(_, out, len) ← rsa_dec prv (Some buffer) (Some None) (n - 1) (Some 0);
      match default None out with
      | Some out =>
        let n := default 0 len in
        s ← rd out 0 n;
        buffer ← wr (zeros SZ_BUF) 0 s;
        Ok (st, Some (false, buffer, n))
      | None => Ok (st, Some (false, buffer, n))
      end
    end
  else if is_enc enc ENCRYPT_AES then
    '(err, b, n') ← msg_aes_dec (Some buffer) (Some (m_bufout st)) (Some aes_key) (Some aes_iv)
                      n (Some n) SZ_BUF;
    let st := set_bufout st (default [] b) in
    if negb (err =? 0) then Ok (st, None)
    else Ok (st, Some (true, m_bufout st, default 0 n'))
  else Ok (st, Some (false, buffer, n)).

(** The answer to a request for the key: the route, the length and the key are written into
    the message, which is queued 48 bytes longer. *)
Definition key_answer (m : list byte) (n : Z) (r : MSG_ROUTE) (l : list HASH_ITEM)
    : res (list byte * list HASH_ITEM) :=
  m ← wr m off_ifroute [msg_route r];
  m ← put_u16 m off_len (AES_BYTES + AES_IV_BYTES);
  k ← rd aes_key 0 AES_BYTES;
  m ← wr m n k;
  v ← rd aes_iv 0 AES_IV_BYTES;
  m ← wr m (n + AES_BYTES) v;
  let n := n + (AES_BYTES + AES_IV_BYTES) in
  '(_, l) ← add_to_item_list m (Some l) n;
  Ok (m, default [] l).

(** What the routes demand: the message object, the list, and whether the sending thread
    is signalled. *)
Definition dispatch (m : list byte) (n : Z) (l : list HASH_ITEM)
    : res (list byte * list HASH_ITEM * bool) :=
  ifroute ← rd1 m off_ifroute;
  type ← rd1 m off_type;
  if is_route ifroute G_NTF_CLI || is_route ifroute G_CLI_NTF then
    if is_type type MSG_NTF then
      '(_, l) ← add_to_item_list m (Some l) n;
      Ok (m, default [] l, true)
    else Ok (m, l, false)
  else if is_route ifroute G_CLI_SRV then
    '(m, l) ← key_answer m n F_SRV_CLI l; Ok (m, l, true)
  else if is_route ifroute G_NTF_SRV then
    '(m, l) ← key_answer m n F_SRV_NTF l; Ok (m, l, true)
  else Ok (m, l, false).

(** [DUM_MSG(msg)] of this loop; [main_step] takes it as an argument, since the other programs
    log with their own names. *)
Definition DUM_MSG (m : list byte) : res unit :=
  _ ← dum_msg (Some m) (str "server.c") (str "main") 352; Ok tt.

(** One round of the loop of [main]: the state, and whether a signal was sent. *)
Definition main_step (log : list byte -> res unit) (st : main_st) (d : option (list byte))
    : res (main_st * bool) :=
  let '(n, buffer) := recvfrom d SZ_BUF in
  if n <? 1 then Ok (st, false)
  else if n <? SZ_COM then Ok (st, false)
  else
    enc ← rd1 buffer (n - 1);
    '(st, r) ← decrypt_step st enc buffer n;
    match r with
    | None => Ok (st, false)
    | Some (inb, m, n) =>
      _ ← log m;
      '(m, l, sig) ← dispatch m n (m_fwd st);
      let st := set_fwd st l in
      Ok (if (inb : bool) then set_bufout st m else st, sig)
    end.

(** ** The sending thread *)

Record send_st := {
  w_table : table;               (* list_reg_dev *)
  w_prv : option RSA;
  w_bufout : list byte;
  w_runnow : Z                   (* g_runnow *)
}.

(** [n < sizeof(MSG_COMMON)] compares as [size_t]: -1 is not smaller. *)
Definition below_header (n : Z) : bool := wrap 64 n <? SZ_COM.

(** [buffer[n-1]]; for n = -1 this is the byte two below the buffer, which the C standard
    does not define: [below] is what the platform delivers, if it delivers anything. *)
Definition last_byte (below : option byte) (buffer : list byte) (n : Z) : res byte :=
  if n - 1 <? 0 then match below with Some b => Ok b | None => Fault OobRead end
  else rd1 buffer (n - 1).

(** The do-block of one round: tracking messages update the table. *)
Definition track_step (below : option byte) (st : send_st) (n : Z) (buffer : list byte)
    (cliaddr : sockaddr_in) : res send_st :=
  if below_header n then Ok st
  else
    enc ← last_byte below buffer n;
    '(ms, r) ← decrypt_step {| m_fwd := []; m_prv := w_prv st; m_bufout := w_bufout st |}
                 enc buffer n;
    let st := {| w_table := w_table st; w_prv := m_prv ms; w_bufout := m_bufout ms;
                 w_runnow := w_runnow st |} in
    match r with
    | None => Ok st
    | Some (_, m, _) =>
      type ← rd1 m off_type;
      if is_type type MSG_TRA then
        '(_, tb) ← hl_track_msg (w_table st) m cliaddr;
        Ok {| w_table := tb; w_prv := w_prv st; w_bufout := w_bufout st;
              w_runnow := w_runnow st |}
      else Ok st
    end.

(** [g_runnow++; g_runnow %= 3;] when nothing was received; whether the thread sleeps. *)
Definition runnow_step (n g : Z) : Z * bool :=
  if n <? 1 then (Z.rem (g + 1) 3, g =? 0) else (g, false).

(** The part of a round before the list is sent. *)
Definition recv_step (below : option byte) (st : send_st) (d : option (list byte))
    (from : sockaddr_in) : res send_st :=
  let '(n, buffer) := recvfrom d MAX_MSG in
  let cliaddr := match d with Some _ => from | None => sockaddr_zero end in
  let '(g, _) := runnow_step n (w_runnow st) in
  track_step below {| w_table := w_table st; w_prv := w_prv st; w_bufout := w_bufout st;
                      w_runnow := g |} n buffer cliaddr.

(** One round, the forward list being the one found when it is sent. *)
Definition send_step (below : option byte) (st : send_st) (fwd : list HASH_ITEM)
    (d : option (list byte)) (from : sockaddr_in)
    : res (send_st * list HASH_ITEM * sent) :=
  st ← recv_step below st d from;
  '(r, l) ← send_to_dst (w_table st) (Some fwd) true;
  Ok (st, default [] l, r).

(** ** The two threads together *)

Record sys := {
  y_main : main_st;
  y_send : send_st;
  y_local : option (list HASH_ITEM);   (* detached by send_to_dst, being sent *)
  y_out : list datagram;
  (* history: what was queued, and what left the system, sent or lost *)
  y_queued : list HASH_ITEM;
  y_sent : list HASH_ITEM;
  y_lost : list HASH_ITEM
}.

Inductive sys_step (log : list byte -> res unit) (below : option byte) : sys -> sys -> Prop :=
| step_main y d st sig :
    main_step log (y_main y) d = Ok (st, sig) ->
    sys_step log below y
      {| y_main := st; y_send := y_send y; y_local := y_local y; y_out := y_out y;
         y_queued := take (length (m_fwd st) - length (m_fwd (y_main y))) (m_fwd st)
                     ++ y_queued y;
         y_sent := y_sent y; y_lost := y_lost y |}
| step_recv y d from st :
    y_local y = None ->
    recv_step below (y_send y) d from = Ok st ->
    sys_step log below y
      {| y_main := y_main y; y_send := st; y_local := None; y_out := y_out y;
         y_queued := y_queued y; y_sent := y_sent y; y_lost := y_lost y |}
| step_detach y :
    y_local y = None ->
    sys_step log below y
      {| y_main := set_fwd (y_main y) []; y_send := y_send y;
         y_local := Some (m_fwd (y_main y)); y_out := y_out y;
         y_queued := y_queued y; y_sent := y_sent y; y_lost := y_lost y |}
| step_deliver y l r :
    y_local y = Some l ->
    send_loop (w_table (y_send y)) true l None 0 0 0 [] = Ok r ->
    sys_step log below y
      {| y_main := y_main y; y_send := y_send y; y_local := None;
         y_out := y_out y ++ s_out r; y_queued := y_queued y;
         y_sent := take (Z.to_nat (s_count r)) l ++ y_sent y;
         y_lost := s_dropped r ++ y_lost y |}
| step_signal y from_self is_reader :
    sys_step log below y
      {| y_main := y_main y;
         y_send := {| w_table := w_table (y_send y); w_prv := w_prv (y_send y);
                      w_bufout := w_bufout (y_send y);
                      w_runnow := snd (handler from_self is_reader (w_runnow (y_send y))) |};
         y_local := y_local y; y_out := y_out y;
         y_queued := y_queued y; y_sent := y_sent y; y_lost := y_lost y |}.

(** The start: the table that was loaded, empty lists. *)
Definition sys_init (tb : table) (b1 b2 : list byte) : sys :=
  {| y_main := {| m_fwd := []; m_prv := None; m_bufout := b1 |};
     y_send := {| w_table := tb; w_prv := None; w_bufout := b2; w_runnow := 0 |};
     y_local := None; y_out := []; y_queued := []; y_sent := []; y_lost := [] |}.
Definition sys_reachable (log : list byte -> res unit) (below : option byte) (tb : table)
    (b1 b2 : list byte) : sys -> Prop :=
  rtc (sys_step log below) (sys_init tb b1 b2).
End Server.

(** ** Lemmas: receiving and decrypting *)

Lemma recvfrom_ok p lim :
  zlen p <= lim -> recvfrom (Some p) lim = (zlen p, p ++ zeros (SZ_BUF - zlen p)).
Proof.
  intros H. unfold recvfrom. by rewrite take_ge by (unfold zlen in H; lia).
Qed.

Lemma last_frame (p q : list byte) b :
  rd1 ((p ++ [b]) ++ q) (zlen (p ++ [b]) - 1) = Ok b.
Proof.
  apply rd1_rd. apply (rd_part _ p [b] q); [by rewrite <- app_assoc| |done].
  rewrite zlen_app. change (zlen [b]) with 1. lia.
Qed.

Section ServerLemmas.
Context `{RL : RSALaws} `{GL : GCMLaws} `{FS : FileSystem} `{NW : Network}.

Lemma frame_split key iv pt :
  frame key iv pt = (seal key iv pt ++ tag_of key iv (seal key iv pt)) ++ [rsa_aes ENCRYPT_AES].
Proof. unfold frame. by rewrite app_assoc. Qed.

Lemma decrypt_plain st enc buffer n :
  is_enc enc ENCRYPT_SRV_PUB = false -> is_enc enc ENCRYPT_AES = false ->
  decrypt_step st enc buffer n = Ok (st, Some (false, buffer, n)).
Proof. intros H1 H2. unfold decrypt_step. by rewrite H1, H2. Qed.

Lemma decrypt_aes st pt rest :
  zlen pt + 17 <= SZ_BUF -> zlen (m_bufout st) = SZ_BUF ->
  let b := pt ++ drop (length pt) (m_bufout st) in
  decrypt_step st (rsa_aes ENCRYPT_AES) (frame aes_key aes_iv pt ++ rest) (zlen pt + 17)
  = Ok (set_bufout st b, Some (true, b, zlen pt)).
Proof.
  intros Hl Hb b. unfold decrypt_step, SZ_BUF, MAX_MSG in *.
  change (is_enc (rsa_aes ENCRYPT_AES) ENCRYPT_SRV_PUB) with false.
  change (is_enc (rsa_aes ENCRYPT_AES) ENCRYPT_AES) with true. cbv iota.
  pose proof (zlen_frame aes_key aes_iv pt) as Hf. pose proof (zlen_nonneg rest).
  pose proof (zlen_nonneg pt).
  rewrite msg_aes_dec_ok by (rewrite ?zlen_app, ?Hf; try done; lia).
  rewrite Z.gtb_ltb. decide_cmp. cbn [orb].
  replace (zlen pt + 17 - 17) with (zlen pt) by lia.
  replace (Z.to_nat (zlen pt)) with (length pt) by (unfold zlen; lia).
  destruct (rd_frame_tag aes_key aes_iv pt rest) as [-> ->].
  rewrite bool_decide_true by done. rewrite seal_seal.
  by cbn [mbind res_bind negb Z.eqb default from_option id].
Qed.

Lemma decrypt_aes_forged st d b ct tag :
  d = ct ++ tag ++ b -> zlen tag = 16 -> zlen b = 1 -> zlen d <= SZ_BUF ->
  zlen (m_bufout st) = SZ_BUF -> tag <> tag_of aes_key aes_iv ct ->
  exists o, decrypt_step st (rsa_aes ENCRYPT_AES) (d ++ zeros (SZ_BUF - zlen d)) (zlen d)
    = Ok (set_bufout st o, None) /\ zlen o = SZ_BUF.
Proof.
  unfold SZ_BUF, MAX_MSG. intros -> Ht Hb Hl Hbo Hne. rewrite !zlen_app, Ht, Hb in *.
  pose proof (zlen_nonneg ct). unfold decrypt_step, SZ_BUF, MAX_MSG.
  change (is_enc (rsa_aes ENCRYPT_AES) ENCRYPT_SRV_PUB) with false.
  change (is_enc (rsa_aes ENCRYPT_AES) ENCRYPT_AES) with true. cbv iota.
  set (rest := zeros (1200 + 1 - (zlen ct + (16 + 1)))). pose proof (zlen_nonneg rest).
  rewrite msg_aes_dec_ok by (rewrite ?zlen_app, ?Ht, ?Hb; try done; lia).
  rewrite Z.gtb_ltb. decide_cmp. cbn [orb].
  replace (zlen ct + (16 + 1) - 17) with (zlen ct) by lia.
  replace (Z.to_nat (zlen ct)) with (length ct) by (unfold zlen; lia).
  rewrite <- !app_assoc, take_app_length, drop_app_length.
  rewrite (take_app_length' tag) by (unfold zlen in Ht; lia).
  rewrite bool_decide_false by done.
  cbn [mbind res_bind negb Z.eqb default from_option id]. eexists. split; [done|].
  rewrite zlen_app, zlen_seal. len.
Qed.

Lemma decrypt_rsa st pub prv pt ct rest :
  get_srv_prv (m_prv st) = Ok (Some prv) -> key_pair pub prv ->
  RSA_public_encrypt pt pub = Some ct -> 1 <= zlen pt <= RSA_size pub ->
  zlen pt <= SZ_BUF ->
  decrypt_step st (rsa_aes ENCRYPT_SRV_PUB) ((ct ++ [rsa_aes ENCRYPT_SRV_PUB]) ++ rest)
    (zlen ct + 1)
  = Ok (set_prv st (Some prv), Some (false, pt ++ zeros (SZ_BUF - zlen pt), zlen pt)).
Proof.
  intros Hp Hk Hct Hl Hb. unfold decrypt_step.
  change (is_enc (rsa_aes ENCRYPT_SRV_PUB) ENCRYPT_SRV_PUB) with true. cbv iota.
  rewrite Hp. cbn [mbind res_bind]. replace (zlen ct + 1 - 1) with (zlen ct) by lia.
  rewrite (RSA_encrypt_size _ _ _ _ Hk Hct), <- app_assoc.
  destruct (rsa_dec_ok pub prv ct ([rsa_aes ENCRYPT_SRV_PUB] ++ rest) None pt (Some 0) Hk Hct Hl)
    as (pad & Hpad & Hd).
  rewrite Hd. cbn [mbind res_bind default from_option id store_out].
  rewrite (rd_part _ [] pt pad 0 (zlen pt)) by done. cbn [mbind res_bind].
  rewrite wr_zeros by lia. done.
Qed.

(** ** Lemmas: what a message does *)

Lemma dispatch_notify m n l t r :
  rd1 m off_type = Ok t -> rd1 m off_ifroute = Ok r -> is_type t MSG_NTF = true ->
  is_route r G_NTF_CLI || is_route r G_CLI_NTF = true -> 0 <= n <= zlen m ->
  dispatch m n l
  = Ok (m, {| hi_ipv4 := sockaddr_zero; hi_n_msg := n;
              hi_msg := Some (take (Z.to_nat n) m) |} :: l, true).
Proof.
  intros Ht Hr Hty Hro Hn. unfold dispatch. rewrite Hr, Ht. cbn [mbind res_bind].
  rewrite Hro, Hty, add_ok by done. done.
Qed.

(** The header of the answer to a request. *)
Definition answer_com (c : MSG_COMMON) (r : MSG_ROUTE) : MSG_COMMON :=
  {| com_type := com_type c; com_ifroute := msg_route r; com_dev_id := com_dev_id c;
     com_ntf_id := com_ntf_id c; com_second := com_second c; com_nano := com_nano c;
     com_len := le_bytes 2 48 |}.
Definition answer (c : MSG_COMMON) (r : MSG_ROUTE) : list byte :=
  com_bytes (answer_com c r) ++ aes_key ++ take 16 aes_iv.

Lemma com_obj c rest :
  com_bytes c ++ rest = obj (com_type c) (com_ifroute c) (com_dev_id c) (com_ntf_id c)
    (com_second c) (com_nano c) (com_len c) rest.
Proof. destruct c. by rewrite obj_com. Qed.

Lemma answer_length c r : com_wf c -> zlen (answer c r) = 148.
Proof.
  intros W. unfold answer. rewrite !zlen_app.
  rewrite com_bytes_length; [done|]. destruct W as (? & ? & ? & ? & ?). by repeat split.
Qed.

Lemma key_answer_ok c rest r l :
  com_wf c -> 48 <= zlen rest ->
  key_answer (com_bytes c ++ rest) SZ_COM r l
  = Ok (answer c r ++ drop 48 rest,
        {| hi_ipv4 := sockaddr_zero; hi_n_msg := 148; hi_msg := Some (answer c r) |} :: l).
Proof.
  intros W Hr. unfold key_answer. rewrite com_obj.
  assert (W' : obj_wf (com_dev_id c) (com_ntf_id c) (com_second c) (com_nano c) (com_len c))
    by exact W.
  rewrite obj_route by done. cbn [mbind res_bind]. rewrite obj_put_len by done.
  cbn [mbind res_bind]. change (AES_BYTES + AES_IV_BYTES) with 48.
  rewrite (obj_com (com_type c)). fold (answer_com c r).
  pose proof (answer_length c r W) as Ha.
  assert (Wa : com_wf (answer_com c r)) by (destruct W as (? & ? & ? & ? & ?); by repeat split).
  pose proof (com_bytes_length _ Wa) as Hc. unfold answer in *.
  change (com_bytes _) with (com_bytes (answer_com c r)) in *.
  set (h := com_bytes (answer_com c r)) in *. clearbody h.
  change (rd aes_key 0 AES_BYTES) with (Ok aes_key). cbn [mbind res_bind].
  change (rd aes_iv 0 AES_IV_BYTES) with (Ok (take 16 aes_iv)). cbn [mbind res_bind].
  assert (Hr1 : zlen (take 32 rest) = 32) by len.
  assert (Hr2 : zlen (take 16 (drop 32 rest)) = 16) by len.
  rewrite (wr_part _ h (take 32 rest) aes_key (drop 32 rest)); [|by rewrite take_drop|done|done].
  cbn [mbind res_bind].
  rewrite (wr_part _ (h ++ aes_key) (take 16 (drop 32 rest)) (take 16 aes_iv) (drop 48 rest)).
  2: { rewrite <- app_assoc. do 2 f_equal. rewrite <- (take_drop 16 (drop 32 rest)) at 1.
       by rewrite drop_drop. }
  2: { rewrite zlen_app, Hc. done. }
  2: { by rewrite Hr2. }
  cbn [mbind res_bind]. rewrite <- app_assoc, (app_assoc aes_key), (app_assoc h).
  change (SZ_COM + 48) with 148.
  rewrite add_ok by (rewrite zlen_app, Ha; pose proof (zlen_nonneg (drop 48 rest)); lia).
  cbn [mbind res_bind default from_option id].
  rewrite take_app_length' by (unfold zlen in Ha; lia). done.
Qed.

Lemma key_answer_overflow m n r l :
  zlen m = SZ_BUF -> SZ_COM <= n -> SZ_BUF < n + 48 ->
  key_answer m n r l = Fault OobWrite.
Proof.
  unfold SZ_BUF, SZ_COM, MAX_MSG. intros Hz Hn Ho. unfold key_answer.
  destruct (wr_some m off_ifroute [msg_route r]) as (m1 & E1 & L1);
    [done|unfold off_ifroute; change (zlen [_]) with 1; lia|].
  rewrite E1. cbn [mbind res_bind]. rewrite put_u16_wr by (unfold off_len; lia).
  destruct (wr_some m1 off_len (le_bytes 2 (AES_BYTES + AES_IV_BYTES))) as (m2 & E2 & L2);
    [done|rewrite zlen_le_bytes; unfold off_len; lia|].
  rewrite E2. cbn [mbind res_bind]. change (rd aes_key 0 AES_BYTES) with (Ok aes_key).
  cbn [mbind res_bind]. destruct (wr m2 n aes_key) as [m3|f] eqn:E3; cbn [mbind res_bind].
  - change (rd aes_iv 0 AES_IV_BYTES) with (Ok (take 16 aes_iv)). cbn [mbind res_bind].
    apply wr_inv in E3 as (_ & _ & L3 & _). rewrite wr_oob; [done|right].
    change (zlen (take 16 aes_iv)) with 16. unfold AES_BYTES. lia.
  - unfold wr in E3. destruct (in_bounds _ _ _); congruence.
Qed.
End ServerLemmas.

(** ** Lemmas: the invariant of the two threads *)

Lemma send_loop_split `{RSALib} `{EVPLib} `{FileSystem} `{Network} tb clear l t err sn count out r :
  send_loop tb clear l t err sn count out = Ok r ->
  exists k, (k <= length l)%nat /\ s_count r = count + Z.of_nat k /\ s_dropped r = drop k l.
Proof.
  revert t err sn count out.
  induction l as [|it l IH]; intros t err sn count out Hs; cbn [send_loop] in Hs.
  { injection Hs as <-. exists 0%nat. cbn. split; [done|]. split; [lia|done]. }
  assert (Hstop : forall e, Ok {| s_err := e; s_count := count; s_out := out;
      s_dropped := it :: l |} = Ok r ->
    exists k, (k <= length (it :: l))%nat /\ s_count r = count + Z.of_nat k /\
      s_dropped r = drop k (it :: l)).
  { intros e He. injection He as <-. exists 0%nat. cbn. split; [lia|]. split; [lia|done]. }
  case_res. destruct (dst_off _) as [off|]; [|by eapply Hstop].
  case_res. destruct (hl_group _) as [|h g]; [by eapply Hstop|].
  case_res. match type of Hs with context [match (match ?f with _ => _ end) with _ => _ end] =>
    destruct (match f with Some it => Some it | None => t end) end; [|by eapply Hstop].
  case_res. destruct a5 as [[[e b] s] brk]. destruct brk; [by eapply Hstop|].
  case_res. destruct a5 as [s' o]. apply IH in Hs as (k & Hk & Hc & Hd).
  exists (S k). cbn [length drop]. split; [lia|]. split; [lia|done].
Qed.

Section SysLemmas.
Context `{RL : RSALib} `{EL : EVPLib} `{FS : FileSystem} `{NW : Network}.

Lemma decrypt_step_fwd st enc buffer n st' r :
  decrypt_step st enc buffer n = Ok (st', r) -> m_fwd st' = m_fwd st.
Proof.
  unfold decrypt_step. intros H. destruct (is_enc enc ENCRYPT_SRV_PUB).
  - case_res. destruct a as [k|]; [|by injection H as <- _].
    case_res. destruct a as [[e o] z]. destruct (default None o); [|by injection H as <- _].
    case_res. by subst.
  - destruct (is_enc enc ENCRYPT_AES); [|by injection H as <- _].
    case_res. destruct a as [[e o] z]. destruct (negb _); by injection H as <- _.
Qed.

Lemma add_inv msg l n e l' :
  add_to_item_list msg (Some l) n = Ok (e, l') -> exists it, l' = Some (it :: l).
Proof. unfold add_to_item_list. intros H. case_res. subst. eauto. Qed.

Lemma key_answer_adds m n r l m' l' :
  key_answer m n r l = Ok (m', l') -> exists it, l' = it :: l.
Proof.
  unfold key_answer. intros H. case_res. destruct a5 as [e o].
  apply add_inv in E5 as [it ->]. injection H as _ <-. by exists it.
Qed.

Lemma dispatch_adds m n l m' l' sig :
  dispatch m n l = Ok (m', l', sig) ->
  exists new, l' = new ++ l /\ (length new <= 1)%nat /\ (sig = true -> length new = 1%nat).
Proof.
  unfold dispatch. intros H. case_res.
  assert (Hsame : Ok (m, l, false) = Ok (m', l', sig) ->
    exists new, l' = new ++ l /\ (length new <= 1)%nat /\ (sig = true -> length new = 1%nat)).
  { intros [= _ <- <-]. exists []. split; [done|]. split; [cbn; lia|done]. }
  destruct (is_route a G_NTF_CLI || is_route a G_CLI_NTF).
  - destruct (is_type a0 MSG_NTF); [|by apply Hsame].
    case_res. destruct a1 as [e o]. apply add_inv in E1 as [it ->].
    injection H as _ <- _; exists [it]; cbn; auto.
  - destruct (is_route a G_CLI_SRV); [|destruct (is_route a G_NTF_SRV); [|by apply Hsame]].
    all: case_res; destruct a1 as [m2 l2]; apply key_answer_adds in E1 as [it ->];
      injection H as _ <- _; exists [it]; cbn; auto.
Qed.

(** A round of [main] only adds to the front of the list, at most one item. *)
Lemma main_step_adds log st d st' sig :
  main_step log st d = Ok (st', sig) ->
  exists new, m_fwd st' = new ++ m_fwd st /\ (length new <= 1)%nat /\ (sig = true -> length new = 1%nat).
Proof.
  unfold main_step. destruct (recvfrom d SZ_BUF) as [n buffer].
  assert (Hsame : forall s, Ok (s, false) = Ok (st', sig) -> m_fwd s = m_fwd st ->
    exists new, m_fwd st' = new ++ m_fwd st /\ (length new <= 1)%nat /\ (sig = true -> length new = 1%nat)).
  { intros s [= <- <-] Hs. exists []. split; [done|]. split; [cbn; lia|done]. }
  destruct (n <? 1); [intros H; by eapply Hsame|].
  destruct (n <? SZ_COM); [intros H; by eapply Hsame|].
  intros H. case_res. destruct a0 as [s o].
  assert (Hf : m_fwd s = m_fwd st) by (eapply decrypt_step_fwd; eassumption).
  destruct o as [[[inb m] k]|]; [|by eapply Hsame].
  case_res. destruct a1 as [[m' l] sg]. injection H as <- <-.
  apply dispatch_adds in E2 as (new & -> & Hl & Hs). exists new.
  rewrite Hf. destruct inb; cbn; auto.
Qed.

Definition sys_inv (y : sys) : Prop :=
  y_queued y ≡ₚ m_fwd (y_main y) ++ default [] (y_local y) ++ y_sent y ++ y_lost y /\
  0 <= w_runnow (y_send y) <= 2.

Lemma track_step_runnow below st n buffer addr st' :
  track_step below st n buffer addr = Ok st' -> w_runnow st' = w_runnow st.
Proof.
  unfold track_step. intros H. destruct (below_header n); [by case_res; subst|].
  case_res. destruct a0 as [ms [[[inb m] k]|]]; [|by injection H as <-].
  case_res. destruct (is_type a0 MSG_TRA); [|by injection H as <-].
  case_res. destruct a1. by injection H as <-.
Qed.

Lemma recv_step_runnow below st d addr st' :
  recv_step below st d addr = Ok st' -> 0 <= w_runnow st <= 2 -> 0 <= w_runnow st' <= 2.
Proof.
  unfold recv_step. destruct (recvfrom d MAX_MSG) as [n buffer]. unfold runnow_step.
  destruct (n <? 1); intros H Hr; apply track_step_runnow in H; cbn in H; rewrite H; [|done].
  rewrite Z.rem_mod_nonneg by lia. pose proof (Z.mod_pos_bound (w_runnow st + 1) 3). lia.
Qed.

Lemma sys_step_inv log below y y' : sys_inv y -> sys_step log below y y' -> sys_inv y'.
Proof.
  intros [Hq Hr] Hs. unfold sys_inv. destruct Hs as
    [y d st sig Hm|y d from st Hl Hrs|y Hl|y l r Hl Hsend|y fs ir]; cbn.
  - apply main_step_adds in Hm as (new & Hf & _ & _). split; [|done].
    rewrite Hf, length_app, Nat.add_sub, take_app_length, Hq. by rewrite <- !app_assoc.
  - rewrite Hl in Hq. split; [done|]. by eapply recv_step_runnow.
  - rewrite Hl in Hq. cbn in Hq. split; [done|done].
  - rewrite Hl in Hq. cbn in Hq. split; [|done].
    apply send_loop_split in Hsend as (k & Hk & Hc & Hd).
    rewrite Hq, Hd, Hc. replace (Z.to_nat (0 + Z.of_nat k)) with k by lia.
    rewrite <- (take_drop k l) at 1. solve_Permutation.
  - split; [done|]. destruct ir; cbn; lia.
Qed.
End SysLemmas.

(** ** Properties *)

Section Properties.
Context `{RL : RSALaws} `{GL : GCMLaws} `{FS : FileSystem} `{NW : Network}.

Lemma main_step_notify_ok log st pt t r :
  zlen (m_bufout st) = SZ_BUF -> SZ_COM <= zlen pt + 17 <= SZ_BUF -> SZ_COM <= zlen pt ->
  rd1 pt off_type = Ok t -> is_type t MSG_NTF = true ->
  rd1 pt off_ifroute = Ok r -> is_route r G_NTF_CLI || is_route r G_CLI_NTF = true ->
  log (pt ++ drop (length pt) (m_bufout st)) = Ok tt ->
  exists st', main_step log st (Some (frame aes_key aes_iv pt)) = Ok (st', true) /\
    m_fwd st' = {| hi_ipv4 := sockaddr_zero; hi_n_msg := zlen pt; hi_msg := Some pt |}
                :: m_fwd st.
Proof.
  intros Hb Hl Hpt Ht Hty Hr Hro Hlog. unfold main_step.
  pose proof (zlen_frame aes_key aes_iv pt) as Hf. rewrite recvfrom_ok by lia. rewrite Hf.
  unfold SZ_COM in *. decide_cmp.
  assert (He : rd1 (frame aes_key aes_iv pt ++ zeros (SZ_BUF - (zlen pt + 17)))
                 (zlen pt + 17 - 1) = Ok (rsa_aes ENCRYPT_AES)).
  { rewrite <- Hf. rewrite frame_split. apply last_frame. }
  rewrite He. cbn [mbind res_bind]. rewrite decrypt_aes by (done || lia).
  cbn [mbind res_bind]. rewrite Hlog. cbn [mbind res_bind].
  set (b := pt ++ drop (length pt) (m_bufout st)).
  apply rd1_rd in Ht, Hr.
  rewrite (dispatch_notify b (zlen pt) (m_fwd (set_bufout st b)) t r).
  - cbn [mbind res_bind]. eexists. split; [done|]. cbn. do 3 f_equal.
    unfold b. apply take_app_length'. unfold zlen. lia.
  - apply rd1_rd. by apply rd_app_l.
  - apply rd1_rd. by apply rd_app_l.
  - done.
  - done.
  - unfold b. rewrite zlen_app. pose proof (zlen_nonneg (drop (length pt) (m_bufout st))).
    pose proof (zlen_nonneg pt). lia.
Qed.

(** The log line of a message whose type and route have a text and whose identifiers end. *)
Lemma DUM_MSG_ok m rest t r dev ntf :
  SZ_COM <= zlen m -> rd1 m off_type = Ok t -> rd1 m off_ifroute = Ok r ->
  cstr_at m off_dev_id = Ok dev -> cstr_at m off_ntf_id = Ok ntf ->
  zlen dev < LEN_DEVID -> zlen ntf < LEN_DEVID -> b2z t < 5 -> b2z r < 6 ->
  DUM_MSG (m ++ rest) = Ok tt.
Proof.
  intros Hm Ht Hr Hd Hn Ld Ln H5 H6.
  assert (Hc : forall off s, cstr_at m off = Ok s -> cstr_at (m ++ rest) off = Ok s).
  { intros off s [Hs Hrd]%cstr_at_rd. apply cstr_at_rd. split; [done|]. by apply rd_app_l. }
  assert (Hb : forall off b, rd1 m off = Ok b -> rd1 (m ++ rest) off = Ok b).
  { intros off b H1. apply rd1_rd in H1. apply rd1_rd. by apply rd_app_l. }
  destruct (dum_msg_spec (m ++ rest) (str "server.c") (str "main") 352 t r dev ntf) as [Hlog _];
    [rewrite zlen_app; pose proof (zlen_nonneg rest); lia|by auto|by auto|by auto|by auto|done|done|done|done|].
  destruct (Hlog H6) as [buf Hbuf]. unfold DUM_MSG. by rewrite Hbuf.
Qed.

(** C13: a notification, of one of the two routes between notifier and client, that was encrypted
    with the AES key of the service, that fits the buffer, and whose identifiers end within their
    members, so that the line that [DUM_MSG] logs of it can be put together, reaches the forward
    list: decrypted, at the front, with its length, and the sending thread is signalled; nothing
    else of the list changes. *)
Theorem main_step_notify st pt t r dev ntf :
  zlen (m_bufout st) = SZ_BUF -> SZ_COM <= zlen pt + 17 <= SZ_BUF -> SZ_COM <= zlen pt ->
  rd1 pt off_type = Ok t -> is_type t MSG_NTF = true ->
  rd1 pt off_ifroute = Ok r -> is_route r G_NTF_CLI || is_route r G_CLI_NTF = true ->
  cstr_at pt off_dev_id = Ok dev -> cstr_at pt off_ntf_id = Ok ntf ->
  zlen dev < LEN_DEVID -> zlen ntf < LEN_DEVID ->
  exists st', main_step DUM_MSG st (Some (frame aes_key aes_iv pt)) = Ok (st', true) /\
    m_fwd st' = {| hi_ipv4 := sockaddr_zero; hi_n_msg := zlen pt; hi_msg := Some pt |}
                :: m_fwd st.
Proof.
  intros Hb Hl Hpt Ht Hty Hr Hro Hd Hn Ld Ln. apply (main_step_notify_ok _ _ _ t r); try done.
  apply (DUM_MSG_ok pt _ t r dev ntf); try done.
  - unfold is_type in Hty. b2p. by rewrite Hty.
  - unfold is_route in Hro. apply orb_prop in Hro as [Hro|Hro]; b2p; by rewrite Hro.
Qed.

Lemma main_step_key_ok log st pub prv c ct r :
  get_srv_prv (m_prv st) = Ok (Some prv) -> key_pair pub prv ->
  111 <= RSA_size pub < MAX_MSG -> com_wf c ->
  RSA_public_encrypt (com_bytes c) pub = Some ct ->
  com_ifroute c = msg_route r -> r = G_CLI_SRV \/ r = G_NTF_SRV ->
  log (com_bytes c ++ zeros 1101) = Ok tt ->
  exists st', main_step log st (Some (ct ++ [rsa_aes ENCRYPT_SRV_PUB])) = Ok (st', true) /\
    m_prv st' = Some prv /\
    m_fwd st' = {| hi_ipv4 := sockaddr_zero; hi_n_msg := 148;
                   hi_msg := Some (answer c (if decide (r = G_CLI_SRV) then F_SRV_CLI
                                             else F_SRV_NTF)) |} :: m_fwd st.
Proof.
  intros Hp Hk Hs W Hct Hrt Hr Hlog. pose proof (com_bytes_length c W) as Hc.
  pose proof (RSA_encrypt_size _ _ _ _ Hk Hct) as Hz. unfold SZ_COM, MAX_MSG in *.
  assert (Hd : zlen (ct ++ [rsa_aes ENCRYPT_SRV_PUB]) = zlen ct + 1) by (by rewrite zlen_app).
  unfold main_step, SZ_COM. rewrite recvfrom_ok by (rewrite Hd; unfold SZ_BUF, MAX_MSG; lia).
  rewrite last_frame, Hd. decide_cmp. cbn [mbind res_bind].
  rewrite (decrypt_rsa st pub prv (com_bytes c) ct) by
    (try done; rewrite ?Hc; unfold SZ_BUF, MAX_MSG; lia).
  cbn [mbind res_bind]. rewrite Hc. change (SZ_BUF - 100) with 1101. rewrite Hlog.
  cbn [mbind res_bind]. unfold dispatch.
  assert (Hro : rd1 (com_bytes c ++ zeros 1101) off_ifroute = Ok (msg_route r))
    by (rewrite <- Hrt; reflexivity).
  assert (Hty : rd1 (com_bytes c ++ zeros 1101) off_type = Ok (com_type c)) by reflexivity.
  rewrite Hro, Hty. cbn [mbind res_bind].
  destruct Hr as [-> | ->].
  - rewrite decide_True by done. change (is_route (msg_route G_CLI_SRV) _) with false at 1.
    change (is_route (msg_route G_CLI_SRV) G_CLI_NTF) with false.
    change (is_route (msg_route G_CLI_SRV) G_CLI_SRV) with true. cbn [orb].
    rewrite (key_answer_ok c (zeros 1101)) by done. cbn [mbind res_bind].
    eexists. split; [done|]. done.
  - rewrite decide_False by done. change (is_route (msg_route G_NTF_SRV) _) with false at 1.
    change (is_route (msg_route G_NTF_SRV) G_CLI_NTF) with false.
    change (is_route (msg_route G_NTF_SRV) G_CLI_SRV) with false.
    change (is_route (msg_route G_NTF_SRV) G_NTF_SRV) with true. cbn [orb].
    rewrite (key_answer_ok c (zeros 1101)) by done. cbn [mbind res_bind].
    eexists. split; [done|]. done.
Qed.

(** a request for the AES key, encrypted with the public key of the server, is queued
    as its answer: the same header with the route turned round and the length 48, followed
    by the key and the initial vector; the sending thread is signalled. *)
Theorem main_step_key_request log st pub prv c ct r :
  get_srv_prv (m_prv st) = Ok (Some prv) -> key_pair pub prv ->
  111 <= RSA_size pub < MAX_MSG -> com_wf c ->
  RSA_public_encrypt (com_bytes c) pub = Some ct ->
  com_ifroute c = msg_route r -> r = G_CLI_SRV \/ r = G_NTF_SRV ->
  log (com_bytes c ++ zeros 1101) = Ok tt ->
  exists st', main_step log st (Some (ct ++ [rsa_aes ENCRYPT_SRV_PUB])) = Ok (st', true) /\
    m_prv st' = Some prv /\
    m_fwd st' = {| hi_ipv4 := sockaddr_zero; hi_n_msg := 148;
                   hi_msg := Some (answer c (if decide (r = G_CLI_SRV) then F_SRV_CLI
                                             else F_SRV_NTF)) |} :: m_fwd st.
Proof. apply main_step_key_ok. Qed.

(** the answer is written behind the request without a check of the room: a plain
    datagram of more than 1153 bytes whose route asks for the key makes the server write
    past its receive buffer. *)
Theorem main_step_key_overflow log st d b r :
  SZ_BUF - 48 < zlen d <= SZ_BUF -> rd1 d (zlen d - 1) = Ok b ->
  is_enc b ENCRYPT_SRV_PUB = false -> is_enc b ENCRYPT_AES = false ->
  rd1 d off_ifroute = Ok r -> is_route r G_CLI_SRV || is_route r G_NTF_SRV = true ->
  (forall m, log m = Ok tt) ->
  main_step log st (Some d) = Fault OobWrite.
Proof.
  unfold SZ_BUF, MAX_MSG. intros Hl Hb Hn1 Hn2 Hr Hro Hlog. unfold main_step, SZ_COM.
  rewrite recvfrom_ok by (unfold SZ_BUF, MAX_MSG; lia). decide_cmp.
  apply rd1_rd in Hb, Hr. unfold SZ_BUF, MAX_MSG.
  set (buf := d ++ zeros (1200 + 1 - zlen d)).
  assert (Hbuf : zlen buf = SZ_BUF)
    by (unfold buf, SZ_BUF, MAX_MSG; rewrite zlen_app, zlen_zeros; lia).
  assert (Hb' : rd1 buf (zlen d - 1) = Ok b) by (apply rd1_rd; by apply rd_app_l).
  assert (Hr' : rd1 buf off_ifroute = Ok r) by (apply rd1_rd; by apply rd_app_l).
  rewrite Hb'. cbn [mbind res_bind]. unfold decrypt_step. rewrite Hn1, Hn2.
  cbn [mbind res_bind]. rewrite Hlog. cbn [mbind res_bind]. unfold dispatch. rewrite Hr'.
  cbn [mbind res_bind].
  destruct (rd1_some buf off_type) as [t Ht]; [rewrite Hbuf; done|]. rewrite Ht.
  cbn [mbind res_bind]. unfold is_route in *.
  assert (Hov : forall r l, key_answer buf (zlen d) r l = Fault OobWrite).
  { intros. apply key_answer_overflow; [done|unfold SZ_COM; lia|unfold SZ_BUF, MAX_MSG; lia]. }
  apply orb_true_iff in Hro as [Hro|Hro]; b2p; rewrite Hro; cbn [b2z msg_route];
    by rewrite !Hov.
Qed.

(** a datagram marked as AES whose tag is not the one of its ciphertext is dropped: no
    message is queued, no signal is sent. *)
Theorem main_step_forged log st ct tag :
  zlen tag = 16 -> SZ_COM <= zlen ct + 17 <= SZ_BUF -> zlen (m_bufout st) = SZ_BUF ->
  tag <> tag_of aes_key aes_iv ct ->
  exists st', main_step log st (Some (ct ++ tag ++ [rsa_aes ENCRYPT_AES])) = Ok (st', false) /\
    m_fwd st' = m_fwd st /\ m_prv st' = m_prv st.
Proof.
  intros Ht Hl Hb Hne. unfold main_step.
  set (d := ct ++ tag ++ [rsa_aes ENCRYPT_AES]).
  assert (Hd : zlen d = zlen ct + 17)
    by (unfold d; rewrite !zlen_app, Ht; change (zlen [_]) with 1; lia).
  rewrite recvfrom_ok by lia. unfold SZ_COM in *. decide_cmp.
  assert (He : rd1 (d ++ zeros (SZ_BUF - zlen d)) (zlen d - 1) = Ok (rsa_aes ENCRYPT_AES))
    by (unfold d; rewrite app_assoc; apply last_frame).
  rewrite He. cbn [mbind res_bind].
  destruct (decrypt_aes_forged st d [rsa_aes ENCRYPT_AES] ct tag) as (o & Ho & _);
    [done..|lia|done|done|].
  rewrite Ho. cbn [mbind res_bind]. eexists. split; [done|]. done.
Qed.
End Properties.

(** C1: in every reachable state of the two threads, whatever the order of their steps,
    the datagrams received and the signals, every message that was ever queued is in
    exactly one place: waiting in the list, detached and being sent, sent, or lost when a
    round of [send_to_dst] stopped; and [g_runnow] stays between 0 and 2. *)
Theorem sys_conservation `{RSALib} `{EVPLib} `{FileSystem} `{Network} log below tb b1 b2 y :
  sys_reachable log below tb b1 b2 y ->
  y_queued y ≡ₚ m_fwd (y_main y) ++ default [] (y_local y) ++ y_sent y ++ y_lost y /\
  0 <= w_runnow (y_send y) <= 2.
Proof.
  intros Hr. change (sys_inv y). unfold sys_reachable in Hr.
  assert (Hi : sys_inv (sys_init tb b1 b2)) by (split; [done|cbn; lia]).
  revert Hi. induction Hr as [y|x y z Hs _ IH]; [done|].
  intros Hi. apply IH. by eapply sys_step_inv.
Qed.

Lemma recv_step_ok `{RSALib} `{GCMLaws} `{FileSystem} below st pt t s from :
  reg_ok (w_table st) -> zlen (w_bufout st) = SZ_BUF ->
  SZ_COM <= zlen pt -> zlen pt + 17 <= MAX_MSG ->
  rd1 pt off_type = Ok t -> is_type t MSG_TRA = true ->
  cstr_at pt off_dev_id = Ok s -> zlen s < LEN_DEVID -> is_Some (reg_addr (w_table st) s) ->
  (exists st', recv_step below st (Some (frame aes_key aes_iv pt)) from = Ok st' /\
     reg_ok (w_table st') /\
     forall s', reg_addr (w_table st') s'
                = if decide (s' = s) then Some from else reg_addr (w_table st) s') /\
  recv_step None st None from = Fault OobRead /\
  (forall b, is_enc b ENCRYPT_SRV_PUB = false -> is_enc b ENCRYPT_AES = false ->
   exists g, recv_step (Some b) st None from
     = Ok {| w_table := w_table st; w_prv := w_prv st; w_bufout := w_bufout st;
             w_runnow := g |}).
Proof.
  unfold SZ_COM, MAX_MSG. intros Hok Hb Hpt Hl Ht Hty Hs Hsl Ha. unfold recv_step.
  pose proof (zlen_frame aes_key aes_iv pt) as Hf. split; [|split].
  - rewrite recvfrom_ok by (unfold MAX_MSG; lia). rewrite Hf. unfold runnow_step. decide_cmp.
    unfold track_step, below_header, wrap, SZ_COM.
    rewrite Z.mod_small by lia. decide_cmp.
    assert (He : last_byte below (frame aes_key aes_iv pt ++ zeros (SZ_BUF - (zlen pt + 17)))
                   (zlen pt + 17) = Ok (rsa_aes ENCRYPT_AES)).
    { unfold last_byte. decide_cmp. rewrite <- Hf, frame_split. apply last_frame. }
    rewrite He. cbn [mbind res_bind].
    rewrite decrypt_aes by (try done; unfold SZ_BUF, MAX_MSG; lia).
    cbn [mbind res_bind m_prv m_bufout set_bufout w_table w_prv w_bufout w_runnow].
    set (b := pt ++ drop (length pt) (w_bufout st)).
    assert (Ht' : rd1 b off_type = Ok t) by (apply rd1_rd; apply rd_app_l; by apply rd1_rd).
    rewrite Ht'. cbn [mbind res_bind]. rewrite Hty.
    assert (Hs' : cstr_at b off_dev_id = Ok s).
    { apply cstr_at_rd in Hs as [Hn Hs]. apply cstr_at_rd. split; [done|]. by apply rd_app_l. }
    destruct (hl_track_msg_ok (w_table st) b from s Hok Hs' Hsl) as [_ Htrk].
    destruct (Htrk Ha) as (tb' & Htb & Hok' & Hd). rewrite Htb. cbn [mbind res_bind].
    eexists. split; [done|]. split; [done|]. exact Hd.
  - reflexivity.
  - intros b Hb1 Hb2. change (recvfrom None MAX_MSG) with (-1, zeros SZ_BUF).
    unfold runnow_step, track_step. change (-1 <? 1) with true. cbv iota.
    change (below_header (-1)) with false. cbv iota.
    change (last_byte (Some b) (zeros SZ_BUF) (-1)) with (Ok b). cbn [mbind res_bind].
    rewrite decrypt_plain by done. cbn [mbind res_bind].
    change (rd1 (zeros SZ_BUF) off_type) with (Ok x00). cbn [mbind res_bind].
    change (is_type x00 MSG_TRA) with false. eauto.
Qed.

(** a tracking message a registered peer encrypted with the AES key makes the address
    it came from the address of its identifier, and of no other.  A round without a
    datagram reads a byte below the receive buffer, because -1 passes the length check;
    when the platform delivers a byte that is no encryption marker there, the round changes
    nothing but [g_runnow]. *)
Theorem recv_step_spec `{RSALib} `{GCMLaws} `{FileSystem} below st pt t s from :
  reg_ok (w_table st) -> zlen (w_bufout st) = SZ_BUF ->
  SZ_COM <= zlen pt -> zlen pt + 17 <= MAX_MSG ->
  rd1 pt off_type = Ok t -> is_type t MSG_TRA = true ->
  cstr_at pt off_dev_id = Ok s -> zlen s < LEN_DEVID -> is_Some (reg_addr (w_table st) s) ->
  (exists st', recv_step below st (Some (frame aes_key aes_iv pt)) from = Ok st' /\
     reg_ok (w_table st') /\
     forall s', reg_addr (w_table st') s'
                = if decide (s' = s) then Some from else reg_addr (w_table st) s') /\
  recv_step None st None from = Fault OobRead /\
  (forall b, is_enc b ENCRYPT_SRV_PUB = false -> is_enc b ENCRYPT_AES = false ->
   exists g, recv_step (Some b) st None from
     = Ok {| w_table := w_table st; w_prv := w_prv st; w_bufout := w_bufout st;
             w_runnow := g |}).
Proof. apply recv_step_ok. Qed.

(** ** The properties at concrete datagrams *)

Definition toy_main : main_st := {| m_fwd := []; m_prv := None; m_bufout := zeros SZ_BUF |}.

Lemma main_step_notify_witness :
  exists st', @main_step toy_rsa toy_evp toy_keys DUM_MSG toy_main
      (Some (frame aes_key aes_iv (sample_msg MSG_NTF G_NTF_CLI))) = Ok (st', true) /\
    m_fwd st' = [toy_ntf].
Proof.
  apply (@main_step_notify toy_rsa toy_evp toy_gcm toy_keys toy_main
    (sample_msg MSG_NTF G_NTF_CLI) x02 x00 sample_id sample_ntf); vm_side.
Defined.

Lemma main_step_key_request_witness :
  exists st', @main_step toy_rsa toy_evp toy_keys (fun _ => Ok tt) toy_main
      (Some (toy_rsa_block (sample_msg MSG_GET_AES G_CLI_SRV) x53
             ++ [rsa_aes ENCRYPT_SRV_PUB])) = Ok (st', true) /\
    m_prv st' = Some key_S /\
    m_fwd st' = [{| hi_ipv4 := sockaddr_zero; hi_n_msg := 148;
                    hi_msg := Some (answer (sample_com MSG_GET_AES G_CLI_SRV) F_SRV_CLI) |}].
Proof.
  apply (@main_step_key_request toy_rsa toy_rsa_laws toy_evp toy_keys (fun _ => Ok tt)
    toy_main key_S key_S (sample_com MSG_GET_AES G_CLI_SRV) _ G_CLI_SRV); try vm_side.
  left. reflexivity.
Defined.

Lemma main_step_key_overflow_witness :
  @main_step toy_rsa toy_evp toy_keys (fun _ => Ok tt) toy_main
    (Some (sample_msg MSG_GET_AES G_CLI_SRV ++ zeros 1054)) = Fault OobWrite.
Proof.
  apply (@main_step_key_overflow toy_rsa toy_evp toy_keys (fun _ => Ok tt) toy_main
    (sample_msg MSG_GET_AES G_CLI_SRV ++ zeros 1054) x00 x04); vm_side.
Defined.

Lemma main_step_forged_witness :
  exists st', @main_step toy_rsa toy_evp toy_keys (fun _ => Ok tt) toy_main
      (Some (sample_msg MSG_NTF G_NTF_CLI ++ zeros 16 ++ [rsa_aes ENCRYPT_AES]))
    = Ok (st', false) /\ m_fwd st' = [] /\ m_prv st' = None.
Proof.
  apply (@main_step_forged toy_rsa toy_evp toy_gcm toy_keys (fun _ => Ok tt) toy_main
    (sample_msg MSG_NTF G_NTF_CLI) (zeros 16)); vm_side.
Defined.

(** After a notification was received and the list detached. *)
Definition toy_sys : sys :=
  {| y_main := set_fwd (set_bufout toy_main (sample_msg MSG_NTF G_NTF_CLI ++ zeros 1101)) [];
     y_send := y_send (sys_init ∅ (zeros SZ_BUF) []); y_local := Some [toy_ntf]; y_out := [];
     y_queued := [toy_ntf]; y_sent := []; y_lost := [] |}.

Lemma toy_sys_reachable :
  @sys_reachable toy_rsa toy_evp toy_keys toy_net (fun _ => Ok tt) None ∅ (zeros SZ_BUF) []
    toy_sys.
Proof.
  eapply rtc_l.
  - apply (step_main _ _ _ (Some (frame aes_key aes_iv (sample_msg MSG_NTF G_NTF_CLI)))
      (set_fwd (set_bufout toy_main (sample_msg MSG_NTF G_NTF_CLI ++ zeros 1101)) [toy_ntf])
      true). vm_compute. reflexivity.
  - eapply rtc_l; [apply step_detach; reflexivity|]. apply rtc_refl.
Qed.

Lemma sys_conservation_witness :
  [toy_ntf] ≡ₚ m_fwd (y_main toy_sys) ++ [toy_ntf] ++ y_sent toy_sys ++ y_lost toy_sys /\
  0 <= w_runnow (y_send toy_sys) <= 2.
Proof.
  apply (@sys_conservation toy_rsa toy_evp toy_keys toy_net (fun _ => Ok tt) None ∅
    (zeros SZ_BUF) [] toy_sys). exact toy_sys_reachable.
Defined.

Definition toy_send : send_st :=
  {| w_table := toy_table; w_prv := None; w_bufout := zeros SZ_BUF; w_runnow := 0 |}.

Lemma recv_step_spec_witness :
  exists st', @recv_step toy_rsa toy_evp toy_keys None toy_send
      (Some (frame aes_key aes_iv (sample_msg MSG_TRA G_NTF_CLI))) toy_addr = Ok st' /\
    reg_addr (w_table st') sample_id = Some toy_addr.
Proof.
  destruct (proj1 (@recv_step_spec toy_rsa toy_evp toy_gcm toy_keys None toy_send
    (sample_msg MSG_TRA G_NTF_CLI) x01 sample_id toy_addr toy_table_ok
    ltac:(vm_side) ltac:(vm_side) ltac:(vm_side) ltac:(vm_side) ltac:(vm_side) ltac:(vm_side)
    ltac:(vm_side) (ex_intro _ toy_addr toy_table_addr))) as (st' & H1 & _ & H2).
  exists st'. split; [exact H1|]. rewrite H2. reflexivity.
Defined.
