(* ===== verification/Peers.v ===== *)
(** * The client and the notifier, and the exchange of the AES key

    Models src/notify.system/client.c ([client_timer] and [client_recv] are the two halves
    of the loop body of [main], [send_msg_fb] the confirmation) and
    src/notify.system/notifier.c ([notifier_timer], [notifier_recv], the function
    [notifier], the command line).  Logging with ["%s"] reads the strings it prints; the
    other log lines and the options of the sockets are left out. *)
From S2P Require Import Prelude CString ByteOrder Message OpenSSL KeyFiles.
From S2P Require Import AesMessage Registry Forward Server Toy.

(** ** Shared pieces *)

(** What a peer keeps between rounds; the clock value is in seconds. *)
Record peer := {
  p_key : list byte;             (* aes256_key[AES_BYTES] *)
  p_iv : list byte;              (* aes256_iv[AES_IV_BYTES] *)
  p_got_aes : bool;
  p_t0 : Z;                      (* t0.tv_sec *)
  p_interval : Z;                (* client *)
  p_count : Z;                   (* notifier *)
  p_bufout : list byte
}.
Definition peer_init (t0 : Z) (bufout : list byte) : peer :=
  {| p_key := zeros AES_BYTES; p_iv := zeros AES_IV_BYTES; p_got_aes := false; p_t0 := t0;
     p_interval := 3; p_count := 0; p_bufout := bufout |}.
Definition p_set_bufout (st : peer) (b : list byte) : peer :=
  {| p_key := p_key st; p_iv := p_iv st; p_got_aes := p_got_aes st; p_t0 := p_t0 st;
     p_interval := p_interval st; p_count := p_count st; p_bufout := b |}.
Definition p_set_t0 (st : peer) (t : Z) : peer :=
  {| p_key := p_key st; p_iv := p_iv st; p_got_aes := p_got_aes st; p_t0 := t;
     p_interval := p_interval st; p_count := p_count st; p_bufout := p_bufout st |}.
Definition p_set_count (st : peer) (c : Z) : peer :=
  {| p_key := p_key st; p_iv := p_iv st; p_got_aes := p_got_aes st; p_t0 := p_t0 st;
     p_interval := p_interval st; p_count := c; p_bufout := p_bufout st |}.
Definition p_set_aes (st : peer) (key iv : list byte) (interval : Z) : peer :=
  {| p_key := key; p_iv := iv; p_got_aes := true; p_t0 := p_t0 st;
     p_interval := interval; p_count := p_count st; p_bufout := p_bufout st |}.

Definition INTER_TRACK : Z := 60.

Section Peers.
Context `{RL : RSALib} `{EL : EVPLib} `{FS : FileSystem} `{NW : Network}.

(** Removing the encryption of a datagram from the server: the state, the object of the
    message ([true] when it is [bufout]) and its length; a failed [rsa_dec] leaves the
    datagram as it is. *)
Definition peer_decrypt (idd : res (list byte)) (st : peer) (enc : byte) (buffer : list byte) (n : Z)
    : res (peer * option (bool * list byte * Z)) :=
  if is_enc enc ENCRYPT_CLI_PUB then
    idd ← idd;
    key ← get_cli_prv idd;
    '(_, out, outlen) ← rsa_dec key (Some buffer) (Some None) (n - 1) (Some 0);
    match default None out with
    | Some out =>
      let n := default 0 outlen in
      s ← rd out 0 n;
      buffer ← wr (zeros SZ_BUF) 0 s;
      Ok (st, Some (false, buffer, n))
    | None => Ok (st, Some (false, buffer, n))
    end
  else if is_enc enc ENCRYPT_AES then
    '(err, b, n') ← msg_aes_dec (Some buffer) (Some (p_bufout st)) (Some (p_key st))
                      (Some (p_iv st)) n (Some n) SZ_BUF;
    let st := p_set_bufout st (default [] b) in
    if negb (err =? 0) then Ok (st, None)
    else Ok (st, Some (true, p_bufout st, default 0 n'))
  else Ok (st, Some (false, buffer, n)).

(** The key out of a message of type [MSG_GET_AES]. *)
Definition take_key (st : peer) (m : list byte) (interval : Z) : res (peer * bool) :=
  sz ← get_u16 m off_len;
  if negb (sz =? AES_BYTES + AES_IV_BYTES) then Ok (st, false)
  else
    k ← rd m SZ_COM AES_BYTES;
    key ← wr (p_key st) 0 k;
    v ← rd m (SZ_COM + AES_BYTES) AES_IV_BYTES;
    iv ← wr (p_iv st) 0 v;
    Ok (p_set_aes st key iv interval, true).

(** ** The client *)

(** The literal [id] is 36 characters and a zero; [after] is what follows it in memory,
    empty in the strict reading of C. *)
Definition client_id (after : list byte) : list byte := sample_id ++ [x00] ++ after.

Definition client_timer (log : list byte -> res unit) (after ip : list byte) (st : peer)
    (t1 : timespec) : res (peer * list datagram) :=
  if p_interval st <? tv_sec t1 - p_t0 st then
    let st := p_set_t0 st (tv_sec t1) in
    if p_got_aes st then
      '(_, o) ← send_msg_track (Some (client_id after)) (Some ip) (Some t1) (Some (p_key st))
                  (Some (p_iv st));
      Ok (st, o)
    else
      '(_, o1) ← send_msg_track (Some (client_id after)) (Some ip) (Some t1) None None;
      '(_, o2) ← cmd_2_srv log MSG_GET_AES G_CLI_SRV None 0 sample_id ip t1;
      Ok (st, o1 ++ o2)
  else Ok (st, []).

(** The header goes back alone, encrypted; returns what [sendto] returned. *)
Definition send_msg_fb (msg ip : list byte) (key iv : list byte) : res (Z * list datagram) :=
  let addr := {| sin_family := AF_INET; sin_addr := inet_addr ip; sin_port := PORT |} in
  if socket_rc <? 0 then Ok (0, [])
  else
    '(err, buffer, n) ← msg_aes_enc (Some msg) (Some (zeros SZ_BUF)) (Some key) (Some iv)
                          SZ_COM (Some 0) SZ_BUF;
    if negb (err =? 0) then Ok (default 0 n, [])
    else sendto (default [] buffer) (default 0 n) addr.

Definition client_recv (log : list byte -> res unit) (ip : list byte) (st : peer)
    (d : option (list byte)) : res (peer * list datagram) :=
  let '(n, buffer) := recvfrom d SZ_BUF in
  if n <? 1 then Ok (st, [])
  else if n <? SZ_COM then Ok (st, [])
  else
    enc ← rd1 buffer (n - 1);
    '(st, r) ← peer_decrypt (Ok sample_id) st enc buffer n;
    match r with
    | None => Ok (st, [])
    | Some (inb, m, _) =>
      _ ← cstr_at m SZ_COM;                        (* "%s" of dt->data *)
      ifroute ← rd1 m off_ifroute;
      type ← rd1 m off_type;
      '(st, m, o) ←
        (if is_route ifroute G_NTF_CLI then
           _ ← log m;
           m ← wr m off_ifroute [msg_route G_CLI_NTF];
           m ← wr m off_len (zeros LEN_U16INT);
           '(_, o) ← send_msg_fb m ip (p_key st) (p_iv st);
           Ok (st, m, o)
         else if is_route ifroute F_SRV_CLI then
           if is_type type MSG_GET_AES then
             '(st, _) ← take_key st m INTER_TRACK; Ok (st, m, [])
           else Ok (st, m, [])
         else Ok (st, m, []));
      _ ← cstr_at m off_dev_id;                    (* "%s" of msg->dev_id *)
      Ok (if (inb : bool) then p_set_bufout st m else st, o)
    end.

(** ** The notifier *)

(** [memcpy(dst, argv[i] + strlen(prefix), ...)] into a zeroed global of [size] bytes. *)
Definition parse_arg (size : Z) (prefix arg : list byte) : res (list byte) :=
  if zlen prefix <? zlen arg
  then wr (zeros size) 0 (drop (length prefix) arg) else Ok (zeros size).

Definition ntf_text : list byte := str "Nguyen Thai Thuan, Thanh Hong, Thanh Tam.".

(** [memcpy(dst, s, MIN(LEN_DEVID, strlen(s) + 1))] from a global of 40 characters. *)
Definition put_id (m : list byte) (off : Z) (s : list byte) : res (list byte) :=
  l ← strlen_at s 0;
  b ← rd s 0 (MIN LEN_DEVID (l + 1));
  wr m off b.

(** The buffer [notifier] fills. *)
Definition notifier_fill (dev_iid ntf_iid : list byte) (t : timespec) : res (list byte) :=
  m ← wr (zeros SZ_BUF) off_type [msg_enum MSG_NTF];
  m ← wr m off_ifroute [msg_route G_NTF_CLI];
  m ← put_id m off_dev_id dev_iid;
  m ← put_id m off_ntf_id ntf_iid;
  let n := MAX_MSG - SZ_COM - 1 - AES_IV_BYTES in
  m ← put_u16 m off_len n;
  m ← wr m SZ_COM (take (Z.to_nat (n - 1)) ntf_text ++ [x00]);
  m ← put_u64 m off_second (tv_sec t);
  put_u64 m off_nano (tv_nsec t).

Definition notifier (log : list byte -> res unit) (st : peer) (dev_iid ntf_iid ip : list byte)
    (t : timespec) : res (list datagram) :=
  if socket_rc <? 0 then Fault Exited
  else
    let servaddr := {| sin_family := AF_INET; sin_addr := inet_addr ip; sin_port := PORT |} in
    let n := MAX_MSG - SZ_COM - 1 - AES_IV_BYTES in
    m ← notifier_fill dev_iid ntf_iid t;
    _ ← log m;
    if p_got_aes st then
      '(err, b, n') ← msg_aes_enc (Some m) (Some (zeros SZ_BUF)) (Some (p_key st))
                        (Some (p_iv st)) (MAX_MSG - AES_IV_BYTES) (Some n) SZ_BUF;
      if negb (err =? 0) then Ok []
      else '(_, o) ← sendto (default [] b) (default 0 n') servaddr; Ok o
    else
      m ← wr m MAX_MSG [rsa_aes ENCRYPT_NON];
      '(_, o) ← sendto m SZ_BUF servaddr; Ok o.

(** [None]: the loop is left after 30 rounds with the key. *)
Definition notifier_timer (log : list byte -> res unit) (dev_iid ntf_iid ip : list byte)
    (st : peer) (t1 : timespec) : res (option (peer * list datagram)) :=
  if 3 <? tv_sec t1 - p_t0 st then
    if (30 <? p_count st) && p_got_aes st then Ok None
    else
      let st := p_set_t0 st (tv_sec t1) in
      '(_, o1) ← send_msg_track (Some ntf_iid) (Some ip) (Some t1)
                   (if p_got_aes st then Some (p_key st) else None)
                   (if p_got_aes st then Some (p_iv st) else None);
      o2 ← (if p_got_aes st then notifier log st dev_iid ntf_iid ip t1
            else s ← cstr_at ntf_iid 0;
                 '(_, o) ← cmd_2_srv log MSG_GET_AES G_NTF_SRV None 0 s ip t1; Ok o);
      Ok (Some (p_set_count st (p_count st + 1), o1 ++ o2))
  else Ok (Some (st, [])).

Definition notifier_recv (log : list byte -> res unit) (dev_iid ntf_iid ip : list byte)
    (st : peer) (t : timespec) (d : option (list byte)) : res (peer * list datagram) :=
  let '(n, buffer) := recvfrom d SZ_BUF in
  if n <? 1 then Ok (st, [])
  else if n <? SZ_COM then Ok (st, [])
  else
    enc ← rd1 buffer (n - 1);
    '(st, r) ← peer_decrypt (cstr_at ntf_iid 0) st enc buffer n;
    match r with
    | None => Ok (st, [])
    | Some (_, m, _) =>
      _ ← cstr_at m off_dev_id;
      _ ← cstr_at m off_ntf_id;
      ifroute ← rd1 m off_ifroute;
      type ← rd1 m off_type;
      if is_route ifroute F_SRV_NTF && is_type type MSG_GET_AES then
        '(st, got) ← take_key st m (p_interval st);
        if (got : bool) then o ← notifier log st dev_iid ntf_iid ip t; Ok (st, o)
        else Ok (st, [])
      else Ok (st, [])
    end.
End Peers.

(** ** Lemmas *)

Section PeerLemmas.
Context `{RL : RSALaws} `{GL : GCMLaws} `{FS : FileSystem} `{NW : Network}.

Lemma peer_decrypt_rsa st idd pub prv pt ct rest :
  get_cli_prv idd = Ok (Some prv) -> key_pair pub prv ->
  RSA_public_encrypt pt pub = Some ct -> 1 <= zlen pt <= RSA_size pub -> zlen pt <= SZ_BUF ->
  peer_decrypt (Ok idd) st (rsa_aes ENCRYPT_CLI_PUB) ((ct ++ [rsa_aes ENCRYPT_CLI_PUB]) ++ rest)
    (zlen ct + 1)
  = Ok (st, Some (false, pt ++ zeros (SZ_BUF - zlen pt), zlen pt)).
Proof.
  intros Hp Hk Hct Hl Hb. unfold peer_decrypt.
  change (is_enc (rsa_aes ENCRYPT_CLI_PUB) ENCRYPT_CLI_PUB) with true. cbv iota.
  cbn [mbind res_bind]. rewrite Hp. cbn [mbind res_bind].
  replace (zlen ct + 1 - 1) with (zlen ct) by lia.
  rewrite (RSA_encrypt_size _ _ _ _ Hk Hct), <- app_assoc.
  destruct (rsa_dec_ok pub prv ct ([rsa_aes ENCRYPT_CLI_PUB] ++ rest) None pt (Some 0) Hk Hct Hl)
    as (pad & Hpad & Hd).
  rewrite Hd. cbn [mbind res_bind default from_option id store_out].
  rewrite (rd_part _ [] pt pad 0 (zlen pt)) by done. cbn [mbind res_bind].
  rewrite wr_zeros by lia. done.
Qed.

Lemma peer_decrypt_aes st idd pt rest :
  32 <= zlen (p_key st) -> 16 <= zlen (p_iv st) ->
  zlen pt + 17 <= SZ_BUF -> zlen (p_bufout st) = SZ_BUF ->
  let b := pt ++ drop (length pt) (p_bufout st) in
  peer_decrypt idd st (rsa_aes ENCRYPT_AES) (frame (p_key st) (p_iv st) pt ++ rest)
    (zlen pt + 17)
  = Ok (p_set_bufout st b, Some (true, b, zlen pt)).
Proof.
  intros Hk Hv Hl Hb b. unfold peer_decrypt, SZ_BUF, MAX_MSG in *.
  change (is_enc (rsa_aes ENCRYPT_AES) ENCRYPT_CLI_PUB) with false.
  change (is_enc (rsa_aes ENCRYPT_AES) ENCRYPT_AES) with true. cbv iota.
  pose proof (zlen_frame (p_key st) (p_iv st) pt) as Hf. pose proof (zlen_nonneg rest).
  pose proof (zlen_nonneg pt).
  rewrite msg_aes_dec_ok by (rewrite ?zlen_app, ?Hf; try done; lia).
  rewrite Z.gtb_ltb. decide_cmp. cbn [orb].
  replace (zlen pt + 17 - 17) with (zlen pt) by lia.
  replace (Z.to_nat (zlen pt)) with (length pt) by (unfold zlen; lia).
  destruct (rd_frame_tag (p_key st) (p_iv st) pt rest) as [-> ->].
  rewrite bool_decide_true by done. rewrite seal_seal.
  by cbn [mbind res_bind negb Z.eqb default from_option id].
Qed.

(** The answer of the server, as a message object. *)
Lemma answer_obj c r rest :
  answer c r ++ rest = obj (com_type c) (msg_route r) (com_dev_id c) (com_ntf_id c)
    (com_second c) (com_nano c) (le_bytes 2 48) (aes_key ++ take 16 aes_iv ++ rest).
Proof. unfold answer. by rewrite <- !app_assoc, com_obj. Qed.

Lemma take_key_ok c r rest st interval :
  com_wf c -> zlen (p_key st) = 32 -> zlen (p_iv st) = 16 ->
  take_key st (answer c r ++ rest) interval
  = Ok (p_set_aes st aes_key (take 16 aes_iv) interval, true).
Proof.
  intros W Hk Hv. unfold take_key.
  assert (Wa : com_wf (answer_com c r)) by (destruct W as (? & ? & ? & ? & ?); by repeat split).
  pose proof (com_bytes_length _ Wa) as Hc. unfold answer.
  assert (Hlen : get_u16 ((com_bytes (answer_com c r) ++ aes_key ++ take 16 aes_iv) ++ rest)
                   off_len = Ok 48).
  { rewrite (get_u16_rd _ _ (le_bytes 2 48)); [done|].
    unfold com_bytes. cbn [answer_com com_type com_ifroute com_dev_id com_ntf_id com_second
      com_nano com_len]. destruct W as (W1 & W2 & W3 & W4 & _).
    apply (rd_part _ ([com_type c; msg_route r] ++ com_dev_id c ++ com_ntf_id c ++ com_second c
      ++ com_nano c) _ ((aes_key ++ take 16 aes_iv) ++ rest)).
    - by rewrite <- !app_assoc.
    - rewrite !zlen_app, W1, W2, W3, W4. done.
    - done. }
  rewrite Hlen. cbn [mbind res_bind]. change (AES_BYTES + AES_IV_BYTES) with 48.
  cbn [Z.eqb Pos.eqb negb]. unfold SZ_COM in *.
  rewrite (rd_part _ (com_bytes (answer_com c r)) aes_key (take 16 aes_iv ++ rest)
    100 AES_BYTES);
    [|by rewrite <- !app_assoc|done|done].
  cbn [mbind res_bind]. rewrite wr_head by (rewrite Hk; done). cbn [mbind res_bind].
  rewrite (rd_part _ (com_bytes (answer_com c r) ++ aes_key) (take 16 aes_iv) rest
    (100 + AES_BYTES) AES_IV_BYTES);
    [|by rewrite <- !app_assoc|by rewrite zlen_app, Hc|done].
  cbn [mbind res_bind]. rewrite wr_head by (rewrite Hv; done). cbn [mbind res_bind].
  rewrite !drop_ge, !app_nil_r by (change (length aes_key) with 32%nat;
    change (length (take 16 aes_iv)) with 16%nat; unfold zlen in *; lia).
  done.
Qed.

Lemma obj_dev_id t r s ntf sec nano len rest :
  no_nul s -> zlen s < LEN_DEVID ->
  cstr_at (obj t r (id_field s) ntf sec nano len rest) off_dev_id = Ok s.
Proof.
  unfold LEN_DEVID. intros Hn Hl. apply cstr_at_rd. split; [done|].
  unfold obj, id_field, LEN_DEVID.
  replace (40 - zlen s) with (1 + (39 - zlen s)) by lia. rewrite zeros_add by lia.
  apply (rd_part _ ([t] ++ [r]) (s ++ [x00]) (zeros (39 - zlen s) ++ ntf ++ sec ++ nano ++ len ++ rest)).
  - rewrite <- !app_assoc. done.
  - done.
  - by rewrite zlen_app.
Qed.

Lemma answer_data c r k :
  com_wf c -> 1 <= k ->
  cstr_at (answer c r ++ zeros k) SZ_COM = Ok (aes_key ++ take 16 aes_iv).
Proof.
  intros W Hk. apply cstr_at_rd. split.
  { unfold no_nul. apply Forall_app. split; repeat constructor; discriminate. }
  assert (Wa : com_wf (answer_com c r)) by (destruct W as (? & ? & ? & ? & ?); by repeat split).
  pose proof (com_bytes_length _ Wa) as Hc. unfold answer.
  replace k with (1 + (k - 1)) by lia. rewrite zeros_add by lia.
  apply (rd_part _ (com_bytes (answer_com c r)) ((aes_key ++ take 16 aes_iv) ++ [x00])
    (zeros (k - 1))); [by rewrite <- !app_assoc|done|done].
Qed.

Lemma client_key_ok log ip st pub prv c s ct :
  get_cli_prv sample_id = Ok (Some prv) -> key_pair pub prv ->
  148 <= RSA_size pub < MAX_MSG -> com_wf c -> com_type c = msg_enum MSG_GET_AES ->
  com_dev_id c = id_field s -> no_nul s -> zlen s < LEN_DEVID ->
  RSA_public_encrypt (answer c F_SRV_CLI) pub = Some ct ->
  zlen (p_key st) = 32 -> zlen (p_iv st) = 16 ->
  client_recv log ip st (Some (ct ++ [rsa_aes ENCRYPT_CLI_PUB]))
  = Ok (p_set_aes st aes_key (take 16 aes_iv) INTER_TRACK, []).
Proof.
  intros Hp Hk Hs W Hty Hdev Hn Hsl Hct Hkl Hvl.
  pose proof (answer_length c F_SRV_CLI W) as Ha.
  pose proof (RSA_encrypt_size _ _ _ _ Hk Hct) as Hz. unfold MAX_MSG in *.
  assert (Hd : zlen (ct ++ [rsa_aes ENCRYPT_CLI_PUB]) = zlen ct + 1) by (by rewrite zlen_app).
  unfold client_recv, SZ_COM.
  rewrite recvfrom_ok by (rewrite Hd; unfold SZ_BUF, MAX_MSG; lia).
  rewrite last_frame, Hd. decide_cmp. cbn [mbind res_bind].
  rewrite (peer_decrypt_rsa st sample_id pub prv (answer c F_SRV_CLI) ct) by
    (try done; rewrite ?Ha; unfold SZ_BUF, MAX_MSG; lia).
  cbn [mbind res_bind]. rewrite Ha. change (SZ_BUF - 148) with 1053.
  change 100 with SZ_COM. rewrite answer_data by done. cbn [mbind res_bind].
  assert (Hr : rd1 (answer c F_SRV_CLI ++ zeros 1053) off_ifroute = Ok (msg_route F_SRV_CLI))
    by reflexivity.
  assert (Ht : rd1 (answer c F_SRV_CLI ++ zeros 1053) off_type = Ok (msg_enum MSG_GET_AES))
    by (rewrite <- Hty; reflexivity).
  rewrite Hr, Ht. cbn [mbind res_bind].
  change (is_route (msg_route F_SRV_CLI) G_NTF_CLI) with false.
  change (is_route (msg_route F_SRV_CLI) F_SRV_CLI) with true.
  change (is_type (msg_enum MSG_GET_AES) MSG_GET_AES) with true. cbv iota.
  rewrite take_key_ok by done. cbn [mbind res_bind].
  rewrite answer_obj, Hdev, obj_dev_id by done. done.
Qed.
End PeerLemmas.

Section NotifierLemmas.
Context `{NW : Network}.

Lemma id_field_length s : zlen s < LEN_DEVID -> zlen (id_field s) = 40.
Proof.
  unfold LEN_DEVID. intros H. unfold id_field, LEN_DEVID.
  rewrite zlen_app, zlen_zeros by lia. lia.
Qed.

(** The strings of the command line, in their fields of 40 bytes. *)
Lemma put_id_read s :
  no_nul s -> zlen s < LEN_DEVID ->
  strlen_at (id_field s) 0 = Ok (zlen s) /\
  rd (id_field s) 0 (MIN LEN_DEVID (zlen s + 1)) = Ok (s ++ [x00]).
Proof.
  unfold LEN_DEVID. intros Hn Hl.
  assert (Hr : rd (id_field s) 0 (zlen s + 1) = Ok (s ++ [x00])).
  { unfold id_field, LEN_DEVID. replace (40 - zlen s) with (1 + (39 - zlen s)) by lia.
    rewrite zeros_add by lia.
    apply (rd_part _ [] (s ++ [x00]) (zeros (39 - zlen s))).
    - rewrite <- !app_assoc. done.
    - done.
    - by rewrite zlen_app. }
  split; [|rewrite MIN_spec, Z.min_r by lia; done].
  unfold strlen_at. rewrite (proj2 (cstr_at_rd _ _ _) (conj Hn Hr)). done.
Qed.

Definition ntf_com (dev ntf : list byte) (t : timespec) : MSG_COMMON :=
  {| com_type := msg_enum MSG_NTF; com_ifroute := msg_route G_NTF_CLI;
     com_dev_id := id_field dev; com_ntf_id := id_field ntf;
     com_second := le_bytes 8 (tv_sec t); com_nano := le_bytes 8 (tv_nsec t);
     com_len := le_bytes 2 1083 |}.
(** The 1200 bytes a notification is made of: header, text, zeros. *)
Definition ntf_msg (dev ntf : list byte) (t : timespec) : list byte :=
  com_bytes (ntf_com dev ntf t) ++ ntf_text ++ zeros 1059.

Lemma ntf_msg_length dev ntf t :
  zlen dev < LEN_DEVID -> zlen ntf < LEN_DEVID -> zlen (ntf_msg dev ntf t) = MAX_MSG.
Proof.
  intros Hd Hn. unfold ntf_msg. rewrite !zlen_app, com_bytes_length; [done|].
  unfold com_wf, ntf_com. cbn [com_dev_id com_ntf_id com_second com_nano com_len].
  rewrite !id_field_length, !zlen_le_bytes by done. done.
Qed.

Lemma obj_ntf t r dev v sec nano len rest :
  obj_wf dev (zeros 40) sec nano len -> zlen v < 40 ->
  wr (obj t r dev (zeros 40) sec nano len rest) off_ntf_id (v ++ [x00])
  = Ok (obj t r dev (id_field v) sec nano len rest).
Proof.
  intros (W & _) Hv. unfold obj, id_field, LEN_DEVID. pose proof (zlen_nonneg v).
  replace 40 with ((zlen v + 1) + (39 - zlen v)) at 1 by lia. rewrite zeros_add by lia.
  rewrite (wr_part _ ([t] ++ [r] ++ dev) (zeros (zlen v + 1)) (v ++ [x00])
    (zeros (39 - zlen v) ++ sec ++ nano ++ len ++ rest)).
  - rewrite <- !app_assoc. replace (40 - zlen v) with (1 + (39 - zlen v)) by lia.
    by rewrite zeros_add, <- !app_assoc by lia.
  - by rewrite <- !app_assoc.
  - rewrite !zlen_app, W. done.
  - rewrite zlen_app, zlen_zeros by lia. done.
Qed.

Lemma notifier_buffer dev ntf t :
  no_nul dev -> zlen dev < LEN_DEVID -> no_nul ntf -> zlen ntf < LEN_DEVID ->
  notifier_fill (id_field dev) (id_field ntf) t
  = Ok (ntf_msg dev ntf t ++ [x00]).
Proof.
  intros Hdn Hdl Hnn Hnl. unfold notifier_fill. rewrite (obj_zeros SZ_BUF) by done.
  change (MAX_MSG - SZ_COM - 1 - AES_IV_BYTES) with 1083. cbv zeta.
  rewrite obj_type by done. cbn [mbind res_bind]. rewrite obj_route by done.
  cbn [mbind res_bind]. unfold put_id.
  destruct (put_id_read dev Hdn Hdl) as [Hs1 Hr1].
  destruct (put_id_read ntf Hnn Hnl) as [Hs2 Hr2]. run. unfold LEN_DEVID in *.
  pose proof (zlen_nonneg dev). pose proof (zlen_nonneg ntf).
  rewrite obj_dev by (done || rewrite zlen_app; change (zlen [x00]) with 1; lia).
  assert (Hid : (dev ++ [x00]) ++ drop (length (dev ++ [x00])) (zeros 40) = id_field dev).
  { unfold id_field, LEN_DEVID, zeros. rewrite <- app_assoc. f_equal.
    rewrite length_app, drop_replicate. cbn [length app].
    replace (Z.to_nat (40 - zlen dev)) with (S (Z.to_nat 40 - (length dev + 1)))
      by (unfold zlen in *; lia). done. }
  rewrite Hid. cbn [mbind res_bind].
  pose proof (id_field_length dev Hdl) as Hd. pose proof (id_field_length ntf Hnl) as Hn.
  rewrite obj_ntf by (try done; repeat split; done). cbn [mbind res_bind].
  rewrite obj_put_len by (repeat split; done). cbn [mbind res_bind].
  rewrite (obj_com (msg_enum MSG_NTF)).
  set (c := {| com_type := msg_enum MSG_NTF |}).
  assert (W : com_wf c) by (repeat split; done).
  change (zeros (SZ_BUF - SZ_COM)) with (zeros 42 ++ zeros 1059).
  rewrite (wr_part _ (com_bytes c) (zeros 42) _ (zeros 1059));
    [|done|by rewrite com_bytes_length|reflexivity].
  cbn [mbind res_bind]. rewrite com_obj. cbn [c com_type com_ifroute com_dev_id com_ntf_id
    com_second com_nano com_len].
  rewrite obj_put_second by (repeat split; done). cbn [mbind res_bind].
  rewrite obj_put_nano by (repeat split; done). rewrite obj_com.
  unfold ntf_msg. rewrite <- !app_assoc. reflexivity.
Qed.
End NotifierLemmas.

(** ** Properties *)


(** what [notifier] sends: one datagram of 1201 bytes to the server's port, holding the
    header of a notification between the two identifiers, the time and the text; sealed
    with the AES key once the notifier has it, in the clear with a zero marker before. *)
Theorem notifier_datagram `{GCMLaws} `{Network} log st dev ntf ip t :
  no_nul dev -> zlen dev < LEN_DEVID -> no_nul ntf -> zlen ntf < LEN_DEVID ->
  zlen (p_key st) = 32 -> zlen (p_iv st) = 16 -> 0 <= socket_rc ->
  (forall m, log m = Ok tt) ->
  exists p, notifier log st (id_field dev) (id_field ntf) ip t = Ok [(srv_addr ip PORT, p)] /\
    zlen p = SZ_BUF /\
    p = if p_got_aes st
        then frame (p_key st) (p_iv st) (take 1184 (ntf_msg dev ntf t))
        else ntf_msg dev ntf t ++ [rsa_aes ENCRYPT_NON].
Proof.
  intros Hdn Hdl Hnn Hnl Hk Hv Hsock Hlog.
  pose proof (notifier_buffer dev ntf t Hdn Hdl Hnn Hnl) as Hb.
  pose proof (ntf_msg_length dev ntf t Hdl Hnl) as Hm. unfold MAX_MSG in Hm.
  unfold notifier. replace (socket_rc <? 0) with false by (symmetry; apply Z.ltb_ge; lia).
  change (MAX_MSG - SZ_COM - 1 - AES_IV_BYTES) with 1083. rewrite Hb. cbn [mbind res_bind]. rewrite Hlog.
  cbn [mbind res_bind]. assert (Hz : zlen (ntf_msg dev ntf t ++ [x00]) = 1201)
    by (rewrite zlen_app, Hm; done).
  destruct (p_got_aes st).
  - unfold MAX_MSG, AES_IV_BYTES, SZ_BUF.
    rewrite msg_aes_enc_ok by (rewrite ?Hz, ?Hk, ?Hv; done).
    change (1200 - 16) with 1184. change (MAX_MSG + 1 <? 1184 + 17) with false.
    cbn [mbind res_bind negb Z.eqb default from_option id].
    change (Z.to_nat 1184) with 1184%nat.
    rewrite (take_app_le (ntf_msg dev ntf t)) by (unfold zlen in Hm; lia).
    set (p := frame _ _ _).
    assert (Hp : zlen p = 1201) by (unfold p; rewrite zlen_frame; len).
    change (1184 + 17) with 1201. rewrite <- Hp, sendto_ok. cbn [mbind res_bind].
    exists p. split; [done|]. done.
  - rewrite (wr_part _ (ntf_msg dev ntf t) [x00] [rsa_aes ENCRYPT_NON] []);
      [|by rewrite app_nil_r|by rewrite Hm|done].
    cbn [mbind res_bind]. rewrite app_nil_r.
    set (p := ntf_msg dev ntf t ++ [rsa_aes ENCRYPT_NON]).
    assert (Hp : zlen p = SZ_BUF) by (unfold p; rewrite zlen_app, Hm; done).
    exists p. split; [|done]. rewrite <- Hp. rewrite <- (app_nil_r p) at 1.
    by rewrite sendto_ok.
Qed.

(** The confirmation is the first 100 bytes of the message, sealed. *)
Lemma send_msg_fb_ok `{GCMLaws} `{RSALib} `{FileSystem} `{Network} ip key iv back tl :
  32 <= zlen key -> 16 <= zlen iv -> zlen back = SZ_COM -> 0 <= socket_rc ->
  exists rc, send_msg_fb (back ++ tl) ip key iv = Ok (rc, [(srv_addr ip PORT, frame key iv back)]).
Proof.
  intros Hk Hv Hb Hs. unfold send_msg_fb.
  replace (socket_rc <? 0) with false by (symmetry; apply Z.ltb_ge; lia).
  unfold SZ_COM, SZ_BUF, MAX_MSG in *. pose proof (zlen_nonneg tl).
  assert (Hbt : 0 <= 100 <= zlen (back ++ tl)) by (rewrite zlen_app, Hb; lia).
  pose proof (zlen_zeros (1200 + 1) ltac:(done)).
  rewrite msg_aes_enc_ok by lia. change (1200 + 1 <? 100 + 17) with false.
  cbn [mbind res_bind negb Z.eqb default from_option id].
  rewrite (take_app_length' back) by (unfold zlen in Hb; lia).
  replace (100 + 17) with (zlen (frame key iv back)) by (rewrite zlen_frame; lia).
  fold (srv_addr ip PORT). rewrite sendto_ok. by eexists.
Qed.

(** a client that holds the AES key answers a forwarded notification with one datagram
    to the server: the header of the notification, its route turned round to the notifier
    and its length cleared, sealed with the key; its own state keeps the key. *)
Theorem client_confirms `{GCMLaws} `{RSALib} `{FileSystem} `{Network} log ip st c data x s :
  zlen (p_key st) = 32 -> zlen (p_iv st) = 16 -> zlen (p_bufout st) = SZ_BUF ->
  com_wf c -> com_ifroute c = msg_route G_NTF_CLI -> zlen data + 117 <= SZ_BUF ->
  cstr_at (com_bytes c ++ data) SZ_COM = Ok x ->
  com_dev_id c = id_field s -> no_nul s -> zlen s < LEN_DEVID ->
  0 <= socket_rc -> (forall m, log m = Ok tt) ->
  let back := com_bytes {| com_type := com_type c; com_ifroute := msg_route G_CLI_NTF;
                           com_dev_id := com_dev_id c; com_ntf_id := com_ntf_id c;
                           com_second := com_second c; com_nano := com_nano c;
                           com_len := zeros 2 |} in
  exists st',
    client_recv log ip st (Some (frame (p_key st) (p_iv st) (com_bytes c ++ data)))
    = Ok (st', [(srv_addr ip PORT, frame (p_key st) (p_iv st) back)]) /\
    p_key st' = p_key st /\ p_iv st' = p_iv st /\ p_got_aes st' = p_got_aes st.
Proof.
  intros Hk Hv Hb W Hro Hl Hx Hdev Hn Hsl Hsock Hlog back.
  pose proof (com_bytes_length c W) as Hc. pose proof (zlen_nonneg data).
  unfold SZ_COM, SZ_BUF, MAX_MSG in Hc, Hl. set (pt := com_bytes c ++ data) in *.
  assert (Hpt : zlen pt = 100 + zlen data) by (unfold pt; rewrite zlen_app; lia).
  pose proof (zlen_frame (p_key st) (p_iv st) pt) as Hf.
  unfold client_recv. rewrite recvfrom_ok by (unfold SZ_BUF, MAX_MSG; lia).
  rewrite Hf. unfold SZ_COM at 1. decide_cmp.
  assert (He : rd1 (frame (p_key st) (p_iv st) pt ++ zeros (SZ_BUF - (zlen pt + 17)))
                 (zlen pt + 17 - 1) = Ok (rsa_aes ENCRYPT_AES))
    by (rewrite <- Hf, frame_split; apply last_frame).
  rewrite He. cbn [mbind res_bind].
  rewrite peer_decrypt_aes by (try done; unfold SZ_BUF, MAX_MSG; lia).
  cbn [mbind res_bind]. set (b := pt ++ drop (length pt) (p_bufout st)).
  assert (Hx' : cstr_at b SZ_COM = Ok x).
  { apply cstr_at_rd in Hx as [Hxn Hx]. apply cstr_at_rd. split; [done|]. by apply rd_app_l. }
  rewrite Hx'. cbn [mbind res_bind]. clear Hx Hx'.
  set (tl := data ++ drop (length pt) (p_bufout st)).
  assert (Hbo : b = obj (com_type c) (com_ifroute c) (com_dev_id c) (com_ntf_id c)
    (com_second c) (com_nano c) (com_len c) tl)
    by (unfold b, pt, tl; by rewrite <- app_assoc, com_obj).
  rewrite Hbo, Hro. change (rd1 (obj _ (msg_route G_NTF_CLI) _ _ _ _ _ _) off_ifroute)
    with (Ok (msg_route G_NTF_CLI)). cbn [mbind res_bind].
  change (rd1 (obj (com_type c) _ _ _ _ _ _ _) off_type) with (Ok (com_type c)).
  cbn [mbind res_bind]. change (is_route (msg_route G_NTF_CLI) G_NTF_CLI) with true. cbv iota.
  rewrite Hlog. cbn [mbind res_bind]. rewrite obj_route by exact W. cbn [mbind res_bind].
  rewrite obj_len by done. cbn [mbind res_bind].
  change (zeros LEN_U16INT) with (zeros 2).
  assert (Hback : obj (com_type c) (msg_route G_CLI_NTF) (com_dev_id c) (com_ntf_id c)
    (com_second c) (com_nano c) (zeros 2) tl = back ++ tl) by (unfold back; apply obj_com).
  assert (Hbk : zlen back = SZ_COM)
    by (unfold back; apply com_bytes_length; destruct W as (? & ? & ? & ? & ?); by repeat split).
  rewrite !Hback. cbn [p_set_bufout p_key p_iv].
  destruct (send_msg_fb_ok ip (p_key st) (p_iv st) back tl) as (rc & ->); [lia|lia|done|done|].
  cbn [mbind res_bind].
  rewrite <- Hback, Hdev, obj_dev_id by done. cbn [mbind res_bind].
  eexists. split; [reflexivity|]. done.
Qed.

(** ** The properties at concrete peers *)

(** The device of the examples holds the key [K], the server [S]. *)
Definition toy_peer : peer := peer_init 0 (zeros SZ_BUF).

Lemma toy_log_ok m : (fun _ : list byte => Ok tt) m = Ok tt.
Proof. reflexivity. Qed.


Lemma notifier_datagram_witness :
  exists p, @notifier toy_evp toy_net (fun _ => Ok tt) toy_peer (id_field sample_id)
      (id_field sample_ntf) [] (zero_clock 0) = Ok [(srv_addr [] PORT, p)] /\
    zlen p = SZ_BUF /\
    p = ntf_msg sample_id sample_ntf (zero_clock 0) ++ [rsa_aes ENCRYPT_NON].
Proof.
  apply (@notifier_datagram toy_evp toy_gcm toy_net (fun _ => Ok tt) toy_peer sample_id
    sample_ntf [] (zero_clock 0));
    first [exact toy_log_ok | repeat constructor; discriminate | vm_side].
Defined.

Lemma client_confirms_witness :
  exists st', @client_recv toy_rsa toy_evp toy_keys toy_net (fun _ => Ok tt) [] toy_peer
      (Some (frame (p_key toy_peer) (p_iv toy_peer)
               (sample_msg MSG_NTF G_NTF_CLI ++ str "hello" ++ [x00])))
    = Ok (st', [(srv_addr [] PORT,
                 frame (p_key toy_peer) (p_iv toy_peer) (sample_msg MSG_NTF G_CLI_NTF))]) /\
    p_key st' = p_key toy_peer /\ p_iv st' = p_iv toy_peer /\ p_got_aes st' = false.
Proof.
  apply (@client_confirms toy_evp toy_gcm toy_rsa toy_keys toy_net (fun _ => Ok tt) [] toy_peer
    (sample_com MSG_NTF G_NTF_CLI) (str "hello" ++ [x00]) (str "hello") sample_id);
    first [exact toy_log_ok | repeat constructor; discriminate | vm_side].
Defined.
