(* ===== verification/GenList.v ===== *)
(** * The growing byte list of gen_list.c

    Models [add_item_traffic], [add_item_gen_list] and [get_data_gen_list] of
    src/notify.system/gen_list.c.  The list is one allocation: three members and, from
    offset 20 on, the data.  The mutex makes each call atomic. *)
From S2P Require Import Prelude OpenSSL KeyFiles Toy.

Definition GEN_LIST_STEP : Z := 32768.
(** [sizeof(GEN_LIST)] is padded to 24 bytes; [data] starts at 20. *)
Definition SZ_GEN_LIST : Z := 24.
Definition OFF_GEN_DATA : Z := 20.

Record GEN_LIST := { g_total : Z; g_used_data : Z; g_sz_item : Z; g_data : list byte }.

(** Conversion to [int]. *)
Definition as_int (v : Z) : Z := (v + 2 ^ 31) mod 2 ^ 32 - 2 ^ 31.

(** [while( up_size < (n+1)) up_size += GEN_LIST_STEP;] *)
Fixpoint grow (fuel : nat) (up_size n : Z) : res Z :=
  match fuel with
  | O => Fault NoFuel
  | S fuel' => if up_size <? n + 1 then grow fuel' (wrap 64 (up_size + GEN_LIST_STEP)) n
               else Ok up_size
  end.

Section GenList.
Context `{HP : Heap}.

(** [p] points to the caller's pointer; the return value is 0 or -1. *)
Definition add_item_traffic (p : option (option GEN_LIST)) (item : option (list byte))
    (sz : Z) (sig : option Z) : res (Z * option (option GEN_LIST) * option Z) :=
  if sz <? 1 then Ok (-1, p, sig)
  else
    match item, p with
    | None, _ | _, None => Ok (-1, p, sig)
    | Some item, Some gp =>
      let '(t, sig) :=
        match gp with
        | Some t => (t, sig)
        | None => ({| g_total := GEN_LIST_STEP; g_used_data := 0; g_sz_item := 0;
                      g_data := zeros (GEN_LIST_STEP - OFF_GEN_DATA) |}, store_out sig 1)
        end in
      let sig := if g_used_data t =? 0 then store_out sig 1 else sig in
      let n := wrap 64 (g_used_data t + SZ_GEN_LIST + sz) in
      t ← (if g_total t <? n + 1 then
             up_size ← grow (S (Z.to_nat n)) (g_total t + GEN_LIST_STEP) n;
             Ok {| g_total := up_size; g_used_data := g_used_data t;
                   g_sz_item := g_sz_item t;
                   g_data := realloc_obj (g_data t) (up_size - OFF_GEN_DATA) |}
           else Ok t);
      s ← rd item 0 sz;
      d ← wr (g_data t) (g_used_data t) s;
      Ok (0, Some (Some {| g_total := g_total t; g_used_data := g_used_data t + sz;
                           g_sz_item := g_sz_item t; g_data := d |}), sig)
    end.

(** The result is that of the mutex: a failed addition is printed and forgotten. *)
Definition add_item_gen_list (p : option (option GEN_LIST)) (item : option (list byte))
    (n : Z) (sig : option Z) : res (Z * option (option GEN_LIST) * option Z) :=
  '(_, p, sig) ← add_item_traffic p item n sig; Ok (0, p, sig).

(** [*data] is a fresh buffer with a zero behind the bytes. *)
Definition get_data_gen_list (p : option GEN_LIST) (data : option (option (list byte)))
    : res (Z * option GEN_LIST * option (option (list byte))) :=
  match p, data with
  | None, _ | _, None => Ok (0, p, data)
  | Some g, Some _ =>
    let n := as_int (g_used_data g) in
    if n =? 0 then Ok (0, p, data)
    else
      t ← MY_MALLOC (n + 1);
      s ← rd (g_data g) 0 n;
      t ← wr t 0 s;
      Ok (n, Some {| g_total := g_total g; g_used_data := 0; g_sz_item := g_sz_item g;
                     g_data := g_data g |}, Some (Some t))
  end.

(** A sequence of calls by the threads that share the list: the list, and the bytes the
    readers got. *)
Inductive gen_op := Add (item : list byte) | Get.
Definition gen_do (o : gen_op) (g : option GEN_LIST) : res (option GEN_LIST * list byte) :=
  match o with
  | Add item =>
    '(_, p, _) ← add_item_gen_list (Some g) (Some item) (zlen item) None;
    Ok (default None p, [])
  | Get =>
    '(n, g, d) ← get_data_gen_list g (Some None);
    match default None d with
    | Some d => s ← rd d 0 n; Ok (g, s)
    | None => Ok (g, [])
    end
  end.
Fixpoint gen_run (ops : list gen_op) (g : option GEN_LIST) : res (option GEN_LIST * list byte) :=
  match ops with
  | [] => Ok (g, [])
  | o :: ops =>
    '(g, s) ← gen_do o g;
    '(g, s') ← gen_run ops g;
    Ok (g, s ++ s')
  end.

(** ** The abstract queue *)

Definition gen_abs (g : option GEN_LIST) : list byte :=
  match g with
  | Some g => take (Z.to_nat (g_used_data g)) (g_data g)
  | None => []
  end.
(** The bytes fit with the spare the code keeps, and the allocation has the size noted. *)
Definition gen_ok (g : option GEN_LIST) : Prop :=
  match g with
  | Some g => 0 <= g_used_data g /\ g_used_data g + SZ_GEN_LIST < g_total g /\
              zlen (g_data g) = g_total g - OFF_GEN_DATA /\ g_total g <= 2 ^ 40
  | None => True
  end.

Lemma grow_ok fuel up n :
  0 <= up <= 2 ^ 41 -> n < 2 ^ 40 -> n + 1 - up <= Z.of_nat fuel * GEN_LIST_STEP ->
  exists u, grow (S fuel) up n = Ok u /\ n + 1 <= u /\ u <= Z.max up (n + 1 + GEN_LIST_STEP).
Proof.
  unfold GEN_LIST_STEP. revert up. induction fuel as [|fuel IH]; intros up Hu Hn Hf.
  - cbn [grow]. decide_cmp. exists up. split; [done|]. lia.
  - change (grow (S (S fuel)) up n) with
      (if up <? n + 1 then grow (S fuel) (wrap 64 (up + 32768)) n else Ok up).
    destruct (up <? n + 1) eqn:E; b2p.
    + unfold wrap. rewrite Z.mod_small by lia.
      destruct (IH (up + 32768)) as (u & -> & H1 & H2); [lia..|].
      exists u. split; [done|]. lia.
    + exists up. split; [done|]. lia.
Qed.

(** The list as it is after the first two steps of an addition: allocated. *)
Definition gen_start (g : option GEN_LIST) : GEN_LIST :=
  match g with
  | Some t => t
  | None => {| g_total := GEN_LIST_STEP; g_used_data := 0; g_sz_item := 0;
               g_data := zeros (GEN_LIST_STEP - OFF_GEN_DATA) |}
  end.

Lemma gen_start_ok g : gen_ok g -> gen_ok (Some (gen_start g)) /\ gen_abs (Some (gen_start g)) = gen_abs g.
Proof.
  destruct g as [t|]; [done|]. intros _. split; [|done].
  unfold gen_ok, gen_start, SZ_GEN_LIST, GEN_LIST_STEP, OFF_GEN_DATA.
  cbn [g_used_data g_total g_data]. rewrite zlen_zeros by done. repeat split; lia.
Qed.

(** Making room keeps the content. *)
Lemma gen_room t sz :
  gen_ok (Some t) -> 1 <= sz -> g_used_data t + sz < 2 ^ 39 ->
  exists t', (let n := wrap 64 (g_used_data t + SZ_GEN_LIST + sz) in
      if g_total t <? n + 1 then
        up_size ← grow (S (Z.to_nat n)) (g_total t + GEN_LIST_STEP) n;
        Ok {| g_total := up_size; g_used_data := g_used_data t;
              g_sz_item := g_sz_item t;
              g_data := realloc_obj (g_data t) (up_size - OFF_GEN_DATA) |}
      else Ok t) = Ok t' /\
    gen_ok (Some t') /\ gen_abs (Some t') = gen_abs (Some t) /\
    g_used_data t' = g_used_data t /\ g_used_data t + SZ_GEN_LIST + sz < g_total t'.
Proof.
  unfold gen_ok, SZ_GEN_LIST. intros (H0 & H1 & H2 & H3) Hs Hl. cbv zeta.
  unfold wrap. rewrite Z.mod_small by lia.
  destruct (g_total t <? g_used_data t + 24 + sz + 1) eqn:E; b2p.
  2: { exists t. split; [done|]. repeat split; try done; lia. }
  destruct (grow_ok (Z.to_nat (g_used_data t + 24 + sz)) (g_total t + GEN_LIST_STEP)
    (g_used_data t + 24 + sz)) as (u & -> & Hu1 & Hu2); [unfold GEN_LIST_STEP; lia..|].
  cbn [mbind res_bind]. eexists. split; [done|].
  unfold GEN_LIST_STEP, OFF_GEN_DATA in *. cbn [g_used_data g_total g_data gen_abs].
  split; [rewrite realloc_obj_length by lia; lia|].
  split; [|split; [done|lia]]. rewrite realloc_obj_grow by lia.
  apply take_app_le. unfold zlen in H2. lia.
Qed.

Lemma add_traffic_ok g item sz sig :
  gen_ok g -> 1 <= sz <= zlen item -> zlen (gen_abs g) + sz < 2 ^ 39 ->
  exists g' sig', add_item_traffic (Some g) (Some item) sz sig = Ok (0, Some (Some g'), sig') /\
    gen_ok (Some g') /\ gen_abs (Some g') = gen_abs g ++ take (Z.to_nat sz) item.
Proof.
  intros Hg Hs Hl. destruct (gen_start_ok g Hg) as [Hg' Ha]. rewrite <- Ha in Hl |- *.
  unfold add_item_traffic. decide_cmp.
  assert (Hst : exists sg, (match g with
    | Some t => (t, sig)
    | None => ({| g_total := GEN_LIST_STEP; g_used_data := 0; g_sz_item := 0;
                  g_data := zeros (GEN_LIST_STEP - OFF_GEN_DATA) |}, store_out sig 1)
    end) = (gen_start g, sg)) by (destruct g; eauto).
  destruct Hst as [sg ->]. set (t := gen_start g) in *. clearbody t.
  assert (Hu : zlen (gen_abs (Some t)) = g_used_data t).
  { destruct Hg' as (? & ? & Hd & _). cbn [gen_abs].
    unfold zlen, SZ_GEN_LIST, OFF_GEN_DATA in *. rewrite length_take. lia. }
  destruct (gen_room t sz Hg') as (t' & Ht & Hok & Hab & Hused & Hroom); [lia..|].
  cbv zeta in Ht |- *. rewrite Ht. cbn [mbind res_bind]. rewrite rd_head by lia.
  cbn [mbind res_bind]. destruct Hok as (H0 & H1 & H2 & H3).
  assert (Hz : zlen (take (Z.to_nat sz) item) = sz) by len.
  unfold SZ_GEN_LIST, OFF_GEN_DATA in *.
  destruct (wr_some (g_data t') (g_used_data t') (take (Z.to_nat sz) item)) as (d & Hd & Hdz);
    [lia..|].
  rewrite Hd. cbn [mbind res_bind]. eexists _, _. split; [done|].
  apply wr_inv in Hd as (_ & _ & _ & ->). cbn [gen_ok gen_abs g_used_data g_total g_data] in *.
  unfold SZ_GEN_LIST, OFF_GEN_DATA. split; [rewrite Hdz; lia|].
  rewrite <- Hab. rewrite app_assoc. apply take_app_length'.
  rewrite length_app, length_take. unfold zlen in *. lia.
Qed.

Lemma get_data_ok g :
  gen_ok g -> zlen (gen_abs g) < 2 ^ 31 - 1 ->
  exists g' d, get_data_gen_list g (Some None) = Ok (zlen (gen_abs g), g', Some d) /\
    gen_ok g' /\ gen_abs g' = [] /\
    d = (if zlen (gen_abs g) =? 0 then None else Some (gen_abs g ++ [x00])).
Proof.
  intros Hg Hl. destruct g as [t|]; [|by eexists _, _].
  assert (Hu : zlen (gen_abs (Some t)) = g_used_data t).
  { destruct Hg as (? & ? & Hd & _). cbn [gen_abs].
    unfold zlen, SZ_GEN_LIST, OFF_GEN_DATA in *. rewrite length_take. lia. }
  destruct Hg as (H0 & H1 & H2 & H3). unfold get_data_gen_list. rewrite Hu in *.
  assert (Hi : as_int (g_used_data t) = g_used_data t)
    by (unfold as_int; rewrite Z.mod_small; lia).
  rewrite Hi. destruct (g_used_data t =? 0) eqn:E; b2p.
  - eexists _, _. split; [by rewrite E|]. split; [done|]. split; [|done].
    cbn [gen_abs]. by rewrite E.
  - rewrite MY_MALLOC_ok by lia. cbn [mbind res_bind]. unfold SZ_GEN_LIST, OFF_GEN_DATA in *.
    rewrite rd_head by lia. cbn [mbind res_bind gen_abs].
    assert (Hz : zlen (take (Z.to_nat (g_used_data t)) (g_data t)) = g_used_data t) by len.
    rewrite wr_zeros by lia. cbn [mbind res_bind]. rewrite Hz.
    replace (_ + 1 - _) with 1 by lia. eexists _, _. split; [done|].
    split; [|split; [done|done]]. cbn [gen_ok g_used_data g_total g_data].
    unfold SZ_GEN_LIST, OFF_GEN_DATA. lia.
Qed.

Definition gen_in (ops : list gen_op) : list byte :=
  List.concat (map (fun o => match o with Add item => item | Get => [] end) ops).

Lemma gen_run_ok ops g :
  gen_ok g -> Forall (fun o => match o with Add item => item <> [] | Get => True end) ops ->
  zlen (gen_abs g) + zlen (gen_in ops) < 2 ^ 31 - 1 ->
  exists g' out, gen_run ops g = Ok (g', out) /\ gen_ok g' /\
    out ++ gen_abs g' = gen_abs g ++ gen_in ops.
Proof.
  revert g. induction ops as [|o ops IH]; intros g Hg Hops Hl.
  { exists g, []. cbn. by rewrite app_nil_r. }
  inversion Hops as [|? ? Ho Hops']; subst. unfold gen_in in Hl |- *. cbn [map List.concat] in Hl |- *.
  fold (gen_in ops) in Hl |- *. cbn [gen_run]. destruct o as [item|]; cbn [gen_do].
  - rewrite zlen_app in Hl. pose proof (zlen_nonneg (gen_in ops)).
    assert (1 <= zlen item) by (destruct item; [done|rewrite zlen_cons; pose proof (zlen_nonneg item); lia]).
    destruct (add_traffic_ok g item (zlen item) None Hg) as (g1 & sg & Ha & Hg1 & Hab); [lia..|].
    unfold add_item_gen_list. rewrite Ha. cbn [mbind res_bind default from_option id].
    assert (Ht : take (Z.to_nat (zlen item)) item = item) by (apply take_ge; unfold zlen; lia).
    rewrite Ht in Hab. destruct (IH (Some g1) Hg1 Hops') as (g' & out & Hr & Hg' & Hout).
    { rewrite Hab, zlen_app. lia. }
    rewrite Hr. cbn [mbind res_bind]. exists g', out. split; [done|]. split; [done|].
    by rewrite Hout, Hab, <- app_assoc.
  - cbn [app] in Hl |- *. pose proof (zlen_nonneg (gen_in ops)).
    destruct (get_data_ok g Hg) as (g1 & d & Hd & Hg1 & Hab & Hdd); [lia|].
    rewrite Hd. cbn [mbind res_bind default from_option id].
    destruct (IH g1 Hg1 Hops') as (g' & out & Hr & Hg' & Hout).
    { rewrite Hab. change (zlen []) with 0. pose proof (zlen_nonneg (gen_abs g)). lia. }
    assert (Hread : exists s, (match d with
        | Some d => s ← rd d 0 (zlen (gen_abs g)); Ok (g1, s)
        | None => Ok (g1, []) end) = Ok (g1, s) /\ s = gen_abs g).
    { destruct (zlen (gen_abs g) =? 0) eqn:E; b2p; subst d.
      - exists []. split; [done|]. destruct (gen_abs g); [done|].
        rewrite zlen_cons in E. pose proof (zlen_nonneg l). lia.
      - rewrite (rd_part _ [] (gen_abs g) [x00]) by done. cbn. eauto. }
    destruct Hread as (s & Hs & ->). rewrite Hs. cbn [mbind res_bind]. rewrite Hr.
    cbn [mbind res_bind]. eexists _, _. split; [done|]. split; [done|].
    rewrite <- app_assoc, Hout, Hab. done.
Qed.
End GenList.

(** ** Properties *)

(** C30: the shared byte list is a queue: whatever the order of additions and readings, from
    any state the code can be in, every call succeeds, no byte is written outside the
    allocation, and what the readers got followed by what is still in the list is exactly
    what was in the list followed by what was added, in order. *)
Theorem gen_list_fifo `{Heap} ops g :
  gen_ok g -> Forall (fun o => match o with Add item => item <> [] | Get => True end) ops ->
  zlen (gen_abs g) + zlen (gen_in ops) < 2 ^ 31 - 1 ->
  exists g' out, gen_run ops g = Ok (g', out) /\ gen_ok g' /\
    out ++ gen_abs g' = gen_abs g ++ gen_in ops.
Proof. apply gen_run_ok. Qed.

Lemma gen_list_fifo_witness :
  exists g' out,
    @gen_run (toy_heap true) [Add (str "one"); Add (str "two"); Get; Add (str "three")] None
    = Ok (g', out) /\ gen_ok g' /\ out ++ gen_abs g' = str "onetwothree".
Proof.
  apply (@gen_list_fifo (toy_heap true) [Add (str "one"); Add (str "two"); Get; Add (str "three")]
    None); [exact I|repeat constructor; discriminate|vm_side].
Defined.
