(* ===== verification/SharedData.v ===== *)
(** * The buffer in shared memory

    Models src/common/shared_data.c and the three programs of src/shared_data: the writer
    (main.write.c), the reader (main.read.c) and main.stop.c.  The segment is its header
    members and the data behind them.  The code is built with one of four kinds of lock;
    they differ only in the primitive called, so a lock is the error [errx] the primitive
    returns, 0 when the critical section is entered.  A process keeps [ntt_data_shm],
    [count_should_exit] and the static [pidd] of the reader. *)
From stdpp Require Import gmap relations.
From S2P Require Import Prelude Message OpenSSL KeyFiles GenList.

(** Sizes on x86-64 with the GNU C library: the header ends at 286 and is padded. *)
Definition SZ_SHARED : Z := 288.
Definition OFF_SHARED_DATA : Z := 286.
Definition LIST_SHARED_DATA_SZ : Z := 2 * 1024 * 1024.
Definition SZ_SHARED_ITEM : Z := 48.

Record LIST_SHARED_DATA := {
  s_total : Z;                   (* unsigned long long *)
  s_used_data : Z;               (* unsigned long long *)
  s_read_pid : Z;
  s_should_exit : Z;
  s_sleeping : Z;
  s_data : list byte
}.
Definition set_s_data (p : LIST_SHARED_DATA) (used : Z) (d : list byte) (slp : Z)
    : LIST_SHARED_DATA :=
  {| s_total := s_total p; s_used_data := used; s_read_pid := s_read_pid p;
     s_should_exit := s_should_exit p; s_sleeping := slp; s_data := d |}.
Definition set_s_pid (p : LIST_SHARED_DATA) (pid : Z) : LIST_SHARED_DATA :=
  {| s_total := s_total p; s_used_data := s_used_data p; s_read_pid := pid;
     s_should_exit := s_should_exit p; s_sleeping := s_sleeping p; s_data := s_data p |}.
Definition set_s_exit (p : LIST_SHARED_DATA) (v : Z) : LIST_SHARED_DATA :=
  {| s_total := s_total p; s_used_data := s_used_data p; s_read_pid := s_read_pid p;
     s_should_exit := v; s_sleeping := s_sleeping p; s_data := s_data p |}.

(** ** Opening and leaving the segment *)

(** [ftruncate] to [sz] bytes: the data behind the header is cut or filled with zeros. *)
Definition ftruncate (p : LIST_SHARED_DATA) (sz : Z) : LIST_SHARED_DATA :=
  let k := Z.to_nat (sz - OFF_SHARED_DATA) in
  set_s_data p (s_used_data p) (take k (s_data p) ++ replicate (k - length (s_data p)) x00)
    (s_sleeping p).

(** A fresh segment: what [ftruncate] leaves, all zero, but for [total]. *)
Definition shm_fresh (sz total : Z) : LIST_SHARED_DATA :=
  {| s_total := total; s_used_data := 0; s_read_pid := 0; s_should_exit := 0; s_sleeping := 0;
     s_data := zeros (sz - OFF_SHARED_DATA) |}.

(** The four builds, and their initialisation of one lock, [rc] being what the primitive
    returns: three check the pointer and answer a line number, [sem_init] its own result. *)
Inductive lock_kind := Mutex | RWLock | Semaphore | SpinLock.
Definition init_shm_mtx (null : bool) (rc : Z) : Z :=
  if null then 221 else if negb (rc =? 0) then 231 else rc.
Definition init_rwlock (null : bool) (rc : Z) : Z :=
  if null then 248 else if negb (rc =? 0) then 257 else rc.
Definition init_spin_lock (null : bool) (rc : Z) : Z :=
  if null then 273 else if negb (rc =? 0) then 279 else rc.
Definition lock_init (k : lock_kind) (rc : Z) : Z :=
  match k with
  | Mutex => init_shm_mtx false rc
  | RWLock => init_rwlock false rc
  | Semaphore => rc
  | SpinLock => init_spin_lock false rc
  end.

(** What the operating system answers: whether [shm_open] succeeds, what [mmap] returns
    ([None] for MAP_FAILED, [Some false] for a null pointer), the two lock primitives. *)
Record os_open := { os_shm : bool; os_map : option bool; os_lock1 : Z; os_lock2 : Z }.

(** [init_service]: the error (a line number where the code uses [__LINE__]), the segment
    in the system afterwards and whether the caller's pointer was set. *)
Definition init_service (k : lock_kind) (os : os_open) (seg : option LIST_SHARED_DATA)
    (out : bool) (sz : Z) : Z * option LIST_SHARED_DATA * bool :=
  if negb out then (97, seg, false)
  else if negb (os_shm os) then (112, seg, false)
  else
    let create := match seg with None => true | Some _ => false end in
    let p := match seg with Some p => ftruncate p sz | None => shm_fresh sz 0 end in
    match os_map os with
    | None => (123, Some p, false)
    | Some false => (129, Some p, false)
    | Some true =>
      if negb create then (0, Some p, true)
      else
        let p := shm_fresh sz sz in
        let err := lock_init k (os_lock1 os) in
        if negb (err =? 0) then (err, Some p, true)
        else (lock_init k (os_lock2 os), Some p, true)
    end.

(** The pointer [ntt_data_shm] of a process. *)
Inductive shm_ptr := ShmNull | ShmMapped | ShmGone.
#[global] Instance shm_ptr_eq_dec : EqDecision shm_ptr.
Proof. solve_decision. Defined.

(** Returns whether a pointer is returned. *)
Definition ntt_open_shm (k : lock_kind) (os : os_open) (seg : option LIST_SHARED_DATA) (ptr : shm_ptr)
    (n : Z) : bool * option LIST_SHARED_DATA * shm_ptr :=
  let '(err, seg, set) := init_service k os seg true n in
  (err =? 0, seg, if (set : bool) then ShmMapped else ptr).

(** [path] is the constant name and never null, so [shm_unlink] is not reached; the pointer
    keeps its value over [munmap]. *)
Definition ntt_unlink_shm (seg : option LIST_SHARED_DATA) (ptr : shm_ptr) (munmap_rc : Z)
    : Z * option LIST_SHARED_DATA * shm_ptr :=
  match ptr with
  | ShmNull => (0, seg, ShmNull)
  | _ => (munmap_rc, seg, ShmGone)
  end.

(** Using [ntt_data_shm]. *)
Definition shm_deref (ptr : shm_ptr) (seg : option LIST_SHARED_DATA) : res LIST_SHARED_DATA :=
  match ptr with
  | ShmNull => Fault NullDeref
  | ShmGone => Fault DeadObject
  | ShmMapped => match seg with Some p => Ok p | None => Fault DeadObject end
  end.

(** ** Writing *)

Definition ntt_write_shm (errx : Z) (p : option LIST_SHARED_DATA) (data : option (list byte))
    (n : Z) (sendsig pcid : option Z)
    : res (Z * option LIST_SHARED_DATA * option Z * option Z) :=
  match data, p with
  | None, _ => Ok (-1, p, sendsig, pcid)
  | Some _, None => Ok (-2, None, sendsig, pcid)
  | Some data, Some q =>
    if n <? 1 then Ok (0, p, sendsig, pcid)
    else if negb (errx =? 0) then Ok (0, p, sendsig, pcid)
    else
      let send_signal := s_sleeping q in
      let '(sendsig, pcid) :=
        match sendsig, pcid with
        | Some _, Some _ =>
          if negb (send_signal =? 0) then (Some send_signal, Some (s_read_pid q))
          else (sendsig, pcid)
        | _, _ => (sendsig, pcid)
        end in
      let used :=
        if s_total q <=? wrap 64 (n + s_used_data q + SZ_SHARED) then 0 else s_used_data q in
      s ← rd data 0 n;
      d ← wr (s_data q) used s;
      Ok (as_int (used + n), Some (set_s_data q (used + n) d (s_sleeping q)), sendsig, pcid)
  end.

(** ** Reading *)

(** [pidd] is the static variable, [self] what [getpid] returns. *)
Definition ntt_read_shm (errx : Z) (malloc_ok : bool) (self pidd : Z)
    (p : option LIST_SHARED_DATA) (data : option (option (list byte)))
    : res (Z * option LIST_SHARED_DATA * option (option (list byte)) * Z) :=
  match data, p with
  | None, _ => Ok (-1, p, None, pidd)
  | Some _, None => Ok (-2, None, data, pidd)
  | Some _, Some q =>
    let '(q, pidd) := if pidd =? 0 then (set_s_pid q self, self) else (q, pidd) in
    if negb (errx =? 0) then Ok (0, Some q, Some None, pidd)
    else
      let n := as_int (s_used_data q) in
      if n <? 1 then
        Ok (0, Some (set_s_data q (s_used_data q) (s_data q) 1), Some None, pidd)
      else if negb malloc_ok then Ok (0, Some q, Some None, pidd)
      else
        s ← rd (s_data q) 0 n;
        tmp ← wr (zeros (n + 1)) 0 s;
        d ← wr (s_data q) 0 [x00];
        Ok (n, Some (set_s_data q 0 d 0), Some (Some tmp), pidd)
  end.

(** ** Stopping *)

(** The return value, and [count_should_exit] afterwards. *)
Definition check_exiit (p : LIST_SHARED_DATA) (count : Z) (increase : bool) : Z * Z :=
  if s_should_exit p =? 0 then (0, count)
  else if increase then (count + 1, count + 1)
  else
    let count := if count =? 0 then count + 1 else count in (count, count).

Definition set_exit_group (p : LIST_SHARED_DATA) (val : Z) : LIST_SHARED_DATA := set_s_exit p val.

Definition get_read_pid (errx : Z) (p : option LIST_SHARED_DATA) : Z :=
  match p with
  | None => 0
  | Some q => if errx =? 0 then s_read_pid q else 0
  end.

(** [ntt_lock] and [ntt_unlock] are the primitives on the frame lock. *)
Definition ntt_lock (errx : Z) : Z := errx.
Definition ntt_unlock (errx : Z) : Z := errx.
Definition set_read_pid (lock_rc unlock_rc : Z) (p : option LIST_SHARED_DATA) (pid : Z)
    : Z * option LIST_SHARED_DATA :=
  match p with
  | None => (-1, None)
  | Some q => if ntt_lock lock_rc =? 0 then (ntt_unlock unlock_rc, Some (set_s_pid q pid))
              else (ntt_lock lock_rc, p)
  end.

(** ** The programs *)

(** One round of [read_body_thread]: [None] when the loop is left, otherwise what was read
    (empty: the thread sleeps a second). *)
Definition read_round (errx : Z) (malloc_ok : bool) (self pidd count : Z)
    (p : LIST_SHARED_DATA) : res (option (LIST_SHARED_DATA * list byte * Z) * Z) :=
  let '(n, count) := check_exiit p count true in
  if negb (n =? 0) then Ok (None, count)
  else
    '(n, q, dta, pidd) ← ntt_read_shm errx malloc_ok self pidd (Some p) (Some None);
    s ← match default None dta with Some d => rd d 0 n | None => Ok [] end;
    Ok (Some (default p q, s, pidd), count).

(** The main thread of the reader leaves its loop after a signal when this is true. *)
Definition read_main_exit (p : LIST_SHARED_DATA) (count : Z) : bool * Z :=
  let '(n, count) := check_exiit p count false in (1 <=? n, count).

(** The handler of SIGALRM: the reading thread is signalled unless the sender is the
    process itself. *)
Definition handler (main_pid si_pid : Z) : bool := negb (main_pid =? si_pid).

(** main.write.c: the item is the time, with a protocol that is left zero. *)
Definition shared_item (t : timespec) : list byte :=
  le_bytes 8 (tv_sec t) ++ le_bytes 8 (tv_nsec t) ++ zeros 32.

(** The writes of one round (the code does 1000, one for each reading of the clock): each
    sets [sendsig] and [read_pid] anew. *)
Fixpoint write_items (clock : list timespec) (p : LIST_SHARED_DATA) (sig : Z * Z)
    : res (LIST_SHARED_DATA * (Z * Z)) :=
  match clock with
  | [] => Ok (p, sig)
  | t :: clock =>
    '(_, q, s, r) ← ntt_write_shm 0 (Some p) (Some (shared_item t)) SZ_SHARED_ITEM
                      (Some 0) (Some 0);
    write_items clock (default p q) (default 0 s, default 0 r)
  end.
(** The process that is signalled at the end of a round. *)
Definition round_signal (sig : Z * Z) : option Z :=
  let '(sendsig, read_pid) := sig in
  if negb (sendsig =? 0) && negb (read_pid =? 0) then Some read_pid else None.
(** The segment, the process that is signalled, and whether the writer stops. *)
Definition write_round (clock : list timespec) (p : LIST_SHARED_DATA) (count : Z)
    : res (LIST_SHARED_DATA * option Z * bool * Z) :=
  '(p, (sendsig, read_pid)) ← write_items clock p (0, 0);
  let sig := round_signal (sendsig, read_pid) in
  let '(n, count) := check_exiit p count false in
  Ok (p, sig, 1 <=? n, count).

(** main.stop.c: the argument [1] or none stops the group; the reader is signalled. *)
Definition stop_main (errx : Z) (arg : option (list byte)) (p : LIST_SHARED_DATA)
    : res (LIST_SHARED_DATA * option Z) :=
  val ← match arg with
        | None => Ok 1
        | Some a => c ← rd1 (a ++ [x00]) 0; Ok (if b2z c =? 49 then 1 else 0)
        end;
  let p := set_exit_group p val in
  let pid := get_read_pid errx (Some p) in
  Ok (p, if negb (pid =? 0) then Some pid else None).

(** A sequence of writes and reads by the processes that share the segment: the segment and
    what the readers got. *)
Inductive shm_op := Write (item : list byte) | Read (self pidd : Z).
Definition shm_do (o : shm_op) (p : LIST_SHARED_DATA) : res (LIST_SHARED_DATA * list byte) :=
  match o with
  | Write item =>
    '(_, q, _, _) ← ntt_write_shm 0 (Some p) (Some item) (zlen item) None None;
    Ok (default p q, [])
  | Read self pidd =>
    '(n, q, dta, _) ← ntt_read_shm 0 true self pidd (Some p) (Some None);
    s ← match default None dta with Some d => rd d 0 n | None => Ok [] end;
    Ok (default p q, s)
  end.
Fixpoint shm_run (ops : list shm_op) (p : LIST_SHARED_DATA) : res (LIST_SHARED_DATA * list byte) :=
  match ops with
  | [] => Ok (p, [])
  | o :: ops =>
    '(p, s) ← shm_do o p;
    '(p, s') ← shm_run ops p;
    Ok (p, s ++ s')
  end.

(** ** Readers and writers side by side

    One process of main.read.c, from the registration of its handler, and the processes of
    main.write.c, while nobody asks them to stop.  Each operation on the segment is one step, since it holds the lock.  Between an
    operation that found nothing and [sleep] the reading thread holds no lock: it is [Dozing].
    SIGALRM does not queue: it is pending for the process or not, with the process that sent
    it first, and it is pending for the reading thread or not. *)
Inductive reader_place := Turning | Dozing | Asleep.
#[global] Instance reader_place_eq_dec : EqDecision reader_place.
Proof. solve_decision. Defined.
Definition WRITES : nat := 1000.
Record sharing := {
  sh_seg : LIST_SHARED_DATA;
  sh_place : reader_place;
  sh_pidd : Z;                         (* the static variable of the reader *)
  sh_count : Z;                        (* [count_should_exit] of the reader *)
  sh_writers : gmap Z (nat * (Z * Z)); (* the writes left in the round, [sendsig], [read_pid] *)
  sh_alarm : option Z;                 (* SIGALRM pending for the process of the reader *)
  sh_kill : bool;                      (* SIGALRM pending for the reading thread *)
  sh_ops : list shm_op;                (* what was done so far, and what the reader got *)
  sh_got : list byte
}.
Definition at_place (s : sharing) (l : reader_place) : sharing :=
  {| sh_seg := sh_seg s; sh_place := l; sh_pidd := sh_pidd s; sh_count := sh_count s;
     sh_writers := sh_writers s; sh_alarm := sh_alarm s; sh_kill := sh_kill s;
     sh_ops := sh_ops s; sh_got := sh_got s |}.
Definition with_alarms (s : sharing) (alarm : option Z) (kill : bool) : sharing :=
  {| sh_seg := sh_seg s; sh_place := sh_place s; sh_pidd := sh_pidd s; sh_count := sh_count s;
     sh_writers := sh_writers s; sh_alarm := alarm; sh_kill := kill;
     sh_ops := sh_ops s; sh_got := sh_got s |}.
Definition with_writer (s : sharing) (w : Z) (left : nat) (sig : Z * Z) : sharing :=
  {| sh_seg := sh_seg s; sh_place := sh_place s; sh_pidd := sh_pidd s; sh_count := sh_count s;
     sh_writers := <[w := (left, sig)]> (sh_writers s); sh_alarm := sh_alarm s;
     sh_kill := sh_kill s; sh_ops := sh_ops s; sh_got := sh_got s |}.
Definition with_seg (s : sharing) (p : LIST_SHARED_DATA) (pidd count : Z) (o : shm_op)
    (d : list byte) : sharing :=
  {| sh_seg := p; sh_place := sh_place s; sh_pidd := pidd; sh_count := count;
     sh_writers := sh_writers s; sh_alarm := sh_alarm s; sh_kill := sh_kill s;
     sh_ops := sh_ops s ++ [o]; sh_got := sh_got s ++ d |}.

(** The reading thread: a turn of its loop, the beginning of [sleep], its end after a second. *)
Inductive reader_step (self : Z) : sharing -> sharing -> Prop :=
| R_turn s p d pidd count :
    sh_place s = Turning ->
    read_round 0 true self (sh_pidd s) (sh_count s) (sh_seg s) = Ok (Some (p, d, pidd), count) ->
    reader_step self s
      (at_place (with_seg s p pidd count (Read self (sh_pidd s)) d)
         (match d with [] => Dozing | _ => Turning end))
| R_sleep s : sh_place s = Dozing -> reader_step self s (at_place s Asleep)
| R_timeout s : sh_place s = Asleep -> reader_step self s (at_place s Turning).

(** A signal ends [sleep] early; elsewhere it changes nothing. *)
Definition woken (l : reader_place) : reader_place :=
  match l with Asleep => Turning | _ => l end.
(** The handler runs in the main thread or in the reading thread, for a signal to the process,
    and in the reading thread for a signal to it, whose sender is the process itself. *)
Inductive alarm_step (self : Z) : sharing -> sharing -> Prop :=
| A_main s w :
    sh_alarm s = Some w ->
    alarm_step self s (with_alarms s None (sh_kill s || handler self w))
| A_reader s w :
    sh_alarm s = Some w ->
    alarm_step self s
      (at_place (with_alarms s None (sh_kill s || handler self w)) (woken (sh_place s)))
| A_thread s :
    sh_kill s = true ->
    alarm_step self s
      (at_place (with_alarms s (sh_alarm s) (handler self self)) (woken (sh_place s))).

(** The writer [w]: one item, and the end of a round.  A signal to another process than the
    reader is none of its business. *)
Definition sigqueue (self w : Z) (to alarm : option Z) : option Z :=
  match to with
  | Some pid => if pid =? self then match alarm with None => Some w | _ => alarm end else alarm
  | None => alarm
  end.
Inductive writer_step (self w : Z) : sharing -> sharing -> Prop :=
| W_write s n sig t p sig' :
    sh_writers s !! w = Some (S n, sig) -> write_items [t] (sh_seg s) sig = Ok (p, sig') ->
    writer_step self w s
      (with_writer (with_seg s p (sh_pidd s) (sh_count s) (Write (shared_item t)) []) w n sig')
| W_round s sig :
    sh_writers s !! w = Some (0%nat, sig) ->
    writer_step self w s
      (with_alarms (with_writer s w WRITES sig)
         (sigqueue self w (round_signal sig) (sh_alarm s)) (sh_kill s)).
(** Any step, and any step but those of the writer [w]. *)
Definition others_step (self w : Z) (s s' : sharing) : Prop :=
  reader_step self s s' \/ alarm_step self s s' \/ exists w', w' <> w /\ writer_step self w' s s'.
Definition share_step (self : Z) (s s' : sharing) : Prop :=
  reader_step self s s' \/ alarm_step self s s' \/ exists w, writer_step self w s s'.

(** The beginning: the segment [p] as it is found, the reader before its first turn, the writers
    at the beginning of a round. *)
Definition share_start (p : LIST_SHARED_DATA) (writers : list Z) : sharing :=
  {| sh_seg := p; sh_place := Turning; sh_pidd := 0; sh_count := 0;
     sh_writers := list_to_map (map (fun w => (w, (WRITES, (0, 0)))) writers);
     sh_alarm := None; sh_kill := false; sh_ops := []; sh_got := [] |}.

(** ** Specification

    The segment is a buffer of bytes: a write appends, after dropping everything when the
    item does not fit; a read takes the whole content. *)

Definition shm_ok (p : LIST_SHARED_DATA) : Prop :=
  SZ_SHARED <= s_total p < 2 ^ 31 - 1 /\ zlen (s_data p) = s_total p - OFF_SHARED_DATA /\
  0 <= s_used_data p <= zlen (s_data p).

Definition content (p : LIST_SHARED_DATA) : list byte :=
  take (Z.to_nat (s_used_data p)) (s_data p).

Definition buf_write (total : Z) (buf item : list byte) : list byte :=
  (if total <=? zlen item + zlen buf + SZ_SHARED then [] else buf) ++ item.

Fixpoint buf_run (total : Z) (ops : list shm_op) (buf : list byte) : list byte * list byte :=
  match ops with
  | [] => (buf, [])
  | Write item :: ops => buf_run total ops (buf_write total buf item)
  | Read _ _ :: ops => let '(b, out) := buf_run total ops [] in (b, buf ++ out)
  end.

(** The items of a run, and that each can be stored. *)
Fixpoint written (ops : list shm_op) : list byte :=
  match ops with
  | [] => []
  | Write item :: ops => item ++ written ops
  | Read _ _ :: ops => written ops
  end.
Definition item_ok (total : Z) (o : shm_op) : Prop :=
  match o with Write item => 1 <= zlen item <= total - OFF_SHARED_DATA | Read _ _ => True end.
(** No write of the run drops the content. *)
Fixpoint no_wrap (total : Z) (ops : list shm_op) (used : Z) : bool :=
  match ops with
  | [] => true
  | Write item :: ops =>
    (used + zlen item + SZ_SHARED <? total) && no_wrap total ops (used + zlen item)
  | Read _ _ :: ops => no_wrap total ops 0
  end.

(** ** Lemmas *)

Lemma zlen_content p : shm_ok p -> zlen (content p) = s_used_data p.
Proof. intros (? & ? & ?). unfold content, zlen in *. rewrite length_take. lia. Qed.

Lemma as_int_id z : 0 <= z < 2 ^ 31 -> as_int z = z.
Proof. intros. unfold as_int. rewrite Z.mod_small; lia. Qed.

Definition shm_fits (p : LIST_SHARED_DATA) (n : Z) : bool :=
  n + s_used_data p + SZ_SHARED <? s_total p.
Definition write_at (p : LIST_SHARED_DATA) (n : Z) : Z :=
  if shm_fits p n then s_used_data p else 0.

(** Writing at the place the code computes. *)
Lemma write_at_spec p n :
  shm_ok p -> 1 <= n < 2 ^ 31 ->
  (if s_total p <=? wrap 64 (n + s_used_data p + SZ_SHARED) then 0 else s_used_data p)
    = write_at p n.
Proof.
  intros (Ht & Hl & Hu) Hn. unfold write_at, shm_fits, wrap, SZ_SHARED, OFF_SHARED_DATA in *.
  rewrite Z.mod_small by lia. destruct (_ <=? _) eqn:E, (_ <? _) eqn:E2; b2p; lia.
Qed.

(** The two results of the signal, for a caller that asks for them. *)
Definition write_sig (p : LIST_SHARED_DATA) (sendsig pcid : option Z) : option Z * option Z :=
  match sendsig, pcid with
  | Some _, Some _ =>
    if s_sleeping p =? 0 then (sendsig, pcid) else (Some (s_sleeping p), Some (s_read_pid p))
  | _, _ => (sendsig, pcid)
  end.

Lemma ntt_write_unfold p data n s sendsig pcid :
  shm_ok p -> 1 <= n < 2 ^ 31 -> rd data 0 n = Ok s ->
  ntt_write_shm 0 (Some p) (Some data) n sendsig pcid =
    (d ← wr (s_data p) (write_at p n) s;
     Ok (as_int (write_at p n + n), Some (set_s_data p (write_at p n + n) d (s_sleeping p)),
         (write_sig p sendsig pcid).1, (write_sig p sendsig pcid).2)).
Proof.
  intros Hp Hn Hs. unfold ntt_write_shm. rewrite (write_at_spec p n Hp Hn), Hs.
  decide_cmp. cbn [negb mbind res_bind]. unfold write_sig.
  destruct sendsig, pcid; try done. by destruct (s_sleeping p =? 0).
Qed.

Lemma write_content d u s d' :
  0 <= u -> wr d u s = Ok d' ->
  take (Z.to_nat (u + zlen s)) d' = take (Z.to_nat u) d ++ s.
Proof.
  intros Hu (H1 & H2 & H3 & ->)%wr_inv. unfold zlen in *.
  rewrite Z2Nat.inj_add, Nat2Z.id by lia. rewrite app_assoc.
  apply take_app_length'. rewrite length_app, length_take. lia.
Qed.

(** A write of an item that can be stored: the content afterwards is the buffer's. *)
Lemma write_shm_ok p data n s sendsig pcid :
  shm_ok p -> 1 <= n <= s_total p - OFF_SHARED_DATA -> rd data 0 n = Ok s ->
  exists q,
    ntt_write_shm 0 (Some p) (Some data) n sendsig pcid =
      Ok (s_used_data q, Some q, (write_sig p sendsig pcid).1, (write_sig p sendsig pcid).2) /\
    shm_ok q /\ content q = buf_write (s_total p) (content p) s /\
    s_used_data q = write_at p n + n /\
    s_total q = s_total p /\ s_sleeping q = s_sleeping p /\ s_read_pid q = s_read_pid p /\
    s_should_exit q = s_should_exit p.
Proof.
  intros Hp Hn Hs. pose proof Hp as (Ht & Hl & Hu). pose proof (rd_inv _ _ _ _ Hs) as (_ & _ & _ & Hz & _).
  pose proof (zlen_content p Hp) as Hc. unfold OFF_SHARED_DATA in Hl, Hn.
  rewrite (ntt_write_unfold p data n s) by (done || lia).
  assert (Hat : 0 <= write_at p n /\ write_at p n + n <= zlen (s_data p)).
  { unfold write_at, shm_fits, SZ_SHARED in *. destruct (_ <? _) eqn:E; b2p; lia. }
  destruct (wr_some (s_data p) (write_at p n) s) as (d & Hd & Hzd); [lia..|].
  pose proof (write_content _ _ _ _ (proj1 Hat) Hd) as Hw. rewrite Hz in Hw.
  rewrite Hd. cbn [mbind res_bind].
  exists (set_s_data p (write_at p n + n) d (s_sleeping p)). split; [|split; [|split]].
  - rewrite as_int_id by lia. reflexivity.
  - unfold shm_ok, OFF_SHARED_DATA. cbn. lia.
  - unfold content at 1, buf_write. cbn. rewrite Hw, Hz, Hc. f_equal. clear Hw.
    unfold write_at, shm_fits. destruct (_ <? _) eqn:E, (_ <=? _) eqn:E2; b2p; try lia; done.
  - done.
Qed.

(** An item that cannot be stored is written over the end of the region. *)
Lemma write_shm_overflow p data n s sendsig pcid :
  shm_ok p -> s_total p - OFF_SHARED_DATA < n < 2 ^ 31 -> rd data 0 n = Ok s ->
  ntt_write_shm 0 (Some p) (Some data) n sendsig pcid = Fault OobWrite.
Proof.
  intros Hp Hn Hs. pose proof Hp as (Ht & Hl & Hu). pose proof (rd_inv _ _ _ _ Hs) as (_ & _ & _ & Hz & _).
  assert (write_at p n = 0) as Hat.
  { unfold write_at, shm_fits, SZ_SHARED, OFF_SHARED_DATA in *. destruct (_ <? _) eqn:E; b2p; lia. }
  unfold SZ_SHARED, OFF_SHARED_DATA in *.
  rewrite (ntt_write_unfold p data n s) by (done || lia). rewrite Hat, wr_oob by lia. done.
Qed.

(** A read takes the content and leaves the buffer empty. *)
Lemma read_shm_ok self pidd p data :
  shm_ok p -> 0 < s_used_data p ->
  exists q,
    ntt_read_shm 0 true self pidd (Some p) (Some data) =
      Ok (zlen (content p), Some q, Some (Some (content p ++ [x00])),
          if pidd =? 0 then self else pidd) /\
    shm_ok q /\ content q = [] /\ s_sleeping q = 0 /\
    s_read_pid q = (if pidd =? 0 then self else s_read_pid p) /\ s_total q = s_total p /\
    s_should_exit q = s_should_exit p.
Proof.
  intros Hp Hpos. pose proof Hp as (Ht & Hl & Hu). pose proof (zlen_content p Hp) as Hc.
  unfold OFF_SHARED_DATA in Hl. unfold ntt_read_shm.
  assert (exists p1, (if pidd =? 0 then (set_s_pid p self, self) else (p, pidd)) =
                       (p1, if pidd =? 0 then self else pidd) /\
            s_used_data p1 = s_used_data p /\ s_data p1 = s_data p /\
            s_read_pid p1 = (if pidd =? 0 then self else s_read_pid p) /\
            s_total p1 = s_total p /\ s_should_exit p1 = s_should_exit p)
    as (p1 & -> & Eu & Ed & Er & Et & Ee).
  { destruct (pidd =? 0); eexists; split; [reflexivity|by cbn|reflexivity|by cbn]. }
  cbn [Z.eqb negb]. rewrite Eu, as_int_id by lia. decide_cmp. cbn [negb].
  rewrite Ed, rd_head by lia. cbn [mbind res_bind]. fold (content p).
  rewrite zeros_add by lia. rewrite (wr_part _ [] (zeros (s_used_data p)) (content p) (zeros 1));
    [|done|done|rewrite zlen_zeros by lia; lia]. cbn [mbind res_bind app].
  destruct (wr_some (s_data p) 0 [x00]) as (d & Hd & Hzd); [lia|change (zlen [x00]) with 1; lia|].
  rewrite Hd. cbn [mbind res_bind]. eexists. split; [by rewrite Hc|].
  unfold shm_ok, content, OFF_SHARED_DATA. cbn. rewrite Et. split; [lia|done].
Qed.

Lemma read_shm_empty self pidd p data :
  shm_ok p -> s_used_data p = 0 ->
  exists q,
    ntt_read_shm 0 true self pidd (Some p) (Some data) =
      Ok (0, Some q, Some None, if pidd =? 0 then self else pidd) /\
    shm_ok q /\ content q = [] /\ s_sleeping q = 1 /\
    s_read_pid q = (if pidd =? 0 then self else s_read_pid p) /\ s_total q = s_total p /\
    s_should_exit q = s_should_exit p.
Proof.
  intros (Ht & Hl & Hu) H0. unfold ntt_read_shm.
  destruct (pidd =? 0); cbn [Z.eqb negb s_used_data set_s_pid]; rewrite H0; cbn;
    (eexists; split; [reflexivity|]); unfold shm_ok, content; cbn; (split; [lia|done]).
Qed.

(** ** Writing and reading *)

(** [ntt_write_shm] on every branch.  Null pointers, an empty item and a lock that is
    not obtained leave the segment alone.  Otherwise the item is appended to the content,
    after everything unread is dropped when it does not fit ([buf_write]); the answer is the
    new fill, and a caller that asks learns the reader to wake.  An item longer than the
    region is written over its end. *)
Theorem ntt_write_shm_spec errx p data n s sendsig pcid :
  rd data 0 n = Ok s -> n < 2 ^ 31 -> shm_ok p ->
  ntt_write_shm errx (Some p) None n sendsig pcid = Ok (-1, Some p, sendsig, pcid) /\
  ntt_write_shm errx None (Some data) n sendsig pcid = Ok (-2, None, sendsig, pcid) /\
  (n < 1 \/ errx <> 0 ->
   ntt_write_shm errx (Some p) (Some data) n sendsig pcid = Ok (0, Some p, sendsig, pcid)) /\
  (1 <= n <= s_total p - OFF_SHARED_DATA -> errx = 0 ->
   exists q,
     ntt_write_shm errx (Some p) (Some data) n sendsig pcid =
       Ok (s_used_data q, Some q, (write_sig p sendsig pcid).1, (write_sig p sendsig pcid).2) /\
     shm_ok q /\ content q = buf_write (s_total p) (content p) s /\
     s_total q = s_total p /\ s_sleeping q = s_sleeping p /\ s_read_pid q = s_read_pid p /\
     s_should_exit q = s_should_exit p) /\
  (s_total p - OFF_SHARED_DATA < n -> errx = 0 ->
   ntt_write_shm errx (Some p) (Some data) n sendsig pcid = Fault OobWrite).
Proof.
  intros Hs Hn Hp. split; [done|]. split; [done|]. split; [|split].
  - intros H. unfold ntt_write_shm. destruct (n <? 1) eqn:E; [done|].
    destruct (errx =? 0) eqn:E2; [|done]. b2p. lia.
  - intros Hl ->. destruct (write_shm_ok p data n s sendsig pcid Hp Hl Hs)
      as (q & ? & ? & ? & _ & ?). by exists q.
  - intros Hl ->. by apply (write_shm_overflow p data n s).
Qed.

(** A segment of 320 bytes holding five of them, with a reader asleep. *)
Definition shm_ex : LIST_SHARED_DATA :=
  {| s_total := 320; s_used_data := 5; s_read_pid := 4711; s_should_exit := 0; s_sleeping := 1;
     s_data := str "hello" ++ zeros 29 |}.

Lemma ntt_write_shm_spec_witness :
  rd (str "abcde") 0 5 = Ok (str "abcde") /\ shm_ok shm_ex /\
  exists q, ntt_write_shm 0 (Some shm_ex) (Some (str "abcde")) 5 (Some 0) (Some 0) =
    Ok (s_used_data q, Some q, Some 1, Some 4711) /\ content q = str "helloabcde".
Proof.
  assert (Hs : rd (str "abcde") 0 5 = Ok (str "abcde")) by reflexivity.
  assert (Hp : shm_ok shm_ex) by vm_side.
  split; [exact Hs|]. split; [exact Hp|].
  destruct (ntt_write_shm_spec 0 shm_ex (str "abcde") 5 (str "abcde") (Some 0) (Some 0) Hs
              eq_refl Hp) as (_ & _ & _ & H & _).
  destruct (H ltac:(vm_side) eq_refl) as (q & Hq & _ & Hc & _).
  exists q. split; [exact Hq|exact Hc].
Defined.

(** ** A sequence of operations *)

Lemma shm_write_do p item :
  shm_ok p -> item_ok (s_total p) (Write item) ->
  exists q, shm_do (Write item) p = Ok (q, []) /\ shm_ok q /\ s_total q = s_total p /\
    content q = buf_write (s_total p) (content p) item /\ s_should_exit q = s_should_exit p.
Proof.
  intros Hp Hi. cbn [item_ok] in Hi.
  assert (Hs : rd item 0 (zlen item) = Ok item).
  { rewrite rd_head by lia. unfold zlen. by rewrite Nat2Z.id, firstn_all. }
  destruct (write_shm_ok p item (zlen item) item None None Hp Hi Hs)
    as (q & Hq & ? & ? & _ & ? & _ & _ & ?).
  exists q. unfold shm_do. by rewrite Hq.
Qed.

Lemma shm_read_do p self pidd :
  shm_ok p ->
  exists q, shm_do (Read self pidd) p = Ok (q, content p) /\ shm_ok q /\ s_total q = s_total p /\
    content q = [] /\ s_should_exit q = s_should_exit p.
Proof.
  intros Hp. pose proof Hp as (_ & _ & Hu). unfold shm_do.
  destruct (decide (s_used_data p = 0)) as [H0|H0].
  - destruct (read_shm_empty self pidd p None Hp H0) as (q & Hq & ? & ? & _ & _ & ? & ?).
    exists q. rewrite Hq. cbn. replace (content p) with (@nil byte); [done|].
    unfold content. by rewrite H0.
  - destruct (read_shm_ok self pidd p None Hp ltac:(lia)) as (q & Hq & ? & ? & _ & _ & ? & ?).
    exists q. rewrite Hq. cbn [mbind res_bind default from_option id].
    rewrite (rd_part _ [] (content p) [x00]) by done. done.
Qed.

Lemma buf_run_no_wrap total ops buf :
  no_wrap total ops (zlen buf) = true ->
  (buf_run total ops buf).2 ++ (buf_run total ops buf).1 = buf ++ written ops.
Proof.
  revert buf. induction ops as [|[item|self pidd] ops IH]; intros buf; cbn [no_wrap buf_run written].
  - intros _. by rewrite app_nil_r.
  - intros [H1 H2]%andb_true_iff. b2p. unfold buf_write. decide_cmp.
    rewrite IH by (by rewrite zlen_app). by rewrite <- app_assoc.
  - intros H. pose proof (IH [] H) as E. destruct (buf_run total ops []). cbn in *.
    by rewrite <- app_assoc, E.
Qed.

Lemma shm_run_ok ops p :
  shm_ok p -> Forall (item_ok (s_total p)) ops ->
  exists q,
    shm_run ops p = Ok (q, (buf_run (s_total p) ops (content p)).2) /\ shm_ok q /\
    content q = (buf_run (s_total p) ops (content p)).1 /\ s_total q = s_total p /\
    s_should_exit q = s_should_exit p.
Proof.
  revert p. induction ops as [|o ops IH]; intros p Hp Hops; [by exists p|].
  apply Forall_cons in Hops as [Ho Hops]. cbn [shm_run]. destruct o as [item|self pidd].
  - destruct (shm_write_do p item Hp Ho) as (q & -> & Hq & Et & Hc & Ee). cbn [mbind res_bind].
    rewrite <- Et in Hops. destruct (IH q Hq Hops) as (q' & -> & Hq' & Hc' & Et' & Ee').
    exists q'. cbn [mbind res_bind app buf_run]. by rewrite Hc', Hc, Et', Et, Ee', Ee.
  - destruct (shm_read_do p self pidd Hp) as (q & -> & Hq & Et & Hc & Ee). cbn [mbind res_bind].
    rewrite <- Et in Hops. destruct (IH q Hq Hops) as (q' & -> & Hq' & Hc' & Et' & Ee').
    exists q'. cbn [mbind res_bind buf_run]. rewrite Hc', Hc, Et', Et, Ee', Ee.
    by destruct (buf_run (s_total p) ops []).
Qed.

(** C14: any sequence of writes and reads of the processes behaves as the buffer of the
    specification: the readers get what it gives and the segment holds what it holds.  As
    long as no write wraps, nothing is lost: what was read, followed by what is still there,
    is what was there first followed by every item in the order of writing. *)
Theorem shm_run_refines ops p :
  shm_ok p -> Forall (item_ok (s_total p)) ops ->
  exists q,
    shm_run ops p = Ok (q, (buf_run (s_total p) ops (content p)).2) /\ shm_ok q /\
    content q = (buf_run (s_total p) ops (content p)).1 /\
    (no_wrap (s_total p) ops (s_used_data p) = true ->
     (buf_run (s_total p) ops (content p)).2 ++ content q = content p ++ written ops).
Proof.
  intros Hp Hops. destruct (shm_run_ok ops p Hp Hops) as (q & Hr & Hq & Hc & _).
  exists q. split; [done|]. split; [done|]. split; [done|]. intros Hw. rewrite Hc.
  apply buf_run_no_wrap. by rewrite zlen_content.
Qed.

Lemma shm_run_refines_witness :
  shm_ok shm_ex /\ exists q,
    shm_run [Write (str "ab"); Read 7 7; Write (str "cd")] shm_ex = Ok (q, str "helloab") /\
    content q = str "cd".
Proof.
  assert (Hp : shm_ok shm_ex) by vm_side. split; [exact Hp|].
  destruct (shm_run_refines [Write (str "ab"); Read 7 7; Write (str "cd")] shm_ex Hp
              ltac:(repeat constructor; vm_side)) as (q & Hr & _ & Hc & _).
  exists q. split; [exact Hr|exact Hc].
Defined.

(** ** Waking the reader *)

Lemma zlen_shared_item t : zlen (shared_item t) = SZ_SHARED_ITEM.
Proof.
  unfold shared_item. rewrite !zlen_app, zlen_zeros by lia. unfold zlen.
  by rewrite !length_le_bytes.
Qed.

Lemma write_items_ok clock p sig :
  shm_ok p -> SZ_SHARED_ITEM <= s_total p - OFF_SHARED_DATA ->
  exists q,
    write_items clock p sig =
      Ok (q, match clock with
             | [] => sig
             | _ => if s_sleeping p =? 0 then (0, 0) else (s_sleeping p, s_read_pid p)
             end) /\
    shm_ok q /\ content q = fold_left (buf_write (s_total p)) (map shared_item clock) (content p) /\
    s_total q = s_total p /\ s_sleeping q = s_sleeping p /\ s_read_pid q = s_read_pid p /\
    s_should_exit q = s_should_exit p.
Proof.
  revert p sig. induction clock as [|t clock IH]; intros p sig Hp Ht; [by exists p|].
  assert (Hs : rd (shared_item t) 0 SZ_SHARED_ITEM = Ok (shared_item t)).
  { rewrite rd_head by (rewrite zlen_shared_item; done). done. }
  destruct (write_shm_ok p (shared_item t) SZ_SHARED_ITEM (shared_item t) (Some 0) (Some 0) Hp
              ltac:(split; [done|exact Ht]) Hs) as (q & Hq & Hqok & Hc & _ & Et & Es & Er & Ee).
  cbn [write_items]. rewrite Hq. cbn [mbind res_bind default from_option id].
  rewrite <- Et in Ht.
  destruct (IH q (default 0 (write_sig p (Some 0) (Some 0)).1,
                  default 0 (write_sig p (Some 0) (Some 0)).2) Hqok Ht)
    as (q' & Hq' & Hok' & Hc' & Et' & Es' & Er' & Ee').
  exists q'. rewrite Hq'. split; [|split; [done|]].
  - do 2 f_equal. rewrite Es, Er. destruct clock; [|done].
    unfold write_sig. by destruct (s_sleeping p =? 0).
  - cbn [map fold_left]. rewrite Hc', Hc, Et. split; [done|]. repeat split; congruence.
Qed.

(** What one round of the writer does. *)
Lemma write_round_ok clock p count :
  shm_ok p -> SZ_SHARED_ITEM <= s_total p - OFF_SHARED_DATA ->
  exists q,
    write_round clock p count =
      Ok (q, (if negb (s_sleeping p =? 0) && negb (s_read_pid p =? 0) &&
                 match clock with [] => false | _ => true end
              then Some (s_read_pid p) else None),
          1 <=? (check_exiit p count false).1, (check_exiit p count false).2) /\
    shm_ok q /\ content q = fold_left (buf_write (s_total p)) (map shared_item clock) (content p) /\
    s_total q = s_total p /\ s_sleeping q = s_sleeping p /\ s_read_pid q = s_read_pid p /\
    s_should_exit q = s_should_exit p.
Proof.
  intros Hp Ht. destruct (write_items_ok clock p (0, 0) Hp Ht)
    as (q & Hq & Hok & Hc & Et & Es & Er & Ee).
  exists q. split; [|done]. unfold write_round. rewrite Hq.
  assert (Ec : check_exiit q count false = check_exiit p count false)
    by (unfold check_exiit; by rewrite Ee).
  destruct clock as [|t clock]; cbn [mbind res_bind].
  - rewrite Ec. destruct (check_exiit p count false).
    by destruct (s_sleeping p =? 0), (s_read_pid p =? 0).
  - destruct (s_sleeping p =? 0) eqn:E0; rewrite Ec; destruct (check_exiit p count false).
    + done.
    + cbn [round_signal]. rewrite E0. by destruct (s_read_pid p =? 0).
Qed.

(** One turn of the reading thread that is not told to stop. *)
Lemma read_round_ok self pidd count p :
  shm_ok p -> s_should_exit p = 0 ->
  exists q,
    read_round 0 true self pidd count p =
      Ok (Some (q, content p, if pidd =? 0 then self else pidd), count) /\
    shm_ok q /\ content q = [] /\ s_sleeping q = (if s_used_data p =? 0 then 1 else 0) /\
    s_read_pid q = (if pidd =? 0 then self else s_read_pid p) /\ s_total q = s_total p /\
    s_should_exit q = 0.
Proof.
  intros Hp He. pose proof Hp as (_ & _ & Hu). unfold read_round, check_exiit.
  rewrite He. cbn [Z.eqb negb].
  destruct (decide (s_used_data p = 0)) as [H0|H0].
  - destruct (read_shm_empty self pidd p None Hp H0) as (q & Hq & ? & ? & ? & ? & ? & Ee).
    exists q. rewrite Hq, H0. cbn. rewrite Ee, He. unfold content. rewrite H0. done.
  - destruct (read_shm_ok self pidd p None Hp ltac:(lia)) as (q & Hq & ? & ? & ? & ? & ? & Ee).
    exists q. rewrite Hq. cbn [mbind res_bind default from_option id].
    rewrite (rd_part _ [] (content p) [x00]) by done. rewrite Ee, He. decide_cmp. done.
Qed.

Lemma zlen_buf_write_items total ts buf :
  ts <> [] -> 0 < zlen (fold_left (buf_write total) (map shared_item ts) buf).
Proof.
  intros H. destruct (exists_last H) as (l & t & ->).
  rewrite map_app, fold_left_app. cbn [map fold_left]. unfold buf_write at 1.
  rewrite zlen_app, zlen_shared_item. unfold SZ_SHARED_ITEM.
  match goal with |- 0 < zlen ?x + _ => pose proof (zlen_nonneg x) end. lia.
Qed.

Definition shm_idle : LIST_SHARED_DATA := shm_fresh 512 512.

(** What holds at any time: the segment is sound and its content and what the reader got are
    those of the operations done; once the reader has had its first turn the segment names it;
    while it waits, the flag is up. *)
Record sharing_ok (self total : Z) (buf : list byte) (s : sharing) : Prop := {
  so_seg : shm_ok (sh_seg s);
  so_total : s_total (sh_seg s) = total;
  so_exit : s_should_exit (sh_seg s) = 0;
  so_pid : sh_pidd s = 0 \/ s_read_pid (sh_seg s) = self;
  so_wait : sh_place s <> Turning -> sh_pidd s <> 0 /\ s_sleeping (sh_seg s) = 1;
  so_alarm : sh_alarm s <> Some self;
  so_writers : sh_writers s !! self = None;
  so_run : buf_run total (sh_ops s) buf = (content (sh_seg s), sh_got s)
}.

Lemma buf_run_snoc total ops o buf :
  buf_run total (ops ++ [o]) buf
  = let '(b, out) := buf_run total ops buf in
    match o with Write item => (buf_write total b item, out) | Read _ _ => ([], out ++ b) end.
Proof.
  revert buf. induction ops as [|[item|self pidd] ops IH]; intros buf; cbn [app buf_run].
  - destruct o; cbn; by rewrite ?app_nil_r.
  - apply IH.
  - rewrite IH. destruct (buf_run total ops []) as [b out]. destruct o; by rewrite ?app_assoc.
Qed.

Section Sharing.
Context (self total : Z) (buf : list byte).
Hypotheses (Hself : self <> 0) (Htotal : SZ_SHARED_ITEM <= total - OFF_SHARED_DATA).

Lemma turn_ok s :
  sharing_ok self total buf s -> sh_place s = Turning ->
  exists s', reader_step self s s' /\ sharing_ok self total buf s' /\ content (sh_seg s') = [] /\
    sh_got s' = sh_got s ++ content (sh_seg s) /\
    s_sleeping (sh_seg s') = match content (sh_seg s) with [] => 1 | _ => 0 end /\
    forall s2, reader_step self s s2 -> s2 = s'.
Proof.
  intros [Hp Ht He Hpid Hw Ha Hn Hr] Hl.
  destruct (read_round_ok self (sh_pidd s) (sh_count s) (sh_seg s) Hp He) as (q & Hq & Hq1 & Hc & Hs & Hpd & Hqt & Hqe).
  assert (Hflag : s_sleeping q = match content (sh_seg s) with [] => 1 | _ => 0 end).
  { rewrite Hs, <- (zlen_content _ Hp). destruct (content (sh_seg s)) as [|b l]; [done|].
    rewrite zlen_cons. pose proof (zlen_nonneg l). by rewrite (proj2 (Z.eqb_neq _ _)) by lia. }
  eexists. split; [by eapply R_turn|]. cbn. split; [|split; [done|split; [done|split; [done|]]]].
  - split; cbn; try done; try congruence.
    + destruct (sh_pidd s =? 0) eqn:E; b2p; [by right|]. destruct Hpid; [lia|right; congruence].
    + intros Hl'. split; [|rewrite Hflag; by destruct (content (sh_seg s))].
      destruct (sh_pidd s =? 0) eqn:E; b2p; lia.
    + by rewrite buf_run_snoc, Hr, Hc.
  - intros s2 Hs2. inversion Hs2 as [? p d pidd count _ Hq2| ? Hl2|? Hl2]; subst; [|congruence..].
    rewrite Hq in Hq2. by injection Hq2 as <- <- <- <-.
Qed.

Lemma write_ok s w n sig t p sig' :
  sharing_ok self total buf s -> sh_writers s !! w = Some (S n, sig) ->
  write_items [t] (sh_seg s) sig = Ok (p, sig') ->
  let s' := with_writer (with_seg s p (sh_pidd s) (sh_count s) (Write (shared_item t)) []) w n sig' in
  sharing_ok self total buf s' /\
  sig' = (if s_sleeping (sh_seg s) =? 0 then (0, 0) else (s_sleeping (sh_seg s), s_read_pid (sh_seg s))) /\
  content p = buf_write total (content (sh_seg s)) (shared_item t) /\ s_sleeping p = s_sleeping (sh_seg s).
Proof.
  intros [Hp Ht He Hpid Hw Ha Hn Hr] Hwr Hi.
  destruct (write_items_ok [t] (sh_seg s) sig Hp ltac:(by rewrite Ht)) as (q & Hq & Hq1 & Hc & Hqt & Hs & Hpd & Hqe).
  rewrite Hi in Hq. injection Hq as -> ->. cbn [map fold_left] in Hc. rewrite Ht in Hc. intros s'.
  split; [|done]. split; cbn; try done; try congruence.
  - intros Hl. by rewrite Hs; apply Hw.
  - rewrite lookup_insert_ne; [done|]. intros ->. congruence.
  - rewrite buf_run_snoc, Hr, Hc, app_nil_r. done.
Qed.

Lemma sharing_ok_step s s' :
  sharing_ok self total buf s -> share_step self s s' -> sharing_ok self total buf s'.
Proof.
  intros Hok [Hs|[Hs|[w Hs]]].
  - destruct (decide (sh_place s = Turning)) as [Hl|Hl].
    + destruct (turn_ok s Hok Hl) as (s2 & _ & Hok2 & _ & _ & _ & Hd). by rewrite (Hd _ Hs).
    + destruct Hok. inversion Hs; subst; [done| |]; split; cbn; try done; intros _; by apply so_wait0.
  - destruct Hok. inversion Hs; subst; split; cbn; try done; destruct (sh_place s); cbn in *; auto.
  - inversion Hs; subst; [by eapply write_ok|]. destruct Hok. split; cbn; try done.
    + destruct (round_signal sig) as [pid|]; cbn; [|done]. destruct (pid =? self), (sh_alarm s); try done. congruence.
    + rewrite lookup_insert_ne; [done|]. congruence.
Qed.
Lemma sharing_ok_steps s s' :
  sharing_ok self total buf s -> rtc (share_step self) s s' -> sharing_ok self total buf s'.
Proof. intros Hok Hs. revert Hok. induction Hs; eauto using sharing_ok_step. Qed.

(** The last item of a round and its end, whatever the others do in between. *)
Lemma others_keep w s s' : rtc (others_step self w) s s' -> sh_writers s' !! w = sh_writers s !! w.
Proof.
  induction 1 as [|s1 s2 s3 Hs _ IH]; [done|]. rewrite IH.
  destruct Hs as [Hs|[Hs|(w' & Hw & Hs)]]; inversion Hs; subst; try done; cbn; by rewrite lookup_insert_ne.
Qed.
Lemma round_end s w sig s1 s2 s3 :
  sharing_ok self total buf s -> sh_writers s !! w = Some (1%nat, sig) ->
  writer_step self w s s1 -> rtc (others_step self w) s1 s2 -> writer_step self w s2 s3 ->
  (sh_place s <> Turning -> sh_alarm s3 = Some (default w (sh_alarm s2))) /\
  (s_sleeping (sh_seg s) = 0 -> sh_alarm s3 = sh_alarm s2).
Proof.
  intros Hok Hw H1 Ho%others_keep H2. inversion H1 as [? n sig0 t p sig' Hw1 Hi|? sig0 Hw1]; subst; rewrite Hw in Hw1; [|done].
  injection Hw1 as <- <-. destruct (write_ok s w 0 sig t p sig' Hok Hw Hi) as (Hok1 & Hsig & _ & _).
  cbn in Ho. rewrite lookup_insert_eq in Ho.
  inversion H2 as [? n sig0 t' p' sig2 Hw2 Hi2|? sig0 Hw2]; subst; rewrite Ho in Hw2; [done|].
  injection Hw2 as <-. cbn. split; intros Hc.
  - destruct (so_wait _ _ _ _ Hok Hc) as [Hp1 Hs1]. destruct (so_pid _ _ _ _ Hok) as [|Hr]; [done|].
    rewrite Hs1, Hr. cbn. rewrite (proj2 (Z.eqb_neq _ _) Hself). cbn.
    rewrite Z.eqb_refl. by destruct (sh_alarm s2).
  - by rewrite Hc.
Qed.
Lemma write_possible s w n sig :
  sharing_ok self total buf s -> sh_writers s !! w = Some (S n, sig) ->
  exists s', writer_step self w s s' /\ exists sig', sh_writers s' !! w = Some (n, sig') /\
    sh_place s' = sh_place s /\ content (sh_seg s') <> [].
Proof.
  intros Hok Hw. destruct (write_items_ok [Build_timespec 0 0] (sh_seg s) sig (so_seg _ _ _ _ Hok)
    ltac:(by rewrite (so_total _ _ _ _ Hok))) as (q & Hq & _ & Hc & _).
  eexists. split; [by eapply W_write|]. eexists. cbn. split; [by rewrite lookup_insert_eq|]. split; [done|].
  intros Hn. rewrite Hc in Hn. apply (f_equal zlen) in Hn. revert Hn.
  pose proof (zlen_buf_write_items (s_total (sh_seg s)) [Build_timespec 0 0] (content (sh_seg s)) ltac:(done)) as Hz.
  change (zlen []) with 0. lia.
Qed.

(** What becomes of the signals under way. *)
Lemma alarms_handled s :
  sharing_ok self total buf s ->
  exists s', bsteps (alarm_step self) 2 s s' /\ sh_alarm s' = None /\ sh_kill s' = false.
Proof.
  intros Hok. assert (Hh : handler self self = false) by (unfold handler; by rewrite Z.eqb_refl).
  assert (Hk : forall s, sh_alarm s = None -> exists s', bsteps (alarm_step self) 1 s s' /\ sh_alarm s' = None /\ sh_kill s' = false).
  { intros s0 Ha. destruct (sh_kill s0) eqn:Ek; [|exists s0; by repeat split; [apply bsteps_refl|..]].
    eexists. split; [apply bsteps_once, A_thread, Ek|]. cbn. by rewrite Ha, Hh. }
  destruct (sh_alarm s) as [w|] eqn:Ha.
  - destruct (Hk (with_alarms s None (sh_kill s || handler self w)) eq_refl) as (s' & Hs & H').
    exists s'. split; [|done]. eapply bsteps_l; [by apply A_main|exact Hs].
  - destruct (Hk s Ha) as (s' & Hs & H'). exists s'. split; [by apply bsteps_S|done].
Qed.
Lemma alarms_seg s s' :
  rtc (alarm_step self) s s' ->
  sh_seg s' = sh_seg s /\ sh_writers s' = sh_writers s /\ (sh_place s' = sh_place s \/ sh_place s' = woken (sh_place s)).
Proof.
  induction 1 as [s|s1 s2 s3 Hs _ (IH1 & IH2 & IH3)]; [by repeat split; [..|left]|].
  rewrite IH1, IH2. inversion Hs; subst; cbn in *; (split; [done|split; [done|]]).
  - done.
  - destruct IH3 as [-> | ->], (sh_place s1); auto.
  - destruct IH3 as [-> | ->], (sh_place s1); auto.
Qed.
Lemma alarm_wakes s s' :
  sh_alarm s <> Some self -> rtc (alarm_step self) s s' -> sh_alarm s' = None -> sh_kill s' = false ->
  sh_alarm s <> None \/ sh_kill s = true -> sh_place s' = woken (sh_place s).
Proof.
  intros Hn Hs Ha Hk Hp.
  assert (Hq : (sh_alarm s <> Some self /\ (sh_alarm s <> None \/ sh_kill s = true)) \/ sh_place s <> Asleep) by auto.
  clear Hn Hp. induction Hs as [s|s1 s2 s3 Hs _ IH].
  - destruct Hq as [[_ [Hq|Hq]]|Hq]; [done|congruence|]. by destruct (sh_place s).
  - specialize (IH Ha Hk). inversion Hs as [s0 w Hw| s0 w Hw|s0 Hw]; subst s0 s2; cbn in IH.
    + apply IH. destruct Hq as [[Hq _]|Hq]; [|by right]. left. split; [done|]. right.
      unfold handler. rewrite Hw in Hq. destruct (self =? w) eqn:E; b2p; [congruence|]. by rewrite orb_true_r.
    + rewrite IH by (right; by destruct (sh_place s1)). by destruct (sh_place s1).
    + rewrite IH by (right; by destruct (sh_place s1)). by destruct (sh_place s1).
Qed.

(** Steps of the reader alone. *)
Lemma reader_reads s :
  sharing_ok self total buf s ->
  exists s', bsteps (reader_step self) 3 s s' /\ content (sh_seg s') = [] /\
    sh_got s' = sh_got s ++ content (sh_seg s).
Proof.
  intros Hok.
  assert (Ht : forall s, sharing_ok self total buf s -> sh_place s = Turning ->
    exists s', bsteps (reader_step self) 1 s s' /\ content (sh_seg s') = [] /\ sh_got s' = sh_got s ++ content (sh_seg s)).
  { intros s0 Hok0 Hl. destruct (turn_ok s0 Hok0 Hl) as (s' & Hs & _ & Hc & Hg & _). exists s'.
    split; [by apply bsteps_once|done]. }
  assert (Ha : forall s, sharing_ok self total buf s -> sh_place s = Asleep ->
    exists s', bsteps (reader_step self) 2 s s' /\ content (sh_seg s') = [] /\ sh_got s' = sh_got s ++ content (sh_seg s)).
  { intros s0 Hok0 Hl. destruct (Ht (at_place s0 Turning)) as (s' & Hs & H'); [|done|].
    - apply (sharing_ok_step s0); [done|]. left. by apply R_timeout.
    - exists s'. split; [|done]. eapply bsteps_l; [by apply R_timeout|done]. }
  destruct (sh_place s) eqn:El.
  - destruct (Ht s Hok El) as (s' & Hs & H'). exists s'. split; [by do 2 apply bsteps_S|done].
  - destruct (Ha (at_place s Asleep)) as (s' & Hs & H'); [|done|].
    + apply (sharing_ok_step s); [done|]. left. by apply R_sleep.
    + exists s'. split; [|done]. eapply bsteps_l; [by apply R_sleep|done].
  - destruct (Ha s Hok El) as (s' & Hs & H'). exists s'. split; [by apply bsteps_S|done].
Qed.

(** The alarm that comes too early. *)
Lemma round_missed s w n sig :
  sharing_ok self total buf s -> sh_place s = Dozing -> sh_writers s !! w = Some (S n, sig) ->
  exists s', rtc (share_step self) s s' /\ sh_place s' = Asleep /\ sh_alarm s' = None /\ sh_kill s' = false /\
    content (sh_seg s') <> [] /\ exists sig', sh_writers s' !! w = Some (WRITES, sig').
Proof.
  revert s sig. induction n as [|n IH]; intros s sig Hok Hl Hw; destruct (write_possible s w _ sig Hok Hw) as (s1 & H1 & sig1 & Hw1 & Hl1 & Hc1).
  all: assert (Hs1 : share_step self s s1) by (right; right; by exists w).
  all: pose proof (sharing_ok_step _ _ Hok Hs1) as Hok1; rewrite Hl in Hl1.
  - pose proof (W_round self w s1 sig1 Hw1) as H2. set (s2 := with_alarms _ _ _) in H2.
    assert (Hs2 : share_step self s1 s2) by (right; right; by exists w).
    destruct (alarms_handled s2 (sharing_ok_step _ _ Hok1 Hs2)) as (s3 & Hs3%rtc_bsteps_2 & Ha & Hk).
    destruct (alarms_seg _ _ Hs3) as (E1 & E2 & E3).
    assert (Hl3 : sh_place s3 = Dozing) by (cbn in E3; rewrite Hl1 in E3; by destruct E3).
    exists (at_place s3 Asleep). split.
    + apply rtc_l with s1; [done|]. apply rtc_l with s2; [done|]. apply rtc_r with s3; [|left; by apply R_sleep].
      eapply rtc_subrel; [|exact Hs3]. intros ???; right; by left.
    + cbn. rewrite E1, E2. cbn. repeat split; [done..|]. rewrite lookup_insert_eq. by eexists.
  - destruct (IH s1 sig1 Hok1 Hl1 Hw1) as (s' & Hs' & H'). exists s'. split; [by eapply rtc_l|done].
Qed.
End Sharing.

Lemma share_start_ok self p writers :
  shm_ok p -> s_should_exit p = 0 -> self ∉ writers -> sharing_ok self (s_total p) (content p) (share_start p writers).
Proof.
  intros Hp He Hw. split; cbn; try done; [by left|]. apply not_elem_of_list_to_map_1. intros Hin. apply Hw.
  by rewrite <- list_fmap_compose, list_fmap_id in Hin.
Qed.



(** ** Stopping the group *)

(** The argument of main.stop.c asks to stop: none, or one that begins with [1]. *)
Definition asks_stop (arg : option (list byte)) : bool :=
  match arg with
  | None => true
  | Some a => match a with b :: _ => b2z b =? 49 | [] => false end
  end.

Lemma stop_main_ok arg p :
  stop_main 0 arg p =
    Ok (set_s_exit p (if asks_stop arg then 1 else 0),
        if s_read_pid p =? 0 then None else Some (s_read_pid p)).
Proof.
  unfold stop_main, asks_stop, get_read_pid, set_exit_group.
  destruct arg as [[|b a]|].
  - cbn. by destruct (s_read_pid p =? 0).
  - change (rd1 ((b :: a) ++ [x00]) 0) with (Ok b). cbn. by destruct (s_read_pid p =? 0).
  - cbn. by destruct (s_read_pid p =? 0).
Qed.

Lemma read_round_stops errx ok self pidd count p :
  s_should_exit p <> 0 -> 0 <= count ->
  read_round errx ok self pidd count p = Ok (None, count + 1).
Proof.
  intros He Hc. unfold read_round, check_exiit. decide_cmp. cbn [negb]. by decide_cmp.
Qed.

Lemma check_exiit_stops p count :
  s_should_exit p <> 0 -> 0 <= count -> 1 <= (check_exiit p count false).1.
Proof.
  intros He Hc. unfold check_exiit. decide_cmp. cbn [fst].
  destruct (count =? 0) eqn:E; b2p; cbn; lia.
Qed.

(** C32: main.stop.c signals the reader the segment names and, asked to stop, stops the
    group for good: whatever is written and read afterwards, the reading thread leaves its
    loop at its next turn, the main thread of the reader leaves after its next signal, and a
    writer ends after its next round.  Asked not to, everybody continues. *)
Theorem stop_protocol arg ops p :
  shm_ok p -> SZ_SHARED_ITEM <= s_total p - OFF_SHARED_DATA ->
  Forall (item_ok (s_total p)) ops ->
  exists p1 p2 out,
    stop_main 0 arg p = Ok (p1, if s_read_pid p =? 0 then None else Some (s_read_pid p)) /\
    shm_run ops p1 = Ok (p2, out) /\
    forall self pidd clock count, 0 <= count ->
      (exists r,
         read_round 0 true self pidd count p2 = Ok r /\
         (r.1 = None <-> asks_stop arg = true)) /\
      (read_main_exit p2 count).1 = asks_stop arg /\
      (exists p3 sig count', write_round clock p2 count = Ok (p3, sig, asks_stop arg, count')).
Proof.
  intros Hp Ht Hops. rewrite stop_main_ok. set (p1 := set_s_exit p _).
  assert (Hp1 : shm_ok p1) by exact Hp.
  destruct (shm_run_ok ops p1 Hp1 Hops) as (p2 & Hr & Hp2 & _ & Et & Ee).
  exists p1, p2, (buf_run (s_total p1) ops (content p1)).2. split; [done|]. split; [exact Hr|].
  intros self pidd clock count Hc. change (s_total p) with (s_total p1) in Ht.
  rewrite <- Et in Ht. destruct (write_round_ok clock p2 count Hp2 Ht) as (p3 & Hw & _).
  unfold read_main_exit. destruct (asks_stop arg) eqn:Ea.
  - assert (He : s_should_exit p2 <> 0) by (by rewrite Ee).
    pose proof (check_exiit_stops p2 count He Hc) as H1. rewrite read_round_stops by done.
    replace (1 <=? (check_exiit p2 count false).1) with true in Hw by (symmetry; lia).
    destruct (check_exiit p2 count false) as [n c]. cbn [fst] in *.
    split; [by eexists|]. split; [lia|]. eauto.
  - assert (He : s_should_exit p2 = 0) by (by rewrite Ee).
    destruct (read_round_ok self pidd count p2 Hp2 He) as (q & -> & _).
    unfold check_exiit in *. rewrite He in *. cbn in *.
    split; [by eexists|]. split; [done|]. eauto.
Qed.

Lemma stop_protocol_witness :
  shm_ok (set_s_pid shm_idle 7) /\ exists p1 p2 p3 sig count' out,
    stop_main 0 None (set_s_pid shm_idle 7) = Ok (p1, Some 7) /\
    shm_run [Write (str "late")] p1 = Ok (p2, out) /\
    write_round [Build_timespec 1 2] p2 0 = Ok (p3, sig, true, count').
Proof.
  assert (Hp : shm_ok (set_s_pid shm_idle 7)) by vm_side. split; [exact Hp|].
  destruct (stop_protocol None [Write (str "late")] (set_s_pid shm_idle 7) Hp ltac:(vm_side)
              ltac:(repeat constructor; vm_side)) as (p1 & p2 & out & H1 & H2 & H).
  destruct (H 0 0 [Build_timespec 1 2] 0 ltac:(vm_side)) as (_ & _ & p3 & sig & c & H3).
  exists p1, p2, p3, sig, c, out. split; [exact H1|]. split; [exact H2|exact H3].
Defined.

(** ** Opening and leaving *)

Lemma ftruncate_same p sz :
  shm_ok p -> s_total p = sz -> ftruncate p sz = p.
Proof.
  intros (Ht & Hl & Hu) <-. unfold ftruncate, OFF_SHARED_DATA, SZ_SHARED in *.
  unfold zlen in *. rewrite take_ge by lia.
  replace (Z.to_nat (s_total p - 286) - length (s_data p))%nat with 0%nat by lia.
  cbn. rewrite app_nil_r. by destruct p.
Qed.

(** the first process to open the segment creates it empty, with the whole size as its
    total; a process that opens it later, with the same size, finds the content as it was.
    Leaving unmaps it but never removes it, and the pointer that is kept is dead: a process
    that uses it again faults, while a new process still finds the content. *)
Theorem open_leave_spec k os p sz munmap_rc :
  os_shm os = true -> os_map os = Some true -> os_lock1 os = 0 -> os_lock2 os = 0 ->
  SZ_SHARED <= sz < 2 ^ 31 - 1 -> shm_ok p -> s_total p = sz ->
  (exists q, ntt_open_shm k os None ShmNull sz = (true, Some q, ShmMapped) /\ shm_ok q /\
             content q = [] /\ s_total q = sz) /\
  ntt_open_shm k os (Some p) ShmNull sz = (true, Some p, ShmMapped) /\
  (let '(err, seg, ptr) := ntt_unlink_shm (Some p) ShmMapped munmap_rc in
   err = munmap_rc /\ seg = Some p /\ shm_deref ptr seg = Fault DeadObject /\
   ntt_open_shm k os seg ShmNull sz = (true, Some p, ShmMapped)).
Proof.
  intros H1 H2 H3 H4 Hsz Hp Et. pose proof (ftruncate_same p sz Hp Et) as Ef.
  assert (Ho : ntt_open_shm k os (Some p) ShmNull sz = (true, Some p, ShmMapped))
    by (unfold ntt_open_shm, init_service; by rewrite H1, H2, Ef).
  split; [|split; [done|]].
  - exists (shm_fresh sz sz). split.
    + unfold ntt_open_shm, init_service. rewrite H1, H2, H3, H4. by destruct k.
    + unfold shm_ok, shm_fresh, content, OFF_SHARED_DATA, SZ_SHARED in *.
      cbn [s_total s_used_data s_data]. rewrite zlen_zeros by lia. split; [lia|done].
  - cbn [ntt_unlink_shm]. done.
Qed.

Lemma open_leave_spec_witness :
  shm_ok shm_ex /\
  ntt_open_shm Semaphore (Build_os_open true (Some true) 0 0) (Some shm_ex) ShmNull 320 =
    (true, Some shm_ex, ShmMapped).
Proof.
  assert (Hp : shm_ok shm_ex) by vm_side. split; [exact Hp|].
  destruct (open_leave_spec Semaphore (Build_os_open true (Some true) 0 0) shm_ex 320 0
              eq_refl eq_refl eq_refl eq_refl ltac:(vm_side) Hp eq_refl) as (_ & H & _).
  exact H.
Defined.
