(* ===== verification/Quicksort.v ===== *)
(** * Sorting

    Models the three sorting codes: src/quicksort/quicksort.c (Module [Recursive], with the
    non-recursive variant of that file), src/cluster/quicksort/main.c, and [lcs_partition],
    [lcs_quick_sort] and their [_ext] variants of src/cluster/common/lcs_common.c, which
    share one partition up to the comparison and the type of the saved element (Module
    [Lcs]).  Every access is checked against the bounds of the array. *)
From stdpp Require Import sorting.
From S2P Require Import Prelude GenList.

(** ** Arrays *)

Section Array.
Context {A : Type}.
Implicit Types d : list A.

(** The element at an index, and access as the code does it. *)
Definition aget d (i : Z) : option A := if 0 <=? i then d !! Z.to_nat i else None.
Definition get d (i : Z) : res A :=
  match aget d i with Some x => Ok x | None => Fault OobRead end.
Definition put d (i : Z) (x : A) : res (list A) :=
  match aget d i with Some _ => Ok (<[Z.to_nat i := x]> d) | None => Fault OobWrite end.

(** [tmp = data[i]; data[i] = data[j]; data[j] = tmp], where [tr] is what the type of [tmp]
    keeps of the element. *)
Definition swap (tr : A -> A) d (i j : Z) : res (list A) :=
  x ← get d i;
  y ← get d j;
  d ← put d i y;
  put d j (tr x).

(** [d'] arises from [d] by rearranging the positions from [l] to [h]. *)
Definition within (l h : Z) d d' : Prop :=
  d' ≡ₚ d /\
  (forall k, k < l \/ h < k -> aget d' k = aget d k) /\
  (forall k, l <= k <= h -> exists k', l <= k' <= h /\ aget d' k = aget d k').

Lemma aget_some d i : 0 <= i < zlen d -> exists x, aget d i = Some x.
Proof.
  intros H. unfold aget. decide_cmp. unfold zlen in H.
  destruct (d !! Z.to_nat i) eqn:E; [eauto|]. apply lookup_ge_None in E. lia.
Qed.

Lemma aget_range d i x : aget d i = Some x -> 0 <= i < zlen d.
Proof.
  unfold aget, zlen. destruct (0 <=? i) eqn:E; [|done]. b2p.
  intros H%lookup_lt_Some. lia.
Qed.

Lemma aget_insert d i x k :
  0 <= i < zlen d -> aget (<[Z.to_nat i := x]> d) k = if k =? i then Some x else aget d k.
Proof.
  intros H. unfold aget, zlen in *. destruct (k =? i) eqn:E; b2p.
  - subst. decide_cmp. apply list_lookup_insert_eq. lia.
  - destruct (0 <=? k) eqn:E2; [|done]. b2p. apply list_lookup_insert_ne. lia.
Qed.

Lemma aget_elem d i x : aget d i = Some x -> x ∈ d.
Proof. unfold aget. destruct (0 <=? i); [|done]. apply list_elem_of_lookup_2. Qed.

Lemma within_refl l h d : within l h d d.
Proof. split; [done|]. split; [done|]. intros k Hk. by exists k. Qed.

Lemma within_trans l h d1 d2 d3 : within l h d1 d2 -> within l h d2 d3 -> within l h d1 d3.
Proof.
  intros (P1 & O1 & I1) (P2 & O2 & I2). split; [by rewrite P2|]. split.
  - intros k Hk. by rewrite O2, O1.
  - intros k Hk. destruct (I2 k Hk) as (k' & Hk' & ->). by apply I1.
Qed.

Lemma within_mono l h l' h' d d' : l' <= l -> h <= h' -> within l h d d' -> within l' h' d d'.
Proof.
  intros Hl Hh (P & O & I). split; [done|]. split; [intros k Hk; apply O; lia|].
  intros k Hk. destruct (decide (l <= k <= h)) as [Hin|Hin].
  - destruct (I k Hin) as (k' & ? & ?). exists k'. split; [lia|done].
  - exists k. split; [done|]. apply O. lia.
Qed.

Lemma within_zlen l h d d' : within l h d d' -> zlen d' = zlen d.
Proof. intros (P & _). unfold zlen. by rewrite P. Qed.

Lemma within_Forall (P : A -> Prop) l h d d' : within l h d d' -> Forall P d -> Forall P d'.
Proof. intros (E & _) H. by rewrite E. Qed.

Lemma get_ok d i x : aget d i = Some x -> get d i = Ok x.
Proof. unfold get. by intros ->. Qed.

Lemma swap_ok tr d i j x y :
  aget d i = Some x -> aget d j = Some y -> tr x = x ->
  exists d', swap tr d i j = Ok d' /\ (forall l h, l <= i <= h -> l <= j <= h -> within l h d d') /\
    forall k, aget d' k = if k =? j then Some x else if k =? i then Some y else aget d k.
Proof.
  intros Hi Hj Hx. pose proof (aget_range _ _ _ Hi) as Ri. pose proof (aget_range _ _ _ Hj) as Rj.
  assert (Hlen : forall z, zlen (<[Z.to_nat i:=z]> d) = zlen d)
    by (intros; unfold zlen; by rewrite length_insert).
  assert (Hget : forall k, aget (<[Z.to_nat j:=x]> (<[Z.to_nat i:=y]> d)) k =
                   if k =? j then Some x else if k =? i then Some y else aget d k).
  { intros k. rewrite !aget_insert by (rewrite ?Hlen; lia). done. }
  exists (<[Z.to_nat j:=x]> (<[Z.to_nat i:=y]> d)). split; [|split; [|exact Hget]].
  - unfold swap, get, put. rewrite Hi, Hj. cbn [mbind res_bind].
    rewrite aget_insert by lia. rewrite Hj, Hx. by destruct (j =? i).
  - intros l h Hil Hjl. split; [|split].
    + apply Permutation_insert_swap; [|].
      * unfold aget in Hi. by destruct (0 <=? i).
      * unfold aget in Hj. by destruct (0 <=? j).
    + intros k Hk. rewrite Hget. decide_cmp. done.
    + intros k Hk. rewrite Hget. destruct (k =? j) eqn:E1; [by exists i|].
      destruct (k =? i) eqn:E2; [by exists j|]. by exists k.
Qed.
End Array.

(** ** Orders and sortedness *)

(** What the sorting codes rely on of the comparison they are given. *)
Class CmpLaws {A} (cmp : A -> A -> Z) : Prop := {
  cmp_flip x y : cmp x y < 0 <-> 0 < cmp y x;
  cmp_trans x y z : cmp x y <= 0 -> cmp y z <= 0 -> cmp x z <= 0
}.

(** [>], [<] and [>=] of integers as the sign of a comparison. *)
Definition zcmp (x y : Z) : Z := if x <? y then -1 else if y <? x then 1 else 0.

#[global] Instance zcmp_laws : CmpLaws zcmp.
Proof.
  split; unfold zcmp; intros;
    repeat match goal with |- context [?a <? ?b] => destruct (Z.ltb_spec a b) end;
    repeat match goal with H : context [?a <? ?b] |- _ => destruct (Z.ltb_spec a b) end; lia.
Qed.

(** Sorted from [l] to [h]. *)
Definition sorted_between {A} (cmp : A -> A -> Z) (l h : Z) (d : list A) : Prop :=
  forall p q x y, l <= p -> p <= q -> q <= h ->
    aget d p = Some x -> aget d q = Some y -> cmp x y <= 0.
(** Everything in one range is below everything in another. *)
Definition below {A} (cmp : A -> A -> Z) (l1 h1 l2 h2 : Z) (d : list A) : Prop :=
  forall p q x y, l1 <= p <= h1 -> l2 <= q <= h2 ->
    aget d p = Some x -> aget d q = Some y -> cmp x y <= 0.

Section Orders.
Context {A : Type} (cmp : A -> A -> Z) `{!CmpLaws cmp}.

Lemma cmp_refl x : cmp x x <= 0.
Proof. pose proof (cmp_flip x x). lia. Qed.

Lemma cmp_total x y : cmp x y <= 0 \/ cmp y x < 0.
Proof. pose proof (cmp_flip y x). lia. Qed.

Lemma cmp_pos x y : 0 < cmp x y -> cmp y x <= 0.
Proof. pose proof (cmp_flip y x). lia. Qed.

Lemma cmp_nonneg x y : 0 <= cmp x y <-> cmp y x <= 0.
Proof. pose proof (cmp_flip y x). pose proof (cmp_flip x y). lia. Qed.

Lemma sorted_single l h d : h <= l -> sorted_between cmp l h d.
Proof.
  intros H p q x y H1 H2 H3 Hp Hq. assert (p = q) as -> by lia.
  rewrite Hp in Hq. injection Hq as ->. apply cmp_refl.
Qed.

Lemma below_within l1 h1 l2 h2 d d' l h :
  (l1 <= l /\ h <= h1) \/ (l2 <= l /\ h <= h2) -> (h1 < l2) ->
  below cmp l1 h1 l2 h2 d -> within l h d d' -> below cmp l1 h1 l2 h2 d'.
Proof.
  intros Hr Hd Hb (_ & O & I) p q x y Hp Hq Ep Eq.
  assert (exists p', l1 <= p' <= h1 /\ aget d' p = aget d p') as (p' & Hp' & Ep').
  { destruct (decide (l <= p <= h)) as [Hin|Hin].
    - destruct Hr as [Hr|Hr]; [|lia]. destruct (I p Hin) as (p' & ? & ?). exists p'. split; [lia|done].
    - exists p. split; [done|]. apply O. lia. }
  assert (exists q', l2 <= q' <= h2 /\ aget d' q = aget d q') as (q' & Hq' & Eq').
  { destruct (decide (l <= q <= h)) as [Hin|Hin].
    - destruct Hr as [Hr|Hr]; [lia|]. destruct (I q Hin) as (q' & ? & ?). exists q'. split; [lia|done].
    - exists q. split; [done|]. apply O. lia. }
  apply (Hb p' q'); try lia; congruence.
Qed.

Lemma sorted_outside l h l' h' d d' :
  h < l' \/ h' < l -> sorted_between cmp l h d -> within l' h' d d' -> sorted_between cmp l h d'.
Proof.
  intros Hd Hs (_ & O & _) p q x y H1 H2 H3 Hp Hq.
  apply (Hs p q); try lia; rewrite <- O; try done; lia.
Qed.

Lemma sorted_join l m h d :
  sorted_between cmp l (m - 1) d -> sorted_between cmp m h d -> below cmp l (m - 1) m h d ->
  sorted_between cmp l h d.
Proof.
  intros Hl Hh Hb p q x y H1 H2 H3 Hp Hq.
  destruct (decide (q < m)); [by apply (Hl p q); try lia|].
  destruct (decide (m <= p)); [by apply (Hh p q); try lia|].
  by apply (Hb p q); try lia.
Qed.
End Orders.

(** ** The partition loop *)

(** Between [low] and [i] everything is at most the pivot, behind [j] at least. *)
Definition parted {A} (cmp : A -> A -> Z) (low hi : Z) (pivot : A) (i j : Z) (d : list A) : Prop :=
  (forall k x, low < k < i -> aget d k = Some x -> cmp x pivot <= 0) /\
  (forall k x, j < k <= hi -> aget d k = Some x -> cmp pivot x <= 0).

Section Parted.
Context {A : Type} (cmp : A -> A -> Z) `{!CmpLaws cmp}.
Variables (low hi : Z) (pivot : A).

Lemma parted_down i j d y :
  parted cmp low hi pivot i j d -> aget d j = Some y -> cmp pivot y <= 0 ->
  parted cmp low hi pivot i (j - 1) d.
Proof.
  intros [Hl Hh] Hj Hy. split; [done|]. intros k x Hk Hx.
  destruct (decide (k = j)) as [->|]; [by rewrite Hj in Hx; injection Hx as <-|].
  apply (Hh k); [lia|done].
Qed.

Lemma parted_up i j d y :
  parted cmp low hi pivot i j d -> aget d i = Some y -> cmp y pivot <= 0 ->
  parted cmp low hi pivot (i + 1) j d.
Proof.
  intros [Hl Hh] Hi Hy. split; [|done]. intros k x Hk Hx.
  destruct (decide (k = i)) as [->|]; [by rewrite Hi in Hx; injection Hx as <-|].
  apply (Hl k); [lia|done].
Qed.

Lemma parted_swap i j d d' x y :
  parted cmp low hi pivot i j d -> i < j -> cmp y pivot <= 0 -> cmp pivot x <= 0 ->
  (forall k, aget d' k = if k =? j then Some x else if k =? i then Some y else aget d k) ->
  parted cmp low hi pivot (i + 1) (j - 1) d'.
Proof.
  intros [Hl Hh] Hij Hy Hx Hd. split; intros k z Hk Hz; rewrite Hd in Hz.
  - destruct (k =? j) eqn:E1; b2p; [lia|]. destruct (k =? i) eqn:E2; b2p.
    + by injection Hz as <-.
    + apply (Hl k); [lia|done].
  - destruct (k =? j) eqn:E1; b2p; [by injection Hz as <-|].
    destruct (k =? i) eqn:E2; b2p; [lia|]. apply (Hh k); [lia|done].
Qed.

(** The pivot is at [low]; the element that takes its place is at [j]. *)
Lemma parted_place i j d d' y :
  parted cmp low hi pivot i j d -> low < j -> j <= i -> cmp y pivot <= 0 ->
  (forall k, aget d' k = if k =? j then Some pivot else if k =? low then Some y else aget d k) ->
  (forall k x, low <= k < j -> aget d' k = Some x -> cmp x pivot <= 0) /\
  (forall k x, j <= k <= hi -> aget d' k = Some x -> cmp pivot x <= 0).
Proof.
  intros [Hl Hh] H1 H2 Hy Hd. split; intros k z Hk Hz; rewrite Hd in Hz.
  - replace (k =? j) with false in Hz by (symmetry; apply Z.eqb_neq; lia).
    destruct (k =? low) eqn:E2; b2p; [by injection Hz as <-|]. apply (Hl k); [lia|done].
  - destruct (k =? j) eqn:E1; b2p; [injection Hz as <-; by apply cmp_refl|].
    replace (k =? low) with false in Hz by (symmetry; apply Z.eqb_neq; lia).
    apply (Hh k); [lia|done].
Qed.

Lemma below_pivot l1 h1 l2 h2 d :
  (forall k x, l1 <= k <= h1 -> aget d k = Some x -> cmp x pivot <= 0) ->
  (forall k x, l2 <= k <= h2 -> aget d k = Some x -> cmp pivot x <= 0) ->
  below cmp l1 h1 l2 h2 d.
Proof.
  intros Hl Hh p q x y Hp Hq Ep Eq. apply (cmp_trans x pivot y); [by apply (Hl p)|by apply (Hh q)].
Qed.
End Parted.

(** ** src/cluster: [lcs_common.c] and [quicksort/main.c] *)

Module Lcs.
Section Lcs.
Context {A : Type}.
(** The comparison, and what the type of [tmp] keeps of an element. *)
Variables (f : A -> A -> Z) (tr : A -> A).

(** [while (f(pivot, data[j]) <= 0) { if (i < j) j--; else break; }] *)
Fixpoint down (n : nat) (d : list A) (pivot : A) (i j : Z) : res Z :=
  match n with
  | O => Fault NoFuel
  | S n =>
    y ← get d j;
    if f pivot y <=? 0 then if i <? j then down n d pivot i (j - 1) else Ok j else Ok j
  end.
(** [while (f(pivot, data[i]) >= 0) { if (i < j) i++; else break; }] *)
Fixpoint up (n : nat) (d : list A) (pivot : A) (i j : Z) : res Z :=
  match n with
  | O => Fault NoFuel
  | S n =>
    x ← get d i;
    if 0 <=? f pivot x then if i <? j then up n d pivot (i + 1) j else Ok i else Ok i
  end.
Fixpoint part_loop (n : nat) (d : list A) (pivot : A) (i j : Z) : res (list A * Z) :=
  match n with
  | O => Fault NoFuel
  | S n =>
    if i <? j then
      j ← down (S (Z.to_nat (j - i))) d pivot i j;
      i ← up (S (Z.to_nat (j - i))) d pivot i j;
      if i <? j then
        d ← swap tr d i j;
        part_loop n d pivot (i + 1) (j - 1)
      else part_loop n d pivot i j
    else Ok (d, j)
  end.
Definition lcs_partition_ext (d : list A) (low hi : Z) : res (list A * Z) :=
  pivot ← get d low;
  '(d, j) ← part_loop (S (Z.to_nat (hi - low))) d pivot (low + 1) hi;
  y ← get d j;
  if f y pivot <? 0 then d ← swap tr d low j; Ok (d, j) else Ok (d, j).

Fixpoint lcs_quick_sort_ext (n : nat) (d : list A) (low hi : Z) : res (list A) :=
  match n with
  | O => Fault NoFuel
  | S n =>
    '(d, j) ← lcs_partition_ext d low hi;
    d ← (if low <? j - 1 then lcs_quick_sort_ext n d low (j - 1) else Ok d);
    if j <? hi then lcs_quick_sort_ext n d j hi else Ok d
  end.

Context `{!CmpLaws f}.

Lemma down_ok n d pivot i j low hi :
  0 <= i -> i <= j -> j < zlen d -> (Z.to_nat (j - i) < n)%nat -> parted f low hi pivot i j d ->
  exists j' y, down n d pivot i j = Ok j' /\ i <= j' <= j /\ parted f low hi pivot i j' d /\
    aget d j' = Some y /\ (i < j' -> 0 < f pivot y).
Proof.
  revert j. induction n as [|n IH]; intros j H0 H1 H2 Hn Hp; [lia|]. cbn [down].
  destruct (aget_some d j) as (y & Hy); [lia|]. rewrite (get_ok _ _ _ Hy). cbn [mbind res_bind].
  destruct (f pivot y <=? 0) eqn:E; b2p.
  - destruct (i <? j) eqn:E2; b2p.
    + destruct (IH (j - 1)) as (j' & z & Hd & ? & ? & ? & ?); try lia.
      { by apply (parted_down f low hi pivot i j d y). }
      exists j', z. split; [done|]. split; [lia|]. done.
    + exists j, y. split; [done|]. split; [lia|]. split; [done|]. split; [done|]. lia.
  - exists j, y. split; [done|]. split; [lia|]. split; [done|]. split; [done|]. lia.
Qed.

Lemma up_ok n d pivot i j low hi :
  0 <= i -> i <= j -> j < zlen d -> (Z.to_nat (j - i) < n)%nat -> parted f low hi pivot i j d ->
  exists i' x, up n d pivot i j = Ok i' /\ i <= i' <= j /\ parted f low hi pivot i' j d /\
    aget d i' = Some x /\ (i' < j -> f pivot x < 0).
Proof.
  revert i. induction n as [|n IH]; intros i H0 H1 H2 Hn Hp; [lia|]. cbn [up].
  destruct (aget_some d i) as (x & Hx); [lia|]. rewrite (get_ok _ _ _ Hx). cbn [mbind res_bind].
  destruct (0 <=? f pivot x) eqn:E; b2p.
  - destruct (i <? j) eqn:E2; b2p.
    + destruct (IH (i + 1)) as (i' & z & Hd & ? & ? & ? & ?); try lia.
      { apply (parted_up f low hi pivot i j d x); [done..|]. by apply cmp_nonneg. }
      exists i', z. split; [done|]. split; [lia|]. done.
    + exists i, x. split; [done|]. split; [lia|]. split; [done|]. split; [done|]. lia.
  - exists i, x. split; [done|]. split; [lia|]. split; [done|]. split; [done|]. lia.
Qed.

Lemma part_loop_ok n d pivot i j low hi :
  0 <= low -> low < i -> low < j -> i <= j + 1 -> j <= hi -> hi < zlen d ->
  (Z.to_nat (j - i) < n)%nat -> parted f low hi pivot i j d -> Forall (fun x => tr x = x) d ->
  exists d' i' j', part_loop n d pivot i j = Ok (d', j') /\ within (low + 1) hi d d' /\
    low < j' <= hi /\ j' <= i' <= j' + 1 /\ parted f low hi pivot i' j' d'.
Proof.
  revert d i j. induction n as [|n IH]; intros d i j H0 Hi Hj Hij Hhi Hlen Hn Hp Htr; [lia|].
  cbn [part_loop]. destruct (i <? j) eqn:E; b2p.
  - destruct (down_ok (S (Z.to_nat (j - i))) d pivot i j low hi) as (j1 & y & -> & Hj1 & Hp1 & Hy & Hyp);
      try lia; [done|]. cbn [mbind res_bind].
    destruct (up_ok (S (Z.to_nat (j1 - i))) d pivot i j1 low hi) as (i1 & x & -> & Hi1 & Hp2 & Hx & Hxp);
      try lia; [done|]. cbn [mbind res_bind].
    destruct (i1 <? j1) eqn:E1; b2p.
    + destruct (swap_ok tr d i1 j1 x y Hx Hy) as (d1 & -> & Hw & Hd1).
      { rewrite Forall_forall in Htr. apply Htr. by apply (aget_elem d i1). }
      cbn [mbind res_bind].
      assert (Hw1 : within (low + 1) hi d d1) by (apply Hw; lia).
      destruct (IH d1 (i1 + 1) (j1 - 1)) as (d' & i' & j' & -> & Hw' & ? & ? & ?); try lia.
      { by rewrite (within_zlen _ _ _ _ Hw1). }
      { apply (parted_swap f low hi pivot i1 j1 d d1 x y); try done; try lia.
        apply cmp_pos; [done|]. lia. }
      { by apply (within_Forall _ _ _ _ _ Hw1). }
      exists d', i', j'. split; [done|]. split; [by apply (within_trans _ _ _ d1)|]. done.
    + destruct (IH d i1 j1) as (d' & i' & j' & -> & Hw' & ? & ? & ?); try lia; try done.
      exists d', i', j'. done.
  - exists d, i, j. split; [done|]. split; [apply within_refl|]. split; [lia|]. split; [lia|done].
Qed.

(** The partition rearranges the range so that the part before [j] is below the rest. *)
Lemma lcs_partition_ok d low hi :
  0 <= low < hi -> hi < zlen d -> Forall (fun x => tr x = x) d ->
  exists d' j, lcs_partition_ext d low hi = Ok (d', j) /\ within low hi d d' /\ low < j <= hi /\
    below f low (j - 1) j hi d'.
Proof.
  intros Hl Hh Htr. unfold lcs_partition_ext.
  destruct (aget_some d low) as (pivot & Hpv); [lia|]. rewrite (get_ok _ _ _ Hpv).
  cbn [mbind res_bind].
  destruct (part_loop_ok (S (Z.to_nat (hi - low))) d pivot (low + 1) hi low hi)
    as (d1 & i & j & -> & Hw & Hj & Hij & Hp); try lia; [split; intros; lia|done|].
  cbn [mbind res_bind]. pose proof (within_zlen _ _ _ _ Hw) as Hz.
  destruct (aget_some d1 j) as (y & Hy); [lia|]. rewrite (get_ok _ _ _ Hy). cbn [mbind res_bind].
  assert (Hpv1 : aget d1 low = Some pivot)
    by (destruct Hw as (_ & O & _); rewrite O; [done|lia]).
  assert (Hw0 : within low hi d d1) by (apply (within_mono (low + 1) hi); try done; lia).
  destruct (f y pivot <? 0) eqn:E; b2p.
  - destruct (swap_ok tr d1 low j pivot y Hpv1 Hy) as (d2 & -> & Hw2 & Hd2).
    { rewrite Forall_forall in Htr. apply Htr. by apply (aget_elem d low). }
    cbn [mbind res_bind]. exists d2, j. split; [done|].
    split; [apply (within_trans _ _ _ d1); [done|]; apply Hw2; lia|]. split; [lia|].
    destruct (parted_place f low hi pivot i j d1 d2 y) as [Pl Ph]; try done; try lia.
    apply (below_pivot f pivot); [|done]. intros k x Hk. apply Pl. lia.
  - exists d1, j. split; [done|]. split; [done|]. split; [lia|]. destruct Hp as [Pl Ph].
    apply (below_pivot f pivot).
    + intros k x Hk Hx. destruct (decide (k = low)) as [->|].
      * rewrite Hpv1 in Hx. injection Hx as <-. by apply cmp_refl.
      * apply (Pl k); [lia|done].
    + intros k x Hk Hx. destruct (decide (k = j)) as [->|].
      * rewrite Hy in Hx. injection Hx as <-. pose proof (cmp_nonneg f y pivot). lia.
      * apply (Ph k); [lia|done].
Qed.

(** A single element is left alone. *)
Lemma lcs_partition_single d low :
  0 <= low < zlen d -> lcs_partition_ext d low low = Ok (d, low).
Proof.
  intros H. unfold lcs_partition_ext. destruct (aget_some d low H) as (x & Hx).
  rewrite (get_ok _ _ _ Hx). cbn [mbind res_bind part_loop].
  replace (low + 1 <? low) with false by (symmetry; apply Z.ltb_ge; lia). cbn [mbind res_bind].
  rewrite (get_ok _ _ _ Hx). cbn [mbind res_bind]. pose proof (cmp_flip x x).
  by replace (f x x <? 0) with false by (symmetry; apply Z.ltb_ge; lia).
Qed.

Lemma lcs_quick_sort_ok n d low hi :
  0 <= low <= hi -> hi < zlen d -> (Z.to_nat (hi - low) < n)%nat ->
  Forall (fun x => tr x = x) d ->
  exists d', lcs_quick_sort_ext n d low hi = Ok d' /\ within low hi d d' /\
    sorted_between f low hi d'.
Proof.
  revert d low hi. induction n as [|n IH]; intros d low hi Hl Hh Hn Htr; [lia|].
  cbn [lcs_quick_sort_ext]. destruct (decide (low = hi)) as [->|Hne].
  { rewrite lcs_partition_single by lia. cbn [mbind res_bind]. decide_cmp. cbn [mbind res_bind].
    exists d. split; [done|]. split; [apply within_refl|]. apply sorted_single; [done|lia]. }
  destruct (lcs_partition_ok d low hi) as (d1 & j & -> & Hw1 & Hj & Hb1); [lia|lia|done|].
  cbn [mbind res_bind]. pose proof (within_zlen _ _ _ _ Hw1) as Z1.
  pose proof (within_Forall _ _ _ _ _ Hw1 Htr) as Htr1.
  assert (exists d2, (if low <? j - 1 then lcs_quick_sort_ext n d1 low (j - 1) else Ok d1) = Ok d2 /\
            within low (j - 1) d1 d2 /\ sorted_between f low (j - 1) d2) as (d2 & -> & Hw2 & Hs2).
  { destruct (low <? j - 1) eqn:E; b2p; [apply IH; try lia; done|].
    exists d1. split; [done|]. split; [apply within_refl|]. apply sorted_single; [done|lia]. }
  cbn [mbind res_bind]. pose proof (within_zlen _ _ _ _ Hw2) as Z2.
  pose proof (within_Forall _ _ _ _ _ Hw2 Htr1) as Htr2.
  assert (exists d3, (if j <? hi then lcs_quick_sort_ext n d2 j hi else Ok d2) = Ok d3 /\
            within j hi d2 d3 /\ sorted_between f j hi d3) as (d3 & -> & Hw3 & Hs3).
  { destruct (j <? hi) eqn:E; b2p; [apply IH; try lia; done|].
    exists d2. split; [done|]. split; [apply within_refl|]. apply sorted_single; [done|lia]. }
  exists d3. split; [done|]. split.
  - apply (within_trans _ _ _ d1); [done|]. apply (within_trans _ _ _ d2).
    + apply (within_mono low (j - 1)); try lia. done.
    + apply (within_mono j hi); try lia. done.
  - apply (sorted_join f low j hi).
    + apply (sorted_outside f low (j - 1) j hi d2); [lia|done|done].
    + done.
    + apply (below_within f low (j - 1) j hi d2 d3 j hi); [lia|lia| |done].
      apply (below_within f low (j - 1) j hi d1 d2 low (j - 1)); [lia|lia|done|done].
Qed.
End Lcs.

(** The file names are sorted by [strcmp]; the pointers are exchanged whole. *)
Definition lcs_partition (d : list (list byte)) (low hi : Z) : res (list (list byte) * Z) :=
  lcs_partition_ext strcmp id d low hi.
Definition lcs_quick_sort (n : nat) (d : list (list byte)) (low hi : Z) : res (list (list byte)) :=
  lcs_quick_sort_ext strcmp id n d low hi.

(** main.c sorts [long]s, saving an element in an [int]. *)
Definition partition (d : list Z) (low hi : Z) : res (list Z * Z) :=
  lcs_partition_ext zcmp as_int d low hi.
Definition quick_sort (n : nat) (d : list Z) (low hi : Z) : res (list Z) :=
  lcs_quick_sort_ext zcmp as_int n d low hi.

(** The segments that are queued after [lo] to [h] is split at [j]. *)
Definition seg_push (lo h j : Z) : list (Z * Z) :=
  (if lo <? j - 1 then [(lo, j - 1)] else []) ++ (if j <? h then [(j, h)] else []).

(** The list [root] of segments still to sort; [malloc] is assumed to succeed. *)
Fixpoint nr_loop (n : nat) (d : list Z) (root : list (Z * Z)) : res (list Z) :=
  match n with
  | O => Fault NoFuel
  | S n =>
    match root with
    | [] => Ok d
    | (tmp_low, tmp_hi) :: root =>
      '(d, j) ← partition d tmp_low tmp_hi;
      nr_loop n d (root ++ seg_push tmp_low tmp_hi j)
    end
  end.
Definition quick_sort_non_recursive (d : list Z) (low hi : Z) : res (list Z) :=
  if hi <=? low then Ok d else nr_loop (S (Z.to_nat (hi - low))) d [(low, hi)].

(** [total++; arr_low[total] = lo; arr_hi[total] = h], under the condition [b]. *)
Definition imp_push (b : bool) (lo h : Z) (s : list Z * list Z * Z) : res (list Z * list Z * Z) :=
  let '(al, ah, total) := s in
  if b then al ← put al (total + 1) lo; ah ← put ah (total + 1) h; Ok (al, ah, total + 1)
  else Ok s.
Fixpoint imp_loop (n : nat) (d al ah : list Z) (total jump : Z) : res (list Z) :=
  match n with
  | O => Fault NoFuel
  | S n =>
    tmp_hi ← get ah jump;
    if 0 <? tmp_hi then
      tmp_low ← get al jump;
      '(d, j) ← partition d tmp_low tmp_hi;
      s ← imp_push (tmp_low <? j - 1) tmp_low (j - 1) (al, ah, total);
      '(al, ah, total) ← imp_push (j <? tmp_hi) j tmp_hi s;
      imp_loop n d al ah total (jump + 1)
    else Ok d
  end.
Definition quick_sort_non_recursive_improve (d : list Z) (low hi : Z) : res (list Z) :=
  if hi <=? low then Ok d
  else
    let size_tmp := wrap 32 ((hi - low + 1) * 4) in
    let zero := replicate (Z.to_nat (size_tmp / 4)) 0 in
    arr_low ← put zero 0 low;
    arr_hi ← put zero 0 hi;
    imp_loop (S (Z.to_nat (hi - low))) d arr_low arr_hi 0 0.

(** The check the programs end with. *)
Fixpoint unit_test_loop (n : nat) (arr : list Z) (i length : Z) (result : Z) : res Z :=
  match n with
  | O => Fault NoFuel
  | S n =>
    if i <? length - 1 then
      x ← get arr i; y ← get arr (i + 1);
      unit_test_loop n arr (i + 1) length (if y <? x then 0 else result)
    else Ok result
  end.
Definition unit_test (arr : list Z) (length : Z) : res Z :=
  unit_test_loop (S (Z.to_nat length)) arr 0 length 1.

(** ** The segments still to sort *)

Definition apart (s t : Z * Z) : Prop := s.2 < t.1 \/ t.2 < s.1.
Fixpoint disjoint_segs (q : list (Z * Z)) : Prop :=
  match q with
  | [] => True
  | s :: q => Forall (apart s) q /\ disjoint_segs q
  end.
(** Two positions out of order lie in one segment. *)
Definition seg_inv (low hi : Z) (q : list (Z * Z)) (d : list Z) : Prop :=
  Forall (fun s => low <= s.1 /\ s.1 < s.2 /\ s.2 <= hi) q /\ disjoint_segs q /\
  forall p p' x y, low <= p -> p < p' -> p' <= hi -> aget d p = Some x -> aget d p' = Some y ->
    zcmp x y <= 0 \/ Exists (fun s => s.1 <= p /\ p' <= s.2) q.
Definition weight (q : list (Z * Z)) : Z := foldr (fun s w => s.2 - s.1 + w) 0 q.

Lemma disjoint_segs_app q r :
  disjoint_segs (q ++ r) <->
  disjoint_segs q /\ disjoint_segs r /\ Forall (fun s => Forall (apart s) r) q.
Proof.
  induction q as [|s q IH]; cbn [app disjoint_segs]; [by intuition|].
  rewrite IH, Forall_app, Forall_cons. intuition.
Qed.

Lemma weight_app q r : weight (q ++ r) = weight q + weight r.
Proof. unfold weight. induction q; cbn; lia. Qed.

Lemma weight_push lo h j : lo < j <= h -> 0 <= weight (seg_push lo h j) <= h - lo - 1.
Proof.
  intros H. unfold seg_push, weight. destruct (lo <? j - 1) eqn:E1, (j <? h) eqn:E2; b2p; cbn; lia.
Qed.

Lemma weight_nonneg low hi q :
  Forall (fun s : Z * Z => low <= s.1 /\ s.1 < s.2 /\ s.2 <= hi) q -> zlen q <= weight q.
Proof. unfold weight. induction 1 as [|s q (? & ? & ?) _ IH]; [done|]. rewrite zlen_cons. cbn. lia. Qed.

Lemma seg_push_range lo h j :
  lo < j <= h -> Forall (fun s => lo <= s.1 /\ s.1 < s.2 /\ s.2 <= h) (seg_push lo h j).
Proof.
  intros H. unfold seg_push. apply Forall_app. split.
  - destruct (lo <? j - 1) eqn:E; b2p; repeat constructor; cbn; lia.
  - destruct (j <? h) eqn:E; b2p; repeat constructor; cbn; lia.
Qed.
Lemma seg_push_disjoint lo h j : disjoint_segs (seg_push lo h j).
Proof.
  unfold seg_push. destruct (lo <? j - 1), (j <? h); repeat constructor. unfold apart. cbn. lia.
Qed.

(** A position outside a segment compares with every position of it as before. *)
Lemma inv_push low hi lo h q d d' j :
  seg_inv low hi ((lo, h) :: q) d -> within lo h d d' -> lo < j <= h ->
  below zcmp lo (j - 1) j h d' -> seg_inv low hi (q ++ seg_push lo h j) d'.
Proof.
  intros (Hr & [Ha Hd] & Hs) Hw Hj Hb.
  apply Forall_cons in Hr as [Hlh Hr]. cbn [fst snd] in *.
  pose proof (seg_push_range lo h j Hj) as Hpr.
  split; [|split].
  - apply Forall_app. split; [done|]. eapply Forall_impl; [exact Hpr|]. cbn. lia.
  - apply disjoint_segs_app. split; [done|]. split; [apply seg_push_disjoint|].
    eapply Forall_impl; [exact Ha|]. intros s Hap. eapply Forall_impl; [exact Hpr|].
    intros t Ht. unfold apart in *. cbn in *. lia.
  - destruct Hw as (_ & O & I). intros p p' x y H1 H2 H3 Hp Hp'.
    rewrite Exists_app.
    assert (Hout : forall k, k < lo \/ h < k ->
              Exists (fun s : Z * Z => s.1 <= k <= s.2) ((lo, h) :: q) ->
              Exists (fun s : Z * Z => s.1 <= k <= s.2) q).
    { intros k Hk [He|He]%Exists_cons; [cbn in He; lia|done]. }
    destruct (decide (lo <= p <= h)) as [Hin|Hin], (decide (lo <= p' <= h)) as [Hin'|Hin'].
    + destruct (decide (p < j)) as [Hpj|Hpj], (decide (p' < j)) as [Hpj'|Hpj'].
      * right. right. unfold seg_push. apply Exists_app. left.
        replace (lo <? j - 1) with true by (symmetry; apply Z.ltb_lt; lia).
        apply Exists_cons_hd. cbn. lia.
      * left. apply (Hb p p'); try done; lia.
      * lia.
      * right. right. unfold seg_push. apply Exists_app. right.
        replace (j <? h) with true by (symmetry; apply Z.ltb_lt; lia).
        apply Exists_cons_hd. cbn. lia.
    + destruct (I p Hin) as (k & Hk & Ek). rewrite Ek in Hp. rewrite O in Hp' by lia.
      destruct (Hs k p' x y) as [|He]; try done; try lia.
      apply Exists_cons in He as [He|He]; [cbn in He; lia|].
      apply Exists_exists in He as (s & Hin2 & He). rewrite Forall_forall in Ha.
      specialize (Ha s Hin2). unfold apart in Ha. cbn in *. lia.
    + destruct (I p' Hin') as (k & Hk & Ek). rewrite Ek in Hp'. rewrite O in Hp by lia.
      destruct (Hs p k x y) as [|He]; try done; try lia.
      apply Exists_cons in He as [He|He]; [cbn in He; lia|].
      apply Exists_exists in He as (s & Hin2 & He). rewrite Forall_forall in Ha.
      specialize (Ha s Hin2). unfold apart in Ha. cbn in *. lia.
    + rewrite O in Hp, Hp' by lia.
      destruct (Hs p p' x y) as [|He]; try done; [by left|].
      apply Exists_cons in He as [He|He]; [cbn in He; lia|]. right. by left.
Qed.

Lemma inv_start low hi d : low < hi -> seg_inv low hi [(low, hi)] d.
Proof.
  intros H. split; [|split].
  - repeat constructor; cbn; lia.
  - repeat constructor.
  - intros p p' x y ? ? ? _ _. right. apply Exists_cons_hd. cbn. lia.
Qed.

Lemma inv_end low hi d : seg_inv low hi [] d -> sorted_between zcmp low hi d.
Proof.
  intros (_ & _ & H) p q x y H1 H2 H3 Hp Hq. destruct (decide (p = q)) as [->|].
  - rewrite Hp in Hq. injection Hq as ->. by apply cmp_refl, _.
  - destruct (H p q x y) as [|He]; try done; try lia. by apply Exists_nil in He.
Qed.

Definition ints (d : list Z) : Prop := Forall (fun x => as_int x = x) d.

(** The queue version sorts, whatever segments it starts from. *)
Lemma nr_loop_ok n d q low hi :
  0 <= low -> hi < zlen d -> ints d -> seg_inv low hi q d -> (Z.to_nat (weight q) < n)%nat ->
  exists d', nr_loop n d q = Ok d' /\ within low hi d d' /\ sorted_between zcmp low hi d'.
Proof.
  revert d q. induction n as [|n IH]; intros d q H0 Hl Hi Hq Hn; [lia|]. cbn [nr_loop].
  destruct q as [|[lo h] q].
  { exists d. split; [done|]. split; [apply within_refl|by apply inv_end]. }
  pose proof Hq as (Hr & _). pose proof (weight_nonneg _ _ _ Hr) as Hw0.
  apply Forall_cons in Hr as [Hlh Hr]. cbn [fst snd] in Hlh.
  pose proof (weight_nonneg _ _ _ Hr) as Hw1. pose proof (zlen_nonneg q).
  destruct (lcs_partition_ok zcmp as_int d lo h) as (d1 & j & Hp & Hw & Hj & Hb); [lia|lia|done|].
  unfold partition. rewrite Hp. cbn [mbind res_bind].
  pose proof (weight_push lo h j Hj) as Hwp. cbn [weight foldr fst snd] in Hn.
  fold (weight q) in Hn.
  destruct (IH d1 (q ++ seg_push lo h j)) as (d2 & Hd2 & Hw2 & Hs2); try done.
  - by rewrite (within_zlen _ _ _ _ Hw).
  - by apply (within_Forall _ _ _ _ _ Hw).
  - by apply (inv_push low hi lo h q d d1 j).
  - rewrite weight_app. lia.
  - exists d2. split; [done|]. split; [|done]. apply (within_trans _ _ _ d1); [|done].
    apply (within_mono lo h); [lia|lia|done].
Qed.

(** ** The two arrays of segments *)

(** The arrays of [N] hold the queue from [jump] to [total], and zeros behind. *)
Definition holds (N jump : Z) (q : list (Z * Z)) (s : list Z * list Z * Z) : Prop :=
  let '(al, ah, total) := s in
  zlen al = N /\ zlen ah = N /\ 0 <= jump /\ jump + zlen q = total + 1 /\
  (forall k t, q !! k = Some t ->
     aget al (jump + Z.of_nat k) = Some t.1 /\ aget ah (jump + Z.of_nat k) = Some t.2) /\
  (forall k, total < k < N -> aget ah k = Some 0).

Lemma imp_push_ok N jump q s (b : bool) lo h :
  holds N jump q s -> (b = true -> jump + zlen q < N) ->
  exists s', imp_push b lo h s = Ok s' /\ holds N jump (q ++ if b then [(lo, h)] else []) s'.
Proof.
  destruct s as [[al ah] total]. intros (Ha & Hh & Hj & Ht & Hq & Hz) Hb. unfold imp_push.
  destruct b; [|exists (al, ah, total); split; [done|rewrite app_nil_r; unfold holds; tauto]].
  specialize (Hb eq_refl). pose proof (zlen_nonneg q).
  destruct (aget_some al (total + 1)) as (x & Hx); [lia|].
  destruct (aget_some ah (total + 1)) as (y & Hy); [lia|].
  unfold put. rewrite Hx, Hy. cbn [mbind res_bind]. eexists. split; [done|].
  unfold holds. rewrite zlen_app. change (zlen [(lo, h)]) with 1.
  assert (Hlen : forall (l : list Z) (v : Z), zlen (<[Z.to_nat (total + 1) := v]> l) = zlen l)
    by (intros; unfold zlen; by rewrite length_insert).
  rewrite !Hlen. repeat (split; [lia|]). split.
  - intros k t Hk. rewrite !aget_insert by lia.
    destruct (decide (Z.of_nat k < zlen q)) as [Hlt|Hge].
    + rewrite lookup_app_l in Hk by (unfold zlen in Hlt; lia). decide_cmp. by apply Hq.
    + unfold zlen in Hge. rewrite lookup_app_r in Hk by lia.
      destruct (k - length q)%nat eqn:E; [|done]. injection Hk as <-.
      assert (jump + Z.of_nat k = total + 1) as -> by (unfold zlen in Ht; lia).
      by rewrite Z.eqb_refl.
  - intros k Hk. rewrite aget_insert by lia. decide_cmp. apply Hz. lia.
Qed.

Lemma zlen_seg_push lo h j :
  zlen (seg_push lo h j) = (if lo <? j - 1 then 1 else 0) + (if j <? h then 1 else 0).
Proof. unfold seg_push. by destruct (lo <? j - 1), (j <? h). Qed.

(** The version with arrays does what the version with the list does: it finds room for
    every segment, and the zero behind the last one. *)
Lemma imp_loop_eq n d q al ah total jump low hi :
  0 <= low -> hi < zlen d -> ints d -> seg_inv low hi q d ->
  holds (hi - low + 1) jump q (al, ah, total) -> jump + weight q <= hi - low ->
  imp_loop n d al ah total jump = nr_loop n d q.
Proof.
  revert d q al ah total jump.
  induction n as [|n IH]; intros d q al ah total jump H0 Hl Hi Hq Hh Hw; [done|].
  cbn [imp_loop nr_loop]. pose proof Hq as (Hr & _). pose proof (weight_nonneg _ _ _ Hr) as Hwq.
  destruct q as [|[lo h] q].
  { destruct Hh as (_ & _ & Hj & Ht & _ & Hz). cbn in Hw. change (zlen (@nil (Z * Z))) with 0 in Ht.
    rewrite (get_ok ah jump 0); [done|]. apply Hz. lia. }
  pose proof Hh as (Za & Zh & Hj & Ht & Hk & Hz).
  apply Forall_cons in Hr as [Hlh Hr]. cbn [fst snd] in Hlh.
  destruct (Hk 0%nat (lo, h) eq_refl) as [Ka Kh]. cbn [fst snd] in Ka, Kh. rewrite Z.add_0_r in Ka, Kh.
  rewrite (get_ok _ _ _ Kh). cbn [mbind res_bind]. decide_cmp.
  rewrite (get_ok _ _ _ Ka). cbn [mbind res_bind].
  destruct (lcs_partition_ok zcmp as_int d lo h) as (d1 & j & Hp & Hw1 & Hjj & Hb); [lia|lia|done|].
  unfold partition. rewrite Hp. cbn [mbind res_bind].
  pose proof (weight_push lo h j Hjj) as Hwp. pose proof (zlen_seg_push lo h j) as Hzp.
  pose proof (weight_nonneg _ _ _ (seg_push_range lo h j Hjj)) as Hzw.
  pose proof (weight_nonneg _ _ _ Hr) as Hwr. rewrite zlen_cons in Ht.
  cbn [weight foldr fst snd] in Hw. fold (weight q) in Hw.
  destruct (imp_push_ok _ _ _ _ (lo <? j - 1) lo (j - 1) Hh) as (s1 & -> & Hs1).
  { intros E. rewrite E in Hzp. rewrite zlen_cons. destruct (j <? h); lia. }
  cbn [mbind res_bind].
  destruct (imp_push_ok _ _ _ _ (j <? h) j h Hs1) as ([[al' ah'] total'] & -> & Hs2).
  { intros E. rewrite E in Hzp. rewrite zlen_app, zlen_cons.
    destruct (lo <? j - 1); change (zlen [(lo, j - 1)]) with 1 in *; change (zlen (@nil (Z*Z))) with 0; lia. }
  cbn [mbind res_bind]. rewrite <- app_assoc in Hs2. fold (seg_push lo h j) in Hs2.
  apply IH; try done.
  - by rewrite (within_zlen _ _ _ _ Hw1).
  - by apply (within_Forall _ _ _ _ _ Hw1).
  - by apply (inv_push low hi lo h q d d1 j).
  - destruct Hs2 as (? & ? & _ & Ht2 & Hk2 & Hz2). cbn [app] in Ht2. rewrite zlen_cons in Ht2.
    unfold holds. repeat (split; [lia|]). split; [|done].
    intros k t Hkt. replace (jump + 1 + Z.of_nat k) with (jump + Z.of_nat (S k)) by lia.
    by apply Hk2.
  - rewrite weight_app. lia.
Qed.

Lemma unit_test_loop_ok n arr i :
  0 <= i -> (Z.to_nat (zlen arr - i) < n)%nat -> sorted_between zcmp 0 (zlen arr - 1) arr ->
  unit_test_loop n arr i (zlen arr) 1 = Ok 1.
Proof.
  revert i. induction n as [|n IH]; intros i H0 Hn Hs; [lia|]. cbn [unit_test_loop].
  destruct (i <? zlen arr - 1) eqn:E; [|done]. b2p.
  destruct (aget_some arr i) as (x & Hx); [lia|]. destruct (aget_some arr (i + 1)) as (y & Hy); [lia|].
  rewrite (get_ok _ _ _ Hx). cbn [mbind res_bind]. rewrite (get_ok _ _ _ Hy). cbn [mbind res_bind].
  assert (H : zcmp x y <= 0) by (apply (Hs i (i + 1)); try done; lia).
  unfold zcmp in H. replace (y <? x) with false.
  - apply IH; try lia. done.
  - symmetry. apply Z.ltb_ge. destruct (x <? y) eqn:E1; b2p; [lia|].
    destruct (y <? x) eqn:E2; b2p; lia.
Qed.
End Lcs.

(** ** src/quicksort/quicksort.c *)

Module Recursive.
(** [while (i < j) { if (pivot > data[j]) break; j--; }] *)
Fixpoint down (n : nat) (data : list Z) (pivot i j : Z) : res Z :=
  match n with
  | O => Fault NoFuel
  | S n =>
    if i <? j then
      y ← get data j;
      if y <? pivot then Ok j else down n data pivot i (j - 1)
    else Ok j
  end.
(** [while (i < j) { if (data[i] > pivot) break; i++; }] *)
Fixpoint up (n : nat) (data : list Z) (pivot i j : Z) : res Z :=
  match n with
  | O => Fault NoFuel
  | S n =>
    if i <? j then
      x ← get data i;
      if pivot <? x then Ok i else up n data pivot (i + 1) j
    else Ok i
  end.
Fixpoint part_loop (n : nat) (data : list Z) (pivot i j : Z) : res (list Z * Z * Z) :=
  match n with
  | O => Fault NoFuel
  | S n =>
    if i <? j then
      j ← down (S (Z.to_nat (j - i))) data pivot i j;
      i ← up (S (Z.to_nat (j - i))) data pivot i j;
      if i <? j then
        data ← swap as_int data i j;
        part_loop n data pivot (i + 1) (j - 1)
      else part_loop n data pivot i j
    else Ok (data, i, j)
  end.
Definition partition (data : list Z) (low hi : Z) : res (list Z * Z) :=
  pivot ← get data low;
  '(data, i, j) ← part_loop (S (Z.to_nat (hi - low))) data pivot (low + 1) hi;
  if i =? j then
    x ← get data low;
    y ← get data j;
    if y <? x then data ← swap as_int data low j; Ok (data, j)
    else if x <? y then
      y ← get data (j - 1);
      if y <? x then data ← swap as_int data low (j - 1); Ok (data, j - 1)
      else Ok (data, j - 1)
    else Ok (data, j)
  else if j <? i then data ← swap as_int data low j; Ok (data, j)
  else Ok (data, j).

Fixpoint quicksort (n : nat) (arr : list Z) (l h : Z) : res (list Z) :=
  match n with
  | O => Fault NoFuel
  | S n =>
    if l <? h then
      '(arr, j) ← partition arr l h;
      arr ← quicksort n arr l (j - 1);
      quicksort n arr (j + 1) h
    else Ok arr
  end.

(** The list of segments of the non-recursive variant. *)
Fixpoint nr_loop (n : nat) (arr : list Z) (root : list (Z * Z)) : res (list Z) :=
  match n with
  | O => Fault NoFuel
  | S n =>
    match root with
    | [] => Ok arr
    | (tmp_low, tmp_hi) :: root =>
      '(arr, j) ← partition arr tmp_low tmp_hi;
      nr_loop n arr (if tmp_low <? j then root ++ [(tmp_low, j - 1); (j, tmp_hi)] else root)
    end
  end.
Definition quick_sort_non_recursive (n : nat) (arr : list Z) (low hi : Z) : res (list Z) :=
  if hi <=? low then Ok arr else nr_loop n arr [(low, hi)].

Lemma zcmp_gt x y : (y <? x) = (0 <? zcmp x y).
Proof. unfold zcmp. destruct (x <? y) eqn:E1, (y <? x) eqn:E2; b2p; lia. Qed.

Lemma zcmp_le x y : zcmp x y <= 0 <-> x <= y.
Proof. unfold zcmp. destruct (x <? y) eqn:E1, (y <? x) eqn:E2; b2p; lia. Qed.

Lemma rec_down_ok n d pivot i j low hi :
  0 <= i -> i <= j -> j < zlen d -> (Z.to_nat (j - i) < n)%nat -> parted zcmp low hi pivot i j d ->
  exists j', down n d pivot i j = Ok j' /\ i <= j' <= j /\ parted zcmp low hi pivot i j' d /\
    (i < j' -> exists y, aget d j' = Some y /\ y < pivot).
Proof.
  revert j. induction n as [|n IH]; intros j H0 H1 H2 Hn Hp; [lia|]. cbn [down].
  destruct (i <? j) eqn:E; b2p; [|exists j; split; [done|]; split; [lia|]; split; [done|]; lia].
  destruct (aget_some d j) as (y & Hy); [lia|]. rewrite (get_ok _ _ _ Hy). cbn [mbind res_bind].
  destruct (y <? pivot) eqn:E2; b2p.
  - exists j. split; [done|]. split; [lia|]. split; [done|]. eauto.
  - destruct (IH (j - 1)) as (j' & -> & ? & ? & ?); try lia.
    { apply (parted_down zcmp low hi pivot i j d y); [done..|]. by apply zcmp_le. }
    exists j'. split; [done|]. split; [lia|]. done.
Qed.

Lemma rec_up_ok n d pivot i j low hi :
  0 <= i -> i <= j -> j < zlen d -> (Z.to_nat (j - i) < n)%nat -> parted zcmp low hi pivot i j d ->
  exists i', up n d pivot i j = Ok i' /\ i <= i' <= j /\ parted zcmp low hi pivot i' j d /\
    (i' < j -> exists x, aget d i' = Some x /\ pivot < x).
Proof.
  revert i. induction n as [|n IH]; intros i H0 H1 H2 Hn Hp; [lia|]. cbn [up].
  destruct (i <? j) eqn:E; b2p; [|exists i; split; [done|]; split; [lia|]; split; [done|]; lia].
  destruct (aget_some d i) as (x & Hx); [lia|]. rewrite (get_ok _ _ _ Hx). cbn [mbind res_bind].
  destruct (pivot <? x) eqn:E2; b2p.
  - exists i. split; [done|]. split; [lia|]. split; [done|]. eauto.
  - destruct (IH (i + 1)) as (i' & -> & ? & ? & ?); try lia.
    { apply (parted_up zcmp low hi pivot i j d x); [done..|]. by apply zcmp_le. }
    exists i'. split; [done|]. split; [lia|]. done.
Qed.

Lemma rec_part_loop_ok n d pivot i j low hi :
  0 <= low -> low < i -> low < j -> i <= j + 1 -> j <= hi -> hi < zlen d ->
  (Z.to_nat (j - i) < n)%nat -> parted zcmp low hi pivot i j d -> Lcs.ints d ->
  exists d' i' j', part_loop n d pivot i j = Ok (d', i', j') /\ within (low + 1) hi d d' /\
    low < j' <= hi /\ j' <= i' <= j' + 1 /\ parted zcmp low hi pivot i' j' d'.
Proof.
  revert d i j. induction n as [|n IH]; intros d i j H0 Hi Hj Hij Hhi Hlen Hn Hp Htr; [lia|].
  cbn [part_loop]. destruct (i <? j) eqn:E; b2p.
  - destruct (rec_down_ok (S (Z.to_nat (j - i))) d pivot i j low hi) as (j1 & -> & Hj1 & Hp1 & Hyp);
      try lia; [done|]. cbn [mbind res_bind].
    destruct (rec_up_ok (S (Z.to_nat (j1 - i))) d pivot i j1 low hi) as (i1 & -> & Hi1 & Hp2 & Hxp);
      try lia; [done|]. cbn [mbind res_bind].
    destruct (i1 <? j1) eqn:E1; b2p.
    + destruct Hyp as (y & Hy & Hy'); [lia|]. destruct Hxp as (x & Hx & Hx'); [lia|].
      destruct (swap_ok as_int d i1 j1 x y Hx Hy) as (d1 & -> & Hw & Hd1).
      { unfold Lcs.ints in Htr. rewrite Forall_forall in Htr. apply Htr. by apply (aget_elem d i1). }
      cbn [mbind res_bind].
      assert (Hw1 : within (low + 1) hi d d1) by (apply Hw; lia).
      destruct (IH d1 (i1 + 1) (j1 - 1)) as (d' & i' & j' & -> & Hw' & ? & ? & ?); try lia.
      { by rewrite (within_zlen _ _ _ _ Hw1). }
      { apply (parted_swap zcmp low hi pivot i1 j1 d d1 x y); try done;
          apply zcmp_le; lia. }
      { by apply (within_Forall _ _ _ _ _ Hw1). }
      exists d', i', j'. split; [done|]. split; [by apply (within_trans _ _ _ d1)|]. done.
    + destruct (IH d i1 j1) as (d' & i' & j' & -> & Hw' & ? & ? & ?); try lia; try done.
      exists d', i', j'. done.
  - exists d, i, j. split; [done|]. split; [apply within_refl|]. split; [lia|]. split; [lia|done].
Qed.

(** The pivot, or an element equal to it, has its final place at [j]. *)
Definition split_at (low hi pivot j : Z) (d : list Z) : Prop :=
  (forall k x, low <= k <= j -> aget d k = Some x -> zcmp x pivot <= 0) /\
  (forall k x, j <= k <= hi -> aget d k = Some x -> zcmp pivot x <= 0).

Lemma place_split low hi pivot i j d y :
  parted zcmp low hi pivot i j d -> low < j <= i -> j <= hi -> y <= pivot -> as_int pivot = pivot ->
  aget d low = Some pivot -> aget d j = Some y ->
  exists d', swap as_int d low j = Ok d' /\ within low hi d d' /\ split_at low hi pivot j d'.
Proof.
  intros Hp Hj Hh Hy Hi Hl Hdj.
  destruct (swap_ok as_int d low j pivot y Hl Hdj Hi) as (d' & Hs & Hw & Hd).
  exists d'. split; [done|]. split; [apply Hw; lia|].
  destruct (parted_place zcmp low hi pivot i j d d' y) as [Pl Ph]; try done; try lia.
  { by apply zcmp_le. }
  split; [|done]. intros k x Hk Hx. destruct (decide (k = j)) as [->|].
  - rewrite Hd, Z.eqb_refl in Hx. injection Hx as <-. by apply zcmp_le.
  - apply (Pl k); [lia|done].
Qed.

Lemma stay_split low hi pivot i j d :
  parted zcmp low hi pivot i j d -> low <= j <= i -> aget d low = Some pivot ->
  aget d j = Some pivot -> split_at low hi pivot j d.
Proof.
  intros [Pl Ph] Hj Hl Hdj.
  split; intros k x Hk Hx; (destruct (decide (k = j)) as [->|];
    [rewrite Hdj in Hx; injection Hx as <-; by apply zcmp_le|]).
  - destruct (decide (k = low)) as [->|]; [rewrite Hl in Hx; injection Hx as <-; by apply zcmp_le|].
    apply (Pl k); [lia|done].
  - apply (Ph k); [lia|done].
Qed.

(** The loop, started as [partition] starts it. *)
Lemma part_start d low hi :
  0 <= low < hi -> hi < zlen d -> Lcs.ints d ->
  exists pivot d1 i j,
    get d low = Ok pivot /\
    part_loop (S (Z.to_nat (hi - low))) d pivot (low + 1) hi = Ok (d1, i, j) /\
    within low hi d d1 /\ low < j <= hi /\ j <= i <= j + 1 /\ zlen d1 = zlen d /\
    parted zcmp low hi pivot i j d1 /\ aget d1 low = Some pivot /\ as_int pivot = pivot.
Proof.
  intros Hl Hh Htr. destruct (aget_some d low) as (pivot & Hpv); [lia|].
  destruct (rec_part_loop_ok (S (Z.to_nat (hi - low))) d pivot (low + 1) hi low hi)
    as (d1 & i & j & Hp & Hw & Hj & Hij & Hpt); try lia; [split; intros; lia|done|].
  exists pivot, d1, i, j. split; [by apply get_ok|]. split; [done|].
  split; [apply (within_mono (low + 1) hi); try done; lia|]. split; [lia|]. split; [lia|].
  split; [exact (within_zlen _ _ _ _ Hw)|]. split; [done|]. split.
  - destruct Hw as (_ & O & _). rewrite O; [done|lia].
  - unfold Lcs.ints in Htr. rewrite Forall_forall in Htr. apply Htr. by apply (aget_elem d low).
Qed.

Lemma partition_ok d low hi :
  0 <= low < hi -> hi < zlen d -> Lcs.ints d ->
  exists d' j pivot, partition d low hi = Ok (d', j) /\ within low hi d d' /\ low <= j <= hi /\
    split_at low hi pivot j d'.
Proof.
  intros Hl Hh Htr. unfold partition.
  destruct (part_start d low hi Hl Hh Htr)
    as (pivot & d1 & i & j & -> & Hloop & Hw0 & Hj & Hij & Hz & Hp & Hpv1 & Hpi).
  cbn [mbind res_bind]. rewrite Hloop. cbn [mbind res_bind].
  assert (Hgo : forall k d2, swap as_int d1 low k = Ok d2 -> within low hi d1 d2 ->
            low <= k <= hi -> split_at low hi pivot k d2 ->
            exists d' j' pv, (data ← swap as_int d1 low k; Ok (data, k)) = Ok (d', j') /\
              within low hi d d' /\ low <= j' <= hi /\ split_at low hi pv j' d').
  { intros k d2 -> Hw2 Hk Hs. exists d2, k, pivot. split; [done|].
    split; [by apply (within_trans _ _ _ d1)|done]. }
  destruct (aget_some d1 j) as (y & Hy); [lia|].
  destruct (i =? j) eqn:Eij; b2p.
  - subst i. rewrite (get_ok _ _ _ Hpv1). cbn [mbind res_bind]. rewrite (get_ok _ _ _ Hy).
    cbn [mbind res_bind]. destruct (y <? pivot) eqn:E1; b2p.
    { destruct (place_split low hi pivot j j d1 y) as (d2 & H1 & H2 & H3); try done; try lia.
      apply (Hgo j d2); try done. lia. }
    destruct (pivot <? y) eqn:E2; b2p.
    + assert (Hp' : parted zcmp low hi pivot j (j - 1) d1).
      { apply (parted_down zcmp low hi pivot j j d1 y); [done..|]. apply zcmp_le. lia. }
      destruct (aget_some d1 (j - 1)) as (y' & Hy'); [lia|]. rewrite (get_ok _ _ _ Hy').
      cbn [mbind res_bind]. destruct (y' <? pivot) eqn:E3; b2p.
      * assert (low <> j - 1) by (intros ->; rewrite Hpv1 in Hy'; injection Hy' as ->; lia).
        destruct (place_split low hi pivot j (j - 1) d1 y') as (d2 & H1 & H2 & H3); try done; try lia.
        apply (Hgo (j - 1) d2); try done. lia.
      * exists d1, (j - 1), pivot. split; [done|]. split; [done|]. split; [lia|].
        apply (stay_split _ _ _ j); try done; [lia|]. rewrite Hy'. f_equal.
        destruct (decide (j - 1 = low)) as [E|]; [rewrite E, Hpv1 in Hy'; by injection Hy'|].
        destruct Hp as [Pl _]. pose proof (Pl (j - 1) y' ltac:(lia) Hy') as H.
        apply (zcmp_le y' pivot) in H. lia.
    + exists d1, j, pivot. split; [done|]. split; [done|]. split; [lia|].
      apply (stay_split _ _ _ j); try done; [lia|]. rewrite Hy. f_equal. lia.
  - assert (i = j + 1) as -> by lia. decide_cmp.
    assert (Hyl : y <= pivot).
    { destruct Hp as [Pl _]. apply zcmp_le. apply (Pl j); [lia|done]. }
    destruct (place_split low hi pivot (j + 1) j d1 y) as (d2 & H1 & H2 & H3); try done; try lia.
    apply (Hgo j d2); try done. lia.
Qed.

Lemma quicksort_ok n d l h :
  0 <= l -> h < zlen d -> l <= h + 1 -> (Z.to_nat (h - l + 1) < n)%nat -> Lcs.ints d ->
  exists d', quicksort n d l h = Ok d' /\ within l h d d' /\ sorted_between zcmp l h d'.
Proof.
  revert d l h. induction n as [|n IH]; intros d l h H0 Hh Hlh Hn Htr; [lia|]. cbn [quicksort].
  destruct (l <? h) eqn:E; b2p.
  2: { exists d. split; [done|]. split; [apply within_refl|]. by apply sorted_single; try apply _. }
  destruct (partition_ok d l h) as (d1 & j & pv & -> & Hw1 & Hj & Sl & Sh); [lia|lia|done|].
  cbn [mbind res_bind]. pose proof (within_zlen _ _ _ _ Hw1) as Z1.
  destruct (IH d1 l (j - 1)) as (d2 & -> & Hw2 & Hs2); try lia.
  { by apply (within_Forall _ _ _ _ _ Hw1). }
  cbn [mbind res_bind]. pose proof (within_zlen _ _ _ _ Hw2) as Z2.
  destruct (IH d2 (j + 1) h) as (d3 & -> & Hw3 & Hs3); try lia.
  { apply (within_Forall _ _ _ _ _ Hw2). by apply (within_Forall _ _ _ _ _ Hw1). }
  assert (B1 : below zcmp l (j - 1) j h d1)
    by (apply (below_pivot zcmp pv); [intros k x Hk; apply Sl; lia|done]).
  assert (B2 : below zcmp l j (j + 1) h d1)
    by (apply (below_pivot zcmp pv); [done|intros k x Hk; apply Sh; lia]).
  exists d3. split; [done|]. split.
  { apply (within_trans _ _ _ d1); [done|]. apply (within_trans _ _ _ d2).
    - apply (within_mono l (j - 1)); try lia. done.
    - apply (within_mono (j + 1) h); try lia. done. }
  assert (B1' : below zcmp l (j - 1) j h d3).
  { apply (below_within zcmp l (j - 1) j h d2 d3 (j + 1) h); [lia|lia| |done].
    by apply (below_within zcmp l (j - 1) j h d1 d2 l (j - 1)); [lia|lia| |]. }
  assert (B2' : below zcmp l j (j + 1) h d3).
  { apply (below_within zcmp l j (j + 1) h d2 d3 (j + 1) h); [lia|lia| |done].
    by apply (below_within zcmp l j (j + 1) h d1 d2 l (j - 1)); [lia|lia| |]. }
  apply (sorted_join zcmp l j h); [|apply (sorted_join zcmp j (j + 1) h)|done].
  - apply (sorted_outside zcmp l (j - 1) (j + 1) h d2); [lia|done|done].
  - apply sorted_single; [apply _|lia].
  - done.
  - intros p q x y Hp. apply (B2' p q x y). lia.
Qed.
End Recursive.

(** ** The sorting programs are right *)

Lemma sorted_strong {A} (cmp : A -> A -> Z) d :
  sorted_between cmp 0 (zlen d - 1) d -> StronglySorted (fun x y => cmp x y <= 0) d.
Proof.
  induction d as [|x d IH]; intros H; [constructor|].
  assert (Hsucc : forall k y, 0 <= k -> aget d k = Some y -> aget (x :: d) (k + 1) = Some y).
  { intros k y Hk Hy. unfold aget in *.
    replace (0 <=? k + 1) with true by (symmetry; apply Z.leb_le; lia).
    replace (Z.to_nat (k + 1)) with (S (Z.to_nat k)) by lia. cbn.
    destruct (0 <=? k) eqn:E; [done|discriminate]. }
  constructor.
  - apply IH. intros p q y z H1 H2 H3 Hp Hq. rewrite zlen_cons in H.
    apply (H (p + 1) (q + 1)); try lia; by apply Hsucc; try lia.
  - apply Forall_forall. intros y (k & Hk)%list_elem_of_lookup_1.
    apply (H 0 (Z.of_nat k + 1)); try lia.
    + rewrite zlen_cons. apply lookup_lt_Some in Hk. unfold zlen. lia.
    + done.
    + apply Hsucc; [lia|]. unfold aget.
      replace (0 <=? Z.of_nat k) with true by (symmetry; apply Z.leb_le; lia).
      by rewrite Nat2Z.id.
Qed.

Lemma sorted_le d : sorted_between zcmp 0 (zlen d - 1) d -> StronglySorted Z.le d.
Proof.
  intros H%sorted_strong. induction H as [|x d _ IH Hx]; constructor; [done|].
  eapply Forall_impl; [exact Hx|]. intros y. apply Recursive.zcmp_le.
Qed.

(** Two sorted rearrangements are the same. *)
Lemma sorted_unique (d d1 d2 : list Z) :
  d1 ≡ₚ d -> d2 ≡ₚ d -> StronglySorted Z.le d1 -> StronglySorted Z.le d2 -> d1 = d2.
Proof. intros H1 H2 S1 S2. apply (StronglySorted_unique Z.le); [done..|by rewrite H1, H2]. Qed.

Lemma unit_test_ok d : sorted_between zcmp 0 (zlen d - 1) d -> Lcs.unit_test d (zlen d) = Ok 1.
Proof.
  intros H. unfold Lcs.unit_test. apply Lcs.unit_test_loop_ok; [lia| |done].
  pose proof (zlen_nonneg d). lia.
Qed.

(** C37: [quicksort] of quicksort.c ends, stays inside the array and sorts it, for every
    array of values that an [int] can hold (the program fills it with such values): the
    result is the sorted rearrangement, and the program's own check accepts it. *)
Theorem quicksort_sorts arr :
  Lcs.ints arr ->
  exists d, Recursive.quicksort (S (length arr)) arr 0 (zlen arr - 1) = Ok d /\
    d ≡ₚ arr /\ StronglySorted Z.le d /\ Lcs.unit_test d (zlen d) = Ok 1.
Proof.
  intros Hi. pose proof (zlen_nonneg arr).
  destruct (Recursive.quicksort_ok (S (length arr)) arr 0 (zlen arr - 1)) as (d & Hd & Hw & Hs);
    try lia; [unfold zlen; lia|done|].
  pose proof (within_zlen _ _ _ _ Hw) as Hz. rewrite <- Hz in Hs.
  exists d. split; [done|]. split; [by destruct Hw|]. split; [by apply sorted_le|].
  by apply unit_test_ok.
Qed.

Lemma quicksort_sorts_witness :
  exists d, Recursive.quicksort 6 [5; -1; 4; 4; 2] 0 4 = Ok d /\ d ≡ₚ [5; -1; 4; 4; 2] /\
    StronglySorted Z.le d.
Proof.
  destruct (quicksort_sorts [5; -1; 4; 4; 2] ltac:(repeat constructor)) as (d & H1 & H2 & H3 & _).
  exists d. split; [exact H1|]. split; [exact H2|exact H3].
Defined.

(** The non-recursive variant of the same file drops a segment whose pivot is its least
    element, and leaves this array as it is. *)
Lemma non_recursive_unsorted : Recursive.quick_sort_non_recursive 9 [1; 3; 2] 0 2 = Ok [1; 3; 2].
Proof. reflexivity. Qed.

(** An element that does not fit an [int] is cut when it is moved. *)
Lemma quicksort_cuts : Recursive.quicksort 9 [2 ^ 32 + 7; 1] 0 1 = Ok [1; 7].
Proof. reflexivity. Qed.

(** C27: the three sorts of src/cluster/quicksort/main.c, the recursive one, the one with a
    list of segments and the one with two arrays of segments, end, stay inside their arrays
    and give the same result, the sorted rearrangement, for every non-empty array of values
    that an [int] can hold; the two arrays need no more than one slot per element. *)
Theorem cluster_sorts arr :
  Lcs.ints arr -> 0 < zlen arr < 2 ^ 30 ->
  exists d,
    Lcs.quick_sort (length arr) arr 0 (zlen arr - 1) = Ok d /\
    Lcs.quick_sort_non_recursive arr 0 (zlen arr - 1) = Ok d /\
    Lcs.quick_sort_non_recursive_improve arr 0 (zlen arr - 1) = Ok d /\
    d ≡ₚ arr /\ StronglySorted Z.le d /\ Lcs.unit_test d (zlen d) = Ok 1.
Proof.
  intros Hi Hlen.
  destruct (Lcs.lcs_quick_sort_ok zcmp as_int (length arr) arr 0 (zlen arr - 1))
    as (d & Hd & Hw & Hs); try lia; [unfold zlen in *; lia|done|].
  pose proof (within_zlen _ _ _ _ Hw) as Hz. rewrite <- Hz in Hs. exists d.
  split; [exact Hd|].
  destruct (decide (zlen arr = 1)) as [H1|H1].
  { assert (d = arr) as ->.
    { destruct Hw as (P & _). destruct arr as [|x [|]]; cbn in H1; try (unfold zlen in H1; cbn in H1; lia).
      by apply Permutation_singleton_r in P. }
    assert (Hle : (zlen arr - 1 <=? 0) = true) by (apply Z.leb_le; lia).
    unfold Lcs.quick_sort_non_recursive, Lcs.quick_sort_non_recursive_improve. rewrite Hle.
    split; [done|]. split; [done|]. split; [done|]. split; [by apply sorted_le|].
    by apply unit_test_ok. }
  pose proof (Lcs.inv_start 0 (zlen arr - 1) arr ltac:(lia)) as Hinv.
  destruct (Lcs.nr_loop_ok (S (Z.to_nat (zlen arr - 1 - 0))) arr [(0, zlen arr - 1)] 0 (zlen arr - 1))
    as (d2 & Hd2 & Hw2 & Hs2); try done; try lia; [cbn; lia|].
  pose proof (within_zlen _ _ _ _ Hw2) as Hz2. rewrite <- Hz2 in Hs2.
  assert (d2 = d) as ->.
  { apply (sorted_unique arr); [by destruct Hw2|by destruct Hw|by apply sorted_le..]. }
  split; [|split; [|split; [by destruct Hw|split; [by apply sorted_le|by apply unit_test_ok]]]].
  - unfold Lcs.quick_sort_non_recursive. decide_cmp. exact Hd2.
  - unfold Lcs.quick_sort_non_recursive_improve. decide_cmp. rewrite <- Hd2.
    unfold wrap. rewrite Z.mod_small by lia. rewrite Z.div_mul by lia.
    set (zero := replicate _ 0).
    assert (Hzl : zlen zero = zlen arr) by (unfold zero, zlen; rewrite length_replicate; lia).
    destruct (aget_some zero 0) as (z & Ez); [lia|].
    unfold put. rewrite Ez. cbn [mbind res_bind].
    apply (Lcs.imp_loop_eq _ _ _ _ _ _ _ 0 (zlen arr - 1)); try done; try lia; [|cbn; lia].
    unfold Lcs.holds.
    assert (Hl : forall v, zlen (<[Z.to_nat 0 := v]> zero) = zlen arr)
      by (intros; rewrite <- Hzl; unfold zlen; by rewrite length_insert).
    rewrite !Hl. repeat (split; [first [lia|reflexivity]|]). split.
    + intros [|k] t Ht; [|done]. injection Ht as <-. rewrite !aget_insert by lia. done.
    + intros k Hk. rewrite aget_insert by lia. decide_cmp. unfold aget.
      replace (0 <=? k) with true by (symmetry; apply Z.leb_le; lia). apply lookup_replicate_2. lia.
Qed.

Lemma cluster_sorts_witness :
  exists d,
    Lcs.quick_sort 5 [3; 1; 2; 3; 0] 0 4 = Ok d /\
    Lcs.quick_sort_non_recursive_improve [3; 1; 2; 3; 0] 0 4 = Ok d /\ StronglySorted Z.le d.
Proof.
  destruct (cluster_sorts [3; 1; 2; 3; 0] ltac:(repeat constructor) ltac:(vm_side))
    as (d & H1 & _ & H3 & _ & H5 & _).
  exists d. split; [exact H1|]. split; [exact H3|exact H5].
Defined.
