(* ===== verification/LcsCommon.v ===== *)
(** * Merging counted rows, and text helpers

    Models, of src/cluster/common/lcs_common.c, [lcs_hcollect005_sum], which parses rows of
    counts, and [lcs_merge005_list], which sorts them by date and hour, adds up the rows of
    one date and hour and writes the sums; and the helpers [lcs_cgen_list] and
    [lcs_comm_replace].  A row holds its two character arrays whole.  The result of
    [fopen] is an argument; the file is the text written to it. *)
From stdpp Require Import sorting.
From S2P Require Import Prelude CString GenList Quicksort.

(** ** Rows *)

Record LCS_MERGE_COUNTING := {
  date : list byte;              (* char[12] *)
  hour : list byte;              (* char[4] *)
  totalcall : Z;
  totalfullchannel : Z;
  viettelauto : Z;
  viettelfull : Z;
  mobileauto : Z;
  mobilefull : Z;
  vinaauto : Z;
  vinafull : Z
}.

Definition lcs_merge_counting_cb (a b : LCS_MERGE_COUNTING) : Z :=
  let r := strcmp (date a) (date b) in
  if negb (r =? 0) then r else strcmp (hour a) (hour b).

(** [a += b] on [int]. *)
Definition add_int (a b : Z) : res Z :=
  if (- 2 ^ 31 <=? a + b) && (a + b <? 2 ^ 31) then Ok (a + b) else Fault IntOverflow.

(** The eight additions to [arr[m]]. *)
Definition row_add (a b : LCS_MERGE_COUNTING) : res LCS_MERGE_COUNTING :=
  c1 ← add_int (totalcall a) (totalcall b);
  c2 ← add_int (totalfullchannel a) (totalfullchannel b);
  c3 ← add_int (viettelauto a) (viettelauto b);
  c4 ← add_int (viettelfull a) (viettelfull b);
  c5 ← add_int (mobileauto a) (mobileauto b);
  c6 ← add_int (mobilefull a) (mobilefull b);
  c7 ← add_int (vinaauto a) (vinaauto b);
  c8 ← add_int (vinafull a) (vinafull b);
  Ok {| date := date a; hour := hour a; totalcall := c1; totalfullchannel := c2;
        viettelauto := c3; viettelfull := c4; mobileauto := c5; mobilefull := c6;
        vinaauto := c7; vinafull := c8 |}.

Definition counts (r : LCS_MERGE_COUNTING) : list Z :=
  [totalcall r; totalfullchannel r; viettelauto r; viettelfull r; mobileauto r; mobilefull r;
   vinaauto r; vinafull r].

(** ["%s\t%s\t%d\t%d\t%d\t%d\t%d\t%d\t%d\t%d\n"] *)
Definition tab : byte := x09.
Definition nl : byte := x0a.
Definition row_line (r : LCS_MERGE_COUNTING) : res (list byte) :=
  d ← cstr (date r);
  h ← cstr (hour r);
  Ok (d ++ [tab] ++ h ++ [tab] ++ itoa (totalcall r) ++ [tab] ++ itoa (totalfullchannel r) ++
      [tab] ++ itoa (viettelauto r) ++ [tab] ++ itoa (viettelfull r) ++ [tab] ++
      itoa (mobileauto r) ++ [tab] ++ itoa (mobilefull r) ++ [tab] ++ itoa (vinaauto r) ++
      [tab] ++ itoa (vinafull r) ++ [nl]).

(** ** Merging *)

(** The inner loop: [i] becomes the last row with the date and hour of the one before it. *)
Fixpoint group_end (fuel : nat) (arr : list LCS_MERGE_COUNTING) (n i : Z) : res Z :=
  match fuel with
  | O => Fault NoFuel
  | S fuel =>
    if i =? n - 1 then Ok i
    else
      a ← get arr i;
      b ← get arr (i + 1);
      if negb (strcmp (date a) (date b) =? 0) then Ok i
      else if negb (strcmp (hour a) (hour b) =? 0) then Ok i
      else group_end fuel arr n (i + 1)
  end.

(** [for (l = m+1; l <= i; ++l)], [k] rounds. *)
Fixpoint sum_rows (k : nat) (arr : list LCS_MERGE_COUNTING) (m l : Z)
    : res (list LCS_MERGE_COUNTING) :=
  match k with
  | O => Ok arr
  | S k =>
    a ← get arr m;
    b ← get arr l;
    c ← row_add a b;
    arr ← put arr m c;
    sum_rows k arr m (l + 1)
  end.

Fixpoint merge_loop (fuel : nat) (arr : list LCS_MERGE_COUNTING) (n i : Z) (fp : list byte)
    : res (list byte) :=
  match fuel with
  | O => Fault NoFuel
  | S fuel =>
    if i <? n then
      let m := i in
      i ← group_end (S (Z.to_nat (n - i))) arr n i;
      arr ← sum_rows (Z.to_nat (i - m)) arr m (m + 1);
      r ← get arr m;
      line ← row_line r;
      merge_loop fuel arr n (i + 1) (fp ++ line)
    else Ok fp
  end.

(** The file that is written, [None] when it cannot be opened.  The array has [n + 1]
    pointers, those behind the list are null. *)
Definition lcs_merge005_list (fopen_ok : bool) (root : list LCS_MERGE_COUNTING) (n : Z)
    : res (option (list byte)) :=
  if n + 1 <? zlen root then Fault OobWrite
  else
    arr ← Lcs.lcs_quick_sort_ext lcs_merge_counting_cb id (length root) root 0 (zlen root - 1);
    if negb fopen_ok then Ok None
    else fp ← merge_loop (S (Z.to_nat n)) arr n 0 []; Ok (Some fp).

(** ** Parsing *)

(** [p = strtok(0, "\t\n")] where the result is used without a check. *)
Definition next_token (toks : list (Z * list byte)) : res (list byte * list (Z * list byte)) :=
  match toks with
  | [] => Fault NullDeref
  | (_, p) :: toks => Ok (p, toks)
  end.

(** [strcat] to an array of [size] zeros. *)
Definition put_text (size : Z) (p : list byte) : res (list byte) := wr (zeros size) 0 (p ++ [x00]).

(** [sscanf(p, "%d", &data)] of the next token; [data] keeps its value when it fails. *)
Definition scan_col (data : Z) (toks : list (Z * list byte)) : res (Z * list (Z * list byte)) :=
  '(p, toks) ← next_token toks;
  Ok (default data (scan_d p), toks).

(** One round of [while(p)], [p] being the first token; [data] is carried along. *)
Definition collect_row (data : Z) (p : list byte) (toks : list (Z * list byte))
    : res (LCS_MERGE_COUNTING * Z * list (Z * list byte)) :=
  d ← put_text 12 p;
  '(p, toks) ← next_token toks;
  h ← put_text 4 p;
  '(c1, toks) ← scan_col data toks;
  '(c2, toks) ← scan_col c1 toks;
  '(c3, toks) ← scan_col c2 toks;
  '(c4, toks) ← scan_col c3 toks;
  '(c5, toks) ← scan_col c4 toks;
  '(c6, toks) ← scan_col c5 toks;
  '(c7, toks) ← scan_col c6 toks;
  '(c8, toks) ← scan_col c7 toks;
  Ok ({| date := d; hour := h; totalcall := c1; totalfullchannel := c2; viettelauto := c3;
         viettelfull := c4; mobileauto := c5; mobilefull := c6; vinaauto := c7;
         vinafull := c8 |}, c8, toks).

Fixpoint collect (fuel : nat) (data : Z) (toks : list (Z * list byte))
    (root : list LCS_MERGE_COUNTING) : res (list LCS_MERGE_COUNTING) :=
  match fuel with
  | O => Fault NoFuel
  | S fuel =>
    match toks with
    | [] => Ok root
    | (_, p) :: toks =>
      '(row, data, toks) ← collect_row data p toks;
      collect fuel data toks (root ++ [row])
    end
  end.

(** The loop that frees the list reads [node->next] behind [free(node)]. *)
Definition free_list (root : list LCS_MERGE_COUNTING) : res unit :=
  match root with [] => Ok tt | _ => Fault DeadObject end.

(** The file, and how the call ends. *)
Definition lcs_hcollect005_sum (fopen_ok : bool) (text : list byte)
    : res (option (list byte) * res unit) :=
  s ← cstr text;
  let toks := strtok [tab; nl] s in
  root ← collect (S (length toks)) 0 toks [];
  file ← (if negb (zlen root =? 0) then lcs_merge005_list fopen_ok root (zlen root) else Ok None);
  Ok (file, free_list root).

(** ** Text helpers *)

(** The names of a list [tables], split at commas and line ends; [name] has 64 bytes. *)
Fixpoint lcs_cgen_list (toks : list (Z * list byte)) (root : list (list byte))
    : res (list (list byte)) :=
  match toks with
  | [] => Ok root
  | (_, pch) :: toks =>
    if zlen pch =? 0 then lcs_cgen_list toks root
    else name ← put_text 64 pch; lcs_cgen_list toks (root ++ [name])
  end.

(** [while(src[i])]: a character is replaced up to the terminating zero. *)
Fixpoint lcs_comm_replace (src : list byte) (nwe old : byte) : res (list byte) :=
  match src with
  | [] => Fault OobRead
  | b :: src' =>
    if b2z b =? 0 then Ok src
    else s ← lcs_comm_replace src' nwe old; Ok ((if b2z b =? b2z old then nwe else b) :: s)
  end.

(** ** The order of the rows *)

#[global] Instance strcmp_laws : CmpLaws strcmp.
Proof.
  split; [|apply strcmp_trans]. intros x y. rewrite (strcmp_flip x y). lia.
Qed.

(** Two comparisons one after the other. *)
Lemma lex_laws {A} (f g : A -> A -> Z) :
  CmpLaws f -> CmpLaws g -> CmpLaws (fun a b => if negb (f a b =? 0) then f a b else g a b).
Proof.
  intros Hf Hg. split.
  - intros x y. pose proof (cmp_flip (cmp := f) x y). pose proof (cmp_flip (cmp := f) y x).
    pose proof (cmp_flip (cmp := g) x y).
    destruct (f x y =? 0) eqn:E1, (f y x =? 0) eqn:E2; b2p; cbn [negb]; lia.
  - intros x y z. pose proof (cmp_trans (cmp := f) x y z) as T1.
    pose proof (cmp_trans (cmp := f) y z x) as T2. pose proof (cmp_trans (cmp := f) z x y) as T3.
    pose proof (cmp_trans (cmp := g) x y z) as T4.
    pose proof (cmp_flip (cmp := f) x y). pose proof (cmp_flip (cmp := f) y x).
    pose proof (cmp_flip (cmp := f) y z). pose proof (cmp_flip (cmp := f) z y).
    pose proof (cmp_flip (cmp := f) x z). pose proof (cmp_flip (cmp := f) z x).
    destruct (f x y =? 0) eqn:E1, (f y z =? 0) eqn:E2, (f x z =? 0) eqn:E3; b2p; cbn [negb]; lia.
Qed.

#[global] Instance counting_laws : CmpLaws lcs_merge_counting_cb.
Proof.
  pose proof (lex_laws (fun a b => strcmp (date a) (date b)) (fun a b => strcmp (hour a) (hour b)))
    as H. apply H.
  - split; intros *; [apply strcmp_laws|apply strcmp_trans].
  - split; intros *; [apply strcmp_laws|apply strcmp_trans].
Qed.

Abbreviation cb := lcs_merge_counting_cb.

Lemma cb_sym a b : cb a b = 0 -> cb b a = 0.
Proof. pose proof (cmp_flip (cmp := cb) a b). pose proof (cmp_flip (cmp := cb) b a). lia. Qed.

Lemma cb_eq_trans a b c : cb a b = 0 -> cb b c = cb a c \/ 0 < cb b c * cb a c.
Proof.
  intros H. pose proof (cb_sym _ _ H).
  pose proof (cmp_trans (cmp := cb) a b c). pose proof (cmp_trans (cmp := cb) b a c).
  pose proof (cmp_trans (cmp := cb) c a b). pose proof (cmp_trans (cmp := cb) c b a).
  pose proof (cmp_flip (cmp := cb) a c). pose proof (cmp_flip (cmp := cb) b c).
  pose proof (cmp_flip (cmp := cb) c a). pose proof (cmp_flip (cmp := cb) c b). nia.
Qed.

Lemma cb_eq_zero a b c : cb a b = 0 -> cb b c = 0 <-> cb a c = 0.
Proof. intros H. destruct (cb_eq_trans a b c H); nia. Qed.

Lemma cb_lt_le a b c : cb a b < 0 -> cb b c <= 0 -> cb a c < 0.
Proof.
  intros H1 H2. pose proof (cmp_trans (cmp := cb) c a b).
  pose proof (cmp_trans (cmp := cb) b c a).
  pose proof (cmp_flip (cmp := cb) a c). pose proof (cmp_flip (cmp := cb) c a).
  pose proof (cmp_flip (cmp := cb) a b). pose proof (cmp_flip (cmp := cb) b a). lia.
Qed.

(** ** Groups *)

(** The position [i] of an array, and what is behind it. *)
Definition at_rest (arr : list LCS_MERGE_COUNTING) (i : Z) (r : LCS_MERGE_COUNTING)
    (rest : list LCS_MERGE_COUNTING) : Prop :=
  0 <= i /\ drop (Z.to_nat i) arr = r :: rest.

Lemma at_rest_get arr i r rest : at_rest arr i r rest -> aget arr i = Some r.
Proof.
  intros [Hi Hd]. unfold aget. decide_cmp.
  rewrite <- (Nat.add_0_r (Z.to_nat i)), <- lookup_drop, Hd. done.
Qed.

Lemma at_rest_next arr i r r' rest : at_rest arr i r (r' :: rest) -> at_rest arr (i + 1) r' rest.
Proof.
  intros [Hi Hd]. split; [lia|]. replace (Z.to_nat (i + 1)) with (Z.to_nat i + 1)%nat by lia.
  by rewrite <- drop_drop, Hd.
Qed.

Lemma at_rest_end arr i r rest : at_rest arr i r rest -> i + 1 + zlen rest = zlen arr.
Proof.
  intros [Hi Hd]. apply (f_equal length) in Hd. rewrite length_drop in Hd. cbn in Hd.
  unfold zlen. lia.
Qed.

Lemma group_end_ok fuel arr n i r rest :
  at_rest arr i r rest -> n = zlen arr -> (length rest < fuel)%nat ->
  exists same rest',
    rest = same ++ rest' /\ group_end fuel arr n i = Ok (i + zlen same) /\
    Forall (fun x => cb r x = 0) same /\
    match rest' with [] => True | x :: _ => cb r x <> 0 end.
Proof.
  revert i r rest. induction fuel as [|fuel IH]; intros i r rest Hr Hn Hf; [lia|].
  cbn [group_end]. pose proof (at_rest_end _ _ _ _ Hr) as He.
  destruct rest as [|b rest].
  { exists [], []. change (zlen (@nil LCS_MERGE_COUNTING)) with 0 in *. decide_cmp.
    rewrite Z.add_0_r. done. }
  rewrite zlen_cons in He. pose proof (zlen_nonneg rest). decide_cmp.
  pose proof (at_rest_next _ _ _ _ _ Hr) as Hb.
  rewrite (get_ok _ _ _ (at_rest_get _ _ _ _ Hr)). cbn [mbind res_bind].
  rewrite (get_ok _ _ _ (at_rest_get _ _ _ _ Hb)). cbn [mbind res_bind].
  destruct (decide (cb r b = 0)) as [E|E].
  - assert (Hz : strcmp (date r) (date b) = 0 /\ strcmp (hour r) (hour b) = 0).
    { unfold lcs_merge_counting_cb in E. destruct (strcmp (date r) (date b) =? 0) eqn:E1; b2p;
        cbn [negb] in E; lia. }
    destruct Hz as [-> ->]. cbn [Z.eqb negb].
    destruct (IH (i + 1) b rest Hb Hn) as (same & rest' & -> & -> & Hs & Hx); [cbn in Hf; lia|].
    exists (b :: same), rest'. split; [done|]. rewrite zlen_cons. split; [f_equal; lia|]. split.
    + constructor; [done|]. eapply Forall_impl; [exact Hs|]. intros x. by apply (cb_eq_zero r b x E).
    + destruct rest' as [|x rest']; [done|]. by rewrite <- (cb_eq_zero _ _ x E).
  - exists [], (b :: rest). change (zlen (@nil LCS_MERGE_COUNTING)) with 0.
    rewrite Z.add_0_r. split; [done|]. split; [|done].
    unfold lcs_merge_counting_cb in E.
    destruct (strcmp (date r) (date b) =? 0) eqn:E1; b2p; cbn [negb] in *; [|done].
    replace (strcmp (hour r) (hour b) =? 0) with false by (symmetry; apply Z.eqb_neq; lia). done.
Qed.

(** ** Sums *)

Definition columns : list (LCS_MERGE_COUNTING -> Z) :=
  [totalcall; totalfullchannel; viettelauto; viettelfull; mobileauto; mobilefull; vinaauto;
   vinafull].
Definition zsum (f : LCS_MERGE_COUNTING -> Z) (l : list LCS_MERGE_COUNTING) : Z :=
  foldr (fun r s => f r + s) 0 l.

(** The row that stands for the group of [a] and [same]. *)
Definition total (g : LCS_MERGE_COUNTING * list LCS_MERGE_COUNTING) : LCS_MERGE_COUNTING :=
  let l := g.1 :: g.2 in
  {| date := date g.1; hour := hour g.1; totalcall := zsum totalcall l;
     totalfullchannel := zsum totalfullchannel l; viettelauto := zsum viettelauto l;
     viettelfull := zsum viettelfull l; mobileauto := zsum mobileauto l;
     mobilefull := zsum mobilefull l; vinaauto := zsum vinaauto l; vinafull := zsum vinafull l |}.
Definition flat (g : LCS_MERGE_COUNTING * list LCS_MERGE_COUNTING) : list LCS_MERGE_COUNTING :=
  g.1 :: g.2.

(** No count is negative and every column adds up to an [int]. *)
Definition small (l : list LCS_MERGE_COUNTING) : Prop :=
  Forall (fun r => Forall (fun f => 0 <= f r) columns) l /\
  Forall (fun f => zsum f l < 2 ^ 31) columns.

Lemma zsum_app f l k : zsum f (l ++ k) = zsum f l + zsum f k.
Proof. unfold zsum. induction l; cbn; lia. Qed.

Lemma zsum_perm f l k : l ≡ₚ k -> zsum f l = zsum f k.
Proof. unfold zsum. induction 1; cbn in *; lia. Qed.

Lemma zsum_nonneg f l :
  f ∈ columns -> Forall (fun r => Forall (fun f => 0 <= f r) columns) l -> 0 <= zsum f l.
Proof.
  intros Hf. unfold zsum. induction 1 as [|r l Hr _ IH]; [done|]. cbn.
  rewrite Forall_forall in Hr. specialize (Hr f Hf). lia.
Qed.

Lemma small_perm l k : l ≡ₚ k -> small l -> small k.
Proof.
  intros H [H1 H2]. split; [by rewrite <- H|]. eapply Forall_impl; [exact H2|].
  intros f. cbn. by rewrite (zsum_perm f _ _ H).
Qed.

Lemma small_app l k : small (l ++ k) -> small l /\ small k.
Proof.
  intros [H1 H2]. apply Forall_app in H1 as [Hl Hk]. rewrite Forall_forall in H2.
  split; (split; [done|]); apply Forall_forall; intros f Hf; specialize (H2 f Hf);
    rewrite zsum_app in H2; pose proof (zsum_nonneg f l Hf Hl);
    pose proof (zsum_nonneg f k Hf Hk); lia.
Qed.

Lemma add_int_ok a b : 0 <= a -> 0 <= b -> a + b < 2 ^ 31 -> add_int a b = Ok (a + b).
Proof.
  intros. unfold add_int. replace (- 2 ^ 31 <=? a + b) with true by (symmetry; apply Z.leb_le; lia).
  by replace (a + b <? 2 ^ 31) with true by (symmetry; apply Z.ltb_lt; lia).
Qed.

Lemma row_add_total a done_ b :
  small (a :: done_ ++ [b]) -> row_add (total (a, done_)) b = Ok (total (a, done_ ++ [b])).
Proof.
  intros [H1 H2].
  assert (Hc : forall f, f ∈ columns ->
            add_int (zsum f (a :: done_)) (f b) = Ok (zsum f (a :: done_ ++ [b]))).
  { intros f Hf. change (a :: done_ ++ [b]) with ((a :: done_) ++ [b]) in *.
    rewrite Forall_forall in H2. specialize (H2 f Hf). apply Forall_app in H1 as [Ha Hb].
    apply Forall_inv in Hb. rewrite Forall_forall in Hb. specialize (Hb f Hf).
    rewrite zsum_app in *. replace (zsum f [b]) with (f b) in * by (cbn; lia).
    apply add_int_ok; [by apply zsum_nonneg|done|done]. }
  unfold row_add, total at 1. cbn [fst snd date hour].
  unfold total. cbn [fst snd totalcall totalfullchannel viettelauto viettelfull mobileauto
    mobilefull vinaauto vinafull date hour].
  rewrite !Hc by (repeat (apply elem_of_cons; first [by left|right])).
  by cbn [mbind res_bind].
Qed.

Lemma sum_rows_ok arr m a done_ l same rest' :
  aget arr m = Some (total (a, done_)) -> m < l ->
  (same <> [] \/ rest' <> [] -> 0 <= l /\ drop (Z.to_nat l) arr = same ++ rest') ->
  small (a :: done_ ++ same) ->
  sum_rows (length same) arr m l = Ok (<[Z.to_nat m := total (a, done_ ++ same)]> arr).
Proof.
  revert arr done_ l. induction same as [|b same IH]; intros arr done_ l Hm Hl Hd Hs.
  - cbn [length sum_rows]. rewrite app_nil_r. f_equal. symmetry. apply list_insert_id.
    pose proof (aget_range _ _ _ Hm). unfold aget in Hm. by destruct (0 <=? m).
  - cbn [length sum_rows]. destruct Hd as [H0 Hd]; [by left|].
    rewrite (get_ok _ _ _ Hm). cbn [mbind res_bind].
    assert (Hr : at_rest arr l b (same ++ rest')) by (split; [done|exact Hd]).
    rewrite (get_ok _ _ _ (at_rest_get _ _ _ _ Hr)). cbn [mbind res_bind].
    replace (done_ ++ b :: same) with ((done_ ++ [b]) ++ same) in * by (by rewrite <- app_assoc).
    rewrite row_add_total by (change (small ((a :: done_ ++ [b]) ++ same)) in Hs;
      by apply small_app in Hs as [Hs _]).
    cbn [mbind res_bind]. unfold put. rewrite Hm. cbn [mbind res_bind].
    pose proof (aget_range _ _ _ Hm) as Hrg. rewrite (IH _ (done_ ++ [b]) (l + 1)).
    + by rewrite list_insert_insert_eq.
    + rewrite aget_insert by done. by rewrite Z.eqb_refl.
    + lia.
    + intros _. split; [lia|]. rewrite drop_insert_lt by lia.
      replace (Z.to_nat (l + 1)) with (Z.to_nat l + 1)%nat by lia. by rewrite <- drop_drop, Hd.
    + exact Hs.
Qed.

(** ** The merging loop *)

Definition printable (r : LCS_MERGE_COUNTING) : Prop :=
  (exists d, cstr (date r) = Ok d) /\ (exists h, cstr (hour r) = Ok h).
Definition row_text (r : LCS_MERGE_COUNTING) : list byte :=
  match row_line r with Ok l => l | Fault _ => [] end.

(** What the file must hold for the rows [l]: a line for every group of rows of one date and
    hour, with the sums of the group, in increasing order. *)
Definition merged (l : list LCS_MERGE_COUNTING) (fp : list byte) : Prop :=
  exists gs : list (LCS_MERGE_COUNTING * list LCS_MERGE_COUNTING),
    fp = concat (map (fun g => row_text (total g)) gs) /\
    concat (map flat gs) ≡ₚ l /\
    Forall (fun g => Forall (fun x => cb g.1 x = 0) g.2) gs /\
    StronglySorted (fun g h => cb g.1 h.1 < 0) gs.

Lemma row_line_text r : printable r -> row_line r = Ok (row_text r).
Proof. intros [[d Hd] [h Hh]]. unfold row_text, row_line. by rewrite Hd, Hh. Qed.

Lemma total_single r : total (r, []) = r.
Proof. unfold total, zsum. cbn. rewrite !Z.add_0_r. by destruct r. Qed.

Lemma heads_above r x rest' (gs : list (LCS_MERGE_COUNTING * list LCS_MERGE_COUNTING)) :
  cb r x <= 0 -> cb r x <> 0 -> Forall (fun y => cb x y <= 0) rest' ->
  concat (map flat gs) = x :: rest' -> Forall (fun g => cb r g.1 < 0) gs.
Proof.
  intros H1 H2 Hx Hc. apply Forall_forall. intros g Hg.
  assert (Hin : g.1 ∈ x :: rest').
  { rewrite <- Hc. apply list_elem_of_In, in_concat. exists (flat g).
    split; [apply in_map; by apply list_elem_of_In|by left]. }
  apply elem_of_cons in Hin as [->|Hin]; [lia|].
  apply (cb_lt_le r x); [lia|]. rewrite Forall_forall in Hx. by apply Hx.
Qed.

Lemma sorted_suffix {A} (R : A -> A -> Prop) l k : StronglySorted R (l ++ k) -> StronglySorted R k.
Proof. induction l as [|x l IH]; [done|]. intros H. inversion H; subst. by apply IH. Qed.

(** One round: the group that starts at [i] is found, added up and printed. *)
Lemma merge_round fuel arr n i fp r rest :
  at_rest arr i r rest -> n = zlen arr -> Forall printable (r :: rest) -> small (r :: rest) ->
  exists same rest' arr',
    rest = same ++ rest' /\
    merge_loop (S fuel) arr n i fp
    = merge_loop fuel arr' n (i + zlen same + 1) (fp ++ row_text (total (r, same))) /\
    zlen arr' = zlen arr /\ drop (Z.to_nat (i + zlen same + 1)) arr' = rest' /\
    Forall (fun x => cb r x = 0) same /\
    match rest' with [] => True | x :: _ => cb r x <> 0 end.
Proof.
  intros Hr Hn Hp Hs. pose proof Hr as [H0 Hd]. cbn [merge_loop].
  pose proof (at_rest_end _ _ _ _ Hr) as He. pose proof (zlen_nonneg rest). decide_cmp.
  destruct (group_end_ok (S (Z.to_nat (n - i))) arr n i r rest Hr Hn)
    as (same & rest' & -> & -> & Hsame & Hx); [unfold zlen in *; lia|].
  cbn [mbind res_bind]. replace (Z.to_nat (i + zlen same - i)) with (length same)
    by (unfold zlen; lia).
  change (r :: same ++ rest') with ((r :: same) ++ rest') in Hs.
  destruct (small_app _ _ Hs) as [Hs1 _].
  rewrite (sum_rows_ok arr i r [] (i + 1) same rest');
    [|rewrite total_single; exact (at_rest_get _ _ _ _ Hr)|lia| |exact Hs1].
  2: { intros _. split; [lia|]. replace (Z.to_nat (i + 1)) with (Z.to_nat i + 1)%nat by lia.
       by rewrite <- drop_drop, Hd. }
  cbn [mbind res_bind app]. set (arr' := <[Z.to_nat i := total (r, same)]> arr).
  assert (Hg' : aget arr' i = Some (total (r, same)))
    by (unfold arr'; rewrite aget_insert by lia; by rewrite Z.eqb_refl).
  rewrite (get_ok _ _ _ Hg'). cbn [mbind res_bind].
  rewrite row_line_text by (apply Forall_inv in Hp; exact Hp). cbn [mbind res_bind].
  exists same, rest', arr'. split; [done|]. split; [done|].
  split; [unfold zlen, arr'; by rewrite length_insert|]. split; [|done].
  unfold arr'. rewrite drop_insert_lt by (unfold zlen; lia).
  replace (Z.to_nat (i + zlen same + 1)) with (Z.to_nat i + length (r :: same))%nat
    by (cbn; unfold zlen; lia).
  rewrite <- drop_drop, Hd. apply (drop_app_length (r :: same)).
Qed.

Lemma merge_loop_ok fuel arr n i fp rest :
  0 <= i <= n -> drop (Z.to_nat i) arr = rest -> n = zlen arr -> (length rest < fuel)%nat ->
  Forall printable rest -> small rest -> StronglySorted (fun x y => cb x y <= 0) rest ->
  exists gs,
    merge_loop fuel arr n i fp = Ok (fp ++ concat (map (fun g => row_text (total g)) gs)) /\
    concat (map flat gs) = rest /\
    Forall (fun g => Forall (fun x => cb g.1 x = 0) g.2) gs /\
    StronglySorted (fun g h => cb g.1 h.1 < 0) gs.
Proof.
  revert arr i fp rest. induction fuel as [|fuel IH]; intros arr i fp rest Hi Hd Hn Hf Hp Hs Hso;
    [lia|]. destruct rest as [|r rest].
  { apply (f_equal length) in Hd. rewrite length_drop in Hd. cbn in Hd. unfold zlen in Hn.
    cbn [merge_loop]. replace (i <? n) with false by (symmetry; apply Z.ltb_ge; lia).
    exists []. cbn. rewrite app_nil_r. split; [done|]. split; [done|]. split; constructor. }
  assert (Hr : at_rest arr i r rest) by (split; [lia|done]).
  pose proof (at_rest_end _ _ _ _ Hr) as He.
  destruct (merge_round fuel arr n i fp r rest Hr Hn Hp Hs)
    as (same & rest' & arr' & -> & -> & Hz & Hd' & Hsame & Hx).
  rewrite zlen_app in He. pose proof (zlen_nonneg same). pose proof (zlen_nonneg rest').
  change (r :: same ++ rest') with ((r :: same) ++ rest') in Hs, Hp, Hso.
  destruct (small_app _ _ Hs) as [_ Hs2]. apply Forall_app in Hp as [_ Hp2].
  pose proof (sorted_suffix _ _ _ Hso) as Hso'.
  destruct (IH arr' (i + zlen same + 1) (fp ++ row_text (total (r, same))) rest')
    as (gs & -> & Hc & Hgs & Hss); try done; try lia.
  { cbn in Hf. rewrite length_app in Hf. lia. }
  exists ((r, same) :: gs). cbn [map concat]. rewrite <- app_assoc. split; [done|].
  split; [by rewrite Hc|]. split; [by constructor|]. constructor; [done|]. cbn [fst].
  destruct rest' as [|x rest'].
  - destruct gs as [|[g1 g2] gs]; [constructor|done].
  - apply (heads_above r x rest'); try done; [|by inversion Hso'].
    inversion Hso as [|? ? _ Ha]; subst. apply Forall_app in Ha as [_ Ha].
    by apply Forall_inv in Ha.
Qed.

Lemma merge005_ok rows :
  rows <> [] -> Forall printable rows -> small rows ->
  exists fp, lcs_merge005_list true rows (zlen rows) = Ok (Some fp) /\ merged rows fp.
Proof.
  intros Hne Hp Hs.
  assert (Hlen : 0 < zlen rows) by (destruct rows; [done|rewrite zlen_cons; pose proof (zlen_nonneg rows); lia]).
  destruct (Lcs.lcs_quick_sort_ok cb id (length rows) rows 0 (zlen rows - 1)) as (d & Hd & Hw & Hso);
    [lia|lia|unfold zlen in *; lia|by apply Forall_forall|].
  pose proof (within_zlen _ _ _ _ Hw) as Hz. rewrite <- Hz in Hso. apply sorted_strong in Hso.
  destruct Hw as (P & _). unfold lcs_merge005_list.
  replace (zlen rows + 1 <? zlen rows) with false by (symmetry; apply Z.ltb_ge; lia).
  rewrite Hd. cbn [mbind res_bind negb].
  destruct (merge_loop_ok (S (Z.to_nat (zlen rows))) d (zlen rows) 0 [] d)
    as (gs & -> & Hc & Hg & Hss); try done; try lia.
  - rewrite <- Hz. unfold zlen. lia.
  - by rewrite P.
  - by apply (small_perm rows).
  - eexists. split; [done|]. exists gs. rewrite app_nil_l, Hc. done.
Qed.

(** ** Parsing what was printed *)

Definition seps : list byte := [tab; nl].
(** A word that fits an array of [k] characters. *)
Definition word (k : Z) (s : list byte) : Prop :=
  s <> [] /\ zlen s < k /\ Forall (fun b => is_delim seps b = false /\ b <> x00) s.

(** A row as the parser builds it: its two arrays are words behind which zeros follow. *)
Definition row_wf (r : LCS_MERGE_COUNTING) : Prop :=
  (exists d, word 12 d /\ date r = d ++ zeros (12 - zlen d)) /\
  (exists h, word 4 h /\ hour r = h ++ zeros (4 - zlen h)) /\
  Forall (fun f => 0 <= f r < 2 ^ 31) columns.

Lemma word_put k s : word k s -> put_text k s = Ok (s ++ zeros (k - zlen s)).
Proof.
  intros (_ & Hl & _). pose proof (zlen_nonneg s). unfold put_text.
  rewrite wr_zeros by (rewrite zlen_app; change (zlen [x00]) with 1; lia). f_equal.
  rewrite <- app_assoc. f_equal. rewrite zlen_app. change (zlen [x00]) with 1.
  replace (k - zlen s) with (1 + (k - (zlen s + 1))) by lia. by rewrite zeros_add by lia.
Qed.

Lemma word_cstr k s n : word k s -> zlen s < n -> cstr (s ++ zeros (n - zlen s)) = Ok s.
Proof.
  intros (_ & _ & Hw) Hn. replace (n - zlen s) with (1 + (n - zlen s - 1)) by lia.
  rewrite zeros_add by lia. apply cstr_terminated. eapply Forall_impl; [exact Hw|]. by intros b [_ ?].
Qed.

Lemma digits_word n : 0 <= n < 2 ^ 31 -> itoa n <> [] /\
  Forall (fun b => is_delim seps b = false /\ b <> x00) (itoa n).
Proof.
  intros Hn. unfold itoa. replace (n <? 0) with false by (symmetry; apply Z.ltb_ge; lia).
  split; [apply utoa_ne|]. eapply Forall_impl; [apply utoa_fuel_digits; lia|].
  intros b Hb. cbn in Hb. unfold is_digit in Hb. b2p. split.
  - unfold is_delim, seps. cbn [existsb]. change (b2z tab) with 9. change (b2z nl) with 10.
    decide_cmp. done.
  - intros ->. change (b2z x00) with 0 in *. lia.
Qed.

Lemma token_step s d rest off :
  s <> [] -> Forall (fun b => is_delim seps b = false /\ b <> x00) s -> d ∈ seps ->
  strtok_all seps (s ++ [d] ++ rest) off None
  = (off, s) :: strtok_all seps rest (off + zlen s + 1) None.
Proof.
  intros Hne Hs Hd. apply strtok_token; [done| |].
  - eapply Forall_impl; [exact Hs|]. by intros b [? _].
  - repeat (apply elem_of_cons in Hd as [->|Hd]; [done|]). by apply not_elem_of_nil in Hd.
Qed.

Lemma next_token_cons o p toks : next_token ((o, p) :: toks) = Ok (p, toks).
Proof. done. Qed.

Lemma scan_col_itoa data o n toks :
  0 <= n < 2 ^ 31 -> scan_col data ((o, itoa n) :: toks) = Ok (n, toks).
Proof. intros H. unfold scan_col. cbn [next_token mbind res_bind]. by rewrite scan_d_itoa by lia. Qed.

(** The tokens of a printed row give the row back. *)
Lemma collect_row_ok r rest off data :
  row_wf r ->
  exists o p toks off',
    strtok_all seps (row_text r ++ rest) off None = (o, p) :: toks ++ strtok_all seps rest off' None /\
    collect_row data p (toks ++ strtok_all seps rest off' None)
    = Ok (r, vinafull r, strtok_all seps rest off' None).
Proof.
  intros ((d & Wd & Ed) & (h & Wh & Eh) & Hc). pose proof Wd as (Nd & Ld & Fd).
  pose proof Wh as (Nh & Lh & Fh).
  unfold row_text, row_line. rewrite Ed, Eh, (word_cstr 12 d 12), (word_cstr 4 h 4) by done.
  cbn [mbind res_bind]. rewrite <- !app_assoc.
  unfold columns in Hc. rewrite !Forall_cons in Hc.
  destruct Hc as (C1 & C2 & C3 & C4 & C5 & C6 & C7 & C8 & _).
  assert (Tt : tab ∈ seps) by (by left). assert (Tn : nl ∈ seps) by (right; by left).
  rewrite (token_step d), (token_step h) by done.
  do 8 (rewrite token_step; [|by apply digits_word|by apply digits_word|done]).
  eexists _, _, [_; _; _; _; _; _; _; _; _], _. split; [reflexivity|]. cbn [app].
  unfold collect_row. rewrite word_put by done. rewrite next_token_cons. cbn [mbind res_bind].
  rewrite word_put by done. cbn [mbind res_bind].
  do 8 (rewrite scan_col_itoa by done; cbn [mbind res_bind]).
  rewrite <- Ed, <- Eh. by destruct r.
Qed.

Lemma tokens_enough rows off :
  Forall row_wf rows ->
  (length rows < S (length (strtok_all seps (concat (map row_text rows)) off None)))%nat.
Proof.
  intros Hw. revert off. induction Hw as [|r rows Hr _ IH]; intros off; [cbn; lia|].
  cbn [map concat]. destruct (collect_row_ok r (concat (map row_text rows)) off 0 Hr)
    as (o & p & toks & off' & -> & _).
  specialize (IH off'). cbn [length]. rewrite length_app. lia.
Qed.

Lemma collect_ok rows fuel data off root :
  Forall row_wf rows -> (length rows < fuel)%nat ->
  collect fuel data (strtok_all seps (concat (map row_text rows)) off None) root
  = Ok (root ++ rows).
Proof.
  intros Hw. revert fuel data off root.
  induction Hw as [|r rows Hr _ IH]; intros fuel data off root Hf; destruct fuel as [|fuel];
    try (cbn in Hf; lia); [cbn; by rewrite app_nil_r|].
  cbn [map concat]. destruct (collect_row_ok r (concat (map row_text rows)) off data Hr)
    as (o & p & toks & off' & -> & Hc).
  cbn [collect]. rewrite Hc. cbn [mbind res_bind]. rewrite IH by (cbn in Hf; lia).
  by rewrite <- app_assoc.
Qed.

Lemma row_wf_printable r : row_wf r -> printable r.
Proof.
  intros ((d & Wd & Ed) & (h & Wh & Eh) & _). unfold printable. rewrite Ed, Eh.
  split; [exists d; apply (word_cstr 12)|exists h; apply (word_cstr 4)]; try done;
    [by destruct Wd as (_ & ? & _)|by destruct Wh as (_ & ? & _)].
Qed.

Lemma row_text_no_nul r : row_wf r -> no_nul (row_text r).
Proof.
  intros ((d & Wd & Ed) & (h & Wh & Eh) & Hc). unfold row_text, row_line.
  rewrite Ed, Eh, (word_cstr 12 d 12), (word_cstr 4 h 4) by
    (try done; by destruct Wd as (_ & ? & _), Wh as (_ & ? & _)).
  cbn [mbind res_bind]. unfold columns in Hc. rewrite !Forall_cons in Hc.
  destruct Hc as (C1 & C2 & C3 & C4 & C5 & C6 & C7 & C8 & _).
  assert (Hd : forall n, 0 <= n < 2 ^ 31 -> no_nul (itoa n)).
  { intros n Hn. destruct (digits_word n Hn) as [_ H]. eapply Forall_impl; [exact H|].
    by intros b [_ ?]. }
  assert (Hw : forall k s, word k s -> no_nul s).
  { intros k s (_ & _ & H). eapply Forall_impl; [exact H|]. by intros b [_ ?]. }
  assert (Ht : no_nul [tab]) by (repeat constructor; discriminate).
  assert (Hn : no_nul [nl]) by (repeat constructor; discriminate).
  unfold no_nul in *. repeat (apply Forall_app; split);
    first [exact Ht|exact Hn|by apply Hd|by apply (Hw 12)|by apply (Hw 4)].
Qed.

Lemma text_no_nul rows : Forall row_wf rows -> no_nul (concat (map row_text rows)).
Proof.
  intros Hw. induction Hw as [|r rows Hr _ IH]; [constructor|].
  cbn [map concat]. apply Forall_app. split; [by apply row_text_no_nul|exact IH].
Qed.
Lemma text_cstr rows :
  Forall row_wf rows -> cstr (concat (map row_text rows) ++ [x00]) = Ok (concat (map row_text rows)).
Proof. intros Hw. by apply cstr_terminated, text_no_nul. Qed.

(** What [lcs_hcollect005_sum] makes of rows it can have printed itself. *)
Lemma hcollect_ok rows :
  rows <> [] -> Forall row_wf rows -> small rows ->
  exists fp,
    lcs_hcollect005_sum true (concat (map row_text rows) ++ [x00])
    = Ok (Some fp, Fault DeadObject) /\ merged rows fp.
Proof.
  intros Hne Hw Hs. unfold lcs_hcollect005_sum. rewrite text_cstr by done.
  cbn [mbind res_bind]. unfold strtok. fold seps. rewrite (collect_ok rows) by
    (try done; apply tokens_enough; done).
  cbn [mbind res_bind app].
  assert (Hz : (zlen rows =? 0) = false)
    by (destruct rows; [done|]; apply Z.eqb_neq; rewrite zlen_cons; pose proof (zlen_nonneg rows); lia).
  rewrite Hz. cbn [negb].
  destruct (merge005_ok rows Hne) as (fp & -> & Hm); [|done|].
  { eapply Forall_impl; [exact Hw|]. apply row_wf_printable. }
  cbn [mbind res_bind]. exists fp. split; [|done]. by destruct rows.
Qed.

(** C31: [lcs_hcollect005_sum], given the text of rows it can have printed itself whose
    columns add up to [int]s, writes a file with one line for every date and hour among
    them, in increasing order, that holds the sums of the rows of that date and hour: every
    row is counted in exactly one line.  When the file is written the list is freed by a loop
    that reads each node after freeing it. *)
Theorem hcollect_merges rows :
  rows <> [] -> Forall row_wf rows -> small rows ->
  exists fp,
    lcs_hcollect005_sum true (concat (map row_text rows) ++ [x00])
    = Ok (Some fp, Fault DeadObject) /\ merged rows fp.
Proof. exact (hcollect_ok rows). Qed.

(** Three rows, two of them of one hour. *)
Definition day_row (h : string) (k : Z) : LCS_MERGE_COUNTING :=
  {| date := str "2016-05-01" ++ zeros 2; hour := str h ++ zeros 2; totalcall := k;
     totalfullchannel := 2; viettelauto := 3; viettelfull := 4; mobileauto := 5;
     mobilefull := 6; vinaauto := 7; vinafull := 8 |}.
Definition day_rows : list LCS_MERGE_COUNTING :=
  [day_row "10" 100; day_row "09" 7; day_row "10" 23].

Lemma word_dec k s :
  bool_decide (s <> []) && (zlen s <? k) &&
  forallb (fun b => negb (is_delim seps b) && negb (bool_decide (b = x00))) s = true ->
  word k s.
Proof.
  intros H. b2p. split; [by apply bool_decide_eq_true in H|]. split; [done|].
  apply Forall_forall. intros b Hb. rewrite forallb_forall in H0.
  specialize (H0 b (proj1 (list_elem_of_In _ _) Hb)). apply andb_true_iff in H0 as [Ha Hb']. b2p.
  split; [done|]. by apply bool_decide_eq_false in Hb'.
Qed.

Lemma hcollect_merges_witness :
  exists fp,
    lcs_hcollect005_sum true (concat (map row_text day_rows) ++ [x00])
    = Ok (Some fp, Fault DeadObject) /\ merged day_rows fp.
Proof.
  apply (hcollect_merges day_rows).
  - discriminate.
  - assert (Hd : word 12 (str "2016-05-01")) by (apply word_dec; vm_compute; reflexivity).
    assert (H1 : word 4 (str "10")) by (apply word_dec; vm_compute; reflexivity).
    assert (H2 : word 4 (str "09")) by (apply word_dec; vm_compute; reflexivity).
    repeat constructor; try (vm_compute; reflexivity); try (vm_compute; discriminate);
      try (by exists (str "2016-05-01")); try (by exists (str "10")); by exists (str "09").
  - split; repeat constructor; vm_compute; try reflexivity; discriminate.
Defined.

(** What the file of the example holds. *)
Lemma day_rows_file :
  lcs_hcollect005_sum true (concat (map row_text day_rows) ++ [x00])
  = Ok (Some (row_text (day_row "09" 7) ++ row_text (total (day_row "10" 100, [day_row "10" 23]))),
        Fault DeadObject).
Proof. vm_compute. reflexivity. Qed.

(** ** The text helpers *)

Lemma lcs_comm_replace_ok s rest nwe old :
  no_nul s ->
  lcs_comm_replace (s ++ x00 :: rest) nwe old
  = Ok (map (fun b => if b2z b =? b2z old then nwe else b) s ++ x00 :: rest).
Proof.
  induction 1 as [|b s Hb _ IH]; [done|]. cbn [app lcs_comm_replace].
  destruct (b2z b =? 0) eqn:E; b2p; [by apply b2z_zero in E|]. rewrite IH. done.
Qed.

Lemma lcs_cgen_list_ok toks root :
  Forall (fun t : Z * list byte => word 64 t.2) toks ->
  lcs_cgen_list toks root
  = Ok (root ++ map (fun t => t.2 ++ zeros (64 - zlen t.2)) toks).
Proof.
  intros Hw. revert root. induction Hw as [|[o t] toks Ht _ IH]; intros root;
    cbn [lcs_cgen_list map]; [by rewrite app_nil_r|]. cbn [snd] in *.
  pose proof Ht as (Hne & _). pose proof (zlen_nonneg t).
  destruct (zlen t =? 0) eqn:E; b2p; [destruct t; [done|]; rewrite zlen_cons in E;
    pose proof (zlen_nonneg t); lia|].
  rewrite word_put by done. cbn [mbind res_bind]. rewrite IH. by rewrite <- app_assoc.
Qed.
