(* ===== verification/Calendar.v ===== *)
(** * Times of day as text

    Models [lcs_str2_time] and [lcs_time2_str] of src/cluster/common/lcs_common.c, which
    turn "2017-10-29 08:15:00" into seconds and back through [strptime], [mktime],
    [localtime] and [strftime].  The zone is one without daylight saving: its offset from
    UTC is the parameter [gmtoff].  The four functions of the C library are defined for the
    format the program uses, on the Gregorian calendar.

    The theorems: the two functions are inverse to each other, and [strcmp] on the texts is
    the order of the times, which is what the loops over days and minutes rely on. *)
From S2P Require Import Prelude CString.

(** ** The calendar *)

(** [struct tm]: years since 1900, months from 0, days from 1. *)
Record tm := {
  tm_year : Z; tm_mon : Z; tm_mday : Z; tm_hour : Z; tm_min : Z; tm_sec : Z
}.

Definition leap (y : Z) : bool :=
  (y mod 4 =? 0) && (negb (y mod 100 =? 0) || (y mod 400 =? 0)).
(** The days of a year before its month [m], counted from 0. *)
Definition days_before (y m : Z) : Z :=
  nth (Z.to_nat m) [0; 31; 59; 90; 120; 151; 181; 212; 243; 273; 304; 334; 365] 0 +
  (if (2 <=? m) && leap y then 1 else 0).
Definition month_len (y m : Z) : Z := days_before y (m + 1) - days_before y m.

(** The days from 1970-01-01 to the first of January of [y], and to a date. *)
Definition year_days (y : Z) : Z :=
  365 * (y - 1970) + (y - 1969) / 4 - (y - 1901) / 100 + (y - 1601) / 400.
Definition days_of_date (y m d : Z) : Z := year_days y + days_before y m + (d - 1).

(** The date of a day: the year by its number in the cycle of 400 years that starts on
    1600-01-01, the month as the last that starts at or before the day of the year. *)
Definition year_in_cycle (n : Z) : Z :=
  let y := n / 366 in
  if (y + 1) * 365 + (y + 1 + 3) / 4 - (y + 1 + 99) / 100 + (y + 1 + 399) / 400 <=? n
  then y + 1 else y.
Fixpoint month_of (k : nat) (y n m : Z) : Z :=
  match k with
  | O => m
  | S k => if days_before y (m + 1) <=? n then month_of k y n (m + 1) else m
  end.
Definition date_of_days (z : Z) : Z * Z * Z :=
  let n := z - year_days 1600 in
  let y := 1600 + 400 * (n / 146097) + year_in_cycle (n mod 146097) in
  let yday := z - year_days y in
  let m := month_of 11 y yday 0 in
  (y, m, yday - days_before y m + 1).

(** ** [strptime(str, "%Y-%m-%d %H:%M:%S", &tm)] *)

(** A number of at most [n] digits between [from] and [to], behind white space; a further
    digit is taken only while the number can stay below [to]. *)
Fixpoint strp_digits (n : nat) (to val : Z) (s : list byte) : Z * list byte :=
  match n, s with
  | S n, b :: s' =>
    if is_digit b && (val * 10 <=? to) then strp_digits n to (val * 10 + (b2z b - 48)) s'
    else (val, s)
  | _, _ => (val, s)
  end.
Definition strp_num (from to : Z) (n : nat) (s : list byte) : option (Z * list byte) :=
  match drop_while is_space s with
  | b :: s' =>
    if is_digit b then
      let '(val, rest) := strp_digits (pred n) to (b2z b - 48) s' in
      if (from <=? val) && (val <=? to) then Some (val, rest) else None
    else None
  | [] => None
  end.
Definition strp_char (c : byte) (s : list byte) : option (list byte) :=
  match s with b :: s' => if b2z b =? b2z c then Some s' else None | [] => None end.

(** The fields are set one after the other; the first mismatch ends the parse. *)
Definition strptime (s : list byte) (t : tm) : tm :=
  match strp_num 0 9999 4 s with
  | None => t
  | Some (y, s) =>
    let t := {| tm_year := y - 1900; tm_mon := tm_mon t; tm_mday := tm_mday t;
                tm_hour := tm_hour t; tm_min := tm_min t; tm_sec := tm_sec t |} in
    match strp_char x2d s ≫= strp_num 1 12 2 with
    | None => t
    | Some (m, s) =>
      let t := {| tm_year := tm_year t; tm_mon := m - 1; tm_mday := tm_mday t;
                  tm_hour := tm_hour t; tm_min := tm_min t; tm_sec := tm_sec t |} in
      match strp_char x2d s ≫= strp_num 1 31 2 with
      | None => t
      | Some (d, s) =>
        let t := {| tm_year := tm_year t; tm_mon := tm_mon t; tm_mday := d;
                    tm_hour := tm_hour t; tm_min := tm_min t; tm_sec := tm_sec t |} in
        match strp_num 0 23 2 (drop_while is_space s) with
        | None => t
        | Some (h, s) =>
          let t := {| tm_year := tm_year t; tm_mon := tm_mon t; tm_mday := tm_mday t;
                      tm_hour := h; tm_min := tm_min t; tm_sec := tm_sec t |} in
          match strp_char x3a s ≫= strp_num 0 59 2 with
          | None => t
          | Some (mi, s) =>
            let t := {| tm_year := tm_year t; tm_mon := tm_mon t; tm_mday := tm_mday t;
                        tm_hour := tm_hour t; tm_min := mi; tm_sec := tm_sec t |} in
            match strp_char x3a s ≫= strp_num 0 61 2 with
            | None => t
            | Some (sec, _) =>
              {| tm_year := tm_year t; tm_mon := tm_mon t; tm_mday := tm_mday t;
                 tm_hour := tm_hour t; tm_min := tm_min t; tm_sec := sec |}
            end
          end
        end
      end
    end
  end.

(** ** [mktime], [localtime] and [strftime] *)

(** The zone, and what the buffer of [strftime] holds when the text does not fit, which
    the standard leaves open. *)
Class TimeZone := {
  gmtoff : Z;
  strftime_nofit : list byte
}.

Section Zone.
Context `{TimeZone}.

Definition mktime (t : tm) : Z :=
  days_of_date (tm_year t + 1900) (tm_mon t) (tm_mday t) * 86400 +
  tm_hour t * 3600 + tm_min t * 60 + tm_sec t - gmtoff.

Definition localtime (t : Z) : tm :=
  let l := t + gmtoff in
  let '(y, m, d) := date_of_days (l / 86400) in
  let s := l mod 86400 in
  {| tm_year := y - 1900; tm_mon := m; tm_mday := d; tm_hour := s / 3600;
     tm_min := s mod 3600 / 60; tm_sec := s mod 60 |}.

(** ["%02d"] of a number below 100. *)
Definition pad2 (n : Z) : list byte := [digit (n / 10); digit (n mod 10)].

(** "%Y-%m-%d %H:%M:%S"; the year has no padding. *)
Definition time_text (t : tm) : list byte :=
  itoa (tm_year t + 1900) ++ [x2d] ++ pad2 (tm_mon t + 1) ++ [x2d] ++ pad2 (tm_mday t) ++
  [x20] ++ pad2 (tm_hour t) ++ [x3a] ++ pad2 (tm_min t) ++ [x3a] ++ pad2 (tm_sec t).
Definition strftime (buf : list byte) (max : Z) (t : tm) : res (list byte) :=
  if zlen (time_text t) <? max then wr buf 0 (time_text t ++ [x00])
  else wr buf 0 (take (Z.to_nat max) strftime_nofit).

(** ** The two functions of the program *)

Definition lcs_str2_time (str : list byte) : res Z :=
  s ← cstr str;
  Ok (mktime (strptime s {| tm_year := 0; tm_mon := 0; tm_mday := 0; tm_hour := 0;
                            tm_min := 0; tm_sec := 0 |})).
Definition lcs_time2_str (t : Z) : res (list byte) := strftime (zeros 32) 20 (localtime t).

End Zone.

(** ** Dates and days determine each other *)

Definition leapz (y : Z) : Z := if leap y then 1 else 0.

Lemma leapz_range y : 0 <= leapz y <= 1.
Proof. unfold leapz. destruct (leap y); lia. Qed.

Lemma year_days_next y : year_days (y + 1) = year_days y + 365 + leapz y.
Proof.
  unfold year_days, leapz, leap.
  destruct (y mod 4 =? 0) eqn:E1, (y mod 100 =? 0) eqn:E2, (y mod 400 =? 0) eqn:E3; b2p;
    cbn [andb negb orb]; Z.to_euclidean_division_equations; lia.
Qed.

Lemma year_days_mono y y' : y <= y' -> year_days y <= year_days y'.
Proof.
  intros Hy. replace y' with (y + Z.of_nat (Z.to_nat (y' - y))) by lia. clear Hy.
  induction (Z.to_nat (y' - y)) as [|n IH]; [by rewrite Z.add_0_r|].
  replace (y + Z.of_nat (S n)) with (y + Z.of_nat n + 1) by lia. rewrite year_days_next.
  pose proof (leapz_range (y + Z.of_nat n)). lia.
Qed.

Lemma year_days_cycle y k : year_days (y + 400 * k) = year_days y + 146097 * k.
Proof. unfold year_days. Z.to_euclidean_division_equations; lia. Qed.

Lemma year_in_cycle_ok n :
  0 <= n < 146097 ->
  year_days (1600 + year_in_cycle n) <= year_days 1600 + n
  < year_days (1600 + year_in_cycle n + 1).
Proof.
  intros Hn. unfold year_in_cycle.
  destruct (_ <=? n) eqn:E; b2p; unfold year_days; Z.to_euclidean_division_equations; lia.
Qed.

(** Case analysis on a month. *)
Ltac months m :=
  let H := fresh in
  assert (H : m = 0 \/ m = 1 \/ m = 2 \/ m = 3 \/ m = 4 \/ m = 5 \/ m = 6 \/ m = 7 \/ m = 8 \/
              m = 9 \/ m = 10 \/ m = 11) by lia;
  decompose [or] H; clear H; subst m.

Lemma days_before_step y m : 0 <= m < 12 -> days_before y m < days_before y (m + 1).
Proof. intros. months m; unfold days_before; destruct (leap y); reflexivity. Qed.

Lemma days_before_mono y m m' : 0 <= m <= m' -> m' <= 12 -> days_before y m <= days_before y m'.
Proof.
  intros H H'. assert (Hn : exists n, m' = m + Z.of_nat n) by (exists (Z.to_nat (m' - m)); lia).
  destruct Hn as [n ->]. induction n as [|n IH]; [rewrite Z.add_0_r; lia|].
  rewrite Nat2Z.inj_succ in *. pose proof (days_before_step y (m + Z.of_nat n)).
  replace (m + Z.succ (Z.of_nat n)) with (m + Z.of_nat n + 1) by lia. lia.
Qed.

Lemma days_before_ends y : days_before y 0 = 0 /\ days_before y 12 = 365 + leapz y.
Proof. unfold days_before, leapz. cbn. destruct (leap y); done. Qed.

Lemma month_of_ok k y n m :
  m + Z.of_nat k = 11 -> 0 <= m -> days_before y m <= n < days_before y 12 ->
  let m' := month_of k y n m in 0 <= m' < 12 /\ days_before y m' <= n < days_before y (m' + 1).
Proof.
  cbv zeta. revert m. induction k as [|k IH]; intros m Hm H0 Hn; cbn [month_of].
  - replace m with 11 in * by lia. done.
  - destruct (_ <=? n) eqn:E; b2p; [apply IH; lia|]. lia.
Qed.

Definition valid_date (y m d : Z) : Prop := 0 <= m < 12 /\ 1 <= d <= month_len y m.

Lemma valid_yday y m d :
  valid_date y m d -> 0 <= days_before y m + (d - 1) < 365 + leapz y.
Proof.
  intros [Hm Hd]. unfold month_len in Hd. pose proof (days_before_ends y) as [H0 H12].
  pose proof (days_before_mono y 0 m). pose proof (days_before_mono y (m + 1) 12). lia.
Qed.

Lemma date_of_days_ok z :
  let '(y, m, d) := date_of_days z in valid_date y m d /\ days_of_date y m d = z.
Proof.
  unfold date_of_days. set (n := z - year_days 1600). set (c := year_in_cycle (n mod 146097)).
  set (y := 1600 + 400 * (n / 146097) + c).
  pose proof (year_in_cycle_ok (n mod 146097) (Z.mod_pos_bound n 146097 eq_refl)) as Hc.
  fold c in Hc.
  assert (Hy : year_days y <= z < year_days (y + 1)).
  { unfold y. replace (1600 + 400 * (n / 146097) + c) with (1600 + c + 400 * (n / 146097)) by lia.
    replace (1600 + c + 400 * (n / 146097) + 1) with (1600 + c + 1 + 400 * (n / 146097)) by lia.
    rewrite !year_days_cycle. pose proof (Z.div_mod n 146097). lia. }
  rewrite year_days_next in Hy. pose proof (days_before_ends y) as [H0 H12].
  destruct (month_of_ok 11 y (z - year_days y) 0) as [Hm Hd]; [done|done|lia|].
  unfold valid_date, month_len, days_of_date. lia.
Qed.

(** Later dates have larger numbers. *)
Lemma days_of_date_year y m d y' m' d' :
  valid_date y m d -> valid_date y' m' d' -> y < y' ->
  days_of_date y m d < days_of_date y' m' d'.
Proof.
  intros H%valid_yday H'%valid_yday Hy. pose proof (year_days_mono (y + 1) y').
  rewrite year_days_next in *. unfold days_of_date. lia.
Qed.

Lemma days_of_date_month y m d m' d' :
  valid_date y m d -> valid_date y m' d' -> m < m' -> days_of_date y m d < days_of_date y m' d'.
Proof.
  intros [Hm Hd] [Hm' Hd'] Hlt. unfold month_len in *. pose proof (days_before_mono y (m + 1) m').
  unfold days_of_date. lia.
Qed.

Lemma days_of_date_inj y m d y' m' d' :
  valid_date y m d -> valid_date y' m' d' -> days_of_date y m d = days_of_date y' m' d' ->
  (y, m, d) = (y', m', d').
Proof.
  intros H H' E. destruct (Z.lt_trichotomy y y') as [Hy|[->|Hy]];
    [pose proof (days_of_date_year _ _ _ _ _ _ H H' Hy); lia| |
     pose proof (days_of_date_year _ _ _ _ _ _ H' H Hy); lia].
  destruct (Z.lt_trichotomy m m') as [Hm|[->|Hm]];
    [pose proof (days_of_date_month _ _ _ _ _ H H' Hm); lia| |
     pose proof (days_of_date_month _ _ _ _ _ H' H Hm); lia].
  unfold days_of_date in E. by replace d with d' by lia.
Qed.

Lemma days_of_date_of_days y m d :
  valid_date y m d -> date_of_days (days_of_date y m d) = (y, m, d).
Proof.
  intros H. pose proof (date_of_days_ok (days_of_date y m d)) as Hd.
  destruct (date_of_days _) as [[y' m'] d']. destruct Hd as [Hv Hd]. by apply days_of_date_inj.
Qed.

(** ** Broken-down time *)

Definition tm_ok (t : tm) : Prop :=
  valid_date (tm_year t + 1900) (tm_mon t) (tm_mday t) /\ 0 <= tm_hour t < 24 /\
  0 <= tm_min t < 60 /\ 0 <= tm_sec t < 60.
(** The year has four digits. *)
Definition four_digits (t : tm) : Prop := 1000 <= tm_year t + 1900 <= 9999.

Section ZoneLemmas.
Context `{TimeZone}.

Lemma localtime_ok t : tm_ok (localtime t) /\ mktime (localtime t) = t.
Proof.
  unfold localtime, mktime, tm_ok. pose proof (date_of_days_ok ((t + gmtoff) / 86400)) as Hd.
  destruct (date_of_days _) as [[y m] d]. cbn.
  replace (y - 1900 + 1900) with y by lia. destruct Hd as [Hv Hd]. split.
  - split; [done|]. Z.to_euclidean_division_equations; lia.
  - rewrite Hd. Z.to_euclidean_division_equations; lia.
Qed.

Lemma mktime_inj t t' : tm_ok t -> tm_ok t' -> mktime t = mktime t' -> t = t'.
Proof.
  intros (Hv & H1 & H2 & H3) (Hv' & H1' & H2' & H3') E. unfold mktime in E.
  assert (Hd : (tm_year t + 1900, tm_mon t, tm_mday t) = (tm_year t' + 1900, tm_mon t', tm_mday t'))
    by (apply days_of_date_inj; [done|done|lia]).
  injection Hd as Hy Hm Hd. rewrite Hy, Hm, Hd in E. destruct t, t'. cbn in *. f_equal; lia.
Qed.

Lemma localtime_mktime t : tm_ok t -> localtime (mktime t) = t.
Proof. intros Ht. apply mktime_inj; [apply localtime_ok|done|apply localtime_ok]. Qed.

End ZoneLemmas.

(** ** The text of a time *)

Lemma digit_val d : 0 <= d < 10 -> b2z (digit d) = 48 + d.
Proof. intros. unfold digit. rewrite b2z_z2b, Z.mod_small; lia. Qed.

Lemma utoa_fuel_lt f n : n < 10 -> utoa_fuel (S f) n = [digit n].
Proof. intros. cbn [utoa_fuel]. by rewrite (proj2 (Z.ltb_lt n 10)). Qed.

Lemma utoa_fuel_ge f n :
  10 <= n -> utoa_fuel (S f) n = utoa_fuel f (n / 10) ++ [digit (n mod 10)].
Proof. intros. cbn [utoa_fuel]. by rewrite (proj2 (Z.ltb_ge n 10)). Qed.

Lemma itoa_four y :
  1000 <= y <= 9999 -> itoa y = pad2 (y / 100) ++ pad2 (y mod 100).
Proof.
  intros Hy. unfold itoa. decide_cmp. unfold utoa, pad2.
  assert (Hd : 10 <= y / 10 /\ 10 <= y / 10 / 10 /\ y / 10 / 10 / 10 < 10)
    by (Z.to_euclidean_division_equations; lia).
  rewrite !utoa_fuel_ge, utoa_fuel_lt by lia. cbn [app].
  do 3 (f_equal; [f_equal; Z.to_euclidean_division_equations; lia|]).
  do 2 f_equal. Z.to_euclidean_division_equations; lia.
Qed.

Lemma pad2_length n : length (pad2 n) = 2%nat.
Proof. done. Qed.

Lemma no_nul_digit d : 0 <= d < 10 -> digit d <> x00.
Proof. intros Hd E. apply (f_equal b2z) in E. rewrite digit_val in E by done.
  change (b2z x00) with 0 in E. lia. Qed.

Lemma no_nul_pad2 n : 0 <= n < 100 -> no_nul (pad2 n).
Proof.
  intros Hn. constructor; [|constructor; [|constructor]];
    apply no_nul_digit; Z.to_euclidean_division_equations; lia.
Qed.

(** Reading a number of two digits back. *)
Lemma is_digit_digit d : 0 <= d < 10 -> is_digit (digit d) = true.
Proof. exact (digit_is_digit d). Qed.

Lemma digit_not_space d : 0 <= d < 10 -> is_space (digit d) = false.
Proof.
  intros H. unfold is_space. rewrite digit_val by done. decide_cmp.
  destruct (9 <=? 48 + d); done.
Qed.

Lemma strp_digits_digit n to v d s :
  0 <= d < 10 -> v * 10 <= to ->
  strp_digits (S n) to v (digit d :: s) = strp_digits n to (v * 10 + d) s.
Proof.
  intros Hd Hv. cbn [strp_digits]. rewrite is_digit_digit, digit_val by done.
  rewrite (proj2 (Z.leb_le _ _) Hv). cbn [andb]. f_equal. lia.
Qed.

Lemma strp_num_digit from to n d s :
  0 <= d < 10 ->
  strp_num from to (S n) (digit d :: s)
  = let '(val, rest) := strp_digits n to d s in
    if (from <=? val) && (val <=? to) then Some (val, rest) else None.
Proof.
  intros Hd. unfold strp_num. cbn [drop_while pred].
  rewrite digit_not_space, is_digit_digit, digit_val by done.
  by replace (48 + d - 48) with d by lia.
Qed.

Lemma strp_num_pad2 from to n rest :
  0 <= n < 100 -> from <= n <= to -> strp_num from to 2 (pad2 n ++ rest) = Some (n, rest).
Proof.
  intros Hn Ht. assert (Hd : 0 <= n / 10 < 10 /\ 0 <= n mod 10 < 10)
    by (Z.to_euclidean_division_equations; lia).
  destruct Hd as [H1 H2]. pose proof (Z.div_mod n 10). unfold pad2. cbn [app].
  rewrite strp_num_digit, strp_digits_digit by lia. cbn [strp_digits].
  replace (n / 10 * 10 + n mod 10) with n by lia. by decide_cmp.
Qed.

Lemma strp_num_year y rest :
  1000 <= y <= 9999 ->
  strp_num 0 9999 4 ((pad2 (y / 100) ++ pad2 (y mod 100)) ++ rest) = Some (y, rest).
Proof.
  intros Hy. unfold pad2. set (a := y / 100 / 10). set (b := (y / 100) mod 10).
  set (c := y mod 100 / 10). set (d := (y mod 100) mod 10).
  assert (Hd : 0 <= a < 10 /\ 0 <= b < 10 /\ 0 <= c < 10 /\ 0 <= d < 10 /\
               y = ((a * 10 + b) * 10 + c) * 10 + d)
    by (unfold a, b, c, d; Z.to_euclidean_division_equations; lia).
  destruct Hd as (Ha & Hb & Hc & Hd & E). clearbody a b c d. cbn [app].
  rewrite strp_num_digit, !strp_digits_digit by lia. cbn [strp_digits]. rewrite <- E.
  by decide_cmp.
Qed.

Lemma tm_fields t :
  tm_ok t -> four_digits t ->
  0 <= tm_mon t + 1 < 13 /\ 1 <= tm_mon t + 1 /\ 1 <= tm_mday t <= 31.
Proof.
  intros ([Hm Hd] & _) _. repeat split; try lia. unfold month_len in Hd.
  enough (days_before (tm_year t + 1900) (tm_mon t + 1) - days_before (tm_year t + 1900) (tm_mon t)
          <= 31) by lia.
  clear Hd. revert Hm. generalize (tm_mon t). intros m Hm.
  months m; unfold days_before; destruct (leap _); vm_compute; discriminate.
Qed.

Lemma time_text_pads t :
  four_digits t ->
  time_text t =
    (pad2 ((tm_year t + 1900) / 100) ++ pad2 ((tm_year t + 1900) mod 100)) ++ x2d ::
    pad2 (tm_mon t + 1) ++ x2d :: pad2 (tm_mday t) ++ x20 :: pad2 (tm_hour t) ++ x3a ::
    pad2 (tm_min t) ++ x3a :: pad2 (tm_sec t).
Proof. intros Hy. unfold time_text. by rewrite itoa_four. Qed.

Lemma time_text_app t rest :
  four_digits t ->
  time_text t ++ rest =
    pad2 ((tm_year t + 1900) / 100) ++ pad2 ((tm_year t + 1900) mod 100) ++ x2d ::
    pad2 (tm_mon t + 1) ++ x2d :: pad2 (tm_mday t) ++ x20 :: pad2 (tm_hour t) ++ x3a ::
    pad2 (tm_min t) ++ x3a :: pad2 (tm_sec t) ++ rest.
Proof. intros Hy. by rewrite time_text_pads. Qed.

Lemma time_text_length t : four_digits t -> zlen (time_text t) = 19.
Proof. intros Hy. by rewrite time_text_pads. Qed.

Lemma year_halves y : 1000 <= y <= 9999 -> 0 <= y / 100 < 100 /\ 0 <= y mod 100 < 100.
Proof. intros. Z.to_euclidean_division_equations; lia. Qed.

(** Closes bounds on the fields of a well-formed time. *)
Ltac tm_bounds :=
  repeat match goal with
  | Ht : tm_ok ?t, Hy : four_digits ?t |- _ =>
      let H := fresh "F" in
      pose proof (tm_fields t Ht Hy) as H; pose proof (year_halves _ Hy);
      destruct Ht as (_ & ? & ? & ?); unfold four_digits in Hy
  end.

Lemma time_text_no_nul t : tm_ok t -> four_digits t -> no_nul (time_text t).
Proof.
  intros Ht Hy. rewrite time_text_pads by done. tm_bounds. unfold no_nul.
  repeat first [discriminate | apply no_nul_pad2; lia
               | apply Forall_app; split | apply Forall_cons; split].
Qed.

Lemma drop_while_pad2 n s : 0 <= n < 100 -> drop_while is_space (pad2 n ++ s) = pad2 n ++ s.
Proof.
  intros Hn. unfold pad2. cbn [app drop_while].
  by rewrite digit_not_space by (Z.to_euclidean_division_equations; lia).
Qed.

(** [strptime] reads back what [strftime] prints. *)
Lemma strptime_text t t0 rest : tm_ok t -> four_digits t -> strptime (time_text t ++ rest) t0 = t.
Proof.
  intros Ht Hy. rewrite time_text_app by done. tm_bounds.
  assert (Hc : forall c s, strp_char c (c :: s) = Some s)
    by (intros; unfold strp_char; by rewrite Z.eqb_refl).
  unfold strptime. rewrite app_assoc, strp_num_year by done.
  rewrite Hc. cbn [option_bind mbind]. rewrite strp_num_pad2 by lia.
  rewrite Hc. cbn [option_bind mbind]. rewrite strp_num_pad2 by lia.
  cbn [drop_while]. change (is_space x20) with true. cbn match.
  rewrite drop_while_pad2, strp_num_pad2 by lia.
  rewrite Hc. cbn [option_bind mbind]. rewrite strp_num_pad2 by lia.
  rewrite Hc. cbn [option_bind mbind]. rewrite strp_num_pad2 by lia.
  destruct t as [y m d h mi s]. cbn [tm_year tm_mon tm_mday tm_hour tm_min tm_sec]. f_equal; lia.
Qed.

(** ** The order of texts *)

Lemma strcmp_app a a' s s' :
  length a = length a' -> no_nul a ->
  Z.sgn (strcmp (a ++ s) (a' ++ s'))
  = if decide (a = a') then Z.sgn (strcmp s s') else Z.sgn (strcmp a a').
Proof.
  revert a'. induction a as [|x a IH]; intros [|y a'] Hl Hn; try done.
  injection Hl as Hl. apply Forall_cons in Hn as [Hx Hn]. cbn [app strcmp].
  destruct (b2z x =? b2z y) eqn:E; b2p.
  - apply b2z_inj in E as <-. destruct (b2z x =? 0) eqn:E0; b2p; [by apply b2z_zero in E0|].
    rewrite IH by done. destruct (decide (a = a')) as [<-|Ha].
    + by rewrite decide_True.
    + rewrite decide_False by congruence. done.
  - rewrite decide_False by congruence. done.
Qed.

Lemma strcmp_refl a : strcmp a a = 0.
Proof.
  induction a as [|x a IH]; [done|]. cbn [strcmp]. rewrite Z.eqb_refl. by destruct (b2z x =? 0).
Qed.

(** Two digits compare like the numbers they stand for. *)
Lemma strcmp_pad2 x y s s' :
  0 <= x < 100 -> 0 <= y < 100 ->
  Z.sgn (strcmp (pad2 x ++ s) (pad2 y ++ s'))
  = if x =? y then Z.sgn (strcmp s s') else Z.sgn (x - y).
Proof.
  intros Hx Hy.
  assert (Hd : 0 <= x / 10 < 10 /\ 0 <= x mod 10 < 10 /\ 0 <= y / 10 < 10 /\ 0 <= y mod 10 < 10)
    by (Z.to_euclidean_division_equations; lia).
  destruct Hd as (H1 & H2 & H3 & H4). pose proof (Z.div_mod x 10). pose proof (Z.div_mod y 10).
  unfold pad2. cbn [app strcmp]. rewrite !digit_val by done.
  destruct (Z.eqb_spec x y) as [->|Hne]; [rewrite !Z.eqb_refl; by decide_cmp|].
  destruct (48 + x / 10 =? 48 + y / 10) eqn:E1; b2p.
  - decide_cmp. destruct (48 + x mod 10 =? 48 + y mod 10) eqn:E2; b2p; [lia|].
    destruct (Z.lt_trichotomy x y) as [H5|[H5|H5]]; [|lia|].
    + rewrite !Z.sgn_neg; lia.
    + rewrite !Z.sgn_pos; lia.
  - destruct (Z.lt_trichotomy x y) as [H5|[H5|H5]]; [|lia|].
    + rewrite !Z.sgn_neg; lia.
    + rewrite !Z.sgn_pos; lia.
Qed.

Lemma strcmp_sep c s s' :
  c <> x00 -> Z.sgn (strcmp (c :: s) (c :: s')) = Z.sgn (strcmp s s').
Proof.
  intros Hc. cbn [strcmp]. rewrite Z.eqb_refl.
  destruct (b2z c =? 0) eqn:E; b2p; [by apply b2z_zero in E|done].
Qed.

Section TextOrder.
Context `{TimeZone}.

Lemma mktime_day_lt t t' :
  tm_ok t -> tm_ok t' ->
  days_of_date (tm_year t + 1900) (tm_mon t) (tm_mday t)
  < days_of_date (tm_year t' + 1900) (tm_mon t') (tm_mday t') -> mktime t < mktime t'.
Proof. intros (_ & ? & ? & ?) (_ & ? & ? & ?) Hd. unfold mktime. lia. Qed.

Lemma mktime_year_lt t t' : tm_ok t -> tm_ok t' -> tm_year t < tm_year t' -> mktime t < mktime t'.
Proof.
  intros Ht Ht' Hy. apply mktime_day_lt; [done|done|]. destruct Ht as (Hv & _), Ht' as (Hv' & _).
  apply days_of_date_year; [done|done|lia].
Qed.

Lemma mktime_mon_lt t t' :
  tm_ok t -> tm_ok t' -> tm_year t = tm_year t' -> tm_mon t < tm_mon t' -> mktime t < mktime t'.
Proof.
  intros Ht Ht' Hy Hm. apply mktime_day_lt; [done|done|].
  destruct Ht as (Hv & _), Ht' as (Hv' & _). rewrite Hy in *. by apply days_of_date_month.
Qed.

Lemma mktime_mday_lt t t' :
  tm_ok t -> tm_ok t' -> tm_year t = tm_year t' -> tm_mon t = tm_mon t' ->
  tm_mday t < tm_mday t' -> mktime t < mktime t'.
Proof.
  intros Ht Ht' Hy Hm Hd. apply mktime_day_lt; [done|done|]. rewrite Hy, Hm.
  unfold days_of_date. lia.
Qed.

(** The sign of a difference, both directions of a strict order at once. *)
Lemma sgn_of_lt a b x y : (a < b -> x < y) -> (b < a -> y < x) -> a <> b ->
  Z.sgn (a - b) = Z.sgn (x - y).
Proof.
  intros H1 H2 Hne. destruct (Z.lt_total a b) as [Hl|[Hl|Hl]]; [|done|].
  - rewrite !Z.sgn_neg; [done|specialize (H1 Hl); lia|lia].
  - rewrite !Z.sgn_pos; [done|specialize (H2 Hl); lia|lia].
Qed.

Lemma text_order t t' :
  tm_ok t -> tm_ok t' -> four_digits t -> four_digits t' ->
  Z.sgn (strcmp (time_text t ++ zeros 13) (time_text t' ++ zeros 13)) = Z.sgn (mktime t - mktime t').
Proof.
  intros Ht Ht' Hy Hy'. rewrite !time_text_app by done.
  pose proof Ht as (Hv & Hh & Hmi & Hs). pose proof Ht' as (Hv' & Hh' & Hmi' & Hs').
  pose proof (tm_fields t Ht Hy) as (Hm & _ & Hd). pose proof (tm_fields t' Ht' Hy') as (Hm' & _ & Hd').
  pose proof (year_halves _ Hy) as [Y1 Y2]. pose proof (year_halves _ Hy') as [Y1' Y2'].
  pose proof (Z.div_mod (tm_year t + 1900) 100). pose proof (Z.div_mod (tm_year t' + 1900) 100).
  rewrite strcmp_pad2 by done.
  destruct (_ =? _) eqn:E1; b2p.
  2: { apply sgn_of_lt; [| |done]; intros; apply mktime_year_lt; try done; lia. }
  rewrite strcmp_pad2 by done. destruct (_ =? _) eqn:E2; b2p.
  2: { apply sgn_of_lt; [| |done]; intros; apply mktime_year_lt; try done; lia. }
  assert (E : tm_year t = tm_year t') by lia.
  rewrite strcmp_sep, strcmp_pad2 by (done || lia).
  destruct (tm_mon t + 1 =? _) eqn:E3; b2p.
  2: { apply sgn_of_lt; [| |done]; intros; apply mktime_mon_lt; try done; lia. }
  rewrite strcmp_sep, strcmp_pad2 by (done || lia).
  destruct (tm_mday t =? _) eqn:E4; b2p.
  2: { apply sgn_of_lt; [| |done]; intros; apply mktime_mday_lt; try done; lia. }
  assert (E3' : tm_mon t = tm_mon t') by lia.
  unfold mktime. rewrite E, E3', E4.
  rewrite strcmp_sep, strcmp_pad2 by (done || lia).
  destruct (tm_hour t =? _) eqn:E5; b2p; [|apply sgn_of_lt; lia].
  rewrite strcmp_sep, strcmp_pad2 by (done || lia).
  destruct (tm_min t =? _) eqn:E6; b2p; [|apply sgn_of_lt; lia].
  rewrite strcmp_sep, strcmp_pad2 by (done || lia).
  destruct (tm_sec t =? _) eqn:E7; b2p; [|apply sgn_of_lt; lia].
  rewrite strcmp_refl. f_equal. lia.
Qed.

(** ** The program's functions *)

(** Times whose text has nineteen characters. *)
Definition printable_time (t : Z) : Prop := four_digits (localtime t).
(** The 32 bytes [lcs_time2_str] allocates and fills. *)
Definition time_buf (t : Z) : list byte := time_text (localtime t) ++ zeros 13.

Lemma lcs_time2_str_ok t : printable_time t -> lcs_time2_str t = Ok (time_buf t).
Proof.
  intros Hy. unfold lcs_time2_str, strftime. pose proof (time_text_length _ Hy) as Hl.
  rewrite Hl. cbn [Z.ltb Z.compare]. change (19 <? 20) with true. cbn match.
  rewrite wr_zeros by (rewrite zlen_app, Hl; vm_compute; discriminate).
  rewrite zlen_app, Hl. change (32 - (19 + zlen [x00])) with 12. rewrite <- app_assoc. done.
Qed.

Lemma time_buf_cstr t : printable_time t -> cstr (time_buf t) = Ok (time_text (localtime t)).
Proof.
  intros Hy. unfold time_buf. change (zeros 13) with (x00 :: zeros 12).
  apply cstr_terminated, time_text_no_nul; [apply localtime_ok|done].
Qed.

(** Any object that starts with the text of a time and a zero is read as that time. *)
Lemma lcs_str2_time_cstr m t :
  printable_time t -> cstr m = Ok (time_text (localtime t)) -> lcs_str2_time m = Ok t.
Proof.
  intros Hy Hm. unfold lcs_str2_time. rewrite Hm. cbn [mbind res_bind].
  destruct (localtime_ok t) as [Ht Hk].
  rewrite <- (app_nil_r (time_text _)), strptime_text by done. by rewrite Hk.
Qed.

Lemma lcs_str2_time_buf t : printable_time t -> lcs_str2_time (time_buf t) = Ok t.
Proof. intros Hy. by apply lcs_str2_time_cstr, time_buf_cstr. Qed.

Lemma time_buf_order t t' :
  printable_time t -> printable_time t' ->
  Z.sgn (strcmp (time_buf t) (time_buf t')) = Z.sgn (t - t').
Proof.
  intros Hy Hy'. destruct (localtime_ok t) as [Ht Hk], (localtime_ok t') as [Ht' Hk'].
  unfold time_buf. rewrite text_order by done. by rewrite Hk, Hk'.
Qed.

Lemma printable_between a b t :
  printable_time a -> printable_time b -> a <= t <= b -> printable_time t.
Proof.
  intros Ha Hb Ht. unfold printable_time, four_digits in *.
  destruct (localtime_ok a) as [Oa Ka], (localtime_ok b) as [Ob Kb], (localtime_ok t) as [Ot Kt].
  split.
  - destruct (Z.le_gt_cases 1000 (tm_year (localtime t) + 1900)) as [Hc|Hc]; [done|].
    pose proof (mktime_year_lt (localtime t) (localtime a) Ot Oa). lia.
  - destruct (Z.le_gt_cases (tm_year (localtime t) + 1900) 9999) as [Hc|Hc]; [done|].
    pose proof (mktime_year_lt (localtime b) (localtime t) Ob Ot). lia.
Qed.

(** ** Days *)

(** The first second of a day, counted from 1970-01-01, and the text of the day. *)
Definition midnight (n : Z) : Z := n * 86400 - gmtoff.
Definition day_text (n : Z) : list byte := take 10 (time_text (localtime (midnight n))).
Definition printable_day (n : Z) : Prop := printable_time (midnight n).

Lemma localtime_midnight n :
  tm_hour (localtime (midnight n)) = 0 /\ tm_min (localtime (midnight n)) = 0 /\
  tm_sec (localtime (midnight n)) = 0.
Proof.
  unfold localtime, midnight. replace (n * 86400 - gmtoff + gmtoff) with (n * 86400) by lia.
  rewrite Z.div_mul by done. destruct (date_of_days n) as [[y m] d]. cbn.
  by rewrite Z.mod_mul by done.
Qed.

Lemma time_text_midnight n :
  printable_day n -> time_text (localtime (midnight n)) = day_text n ++ str " 00:00:00".
Proof.
  intros Hp. unfold day_text. destruct (localtime_midnight n) as (H1 & H2 & H3).
  rewrite time_text_pads, H1, H2, H3 by done. reflexivity.
Qed.

Lemma day_text_length n : printable_day n -> zlen (day_text n) = 10.
Proof.
  intros Hp. pose proof (time_text_length _ Hp) as Hl. unfold day_text, zlen in *.
  rewrite length_take. lia.
Qed.

Lemma day_text_no_nul n : printable_day n -> no_nul (day_text n).
Proof.
  intros Hp. pose proof (time_text_no_nul _ (proj1 (localtime_ok _)) Hp) as Hn.
  rewrite (time_text_midnight n Hp) in Hn. by apply Forall_app in Hn as [Hn _].
Qed.

(** [strcmp] on the texts of days is the order of the days. *)
Lemma day_text_order a b :
  printable_day a -> printable_day b ->
  Z.sgn (strcmp (day_text a) (day_text b)) = Z.sgn (a - b).
Proof.
  intros Ha Hb. pose proof (time_buf_order _ _ Ha Hb) as Ho. unfold time_buf in Ho.
  rewrite (time_text_midnight a Ha), (time_text_midnight b Hb), <- !app_assoc in Ho.
  pose proof (day_text_length a Ha) as La. pose proof (day_text_length b Hb) as Lb.
  assert (Hs : Z.sgn (midnight a - midnight b) = Z.sgn (a - b)).
  { unfold midnight. destruct (Z.lt_total a b) as [Hl|[Hl|Hl]].
    - rewrite !Z.sgn_neg; lia.
    - subst b. by rewrite !Z.sub_diag.
    - rewrite !Z.sgn_pos; lia. }
  rewrite <- Hs, <- Ho, strcmp_app by (by apply day_text_no_nul || (unfold zlen in *; lia)).
  destruct (decide (day_text a = day_text b)) as [->|]; [|done]. by rewrite !strcmp_refl.
Qed.

Lemma printable_days a b n :
  printable_day a -> printable_day b -> a <= n <= b -> printable_day n.
Proof. intros Ha Hb Hn. apply (printable_between (midnight a) (midnight b)); unfold midnight; [done..|lia]. Qed.

(** C38: For times with a year of four digits the text [lcs_time2_str] produces is read back
    by [lcs_str2_time] as the same time, and [strcmp] of two texts has the sign of the
    difference of the two times: comparing the texts compares the times. *)
Theorem times_as_text t t' :
  printable_time t -> printable_time t' ->
  exists s s', lcs_time2_str t = Ok s /\ lcs_time2_str t' = Ok s' /\ zlen s = 32 /\
    lcs_str2_time s = Ok t /\ Z.sgn (strcmp s s') = Z.sgn (t - t').
Proof.
  intros Hy Hy'. exists (time_buf t), (time_buf t'). rewrite !lcs_time2_str_ok by done.
  split; [done|]. split; [done|]. split.
  { unfold time_buf. rewrite zlen_app, time_text_length by done. done. }
  split; [by apply lcs_str2_time_buf|by apply time_buf_order].
Qed.

End TextOrder.

(** The zone of the machines the programs were written for: UTC+7 all year. *)
Definition indochina : TimeZone := {| gmtoff := 25200; strftime_nofit := zeros 20 |}.

#[local] Existing Instance indochina.

Lemma times_as_text_witness :
  exists s s', lcs_time2_str 1509239700 = Ok s /\ lcs_time2_str 1509239760 = Ok s' /\
    zlen s = 32 /\ lcs_str2_time s = Ok 1509239700 /\
    Z.sgn (strcmp s s') = Z.sgn (1509239700 - 1509239760).
Proof. apply (times_as_text 1509239700 1509239760); vm_compute; split; discriminate. Defined.
