(* ===== verification/World.v ===== *)
(** * The outside world of the cluster programs

    The programs of src/cluster talk to files, directories, other processes and databases.
    What they do is recorded in a trace of events; what they get back is given by the class
    [World], whose answers depend on the trace so far and are otherwise arbitrary.  [io] is a
    computation that extends the trace, with the outcomes of Prelude.v.

    The file also models the helpers of src/cluster/common/lcs_common.c that only wrap such
    calls: [lcs_file_text], [lcs_bash_cmd], [lcs_bash_cmdext], [lcs_create_dir],
    [lcs_comm_filexist], [lcs_comm_get_process], [lcs_commpre_env] and [lcs_comm_moving]. *)
From S2P Require Import Prelude CString OpenSSL.

(** ** Events and answers *)

Inductive event :=
| EvPopen (cmd : list byte)                          (** [popen] and [pclose] *)
| EvWrite (path content : list byte)                 (** a file opened with "w+", with what is written at once *)
| EvPrint (path content : list byte)                 (** [fprintf] to a file that is open, flushed or not *)
| EvAppend (path content : list byte)                (** a file opened with "a+" and closed *)
| EvRemove (path : list byte)                        (** [remove] *)
| EvShmUnlink (name : list byte)                     (** [shm_unlink] *)
| EvShmCreate (name : list byte) (size : Z)          (** a segment created, sized and mapped *)
| EvConnect (server user password db : list byte)    (** [mysql_real_connect] that succeeds *)
| EvQuery (sql : list byte)                          (** [mysql_query] *)
| EvClose                                            (** [mysql_close] *)
| EvSqlOpen (db : list byte)                         (** [sqlite3_open] *)
| EvSqlPrepare (sql : list byte)                     (** [sqlite3_prepare_v2] *)
| EvSqlExec (sql : list byte)                        (** [sqlite3_exec] *)
| EvSqlStep (row : list (list byte))                 (** the bound texts of one [sqlite3_step] *)
| EvSend (data : list byte)                          (** [send] *)
| EvRecv.                                            (** [recv] *)
Definition trace := list event.

(** What a file holds that was opened with "w+" since. *)
Definition content_of (path : list byte) (tr : trace) : option (list byte) :=
  fold_left (fun acc e =>
    match e with
    | EvWrite p t => if decide (p = path) then Some t else acc
    | EvPrint p t => if decide (p = path) then Some (default [] acc ++ t) else acc
    | _ => acc
    end) tr None.
Lemma content_of_snoc path tr e :
  content_of path (tr ++ [e]) =
    match e with
    | EvWrite p t => if decide (p = path) then Some t else content_of path tr
    | EvPrint p t => if decide (p = path) then Some (default [] (content_of path tr) ++ t) else content_of path tr
    | _ => content_of path tr
    end.
Proof. unfold content_of. by rewrite fold_left_app. Qed.

(** What [stat] says of a directory entry. *)
Inductive kind := Dir | Reg | Other | NoStat.
#[global] Instance kind_eq_dec : EqDecision kind.
Proof. solve_decision. Defined.

(** A row of a result: its columns, null or a text. *)
Definition row := list (option (list byte)).

Class World := {
  fopen_r : trace -> list byte -> option FILE;
  fopen_w : trace -> list byte -> bool;
  popen : trace -> list byte -> option (list byte);
  readdir : trace -> list byte -> option (list (list byte * kind));
  getenv : list byte -> option (list byte);
  shm_create : trace -> list byte -> bool;
  mysql_init : trace -> bool;
  mysql_real_connect : trace -> bool;
  mysql_query : trace -> list byte -> Z;
  mysql_store_result : trace -> option (list row);
  sqlite_open : trace -> list byte -> Z * bool;
  sqlite_prepare : trace -> list byte -> Z;
  sqlite_exec : trace -> list byte -> Z * list row;
  sqlite_bind : trace -> Z -> list byte -> Z;
  sqlite_step : trace -> Z;
  sqlite_clear_bindings : trace -> Z;
  sqlite_reset : trace -> Z;
  sqlite_finalize : trace -> Z;
  sqlite_close : trace -> Z;
  recv : trace -> Z -> option (list byte);
  send : trace -> list byte -> Z
}.

(** ** Computations *)

Definition io (A : Type) : Type := trace -> res (A * trace).
#[global] Instance io_ret : MRet io := fun A a tr => Ok (a, tr).
#[global] Instance io_bind : MBind io := fun A B k m tr =>
  match m tr with Ok (a, tr') => k a tr' | Fault f => Fault f end.

Definition lift {A} (m : res A) : io A := fun tr =>
  match m with Ok a => Ok (a, tr) | Fault f => Fault f end.
Definition emit (e : event) : io unit := fun tr => Ok (tt, tr ++ [e]).
Definition ask {A} (f : trace -> A) : io A := fun tr => Ok (f tr, tr).

(** A text in an array of [size] zeros: [sprintf] and [strcat] write its characters and a
    zero behind them. *)
Definition fits (size : Z) (s : list byte) : res (list byte) :=
  if zlen s <? size then Ok s else Fault OobWrite.

(** [strcat] to an array. *)
Definition strcat (m s : list byte) : res (list byte) :=
  t ← cstr m; wr m (zlen t) (s ++ [x00]).

Section Helpers.
Context `{World}.

(** ** Files and processes *)

(** [sz] is the size as an [unsigned int]; the object has [sz + 1] bytes, computed at that
    width.  When the file cannot be opened [*text] keeps its value. *)
Definition lcs_file_text (path : list byte) (text : option (list byte)) (err : Z)
    : io (option (list byte) * Z) :=
  fp ← ask (fun tr => fopen_r tr path);
  match fp with
  | None => mret (text, 1)
  | Some fp =>
    let sz := wrap 32 (f_tell fp) in
    let m := zeros (wrap 32 (sz + 1)) in
    m ← lift (wr m 0 (take (Z.to_nat sz) (f_bytes fp)));
    mret (Some m, err)
  end.

Definition lcs_bash_cmd (cmd : list byte) : io unit := emit (EvPopen cmd).

Definition lcs_create_dir (dirpath : list byte) : io unit :=
  cmd ← lift (fits 2048 (str "mkdir -p " ++ dirpath));
  emit (EvPopen cmd).

(** [fgets(tmp, n, fp)]: the characters up to and including the next line end, at most
    [n - 1], and what is left. *)
Fixpoint fgets (n : nat) (s : list byte) : list byte * list byte :=
  match n, s with
  | S n, b :: s' =>
    if b2z b =? 10 then ([b], s')
    else let '(l, r) := fgets n s' in (b :: l, r)
  | _, _ => ([], s)
  end.

(** The text before the first zero of an array that ends in zeros. *)
Definition upto0 (s : list byte) : list byte := take_while (fun b => negb (b2z b =? 0)) s.

(** [while(1)] of [lcs_bash_cmdext]: every round appends one line to [*text]. *)
Fixpoint bash_lines (fuel : nat) (out : list byte) (text : option (list byte))
    : res (option (list byte)) :=
  match fuel with
  | O => Fault NoFuel
  | S fuel =>
    let '(line, out) := fgets 1023 out in
    let tmp := upto0 line in
    let text := Some (default [] text ++ tmp) in
    if zlen tmp <? 1024 then Ok text else bash_lines fuel out text
  end.
(** [*text] is given by its characters. *)
Definition lcs_bash_cmdext (cmd : list byte) (text : option (list byte))
    : io (option (list byte)) :=
  out ← ask (fun tr => popen tr cmd);
  match out with
  | None => mret text
  | Some out =>
    _ ← emit (EvPopen cmd);
    lift (bash_lines (S (length out)) out text)
  end.

Definition lcs_comm_filexist (path : list byte) : io bool :=
  ask (fun tr => match fopen_r tr path with Some _ => true | None => false end).

(** [result] already holds a text; [tmp] and [tmppath] have 1024 bytes. *)
Definition lcs_comm_get_process (path result : list byte) : io (list byte) :=
  tmp ← lift (fits 1024 path);
  match strstr path (str "lcs_") with
  | Some k =>
    tmppath ← lift (fits 1024 (str "./" ++ drop (Z.to_nat k) path));
    having ← lcs_comm_filexist tmppath;
    if having : bool then mret (result ++ tmppath) else mret (result ++ path)
  | None => mret (result ++ path)
  end.

(** The argument between double quotes. *)
Definition quoted (s : list byte) : list byte := [x22] ++ s ++ [x22].

Definition lcs_commpre_env (templatedir targetdir : list byte) : io unit :=
  cmd ← lift (fits 1024 (str "cp -f " ++ quoted templatedir ++ str "/lcs.db " ++
                         quoted targetdir));
  lcs_bash_cmd cmd.

Definition nl : byte := x0a.

Definition lcs_comm_moving (templatedir targetdir tables insertprocess : list byte)
    (text : option (list byte)) (err : Z) : io (option (list byte) * Z) :=
  listtab ← lift (fits 1024 (str "tables_0001:" ++ tables ++ [nl]));
  target ← lift (fits 1024 (str "targetdir_0002:" ++ targetdir ++ [nl]));
  templ ← lift (fits 1024 (str "templatedir_0003:" ++ templatedir ++ [nl]));
  pathcfg ← lift (fits 1024 (targetdir ++ str "/insert.cfg"));
  ok ← ask (fun tr => fopen_w tr pathcfg);
  if negb ok then mret (text, 1)
  else
    _ ← emit (EvWrite pathcfg (listtab ++ target ++ templ));
    cmd ← lift (fits 1024 (insertprocess ++ str " " ++ pathcfg));
    text ← lcs_bash_cmdext cmd text;
    mret (text, err).

(** [mysql_query] over a connection; the library follows the pointer. *)
Definition query (con : bool) (sql : list byte) : io Z :=
  if con then
    r ← ask (fun tr => mysql_query tr sql);
    _ ← emit (EvQuery sql);
    mret r
  else lift (Fault NullDeref).

End Helpers.

(** ** Lemmas *)

Lemma fits_ok size s : zlen s < size -> fits size s = Ok s.
Proof. intros. unfold fits. by decide_cmp. Qed.

Lemma fits_over size s : size <= zlen s -> fits size s = Fault OobWrite.
Proof. intros. unfold fits. by decide_cmp. Qed.

Lemma fits_inv size s t : fits size s = Ok t -> t = s /\ zlen s < size.
Proof.
  unfold fits. destruct (zlen s <? size) eqn:E; [|done]. intros H; injection H as <-. b2p. done.
Qed.

Lemma strcat_zeros n s : zlen s < n -> strcat (zeros n) s = Ok (s ++ zeros (n - zlen s)).
Proof.
  intros Hs. pose proof (zlen_nonneg s). unfold strcat. replace (cstr (zeros n)) with (Ok (@nil byte)).
  2:{ unfold zeros. destruct (Z.to_nat n) eqn:E; [lia|]. done. }
  cbn [mbind res_bind]. change (zlen []) with 0.
  rewrite wr_zeros by (rewrite zlen_app; change (zlen [x00]) with 1; lia).
  rewrite <- app_assoc. do 2 f_equal. rewrite zlen_app. change (zlen [x00]) with 1.
  unfold zeros. change [x00] with (replicate 1 x00). rewrite <- replicate_add. f_equal. lia.
Qed.

Lemma io_bind_ok {A B} (m : io A) (k : A -> io B) tr a tr' :
  m tr = Ok (a, tr') -> (m ≫= k) tr = k a tr'.
Proof. intros H. unfold mbind, io_bind. by rewrite H. Qed.

Lemma lift_ok {A} (m : res A) tr a : m = Ok a -> lift m tr = Ok (a, tr).
Proof. intros ->. done. Qed.

Lemma io_bind_lift {A B} (m : res A) (k : A -> io B) tr a :
  m = Ok a -> (lift m ≫= k) tr = k a tr.
Proof. intros ->. done. Qed.
Lemma io_bind_lift_fault {A B} (m : res A) (k : A -> io B) tr f :
  m = Fault f -> (lift m ≫= k) tr = Fault f.
Proof. intros ->. done. Qed.
Lemma io_bind_fault {A B} (m : io A) (k : A -> io B) tr f :
  m tr = Fault f -> (m ≫= k) tr = Fault f.
Proof. intros H. unfold mbind, io_bind. by rewrite H. Qed.
Lemma io_bind_ask {A B} (f : trace -> A) (k : A -> io B) tr : (ask f ≫= k) tr = k (f tr) tr.
Proof. done. Qed.
Lemma io_bind_emit {B} e (k : unit -> io B) tr : (emit e ≫= k) tr = k tt (tr ++ [e]).
Proof. done. Qed.
Lemma io_bind_ret {A B} (a : A) (k : A -> io B) tr : ((mret a : io A) ≫= k) tr = k a tr.
Proof. done. Qed.
Lemma io_bind_assoc {A B C} (m : io A) (k : A -> io B) (h : B -> io C) tr :
  ((m ≫= k) ≫= h) tr = (m ≫= (fun a => k a ≫= h)) tr.
Proof. unfold mbind, io_bind. by destruct (m tr) as [[a tr']|f]. Qed.

(** The steps of a computation that has a result. *)
Lemma io_bind_inv {A B} (m : io A) (k : A -> io B) tr b tr' :
  (m ≫= k) tr = Ok (b, tr') -> exists a tr1, m tr = Ok (a, tr1) /\ k a tr1 = Ok (b, tr').
Proof. unfold mbind, io_bind. destruct (m tr) as [[a tr1]|f]; [|done]. intros E. by exists a, tr1. Qed.
Lemma lift_inv {A} (m : res A) tr a tr' : lift m tr = Ok (a, tr') -> m = Ok a /\ tr' = tr.
Proof. unfold lift. destruct m as [x|f]; [|done]. by intros [= -> ->]. Qed.

(** Run the parts of a computation whose outcome is known. *)
Ltac io_run :=
  repeat (cbv beta iota;
    first [ rewrite io_bind_ask | rewrite io_bind_emit | rewrite io_bind_ret
          | rewrite io_bind_assoc
          | match goal with
            | H : ?m = Ok _ |- context [(lift ?m ≫= _) _] => rewrite (io_bind_lift m _ _ _ H)
            | H : ?m ?tr = Ok _ |- context [(?m ≫= _) ?tr] => rewrite (io_bind_ok m _ _ _ _ H)
            end ]); cbv beta iota.

(** The lengths of texts that are put together from literals and texts of known length. *)
Ltac text_len :=
  repeat match goal with |- context [str ?s] =>
    lazymatch goal with
    | H : zlen (str s) = _ |- _ => fail
    | _ => let n := eval vm_compute in (zlen (str s)) in
           let H := fresh "L" in assert (H : zlen (str s) = n) by reflexivity
    end end;
  rewrite ?zlen_app, ?zlen_cons in *; change (zlen (@nil byte)) with 0 in *; lia.

(** Step over a text that fits its buffer. *)
Ltac io_fits tac :=
  match goal with
  | |- context [(lift (fits ?n ?s) ≫= ?k) ?tr] =>
      let Hf := fresh in
      assert (Hf : fits n s = Ok s) by (apply fits_ok; tac);
      rewrite (io_bind_lift _ _ _ _ Hf); clear Hf
  end.

Section HelperLemmas.
Context `{World}.

(** [lcs_file_text] of a file: its bytes and a zero. *)
Definition regular (fp : FILE) : Prop :=
  f_tell fp = zlen (f_bytes fp) /\ zlen (f_bytes fp) < 2 ^ 32 - 1.

Lemma lcs_file_text_ok path text err tr fp :
  fopen_r tr path = Some fp -> regular fp ->
  lcs_file_text path text err tr = Ok ((Some (f_bytes fp ++ [x00]), err), tr).
Proof.
  intros Hf [Ht Hl]. pose proof (zlen_nonneg (f_bytes fp)). unfold lcs_file_text.
  rewrite (io_bind_ok _ _ _ (Some fp) tr) by (unfold ask; by rewrite Hf).
  rewrite Ht. unfold wrap. rewrite (Z.mod_small (zlen _)) by lia.
  rewrite (Z.mod_small (zlen _ + 1)) by lia.
  rewrite take_ge by (unfold zlen; lia).
  rewrite (io_bind_ok _ _ _ (f_bytes fp ++ [x00]) tr); [done|]. apply lift_ok.
  rewrite wr_zeros by lia. by replace (zlen (f_bytes fp) + 1 - zlen (f_bytes fp)) with 1 by lia.
Qed.

Lemma lcs_file_text_none path text err tr :
  fopen_r tr path = None -> lcs_file_text path text err tr = Ok ((text, 1), tr).
Proof.
  intros Hf. unfold lcs_file_text.
  rewrite (io_bind_ok _ _ _ None tr) by (unfold ask; by rewrite Hf). done.
Qed.

(** A round reads fewer than 1024 characters, so that only the first line is ever read. *)
Lemma fgets_length n s : (length (fgets n s).1 <= n)%nat.
Proof.
  revert s. induction n as [|n IH]; intros [|b s]; cbn [fgets fst length]; try lia.
  destruct (b2z b =? 10); cbn [fst length]; [lia|]. specialize (IH s).
  destruct (fgets n s). cbn [fst length] in *. lia.
Qed.

Lemma upto0_length s : zlen (upto0 s) <= zlen s.
Proof.
  unfold upto0. induction s as [|b s IH]; cbn [take_while]; [done|].
  destruct (negb _); rewrite ?zlen_cons; [lia|]. change (zlen []) with 0.
  pose proof (zlen_nonneg s). lia.
Qed.

Lemma bash_lines_ok fuel out text :
  bash_lines (S fuel) out text = Ok (Some (default [] text ++ upto0 (fgets 1023 out).1)).
Proof.
  cbn [bash_lines]. pose proof (fgets_length 1023 out) as Hl.
  destruct (fgets 1023 out) as [l r]. cbn [fst] in *. pose proof (upto0_length l).
  replace (_ <? 1024) with true by (symmetry; apply Z.ltb_lt; unfold zlen in *; lia). done.
Qed.

Lemma lcs_bash_cmdext_ok cmd text tr out :
  popen tr cmd = Some out ->
  lcs_bash_cmdext cmd text tr
  = Ok (Some (default [] text ++ upto0 (fgets 1023 out).1), tr ++ [EvPopen cmd]).
Proof.
  intros Hp. unfold lcs_bash_cmdext.
  rewrite (io_bind_ok _ _ _ (Some out) tr) by (unfold ask; by rewrite Hp).
  erewrite io_bind_ok; [|reflexivity]. apply lift_ok, bash_lines_ok.
Qed.

Lemma lcs_bash_cmdext_none cmd text tr :
  popen tr cmd = None -> lcs_bash_cmdext cmd text tr = Ok (text, tr).
Proof.
  intros Hp. unfold lcs_bash_cmdext.
  rewrite (io_bind_ok _ _ _ None tr) by (unfold ask; by rewrite Hp). done.
Qed.

End HelperLemmas.

(** A file that has just been written is read back. *)
Definition reads_back `{World} : Prop := forall tr path text,
  exists fp, fopen_r (tr ++ [EvWrite path text]) path = Some fp /\ f_bytes fp = text /\
             f_tell fp = zlen text.
