(* ===== verification/ToyWorld.v ===== *)
(** * A concrete world

    An instance of the class of World.v that evaluates: files are those given and those
    written since, every call of a database succeeds, every query has the same result, and
    what a process prints is given.  It satisfies the laws the theorems on the cluster
    programs assume, so that they can be applied at concrete inputs. *)
From S2P Require Import Prelude OpenSSL World.

(** The bytes of a file that was there from the start. *)
Fixpoint lookup_file (files : list (list byte * list byte)) (path : list byte)
    : option (list byte) :=
  match files with
  | [] => None
  | (p, text) :: files => if decide (p = path) then Some text else lookup_file files path
  end.
Definition toy_world (files : list (list byte * list byte)) (rows : option (list row))
    (output : option (list byte)) (names : option (list (list byte * kind))) : World := {|
  fopen_r tr path :=
    text ← match content_of path tr with Some t => Some t | None => lookup_file files path end;
    Some {| f_tell := zlen text; f_bytes := text; f_close := 0 |};
  fopen_w _ _ := true;
  popen _ _ := output;
  readdir _ _ := names;
  getenv _ := None;
  shm_create _ _ := true;
  mysql_init _ := true;
  mysql_real_connect _ := true;
  mysql_query _ _ := 0;
  mysql_store_result _ := rows;
  sqlite_open _ _ := (0, true);
  sqlite_prepare _ _ := 0;
  sqlite_exec _ _ := (0, []);
  sqlite_bind _ _ _ := 0;
  sqlite_step _ := 101;
  sqlite_clear_bindings _ := 0;
  sqlite_reset _ := 0;
  sqlite_finalize _ := 0;
  sqlite_close _ := 0;
  recv _ _ := None;
  send _ data := zlen data
|}.

(** The same world, with something to receive. *)
Definition hearing (w : World) (got : option (list byte)) : World := {|
  fopen_r := @fopen_r w; fopen_w := @fopen_w w; popen := @popen w; readdir := @readdir w;
  getenv := @getenv w; shm_create := @shm_create w; mysql_init := @mysql_init w; mysql_real_connect := @mysql_real_connect w;
  mysql_query := @mysql_query w; mysql_store_result := @mysql_store_result w;
  sqlite_open := @sqlite_open w; sqlite_prepare := @sqlite_prepare w;
  sqlite_exec := @sqlite_exec w; sqlite_bind := @sqlite_bind w; sqlite_step := @sqlite_step w;
  sqlite_clear_bindings := @sqlite_clear_bindings w; sqlite_reset := @sqlite_reset w;
  sqlite_finalize := @sqlite_finalize w; sqlite_close := @sqlite_close w;
  recv _ _ := got;
  send := @send w
|}.

(** The same world, with a database that answers queries: [sqlite3_exec] gives the rows listed
    for its text. *)
Fixpoint lookup_rows (answers : list (list byte * list row)) (sql : list byte) : list row :=
  match answers with
  | [] => []
  | (q, rows) :: answers => if decide (q = sql) then rows else lookup_rows answers sql
  end.
Definition answering (w : World) (answers : list (list byte * list row)) : World := {|
  fopen_r := @fopen_r w; fopen_w := @fopen_w w; popen := @popen w; readdir := @readdir w;
  getenv := @getenv w; shm_create := @shm_create w; mysql_init := @mysql_init w;
  mysql_real_connect := @mysql_real_connect w; mysql_query := @mysql_query w;
  mysql_store_result := @mysql_store_result w;
  sqlite_open := @sqlite_open w; sqlite_prepare := @sqlite_prepare w;
  sqlite_exec _ sql := (0, lookup_rows answers sql);
  sqlite_bind := @sqlite_bind w; sqlite_step := @sqlite_step w;
  sqlite_clear_bindings := @sqlite_clear_bindings w; sqlite_reset := @sqlite_reset w;
  sqlite_finalize := @sqlite_finalize w; sqlite_close := @sqlite_close w;
  recv := @recv w; send := @send w
|}.

(** The same world, in which the files are those listed whatever is written. *)
Definition reading (w : World) (files : list (list byte * list byte)) : World := {|
  fopen_r _ path :=
    text ← lookup_file files path;
    Some {| f_tell := zlen text; f_bytes := text; f_close := 0 |};
  fopen_w := @fopen_w w; popen := @popen w; readdir := @readdir w;
  getenv := @getenv w; shm_create := @shm_create w; mysql_init := @mysql_init w;
  mysql_real_connect := @mysql_real_connect w; mysql_query := @mysql_query w;
  mysql_store_result := @mysql_store_result w;
  sqlite_open := @sqlite_open w; sqlite_prepare := @sqlite_prepare w;
  sqlite_exec := @sqlite_exec w;
  sqlite_bind := @sqlite_bind w; sqlite_step := @sqlite_step w;
  sqlite_clear_bindings := @sqlite_clear_bindings w; sqlite_reset := @sqlite_reset w;
  sqlite_finalize := @sqlite_finalize w; sqlite_close := @sqlite_close w;
  recv := @recv w; send := @send w
|}.

Lemma toy_reads_back files rows output names :
  @reads_back (toy_world files rows output names).
Proof.
  intros tr path text. cbn [fopen_r toy_world]. rewrite content_of_snoc, decide_True by done.
  by exists {| f_tell := zlen text; f_bytes := text; f_close := 0 |}.
Qed.
