(* ===== verification/Directories.v ===== *)
(** * Listing directories

    [lcs_comm_subdir_ext], [lcs_comm_subdir], [lcs_comm_list_files] and [lcs_comm_hash] of
    src/cluster/common/lcs_common.c.  The first three fill an array of 62 pointers with the
    names of the entries of one kind; the array is cut behind the first free slot, which ends
    the list for its readers.  [lcs_comm_subdir] sorts the names with the sort of
    Quicksort.v. *)
From S2P Require Import Prelude CString OpenSSL GenList World.
From S2P Require Import ToyWorld Quicksort LcsCommon.
From Stdlib Require Import Sorted.

(** ** Definitions *)

(** The slots of [*result], [sz] divided by the size of a pointer. *)
Definition slots : Z := 62.

(** The array after [realloc]: the names, and whether the slot behind them is null; it is not
    when all 62 slots hold names and [realloc] has added one. *)
Record listing := { l_names : list (list byte); l_ends : bool }.

(** The loop over the entries: the names so far and the error. *)
Fixpoint dir_loop (keep : kind -> bool) (path : list byte) (ents : list (list byte * kind))
    (names : list (list byte)) (err : Z) : res (list (list byte) * Z) :=
  match ents with
  | [] => Ok (names, err)
  | (name, k) :: ents =>
    if (strcmp name (str ".") =? 0) || (strcmp name (str "..") =? 0) then
      dir_loop keep path ents names err
    else
      _ ← fits 1024 (path ++ str "/" ++ name);
      if decide (k = NoStat) then dir_loop keep path ents names 1
      else if keep k then
        if zlen names <? slots then dir_loop keep path ents (names ++ [name]) err
        else Fault OobWrite
      else dir_loop keep path ents names err
  end.

Definition is_dir (k : kind) : bool := bool_decide (k = Dir).
Definition is_reg (k : kind) : bool := bool_decide (k = Reg).

Section Directories.
Context `{World}.

(** The three functions up to [closedir]; [has_result] is false for a null [result], and
    [None] is a result that is not assigned. *)
Definition dir_scan (keep : kind -> bool) (path : list byte) (has_result : bool) (err : Z)
    : io (option (list (list byte)) * Z) :=
  ents ← ask (fun tr => readdir tr path);
  if negb has_result then mret (None, 1)
  else
    match ents with
    | None => mret (None, 1)
    | Some ents =>
      '(names, err) ← lift (dir_loop keep path ents [] err);
      mret (Some names, err)
    end.
Definition listed (names : list (list byte)) : listing :=
  {| l_names := names; l_ends := zlen names <? slots |}.

(** The second component is [*count], which only a success changes. *)
Definition lcs_comm_subdir_ext (path : list byte) (has_result : bool) (count err : Z)
    : io (option listing * Z * Z) :=
  '(names, err) ← dir_scan is_dir path has_result err;
  match names with
  | None => mret (None, count, err)
  | Some names => mret (Some (listed names), zlen names, err)
  end.

Definition lcs_comm_subdir (path : list byte) (has_result : bool) (err : Z)
    : io (option listing * Z) :=
  '(names, err) ← dir_scan is_dir path has_result err;
  match names with
  | None => mret (None, err)
  | Some names =>
    sorted ← lift (Lcs.lcs_quick_sort (S (length names)) names 0 (zlen names - 1));
    mret (Some {| l_names := sorted; l_ends := zlen names <? slots |}, err)
  end.

Definition lcs_comm_list_files (path : list byte) (has_result : bool) (err : Z)
    : io (option listing * Z) :=
  '(names, err) ← dir_scan is_reg path has_result err;
  match names with
  | None => mret (None, err)
  | Some names => mret (Some (listed names), err)
  end.

End Directories.

(** [sscanf(p, "%d", index); *index %= sz;]; what is no number leaves [*index] as it was. *)
Definition lcs_comm_hash (p : list byte) (index sz : Z) : res Z :=
  let index := match scan_d p with Some v => as_int v | None => index end in
  if sz =? 0 then Fault DivByZero else Ok (Z.rem index sz).

(** ** What is listed *)

(** The entries that count. *)
Definition entry_ok (keep : kind -> bool) (e : list byte * kind) : bool :=
  negb (strcmp e.1 (str ".") =? 0) && negb (strcmp e.1 (str "..") =? 0) &&
  negb (bool_decide (e.2 = NoStat)) && keep e.2.
Definition names_of (keep : kind -> bool) (ents : list (list byte * kind)) : list (list byte) :=
  map fst (List.filter (entry_ok keep) ents).
Definition all_stat (ents : list (list byte * kind)) : Prop :=
  Forall (fun e => e.2 <> NoStat) ents.

Lemma dir_loop_ok keep path ents names err :
  Forall (fun e => zlen path + 1 + zlen e.1 < 1024) ents -> all_stat ents ->
  zlen names + zlen (names_of keep ents) <= slots ->
  dir_loop keep path ents names err = Ok (names ++ names_of keep ents, err).
Proof.
  intros Hp Hs. revert names. induction ents as [|[name k] ents IH]; intros names Hn.
  - unfold names_of. cbn. by rewrite app_nil_r.
  - apply Forall_cons in Hp as [Hp Hps]. apply Forall_cons in Hs as [Hk Hs]. cbn [fst snd] in *.
    specialize (IH Hps Hs). unfold names_of in *. cbn [dir_loop List.filter] in *.
    unfold entry_ok in *. cbn [fst snd] in *.
    destruct (strcmp name (str ".") =? 0); cbn [orb negb andb] in *; [by apply IH|].
    destruct (strcmp name (str "..") =? 0); cbn [orb negb andb] in *; [by apply IH|].
    rewrite fits_ok by (rewrite !zlen_app; change (zlen (str "/")) with 1; lia).
    cbn [mbind res_bind]. rewrite decide_False by done.
    rewrite bool_decide_eq_false_2 in * by done. cbn [negb andb] in *.
    destruct (keep k); [|by apply IH]. cbn [map fst] in *. rewrite zlen_cons in Hn.
    match type of Hn with context [zlen (map fst ?l)] => pose proof (zlen_nonneg (map fst l)) end.
    replace (zlen names <? slots) with true by (symmetry; apply Z.ltb_lt; lia).
    rewrite IH; [by rewrite <- app_assoc|]. rewrite zlen_app, zlen_cons. change (zlen []) with 0. lia.
Qed.

(** One directory too many is written behind the array. *)
Lemma dir_loop_over keep path ents names err :
  Forall (fun e => zlen path + 1 + zlen e.1 < 1024) ents ->
  zlen names <= slots -> slots < zlen names + zlen (names_of keep ents) ->
  dir_loop keep path ents names err = Fault OobWrite.
Proof.
  intros Hp. revert names err. induction ents as [|[name k] ents IH]; intros names err Hl Hn.
  - unfold names_of in Hn. cbn in Hn. unfold slots, zlen in *. cbn in Hn. lia.
  - apply Forall_cons in Hp as [Hp Hps]. specialize (IH Hps). cbn [fst] in Hp.
    unfold names_of in *. cbn [dir_loop List.filter] in *. unfold entry_ok in Hn at 1.
    cbn [fst snd] in *.
    destruct (strcmp name (str ".") =? 0); cbn [orb negb andb] in *; [by apply IH|].
    destruct (strcmp name (str "..") =? 0); cbn [orb negb andb] in *; [by apply IH|].
    rewrite fits_ok by (rewrite !zlen_app; change (zlen (str "/")) with 1; lia).
    cbn [mbind res_bind]. destruct (decide (k = NoStat)) as [->|Hk].
    { rewrite bool_decide_eq_true_2 in Hn by done. by apply IH. }
    rewrite bool_decide_eq_false_2 in Hn by done. cbn [negb andb] in *.
    destruct (keep k); [|by apply IH]. destruct (zlen names <? slots) eqn:E; [|done]. b2p.
    cbn [map fst] in Hn. rewrite zlen_cons in Hn.
    apply IH; rewrite zlen_app, zlen_cons; change (zlen []) with 0; lia.
Qed.

Section Listing.
Context `{World}.

Lemma dir_scan_ok keep path err tr ents :
  readdir tr path = Some ents -> Forall (fun e => zlen path + 1 + zlen e.1 < 1024) ents ->
  all_stat ents -> zlen (names_of keep ents) <= slots ->
  dir_scan keep path true err tr = Ok ((Some (names_of keep ents), err), tr).
Proof.
  intros Hr Hp Hs Hn. unfold dir_scan. rewrite io_bind_ask, Hr. cbn [negb].
  rewrite (io_bind_lift _ _ _ (names_of keep ents, err)); [done|].
  by rewrite dir_loop_ok.
Qed.

Lemma lcs_comm_list_files_ok path err tr ents :
  readdir tr path = Some ents -> Forall (fun e => zlen path + 1 + zlen e.1 < 1024) ents ->
  all_stat ents -> zlen (names_of is_reg ents) <= slots ->
  lcs_comm_list_files path true err tr = Ok ((Some (listed (names_of is_reg ents)), err), tr).
Proof.
  intros Hr Hp Hs Hn. unfold lcs_comm_list_files.
  by rewrite (io_bind_ok _ _ _ _ _ (dir_scan_ok is_reg path err tr ents Hr Hp Hs Hn)).
Qed.

(** For a directory with one to 62 subdirectories [lcs_comm_subdir] gives exactly their
    names, without "." and "..", in the order of [strcmp]; the list ends in a null pointer
    only when there are fewer than 62.  With more, a name is written behind the array; with
    none, the sort reads outside it. *)
Theorem subdir_spec path err tr ents :
  readdir tr path = Some ents -> Forall (fun e => zlen path + 1 + zlen e.1 < 1024) ents ->
  all_stat ents ->
  let names := names_of is_dir ents in
  match lcs_comm_subdir path true err tr with
  | Ok ((r, err'), tr') =>
    1 <= zlen names <= slots /\ err' = err /\ tr' = tr /\
    exists l, r = Some l /\ l_names l ≡ₚ names /\
      StronglySorted (fun x y => strcmp x y <= 0) (l_names l) /\ l_ends l = (zlen names <? slots)
  | Fault f => (names = [] /\ f = OobRead) \/ (slots < zlen names /\ f = OobWrite)
  end.
Proof.
  cbv zeta. intros Hr Hp Hs. unfold lcs_comm_subdir.
  destruct (Z.le_gt_cases (zlen (names_of is_dir ents)) slots) as [Hn|Hn].
  - rewrite (io_bind_ok _ _ _ _ _ (dir_scan_ok is_dir path err tr ents Hr Hp Hs Hn)).
    set (names := names_of is_dir ents) in *. destruct names as [|x l] eqn:E.
    { left. done. }
    rewrite <- E in *. assert (Hl : 1 <= zlen names).
    { rewrite E, zlen_cons. pose proof (zlen_nonneg l). lia. }
    destruct (Lcs.lcs_quick_sort_ok strcmp id (S (length names)) names 0 (zlen names - 1))
      as (d & Hd & Hw & Hso); [lia|lia|unfold zlen; lia|by apply Forall_true|].
    unfold Lcs.lcs_quick_sort. rewrite (io_bind_lift _ _ _ d) by done. cbn.
    split; [done|]. split; [done|]. split; [done|]. eexists. split; [done|]. cbn [l_names l_ends].
    pose proof (within_zlen _ _ _ _ Hw) as Hz. split; [by destruct Hw|]. split; [|done].
    apply (sorted_strong strcmp). by rewrite Hz.
  - rewrite io_bind_fault with (f := OobWrite); [right; split; [lia|done]|].
    unfold dir_scan. rewrite io_bind_ask, Hr. cbn [negb]. apply io_bind_lift_fault.
    apply dir_loop_over; [done| |]; change (zlen []) with 0; [done|lia].
Qed.
End Listing.

Definition sample_dir : list (list byte * kind) :=
  [(str ".", Dir); (str "05", Dir); (str "insert.cfg", Reg); (str "..", Dir); (str "00", Dir)].

Lemma subdir_spec_witness :
  let w := toy_world [] None None (Some sample_dir) in
  match @lcs_comm_subdir w (str "/w") true 0 [] with
  | Ok ((r, err'), tr') =>
    1 <= 2 <= slots /\ err' = 0 /\ tr' = [] /\
    exists l, r = Some l /\ l_names l ≡ₚ [str "05"; str "00"] /\
      StronglySorted (fun x y => strcmp x y <= 0) (l_names l) /\ l_ends l = true
  | Fault f => ([str "05"; str "00"] = [] /\ f = OobRead) \/ (slots < 2 /\ f = OobWrite)
  end.
Proof.
  apply (@subdir_spec (toy_world [] None None (Some sample_dir)) (str "/w") 0 [] sample_dir).
  - reflexivity.
  - by repeat constructor.
  - repeat constructor; discriminate.
Defined.

Example subdir_sorted :
  @lcs_comm_subdir (toy_world [] None None (Some sample_dir)) (str "/w") true 0 []
  = Ok ((Some {| l_names := [str "00"; str "05"]; l_ends := true |}, 0), []).
Proof. reflexivity. Qed.
