(* ===== verification/Config.v ===== *)
(** * Configuration files

    Every program of src/cluster starts by loading a text file of items "key:value".  Each
    has its own copy of [lcs_cfg_load], which splits the file at blanks and line ends, and of
    [lcs_cfg_item], a chain of tests: the first key that occurs in the item decides, and what
    follows the first [strlen(key)] characters of the item is copied into a member of the
    program's structure.  A structure is the map from its members to their bytes; a chain is
    the list of its keys and what it does with the item.

    [cfg_load_lines] is the round trip the programs rely on: a file whose lines are known
    keys with values without blanks and colons is read back line by line. *)
From S2P Require Import Prelude CString OpenSSL World.

(** ** Structures *)

(** The members that are arrays of characters, by name. *)
Abbreviation cfg := (gmap string (list byte)).

Definition member (c : cfg) (f : string) : list byte := default [] (c !! f).
(** [memcpy(c->f + off, src, ...)], inside the member. *)
Definition set_member (c : cfg) (f : string) (off : Z) (src : list byte) : res cfg :=
  m ← wr (member c f) off src; Ok (<[f := m]> c).
(** The text of a member, for ["%s"] and [strlen]. *)
Definition text_of (c : cfg) (f : string) : res (list byte) := cstr (member c f).

(** The members of a structure that [memset] or [calloc] has cleared. *)
Definition cleared (members : list (string * Z)) : cfg :=
  list_to_map (map (fun m => (m.1, zeros m.2)) members).

(** ** The chain of an item *)

Section Load.
Context `{World}.

(** A key and what is done with an item in which it occurs. *)
Definition entry : Type := string * (cfg -> list byte -> io cfg).

Fixpoint cfg_item (table : list entry) (info : cfg) (item : list byte) : io cfg :=
  match table with
  | [] => mret info
  | (base, act) :: table =>
    match strstr item (str base) with
    | Some _ => act info item
    | None => cfg_item table info item
    end
  end.

(** [sz = strlen(base); memcpy(info->f, &item[sz], strlen(item)-sz);] *)
Definition copy_to (f base : string) : entry :=
  (base, fun info item => lift (set_member info f 0 (drop (length (str base)) item))).

Definition delims : list byte := str " " ++ [x0d; x0a].

Fixpoint cfg_items (table : list entry) (info : cfg) (items : list (list byte)) : io cfg :=
  match items with
  | [] => mret info
  | item :: items => info ← cfg_item table info item; cfg_items table info items
  end.

(** The loader; [strtok] on a null pointer continues a string that does not exist. *)
Definition cfg_load (table : list entry) (path : list byte) (info : cfg) (err : Z)
    : io (cfg * Z) :=
  '(text, err) ← lcs_file_text path None err;
  match text with
  | None => lift (Fault NullDeref)
  | Some text =>
    s ← lift (cstr text);
    info ← cfg_items table info (map snd (strtok delims s));
    mret (info, err)
  end.

End Load.

(** ** Lemmas: [strstr] *)

(** [p] occurs in [s]. *)
Definition occurs (p s : list byte) : Prop := exists a b, s = a ++ p ++ b.

Lemma prefixb_spec p s : prefixb p s = true <-> exists b, s = p ++ b.
Proof.
  revert s. induction p as [|x p IH]; intros s; cbn [prefixb]; [split; [by exists s|done]|].
  destruct s as [|y s]; [split; [done|by intros [b Hb]]|].
  rewrite andb_true_iff, Z.eqb_eq, IH. split.
  - intros [E [b ->]]. apply b2z_inj in E as ->. by exists b.
  - intros [b Hb]. injection Hb as -> ->. split; [done|by exists b].
Qed.

Lemma strstr_none s p : strstr s p = None <-> ~ occurs p s.
Proof.
  induction s as [|x s IH]; cbn [strstr].
  - destruct (prefixb p []) eqn:E.
    + split; [done|]. intros Hn. exfalso. apply prefixb_spec in E as [b Hb]. apply Hn.
      by exists [], b.
    + split; [|done]. intros _ (a & b & Hab).
      symmetry in Hab. apply app_eq_nil in Hab as [-> Hb].
      assert (Ht : prefixb p [] = true) by (apply prefixb_spec; by exists b). congruence.
  - destruct (prefixb p (x :: s)) eqn:E.
    + split; [done|]. intros Hn. exfalso. apply prefixb_spec in E as [b Hb]. apply Hn.
      by exists [], b.
    + rewrite fmap_None, IH. split; intros Hn (a & b & Hab).
      * destruct a as [|y a]; cbn in Hab.
        { assert (Ht : prefixb p (x :: s) = true) by (apply prefixb_spec; by exists b). congruence. }
        injection Hab as -> ->. apply Hn. by exists a, b.
      * apply Hn. exists (x :: a), b. by rewrite Hab.
Qed.

Lemma strstr_some s p k : strstr s p = Some k -> exists a b, s = a ++ p ++ b /\ zlen a = k.
Proof.
  revert k. induction s as [|x s IH]; intros k; cbn [strstr].
  - destruct (prefixb p []) eqn:E; [|done]. intros [= <-].
    apply prefixb_spec in E as [b Hb]. by exists [], b.
  - destruct (prefixb p (x :: s)) eqn:E.
    + intros [= <-]. apply prefixb_spec in E as [b Hb]. by exists [], b.
    + intros (k' & Hk & ->)%fmap_Some. destruct (IH k' Hk) as (a & b & -> & <-).
      exists (x :: a), b. rewrite zlen_cons. split; [done|lia].
Qed.

Lemma strstr_prefix p s : strstr (p ++ s) p = Some 0.
Proof.
  assert (Ht : prefixb p (p ++ s) = true) by (apply prefixb_spec; by exists s).
  destruct (p ++ s); cbn [strstr]; by rewrite Ht.
Qed.

(** ** Lemmas: keys *)

Definition colon : byte := x3a.

(** A key ends in its only colon. *)
Definition is_key (base : string) : bool :=
  match reverse (str base) with
  | c :: r => bool_decide (c = colon) && bool_decide (colon ∉ r)
  | [] => false
  end.
Definition suffixb (p s : list byte) : bool := prefixb (reverse p) (reverse s).

Lemma is_key_inv base :
  is_key base = true -> exists k, str base = k ++ [colon] /\ colon ∉ k.
Proof.
  unfold is_key. destruct (reverse (str base)) as [|c r] eqn:E; [done|].
  intros [H1%bool_decide_eq_true H2%bool_decide_eq_true]%andb_true_iff. subst c.
  exists (reverse r). rewrite <- (reverse_involutive (str base)), E, reverse_cons.
  split; [done|]. by rewrite elem_of_reverse.
Qed.

Lemma split_unique {A} (x : A) l1 l2 k1 k2 :
  l1 ++ x :: l2 = k1 ++ x :: k2 -> x ∉ k1 -> x ∉ k2 -> l1 = k1 /\ l2 = k2.
Proof.
  revert k1. induction l1 as [|a l1 IH]; intros [|b k1] E H1 H2; cbn in E.
  - injection E as ->. done.
  - injection E as -> _. exfalso. apply H1. by left.
  - injection E as <- <-. exfalso. apply H2, elem_of_app. right. by left.
  - injection E as -> E. destruct (IH k1 E) as [-> ->]; [|done|done].
    intros Hin. apply H1. by right.
Qed.

(** A key occurs in an item with another key only when it is a suffix of that key. *)
Lemma key_occurs base base' v :
  is_key base = true -> is_key base' = true -> colon ∉ v ->
  occurs (str base) (str base' ++ v) -> suffixb (str base) (str base') = true.
Proof.
  intros (k & Ek & Hk)%is_key_inv (k' & Ek' & Hk')%is_key_inv Hv (a & b & E).
  rewrite Ek, Ek' in E. rewrite <- !app_assoc in E. cbn [app] in E.
  rewrite (app_assoc a) in E. symmetry in E. apply split_unique in E as [E _]; [|done|done].
  unfold suffixb. apply prefixb_spec. rewrite Ek, Ek', <- E, <- app_assoc.
  exists (reverse a). by rewrite !reverse_app.
Qed.

Section Lines.
Context `{World}.

(** No key of the table is a suffix of a later one, so that each item finds its own. *)
Fixpoint keys_ok (table : list entry) : bool :=
  match table with
  | [] => true
  | (base, _) :: table =>
    is_key base && forallb (fun e : entry => negb (suffixb (str base) (str e.1))) table &&
    keys_ok table
  end.

Lemma keys_ok_key table base act :
  keys_ok table = true -> (base, act) ∈ table -> is_key base = true.
Proof.
  induction table as [|[b a] table IH]; intros Hk Hin; [by apply not_elem_of_nil in Hin|].
  cbn [keys_ok] in Hk. apply andb_true_iff in Hk as [[Hb _]%andb_true_iff Hk].
  apply elem_of_cons in Hin as [[= -> ->]|Hin]; [done|by apply IH].
Qed.

(** An item with a key of the table runs the action of that key. *)
Lemma cfg_item_hit table base act info v :
  keys_ok table = true -> (base, act) ∈ table -> colon ∉ v ->
  cfg_item table info (str base ++ v) = act info (str base ++ v).
Proof.
  intros Hk Hin Hv. pose proof (keys_ok_key _ _ _ Hk Hin) as Hb.
  induction table as [|[b a] table IH]; [by apply not_elem_of_nil in Hin|].
  cbn [keys_ok] in Hk. apply andb_true_iff in Hk as [[Hb' Hs]%andb_true_iff Hk].
  apply elem_of_cons in Hin as [[= -> ->]|Hin]; cbn [cfg_item]; [by rewrite strstr_prefix|].
  destruct (strstr _ _) as [k|] eqn:E; [|by apply IH].
  apply strstr_some in E as (x & y & E & _).
  rewrite forallb_forall in Hs. specialize (Hs _ (proj1 (list_elem_of_In _ _) Hin)).
  cbn [fst] in Hs. rewrite (key_occurs b base v) in Hs; [done|done|done|done|by exists x, y].
Qed.

(** An item whose key no key of the table is a suffix of leaves the structure as it is. *)
Lemma cfg_item_miss table base info v :
  is_key base = true ->
  forallb (fun e : entry => is_key e.1 && negb (suffixb (str e.1) (str base))) table = true ->
  colon ∉ v -> cfg_item table info (str base ++ v) = mret info.
Proof.
  intros Hb Ht Hv. induction table as [|[b a] table IH]; [done|].
  cbn [forallb fst] in Ht. apply andb_true_iff in Ht as [[Hk Hs]%andb_true_iff Ht].
  cbn [cfg_item]. destruct (strstr _ _) as [k|] eqn:E; [|by apply IH].
  apply strstr_some in E as (x & y & E & _).
  rewrite (key_occurs b base v) in Hs; [done|done|done|done|by exists x, y].
Qed.

(** A copy puts the value in front of what the member holds. *)
Definition assign (c : cfg) (f : string) (v : list byte) : cfg :=
  <[f := v ++ drop (length v) (member c f)]> c.

Lemma set_member_ok c f v : zlen v <= zlen (member c f) -> set_member c f 0 v = Ok (assign c f v).
Proof. intros Hv. unfold set_member. rewrite wr_head by done. done. Qed.

Lemma set_member_over c f v :
  zlen (member c f) < zlen v -> set_member c f 0 v = Fault OobWrite.
Proof. intros Hv. unfold set_member. by rewrite wr_oob by lia. Qed.

Lemma drop_key base v : drop (length (str base)) (str base ++ v) = v.
Proof. by rewrite drop_app_length. Qed.

Lemma cfg_item_copy table f base info v tr :
  keys_ok table = true -> copy_to f base ∈ table -> colon ∉ v ->
  zlen v <= zlen (member info f) ->
  cfg_item table info (str base ++ v) tr = Ok (assign info f v, tr).
Proof.
  intros Hk Hin Hv Hl. rewrite (cfg_item_hit _ base (copy_to f base).2) by done.
  unfold copy_to. cbn [snd]. rewrite drop_key. by apply lift_ok, set_member_ok.
Qed.

(** A value longer than its member is written past its end. *)
Lemma cfg_item_overflow table f base info v tr :
  keys_ok table = true -> copy_to f base ∈ table -> colon ∉ v ->
  zlen (member info f) < zlen v ->
  cfg_item table info (str base ++ v) tr = Fault OobWrite.
Proof.
  intros Hk Hin Hv Hl. rewrite (cfg_item_hit _ base (copy_to f base).2) by done.
  unfold copy_to. cbn [snd]. rewrite drop_key. unfold lift. by rewrite set_member_over.
Qed.

Lemma cfg_items_step table info item items tr info' :
  cfg_item table info item tr = Ok (info', tr) ->
  cfg_items table info (item :: items) tr = cfg_items table info' items tr.
Proof. intros Hi. cbn [cfg_items]. by rewrite (io_bind_ok _ _ _ _ _ Hi). Qed.

(** ** Files of lines *)

Definition line_ok (l : list byte) : Prop :=
  l <> [] /\ Forall (fun b => is_delim delims b = false /\ b <> x00) l.
(** Lines with their ends; the last may lack it. *)
Definition file_of (ls : list (list byte)) (last : list byte) : list byte :=
  concat (map (fun l => l ++ [nl]) ls) ++ last.

Lemma strtok_final d t off :
  t <> [] -> Forall (fun b => is_delim d b = false) t -> strtok_all d t off None = [(off, t)].
Proof.
  intros Hne Ht. destruct t as [|b t]; [done|]. apply Forall_cons in Ht as [Hb Ht].
  cbn [strtok_all]. rewrite Hb.
  enough (Hg : forall o c, strtok_all d t o (Some (off, c)) = [(off, c ++ t)]) by apply Hg.
  clear Hne Hb. induction Ht as [|x t Hx _ IH]; intros o c; cbn [strtok_all].
  - by rewrite app_nil_r.
  - rewrite Hx, IH, <- app_assoc. done.
Qed.

Lemma line_delims l : line_ok l -> Forall (fun b => is_delim delims b = false) l.
Proof. intros [_ Hl]. eapply Forall_impl; [exact Hl|]. by intros b [? _]. Qed.

Lemma file_tokens ls last off :
  Forall line_ok ls -> last = [] \/ line_ok last ->
  map snd (strtok_all delims (file_of ls last) off None)
  = ls ++ match last with [] => [] | _ => [last] end.
Proof.
  intros Hls Hlast. revert off. unfold file_of.
  induction Hls as [|l ls Hl _ IH]; intros off; cbn [map concat app].
  - destruct Hlast as [->|Hlast]; [done|]. rewrite strtok_final; [|apply Hlast|by apply line_delims].
    destruct Hlast as [? _]. by destruct last.
  - rewrite <- !app_assoc. cbn [app]. rewrite strtok_token; [|apply Hl|by apply line_delims|done].
    cbn [map snd]. by rewrite IH.
Qed.

Lemma file_no_nul ls last :
  Forall line_ok ls -> last = [] \/ line_ok last -> no_nul (file_of ls last).
Proof.
  assert (Hn : forall l, line_ok l -> no_nul l).
  { intros l [_ Hl]. eapply Forall_impl; [exact Hl|]. by intros b [_ ?]. }
  intros Hls Hlast. unfold file_of. apply Forall_app. split.
  - induction Hls as [|l ls Hl _ IH]; [constructor|]. cbn [map concat].
    apply Forall_app. split; [|exact IH]. apply Forall_app. split; [by apply Hn|].
    constructor; [discriminate|constructor].
  - destruct Hlast as [->|Hlast]; [constructor|by apply Hn].
Qed.

(** Loading a file of lines runs the chain on each line in turn. *)
Lemma cfg_load_lines table path info err tr fp ls last :
  fopen_r tr path = Some fp -> regular fp -> f_bytes fp = file_of ls last ->
  Forall line_ok ls -> last = [] \/ line_ok last ->
  cfg_load table path info err tr
  = (info ← cfg_items table info (ls ++ match last with [] => [] | _ => [last] end);
     mret (info, err)) tr.
Proof.
  intros Hf Hr Hb Hls Hlast. unfold cfg_load.
  rewrite (io_bind_ok _ _ _ _ _ (lcs_file_text_ok path None err tr fp Hf Hr)).
  erewrite io_bind_ok; [|apply lift_ok; rewrite Hb; apply cstr_terminated, file_no_nul; done].
  unfold strtok. by rewrite file_tokens.
Qed.

(** A file that cannot be opened: [strtok] is called on the null pointer. *)
Lemma cfg_load_missing table path info err tr :
  fopen_r tr path = None -> cfg_load table path info err tr = Fault NullDeref.
Proof.
  intros Hf. unfold cfg_load. by rewrite (io_bind_ok _ _ _ _ _ (lcs_file_text_none _ _ _ _ Hf)).
Qed.

End Lines.

(** The value of a line and the text of the member it was copied to. *)
Definition value_ok (v : list byte) : Prop :=
  Forall (fun b => is_delim delims b = false /\ b <> x00 /\ b <> colon) v.

Lemma value_colon v : value_ok v -> colon ∉ v.
Proof. intros Hv Hin. eapply Forall_forall in Hv; [|exact Hin]. by destruct Hv as (_ & _ & ?). Qed.

Lemma value_no_nul v : value_ok v -> no_nul v.
Proof. intros Hv. eapply Forall_impl; [exact Hv|]. by intros b (_ & ? & _). Qed.

Lemma line_of_value base v :
  line_ok (str base) -> value_ok v -> line_ok (str base ++ v).
Proof.
  intros [Hne Hb] Hv. split; [by destruct (str base)|]. apply Forall_app. split; [done|].
  eapply Forall_impl; [exact Hv|]. by intros b (? & ? & _).
Qed.

Lemma member_assign c f v : member (assign c f v) f = v ++ drop (length v) (member c f).
Proof. unfold assign, member. by rewrite lookup_insert_eq. Qed.

Lemma member_assign_ne c f g v : f <> g -> member (assign c f v) g = member c g.
Proof. intros Hn. unfold assign, member. by rewrite lookup_insert_ne. Qed.

Lemma zlen_member_assign c f g v :
  zlen v <= zlen (member c f) -> zlen (member (assign c f v) g) = zlen (member c g).
Proof.
  intros Hv. destruct (decide (f = g)) as [<-|Hn]; [|by rewrite member_assign_ne].
  rewrite member_assign. len.
Qed.

(** A cleared member that was assigned a shorter value holds it as a string. *)
Lemma text_of_assign c f v n :
  member c f = zeros n -> zlen v < n -> no_nul v -> text_of (assign c f v) f = Ok v.
Proof.
  intros Hm Hv Hn. pose proof (zlen_nonneg v). unfold text_of. rewrite member_assign, Hm.
  unfold zeros, zlen in *. rewrite drop_replicate.
  replace (Z.to_nat n - length v)%nat with (S (Z.to_nat n - length v - 1)) by lia.
  cbn [replicate]. by apply cstr_terminated.
Qed.

(** A value that fills its member leaves no room for the terminating zero. *)
Lemma text_of_assign_full c f v n :
  member c f = zeros n -> zlen v = n -> no_nul v -> text_of (assign c f v) f = Fault OobRead.
Proof.
  intros Hm Hv Hn. unfold text_of. rewrite member_assign, Hm. unfold zeros, zlen in *.
  rewrite drop_replicate. replace (Z.to_nat n - length v)%nat with O by lia. cbn [replicate].
  rewrite app_nil_r. clear Hm Hv. induction Hn as [|b v Hb _ IH]; [done|]. cbn [cstr].
  rewrite (proj2 (Z.eqb_neq _ _)) by (by intros ?%b2z_zero). by rewrite IH.
Qed.

(** ** Several lines *)

(** Lines "key value". *)
Definition lines_of (kvs : list (string * list byte)) : list (list byte) :=
  map (fun kv => str kv.1 ++ kv.2) kvs.
(** The members [fs] take the values of the lines [kvs] one after the other. *)
Definition assign_all (c : cfg) (fs : list string) (vs : list (list byte)) : cfg :=
  fold_left (fun c fv => assign c fv.1 fv.2) (zip fs vs) c.

Section Several.
Context `{World}.

Lemma cfg_items_app table info items1 items2 tr info' tr' :
  cfg_items table info items1 tr = Ok (info', tr') ->
  cfg_items table info (items1 ++ items2) tr = cfg_items table info' items2 tr'.
Proof.
  revert info tr. induction items1 as [|i items1 IH]; intros info tr E; cbn [cfg_items app] in *.
  - by injection E as -> ->.
  - unfold mbind, io_bind in *. destruct (cfg_item table info i tr) as [[x t]|f]; [|done].
    by apply IH.
Qed.

(** Lines that are copied, one after the other. *)
Lemma cfg_items_copies table info (fs : list string) kvs tr :
  keys_ok table = true ->
  Forall2 (fun f kv => copy_to f kv.1 ∈ table /\ (colon ∉ kv.2) /\ zlen kv.2 <= zlen (member info f)) fs kvs ->
  cfg_items table info (lines_of kvs) tr = Ok (assign_all info fs (map snd kvs), tr).
Proof.
  intros Hk Hl. revert info kvs Hl. induction fs as [|f fs IH]; intros info kvs Hl.
  - by apply Forall2_nil_inv_l in Hl as ->.
  - apply Forall2_cons_inv_l in Hl as ([b v] & kvs' & (Hin & Hc & Hz) & Hl & ->).
    cbn [fst snd] in *. cbn [lines_of map]. cbn [fst snd].
    rewrite (cfg_items_step _ _ _ _ _ (assign info f v)) by (by apply cfg_item_copy).
    apply IH. eapply Forall2_impl; [exact Hl|]. intros g kv (H1 & H2 & H3).
    split; [done|]. split; [done|]. by rewrite zlen_member_assign.
Qed.

End Several.

(** The values that were assigned, when no member is assigned twice. *)
Lemma member_assign_all_ne c fs vs g :
  g ∉ fs -> member (assign_all c fs vs) g = member c g.
Proof.
  revert c vs. induction fs as [|f fs IH]; intros c [|v vs] Hg; try done.
  apply not_elem_of_cons in Hg as [Hne Hg]. 
  change (assign_all c (f :: fs) (v :: vs)) with (assign_all (assign c f v) fs vs). rewrite IH by done. by apply member_assign_ne.
Qed.

Lemma text_of_assign_all c fs vs i f v n :
  NoDup fs -> fs !! i = Some f -> vs !! i = Some v ->
  member c f = zeros n -> zlen v < n -> no_nul v ->
  text_of (assign_all c fs vs) f = Ok v.
Proof.
  revert c vs i. induction fs as [|g fs IH]; intros c [|w vs] i Hn Hf Hv Hm Hz Hnn; try done.
  apply NoDup_cons in Hn as [Hg Hn]. 
  change (assign_all c (g :: fs) (w :: vs)) with (assign_all (assign c g w) fs vs). destruct i as [|i]; cbn in Hf, Hv.
  - injection Hf as ->. injection Hv as ->. unfold text_of. rewrite member_assign_all_ne by done.
    by apply (text_of_assign c f v n).
  - apply (IH (assign c g w) vs i); try done. rewrite member_assign_ne; [done|].
    intros ->. apply Hg. by eapply list_elem_of_lookup_2.
Qed.

(** ** Dates with other separators *)

(** ** Lemmas: members one by one *)

Lemma text_of_insert (p : cfg) f s n :
  no_nul s -> zlen s < n -> text_of (<[f := s ++ zeros (n - zlen s)]> p) f = Ok s.
Proof.
  intros Hs Hz. unfold text_of, member. rewrite lookup_insert_eq. cbn [default].
  unfold zeros. replace (Z.to_nat (n - zlen s)) with (S (Z.to_nat (n - zlen s - 1))) by lia.
  cbn [replicate]. by apply cstr_terminated.
Qed.

Lemma text_of_insert_ne (p : cfg) f g m : f <> g -> text_of (<[f := m]> p) g = text_of p g.
Proof. intros Hn. unfold text_of, member. by rewrite lookup_insert_ne. Qed.
Lemma member_insert_ne (p : cfg) f g m : f <> g -> member (<[f := m]> p) g = member p g.
Proof. intros Hn. unfold member. by rewrite lookup_insert_ne. Qed.

(** Another character for every ['-']. *)
Definition redash (c : byte) (s : list byte) : list byte :=
  map (fun b => if b2z b =? 45 then c else b) s.

Lemma redash_length c s : zlen (redash c s) = zlen s.
Proof. unfold redash, zlen. by rewrite length_map. Qed.

Lemma redash_no_nul c s : c <> x00 -> no_nul s -> no_nul (redash c s).
Proof.
  intros Hc Hs. unfold redash. apply Forall_map. eapply Forall_impl; [exact Hs|].
  intros b Hb. cbn. by destruct (b2z b =? 45).
Qed.

Lemma strstr_char_none x s : x ∉ s -> strstr s [x] = None.
Proof.
  intros Hx. apply strstr_none. intros (a & b & ->). apply Hx. rewrite elem_of_app. right. by left.
Qed.

Lemma strstr_char_some x a s : x ∉ a -> strstr (a ++ x :: s) [x] = Some (zlen a).
Proof.
  induction a as [|y a IH]; intros Hx; cbn [app strstr].
  - cbn [prefixb]. by rewrite Z.eqb_refl.
  - apply not_elem_of_cons in Hx as [Hy Hx]. cbn [prefixb].
    destruct (b2z x =? b2z y) eqn:E; b2p; [by apply b2z_inj in E|]. cbn [andb].
    rewrite IH by done. cbn. f_equal. rewrite zlen_cons. lia.
Qed.
