(* ===== verification/Manager.v ===== *)
(** * The manager of the cluster

    Models src/cluster/manager/manager.c.  It loads a list of servers with a configuration
    file each, asks every server for the days of its first and last call, and then works
    through the days from the earliest first to the latest last one: on each day it starts a
    thread for every server that has calls on it and waits until a counter of threads is
    zero.  A thread writes configuration files for the programs of the other directories and
    runs them.

    The functions with texts and files are computations of World.v; the threads are a step
    relation on the state of the main loop and the counter.  [main], the signals and the waiting
    for them are in Daemon.v. *)
From S2P Require Import Prelude CString OpenSSL GenList World.
From S2P Require Import ToyWorld Directories Config Calendar.

(** ** Data *)

(** The arrays of [LCS_MYSQL_SERVER_INFO]. *)
Definition server_members : list (string * Z) :=
  [("server", 128); ("user", 64); ("password", 64); ("db", 64); ("rootpath", 512);
   ("startdate", 32); ("currentdate", 32); ("lastdate", 32); ("agentprocess", 128);
   ("templateprocess", 128); ("insertprocess", 128); ("gethistoryprocess", 128);
   ("getfrommysqlprocess", 128); ("analysisprocess", 128); ("shmagentprocess", 128);
   ("shmauddprocess", 128); ("listtable", 2048); ("listtableagent", 2048);
   ("listanalysis", 2048)]%string.

(** [LCS_MYSQL_SERVER_INFO_LIST]; [n] is the length of [listinfo]. *)
Record server_list := {
  listinfo : list cfg;
  startdate : list byte;
  currentdate : list byte;
  lastdate : list byte;
  iscomplete : bool
}.

Definition list_cleared (infos : list cfg) : server_list :=
  {| listinfo := infos; startdate := zeros 32; currentdate := zeros 32; lastdate := zeros 32;
     iscomplete := false |}.

Section Manager.
Context `{World} `{TimeZone}.

(** ** Configuration *)

(** An item that names a program: its text is replaced by the program of the current
    directory when that exists; [pro] has 512 bytes. *)
Definition process_to (f base : string) : entry :=
  (base, fun info item =>
    info ← lift (set_member info f 0 (drop (length (str base)) item));
    path ← lift (text_of info f);
    pro ← lcs_comm_get_process path [];
    pro ← lift (fits 512 pro);
    if zlen pro =? 0 then mret info else lift (set_member info f 0 (pro ++ [x00]))).

Definition lcs_cfg_table : list entry :=
  [copy_to "server" "server_0001:"; copy_to "user" "user_0002:";
   copy_to "password" "password_0003:"; copy_to "db" "db_0004:";
   copy_to "rootpath" "rootpath_0005:"; process_to "templateprocess" "templateprocess_0006:";
   process_to "agentprocess" "agentprocess_0007:";
   process_to "insertprocess" "insertprocess_0008:";
   process_to "gethistoryprocess" "gethistoryprocess_0009:";
   process_to "getfrommysqlprocess" "getfrommysqlprocess_0010:";
   process_to "analysisprocess" "analysisprocess_0011:"; copy_to "listtable" "listtable_0012:";
   copy_to "listanalysis" "listanalysis_0013:"; copy_to "listtableagent" "listtableagent_0014:";
   process_to "shmagentprocess" "shmagent_0015:"; process_to "shmauddprocess" "shmaudd_0016:"].
Definition lcs_cfg_item : cfg -> list byte -> io cfg := cfg_item lcs_cfg_table.
Definition lcs_cfg_load (path : list byte) (info : cfg) (err : Z) : io (cfg * Z) :=
  cfg_load lcs_cfg_table path info err.

Fixpoint load_all (paths : list (list byte)) (err : Z) : io (list cfg * Z) :=
  match paths with
  | [] => mret ([], err)
  | p :: paths =>
    '(info, err) ← lcs_cfg_load p (cleared server_members) err;
    '(infos, err) ← load_all paths err;
    mret (info :: infos, err)
  end.
(** [listserver] has 1000 slots; a list of exactly 1000 has no null behind it. *)
Definition lcs_cfg_load_list (path : list byte) (err : Z) : io (list cfg * Z) :=
  '(text, err) ← lcs_file_text path None err;
  match text with
  | None => lift (Fault NullDeref)
  | Some text =>
    s ← lift (cstr text);
    let paths := map snd (strtok delims s) in
    if 1000 <? zlen paths then lift (Fault OobWrite)
    else
      '(infos, err) ← load_all paths err;
      if zlen paths =? 1000 then lift (Fault OobRead) else mret (infos, err)
  end.

(** ** The days of a server *)

(** The new value of [info->conn]. *)
Definition lcs_try_close (con : bool) : io bool :=
  if con then _ ← emit EvClose; mret false else mret false.
Definition lcs_try_connect (info : cfg) (err : Z) : io (bool * Z) :=
  ok ← ask mysql_init;
  if negb ok then mret (false, 1)
  else
    server ← lift (text_of info "server");
    user ← lift (text_of info "user");
    password ← lift (text_of info "password");
    db ← lift (text_of info "db");
    ok ← ask mysql_real_connect;
    if negb ok then con ← lcs_try_close true; mret (con, err)
    else _ ← emit (EvConnect server user password db); mret (true, err).

(** [sprintf(p->f, "%s", column)]: a null column, or one that is too long. *)
Definition print_date (info : cfg) (f : string) (column : option (option (list byte))) : res cfg :=
  match column with
  | None => Fault OobRead
  | Some None => Fault NullDeref
  | Some (Some s) => set_member info f 0 (s ++ [x00])
  end.
Definition lcs_get_inittime (info : cfg) (err : Z) : io (cfg * Z) :=
  '(con, err) ← lcs_try_connect info err;
  info ←
    (if negb con then mret info
     else
       r ← query con (str "select DATE(MIN(calldate)), DATE(MAX(calldate)) from cdr;");
       if negb (r =? 0) then mret info
       else
         result ← ask mysql_store_result;
         match result with
         | Some (r :: _) =>
           info ← lift (print_date info "startdate" (r !! 0%nat));
           lift (print_date info "lastdate" (r !! 1%nat))
         | _ => mret info
         end);
  _ ← lcs_try_close con;
  mret (info, err).

(** The smaller, and the greater, of two dates; an empty one does not count. *)
Definition min_date (m : option (list byte)) (s : list byte) : option (list byte) :=
  if zlen s =? 0 then m
  else match m with
       | None => Some s
       | Some m => Some (if 0 <? strcmp m s then s else m)
       end.
Definition max_date (m : option (list byte)) (s : list byte) : option (list byte) :=
  if zlen s =? 0 then m
  else match m with
       | None => Some s
       | Some m => Some (if strcmp m s <? 0 then s else m)
       end.

(** The loop over the servers; an error leaves the rest as they are. *)
Fixpoint init_servers (infos : list cfg) (min max : option (list byte)) (err : Z)
    : io (list cfg * option (list byte) * option (list byte) * Z) :=
  match infos with
  | [] => mret ([], min, max, err)
  | info :: infos =>
    '(info, err) ← lcs_get_inittime info err;
    if negb (err =? 0) then mret (info :: infos, min, max, err)
    else
      s ← lift (text_of info "startdate");
      l ← lift (text_of info "lastdate");
      '(infos, min, max, err) ← init_servers infos (min_date min s) (max_date max l) err;
      mret (info :: infos, min, max, err)
  end.
Definition lcs_init_server_info (p : server_list) (err : Z) : io (server_list * Z) :=
  '(infos, min, max, err) ← init_servers (listinfo p) None None err;
  match min, max with
  | Some min, Some max =>
    s ← lift (strcat (startdate p) min);
    l ← lift (strcat (lastdate p) max);
    mret ({| listinfo := infos; startdate := s; currentdate := currentdate p; lastdate := l;
             iscomplete := iscomplete p |}, err)
  | _, _ =>
    mret ({| listinfo := infos; startdate := startdate p; currentdate := currentdate p;
             lastdate := lastdate p; iscomplete := iscomplete p |}, err)
  end.

(** ** The days *)

Definition with_current (p : server_list) (c : list byte) : server_list :=
  {| listinfo := listinfo p; startdate := startdate p; currentdate := c; lastdate := lastdate p;
     iscomplete := iscomplete p |}.
Definition completed (p : server_list) : server_list :=
  {| listinfo := listinfo p; startdate := startdate p; currentdate := currentdate p;
     lastdate := lastdate p; iscomplete := true |}.

(** [lcs_time2_str] always gives a text, so that no error is set. *)
Definition lcs_next_day (p : server_list) : res server_list :=
  s ← cstr (startdate p);
  if zlen s =? 0 then Ok (completed p)
  else
    l ← cstr (lastdate p);
    if zlen l =? 0 then Ok (completed p)
    else
      c ← cstr (currentdate p);
      if zlen c =? 0 then
        m ← strcat (currentdate p) s; Ok (with_current p m)
      else if 0 <=? strcmp c l then Ok (completed p)
      else
        tmp ← fits 32 (c ++ str " 00:00:00");
        t ← lcs_str2_time (tmp ++ zeros (32 - zlen tmp));
        outtime ← lcs_time2_str (t + 24 * 3600);
        d ← rd outtime 0 10;
        m ← wr (zeros 32) 0 d;
        Ok (with_current p m).

(** Whether a server has calls on a day: the condition for its thread. *)
Definition due (day : list byte) (info : cfg) : res bool :=
  s ← text_of info "startdate";
  l ← text_of info "lastdate";
  Ok ((strcmp s day <=? 0) && (strcmp day l <=? 0)).
(** The date is copied into the server's array without its zero. *)
Definition set_day (day : list byte) (info : cfg) : res cfg :=
  set_member info "currentdate" 0 day.

(** The servers of one round: their new records, and the numbers of those that get a
    thread. *)
Fixpoint start_threads (day : list byte) (i : nat) (infos : list cfg)
    : res (list cfg * list nat) :=
  match infos with
  | [] => Ok ([], [])
  | info :: infos =>
    b ← due day info;
    info ← (if b : bool then set_day day info else Ok info);
    '(infos, started) ← start_threads day (S i) infos;
    Ok (info :: infos, if (b : bool) then i :: started else started)
  end.

(** The rounds of the main loop: the days, each with the servers whose threads run on it. *)
Fixpoint days (fuel : nat) (p : server_list) : res (server_list * list (list byte * list nat)) :=
  match fuel with
  | O => Fault NoFuel
  | S fuel =>
    p ← lcs_next_day p;
    if iscomplete p then Ok (p, [])
    else
      day ← cstr (currentdate p);
      '(infos, started) ← start_threads day 0 (listinfo p);
      '(p, rest) ← days fuel {| listinfo := infos; startdate := startdate p;
                                 currentdate := currentdate p; lastdate := lastdate p;
                                 iscomplete := iscomplete p |};
      Ok (p, (day, started) :: rest)
  end.

(** ** Configuration files of other programs *)

(** The name [uuidgen] prints, without its last character; nothing printed is written in
    front of its text. *)
Definition uuid_name : io (option (list byte)) :=
  text ← lcs_bash_cmdext (str "uuidgen") None;
  match text with
  | None => mret None
  | Some [] => lift (Fault OobWrite)
  | Some t => mret (Some (take (length t - 1) t))
  end.
(** The common shape of the functions [lcs_*_cfg] and [lcs_gen_*_config]: the name, and the
    text that is written when the file can be opened. *)
Definition write_cfg (data : res (list byte)) : io (option (list byte)) :=
  path ← uuid_name;
  match path with
  | None => mret None
  | Some path =>
    ok ← ask (fun tr => fopen_w tr path);
    if negb ok then mret (Some path)
    else
      data ← lift data;
      _ ← emit (EvWrite path data);
      mret (Some path)
  end.

(** ["key:%s\n"] *)
Definition line (key : string) (v : list byte) : list byte := str key ++ v ++ [nl].
Definition login (p : cfg) : res (list byte) :=
  server ← text_of p "server";
  user ← text_of p "user";
  password ← text_of p "password";
  db ← text_of p "db";
  Ok (line "server:" server ++ line "user:" user ++ line "password:" password ++ line "db:" db).
(** ["%s/%s/%s"] of the root path, the server and the database. *)
Definition home (p : cfg) : res (list byte) :=
  root ← text_of p "rootpath";
  server ← text_of p "server";
  db ← text_of p "db";
  Ok (root ++ str "/" ++ server ++ str "/" ++ db).
Definition lcs_gen_template_config (p : cfg) : io (option (list byte)) :=
  write_cfg (l ← login p; h ← home p; t ← text_of p "listtable";
             Ok (l ++ line "path:" (h ++ str "/template") ++
                 str "pathtemplate:template.sql" ++ [nl] ++ str "listtable:" ++ t)).
Definition lcs_gen_agent_config (p : cfg) : io (option (list byte)) :=
  write_cfg (l ← login p; h ← home p; t ← text_of p "listtableagent";
             i ← text_of p "insertprocess";
             Ok (l ++ line "pathtemplate_0001:" (h ++ str "/template") ++
                 line "pathagent_0002:" (h ++ str "/agent") ++
                 line "listtable_0003:" t ++ str "insertprocess_0004:" ++ i)).
(** [tmp] is not initialised: [junk] is what its 32 bytes hold. *)
Definition lcs_get_history_cfg (junk : list byte) (p : cfg) : io (option (list byte)) :=
  write_cfg (l ← login p; d ← text_of p "currentdate"; tmp ← strcat junk d; tmp ← cstr tmp;
             h ← home p; i ← text_of p "insertprocess";
             Ok (l ++ line "date_0001:" d ++
                 line "pathhistory_0002:" (h ++ str "/" ++ redash x2f tmp) ++
                 line "listtable_0003:" (str "DND_History,agent_history,auto_dial_detail") ++
                 line "pathtemplate_0004:" (h ++ str "/template") ++
                 str "insertprocess_0005:" ++ i)).
Definition lcs_get_from_mysql_cfg (p : cfg) : io (option (list byte)) :=
  write_cfg (l ← login p; root ← text_of p "rootpath"; d ← text_of p "currentdate";
             i ← text_of p "insertprocess";
             Ok (l ++ line "path:" root ++ line "date_0011:" d ++ line "step:" (str "60") ++
                 line "max_duration:" (str "900") ++ str "insertprocess_0009:" ++ i)).
Definition lcs_gen_analysis_cfg (p : cfg) : io (option (list byte)) :=
  write_cfg (root ← text_of p "rootpath"; server ← text_of p "server"; db ← text_of p "db";
             list ← text_of p "listanalysis"; d ← text_of p "currentdate";
             Ok (line "root_path_0001:" root ++ line "server_0002:" server ++
                 line "dbname_0003:" db ++ line "list_ana_0004:" list ++ line "date_0005:" d ++
                 line "week_0006:" d ++ line "month_0007:" [] ++ str "year_0008:")).
(** [date] has 12 bytes. *)
Definition lcs_man_shm_audd_cfg (p : cfg) (key : list byte) : io (option (list byte)) :=
  d ← lift (text_of p "currentdate" ≫= fits 12);
  write_cfg (h ← home p;
             Ok (line "dbpath_0001:" (h ++ str "/" ++ redash x2f d) ++
                 str "prefixshmkey_0002:" ++ key)).
Definition lcs_man_shm_agent_cfg (p : cfg) (key : list byte) : io (option (list byte)) :=
  write_cfg (h ← home p;
             Ok (line "dbpath_0001:" (h ++ str "/agent") ++ str "prefixshmkey_0002:" ++ key)).

(** ** Running them *)

(** A program on a configuration file, which is removed behind it; [cmd] has 1024 bytes. *)
Definition run_on (path : option (list byte)) (cmd : list byte -> res (list byte)) : io unit :=
  match path with
  | None => mret tt
  | Some path =>
    cmd ← lift (cmd path ≫= fits 1024);
    _ ← lcs_bash_cmd cmd;
    emit (EvRemove path)
  end.
(** ["%s %s > /dev/null"] and ["%s %s > <log>.%s.%s"] *)
Definition silent (p : cfg) (process : string) (path : list byte) : res (list byte) :=
  c ← text_of p process; Ok (c ++ str " " ++ path ++ str " > /dev/null").
Definition logged (p : cfg) (process log : string) (path : list byte) : res (list byte) :=
  c ← text_of p process; d ← text_of p "currentdate"; s ← text_of p "server";
  Ok (c ++ str " " ++ path ++ str " > " ++ str log ++ str "." ++ d ++ str "." ++ s).

Definition lcs_gen_template (p : cfg) : io unit :=
  path ← lcs_gen_template_config p; run_on path (silent p "templateprocess").
Definition lcs_get_agent (p : cfg) : io unit :=
  path ← lcs_gen_agent_config p; run_on path (silent p "agentprocess").
Definition lcs_get_history (junk : list byte) (p : cfg) : io unit :=
  path ← lcs_get_history_cfg junk p; run_on path (silent p "gethistoryprocess").
Definition lcs_get_from_mysql (p : cfg) : io unit :=
  path ← lcs_get_from_mysql_cfg p; run_on path (logged p "getfrommysqlprocess" "getfrommysql.log").
Definition lcs_man_shm_audd (p : cfg) (key : list byte) : io unit :=
  path ← lcs_man_shm_audd_cfg p key; run_on path (logged p "shmauddprocess" "shmaudd.log").
Definition lcs_man_shm_agent (p : cfg) (key : list byte) : io unit :=
  path ← lcs_man_shm_agent_cfg p key; run_on path (logged p "shmagentprocess" "shmagent.log").

(** The prefix of the names of the shared memory of a server and a day; [key] has 1024
    bytes, a missing [USER] is printed with ["%s"]. *)
Definition shm_key (p : cfg) : res (list byte) :=
  d ← text_of p "currentdate" ≫= fits 12;
  server ← text_of p "server";
  db ← text_of p "db";
  user ← match getenv (str "USER") with Some u => Ok u | None => Fault NullDeref end;
  fits 1024 (user ++ str "." ++ server ++ str "." ++ db ++ str "_" ++ redash x5f d).
Definition lcs_manager_shm (p : cfg) : io unit :=
  key ← lift (shm_key p);
  _ ← lcs_man_shm_agent p key;
  lcs_man_shm_audd p key.

Fixpoint unlink_all (key : list byte) (names : list (list byte)) : io unit :=
  match names with
  | [] => mret tt
  | n :: names =>
    match strstr n key with
    | Some _ => _ ← emit (EvShmUnlink n); unlink_all key names
    | None => unlink_all key names
    end
  end.
(** The list is read up to its null pointer. *)
Definition lcs_man_shm_unlink (p : cfg) (err : Z) : io Z :=
  key ← lift (shm_key p);
  '(result, err) ← lcs_comm_list_files (str "/dev/shm") true err;
  match result with
  | None => mret err
  | Some l =>
    _ ← unlink_all key (l_names l);
    if l_ends l then mret err else lift (Fault OobRead)
  end.

Definition lcs_run_analysis (p : cfg) (err : Z) : io Z :=
  _ ← lcs_manager_shm p;
  path ← lcs_gen_analysis_cfg p;
  _ ← run_on path (logged p "analysisprocess" "analysis.log");
  lcs_man_shm_unlink p err.

(** The work of a thread, before it counts itself out; [err] of the first two calls stays
    0. *)
Definition lcs_thread_spec_date (junk : list byte) (p : cfg) : io Z :=
  _ ← lcs_get_history junk p;
  _ ← lcs_get_from_mysql p;
  lcs_run_analysis p 0.

(** The first loop of [lcs_start_bdata], and whether the days follow: none of the calls sets
    [*err], so that only an error from before ends it, behind the first program. *)
Fixpoint prepare_servers (infos : list cfg) (err : Z) : io bool :=
  match infos with
  | [] => mret (err =? 0)
  | p :: infos =>
    _ ← lcs_gen_template p;
    if negb (err =? 0) then mret false
    else _ ← lcs_get_agent p; prepare_servers infos err
  end.

(** The work of the manager: the preparation, and the rounds with the threads of each. *)
Definition lcs_start_bdata (fuel : nat) (p : server_list) (err : Z)
    : io (server_list * list (list byte * list nat)) :=
  go ← prepare_servers (listinfo p) err;
  if (go : bool) then lift (days fuel p) else mret (p, []).

(** [lcs_hdl_cmd]: the new status of the program. *)
Definition lcs_hdl_cmd (status : Z) : io Z :=
  '(cmd, _) ← lcs_file_text (str "get-mysql.cmd") None 0;
  match cmd with
  | None => mret status
  | Some cmd =>
    s ← lift (cstr cmd);
    match strstr s (str "LCS_EXIT") with
    | Some _ => mret 1
    | None => mret status
    end
  end.

(** Loading and asking, the part of [main] in front of the work. *)
Definition lcs_init_app (path : list byte) : io (server_list * Z) :=
  '(infos, _) ← lcs_cfg_load_list path 0;
  lcs_init_server_info (list_cleared infos) 0.

End Manager.

(** ** Threads *)

(** The main loop and its threads.  [Spawn (i, r)] is about to look at the servers [i], [r],
    ...; [Count r] has created a thread, or tried to, and not yet counted it. *)
Inductive phase :=
| Next                         (** at [lcs_next_day] *)
| Spawn (rest : list nat)      (** in the loop over the servers that are due *)
| Count (rest : list nat)      (** before [lcs_increase_count] *)
| Wait                         (** in the loop around [lcs_get_count] *)
| Finished.

#[global] Instance phase_eq_dec : EqDecision phase.
Proof. solve_decision. Defined.

Record mstate := {
  m_days : list (list byte * list nat);        (** the rounds that are still to come *)
  m_day : list byte;
  m_phase : phase;
  m_running : list (nat * list byte);          (** threads in [lcs_thread_spec_date] *)
  m_done : list (nat * list byte);             (** threads that have counted themselves out *)
  m_failed : list (nat * list byte);           (** threads [pthread_create] did not create *)
  lcs_count_thread : Z
}.

Inductive mstep : mstate -> mstate -> Prop :=
| step_day s day started rest :
    m_phase s = Next -> m_days s = (day, started) :: rest ->
    mstep s {| m_days := rest; m_day := day; m_phase := Spawn started; m_running := m_running s;
               m_done := m_done s; m_failed := m_failed s;
               lcs_count_thread := lcs_count_thread s |}
| step_complete s :
    m_phase s = Next -> m_days s = [] ->
    mstep s {| m_days := []; m_day := m_day s; m_phase := Finished; m_running := m_running s;
               m_done := m_done s; m_failed := m_failed s;
               lcs_count_thread := lcs_count_thread s |}
| step_create s i rest :
    m_phase s = Spawn (i :: rest) ->
    mstep s {| m_days := m_days s; m_day := m_day s; m_phase := Count rest;
               m_running := (i, m_day s) :: m_running s; m_done := m_done s;
               m_failed := m_failed s; lcs_count_thread := lcs_count_thread s |}
| step_create_fails s i rest :
    m_phase s = Spawn (i :: rest) ->
    mstep s {| m_days := m_days s; m_day := m_day s; m_phase := Count rest;
               m_running := m_running s; m_done := m_done s;
               m_failed := (i, m_day s) :: m_failed s; lcs_count_thread := lcs_count_thread s |}
| step_increase s rest :
    m_phase s = Count rest ->
    mstep s {| m_days := m_days s; m_day := m_day s; m_phase := Spawn rest;
               m_running := m_running s; m_done := m_done s; m_failed := m_failed s;
               lcs_count_thread := lcs_count_thread s + 1 |}
| step_spawned s :
    m_phase s = Spawn [] ->
    mstep s {| m_days := m_days s; m_day := m_day s; m_phase := Wait;
               m_running := m_running s; m_done := m_done s; m_failed := m_failed s;
               lcs_count_thread := lcs_count_thread s |}
| step_sleep s :
    m_phase s = Wait -> lcs_count_thread s <> 0 -> mstep s s
| step_through s :
    m_phase s = Wait -> lcs_count_thread s = 0 ->
    mstep s {| m_days := m_days s; m_day := m_day s; m_phase := Next;
               m_running := m_running s; m_done := m_done s; m_failed := m_failed s;
               lcs_count_thread := lcs_count_thread s |}
| step_decrease s r1 t r2 :
    m_running s = r1 ++ t :: r2 ->
    mstep s {| m_days := m_days s; m_day := m_day s; m_phase := m_phase s;
               m_running := r1 ++ r2; m_done := t :: m_done s; m_failed := m_failed s;
               lcs_count_thread := lcs_count_thread s - 1 |}.

Definition m_init (ds : list (list byte * list nat)) : mstate :=
  {| m_days := ds; m_day := []; m_phase := Next; m_running := []; m_done := []; m_failed := [];
     lcs_count_thread := 0 |}.
Definition reachable (ds : list (list byte * list nat)) : mstate -> Prop := rtc mstep (m_init ds).

(** ** The days of the servers *)

Section Days.
Context `{TimeZone}.

(** The array of 32 bytes that holds a day. *)
Definition day_buf (n : Z) : list byte := day_text n ++ zeros 22.

Lemma day_buf_cstr n : printable_day n -> cstr (day_buf n) = Ok (day_text n).
Proof.
  intros Hp. unfold day_buf. change (zeros 22) with (x00 :: zeros 21).
  by apply cstr_terminated, day_text_no_nul.
Qed.

Lemma strcat_day n : printable_day n -> strcat (zeros 32) (day_text n) = Ok (day_buf n).
Proof. intros Hp. pose proof (day_text_length n Hp) as Hl. rewrite strcat_zeros by lia. by rewrite Hl. Qed.

(** The day after [n], by the detour over seconds. *)
Lemma next_day_time n :
  printable_day n -> printable_day (n + 1) ->
  (tmp ← fits 32 (day_text n ++ str " 00:00:00");
   t ← lcs_str2_time (tmp ++ zeros (32 - zlen tmp));
   outtime ← lcs_time2_str (t + 24 * 3600);
   d ← rd outtime 0 10;
   wr (zeros 32) 0 d) = Ok (day_buf (n + 1)).
Proof.
  intros Hp Hq. rewrite <- time_text_midnight by done. pose proof (time_text_length _ Hp) as Hl.
  rewrite fits_ok by lia. cbn [mbind res_bind]. rewrite Hl. change (32 - 19) with 13.
  fold (time_buf (midnight n)). rewrite (lcs_str2_time_buf (midnight n)) by done. cbn [mbind res_bind].
  replace (midnight n + 24 * 3600) with (midnight (n + 1)) by (unfold midnight; lia).
  rewrite lcs_time2_str_ok by done. cbn [mbind res_bind]. unfold time_buf.
  rewrite time_text_midnight by done. pose proof (day_text_length _ Hq) as Hd.
  rewrite <- app_assoc, (rd_app_l _ _ 0 10 (day_text (n + 1)))
    by (rewrite rd_head by lia; rewrite take_ge by (unfold zlen in Hd; lia); done).
  cbn [mbind res_bind]. rewrite wr_zeros by lia. by rewrite Hd.
Qed.

Lemma strcmp_days a b :
  printable_day a -> printable_day b ->
  (0 <=? strcmp (day_text a) (day_text b)) = (b <=? a) /\
  (strcmp (day_text a) (day_text b) <=? 0) = (a <=? b).
Proof.
  intros Ha Hb. pose proof (day_text_order a b Ha Hb) as Ho.
  split; apply eq_true_iff_eq; rewrite !Z.leb_le.
  - rewrite <- Z.sgn_nonneg, Ho, Z.sgn_nonneg. lia.
  - rewrite <- Z.sgn_nonpos, Ho, Z.sgn_nonpos. lia.
Qed.

(** *** One server *)

(** The first and last day of a server's calls; [None] when it gave none. *)
Definition has_days (info : cfg) (o : option (Z * Z)) : Prop :=
  zlen (member info "currentdate") = 32 /\
  match o with
  | Some (f, l) => text_of info "startdate" = Ok (day_text f) /\
                   text_of info "lastdate" = Ok (day_text l) /\ printable_day f /\ printable_day l
  | None => text_of info "startdate" = Ok [] /\ text_of info "lastdate" = Ok []
  end.
Definition on_day (o : option (Z * Z)) (n : Z) : bool :=
  match o with Some (f, l) => (f <=? n) && (n <=? l) | None => false end.

Lemma day_text_cons n : printable_day n -> exists b s, day_text n = b :: s /\ 0 < b2z b.
Proof.
  intros Hp. pose proof (day_text_length n Hp) as Hl. pose proof (day_text_no_nul n Hp) as Hn.
  destruct (day_text n) as [|b s]; [done|]. exists b, s. split; [done|].
  apply Forall_cons in Hn as [Hb _]. pose proof (b2z_range b).
  destruct (Z.eq_dec (b2z b) 0) as [E|E]; [by apply b2z_zero in E|lia].
Qed.

Lemma due_ok info o n :
  has_days info o -> printable_day n -> due (day_text n) info = Ok (on_day o n).
Proof.
  intros [_ Ho] Hn. unfold due. destruct o as [[f l]|].
  - destruct Ho as (-> & -> & Hf & Hl). cbn [mbind res_bind on_day].
    destruct (strcmp_days f n Hf Hn) as [_ ->], (strcmp_days n l Hn Hl) as [_ ->]. done.
  - destruct Ho as [-> ->]. cbn [mbind res_bind on_day].
    destruct (day_text_cons n Hn) as (b & s & -> & Hb). f_equal. apply andb_false_iff. right.
    apply Z.leb_gt. cbn [strcmp]. lia.
Qed.

Lemma set_day_ok info o n :
  has_days info o -> printable_day n ->
  exists info', set_day (day_text n) info = Ok info' /\ has_days info' o /\
    member info' "currentdate" = day_text n ++ drop 10 (member info "currentdate").
Proof.
  intros [Hz Ho] Hn. pose proof (day_text_length n Hn) as Hl. unfold set_day.
  rewrite set_member_ok by lia. eexists. split; [done|].
  assert (Hm : member (assign info "currentdate" (day_text n)) "currentdate"
               = day_text n ++ drop 10 (member info "currentdate")).
  { rewrite member_assign. do 2 f_equal. unfold zlen in Hl. lia. }
  split; [|done]. split; [by rewrite zlen_member_assign by lia|].
  unfold text_of in *. rewrite !member_assign_ne by done. done.
Qed.

(** *** One round *)

(** The numbers, from [i] on, of the servers that have calls on day [n]. *)
Fixpoint due_from (i : nat) (os : list (option (Z * Z))) (n : Z) : list nat :=
  match os with
  | [] => []
  | o :: os => if on_day o n then i :: due_from (S i) os n else due_from (S i) os n
  end.

Lemma elem_of_due_from i os n j :
  j ∈ due_from i os n <->
  (i <= j)%nat /\ exists f l, os !! (j - i)%nat = Some (Some (f, l)) /\ f <= n <= l.
Proof.
  revert i. induction os as [|o os IH]; intros i; cbn [due_from].
  - split; [by intros ?%not_elem_of_nil|]. intros (_ & f & l & Hx & _). done.
  - assert (Hr : j ∈ due_from (S i) os n <-> (S i <= j)%nat /\
      exists f l, (o :: os) !! (j - i)%nat = Some (Some (f, l)) /\ f <= n <= l).
    { rewrite IH. split; intros (Hij & f & l & Hx); (split; [lia|]; exists f, l;
      replace (j - i)%nat with (S (j - S i)) in * by lia; exact Hx). }
    assert (Hd : on_day o n = true <-> exists f l, o = Some (f, l) /\ f <= n <= l).
    { destruct o as [[f l]|]; cbn [on_day]; [|split; [done|by intros (? & ? & ? & _)]].
      rewrite andb_true_iff, !Z.leb_le. split; [intros Hfl; by exists f, l|].
      by intros (f' & l' & [= <- <-] & Hx). }
    assert (Hi : forall k, (o :: os) !! (k - k)%nat = Some o) by (intros; by rewrite Nat.sub_diag).
    destruct (on_day o n) eqn:E; [rewrite elem_of_cons|]; rewrite Hr; clear Hr IH.
    + split; [intros [->|[Hij Hx]]|intros [Hij Hx]].
      * split; [done|]. destruct (proj1 Hd eq_refl) as (f & l & -> & Hx). exists f, l. by rewrite Hi.
      * split; [lia|done].
      * destruct (decide (j = i)) as [->|Hne]; [by left|right]. split; [lia|done].
    + split; [intros [Hij Hx]; split; [lia|done]|]. intros [Hij (f & l & Hx & Hfl)].
      destruct (decide (j = i)) as [->|Hne]; [|split; [lia|by exists f, l]].
      rewrite Hi in Hx. injection Hx as ->.
      assert (Ht : false = true) by (apply Hd; by exists f, l). done.
Qed.

Lemma start_threads_ok n infos os i :
  Forall2 has_days infos os -> printable_day n ->
  exists infos', start_threads (day_text n) i infos = Ok (infos', due_from i os n) /\
    Forall2 has_days infos' os.
Proof.
  intros Hd Hn. revert i. induction Hd as [|info o infos os Ho _ IH]; intros i.
  { by exists []. }
  cbn [start_threads due_from]. rewrite (due_ok info o n) by done. cbn [mbind res_bind].
  destruct (IH (S i)) as (infos' & Hr & Hd'). destruct (on_day o n).
  - destruct (set_day_ok info o n Ho Hn) as (info' & Hs & Ho' & _). rewrite Hs, Hr.
    exists (info' :: infos'). split; [done|by constructor].
  - rewrite Hr. exists (info :: infos'). split; [done|by constructor].
Qed.

(** *** All rounds *)

(** The rounds of the days from [a] on. *)
Definition rounds (os : list (option (Z * Z))) (a : Z) (n : nat) : list (list byte * list nat) :=
  map (fun k => (day_text (a + Z.of_nat k), due_from 0 os (a + Z.of_nat k))) (seq 0 n).

Lemma rounds_cons os a n :
  rounds os a (S n) = (day_text a, due_from 0 os a) :: rounds os (a + 1) n.
Proof.
  unfold rounds. cbn [seq map]. f_equal; [by rewrite Z.add_0_r|].
  rewrite <- seq_shift, map_map. apply map_ext. intros k.
  by replace (a + Z.of_nat (S k)) with (a + 1 + Z.of_nat k) by lia.
Qed.

Record between (p : server_list) (os : list (option (Z * Z))) (a b : Z) : Prop := {
  bt_start : startdate p = day_buf a;
  bt_last : lastdate p = day_buf b;
  bt_a : printable_day a;
  bt_b : printable_day b;
  bt_infos : Forall2 has_days (listinfo p) os;
  bt_going : iscomplete p = false
}.

Lemma day_text_ne n : printable_day n -> (zlen (day_text n) =? 0) = false.
Proof. intros Hp. by rewrite day_text_length. Qed.

Lemma next_day_first p os a b :
  between p os a b -> currentdate p = zeros 32 ->
  lcs_next_day p = Ok (with_current p (day_buf a)).
Proof.
  intros [Hs Hl Ha Hb _ _] Hc. unfold lcs_next_day. rewrite Hs, Hl, Hc, !day_buf_cstr by done.
  cbn [mbind res_bind]. rewrite !day_text_ne by done. cbn [mbind res_bind].
  change (cstr (zeros 32)) with (Ok (@nil byte)). cbn [mbind res_bind].
  change (zlen [] =? 0) with true. cbn match. by rewrite strcat_day.
Qed.

Lemma next_day_step p os a b c :
  between p os a b -> currentdate p = day_buf c -> a <= c <= b ->
  lcs_next_day p = Ok (if c <? b then with_current p (day_buf (c + 1)) else completed p).
Proof.
  intros [Hs Hl Ha Hb _ _] Hc Hcb. assert (Pc : printable_day c) by (by apply (printable_days a b)).
  unfold lcs_next_day. rewrite Hs, Hl, Hc, !day_buf_cstr by done. cbn [mbind res_bind].
  rewrite !day_text_ne by done. cbn [mbind res_bind].
  destruct (strcmp_days c b Pc Hb) as [-> _]. destruct (c <? b) eqn:E; b2p; decide_cmp; [|done].
  assert (Pn : printable_day (c + 1)) by (apply (printable_days a b); [done|done|lia]).
  pose proof (next_day_time c Pc Pn) as Hn. revert Hn.
  destruct (fits 32 _) as [tmp|]; cbn [mbind res_bind]; [|done].
  destruct (lcs_str2_time _) as [t|]; cbn [mbind res_bind]; [|done].
  destruct (lcs_time2_str _) as [o|]; cbn [mbind res_bind]; [|done].
  destruct (rd o 0 10) as [d|]; cbn [mbind res_bind]; [|done]. by intros ->.
Qed.

Lemma days_from n p os a b c :
  between p os a b -> currentdate p = day_buf c -> a <= c -> c + Z.of_nat n = b ->
  exists p', days (S n) p = Ok (p', rounds os (c + 1) n) /\ iscomplete p' = true.
Proof.
  revert p c. induction n as [|n IH]; intros p c Hb Hc Hac Hn.
  - cbn [days]. rewrite (next_day_step p os a b c) by (done || lia). decide_cmp.
    cbn [mbind res_bind]. by exists (completed p).
  - change (days (S (S n)) p) with (p ← lcs_next_day p;
      if iscomplete p then Ok (p, [])
      else
        day ← cstr (currentdate p);
        '(infos, started) ← start_threads day 0 (listinfo p);
        '(p, rest) ← days (S n) {| listinfo := infos; startdate := startdate p;
                                   currentdate := currentdate p; lastdate := lastdate p;
                                   iscomplete := iscomplete p |};
        Ok (p, (day, started) :: rest)).
    rewrite (next_day_step p os a b c) by (done || lia). decide_cmp. cbn [mbind res_bind].
    destruct Hb as [Hs Hl Ha Hb Hi Hg].
    assert (Pn : printable_day (c + 1)) by (apply (printable_days a b); [done|done|lia]).
    cbn [with_current iscomplete currentdate listinfo startdate lastdate]. rewrite Hg.
    rewrite day_buf_cstr by done. cbn [mbind res_bind].
    destruct (start_threads_ok (c + 1) (listinfo p) os 0 Hi Pn) as (infos & -> & Hi').
    cbn [mbind res_bind].
    destruct (IH {| listinfo := infos; startdate := startdate p; currentdate := day_buf (c + 1);
                    lastdate := lastdate p; iscomplete := false |} (c + 1)) as (p' & Hr & Hp');
      [by constructor|done|lia|lia|].
    rewrite Hr. cbn [mbind res_bind]. exists p'. by rewrite rounds_cons.
Qed.

Lemma days_all p os a b :
  between p os a b -> currentdate p = zeros 32 -> a <= b ->
  exists p', days (Z.to_nat (b - a) + 2) p = Ok (p', rounds os a (Z.to_nat (b - a) + 1)) /\
    iscomplete p' = true.
Proof.
  intros Hb Hc Hab. rewrite !Nat.add_succ_r, !Nat.add_0_r. set (n := Z.to_nat (b - a)).
  change (days (S (S n)) p) with (p ← lcs_next_day p;
      if iscomplete p then Ok (p, [])
      else
        day ← cstr (currentdate p);
        '(infos, started) ← start_threads day 0 (listinfo p);
        '(p, rest) ← days (S n) {| listinfo := infos; startdate := startdate p;
                                   currentdate := currentdate p; lastdate := lastdate p;
                                   iscomplete := iscomplete p |};
        Ok (p, (day, started) :: rest)).
  rewrite (next_day_first p os a b) by done. cbn [mbind res_bind].
  destruct Hb as [Hs Hl Ha Hb Hi Hg].
  cbn [with_current iscomplete currentdate listinfo startdate lastdate]. rewrite Hg.
  rewrite day_buf_cstr by done. cbn [mbind res_bind].
  destruct (start_threads_ok a (listinfo p) os 0 Hi Ha) as (infos & -> & Hi').
  cbn [mbind res_bind].
  destruct (days_from n {| listinfo := infos; startdate := startdate p; currentdate := day_buf a;
              lastdate := lastdate p; iscomplete := false |} os a b a) as (p' & Hr & Hp');
    [by constructor|done|lia|lia|].
  rewrite Hr. cbn [mbind res_bind]. exists p'. by rewrite rounds_cons.
Qed.

End Days.

(** ** From the first to the last day *)

Section Range.
Context `{World} `{TimeZone}.

(** The least first and the greatest last day. *)
Fixpoint first_day (m : option Z) (os : list (option (Z * Z))) : option Z :=
  match os with
  | [] => m
  | None :: os => first_day m os
  | Some (f, _) :: os => first_day (Some (match m with Some x => Z.min x f | None => f end)) os
  end.
Fixpoint last_day (m : option Z) (os : list (option (Z * Z))) : option Z :=
  match os with
  | [] => m
  | None :: os => last_day m os
  | Some (_, l) :: os => last_day (Some (match m with Some x => Z.max x l | None => l end)) os
  end.

Definition maybe_printable (m : option Z) : Prop :=
  match m with Some x => printable_day x | None => True end.

Lemma strcmp_days_lt x y :
  printable_day x -> printable_day y ->
  (0 <? strcmp (day_text x) (day_text y)) = (y <? x) /\
  (strcmp (day_text x) (day_text y) <? 0) = (x <? y).
Proof.
  intros Hx Hy. pose proof (day_text_order x y Hx Hy) as Ho.
  split; apply eq_true_iff_eq; rewrite !Z.ltb_lt.
  - rewrite <- Z.sgn_pos_iff, Ho, Z.sgn_pos_iff. lia.
  - rewrite <- Z.sgn_neg_iff, Ho, Z.sgn_neg_iff. lia.
Qed.

Lemma min_date_day m f :
  maybe_printable m -> printable_day f ->
  min_date (day_text <$> m) (day_text f)
  = day_text <$> Some (match m with Some x => Z.min x f | None => f end).
Proof.
  intros Hm Hf. unfold min_date. rewrite day_text_ne by done. destruct m as [x|]; [|done].
  cbn [fmap option_fmap option_map]. destruct (strcmp_days_lt x f Hm Hf) as [-> _].
  destruct (f <? x) eqn:E; b2p; do 2 f_equal; lia.
Qed.
Lemma max_date_day m f :
  maybe_printable m -> printable_day f ->
  max_date (day_text <$> m) (day_text f)
  = day_text <$> Some (match m with Some x => Z.max x f | None => f end).
Proof.
  intros Hm Hf. unfold max_date. rewrite day_text_ne by done. destruct m as [x|]; [|done].
  cbn [fmap option_fmap option_map]. destruct (strcmp_days_lt x f Hm Hf) as [_ ->].
  destruct (x <? f) eqn:E; b2p; do 2 f_equal; lia.
Qed.

Lemma init_servers_days infos m M err tr infos' mn mx tr' os :
  init_servers infos (day_text <$> m) (day_text <$> M) err tr = Ok ((infos', mn, mx, 0), tr') ->
  Forall2 has_days infos' os -> maybe_printable m -> maybe_printable M ->
  mn = day_text <$> first_day m os /\ mx = day_text <$> last_day M os.
Proof.
  revert m M err tr infos' os. induction infos as [|info infos IH]; intros m M err tr infos' os E Hd Pm PM.
  { cbn [init_servers] in E. injection E as <- <- <- _ <-. by inversion Hd. }
  cbn [init_servers] in E. apply io_bind_inv in E as ([i e] & t1 & _ & E).
  destruct (negb (e =? 0)) eqn:Ee.
  { injection E as _ _ _ -> _. done. }
  apply io_bind_inv in E as (s & t2 & [Hs ->]%lift_inv & E).
  apply io_bind_inv in E as (l & t3 & [Hl ->]%lift_inv & E).
  apply io_bind_inv in E as ([[[i' mn'] mx'] e'] & t4 & Hi & E).
  injection E as <- <- <- -> <-. apply Forall2_cons_inv_l in Hd as (o & os' & [_ Ho] & Hd & ->).
  destruct o as [[f g]|]; cbn [first_day last_day].
  - destruct Ho as (Hs' & Hl' & Pf & Pg).
    assert (s = day_text f) as -> by congruence. assert (l = day_text g) as -> by congruence.
    rewrite min_date_day, max_date_day in Hi by done. eapply IH; [exact Hi|done| |].
    + cbn. destruct m as [x|]; [|done]. destruct (Z.min_spec x f) as [[_ ->]|[_ ->]]; done.
    + cbn. destruct M as [x|]; [|done]. destruct (Z.max_spec x g) as [[_ ->]|[_ ->]]; done.
  - destruct Ho as [Hs' Hl']. assert (s = []) as -> by congruence. assert (l = []) as -> by congruence.
    change (min_date (day_text <$> m) []) with (day_text <$> m) in Hi.
    change (max_date (day_text <$> M) []) with (day_text <$> M) in Hi. by eapply IH.
Qed.

Lemma first_day_spec m os :
  match first_day m os with
  | None => m = None /\ forall f l, Some (f, l) ∉ os
  | Some a => (match m with Some x => a <= x | None => True end) /\
      (forall f l, Some (f, l) ∈ os -> a <= f) /\ (m = Some a \/ exists l, Some (a, l) ∈ os)
  end.
Proof.
  revert m. induction os as [|[[f l]|] os IH]; intros m; cbn [first_day].
  - destruct m as [x|]; [|by split; [done|intros ? ? ?%not_elem_of_nil]].
    split; [lia|]. split; [by intros ? ? ?%not_elem_of_nil|by left].
  - specialize (IH (Some (match m with Some x => Z.min x f | None => f end))).
    destruct (first_day _ os) as [a|]; [|by destruct IH]. destruct IH as (H1 & H2 & H3).
    split; [destruct m; [lia|done]|]. split.
    + intros f' l' [[= -> ->]|Hin]%elem_of_cons; [destruct m; lia|by eapply H2].
    + destruct H3 as [[= H3]|[l' H3]]; [|right; exists l'; by right].
      destruct m as [x|]; [|right; exists l; rewrite H3; left].
      destruct (Z.min_spec x f) as [[_ E]|[_ E]]; rewrite E in H3; subst a; [by left|right].
      exists l. by left.
  - specialize (IH m). destruct (first_day m os) as [a|].
    + destruct IH as (H1 & H2 & H3). split; [done|]. split.
      * intros f l [?|Hin]%elem_of_cons; [done|by eapply H2].
      * destruct H3 as [->|[l H3]]; [by left|right; exists l; by right].
    + destruct IH as [-> H2]. split; [done|]. intros f l [?|Hin]%elem_of_cons; [done|by eapply H2].
Qed.

(** The same for the last days, by turning the time around. *)
Lemma last_day_first m os :
  last_day m os
  = Z.opp <$> first_day (Z.opp <$> m) (map (fmap (fun '(f, l) => (- l, - f))) os).
Proof.
  revert m. induction os as [|[[f l]|] os IH]; intros m; cbn [first_day last_day map fmap option_fmap option_map].
  - destruct m as [x|]; cbn; [by rewrite Z.opp_involutive|done].
  - rewrite IH. do 2 f_equal. destruct m as [x|]; cbn; f_equal; lia.
  - apply IH.
Qed.

Lemma last_day_spec os b :
  last_day None os = Some b ->
  (forall f l, Some (f, l) ∈ os -> l <= b) /\ exists f, Some (f, b) ∈ os.
Proof.
  rewrite last_day_first. intros (b' & Hb & ->)%fmap_Some. cbn in Hb.
  set (g := fmap (fun '(f, l) => (- l, - f)) : option (Z * Z) -> option (Z * Z)) in *.
  pose proof (first_day_spec None (map g os)) as Hx. rewrite Hb in Hx.
  destruct Hx as (_ & H1 & [?|[l H2]]); [done|]. split.
  - intros f l' Hin. enough (b' <= - l') by lia. apply (H1 (- l') (- f)).
    apply list_elem_of_fmap. exists (Some (f, l')). done.
  - apply list_elem_of_fmap in H2 as ([[f' l']|] & Hg & Hin); cbn in Hg; [|done].
    injection Hg as -> ->. exists f'. by rewrite Z.opp_involutive.
Qed.

Lemma lcs_init_server_info_days infos tr p tr' os :
  lcs_init_server_info (list_cleared infos) 0 tr = Ok ((p, 0), tr') ->
  Forall2 has_days (listinfo p) os -> (exists fl, Some fl ∈ os) ->
  exists a b, first_day None os = Some a /\ last_day None os = Some b /\ between p os a b /\
    currentdate p = zeros 32.
Proof.
  intros E Hd [[f0 l0] Hin]. unfold lcs_init_server_info in E.
  apply io_bind_inv in E as ([[[infos' mn] mx] err] & t1 & Hi & E).
  assert (Hp : listinfo p = infos' /\ err = 0).
  { destruct mn, mx; [apply io_bind_inv in E as (s1 & t2 & _ & E);
      apply io_bind_inv in E as (s2 & t3 & _ & E)|..]; by injection E as <- ->. }
  destruct Hp as [Hp ->]. rewrite Hp in Hd.
  destruct (init_servers_days _ None None _ _ _ _ _ _ os Hi Hd I I) as [-> ->].
  pose proof (first_day_spec None os) as Hf.
  destruct (first_day None os) as [a|]; [|by destruct Hf as [_ Hf]; apply Hf in Hin].
  destruct Hf as (_ & _ & [?|[l' Hfa]]); [done|].
  destruct (last_day None os) as [b|] eqn:El.
  2:{ rewrite last_day_first in El. apply fmap_None in El.
      pose proof (first_day_spec None (map (fmap (fun '(f, l) => (- l, - f))) os)) as Hx.
      cbn in El. rewrite El in Hx. destruct Hx as [_ Hx]. destruct (Hx (- l0) (- f0)).
      apply list_elem_of_fmap. exists (Some (f0, l0)). done. }
  destruct (last_day_spec os b El) as (_ & f' & Hlb).
  assert (Pall : forall f l, Some (f, l) ∈ os -> printable_day f /\ printable_day l).
  { intros f l Hx. apply list_elem_of_lookup_1 in Hx as [i Hx].
    destruct (Forall2_lookup_r _ _ _ _ _ Hd Hx) as (info & _ & _ & _ & _ & ? & ?). done. }
  pose proof (proj1 (Pall _ _ Hfa)) as Pa. pose proof (proj2 (Pall _ _ Hlb)) as Pb.
  cbn [fmap option_fmap option_map list_cleared startdate lastdate currentdate iscomplete] in E.
  rewrite !strcat_day in E by done. cbn in E. injection E as <- _.
  exists a, b. split; [done|]. split; [done|]. split; [by constructor|done].
Qed.

Lemma due_from_nodup i os n : NoDup (due_from i os n).
Proof.
  revert i. induction os as [|o os IH]; intros i; cbn [due_from]; [constructor|].
  destruct (on_day o n); [|done]. constructor; [|done].
  intros (? & _)%elem_of_due_from. lia.
Qed.

(** C3: When the manager has asked its servers for their first and last days, its main loop goes
    once through every day from the earliest first to the latest last one, in order, ends,
    and starts on each day exactly one thread for each server whose calls include that day,
    and none for the others: every day of every server is processed exactly once. *)
Theorem manager_days infos tr p tr' os :
  lcs_init_server_info (list_cleared infos) 0 tr = Ok ((p, 0), tr') ->
  Forall2 has_days (listinfo p) os ->
  (exists fl, Some fl ∈ os) -> (forall f l, Some (f, l) ∈ os -> f <= l) ->
  exists a b p' rs,
    days (Z.to_nat (b - a) + 2) p = Ok (p', rs) /\ iscomplete p' = true /\
    (exists l, Some (a, l) ∈ os) /\ (exists f, Some (f, b) ∈ os) /\
    (forall f l, Some (f, l) ∈ os -> a <= f /\ l <= b) /\
    zlen rs = b - a + 1 /\
    (forall k, a <= k <= b -> exists started,
       rs !! Z.to_nat (k - a) = Some (day_text k, started) /\ NoDup started /\
       forall i, i ∈ started <-> exists f l, os !! i = Some (Some (f, l)) /\ f <= k <= l).
Proof.
  intros E Hd Hin Hle.
  destruct (lcs_init_server_info_days infos tr p tr' os E Hd Hin) as (a & b & Hf & Hl & Hb & Hc).
  pose proof (first_day_spec None os) as Hfs. rewrite Hf in Hfs.
  destruct Hfs as (_ & Ha & [?|Ha']); [done|]. destruct (last_day_spec os b Hl) as [Hb1 Hb2].
  assert (a <= b).
  { destruct Ha' as [l Hal]. specialize (Hle _ _ Hal). specialize (Hb1 _ _ Hal). lia. }
  destruct (days_all p os a b Hb Hc) as (p' & Hr & Hcomp); [done|].
  exists a, b, p', (rounds os a (Z.to_nat (b - a) + 1)).
  split; [done|]. split; [done|]. split; [done|]. split; [done|].
  split; [intros f l Hx; split; [by eapply Ha|by eapply Hb1]|].
  split; [unfold rounds, zlen; rewrite length_map, length_seq; lia|].
  intros k Hk. exists (due_from 0 os k). split; [|split; [apply due_from_nodup|]].
  - unfold rounds. rewrite list_lookup_fmap, lookup_seq_lt by lia. cbn.
    by replace (a + Z.of_nat (Z.to_nat (k - a))) with k by lia.
  - intros i. rewrite elem_of_due_from, Nat.sub_0_r. split; [by intros [_ Hx]|].
    intros Hx. split; [lia|done].
Qed.

End Range.

(** ** The threads of a day *)

Section Threads.

(** The work of rounds: a thread for each server of each day. *)
Definition jobs (ds : list (list byte * list nat)) : list (nat * list byte) :=
  concat (map (fun '(day, started) => map (fun i => (i, day)) started) ds).
Definition rest_of (p : phase) : list nat :=
  match p with Spawn r | Count r => r | _ => [] end.
(** A thread that was created, or tried, and is not counted yet. *)
Definition uncounted (p : phase) : Z := match p with Count _ => 1 | _ => 0 end.
Definition at_rest (p : phase) : Prop := p = Next \/ p = Finished.

Record barrier (ds : list (list byte * list nat)) (s : mstate) : Prop := {
  ba_count : lcs_count_thread s + uncounted (m_phase s) = zlen (m_running s) + zlen (m_failed s);
  ba_day : Forall (fun t => t.2 = m_day s) (m_running s);
  ba_rest : at_rest (m_phase s) -> m_running s = [] /\ m_failed s = [];
  ba_jobs : jobs ds ≡ₚ m_done s ++ m_running s ++ m_failed s ++
                      map (fun i => (i, m_day s)) (rest_of (m_phase s)) ++ jobs (m_days s);
  ba_end : m_phase s = Finished -> m_days s = []
}.

Lemma zlen_nil_iff {A} (l : list A) : zlen l = 0 <-> l = [].
Proof. unfold zlen. split; [destruct l; [done|cbn; lia]|by intros ->]. Qed.

Lemma barrier_init ds : barrier ds (m_init ds).
Proof. by split. Qed.

Ltac not_rest := intros [?|?]; discriminate.

Lemma barrier_step ds s s' : barrier ds s -> mstep s s' -> barrier ds s'.
Proof.
  intros Hb Hs. destruct Hs; destruct Hb as [Hc Hd Hr Hj He]; try rewrite H in *;
    cbn [uncounted rest_of map app] in *; split;
    cbn [m_phase m_days m_day m_running m_done m_failed lcs_count_thread uncounted rest_of map app];
    rewrite ?H; cbn [uncounted rest_of map app]; try solve [done | lia | not_rest].
  - destruct Hr as [Hr _]; [by left|]. by rewrite Hr.
  - rewrite Hj, H0. done.
  - intros _. apply Hr. by left.
  - by rewrite Hj, H0.
  - rewrite zlen_cons. lia.
  - by constructor.
  - rewrite Hj. solve_Permutation.
  - rewrite zlen_cons. lia.
  - rewrite Hj. solve_Permutation.
  - intros _. pose proof (zlen_nonneg (m_running s)). pose proof (zlen_nonneg (m_failed s)).
    rewrite <- !zlen_nil_iff. lia.
  - rewrite zlen_app, zlen_cons in Hc. rewrite zlen_app. lia.
  - apply Forall_app in Hd as [H1 H2]. apply Forall_cons in H2 as [_ H2]. by apply Forall_app.
  - intros Hp. destruct (Hr Hp) as [Hx _]. by destruct r1.
  - rewrite Hj. solve_Permutation.
Qed.

Lemma barrier_reachable ds s : reachable ds s -> barrier ds s.
Proof.
  unfold reachable. intros Hr. pose proof (barrier_init ds) as Hi. revert Hi Hr.
  generalize (m_init ds). intros s0 Hi Hr. induction Hr as [|s0 s1 s2 H1 _ IH]; [done|].
  apply IH. by eapply barrier_step.
Qed.

Lemma failed_grows s s' : rtc mstep s s' -> m_failed s <> [] -> m_failed s' <> [].
Proof.
  induction 1 as [|s1 s2 s3 H1 _ IH]; [done|]. intros Hf. apply IH. by destruct H1.
Qed.

(** C10: The counter keeps the days apart: in every reachable state all threads that run work on
    the day the main loop is at; when the main loop turns to the next day, and when it has
    ended, no thread runs, and at the end every server and day of every round has been
    worked on exactly once.  A thread that [pthread_create] could not create is counted all
    the same: from then on the main loop never gets to another day. *)
Theorem manager_barrier ds s :
  reachable ds s ->
  Forall (fun t => t.2 = m_day s) (m_running s) /\
  (at_rest (m_phase s) -> m_running s = [] /\ lcs_count_thread s = 0) /\
  (m_phase s = Finished -> m_done s ≡ₚ jobs ds) /\
  (m_failed s <> [] -> forall s', rtc mstep s s' -> ~ at_rest (m_phase s')).
Proof.
  intros Hr. destruct (barrier_reachable ds s Hr) as [Hc Hd Hre Hj He].
  split; [done|]. split; [|split].
  - intros Hp. destruct (Hre Hp) as [Hx Hf]. rewrite Hx, Hf in Hc. split; [done|].
    destruct Hp as [Hp|Hp]; rewrite Hp in Hc; cbn in Hc; change (zlen []) with 0 in Hc; lia.
  - intros Hp. destruct (Hre (or_intror Hp)) as [Hx Hf]. rewrite Hx, Hf, Hp, (He Hp) in Hj.
    cbn in Hj. by rewrite Hj, app_nil_r.
  - intros Hf s' Hs' Hp. apply (failed_grows _ _ Hs') in Hf. apply Hf.
    apply (ba_rest ds s'); [|done]. apply barrier_reachable. unfold reachable in *. by etrans.
Qed.

(** ** The end of the work *)

Definition phase_weight (p : phase) : nat :=
  match p with
  | Finished => 0 | Next => 1 | Wait => 2 | Spawn r => 3 + 3 * length r
  | Count r => 4 + 3 * length r
  end.
Definition rounds_weight (ds : list (list byte * list nat)) : nat :=
  sum_list_with (fun '(_, started) => 3 + 3 * length started)%nat ds.
Definition measure (s : mstate) : nat :=
  phase_weight (m_phase s) + rounds_weight (m_days s) + length (m_running s).

Lemma mstep_measure s s' :
  mstep s s' -> (measure s' < measure s)%nat \/ (s' = s /\ m_phase s = Wait /\ lcs_count_thread s <> 0).
Proof.
  unfold measure. intros Hs. destruct Hs; cbn [m_phase m_days m_running]; try rewrite H;
    [left..|right; done|left|left];
    try rewrite H0; unfold rounds_weight; cbn [sum_list_with phase_weight length]; try lia.
  rewrite !length_app. cbn [length]. lia.
Qed.

Lemma mstep_enabled ds s :
  barrier ds s -> m_failed s = [] -> m_phase s <> Finished ->
  exists s', mstep s s' /\ (measure s' < measure s)%nat /\ m_failed s' = [].
Proof.
  intros Hb Hf Hp.
  enough (He : exists s', mstep s s' /\ m_failed s' = [] /\ (m_phase s = Wait -> s' <> s)).
  { destruct He as (s' & Hs & Hf' & Hw). exists s'. split; [done|]. split; [|done].
    destruct (mstep_measure s s' Hs) as [?|(-> & Hx & _)]; [done|]. by destruct (Hw Hx). }
  destruct (m_phase s) as [|r|r| |] eqn:E; [| | | |done].
  - destruct (m_days s) as [|[day started] rest] eqn:Ed; (eexists; split; [|split; [|done]]).
    + by apply step_complete.
    + done.
    + by eapply step_day.
    + done.
  - destruct r as [|i r]; (eexists; split; [|split; [|done]]).
    + by apply step_spawned.
    + done.
    + by eapply step_create.
    + done.
  - eexists. split; [|split; [|done]]; [by eapply step_increase|done].
  - destruct (m_running s) as [|t r] eqn:Er.
    + eexists. split; [|split]; [apply step_through; [done|]|done|].
      * pose proof (ba_count ds s Hb) as Hc. rewrite Er, Hf, E in Hc. cbn in Hc.
        change (zlen []) with 0 in Hc. lia.
      * intros _ Hx. apply (f_equal m_phase) in Hx. cbn in Hx. congruence.
    + eexists. split; [|split]; [eapply (step_decrease s []); exact Er|done|].
      intros _ Hx. apply (f_equal (fun x => length (m_running x))) in Hx. cbn in Hx.
      rewrite Er in Hx. cbn in Hx. lia.
Qed.

(** C28: The work ends: every step but another round of sleep lowers a measure, and as long as
    every thread could be created such a step exists until the main loop has finished; so
    from every reachable state without failures it can finish, after every thread has
    worked. *)
Theorem manager_finishes ds s :
  reachable ds s -> m_failed s = [] ->
  (forall s', mstep s s' -> (measure s' < measure s)%nat \/ s' = s) /\
  exists s', rtc mstep s s' /\ m_phase s' = Finished /\ m_done s' ≡ₚ jobs ds.
Proof.
  intros Hr Hf. split; [intros s' Hs; destruct (mstep_measure s s' Hs); tauto|].
  apply barrier_reachable in Hr. remember (measure s) as n eqn:En. revert s Hr Hf En.
  induction n as [n IH] using lt_wf_ind. intros s Hb Hf ->.
  destruct (decide (m_phase s = Finished)) as [Hp|Hp].
  - exists s. split; [done|]. split; [done|]. destruct Hb as [_ _ Hre Hj He].
    destruct (Hre (or_intror Hp)) as [Hx Hf']. rewrite Hx, Hf', Hp, (He Hp) in Hj.
    cbn in Hj. by rewrite Hj, app_nil_r.
  - destruct (mstep_enabled ds s Hb Hf Hp) as (s1 & Hs & Hm & Hf1).
    destruct (IH (measure s1) Hm s1) as (s' & Hrs & Hx); [by eapply barrier_step|done|done|].
    exists s'. split; [by eapply rtc_l|done].
Qed.

End Threads.

(** ** A concrete server *)

Module Sample.
#[local] Existing Instance indochina.
#[local] Instance world : World :=
  toy_world [] (Some [[Some (str "2017-10-29"); Some (str "2017-10-31")]]) None None.

Definition dates : list (string * Z) :=
  [("server", 1); ("user", 1); ("password", 1); ("db", 1); ("startdate", 11); ("currentdate", 32);
   ("lastdate", 11)]%string.
Definition servers : list cfg := [cleared dates].
(** 2017-10-29 and 2017-10-31 in days since 1970. *)
Definition calls : list (option (Z * Z)) := [Some (17468, 17470)].

Lemma manager_days_witness :
  exists p tr' a b p' rs,
    lcs_init_server_info (list_cleared servers) 0 [] = Ok ((p, 0), tr') /\
    days (Z.to_nat (b - a) + 2) p = Ok (p', rs) /\ iscomplete p' = true /\ zlen rs = b - a + 1.
Proof.
  destruct (lcs_init_server_info (list_cleared servers) 0 []) as [[[p err] tr']|f] eqn:E;
    [|vm_compute in E; discriminate].
  assert (err = 0) as -> by (vm_compute in E; congruence).
  destruct (manager_days servers [] p tr' calls) as (a & b & p' & rs & H1 & H2 & _ & _ & _ & H3 & _).
  - exact E.
  - vm_compute in E. injection E as <- _. unfold has_days. cbn [listinfo].
    repeat constructor; vm_compute; done.
  - exists (17468, 17470). left.
  - intros f l Hin. apply list_elem_of_singleton in Hin. injection Hin as -> ->. lia.
  - exists p, tr', a, b, p', rs. split; [reflexivity|]. split; [exact H1|]. split; [exact H2|exact H3].
Defined.

(** The days of two servers. *)
Definition two_days : list (list byte * list nat) := [(day_text 17468, [0; 1]%nat)].

Definition running_state : mstate :=
  {| m_days := []; m_day := day_text 17468; m_phase := Count [1%nat];
     m_running := [(0%nat, day_text 17468)]; m_done := []; m_failed := []; lcs_count_thread := 0 |}.
Lemma reach_running : reachable two_days running_state.
Proof.
  eapply rtc_l; [by eapply step_day|]. eapply rtc_l; [by eapply step_create|]. apply rtc_refl.
Qed.

Lemma manager_barrier_witness :
  Forall (fun t => t.2 = day_text 17468) (m_running running_state) /\
  (at_rest (m_phase running_state) -> m_running running_state = [] /\ lcs_count_thread running_state = 0).
Proof.
  destruct (manager_barrier two_days running_state reach_running) as (H1 & H2 & _).
  split; [exact H1|exact H2].
Defined.

Lemma manager_finishes_witness :
  exists s', rtc mstep running_state s' /\ m_phase s' = Finished /\ m_done s' ≡ₚ jobs two_days.
Proof.
  destruct (manager_finishes two_days running_state reach_running eq_refl) as [_ H]. exact H.
Defined.
End Sample.
