(* ===== verification/Cluster.v ===== *)
(** * The export of one day of calls

    Models src/cluster/cluster/main.c, which copies the rows of one day from a MySQL server
    into files of the warehouse, in circles of [step] seconds.  [LCS_MYSQL_INFO] is the
    configuration (Config.v) with the window [low], [hi] and the day's first and last times;
    a result set is a list of rows.  The four parameter blocks of [lcs_start_bdata] share the
    configuration; each has a pointer to the connection, which [lcs_init_param] takes from a
    local variable: [None] stands for the variable after its function has returned.

    The theorems: what a configuration file sets, the exported text of a result, the windows
    of the circles, which tile the day, and the end of the loop.  [main] and the signals are in
    Daemon.v. *)
From S2P Require Import Prelude CString OpenSSL GenList World.
From S2P Require Import ToyWorld Config Calendar.

(** ** Data *)

Record LCS_MYSQL_INFO := {
  i_cfg : cfg;
  low : option (list byte);
  hi : option (list byte);
  inittime : option (list byte);
  endtime : option (list byte)
}.

(** The members that are arrays of characters, with their sizes; [step] is an [int]. *)
Definition info_members : list (string * Z) :=
  [("server", 128); ("user", 64); ("password", 64); ("db", 64); ("path", 128); ("date", 64);
   ("date_01", 64); ("current_dir", 1024); ("insertprocess", 1024); ("step", 4)]%string.
Definition info_cleared : LCS_MYSQL_INFO :=
  {| i_cfg := cleared info_members; low := None; hi := None; inittime := None; endtime := None |}.

Definition with_cfg (i : LCS_MYSQL_INFO) (c : cfg) : LCS_MYSQL_INFO :=
  {| i_cfg := c; low := low i; hi := hi i; inittime := inittime i; endtime := endtime i |}.
Definition with_window (i : LCS_MYSQL_INFO) (l h : list byte) : LCS_MYSQL_INFO :=
  {| i_cfg := i_cfg i; low := Some l; hi := Some h; inittime := inittime i;
     endtime := endtime i |}.

(** [info->step]. *)
Definition step (c : cfg) : Z := as_int (le_val (member c "step")).

Record LCS_DATE_DIR := { year : Z; month : Z; day : Z; dhour : Z; min : Z }.

(** [con] is what the pointer to the connection leads to: a connection, null, or a variable
    that is gone. *)
Record LCS_GET_TABLE_INFO := {
  table : list byte;
  out_file : list byte;
  total : Z;
  con : option bool
}.

(** A pointer that must not be null. *)
Definition nonnull (p : option (list byte)) : res (list byte) :=
  match p with Some m => Ok m | None => Fault NullDeref end.

Section Cluster.
Context `{World} `{TimeZone}.

(** ** The configuration *)

(** [sscanf(item, "step:%d", &info->step)]: the key has to be at the start. *)
Definition scan_step (info : cfg) (item : list byte) : io cfg :=
  match (if prefixb (str "step:") item then scan_d (drop 5 item) else None) with
  | Some v => lift (set_member info "step" 0 (le_bytes 4 v))
  | None => mret info
  end.

(** The loop that turns every ['-'] of [date_01] into ['_']. *)
Fixpoint dashes (fuel : nat) (m : list byte) : res (list byte) :=
  match fuel with
  | O => Fault NoFuel
  | S fuel =>
    s ← cstr m;
    match strstr s (str "-") with
    | None => Ok m
    | Some k => m ← wr m k (str "_"); dashes fuel m
    end
  end.
Definition copy_date (info : cfg) (item : list byte) : io cfg :=
  info ← lift (set_member info "date" 0 (drop 10 item));
  info ← lift (set_member info "date_01" 0 (drop 10 item));
  m ← lift (dashes (S (length (member info "date_01"))) (member info "date_01"));
  mret (<["date_01"%string := m]> info).

Definition lcs_cfg_table : list entry :=
  [copy_to "server" "server:"; copy_to "user" "user:"; copy_to "password" "password:";
   copy_to "db" "db:"; copy_to "path" "path:"; ("step:"%string, scan_step);
   copy_to "insertprocess" "insertprocess_0009:"; ("date_0011:"%string, copy_date)].
Definition lcs_cfg_item : cfg -> list byte -> io cfg := cfg_item lcs_cfg_table.
Definition lcs_cfg_load (path : list byte) (info : cfg) (err : Z) : io (cfg * Z) :=
  cfg_load lcs_cfg_table path info err.

(** ** The connection *)

(** The new value of [*con]. *)
Definition lcs_try_close (con : bool) : io bool :=
  if con then _ ← emit EvClose; mret false else mret false.

Definition lcs_try_connect (info : cfg) (err : Z) : io (bool * Z) :=
  ok ← ask mysql_init;
  if negb ok then mret (false, 1)
  else
    server ← lift (text_of info "server");
    user ← lift (text_of info "user");
    password ← lift (text_of info "password");
    db ← lift (text_of info "db");
    ok ← ask mysql_real_connect;
    if negb ok then con ← lcs_try_close true; mret (con, err)
    else
      _ ← emit (EvConnect server user password db);
      _ ← query true (str "SET NAMES 'utf8';");
      mret (true, err).

(** The loops over a list of formats: [size] is the buffer, [line] the error code. *)
Fixpoint exec_all (con : bool) (size line : Z) (qs : list (list byte)) (err : Z) : io Z :=
  match qs with
  | [] => mret err
  | q :: qs =>
    q ← lift (fits size q);
    err ← query con q;
    if negb (err =? 0) then mret line else exec_all con size line qs err
  end.

(** A connection of its own for a list of queries. *)
Definition exec_connected (info : cfg) (size line0 line : Z) (qs : list (list byte)) (err : Z)
    : io Z :=
  '(con, err) ← lcs_try_connect info err;
  err ← (if negb (err =? 0) then mret line0 else exec_all con size line qs err);
  _ ← lcs_try_close con;
  mret err.

Definition clear_tmp_queries (date : list byte) : list (list byte) :=
  map (fun t => str "drop table if exists " ++ str t ++ date ++ str ";")
    ["cdr_tmp_"; "queue_tmp_"; "monitor_tmp_"; "linkedid_tmp_"; "cdr_"; "queue_log_";
     "monitor_recording_"; "auto_dial_wrapup_history_"]%string.
Definition lcs_clear_tmp (info : cfg) (date : list byte) (err : Z) : io Z :=
  exec_connected info 521 1371 1383 (clear_tmp_queries date) err.

Definition init_tmp_queries (date : list byte) : list (list byte) :=
  [str "drop table if exists linkedid_tmp_" ++ date ++ str ";";
   str "create table linkedid_tmp_" ++ date ++
     str "(linkedid varchar(255), PRIMARY KEY(linkedid));";
   str "drop table if exists cdr_tmp_" ++ date ++ str ";";
   str "create table cdr_tmp_" ++ date ++ str "(recid bigint(20), PRIMARY KEY(recid));";
   str "drop table if exists queue_tmp_" ++ date ++ str ";";
   str "create table queue_tmp_" ++ date ++ str "(id bigint(20),PRIMARY KEY(id));";
   str "drop table if exists monitor_tmp_" ++ date ++ str ";";
   str " create table monitor_tmp_" ++ date ++ str "(id bigint(20), PRIMARY KEY(id));"].
Definition lcs_init_tmp (info : cfg) (date : list byte) (err : Z) : io Z :=
  exec_connected info 1024 1429 1441 (init_tmp_queries date) err.

(** No buffer: the texts are literals. *)
Definition gen_structure_queries : list (list byte) :=
  map str ["CREATE TABLE if not exists cdr_structure LIKE cdr;";
           "CREATE TABLE if not exists queue_log_structure LIKE queue_log;";
           "CREATE TABLE if not exists monitor_recording_structure LIKE monitor_recording;"]%string.
Definition lcs_gen_structure (info : cfg) (err : Z) : io Z :=
  exec_connected info 1024 1480 1489 gen_structure_queries err.

(** Three queries per table: drop, create, and fill with the rows of the day. *)
Definition data_table_queries (date date01 : list byte) (t : string * string * string * string)
    : list (list byte) :=
  let '(name, blank, column, stop) := t in
  [str "drop table if exists " ++ str name ++ str "_" ++ date01 ++ str ";";
   str "CREATE TABLE " ++ str name ++ str "_" ++ date01 ++ str " LIKE " ++ str name ++ str ";";
   str "INSERT " ++ str name ++ str "_" ++ date01 ++ str " SELECT * FROM" ++ str blank ++
     str name ++ str " where " ++ str column ++ str " >='" ++ date ++ str " 00:00:00' and " ++
     str column ++ str " <= '" ++ date ++ str " 23:59:59'" ++ str stop].
Definition gen_data_queries (date date01 : list byte) : list (list byte) :=
  concat (map (data_table_queries date date01)
    [("cdr", " ", "calldate", ";"); ("queue_log", " ", "time", ";");
     ("monitor_recording", " ", "created_time", ";");
     ("auto_dial_wrapup_history", "  ", "start_time", "")]%string).
Definition lcs_gen_data_tables (info : cfg) (date date01 : list byte) (err : Z) : io Z :=
  exec_connected info 1024 1546 1565 (gen_data_queries date date01) err.

(** Seven queries of [date]; the last three formats lack the semicolon. *)
Definition clear_table_queries (date : list byte) : list (list byte) :=
  [str "delete from cdr_" ++ date ++ str " where recid in (select recid from cdr_tmp_" ++ date ++
     str ");";
   str "delete from queue_log_" ++ date ++ str " where id in (select id from queue_tmp_" ++ date ++
     str ");";
   str "delete from monitor_recording_" ++ date ++
     str " where id in (select id from monitor_tmp_" ++ date ++ str ");";
   str "delete from linkedid_tmp_" ++ date ++ str ";";
   str "delete from cdr_tmp_" ++ date;
   str "delete from queue_tmp_" ++ date;
   str "delete from monitor_tmp_" ++ date].
Definition lcs_clear_tmp_table (con : bool) (date : list byte) (err : Z) : io Z :=
  exec_all con 1024 1152 (clear_table_queries date) err.

(** [LCS_INSERT_LINKEDID_TMP]; the buffer has 128 bytes more than the format, whose four
    ["%s"] take eight. *)
Definition linkedid_query (date low hi : list byte) : list byte :=
  str "insert into linkedid_tmp_" ++ date ++
  str " (linkedid) (select distinct linkedid from cdr_" ++ date ++
  str " where  (calldate >= '" ++ low ++ str "' AND calldate < '" ++ hi ++ str "' ));".
Definition linkedid_size : Z := zlen (linkedid_query [] [] []) + 8 + 128.
(** The error code of the caller is overwritten. *)
Definition lcs_gen_linkedid (info : LCS_MYSQL_INFO) (con : bool) : io Z :=
  date ← lift (text_of (i_cfg info) "date_01");
  l ← lift (nonnull (low info) ≫= cstr);
  h ← lift (nonnull (hi info) ≫= cstr);
  sql ← lift (fits linkedid_size (linkedid_query date l h));
  if negb con then mret 1076
  else
    error ← lcs_clear_tmp_table con date 0;
    if negb (error =? 0) then mret 1082
    else
      r ← query con sql;
      if negb (r =? 0) then mret 1088 else mret error.

(** ** The directory of a window *)

(** ["%d"] of [sscanf] in front of other conversions: the number and what follows it. *)
Definition scan_int (s : list byte) : option (Z * list byte) :=
  let s := drop_while is_space s in
  match scan_d s with
  | Some v =>
    let s := match s with b :: s' => if is_digit b then s else s' | [] => [] end in
    Some (v, drop_while is_digit s)
  | None => None
  end.
Definition scan_lit (c : byte) (s : list byte) : option (list byte) := strp_char c s.

(** [sscanf(starttime, "%d-%d-%d %d:%d:00", ...)]: what is not converted stays 0. *)
Definition scan_date (s : list byte) : Z * Z * Z * Z * Z :=
  match scan_int s with
  | None => (0, 0, 0, 0, 0)
  | Some (y, s) =>
    match scan_lit x2d s ≫= scan_int with
    | None => (y, 0, 0, 0, 0)
    | Some (m, s) =>
      match scan_lit x2d s ≫= scan_int with
      | None => (y, m, 0, 0, 0)
      | Some (d, s) =>
        match scan_int s with
        | None => (y, m, d, 0, 0)
        | Some (h, s) =>
          match scan_lit x3a s ≫= scan_int with
          | None => (y, m, d, h, 0)
          | Some (mi, _) => (y, m, d, h, mi)
          end
        end
      end
    end
  end.
(** The members are an [unsigned short] and four [unsigned char]. *)
Definition lcs_get_date (starttime : list byte) : LCS_DATE_DIR :=
  let '(y, m, d, h, mi) := scan_date starttime in
  {| year := wrap 16 y; month := wrap 8 m; day := wrap 8 d; dhour := wrap 8 h; min := wrap 8 mi |}.

(** ["%02d"] and ["%4d"] of numbers that are not negative. *)
Definition d02 (n : Z) : list byte :=
  let s := itoa n in replicate (2 - length s) x30 ++ s.
Definition d4 (n : Z) : list byte :=
  let s := itoa n in replicate (4 - length s) x20 ++ s.

Definition dir_text (path server db : list byte) (d : LCS_DATE_DIR) : list byte :=
  path ++ str "/" ++ server ++ str "/" ++ db ++ str "/" ++ d4 (year d) ++ str "/" ++
  d02 (month d) ++ str "/" ++ d02 (day d) ++ str "/" ++ d02 (dhour d) ++ str "/" ++
  d02 (min d) ++ str "/".
Definition lcs_mk_dir (info : LCS_MYSQL_INFO) (d : LCS_DATE_DIR) : io LCS_MYSQL_INFO :=
  path ← lift (text_of (i_cfg info) "path");
  server ← lift (text_of (i_cfg info) "server");
  db ← lift (text_of (i_cfg info) "db");
  tmp ← lift (fits 1024 (dir_text path server db d));
  c ← lift (set_member (i_cfg info) "current_dir" 0 tmp);
  c ← lift (set_member c "current_dir" (zlen tmp) [x00]);
  _ ← lcs_create_dir tmp;
  mret (with_cfg info c).

(** [tmp] has 64 bytes; the error code is set to 0. *)
Definition lcs_create_subdir (info : LCS_MYSQL_INFO) : io (LCS_MYSQL_INFO * Z) :=
  l ← lift (nonnull (low info) ≫= cstr);
  tmp ← lift (wr (zeros 64) 0 l);
  s ← lift (cstr tmp);
  info ← lcs_mk_dir info (lcs_get_date s);
  mret (info, 0).

Definition lcs_init_circle (info : LCS_MYSQL_INFO) (con : bool) : io (LCS_MYSQL_INFO * Z) :=
  _ ← lcs_gen_linkedid info con;
  lcs_create_subdir info.

(** ** The times *)

(** [LCS_MIN_MAX_DATE_FORMAT] *)
Definition min_max_query (date : list byte) : list byte :=
  str "select MIN(calldate), MAX(calldate) from cdr where calldate >='" ++ date ++
  str " 00:00:00' and calldate <= '" ++ date ++ str " 23:59:59';".

(** The first row of the result; a null second column is printed with ["%s"]. *)
Definition first_times (rows : list row) (err : Z)
    : res (option (list byte * list byte) * Z) :=
  match rows with
  | [] => Ok (None, err)
  | r :: _ =>
    match r with
    | None :: _ => Ok (None, 1000)
    | Some a :: Some b :: _ => a ← fits 60 a; b ← fits 60 b; Ok (Some (a, b), err)
    | Some _ :: None :: _ => Fault NullDeref
    | _ => Fault OobRead
    end
  end.
(** [*res] and [*res1] have 60 bytes. *)
Definition lcs_get_inittime (info : LCS_MYSQL_INFO) : io (LCS_MYSQL_INFO * Z) :=
  date ← lift (text_of (i_cfg info) "date");
  q ← lift (fits 256 (min_max_query date));
  '(con, err) ← lcs_try_connect (i_cfg info) 0;
  if negb con then mret (info, 982)
  else
    r ← query con q;
    '(times, err) ←
      (if negb (r =? 0) then mret (None, 987)
       else
         result ← ask mysql_store_result;
         match result with
         | None => mret (None, err)
         | Some rows => lift (first_times rows err)
         end);
    _ ← emit EvClose;
    mret (match times with
          | Some (a, b) =>
            {| i_cfg := i_cfg info; low := low info; hi := hi info;
               inittime := Some (a ++ zeros (60 - zlen a));
               endtime := Some (b ++ zeros (60 - zlen b)) |}
          | None => info
          end, err).

(** [t % step] of C. *)
Definition c_rem (a b : Z) : res Z := if b =? 0 then Fault DivByZero else Ok (Z.rem a b).

(** The window of [step] seconds, on the grid of [step], that holds [mile]. *)
Definition lcs_get_range (info : LCS_MYSQL_INFO) (mile : list byte) : res LCS_MYSQL_INFO :=
  t ← lcs_str2_time mile;
  mode ← c_rem t (step (i_cfg info));
  l ← lcs_time2_str (t - mode);
  h ← lcs_time2_str (t + step (i_cfg info) - mode);
  Ok (with_window info l h).

(** The next window; the texts are copied without their zeros. *)
Definition lcs_update_time (info : LCS_MYSQL_INFO) : res LCS_MYSQL_INFO :=
  hb ← nonnull (hi info);
  lb ← nonnull (low info);
  h ← cstr hb;
  tmp_low ← wr (zeros 64) 0 h;
  t0 ← lcs_str2_time tmp_low;
  tmp_hi ← lcs_time2_str (t0 + step (i_cfg info));
  tl ← cstr tmp_low;
  th ← cstr tmp_hi;
  lb ← wr lb 0 tl;
  hb ← wr hb 0 th;
  Ok (with_window info lb hb).
Definition lcs_end_circle (info : LCS_MYSQL_INFO) : res LCS_MYSQL_INFO := lcs_update_time info.

(** [*res] is 1 when the window starts behind the last call. *)
Definition lcs_get_outtime (info : LCS_MYSQL_INFO) : res Z :=
  l ← nonnull (low info);
  e ← nonnull (endtime info);
  Ok (if 0 <? strcmp l e then 1 else 0).

(** ** Exporting rows *)

Definition row_delims : list byte := [x09; x0d; x0a].

(** One column: the words of a text, every word but the first followed by a blank; [buf] has
    4097 bytes. *)
Definition column_words (s : list byte) : list byte :=
  match map snd (strtok row_delims s) with
  | [] => []
  | w :: ws => w ++ concat (map (fun w => w ++ str " ") ws)
  end.
Definition export_column (c : option (list byte)) : res (list byte) :=
  match c with
  | None => Ok (str "NULL")
  | Some [] => Ok (str "NULL")
  | Some (b :: s) => if b2z b =? 1 then Ok (str "true") else fits 4097 (column_words (b :: s))
  end.

Fixpoint export_columns (r : row) : res (list byte) :=
  match r with
  | [] => Ok []
  | c :: r => s ← export_column c; l ← export_columns r; Ok (s ++ [x09] ++ l)
  end.
Fixpoint export_rows (rows : list row) : res (list byte) :=
  match rows with
  | [] => Ok []
  | r :: rows => l ← export_columns r; f ← export_rows rows; Ok (l ++ [x0a] ++ f)
  end.

(** The new value of [p->total], and the error. *)
Definition lcs_try_fetch (info : LCS_MYSQL_INFO) (p : LCS_GET_TABLE_INFO) (rows : list row)
    (err : Z) : io (LCS_GET_TABLE_INFO * Z) :=
  dir ← lift (text_of (i_cfg info) "current_dir");
  path ← lift (fits 1024 (dir ++ out_file p));
  ok ← ask (fun tr => fopen_w tr path);
  if negb ok then mret (p, 1)
  else
    text ← lift (export_rows rows);
    _ ← emit (EvWrite path text);
    mret ({| table := table p; out_file := out_file p;
             total := total p + zlen rows; con := con p |}, err).

(** The texts [lcs_try_query] builds: for a table of calls what is inserted into the table
    of rows to delete, [LCS_INSERT_CDR_TMP_FORMAT] and its like, and what is selected. *)
Definition cdr_insert (date supc : list byte) : list byte :=
  str "insert into cdr_tmp_" ++ date ++
  str " (recid) (select recid from (select recid, linkedid from cdr_" ++ date ++
  str " where calldate < '" ++ supc ++
  str "'  ) as tmp_ntthuan where tmp_ntthuan.linkedid in (select linkedid from linkedid_tmp_" ++
  date ++ str "));".
Definition queue_insert (date supc : list byte) : list byte :=
  str "insert into queue_tmp_" ++ date ++
  str " (id) (select id from (select id, callid from queue_log_" ++ date ++
  str "  where time < '" ++ supc ++
  str "'   ) as tmp_ntthuan where tmp_ntthuan.callid in (select linkedid as callid from linkedid_tmp_"
  ++ date ++ str "));".
Definition monitor_insert (date supc : list byte) : list byte :=
  str "insert into monitor_tmp_" ++ date ++
  str " (id) (select id from (select id, uniqueid from monitor_recording_" ++ date ++
  str " where created_time < '" ++ supc ++
  str "'  ) as tmp_ntthuan where tmp_ntthuan.uniqueid in (select linkedid from linkedid_tmp_" ++
  date ++ str "));".
Definition cdr_select (date : list byte) : list byte :=
  str "select * from cdr_" ++ date ++ str " where linkedid in (select linkedid from linkedid_tmp_" ++
  date ++ str ") order by calldate;".
Definition queue_select (date : list byte) : list byte :=
  str "select * from queue_log_" ++ date ++
  str " where callid in (select linkedid from linkedid_tmp_" ++ date ++ str ");".
Definition monitor_select (date : list byte) : list byte :=
  str "select * from monitor_recording_" ++ date ++
  str " where uniqueid in (select linkedid  from linkedid_tmp_" ++ date ++ str ");".
Definition wrapup_select (tab date low hi : list byte) : list byte :=
  str "select * from " ++ tab ++ str "_" ++ date ++ str " where start_time >= '" ++ low ++
  str "' AND start_time < '" ++ hi ++ str "';".

(** [tmp_insert] (empty when nothing is inserted) and [sql_select], with their bounds. *)
Definition is_table (tab : list byte) (s : string) : bool := strcmp tab (str s) =? 0.
Definition build_queries (tab date : list byte) (low : res (list byte)) (hi supc : list byte)
    : res (list byte * option (list byte)) :=
  if is_table tab "cdr" then
    i ← fits 2048 (cdr_insert date supc); q ← fits 1024 (cdr_select date); Ok (i, Some q)
  else if is_table tab "queue_log" then
    i ← fits 2048 (queue_insert date supc); q ← fits 1024 (queue_select date); Ok (i, Some q)
  else if is_table tab "monitor_recording" then
    i ← fits 2048 (monitor_insert date supc); q ← fits 1024 (monitor_select date); Ok (i, Some q)
  else if is_table tab "auto_dial_wrapup_history" then
    l ← low; q ← fits 1024 (wrapup_select tab date l hi); Ok ([], Some q)
  else Ok ([], None).

(** The [do] block: insert, select, fetch; the error is 1. *)
Definition run_queries (info : LCS_MYSQL_INFO) (p : LCS_GET_TABLE_INFO) (c : bool)
    (tmp_insert : list byte) (sql_select : option (list byte)) (err : Z)
    : io (LCS_GET_TABLE_INFO * Z) :=
  err ← (if zlen tmp_insert =? 0 then mret err else query c tmp_insert);
  if negb (err =? 0) then mret (p, 1)
  else
    err ← match sql_select with Some q => query c q | None => mret err end;
    if negb (err =? 0) then mret (p, 1)
    else
      result ← ask mysql_store_result;
      match result with
      | None => mret (p, err)
      | Some rows => lcs_try_fetch info p rows err
      end.

(** The texts of a window: its table is inserted up to 4800 seconds behind its end. *)
Definition window_queries (info : LCS_MYSQL_INFO) (tab date : list byte)
    : res (list byte * option (list byte)) :=
  hb ← nonnull (hi info);
  sup ← lcs_str2_time hb;
  supb ← lcs_time2_str (sup + 4800);
  supc ← cstr supb;
  h ← cstr hb;
  build_queries tab date (nonnull (low info) ≫= cstr) h supc.

(** [con] is [p->con] in every call; an error closes the connection. *)
Definition lcs_try_query (info : LCS_MYSQL_INFO) (p : LCS_GET_TABLE_INFO) (err : Z)
    : io (LCS_GET_TABLE_INFO * Z) :=
  date ← lift (text_of (i_cfg info) "date_01");
  c ← lift (deref (con p));
  if negb c then mret (p, 1)
  else
    '(tmp_insert, sql_select) ← lift (window_queries info (table p) date);
    '(p, err) ← run_queries info p c tmp_insert sql_select err;
    if negb (err =? 0) then
      c ← lcs_try_close c;
      mret ({| table := table p; out_file := out_file p; total := total p; con := Some c |}, err)
    else mret (p, err).

(** The four functions [lcs_backup_*] call this one; the error stays inside. *)
Definition lcs_get_tab_pthread (info : LCS_MYSQL_INFO) (p : LCS_GET_TABLE_INFO)
    : io LCS_GET_TABLE_INFO :=
  '(p, _) ← lcs_try_query info p 0;
  mret p.

(** The rows of earlier windows are deleted. *)
Definition clear_history_query (tab date low column : list byte) : list byte :=
  str "delete from " ++ tab ++ str "_" ++ date ++ str " where DATE('" ++ low ++ str "')=DATE(" ++
  column ++ str ") AND " ++ column ++ str " < '" ++ low ++ str "'".
Definition lcs_clear_history (info : LCS_MYSQL_INFO) (p : LCS_GET_TABLE_INFO) : io Z :=
  date ← lift (text_of (i_cfg info) "date_01");
  c ← lift (deref (con p));
  let column :=
    if is_table (table p) "auto_dial_wrapup_history" then Some (str "start_time")
    else if is_table (table p) "auto_dial_detail" then Some (str "created_time") else None in
  match column with
  | None => mret 1
  | Some column =>
    l ← lift (nonnull (low info) ≫= cstr);
    sql ← lift (fits 1024 (clear_history_query (table p) date l column));
    query c sql
  end.

(** ** Handing a directory on *)

Definition list_tables : list byte :=
  str "tables_0001:cdr,queue_log,monitor_recording,auto_dial_wrapup_history".
(** The path of the file that was written; [*output] has 32 bytes more than [path]. *)
Definition lcs_geninsert_cfg (info : LCS_MYSQL_INFO) (path : list byte)
    : io (option (list byte) * Z) :=
  targetdir ← lift (fits 1024 (str "targetdir_0002:" ++ path));
  root ← lift (text_of (i_cfg info) "path");
  server ← lift (text_of (i_cfg info) "server");
  db ← lift (text_of (i_cfg info) "db");
  templatedir ← lift (fits 1024 (str "templatedir_0003:" ++ root ++ str "/" ++ server ++ str "/" ++
                                 db ++ str "/template"));
  output ← lift (fits (zlen path + 32) (path ++ str "/insert.cfg"));
  ok ← ask (fun tr => fopen_w tr output);
  if negb ok then mret (None, 1)
  else
    data ← lift (fits 2048 (list_tables ++ [nl] ++ targetdir ++ [nl] ++ templatedir ++ [nl]));
    _ ← emit (EvWrite output data);
    mret (Some output, 0).

(** A null [output] is printed with ["%s"]. *)
Definition lcs_moving_param (info : LCS_MYSQL_INFO) (path : list byte) : io unit :=
  '(output, _) ← lcs_geninsert_cfg info path;
  process ← lift (text_of (i_cfg info) "insertprocess");
  out ← lift (nonnull output);
  cmd ← lift (fits 1024 (process ++ str " " ++ out));
  lcs_bash_cmd cmd.

(** ** The circles *)

(** The state of [lcs_start_bdata]: the configuration, the four blocks, [LCS_APP_EXITED] and
    [*err]. *)
Record bdata := {
  gbinfo : LCS_MYSQL_INFO;
  pc : LCS_GET_TABLE_INFO;
  pq : LCS_GET_TABLE_INFO;
  pm : LCS_GET_TABLE_INFO;
  pwrapup : LCS_GET_TABLE_INFO;
  LCS_APP_EXITED : Z;
  last_err : Z
}.

(** One round of the loop: [inr] when it goes on, [inl] when it is left. *)
Definition circle (b : bdata) : io (bdata + bdata) :=
  err ← lcs_clear_history (gbinfo b) (pwrapup b);
  outtime ← lift (lcs_get_outtime (gbinfo b));
  if negb (outtime =? 0) then
    mret (inl {| gbinfo := gbinfo b; pc := pc b; pq := pq b; pm := pm b; pwrapup := pwrapup b;
                 LCS_APP_EXITED := 1; last_err := err |})
  else
    c ← lcs_get_tab_pthread (gbinfo b) (pc b);
    q ← lcs_get_tab_pthread (gbinfo b) (pq b);
    m ← lcs_get_tab_pthread (gbinfo b) (pm b);
    w ← lcs_get_tab_pthread (gbinfo b) (pwrapup b);
    dir ← lift (text_of (i_cfg (gbinfo b)) "current_dir");
    _ ← lcs_moving_param (gbinfo b) dir;
    info ← lift (lcs_end_circle (gbinfo b));
    let b := {| gbinfo := info; pc := c; pq := q; pm := m; pwrapup := w;
                LCS_APP_EXITED := LCS_APP_EXITED b; last_err := err |} in
    if negb (LCS_APP_EXITED b =? 0) then mret (inl b) else mret (inr b).

Fixpoint circles (fuel : nat) (b : bdata) : io bdata :=
  match fuel with
  | O => lift (Fault NoFuel)
  | S fuel =>
    r ← circle b;
    match r with inl b => mret b | inr b => circles fuel b end
  end.

(** The block of a table; [p->con] is the address of a local variable of this function. *)
Definition lcs_init_param (info : LCS_MYSQL_INFO) (tab : string) : io LCS_GET_TABLE_INFO :=
  name ← lift (fits 64 (str tab));
  out ← lift (fits 64 (name ++ str ".data"));
  _ ← lcs_try_connect (i_cfg info) 0;
  mret {| table := name; out_file := out; total := 0; con := None |}.

(** [lcs_try_close(p->con, err)] *)
Definition close_block (p : LCS_GET_TABLE_INFO) : io LCS_GET_TABLE_INFO :=
  c ← lift (deref (con p));
  c ← lcs_try_close c;
  mret {| table := table p; out_file := out_file p; total := total p; con := Some c |}.

(** The part of [lcs_start_bdata] in front of the circles: directories, tables, and the four
    blocks. *)
Definition start_blocks (info : LCS_MYSQL_INFO) (err : Z)
    : io (LCS_GET_TABLE_INFO * LCS_GET_TABLE_INFO * LCS_GET_TABLE_INFO * LCS_GET_TABLE_INFO * Z) :=
  date01 ← lift (text_of (i_cfg info) "date_01");
  date ← lift (text_of (i_cfg info) "date");
  err ← lcs_gen_structure (i_cfg info) err;
  err ← lcs_init_tmp (i_cfg info) date01 err;
  err ← lcs_gen_data_tables (i_cfg info) date date01 err;
  c ← lcs_init_param info "cdr";
  q ← lcs_init_param info "queue_log";
  m ← lcs_init_param info "monitor_recording";
  w ← lcs_init_param info "auto_dial_wrapup_history";
  mret (c, q, m, w, err).

Definition lcs_start_bdata (fuel : nat) (info : LCS_MYSQL_INFO) (exited err : Z) : io bdata :=
  '(c, q, m, w, err) ← start_blocks info err;
  con_pc ← lift (deref (con c));
  '(info, err) ← lcs_init_circle info con_pc;
  b ← circles fuel {| gbinfo := info; pc := c; pq := q; pm := m; pwrapup := w;
                      LCS_APP_EXITED := exited; last_err := err |};
  c ← close_block (pc b);
  q ← close_block (pq b);
  m ← close_block (pm b);
  w ← close_block (pwrapup b);
  mret {| gbinfo := gbinfo b; pc := c; pq := q; pm := m; pwrapup := w;
          LCS_APP_EXITED := LCS_APP_EXITED b; last_err := last_err b |}.

(** ** Commands *)

(** What [lcs_hdl_cmd] leaves in [LCS_APP_EXITED]; the file is "get-mysql.cmd". *)
Definition lcs_hdl_cmd (status : Z) : io Z :=
  '(cmd, _) ← lcs_file_text (str "get-mysql.cmd") None 0;
  match cmd with
  | None => mret status
  | Some cmd =>
    s ← lift (cstr cmd);
    match strstr s (str "LCS_EXIT") with
    | Some _ => mret 1
    | None => mret status
    end
  end.

(** Start-up: the structure is cleared, loaded, and the first window is found. *)
Definition lcs_init_app (path : list byte) : io LCS_MYSQL_INFO :=
  '(c, err) ← lcs_cfg_load path (i_cfg info_cleared) 0;
  '(info, err) ← lcs_get_inittime (with_cfg info_cleared c);
  match inittime info with
  | Some mile => lift (lcs_get_range info mile)
  | None => mret info
  end.

End Cluster.

(** ** Windows *)

Section Windows.
Context `{World} `{TimeZone}.

Lemma nonnull_cstr m s : cstr m = Ok s -> (nonnull (Some m) ≫= cstr) = Ok s.
Proof. done. Qed.

(** [lcs_get_range] finds the window on the grid of [step] that holds the time. *)
Lemma lcs_get_range_ok info mile t :
  0 <= t -> printable_time t -> cstr mile = Ok (time_text (localtime t)) ->
  let s := step (i_cfg info) in
  let a := t - t mod s in
  0 < s -> printable_time a -> printable_time (a + s) ->
  lcs_get_range info mile = Ok (with_window info (time_buf a) (time_buf (a + s))).
Proof.
  cbv zeta. intros Ht Hp Hm Hs Ha Hb. unfold lcs_get_range.
  rewrite (lcs_str2_time_cstr _ t) by done. cbn [mbind res_bind]. unfold c_rem. decide_cmp.
  cbn [mbind res_bind]. rewrite Z.rem_mod_nonneg by lia.
  set (m := t mod step (i_cfg info)) in *. rewrite (lcs_time2_str_ok (t - m)) by done.
  cbn [mbind res_bind]. replace (t + step (i_cfg info) - m) with (t - m + step (i_cfg info)) by lia.
  by rewrite lcs_time2_str_ok.
Qed.

Lemma time_buf_over a b :
  printable_time a -> printable_time b ->
  wr (time_buf a) 0 (time_text (localtime b)) = Ok (time_buf b).
Proof.
  intros Ha Hb. unfold time_buf. pose proof (time_text_length _ Ha) as La.
  pose proof (time_text_length _ Hb) as Lb.
  rewrite wr_head by (rewrite zlen_app; pose proof (zlen_nonneg (zeros 13)); lia).
  f_equal. f_equal. apply drop_app_length'. unfold zlen in *. lia.
Qed.

(** [lcs_update_time] moves the window on by [step]. *)
Lemma lcs_update_time_ok info a b :
  low info = Some (time_buf a) -> hi info = Some (time_buf b) ->
  printable_time a -> printable_time b -> printable_time (b + step (i_cfg info)) ->
  lcs_update_time info
  = Ok (with_window info (time_buf b) (time_buf (b + step (i_cfg info)))).
Proof.
  intros Hl Hh Ha Hb Hn. unfold lcs_update_time. rewrite Hl, Hh. cbn [nonnull mbind res_bind].
  rewrite time_buf_cstr by done. cbn [mbind res_bind].
  assert (Hw : wr (zeros 64) 0 (time_text (localtime b)) = Ok (time_text (localtime b) ++ zeros 45)).
  { pose proof (time_text_length _ Hb) as Lb. rewrite wr_zeros by lia. by rewrite Lb. }
  assert (Hc : cstr (time_text (localtime b) ++ zeros 45) = Ok (time_text (localtime b))).
  { change (zeros 45) with (x00 :: zeros 44). apply cstr_terminated, time_text_no_nul; [|done].
    apply localtime_ok. }
  rewrite Hw. cbn [mbind res_bind]. rewrite (lcs_str2_time_cstr _ b) by done. cbn [mbind res_bind].
  rewrite lcs_time2_str_ok by done. cbn [mbind res_bind]. rewrite Hc, time_buf_cstr by done.
  cbn [mbind res_bind]. rewrite time_buf_over by done. cbn [mbind res_bind].
  by rewrite time_buf_over by done.
Qed.

(** What is behind the zero of a string does not count. *)
Lemma strcmp_tail s r r' b : strcmp (s ++ x00 :: r) b = strcmp (s ++ x00 :: r') b.
Proof.
  revert b. induction s as [|x s IH]; intros [|y b]; cbn [app strcmp]; try done.
  by rewrite IH.
Qed.

(** The day is over when the window starts behind the last call. *)
Lemma lcs_get_outtime_ok info a e r :
  low info = Some (time_buf a) -> endtime info = Some (time_text (localtime e) ++ x00 :: r) ->
  printable_time a -> printable_time e ->
  lcs_get_outtime info = Ok (if e <? a then 1 else 0).
Proof.
  intros Hl He Ha Hp. unfold lcs_get_outtime. rewrite Hl, He. cbn [nonnull mbind res_bind].
  rewrite strcmp_flip, (strcmp_tail _ r (zeros 12)).
  change (time_text (localtime e) ++ x00 :: zeros 12) with (time_buf e).
  pose proof (time_buf_order e a Hp Ha) as Ho.
  destruct (e <? a) eqn:E; b2p.
  - rewrite (Z.sgn_neg (e - a)) in Ho by lia. apply Z.sgn_neg_iff in Ho. by decide_cmp.
  - destruct (Z.eq_dec e a) as [->|Hne].
    + by rewrite strcmp_refl.
    + rewrite (Z.sgn_pos (e - a)) in Ho by lia. apply Z.sgn_pos_iff in Ho. by decide_cmp.
Qed.

(** [k] rounds of the loop, as far as the window is concerned. *)
Fixpoint windows (k : nat) (info : LCS_MYSQL_INFO) : res LCS_MYSQL_INFO :=
  match k with
  | O => Ok info
  | S k => info ← lcs_end_circle info; windows k info
  end.

Lemma windows_ok k info a :
  let s := step (i_cfg info) in
  0 < s -> low info = Some (time_buf a) -> hi info = Some (time_buf (a + s)) ->
  printable_time a -> printable_time (a + (Z.of_nat k + 1) * s) ->
  windows k info
  = Ok (with_window info (time_buf (a + Z.of_nat k * s)) (time_buf (a + (Z.of_nat k + 1) * s))).
Proof.
  cbv zeta. revert info a. induction k as [|k IH]; intros info a Hs Hl Hh Pa Pb.
  - cbn [windows Z.of_nat]. rewrite Z.mul_0_l, Z.add_0_r, Z.add_0_l, Z.mul_1_l. destruct info; cbn in *. by subst.
  - set (s := step (i_cfg info)) in *.
    assert (Pt : forall t, a <= t <= a + (Z.of_nat (S k) + 1) * s -> printable_time t)
      by (intros t Ht; apply (printable_between a (a + (Z.of_nat (S k) + 1) * s)); done).
    cbn [windows]. unfold lcs_end_circle. rewrite (lcs_update_time_ok info a (a + s)) by (try done; apply Pt; fold s; nia).
    cbn [mbind res_bind]. fold s. rewrite (IH _ (a + s)); cbn [with_window i_cfg low hi]; fold s; try done.
    + unfold with_window. cbn [i_cfg inittime endtime]. do 4 f_equal; lia.
    + apply Pt. nia.
    + apply Pt. nia.
Qed.

(** Every second from [t] to [e] is in one window of [s] seconds. *)
Lemma tiles t s e :
  let a := t - t mod s in
  0 < s -> t <= e ->
  forall x, t <= x <= e ->
    exists! k, 0 <= k < Z.of_nat (Z.to_nat ((e - a) / s + 1)) /\ a + k * s <= x < a + (k + 1) * s.
Proof.
  cbv zeta. intros Hs He x Hx. set (a := t - t mod s). pose proof (Z.mod_pos_bound t s Hs).
  assert (0 <= (e - a) / s) by (apply Z.div_pos; unfold a; lia).
  exists ((x - a) / s). pose proof (Z.mul_div_le (x - a) s Hs). pose proof (Z.mul_succ_div_gt (x - a) s Hs).
  assert (0 <= (x - a) / s) by (apply Z.div_pos; unfold a; lia).
  assert ((x - a) / s <= (e - a) / s) by (apply Z.div_le_mono; lia).
  split; [nia|]. intros k [Hk1 Hk2]. symmetry. apply Z.div_unique with (r := x - a - k * s); lia.
Qed.

End Windows.

(** ** One circle *)

(** What the loop needs of the configuration: its texts exist and the paths it builds fit. *)
Record exporting (c : cfg) (date01 dir : list byte) : Prop := {
  ex_date : text_of c "date_01" = Ok date01 /\ zlen date01 < 64;
  ex_dir : text_of c "current_dir" = Ok dir;
  ex_server : exists s, text_of c "server" = Ok s /\ zlen s < 128;
  ex_path : exists s, text_of c "path" = Ok s /\ zlen s < 128;
  ex_db : exists s, text_of c "db" = Ok s /\ zlen s < 64;
  ex_process : exists s, text_of c "insertprocess" = Ok s /\ zlen s + zlen dir < 980
}.

(** A block of a table with a live connection. *)
Definition block_of (name : string) (p : LCS_GET_TABLE_INFO) : Prop :=
  table p = str name /\ out_file p = str name ++ str ".data" /\ con p = Some true.

(** The selections from the table of agents' work among the events. *)
Definition wrapup_prefix : list byte := str "select * from auto_dial_wrapup_history_".
Definition sel_of (q : list byte) : list (list byte) :=
  if prefixb wrapup_prefix q then [q] else [].
Definition selects (tr : trace) : list (list byte) :=
  concat (map (fun e => match e with EvQuery q => sel_of q | _ => [] end) tr).

Lemma selects_app t u : selects (t ++ u) = selects t ++ selects u.
Proof. unfold selects. by rewrite map_app, concat_app. Qed.

(** A world in which queries succeed, files can be written and the columns of every result
    fit the export's buffer. *)
Record smooth `{World} : Prop := {
  sm_query : forall tr q, mysql_query tr q = 0;
  sm_write : forall tr p, fopen_w tr p = true;
  sm_rows : forall tr rows, mysql_store_result tr = Some rows ->
            exists text, export_rows rows = Ok text
}.

Section Circle.
Context `{World} `{TimeZone}.
Context (Hs : smooth).

Lemma query_ok q tr : query true q tr = Ok (0, tr ++ [EvQuery q]).
Proof. unfold query. io_run. by rewrite (sm_query Hs). Qed.

Lemma lcs_try_fetch_ok info p rows err tr name date01 dir :
  exporting (i_cfg info) date01 dir -> block_of name p -> zlen (str name) < 32 ->
  (exists text, export_rows rows = Ok text) ->
  exists p' path text, lcs_try_fetch info p rows err tr = Ok ((p', err), tr ++ [EvWrite path text]) /\
    block_of name p'.
Proof.
  intros Hx (Ht & Ho & Hc) Hn [text Htext]. destruct Hx as [_ Hd _ _ _ (pr & _ & Hp)].
  pose proof (zlen_nonneg pr).
  assert (Hf : fits 1024 (dir ++ out_file p) = Ok (dir ++ out_file p))
    by (apply fits_ok; rewrite Ho; text_len).
  unfold lcs_try_fetch. io_run. rewrite (sm_write Hs). cbn [negb]. io_run.
  eexists _, _, _. split; [reflexivity|]. done.
Qed.

Lemma run_queries_ok info p ins sel tr name date01 dir :
  exporting (i_cfg info) date01 dir -> block_of name p -> zlen (str name) < 32 ->
  exists p' evs, run_queries info p true ins (Some sel) 0 tr = Ok ((p', 0), tr ++ evs) /\
    block_of name p' /\ selects evs = sel_of ins ++ sel_of sel.
Proof.
  intros Hx Hb Hn.
  assert (Hi : exists e, (if zlen ins =? 0 then mret 0 else query true ins : io Z) tr = Ok (0, tr ++ e)
                         /\ selects e = sel_of ins).
  { destruct (zlen ins =? 0) eqn:E; b2p.
    - exists []. rewrite app_nil_r. destruct ins; [done|]. rewrite zlen_cons in E.
      pose proof (zlen_nonneg ins). lia.
    - exists [EvQuery ins]. rewrite query_ok. split; [done|]. unfold selects. cbn.
      by rewrite app_nil_r. }
  destruct Hi as (e & Hi & He). unfold run_queries. io_run. cbn [Z.eqb negb].
  rewrite (io_bind_ok _ _ _ _ _ (query_ok sel (tr ++ e))). cbn [Z.eqb negb]. io_run.
  assert (Hsel : selects [EvQuery sel] = sel_of sel) by (unfold selects; cbn; by rewrite app_nil_r).
  destruct (mysql_store_result _) as [rows|] eqn:Er.
  - apply (sm_rows Hs) in Er.
    destruct (lcs_try_fetch_ok info p rows 0 ((tr ++ e) ++ [EvQuery sel]) name date01 dir)
      as (p' & path & text & -> & Hb'); [done..|].
    exists p', (e ++ [EvQuery sel] ++ [EvWrite path text]). rewrite <- !app_assoc.
    split; [done|]. split; [done|]. rewrite !selects_app, He, Hsel. cbn. by rewrite app_nil_r.
  - exists p, (e ++ [EvQuery sel]). rewrite <- !app_assoc. split; [done|]. split; [done|].
    by rewrite selects_app, He, Hsel.
Qed.

(** A query of a block, once its texts are known. *)
Lemma window_queries_ok info tab date a b :
  low info = Some (time_buf a) -> hi info = Some (time_buf b) ->
  printable_time a -> printable_time b -> printable_time (b + 4800) ->
  window_queries info tab date
  = build_queries tab date (Ok (time_text (localtime a))) (time_text (localtime b))
      (time_text (localtime (b + 4800))).
Proof.
  intros Hl Hh Pa Pb Ps. unfold window_queries. rewrite Hl, Hh. cbn [nonnull mbind res_bind].
  rewrite lcs_str2_time_buf by done. cbn [mbind res_bind]. rewrite lcs_time2_str_ok by done.
  cbn [mbind res_bind]. by rewrite !time_buf_cstr by done.
Qed.

Lemma lcs_try_query_ok info p tr name date01 dir a b ins sel :
  exporting (i_cfg info) date01 dir -> block_of name p -> zlen (str name) < 32 ->
  low info = Some (time_buf a) -> hi info = Some (time_buf b) ->
  printable_time a -> printable_time b -> printable_time (b + 4800) ->
  build_queries (str name) date01 (Ok (time_text (localtime a))) (time_text (localtime b))
    (time_text (localtime (b + 4800))) = Ok (ins, Some sel) ->
  exists p' evs, lcs_get_tab_pthread info p tr = Ok (p', tr ++ evs) /\ block_of name p' /\
    selects evs = sel_of ins ++ sel_of sel.
Proof.
  intros Hx Hb Hn Hl Hh Pa Pb Ps Hq. pose proof Hb as (Ht & Ho & Hc).
  destruct (run_queries_ok info p ins sel tr name date01 dir) as (p' & evs & Hr & Hb' & He); [done..|].
  exists p', evs. split; [|done]. unfold lcs_get_tab_pthread, lcs_try_query. rewrite Hc, Ht.
  destruct (ex_date _ _ _ Hx) as [Hd _]. cbn [deref].
  rewrite io_bind_assoc. io_run.
  rewrite (io_bind_lift _ _ _ true) by done. cbn [negb].
  rewrite io_bind_assoc, (io_bind_lift _ _ _ (ins, Some sel)) by (by rewrite (window_queries_ok _ _ _ a b)).
  io_run. cbn [Z.eqb negb]. io_run. done.
Qed.

(** The texts of the four tables. *)
Lemma build_cdr date l h supc :
  zlen date < 64 -> zlen supc = 19 ->
  build_queries (str "cdr") date l h supc = Ok (cdr_insert date supc, Some (cdr_select date)).
Proof.
  intros Hd Hc. unfold build_queries. change (is_table _ "cdr") with true. cbn match.
  rewrite (fits_ok 2048) by (unfold cdr_insert; text_len). cbn [mbind res_bind].
  by rewrite fits_ok by (unfold cdr_select; text_len).
Qed.

Lemma build_queue date l h supc :
  zlen date < 64 -> zlen supc = 19 ->
  build_queries (str "queue_log") date l h supc = Ok (queue_insert date supc, Some (queue_select date)).
Proof.
  intros Hd Hc. unfold build_queries. change (is_table _ "cdr") with false.
  change (is_table _ "queue_log") with true. cbn match.
  rewrite (fits_ok 2048) by (unfold queue_insert; text_len). cbn [mbind res_bind].
  by rewrite fits_ok by (unfold queue_select; text_len).
Qed.

Lemma build_monitor date l h supc :
  zlen date < 64 -> zlen supc = 19 ->
  build_queries (str "monitor_recording") date l h supc
  = Ok (monitor_insert date supc, Some (monitor_select date)).
Proof.
  intros Hd Hc. unfold build_queries. change (is_table _ "cdr") with false.
  change (is_table _ "queue_log") with false. change (is_table _ "monitor_recording") with true.
  cbn match. rewrite (fits_ok 2048) by (unfold monitor_insert; text_len). cbn [mbind res_bind].
  by rewrite fits_ok by (unfold monitor_select; text_len).
Qed.

Definition wrapup : string := "auto_dial_wrapup_history".

Lemma build_wrapup date l h supc :
  zlen date < 64 -> zlen l = 19 -> zlen h = 19 ->
  build_queries (str wrapup) date (Ok l) h supc = Ok ([], Some (wrapup_select (str wrapup) date l h)).
Proof.
  intros Hd Hl Hh. unfold build_queries. change (is_table _ "cdr") with false.
  change (is_table _ "queue_log") with false. change (is_table _ "monitor_recording") with false.
  change (is_table _ "auto_dial_wrapup_history") with true. cbn [mbind res_bind]. unfold wrapup.
  by rewrite fits_ok by (unfold wrapup_select; text_len).
Qed.

Lemma lcs_clear_history_ok info p tr date01 dir a :
  exporting (i_cfg info) date01 dir -> block_of wrapup p ->
  low info = Some (time_buf a) -> printable_time a ->
  exists q, lcs_clear_history info p tr = Ok (0, tr ++ [EvQuery q]) /\ sel_of q = [].
Proof.
  intros Hx (Ht & Ho & Hc) Hl Pa. destruct (ex_date _ _ _ Hx) as [Hd Hdl].
  pose proof (time_text_length _ Pa) as La. unfold lcs_clear_history. io_run.
  rewrite Hc, Hl, Ht. rewrite (io_bind_lift _ _ _ true) by done.
  change (is_table _ "auto_dial_wrapup_history") with true. cbn match.
  rewrite (io_bind_lift _ _ _ _ (time_buf_cstr _ Pa)).
  io_fits ltac:(unfold clear_history_query, wrapup; text_len).
  rewrite query_ok. eexists. split; [reflexivity|]. reflexivity.
Qed.

Lemma lcs_moving_param_ok info tr date01 dir :
  exporting (i_cfg info) date01 dir ->
  exists evs, lcs_moving_param info dir tr = Ok (tt, tr ++ evs) /\ selects evs = [].
Proof.
  intros [_ _ (sv & Hsv & Lsv) (pa & Hpa & Lpa) (db & Hdb & Ldb) (pr & Hpr & Lpr)].
  pose proof (zlen_nonneg pr). unfold lcs_moving_param, lcs_geninsert_cfg.
  rewrite io_bind_assoc; io_fits ltac:(text_len). io_run.
  io_fits ltac:(text_len). io_run.
  io_fits ltac:(text_len). io_run.
  rewrite (sm_write Hs). cbn [negb].
  rewrite io_bind_assoc; io_fits ltac:(unfold list_tables; text_len).
  io_run. rewrite (io_bind_lift _ _ _ (dir ++ str "/insert.cfg")) by done.
  io_fits ltac:(text_len). unfold lcs_bash_cmd, emit.
  eexists. rewrite <- app_assoc. split; [reflexivity|]. reflexivity.
Qed.

(** The state of the loop in front of the window that starts at [a]; [e] is the time of the
    last call. *)
Record at_window (date01 dir : list byte) (s e a : Z) (b : bdata) : Prop := {
  aw_cfg : exporting (i_cfg (gbinfo b)) date01 dir;
  aw_step : step (i_cfg (gbinfo b)) = s;
  aw_low : low (gbinfo b) = Some (time_buf a);
  aw_hi : hi (gbinfo b) = Some (time_buf (a + s));
  aw_end : exists r, endtime (gbinfo b) = Some (time_text (localtime e) ++ x00 :: r);
  aw_pc : block_of "cdr" (pc b);
  aw_pq : block_of "queue_log" (pq b);
  aw_pm : block_of "monitor_recording" (pm b);
  aw_pw : block_of wrapup (pwrapup b);
  aw_exited : LCS_APP_EXITED b = 0
}.

(** The selection of a window of the agents' work. *)
Definition window_select (date01 : list byte) (a b : Z) : list byte :=
  wrapup_select (str wrapup) date01 (time_text (localtime a)) (time_text (localtime b)).

(** The circle of a window that is not behind the last call. *)
Lemma circle_go date01 dir s e a b tr :
  at_window date01 dir s e a b -> a <= e -> 0 < s ->
  printable_time a -> printable_time (e + 2 * s + 4800) ->
  exists b' evs, circle b tr = Ok (inr b', tr ++ evs) /\ at_window date01 dir s e (a + s) b' /\
    selects evs = [window_select date01 a (a + s)].
Proof.
  intros Hw Ha Hp Pa Pe. destruct Hw as [Hx Hst Hl Hh (r & He) Hc Hq Hm Hww Hex].
  assert (Pt : forall t, a <= t <= e + 2 * s + 4800 -> printable_time t)
    by (intros t Ht; apply (printable_between a (e + 2 * s + 4800)); done).
  assert (Pb : printable_time (a + s)) by (apply Pt; lia).
  assert (Ps : printable_time (a + s + 4800)) by (apply Pt; lia).
  destruct (ex_date _ _ _ Hx) as [_ Hd]. pose proof (time_text_length _ Ps) as Ls.
  pose proof (time_text_length _ Pa) as La. pose proof (time_text_length _ Pb) as Lb.
  destruct (lcs_clear_history_ok (gbinfo b) (pwrapup b) tr date01 dir a) as (qc & Hq0 & Sq0); [done..|].
  unfold circle. rewrite (io_bind_ok _ _ _ _ _ Hq0).
  rewrite (io_bind_lift _ _ _ _ (lcs_get_outtime_ok _ a e r Hl He Pa ltac:(apply Pt; lia))).
  replace (e <? a) with false by (symmetry; apply Z.ltb_ge; lia). cbn [Z.eqb negb].
  edestruct (lcs_try_query_ok (gbinfo b) (pc b) (tr ++ [EvQuery qc])) as (c' & e1 & H1 & Hc' & S1);
    [exact Hx|exact Hc|vm_compute; reflexivity|exact Hl|exact Hh|done..|by apply build_cdr|].
  rewrite (io_bind_ok _ _ _ _ _ H1). set (tr1 := (tr ++ [EvQuery qc]) ++ e1).
  edestruct (lcs_try_query_ok (gbinfo b) (pq b) tr1) as (q' & e2 & H2 & Hq' & S2);
    [exact Hx|exact Hq|vm_compute; reflexivity|exact Hl|exact Hh|done..|by apply build_queue|].
  rewrite (io_bind_ok _ _ _ _ _ H2). set (tr2 := tr1 ++ e2).
  edestruct (lcs_try_query_ok (gbinfo b) (pm b) tr2) as (m' & e3 & H3 & Hm' & S3);
    [exact Hx|exact Hm|vm_compute; reflexivity|exact Hl|exact Hh|done..|by apply build_monitor|].
  rewrite (io_bind_ok _ _ _ _ _ H3). set (tr3 := tr2 ++ e3).
  edestruct (lcs_try_query_ok (gbinfo b) (pwrapup b) tr3) as (w' & e4 & H4 & Hw' & S4);
    [exact Hx|exact Hww|vm_compute; reflexivity|exact Hl|exact Hh|done..|by apply build_wrapup|].
  rewrite (io_bind_ok _ _ _ _ _ H4). rewrite (io_bind_lift _ _ _ _ (ex_dir _ _ _ Hx)).
  destruct (lcs_moving_param_ok (gbinfo b) (tr3 ++ e4) date01 dir Hx) as (e5 & H5 & S5).
  rewrite (io_bind_ok _ _ _ _ _ H5). unfold lcs_end_circle.
  rewrite (io_bind_lift _ _ _ _ (lcs_update_time_ok (gbinfo b) a (a + s) Hl Hh Pa Pb
    ltac:(rewrite Hst; apply Pt; lia))).
  rewrite Hst. cbn [LCS_APP_EXITED]. rewrite Hex. cbn [Z.eqb negb].
  exists {| gbinfo := with_window (gbinfo b) (time_buf (a + s)) (time_buf (a + s + s)); pc := c';
            pq := q'; pm := m'; pwrapup := w'; LCS_APP_EXITED := 0; last_err := 0 |},
    ([EvQuery qc] ++ e1 ++ e2 ++ e3 ++ e4 ++ e5).
  unfold tr3, tr2, tr1. rewrite <- !app_assoc. split; [done|]. split; [by constructor; try exists r|].
  rewrite !selects_app, S1, S2, S3, S4, S5.
  assert (Sq : selects [EvQuery qc] = []) by (unfold selects; cbn; by rewrite Sq0).
  rewrite Sq. cbn [app]. rewrite app_nil_r. done.
Qed.

Lemma circle_stop date01 dir s e a b tr :
  at_window date01 dir s e a b -> e < a -> printable_time a -> printable_time e ->
  exists b' q, circle b tr = Ok (inl b', tr ++ [EvQuery q]) /\ selects [EvQuery q] = [] /\
    LCS_APP_EXITED b' = 1 /\ gbinfo b' = gbinfo b.
Proof.
  intros Hw Ha Pa Pe. destruct Hw as [Hx Hst Hl Hh (r & He) Hc Hq Hm Hww Hex].
  destruct (lcs_clear_history_ok (gbinfo b) (pwrapup b) tr date01 dir a) as (qc & Hq0 & Sq0); [done..|].
  unfold circle. rewrite (io_bind_ok _ _ _ _ _ Hq0).
  rewrite (io_bind_lift _ _ _ _ (lcs_get_outtime_ok _ a e r Hl He Pa Pe)).
  replace (e <? a) with true by (symmetry; apply Z.ltb_lt; lia). cbn [Z.eqb negb].
  eexists _, qc. split; [reflexivity|]. split; [unfold selects; cbn; by rewrite Sq0|]. done.
Qed.

(** [n] circles and the round that ends the loop. *)
Lemma circles_ok n date01 dir s e a b tr :
  at_window date01 dir s e a b -> 0 < s ->
  printable_time a -> printable_time e -> printable_time (e + 2 * s + 4800) ->
  a + (Z.of_nat n - 1) * s <= e < a + Z.of_nat n * s ->
  exists b' evs, circles (S n) b tr = Ok (b', tr ++ evs) /\ LCS_APP_EXITED b' = 1 /\
    text_of (i_cfg (gbinfo b')) "current_dir" = Ok dir /\
    selects evs = map (fun k => window_select date01 (a + Z.of_nat k * s) (a + Z.of_nat (S k) * s))
                      (seq 0 n).
Proof.
  revert a b tr. induction n as [|n IH]; intros a b tr Hw Hs0 Pa Pz Pe Hn.
  - destruct (circle_stop date01 dir s e a b tr Hw) as (b' & q & Hc & Hq & Hx & Hg); [lia|done..|].
    cbn [circles]. rewrite (io_bind_ok _ _ _ _ _ Hc). exists b', [EvQuery q]. rewrite Hg.
    split; [done|]. split; [done|]. split; [|done]. apply (ex_dir _ _ _ (aw_cfg _ _ _ _ _ _ Hw)).
  - destruct (circle_go date01 dir s e a b tr Hw) as (b1 & e1 & Hc & Hw1 & S1); [nia|done..|].
    destruct (IH (a + s) b1 (tr ++ e1)) as (b' & e2 & Hr & Hx & Hd & S2); [done|done| |done|done|nia|].
    { apply (printable_between a (e + 2 * s + 4800)); [done|done|nia]. }
    change (circles (S (S n)) b) with
      (r ← circle b; match r with inl b => mret b | inr b => circles (S n) b end).
    rewrite (io_bind_ok _ _ _ _ _ Hc). rewrite Hr. exists b', (e1 ++ e2).
    rewrite <- app_assoc. split; [done|]. split; [done|]. split; [done|].
    rewrite selects_app, S1, S2. cbn [seq map app]. f_equal.
    + f_equal; lia.
    + rewrite <- seq_shift, map_map. apply map_ext. intros k. f_equal; lia.
Qed.

(** Were the connection of the blocks still there, and did every query and file succeed, the
    loop would go through these windows and end. *)
Theorem circles_tile info mile t e r b tr date01 dir :
  let s := step (i_cfg info) in
  let a := t - t mod s in
  let n := Z.to_nat ((e - a) / s + 1) in
  0 <= t -> cstr mile = Ok (time_text (localtime t)) -> 0 < s -> t <= e ->
  printable_time a -> printable_time (e + 2 * s + 4800) ->
  exporting (i_cfg info) date01 dir ->
  endtime info = Some (time_text (localtime e) ++ x00 :: r) ->
  lcs_get_range info mile = Ok (gbinfo b) ->
  block_of "cdr" (pc b) -> block_of "queue_log" (pq b) -> block_of "monitor_recording" (pm b) ->
  block_of wrapup (pwrapup b) -> LCS_APP_EXITED b = 0 ->
  (exists b' evs, circles (S n) b tr = Ok (b', tr ++ evs) /\ LCS_APP_EXITED b' = 1 /\
    text_of (i_cfg (gbinfo b')) "current_dir" = Ok dir /\
    selects evs = map (fun k => window_select date01 (a + Z.of_nat k * s) (a + Z.of_nat (S k) * s))
                      (seq 0 n)) /\
  (forall x, t <= x <= e ->
    exists! k, 0 <= k < Z.of_nat n /\ a + k * s <= x < a + (k + 1) * s).
Proof.
  cbv zeta. intros Ht Hm Hs0 He Pa Pe Hx Hend Hg Hc Hq Hmo Hw Hex.
  set (s := step (i_cfg info)) in *. set (a := t - t mod s) in *.
  assert (Ha : a <= t < a + s).
  { unfold a. pose proof (Z.mod_pos_bound t s Hs0). lia. }
  assert (Hdiv : 0 <= (e - a) / s) by (apply Z.div_pos; lia).
  pose proof (Z.mul_div_le (e - a) s Hs0). pose proof (Z.mul_succ_div_gt (e - a) s Hs0).
  assert (Pt : forall x, a <= x <= e + 2 * s + 4800 -> printable_time x)
    by (intros x Hx'; apply (printable_between a (e + 2 * s + 4800)); done).
  split; [|by apply tiles].
  - rewrite (lcs_get_range_ok info mile t) in Hg; [|done|apply Pt; lia|done|done|done|
      change (printable_time (a + s)); apply Pt; lia].
    fold s in Hg. fold a in Hg. injection Hg as Hg.
    destruct (circles_ok (Z.to_nat ((e - a) / s + 1)) date01 dir s e a b tr) as (b' & evs & Hr);
      [|done|done|apply Pt; lia|done|nia|by exists b', evs].
    constructor; rewrite <- ?Hg; try done. by exists r.
Qed.

(** C4: The windows of a day, in years of four digits and for a positive [step]. From the times
    of the first and last call, of which the program for a day has loaded the texts,
    [lcs_get_range] makes the window of [step] seconds that holds the first call, and every
    [lcs_end_circle] makes the next one. After [k] rounds the window is the [k]-th behind the
    first; [lcs_get_outtime] says that it is behind the last call exactly for the [n]-th; the
    text that [lcs_try_query] builds for the agents' work selects the rows of this window, and
    those for the other tables end 4800 seconds behind it; and the windows tile the day, so that
    every second of it is in exactly one of them. The configuration, with it the directory, stays
    as it is. (That the loop around these functions is entered through the pointer to a dead
    variable is [export_returns].) *)
Theorem windows_tile info mile t e r date :
  let s := step (i_cfg info) in
  let a := t - t mod s in
  let n := Z.to_nat ((e - a) / s + 1) in
  0 <= t -> cstr mile = Ok (time_text (localtime t)) -> 0 < s -> t <= e ->
  printable_time a -> printable_time (e + 2 * s + 4800) -> zlen date < 64 ->
  endtime info = Some (time_text (localtime e) ++ x00 :: r) ->
  exists first, lcs_get_range info mile = Ok first /\
    (forall k, (k <= n)%nat -> exists w,
       let lo := a + Z.of_nat k * s in
       windows k first = Ok w /\ i_cfg w = i_cfg info /\
       lcs_get_outtime w = Ok (if decide (k = n) then 1 else 0) /\
       (k <> n ->
        window_queries w (str wrapup) date = Ok ([], Some (window_select date lo (lo + s))) /\
        forall tab, window_queries w tab date
          = build_queries tab date (Ok (time_text (localtime lo))) (time_text (localtime (lo + s)))
              (time_text (localtime (lo + s + 4800))))) /\
    (forall x, t <= x <= e ->
      exists! k, 0 <= k < Z.of_nat n /\ a + k * s <= x < a + (k + 1) * s).
Proof.
  cbv zeta. intros Ht Hm Hs0 He Pa Pe Hd Hend.
  set (s := step (i_cfg info)) in *. set (a := t - t mod s) in *. set (n := Z.to_nat ((e - a) / s + 1)).
  assert (Ha : a <= t < a + s) by (unfold a; pose proof (Z.mod_pos_bound t s Hs0); lia).
  assert (Hdiv : 0 <= (e - a) / s) by (apply Z.div_pos; lia).
  pose proof (Z.mul_div_le (e - a) s Hs0) as D1. pose proof (Z.mul_succ_div_gt (e - a) s Hs0) as D2.
  assert (Hn : Z.of_nat n = (e - a) / s + 1) by (unfold n; lia).
  assert (Pt : forall x, a <= x <= e + 2 * s + 4800 -> printable_time x)
    by (intros x Hx'; apply (printable_between a (e + 2 * s + 4800)); done).
  eexists. split; [apply (lcs_get_range_ok info mile t); fold s; fold a; try done; apply Pt; lia|].
  fold s. fold a. split; [|by apply tiles]. intros k Hk.
  assert (Hk1 : a + Z.of_nat k * s <= e + s) by nia.
  eexists. split; [apply windows_ok; cbn [with_window i_cfg low hi]; fold s; try done; apply Pt; nia|].
  cbn [with_window i_cfg]. fold s. split; [done|].
  replace (a + (Z.of_nat k + 1) * s) with (a + Z.of_nat k * s + s) by lia.
  set (lo := a + Z.of_nat k * s). assert (Hlo : a <= lo <= e + s) by (unfold lo; nia).
  split.
  - rewrite (lcs_get_outtime_ok _ lo e r); [|done|exact Hend|apply Pt; lia|apply Pt; lia].
    destruct (decide (k = n)) as [->|Hne].
    + replace (e <? lo) with true by (symmetry; apply Z.ltb_lt; unfold lo; nia). done.
    + replace (e <? lo) with false by (symmetry; apply Z.ltb_ge; unfold lo; nia). done.
  - intros Hne. assert (lo <= e) by (unfold lo; nia).
    assert (Hq : forall tab, window_queries (with_window (with_window info (time_buf a) (time_buf (a + s)))
               (time_buf lo) (time_buf (lo + s))) tab date = build_queries tab date (Ok (time_text (localtime lo)))
               (time_text (localtime (lo + s))) (time_text (localtime (lo + s + 4800)))).
    { intros tab. apply window_queries_ok; [done|done|apply Pt; lia..]. }
    split; [|exact Hq]. rewrite Hq. apply build_wrapup; [done|apply time_text_length; apply Pt; lia..].
Qed.

End Circle.

(** ** Starting *)

Section Start.
Context `{World} `{TimeZone}.

(** The block that is returned points to a variable that is gone. *)
Lemma lcs_init_param_con info tab tr p tr' :
  lcs_init_param info tab tr = Ok (p, tr') -> con p = None.
Proof.
  unfold lcs_init_param. unfold mbind, io_bind, lift, mret, io_ret.
  destruct (fits 64 (str tab)) as [nm|f]; [|done]. destruct (fits 64 _) as [out|f]; [|done].
  destruct (lcs_try_connect _ _ _) as [[? ?]|f]; [|done]. by intros [= <- <-].
Qed.

Lemma start_blocks_con info err tr c q m w err' tr' :
  start_blocks info err tr = Ok ((c, q, m, w, err'), tr') -> con c = None.
Proof.
  unfold start_blocks. intros Hr. do 5 (apply io_bind_inv in Hr as (? & ? & _ & Hr)).
  apply io_bind_inv in Hr as (c' & tr1 & Hc & Hr). do 3 (apply io_bind_inv in Hr as (? & ? & _ & Hr)).
  injection Hr as <- <- <- <- <- <-. by eapply lcs_init_param_con.
Qed.

(** Whatever the database answers, the export does not get to its first circle:
    [lcs_init_param] keeps the address of its local variable [conn] in the block, and the
    caller follows it, if nothing went wrong before. *)
Theorem start_bdata_faults fuel info exited err tr :
  lcs_start_bdata fuel info exited err tr
  = match start_blocks info err tr with Ok _ => Fault DeadObject | Fault f => Fault f end.
Proof.
  unfold lcs_start_bdata, mbind at 1, io_bind at 1.
  destruct (start_blocks info err tr) as [[[[[[c q] m] w] e] tr']|f] eqn:E; [|done].
  by rewrite (start_blocks_con _ _ _ _ _ _ _ _ _ E).
Qed.

End Start.

(** ** The text of a result *)

Definition tab : byte := x09.

(** What a column is exported as. *)
Definition cell (c : option (list byte)) : list byte :=
  match c with
  | None => str "NULL"
  | Some [] => str "NULL"
  | Some (b :: s) => if b2z b =? 1 then str "true" else column_words (b :: s)
  end.
Definition line_of (r : row) : list byte := concat (map (fun c => cell c ++ [tab]) r).
Definition text_of_rows (rows : list row) : list byte := concat (map (fun r => line_of r ++ [nl]) rows).
(** Every column fits the buffer. *)
Definition cells_fit (rows : list row) : Prop := Forall (Forall (fun c => zlen (cell c) < 4097)) rows.

Lemma export_columns_ok r :
  Forall (fun c => zlen (cell c) < 4097) r -> export_columns r = Ok (line_of r).
Proof.
  induction 1 as [|c r Hc _ IH]; [done|]. cbn [export_columns]. unfold line_of. cbn [map concat].
  assert (Hx : export_column c = Ok (cell c)).
  { destruct c as [[|b s]|]; try done. unfold export_column, cell in *.
    destruct (b2z b =? 1); [done|]. by apply fits_ok. }
  rewrite Hx. cbn [mbind res_bind]. rewrite IH. cbn [mbind res_bind]. by rewrite <- !app_assoc.
Qed.

Lemma export_rows_ok rows : cells_fit rows -> export_rows rows = Ok (text_of_rows rows).
Proof.
  induction 1 as [|r rows Hr _ IH]; [done|]. cbn [export_rows]. unfold text_of_rows.
  cbn [map concat]. rewrite export_columns_ok by done. cbn [mbind res_bind]. rewrite IH.
  cbn [mbind res_bind]. by rewrite <- !app_assoc.
Qed.

(** A token holds no delimiter and is not empty. *)
Lemma strtok_all_tokens d s off cur :
  match cur with Some (_, t) => t <> [] /\ Forall (fun b => is_delim d b = false) t | None => True end ->
  Forall (fun t => t <> [] /\ Forall (fun b => is_delim d b = false) t)
    (map snd (strtok_all d s off cur)).
Proof.
  revert off cur. induction s as [|b s IH]; intros off cur Hc; cbn [strtok_all].
  - destruct cur as [[o t]|]; repeat constructor; apply Hc.
  - destruct (is_delim d b) eqn:E; destruct cur as [[o t]|]; cbn [map snd].
    + constructor; [done|]. by apply IH.
    + by apply IH.
    + apply IH. split; [by destruct t|]. apply Forall_app. split; [apply Hc|]. by constructor.
    + apply IH. split; [done|]. by constructor.
Qed.

Lemma not_delims_blank : is_delim row_delims x20 = false.
Proof. reflexivity. Qed.

(** A cell has no tab and no line end inside. *)
Lemma cell_clean c : Forall (fun b => is_delim row_delims b = false) (cell c).
Proof.
  assert (Hl : forall s, forallb (fun b => negb (is_delim row_delims b)) (str s) = true ->
                         Forall (fun b => is_delim row_delims b = false) (str s)).
  { intros s Hs. apply Forall_forall. intros b Hb. rewrite forallb_forall in Hs.
    specialize (Hs b (proj1 (list_elem_of_In _ _) Hb)). by apply negb_true_iff in Hs. }
  destruct c as [[|b s]|]; [by apply Hl| |by apply Hl]. unfold cell.
  destruct (b2z b =? 1); [by apply Hl|]. unfold column_words.
  pose proof (strtok_all_tokens row_delims (b :: s) 0 None I) as Ht. fold (strtok row_delims (b :: s)) in Ht.
  destruct (map snd _) as [|w ws]; [constructor|].
  apply Forall_cons in Ht as [[_ Hw] Ht]. apply Forall_app. split; [done|].
  induction Ht as [|x ws [_ Hx] _ IH]; [constructor|]. cbn [map concat].
  apply Forall_app. split; [|done]. apply Forall_app. split; [done|by apply Hl].
Qed.

(** ** A concrete day *)

Module Day.
#[local] Existing Instance indochina.

(** The configuration of the server "s" in a warehouse "/w", after the first window. *)
Definition c : cfg :=
  fold_right (fun '(f, v) c => assign c f v) (cleared info_members)
    [("server", str "s"); ("user", str "u"); ("password", str "p"); ("db", str "d");
     ("path", str "/w"); ("date", str "2017-10-29"); ("date_01", str "2017_10_29");
     ("current_dir", str "/w/s/d/2017/10/29/08/15/"); ("insertprocess", str "./insert");
     ("step", le_bytes 4 60)]%string.
Definition first_call : Z := 1509239712.
Definition final : Z := 1509239842.
Definition info : LCS_MYSQL_INFO :=
  {| i_cfg := c; low := Some (time_buf 1509239700); hi := Some (time_buf 1509239760);
     inittime := Some (time_buf first_call); endtime := Some (time_buf final) |}.
Definition block (name : string) : LCS_GET_TABLE_INFO :=
  {| table := str name; out_file := str name ++ str ".data"; total := 0; con := Some true |}.
Definition start : bdata :=
  {| gbinfo := info; pc := block "cdr"; pq := block "queue_log"; pm := block "monitor_recording";
     pwrapup := block wrapup; LCS_APP_EXITED := 0; last_err := 0 |}.

#[local] Instance world : World :=
  toy_world [(str "e.cfg", file_of (map str ["server:s"; "db:d"; "step:60"]%string) [])]
    (Some [[Some (str "1"); None]]) None None.

Lemma world_smooth : smooth.
Proof. split; [done|done|]. intros tr rows [= <-]. by eexists. Qed.

Definition selection (a b : string) : list byte :=
  wrapup_select (str wrapup) (str "2017_10_29") (str a) (str b).

Lemma circles_tile_witness :
  exists b' evs, circles 4 start [] = Ok (b', evs) /\ LCS_APP_EXITED b' = 1 /\
    selects evs = [selection "2017-10-29 08:15:00" "2017-10-29 08:16:00";
                   selection "2017-10-29 08:16:00" "2017-10-29 08:17:00";
                   selection "2017-10-29 08:17:00" "2017-10-29 08:18:00"].
Proof.
  destruct (circles_tile world_smooth info (time_buf first_call) first_call final (zeros 12) start []
    (str "2017_10_29") (str "/w/s/d/2017/10/29/08/15/")) as [(b' & evs & H1 & H2 & _ & H3) _].
  - discriminate.
  - reflexivity.
  - reflexivity.
  - discriminate.
  - vm_compute; split; discriminate.
  - vm_compute; split; discriminate.
  - split; [by split; vm_compute|by vm_compute| | | |].
    + by exists (str "s").
    + by exists (str "/w").
    + by exists (str "d").
    + by exists (str "./insert").
  - reflexivity.
  - reflexivity.
  - done.
  - done.
  - done.
  - done.
  - reflexivity.
  - exists b', evs. split; [exact H1|]. split; [exact H2|]. rewrite H3. reflexivity.
Defined.

Lemma windows_tile_witness :
  exists first w, lcs_get_range info (time_buf first_call) = Ok first /\ windows 2 first = Ok w /\
    lcs_get_outtime w = Ok 0 /\
    window_queries w (str wrapup) (str "2017_10_29")
    = Ok ([], Some (selection "2017-10-29 08:17:00" "2017-10-29 08:18:00")).
Proof.
  destruct (windows_tile info (time_buf first_call) first_call final (zeros 12) (str "2017_10_29")) as (f & H1 & H2 & _).
  - discriminate.
  - reflexivity.
  - reflexivity.
  - discriminate.
  - vm_compute; split; discriminate.
  - vm_compute; split; discriminate.
  - reflexivity.
  - reflexivity.
  - destruct (H2 2%nat) as (w & Hw & _ & Ho & Hq).
    + vm_compute. do 2 constructor.
    + exists f, w. split; [exact H1|]. split; [exact Hw|]. split; [rewrite Ho; reflexivity|].
      destruct Hq as [Hq _]; [by vm_compute|]. rewrite Hq. reflexivity.
Defined.

(** A day of this world: the start ends with an object that is gone. *)
Example start_dead : lcs_start_bdata 5 info 0 0 [] = Fault DeadObject.
Proof. vm_compute. reflexivity. Qed.

(** Its configuration file. *)
Example load_day :
  (c ← lcs_cfg_load (str "e.cfg") (cleared info_members) 0;
   mret (text_of c.1 "server", text_of c.1 "db", step c.1)) []
  = Ok ((Ok (str "s"), Ok (str "d"), 60), []).
Proof. vm_compute. reflexivity. Qed.
End Day.
