(* ===== verification/Daemon.v ===== *)
(** * The life of the manager and of the export

    Models the [main] programs of src/cluster/manager/manager.c and
    src/cluster/cluster/main.c around the work that Manager.v and Cluster.v model: the
    arguments, the signal handler of [lcs_init_sig], the status of the program behind its
    mutex ([lcs_get_status], [lcs_set_status]) and the loop that waits with [pause] for a
    signal and then reads the file "get-mysql.cmd" ([lcs_hdl_cmd]).

    The waiting loop is a step relation given by functions: [advance] is the next step of the
    program, [happen] adds what comes from outside, a signal or a new command file, at any
    point between two steps.  A theorem about [happens] holds for every order of the steps of the
    program, of signals and of commands. *)
From S2P Require Import Prelude CString OpenSSL World.
From S2P Require Import ToyWorld Config Calendar Cluster Manager.

(** ** Signals *)

Definition SIGALRM : Z := 14.

Inductive action := Terminate | Ignore | Handle.
#[global] Instance action_eq_dec : EqDecision action.
Proof. solve_decision. Defined.

(** What a signal without a handler does to the process: SIGCHLD, SIGURG and SIGWINCH are
    ignored, SIGCONT and the signals that stop the process leave it in [pause], and all others
    end it. *)
Definition default_action (sig : Z) : action :=
  if decide (sig ∈ [17; 18; 19; 20; 21; 22; 23; 28]) then Ignore else Terminate.

Definition disposition (handlers : list Z) (sig : Z) : action :=
  if decide (sig ∈ handlers) then Handle else default_action sig.

(** [sa] is the result of [sigaction]; [perror] and [exit] follow an error. *)
Definition lcs_init_sig (sa : Z) (handlers : list Z) : res (list Z) :=
  if sa <? 0 then Fault Exited else Ok (SIGALRM :: handlers).

(** The handlers, on the status of the program: they leave it alone. *)
Definition lcs_hdl_alrm (status : Z) : Z := status.
Definition lcs_hdl_signal (sig status : Z) : Z :=
  if sig =? SIGALRM then lcs_hdl_alrm status else status.

(** ** The process *)

(** Where the program is in its loop. *)
Inductive place :=
| Checking                (** in front of [lcs_get_status] *)
| Deciding (seen : Z)     (** the status was read, [pause] is not called yet *)
| Sleeping                (** in [pause] *)
| Woken                   (** behind [pause], in front of [lcs_hdl_cmd] *)
| Left                    (** behind the loop *)
| Ended (sig : Z)         (** by a signal *)
| Crashed (f : fault).

(** [cmdfile] is what is found under the name "get-mysql.cmd". *)
Record proc := { at_place : place; handlers : list Z; status : Z; cmdfile : option FILE }.

Definition moved (p : proc) (w : place) : proc :=
  {| at_place := w; handlers := handlers p; status := status p; cmdfile := cmdfile p |}.

(** [lcs_get_status] and [lcs_set_status], each inside its mutex one step. *)
Definition lcs_get_status (p : proc) : Z := status p.
Definition lcs_set_status (st : Z) (p : proc) : proc :=
  {| at_place := at_place p; handlers := handlers p; status := st; cmdfile := cmdfile p |}.

(** A world whose command file is the given one. *)
Definition LCS_MYSQL_CMD : list byte := str "get-mysql.cmd".
Definition commanding (w : World) (f : option FILE) : World := {|
  fopen_r tr path := if decide (path = LCS_MYSQL_CMD) then f else @fopen_r w tr path;
  fopen_w := @fopen_w w; popen := @popen w; readdir := @readdir w;
  getenv := @getenv w; shm_create := @shm_create w; mysql_init := @mysql_init w;
  mysql_real_connect := @mysql_real_connect w; mysql_query := @mysql_query w;
  mysql_store_result := @mysql_store_result w; sqlite_open := @sqlite_open w;
  sqlite_prepare := @sqlite_prepare w; sqlite_exec := @sqlite_exec w;
  sqlite_bind := @sqlite_bind w; sqlite_step := @sqlite_step w;
  sqlite_clear_bindings := @sqlite_clear_bindings w; sqlite_reset := @sqlite_reset w;
  sqlite_finalize := @sqlite_finalize w; sqlite_close := @sqlite_close w;
  recv := @recv w; send := @send w
|}.

Section Process.
Context {w : World}.

(** The next step of the program; in [pause] it has none. *)
Definition advance (p : proc) : proc :=
  match at_place p with
  | Checking => moved p (Deciding (lcs_get_status p))
  | Deciding seen => moved p (if seen =? 0 then Sleeping else Left)
  | Woken =>
    match @Manager.lcs_hdl_cmd (commanding w (cmdfile p)) (status p) [] with
    | Ok (st, _) => moved (lcs_set_status st p) Checking
    | Fault f => moved p (Crashed f)
    end
  | _ => p
  end.

(** A signal: the handler runs where the program is, and ends [pause]. *)
Definition deliver (sig : Z) (p : proc) : proc :=
  match at_place p with
  | Left | Ended _ | Crashed _ => p
  | place =>
    match disposition (handlers p) sig with
    | Terminate => moved p (Ended sig)
    | Ignore => p
    | Handle =>
      let p := lcs_set_status (lcs_hdl_signal sig (status p)) p in
      match place with Sleeping => moved p Woken | _ => p end
    end
  end.

(** What can happen next: a step of the program, a signal, or a new command file. *)
Inductive happening := Run | Signal (sig : Z) | Order (f : option FILE).
Definition happen (p : proc) (h : happening) : proc :=
  match h with
  | Run => advance p
  | Signal sig => deliver sig p
  | Order f => {| at_place := at_place p; handlers := handlers p; status := status p; cmdfile := f |}
  end.
Definition happens (p : proc) (hs : list happening) : proc := fold_left happen hs p.

(** The process when the work is done and the loop begins. *)
Definition waiting (st : Z) (f : option FILE) : proc :=
  {| at_place := Checking; handlers := [SIGALRM]; status := st; cmdfile := f |}.

(** ** The main programs *)

(** How a program ends; [Blocked] when it is still in its loop. *)
Inductive ending := Returned (code : Z) | Signalled (sig : Z) | Blocked.
Definition ending_of (p : proc) : res ending :=
  match at_place p with
  | Left => Ok (Returned 0)
  | Ended sig => Ok (Signalled sig)
  | Crashed f => Fault f
  | _ => Ok Blocked
  end.

(** [main] of the manager: [sa] is the result of [sigaction], [f] the command file when the
    work is done, [hs] what happens from then on.  Errors are noted and not returned. *)
Definition manager_main (argc : Z) (arg1 : list byte) (sa : Z) (fuel : nat) (f : option FILE)
    (hs : list happening) `{TimeZone} : io ending :=
  if argc <? 2 then mret (Returned 1)
  else
    lcs_mysql_cfg ← lift (fits 512 arg1);
    handlers ← lift (lcs_init_sig sa []);
    '(p, err) ← Manager.lcs_init_app lcs_mysql_cfg;
    _ ← Manager.lcs_start_bdata fuel p err;
    lift (ending_of (happens {| at_place := Checking; handlers := handlers; status := 0; cmdfile := f |} hs)).

(** [main] of the export: a day with calls is exported, and behind it the program waits as
    the manager does, unless an error was noted; the tables of the day are dropped in any case.
    Without an argument [argv[1]] is null, and followed.  [lcs_watcher_thread] only sleeps
    until the status is set. *)
Definition cluster_main (argc : Z) (argv1 : option (list byte)) (sa : Z) (fuel : nat)
    (f : option FILE) (hs : list happening) `{TimeZone} : io ending :=
  let err := if argc <? 2 then 219 else 0 in
  path ← lift (Cluster.nonnull argv1);
  handlers ← lift (lcs_init_sig sa []);
  info ← Cluster.lcs_init_app path;
  '(stopped, err) ←
    match inittime info with
    | None => mret (Returned 0, err)
    | Some _ =>
      b ← Cluster.lcs_start_bdata fuel info 0 err;
      if negb (last_err b =? 0) then mret (Returned 0, last_err b)
      else
        stopped ← lift (ending_of (happens {| at_place := Checking; handlers := handlers;
                                              status := LCS_APP_EXITED b; cmdfile := f |} hs));
        mret (stopped, last_err b)
    end;
  match stopped with
  | Returned _ =>
    date01 ← lift (text_of (i_cfg info) "date_01");
    err ← lcs_clear_tmp (i_cfg info) date01 err;
    mret (Returned (if err =? 0 then 0 else 1))
  | _ => mret stopped
  end.

(** The two programs read their commands in the same way, so that [advance] serves both. *)
Lemma hdl_cmd_shared st tr : Cluster.lcs_hdl_cmd st tr = Manager.lcs_hdl_cmd st tr.
Proof. reflexivity. Qed.

End Process.

(** The two programs obey commands in the same way. *)
Lemma same_commands `{World} st : Manager.lcs_hdl_cmd st = Cluster.lcs_hdl_cmd st.
Proof. reflexivity. Qed.

(** ** Commands *)

Definition LCS_EXIT : list byte := str "LCS_EXIT".

(** The command file asks to leave. *)
Definition exits (f : option FILE) : bool :=
  match f with
  | Some fp => match strstr (upto0 (f_bytes fp)) LCS_EXIT with Some _ => true | None => false end
  | None => false
  end.
Definition readable (f : option FILE) : Prop := forall fp, f = Some fp -> regular fp.

Lemma cstr_upto0 s : cstr (s ++ [x00]) = Ok (upto0 s).
Proof.
  induction s as [|b s IH]; [done|]. unfold upto0. cbn [app cstr take_while]. fold (upto0 s).
  destruct (b2z b =? 0); [done|]. by rewrite IH.
Qed.

Section Waiting.
Context {w : World}.

Lemma hdl_cmd_spec st f :
  readable f ->
  @Manager.lcs_hdl_cmd (commanding w f) st [] = Ok (if exits f then 1 else st, []).
Proof.
  intros Hf. unfold Manager.lcs_hdl_cmd. destruct f as [fp|].
  - rewrite (io_bind_ok _ _ _ _ _ (@lcs_file_text_ok (commanding w (Some fp)) LCS_MYSQL_CMD None 0 [] fp
      eq_refl (Hf fp eq_refl))).
    cbv beta iota. rewrite (io_bind_lift _ _ _ _ (cstr_upto0 (f_bytes fp))). cbn [exits].
    fold LCS_EXIT. by destruct (strstr _ LCS_EXIT).
  - by rewrite (io_bind_ok _ _ _ _ _ (@lcs_file_text_none (commanding w None) LCS_MYSQL_CMD None 0 [] eq_refl)).
Qed.

Lemma advance_woken p :
  at_place p = Woken -> readable (cmdfile p) ->
  advance p = moved (lcs_set_status (if exits (cmdfile p) then 1 else status p) p) Checking.
Proof. intros Hp Hf. unfold advance. by rewrite Hp, hdl_cmd_spec. Qed.

Lemma exec_app p a b : happens p (a ++ b) = happens (happens p a) b.
Proof. apply fold_left_app. Qed.
Lemma exec_snoc p a h : happens p (a ++ [h]) = happen (happens p a) h.
Proof. by rewrite exec_app. Qed.

Definition readable_order (h : happening) : Prop :=
  match h with Order f => readable f | _ => True end.

(** The last alarm found the process in [pause], and it has not gone on since. *)
Definition alarmed (p0 : proc) (hs : list happening) : Prop :=
  exists h1 h2, hs = h1 ++ [Signal SIGALRM] ++ h2 /\ at_place (happens p0 h1) = Sleeping /\ Run ∉ h2.
(** An alarm found the process in [pause], and when it went on the command file asked to leave. *)
Definition ordered (p0 : proc) (hs : list happening) : Prop :=
  exists ha h3, hs = ha ++ [Run] ++ h3 /\ alarmed p0 ha /\ exits (cmdfile (happens p0 ha)) = true.

Lemma alarmed_snoc p0 hs h : alarmed p0 hs -> h <> Run -> alarmed p0 (hs ++ [h]).
Proof.
  intros (h1 & h2 & -> & Hs & Hr) Hh. exists h1, (h2 ++ [h]). split_and!; [|done|set_solver].
  by rewrite <- !app_assoc.
Qed.
Lemma ordered_snoc p0 hs h : ordered p0 hs -> ordered p0 (hs ++ [h]).
Proof. intros (ha & h3 & -> & Ha). exists ha, (h3 ++ [h]). by rewrite <- !app_assoc. Qed.

(** What holds of the loop after the happenings [hs]. *)
Record loop_ok (p0 : proc) (hs : list happening) (p : proc) : Prop := {
  lo_handlers : handlers p = [SIGALRM];
  lo_file : readable (cmdfile p);
  lo_status : status p = 0 \/ status p = 1 /\ ordered p0 hs;
  lo_place :
    match at_place p with
    | Deciding s => s = 0 \/ status p = 1
    | Left => status p = 1
    | Woken => alarmed p0 hs
    | Crashed _ => False
    | _ => True
    end
}.

Lemma loop_start f : readable f -> loop_ok (waiting 0 f) [] (waiting 0 f).
Proof. intros Hf. split; [done|done|by left|done]. Qed.

Lemma status_snoc p0 hs h st :
  st = 0 \/ st = 1 /\ ordered p0 hs -> st = 0 \/ st = 1 /\ ordered p0 (hs ++ [h]).
Proof. intros [?|[? ?]]; [by left|right; split; [done|by apply ordered_snoc]]. Qed.

Lemma loop_run p0 hs p :
  p = happens p0 hs -> loop_ok p0 hs p -> loop_ok p0 (hs ++ [Run]) (advance p).
Proof.
  intros Hp [Hh Hf Hs Hpl]. destruct (at_place p) eqn:E; rewrite ?advance_woken by done;
    unfold advance; rewrite ?E; cbn [moved].
  - split; cbn; [done|done|by apply status_snoc|]. unfold lcs_get_status. naive_solver.
  - destruct (seen =? 0) eqn:E0; b2p; split; cbn; try done; try (by apply status_snoc). naive_solver.
  - split; try done; [by apply status_snoc|by rewrite E].
  - destruct (exits (cmdfile p)) eqn:Ex; split; cbn; try done; [|by apply status_snoc].
    right. split; [done|]. exists hs, []. rewrite <- Hp. done.
  - split; try done; [by apply status_snoc|by rewrite E].
  - split; try done; [by apply status_snoc|by rewrite E].
  - done.
Qed.

Lemma loop_signal p0 hs p sig :
  p = happens p0 hs -> loop_ok p0 hs p -> loop_ok p0 (hs ++ [Signal sig]) (deliver sig p).
Proof.
  intros Hp [Hh Hf Hs Hpl].
  assert (Hsame : loop_ok p0 (hs ++ [Signal sig]) p).
  { split; [done|done|by apply status_snoc|]. destruct (at_place p); try done. by apply alarmed_snoc. }
  assert (Hend : loop_ok p0 (hs ++ [Signal sig]) (moved p (Ended sig))) by (split; try done; by apply status_snoc).
  assert (Hcall : lcs_set_status (lcs_hdl_signal sig (status p)) p = p).
  { unfold lcs_hdl_signal, lcs_hdl_alrm. destruct p. by destruct (sig =? SIGALRM). }
  unfold deliver. rewrite Hcall. destruct (at_place p) eqn:E; try done;
    destruct (disposition (handlers p) sig) eqn:Ed; try done.
  assert (sig = SIGALRM) as ->.
  { unfold disposition in Ed. rewrite Hh in Ed. case_decide; [set_solver|]. unfold default_action in Ed.
    by case_decide. }
  split; cbn; [done|done|by apply status_snoc|]. exists hs, []. rewrite <- Hp. split_and!; [done|done|set_solver].
Qed.

Lemma loop_holds f hs :
  readable f -> Forall readable_order hs -> loop_ok (waiting 0 f) hs (happens (waiting 0 f) hs).
Proof.
  intros Hf. induction hs as [|h hs IH] using rev_ind; [intros _; by apply loop_start|].
  intros [Hhs Hh]%Forall_app. rewrite exec_snoc. apply IH in Hhs. inversion_clear Hh as [|? ? Ho _].
  destruct h as [|sig|f']; cbn [happen].
  - by apply loop_run.
  - by apply loop_signal.
  - destruct Hhs as [A B C D]. split; cbn; [done|done|by apply status_snoc|].
    destruct (at_place _); try done. by apply alarmed_snoc.
Qed.

(** The loop is left on command only: an alarm had found the process in [pause], and when it
    then read the command file, the file asked to leave; nothing else sets its status. *)
Lemma leaves_on_order f hs :
  readable f -> Forall readable_order hs ->
  at_place (happens (waiting 0 f) hs) = Left ->
  exists h1 h2 h3, hs = h1 ++ [Signal SIGALRM] ++ h2 ++ [Run] ++ h3 /\ Run ∉ h2 /\
    at_place (happens (waiting 0 f) h1) = Sleeping /\
    exits (cmdfile (happens (waiting 0 f) (h1 ++ [Signal SIGALRM] ++ h2))) = true.
Proof.
  intros Hf Hhs Hl. destruct (loop_holds f hs Hf Hhs) as [_ _ Hs Hp]. rewrite Hl in Hp.
  destruct Hs as [Hs|[_ (ha & h3 & -> & (h1 & h2 & -> & Hs & Hr) & Hx)]]; [congruence|].
  exists h1, h2, h3. by rewrite <- !app_assoc.
Qed.

(** ** Orders obeyed and orders lost *)

(** Happenings that neither end the process nor change the command file. *)
Definition harmless (h : happening) : Prop :=
  match h with
  | Run => True
  | Signal sig => disposition [SIGALRM] sig <> Terminate
  | Order _ => False
  end.
Fixpoint runs_of (hs : list happening) : nat :=
  match hs with [] => O | Run :: hs => S (runs_of hs) | _ :: hs => runs_of hs end.

(** A process that has been told to leave: the steps of its own that are left. *)
Definition told (p : proc) (n : nat) : Prop :=
  handlers p = [SIGALRM] /\
  ((at_place p = Woken /\ readable (cmdfile p) /\ exits (cmdfile p) = true /\ n = 3%nat) \/
   (status p <> 0 /\
    ((at_place p = Checking /\ n = 2%nat) \/
     ((exists s, at_place p = Deciding s /\ s <> 0) /\ n = 1%nat) \/ (at_place p = Left /\ n = 0%nat)))).

Lemma told_run p n : told p n -> told (advance p) (Nat.pred n).
Proof.
  intros [Hh [(Hw & Hf & Hx & ->)|[Hs [[Hc ->]|[[(s & Hd & Hz) ->]|[Hl ->]]]]]].
  - rewrite advance_woken, Hx by done. split; [done|]. right. cbn. auto.
  - unfold advance. rewrite Hc. split; [done|]. right. cbn. split; [done|]. right; left. split; [|done].
    by exists (status p).
  - unfold advance. rewrite Hd. split; [done|]. right. cbn. split; [done|]. do 2 right.
    split; [|done]. by rewrite (proj2 (Z.eqb_neq s 0)).
  - unfold advance. rewrite Hl. split; [done|]. right. cbn. auto.
Qed.

Lemma told_signal p n sig :
  told p n -> disposition [SIGALRM] sig <> Terminate -> told (deliver sig p) n.
Proof.
  intros Ht Hd. assert (Hcall : lcs_set_status (lcs_hdl_signal sig (status p)) p = p).
  { unfold lcs_hdl_signal, lcs_hdl_alrm. destruct p. by destruct (sig =? SIGALRM). }
  unfold deliver. rewrite Hcall. pose proof Ht as [Hh Hp]. rewrite Hh.
  destruct (disposition [SIGALRM] sig); try done; destruct (at_place p) eqn:E; try done.
  exfalso. naive_solver.
Qed.

Lemma told_exec hs : forall p n,
  told p n -> Forall harmless hs -> told (happens p hs) (n - runs_of hs)%nat.
Proof.
  induction hs as [|h hs IH]; intros p n Ht Hhs; inversion_clear Hhs as [|? ? Hh Hr].
  - cbn. by rewrite Nat.sub_0_r.
  - destruct h as [|sig|f']; [| |done]; cbn [runs_of happens fold_left happen].
    + replace (n - S _)%nat with (Nat.pred n - runs_of hs)%nat by lia.
      apply IH; [by apply told_run|done].
    + apply IH; [by apply told_signal|done].
Qed.

(** A command is obeyed: when an alarm finds the process in [pause] and the command file asks
    to leave, the process leaves its loop with the third of its next steps, whatever signals
    that do not end it come in between. *)
Lemma order_obeyed p hs :
  at_place p = Sleeping -> handlers p = [SIGALRM] -> readable (cmdfile p) ->
  exits (cmdfile p) = true -> Forall harmless hs -> (3 <= runs_of hs)%nat ->
  at_place (happens p (Signal SIGALRM :: hs)) = Left.
Proof.
  intros Hp Hh Hf Hx Hhs Hn. cbn [happens fold_left happen].
  assert (Hw : deliver SIGALRM p = moved p Woken).
  { unfold deliver. rewrite Hp, Hh. unfold disposition. rewrite decide_True by set_solver.
    unfold lcs_hdl_signal, lcs_hdl_alrm. by destruct p. }
  rewrite Hw. assert (Ht : told (moved p Woken) 3) by (split; [done|]; left; done).
  apply (told_exec hs _ _ Ht) in Hhs. replace (3 - runs_of hs)%nat with 0%nat in Hhs by lia.
  destruct Hhs as [_ [(_ & _ & _ & ?)|[_ [[_ ?]|[[_ ?]|[? _]]]]]]; done.
Qed.

(** Happenings by which nothing wakes the process. *)
Definition quiet (h : happening) : Prop :=
  match h with Signal sig => disposition [SIGALRM] sig = Ignore | _ => True end.

(** An alarm is lost: one that arrives between the look at the status and [pause], or just in
    front of the look, is handled and forgotten. However often the program goes on, and
    whatever is then written to the command file, the process stays in its loop until another
    alarm comes: what the file asks for is not read. *)
Lemma alarm_lost p hs :
  at_place p = Checking \/ at_place p = Deciding 0 -> status p = 0 ->
  handlers p = [SIGALRM] -> Forall quiet hs -> (2 <= runs_of hs)%nat ->
  at_place (happens p (Signal SIGALRM :: hs)) = Sleeping /\ status (happens p (Signal SIGALRM :: hs)) = 0.
Proof.
  intros Hp Hs Hh Hhs Hn. cbn [happens fold_left happen].
  assert (Hw : deliver SIGALRM p = p).
  { unfold deliver. rewrite Hh. unfold disposition. rewrite decide_True by set_solver.
    unfold lcs_hdl_signal, lcs_hdl_alrm. destruct Hp as [-> | ->]; cbn; by destruct p. }
  rewrite Hw. clear Hw.
  assert (Hgo : forall n, (n <= runs_of hs)%nat ->
    (at_place p = Checking /\ n = 2%nat) \/ (at_place p = Deciding 0 /\ n = 1%nat) \/ (at_place p = Sleeping /\ n = 0%nat) ->
    at_place (happens p hs) = Sleeping /\ status (happens p hs) = 0).
  2:{ destruct Hp; [apply (Hgo 2%nat)|apply (Hgo 1%nat)]; auto; lia. }
  clear Hp Hn. revert p Hs Hh. induction Hhs as [|h hs Hq _ IH]; intros p Hs Hh n Hn Hp.
  { cbn in *. naive_solver lia. }
  destruct h as [|sig|f']; cbn [runs_of happens fold_left happen] in *.
  - unfold advance.
    destruct Hp as [[Hp ->]|[[Hp ->]|[Hp ->]]]; rewrite Hp.
    + refine (IH (moved p _) Hs Hh 1%nat _ _); [lia|]. right; left. cbn. unfold lcs_get_status. by rewrite Hs.
    + refine (IH (moved p _) Hs Hh 0%nat _ _); [lia|]. cbn. auto.
    + refine (IH p Hs Hh 0%nat _ _); [lia|]. auto.
  - unfold deliver. cbn in Hq. rewrite Hh, Hq.
    destruct Hp as [[Hp ->]|[[Hp ->]|[Hp ->]]]; rewrite Hp; (refine (IH p Hs Hh _ Hn _); auto).
  - exact (IH (happen p (Order f')) Hs Hh n Hn Hp).
Qed.

(** C35: When an alarm counts: with a command file that asks to leave, an alarm that finds the process
    in [pause] makes it leave its loop with the third of its next steps, whatever signals that
    do not end it come in between; the same alarm in front of [pause], at the look at the status
    or between the look and the call, is handled and forgotten: however often the process goes
    on, whatever is written to the command file, and whatever signals come that the process
    ignores, it stays in its loop, asleep.  (Any other signal but the alarm ends it.) *)
Theorem alarm_in_time p hs :
  handlers p = [SIGALRM] -> status p = 0 -> readable (cmdfile p) -> exits (cmdfile p) = true ->
  (at_place p = Sleeping -> Forall harmless hs -> (3 <= runs_of hs)%nat ->
     at_place (happens p (Signal SIGALRM :: hs)) = Left) /\
  (at_place p = Checking \/ at_place p = Deciding 0 -> Forall quiet hs -> (2 <= runs_of hs)%nat ->
     at_place (happens p (Signal SIGALRM :: hs)) = Sleeping /\ status (happens p (Signal SIGALRM :: hs)) = 0).
Proof.
  intros Hh Hs Hf Hx. split.
  - intros Hp Hhs Hn. by apply order_obeyed.
  - intros Hp Hhs Hn. by apply alarm_lost.
Qed.

End Waiting.

(** ** The ends of the programs *)

Section Ends.
Context {w : World} `{TimeZone}.

(** A signal that no handler takes ends the process wherever it is in its loop. *)
Lemma exec_ended p sig hs : at_place p = Ended sig -> at_place (happens p hs) = Ended sig.
Proof.
  revert p. induction hs as [|h hs IH]; intros p Hp; [done|]. cbn [happens fold_left]. apply IH.
  destruct h; cbn [happen]; [unfold advance|unfold deliver|]; cbn; by rewrite Hp.
Qed.

(** C33: The manager reports success whatever went wrong, but only on command: with an argument,
    when it returns, it returns 0, and an alarm had found it waiting, with a command file that
    asked it to leave when it went on. *)
Theorem manager_returns argc arg1 sa fuel f hs tr code tr' :
  2 <= argc -> readable f -> Forall readable_order hs ->
  manager_main argc arg1 sa fuel f hs tr = Ok (Returned code, tr') ->
  code = 0 /\
  exists h1 h2 h3, hs = h1 ++ [Signal SIGALRM] ++ h2 ++ [Run] ++ h3 /\ Run ∉ h2 /\
    at_place (happens (waiting 0 f) h1) = Sleeping /\
    exits (cmdfile (happens (waiting 0 f) (h1 ++ [Signal SIGALRM] ++ h2))) = true.
Proof.
  intros Ha Hf Hhs. unfold manager_main. rewrite (proj2 (Z.ltb_ge _ _)) by done.
  intros (cfg & tr1 & _ & E)%io_bind_inv. apply io_bind_inv in E as (hd & tr2 & Hhd & E).
  apply io_bind_inv in E as ([p err] & tr3 & _ & E). apply io_bind_inv in E as (r & tr4 & _ & E).
  apply lift_inv in Hhd as [Hhd _]. apply lift_inv in E as [E _].
  assert (hd = [SIGALRM]) as ->.
  { unfold lcs_init_sig in Hhd. by destruct (sa <? 0); inversion Hhd. }
  fold (waiting 0 f) in E. unfold ending_of in E.
  destruct (at_place (happens (waiting 0 f) hs)) eqn:Ep; inversion E. split; [done|].
  by apply leaves_on_order.
Qed.

(** What the cleaning does: statements that drop the tables of the day. *)
Definition cleans (date : list byte) (e : event) : Prop :=
  match e with
  | EvConnect _ _ _ _ | EvClose => True
  | EvQuery q => q = str "SET NAMES 'utf8';" \/ q ∈ clear_tmp_queries date
  | _ => False
  end.

(** A computation that only adds events of one kind. *)
Definition adds (P : event -> Prop) {A} (m : io A) : Prop :=
  forall tr a tr', m tr = Ok (a, tr') -> exists ev, tr' = tr ++ ev /\ Forall P ev.

Lemma adds_bind P {A B} (m : io A) (k : A -> io B) : adds P m -> (forall a, adds P (k a)) -> adds P (m ≫= k).
Proof.
  intros Hm Hk tr b tr' (a & tr1 & H1 & H2)%io_bind_inv. apply Hm in H1 as (e1 & -> & F1).
  apply Hk in H2 as (e2 & -> & F2). exists (e1 ++ e2). rewrite <- app_assoc. split; [done|by apply Forall_app].
Qed.
Lemma adds_ret P {A} (a : A) : adds P (mret a : io A).
Proof. intros tr x tr' [= <- <-]. exists []. by rewrite app_nil_r. Qed.
Lemma adds_lift P {A} (m : res A) : adds P (lift m).
Proof. intros tr x tr' [_ ->]%lift_inv. exists []. by rewrite app_nil_r. Qed.
Lemma adds_ask P {A} (f : trace -> A) : adds P (ask f).
Proof. intros tr x tr' [= <- <-]. exists []. by rewrite app_nil_r. Qed.
Lemma adds_emit (P : event -> Prop) e : P e -> adds P (emit e).
Proof. intros He tr x tr' [= <- <-]. exists [e]. auto. Qed.
Create HintDb adds.
#[local] Hint Resolve adds_bind adds_ret adds_lift adds_ask : adds.

Lemma adds_query date con q : q = str "SET NAMES 'utf8';" \/ q ∈ clear_tmp_queries date -> adds (cleans date) (query con q).
Proof.
  intros Hq. unfold query. destruct con; [|auto with adds]. apply adds_bind; [auto with adds|intros r].
  apply adds_bind; [by apply adds_emit|auto with adds].
Qed.

Lemma adds_close date con : adds (cleans date) (Cluster.lcs_try_close con).
Proof. destruct con; [|apply adds_ret]. apply adds_bind; [by apply adds_emit|auto with adds]. Qed.

Lemma adds_connect date info err : adds (cleans date) (Cluster.lcs_try_connect info err).
Proof.
  unfold Cluster.lcs_try_connect. apply adds_bind; [auto with adds|intros [|]]; cbn [negb]; [|auto with adds].
  do 4 (apply adds_bind; [auto with adds|intros ?]). apply adds_bind; [auto with adds|intros [|]]; cbn [negb].
  - apply adds_bind; [by apply adds_emit|intros _]. apply adds_bind; [apply adds_query; by left|auto with adds].
  - apply adds_bind; [apply (adds_close _ true)|auto with adds].
Qed.

Lemma adds_exec date con size l qs : forall err,
  Forall (fun q => q ∈ clear_tmp_queries date) qs -> adds (cleans date) (exec_all con size l qs err).
Proof.
  induction qs as [|q qs IH]; intros err Hqs; cbn [exec_all]; [auto with adds|].
  inversion_clear Hqs as [|? ? Hq Hr]. intros tr a tr' (q' & tr1 & H1 & H2)%io_bind_inv.
  apply lift_inv in H1 as [[-> _]%fits_inv ->]. revert tr a tr' H2. fold (adds (cleans date) (query con q ≫= fun err =>
    if negb (err =? 0) then mret l else exec_all con size l qs err)).
  apply adds_bind; [apply adds_query; by right|intros e]. destruct (negb (e =? 0)); auto with adds.
Qed.

Lemma adds_clear date info err : adds (cleans date) (lcs_clear_tmp info date err).
Proof.
  unfold lcs_clear_tmp, exec_connected. apply adds_bind; [apply adds_connect|intros [con e]].
  apply adds_bind; [|intros e'; apply adds_bind; [apply adds_close|auto with adds]].
  destruct (negb (e =? 0)); [auto with adds|]. apply adds_exec. by apply Forall_forall.
Qed.

(** C36: How the export ends. Whatever signals and commands arrive in its loop, [main] has a
    result only when there is nothing to export: the result is the return with 0 or 1, the
    configuration was loaded, no call of the day was found, and from then on the program has done
    nothing but drop the tables of the day. On a day with calls there is no result, provided that
    the handler was registered: when directories, tables and the four blocks are made, the
    program follows the pointer of the first block to an object that is gone, and otherwise it
    ends with the fault it met while it made them; the circles, and with them their fuel, are
    never reached. *)
Theorem export_returns argc argv1 sa fuel f hs tr :
  (forall how tr', cluster_main argc argv1 sa fuel f hs tr = Ok (how, tr') ->
    (how = Returned 0 \/ how = Returned 1) /\
    exists path info date tr1 ev,
      argv1 = Some path /\ Cluster.lcs_init_app path tr = Ok (info, tr1) /\ inittime info = None /\
      text_of (i_cfg info) "date_01" = Ok date /\ tr' = tr1 ++ ev /\ Forall (cleans date) ev) /\
  (forall path info mile tr1, argv1 = Some path -> 0 <= sa ->
    Cluster.lcs_init_app path tr = Ok (info, tr1) -> inittime info = Some mile ->
    cluster_main argc argv1 sa fuel f hs tr
    = match start_blocks info (if argc <? 2 then 219 else 0) tr1 with
      | Ok _ => Fault DeadObject
      | Fault e => Fault e
      end).
Proof.
  split.
  - unfold cluster_main. intros how tr' (path & tr0 & H1 & H2)%io_bind_inv.
    apply io_bind_inv in H2 as (hd & tr2 & Hsig & H2). apply io_bind_inv in H2 as (info & tr1 & Hi & H2).
    apply lift_inv in H1 as [H1 ->]. apply lift_inv in Hsig as [_ ->].
    assert (argv1 = Some path) as -> by (destruct argv1; inversion H1; by subst).
    destruct (inittime info) eqn:Et.
    { apply io_bind_inv in H2 as (x & tr2 & Hx & _). apply io_bind_inv in Hx as (b & tr3 & Hb & _).
      rewrite start_bdata_faults in Hb. by destruct (start_blocks _ _ _). }
    rewrite io_bind_ret in H2. apply io_bind_inv in H2 as (date & tr2 & Hd & H2). apply lift_inv in Hd as [Hd ->].
    apply io_bind_inv in H2 as (e & tr2 & Hc & [= <- <-]). split; [destruct (e =? 0); auto|].
    apply (adds_clear date) in Hc as (ev & -> & Hev). by exists path, info, date, tr1, ev.
  - intros path info mile tr1 -> Hsa Hi Et. unfold cluster_main. rewrite (io_bind_lift _ _ _ path) by done.
    rewrite (io_bind_lift _ _ _ [SIGALRM]).
    2:{ unfold lcs_init_sig. by replace (sa <? 0) with false by (symmetry; apply Z.ltb_ge; lia). }
    rewrite (io_bind_ok _ _ _ _ _ Hi), Et.
    destruct (start_blocks info (if argc <? 2 then 219 else 0) tr1) as [x|e] eqn:Es;
      apply io_bind_fault, io_bind_fault; by rewrite start_bdata_faults, Es.
Qed.

End Ends.

(** ** Concrete runs *)

Module Runs.
#[local] Existing Instance indochina.
#[local] Instance wm : World := toy_world [(str "m.cfg", [])] (Some []) None None.

Definition order : FILE := {| f_tell := 8; f_bytes := LCS_EXIT; f_close := 0 |}.
(** The manager goes to sleep, a signal of a child and a command arrive, then the alarm. *)
Definition told_to_leave : list happening :=
  [Run; Run; Signal 17; Order (Some order); Signal SIGALRM; Run; Run; Run].
(** The alarm arrives in front of [pause]. *)
Definition told_too_early : list happening :=
  [Run; Order (Some order); Signal SIGALRM; Run; Run; Run].

Example leaves : manager_main 2 (str "m.cfg") 0 1 None told_to_leave [] = Ok (Returned 0, []).
Proof. vm_compute. reflexivity. Qed.
Example stays : manager_main 2 (str "m.cfg") 0 1 None told_too_early [] = Ok (Blocked, []).
Proof. vm_compute. reflexivity. Qed.
Example killed : manager_main 2 (str "m.cfg") 0 1 None [Run; Signal 15; Run] [] = Ok (Signalled 15, []).
Proof. vm_compute. reflexivity. Qed.

Lemma manager_returns_witness :
  exists h1 h2 h3, told_to_leave = h1 ++ [Signal SIGALRM] ++ h2 ++ [Run] ++ h3 /\ Run ∉ h2 /\
    at_place (happens (waiting 0 None) h1) = Sleeping.
Proof.
  destruct (manager_returns 2 (str "m.cfg") 0 1 None told_to_leave [] 0 []) as [_ (h1 & h2 & h3 & E & Hr & Hs & _)].
  - lia.
  - intros fp [=].
  - unfold told_to_leave.
    repeat (apply Forall_cons; split; [first [exact I | intros fp [= <-]; vm_compute; by split]|]).
    by apply Forall_nil.
  - vm_compute. reflexivity.
  - by exists h1, h2, h3.
Defined.

Definition asleep : proc := {| at_place := Sleeping; handlers := [SIGALRM]; status := 0; cmdfile := Some order |}.
Lemma alarm_in_time_witness :
  at_place (happens asleep [Signal SIGALRM; Run; Signal SIGALRM; Run; Signal 17; Run]) = Left /\
  at_place (happens (waiting 0 (Some order)) [Signal SIGALRM; Run; Signal 17; Run; Order (Some order); Run]) = Sleeping.
Proof.
  assert (Hr : readable (Some order)) by (intros fp [= <-]; vm_compute; by split). split.
  - apply (alarm_in_time asleep [Run; Signal SIGALRM; Run; Signal 17; Run]);
      [reflexivity|reflexivity|exact Hr|vm_compute; reflexivity|reflexivity| |cbn; lia].
    repeat constructor; cbn; vm_compute; discriminate.
  - apply (alarm_in_time (waiting 0 (Some order)) [Run; Signal 17; Run; Order (Some order); Run]);
      [reflexivity|reflexivity|exact Hr|vm_compute; reflexivity|by left| |cbn; lia].
    repeat constructor; vm_compute; reflexivity.
Defined.

(** The export of a day without calls. *)
#[local] Instance we : World :=
  toy_world [(str "e.cfg", file_of (map str ["server:s"; "db:d"; "step:60"; "date_0011:2017-10-29"]%string) [])]
    (Some []) None None.

Definition cleaned : trace :=
  Eval vm_compute in
  match cluster_main (w := we) 2 (Some (str "e.cfg")) 0 5 None [Signal 15; Run] [] with Ok (_, t) => t | Fault _ => [] end.

Lemma export_returns_witness :
  zlen cleaned = 15 /\
  exists info date tr1 ev, @Cluster.lcs_init_app we _ (str "e.cfg") [] = Ok (info, tr1) /\
    cleaned = tr1 ++ ev /\ Forall (cleans date) ev.
Proof.
  split; [vm_compute; reflexivity|].
  destruct (proj1 (export_returns (w := we) 2 (Some (str "e.cfg")) 0 5 None [Signal 15; Run] []) (Returned 0) cleaned)
    as (_ & path & info & date & tr1 & ev & Hp & Hi & _ & _ & Ht & Hev).
  - vm_compute. reflexivity.
  - injection Hp as <-. exists info, date, tr1, ev. split; [exact Hi|]. by split.
Defined.
End Runs.
