(* ===== verification/Insert.v ===== *)
(** * Loading exported files into a database

    Models src/cluster/insert_sqlite/main.c: for every table of its list the program reads
    the file [<table>.data] that an export wrote, splits each line at tabs and binds the
    parts to the columns of a prepared insertion.  A row that is stored is an event with the
    texts that were bound.

    The main theorem composes it with the export of Cluster.v: every row of a result set
    whose columns are not empty is stored with exactly the texts it was exported with. *)
From S2P Require Import Prelude CString OpenSSL World Config.
From S2P Require Import ToyWorld Calendar Cluster.
From S2P Require LcsCommon.

(** ** Definitions *)

Definition insert_members : list (string * Z) :=
  [("tables", 1024); ("targetdir", 1024); ("templatedir", 1024)]%string.

Record LCS_INSERT_TABLE_INFO := {
  t_table : list byte;
  t_db_path : list byte;
  t_data_path : list byte;
  t_format : list byte;
  t_context : bool       (** [fcb] is [lcs_insert_context] *)
}.

(** [SQLITE_DONE] *)
Definition SQLITE_DONE : Z := 101.

Section Insert.
Context `{World}.

Definition lcs_cfg_table : list entry :=
  [copy_to "tables" "tables_0001:"; copy_to "targetdir" "targetdir_0002:";
   copy_to "templatedir" "templatedir_0003:"].
Definition lcs_cfg_load (path : list byte) (info : cfg) (err : Z) : io (cfg * Z) :=
  cfg_load lcs_cfg_table path info err.

(** [LCS_FORMAT_COPY] *)
Definition lcs_prepare_env (info : cfg) : io unit :=
  templatedir ← lift (text_of info "templatedir");
  targetdir ← lift (text_of info "targetdir");
  cmd ← lift (fits 2048 (str "cp -f " ++ quoted templatedir ++ str "/lcs.db  " ++ quoted targetdir));
  lcs_bash_cmd cmd.

(** [LCS_FORMAT_INSERT] *)
Definition lcs_insert_format (root table : list byte) (err : Z) : io (option (list byte) * Z) :=
  path ← lift (fits 1024 (root ++ str "/" ++ table ++ str ".format.insert.sql"));
  lcs_file_text path None err.

(** [fgets(buffer, n + 1, fp)] on what is left of a file: the line, the rest, and whether the
    end was met. *)
Definition read_line (n : nat) (s : list byte) : list byte * list byte * bool :=
  let '(l, r) := fgets n s in
  (l, r, match r with
         | [] => negb (bool_decide (last l = Some nl)) && (length l <? n)%nat
         | _ => false
         end).

(** What is reported for an error: here the line of its test. *)
Definition at_line (n : Z) : Z -> Z := fun _ => n.

(** The loop over the parts of a line: the texts bound to the columns from [i] on. *)
Fixpoint bind_all (line : Z -> Z) (i : Z) (parts : list (list byte)) : io (list (list byte) * Z) :=
  match parts with
  | [] => mret ([], 0)
  | p :: parts =>
    e ← ask (fun tr => sqlite_bind tr i p);
    if negb (e =? 0) then mret ([], line e)
    else
      '(bound, err) ← bind_all line (i + 1) parts;
      mret (p :: bound, err)
  end.

(** A call whose result may be 0 or [SQLITE_DONE]. *)
Definition done_or (line : Z -> Z) (e : Z) : Z + Z :=
  if negb (e =? 0) && negb (e =? SQLITE_DONE) then inl (line e) else inr e.

(** One line: bind, step, clear, reset; [inl] is the error that ends the loop. *)
Definition report : Type := (Z -> Z) * (Z -> Z) * (Z -> Z) * (Z -> Z).
Definition insert_line (lines : report) (l : list byte) : io (Z + Z) :=
  let '(bindl, stepl, clearl, resetl) := lines in
  '(bound, err) ← bind_all bindl 1 (map snd (strtok [nl; x09] l));
  if negb (err =? 0) then mret (inl err)
  else
    e ← ask sqlite_step;
    _ ← emit (EvSqlStep bound);
    match done_or stepl e with
    | inl err => mret (inl err)
    | inr _ =>
      e ← ask sqlite_clear_bindings;
      match done_or clearl e with
      | inl err => mret (inl err)
      | inr _ => e ← ask sqlite_reset; mret (done_or resetl e)
      end
    end.

(** [while (!feof(fp))]: [n] is the number of characters a call of [fgets] reads at most. *)
Fixpoint insert_lines (fuel : nat) (lines : report) (n : nat) (s : list byte) (eof : bool)
    (err : Z) : io Z :=
  match fuel with
  | O => lift (Fault NoFuel)
  | S fuel =>
    if eof then mret err
    else
      let '(l, s, eof) := read_line n s in
      match upto0 l with
      | [] => insert_lines fuel lines n s eof err
      | l =>
        r ← insert_line lines l;
        match r with
        | inl err => mret err
        | inr err => insert_lines fuel lines n s eof err
        end
      end
  end.

(** A buffer of 8193 bytes; an error of a binding is reported with the line of the test
    behind the loop. *)
Definition lcs_insert_general (fuel : nat) (fp : FILE) (err : Z) : io Z :=
  insert_lines fuel (at_line 235, at_line 244, at_line 254, at_line 264) (Z.to_nat 8191) (f_bytes fp) false err.

(** A buffer of the size of the file, [fgets(buffer, sz, fp)]. *)
Definition lcs_insert_context (fuel : nat) (fp : FILE) (err : Z) : io Z :=
  let sz := wrap 32 (f_tell fp) in
  insert_lines fuel (at_line 431, at_line 447, at_line 457, at_line 467) (Z.to_nat (sz - 1)) (f_bytes fp) false err.

(** The statements from [sqlite3_open] to [sqlite3_finalize]: the error code. *)
Definition fetch_body (fuel : nat) (p : LCS_INSERT_TABLE_INFO) (fp : FILE) : io Z :=
  error ← ask (fun tr => sqlite_prepare tr (t_format p));
  _ ← emit (EvSqlPrepare (t_format p));
  if negb (error =? 0) then mret error
  else
    _ ← emit (EvSqlExec (str "BEGIN TRANSACTION"));
    error ← (if t_context p then lcs_insert_context fuel fp error
             else lcs_insert_general fuel fp error);
    if negb (error =? 0) then mret error
    else
      error ← ask (fun tr => (sqlite_exec tr (str "END TRANSACTION")).1);
      _ ← emit (EvSqlExec (str "END TRANSACTION"));
      if negb (error =? 0) then mret 171
      else
        error ← ask sqlite_finalize;
        if negb (error =? 0) then mret 180 else mret error.

(** The handle is closed whatever happened, and the result of [sqlite3_close] replaces the
    error code. *)
Definition fetch_file (body : LCS_INSERT_TABLE_INFO -> FILE -> io Z) (p : LCS_INSERT_TABLE_INFO) : io Z :=
  fp ← ask (fun tr => fopen_r tr (t_data_path p));
  match fp with
  | None => mret 0
  | Some fp =>
    '(error, handle) ← ask (fun tr => sqlite_open tr (t_db_path p));
    _ ← emit (EvSqlOpen (t_db_path p));
    error ← (if negb (error =? 0) then mret error else body p fp);
    if handle : bool then ask sqlite_close else mret error
  end.
Definition lcs_fetch_file (fuel : nat) : LCS_INSERT_TABLE_INFO -> io Z := fetch_file (fetch_body fuel).

(** [name] is an element of the list of tables, its 64 bytes; [noformat] is the error when there
    is no statement for it. *)
Fixpoint fetch_clist (fetch : LCS_INSERT_TABLE_INFO -> io Z) (noformat : Z) (info : cfg) (root : list (list byte)) (err : Z) : io Z :=
  match root with
  | [] => mret err
  | nm :: root =>
    templatedir ← lift (text_of info "templatedir");
    targetdir ← lift (text_of info "targetdir");
    name ← lift (cstr nm);
    '(format, err) ← lcs_insert_format templatedir name err;
    match format with
    | None => mret noformat
    | Some format =>
      table ← lift (fits 64 name);
      db_path ← lift (fits 1024 (targetdir ++ str "/lcs.db"));
      data_path ← lift (fits 1024 (targetdir ++ str "/" ++ name ++ str ".data"));
      fmt ← lift (cstr format);
      err ← fetch {| t_table := table; t_db_path := db_path;
                        t_data_path := data_path; t_format := fmt;
                        t_context := strcmp name (str "context") =? 0 |};
      if negb (err =? 0) then mret err else fetch_clist fetch noformat info root err
    end
  end.
Definition lcs_fetch_clist (fuel : nat) : cfg -> list (list byte) -> Z -> io Z :=
  fetch_clist (lcs_fetch_file fuel) 383.

(** The value [main] returns: 0 is [EXIT_SUCCESS]. *)
Definition main_with (clist : cfg -> list (list byte) -> Z -> io Z) (path : list byte) : io Z :=
  '(info, err) ← lcs_cfg_load path (cleared insert_members) 0;
  if negb (err =? 0) then mret 1
  else
    _ ← lcs_prepare_env info;
    tables ← lift (text_of info "tables" ≫= fits 1024);
    root ← lift (LcsCommon.lcs_cgen_list (strtok (str "," ++ [nl]) tables) []);
    err ← clist info root err;
    if negb (err =? 0) then mret 1 else mret 0.
Definition insert_main (fuel : nat) : list byte -> io Z := main_with (lcs_fetch_clist fuel).

End Insert.

(** ** Reading lines *)

Section Lines.
Context `{World}.

Lemma fgets_line n l s :
  nl ∉ l -> (length l < n)%nat -> fgets n (l ++ nl :: s) = (l ++ [nl], s).
Proof.
  revert n. induction l as [|b l IH]; intros [|n] Hn Hl; cbn [length app fgets] in *; try lia.
  - done.
  - apply not_elem_of_cons in Hn as [Hb Hn]. rewrite IH by (done || lia).
    destruct (b2z b =? 10) eqn:E; [|done]. b2p. destruct Hb. by apply b2z_inj.
Qed.

Lemma read_line_ok n l s :
  nl ∉ l -> (length l < n)%nat -> read_line n (l ++ nl :: s) = (l ++ [nl], s, false).
Proof.
  intros Hn Hl. unfold read_line. rewrite fgets_line by done. destruct s; [|done].
  by rewrite last_snoc.
Qed.

Lemma upto0_id s : no_nul s -> upto0 s = s.
Proof.
  unfold upto0. induction 1 as [|b s Hb _ IH]; [done|]. cbn [take_while].
  destruct (b2z b =? 0) eqn:E; cbn [negb]; [|by rewrite IH].
  b2p. destruct Hb. by apply b2z_inj.
Qed.

Definition cell_delims : list byte := [nl; x09].

Lemma strtok_only_delims d e off :
  Forall (fun b => is_delim d b = true) e -> strtok_all d e off None = [].
Proof.
  intros He. revert off. induction He as [|b e Hb _ IH]; intros off; cbn [strtok_all]; [done|].
  by rewrite Hb, IH.
Qed.

(** A line of parts that are not empty splits into these parts. *)
Lemma line_parts d cs e off :
  is_delim d tab = true -> Forall (fun b => is_delim d b = true) e ->
  Forall (fun c => c <> [] /\ Forall (fun b => is_delim d b = false) c) cs ->
  map snd (strtok_all d (concat (map (fun c => c ++ [tab]) cs) ++ e) off None) = cs.
Proof.
  intros Ht He Hc. revert off. induction Hc as [|c cs [Hne Hc] _ IH]; intros off.
  - cbn [map concat app]. by rewrite strtok_only_delims.
  - cbn [map concat]. rewrite <- !app_assoc. cbn [app]. rewrite strtok_token by done.
    cbn [map snd]. by rewrite IH.
Qed.

(** A cell that can be read back. *)
Definition cell_readable (c : option (list byte)) : Prop := cell c <> [] /\ no_nul (cell c).

Lemma cell_no_delim c : Forall (fun b => is_delim cell_delims b = false) (cell c).
Proof.
  eapply Forall_impl; [apply cell_clean|]. intros b. unfold is_delim, row_delims, cell_delims, nl.
  cbn [existsb]. rewrite !orb_false_iff. intuition.
Qed.

Lemma row_parts r e :
  Forall cell_readable r -> Forall (fun b => is_delim cell_delims b = true) e ->
  map snd (strtok cell_delims (line_of r ++ e)) = map cell r.
Proof.
  intros Hr He. unfold strtok, line_of. rewrite <- (map_map cell (fun c => c ++ [tab])).
  apply line_parts; [done|done|]. apply Forall_map. eapply Forall_impl; [exact Hr|].
  intros c [Hc _]. split; [done|apply cell_no_delim].
Qed.

Lemma row_no_nl r : nl ∉ line_of r.
Proof.
  induction r as [|c r IH]; [apply not_elem_of_nil|]. unfold line_of in *.
  cbn [map concat]. rewrite !elem_of_app. intros [[Hin|Hin]|Hin]; [| |done].
  - pose proof (cell_no_delim c) as Hc. eapply Forall_forall in Hc; [|exact Hin]. done.
  - by apply list_elem_of_singleton in Hin.
Qed.

Lemma row_no_nul r : Forall cell_readable r -> no_nul (line_of r).
Proof.
  unfold line_of. induction 1 as [|c r [_ Hc] _ IH]; [constructor|]. cbn [map concat].
  apply Forall_app. split; [|done]. apply Forall_app. split; [done|].
  constructor; [done|constructor].
Qed.

Lemma nl_line s : no_nul s -> no_nul (s ++ [nl]).
Proof. intros Hs. apply Forall_app. split; [done|]. constructor; [done|constructor]. Qed.

(** ** Storing rows *)

(** A database that accepts every statement. *)
Record accepting : Prop := {
  ac_open : forall tr p, sqlite_open tr p = (0, true);
  ac_prepare : forall tr q, sqlite_prepare tr q = 0;
  ac_exec : forall tr q, (sqlite_exec tr q).1 = 0;
  ac_bind : forall tr i t, sqlite_bind tr i t = 0;
  ac_step : forall tr, sqlite_step tr = SQLITE_DONE;
  ac_clear : forall tr, sqlite_clear_bindings tr = 0;
  ac_reset : forall tr, sqlite_reset tr = 0;
  ac_finalize : forall tr, sqlite_finalize tr = 0;
  ac_close : forall tr, sqlite_close tr = 0
}.

Lemma bind_all_ok line i parts tr :
  accepting -> bind_all line i parts tr = Ok ((parts, 0), tr).
Proof.
  intros Ha. revert i. induction parts as [|p parts IH]; intros i; [done|]. cbn [bind_all].
  rewrite io_bind_ask, (ac_bind Ha). cbn [Z.eqb negb].
  by rewrite (io_bind_ok _ _ _ _ _ (IH (i + 1))).
Qed.

Lemma insert_line_ok lines l tr :
  accepting ->
  insert_line lines l tr = Ok (inr 0, tr ++ [EvSqlStep (map snd (strtok cell_delims l))]).
Proof.
  intros Ha. destruct lines as [[[bl sl] cl] rl]. unfold insert_line, cell_delims.
  rewrite (io_bind_ok _ _ _ _ _ (bind_all_ok bl 1 _ tr Ha)). cbn [Z.eqb negb].
  rewrite io_bind_ask, (ac_step Ha), io_bind_emit. change (done_or sl _) with (@inr Z Z SQLITE_DONE).
  cbv beta iota. rewrite io_bind_ask, (ac_clear Ha). change (done_or cl _) with (@inr Z Z 0).
  cbv beta iota. by rewrite io_bind_ask, (ac_reset Ha).
Qed.

(** Rows that fit the buffer are stored one by one; one more round meets the end. *)
Lemma insert_lines_ok fuel lines n rows tr :
  accepting -> (0 < n)%nat -> (length rows + 2 <= fuel)%nat ->
  Forall (fun r => Forall cell_readable r /\ (length (line_of r) < n)%nat) rows ->
  insert_lines fuel lines n (text_of_rows rows) false 0 tr
  = Ok (0, tr ++ map (fun r => EvSqlStep (map cell r)) rows).
Proof.
  intros Ha Hn Hf Hr. revert fuel tr Hf. induction Hr as [|r rows [Hc Hl] _ IH]; intros fuel tr Hf.
  - destruct fuel as [|[|fuel]]; cbn [length] in Hf; try lia. unfold text_of_rows. cbn [map concat].
    assert (Hd : read_line n [] = ([], [], true)).
    { unfold read_line. destruct n; [lia|]. done. }
    cbn [insert_lines]. rewrite Hd. cbn. by rewrite app_nil_r.
  - destruct fuel as [|fuel]; cbn [length] in Hf; [lia|]. 
    assert (H3 : map snd (strtok cell_delims (line_of r ++ [nl])) = map cell r)
      by (apply row_parts; [done|constructor; [done|constructor]]).
    unfold text_of_rows. cbn [map concat]. rewrite <- app_assoc. cbn [app insert_lines].
    rewrite read_line_ok by (apply row_no_nl || done).
    rewrite upto0_id by (by apply nl_line, row_no_nul).
    destruct (line_of r ++ [nl]) as [|b l] eqn:E; [by destruct (line_of r)|]. rewrite <- E in *.
    rewrite (io_bind_ok _ _ _ _ _ (insert_line_ok lines _ tr Ha)), H3.
    fold (text_of_rows rows). rewrite IH by lia. cbn [map]. by rewrite <- app_assoc.
Qed.

Lemma text_of_rows_length rows :
  Forall (fun r => (length (line_of r) < length (text_of_rows rows))%nat) rows.
Proof.
  unfold text_of_rows. induction rows as [|r rows IH]; constructor.
  - cbn [map concat]. rewrite !length_app. cbn. lia.
  - eapply Forall_impl; [exact IH|]. intros x Hx. cbn [map concat]. cbn beta in Hx.
    rewrite !length_app. lia.
Qed.

(** The buffer of a file of two or more rows holds every line. *)
Lemma context_lines rows :
  (2 <= length rows)%nat ->
  Forall (fun r => (length (line_of r) < length (text_of_rows rows) - 1)%nat) rows.
Proof.
  destruct rows as [|a [|b rows]]; cbn [length]; try lia. intros _. unfold text_of_rows.
  repeat constructor; cbn [map concat]; rewrite ?length_app; cbn [length]; try lia.
  eapply Forall_impl; [apply (text_of_rows_length rows)|]. intros x Hx. cbn beta in Hx.
  unfold text_of_rows in Hx. lia.
Qed.

(** The events of a file that is stored. *)
Definition stored (p : LCS_INSERT_TABLE_INFO) (steps : list (list (list byte))) : trace :=
  [EvSqlOpen (t_db_path p); EvSqlPrepare (t_format p); EvSqlExec (str "BEGIN TRANSACTION")] ++
  map EvSqlStep steps ++ [EvSqlExec (str "END TRANSACTION")].

Lemma fetch_steps fuel p fp steps tr :
  accepting -> fopen_r tr (t_data_path p) = Some fp ->
  (forall tr, (if t_context p then lcs_insert_context fuel fp 0 else lcs_insert_general fuel fp 0) tr
              = Ok (0, tr ++ map EvSqlStep steps)) ->
  lcs_fetch_file fuel p tr = Ok (0, tr ++ stored p steps).
Proof.
  intros Ha Hf Hin. unfold lcs_fetch_file, fetch_file. rewrite io_bind_ask, Hf.
  rewrite io_bind_ask, (ac_open Ha), io_bind_emit. cbn [Z.eqb negb].
  assert (Hbody : forall tr, fetch_body fuel p fp tr = Ok (0, tr ++ [EvSqlPrepare (t_format p);
            EvSqlExec (str "BEGIN TRANSACTION")] ++ map EvSqlStep steps ++
            [EvSqlExec (str "END TRANSACTION")])).
  { clear tr Hf. intros tr. unfold fetch_body.
    rewrite io_bind_ask, (ac_prepare Ha), io_bind_emit. cbn [Z.eqb negb].
    rewrite io_bind_emit, (io_bind_ok _ _ _ _ _ (Hin _)). cbn [Z.eqb negb].
    rewrite io_bind_ask, (ac_exec Ha), io_bind_emit. cbn [Z.eqb negb].
    rewrite io_bind_ask, (ac_finalize Ha). cbn [Z.eqb negb]. unfold mret, io_ret.
    by rewrite <- !app_assoc. }
  rewrite (io_bind_ok _ _ _ _ _ (Hbody _)). unfold ask. rewrite (ac_close Ha).
  unfold stored. by rewrite <- !app_assoc.
Qed.

Lemma lcs_fetch_file_ok fuel p fp rows tr :
  accepting -> fopen_r tr (t_data_path p) = Some fp -> regular fp ->
  f_bytes fp = text_of_rows rows ->
  Forall (Forall cell_readable) rows ->
  (if t_context p then 2 <= zlen rows else Forall (fun r => zlen (line_of r) < 8191) rows) ->
  (length rows + 2 <= fuel)%nat ->
  lcs_fetch_file fuel p tr = Ok (0, tr ++ stored p (map (map cell) rows)).
Proof.
  intros Ha Hf [Ht Hz] Hb Hc Hl Hfu. apply (fetch_steps _ _ fp); [done|done|].
  clear tr Hf. intros tr. unfold lcs_insert_context, lcs_insert_general. rewrite Hb, map_map.
  destruct (t_context p).
  - pose proof (zlen_nonneg (text_of_rows rows)). rewrite Hb in Ht, Hz.
    assert (H2 : (2 <= length rows)%nat) by (unfold zlen in Hl; lia).
    pose proof (context_lines rows H2) as Hx. unfold wrap. rewrite Ht, Z.mod_small by lia.
    assert (Hn : Z.to_nat (zlen (text_of_rows rows) - 1) = (length (text_of_rows rows) - 1)%nat)
      by (unfold zlen; lia).
    rewrite Hn. apply insert_lines_ok; [done| |done|].
    + destruct rows as [|r rows]; [cbn in H2; lia|]. apply Forall_cons in Hx as [Hx _]. lia.
    + apply Forall_and. by split.
  - apply insert_lines_ok; [done|lia|done|]. apply Forall_and. split; [done|].
    eapply Forall_impl; [exact Hl|]. intros r Hr. cbn beta in *. unfold zlen in Hr. lia.
Qed.

(** ** Export and insertion *)

(** C5: The rows a circle exports are stored in the database as they were exported: when
    every column fits the buffers, has a character to export and no row is longer than the
    line buffer, the insertion binds and steps every row once, in the order of the result,
    with the text each column was exported as, between the begin and the end of one
    transaction. *)
Theorem export_insert (info : LCS_MYSQL_INFO) (p : LCS_GET_TABLE_INFO) rows dir fuel q tr :
  accepting -> reads_back -> (forall tr path, fopen_w tr path = true) ->
  text_of (i_cfg info) "current_dir" = Ok dir -> zlen (dir ++ out_file p) < 1024 ->
  cells_fit rows -> Forall (Forall cell_readable) rows ->
  Forall (fun r => zlen (line_of r) < 8191) rows -> zlen (text_of_rows rows) < 2 ^ 32 - 1 ->
  t_data_path q = dir ++ out_file p -> t_context q = false -> (length rows + 2 <= fuel)%nat ->
  ('(p', err) ← lcs_try_fetch info p rows 0;
   err' ← lcs_fetch_file fuel q;
   mret (total p', err, err')) tr
  = Ok ((total p + zlen rows, 0, 0),
        tr ++ [EvWrite (dir ++ out_file p) (text_of_rows rows)] ++
              stored q (map (map cell) rows)).
Proof.
  intros Ha Hb Hw Hd Hl Hf Hc Hlines Hz Hq Hcon Hfu. unfold lcs_try_fetch.
  rewrite io_bind_assoc, (io_bind_lift _ _ _ _ Hd).
  rewrite io_bind_assoc, (io_bind_lift _ _ _ _ (fits_ok _ _ Hl)), io_bind_assoc, io_bind_ask, Hw.
  cbn [negb]. rewrite io_bind_assoc, (io_bind_lift _ _ _ _ (export_rows_ok rows Hf)).
  rewrite io_bind_assoc, io_bind_emit, io_bind_ret.
  destruct (Hb tr (dir ++ out_file p) (text_of_rows rows)) as (fp & Hfp & Hby & Hte).
  erewrite io_bind_ok; [|apply (lcs_fetch_file_ok fuel q fp rows)]; [|done|by rewrite Hq| |done|done| |done].
  - unfold mret, io_ret. cbn [total]. by rewrite <- !app_assoc.
  - unfold regular. by rewrite Hby, Hte.
  - by rewrite Hcon.
Qed.

(** ** The context table *)

(** One round that reads [l] without meeting the end. *)
Lemma insert_lines_step fuel lines n s l rest tr :
  accepting -> read_line n s = (l, rest, false) -> no_nul l -> l <> [] ->
  insert_lines (S fuel) lines n s false 0 tr
  = insert_lines fuel lines n rest false 0
      (tr ++ [EvSqlStep (map snd (strtok cell_delims l))]).
Proof.
  intros Ha Hr Hn Hl. cbn [insert_lines]. rewrite Hr, upto0_id by done.
  destruct l as [|b l]; [done|]. by rewrite (io_bind_ok _ _ _ _ _ (insert_line_ok lines _ tr Ha)).
Qed.

(** [fgets] with room for a line but not for its end. *)
Lemma fgets_short l s : nl ∉ l -> fgets (length l) (l ++ s) = (l, s).
Proof.
  intros Hn. induction l as [|b l IH]; [by destruct s|]. cbn [length app fgets].
  apply not_elem_of_cons in Hn as [Hb Hn]. rewrite IH by done.
  destruct (b2z b =? 10) eqn:E; [|done]. b2p. destruct Hb. by apply b2z_inj.
Qed.

Lemma single_line fuel lines r tr :
  accepting -> Forall cell_readable r -> r <> [] -> (4 <= fuel)%nat ->
  insert_lines fuel lines (length (line_of r)) (line_of r ++ [nl]) false 0 tr
  = Ok (0, tr ++ map EvSqlStep [map cell r; []]).
Proof.
  intros Ha Hr Hne Hf. destruct fuel as [|[|[|[|fuel]]]]; try lia.
  assert (Hpos : (0 < length (line_of r))%nat).
  { destruct r as [|c r]; [done|]. unfold line_of. cbn [map concat]. rewrite !length_app. cbn. lia. }
  rewrite (insert_lines_step _ _ _ _ (line_of r) [nl]); [| done | | by apply row_no_nul |].
  3:{ intros E. rewrite E in Hpos. cbn in Hpos. lia. }
  2:{ unfold read_line. by rewrite fgets_short by apply row_no_nl. }
  pose proof (row_parts r [] Hr (Forall_nil_2 _)) as Hp. rewrite app_nil_r in Hp. rewrite Hp.
  destruct (length (line_of r)) as [|n]; [lia|].
  rewrite (insert_lines_step _ _ _ _ [nl] []); [|done|done|by repeat constructor|done].
  cbn. unfold mret, io_ret. by rewrite <- app_assoc.
Qed.

(** The buffer for the context table has the size of its file.  Two rows or more are stored
    like those of any table, at any length.  A single row fills the buffer before its line
    end, so that a second, empty row is stored behind it; and for an empty file the call has
    no room to read anything, the end of the file is never met, and the loop does not end
    however long it runs. *)
Theorem context_rows p fp rows tr fuel :
  accepting -> fopen_r tr (t_data_path p) = Some fp -> regular fp ->
  f_bytes fp = text_of_rows rows -> t_context p = true ->
  Forall (Forall cell_readable) rows -> Forall (fun r => r <> []) rows ->
  (length rows + 3 <= fuel)%nat ->
  lcs_fetch_file fuel p tr =
  match rows with
  | [] => Fault NoFuel
  | [r] => Ok (0, tr ++ stored p [map cell r; []])
  | _ => Ok (0, tr ++ stored p (map (map cell) rows))
  end.
Proof.
  intros Ha Hf Hreg Hb Hc Hr Hne Hfu. pose proof Hreg as [Ht Hz]. destruct rows as [|r [|r' rows]].
  - unfold lcs_fetch_file, fetch_file. rewrite io_bind_ask, Hf, io_bind_ask, (ac_open Ha), io_bind_emit.
    cbn [Z.eqb negb]. apply io_bind_fault. unfold fetch_body.
    rewrite io_bind_ask, (ac_prepare Ha), io_bind_emit. cbn [Z.eqb negb].
    rewrite io_bind_emit, Hc. apply io_bind_fault. unfold lcs_insert_context. rewrite Ht, Hb.
    change (wrap 32 (zlen (text_of_rows []))) with 0. change (text_of_rows []) with (@nil byte).
    clear Hf Hfu. generalize (((tr ++ [EvSqlOpen (t_db_path p)]) ++ [EvSqlPrepare (t_format p)]) ++
      [EvSqlExec (str "BEGIN TRANSACTION")]).
    induction fuel as [|fuel IH]; intros t; [done|exact (IH t)].
  - apply Forall_cons in Hr as [Hr _]. apply Forall_cons in Hne as [Hne _].
    apply (fetch_steps _ _ fp); [done|done|].
    clear tr Hf. intros tr. rewrite Hc. unfold lcs_insert_context. rewrite Ht.
    assert (Hx : f_bytes fp = line_of r ++ [nl]) by (rewrite Hb; apply app_nil_r).
    rewrite Hx in *. pose proof (zlen_nonneg (line_of r ++ [nl])). unfold wrap.
    rewrite Z.mod_small by lia.
    assert (Hn : Z.to_nat (zlen (line_of r ++ [nl]) - 1) = length (line_of r)).
    { unfold zlen. rewrite length_app. cbn. lia. }
    rewrite Hn. cbn [length] in Hfu. apply single_line; [assumption..|lia].
  - apply (lcs_fetch_file_ok fuel p fp (r :: r' :: rows)); [assumption..| |].
    + rewrite Hc. unfold zlen. cbn [length]. lia.
    + lia.
Qed.

End Lines.

(** ** A concrete export *)

Module Sample.
#[local] Existing Instance Day.world.

Definition rows : list row :=
  [[Some (str "7"); None; Some (str "two words")]; [Some [x01]; Some []; Some (str "x")]].
Definition q : LCS_INSERT_TABLE_INFO :=
  {| t_table := str "cdr"; t_db_path := str "/w/lcs.db";
     t_data_path := str "/w/s/d/2017/10/29/08/15/cdr.data"; t_format := str "insert ...";
     t_context := false |}.

Lemma world_accepting : accepting.
Proof. by split. Qed.

Lemma export_insert_witness :
  ('(p', err) ← lcs_try_fetch Day.info (Day.block "cdr") rows 0;
   err' ← lcs_fetch_file 4 q;
   mret (total p', err, err')) []
  = Ok ((2, 0, 0),
        [EvWrite (t_data_path q) (text_of_rows rows)] ++
        stored q [[str "7"; str "NULL"; str "two words"]; [str "true"; str "NULL"; str "x"]]).
Proof.
  apply (export_insert Day.info (Day.block "cdr") rows (str "/w/s/d/2017/10/29/08/15/") 4 q []).
  - exact world_accepting.
  - apply toy_reads_back.
  - done.
  - by vm_compute.
  - reflexivity.
  - by repeat constructor.
  - repeat constructor; discriminate.
  - by repeat constructor.
  - reflexivity.
  - reflexivity.
  - reflexivity.
  - cbn. lia.
Defined.

Definition ctx : LCS_INSERT_TABLE_INFO :=
  {| t_table := str "context"; t_db_path := str "lcs.db"; t_data_path := str "context.data";
     t_format := str "insert ..."; t_context := true |}.
Definition ctx_world : World :=
  toy_world [(str "context.data", text_of_rows [[Some (str "a"); Some (str "b")]])] None None None.

Lemma context_rows_witness :
  @lcs_fetch_file ctx_world 4 ctx [] = Ok (0, stored ctx [[str "a"; str "b"]; []]).
Proof.
  apply (@context_rows ctx_world ctx
    {| f_tell := 5; f_bytes := text_of_rows [[Some (str "a"); Some (str "b")]]; f_close := 0 |}
    [[Some (str "a"); Some (str "b")]] [] 4).
  - by split.
  - reflexivity.
  - by split.
  - reflexivity.
  - reflexivity.
  - repeat constructor; discriminate.
  - by repeat constructor.
  - cbn. lia.
Defined.

(** The program on a configuration of its own. *)
Definition main_world : World :=
  toy_world [(str "insert.cfg", str "tables_0001:cdr" ++ [nl] ++ str "targetdir_0002:/w" ++ [nl] ++
                str "templatedir_0003:/t" ++ [nl]);
             (str "/t/cdr.format.insert.sql", str "insert into cdr values(?);");
             (str "/w/cdr.data", str "one" ++ [tab; nl])] None None None.
Example main_stores :
  (@insert_main main_world 5 (str "insert.cfg") [])
  = Ok (0, [EvPopen (str "cp -f " ++ quoted (str "/t") ++ str "/lcs.db  " ++ quoted (str "/w"));
            EvSqlOpen (str "/w/lcs.db"); EvSqlPrepare (str "insert into cdr values(?);");
            EvSqlExec (str "BEGIN TRANSACTION"); EvSqlStep [str "one"];
            EvSqlExec (str "END TRANSACTION")]).
Proof. vm_compute. reflexivity. Qed.
End Sample.
