(* ===== verification/Moving.v ===== *)
(** * The other insertion

    Models src/cluster/moving/main.c, an older copy of the insertion of Insert.v.  It differs
    in the errors: it passes on the codes of the library where insert_sqlite reports the line
    of the test, and between the end of the lines and the end of the transaction it does not
    look at them.

    Where the database accepts everything the two programs do the same and end the same way
    ([moving_inserts]).  Where a row is refused, moving ends the transaction and reports what
    closing the database reports ([moving_hides]). *)
From S2P Require Import Prelude CString OpenSSL World ToyWorld Config.
From S2P Require Import Insert Cluster.

(** ** Definitions *)

Definition passed_on : Z -> Z := fun e => e.
Definition passed : report := (passed_on, passed_on, passed_on, passed_on).

Section Moving.
Context `{World}.

Definition moving_general (fuel : nat) (fp : FILE) (err : Z) : io Z :=
  insert_lines fuel passed (Z.to_nat 8191) (f_bytes fp) false err.
Definition moving_context (fuel : nat) (fp : FILE) (err : Z) : io Z :=
  let sz := wrap 32 (f_tell fp) in
  insert_lines fuel passed (Z.to_nat (sz - 1)) (f_bytes fp) false err.

(** The error of the lines is replaced by that of the end of the transaction. *)
Definition moving_body (fuel : nat) (p : LCS_INSERT_TABLE_INFO) (fp : FILE) : io Z :=
  error ← ask (fun tr => sqlite_prepare tr (t_format p));
  _ ← emit (EvSqlPrepare (t_format p));
  if negb (error =? 0) then mret error
  else
    _ ← emit (EvSqlExec (str "BEGIN TRANSACTION"));
    _ ← (if t_context p then moving_context fuel fp error else moving_general fuel fp error);
    error ← ask (fun tr => (sqlite_exec tr (str "END TRANSACTION")).1);
    _ ← emit (EvSqlExec (str "END TRANSACTION"));
    if negb (error =? 0) then mret error else ask sqlite_finalize.
Definition moving_file (fuel : nat) : LCS_INSERT_TABLE_INFO -> io Z := fetch_file (moving_body fuel).
Definition moving_clist (fuel : nat) : cfg -> list (list byte) -> Z -> io Z :=
  fetch_clist (moving_file fuel) 1.
Definition moving_main (fuel : nat) : list byte -> io Z := main_with (moving_clist fuel).

(** ** Where everything is accepted *)

(** The reports do not matter then. *)
Lemma lines_reports fuel l1 l2 n s eof err tr :
  accepting -> insert_lines fuel l1 n s eof err tr = insert_lines fuel l2 n s eof err tr.
Proof.
  intros Ha. revert s eof err tr. induction fuel as [|fuel IH]; intros s eof err tr; [done|]. cbn [insert_lines].
  destruct eof; [done|]. destruct (read_line n s) as [[l s'] eof']. destruct (upto0 l) as [|b l']; [apply IH|].
  rewrite !(io_bind_ok _ _ _ _ _ (insert_line_ok _ _ _ Ha)). apply IH.
Qed.

(** Under these answers a loop that ends leaves no error. *)
Lemma lines_no_error fuel lines n s eof tr e tr' :
  accepting -> insert_lines fuel lines n s eof 0 tr = Ok (e, tr') -> e = 0.
Proof.
  intros Ha. revert s eof tr. induction fuel as [|fuel IH]; intros s eof tr; [done|]. cbn [insert_lines].
  destruct eof; [by intros [= <- <-]|]. destruct (read_line n s) as [[l s'] eof']. destruct (upto0 l) as [|b l']; [apply IH|].
  rewrite (io_bind_ok _ _ _ _ _ (insert_line_ok _ _ _ Ha)). apply IH.
Qed.

Lemma moving_file_eq fuel p tr : accepting -> moving_file fuel p tr = lcs_fetch_file fuel p tr.
Proof.
  intros Ha. unfold moving_file, lcs_fetch_file, fetch_file. rewrite !io_bind_ask.
  destruct (fopen_r tr (t_data_path p)) as [fp|]; [|done].
  rewrite !io_bind_ask, (ac_open Ha), !io_bind_emit. cbn [Z.eqb negb].
  assert (Hbody : forall t, moving_body fuel p fp t = fetch_body fuel p fp t).
  { intros t. unfold moving_body, fetch_body. rewrite !io_bind_ask, (ac_prepare Ha), !io_bind_emit.
    cbn [Z.eqb negb]. rewrite !io_bind_emit.
    set (t' := _ ++ [EvSqlExec _]). clearbody t'.
    assert (Hl : (if t_context p then moving_context fuel fp 0 else moving_general fuel fp 0) t'
      = (if t_context p then lcs_insert_context fuel fp 0 else lcs_insert_general fuel fp 0) t')
      by (destruct (t_context p); by apply lines_reports).
    destruct ((if t_context p then lcs_insert_context fuel fp 0 else lcs_insert_general fuel fp 0) t') as [[e t2]|f] eqn:E.
    2:{ by rewrite (io_bind_fault _ _ _ _ E), (io_bind_fault _ _ _ _ Hl). }
    assert (e = 0) as -> by (destruct (t_context p); by eapply lines_no_error).
    rewrite (io_bind_ok _ _ _ _ _ E), (io_bind_ok _ _ _ _ _ Hl). cbn [Z.eqb negb].
    rewrite !io_bind_ask, (ac_exec Ha), !io_bind_emit. cbn [Z.eqb negb].
    rewrite io_bind_ask. unfold ask. by rewrite (ac_finalize Ha). }
  destruct (fetch_body fuel p fp (tr ++ [EvSqlOpen (t_db_path p)])) as [[e t]|f] eqn:E.
  - by rewrite (io_bind_ok _ _ _ _ _ E), (io_bind_ok _ _ _ _ _ (eq_trans (Hbody _) E)).
  - by rewrite (io_bind_fault _ _ _ _ E), (io_bind_fault _ _ _ _ (eq_trans (Hbody _) E)).
Qed.

(** Two runs that do the same and agree on whether there was an error. *)
Definition same_outcome (a b : res (Z * trace)) : Prop :=
  match a, b with
  | Ok (x, t), Ok (y, u) => (x = 0 <-> y = 0) /\ t = u
  | Fault f, Fault g => f = g
  | _, _ => False
  end.
Lemma same_refl a : same_outcome a a.
Proof. by destruct a as [[x t]|f]. Qed.
Lemma same_bind {A} (m1 m2 : io A) (k1 k2 : A -> io Z) tr :
  m1 tr = m2 tr -> (forall a t, same_outcome (k1 a t) (k2 a t)) -> same_outcome ((m1 ≫= k1) tr) ((m2 ≫= k2) tr).
Proof. intros Hm Hk. unfold mbind, io_bind. rewrite Hm. destruct (m2 tr) as [[a t]|f]; [apply Hk|done]. Qed.

Lemma bind_cong {A B} (m : io A) (k1 k2 : A -> io B) tr :
  (forall a t, k1 a t = k2 a t) -> (m ≫= k1) tr = (m ≫= k2) tr.
Proof. intros Hk. unfold mbind, io_bind. by destruct (m tr) as [[a t]|f]. Qed.

Lemma clist_same fetch1 fetch2 n1 n2 info root err tr :
  (forall p tr, fetch1 p tr = fetch2 p tr) -> n1 <> 0 -> n2 <> 0 ->
  same_outcome (fetch_clist fetch1 n1 info root err tr) (fetch_clist fetch2 n2 info root err tr).
Proof.
  intros Hf H1 H2. revert err tr. induction root as [|nm root IH]; intros err tr; [apply same_refl|]. cbn [fetch_clist].
  do 3 (apply same_bind; [done|]; intros ? ?). apply same_bind; [done|]. intros [[format|] err'] t'; [|done].
  do 4 (apply same_bind; [done|]; intros ? ?). apply same_bind; [apply Hf|]. intros e u.
  destruct (e =? 0); [apply IH|apply same_refl].
Qed.

(** C39: Where the database accepts every statement, the two insertions are the same program: on any
    configuration, with the files there or missing, they run the same commands and statements
    in the same order and return the same value. *)
Theorem moving_inserts fuel path tr : accepting -> moving_main fuel path tr = insert_main fuel path tr.
Proof.
  intros Ha. assert (Hs : forall info root err t,
    same_outcome (moving_clist fuel info root err t) (lcs_fetch_clist fuel info root err t)).
  { intros. apply clist_same; [intros p t'; by apply moving_file_eq|done|done]. }
  unfold moving_main, insert_main, main_with. apply bind_cong. intros [info err] t1.
  destruct (negb (err =? 0)); [done|]. do 3 (apply bind_cong; intros ? ?).
  match goal with |- (moving_clist _ _ ?root _ ≫= _) ?t = _ => pose proof (Hs info root err t) as Hr end.
  unfold same_outcome in Hr. unfold mbind, io_bind.
  destruct (moving_clist _ _ _ _ _) as [[x t']|f], (lcs_fetch_clist _ _ _ _ _) as [[y u]|g];
    try done; [|by subst]. destruct Hr as [Hxy ->].
  destruct (x =? 0) eqn:E1, (y =? 0) eqn:E2; b2p; try done; exfalso; tauto.
Qed.

(** ** Where a row is refused *)

Lemma fgets_rest n s : (length (fgets n s).2 <= length s)%nat.
Proof.
  revert s. induction n as [|n IH]; intros [|b s]; cbn [fgets]; try done.
  destruct (b2z b =? 10); [cbn; lia|]. specialize (IH s). destruct (fgets n s) as [l r]. cbn in *. lia.
Qed.
Lemma fgets_progress n b s : (length (fgets (S n) (b :: s)).2 < length (b :: s))%nat.
Proof.
  cbn [fgets]. destruct (b2z b =? 10); [cbn; lia|]. pose proof (fgets_rest n s).
  destruct (fgets n s) as [l r]. cbn in *. lia.
Qed.

Definition steps_only (t : trace) : Prop := Forall (fun e => exists r, e = EvSqlStep r) t.

Lemma bind_all_ends line i parts tr : exists r, bind_all line i parts tr = Ok (r, tr).
Proof.
  revert i. induction parts as [|p parts IH]; intros i; [by eexists|]. cbn [bind_all]. rewrite io_bind_ask.
  destruct (negb (sqlite_bind tr i p =? 0)); [by eexists|]. destruct (IH (i + 1)) as [[bound e] Hr].
  rewrite (io_bind_ok _ _ _ _ _ Hr). by eexists.
Qed.
Lemma insert_line_ends lines l tr :
  exists r steps, insert_line lines l tr = Ok (r, tr ++ steps) /\ steps_only steps.
Proof.
  destruct lines as [[[bl sl] cl] rl]. unfold insert_line.
  destruct (bind_all_ends bl 1 (map snd (strtok [nl; x09] l)) tr) as [[bound e] Hb].
  rewrite (io_bind_ok _ _ _ _ _ Hb). destruct (negb (e =? 0)).
  { exists (inl e), []. rewrite app_nil_r. by split; [|constructor]. }
  rewrite io_bind_ask, io_bind_emit.
  assert (Hs : steps_only [EvSqlStep bound]) by (constructor; [by eexists|constructor]).
  destruct (done_or sl _); [by eexists _, _|]. rewrite io_bind_ask.
  destruct (done_or cl _); [by eexists _, _|]. rewrite io_bind_ask. by eexists _, _.
Qed.

(** A loop that has room to read ends, whatever the database answers. *)
Lemma insert_lines_end fuel lines n s err tr :
  (length s + 2 <= fuel)%nat ->
  exists e steps, insert_lines fuel lines (S n) s false err tr = Ok (e, tr ++ steps) /\ steps_only steps.
Proof.
  revert s err tr. induction fuel as [|fuel IH]; intros s err tr Hf; [lia|]. cbn [insert_lines].
  destruct (read_line (S n) s) as [[l s'] eof] eqn:E. unfold read_line in E.
  assert (Hnext : forall err tr, exists e steps,
    insert_lines fuel lines (S n) s' eof err tr = Ok (e, tr ++ steps) /\ steps_only steps).
  { intros err' tr'. destruct s as [|b s].
    - cbn in E. injection E as <- <- <-. destruct fuel as [|fuel]; [cbn in Hf; lia|].
      exists err', []. cbn. rewrite app_nil_r. by split; [|constructor].
    - pose proof (fgets_progress n b s) as Hp. destruct (fgets (S n) (b :: s)) as [l' r']. cbn [snd] in Hp.
      injection E as <- <- <-. destruct (match r' with [] => _ | _ => _ end) eqn:Ee.
      + destruct fuel as [|fuel]; [cbn in Hf; lia|]. exists err', []. cbn. rewrite app_nil_r. by split; [|constructor].
      + apply IH. lia. }
  destruct (upto0 l) as [|b l']; [apply Hnext|].
  destruct (insert_line_ends lines (b :: l') tr) as (r & st1 & Hl & S1). rewrite (io_bind_ok _ _ _ _ _ Hl).
  destruct r as [e|e].
  - by exists e, st1.
  - destruct (Hnext e (tr ++ st1)) as (e' & st2 & H2 & S2). exists e', (st1 ++ st2).
    rewrite H2, app_assoc. split; [done|]. by apply Forall_app.
Qed.

(** A row that is refused: whatever the database answers to the rows of a file, moving stores
    those before the error, ends the transaction, and reports that nothing went wrong, as long
    as the transaction can be ended and the database closed. *)
Theorem moving_hides fuel p fp tr :
  fopen_r tr (t_data_path p) = Some fp -> t_context p = false -> (length (f_bytes fp) + 2 <= fuel)%nat ->
  (forall tr, sqlite_open tr (t_db_path p) = (0, true)) -> (forall tr, sqlite_prepare tr (t_format p) = 0) ->
  (forall tr q, (sqlite_exec tr q).1 = 0) -> (forall tr, sqlite_finalize tr = 0) -> (forall tr, sqlite_close tr = 0) ->
  let begun := tr ++ [EvSqlOpen (t_db_path p); EvSqlPrepare (t_format p); EvSqlExec (str "BEGIN TRANSACTION")] in
  exists e steps,
    moving_general fuel fp 0 begun = Ok (e, begun ++ steps) /\ steps_only steps /\
    moving_file fuel p tr = Ok (0, begun ++ steps ++ [EvSqlExec (str "END TRANSACTION")]).
Proof.
  intros Hf Hc Hfu Ho Hp He Hfin Hcl begun.
  destruct (insert_lines_end fuel passed (Z.to_nat 8190) (f_bytes fp) 0 begun Hfu) as (e & steps & Hl & Hs).
  assert (Hg : moving_general fuel fp 0 begun = Ok (e, begun ++ steps)).
  { unfold moving_general. replace (Z.to_nat 8191) with (S (Z.to_nat 8190)) by lia. exact Hl. }
  exists e, steps. split; [exact Hg|]. split; [exact Hs|].
  unfold moving_file, fetch_file. rewrite io_bind_ask, Hf, io_bind_ask, Ho, io_bind_emit. cbn [Z.eqb negb].
  assert (Hb : moving_body fuel p fp (tr ++ [EvSqlOpen (t_db_path p)])
    = Ok (0, begun ++ steps ++ [EvSqlExec (str "END TRANSACTION")])).
  { unfold moving_body. rewrite io_bind_ask, Hp, io_bind_emit. cbn [Z.eqb negb]. rewrite io_bind_emit, Hc.
    rewrite <- !app_assoc. cbn [app]. fold begun. rewrite (io_bind_ok _ _ _ _ _ Hg).
    rewrite io_bind_ask, He, io_bind_emit. cbn [Z.eqb negb]. unfold ask. by rewrite Hfin, <- app_assoc. }
  rewrite (io_bind_ok _ _ _ _ _ Hb). unfold ask. by rewrite Hcl.
Qed.
End Moving.

(** ** Concrete files *)

Module Moved.
Lemma moving_inserts_witness :
  @moving_main Sample.main_world 5 (str "insert.cfg") []
  = Ok (0, [EvPopen (str "cp -f " ++ quoted (str "/t") ++ str "/lcs.db  " ++ quoted (str "/w"));
            EvSqlOpen (str "/w/lcs.db"); EvSqlPrepare (str "insert into cdr values(?);");
            EvSqlExec (str "BEGIN TRANSACTION"); EvSqlStep [str "one"];
            EvSqlExec (str "END TRANSACTION")]).
Proof.
  rewrite (@moving_inserts Sample.main_world 5 (str "insert.cfg") []) by (by split).
  vm_compute. reflexivity.
Defined.

(** A database that accepts one row and refuses the second. *)
Definition w : World := toy_world [(str "/w/cdr.data", str "one" ++ [tab; nl] ++ str "two" ++ [tab; nl])] None None None.
#[local] Instance refusing : World := {|
  fopen_r := @fopen_r w; fopen_w := @fopen_w w; popen := @popen w; readdir := @readdir w; getenv := @getenv w;
  shm_create := @shm_create w; mysql_init := @mysql_init w; mysql_real_connect := @mysql_real_connect w;
  mysql_query := @mysql_query w; mysql_store_result := @mysql_store_result w;
  sqlite_open := @sqlite_open w; sqlite_prepare := @sqlite_prepare w; sqlite_exec := @sqlite_exec w;
  sqlite_bind tr i t := if bool_decide (t = str "two") then 25 else 0;
  sqlite_step := @sqlite_step w; sqlite_clear_bindings := @sqlite_clear_bindings w; sqlite_reset := @sqlite_reset w;
  sqlite_finalize := @sqlite_finalize w; sqlite_close := @sqlite_close w; recv := @recv w; send := @send w
|}.
Definition p : LCS_INSERT_TABLE_INFO :=
  {| t_table := str "cdr"; t_db_path := str "lcs.db"; t_data_path := str "/w/cdr.data";
     t_format := str "insert ..."; t_context := false |}.
Definition begun : trace :=
  [EvSqlOpen (str "lcs.db"); EvSqlPrepare (str "insert ..."); EvSqlExec (str "BEGIN TRANSACTION")].
Definition data : list byte := str "one" ++ [tab; nl] ++ str "two" ++ [tab; nl].
Definition fp : FILE := {| f_tell := 10; f_bytes := data; f_close := 0 |}.

Lemma moving_hides_witness :
  moving_general 12 fp 0 begun = Ok (25, begun ++ [EvSqlStep [str "one"]]) /\
  moving_file 12 p [] = Ok (0, begun ++ [EvSqlStep [str "one"]] ++ [EvSqlExec (str "END TRANSACTION")]).
Proof.
  destruct (moving_hides 12 p fp []) as (e & steps & H1 & _ & H2); [done|done|cbn; lia|done..|].
  assert (Hg : moving_general 12 fp 0 begun = Ok (25, begun ++ [EvSqlStep [str "one"]])) by (vm_compute; reflexivity).
  split; [exact Hg|]. cbn [app] in H1, H2. change (moving_general 12 fp 0 begun = Ok (e, begun ++ steps)) in H1.
  rewrite Hg in H1. injection H1 as _ Hsteps. rewrite <- Hsteps in H2. exact H2.
Defined.
End Moved.
