(* ===== verification/Analysis.v ===== *)
(** * The programs of a day's analysis

    Models src/cluster/analysis/analysis.c, which the manager starts for every server and day.
    It loads its configuration line by line with [fgets], and for each name of the list
    [list_ana] looks for the program that makes the report: of a year, a month, a week or a
    day, in its own directory or beside it.  Only programs for a day are started, each with a
    configuration that names the program for the hour and the tables in shared memory.

    The list is an array of 250 rows of 9 characters; every name is copied with the length of
    the first one. *)
From S2P Require Import Prelude CString OpenSSL World Config.
From S2P Require Import Manager Insert.

(** ** The structure *)

Definition ANA_ROWS : Z := 250.
Definition ANA_NAME : Z := 9.
Definition analysis_members : list (string * Z) :=
  [("root_path", 1024); ("dbname", 1024); ("server", 1024); ("list_ana", ANA_ROWS * ANA_NAME);
   ("date", 12); ("week", 12); ("month", 12); ("year", 12)]%string.

(** The name in row [i], read up to its zero. *)
Definition ana_row (p : cfg) (i : Z) : res (list byte) :=
  cstr (drop (Z.to_nat (ANA_NAME * i)) (member p "list_ana")).

(** ** Loading *)

Section Programs.
Context `{World}.

(** The loop over the names: [m] is the line with the zeros [strtok] puts behind them, and
    [strlen(item) - sz] the length of the first name with what is in front of it. *)
Fixpoint list_rows (m : list byte) (sz : Z) (toks : list (Z * list byte)) (i : Z) (info : cfg)
    : res cfg :=
  match toks with
  | [] => Ok info
  | (o, p) :: toks =>
    m ← wr m (o + zlen p) [x00];
    item ← cstr m;
    src ← rd m o (zlen item - sz);
    info ← set_member info "list_ana" (ANA_NAME * i) src;
    list_rows m sz toks (i + 1) info
  end.
Definition list_delims : list byte := str "," ++ [x09; nl].
Definition list_item (m : list byte) (base : string) (info : cfg) (item : list byte) : res cfg :=
  let sz := zlen (str base) in
  list_rows m sz (strtok_all list_delims (drop (length (str base)) item) sz None) 0 info.

Definition analysis_table (m : list byte) : list entry :=
  [copy_to "root_path" "root_path_0001:"; copy_to "server" "server_0002:";
   copy_to "dbname" "dbname_0003:";
   ("list_ana_0004:"%string, fun info item => lift (list_item m "list_ana_0004:" info item));
   copy_to "date" "date_0005:"; copy_to "week" "week_0006:"; copy_to "month" "month_0007:";
   copy_to "year" "year_0008:"].

(** [item[sz - 1] = 0], for an empty line in front of a buffer of 4096 bytes. *)
Definition analysis_item (info : cfg) (buf : list byte) : io cfg :=
  let m := buf ++ zeros (4096 - zlen buf) in
  s ← lift (cstr m);
  m ← lift (match s with [] => Fault OobWrite | _ => wr m (zlen s - 1) [x00] end);
  item ← lift (cstr m);
  cfg_item (analysis_table m) info item.

(** [fgets(buf, 4096 - 1, fp)] until there is nothing left. *)
Fixpoint analysis_lines (fuel : nat) (rest : list byte) (info : cfg) : io cfg :=
  match fuel with
  | O => lift (Fault NoFuel)
  | S fuel =>
    let '(buf, rest) := fgets 4094 rest in
    match buf with
    | [] => mret info
    | _ => info ← analysis_item info buf; analysis_lines fuel rest info
    end
  end.
Definition analysis_load (path : list byte) (info : cfg) (err : Z) : io (cfg * Z) :=
  fp ← ask (fun tr => fopen_r tr path);
  match fp with
  | None => mret (info, 99)
  | Some fp =>
    info ← analysis_lines (S (length (f_bytes fp))) (f_bytes fp) info;
    mret (info, err)
  end.

(** ** Starting the programs *)

(** The first program there is, with its kind. *)
Fixpoint find_target (ana : list byte) (kinds : list string) : io (option (string * list byte)) :=
  match kinds with
  | [] => mret None
  | kind :: kinds =>
    process ← lift (fits 128 (str "./lcs_" ++ ana ++ str "_" ++ str kind));
    having ← lcs_comm_filexist process;
    if having : bool then mret (Some (kind, process))
    else
      process ← lift (fits 128 (str "../" ++ ana ++ str "_" ++ str kind ++ str "/lcs_" ++ ana ++
                                str "_" ++ str kind));
      having ← lcs_comm_filexist process;
      if having : bool then mret (Some (kind, process)) else find_target ana kinds
  end.

Definition lcs_analysis_date_config (p : cfg) (ana : list byte) : io (option (list byte)) :=
  d ← lift (text_of p "date" ≫= fits 15);
  subprocess ← lift (fits 128 (str "../" ++ ana ++ str "_hour/lcs_" ++ ana ++ str "_hour"));
  result ← lcs_comm_get_process subprocess [];
  result ← lift (fits 128 result);
  write_cfg (root ← text_of p "root_path"; server ← text_of p "server"; db ← text_of p "dbname";
             user ← match getenv (str "USER") with Some u => Ok u | None => Fault NullDeref end;
             Ok (line "targetpath_0001:" (root ++ str "/" ++ server ++ str "/" ++ db ++ str "/" ++ redash x2f d) ++
                 line "name_ana_0002:" ana ++ line "subprocess_0003:" result ++
                 str "prefixshmkey_0004:" ++ user ++ str "." ++ server ++ str "." ++ db ++ str "_" ++
                 redash x5f d)).

(** [lcs_ana_date] counts down what the caller counts up behind it. *)
Definition lcs_ana_date (cmd path : list byte) (count : Z) : io Z :=
  _ ← lcs_bash_cmd cmd;
  _ ← emit (EvRemove path);
  mret (count - 1).

(** [err] and the counter. *)
Definition lcs_run_ana (p : cfg) (ana : list byte) (err count : Z) : io (Z * Z) :=
  target ← find_target ana ["year"; "month"; "week"; "day"]%string;
  match target with
  | None => mret (285, count)
  | Some (kind, process) =>
    if String.eqb kind "day" then
      path ← lcs_analysis_date_config p ana;
      match path with
      | Some path =>
        cmd ← lift (fits 1024 (process ++ str " " ++ path ++ str " > /dev/null"));
        _ ← lift (fits 1024 path);
        count ← lcs_ana_date cmd path count;
        mret (err, count + 1)
      | None => mret (312, count)
      end
    else mret (err, count)
  end.

(** The rows up to the first empty one. *)
Fixpoint run_rows (fuel : nat) (p : cfg) (i err count : Z) : io (Z * Z) :=
  match fuel with
  | O => lift (Fault NoFuel)
  | S fuel =>
    ana ← lift (ana_row p i);
    match ana with
    | [] => mret (err, count)
    | _ => '(err, count) ← lcs_run_ana p ana err count; run_rows fuel p (i + 1) err count
    end
  end.
(** The wait for the counter: nothing changes it any more, so it ends at once or never. *)
Definition lcs_run_list_analysis (p : cfg) (err : Z) : io Z :=
  '(err, count) ← run_rows (S (S (Z.to_nat ANA_ROWS))) p 0 err 0;
  if count =? 0 then mret err else lift (Fault NoFuel).

(** The error of the loader stays in [lcs_init_app]; the result is that of the process. *)
Definition analysis_main (path : list byte) : io Z :=
  '(info, _) ← analysis_load path (cleared analysis_members) 0;
  err ← lcs_run_list_analysis info 0;
  mret (if err =? 0 then 0 else 1).

End Programs.

(** ** The list of names *)

(** Names with commas between them. *)
Fixpoint commas (names : list (list byte)) : list byte :=
  match names with
  | [] => []
  | [n] => n
  | n :: names => n ++ str "," ++ commas names
  end.
Definition name_ok (n : list byte) : Prop :=
  n <> [] /\ Forall (fun b => is_delim list_delims b = false /\ b <> x00) n.
(** A row as it is filled: [k] characters from the place of the name [n]. *)
Definition row_ok (k : Z) (n r : list byte) : Prop :=
  zlen r = ANA_NAME /\ cstr r = Ok (take (Z.to_nat k) n).

Lemma name_delims n : name_ok n -> Forall (fun b => is_delim list_delims b = false) n.
Proof. intros [_ Hn]. eapply Forall_impl; [exact Hn|]. by intros b [? _]. Qed.
Lemma name_no_nul n : name_ok n -> no_nul n.
Proof. intros [_ Hn]. eapply Forall_impl; [exact Hn|]. by intros b [_ ?]. Qed.

(** What a copy of [k] characters gives when a zero stands behind the name. *)
Lemma name_copy k n tail :
  0 < k < ANA_NAME -> no_nul n ->
  row_ok k n (take (Z.to_nat k) (n ++ x00 :: tail ++ zeros ANA_NAME) ++ zeros (ANA_NAME - k)).
Proof.
  intros Hk Hn. unfold row_ok, ANA_NAME in *. pose proof (zlen_nonneg tail). split.
  - rewrite zlen_app, zlen_zeros by lia. unfold zlen at 1. rewrite length_take, length_app.
    cbn [length]. rewrite length_app. unfold zeros. rewrite length_replicate. lia.
  - destruct (decide (Z.to_nat k <= length n)%nat) as [Hl|Hl].
    + rewrite take_app_le by lia. replace (zeros (9 - k)) with (x00 :: zeros (8 - k)).
      * apply cstr_terminated. by apply Forall_take.
      * unfold zeros. replace (Z.to_nat (9 - k)) with (S (Z.to_nat (8 - k))) by lia. done.
    + rewrite take_app_ge by lia. rewrite (take_ge n) by lia.
      destruct (Z.to_nat k - length n)%nat eqn:E; [lia|]. cbn [take]. rewrite <- app_assoc. cbn [app].
      by apply cstr_terminated.
Qed.

(** The array of names while it is filled. *)
Definition filled (k : Z) (info : cfg) (names : list (list byte)) : Prop :=
  exists rows, Forall2 (row_ok k) names rows /\
    member info "list_ana" = concat rows ++ zeros (ANA_NAME * (ANA_ROWS - zlen names)).
Definition same_but (f : string) (a b : cfg) : Prop := forall g, g <> f -> member a g = member b g.

Lemma rows_len k names rows : Forall2 (row_ok k) names rows -> zlen (concat rows) = ANA_NAME * zlen names.
Proof.
  induction 1 as [|n r names rows [Hr _] _ IH]; [done|]. cbn [concat].
  rewrite zlen_app, zlen_cons, IH, Hr. lia.
Qed.

Lemma fill_name k info names n src :
  0 < k < ANA_NAME -> zlen names < ANA_ROWS -> filled k info names -> zlen src = k ->
  row_ok k n (src ++ zeros (ANA_NAME - k)) ->
  exists info', set_member info "list_ana" (ANA_NAME * zlen names) src = Ok info' /\
    filled k info' (names ++ [n]) /\ same_but "list_ana" info' info.
Proof.
  intros Hk Hn (rows & Hr & Hm) Hs Hrow. pose proof (rows_len _ _ _ Hr) as Hl.
  pose proof (zlen_nonneg names). unfold set_member. rewrite Hm, <- Hl.
  assert (Hz : zeros (ANA_NAME * (ANA_ROWS - zlen names))
    = zeros k ++ zeros (ANA_NAME - k) ++ zeros (ANA_NAME * (ANA_ROWS - zlen names - 1))).
  { unfold ANA_NAME, ANA_ROWS in *. rewrite <- !zeros_add by lia. f_equal. lia. }
  rewrite Hz, wr_mid by (rewrite zlen_zeros; lia). eexists. split; [reflexivity|]. split.
  - exists (rows ++ [src ++ zeros (ANA_NAME - k)]). split.
    { apply Forall2_app; [done|]. by apply Forall2_cons. }
    unfold member. rewrite lookup_insert_eq. cbn [default]. rewrite concat_app. cbn [concat].
    rewrite app_nil_r, <- !app_assoc, zlen_app. change (zlen [n]) with 1.
    by replace (ANA_ROWS - (zlen names + 1)) with (ANA_ROWS - zlen names - 1) by lia.
  - intros g Hg. by apply member_insert_ne.
Qed.

(** The first name of a list, what follows it in the buffer, and the names behind it. *)
Lemma commas_cons n names A z :
  name_ok n -> ANA_NAME < z ->
  exists b tail,
    commas (n :: names) ++ zeros z = n ++ b :: tail ++ zeros ANA_NAME /\
    strtok_all list_delims (commas (n :: names)) (zlen A) None
    = (zlen A, n) :: strtok_all list_delims (commas names) (zlen (A ++ n ++ [x00])) None /\
    (names <> [] -> tail ++ zeros ANA_NAME = commas names ++ zeros z).
Proof.
  intros Hn Hz. pose proof (name_delims _ Hn) as Hd. unfold ANA_NAME in *.
  assert (Hlen : zlen (A ++ n ++ [x00]) = zlen A + zlen n + 1)
    by (rewrite !zlen_app; change (zlen [x00]) with 1; lia).
  destruct names as [|n' names].
  - exists x00, (zeros (z - 9 - 1)). split; [|split; [|done]].
    + change (x00 :: zeros (z - 9 - 1) ++ zeros 9) with (zeros 1 ++ zeros (z - 9 - 1) ++ zeros 9).
      rewrite <- !zeros_add by lia. cbn [commas]. do 2 f_equal. lia.
    + cbn [commas strtok_all]. rewrite (strtok_final list_delims n (zlen A)) by (done || apply Hn). done.
  - exists x2c, (commas (n' :: names) ++ zeros (z - 9)). split; [|split].
    + change (commas (n :: n' :: names)) with (n ++ x2c :: commas (n' :: names)).
      rewrite <- !app_assoc. cbn [app]. rewrite <- zeros_add by lia. do 4 f_equal. lia.
    + change (commas (n :: n' :: names)) with (n ++ x2c :: commas (n' :: names)).
      rewrite strtok_token by (done || apply Hn). by rewrite Hlen.
    + intros _. rewrite <- app_assoc, <- zeros_add by lia. do 2 f_equal. lia.
Qed.

Lemma list_rows_ok k sz s0 names A z done info :
  0 < k < ANA_NAME -> Forall name_ok names -> ANA_NAME < z -> zlen s0 = sz + k ->
  (forall n R, head names = Some n -> cstr (A ++ n ++ x00 :: R) = Ok s0) ->
  filled k info done -> zlen done + zlen names <= ANA_ROWS ->
  exists info',
    list_rows (A ++ commas names ++ zeros z) sz (strtok_all list_delims (commas names) (zlen A) None)
      (zlen done) info = Ok info' /\
    filled k info' (done ++ names) /\ same_but "list_ana" info' info.
Proof.
  intros Hk Hn Hz Hs. revert A done info.
  induction Hn as [|n names Hn Hns IH]; intros A dn info Hc Hf Hr.
  { exists info. rewrite app_nil_r. by split; [|split]. }
  rewrite zlen_cons in Hr. pose proof (zlen_nonneg names).
  destruct (commas_cons n names A z Hn Hz) as (b & tail & -> & -> & Htail).
  cbn [list_rows]. rewrite (wr_part _ (A ++ n) [b] [x00] (tail ++ zeros ANA_NAME));
    [|by rewrite <- app_assoc|by rewrite zlen_app|done].
  cbn [mbind res_bind]. rewrite <- app_assoc. cbn [app]. rewrite Hc by done. cbn [mbind res_bind].
  rewrite Hs. replace (sz + k - sz) with k by lia.
  pose proof (name_copy k n tail Hk (name_no_nul _ Hn)) as Hrow.
  assert (Hzl : k <= zlen (n ++ x00 :: tail ++ zeros ANA_NAME)).
  { pose proof (zlen_nonneg n). pose proof (zlen_nonneg tail).
    rewrite zlen_app, zlen_cons, zlen_app, zlen_zeros by (unfold ANA_NAME; lia). lia. }
  set (src := take (Z.to_nat k) _) in *.
  assert (Hsrc : zlen src = k).
  { unfold src. unfold zlen in *. rewrite length_take. lia. }
  rewrite (rd_part _ A src (drop (Z.to_nat k) (n ++ x00 :: tail ++ zeros ANA_NAME)));
    [|unfold src; by rewrite take_drop|done|done].
  cbn [mbind res_bind].
  destruct (fill_name k info dn n src Hk ltac:(lia) Hf Hsrc Hrow) as (info1 & -> & Hf1 & Hb1).
  cbn [mbind res_bind]. replace (zlen dn + 1) with (zlen (dn ++ [n])) by (rewrite zlen_app; done).
  destruct names as [|n' names].
  - exists info1. done.
  - rewrite Htail by done.
    replace (A ++ n ++ x00 :: commas (n' :: names) ++ zeros z)
      with ((A ++ n ++ [x00]) ++ commas (n' :: names) ++ zeros z) by (rewrite <- !app_assoc; done).
    destruct (IH (A ++ n ++ [x00]) (dn ++ [n]) info1) as (info2 & H1 & H2 & H3).
    + intros m R _. rewrite <- !app_assoc. cbn [app]. by apply Hc.
    + done.
    + rewrite zlen_app. change (zlen [n]) with 1. lia.
    + exists info2. split; [exact H1|]. split; [by rewrite <- app_assoc in H2|].
      intros g Hg. by rewrite H3, Hb1.
Qed.

(** ** Loading a file of lines *)

Section Loading.
Context `{World}.

Lemma match_ne {A B} (s : list A) (x y : B) : s <> [] -> match s with [] => x | _ => y end = y.
Proof. by destruct s. Qed.

(** The last character of a line is cut off, the line end or, in a last line without one,
    the end of the value. *)
Lemma analysis_item_ok info l b :
  no_nul l -> b <> x00 -> zlen l < 4095 ->
  forall tr, analysis_item info (l ++ [b]) tr = cfg_item (analysis_table (l ++ zeros (4096 - zlen l))) info l tr.
Proof.
  intros Hl Hb Hz tr. pose proof (zlen_nonneg l). unfold analysis_item.
  assert (Hlen : zlen (l ++ [b]) = zlen l + 1) by (rewrite zlen_app; done).
  assert (Hm : forall c, (l ++ [c]) ++ zeros (4096 - (zlen l + 1)) = l ++ [c] ++ zeros (4095 - zlen l)).
  { intros c. rewrite <- app_assoc. do 3 f_equal. lia. }
  assert (Hz1 : zeros (4096 - zlen l) = x00 :: zeros (4095 - zlen l)).
  { replace (4096 - zlen l) with (1 + (4095 - zlen l)) by lia. by rewrite zeros_add by lia. }
  assert (Hc : cstr ((l ++ [b]) ++ zeros (4096 - (zlen l + 1))) = Ok (l ++ [b])).
  { replace (zeros (4096 - (zlen l + 1))) with (x00 :: zeros (4094 - zlen l)).
    - apply cstr_terminated, Forall_app. by split; [|repeat constructor].
    - replace (4096 - (zlen l + 1)) with (1 + (4094 - zlen l)) by lia. by rewrite zeros_add by lia. }
  rewrite Hlen, (io_bind_lift _ _ _ _ Hc), match_ne, Hlen, Hm by (by destruct l).
  replace (zlen l + 1 - 1) with (zlen l) by lia.
  rewrite (wr_part _ l [b] [x00] (zeros (4095 - zlen l))) by (done || lia).
  change (l ++ [x00] ++ zeros (4095 - zlen l)) with (l ++ x00 :: zeros (4095 - zlen l)).
  rewrite <- Hz1. unfold lift, mbind, io_bind. rewrite Hz1, cstr_terminated by done. done.
Qed.

Lemma analysis_lines_step fuel l rest info tr info' :
  no_nul l -> (nl ∉ l) -> zlen l < 4093 ->
  cfg_item (analysis_table (l ++ zeros (4096 - zlen l))) info l tr = Ok (info', tr) ->
  analysis_lines (S fuel) (l ++ nl :: rest) info tr = analysis_lines fuel rest info' tr.
Proof.
  intros Hl Hn Hz Hi. cbn [analysis_lines]. rewrite Insert.fgets_line by (done || unfold zlen in Hz; lia).
  rewrite match_ne by (by destruct l).
  by rewrite (io_bind_ok _ _ tr info' tr) by (by rewrite analysis_item_ok by (done || lia)).
Qed.

Lemma fgets_all n s : nl ∉ s -> (length s <= n)%nat -> fgets n s = (s, []).
Proof.
  revert n. induction s as [|b s IH]; intros [|n] Hn Hl; cbn [length fgets] in *; try done; try lia.
  apply not_elem_of_cons in Hn as [Hb Hn]. destruct (b2z b =? 10) eqn:E; b2p.
  - exfalso. apply Hb. by apply b2z_inj.
  - by rewrite IH by (done || lia).
Qed.
Lemma analysis_lines_last fuel l b info tr info' :
  no_nul (l ++ [b]) -> (nl ∉ l ++ [b]) -> zlen l < 4093 ->
  cfg_item (analysis_table (l ++ zeros (4096 - zlen l))) info l tr = Ok (info', tr) ->
  analysis_lines (S (S fuel)) (l ++ [b]) info tr = Ok (info', tr).
Proof.
  intros Hl Hn Hz Hi. cbn [analysis_lines]. apply Forall_app in Hl as [Hl [Hb _]%Forall_cons].
  rewrite fgets_all by (done || rewrite length_app; cbn [length]; unfold zlen in Hz; lia).
  rewrite match_ne by (by destruct l).
  by rewrite (io_bind_ok _ _ tr info' tr) by (by rewrite analysis_item_ok by (done || lia)).
Qed.

(** A list of names fills the rows with as many characters as the first name has. *)
Lemma list_item_ok names n info :
  head names = Some n -> zlen n < ANA_NAME -> Forall name_ok names -> zlen names <= ANA_ROWS ->
  zlen (commas names) < 4000 -> filled (zlen n) info [] ->
  let l := str "list_ana_0004:" ++ commas names in
  exists info',
    list_item (l ++ zeros (4096 - zlen l)) "list_ana_0004:" info l = Ok info' /\
    filled (zlen n) info' names /\ same_but "list_ana" info' info.
Proof.
  intros Hh Hk Hn Hr Hz Hf l. pose proof (zlen_nonneg (commas names)).
  assert (Hne : name_ok n) by (destruct names; [done|]; injection Hh as ->; by apply Forall_cons in Hn as [? _]).
  assert (Hk0 : 0 < zlen n).
  { destruct Hne as [Hne _]. destruct n; [done|]. rewrite zlen_cons. pose proof (zlen_nonneg n). lia. }
  assert (Hl : zlen l = 14 + zlen (commas names)) by (unfold l; by rewrite zlen_app).
  unfold list_item. unfold l at 3. rewrite drop_app_length. unfold l at 1. rewrite <- app_assoc.
  apply (list_rows_ok (zlen n) _ (str "list_ana_0004:" ++ n) names (str "list_ana_0004:") _ [] info).
  - lia.
  - done.
  - rewrite Hl. unfold ANA_NAME. lia.
  - by rewrite zlen_app.
  - intros m R Hm. rewrite Hh in Hm. injection Hm as <-. rewrite app_assoc. apply cstr_terminated.
    apply Forall_app. split; [|by apply name_no_nul]. repeat constructor; discriminate.
  - done.
  - change (zlen []) with 0. lia.
Qed.

End Loading.

(** ** The rows that are run *)

Lemma cstr_more s rest t : cstr s = Ok t -> cstr (s ++ rest) = Ok t.
Proof.
  revert t. induction s as [|b s IH]; intros t; cbn [cstr app]; [done|].
  destruct (b2z b =? 0); [done|]. destruct (cstr s) as [u|f]; [|done]. cbn. intros [= <-].
  by rewrite (IH u).
Qed.

Lemma drop_rows k names rows i :
  Forall2 (row_ok k) names rows ->
  drop (Z.to_nat (ANA_NAME * Z.of_nat i)) (concat rows) = concat (drop i rows).
Proof.
  intros Hr. revert i. induction Hr as [|n r names rows [Hl _] _ IH]; intros [|i]; cbn [concat]; try done.
  { by rewrite drop_nil. }
  assert (Hn : Z.to_nat (ANA_NAME * Z.of_nat (S i)) = (length r + Z.to_nat (ANA_NAME * Z.of_nat i))%nat).
  { unfold ANA_NAME, zlen in *. lia. }
  rewrite Hn, drop_app_add. cbn [drop]. apply IH.
Qed.

Lemma filled_row k info names i :
  0 < k -> filled k info names -> zlen names < ANA_ROWS -> (i <= length names)%nat ->
  ana_row info (Z.of_nat i) = Ok (take (Z.to_nat k) (default [] (names !! i))).
Proof.
  intros Hk (rows & Hr & Hm) Hn Hi. unfold ana_row. rewrite Hm.
  pose proof (rows_len _ _ _ Hr) as Hl. pose proof (Forall2_length _ _ _ Hr) as Hlen.
  rewrite drop_app_le by (unfold ANA_NAME, zlen in *; lia). rewrite (drop_rows _ _ _ _ Hr).
  destruct (names !! i) as [n|] eqn:En.
  - destruct (Forall2_lookup_l _ _ _ _ _ Hr En) as (r & Er & _ & Hc).
    rewrite (drop_S _ _ _ Er). cbn [concat default]. rewrite <- app_assoc. by apply cstr_more.
  - apply lookup_ge_None in En. rewrite drop_ge by lia. cbn [concat app default]. rewrite take_nil.
    unfold ANA_NAME, ANA_ROWS in *. unfold zeros.
    destruct (Z.to_nat (9 * (250 - zlen names))) eqn:E; [lia|]. done.
Qed.

(** ** What is run *)

Definition own (ana : list byte) (kind : string) : list byte := str "./lcs_" ++ ana ++ str "_" ++ str kind.
Definition beside (ana : list byte) (kind : string) : list byte :=
  str "../" ++ ana ++ str "_" ++ str kind ++ str "/lcs_" ++ ana ++ str "_" ++ str kind.
Definition kinds : list string := ["year"; "month"; "week"; "day"]%string.
(** The places in which a program is looked for, the first one counts. *)
Fixpoint places_of (ana : list byte) (kinds : list string) : list (string * list byte) :=
  match kinds with
  | [] => []
  | kind :: kinds => (kind, own ana kind) :: (kind, beside ana kind) :: places_of ana kinds
  end.
Definition places (ana : list byte) : list (string * list byte) := places_of ana kinds.
(** [there] tells which files exist. *)
Definition target (there : list byte -> bool) (ana : list byte) : option (string * list byte) :=
  List.find (fun c => there c.2) (places ana).
Definition found (there : list byte -> bool) (ana : list byte) : bool :=
  match target there ana with Some _ => true | None => false end.
Definition hour_program (there : list byte -> bool) (ana : list byte) : list byte :=
  let path := beside ana "hour" in
  match strstr path (str "lcs_") with
  | Some k => let near := str "./" ++ drop (Z.to_nat k) path in if there near then near else path
  | None => path
  end.

(** The name [uuidgen] prints at some point. *)
Definition names_file `{World} (tr : trace) (name : list byte) : Prop :=
  (nl ∉ name) /\ no_nul name /\ zlen name < 800 /\
  popen tr (str "uuidgen") = Some (name ++ [nl]).

Section Naming.
Context `{World}.

Lemma uuid_name_at name tr :
  (nl ∉ name) -> no_nul name -> zlen name < 1022 -> popen tr (str "uuidgen") = Some (name ++ [nl]) ->
  uuid_name tr = Ok (Some name, tr ++ [EvPopen (str "uuidgen")]).
Proof.
  intros Hnl Hn Hz Hp. unfold uuid_name.
  rewrite (io_bind_ok _ _ _ _ _ (lcs_bash_cmdext_ok _ None tr _ Hp)).
  assert (Hg : (fgets 1023 (name ++ [nl])).1 = name ++ [nl]).
  { rewrite Insert.fgets_line; [done|done|]. unfold zlen in Hz. lia. }
  rewrite Hg. rewrite Insert.upto0_id by (by apply Insert.nl_line). cbn [default app].
  destruct (name ++ [nl]) as [|b t] eqn:E; [by destruct name|]. rewrite <- E. unfold mret, io_ret.
  rewrite length_app. cbn [length]. replace (length name + 1 - 1)%nat with (length name) by lia.
  by rewrite take_app_length.
Qed.

(** What a writer leaves behind. *)
Lemma write_cfg_at name data text tr :
  (nl ∉ name) -> no_nul name -> zlen name < 1022 -> popen tr (str "uuidgen") = Some (name ++ [nl]) ->
  (forall tr path, fopen_w tr path = true) -> data = Ok text ->
  write_cfg data tr = Ok (Some name, (tr ++ [EvPopen (str "uuidgen")]) ++ [EvWrite name text]).
Proof.
  intros Hnl Hn Hz Hp Hw ->. unfold write_cfg.
  by rewrite (io_bind_ok _ _ _ _ _ (uuid_name_at name tr Hnl Hn Hz Hp)), io_bind_ask, Hw.
Qed.

End Naming.

Section Running.
Context `{World}.
Variables (p : cfg) (root server db d user : list byte).
Hypotheses (Hroot : text_of p "root_path" = Ok root) (Hserver : text_of p "server" = Ok server)
  (Hdb : text_of p "dbname" = Ok db) (Hd : text_of p "date" = Ok d) (Zd : zlen d < 12)
  (Huser : getenv (str "USER") = Some user) (Hw : forall tr path, fopen_w tr path = true).
(** Which of the programs there are does not change, and every name is a new one. *)
Variables (there : list byte -> bool) (name : trace -> list byte).
Hypothesis Hname : forall tr, names_file tr (name tr).

Definition probes (ana : list byte) : Prop :=
  zlen ana < ANA_NAME /\
  (forall tr c, c ∈ places ana -> lcs_comm_filexist c.2 tr = Ok (there c.2, tr)) /\
  (forall tr k, lcs_comm_filexist (str "./" ++ drop k (beside ana "hour")) tr
    = Ok (there (str "./" ++ drop k (beside ana "hour")), tr)).

(** The configuration of the program for the day. *)
Definition day_config (ana : list byte) : list byte :=
  line "targetpath_0001:" (root ++ str "/" ++ server ++ str "/" ++ db ++ str "/" ++ redash x2f d) ++
  line "name_ana_0002:" ana ++ line "subprocess_0003:" (hour_program there ana) ++
  str "prefixshmkey_0004:" ++ user ++ str "." ++ server ++ str "." ++ db ++ str "_" ++ redash x5f d.
Definition ana_task (ana process path : list byte) : trace :=
  [EvPopen (str "uuidgen"); EvWrite path (day_config ana);
   EvPopen (process ++ str " " ++ path ++ str " > /dev/null"); EvRemove path].
(** What is done for the names, one after the other. *)
Fixpoint ana_tasks (tr : trace) (anas : list (list byte)) : trace :=
  match anas with
  | [] => tr
  | ana :: anas =>
    let tasks := match target there ana with
                 | Some (kind, process) =>
                   if String.eqb kind "day" then ana_task ana process (name tr) else []
                 | None => []
                 end in
    ana_tasks (tr ++ tasks) anas
  end.

Lemma find_target_of ana ks tr :
  zlen ana < ANA_NAME -> Forall (fun kind => zlen (str kind) < 8) ks ->
  (forall c, c ∈ places_of ana ks -> lcs_comm_filexist c.2 tr = Ok (there c.2, tr)) ->
  find_target ana ks tr = Ok (List.find (fun c => there c.2) (places_of ana ks), tr).
Proof.
  unfold ANA_NAME. intros Zn Hk Hp.
  induction Hk as [|kind ks Zk _ IH]; [done|]. cbn [find_target places_of List.find snd].
  assert (H1 := Hp (kind, own ana kind) ltac:(left)).
  assert (H2 := Hp (kind, beside ana kind) ltac:(right; left)). cbn [snd] in H1, H2.
  io_fits ltac:(text_len). fold (own ana kind). rewrite (io_bind_ok _ _ _ _ _ H1).
  destruct (there (own ana kind)); [done|].
  io_fits ltac:(text_len). fold (beside ana kind). rewrite (io_bind_ok _ _ _ _ _ H2).
  destruct (there (beside ana kind)); [done|]. apply IH. intros c Hc. apply Hp. by do 2 right.
Qed.
Lemma find_target_ok ana tr : probes ana -> find_target ana kinds tr = Ok (target there ana, tr).
Proof. intros (Zn & Hp & _). apply find_target_of; [done|by repeat constructor|by apply Hp]. Qed.

Lemma hour_program_ok ana tr :
  probes ana ->
  lcs_comm_get_process (beside ana "hour") [] tr = Ok (hour_program there ana, tr) /\
  zlen (hour_program there ana) < 128.
Proof.
  intros (Zn & _ & Hh). unfold ANA_NAME in *.
  assert (Zb : zlen (beside ana "hour") < 100) by (unfold beside; text_len).
  unfold lcs_comm_get_process, hour_program. io_fits ltac:(lia).
  destruct (strstr (beside ana "hour") (str "lcs_")) as [k|] eqn:E; [|split; [done|lia]].
  assert (Zk : zlen (str "./" ++ drop (Z.to_nat k) (beside ana "hour")) < 110).
  { rewrite zlen_app. change (zlen (str "./")) with 2. unfold zlen in *. rewrite length_drop. lia. }
  io_fits ltac:(lia). rewrite (io_bind_ok _ _ _ _ _ (Hh tr (Z.to_nat k))).
  destruct (there _); split; done || lia.
Qed.

Lemma day_config_ok ana tr :
  probes ana ->
  lcs_analysis_date_config p ana tr
  = Ok (Some (name tr), tr ++ [EvPopen (str "uuidgen"); EvWrite (name tr) (day_config ana)]).
Proof.
  intros Hp. pose proof Hp as (Zn & _ & _). unfold ANA_NAME in *.
  destruct (hour_program_ok ana tr Hp) as [Hh Zh]. unfold lcs_analysis_date_config.
  rewrite (io_bind_lift _ _ _ d) by (rewrite Hd; apply fits_ok; lia).
  io_fits ltac:(text_len). fold (beside ana "hour"). rewrite (io_bind_ok _ _ _ _ _ Hh).
  io_fits ltac:(lia). destruct (Hname tr) as (N1 & N2 & N3 & N4).
  rewrite (write_cfg_at (name tr) _ (day_config ana)); try done; [by rewrite <- app_assoc|lia|].
  rewrite Hroot, Hserver, Hdb, Huser. done.
Qed.

Lemma target_len ana kind process :
  zlen ana < ANA_NAME -> target there ana = Some (kind, process) -> zlen process < 60.
Proof.
  unfold ANA_NAME. intros Zn Ht. apply find_some in Ht as [Hin _]. revert Hin.
  unfold places, kinds. cbn [places_of In]. unfold own, beside.
  intros Hin. repeat (destruct Hin as [Hin|Hin]; [apply (f_equal snd) in Hin; cbn [snd] in Hin; subst process; text_len|]). done.
Qed.

Lemma lcs_run_ana_ok ana err count tr :
  probes ana ->
  lcs_run_ana p ana err count tr
  = Ok ((match target there ana with Some _ => err | None => 285 end, count), ana_tasks tr [ana]).
Proof.
  intros Hp. pose proof Hp as (Zn & _ & _). unfold lcs_run_ana. fold kinds.
  rewrite (io_bind_ok _ _ _ _ _ (find_target_ok ana tr Hp)). cbn [ana_tasks].
  destruct (target there ana) as [[kind process]|] eqn:Et; [|by rewrite app_nil_r].
  pose proof (target_len _ _ _ Zn Et) as Zp. destruct (Hname tr) as (_ & _ & Zm & _).
  destruct (String.eqb_spec kind "day") as [->|Hk].
  - rewrite (io_bind_ok _ _ _ _ _ (day_config_ok ana tr Hp)). do 2 io_fits ltac:(text_len).
    unfold lcs_ana_date, lcs_bash_cmd. rewrite io_bind_assoc, io_bind_emit, io_bind_assoc, io_bind_emit, io_bind_ret.
    unfold ana_task. rewrite <- !app_assoc. cbn [app]. by replace (count - 1 + 1) with count by lia.
  - by rewrite app_nil_r.
Qed.

Lemma ana_tasks_app tr a b : ana_tasks tr (a ++ b) = ana_tasks (ana_tasks tr a) b.
Proof.
  revert tr. induction a as [|ana a IH]; intros tr; [done|]. cbn [app ana_tasks]. apply IH.
Qed.

(** The rows are run up to the first empty one. *)
Lemma run_rows_ok rows i fuel err count tr :
  (length rows < fuel)%nat -> Forall (fun r => r <> [] /\ probes r) rows ->
  (forall j r, rows !! j = Some r -> ana_row p (Z.of_nat (i + j)) = Ok r) ->
  ana_row p (Z.of_nat (i + length rows)) = Ok [] ->
  run_rows fuel p (Z.of_nat i) err count tr
  = Ok ((if forallb (found there) rows then err else 285, count),
        ana_tasks tr rows).
Proof.
  intros Hf Hr. revert i fuel err tr Hf.
  induction Hr as [|r rows [Hne Hp] _ IH]; intros i [|fuel] err tr Hf Hrow Hend; cbn [length] in *; try lia.
  - cbn [run_rows]. rewrite Nat.add_0_r in Hend. by rewrite (io_bind_lift _ _ _ _ Hend).
  - cbn [run_rows forallb].
    pose proof (Hrow 0%nat r eq_refl) as H0. rewrite Nat.add_0_r in H0.
    rewrite (io_bind_lift _ _ _ _ H0), match_ne by done.
    rewrite (io_bind_ok _ _ _ _ _ (lcs_run_ana_ok r err count tr Hp)).
    replace (Z.of_nat i + 1) with (Z.of_nat (S i)) by lia.
    rewrite IH by (first [lia | (intros j s Hs; rewrite <- (Hrow (S j) s Hs); f_equal; lia)
                         | (rewrite <- Hend; f_equal; lia)]).
    cbn [ana_tasks]. unfold found at 2. destruct (target there r); cbn [andb]; [done|]. by destruct (forallb _ _).
Qed.

(** The list of the configuration: every name, cut to the length of the first one. *)
Lemma run_list_ok k names tr :
  0 < k < ANA_NAME -> filled k p names -> zlen names < ANA_ROWS -> 
  Forall (fun n => n <> [] /\ probes (take (Z.to_nat k) n)) names ->
  lcs_run_list_analysis p 0 tr
  = Ok (if forallb (found there) (map (take (Z.to_nat k)) names) then 0 else 285,
        ana_tasks tr (map (take (Z.to_nat k)) names)).
Proof.
  intros Hk Hf Hn Hp. unfold lcs_run_list_analysis. set (rows := map (take (Z.to_nat k)) names).
  assert (Hl : length rows = length names) by apply length_map.
  assert (Hrow : forall j, (j <= length rows)%nat -> ana_row p (Z.of_nat (0 + j)) = Ok (default [] (rows !! j))).
  { intros j Hj. cbn [Nat.add]. rewrite (filled_row k p names j) by (done || lia). unfold rows.
    rewrite list_lookup_fmap. destruct (names !! j); [done|]. cbn. by rewrite take_nil. }
  rewrite (io_bind_ok _ _ tr (if forallb (found there) rows then 0 else 285, 0) (ana_tasks tr rows)).
  - done.
  - apply (run_rows_ok rows 0).
    + unfold ANA_ROWS, zlen in *. lia.
    + apply Forall_map. eapply Forall_impl; [exact Hp|]. intros n [Hne Hpr]. split; [|exact Hpr].
      destruct n, (Z.to_nat k) eqn:E; try done; lia.
    + intros j r Hr. rewrite Hrow by (apply lookup_lt_Some in Hr; lia). by rewrite Hr.
    + rewrite Hrow by lia. by rewrite lookup_ge_None_2.
Qed.

End Running.
