(* ===== verification/Fetch.v ===== *)
(** * Agents and history

    Models src/cluster/getagent/main.c and src/cluster/gethistory/main.c, which the manager
    starts for every server.  The first copies the tables that describe agents and users, the
    second the rows of one day of the history tables: each table is selected and written to a
    file, one line for each row, and the insertion is started on the directory.

    The text of a column is built as in the export (Cluster.v), but in a buffer of its own with
    50 bytes to spare: it always fits. *)
From S2P Require Import Prelude CString OpenSSL World Config Cluster.
From S2P Require LcsCommon Manager Analysis.

(** ** Rows *)

(** [calloc(1, strlen(row[i]) + 50)] *)
Definition fetch_column (c : option (list byte)) : res (list byte) :=
  match c with
  | None => Ok (str "NULL")
  | Some [] => Ok (str "NULL")
  | Some (b :: s) =>
    if b2z b =? 1 then Ok (str "true") else fits (zlen (b :: s) + 50) (column_words (b :: s))
  end.
Fixpoint fetch_columns (r : row) : res (list byte) :=
  match r with
  | [] => Ok []
  | c :: r => s ← fetch_column c; l ← fetch_columns r; Ok (s ++ [x09] ++ l)
  end.
Fixpoint fetch_rows (rows : list row) : res (list byte) :=
  match rows with
  | [] => Ok []
  | r :: rows => l ← fetch_columns r; f ← fetch_rows rows; Ok (l ++ [x0a] ++ f)
  end.

Section Programs.
Context `{World}.

(** ** The connection *)

(** [refused] is the error when the connection is refused. *)
Definition connect_at (noinit : Z) (refused : Z -> Z) (info : cfg) (err : Z) : io (bool * Z) :=
  ok ← ask mysql_init;
  if negb ok then mret (false, noinit)
  else
    server ← lift (text_of info "server");
    user ← lift (text_of info "user");
    password ← lift (text_of info "password");
    db ← lift (text_of info "db");
    ok ← ask mysql_real_connect;
    if negb ok then con ← lcs_try_close true; mret (con, refused err)
    else
      _ ← emit (EvConnect server user password db);
      _ ← query true (str "SET NAMES 'utf8';");
      mret (true, err).

(** The list of tables: a copy of the member, 1024 bytes, and its names with 64 bytes each. *)
Definition list_of (tables : list byte) : res (list (list byte)) :=
  tables ← fits 1024 tables;
  LcsCommon.lcs_cgen_list (strtok (str "," ++ [nl]) tables) [].

(** What follows the query: the rows are written to [fullpath], or the error when there is no
    such file. *)
Definition write_rows (fullpath : list byte) (nofile err : Z) : io Z :=
  result ← ask mysql_store_result;
  match result with
  | None => mret err
  | Some rows =>
    ok ← ask (fun tr => fopen_w tr fullpath);
    if negb ok then mret nofile
    else
      text ← lift (fetch_rows rows);
      _ ← emit (EvWrite fullpath text);
      mret err
  end.

(** ** getagent *)

Definition agent_members : list (string * Z) :=
  [("server", 128); ("user", 64); ("password", 64); ("db", 64); ("pathtemplate", 1024);
   ("pathagent", 1024); ("listtable", 1024); ("insertprocess", 1024)]%string.
Definition agent_cfg_table : list entry :=
  [copy_to "server" "server:"; copy_to "user" "user:"; copy_to "password" "password:";
   copy_to "db" "db:"; copy_to "pathtemplate" "pathtemplate_0001:";
   copy_to "pathagent" "pathagent_0002:"; copy_to "listtable" "listtable_0003:";
   copy_to "insertprocess" "insertprocess_0004:"].
Definition agent_connect : cfg -> Z -> io (bool * Z) := connect_at 1 (fun err => err).

(** [*err = error] at the end: only the error of the query is passed on. *)
Definition lcs_get_agents (info : cfg) (con : bool) (table : list byte) (err : Z) : io Z :=
  if negb con then mret err
  else
    sql ← lift (fits 1024 (str "select * from " ++ table ++ str ";"));
    path ← lift (text_of info "pathagent");
    fullpath ← lift (fits 1024 (path ++ str "/" ++ table ++ str ".data"));
    error ← query con sql;
    if negb (error =? 0) then mret error
    else _ ← write_rows fullpath 1 err; mret error.

(** [fetch] for each name of the list. *)
Fixpoint lcs_fetch_llist (fetch : list byte -> Z -> io Z) (root : list (list byte)) (err : Z) : io Z :=
  match root with
  | [] => mret err
  | p :: root => name ← lift (cstr p); err ← fetch name err; lcs_fetch_llist fetch root err
  end.

Definition agent_start (info : cfg) (err : Z) : io Z :=
  listtable ← lift (text_of info "listtable");
  pathagent ← lift (text_of info "pathagent");
  _ ← lcs_create_dir pathagent;
  root ← lift (list_of listtable);
  '(con, err) ← agent_connect info err;
  err ← lcs_fetch_llist (lcs_get_agents info con) root err;
  _ ← lcs_try_close con;
  pathtemplate ← lift (text_of info "pathtemplate");
  _ ← lcs_commpre_env pathtemplate pathagent;
  insertprocess ← lift (text_of info "insertprocess");
  '(_, err) ← lcs_comm_moving pathtemplate pathagent listtable insertprocess None err;
  mret err.
Definition getagent_main (path : list byte) : io Z :=
  '(info, _) ← cfg_load agent_cfg_table path (cleared agent_members) 0;
  _ ← agent_start info 0;
  mret 0.

(** ** gethistory *)

Definition history_members : list (string * Z) :=
  [("server", 128); ("user", 64); ("password", 64); ("db", 64); ("date", 32);
   ("pathhistory", 1024); ("pathtemplate", 1024); ("listtable", 1024); ("insertprocess", 1024)]%string.
Definition history_cfg_table : list entry :=
  [copy_to "server" "server:"; copy_to "user" "user:"; copy_to "password" "password:";
   copy_to "db" "db:"; copy_to "date" "date_0001:"; copy_to "pathhistory" "pathhistory_0002:";
   copy_to "listtable" "listtable_0003:"; copy_to "pathtemplate" "pathtemplate_0004:";
   copy_to "insertprocess" "insertprocess_0005:"].
Definition history_connect : cfg -> Z -> io (bool * Z) := connect_at 211 (fun _ => 219).

(** The column with the time of a row; none is known of other tables. *)
Definition lcs_get_field (tab : list byte) : list byte :=
  if is_table tab "DND_History" then str "start_time"
  else if is_table tab "auto_dial_wrapup_history" then str "start_time"
  else if is_table tab "agent_history" then str "login_at"
  else if is_table tab "auto_dial_detail" then str "created_time"
  else [].
Definition history_select (table date : list byte) : list byte :=
  str "select * from " ++ table ++ str " where " ++ lcs_get_field table ++ str " >= '" ++ date ++
  str " 00:00:00' and " ++ lcs_get_field table ++ str " <= '" ++ date ++ str " 23:59:59';".
Definition get_history (info : cfg) (con : bool) (table : list byte) (err : Z) : io Z :=
  if negb con then mret 329
  else
    date ← lift (text_of info "date");
    sql ← lift (fits 1024 (history_select table date));
    path ← lift (text_of info "pathhistory");
    fullpath ← lift (fits 1024 (path ++ str "/" ++ table ++ str ".data"));
    error ← query con sql;
    if negb (error =? 0) then mret 344 else write_rows fullpath 359 err.

(** An error of a table ends the work before the connection is closed. *)
Definition history_start (info : cfg) (err : Z) : io Z :=
  pathhistory ← lift (text_of info "pathhistory");
  _ ← lcs_create_dir pathhistory;
  if negb (err =? 0) then mret err
  else
    listtable ← lift (text_of info "listtable");
    root ← lift (list_of listtable);
    '(con, err) ← history_connect info err;
    if negb (err =? 0) then mret err
    else
      err ← lcs_fetch_llist (get_history info con) root err;
      if negb (err =? 0) then mret err
      else _ ← lcs_try_close con; mret err.
Definition gethistory_main (path : list byte) : io Z :=
  '(info, _) ← cfg_load history_cfg_table path (cleared history_members) 0;
  err ← history_start info 0;
  err ← (if negb (err =? 0) then mret err
         else
           pathtemplate ← lift (text_of info "pathtemplate");
           pathhistory ← lift (text_of info "pathhistory");
           _ ← lcs_commpre_env pathtemplate pathhistory;
           listtable ← lift (text_of info "listtable");
           insertprocess ← lift (text_of info "insertprocess");
           '(_, err) ← lcs_comm_moving pathtemplate pathhistory listtable insertprocess None err;
           mret err);
  mret (if err =? 0 then 0 else 1).

End Programs.

(** ** The rows always fit *)

Lemma words_length d s off cur :
  zlen (concat (map (fun t => t ++ [x20]) (map snd (strtok_all d s off cur))))
  <= zlen s + match cur with Some (_, t) => zlen t | None => 0 end + 1.
Proof.
  revert off cur. induction s as [|b s IH]; intros off cur; cbn [strtok_all].
  - destruct cur as [[o t]|]; cbn [map snd concat]; rewrite ?app_nil_r, ?zlen_app; change (zlen [x20]) with 1; change (zlen (@nil byte)) with 0; lia.
  - rewrite zlen_cons. destruct (is_delim d b).
    + destruct cur as [[o t]|]; cbn [map snd concat]; pose proof (IH (off + 1) None) as Hs; cbn beta iota in Hs;
        rewrite ?zlen_app; change (zlen [x20]) with 1; lia.
    + destruct cur as [[o t]|]; [pose proof (IH (off + 1) (Some (o, t ++ [b]))) as Hs
        |pose proof (IH (off + 1) (Some (off, [b]))) as Hs]; cbn beta iota in Hs.
      * rewrite zlen_app in Hs. change (zlen [b]) with 1 in Hs. lia.
      * change (zlen [b]) with 1 in Hs. lia.
Qed.

Lemma column_words_length s : zlen (column_words s) <= zlen s + 1.
Proof.
  unfold column_words, strtok. pose proof (words_length row_delims s 0 None) as Hs. cbn beta iota in Hs.
  destruct (map snd (strtok_all row_delims s 0 None)) as [|w ws].
  - change (zlen []) with 0. pose proof (zlen_nonneg s). lia.
  - cbn [map concat] in Hs. rewrite !zlen_app in *. change (zlen [x20]) with 1 in Hs.
    change (str " ") with [x20]. lia.
Qed.

Lemma fetch_column_ok c : fetch_column c = Ok (cell c).
Proof.
  destruct c as [[|b s]|]; try done. unfold fetch_column, cell. destruct (b2z b =? 1); [done|].
  apply fits_ok. pose proof (column_words_length (b :: s)). lia.
Qed.
Lemma fetch_rows_ok rows : fetch_rows rows = Ok (text_of_rows rows).
Proof.
  induction rows as [|r rows IH]; [done|]. cbn [fetch_rows]. unfold text_of_rows. cbn [map concat].
  assert (Hr : fetch_columns r = Ok (line_of r)).
  { induction r as [|c r IHr]; [done|]. cbn [fetch_columns]. unfold line_of. cbn [map concat].
    rewrite fetch_column_ok. cbn [mbind res_bind]. rewrite IHr. cbn [mbind res_bind]. by rewrite <- app_assoc. }
  rewrite Hr. cbn [mbind res_bind]. rewrite IH. cbn [mbind res_bind]. by rewrite <- app_assoc.
Qed.

(** ** The tables of a list *)

Definition table_delims : list byte := str "," ++ [nl].
Definition table_name (t : list byte) : Prop :=
  t <> [] /\ zlen t < 64 /\
  Forall (fun b => is_delim table_delims b = false /\ is_delim LcsCommon.seps b = false /\ b <> x00) t.
Definition padded (t : list byte) : list byte := t ++ zeros (64 - zlen t).

Lemma commas_tokens d names off :
  is_delim d x2c = true -> Forall (fun n => n <> [] /\ Forall (fun b => is_delim d b = false) n) names ->
  map snd (strtok_all d (Analysis.commas names) off None) = names.
Proof.
  intros Hd Hn. revert off. induction Hn as [|n names [Hne Hn] _ IH]; intros off; [done|].
  destruct names as [|m names].
  - cbn [Analysis.commas]. by rewrite strtok_final.
  - change (Analysis.commas (n :: m :: names)) with (n ++ x2c :: Analysis.commas (m :: names)).
    rewrite strtok_token by done. cbn [map snd]. by rewrite IH.
Qed.

Lemma list_of_ok tables :
  Forall table_name tables -> zlen (Analysis.commas tables) < 1024 ->
  list_of (Analysis.commas tables) = Ok (map padded tables).
Proof.
  intros Ht Hz. unfold list_of. rewrite fits_ok by done. cbn [mbind res_bind]. fold table_delims. unfold strtok.
  pose proof (commas_tokens table_delims tables 0 eq_refl) as Hs.
  assert (Hn : Forall (fun n => n <> [] /\ Forall (fun b => is_delim table_delims b = false) n) tables).
  { eapply Forall_impl; [exact Ht|]. intros t (H1 & _ & H2). split; [done|].
    eapply Forall_impl; [exact H2|]. by intros b [? _]. }
  specialize (Hs Hn). rewrite LcsCommon.lcs_cgen_list_ok.
  - cbn [app]. f_equal. rewrite <- Hs at 2. rewrite map_map. done.
  - rewrite <- Hs in Ht. rewrite Forall_map in Ht. eapply Forall_impl; [exact Ht|].
    intros t (H1 & H2 & H3). split; [done|]. split; [done|].
    eapply Forall_impl; [exact H3|]. intros b (_ & H4 & H5). done.
Qed.

Lemma padded_cstr t : table_name t -> cstr (padded t) = Ok t.
Proof.
  intros (_ & Hz & Ht). unfold padded. replace (zeros (64 - zlen t)) with (x00 :: zeros (63 - zlen t)).
  - apply cstr_terminated. eapply Forall_impl; [exact Ht|]. by intros b (_ & _ & ?).
  - replace (64 - zlen t) with (1 + (63 - zlen t)) by lia. by rewrite zeros_add by lia.
Qed.

Section Fetching.
Context `{World}.

Lemma fetch_llist_ok fetch step tables tr :
  Forall table_name tables -> (forall tr t, t ∈ tables -> fetch t 0 tr = Ok (0, tr ++ step t)) ->
  lcs_fetch_llist fetch (map padded tables) 0 tr = Ok (0, tr ++ concat (map step tables)).
Proof.
  intros Ht. revert tr. induction Ht as [|t tables Ht _ IH]; intros tr Hf; cbn [map lcs_fetch_llist concat].
  - by rewrite app_nil_r.
  - rewrite (io_bind_lift _ _ _ _ (padded_cstr t Ht)).
    rewrite (io_bind_ok _ _ _ _ _ (Hf tr t ltac:(left))), IH, <- app_assoc; [done|].
    intros tr' t' Hin. apply Hf. by right.
Qed.

(** A server that accepts the connection and answers the query [sql t] with [rows_of t]. *)
Record answers (sql : list byte -> list byte) (rows_of : list byte -> list row) (tables : list (list byte))
    : Prop := {
  an_init : forall tr, mysql_init tr = true;
  an_connect : forall tr, mysql_real_connect tr = true;
  an_query : forall tr q, mysql_query tr q = 0;
  an_rows : forall tr t, t ∈ tables -> mysql_store_result (tr ++ [EvQuery (sql t)]) = Some (rows_of t);
  an_write : forall tr path, fopen_w tr path = true
}.

Definition login_of (info : cfg) (server user password db : list byte) : Prop :=
  text_of info "server" = Ok server /\ text_of info "user" = Ok user /\
  text_of info "password" = Ok password /\ text_of info "db" = Ok db.
Definition connected (server user password db : list byte) : trace :=
  [EvConnect server user password db; EvQuery (str "SET NAMES 'utf8';")].
(** What is done for a table. *)
Definition copied (sql : list byte -> list byte) (rows_of : list byte -> list row) (dir t : list byte) : trace :=
  [EvQuery (sql t); EvWrite (dir ++ str "/" ++ t ++ str ".data") (text_of_rows (rows_of t))].
(** The template of the database is copied, and the insertion started on the directory. *)
Definition inserted (templ dir tables ins : list byte) : trace :=
  [EvPopen (str "cp -f " ++ quoted templ ++ str "/lcs.db " ++ quoted dir);
   EvWrite (dir ++ str "/insert.cfg")
     (str "tables_0001:" ++ tables ++ [nl] ++ str "targetdir_0002:" ++ dir ++ [nl] ++
      str "templatedir_0003:" ++ templ ++ [nl]);
   EvPopen (ins ++ str " " ++ dir ++ str "/insert.cfg")].

Lemma connect_ok sql rows_of tables noinit refused info server user password db tr :
  answers sql rows_of tables -> login_of info server user password db ->
  connect_at noinit refused info 0 tr = Ok ((true, 0), tr ++ connected server user password db).
Proof.
  intros Ha (E1 & E2 & E3 & E4). unfold connect_at. rewrite io_bind_ask, (an_init _ _ _ Ha). cbn [negb].
  rewrite (io_bind_lift _ _ _ _ E1), (io_bind_lift _ _ _ _ E2), (io_bind_lift _ _ _ _ E3), (io_bind_lift _ _ _ _ E4).
  rewrite io_bind_ask, (an_connect _ _ _ Ha). cbn [negb]. rewrite io_bind_emit. unfold query.
  rewrite !io_bind_assoc, io_bind_ask, io_bind_assoc, io_bind_emit, io_bind_ret.
  unfold mret, io_ret, connected. by rewrite <- app_assoc.
Qed.

Lemma write_rows_ok sql rows_of tables path nofile t tr :
  answers sql rows_of tables -> t ∈ tables ->
  write_rows path nofile 0 (tr ++ [EvQuery (sql t)])
  = Ok (0, tr ++ [EvQuery (sql t); EvWrite path (text_of_rows (rows_of t))]).
Proof.
  intros Ha Ht. unfold write_rows. rewrite io_bind_ask, (an_rows _ _ _ Ha) by done.
  rewrite io_bind_ask, (an_write _ _ _ Ha). cbn [negb].
  rewrite (io_bind_lift _ _ _ _ (fetch_rows_ok (rows_of t))), io_bind_emit. by rewrite <- app_assoc.
Qed.

Lemma query_answered sql rows_of tables q tr :
  answers sql rows_of tables -> query true q tr = Ok (0, tr ++ [EvQuery q]).
Proof.
  intros Ha. unfold query. by rewrite io_bind_ask, io_bind_emit, (an_query _ _ _ Ha).
Qed.

Lemma commpre_ok templ dir tr :
  zlen templ + zlen dir < 1000 ->
  lcs_commpre_env templ dir tr
  = Ok (tt, tr ++ [EvPopen (str "cp -f " ++ quoted templ ++ str "/lcs.db " ++ quoted dir)]).
Proof. intros Z. unfold lcs_commpre_env, lcs_bash_cmd, quoted. by io_fits ltac:(text_len). Qed.

Lemma moving_ok templ dir tables ins out tr :
  (forall tr path, fopen_w tr path = true) ->
  zlen templ < 1000 -> zlen dir < 900 -> zlen tables < 1000 -> zlen ins + zlen dir < 1000 ->
  (forall tr, popen tr (ins ++ str " " ++ dir ++ str "/insert.cfg") = Some out) ->
  exists text, lcs_comm_moving templ dir tables ins None 0 tr
    = Ok ((text, 0), tr ++ drop 1 (inserted templ dir tables ins)).
Proof.
  intros Hw Z1 Z2 Z3 Z4 Hp. eexists. unfold lcs_comm_moving.
  do 4 io_fits ltac:(text_len). rewrite io_bind_ask, Hw. cbn [negb]. rewrite io_bind_emit.
  io_fits ltac:(text_len).
  rewrite (io_bind_ok _ _ _ _ _ (lcs_bash_cmdext_ok _ None _ _ (Hp _))). unfold mret, io_ret, inserted.
  cbn [drop]. by rewrite <- !app_assoc.
Qed.

Definition agent_select (t : list byte) : list byte := str "select * from " ++ t ++ str ";".

Lemma agent_table_ok info rows_of tables dir t tr :
  answers agent_select rows_of tables -> text_of info "pathagent" = Ok dir -> zlen dir < 800 ->
  t ∈ tables -> zlen t < 64 ->
  lcs_get_agents info true t 0 tr = Ok (0, tr ++ copied agent_select rows_of dir t).
Proof.
  intros Ha E Zd Hin Zn. unfold lcs_get_agents. cbn [negb]. io_fits ltac:(text_len).
  rewrite (io_bind_lift _ _ _ _ E). io_fits ltac:(text_len). fold (agent_select t).
  rewrite (io_bind_ok _ _ _ _ _ (query_answered _ _ _ _ _ Ha)). cbn [Z.eqb negb].
  by rewrite (io_bind_ok _ _ _ _ _ (write_rows_ok _ _ _ _ 1 t tr Ha Hin)).
Qed.

(** What getagent does once its configuration is loaded. *)
Lemma agent_start_ok info rows_of tables server user password db templ dir ins out tr :
  answers agent_select rows_of tables -> login_of info server user password db ->
  text_of info "pathtemplate" = Ok templ -> text_of info "pathagent" = Ok dir ->
  text_of info "listtable" = Ok (Analysis.commas tables) -> text_of info "insertprocess" = Ok ins ->
  Forall table_name tables -> zlen (Analysis.commas tables) < 1000 ->
  zlen dir < 800 -> zlen templ + zlen dir < 1000 -> zlen ins + zlen dir < 1000 ->
  (forall tr, popen tr (ins ++ str " " ++ dir ++ str "/insert.cfg") = Some out) ->
  agent_start info 0 tr
  = Ok (0, tr ++ [EvPopen (str "mkdir -p " ++ dir)] ++ connected server user password db ++
           concat (map (copied agent_select rows_of dir) tables) ++ [EvClose] ++
           inserted templ dir (Analysis.commas tables) ins).
Proof.
  intros Ha Hl E1 E2 E3 E4 Ht Zt Zd Ztd Zid Hp. unfold agent_start.
  pose proof (zlen_nonneg templ). pose proof (zlen_nonneg dir).
  rewrite (io_bind_lift _ _ _ _ E3), (io_bind_lift _ _ _ _ E2). unfold lcs_create_dir. rewrite io_bind_assoc.
  io_fits ltac:(text_len). rewrite io_bind_emit.
  rewrite (io_bind_lift _ _ _ _ (list_of_ok tables Ht ltac:(lia))). unfold agent_connect.
  rewrite (io_bind_ok _ _ _ _ _ (connect_ok _ _ _ _ _ _ _ _ _ _ _ Ha Hl)).
  assert (Hf : forall tr t, t ∈ tables ->
    lcs_get_agents info true t 0 tr = Ok (0, tr ++ copied agent_select rows_of dir t)).
  { intros tr' t Hin. apply (agent_table_ok info rows_of tables); try done.
    eapply Forall_forall in Ht; [|exact Hin]. by destruct Ht as (_ & ? & _). }
  rewrite (io_bind_ok _ _ _ _ _ (fetch_llist_ok _ _ tables _ Ht Hf)).
  unfold lcs_try_close. rewrite io_bind_assoc, io_bind_emit, io_bind_ret, (io_bind_lift _ _ _ _ E1).
  rewrite (io_bind_ok _ _ _ _ _ (commpre_ok templ dir _ Ztd)), (io_bind_lift _ _ _ _ E4).
  match goal with |- context [(lcs_comm_moving _ _ _ _ _ _ ≫= _) ?t] =>
    destruct (moving_ok templ dir (Analysis.commas tables) ins out t (an_write _ _ _ Ha) ltac:(lia) ltac:(lia) Zt Zid Hp)
      as [text Hm] end.
  rewrite (io_bind_ok _ _ _ _ _ Hm). unfold mret, io_ret, inserted. cbn [drop].
  by rewrite <- !app_assoc.
Qed.

Lemma history_table_ok info rows_of tables date dir t tr :
  answers (fun t => history_select t date) rows_of tables -> text_of info "date" = Ok date ->
  text_of info "pathhistory" = Ok dir -> zlen date < 32 -> zlen dir < 800 -> t ∈ tables -> zlen t < 64 ->
  get_history info true t 0 tr = Ok (0, tr ++ copied (fun t => history_select t date) rows_of dir t).
Proof.
  intros Ha E1 E2 Z1 Zd Hin Zn.
  assert (Zf : zlen (lcs_get_field t) < 32) by (unfold lcs_get_field; repeat case_match; done).
  unfold get_history. cbn [negb]. rewrite (io_bind_lift _ _ _ _ E1).
  io_fits ltac:(unfold history_select; text_len).
  rewrite (io_bind_lift _ _ _ _ E2). io_fits ltac:(text_len).
  rewrite (io_bind_ok _ _ _ _ _ (query_answered _ _ _ _ _ Ha)). cbn [Z.eqb negb].
  by rewrite (write_rows_ok _ _ _ _ 359 t tr Ha Hin).
Qed.

(** And what gethistory does, with the start of the insertion. *)
Lemma history_start_ok info rows_of tables server user password db date dir tr :
  answers (fun t => history_select t date) rows_of tables -> login_of info server user password db ->
  text_of info "date" = Ok date -> text_of info "pathhistory" = Ok dir ->
  text_of info "listtable" = Ok (Analysis.commas tables) ->
  Forall table_name tables -> zlen (Analysis.commas tables) < 1000 -> zlen date < 32 -> zlen dir < 800 ->
  history_start info 0 tr
  = Ok (0, tr ++ [EvPopen (str "mkdir -p " ++ dir)] ++ connected server user password db ++
           concat (map (copied (fun t => history_select t date) rows_of dir) tables) ++ [EvClose]).
Proof.
  intros Ha Hl E1 E2 E3 Ht Zt Z1 Zd. unfold history_start.
  rewrite (io_bind_lift _ _ _ _ E2). unfold lcs_create_dir. rewrite io_bind_assoc.
  io_fits ltac:(text_len). rewrite io_bind_emit. cbn [Z.eqb negb]. rewrite (io_bind_lift _ _ _ _ E3).
  rewrite (io_bind_lift _ _ _ _ (list_of_ok tables Ht ltac:(lia))). unfold history_connect.
  rewrite (io_bind_ok _ _ _ _ _ (connect_ok _ _ _ _ _ _ _ _ _ _ _ Ha Hl)). cbn [Z.eqb negb].
  assert (Hf : forall tr t, t ∈ tables -> get_history info true t 0 tr
    = Ok (0, tr ++ copied (fun t => history_select t date) rows_of dir t)).
  { intros tr' t Hin. apply (history_table_ok info rows_of tables); try done.
    eapply Forall_forall in Ht; [|exact Hin]. by destruct Ht as (_ & ? & _). }
  rewrite (io_bind_ok _ _ _ _ _ (fetch_llist_ok _ _ tables _ Ht Hf)). cbn [Z.eqb negb].
  unfold lcs_try_close. rewrite io_bind_assoc, io_bind_emit, io_bind_ret. unfold mret, io_ret.
  by rewrite <- !app_assoc.
Qed.
End Fetching.
