(* ===== verification/Template.v ===== *)
(** * Templates of the tables

    Models src/cluster/gentemplate/main.c, which the manager starts first for every server:
    for each table of the list the columns are asked for, a statement that creates the table
    is appended to one script, and a statement that inserts a row of it, with a parameter for
    each column, is written to a file of its own.  At the end an empty database is made from
    the script; the insertion (Insert.v) copies it and prepares the statements.

    The texts are put together in arrays on the stack, of 64 bytes for a column; what does not
    fit is written past them. *)
From S2P Require Import Prelude CString OpenSSL World ToyWorld Config.
From S2P Require Import Cluster Fetch.

(** ** Definitions *)

Definition templ_members : list (string * Z) :=
  [("server", 128); ("user", 64); ("password", 64); ("db", 64); ("path", 1024)]%string.

(** A column of a row that is read as a text: the library gives a pointer for each field. *)
Definition field (r : row) (i : nat) : res (list byte) :=
  match r !! i with
  | None => Fault OobRead
  | Some None => Fault NullDeref
  | Some (Some s) => Ok s
  end.
Definition contains (s : list byte) (p : string) : bool :=
  match strstr s (str p) with Some _ => true | None => false end.
Definition column_type (ty : list byte) : list byte :=
  if contains ty "bit(" then str "boolean"
  else if contains ty "enum(" then str "varchar(50)"
  else if contains ty "unsigned" then str "bigint(20)"
  else ty.
Definition tabs : list byte := [x09; x09; x09; x09].

(** The three texts that grow with the columns: the definitions, the primary key and the
    parameters of the insertion. *)
Record TEMPL := { t_text : list byte; t_primary : list byte; t_data : list byte }.
Definition PRIMARY_KEY : list byte := str "PRIMARY KEY(".
Definition templ_column (r : row) (t : TEMPL) : res TEMPL :=
  name ← field r 0;
  let name := redash x5f name in
  tmp ← fits 64 (str "@" ++ name ++ str ", ");
  data ← fits 4096 (t_data t ++ tmp);
  key ← field r 3;
  primary ← (if is_table key "PRI" then
               p ← fits 128 (t_primary t ++ name); fits 128 (p ++ str ",")
             else Ok (t_primary t));
  ty ← field r 1;
  tmp ← fits 64 (quoted name ++ tabs ++ column_type ty ++ str "," ++ [nl]);
  Ok {| t_text := t_text t ++ tmp; t_primary := primary; t_data := data |}.
Fixpoint templ_columns (rows : list row) (t : TEMPL) : res TEMPL :=
  match rows with
  | [] => Ok t
  | r :: rows => t ← templ_column r t; templ_columns rows t
  end.

(** [while(text[current] != c) --current;] from the end: what is before the last [c].  The
    index has no sign: without a [c] it passes zero and leaves the object. *)
Fixpoint before_last (c : byte) (s : list byte) : option (list byte) :=
  match s with
  | [] => None
  | b :: s =>
    match before_last c s with
    | Some t => Some (b :: t)
    | None => if decide (b = c) then Some [] else None
    end
  end.
Definition cut_last (c : byte) (s : list byte) : res (list byte) :=
  match before_last c s with Some t => Ok t | None => Fault OobRead end.

(** With a primary key its last comma becomes a parenthesis; without one the last comma of the
    definitions goes. *)
Definition templ_end (t : TEMPL) : res (list byte) :=
  if zlen (t_primary t) <=? zlen PRIMARY_KEY then cut_last x2c (t_text t)
  else
    primary ← fits 128 (take (Z.to_nat (zlen (t_primary t) - 1)) (t_primary t) ++ str ")");
    Ok (t_text t ++ primary).

Definition LCS_GEN_FORMAT : list byte :=
  str "drop table if exists %s;" ++ [nl] ++ str "create table %s(" ++ [nl] ++ str "%s" ++ [nl] ++
  str ");" ++ [nl].
Definition create_text (table text : list byte) : list byte :=
  str "drop table if exists " ++ table ++ str ";" ++ [nl] ++ str "create table " ++ table ++ str "(" ++ [nl] ++
  text ++ [nl] ++ str ");" ++ [nl].
Definition LCS_INSERT_FORMAT : list byte := str "insert into  " ++ quoted (str "%s") ++ str " VALUES (%s);".
Definition insert_text (table data : list byte) : list byte :=
  str "insert into  " ++ quoted table ++ str " VALUES (" ++ data ++ str ");".
Definition show_columns (table : list byte) : list byte := str "show columns from " ++ table ++ str ";".

Section Template.
Context `{World}.

(** [info->f = malloc(sz)], cleared, and the value copied to it; the pointer is null before. *)
Definition alloc_to (f base : string) (extra : Z) : entry :=
  (base, fun info item =>
    m ← lift (wr (zeros (wrap 32 (zlen item + extra))) 0 (drop (length (str base)) item));
    mret (<[f := m]> info)).
Definition templ_cfg_table : list entry :=
  [copy_to "server" "server:"; copy_to "user" "user:"; copy_to "password" "password:";
   copy_to "db" "db:"; copy_to "path" "path:"; alloc_to "listtable" "listtable:" 1;
   alloc_to "pathtemplate" "pathtemplate:" 0].

Definition templ_connect : cfg -> Z -> io (bool * Z) := connect_at 183 (fun _ => 191).

(** The buffer of the statement is sized before its last comma is gone. *)
Definition lcs_insert_format (dir table data : list byte) (err : Z) : io Z :=
  data ← lift (cut_last x2c data);
  let sz := wrap 32 (zlen data + 1 + zlen table + zlen LCS_INSERT_FORMAT + 10) in
  text ← lift (fits sz (insert_text table data));
  filepath ← lift (fits 1024 (dir ++ str "/" ++ table ++ str ".format.insert.sql"));
  ok ← ask (fun tr => fopen_w tr filepath);
  if negb ok then mret 453
  else _ ← emit (EvWrite filepath text); mret err.

Definition lcs_gen_templ (dir path table : list byte) (con : bool) (err : Z) : io Z :=
  if negb con then mret 294
  else
    fullpath ← lift (fits 1024 (dir ++ str "/" ++ path));
    sql ← lift (fits 1024 (show_columns table));
    error ← query con sql;
    if negb (error =? 0) then mret 313
    else
      result ← ask mysql_store_result;
      t ← lift (match result with
                | None => Ok {| t_text := []; t_primary := []; t_data := [] |}
                | Some rows => templ_columns rows {| t_text := []; t_primary := PRIMARY_KEY; t_data := [] |}
                end);
      text ← lift (templ_end t);
      sql_text ← lift (fits (wrap 32 (zlen text + zlen LCS_GEN_FORMAT + 100)) (create_text table text));
      ok ← ask (fun tr => fopen_w tr fullpath);
      _ ← (if ok : bool then emit (EvAppend fullpath sql_text) else mret tt);
      match t_data t with
      | [] => mret 0
      | data =>
        err ← lcs_insert_format dir table data err;
        if negb (err =? 0) then mret err else mret 0
      end.

Fixpoint gen_tables (dir path : list byte) (con : bool) (tables : list (list byte)) (err : Z) : io Z :=
  match tables with
  | [] => mret err
  | t :: tables => err ← lcs_gen_templ dir path t con err; gen_tables dir path con tables err
  end.

Definition lcs_create_db (dir name : list byte) : io unit :=
  cmd ← lift (fits 1024 (str "sqlite3 " ++ quoted dir ++ str "/lcs.db < " ++ quoted (dir ++ str "/" ++ name)));
  lcs_bash_cmd cmd.

(** The two members that are pointers are null until their lines are met. *)
Definition lcs_start_gen (info : cfg) (err : Z) : io Z :=
  match info !! "listtable"%string, info !! "pathtemplate"%string with
  | None, _ => mret 228
  | _, None => mret 232
  | Some _, Some _ =>
    dir ← lift (text_of info "path");
    _ ← lcs_create_dir dir;
    name ← lift (text_of info "pathtemplate");
    fullpath ← lift (fits 1024 (dir ++ str "/" ++ name));
    _ ← emit (EvRemove fullpath);
    tables ← lift (text_of info "listtable");
    '(con, err) ← templ_connect info err;
    err ← gen_tables dir name con (map snd (strtok (str ",") tables)) err;
    _ ← lcs_try_close con;
    _ ← (if err =? 0 then lcs_create_db dir name else mret tt);
    mret err
  end.
Definition gentemplate_main (path : list byte) : io Z :=
  '(info, _) ← cfg_load templ_cfg_table path (cleared templ_members) 0;
  err ← lcs_start_gen info 0;
  mret (if err =? 0 then 0 else 1).
End Template.

(** ** The statements *)

(** A column as the database describes it. *)
Record COLUMN := {
  c_name : list byte; c_type : list byte; c_null : option (list byte); c_key : list byte; c_more : row
}.
Definition column_row (c : COLUMN) : row :=
  Some (c_name c) :: Some (c_type c) :: c_null c :: Some (c_key c) :: c_more c.
Definition is_primary (c : COLUMN) : bool := is_table (c_key c) "PRI".
Definition col_name (c : COLUMN) : list byte := redash x5f (c_name c).
Definition column_def (c : COLUMN) : list byte := quoted (col_name c) ++ tabs ++ column_type (c_type c).
Definition parameter (c : COLUMN) : list byte := str "@" ++ col_name c.

Fixpoint sep_by (sep : list byte) (l : list (list byte)) : list byte :=
  match l with
  | [] => []
  | [x] => x
  | x :: l => x ++ sep ++ sep_by sep l
  end.
Definition primaries (cols : list COLUMN) : list COLUMN := List.filter is_primary cols.
Definition primary_def (cols : list COLUMN) : list (list byte) :=
  match primaries cols with
  | [] => []
  | l => [PRIMARY_KEY ++ sep_by (str ",") (map col_name l) ++ str ")"]
  end.
Definition create_of (table : list byte) (cols : list COLUMN) : list byte :=
  create_text table (sep_by (str "," ++ [nl]) (map column_def cols ++ primary_def cols)).
Definition insert_of (table : list byte) (cols : list COLUMN) : list byte :=
  insert_text table (sep_by (str ", ") (map parameter cols)).

(** The columns whose texts have room. *)
Definition columns_fit (cols : list COLUMN) : Prop :=
  cols <> [] /\ Forall (fun c => zlen (col_name c) < 61 /\ zlen (column_def c) < 62) cols /\
  zlen (sep_by (str ", ") (map parameter cols)) < 4094 /\
  zlen (sep_by (str ",") (map col_name (primaries cols))) < 115.

(** ** Texts with separators *)

Lemma sep_by_snoc sep l x : l <> [] -> sep_by sep (l ++ [x]) = sep_by sep l ++ sep ++ x.
Proof.
  induction l as [|y l IH]; [done|]. intros _. destruct l as [|z l]; [done|].
  change (sep_by sep ((y :: z :: l) ++ [x])) with (y ++ sep ++ sep_by sep ((z :: l) ++ [x])).
  rewrite IH by done. change (sep_by sep (y :: z :: l)) with (y ++ sep ++ sep_by sep (z :: l)).
  by rewrite <- !app_assoc.
Qed.
Lemma concat_sep_by sep l :
  concat (map (fun x => x ++ sep) l) = match l with [] => [] | _ => sep_by sep l ++ sep end.
Proof.
  induction l as [|x l IH]; [done|]. cbn [map concat]. rewrite IH. destruct l as [|y l]; [by rewrite app_nil_r|].
  change (sep_by sep (x :: y :: l)) with (x ++ sep ++ sep_by sep (y :: l)). by rewrite <- !app_assoc.
Qed.

Lemma before_last_ok c s t : c ∉ t -> before_last c (s ++ c :: t) = Some s.
Proof.
  intros Ht. assert (Hn : before_last c t = None).
  { induction t as [|b t IH]; [done|]. apply not_elem_of_cons in Ht as [Hb Ht]. cbn [before_last].
    rewrite IH by done. by destruct (decide (b = c)) as [->|]. }
  induction s as [|b s IH]; cbn [app before_last]; [rewrite Hn; by rewrite decide_True|by rewrite IH].
Qed.

(** ** The columns of a table *)

Definition with_columns (t : TEMPL) (cols : list COLUMN) : TEMPL := {|
  t_text := t_text t ++ concat (map (fun x => x ++ str "," ++ [nl]) (map column_def cols));
  t_primary := t_primary t ++ concat (map (fun x => x ++ str ",") (map col_name (primaries cols)));
  t_data := t_data t ++ concat (map (fun x => x ++ str ", ") (map parameter cols))
|}.

Lemma templ_columns_ok cols t :
  Forall (fun c => zlen (col_name c) < 61 /\ zlen (column_def c) < 62) cols ->
  zlen (t_data (with_columns t cols)) < 4096 -> zlen (t_primary (with_columns t cols)) < 128 ->
  templ_columns (map column_row cols) t = Ok (with_columns t cols).
Proof.
  intros Hc. revert t. induction Hc as [|c cols [Z1 Z2] _ IH]; intros t Hd Hp.
  { unfold with_columns. cbn. rewrite !app_nil_r. by destruct t. }
  assert (Hstep : with_columns (with_columns t [c]) cols = with_columns t (c :: cols)).
  { unfold with_columns, primaries. cbn [t_text t_primary t_data map concat List.filter].
    destruct (is_primary c); cbn [map concat]; rewrite ?app_nil_r, <- ?app_assoc; reflexivity. }
  assert (Hone : templ_column (column_row c) t = Ok (with_columns t [c])).
  { rewrite <- Hstep in Hd, Hp. cbn [with_columns t_data t_primary] in Hd, Hp.
    rewrite zlen_app in Hd, Hp.
    set (R := concat (map (fun x => x ++ str ", ") (map parameter cols))) in *.
    set (Q := concat (map (fun x => x ++ str ",") (map col_name (primaries cols)))) in *.
    pose proof (zlen_nonneg R). pose proof (zlen_nonneg Q). clearbody R Q.
    unfold templ_column, column_row, field. cbn [lookup list_lookup mbind res_bind]. fold (col_name c).
    cbn [map concat] in Hd. rewrite app_nil_r in Hd. unfold parameter in Hd. rewrite <- !app_assoc in Hd.
    assert (Hd2 : quoted (col_name c) ++ tabs ++ column_type (c_type c) ++ str "," ++ [nl]
      = column_def c ++ str "," ++ [nl]) by (unfold column_def; by rewrite <- !app_assoc).
    rewrite Hd2, (fits_ok 64 (str "@" ++ _)) by text_len. cbn [mbind res_bind].
    rewrite (fits_ok 4096) by (revert Hd; text_len). cbn [mbind res_bind].
    rewrite (fits_ok 64 (column_def c ++ _)) by text_len.
    unfold with_columns, primaries in *. cbn [List.filter map concat] in *. fold (is_primary c).
    destruct (is_primary c); cbn [map concat mbind res_bind] in *; rewrite ?app_nil_r in *.
    - rewrite (fits_ok 128 (t_primary t ++ col_name c)) by (revert Hp; text_len). cbn [mbind res_bind].
      rewrite (fits_ok 128) by (revert Hp; text_len). cbn [mbind res_bind]. unfold parameter.
      by rewrite <- !app_assoc.
    - unfold parameter. by rewrite <- !app_assoc. }
  cbn [map templ_columns]. rewrite Hone. cbn [mbind res_bind]. rewrite IH; by rewrite Hstep.
Qed.

Lemma templ_end_ok cols :
  columns_fit cols ->
  templ_end (with_columns {| t_text := []; t_primary := PRIMARY_KEY; t_data := [] |} cols)
  = Ok (sep_by (str "," ++ [nl]) (map column_def cols ++ primary_def cols)).
Proof.
  intros (Hne & _ & _ & Hp). unfold templ_end, with_columns. cbn [t_text t_primary app].
  rewrite !concat_sep_by. unfold primary_def.
  destruct (map column_def cols) as [|d ds] eqn:E; [by destruct cols|].
  destruct (primaries cols) as [|q l]; cbn [map].
  - rewrite !app_nil_r. rewrite Z.leb_refl. unfold cut_last. cbn [app].
    change ((str "," ++ [nl])) with (x2c :: [nl]). by rewrite before_last_ok by decided.
  - fold (map col_name (q :: l)) in *. change (col_name q :: map col_name l) with (map col_name (q :: l)).
    set (s := sep_by (str ",") (map col_name (q :: l))) in *.
    replace (zlen (PRIMARY_KEY ++ s ++ str ",") <=? zlen PRIMARY_KEY) with false.
    2:{ symmetry. apply Z.leb_gt. pose proof (zlen_nonneg s). rewrite !zlen_app. change (zlen (str ",")) with 1. lia. }
    assert (Ht : take (Z.to_nat (zlen (PRIMARY_KEY ++ s ++ str ",") - 1)) (PRIMARY_KEY ++ s ++ str ",") = PRIMARY_KEY ++ s).
    { rewrite app_assoc, zlen_app. change (zlen (str ",")) with 1.
      replace (zlen (PRIMARY_KEY ++ s) + 1 - 1) with (zlen (PRIMARY_KEY ++ s)) by lia. unfold zlen. by rewrite Nat2Z.id, take_app_length. }
    rewrite Ht, fits_ok by (rewrite !zlen_app; change (zlen PRIMARY_KEY) with 12; change (zlen (str ")")) with 1; lia).
    cbn [mbind res_bind]. change (map col_name (q :: l)) with (map col_name (q :: l)).
    rewrite sep_by_snoc by done. by rewrite <- !app_assoc.
Qed.

(** The definitions are bounded because the parameters are. *)
Lemma definitions_length cols :
  Forall (fun c => zlen (col_name c) < 61 /\ zlen (column_def c) < 62) cols ->
  zlen (concat (map (fun x => x ++ str "," ++ [nl]) (map column_def cols)))
  <= 22 * zlen (concat (map (fun x => x ++ str ", ") (map parameter cols))).
Proof.
  induction 1 as [|c cols [_ Z] _ IH]; [done|]. cbn [map concat]. rewrite !zlen_app. unfold parameter at 1.
  rewrite zlen_app. pose proof (zlen_nonneg (col_name c)). change (zlen (str ", ")) with 2. change (zlen (str "@")) with 1.
  change (zlen (str ",")) with 1. change (zlen [nl]) with 1. lia.
Qed.
Lemma create_length cols :
  columns_fit cols -> zlen (sep_by (str "," ++ [nl]) (map column_def cols ++ primary_def cols)) < 2 ^ 20.
Proof.
  intros (Hne & Hc & Hd & Hp). pose proof (definitions_length cols Hc) as Hl. rewrite !concat_sep_by in Hl.
  destruct cols as [|c cols]; [done|]. cbn [map] in Hl. fold (map column_def (c :: cols)) in Hl.
  change (column_def c :: map column_def cols) with (map column_def (c :: cols)) in Hl.
  change (parameter c :: map parameter cols) with (map parameter (c :: cols)) in Hl. rewrite !zlen_app in Hl.
  change (zlen (str ", ")) with 2 in Hl. change (zlen (str ",")) with 1 in Hl. change (zlen [nl]) with 1 in Hl.
  unfold primary_def. destruct (primaries (c :: cols)) as [|q l]; [rewrite app_nil_r; lia|].
  rewrite sep_by_snoc by done. rewrite !zlen_app. change (zlen (str ")")) with 1.
  change (zlen PRIMARY_KEY) with 12. change (zlen (str ",")) with 1. change (zlen [nl]) with 1. lia.
Qed.

Section Running.
Context `{World}.
Variable cols : list byte -> list COLUMN.
Definition described (t : list byte) : list row := map column_row (cols t).

(** What is done for a table. *)
Definition templated (dir name t : list byte) : trace :=
  [EvQuery (show_columns t); EvAppend (dir ++ str "/" ++ name) (create_of t (cols t));
   EvWrite (dir ++ str "/" ++ t ++ str ".format.insert.sql") (insert_of t (cols t))].

Lemma insert_format_ok dir t tr :
  (forall tr path, fopen_w tr path = true) -> columns_fit (cols t) -> zlen t < 53 -> zlen dir < 900 ->
  lcs_insert_format dir t (concat (map (fun x => x ++ str ", ") (map parameter (cols t)))) 0 tr
  = Ok (0, tr ++ [EvWrite (dir ++ str "/" ++ t ++ str ".format.insert.sql") (insert_of t (cols t))]).
Proof.
  intros Hw (Hne & _ & Hd & _) Zt Zd. unfold lcs_insert_format, insert_of.
  set (s := sep_by (str ", ") (map parameter (cols t))) in *.
  assert (Hcut : cut_last x2c (concat (map (fun x => x ++ str ", ") (map parameter (cols t)))) = Ok s).
  { rewrite concat_sep_by. unfold cut_last. change (str ", ") with (x2c :: [x20]).
    destruct (map parameter (cols t)) eqn:E; [by destruct (cols t)|].
    rewrite before_last_ok by decided. unfold s. done. }
  rewrite (io_bind_lift _ _ _ _ Hcut). clearbody s. pose proof (zlen_nonneg s). pose proof (zlen_nonneg t).
  change (zlen LCS_INSERT_FORMAT) with 30. unfold wrap; rewrite Z.mod_small by (split; text_len).
  io_fits ltac:(unfold insert_text, quoted; text_len). io_fits ltac:(text_len).
  rewrite io_bind_ask, Hw. cbn [negb]. by rewrite io_bind_emit.
Qed.

Lemma gen_templ_ok tables dir name t tr :
  answers show_columns described tables -> t ∈ tables -> columns_fit (cols t) -> zlen t < 53 ->
  zlen dir < 900 -> zlen name < 64 ->
  lcs_gen_templ dir name t true 0 tr = Ok (0, tr ++ templated dir name t).
Proof.
  intros Ha Ht Hfit Zt Zd Zn. pose proof (create_length _ Hfit) as Hl. pose proof (templ_end_ok _ Hfit) as He.
  assert (Hcols : templ_columns (described t) {| t_text := []; t_primary := PRIMARY_KEY; t_data := [] |}
    = Ok (with_columns {| t_text := []; t_primary := PRIMARY_KEY; t_data := [] |} (cols t))).
  { destruct Hfit as (Hne & Hc & Hd & Hp). apply templ_columns_ok; [done|..]; cbn [with_columns t_data t_primary app];
      rewrite ?concat_sep_by.
    - destruct (map parameter (cols t)); [done|]. rewrite zlen_app. change (zlen (str ", ")) with 2. lia.
    - rewrite zlen_app. change (zlen PRIMARY_KEY) with 12.
      destruct (map col_name (primaries (cols t))); [done|]. rewrite zlen_app. change (zlen (str ",")) with 1. lia. }
  unfold lcs_gen_templ. cbn [negb]. io_fits ltac:(text_len). io_fits ltac:(unfold show_columns; text_len).
  rewrite (io_bind_ok _ _ _ _ _ (query_answered _ _ _ _ _ Ha)). cbn [Z.eqb negb].
  rewrite io_bind_ask, (an_rows _ _ _ Ha) by done. rewrite (io_bind_lift _ _ _ _ Hcols), (io_bind_lift _ _ _ _ He).
  pose proof (zlen_nonneg (sep_by (str "," ++ [nl]) (map column_def (cols t) ++ primary_def (cols t)))).
  change (zlen LCS_GEN_FORMAT) with 48. unfold wrap; rewrite Z.mod_small by (split; text_len).
  io_fits ltac:(unfold create_text; text_len). fold (create_of t (cols t)).
  rewrite io_bind_ask, (an_write _ _ _ Ha), io_bind_emit.
  cbn [with_columns t_data app].
  destruct (concat (map (fun x => x ++ str ", ") (map parameter (cols t)))) as [|b s] eqn:E.
  { destruct Hfit as (Hne & _). by destruct (cols t). }
  rewrite <- E, (io_bind_ok _ _ _ _ _ (insert_format_ok dir t _ (an_write _ _ _ Ha) Hfit Zt Zd)).
  cbn [Z.eqb negb]. unfold mret, io_ret, templated. by rewrite <- !app_assoc.
Qed.

Lemma gen_tables_ok tables all dir name tr :
  answers show_columns described all -> Forall (fun t => t ∈ all /\ columns_fit (cols t) /\ zlen t < 53) tables ->
  zlen dir < 900 -> zlen name < 64 ->
  gen_tables dir name true tables 0 tr = Ok (0, tr ++ concat (map (templated dir name) tables)).
Proof.
  intros Ha Ht Zd Zn. revert tr. induction Ht as [|t tables (Hin & Hfit & Zt) _ IH]; intros tr; cbn [gen_tables map concat].
  - by rewrite app_nil_r.
  - rewrite (io_bind_ok _ _ _ _ _ (gen_templ_ok all dir name t tr Ha Hin Hfit Zt Zd Zn)), IH.
    by rewrite <- app_assoc.
Qed.

Definition database_made (dir name : list byte) : event :=
  EvPopen (str "sqlite3 " ++ quoted dir ++ str "/lcs.db < " ++ quoted (dir ++ str "/" ++ name)).

(** What gentemplate does once its configuration is loaded. *)
Lemma start_gen_ok info tables server user password db dir name tr :
  answers show_columns described tables -> login_of info server user password db ->
  text_of info "path" = Ok dir -> text_of info "pathtemplate" = Ok name ->
  is_Some (info !! "pathtemplate"%string) -> is_Some (info !! "listtable"%string) ->
  text_of info "listtable" = Ok (Analysis.commas tables) -> Forall table_name tables ->
  Forall (fun t => columns_fit (cols t) /\ zlen t < 53) tables -> zlen dir < 480 -> zlen name < 30 ->
  lcs_start_gen info 0 tr
  = Ok (0, tr ++ [EvPopen (str "mkdir -p " ++ dir); EvRemove (dir ++ str "/" ++ name)] ++
           connected server user password db ++ concat (map (templated dir name) tables) ++
           [EvClose; database_made dir name]).
Proof.
  intros Ha Hl E1 E2 [p1 P1] [p2 P2] E3 Ht Hfit Zd Zn. unfold lcs_start_gen. rewrite P1, P2.
  rewrite (io_bind_lift _ _ _ _ E1). unfold lcs_create_dir. rewrite io_bind_assoc.
  io_fits ltac:(text_len). rewrite io_bind_emit, (io_bind_lift _ _ _ _ E2). io_fits ltac:(text_len).
  rewrite io_bind_emit, (io_bind_lift _ _ _ _ E3). unfold templ_connect.
  rewrite (io_bind_ok _ _ _ _ _ (connect_ok _ _ _ _ _ _ _ _ _ _ _ Ha Hl)). unfold strtok.
  rewrite commas_tokens; [|done|].
  2:{ eapply Forall_impl; [exact Ht|]. intros t (Hne & _ & Hb). split; [done|]. eapply Forall_impl; [exact Hb|].
      intros b (Hb1 & _). cbn in Hb1 |- *. by apply orb_false_iff in Hb1 as [-> _]. }
  erewrite io_bind_ok; [|apply (gen_tables_ok _ tables); [done| |lia|lia]].
  2:{ apply Forall_forall. intros t Hin. eapply Forall_forall in Hfit; [|exact Hin]. by split. }
  unfold lcs_try_close. rewrite io_bind_assoc, io_bind_emit, io_bind_ret. cbn [Z.eqb].
  unfold lcs_create_db, lcs_bash_cmd. rewrite io_bind_assoc.
  io_fits ltac:(unfold quoted; text_len). rewrite io_bind_emit. unfold mret, io_ret, database_made.
  by rewrite <- !app_assoc.
Qed.
End Running.
