(* ===== verification/TenMinutes.v ===== *)
(** * The program for ten minutes

    Models src/cluster/A_000001_10m/main.c: the program loads its configuration and ends.  The
    rest of the file, which nothing calls, is an older version of what is gentemplate today
    (Template.v); the theorem compares the two. *)
From S2P Require Import Prelude CString OpenSSL World ToyWorld Config.
From S2P Require Import Cluster Fetch Template.

Definition ten_members : list (string * Z) := [("targetpath", 1024); ("name_ana", 64)]%string.

Section TenMinutes.
Context `{World}.

Definition ten_cfg_table : list entry :=
  [copy_to "targetpath" "targetpath_0001:"; copy_to "name_ana" "name_ana_0002:"].
Definition ten_init_app (path : list byte) : io cfg :=
  '(info, _) ← cfg_load ten_cfg_table path (cleared ten_members) 0; mret info.
Definition ten_main (argc : Z) (path : list byte) : io Z :=
  if argc <? 2 then mret 1 else _ ← ten_init_app path; mret 0.

Definition ten_try_close (con : bool) : io bool :=
  if con then _ ← emit EvClose; mret false else mret false.

Definition ten_insert_format (dir table data : list byte) (err : Z) : io Z :=
  data ← lift (cut_last x2c data);
  let sz := wrap 32 (zlen data + 1 + zlen table + zlen LCS_INSERT_FORMAT + 10) in
  text ← lift (fits sz (insert_text table data));
  filepath ← lift (fits 1024 (dir ++ str "/" ++ table ++ str ".format.insert.sql"));
  ok ← ask (fun tr => fopen_w tr filepath);
  if negb ok then mret 1
  else _ ← emit (EvWrite filepath text); mret err.

(** Without a connection nothing is noted; after a query that failed the work goes on with
    empty texts, and at the end the result of the query replaces every other error. *)
Definition ten_gen_templ (dir path table : list byte) (con : bool) (err : Z) : io Z :=
  if negb con then mret err
  else
    fullpath ← lift (fits 1024 (dir ++ str "/" ++ path));
    sql ← lift (fits 1024 (show_columns table));
    error ← query con sql;
    t ← (if negb (error =? 0) then mret {| t_text := []; t_primary := []; t_data := [] |}
         else
           result ← ask mysql_store_result;
           lift (match result with
                 | None => Ok {| t_text := []; t_primary := []; t_data := [] |}
                 | Some rows => templ_columns rows {| t_text := []; t_primary := PRIMARY_KEY; t_data := [] |}
                 end));
    text ← lift (templ_end t);
    sql_text ← lift (fits (wrap 32 (zlen text + zlen LCS_GEN_FORMAT + 100)) (create_text table text));
    ok ← ask (fun tr => fopen_w tr fullpath);
    _ ← (if ok : bool then emit (EvAppend fullpath sql_text) else mret tt);
    match t_data t with
    | [] => mret error
    | data => _ ← ten_insert_format dir table data err; mret error
    end.

Definition ten_create_db (dir name : list byte) : io unit := Template.lcs_create_db dir name.

(** The two writers of the statement of a row differ in the error they note only. *)
Lemma insert_formats dir table data err tr :
  match lcs_insert_format dir table data err tr with
  | Ok (_, tr') => exists e, ten_insert_format dir table data err tr = Ok (e, tr')
  | Fault f => ten_insert_format dir table data err tr = Fault f
  end.
Proof.
  unfold lcs_insert_format, ten_insert_format, mbind, io_bind, lift, ask, emit, mret, io_ret.
  destruct (cut_last x2c data) as [d|f]; [|done]. destruct (fits _ _) as [text|f]; [|done].
  destruct (fits 1024 _) as [p|f]; [|done]. destruct (fopen_w tr p); cbn [negb]; by eexists.
Qed.

(** What the change to gentemplate repaired: on a table whose columns the database gives, both
    versions send the same query and write the same files, or fault in the same way, but the
    older one reports success in any case; when the query fails, gentemplate reports it,
    where the older version looks for a comma in an empty text and runs out of it. *)
Theorem templ_versions dir path table err tr :
  match lcs_gen_templ dir path table true err tr with
  | Ok (e, tr') =>
    if mysql_query tr (show_columns table) =? 0 then ten_gen_templ dir path table true err tr = Ok (0, tr')
    else e = 313 /\ ten_gen_templ dir path table true err tr = Fault OobRead
  | Fault f => ten_gen_templ dir path table true err tr = Fault f
  end.
Proof.
  unfold lcs_gen_templ, ten_gen_templ, query. cbn [negb].
  destruct (fits 1024 (dir ++ str "/" ++ path)) as [full|f]; [|exact eq_refl]. do 2 rewrite (io_bind_lift (Ok full) _ _ full eq_refl).
  destruct (fits 1024 (show_columns table)) as [sql|f] eqn:Es; [|exact eq_refl]. apply fits_inv in Es as [-> _].
  do 2 rewrite (io_bind_lift (Ok (show_columns table)) _ _ (show_columns table) eq_refl).
  do 2 rewrite io_bind_assoc, io_bind_ask, io_bind_assoc, io_bind_emit, io_bind_ret.
  set (tr1 := tr ++ [EvQuery (show_columns table)]).
  destruct (mysql_query tr (show_columns table) =? 0) eqn:Eq; cbn [negb]; b2p.
  2:{ split; [done|]. by rewrite io_bind_ret. }
  rewrite Eq, io_bind_assoc. do 2 rewrite io_bind_ask.
  set (cols := match mysql_store_result tr1 with None => _ | Some _ => _ end).
  destruct cols as [t|f]; [|exact eq_refl]. do 2 rewrite (io_bind_lift (Ok t) _ _ t eq_refl).
  destruct (templ_end t) as [text|f]; [|exact eq_refl]. do 2 rewrite (io_bind_lift (Ok text) _ _ text eq_refl).
  destruct (fits _ (create_text table text)) as [sq|f]; [|exact eq_refl]. do 2 rewrite (io_bind_lift (Ok sq) _ _ sq eq_refl).
  do 2 rewrite io_bind_ask. set (app := if fopen_w tr1 full then _ else _).
  assert (Ha : exists tr2, app tr1 = Ok (tt, tr2)) by (unfold app; destruct (fopen_w tr1 full); by eexists).
  destruct Ha as [tr2 Ha]. do 2 rewrite (io_bind_ok _ _ _ _ _ Ha).
  destruct (t_data t) as [|b data]; [exact eq_refl|]. pose proof (insert_formats dir table (b :: data) err tr2) as Hi.
  destruct (lcs_insert_format dir table (b :: data) err tr2) as [[e tr3]|f] eqn:El.
  - destruct Hi as [e' Hi]. rewrite (io_bind_ok _ _ _ _ _ El), (io_bind_ok _ _ _ _ _ Hi).
    by destruct (negb (e =? 0)).
  - by rewrite (io_bind_fault _ _ _ _ El), (io_bind_fault _ _ _ _ Hi).
Qed.

(** The program: an argument is all it takes. *)
Lemma ten_main_ok argc path tr code tr' : ten_main argc path tr = Ok (code, tr') -> code = if argc <? 2 then 1 else 0.
Proof.
  unfold ten_main. destruct (argc <? 2); [by intros [= <- <-]|].
  unfold mbind, io_bind. destruct (ten_init_app path tr) as [[c tr1]|f]; [|done]. by intros [= <- <-].
Qed.
End TenMinutes.
