(* ===== verification/TripleDes.v ===== *)
(** * Messages under triple DES

    Models src/cluster/rsa_des/src/lcs_rsa_des.c: a message is cut into segments of up to 512
    bytes; a segment is a byte for its mode, two for its length, the data, and zeros up to a
    power of two, and goes over the connection in cipher-block chaining.  The library is the
    class [DESLib] with its documented laws. *)
From S2P Require Import Prelude CString OpenSSL Toy World ToyWorld.

(** ** The library *)

(** [DES_set_key_checked] of one of the three keys, and [DES_ede3_cbc_encrypt] under all
    three, in both directions; lengths are multiples of 8. *)
Class DESLib := {
  DES_key_ok : list byte -> bool;
  DES_cbc : list byte -> list byte -> list byte -> list byte;
  DES_cbc_inv : list byte -> list byte -> list byte -> list byte
}.

(** The vector after a call: the last block of the ciphertext. *)
Definition next_iv (iv ct : list byte) : list byte :=
  match ct with [] => iv | _ => drop (length ct - 8) ct end.

Class DESLaws `{DESLib} := {
  DES_cbc_length k iv m : (8 | zlen m) -> zlen (DES_cbc k iv m) = zlen m;
  DES_cbc_inv_length k iv c : (8 | zlen c) -> zlen (DES_cbc_inv k iv c) = zlen c;
  DES_cbc_inverse k iv m : (8 | zlen m) -> DES_cbc_inv k iv (DES_cbc k iv m) = m;
  (** Chaining: a longer text is decrypted part by part. *)
  DES_cbc_inv_app k iv c d :
    (8 | zlen c) -> (8 | zlen d) ->
    DES_cbc_inv k iv (c ++ d) = DES_cbc_inv k iv c ++ DES_cbc_inv k (next_iv iv c) d
}.

(** ** Constants *)

Definition LCS_RSA_3DES_BLOCK_CIPHER : Z := 8.
Definition LCS_RSA_3DES_BUF_HIH : Z := 1024.
Definition LCS_RSA_3DES_BUF_LOW : Z := 512.
Definition LCS_RSA_3DES_ON : Z := 0.
Definition LCS_RSA_3DES_OFF : Z := 255.
Definition LCS_RSA_3DES_OVER : Z := 254.
Definition LCS_RSA_3DES_DATA : Z := 2.
Definition LCS_RSA_3DES_CHECKSUM : Z := 4.

(** [memset(cblock, 0, 8); DES_set_odd_parity(&cblock);] *)
Definition cblock0 : list byte := replicate 8 x01.

(** [while(k < m) k <<= 1;] *)
Fixpoint double (fuel : nat) (k m : Z) : res Z :=
  match fuel with
  | O => Fault NoFuel
  | S fuel => if k <? m then double fuel (wrap 32 (2 * k)) m else Ok k
  end.
(** The size of the frame of [n] bytes. *)
Definition frame_size (n : Z) : res Z :=
  k ← double 33 1 (n + 3);
  Ok (if k <? LCS_RSA_3DES_BLOCK_CIPHER then LCS_RSA_3DES_BLOCK_CIPHER else k).

(** What a segment of [size] bytes holds. *)
Definition segment (size mode : Z) (d : list byte) : list byte :=
  [z2b mode] ++ le_bytes 2 (zlen d) ++ d ++ zeros (size - 3 - zlen d).

Section TripleDes.
Context `{World} `{DESLib} `{RSALib}.

(** The three keys of eight bytes. *)
Definition keys_ok (key : list byte) : bool :=
  DES_key_ok (take 8 key) && DES_key_ok (take 8 (drop 8 key)) && DES_key_ok (take 8 (drop 16 key)).

(** [len - count] is an [unsigned short]. *)
Definition part_size (len count : Z) : Z :=
  let n := wrap 16 (len - count) in if LCS_RSA_3DES_BUF_LOW <? n then LCS_RSA_3DES_BUF_LOW else n.

Fixpoint send_segments (fuel : nat) (key : list byte) (mode : Z) (data : list byte) (len count : Z)
    (iv : list byte) : io unit :=
  match fuel with
  | O => lift (Fault NoFuel)
  | S fuel =>
    if count <? wrap 64 len then
      let n := part_size len count in
      d ← lift (rd data count n);
      k ← lift (frame_size n);
      plain ← lift (rd (segment (LCS_RSA_3DES_BUF_HIH + 5) mode d) 0 k);
      let cipher := DES_cbc key iv plain in
      _ ← emit (EvSend cipher);
      send_segments fuel key mode data len (count + LCS_RSA_3DES_BUF_LOW) (next_iv iv cipher)
    else mret tt
  end.
Definition lcs_3des_send (key : list byte) (mode : Z) (data : list byte) (len err : Z) : io Z :=
  if negb (keys_ok key) then mret 203
  else
    _ ← send_segments (S (Z.to_nat (wrap 64 len))) key mode data len 0 cblock0;
    mret err.

(** What the caller gets: [*mode], [*data], [*len]. *)
Record received := { r_mode : Z; r_data : option (list byte); r_len : Z }.

(** One segment: 1024 bytes are deciphered from an array of 517; [behind] is what follows the
    array in memory. *)
Definition take_segment (key iv behind got : list byte) : res (received * list byte) :=
  let cipher := got ++ zeros (LCS_RSA_3DES_BUF_LOW + 5 - zlen got) in
  let input := take (Z.to_nat LCS_RSA_3DES_BUF_HIH) (cipher ++ behind) in
  let seg := DES_cbc_inv key iv input ++ zeros 5 in
  m ← rd1 seg 0;
  l ← rd seg 1 2;
  s ← cstr (drop 3 seg);
  data ← wr (zeros (le_val l + 1)) 0 (s ++ [x00]);
  Ok ({| r_mode := b2z m; r_data := Some data; r_len := le_val l |}, next_iv iv input).

(** A call that receives nothing, or fails, is repeated. *)
Fixpoint recv_segments (fuel : nat) (key iv behind : list byte) (r : received) : io received :=
  match fuel with
  | O => lift (Fault NoFuel)
  | S fuel =>
    got ← ask (fun tr => recv tr LCS_RSA_3DES_BUF_LOW);
    _ ← emit EvRecv;
    match got with
    | None | Some [] => recv_segments fuel key iv behind r
    | Some got =>
      '(r, iv) ← lift (take_segment key iv behind got);
      if (r_mode r =? LCS_RSA_3DES_OVER) || (r_mode r =? LCS_RSA_3DES_OFF) then mret r
      else recv_segments fuel key iv behind r
    end
  end.
Definition lcs_3des_recv (fuel : nat) (key behind : list byte) (r : received) (err : Z)
    : io (received * Z) :=
  if negb (keys_ok key) then mret (r, 257)
  else r ← recv_segments fuel key cblock0 behind r; mret (r, err).

(** ** Keys and RSA *)

(** The text of a key file up to its zero, as PEM. *)
Definition get_key (read : BIO -> option RSA) (lines : Z * Z * Z) (path : list byte) (err : Z)
    : io (option RSA * Z) :=
  let '(l1, l2, l3) := lines in
  '(txt, err) ← lcs_file_text path None err;
  match txt with
  | None => mret (None, l1)
  | Some txt =>
    s ← lift (cstr txt);
    match BIO_new_mem_buf s with
    | None => mret (None, l2)
    | Some bio =>
      match read bio with None => mret (None, l3) | Some k => mret (Some k, err) end
    end
  end.
Definition lcs_get_public_key : list byte -> Z -> io (option RSA * Z) :=
  get_key PEM_read_bio_RSA_PUBKEY (59, 65, 71).
Definition lcs_get_private_key : list byte -> Z -> io (option RSA * Z) :=
  get_key PEM_read_bio_RSAPrivateKey (96, 102, 108).

(** The object of [RSA_size] bytes and the length, an [unsigned short], so that the -1 of a
    failure is 65535 and neither test for an error holds. *)
Definition lcs_rsa_encrypt (key : RSA) (data : list byte) (len : Z) : res (list byte * Z) :=
  d ← rd data 0 len;
  match RSA_public_encrypt d key with
  | None => Ok (zeros (RSA_size key), 65535)
  | Some ct => out ← wr (zeros (RSA_size key)) 0 ct; Ok (out, wrap 16 (zlen ct))
  end.
Definition lcs_rsa_decrypt (key : RSA) (data : list byte) : res (list byte * Z) :=
  d ← rd data 0 (RSA_size key);
  match RSA_private_decrypt d key with
  | None => Ok (zeros (RSA_size key), 65535)
  | Some pt => out ← wr (zeros (RSA_size key)) 0 pt; Ok (out, wrap 16 (zlen pt))
  end.

End TripleDes.

(** ** Frames *)

Lemma double_ok f j m :
  0 <= j <= 31 -> m <= 2 ^ 31 -> 31 - j <= Z.of_nat f ->
  exists i, double (S f) (2 ^ j) m = Ok (2 ^ i) /\ j <= i <= 31 /\ m <= 2 ^ i /\
    (i = j \/ 2 ^ (i - 1) < m).
Proof.
  revert j. induction f as [|f IH]; intros j Hj Hm Hf; cbn [double].
  - assert (j = 31) as -> by lia. exists 31. decide_cmp. split; [done|]. split; [lia|]. split; [done|by left].
  - destruct (2 ^ j <? m) eqn:E; b2p.
    + assert (Hlt : j < 31) by (apply (Z.pow_lt_mono_r_iff 2); lia).
      assert (Hp : 2 * 2 ^ j = 2 ^ (j + 1)) by (rewrite Z.pow_add_r by lia; lia).
      assert (Hb : 2 ^ (j + 1) <= 2 ^ 31) by (apply Z.pow_le_mono_r; lia).
      assert (0 < 2 ^ (j + 1)) by (apply Z.pow_pos_nonneg; lia).
      unfold wrap. rewrite Hp, Z.mod_small by lia.
      destruct (IH (j + 1)) as (i & Hi & H1 & H2 & H3); [lia|done|lia|].
      exists i. split; [exact Hi|]. split; [lia|]. split; [done|]. right.
      destruct H3 as [->|H3]; [|done]. by replace (j + 1 - 1) with j by lia.
    + exists j. split; [done|]. split; [lia|]. split; [done|by left].
Qed.

Lemma frame_size_ok n :
  0 <= n <= 1021 -> exists k, frame_size n = Ok k /\ (8 | k) /\ n + 3 <= k <= 1024 /\
    (n <= 509 -> k <= 512).
Proof.
  intros Hn. unfold frame_size.
  destruct (double_ok 32 0 (n + 3)) as (i & Hi & H1 & H2 & H3); [lia|lia|lia|].
  change (2 ^ 0) with 1 in Hi. rewrite Hi. cbn [mbind res_bind]. unfold LCS_RSA_3DES_BLOCK_CIPHER.
  assert (Hup : forall e, 0 <= e -> n + 3 <= 2 ^ e -> i <= e).
  { intros e He Hle. destruct H3 as [->|H3]; [lia|].
    assert (i - 1 < e) by (apply (Z.pow_lt_mono_r_iff 2); lia). lia. }
  destruct (2 ^ i <? 8) eqn:E; b2p.
  - exists 8. split; [done|]. split; [by exists 1|]. lia.
  - assert (3 <= i) by (apply (Z.pow_le_mono_r_iff 2); lia).
    exists (2 ^ i). split; [done|]. split; [exists (2 ^ (i - 3));
      change 8 with (2 ^ 3); rewrite <- Z.pow_add_r by lia; f_equal; lia|].
    split.
    + split; [done|]. change 1024 with (2 ^ 10). apply Z.pow_le_mono_r; [lia|]. apply Hup; [lia|].
      change (2 ^ 10) with 1024. lia.
    + intros Hs. change 512 with (2 ^ 9). apply Z.pow_le_mono_r; [lia|]. apply Hup; [lia|].
      change (2 ^ 9) with 512. lia.
Qed.

Lemma segment_length size mode d :
  zlen d + 3 <= size -> zlen (segment size mode d) = size.
Proof.
  intros Hd. pose proof (zlen_nonneg d). unfold segment. rewrite !zlen_app.
  change (zlen [z2b mode]) with 1. unfold zlen at 1. rewrite length_le_bytes.
  rewrite zlen_zeros; lia.
Qed.

(** The frame that is sent for [d]. *)
Lemma segment_frame mode d k :
  zlen d + 3 <= k <= 1024 -> rd (segment (LCS_RSA_3DES_BUF_HIH + 5) mode d) 0 k = Ok (segment k mode d).
Proof.
  intros Hk. pose proof (zlen_nonneg d). unfold LCS_RSA_3DES_BUF_HIH.
  rewrite rd_head by (rewrite segment_length; lia). f_equal. unfold segment.
  assert (Hz : zeros (1024 + 5 - 3 - zlen d) = zeros (k - 3 - zlen d) ++ zeros (1029 - k)).
  { unfold zeros. rewrite <- replicate_add. f_equal. lia. }
  rewrite Hz, !app_assoc. apply take_app_length'.
  rewrite !length_app, length_le_bytes. unfold zlen, zeros in *. rewrite length_replicate. cbn. lia.
Qed.

Section Messages.
Context `{World} `{DESLib} `{!DESLaws}.

(** A frame is read back whatever follows it in the buffer and behind it. *)
Lemma take_segment_ok key iv behind mode t k :
  no_nul t -> zlen t + 1 + 3 <= k <= 512 -> (8 | k) -> zlen behind = 507 -> 0 <= mode < 256 ->
  exists iv', take_segment key iv behind (DES_cbc key iv (segment k mode (t ++ [x00])))
    = Ok ({| r_mode := mode; r_data := Some (t ++ [x00; x00]); r_len := zlen t + 1 |}, iv').
Proof.
  intros Hn Hk Hdiv Hb Hm. pose proof (zlen_nonneg t). set (d := t ++ [x00]).
  assert (Hd : zlen d = zlen t + 1) by (unfold d; by rewrite zlen_app).
  set (seg := segment k mode d).
  assert (Hs : zlen seg = k) by (apply segment_length; lia).
  assert (Hc : zlen (DES_cbc key iv seg) = k) by (rewrite DES_cbc_length; by rewrite Hs).
  unfold take_segment. unfold LCS_RSA_3DES_BUF_LOW, LCS_RSA_3DES_BUF_HIH.
  rewrite take_ge.
  2:{ unfold zlen in *. rewrite !length_app. unfold zeros. rewrite length_replicate. lia. }
  rewrite <- app_assoc. set (rest := zeros _ ++ behind).
  assert (Hr : zlen rest = 1024 - k).
  { unfold rest. rewrite zlen_app, zlen_zeros by lia. lia. }
  rewrite DES_cbc_inv_app, DES_cbc_inverse; [|by rewrite Hs|by rewrite Hc|].
  2:{ rewrite Hr. destruct Hdiv as [q ->]. exists (128 - q). lia. }
  unfold seg, segment. rewrite <- !app_assoc. set (tail := zeros (k - 3 - zlen d) ++ _).
  change ([z2b mode] ++ le_bytes 2 (zlen d) ++ d ++ tail) with (z2b mode :: (le_bytes 2 (zlen d) ++ d ++ tail)).
  assert (E1 : rd1 (z2b mode :: (le_bytes 2 (zlen d) ++ d ++ tail)) 0 = Ok (z2b mode)) by done.
  rewrite E1. cbn [mbind res_bind].
  assert (E2 : rd (z2b mode :: (le_bytes 2 (zlen d) ++ d ++ tail)) 1 2 = Ok (le_bytes 2 (zlen d))).
  { apply (rd_mid [z2b mode] (le_bytes 2 (zlen d))). }
  rewrite E2. cbn [mbind res_bind]. rewrite le_val_le_bytes.
  change (256 ^ Z.of_nat 2) with 65536. rewrite Z.mod_small by lia.
  change (drop 3 (z2b mode :: (le_bytes 2 (zlen d) ++ d ++ tail))) with (d ++ tail).
  assert (E3 : cstr (d ++ tail) = Ok t).
  { unfold d. rewrite <- app_assoc. cbn [app]. by apply cstr_terminated. }
  rewrite E3. cbn [mbind res_bind]. fold d. rewrite wr_zeros by lia.
  replace (zlen d + 1 - zlen d) with 1 by lia. cbn [mbind res_bind].
  assert (E4 : d ++ zeros 1 = t ++ [x00; x00]) by (unfold d; by rewrite <- app_assoc).
  eexists. by rewrite b2z_z2b, Z.mod_small, E4, Hd by done.
Qed.

(** What goes over the connection for a message of one segment. *)
Lemma send_one key mode data err tr k :
  keys_ok key = true -> 0 < zlen data <= 512 -> frame_size (zlen data) = Ok k ->
  lcs_3des_send key mode data (zlen data) err tr
  = Ok (err, tr ++ [EvSend (DES_cbc key cblock0 (segment k mode data))]).
Proof.
  intros Hk Hd Hf. unfold lcs_3des_send. rewrite Hk. cbn [negb]. unfold wrap at 1.
  rewrite Z.mod_small by lia. destruct (frame_size_ok (zlen data)) as (k' & Hk' & _ & Hb & _); [lia|].
  assert (k' = k) as -> by congruence.
  erewrite io_bind_ok; [reflexivity|].
  destruct (Z.to_nat (zlen data)) as [|f] eqn:En; [lia|].
  cbn [send_segments]. unfold wrap. rewrite (Z.mod_small (zlen data) (2 ^ 64)) by lia. decide_cmp.
  assert (Hp : part_size (zlen data) 0 = zlen data).
  { unfold part_size, wrap, LCS_RSA_3DES_BUF_LOW. rewrite Z.sub_0_r, Z.mod_small by lia. by decide_cmp. }
  rewrite Hp, rd_head by lia. rewrite take_ge by (unfold zlen; lia).
  rewrite (io_bind_lift _ _ _ data) by done. rewrite (io_bind_lift _ _ _ k) by done.
  rewrite (io_bind_lift _ _ _ _ (segment_frame mode data k ltac:(lia))), io_bind_emit.
  unfold LCS_RSA_3DES_BUF_LOW. decide_cmp. done.
Qed.

(** The receiver's half of a message: the frame arrives in one piece. *)
Lemma recv_message_ok key mode t behind r err fuel tr k :
  keys_ok key = true -> no_nul t -> zlen t <= 508 -> zlen behind = 507 ->
  mode = LCS_RSA_3DES_OVER \/ mode = LCS_RSA_3DES_OFF ->
  frame_size (zlen t + 1) = Ok k ->
  recv tr 512 = Some (DES_cbc key cblock0 (segment k mode (t ++ [x00]))) ->
  lcs_3des_recv (S fuel) key behind r err tr
  = Ok (({| r_mode := mode; r_data := Some (t ++ [x00; x00]); r_len := zlen t + 1 |}, err), tr ++ [EvRecv]).
Proof.
  intros Hk Hn Ht Hb Hm Hf Hr. pose proof (zlen_nonneg t).
  destruct (frame_size_ok (zlen t + 1)) as (k' & Hk' & Hdiv & Hkb & Hk5); [lia|].
  assert (k' = k) as -> by congruence.
  assert (Hlen : zlen (t ++ [x00]) = zlen t + 1) by (by rewrite zlen_app).
  assert (Hm' : 0 <= mode < 256 /\ ((mode =? LCS_RSA_3DES_OVER) || (mode =? LCS_RSA_3DES_OFF)) = true).
  { destruct Hm as [-> | ->]; split; done. }
  unfold lcs_3des_recv. rewrite Hk. cbn [negb recv_segments].
  rewrite io_bind_assoc, io_bind_ask. unfold LCS_RSA_3DES_BUF_LOW at 1. rewrite Hr.
  rewrite io_bind_assoc, io_bind_emit.
  destruct (take_segment_ok key cblock0 behind mode t k) as (iv' & Hs); [done|lia|done|done|tauto|].
  assert (Hne : exists b s, DES_cbc key cblock0 (segment k mode (t ++ [x00])) = b :: s).
  { destruct (DES_cbc key cblock0 _) as [|b s] eqn:E; [|by exists b, s].
    assert (Hz : zlen (DES_cbc key cblock0 (segment k mode (t ++ [x00]))) = k)
      by (rewrite DES_cbc_length; rewrite segment_length; (done || lia)).
    rewrite E in Hz. change (zlen []) with 0 in Hz. lia. }
  destruct Hne as (b & s & Hbs). rewrite Hbs in *.
  rewrite io_bind_assoc, (io_bind_lift _ _ _ _ Hs). cbn [r_mode].
  destruct Hm' as [_ ->]. done.
Qed.
(** Nothing arrives any more: every call of [recv] gives nothing, or an error. *)
Definition gone (tr : trace) : Prop :=
  forall n, match recv (tr ++ replicate n EvRecv) LCS_RSA_3DES_BUF_LOW with Some (_ :: _) => False | _ => True end.

Lemma silent_next tr : gone tr -> gone (tr ++ [EvRecv]).
Proof. intros Hs n. specialize (Hs (S n)). by rewrite <- app_assoc. Qed.

(** The receiver of a connection that is closed asks again for ever: no number of rounds is
    enough. *)
Lemma recv_for_ever fuel key behind r err tr :
  keys_ok key = true -> gone tr -> lcs_3des_recv fuel key behind r err tr = Fault NoFuel.
Proof.
  intros Hk Hs. unfold lcs_3des_recv. rewrite Hk. cbn [negb]. apply io_bind_fault.
  generalize cblock0. revert r tr Hs. induction fuel as [|fuel IH]; intros r tr Hs iv; [done|].
  cbn [recv_segments]. rewrite io_bind_ask, io_bind_emit. pose proof (Hs 0%nat) as Hnow.
  cbn [replicate] in Hnow. rewrite app_nil_r in Hnow.
  destruct (recv tr LCS_RSA_3DES_BUF_LOW) as [[|b got]|]; [|done|]; by apply IH, silent_next.
Qed.

(** And the sender's. *)
Lemma send_message_ok key mode t err tr k :
  keys_ok key = true -> zlen t <= 508 -> frame_size (zlen t + 1) = Ok k ->
  lcs_3des_send key mode (t ++ [x00]) (zlen t + 1) err tr
  = Ok (err, tr ++ [EvSend (DES_cbc key cblock0 (segment k mode (t ++ [x00])))]).
Proof.
  intros Hk Ht Hf. pose proof (zlen_nonneg t).
  assert (Hlen : zlen (t ++ [x00]) = zlen t + 1) by (by rewrite zlen_app).
  rewrite <- Hlen at 1. apply send_one; [done|lia|by rewrite Hlen].
Qed.

(** C29: A text of up to 508 characters that one side sends with [lcs_3des_send] under the mode
    that ends a message is what [lcs_3des_recv] of the other side gets when the frame
    arrives in one piece: the same mode, the text with its zero, and its length, whatever
    lies behind the array from which the receiver deciphers 1024 bytes. *)
Theorem des_message key mode t behind r err err' fuel tr tr' k :
  keys_ok key = true -> no_nul t -> zlen t <= 508 -> zlen behind = 507 ->
  mode = LCS_RSA_3DES_OVER \/ mode = LCS_RSA_3DES_OFF ->
  frame_size (zlen t + 1) = Ok k ->
  recv tr' 512 = Some (DES_cbc key cblock0 (segment k mode (t ++ [x00]))) ->
  lcs_3des_send key mode (t ++ [x00]) (zlen t + 1) err tr
  = Ok (err, tr ++ [EvSend (DES_cbc key cblock0 (segment k mode (t ++ [x00])))]) /\
  lcs_3des_recv (S fuel) key behind r err' tr'
  = Ok (({| r_mode := mode; r_data := Some (t ++ [x00; x00]); r_len := zlen t + 1 |}, err'),
        tr' ++ [EvRecv]).
Proof. intros Hk Hn Ht Hb Hm Hf Hr. split; [by apply send_message_ok|by eapply recv_message_ok]. Qed.
End Messages.

(** ** A concrete cipher *)

(** An exclusive or with the first byte of the key; every key is accepted. *)
#[global] Instance toy_des : DESLib := {|
  DES_key_ok _ := true;
  DES_cbc k _ m := map (fun b => xor_byte b (hd x00 k)) m;
  DES_cbc_inv k _ c := map (fun b => xor_byte b (hd x00 k)) c
|}.
#[global] Instance toy_des_laws : DESLaws.
Proof.
  split; cbn [DES_cbc DES_cbc_inv toy_des]; intros.
  - unfold zlen. by rewrite length_map.
  - unfold zlen. by rewrite length_map.
  - rewrite map_map. erewrite map_ext; [apply map_id|]. intros b. apply xor_byte_inv.
  - apply map_app.
Qed.

Module Talk.
Definition key : list byte := replicate 24 x5a.
Definition frame : list byte := DES_cbc key cblock0 (segment 16 254 (str "READY" ++ [x00])).
(** A world in which the frame arrives. *)
#[local] Instance world : World := hearing (toy_world [] None None None) (Some frame).

Lemma des_message_witness :
  lcs_3des_send key 254 (str "READY" ++ [x00]) 6 0 [] = Ok (0, [EvSend frame]) /\
  lcs_3des_recv 1 key (zeros 507) {| r_mode := 0; r_data := None; r_len := 0 |} 0 []
  = Ok (({| r_mode := 254; r_data := Some (str "READY" ++ [x00; x00]); r_len := 6 |}, 0), [EvRecv]).
Proof.
  apply (des_message key 254 (str "READY") (zeros 507) {| r_mode := 0; r_data := None; r_len := 0 |}
    0 0 0 [] [] 16).
  - reflexivity.
  - repeat constructor; discriminate.
  - vm_compute; discriminate.
  - reflexivity.
  - by left.
  - reflexivity.
  - reflexivity.
Defined.
End Talk.
