(* ===== verification/WhServer.v ===== *)
(** * The warehouse server

    Models src/cluster/whserver/main.c: for every connection a process takes a session key
    under RSA, greets, receives a request for the analysis of one server, database and
    period, and sends the file of the warehouse that holds it in segments under triple DES
    (TripleDes.v).  A request and the configuration are structures of arrays (Config.v).  The
    process that listens is in Listener.v. *)
From S2P Require Import Prelude CString OpenSSL Toy World.
From S2P Require Import ToyWorld Config TripleDes.

(** ** Data *)

(** [LCS_WHSEVER_CFG] and [LCS_WHS_REQUEST_DATA] *)
Definition whs_members : list (string * Z) :=
  [("rootpath", 1024); ("dbpath", 1024); ("prefixshmkey", 128); ("privatekey", 1024)]%string.
Definition request_members : list (string * Z) :=
  [("dbserver", 32); ("dbname", 64); ("datefrom", 32); ("dateto", 32); ("analysis", 32);
   ("mode", 16)]%string.

Definition LCS_WHS_BUF : Z := 2048.
Definition LCS_WHS_READY : list byte := str "READY".
Definition LCS_WHS_REQUEST : list byte := str "REQUEST".
Definition LCS_WHS_FINISHED : list byte := str "FINISHED".

(** ** Requests *)

(** The fields of a request, which are separated by tabs, into the rows of [arr[32][128]]: the
    search for a tab starts at the second character of a field, and a last field of one
    character is dropped. *)
Fixpoint fields (fuel i : nat) (arr t : list byte) : res (list byte) :=
  match fuel with
  | O => Ok arr
  | S fuel =>
    match t with
    | [] | [_] => Ok arr
    | _ :: t' =>
      match strstr t' [x09] with
      | None => wr arr (128 * Z.of_nat i) t
      | Some k =>
        arr ← wr arr (128 * Z.of_nat i) (take (Z.to_nat k + 1) t);
        fields fuel (S i) arr (drop (Z.to_nat k + 2) t)
      end
    end
  end.
(** [strcat(p->f, arr[i])] *)
Definition take_field (arr : list byte) (p : cfg) (f : string) (i : nat) : res cfg :=
  s ← cstr (drop (128 * i) arr);
  m ← strcat (member p f) s;
  Ok (<[f := m]> p).
Definition lcs_whs_gen_request (request : list byte) (p : cfg) : res cfg :=
  arr ← fields 32 0 (zeros (32 * 128)) request;
  p ← take_field arr p "dbserver" 0;
  p ← take_field arr p "dbname" 1;
  p ← take_field arr p "datefrom" 2;
  p ← take_field arr p "dateto" 3;
  p ← take_field arr p "analysis" 4;
  take_field arr p "mode" 5.

(** ['-'], [' '] and [':'] become ['/']. *)
Definition slashes (s : list byte) : list byte :=
  map (fun b => if (b2z b =? 45) || (b2z b =? 32) || (b2z b =? 58) then x2f else b) s.
(** Where the text of a period is cut. *)
Definition mode_cut (mode : list byte) : option Z :=
  if strcmp mode (str "year") =? 0 then Some 4
  else if strcmp mode (str "month") =? 0 then Some 7
  else if strcmp mode (str "week") =? 0 then None
  else if strcmp mode (str "day") =? 0 then Some 10
  else if strcmp mode (str "hour") =? 0 then Some 13
  else if strcmp mode (str "minute") =? 0 then Some 16
  else None.
Definition lcs_whs_get_path (info p : cfg) : res (list byte) :=
  from ← text_of p "datefrom";
  datefrom ← fits 64 from;
  let datefrom := slashes datefrom ++ zeros (64 - zlen datefrom) in
  mode ← text_of p "mode";
  datefrom ← match mode_cut mode with Some k => wr datefrom k [x00] | None => Ok datefrom end;
  date ← cstr datefrom;
  root ← text_of info "rootpath";
  server ← text_of p "dbserver";
  db ← text_of p "dbname";
  analysis ← text_of p "analysis";
  fits 1024 (root ++ str "/" ++ server ++ str "/" ++ db ++ str "/" ++ date ++ str "/" ++
             analysis ++ str ".analysis").

Section WhServer.
Context `{World} `{DESLib} `{RSALib}.

(** ** Configuration *)

Definition lcs_cfg_table : list entry :=
  [copy_to "rootpath" "rootpath_0001:"; copy_to "dbpath" "dbpath_0001:";
   copy_to "prefixshmkey" "prefixshmkey_0002:"; copy_to "privatekey" "privatekey_0004:"].
Definition lcs_cfg_load (path : list byte) (info : cfg) (err : Z) : io (cfg * Z) :=
  cfg_load lcs_cfg_table path info err.

(** ** The session key *)

(** The session key, when one was taken; [n] is an [int] of which [lcs_rsa_decrypt] writes the
    lower half. *)
Definition lcs_whs_3des (info : cfg) (err : Z) : io (option (list byte) * Z) :=
  privatekey ← lift (text_of info "privatekey");
  '(key, err) ← lcs_get_private_key privatekey err;
  match key with
  | None => mret (None, 330)
  | Some key =>
    got ← ask (fun tr => recv tr LCS_WHS_BUF);
    _ ← emit EvRecv;
    let '(n, b) := match got with None => (-1, []) | Some b => (zlen b, b) end in
    let buf := b ++ zeros (LCS_WHS_BUF + 1 - zlen b) in
    '(decrypt, outlen) ← lift (lcs_rsa_decrypt key buf);
    if n <? 0 then mret (None, 339)
    else
      let n := 65536 * (n / 65536) + outlen in
      if n <? 1 then mret (None, 339)
      else
        on ← lift (rd1 decrypt 0);
        if negb (b2z on =? LCS_RSA_3DES_ON) then mret (None, 345)
        else
          l ← lift (rd decrypt 1 2);
          if negb (le_val l =? 24) then mret (None, 352)
          else key ← lift (rd decrypt 3 24); mret (Some key, err)
  end.

(** ** Messages *)

Definition lcs_whs_send_ready (key : list byte) (err : Z) : io Z :=
  lcs_3des_send key LCS_RSA_3DES_OVER (LCS_WHS_READY ++ [x00]) (zlen LCS_WHS_READY + 1) err.
Definition lcs_whs_sendoff (key : list byte) (err : Z) : io Z :=
  lcs_3des_send key LCS_RSA_3DES_OFF (LCS_WHS_FINISHED ++ [x00]) (zlen LCS_WHS_FINISHED + 1) err.

(** [p = strstr(data, ":"); ++p;]: without a colon the pointer is neither null nor valid. *)
Definition lcs_whs_recv_request (fuel : nat) (key behind : list byte) (req : cfg) (err : Z)
    : io (cfg * Z) :=
  '(r, err) ← lcs_3des_recv fuel key behind {| r_mode := 0; r_data := None; r_len := 0 |} err;
  match r_data r with
  | None => mret (req, err)
  | Some data =>
    s ← lift (cstr data);
    match strstr s LCS_WHS_REQUEST with
    | None => mret (req, 385)
    | Some _ =>
      match strstr s (str ":") with
      | None => lift (Fault NullDeref)
      | Some k =>
        req ← lift (lcs_whs_gen_request (drop (Z.to_nat k + 1) s) req);
        if negb (err =? 0) then mret (req, 396) else mret (req, err)
      end
    end
  end.

(** ** Files *)

(** One frame under a fresh vector. *)
Definition send_frame (key : list byte) (size mode : Z) (d : list byte) : io unit :=
  plain ← lift (rd (segment (LCS_RSA_3DES_BUF_LOW + 5) mode d) 0 size);
  emit (EvSend (DES_cbc key cblock0 plain)).
(** The loop of [fread]s of 509 bytes. *)
Fixpoint send_parts (fuel : nat) (key b : list byte) : io unit :=
  match fuel with
  | O => lift (Fault NoFuel)
  | S fuel =>
    let d := take 509 b in
    match d with
    | [] => mret tt
    | _ =>
      k ← lift (frame_size (zlen d));
      _ ← send_frame key k LCS_RSA_3DES_DATA d;
      if zlen d <? LCS_RSA_3DES_BUF_LOW - 3 then
        send_frame key 32 LCS_RSA_3DES_OFF (str "End session." ++ [x00])
      else send_parts fuel key (drop 509 b)
    end
  end.
Definition lcs_whs_send_file (key filepath : list byte) (err : Z) : io Z :=
  fp ← ask (fun tr => fopen_r tr filepath);
  match fp with
  | None => mret err
  | Some fp =>
    let size := itoa (f_tell fp) in
    err ← lcs_3des_send key LCS_RSA_3DES_CHECKSUM (size ++ [x00]) (zlen size + 1) err;
    if negb (keys_ok key) then mret 501
    else _ ← send_parts (S (length (f_bytes fp))) key (f_bytes fp); mret err
  end.
Definition lcs_whs_send_data (key : list byte) (info req : cfg) (err : Z) : io Z :=
  path ← lift (lcs_whs_get_path info req);
  lcs_whs_send_file key path err.

(** ** A connection *)

Definition lcs_whs_transaction (fuel : nat) (key behind : list byte) (info : cfg) (err : Z) : io Z :=
  err ← lcs_whs_send_ready key err;
  err ← (if negb (err =? 0) then mret err
         else
           '(req, err) ← lcs_whs_recv_request fuel key behind (cleared request_members) err;
           if negb (err =? 0) then mret err else lcs_whs_send_data key info req err);
  if negb (err =? 0) then lcs_whs_sendoff key err else mret err.

(** [opt] is the result of [setsockopt]. *)
Definition lcs_connected_socket (fuel : nat) (behind : list byte) (info : cfg) (opt : Z) : io Z :=
  '(key, err) ← lcs_whs_3des info opt;
  if negb (err =? 0) then mret err
  else
    match key with
    | Some key => lcs_whs_transaction fuel key behind info err
    | None => lift (Fault NullDeref)
    end.

End WhServer.

(** ** The path of a request *)

(** Fields with tabs between them. *)
Fixpoint tabbed (fs : list (list byte)) : list byte :=
  match fs with
  | [] => []
  | [f] => f
  | f :: fs => f ++ x09 :: tabbed fs
  end.
(** Rows of 128 bytes. *)
Definition rows_of (fs : list (list byte)) : list byte :=
  concat (map (fun f => f ++ zeros (128 - zlen f)) fs).
Definition field_ok (f : list byte) : Prop := 2 <= zlen f < 128 /\ no_nul f /\ x09 ∉ f.

Lemma rows_of_length fs : Forall field_ok fs -> zlen (rows_of fs) = 128 * zlen fs.
Proof.
  induction 1 as [|f fs [Hf _] _ IH]; [done|]. unfold rows_of in *. cbn [map concat].
  rewrite !zlen_app, IH, zlen_cons, zlen_zeros; lia.
Qed.

Lemma rows_of_app a b : rows_of (a ++ b) = rows_of a ++ rows_of b.
Proof. unfold rows_of. by rewrite map_app, concat_app. Qed.

(** One more row is filled. *)
Lemma fill_row pre f :
  Forall field_ok pre -> field_ok f -> (length pre < 32)%nat ->
  wr (rows_of pre ++ zeros (4096 - 128 * zlen pre)) (128 * Z.of_nat (length pre)) f
  = Ok (rows_of (pre ++ [f]) ++ zeros (4096 - 128 * zlen (pre ++ [f]))).
Proof.
  intros Hd Hf Hl. pose proof Hf as [Hz _]. pose proof (rows_of_length pre Hd) as Hr.
  assert (Hlen : zlen (pre ++ [f]) = zlen pre + 1) by (by rewrite zlen_app).
  set (z1 := zeros (128 - zlen f) ++ zeros (4096 - 128 * (zlen pre + 1))).
  assert (Hs : zeros (4096 - 128 * zlen pre) = zeros (zlen f) ++ z1).
  { unfold z1, zeros. rewrite <- !replicate_add. f_equal. unfold zlen in *. lia. }
  rewrite Hs. replace (128 * Z.of_nat (length pre)) with (zlen (rows_of pre)) by (unfold zlen in *; lia).
  rewrite wr_mid by (rewrite zlen_zeros; lia).
  assert (H1 : rows_of [f] = f ++ zeros (128 - zlen f)) by (unfold rows_of; cbn; by rewrite app_nil_r).
  rewrite rows_of_app, Hlen, H1. unfold z1. by rewrite <- !app_assoc.
Qed.

Lemma fields_ok fs pre fuel :
  Forall field_ok pre -> Forall field_ok fs -> fs <> [] ->
  (length pre + length fs <= 32)%nat -> (length fs <= fuel)%nat ->
  fields fuel (length pre) (rows_of pre ++ zeros (4096 - 128 * zlen pre)) (tabbed fs)
  = Ok (rows_of (pre ++ fs) ++ zeros (4096 - 128 * zlen (pre ++ fs))).
Proof.
  revert pre fuel. induction fs as [|f fs IH]; intros pre fuel Hd Hf Hne Hl Hfu; [done|].
  apply Forall_cons in Hf as [Hf Hfs]. destruct fuel as [|fuel]; cbn [length] in *; [lia|].
  pose proof Hf as (Hz & _ & Ht). destruct f as [|x f]; [change (zlen []) with 0 in Hz; lia|]. rewrite zlen_cons in Hz.
  destruct fs as [|g fs].
  - destruct f as [|y f]; [change (zlen []) with 0 in Hz; lia|]. cbn [tabbed fields].
    assert (Hn : strstr (y :: f) [x09] = None).
    { apply strstr_char_none. intros Hx. apply Ht. by right. }
    rewrite Hn. apply fill_row; [done|done|lia].
  - change (tabbed ((x :: f) :: g :: fs)) with ((x :: f) ++ x09 :: tabbed (g :: fs)).
    remember (tabbed (g :: fs)) as rest eqn:Er. cbn [app fields]. destruct (f ++ x09 :: rest) as [|y t] eqn:E; [by destruct f|]. rewrite <- E.
    rewrite strstr_char_some by (intros Hx; apply Ht; by right).
    assert (Htk : take (Z.to_nat (zlen f) + 1) (x :: f ++ x09 :: rest) = x :: f).
    { unfold zlen. rewrite Nat2Z.id, Nat.add_1_r. cbn [take]. by rewrite take_app_length. }
    assert (Hdr : drop (Z.to_nat (zlen f) + 2) (x :: f ++ x09 :: rest) = rest).
    { unfold zlen. rewrite Nat2Z.id. replace (length f + 2)%nat with (S (length f + 1)) by lia.
      cbn [drop]. rewrite drop_app_ge by lia. by replace (length f + 1 - length f)%nat with 1%nat by lia. }
    rewrite Htk, Hdr, fill_row by (done || lia). cbn [mbind res_bind].
    replace (S (length pre)) with (length (pre ++ [x :: f])) by (rewrite length_app; cbn; lia).
    subst rest. rewrite (IH (pre ++ [x :: f])); [by rewrite <- app_assoc| |done|done| |lia].
    + apply Forall_app. split; [done|]. by constructor.
    + rewrite length_app. cbn [length] in *. lia.
Qed.

(** The text of row [i]. *)
Lemma row_text fs i f rest :
  Forall field_ok fs -> fs !! i = Some f -> cstr (drop (128 * i) (rows_of fs ++ rest)) = Ok f.
Proof.
  intros Hfs. revert i. induction Hfs as [|g fs Hg _ IH]; intros i Hi; [done|].
  unfold rows_of. cbn [map concat]. fold (rows_of fs). rewrite <- !app_assoc.
  pose proof Hg as (Hz & Hn & _). unfold zlen in Hz.
  destruct i as [|i]; cbn in Hi.
  - injection Hi as ->. change (128 * 0)%nat with 0%nat. rewrite drop_0. unfold zeros, zlen.
    replace (Z.to_nat (128 - Z.of_nat (length f))) with (S (127 - length f)) by lia.
    cbn [replicate app]. by apply cstr_terminated.
  - replace (128 * S i)%nat with (length (g ++ zeros (128 - zlen g)) + 128 * i)%nat.
    + rewrite app_assoc, <- drop_drop, drop_app_length. by apply IH.
    + rewrite length_app. unfold zeros, zlen. rewrite length_replicate. lia.
Qed.

Section Path.

Lemma take_field_ok arr p f i n s :
  cstr (drop (128 * i) arr) = Ok s -> member p f = zeros n -> zlen s < n ->
  take_field arr p f i = Ok (<[f := s ++ zeros (n - zlen s)]> p).
Proof.
  intros Hs Hm Hz. unfold take_field. rewrite Hs, Hm. cbn [mbind res_bind]. by rewrite strcat_zeros.
Qed.

(** The structure a request is taken apart into. *)
Lemma gen_request_ok server db from to analysis mode :
  Forall field_ok [server; db; from; to; analysis; mode] ->
  zlen server < 32 -> zlen db < 64 -> zlen from < 32 -> zlen to < 32 -> zlen analysis < 32 ->
  zlen mode < 16 ->
  exists p, lcs_whs_gen_request (tabbed [server; db; from; to; analysis; mode])
      (cleared request_members) = Ok p /\
    text_of p "dbserver" = Ok server /\ text_of p "dbname" = Ok db /\
    text_of p "datefrom" = Ok from /\ text_of p "analysis" = Ok analysis /\
    text_of p "mode" = Ok mode.
Proof.
  intros Hf Z1 Z2 Z3 Z4 Z5 Z6. unfold lcs_whs_gen_request.
  pose proof (fields_ok [server; db; from; to; analysis; mode] [] 32 (Forall_nil_2 _) Hf
    ltac:(done) ltac:(cbn; lia) ltac:(cbn; lia)) as Ha.
  cbn [app length] in Ha. change (rows_of [] ++ zeros (4096 - 128 * zlen [])) with (zeros (32 * 128)) in Ha.
  rewrite Ha. cbn [mbind res_bind]. set (arr := rows_of _ ++ _).
  assert (Hrow : forall i f, [server; db; from; to; analysis; mode] !! i = Some f ->
                   cstr (drop (128 * i) arr) = Ok f) by (intros; by apply row_text).
  rewrite (take_field_ok arr _ "dbserver" 0 32 server) by (done || by apply Hrow). cbn [mbind res_bind].
  rewrite (take_field_ok arr _ "dbname" 1 64 db) by (done || by apply Hrow). cbn [mbind res_bind].
  rewrite (take_field_ok arr _ "datefrom" 2 32 from) by (done || by apply Hrow). cbn [mbind res_bind].
  rewrite (take_field_ok arr _ "dateto" 3 32 to) by (done || by apply Hrow). cbn [mbind res_bind].
  rewrite (take_field_ok arr _ "analysis" 4 32 analysis) by (done || by apply Hrow). cbn [mbind res_bind].
  rewrite (take_field_ok arr _ "mode" 5 16 mode) by (done || by apply Hrow).
  rewrite !Forall_cons in Hf. destruct Hf as ((_ & N1 & _) & (_ & N2 & _) & (_ & N3 & _) & _ & (_ & N5 & _) & (_ & N6 & _) & _).
  eexists. split; [reflexivity|].
  repeat split; rewrite ?text_of_insert_ne by done; by apply text_of_insert.
Qed.

(** The members in order, each from its row. *)
Fixpoint take_all (arr : list byte) (ms : list (string * Z)) (i : nat) (p : cfg) : res cfg :=
  match ms with
  | [] => Ok p
  | (f, _) :: ms => p ← take_field arr p f i; take_all arr ms (S i) p
  end.
Lemma gen_request_all request p :
  lcs_whs_gen_request request p
  = (arr ← fields 32 0 (zeros (32 * 128)) request; take_all arr request_members 0 p).
Proof.
  unfold lcs_whs_gen_request. destruct (fields _ _ _ _) as [arr|f]; [|done]. cbn [mbind res_bind].
  unfold request_members. cbn [take_all]. repeat (destruct (take_field _ _ _ _) as [?|?]; cbn [mbind res_bind]; [|done]).
  done.
Qed.

Lemma take_field_over arr p f i n s :
  cstr (drop (128 * i) arr) = Ok s -> member p f = zeros n -> 0 < n <= zlen s ->
  take_field arr p f i = Fault OobWrite.
Proof.
  intros Hs Hm Hz. unfold take_field. rewrite Hs, Hm. cbn [mbind res_bind]. unfold strcat.
  assert (cstr (zeros n) = Ok []) as -> by (unfold zeros; destruct (Z.to_nat n) eqn:E; [lia|done]).
  cbn [mbind res_bind]. change (zlen []) with 0. rewrite wr_oob; [done|]. right.
  rewrite zlen_app, zlen_zeros by lia. change (zlen [x00]) with 1. lia.
Qed.

(** The texts of the rows fit the members, row by row. *)
Fixpoint all_fit (text : nat -> list byte) (ms : list (string * Z)) (i : nat) : bool :=
  match ms with [] => true | (_, n) :: ms => (zlen (text i) <? n) && all_fit text ms (S i) end.

Lemma take_all_spec arr text ms : forall i p,
  (forall j, (i <= j < i + length ms)%nat -> cstr (drop (128 * j) arr) = Ok (text j) /\ no_nul (text j)) ->
  NoDup (map fst ms) -> Forall (fun '(f, n) => member p f = zeros n /\ 0 < n) ms ->
  if all_fit text ms i then
    exists p', take_all arr ms i p = Ok p' /\
      (forall j f n, ms !! j = Some (f, n) -> text_of p' f = Ok (text (i + j)%nat)) /\
      (forall g, g ∉ map fst ms -> member p' g = member p g)
  else take_all arr ms i p = Fault OobWrite.
Proof.
  induction ms as [|[f n] ms IH]; intros i p Ht Hd Hz; cbn [all_fit take_all map].
  { exists p. split; [done|]. by split; [intros j f n|]. }
  cbn [map fst] in Hd. apply NoDup_cons in Hd as [Hf Hd]. apply Forall_cons in Hz as [[Hm Hn] Hz].
  destruct (Ht i) as [Hti Hni]; [cbn; lia|]. destruct (zlen (text i) <? n) eqn:E; b2p; cbn [andb].
  2:{ by rewrite (take_field_over _ _ _ _ n (text i)) by (done || lia). }
  rewrite (take_field_ok _ _ _ _ n (text i)) by done. cbn [mbind res_bind].
  set (p1 := <[f := _]> p).
  assert (Hne : forall g, g <> f -> member p1 g = member p g) by (intros g Hg; unfold member, p1; by rewrite lookup_insert_ne).
  assert (Hz1 : Forall (fun '(g, m) => member p1 g = zeros m /\ 0 < m) ms).
  { apply Forall_forall. intros [g m] Hin. rewrite Forall_forall in Hz. destruct (Hz _ Hin) as [Hg Hm'].
    rewrite Hne; [done|]. intros ->. apply Hf. apply list_elem_of_fmap. by exists (f, m). }
  specialize (IH (S i) p1). destruct (all_fit text ms (S i)).
  - destruct IH as (p' & -> & Htx & Hother); [intros j Hj; apply Ht; cbn; lia|done|done|].
    exists p'. split; [done|]. split.
    + intros [|j] g m Hj; cbn in Hj; [injection Hj as <- <-|].
      * rewrite Nat.add_0_r. unfold text_of. rewrite Hother by done. unfold member, p1. rewrite lookup_insert_eq.
        cbn [default]. unfold zeros. destruct (Z.to_nat (n - zlen (text i))) eqn:Ez; [lia|]. cbn [replicate].
        by apply cstr_terminated.
      * rewrite (Htx j g m Hj). do 2 f_equal. lia.
    + intros g Hg. rewrite Hother by set_solver. apply Hne. set_solver.
  - apply IH; [intros j Hj; apply Ht; cbn; lia|done|done].
Qed.

(** The fields of a request, by their numbers; the missing ones are empty. *)
Definition nth_field (fs : list (list byte)) (i : nat) : list byte := default [] (fs !! i).

Lemma row_field fs i :
  Forall field_ok fs -> (length fs <= 32)%nat -> (i < 32)%nat ->
  cstr (drop (128 * i) (rows_of fs ++ zeros (4096 - 128 * zlen fs))) = Ok (nth_field fs i) /\ no_nul (nth_field fs i).
Proof.
  intros Hf Hl Hi. unfold nth_field. destruct (fs !! i) as [f|] eqn:E; cbn [default].
  - split; [by apply row_text|]. rewrite Forall_forall in Hf. apply Hf. by eapply list_elem_of_lookup_2.
  - split; [|constructor]. apply lookup_ge_None in E. pose proof (rows_of_length fs Hf) as Hr.
    rewrite drop_app_ge by (unfold zlen in *; lia). unfold zeros. rewrite drop_replicate.
    assert (Hlen : exists k, (Z.to_nat (4096 - 128 * zlen fs) - (128 * i - length (rows_of fs)) = S k)%nat).
    { exists (4095 - 128 * i)%nat. unfold zlen in *. lia. }
    destruct Hlen as [k ->]. done.
Qed.

(** C23: A request stays in its arrays exactly when its fields fit: for up to 32 fields of 2 to 127
    characters, when each of the first six is shorter than the array of its member, the
    structure gets them, each as it was sent, and otherwise [strcat] writes over the end of
    an array. *)
Theorem request_bounds fs :
  Forall field_ok fs -> fs <> [] -> (length fs <= 32)%nat ->
  if all_fit (nth_field fs) request_members 0 then
    exists p, lcs_whs_gen_request (tabbed fs) (cleared request_members) = Ok p /\
      forall i f n, request_members !! i = Some (f, n) -> text_of p f = Ok (nth_field fs i)
  else lcs_whs_gen_request (tabbed fs) (cleared request_members) = Fault OobWrite.
Proof.
  intros Hf Hne Hl. rewrite gen_request_all.
  pose proof (fields_ok fs [] 32 (Forall_nil_2 _) Hf Hne ltac:(cbn; lia) Hl) as Ha.
  cbn [app length] in Ha. change (rows_of [] ++ zeros (4096 - 128 * zlen [])) with (zeros (32 * 128)) in Ha.
  rewrite Ha. cbn [mbind res_bind].
  pose proof (take_all_spec (rows_of fs ++ zeros (4096 - 128 * zlen fs)) (nth_field fs) request_members 0 (cleared request_members)) as Ht.
  destruct (all_fit (nth_field fs) request_members 0).
  - destruct Ht as (p & Hp & Htx & _); [intros j Hj; apply row_field; [done|done|cbn in Hj; lia]| | |by exists p].
    + decided.
    + repeat constructor.
  - apply Ht; [intros j Hj; apply row_field; [done|done|cbn in Hj; lia]| |].
    + decided.
    + repeat constructor.
Qed.

End Path.

(** A server name of 40 characters. *)
Definition long_request : list (list byte) :=
  [replicate 40 x61; str "asterisk"; str "2017-10-29 08:15:00"; str "2017-10-29 08:16:00"; str "A_000009"; str "minute"].
Lemma request_bounds_witness :
  all_fit (nth_field long_request) request_members 0 = false /\
  lcs_whs_gen_request (tabbed long_request) (cleared request_members) = Fault OobWrite.
Proof.
  split; [vm_compute; reflexivity|]. apply (request_bounds long_request).
  - unfold field_ok.
    repeat (constructor; [split; [by vm_compute|split; [repeat constructor; discriminate|decided]]|]). constructor.
  - discriminate.
  - cbn. lia.
Defined.

(** The text of a period for a mode. *)
Definition period (mode from : list byte) : list byte :=
  match mode_cut mode with Some k => take (Z.to_nat k) (slashes from) | None => slashes from end.

Lemma slashes_length s : zlen (slashes s) = zlen s.
Proof. unfold slashes, zlen. by rewrite length_map. Qed.

Lemma slashes_no_nul s : no_nul s -> no_nul (slashes s).
Proof.
  intros Hs. unfold slashes. apply Forall_map. eapply Forall_impl; [exact Hs|]. intros b Hb. cbn.
  by destruct (_ || _).
Qed.

Lemma mode_cut_range mode k : mode_cut mode = Some k -> 0 <= k <= 16.
Proof. unfold mode_cut. repeat (destruct (_ =? 0); [intros [= <-]; lia|]). done. Qed.

(** A zero at [k] cuts a string. *)
Lemma cut_string s n k :
  no_nul s -> 0 <= k < n -> zlen s < n ->
  exists m, wr (s ++ zeros (n - zlen s)) k [x00] = Ok m /\ cstr m = Ok (take (Z.to_nat k) s).
Proof.
  intros Hs Hk Hn. pose proof (zlen_nonneg s).
  rewrite wr_ok by (rewrite ?zlen_app, ?zlen_zeros by lia; change (zlen [x00]) with 1; lia).
  eexists. split; [done|]. cbn [app]. destruct (Z.le_gt_cases k (zlen s)) as [Hle|Hgt].
  - rewrite take_app_le by (unfold zlen in Hle; lia).
    apply cstr_terminated. by apply Forall_take.
  - rewrite take_app_ge by (unfold zlen in Hgt; lia).
    rewrite (take_ge s) by (unfold zlen in Hgt; lia). unfold zlen in Hgt.
    assert (Hz : exists r, take (Z.to_nat k - length s) (zeros (n - zlen s)) = x00 :: r).
    { unfold zeros. rewrite take_replicate.
      destruct ((Z.to_nat k - length s) `min` Z.to_nat (n - zlen s))%nat as [|j] eqn:E.
      - unfold zlen in *. lia.
      - by exists (replicate j x00). }
    destruct Hz as [r ->]. rewrite <- app_assoc. by apply cstr_terminated.
Qed.

(** What a request leads to. *)
Lemma request_path_ok info root server db from to analysis mode :
  Forall field_ok [server; db; from; to; analysis; mode] ->
  zlen server < 32 -> zlen db < 64 -> zlen from < 32 -> zlen to < 32 -> zlen analysis < 32 ->
  zlen mode < 16 -> text_of info "rootpath" = Ok root -> zlen root < 800 ->
  (p ← lcs_whs_gen_request (tabbed [server; db; from; to; analysis; mode])
         (cleared request_members);
   lcs_whs_get_path info p)
  = Ok (root ++ str "/" ++ server ++ str "/" ++ db ++ str "/" ++ period mode from ++ str "/" ++
        analysis ++ str ".analysis").
Proof.
  intros Hf Z1 Z2 Z3 Z4 Z5 Z6 Hroot Zr.
  destruct (gen_request_ok server db from to analysis mode) as (p & -> & T1 & T2 & T3 & T4 & T5); [done..|].
  cbn [mbind res_bind]. unfold lcs_whs_get_path. rewrite T3. cbn [mbind res_bind].
  rewrite fits_ok by lia. cbn [mbind res_bind]. rewrite T5. cbn [mbind res_bind].
  rewrite !Forall_cons in Hf. destruct Hf as (_ & _ & (_ & Nf & _) & _).
  pose proof (slashes_no_nul from Nf) as Ns. rewrite <- (slashes_length from).
  assert (Hd : exists d, (match mode_cut mode with
      | Some k => wr (slashes from ++ zeros (64 - zlen (slashes from))) k [x00]
      | None => Ok (slashes from ++ zeros (64 - zlen (slashes from)))
      end) = Ok d /\ cstr d = Ok (period mode from)).
  { pose proof (slashes_length from). unfold period. destruct (mode_cut mode) as [k|] eqn:E.
    - apply mode_cut_range in E. apply cut_string; [done|lia|lia].
    - eexists. split; [done|]. unfold zeros.
      replace (Z.to_nat (64 - zlen (slashes from))) with (S (Z.to_nat (63 - zlen (slashes from)))) by lia.
      cbn [replicate]. by apply cstr_terminated. }
  destruct Hd as (d & -> & Hd). cbn [mbind res_bind]. rewrite Hd, Hroot, T1, T2, T4.
  cbn [mbind res_bind]. apply fits_ok.
  assert (zlen (period mode from) <= zlen from).
  { rewrite <- (slashes_length from). unfold period, zlen. destruct (mode_cut mode); [|lia].
    rewrite length_take. lia. }
  rewrite !zlen_app. lit. lia.
Qed.

(** A request of six fields separated by tabs, as the client sends them, is taken apart into
    exactly these fields, and the file the server looks for is that of the requested server,
    database, period and analysis: the path is made of the root directory, the fields, and
    the first moment with slashes, cut to the year, month, day, hour or minute the mode
    asks for.  Every field needs two characters or more. *)
Theorem request_path info root server db from to analysis mode :
  Forall field_ok [server; db; from; to; analysis; mode] ->
  zlen server < 32 -> zlen db < 64 -> zlen from < 32 -> zlen to < 32 -> zlen analysis < 32 ->
  zlen mode < 16 -> text_of info "rootpath" = Ok root -> zlen root < 800 ->
  (p ← lcs_whs_gen_request (tabbed [server; db; from; to; analysis; mode])
         (cleared request_members);
   lcs_whs_get_path info p)
  = Ok (root ++ str "/" ++ server ++ str "/" ++ db ++ str "/" ++ period mode from ++ str "/" ++
        analysis ++ str ".analysis").
Proof. apply request_path_ok. Qed.

Lemma request_path_witness :
  (p ← lcs_whs_gen_request (tabbed [str "10.0.0.7"; str "asterisk"; str "2017-10-29 08:15:00";
                                    str "2017-10-29 08:16:00"; str "000001"; str "minute"])
         (cleared request_members);
   lcs_whs_get_path (assign (cleared whs_members) "rootpath" (str "/w")) p)
  = Ok (str "/w/10.0.0.7/asterisk/2017/10/29/08/15/000001.analysis").
Proof.
  apply (request_path (assign (cleared whs_members) "rootpath" (str "/w")) (str "/w")
    (str "10.0.0.7") (str "asterisk") (str "2017-10-29 08:15:00") (str "2017-10-29 08:16:00")
    (str "000001") (str "minute")).
  - unfold field_ok.
    repeat (constructor; [split; [split; [by vm_compute|reflexivity]|split;
      [repeat constructor; discriminate
      |match goal with |- ?P => apply (bool_decide_unpack P); vm_compute; exact I end]]|]).
    constructor.
  - reflexivity.
  - reflexivity.
  - reflexivity.
  - reflexivity.
  - reflexivity.
  - reflexivity.
  - by vm_compute.
  - reflexivity.
Defined.

(** A field of one character: the mode is lost when it comes last. *)
Example short_field :
  (p ← lcs_whs_gen_request (str "aa" ++ [x09] ++ str "b") (cleared request_members);
   s ← text_of p "dbserver"; d ← text_of p "dbname"; Ok (s, d)) = Ok (str "aa", []).
Proof. vm_compute. reflexivity. Qed.

(** ** The parts of a file *)

Section Files.
Context `{World} `{DESLib} `{!DESLaws}.

(** What the other side makes of one frame: its mode and its data. *)
Definition open_frame (key c : list byte) : Z * list byte :=
  let s := DES_cbc_inv key cblock0 c in
  (b2z (hd x00 s), take (Z.to_nat (le_val (take 2 (drop 1 s)))) (drop 3 s)).

Lemma open_segment key k mode d :
  (8 | k) -> zlen d + 3 <= k -> zlen d < 65536 -> 0 <= mode < 256 ->
  open_frame key (DES_cbc key cblock0 (segment k mode d)) = (mode, d).
Proof.
  intros Hk Hd Hl Hm. pose proof (zlen_nonneg d). unfold open_frame.
  rewrite DES_cbc_inverse by (rewrite segment_length by lia; done). unfold segment.
  set (z := zeros _). change (le_bytes 2 (zlen d)) with [z2b (zlen d); z2b (zlen d / 256)].
  cbn [app hd drop take]. rewrite b2z_z2b, Z.mod_small by done. f_equal.
  assert (Hv : le_val [z2b (zlen d); z2b (zlen d / 256)] = zlen d).
  { change [z2b (zlen d); z2b (zlen d / 256)] with (le_bytes 2 (zlen d)).
    rewrite le_val_le_bytes. change (256 ^ Z.of_nat 2) with 65536. by rewrite Z.mod_small by lia. }
  rewrite take_0, drop_0, Hv. unfold zlen. rewrite Nat2Z.id. apply take_app_length.
Qed.

(** The frame [send_frame] sends. *)
Lemma send_frame_ok key size mode d tr :
  zlen d + 3 <= size <= 512 ->
  send_frame key size mode d tr
  = Ok (tt, tr ++ [EvSend (DES_cbc key cblock0 (segment size mode d))]).
Proof.
  intros Hs. pose proof (zlen_nonneg d). unfold send_frame, LCS_RSA_3DES_BUF_LOW.
  rewrite (io_bind_lift _ _ _ (segment size mode d)); [done|].
  rewrite rd_head by (rewrite segment_length; lia). f_equal. unfold segment.
  assert (Hz : zeros (512 + 5 - 3 - zlen d) = zeros (size - 3 - zlen d) ++ zeros (517 - size)).
  { unfold zeros. rewrite <- replicate_add. f_equal. lia. }
  rewrite Hz, !app_assoc. apply take_app_length'.
  rewrite !length_app, length_le_bytes. unfold zlen, zeros in *. rewrite length_replicate. cbn. lia.
Qed.

Definition the_end : list byte := str "End session." ++ [x00].

(** A frame that carries the data [d] under [mode]. *)
Definition framed (key : list byte) (m : Z * list byte) (c : list byte) : Prop :=
  exists k, (8 | k) /\ zlen m.2 + 3 <= k <= 512 /\ 0 <= m.1 < 256 /\
    c = DES_cbc key cblock0 (segment k m.1 m.2).
Lemma framed_opens key ms cs : Forall2 (framed key) ms cs -> map (open_frame key) cs = ms.
Proof.
  induction 1 as [|[mode d] c ms cs (k & Hk & Hd & Hm & ->) _ IH]; [done|]. cbn [map fst snd] in *. pose proof (zlen_nonneg d).
  rewrite IH. f_equal. apply open_segment; [done|lia|lia|done].
Qed.

(** The messages of a file: its parts in order, and the end of the session when the last part
    is shorter than 509 bytes. *)
Definition file_messages (b : list byte) (parts : list (list byte)) : list (Z * list byte) :=
  map (fun d => (LCS_RSA_3DES_DATA, d)) parts ++
  (if zlen b mod 509 =? 0 then [] else [(LCS_RSA_3DES_OFF, the_end)]).

Lemma send_parts_ok fuel key b tr :
  (length b < fuel)%nat ->
  exists frames parts, send_parts fuel key b tr = Ok (tt, tr ++ map EvSend frames) /\
    concat parts = b /\ Forall (fun d => 0 < zlen d <= 509) parts /\
    Forall2 (framed key) (file_messages b parts) frames.
Proof.
  revert b tr. induction fuel as [|fuel IH]; intros b tr Hf; [lia|]. cbn [send_parts].
  destruct (take 509 b) as [|x d] eqn:E.
  { exists [], []. destruct b as [|y b]; [|done]. cbn. rewrite app_nil_r. by repeat constructor. }
  rewrite <- E. set (p := take 509 b) in *.
  assert (Hp : zlen p = Z.min 509 (zlen b)) by (unfold p, zlen; rewrite length_take; lia).
  assert (Hpos : 0 < zlen p) by (rewrite E, zlen_cons; pose proof (zlen_nonneg d); lia).
  destruct (frame_size_ok (zlen p)) as (k & Hk & Hdiv & Hkb & Hk5); [lia|].
  rewrite (io_bind_lift _ _ _ _ Hk), (io_bind_ok _ _ _ _ _ (send_frame_ok key k LCS_RSA_3DES_DATA p tr ltac:(lia))).
  set (c := DES_cbc key cblock0 (segment k LCS_RSA_3DES_DATA p)).
  assert (Ho : framed key (LCS_RSA_3DES_DATA, p) c) by (exists k; cbn; repeat split; (done || lia)).
  unfold LCS_RSA_3DES_BUF_LOW. change (512 - 3) with 509.
  destruct (zlen p <? 509) eqn:El; b2p.
  - assert (Hb : p = b) by (unfold p; apply take_ge; unfold zlen in *; lia).
    rewrite send_frame_ok by (change (zlen (str "End session." ++ [x00])) with 13; lia).
    exists [c; DES_cbc key cblock0 (segment 32 LCS_RSA_3DES_OFF the_end)], [p].
    rewrite <- app_assoc. split; [done|]. split; [cbn; by rewrite app_nil_r|].
    split; [by constructor; [lia|constructor]|]. unfold file_messages. cbn [map app].
    rewrite <- Hb, (Z.mod_small (zlen p)) by lia. decide_cmp. constructor; [done|]. constructor; [|constructor].
    exists 32. split; [by exists 4|]. split; [by vm_compute|]. done.
  - destruct (IH (drop 509 b) (tr ++ [EvSend c])) as (frames & parts & Hr & Hc & Hs & Hm).
    { rewrite length_drop. unfold zlen in *. lia. }
    rewrite Hr. exists (c :: frames), (p :: parts).
    rewrite <- app_assoc. split; [done|]. split; [cbn [concat]; rewrite Hc; apply take_drop|].
    split; [constructor; [lia|done]|]. unfold file_messages in *. cbn [map app]. constructor; [done|].
    assert (Hz : zlen (drop 509 b) mod 509 = zlen b mod 509).
    { unfold zlen in *. rewrite length_drop.
      replace (Z.of_nat (length b - 509)) with (Z.of_nat (length b) + (-1) * 509) by lia.
      by rewrite Z.mod_add. }
    by rewrite <- Hz.
Qed.

(** The file behind the message with its size. *)
Lemma send_file_ok key path err fp tr :
  fopen_r tr path = Some fp -> keys_ok key = true -> 0 <= f_tell fp < 2 ^ 62 ->
  exists first frames parts,
    lcs_whs_send_file key path err tr = Ok (err, tr ++ EvSend first :: map EvSend frames) /\
    framed key (LCS_RSA_3DES_CHECKSUM, itoa (f_tell fp) ++ [x00]) first /\
    concat parts = f_bytes fp /\ Forall (fun d => 0 < zlen d <= 509) parts /\
    Forall2 (framed key) (file_messages (f_bytes fp) parts) frames.
Proof.
  intros Hf Hk Hsz. unfold lcs_whs_send_file. rewrite io_bind_ask, Hf. cbv zeta.
  set (size := itoa (f_tell fp)). pose proof (itoa_length (f_tell fp)) as Hi. fold size in Hi.
  pose proof (zlen_nonneg size).
  assert (Hd : zlen (size ++ [x00]) = zlen size + 1) by (by rewrite zlen_app).
  destruct (frame_size_ok (zlen size + 1)) as (k & Hks & Hdiv & Hkb & Hk5); [lia|].
  rewrite (io_bind_ok _ _ _ _ _ (send_message_ok key LCS_RSA_3DES_CHECKSUM size err tr k Hk ltac:(lia) Hks)), Hk.
  cbn [negb].
  destruct (send_parts_ok (S (length (f_bytes fp))) key (f_bytes fp)
    (tr ++ [EvSend (DES_cbc key cblock0 (segment k LCS_RSA_3DES_CHECKSUM (size ++ [x00])))]))
    as (frames & parts & Hr & Hrest); [lia|].
  rewrite (io_bind_ok _ _ _ _ _ Hr).
  eexists _, frames, parts. split; [by rewrite <- app_assoc|]. split; [|done].
  exists k. cbn [fst snd]. rewrite Hd. repeat split; (done || lia).
Qed.

(** A file of the warehouse arrives whole: after a message with its size, the frames that are
    sent open, in order and under the session key, to parts that put together are the bytes
    of the file; the frame that ends the session follows exactly when the size is not a
    multiple of 509, so that a receiver of any other file waits for it in vain. *)
Theorem send_file_parts key path err fp tr :
  fopen_r tr path = Some fp -> keys_ok key = true -> 0 <= f_tell fp < 2 ^ 62 ->
  exists first frames parts,
    lcs_whs_send_file key path err tr
    = Ok (err, tr ++ EvSend first :: map EvSend frames) /\
    open_frame key first = (LCS_RSA_3DES_CHECKSUM, itoa (f_tell fp) ++ [x00]) /\
    concat parts = f_bytes fp /\ Forall (fun d => 0 < zlen d <= 509) parts /\
    map (open_frame key) frames
    = map (fun d => (LCS_RSA_3DES_DATA, d)) parts ++
      (if zlen (f_bytes fp) mod 509 =? 0 then [] else [(LCS_RSA_3DES_OFF, the_end)]).
Proof.
  intros Hf Hk Hsz. destruct (send_file_ok key path err fp tr Hf Hk Hsz) as (first & frames & parts & Hrun & Hfirst & Hcat & Hlen & Hall).
  exists first, frames, parts. split; [done|].
  pose proof (framed_opens key [_] [first] (List.Forall2_cons _ _ Hfirst (List.Forall2_nil _))) as Ho.
  split; [unfold open_frame; by injection Ho as -> ->|].
  split; [done|]. split; [done|]. by apply framed_opens.
Qed.

End Files.

(** ** The session key *)

Section Session.
Context `{World} `{RSALib} `{!RSALaws}.

(** The session key a client encrypts under the public key of the server is the one the server
    works with: a block of the byte 0, the length 24 and the three keys, under RSA, gives
    these 24 bytes. *)
Theorem session_key info file pub prv fp bio ct keys err tr :
  text_of info "privatekey" = Ok file -> fopen_r tr file = Some fp -> regular fp ->
  no_nul (f_bytes fp) -> BIO_new_mem_buf (f_bytes fp) = Some bio ->
  PEM_read_bio_RSAPrivateKey bio = Some prv -> key_pair pub prv -> RSA_size prv <= 2049 ->
  zlen keys = 24 -> RSA_public_encrypt ([x00] ++ le_bytes 2 24 ++ keys) pub = Some ct ->
  zlen keys + 3 <= RSA_size pub -> recv tr LCS_WHS_BUF = Some ct ->
  lcs_whs_3des info err tr = Ok ((Some keys, err), tr ++ [EvRecv]).
Proof.
  intros Hfile Hf Hreg Hn Hbio Hpem Hpair Hsz Hk Hct Hks Hr.
  pose proof (RSA_encrypt_size _ _ _ _ Hpair Hct) as Hc. pose proof (key_pair_size _ _ Hpair) as Hps.
  pose proof (key_pair_size_pos _ _ Hpair).
  unfold lcs_whs_3des. rewrite (io_bind_lift _ _ _ _ Hfile).
  assert (Hkey : lcs_get_private_key file err tr = Ok ((Some prv, err), tr)).
  { unfold lcs_get_private_key, get_key. rewrite (io_bind_ok _ _ _ _ _ (lcs_file_text_ok file None err tr fp Hf Hreg)).
    rewrite (io_bind_lift _ _ _ (f_bytes fp)) by (by apply cstr_terminated). by rewrite Hbio, Hpem. }
  rewrite (io_bind_ok _ _ _ _ _ Hkey), io_bind_ask, Hr, io_bind_emit.
  set (pt := [x00] ++ le_bytes 2 24 ++ keys).
  assert (Hpt : zlen pt = 27) by (unfold pt; rewrite !zlen_app, Hk; done).
  assert (Hdec : lcs_rsa_decrypt prv (ct ++ zeros (LCS_WHS_BUF + 1 - zlen ct))
                 = Ok (pt ++ zeros (RSA_size prv - 27), 27)).
  { unfold lcs_rsa_decrypt, LCS_WHS_BUF. rewrite Hps, <- Hc.
    rewrite (rd_app_l _ _ 0 (zlen ct) ct)
      by (rewrite rd_head by (pose proof (zlen_nonneg ct); lia); rewrite take_ge by (unfold zlen; lia); done).
    cbn [mbind res_bind]. rewrite (RSA_decrypt_encrypt _ _ _ _ Hpair Hct).
    fold pt. rewrite wr_zeros by lia. cbn [mbind res_bind]. rewrite Hpt. done. }
  rewrite (io_bind_lift _ _ _ _ Hdec). pose proof (zlen_nonneg ct).
  assert (E0 : zlen ct / 65536 = 0) by (apply Z.div_small; lia). rewrite E0.
  replace (zlen ct <? 0) with false by (symmetry; apply Z.ltb_ge; lia).
  change (65536 * 0 + 27 <? 1) with false. cbv beta iota. unfold pt. cbn [app].
  rewrite (io_bind_lift _ _ _ x00) by done. change (negb (b2z x00 =? LCS_RSA_3DES_ON)) with false.
  cbv beta iota.
  match goal with |- context [rd ?m 1 2] =>
    assert (E1 : rd m 1 2 = Ok (le_bytes 2 24)) by (apply (rd_mid [x00] (le_bytes 2 24)));
    assert (E2 : rd m 3 24 = Ok keys) end.
  { rewrite <- Hk. change 3 with (zlen ([x00] ++ le_bytes 2 24)).
    apply (rd_mid ([x00] ++ le_bytes 2 24) keys). }
  rewrite (io_bind_lift _ _ _ _ E1). change (negb (le_val (le_bytes 2 24) =? 24)) with false.
  cbv beta iota. by rewrite (io_bind_lift _ _ _ _ E2).
Qed.

End Session.

(** ** A client that goes away *)

Section Vanished.
Context `{World} `{DESLib} `{!DESLaws} `{RSALib}.

(** C34: A client that closes its connection once the session key was taken keeps its process for
    ever: when nothing arrives any more, [lcs_3des_recv] repeats the call of [recv] that gives
    nothing, so that [lcs_connected_socket] never comes back, whatever bound is set on the
    number of its rounds; the process is never ended, nor waited for. *)
Theorem vanished_client fuel behind info opt tr key tr1 :
  lcs_whs_3des info opt tr = Ok ((Some key, 0), tr1) -> keys_ok key = true ->
  (forall ready, gone (tr1 ++ [EvSend ready])) ->
  lcs_connected_socket fuel behind info opt tr = Fault NoFuel.
Proof.
  intros Hkey Hk Hs. unfold lcs_connected_socket. rewrite (io_bind_ok _ _ _ _ _ Hkey). cbn [Z.eqb negb].
  assert (Hready : lcs_whs_send_ready key 0 tr1
    = Ok (0, tr1 ++ [EvSend (DES_cbc key cblock0 (segment 16 LCS_RSA_3DES_OVER (LCS_WHS_READY ++ [x00])))])).
  { unfold lcs_whs_send_ready. by apply send_message_ok. }
  unfold lcs_whs_transaction. rewrite (io_bind_ok _ _ _ _ _ Hready). cbn [Z.eqb negb].
  apply io_bind_fault. apply io_bind_fault. unfold lcs_whs_recv_request. apply io_bind_fault.
  by apply recv_for_ever.
Qed.
End Vanished.

(** ** A concrete connection *)

Module Connection.
Definition keys : list byte := replicate 24 x5a.
Definition cipher : list byte := toy_rsa_block ([x00] ++ le_bytes 2 24 ++ keys) key_S.
#[local] Instance world : World :=
  hearing (toy_world [(str "key.pem", [key_S]); (str "/w/1.analysis", str "2017-10-29 08:15:00 7")]
             None None None) (Some cipher).
Definition info : cfg := assign (cleared whs_members) "privatekey" (str "key.pem").

Lemma session_key_witness : lcs_whs_3des info 0 [] = Ok ((Some keys, 0), [EvRecv]).
Proof.
  apply (session_key info (str "key.pem") key_S key_S {| f_tell := 1; f_bytes := [key_S]; f_close := 0 |}
    [key_S] cipher keys 0 []).
  - by vm_compute.
  - reflexivity.
  - by split.
  - repeat constructor; discriminate.
  - reflexivity.
  - reflexivity.
  - reflexivity.
  - vm_compute; discriminate.
  - reflexivity.
  - reflexivity.
  - vm_compute; discriminate.
  - reflexivity.
Defined.

Lemma send_file_parts_witness :
  exists first frames parts,
    lcs_whs_send_file keys (str "/w/1.analysis") 0 [] = Ok (0, EvSend first :: map EvSend frames) /\
    concat parts = str "2017-10-29 08:15:00 7" /\
    map (open_frame keys) frames
    = map (fun d => (LCS_RSA_3DES_DATA, d)) parts ++ [(LCS_RSA_3DES_OFF, the_end)].
Proof.
  destruct (send_file_parts keys (str "/w/1.analysis") 0
    {| f_tell := 21; f_bytes := str "2017-10-29 08:15:00 7"; f_close := 0 |} [])
    as (first & frames & parts & H1 & _ & H2 & _ & H3).
  - reflexivity.
  - reflexivity.
  - split; [discriminate|reflexivity].
  - exists first, frames, parts. split; [exact H1|]. split; [exact H2|exact H3].
Defined.

(** The same client says nothing more. *)
#[local] Instance closed : World := {|
  fopen_r := @fopen_r world; fopen_w := @fopen_w world; popen := @popen world; readdir := @readdir world;
  getenv := @getenv world; shm_create := @shm_create world; mysql_init := @mysql_init world;
  mysql_real_connect := @mysql_real_connect world; mysql_query := @mysql_query world;
  mysql_store_result := @mysql_store_result world; sqlite_open := @sqlite_open world;
  sqlite_prepare := @sqlite_prepare world; sqlite_exec := @sqlite_exec world; sqlite_bind := @sqlite_bind world;
  sqlite_step := @sqlite_step world; sqlite_clear_bindings := @sqlite_clear_bindings world;
  sqlite_reset := @sqlite_reset world; sqlite_finalize := @sqlite_finalize world;
  sqlite_close := @sqlite_close world; recv tr _ := match tr with [] => Some cipher | _ => Some [] end;
  send := @send world
|}.
Lemma vanished_client_witness : lcs_connected_socket 1000 (zeros 507) info 0 [] = Fault NoFuel.
Proof.
  apply (vanished_client (H := closed) 1000 (zeros 507) info 0 [] keys [EvRecv]).
  - vm_compute. reflexivity.
  - reflexivity.
  - intros ready n. exact I.
Defined.
End Connection.
