(* ===== verification/Listener.v ===== *)
(** * The warehouse server as a set of processes

    Models the listening half of src/cluster/whserver/main.c: [main], [lcs_init_socket] with
    its loop of [accept] and [fork], the process of each connection, and the threads of
    [lcs_whs_parent_wait] ([lcs_whs_thread_wait]) that wait for the processes.  What a process
    does with its connection is [lcs_connected_socket] of WhServer.v.

    The whole is a step relation: the loop of the listening process, every child and every
    waiting thread take their steps in any order, and every call of the system may fail. *)
From stdpp Require Import gmap.
From S2P Require Import Prelude CString OpenSSL Toy World.
From S2P Require Import ToyWorld Config TripleDes WhServer.

(** ** Starting *)

(** The calls of [lcs_init_socket] in front of its loop, by their results: [*err] is the line
    of the first that fails. *)
Definition lcs_init_socket (sock setopt bound listening : Z) : Z :=
  if sock <? 0 then 192
  else if negb (setopt =? 0) then 199
  else if negb (bound =? 0) then 211
  else if negb (listening =? 0) then 216
  else 0.

(** The result of [main] for the error that is left. *)
Definition exit_code (err : Z) : Z := if err =? 0 then 0 else 1.

(** [main] up to the loop: its result when it ends there.  The configuration is loaded, but
    its errors stay in [lcs_init_app]. *)
Definition whs_main (argc sock setopt bound listening : Z) : option Z :=
  if argc <? 2 then Some (exit_code 77)
  else
    let err := lcs_init_socket sock setopt bound listening in
    if err =? 0 then None else Some (exit_code err).

(** ** The state *)

(** Where the loop of the listening process is. *)
Inductive parent :=
| Accepting                       (** at [accept] *)
| Forking (sock : Z)              (** a connection was accepted, or [accept] failed *)
| Closing (sock pid : Z)          (** the process was made, [close(sock)] follows *)
| Watching (pid : Z)              (** in front of [lcs_whs_parent_wait] *)
| Finished (code : Z).            (** [main] has returned *)

(** How a process ended: with a code, or by a signal of its own fault. *)
Inductive exit_status := Exit (code : Z) | Died.

(** A child: the descriptors it has open, and where it is. *)
Inductive child_at :=
| Begun                           (** in front of [close(lcs_whs_socket)] *)
| Serving                         (** in [lcs_connected_socket] *)
| Lingering (err : Z)             (** in front of [close(sock)] *)
| Leaving (err : Z)               (** on the way out of [main] *)
| Zombie (st : exit_status).      (** ended, and not yet waited for *)
Record child := { c_sock : Z; c_listens : bool; c_open : bool; c_at : child_at }.

(** [sockets] are the connected sockets the listening process has open, [children] the
    processes it has made and not waited for, [waiters] the threads that wait, each by its
    process, and [unwatched] the processes for which [pthread_create] failed. *)
Record whs := {
  parent_at : parent;
  sockets : list Z;
  children : gmap Z child;
  waiters : list Z;
  unwatched : list Z
}.

Definition whs_start : whs :=
  {| parent_at := Accepting; sockets := []; children := ∅; waiters := []; unwatched := [] |}.

Definition child_to (c : child) (p : child_at) : child :=
  {| c_sock := c_sock c; c_listens := c_listens c; c_open := c_open c; c_at := p |}.
Definition with_child (s : whs) (pid : Z) (c : child) : whs :=
  {| parent_at := parent_at s; sockets := sockets s; children := <[pid := c]> (children s);
     waiters := waiters s; unwatched := unwatched s |}.
Definition parent_to (s : whs) (p : parent) (socks : list Z) : whs :=
  {| parent_at := p; sockets := socks; children := children s; waiters := waiters s;
     unwatched := unwatched s |}.

(** ** Waiting threads *)

(** What [waitpid(pid, &status, WNOHANG)] finds: -1 when there is no such child, 0 while it
    runs, and otherwise its number; the child is then gone. *)
Definition waitpid (s : whs) (pid : Z) : Z * gmap Z child :=
  match children s !! pid with
  | None => (-1, children s)
  | Some c =>
    match c_at c with
    | Zombie _ => (pid, delete pid (children s))
    | _ => (0, children s)
    end
  end.

(** One round of [lcs_whs_thread_wait] for the thread at position [i]: it goes on while the
    result is 0. *)
Definition lcs_whs_thread_wait (s : whs) (i : nat) : whs :=
  match waiters s !! i with
  | None => s
  | Some pid =>
    let '(result, kids) := waitpid s pid in
    {| parent_at := parent_at s; sockets := sockets s; children := kids;
       waiters := if result =? 0 then waiters s else delete i (waiters s);
       unwatched := unwatched s |}
  end.

(** [lcs_whs_parent_wait]: a thread for the process, unless it could not be created. *)
Definition lcs_whs_parent_wait (created : bool) (s : whs) (pid : Z) : whs :=
  {| parent_at := Accepting; sockets := sockets s; children := children s;
     waiters := if created then waiters s ++ [pid] else waiters s;
     unwatched := if created then unwatched s else unwatched s ++ [pid] |}.

Section Listener.
Context `{World} `{DESLib} `{RSALib}.
(** The configuration, and the bounds of the model of a conversation. *)
Variables (fuel : nat) (behind : list byte) (info : cfg).

(** [close(lcs_whs_socket)] of the child. *)
Definition stop_listening (c : child) : child :=
  {| c_sock := c_sock c; c_listens := false; c_open := c_open c; c_at := Serving |}.
(** [close(sock)] of the child. *)
Definition hang_up (c : child) (err : Z) : child :=
  {| c_sock := c_sock c; c_listens := c_listens c; c_open := false; c_at := Leaving err |}.

(** The steps of a child.  The system closes the descriptors of a process that ends. *)
Inductive cstep : child -> child -> Prop :=
| C_begin c : c_at c = Begun -> cstep c (stop_listening c)
| C_serve c opt tr err tr' :
    c_at c = Serving -> lcs_connected_socket fuel behind info opt tr = Ok (err, tr') ->
    cstep c (child_to c (Lingering err))
| C_crash c opt tr f :
    c_at c = Serving -> lcs_connected_socket fuel behind info opt tr = Fault f -> f <> NoFuel ->
    cstep c {| c_sock := c_sock c; c_listens := false; c_open := false; c_at := Zombie Died |}
| C_close c err : c_at c = Lingering err -> cstep c (hang_up c err)
| C_exit c err : c_at c = Leaving err -> cstep c (child_to c (Zombie (Exit (exit_code err)))).

(** A connection that was accepted has a descriptor of its own; a failed [accept] gives -1 and
    is not looked at.  [fork] gives the number of no process that is still there.  The threads
    end with the process that has them. *)
Definition running (s : whs) : Prop := match parent_at s with Finished _ => False | _ => True end.

Inductive wstep : whs -> whs -> Prop :=
| W_accept s sock :
    parent_at s = Accepting -> 0 <= sock -> sock ∉ sockets s ->
    wstep s (parent_to s (Forking sock) (sock :: sockets s))
| W_accept_fails s :
    parent_at s = Accepting -> wstep s (parent_to s (Forking (-1)) (sockets s))
| W_fork s sock pid :
    parent_at s = Forking sock -> 0 < pid -> children s !! pid = None ->
    wstep s (with_child (parent_to s (Closing sock pid) (sockets s)) pid
               {| c_sock := sock; c_listens := true; c_open := 0 <=? sock; c_at := Begun |})
| W_fork_fails s sock :
    parent_at s = Forking sock -> wstep s (parent_to s (Finished (exit_code 224)) (sockets s))
| W_close s sock pid :
    parent_at s = Closing sock pid ->
    wstep s (parent_to s (Watching pid) (filter (fun d => d <> sock) (sockets s)))
| W_watch s pid created :
    parent_at s = Watching pid -> wstep s (lcs_whs_parent_wait created s pid)
| W_child s pid c c' :
    children s !! pid = Some c -> cstep c c' -> wstep s (with_child s pid c')
| W_wait s i :
    running s -> (i < length (waiters s))%nat -> wstep s (lcs_whs_thread_wait s i).

Definition whs_reachable : whs -> Prop := rtc wstep whs_start.

(** ** The invariant *)

(** The process the loop has made and not yet handed to a thread. *)
Definition pending (p : parent) : list Z :=
  match p with Closing _ pid | Watching pid => [pid] | _ => [] end.
(** The processes that somebody answers for. *)
Definition owned (s : whs) : list Z := pending (parent_at s) ++ unwatched s ++ waiters s.

(** What a child has open where it is. *)
Definition child_ok (c : child) : Prop :=
  match c_at c with
  | Begun => True
  | Serving | Lingering _ => c_listens c = false
  | Leaving _ | Zombie _ => c_listens c = false /\ c_open c = false
  end.

(** The connected sockets the loop holds. *)
Definition socks_ok (p : parent) (ds : list Z) : Prop :=
  match p with
  | Accepting | Watching _ => ds = []
  | Forking d | Closing d _ => ds = if 0 <=? d then [d] else []
  | Finished code => code = 1 /\ (length ds <= 1)%nat
  end.

Record whs_ok (s : whs) : Prop := {
  ok_socks : socks_ok (parent_at s) (sockets s);
  ok_nodup : NoDup (owned s);
  ok_owned : forall pid, is_Some (children s !! pid) <-> pid ∈ owned s;
  ok_pids : Forall (fun pid => 0 < pid) (owned s);
  ok_child : forall pid c, children s !! pid = Some c -> child_ok c
}.

Lemma whs_ok_start : whs_ok whs_start.
Proof.
  split; cbn; [done|constructor| |constructor|by intros pid c; rewrite lookup_empty].
  intros pid. rewrite lookup_empty. split; [by intros [? ?]|set_solver].
Qed.

Lemma cstep_ok c c' : child_ok c -> cstep c c' -> child_ok c'.
Proof. unfold child_ok. intros Hc Hs. destruct Hs as [? E|? ? ? ? ? E|? ? ? ? E|? ? E|? ? E]; rewrite E in Hc; cbn; naive_solver. Qed.

(** Turning to another place of the loop that answers for the same processes. *)
Lemma whs_ok_parent s p ds :
  whs_ok s -> pending p = pending (parent_at s) -> socks_ok p ds -> whs_ok (parent_to s p ds).
Proof.
  intros [A B C P D] Hp Hd. split; [done| |intros pid| |done]; unfold owned in *; cbn; rewrite Hp; [done|apply C|done].
Qed.

Lemma whs_ok_fork s sock pid :
  whs_ok s -> parent_at s = Forking sock -> 0 < pid -> children s !! pid = None ->
  whs_ok (with_child (parent_to s (Closing sock pid) (sockets s)) pid
            {| c_sock := sock; c_listens := true; c_open := 0 <=? sock; c_at := Begun |}).
Proof.
  intros [A B C P D] Hp Hpid Hn. unfold owned in *. rewrite Hp in *. cbn [pending app] in *.
  assert (Hf : pid ∉ unwatched s ++ waiters s).
  { intros Hin. apply C in Hin. rewrite Hn in Hin. by destruct Hin. }
  split; unfold owned; cbn.
  - done.
  - by constructor.
  - intros q. destruct (decide (q = pid)) as [->|Hq].
    + rewrite lookup_insert_eq. split; [set_solver|by eexists].
    + rewrite lookup_insert_ne by done. rewrite C. set_solver.
  - by constructor.
  - intros q c. destruct (decide (q = pid)) as [->|Hq].
    + rewrite lookup_insert_eq. by intros [= <-].
    + rewrite lookup_insert_ne by done. apply D.
Qed.

Lemma whs_ok_child s pid c c' :
  whs_ok s -> children s !! pid = Some c -> child_ok c' -> whs_ok (with_child s pid c').
Proof.
  intros [A B C P D] Hc Hok. split; [done|done| |done|]; unfold owned in *; cbn; intros q;
    (destruct (decide (q = pid)) as [->|Hq]; [rewrite lookup_insert_eq|rewrite lookup_insert_ne by done]).
  - rewrite <- C, Hc. split; intros _; by eexists.
  - apply C.
  - by intros c0 [= <-].
  - intros c0. apply D.
Qed.

Lemma whs_ok_watch s pid created :
  whs_ok s -> parent_at s = Watching pid -> whs_ok (lcs_whs_parent_wait created s pid).
Proof.
  intros [A B C P D] Hp. unfold owned in *. rewrite Hp in *. cbn [pending] in *.
  assert (Hperm : owned (lcs_whs_parent_wait created s pid) ≡ₚ [pid] ++ unwatched s ++ waiters s).
  { unfold owned. destruct created; cbn; solve_Permutation. }
  split; [done|by rewrite Hperm|intros q; rewrite Hperm; apply C|by rewrite Hperm|done].
Qed.

Lemma whs_ok_wait s i : whs_ok s -> whs_ok (lcs_whs_thread_wait s i).
Proof.
  intros [A B C P D]. unfold lcs_whs_thread_wait. destruct (waiters s !! i) as [pid|] eqn:Ei; [|by split].
  assert (Hin : is_Some (children s !! pid)).
  { apply C. unfold owned. rewrite !elem_of_app. right. right. by eapply list_elem_of_lookup_2. }
  destruct Hin as [c Hc]. unfold waitpid. rewrite Hc. destruct (c_at c) eqn:Ec; try by split.
  assert (Hmid : owned s ≡ₚ pid :: pending (parent_at s) ++ unwatched s ++ delete i (waiters s)).
  { unfold owned. rewrite (delete_Permutation (waiters s) i pid Ei) at 1. solve_Permutation. }
  rewrite Hmid in B, P. setoid_rewrite Hmid in C. apply NoDup_cons in B as [Hnot B]. apply Forall_cons in P as [Hpos P].
  rewrite (proj2 (Z.eqb_neq pid 0)) by lia.
  split; unfold owned; cbn [parent_at sockets children waiters unwatched]; [done|done| |done|]; intros q.
  - destruct (decide (q = pid)) as [->|Hq].
    + rewrite lookup_delete_eq. split; [by intros []|done].
    + rewrite lookup_delete_ne by done. rewrite C. set_solver.
  - destruct (decide (q = pid)) as [->|Hq]; [by rewrite lookup_delete_eq|rewrite lookup_delete_ne by done].
    intros c0. apply D.
Qed.

Lemma whs_ok_step s s' : whs_ok s -> wstep s s' -> whs_ok s'.
Proof.
  intros Hok Hs. pose proof (ok_socks _ Hok) as Hd. destruct Hs as [s d E Hd0 _|s E|s d pid E Hp Hn|s d E|s d pid E|s pid b E|s pid c c' Hc Hcs|s i _ _];
    try rewrite E in Hd; cbn in Hd.
  - apply whs_ok_parent; [done|by rewrite E|]. cbn. by rewrite Hd, (proj2 (Z.leb_le _ _)).
  - apply whs_ok_parent; [done|by rewrite E|]. cbn. by rewrite Hd.
  - by apply whs_ok_fork.
  - apply whs_ok_parent; [done|by rewrite E|]. cbn. rewrite Hd. split; [done|]. destruct (0 <=? d); cbn; lia.
  - apply whs_ok_parent; [done|by rewrite E|]. cbn. rewrite Hd. destruct (0 <=? d); [|done].
    by rewrite filter_cons_False by naive_solver.
  - by apply whs_ok_watch.
  - eapply whs_ok_child; [done|done|]. eapply cstep_ok; [|done]. by eapply ok_child.
  - by apply whs_ok_wait.
Qed.

Lemma whs_ok_steps s s' : whs_ok s -> rtc wstep s s' -> whs_ok s'.
Proof. intros Hok Hs. induction Hs as [|s0 s1 s2 Hst _ IH]; [done|]. apply IH. by eapply whs_ok_step. Qed.
Lemma whs_ok_reachable s : whs_reachable s -> whs_ok s.
Proof. apply whs_ok_steps, whs_ok_start. Qed.

(** C12: The server keeps its house in order: in every reachable state, whatever the order of the
    steps of the loop, the processes and the threads and whatever calls failed, the listening
    process has at most one connected socket open, and none when it waits for a connection;
    every process it made and that is not waited for yet has exactly one thread that waits for
    it, unless the thread could not be created or is about to be; the process a thread waits
    for is there, so that [waitpid] never answers -1 and no thread takes the process of
    another; a child that talks to its client does not listen, and one that has ended has
    nothing open. *)
Theorem whs_house s :
  whs_reachable s ->
  (length (sockets s) <= 1)%nat /\ (parent_at s = Accepting -> sockets s = []) /\
  NoDup (waiters s) /\
  (forall pid, pid ∈ waiters s -> (waitpid s pid).1 <> -1) /\
  (forall pid c, children s !! pid = Some c ->
     pid ∈ waiters s \/ pid ∈ unwatched s \/ pid ∈ pending (parent_at s)) /\
  (forall pid c, children s !! pid = Some c -> c_at c <> Begun -> c_listens c = false) /\
  (forall pid c st, children s !! pid = Some c -> c_at c = Zombie st -> c_open c = false).
Proof.
  intros [A B C P D]%whs_ok_reachable. split_and!.
  - destruct (parent_at s); cbn in A; rewrite ?A; cbn; try lia; by destruct (0 <=? _); cbn; lia.
  - intros E. by rewrite E in A.
  - unfold owned in B. apply NoDup_app in B as (_ & _ & B). by apply NoDup_app in B as (_ & _ & B).
  - intros pid Hin. assert (is_Some (children s !! pid)) as [c Hc] by (apply C; unfold owned; set_solver).
    assert (0 < pid) by (rewrite Forall_forall in P; apply P; unfold owned; set_solver).
    unfold waitpid. rewrite Hc. destruct (c_at c); cbn; lia.
  - intros pid c Hc. assert (Hin : pid ∈ owned s) by (apply C; by eexists). unfold owned in Hin. set_solver.
  - intros pid c Hc Hb. specialize (D pid c Hc). unfold child_ok in D. destruct (c_at c); naive_solver.
  - intros pid c st Hc E. specialize (D pid c Hc). unfold child_ok in D. rewrite E in D. naive_solver.
Qed.

(** ** No zombie stays *)

Definition is_zombie (c : child) : bool := match c_at c with Zombie _ => true | _ => false end.

(** A round of some waiting thread. *)
Definition thread_step (s s' : whs) : Prop :=
  running s /\ exists i, (i < length (waiters s))%nat /\ s' = lcs_whs_thread_wait s i.

Lemma thread_step_wstep s s' : thread_step s s' -> wstep s s'.
Proof. intros (Hr & i & Hi & ->). by constructor. Qed.

Lemma reap_one s pid c :
  whs_ok s -> running s -> pid ∈ waiters s -> children s !! pid = Some c -> is_zombie c = true ->
  exists s', thread_step s s' /\ parent_at s' = parent_at s /\ children s' = delete pid (children s) /\
    (forall q, q ∈ waiters s' <-> q ∈ waiters s /\ q <> pid).
Proof.
  intros Hok Hr Hin Hc Hz. apply list_elem_of_lookup in Hin as [i Hi].
  exists (lcs_whs_thread_wait s i). split; [split; [done|]; exists i; split; [by eapply lookup_lt_Some|done]|].
  unfold lcs_whs_thread_wait, waitpid. rewrite Hi, Hc. unfold is_zombie in Hz. destruct (c_at c); try done.
  assert (Hpos : 0 < pid).
  { pose proof (ok_pids _ Hok) as HP. rewrite Forall_forall in HP. apply HP. unfold owned.
    apply elem_of_app; right. apply elem_of_app; right. by eapply list_elem_of_lookup_2. }
  rewrite (proj2 (Z.eqb_neq pid 0)) by lia. cbn. split_and!; [done|done|].
  intros q. pose proof (ok_nodup _ Hok) as HN. unfold owned in HN.
  apply NoDup_app in HN as (_ & _ & HN). apply NoDup_app in HN as (_ & _ & HN). 
  pose proof (delete_Permutation (waiters s) i pid Hi) as Hp. rewrite Hp in HN. apply NoDup_cons in HN as [Hn _].
  pose proof (elem_of_Permutation_proper q _ _ Hp) as Hq. cbn in Hq. rewrite Hq, elem_of_cons. naive_solver.
Qed.

(** C24: Every process is waited for: from every reachable state in which the server runs, rounds
    of the waiting threads alone lead to a state in which of the processes that have ended none
    is left that had a thread, while those that run, and where the loop is, are as they were. *)
Theorem zombies_reaped s :
  whs_reachable s -> running s ->
  exists s', rtc thread_step s s' /\ parent_at s' = parent_at s /\
    forall pid c, children s' !! pid = Some c <->
      children s !! pid = Some c /\ (is_zombie c = true -> pid ∉ waiters s).
Proof.
  intros Hok%whs_ok_reachable. remember (size (children s)) as n eqn:Hn. revert s Hok Hn.
  induction (lt_wf n) as [n _ IH]. intros s Hok Hn Hr.
  destruct (decide (Exists (fun pid => (is_zombie <$> children s !! pid) = Some true) (waiters s))) as [He|He].
  2:{ exists s. split; [done|]. split; [done|]. intros pid c. split; [|by intros [? _]]. intros Hc. split; [done|].
      intros Hz Hin. apply He, Exists_exists. exists pid. split; [done|]. by rewrite Hc; cbn; rewrite Hz. }
  apply Exists_exists in He as (pid & Hin & Hz). destruct (children s !! pid) as [c|] eqn:Hc; [|done].
  cbn in Hz. injection Hz as Hz.
  destruct (reap_one s pid c Hok Hr Hin Hc Hz) as (s1 & Hst & Hp & Hk & Hw).
  destruct (IH (size (children s1))) with (s := s1) as (s' & Hrtc & Hp' & Hc'); [|by eapply whs_ok_step, thread_step_wstep|done| |].
  { subst n. rewrite Hk, map_size_delete_Some by (by eexists). 
    assert (size (children s) <> 0%nat) by (apply map_size_non_empty_iff; intros E; by rewrite E in Hc). lia. }
  { unfold running. by rewrite Hp. }
  exists s'. split; [by eapply rtc_l|]. split; [congruence|]. intros q d. rewrite Hc', Hk.
  destruct (decide (q = pid)) as [->|Hq].
  - rewrite lookup_delete_eq. split; [by intros [? _]|]. intros [E Hnz]. assert (d = c) as -> by congruence.
    by destruct (Hnz Hz).
  - rewrite lookup_delete_ne by done. rewrite Hw. naive_solver.
Qed.

(** One [fork] that fails ends the service: when the listening process has left its loop, its
    result is that of a failure, nobody is accepted any more, whatever happens, and no further
    process is waited for. *)
Theorem whs_gives_up s s' code :
  whs_reachable s -> parent_at s = Finished code -> rtc wstep s s' ->
  code = 1 /\ parent_at s' = Finished code /\
  (forall pid, is_Some (children s' !! pid) <-> is_Some (children s !! pid)) /\ waiters s' = waiters s.
Proof.
  intros Hok%whs_ok_reachable Hp Hs.
  split; [pose proof (ok_socks _ Hok) as Hd; rewrite Hp in Hd; by destruct Hd|].
  clear Hok. induction Hs as [s|s s1 s2 Hst _ IH]; [done|].
  assert (parent_at s1 = Finished code /\ (forall pid, is_Some (children s1 !! pid) <-> is_Some (children s !! pid)) /\ waiters s1 = waiters s) as (Hp1 & Hk1 & Hw1).
  { destruct Hst as [? ? E| |? ? ? E|? ? E|? ? ? E|? ? ? E|s0 q c c' Hc Hcs|s0 i Hr]; try congruence.
    - cbn. split; [done|]. split; [|done]. intros pid. destruct (decide (pid = q)) as [->|Hq].
      + rewrite lookup_insert_eq, Hc. split; by eexists.
      + by rewrite lookup_insert_ne.
    - unfold running in Hr. by rewrite Hp in Hr. }
  destruct (IH Hp1) as (A & B & C). split; [done|]. split; [|congruence]. intros pid. by rewrite B.
Qed.

End Listener.

(** ** A concrete run *)

(** A client connects while the key file is missing: its process ends with an error, and is
    waited for. *)
Module Run.
#[local] Instance w : World := toy_world [] None None None.
Definition info : cfg := assign (cleared whs_members) "privatekey" (str "key.pem").
Definition s1 : whs := parent_to whs_start (Forking 4) [4].
Definition c0 : child := {| c_sock := 4; c_listens := true; c_open := true; c_at := Begun |}.
Definition s2 : whs := with_child (parent_to s1 (Closing 4 100) [4]) 100 c0.
Definition s3 : whs := parent_to s2 (Watching 100) [].
Definition s4 : whs := lcs_whs_parent_wait true s3 100.
Definition c1 : child := stop_listening c0.
Definition c2 : child := child_to c1 (Lingering 330).
Definition c3 : child := hang_up c2 330.
Definition c4 : child := child_to c3 (Zombie (Exit 1)).
Definition ended : whs := with_child (with_child (with_child (with_child s4 100 c1) 100 c2) 100 c3) 100 c4.

Lemma reach_ended : whs_reachable 1 (zeros 507) info ended.
Proof.
  unfold whs_reachable. apply rtc_l with s1; [apply W_accept; [done|lia|set_solver]|].
  apply rtc_l with s2; [by apply (W_fork _ _ _ s1 4 100)|].
  apply rtc_l with s3; [by apply (W_close _ _ _ s2 4 100)|].
  apply rtc_l with s4; [by apply (W_watch _ _ _ s3 100 true)|].
  apply rtc_l with (with_child s4 100 c1); [apply (W_child _ _ _ s4 100 c0 c1); [done|by constructor]|].
  apply rtc_l with (with_child (with_child s4 100 c1) 100 c2).
  { apply (W_child _ _ _ _ 100 c1 c2); [done|]. by apply (C_serve _ _ _ c1 0 [] 330 []). }
  apply rtc_l with (with_child (with_child (with_child s4 100 c1) 100 c2) 100 c3).
  { apply (W_child _ _ _ _ 100 c2 c3); [done|]. by apply C_close. }
  apply rtc_once, (W_child _ _ _ _ 100 c3 c4); [done|]. by apply (C_exit _ _ _ c3 330).
Qed.

Lemma whs_house_witness : (waitpid ended 100).1 <> -1 /\ sockets ended = [].
Proof.
  destruct (whs_house 1 (zeros 507) info ended reach_ended) as (_ & Hs & _ & Hw & _). split.
  - apply Hw. vm_compute. left.
  - by apply Hs.
Defined.

Lemma zombies_reaped_witness :
  exists s', rtc thread_step ended s' /\ children s' !! 100 = None.
Proof.
  destruct (zombies_reaped 1 (zeros 507) info ended reach_ended I) as (s' & Hs & _ & Hc).
  exists s'. split; [exact Hs|]. destruct (children s' !! 100) as [c|] eqn:E; [|reflexivity].
  apply Hc in E as [E Hn]. exfalso. apply Hn.
  - vm_compute in E. injection E as <-. reflexivity.
  - vm_compute. left.
Defined.

Definition given_up : whs := parent_to s1 (Finished 1) [4].
Lemma whs_gives_up_witness : 1 = 1 /\ parent_at given_up = Finished 1.
Proof.
  destruct (whs_gives_up 1 (zeros 507) info given_up given_up 1) as (_ & H & _).
  - apply rtc_l with s1; [apply W_accept; [done|lia|set_solver]|]. apply rtc_once. by apply (W_fork_fails _ _ _ s1 4).
  - reflexivity.
  - apply rtc_refl.
  - split; [reflexivity|exact H].
Defined.
End Run.
