(* ===== verification/WhClient.v ===== *)
(** * The client of the warehouse

    Models src/cluster/odbc/main.c, which fetches one report from the warehouse server
    (WhServer.v): it makes a session key, sends it under the public key of the server, waits
    for the greeting, asks for the analysis of a server, database and period, and writes what
    arrives to a file.  The size the server sends first is compared with what arrived. *)
From S2P Require Import Prelude CString OpenSSL World Config TripleDes.
From S2P Require Import ToyWorld WhServer.

(** ** Definitions *)

(** [LCS_WHSEVER_CFG] of the client *)
Definition client_members : list (string * Z) :=
  [("serverip", 64); ("serverport", 12); ("dbserver", 64); ("dbname", 64); ("dbuser", 64);
   ("dbpass", 64); ("datefrom", 32); ("dateto", 32); ("analysis", 32); ("mode", 32);
   ("filepath", 512); ("publickey", 512)]%string.

(** [DES_random_key]: the block drawn in one of the three calls. *)
Class DESRandom := DES_random_key : trace -> nat -> list byte.

Section Client.
Context `{World} `{DESLib} `{RSALib} `{DESRandom}.

(** ** Configuration *)

Definition client_cfg_table : list entry :=
  [copy_to "serverip" "serverip_0001:"; copy_to "serverport" "serverport_0001:";
   copy_to "dbserver" "dbserver_0002:"; copy_to "dbname" "dbname_0002:"; copy_to "dbuser" "dbuser_0002:";
   copy_to "dbpass" "dbpass_0002:"; copy_to "datefrom" "datefrom_0003:"; copy_to "dateto" "dateto_0004:";
   copy_to "analysis" "analysis_0005:"; copy_to "mode" "mode_0006:"; copy_to "filepath" "filepath_0007:";
   copy_to "publickey" "publickey_0008:"].

(** [while(tmp[len - i - 1] == '\n' || ...) i++;]: the characters of the line from its end on.  A
    line of nothing else is left to the front. *)
Fixpoint strip_end (r : list byte) : res (list byte) :=
  match r with
  | [] => Fault OobRead
  | b :: r' => if (b2z b =? 10) || (b2z b =? 13) then strip_end r' else Ok (b :: r')
  end.
(** [while(fgets(tmp, 2048, fp))] *)
Fixpoint client_lines (fuel : nat) (rest : list byte) (info : cfg) : io cfg :=
  match fuel with
  | O => lift (Fault NoFuel)
  | S fuel =>
    let '(tmp, rest) := fgets 2047 rest in
    match tmp with
    | [] => mret info
    | _ =>
      r ← lift (strip_end (reverse (upto0 tmp)));
      info ← cfg_item client_cfg_table info (reverse r);
      client_lines fuel rest info
    end
  end.
Definition client_load (path : list byte) (info : cfg) (err : Z) : io (cfg * Z) :=
  fp ← ask (fun tr => fopen_r tr path);
  match fp with
  | None => mret (info, err)
  | Some fp =>
    info ← client_lines (S (length (f_bytes fp))) (f_bytes fp) info;
    mret (info, err)
  end.

(** ** The session key *)

Definition lcs_3des_gen : io (list byte) :=
  ask (fun tr => DES_random_key tr 0 ++ DES_random_key tr 1 ++ DES_random_key tr 2).

(** [buf] has 32 bytes; what is sent has the length the encryption reports, an [unsigned
    short]. *)
Definition lcs_odbc_3des (info : cfg) (err : Z) : io (list byte * Z) :=
  key ← lcs_3des_gen;
  pubkey ← lift (text_of info "publickey");
  '(rsa, err) ← lcs_get_public_key pubkey err;
  match rsa with
  | None => mret (key, 332)
  | Some rsa =>
    buf ← lift (wr (zeros 32) 1 (le_bytes 2 24) ≫= fun b => wr b 3 key);
    '(encrypt, length) ← lift (lcs_rsa_encrypt rsa buf 27);
    data ← lift (rd encrypt 0 length);
    n ← ask (fun tr => send tr data);
    _ ← emit (EvSend data);
    if negb (n =? length) then mret (key, 345) else mret (key, err)
  end.

(** ** Messages *)

Definition lcs_odbc_recv_ready (fuel : nat) (key behind : list byte) (err : Z) : io Z :=
  '(r, err) ← lcs_3des_recv fuel key behind {| r_mode := 0; r_data := None; r_len := 0 |} err;
  if negb (err =? 0) then mret err
  else
    match r_data r with
    | None => mret err
    | Some data =>
      s ← lift (cstr data);
      if strcmp s LCS_WHS_READY =? 0 then mret err else mret 409
    end.

Definition request_text (p : cfg) : res (list byte) :=
  server ← text_of p "dbserver";
  db ← text_of p "dbname";
  from ← text_of p "datefrom";
  to ← text_of p "dateto";
  analysis ← text_of p "analysis";
  mode ← text_of p "mode";
  fits 1024 (LCS_WHS_REQUEST ++ str ":" ++ server ++ [x09] ++ db ++ [x09] ++ from ++ [x09] ++ to ++ [x09] ++
             analysis ++ [x09] ++ mode).
Definition lcs_odbc_send_request (key : list byte) (p : cfg) (err : Z) : io Z :=
  msg ← lift (request_text p);
  lcs_3des_send key LCS_RSA_3DES_OVER (msg ++ [x00]) (zlen msg + 1) err.

(** ** The file *)

(** The 1024 bytes deciphered from an array of 1029, in one of 1029. *)
Definition decipher (key got : list byte) : list byte :=
  DES_cbc_inv key cblock0 (take (Z.to_nat LCS_RSA_3DES_BUF_HIH) (got ++ zeros (LCS_RSA_3DES_BUF_HIH + 5 - zlen got)))
  ++ zeros 5.

(** The loop: what arrived, as a number of bytes and as text, and the size that was announced. *)
Record fetched := { f_total : Z; f_checksum : Z; f_text : list byte }.
Definition with_data (f : fetched) (n : Z) (d : list byte) : fetched :=
  {| f_total := wrap 32 (f_total f + n); f_checksum := f_checksum f; f_text := f_text f ++ d |}.
Definition with_checksum (f : fetched) (c : Z) : fetched :=
  {| f_total := f_total f; f_checksum := c; f_text := f_text f |}.
Fixpoint recv_parts (fuel : nat) (key : list byte) (f : fetched) : io fetched :=
  match fuel with
  | O => lift (Fault NoFuel)
  | S fuel =>
    got ← ask (fun tr => recv tr LCS_RSA_3DES_BUF_LOW);
    _ ← emit EvRecv;
    match got with
    | None | Some [] => mret f
    | Some got =>
      let seg := decipher key got in
      m ← lift (rd1 seg 0);
      let cmod := b2z m in
      if cmod =? LCS_RSA_3DES_DATA then
        l ← lift (rd seg 1 2);
        d ← lift (rd seg 3 (le_val l));
        recv_parts fuel key (with_data f (le_val l) d)
      else if cmod =? LCS_RSA_3DES_CHECKSUM then
        s ← lift (cstr (drop 3 seg));
        recv_parts fuel key (with_checksum f (default (f_checksum f) (scan_lu s)))
      else if (cmod =? LCS_RSA_3DES_OVER) || (cmod =? LCS_RSA_3DES_OFF) then mret f
      else recv_parts fuel key f
    end
  end.
(** A file that cannot be opened is no error: nothing was announced and nothing arrived. *)
Definition lcs_odbc_recv_file (fuel : nat) (key path : list byte) (err : Z) : io Z :=
  ok ← ask (fun tr => fopen_w tr path);
  if negb ok then mret err
  else if negb (keys_ok key) then _ ← emit (EvWrite path []); mret 455
  else
    f ← recv_parts fuel key {| f_total := 0; f_checksum := 0; f_text := [] |};
    _ ← emit (EvWrite path (f_text f));
    mret (if f_checksum f =? f_total f then err else 507).

(** ** A connection *)

Definition lcs_odbc_transaction (fuel fuel' : nat) (key behind : list byte) (info : cfg) (err : Z) : io Z :=
  err ← lcs_odbc_recv_ready fuel key behind err;
  if negb (err =? 0) then mret err
  else
    err ← lcs_odbc_send_request key info err;
    if negb (err =? 0) then mret err
    else
      path ← lift (text_of info "filepath");
      lcs_odbc_recv_file fuel' key path err.
(** [opt] is the result of [setsockopt]. *)
Definition client_connected (fuel fuel' : nat) (behind : list byte) (info : cfg) (opt : Z) : io Z :=
  '(key, err) ← lcs_odbc_3des info opt;
  if negb (err =? 0) then mret err else lcs_odbc_transaction fuel fuel' key behind info err.
(** [sock] and [conn] are the results of [socket] and [connect]. *)
Definition client_main (fuel fuel' : nat) (behind path : list byte) (sock conn opt : Z) : io Z :=
  '(info, _) ← client_load path (cleared client_members) 0;
  err ← (if sock <? 0 then mret 269
         else if negb (conn =? 0) then mret 279
         else client_connected fuel fuel' behind info opt);
  mret (if err =? 0 then 0 else 1).
End Client.
