(* ===== verification/SharedTables.v ===== *)
(** * Tables in shared memory

    Models src/cluster/shmcreate/main.c and src/cluster/shmcreate_audd/main.c, which load the
    agents and the customers to be called from a database into segments of shared memory,
    src/cluster/shmunlink/main.c, and the searches in these tables of the counting programs
    (src/cluster/A_000008_05m/a_000008.c).

    A table is an array of [n + 1] slots: slot [k] holds the record of row [k] and, as a hash
    table, the numbers of up to four (agents) or two (customers) rows whose hash is [k].
    There is no further chaining: the numbers of later rows are not kept, so that their
    records are stored but cannot be found. *)
From S2P Require Import Prelude CString OpenSSL World ToyWorld Config.
From S2P Require Import GenList Directories.

(** ** Records *)

(** A record: its arrays of characters and its numbers. *)
Record record := { chars : cfg; nums : gmap string Z }.
Definition num_of (r : record) (f : string) : Z := default 0 (nums r !! f).

Definition lcs_mmap_agents : list (string * Z) :=
  [("agent_number", 40); ("vcontext", 255); ("agent_status", 7); ("current_dnd", 255);
   ("email", 255); ("extension", 255); ("name", 40); ("password", 40); ("phone_number", 255);
   ("f1_code", 255); ("fixed_extension", 255); ("customer_name", 255)]%string.
Definition lcs_mmap_auto_dial_detail : list (string * Z) :=
  [("phone_type", 8); ("customer_id", 16); ("application_id", 32); ("note", 255);
   ("phone_number", 25)]%string.
Definition record_cleared (members : list (string * Z)) : record :=
  {| chars := cleared members; nums := ∅ |}.

(** [strcat] to an array, [sscanf] with ["%lu"], ["%u"] or ["%hu"] into a number of so many
    bits, and with ["%c"]. *)
Inductive column := Chars (f : string) | Num (f : string) (w : Z) | Char1 (f : string).

Definition set_col (r : record) (c : column) (s : list byte) : res record :=
  match c with
  | Chars f => m ← strcat (member (chars r) f) s; Ok {| chars := <[f := m]> (chars r); nums := nums r |}
  | Num f w =>
    Ok (match scan_lu s with
        | Some v => {| chars := chars r; nums := <[f := wrap w v]> (nums r) |}
        | None => r
        end)
  | Char1 f =>
    Ok (match s with
        | b :: _ => {| chars := chars r; nums := <[f := b2z b]> (nums r) |}
        | [] => r
        end)
  end.

(** Column [i] of a row of a result. *)
Definition col (val : row) (i : nat) : res (list byte) :=
  match val !! i with
  | None => Fault OobRead
  | Some None => Fault NullDeref
  | Some (Some s) => Ok s
  end.
(** The columns from [i] on. *)
Fixpoint set_cols (cs : list column) (i : nat) (val : row) (r : record) : res record :=
  match cs with
  | [] => Ok r
  | c :: cs => s ← col val i; r ← set_col r c s; set_cols cs (S i) val r
  end.

(** ** Slots *)

(** [LCS_AGENTS_SHARED_AH] and [LCS_AUDD_SHARED_AUH]: a record and the array [h]. *)
Definition slot : Type := record * list Z.
Definition LCS_AGENTS_HASH_ARR_N : nat := 4.
Definition LCS_AUDD_HASH_ARR_N : nat := 2.

(** [LCS_AGENTS_SHARED] and [LCS_AUDD_GROUP]: the number of rows, the number of rows stored,
    the slots. *)
Record group := { g_n : Z; g_i : Z; g_slots : list slot }.

Definition slot_at (d : list slot) (k : Z) : res slot :=
  if k <? 0 then Fault OobRead
  else match d !! Z.to_nat k with Some s => Ok s | None => Fault OobRead end.
Definition set_slot (d : list slot) (k : Z) (s : slot) : res (list slot) :=
  if (0 <=? k) && (k <? zlen d) then Ok (<[Z.to_nat k := s]> d) else Fault OobWrite.

(** [while(t < N)]: the first free element takes the number. *)
Fixpoint chain_put (h : list Z) (k : Z) : list Z :=
  match h with
  | [] => []
  | x :: h => if x <? 0 then k :: h else x :: chain_put h k
  end.
Definition link (d : list slot) (index k : Z) : res (list slot) :=
  '(a, h) ← slot_at d index; set_slot d index (a, chain_put h k).
Definition update (d : list slot) (k : Z) (f : record -> res record) : res (list slot) :=
  '(a, h) ← slot_at d k; a ← f a; set_slot d k (a, h).

(** ** Writing a row *)

Definition agent_columns : list column :=
  [Chars "agent_number"; Chars "vcontext"; Chars "agent_status"; Chars "current_dnd";
   Chars "email"; Chars "extension"; Char1 "is_allow_mapping"; Char1 "is_enable";
   Char1 "is_inbound"; Num "last_history_id" 64; Chars "name"; Chars "password";
   Chars "phone_number"; Num "priority" 32; Num "queue_id" 32; Chars "f1_code";
   Chars "fixed_extension"; Chars "customer_name"].
Definition lcs_shm_write (obj : group) (val : row) : res group :=
  let k := g_i obj in
  d ← update (g_slots obj) k (set_cols [Num "id" 64; Num "version" 64] 0 val);
  number ← col val 2;
  index ← lcs_comm_hash number 0 (g_n obj);
  d ← link d index k;
  d ← update d k (set_cols agent_columns 2 val);
  Ok {| g_n := g_n obj; g_i := k + 1; g_slots := d |}.

(** [val%sz] of an [unsigned long long] and an [int]. *)
Definition lcs_comm_hash_audd (val sz : Z) : res Z :=
  if sz =? 0 then Fault DivByZero else Ok (val mod wrap 64 sz).

Definition audd_columns : list column :=
  [Chars "phone_type"; Num "skill" 16; Chars "customer_id"; Chars "application_id";
   Chars "note"; Chars "phone_number"].
Definition lcs_audd_shmwrite (p : group) (val : row) : res group :=
  let k := g_i p in
  d ← update (g_slots p) k (set_cols [Num "id" 64] 0 val);
  '(a, _) ← slot_at d k;
  h ← lcs_comm_hash_audd (num_of a "id") (g_n p);
  d ← link d (as_int h) k;
  d ← update d k (set_cols audd_columns 1 val);
  Ok {| g_n := g_n p; g_i := k + 1; g_slots := d |}.

(** The callback of [select count( * )]. *)
Definition lcs_agents_count (n : Z) (val : row) : res Z :=
  s ← col val 0; Ok (match scan_d s with Some v => as_int v | None => n end).

(** ** Segments *)

(** What a name of shared memory stands for. *)
Inductive segment :=
| NumSegment (n i : Z)                 (** [LCS_AGENTS_SHARED], [LCS_AUDD_SHARED] *)
| SlotSegment (slots : list slot).     (** the array of slots *)
Definition segments := list (list byte * segment).
Fixpoint segment_at (st : segments) (key : list byte) : option segment :=
  match st with
  | [] => None
  | (k, s) :: st => if decide (k = key) then Some s else segment_at st key
  end.

Definition SZ_AGENTS_SHARED_AH : Z := 2224.
Definition SZ_AUDD_SHARED_AUH : Z := 360.
Definition SZ_AGENTS_SHARED : Z := 16.
Definition SZ_AUDD_SHARED : Z := 8.

(** [sz = (n + 1) * sizeof(...)] as an [int]. *)
Definition slots_size (n size : Z) : res Z :=
  if n + 1 <? 2 ^ 31 then Ok (as_int ((n + 1) * size)) else Fault IntOverflow.

(** The slots in [sz] bytes of zeros, and the loop that fills their arrays [h] with -1. *)
Definition fresh_slots (members : list (string * Z)) (N : nat) (n sz size : Z) : res (list slot) :=
  let cap := sz / size in
  if cap <? n then Fault OobWrite
  else Ok (map (fun k => (record_cleared members, replicate N (if Z.of_nat k <? n then -1 else 0)))
               (seq 0 (Z.to_nat cap))).

Section Load.
Context `{World}.

Definition members : list (string * Z) := [("dbpath", 1024); ("prefixshmkey", 128)]%string.
Definition lcs_cfg_table : list entry :=
  [copy_to "dbpath" "dbpath_0001:"; copy_to "prefixshmkey" "prefixshmkey_0002:"].
Definition lcs_cfg_load (path : list byte) (info : cfg) (err : Z) : io (cfg * Z) :=
  cfg_load lcs_cfg_table path info err.

(** Whether a segment was created: one that exists already is left alone and not used.  The
    mapping of a size that is not positive fails, and [memset] follows its result. *)
Definition lcs_create_shm (line : Z) (st : segments) (key : list byte) (sz err : Z)
    : io (bool * Z) :=
  match segment_at st key with
  | Some _ => mret (false, err)
  | None =>
    ok ← ask (fun tr => shm_create tr key);
    if negb ok then _ ← emit (EvShmUnlink key); mret (false, line)
    else if sz <=? 0 then lift (Fault OobWrite)
    else _ ← emit (EvShmCreate key sz); mret (true, err)
  end.

(** [sqlite3_exec] with a callback that never stops it, which gets the rows one by one, and
    without one. *)
Fixpoint each {A} (cb : A -> row -> res A) (a : A) (rows : list row) : res A :=
  match rows with [] => Ok a | r :: rows => a ← cb a r; each cb a rows end.
Definition exec_cb {A} (sql : list byte) (cb : A -> row -> res A) (a : A) : io (A * Z) :=
  '(e, rows) ← ask (fun tr => sqlite_exec tr sql);
  _ ← emit (EvSqlExec sql);
  a ← lift (each cb a rows);
  mret (a, e).
Definition exec (sql : list byte) : io Z :=
  e ← ask (fun tr => (sqlite_exec tr sql).1); _ ← emit (EvSqlExec sql); mret e.

(** The loaders of both programs between [sqlite3_open] and [sqlite3_close], of which only
    the names, sizes, queries and lines differ: [opened] is the error code when the database
    could not be opened. *)
Definition lcs_shm_load (info : cfg) (db : list byte) (st : segments) : io (segments * Z) :=
  e ← ask (fun tr => (sqlite_open tr db).1);
  _ ← emit (EvSqlOpen db);
  if negb (e =? 0) then mret (st, e)
  else
    e ← exec (str "BEGIN TRANSACTION");
    if negb (e =? 0) then mret (st, 164)
    else
      '(n, e) ← exec_cb (str "select count(*) from agents where is_enable='true';")
                        lcs_agents_count 0;
      if negb (e =? 0) then mret (st, 173)
      else if n =? 0 then mret (st, 178)
      else
        prefix ← lift (text_of info "prefixshmkey");
        numkey ← lift (fits 256 (prefix ++ str ".agent.num"));
        '(ok, e) ← lcs_create_shm 354 st numkey SZ_AGENTS_SHARED 0;
        if negb ok then mret (st, 189)
        else
          let st := (numkey, NumSegment n 0) :: st in
          sz ← lift (slots_size n SZ_AGENTS_SHARED_AH);
          datakey ← lift (fits 256 (prefix ++ str ".agent.data"));
          '(ok, e) ← lcs_create_shm 354 st datakey sz e;
          if negb ok then mret (st, 202)
          else
            d ← lift (fresh_slots lcs_mmap_agents LCS_AGENTS_HASH_ARR_N n sz SZ_AGENTS_SHARED_AH);
            '(g, e) ← exec_cb (str "select * from agents where is_enable='true';") lcs_shm_write
                              {| g_n := n; g_i := 0; g_slots := d |};
            let st := (numkey, NumSegment n (g_i g)) :: (datakey, SlotSegment (g_slots g)) :: st in
            if negb (e =? 0) then mret (st, 219)
            else
              e ← exec (str "END TRANSACTION");
              if negb (e =? 0) then mret (st, 225) else mret (st, 0).

(** [lcs_audd_shmload]: a data segment that exists already is followed as a null
    pointer, since [count( * )] is not negative. *)
Definition lcs_audd_shmload (info : cfg) (db : list byte) (st : segments) : io (segments * Z) :=
  e ← ask (fun tr => (sqlite_open tr db).1);
  _ ← emit (EvSqlOpen db);
  if negb (e =? 0) then mret (st, 172)
  else
    e ← exec (str "BEGIN TRANSACTION");
    if negb (e =? 0) then mret (st, 178)
    else
      '(n, e) ← exec_cb (str "select count(*) from auto_dial_detail;") lcs_agents_count 0;
      if negb (e =? 0) then mret (st, 185)
      else if n =? 0 then mret (st, 190)
      else
        prefix ← lift (text_of info "prefixshmkey");
        numkey ← lift (fits 256 (prefix ++ str ".audd.num"));
        '(ok, e) ← lcs_create_shm 1 st numkey SZ_AUDD_SHARED 0;
        if negb ok then mret (st, 201)
        else
          let st := (numkey, NumSegment n 0) :: st in
          sz ← lift (slots_size n SZ_AUDD_SHARED_AUH);
          datakey ← lift (fits 256 (prefix ++ str ".audd.data"));
          '(ok, e) ← lcs_create_shm 1 st datakey sz e;
          if negb ok then lift (Fault NullDeref)
          else
            d ← lift (fresh_slots lcs_mmap_auto_dial_detail LCS_AUDD_HASH_ARR_N n sz SZ_AUDD_SHARED_AUH);
            '(g, e) ← exec_cb
              (str "select id, phone_type, skill, customer_id, application_id, note, phone_number from auto_dial_detail;")
              lcs_audd_shmwrite {| g_n := n; g_i := 0; g_slots := d |};
            let st := (numkey, NumSegment n (g_i g)) :: (datakey, SlotSegment (g_slots g)) :: st in
            if negb (e =? 0) then mret (st, 227)
            else
              e ← exec (str "END TRANSACTION");
              if negb (e =? 0) then mret (st, 234) else mret (st, 0).

(** [lcs_shm_start] and [lcs_audd_start]. *)
Definition lcs_shm_start (info : cfg) (st : segments) : io (segments * Z) :=
  dbpath ← lift (text_of info "dbpath");
  db ← lift (fits 1024 (dbpath ++ str "/lcs.db"));
  exist ← lcs_comm_filexist db;
  if negb exist then mret (st, 135) else lcs_shm_load info db st.
Definition lcs_audd_start (info : cfg) (st : segments) : io (segments * Z) :=
  dbpath ← lift (text_of info "dbpath");
  db ← lift (fits 1024 (dbpath ++ str "/lcs.db"));
  exist ← lcs_comm_filexist db;
  if negb exist then mret (st, 148) else lcs_audd_shmload info db st.

(** [main] of the three programs: whether it ends with [EXIT_SUCCESS]. *)
Definition shmcreate_main (path : list byte) (st : segments) : io (segments * bool) :=
  '(info, _) ← lcs_cfg_load path (cleared members) 0;
  '(st, err) ← lcs_shm_start info st; mret (st, err =? 0).
Definition shmcreate_audd_main (path : list byte) (st : segments) : io (segments * bool) :=
  '(info, _) ← lcs_cfg_load path (cleared members) 0;
  '(st, err) ← lcs_audd_start info st; mret (st, err =? 0).
Definition shmunlink_main (key : list byte) (st : segments) : io (segments * bool) :=
  _ ← emit (EvShmUnlink key);
  mret (List.filter (fun s => negb (bool_decide (s.1 = key))) st, true).

End Load.

(** ** Searching *)

(** [while(t < N)]: the first record of the chain that is the one looked for. *)
Fixpoint chain_find (found : record -> res bool) (d : list slot) (h : list Z)
    : res (option record) :=
  match h with
  | [] => Ok None
  | x :: h =>
    if x <? 0 then Ok None
    else
      '(a, _) ← slot_at d x;
      b ← found a;
      if b : bool then Ok (Some a) else chain_find found d h
  end.
(** The customer with the number [u], and the agent with the number of that text. *)
Definition find_audd (n : Z) (d : list slot) (u : Z) : res (option record) :=
  h ← lcs_comm_hash_audd u n;
  if -1 <? as_int h then
    '(_, arr) ← slot_at d (as_int h);
    chain_find (fun a => Ok (u =? num_of a "id")) d arr
  else Ok None.
Definition find_agent (n : Z) (d : list slot) (number : list byte) : res (option record) :=
  h ← lcs_comm_hash number (-1) n;
  if -1 <? h then
    '(_, arr) ← slot_at d h;
    chain_find (fun a => s ← text_of (chars a) "agent_number"; Ok (strcmp s number =? 0)) d arr
  else Ok None.

(** ** Chains *)

(** The numbers of the rows whose hash is [b], those from [k] on. *)
Fixpoint bucket (k : Z) (hs : list Z) (b : Z) : list Z :=
  match hs with
  | [] => []
  | h :: hs => (if h =? b then [k] else []) ++ bucket (k + 1) hs b
  end.
(** The array [h] when these numbers were put: the first [N], then -1. *)
Definition padded (N : nat) (l : list Z) : list Z := take N l ++ replicate (N - length l) (-1).

Lemma bucket_snoc k hs h b :
  bucket k (hs ++ [h]) b = bucket k hs b ++ (if h =? b then [k + zlen hs] else []).
Proof.
  revert k. induction hs as [|x hs IH]; intros k; cbn [bucket app].
  - change (zlen []) with 0. rewrite app_nil_r. by rewrite Z.add_0_r.
  - rewrite IH, zlen_cons, <- app_assoc. by replace (k + 1 + zlen hs) with (k + (1 + zlen hs)) by lia.
Qed.

Lemma bucket_range k hs b : Forall (fun x => k <= x < k + zlen hs) (bucket k hs b).
Proof.
  revert k. induction hs as [|x hs IH]; intros k; cbn [bucket]; [constructor|].
  rewrite zlen_cons. pose proof (zlen_nonneg hs). apply Forall_app. split.
  - destruct (x =? b); repeat constructor; lia.
  - eapply Forall_impl; [apply IH|]. cbn. lia.
Qed.

Lemma chain_put_padded N l k :
  Forall (fun x => 0 <= x) l -> chain_put (padded N l) k = padded N (l ++ [k]).
Proof.
  intros Hl. revert N. induction Hl as [|x l Hx Hl IH]; intros [|N]; try done.
  - unfold padded. cbn [take app length Nat.sub chain_put replicate]. decide_cmp.
    by rewrite Nat.sub_0_r, take_nil.
  - unfold padded in *. cbn [take app length Nat.sub chain_put]. decide_cmp. by rewrite IH.
Qed.

(** ** Tables *)

Section Tables.
Variables (mem : list (string * Z)) (N : nat) (n : Z) (cap : nat).

(** The slots when the records [rs] were stored under the hashes [hs]. *)
Definition nth_record (rs : list record) (k : nat) : record := default (record_cleared mem) (rs !! k).
Definition laid (rs : list record) (hs : list Z) : list slot :=
  map (fun k => (nth_record rs k,
                 if Z.of_nat k <? n then padded N (bucket 0 hs (Z.of_nat k)) else replicate N 0))
      (seq 0 cap).

Lemma laid_length rs hs : zlen (laid rs hs) = Z.of_nat cap.
Proof. unfold laid, zlen. by rewrite length_map, length_seq. Qed.

Lemma laid_lookup rs hs k :
  (k < cap)%nat ->
  laid rs hs !! k = Some (nth_record rs k,
    if Z.of_nat k <? n then padded N (bucket 0 hs (Z.of_nat k)) else replicate N 0).
Proof.
  intros Hk. unfold laid. rewrite list_lookup_fmap, lookup_seq_lt by done. done.
Qed.

Lemma slot_at_laid rs hs k :
  0 <= k < Z.of_nat cap ->
  slot_at (laid rs hs) k = Ok (nth_record rs (Z.to_nat k),
    if k <? n then padded N (bucket 0 hs k) else replicate N 0).
Proof.
  intros Hk. unfold slot_at. decide_cmp. rewrite laid_lookup by lia. by rewrite Z2Nat.id by lia.
Qed.

(** Two layouts that differ in one slot. *)
Lemma laid_insert rs hs rs' hs' k s :
  0 <= k < Z.of_nat cap -> laid rs' hs' !! Z.to_nat k = Some s ->
  (forall j, (j < cap)%nat -> j <> Z.to_nat k -> laid rs hs !! j = laid rs' hs' !! j) ->
  set_slot (laid rs hs) k s = Ok (laid rs' hs').
Proof.
  intros Hk Hs Hj. pose proof (laid_length rs hs) as Hl. pose proof (laid_length rs' hs') as Hl'.
  unfold set_slot. rewrite Hl. decide_cmp. cbn [andb]. f_equal.
  apply list_eq. intros j. destruct (decide (j = Z.to_nat k)) as [->|Hne].
  - rewrite list_lookup_insert_eq; [done|]. unfold zlen in Hl. lia.
  - rewrite list_lookup_insert_ne by done. destruct (decide (j < cap)%nat) as [Hc|Hc]; [by apply Hj|].
    rewrite !(proj2 (lookup_ge_None _ _)); [done|unfold zlen in *; lia|unfold zlen in *; lia].
Qed.

Lemma nth_record_snoc rs r j : j <> length rs -> nth_record (rs ++ [r]) j = nth_record rs j.
Proof.
  intros Hj. unfold nth_record. destruct (decide (j < length rs)%nat) as [Hl|Hl].
  - by rewrite lookup_app_l.
  - rewrite lookup_app_r by lia. rewrite (proj2 (lookup_ge_None rs j)) by lia.
    destruct (j - length rs)%nat eqn:E; [lia|done].
Qed.
Lemma nth_record_last rs r : nth_record (rs ++ [r]) (length rs) = r.
Proof. unfold nth_record. by rewrite list_lookup_middle. Qed.

(** Storing the next record, and changing it. *)
Lemma update_next rs hs f r :
  (length rs < cap)%nat -> f (record_cleared mem) = Ok r ->
  update (laid rs hs) (zlen rs) f = Ok (laid (rs ++ [r]) hs).
Proof.
  intros Hl Hf. unfold update, zlen in *. rewrite slot_at_laid by lia. cbn [mbind res_bind].
  rewrite Nat2Z.id. unfold nth_record at 1. rewrite (proj2 (lookup_ge_None rs _)) by lia.
  cbn [default]. rewrite Hf. cbn [mbind res_bind]. apply laid_insert; rewrite ?Nat2Z.id; [lia| |].
  - rewrite laid_lookup by done. by rewrite nth_record_last.
  - intros j Hj Hne. rewrite !laid_lookup, nth_record_snoc by done. done.
Qed.

Lemma update_last rs hs f r r' :
  (length rs < cap)%nat -> f r = Ok r' ->
  update (laid (rs ++ [r]) hs) (zlen rs) f = Ok (laid (rs ++ [r']) hs).
Proof.
  intros Hl Hf. unfold update, zlen in *. rewrite slot_at_laid by lia. cbn [mbind res_bind].
  rewrite Nat2Z.id, nth_record_last, Hf. cbn [mbind res_bind].
  apply laid_insert; rewrite ?Nat2Z.id; [lia| |].
  - rewrite laid_lookup by done. by rewrite nth_record_last.
  - intros j Hj Hne. rewrite !laid_lookup, !nth_record_snoc by done. done.
Qed.

Lemma link_next rs hs h :
  0 <= h < n -> n <= Z.of_nat cap ->
  link (laid rs hs) h (zlen hs) = Ok (laid rs (hs ++ [h])).
Proof.
  intros Hh Hn. unfold link. rewrite slot_at_laid by lia. cbn [mbind res_bind].
  pose proof (bucket_range 0 hs h) as Hb. decide_cmp.
  rewrite chain_put_padded by (eapply Forall_impl; [exact Hb|]; cbn; lia).
  apply laid_insert; [lia| |].
  - rewrite laid_lookup by lia. rewrite Z2Nat.id by lia. decide_cmp.
    by rewrite bucket_snoc, Z.eqb_refl, Z.add_0_l.
  - intros j Hj Hne. rewrite !laid_lookup by done. do 2 f_equal. rewrite bucket_snoc.
    destruct (h =? Z.of_nat j) eqn:E; [b2p; lia|]. by rewrite app_nil_r.
Qed.

(** ** Finding *)

Lemma bucket_records rs hs b :
  length rs = length hs ->
  map (fun k => nth_record rs (Z.to_nat k)) (bucket 0 hs b)
  = map fst (List.filter (fun p => p.2 =? b) (zip rs hs)).
Proof.
  revert hs. induction rs as [|r rs IH] using rev_ind; intros hs Hl.
  { destruct hs; [done|discriminate]. }
  destruct hs as [|h hs _] using rev_ind; [rewrite length_app in Hl; cbn in Hl; lia|].
  rewrite !length_app in Hl. cbn in Hl. rewrite zip_with_app by lia.
  rewrite List.filter_app, map_app, <- IH by lia. rewrite bucket_snoc, map_app. f_equal.
  - apply map_ext_in. intros k Hk. apply list_elem_of_In in Hk.
    pose proof (bucket_range 0 hs b) as Hb. rewrite Forall_forall in Hb. apply Hb in Hk.
    apply nth_record_snoc. unfold zlen in Hk. lia.
  - cbn [zip_with List.filter snd]. destruct (h =? b); [|done]. cbn [map fst].
    rewrite Z.add_0_l. unfold zlen. rewrite Nat2Z.id.
    replace (length hs) with (length rs) by lia. by rewrite nth_record_last.
Qed.

Lemma chain_find_ok found p rs hs l :
  Forall (fun k => 0 <= k < Z.of_nat cap) l ->
  (forall k, k ∈ l -> found (nth_record rs (Z.to_nat k)) = Ok (p (nth_record rs (Z.to_nat k)))) ->
  chain_find found (laid rs hs) (padded N l)
  = Ok (List.find p (take N (map (fun k => nth_record rs (Z.to_nat k)) l))).
Proof.
  intros Hl Hf0. unfold padded.
  enough (Hall : forall M, chain_find found (laid rs hs) (take M l ++ replicate (M - length l) (-1))
    = Ok (List.find p (take M (map (fun k => nth_record rs (Z.to_nat k)) l)))) by apply Hall.
  intros M. revert M Hf0. induction Hl as [|k l Hk _ IH]; intros M Hf.
  - cbn [map]. rewrite !take_nil. cbn [app]. by destruct (M - length [])%nat.
  - destruct M as [|M]; [done|]. cbn [take app chain_find map List.find length Nat.sub]. decide_cmp.
    rewrite slot_at_laid by done. cbn [mbind res_bind]. rewrite Hf by (left; done).
    cbn [mbind res_bind]. destruct (p _); [done|]. apply IH. intros j Hj. apply Hf. by right.
Qed.

(** What is found in the chain of a hash. *)
Lemma search_ok found p rs hs b :
  length rs = length hs -> 0 <= b < n -> n <= Z.of_nat cap -> (length rs <= cap)%nat ->
  (forall r, r ∈ rs -> found r = Ok (p r)) ->
  ('(_, arr) ← slot_at (laid rs hs) b; chain_find found (laid rs hs) arr)
  = Ok (List.find p (take N (map fst (List.filter (fun q => q.2 =? b) (zip rs hs))))).
Proof.
  intros Hl Hb Hn Hc Hf. rewrite slot_at_laid by lia. cbn [mbind res_bind]. decide_cmp.
  pose proof (bucket_range 0 hs b) as Hr. rewrite (chain_find_ok found p).
  - by rewrite bucket_records.
  - eapply Forall_impl; [exact Hr|]. cbn. unfold zlen. lia.
  - intros k Hk. rewrite Forall_forall in Hr. apply Hr in Hk. unfold zlen in Hk.
    apply Hf. unfold nth_record. destruct (rs !! Z.to_nat k) eqn:E.
    + cbn. by apply list_elem_of_lookup_2 in E.
    + apply lookup_ge_None in E. lia.
Qed.

End Tables.

(** ** Records from rows *)

(** [strcmp] is 0 for equal strings only. *)
Lemma strcmp_zero a b : no_nul a -> no_nul b -> strcmp a b = 0 -> a = b.
Proof.
  intros Ha. revert b. induction Ha as [|x a Hx Ha IH]; intros [|y b] Hb; cbn [strcmp]; intros H0; try done.
  - apply Forall_cons in Hb as [Hy _]. destruct Hy. apply b2z_zero. lia.
  - destruct Hx. by apply b2z_zero.
  - apply Forall_cons in Hb as [Hy Hb]. destruct (b2z x =? b2z y) eqn:E; b2p; [|lia].
    apply b2z_inj in E as <-. destruct (b2z x =? 0) eqn:E0; b2p; [|by rewrite (IH b)].
    destruct Hx. by apply b2z_zero.
Qed.
Lemma strcmp_same a : strcmp a a = 0.
Proof. induction a as [|x a IH]; cbn [strcmp]; [done|]. rewrite Z.eqb_refl. by destruct (_ =? 0). Qed.

Definition col_name (c : column) : string :=
  match c with Chars f => f | Num f _ => f | Char1 f => f end.

(** A text column fits the array it goes to, which is empty; a number is still 0. *)
Definition col_fits (r : record) (c : column) (s : list byte) : Prop :=
  match c with
  | Chars f => no_nul s /\ exists n, member (chars r) f = zeros n /\ zlen s < n
  | Num f _ => num_of r f = 0
  | Char1 _ => True
  end.
(** What a column has become. *)
Definition col_set (r : record) (c : column) (s : list byte) : Prop :=
  match c with
  | Chars f => text_of (chars r) f = Ok s
  | Num f w => num_of r f = wrap w (default 0 (scan_lu s))
  | Char1 f => forall b t, s = b :: t -> num_of r f = b2z b
  end.
(** A column leaves the others as they are. *)
Definition same_at (f : string) (r r' : record) : Prop :=
  member (chars r') f = member (chars r) f /\ num_of r' f = num_of r f.

Lemma set_col_ok r c s :
  col_fits r c s ->
  exists r', set_col r c s = Ok r' /\ col_set r' c s /\
    forall f, f <> col_name c -> same_at f r r'.
Proof.
  destruct c as [f|f w|f]; cbn [set_col col_fits col_set col_name].
  - intros (Hn & n & Hm & Hz). rewrite Hm, strcat_zeros by done. cbn [mbind res_bind].
    eexists. split; [done|]. split; [by apply text_of_insert|].
    intros g Hg. split; [by apply member_insert_ne|done].
  - intros H0. eexists. split; [done|]. destruct (scan_lu s) as [v|]; split; try done.
    + unfold num_of. cbn [nums]. by rewrite lookup_insert_eq.
    + intros g Hg. split; [done|]. unfold num_of. cbn [nums]. by rewrite lookup_insert_ne.
  - intros _. eexists. split; [done|]. destruct s as [|b s]; split; try done.
    + intros b' t' [= <- <-]. unfold num_of. cbn [nums]. by rewrite lookup_insert_eq.
    + intros g Hg. split; [done|]. unfold num_of. cbn [nums]. by rewrite lookup_insert_ne.
Qed.

Lemma same_at_fits f r r' c s : col_name c = f -> same_at f r r' -> col_fits r c s -> col_fits r' c s.
Proof.
  intros <- [Hm Hn]. destruct c as [g|g w|g]; cbn in *; [by rewrite Hm|by rewrite Hn|done].
Qed.
Lemma same_at_set f r r' c s : col_name c = f -> same_at f r r' -> col_set r c s -> col_set r' c s.
Proof.
  intros <- [Hm Hn]. unfold col_set, text_of. destruct c as [g|g w|g]; cbn in *.
  - by rewrite Hm.
  - by rewrite Hn.
  - by rewrite Hn.
Qed.

Lemma col_texts (ss : list (list byte)) pre s i :
  length pre = i -> col (map Some (pre ++ s :: ss)) i = Ok s.
Proof. 
  intros <-. unfold col. rewrite map_app. cbn [map].
  assert (Hl : (map Some pre ++ Some s :: map Some ss) !! length pre = Some (Some s))
    by (apply list_lookup_middle; by rewrite length_map).
  unfold row in *. by rewrite Hl.
Qed.

(** The columns [cs] of a row take the texts [ss]. *)
Lemma set_cols_ok cs ss pre r :
  NoDup (map col_name cs) -> Forall2 (col_fits r) cs ss ->
  exists r', set_cols cs (length pre) (map Some (pre ++ ss)) r = Ok r' /\
    Forall2 (col_set r') cs ss /\ forall f, f ∉ map col_name cs -> same_at f r r'.
Proof.
  revert ss pre r. induction cs as [|c cs IH]; intros ss pre r Hd Hf.
  { apply Forall2_nil_inv_l in Hf as ->. exists r. done. }
  apply Forall2_cons_inv_l in Hf as (s & ss' & Hs & Hf & ->). cbn [map] in Hd.
  apply NoDup_cons in Hd as [Hc Hd].
  destruct (set_col_ok r c s Hs) as (r1 & H1 & Hset & Hsame).
  destruct (IH ss' (pre ++ [s]) r1 Hd) as (r2 & H2 & Hall & Hsame2).
  { assert (Hn : forall c', c' ∈ cs -> col_name c' <> col_name c).
    { intros c' Hin Heq. apply Hc. rewrite <- Heq. by apply list_elem_of_fmap_2. }
    clear -Hf Hn Hsame. induction Hf as [|c' s' cs ss Hfit _ IH]; [constructor|].
    constructor; [|apply IH; intros c'' Hin; apply Hn; by right].
    eapply same_at_fits; [done|apply Hsame, Hn; by left|done]. }
  rewrite length_app, Nat.add_1_r, <- app_assoc in H2. cbn [app] in H2.
  exists r2. cbn [set_cols]. rewrite col_texts by done. cbn [mbind res_bind]. rewrite H1.
  cbn [mbind res_bind]. split; [exact H2|]. split.
  - constructor; [|done]. eapply same_at_set; [done|by apply Hsame2|done].
  - intros f Hfn. cbn [map] in Hfn. apply not_elem_of_cons in Hfn as [Hn1 Hn2].
    destruct (Hsame f Hn1), (Hsame2 f Hn2). split; congruence.
Qed.

(** The record of a row. *)
Definition record_of (mem : list (string * Z)) (cs : list column) (val : row) : record :=
  match set_cols cs 0 val (record_cleared mem) with Ok r => r | Fault _ => record_cleared mem end.

Lemma set_cols_app cs cs' i val r :
  set_cols (cs ++ cs') i val r = (r ← set_cols cs i val r; set_cols cs' (i + length cs) val r).
Proof.
  revert i r. induction cs as [|c cs IH]; intros i r; cbn [app set_cols length].
  - by rewrite Nat.add_0_r.
  - destruct (col val i) as [s|]; cbn [mbind res_bind]; [|done].
    destruct (set_col r c s) as [r1|]; cbn [mbind res_bind]; [|done].
    rewrite IH. by replace (S i + length cs)%nat with (i + S (length cs))%nat by lia.
Qed.

(** ** Rows *)

Definition audd_all : list column := [Num "id" 64] ++ audd_columns.
Definition agent_all : list column := [Num "id" 64; Num "version" 64] ++ agent_columns.
(** The texts of a row fit a cleared record. *)
Definition row_fits (mem : list (string * Z)) (cs : list column) (ss : list (list byte)) : Prop :=
  Forall2 (col_fits (record_cleared mem)) cs ss.
Lemma audd_all_nodup : NoDup (map col_name audd_all).
Proof. decided. Qed.
Lemma agent_all_nodup : NoDup (map col_name agent_all).
Proof. decided. Qed.

Definition row_record (mem : list (string * Z)) (cs : list column) (ss : list (list byte)) : record :=
  record_of mem cs (map Some ss).

Lemma row_record_ok mem cs ss :
  NoDup (map col_name cs) -> row_fits mem cs ss ->
  set_cols cs 0 (map Some ss) (record_cleared mem) = Ok (row_record mem cs ss) /\
  Forall2 (col_set (row_record mem cs ss)) cs ss.
Proof.
  intros Hd Hf. destruct (set_cols_ok cs ss [] _ Hd Hf) as (r & Hr & Hs & _). cbn [length app] in Hr.
  unfold row_record, record_of. by rewrite Hr.
Qed.

(** The number of a customer and the text and hash of the number of an agent. *)
Definition audd_key (ss : list (list byte)) : Z :=
  match ss with s :: _ => default 0 (scan_lu s) | [] => 0 end.
Definition agent_key (ss : list (list byte)) : list byte := nth 2 ss [].
Definition agent_hash (n : Z) (ss : list (list byte)) : Z :=
  match scan_d (agent_key ss) with Some v => Z.rem (as_int v) n | None => 0 end.

Lemma atou_nonneg ds : Forall (fun b => is_digit b = true) ds -> 0 <= atou ds.
Proof.
  intros Hd. unfold atou. assert (H : forall a, 0 <= a -> 0 <= fold_left (fun acc b => 10 * acc + (b2z b - 48)) ds a).
  { induction Hd as [|b ds Hb _ IH]; intros a Ha; cbn [fold_left]; [done|]. apply IH.
    unfold is_digit in Hb. b2p. lia. }
  by apply H.
Qed.

Lemma take_while_forall p s : Forall (fun b => p b = true) (take_while p s).
Proof.
  induction s as [|b s IH]; cbn [take_while]; [constructor|]. destruct (p b) eqn:E; [|constructor].
  by constructor.
Qed.

Lemma scan_digits_nonneg s n : scan_digits s = Some n -> 0 <= n.
Proof.
  unfold scan_digits. pose proof (take_while_forall is_digit s) as Hd.
  destruct (take_while is_digit s) as [|b ds]; [done|]. intros [= <-]. by apply atou_nonneg.
Qed.

Lemma scan_lu_range s v : scan_lu s = Some v -> 0 <= v < 2 ^ 64.
Proof.
  unfold scan_lu. destruct (drop_while is_space s) as [|b t]; [done|].
  assert (Hs : forall u n, sat64 <$> scan_digits u = Some n -> 0 <= n < 2 ^ 64).
  { intros u n Hn. apply fmap_Some in Hn as (m & Hm & ->). apply scan_digits_nonneg in Hm.
    unfold sat64. destruct (2 ^ 64 <=? m) eqn:E; b2p; lia. }
  destruct (b2z b =? 45); [|destruct (b2z b =? 43); apply Hs].
  intros Hn. apply fmap_Some in Hn as (m & _ & ->).
  destruct (2 ^ 64 <=? m); [lia|]. apply Z.mod_pos_bound. lia.
Qed.

Lemma audd_key_range ss : 0 <= audd_key ss < 2 ^ 64.
Proof.
  destruct ss as [|s ss]; cbn [audd_key]; [lia|]. destruct (scan_lu s) eqn:E; cbn [default]; [|lia].
  by apply scan_lu_range in E.
Qed.

(** ** Loading *)

Section Rows.
Variables (n : Z) (cap : nat).
Hypotheses (Hn : 0 < n < 2 ^ 31) (Hcap : Z.of_nat cap = n + 1).

Abbreviation audd_rec := (row_record lcs_mmap_auto_dial_detail audd_all).
Abbreviation agent_rec := (row_record lcs_mmap_agents agent_all).

(** The table of customers after some rows. *)
Definition audd_state (rows : list (list (list byte))) : group :=
  {| g_n := n; g_i := zlen rows;
     g_slots := laid lcs_mmap_auto_dial_detail 2 n cap (map audd_rec rows)
                     (map (fun ss => audd_key ss mod n) rows) |}.
Definition agent_state (rows : list (list (list byte))) : group :=
  {| g_n := n; g_i := zlen rows;
     g_slots := laid lcs_mmap_agents 4 n cap (map agent_rec rows) (map (agent_hash n) rows) |}.

Lemma zlen_map {A B} (f : A -> B) l : zlen (map f l) = zlen l.
Proof. unfold zlen. by rewrite length_map. Qed.

Lemma hash_audd u : 0 <= u -> lcs_comm_hash_audd u n = Ok (u mod n) /\ as_int (u mod n) = u mod n /\ 0 <= u mod n < n.
Proof.
  intros Hu. unfold lcs_comm_hash_audd, wrap. decide_cmp. rewrite (Z.mod_small n) by lia.
  pose proof (Z.mod_pos_bound u n). split; [done|]. split; [|lia].
  unfold as_int. rewrite Z.mod_small by lia. lia.
Qed.

Lemma audd_write rows ss :
  (length rows < cap)%nat -> row_fits lcs_mmap_auto_dial_detail audd_all ss ->
  lcs_audd_shmwrite (audd_state rows) (map Some ss) = Ok (audd_state (rows ++ [ss])).
Proof.
  intros Hl Hf. unfold lcs_audd_shmwrite, audd_state. cbn [g_i g_n g_slots].
  destruct (row_record_ok _ _ _ audd_all_nodup Hf) as [Hr Hset].
  unfold audd_all in Hr at 1. rewrite set_cols_app in Hr.
  destruct (set_cols [Num "id" 64] 0 (map Some ss) (record_cleared lcs_mmap_auto_dial_detail))
    as [r1|] eqn:E1; cbn [mbind res_bind] in Hr; [|done].
  rewrite <- (zlen_map audd_rec rows).
  rewrite (update_next _ _ _ _ _ _ _ r1) by (rewrite ?length_map; done). cbn [mbind res_bind].
  rewrite slot_at_laid by (unfold zlen; rewrite length_map; lia). cbn [mbind res_bind].
  replace (Z.to_nat (zlen (map audd_rec rows))) with (length (map audd_rec rows))
    by (unfold zlen; lia).
  rewrite nth_record_last.
  assert (Hid : num_of r1 "id" = audd_key ss).
  { apply Forall2_cons_inv_l in Hf as (s & ss' & _ & _ & ->). cbn [map set_cols] in E1.
    cbn [col row lookup list_lookup mbind res_bind set_col] in E1. injection E1 as <-.
    cbn [audd_key]. destruct (scan_lu s) as [v|] eqn:Ev; cbn [default]; [|done].
    apply scan_lu_range in Ev. unfold num_of. cbn [nums]. rewrite lookup_insert_eq. cbn [default].
    unfold wrap. by rewrite Z.mod_small. }
  rewrite Hid. pose proof (audd_key_range ss) as Hk.
  destruct (hash_audd (audd_key ss) (proj1 Hk)) as (-> & Hi & Hh). cbn [mbind res_bind].
  rewrite Hi.
  rewrite (zlen_map audd_rec), <- (zlen_map (fun ss => audd_key ss mod n) rows).
  rewrite link_next by lia. cbn [mbind res_bind].
  rewrite (zlen_map _ rows), <- (zlen_map audd_rec rows).
  rewrite (update_last _ _ _ _ _ _ _ r1 (audd_rec ss)) by (rewrite ?length_map; done).
  cbn [mbind res_bind]. rewrite !map_app, zlen_app, zlen_map. done.
Qed.

Definition agent_ok (ss : list (list byte)) : Prop :=
  row_fits lcs_mmap_agents agent_all ss /\ 0 <= agent_hash n ss.

Lemma agent_number ss : row_fits lcs_mmap_agents agent_all ss -> col (map Some ss) 2 = Ok (agent_key ss).
Proof.
  intros Hf. unfold row_fits, agent_all in Hf. cbn [app] in Hf.
  apply Forall2_cons_inv_l in Hf as (s0 & ss0 & _ & Hf & ->).
  apply Forall2_cons_inv_l in Hf as (s1 & ss1 & _ & Hf & ->).
  apply Forall2_cons_inv_l in Hf as (s2 & ss2 & _ & Hf & ->). done.
Qed.

Lemma agent_hash_ok ss : lcs_comm_hash (agent_key ss) 0 n = Ok (agent_hash n ss).
Proof.
  unfold lcs_comm_hash, agent_hash. decide_cmp. f_equal. destruct (scan_d (agent_key ss)); [done|].
  by apply Z.rem_0_l; lia.
Qed.

Lemma rem_lt x : Z.rem x n < n.
Proof. pose proof (Z.rem_bound_abs x n). lia. Qed.

Lemma agent_hash_lt ss : agent_hash n ss < n.
Proof. unfold agent_hash. destruct (scan_d _); [apply rem_lt|lia]. Qed.

Lemma agent_write rows ss :
  (length rows < cap)%nat -> agent_ok ss ->
  lcs_shm_write (agent_state rows) (map Some ss) = Ok (agent_state (rows ++ [ss])).
Proof.
  intros Hl [Hf Hh]. pose proof (agent_hash_lt ss) as Hlt.
  unfold lcs_shm_write, agent_state. cbn [g_i g_n g_slots].
  destruct (row_record_ok _ _ _ agent_all_nodup Hf) as [Hr _].
  unfold agent_all in Hr at 1. rewrite set_cols_app in Hr.
  destruct (set_cols [Num "id" 64; Num "version" 64] 0 (map Some ss) (record_cleared lcs_mmap_agents))
    as [r1|] eqn:E1; cbn [mbind res_bind] in Hr; [|done].
  rewrite <- (zlen_map agent_rec rows).
  rewrite (update_next _ _ _ _ _ _ _ r1) by (rewrite ?length_map; done). cbn [mbind res_bind].
  rewrite agent_number by done. cbn [mbind res_bind]. rewrite agent_hash_ok. cbn [mbind res_bind].
  rewrite (zlen_map agent_rec), <- (zlen_map (agent_hash n) rows).
  rewrite link_next by lia. cbn [mbind res_bind].
  rewrite (zlen_map _ rows), <- (zlen_map agent_rec rows).
  rewrite (update_last _ _ _ _ _ _ _ r1 (agent_rec ss)) by (rewrite ?length_map; done).
  cbn [mbind res_bind]. rewrite !map_app, zlen_app, zlen_map. done.
Qed.

(** All rows, one after the other. *)
Lemma each_ok (cb : group -> row -> res group) (st : list (list (list byte)) -> group) P rows rows' :
  (forall rows ss, (length rows < cap)%nat -> P ss ->
     cb (st rows) (map Some ss) = Ok (st (rows ++ [ss]))) ->
  Forall P rows' -> (length rows + length rows' <= cap)%nat ->
  each cb (st rows) (map (map Some) rows') = Ok (st (rows ++ rows')).
Proof.
  intros Hcb Hr. revert rows. induction Hr as [|ss rows' Hs _ IH]; intros rows Hl; cbn [map each].
  - by rewrite app_nil_r.
  - cbn [length] in Hl. rewrite Hcb by (done || lia). cbn [mbind res_bind].
    rewrite IH by (rewrite length_app; cbn [length]; lia). by rewrite <- app_assoc.
Qed.

Lemma fresh_ok mem N size :
  0 < size -> (n + 1) * size < 2 ^ 31 ->
  slots_size n size = Ok ((n + 1) * size) /\
  fresh_slots mem N n ((n + 1) * size) size = Ok (laid mem N n cap [] []).
Proof.
  intros Hs Hz. unfold slots_size, fresh_slots. rewrite Z.div_mul by lia. decide_cmp.
  split; [f_equal; unfold as_int; rewrite Z.mod_small; nia|].
  f_equal. unfold laid. replace (Z.to_nat (n + 1)) with cap by lia. apply map_ext. intros k.
  unfold nth_record. rewrite lookup_nil. cbn [default bucket]. unfold padded. rewrite take_nil.
  cbn [app length]. rewrite Nat.sub_0_r. by destruct (Z.of_nat k <? n).
Qed.

(** What the searches find. *)
Lemma filter_zip {A B} (f : A -> B) (g : A -> Z) (b : Z) (l : list A) :
  map fst (List.filter (fun q => q.2 =? b) (zip (map f l) (map g l)))
  = map f (List.filter (fun x => g x =? b) l).
Proof.
  induction l as [|x l IH]; [done|]. cbn [map zip_with List.filter snd].
  destruct (g x =? b); cbn [map fst]; by rewrite IH.
Qed.
Lemma find_map {A B} (f : A -> B) (p : B -> bool) (q : A -> bool) l :
  (forall x, x ∈ l -> p (f x) = q x) -> List.find p (map f l) = f <$> List.find q l.
Proof.
  induction l as [|x l IH]; intros H; [done|]. cbn [map List.find]. rewrite (H x) by (left; done).
  destruct (q x); [done|]. apply IH. intros y Hy. apply H. by right.
Qed.
Lemma elem_take_filter {A} (p : A -> bool) k l x : x ∈ take k (List.filter p l) -> x ∈ l.
Proof.
  intros Hx. apply elem_of_take in Hx as (i & Hi & _). apply list_elem_of_lookup_2 in Hi.
  apply list_elem_of_In in Hi. apply list_elem_of_In. by apply filter_In in Hi as [Hi _].
Qed.

End Rows.

Lemma audd_id ss :
  row_fits lcs_mmap_auto_dial_detail audd_all ss ->
  num_of (row_record lcs_mmap_auto_dial_detail audd_all ss) "id" = audd_key ss.
Proof.
  intros Hf. destruct (row_record_ok _ _ _ audd_all_nodup Hf) as [_ Hs].
  apply Forall2_cons_inv_l in Hs as (s & ss' & Hs & _ & ->). cbn [col_set] in Hs. rewrite Hs.
  cbn [audd_key]. pose proof (audd_key_range (s :: ss')). cbn [audd_key] in *.
  unfold wrap. by rewrite Z.mod_small.
Qed.

Lemma agent_text ss :
  row_fits lcs_mmap_agents agent_all ss ->
  text_of (chars (row_record lcs_mmap_agents agent_all ss)) "agent_number" = Ok (agent_key ss) /\
  no_nul (agent_key ss).
Proof.
  intros Hf. destruct (row_record_ok _ _ _ agent_all_nodup Hf) as [_ Hs].
  unfold row_fits in Hf. unfold agent_all in Hs at 2, Hf. cbn [app] in Hs, Hf.
  apply Forall2_cons_inv_l in Hs as (s0 & ss0 & _ & Hs & ->).
  apply Forall2_cons_inv_l in Hs as (s1 & ss1 & _ & Hs & ->).
  apply Forall2_cons_inv_l in Hs as (s2 & ss2 & Hs & _ & ->).
  do 2 (apply Forall2_cons_1 in Hf as [_ Hf]). apply Forall2_cons_1 in Hf as [[Hn _] _]. done.
Qed.

Lemma find_audd_ok n cap rows u :
  0 < n < 2 ^ 31 -> Z.of_nat cap = n + 1 -> (length rows <= cap)%nat -> 0 <= u ->
  Forall (row_fits lcs_mmap_auto_dial_detail audd_all) rows ->
  find_audd n (g_slots (audd_state n cap rows)) u
  = Ok (row_record lcs_mmap_auto_dial_detail audd_all <$>
        List.find (fun ss => audd_key ss =? u)
          (take 2 (List.filter (fun ss => audd_key ss mod n =? u mod n) rows))).
Proof.
  intros Hn Hc Hl Hu Hf. unfold find_audd. destruct (hash_audd n cap Hn u Hu) as (-> & Hi & Hh).
  cbn [mbind res_bind]. rewrite Hi. decide_cmp. cbn [audd_state g_slots].
  rewrite (search_ok _ _ _ _ _ (fun a => u =? num_of a "id"));
    [|by rewrite !length_map|lia|lia|by rewrite length_map|done].
  rewrite filter_zip, firstn_map. f_equal. apply find_map. intros ss Hss.
  apply elem_take_filter in Hss. rewrite Forall_forall in Hf. rewrite audd_id by by apply Hf.
  apply Z.eqb_sym.
Qed.

Lemma find_agent_ok n cap rows number h :
  0 < n < 2 ^ 31 -> Z.of_nat cap = n + 1 -> (length rows <= cap)%nat ->
  lcs_comm_hash number (-1) n = Ok h -> no_nul number -> 0 <= h -> Forall (agent_ok n) rows ->
  find_agent n (g_slots (agent_state n cap rows)) number
  = Ok (row_record lcs_mmap_agents agent_all <$>
        List.find (fun ss => bool_decide (agent_key ss = number))
          (take 4 (List.filter (fun ss => agent_hash n ss =? h) rows))).
Proof.
  intros Hn Hc Hl Hh Hnn H0 Hf. unfold find_agent. rewrite Hh. cbn [mbind res_bind]. decide_cmp.
  assert (Hlt : h < n).
  { unfold lcs_comm_hash in Hh. revert Hh. decide_cmp. intros [= <-]. by apply rem_lt. }
  cbn [agent_state g_slots].
  set (text r := match text_of (chars r) "agent_number" with Ok s => s | Fault _ => [] end).
  rewrite (search_ok _ _ _ _ _ (fun a => strcmp (text a) number =? 0));
    [|by rewrite !length_map|lia|lia|by rewrite length_map|].
  - rewrite filter_zip, firstn_map. f_equal. apply find_map. intros ss Hss.
    apply elem_take_filter in Hss. rewrite Forall_forall in Hf. destruct (Hf _ Hss) as [Hr _].
    destruct (agent_text ss Hr) as [Ht Hk]. unfold text. rewrite Ht.
    case_bool_decide as E; [rewrite E, strcmp_same; done|].
    apply Z.eqb_neq. intros Hz. apply E. by apply strcmp_zero.
  - intros r Hr. apply list_elem_of_fmap_1 in Hr as (ss & -> & Hss). rewrite Forall_forall in Hf.
    destruct (Hf _ Hss) as [Hr _]. destruct (agent_text ss Hr) as [Ht _]. unfold text. by rewrite Ht.
Qed.

(** ** The programs *)

Section Programs.
Context `{World}.

(** A database that answers: the number of rows to one query and the rows to another. *)
Record serves (db count select : list byte) (rows : list (list (list byte))) : Prop := {
  sv_open : forall tr, (sqlite_open tr db).1 = 0;
  sv_exec : forall tr q, (sqlite_exec tr q).1 = 0;
  sv_count : forall tr, (sqlite_exec tr count).2 = [[Some (utoa (zlen rows))]];
  sv_rows : forall tr, (sqlite_exec tr select).2 = map (map Some) rows;
  sv_shm : forall tr key, shm_create tr key = true
}.

Lemma exec_ok sql tr : (forall tr q, (sqlite_exec tr q).1 = 0) -> exec sql tr = Ok (0, tr ++ [EvSqlExec sql]).
Proof. intros He. unfold exec. by rewrite io_bind_ask, io_bind_emit, He. Qed.

Lemma exec_cb_ok {A} sql (cb : A -> row -> res A) a a' rows tr :
  (forall tr q, (sqlite_exec tr q).1 = 0) -> (sqlite_exec tr sql).2 = rows -> each cb a rows = Ok a' ->
  exec_cb sql cb a tr = Ok ((a', 0), tr ++ [EvSqlExec sql]).
Proof.
  intros He Hr Ha. unfold exec_cb. rewrite io_bind_ask. specialize (He tr sql).
  destruct (sqlite_exec tr sql) as [e rs]. cbn [fst snd] in *. subst e rs.
  rewrite io_bind_emit. by erewrite io_bind_lift.
Qed.

Lemma count_ok n : 0 <= n < 2 ^ 31 -> each lcs_agents_count 0 [[Some (utoa n)]] = Ok n.
Proof.
  intros Hn. cbn [each lcs_agents_count]. unfold lcs_agents_count, col.
  cbn [row lookup list_lookup mbind res_bind]. f_equal.
  replace (utoa n) with (itoa n) by (unfold itoa; by decide_cmp).
  rewrite scan_d_itoa by lia. unfold as_int. rewrite Z.mod_small; lia.
Qed.

Lemma create_ok line st key sz err tr :
  segment_at st key = None -> (forall tr key, shm_create tr key = true) -> 0 < sz ->
  lcs_create_shm line st key sz err tr = Ok ((true, err), tr ++ [EvShmCreate key sz]).
Proof.
  intros Hk Hc Hz. unfold lcs_create_shm. rewrite Hk, io_bind_ask, Hc. cbn [negb]. decide_cmp.
  by rewrite io_bind_emit.
Qed.

Lemma segment_head st key s : segment_at ((key, s) :: st) key = Some s.
Proof. cbn [segment_at]. by rewrite decide_True. Qed.
Lemma segment_next st key key' s : key <> key' -> segment_at ((key, s) :: st) key' = segment_at st key'.
Proof. intros Hne. cbn [segment_at]. by rewrite decide_False. Qed.

(** The one row of a run of numbers whose remainder is given. *)
Lemma consecutive_find rows a ss :
  (forall i ss, rows !! i = Some ss -> audd_key ss = a + Z.of_nat i) -> ss ∈ rows ->
  List.find (fun r => audd_key r =? audd_key ss)
    (take 2 (List.filter (fun r => audd_key r mod zlen rows =? audd_key ss mod zlen rows) rows))
  = Some ss.
Proof.
  intros Hk Hin. apply list_elem_of_lookup_1 in Hin as [i Hi]. pose proof (Hk _ _ Hi) as Ei.
  set (n := zlen rows) in *. pose proof (lookup_lt_Some _ _ _ Hi) as Hlt.
  assert (Hother : forall j r, rows !! j = Some r -> j <> i -> (audd_key r mod n =? audd_key ss mod n) = false).
  { intros j r Hj Hne. rewrite (Hk _ _ Hj), Ei. pose proof (lookup_lt_Some _ _ _ Hj).
    apply Z.eqb_neq. intros He. assert (Hd : (n | (a + Z.of_nat j) - (a + Z.of_nat i))).
    { apply Z.mod_divide; [unfold n, zlen; lia|]. rewrite Zminus_mod, He, Z.sub_diag. apply Zmod_0_l. }
    destruct Hd as [q Hq]. unfold n, zlen in Hq.
      assert (q < 1 /\ -1 < q) by (split; nia). assert (q = 0) as -> by lia. lia. }
  assert (Hf : List.filter (fun r => audd_key r mod n =? audd_key ss mod n) rows = [ss]).
  { rewrite <- (take_drop_middle _ _ _ Hi) at 1. rewrite List.filter_app. cbn [List.filter].
    rewrite Z.eqb_refl.
    assert (Hnil : forall l, (forall r, r ∈ l -> (audd_key r mod n =? audd_key ss mod n) = false) ->
      List.filter (fun r => audd_key r mod n =? audd_key ss mod n) l = []).
    { intros l Hl. induction l as [|r l IH]; [done|]. cbn [List.filter]. rewrite (Hl r) by (left; done).
      apply IH. intros r' Hr'. apply Hl. by right. }
    rewrite !Hnil; [done| |].
    - intros r Hr. apply list_elem_of_lookup_1 in Hr as [j Hj]. rewrite lookup_drop in Hj.
      apply (Hother (S i + j)%nat); [done|lia].
    - intros r Hr. apply elem_of_take in Hr as (j & Hj & Hge). apply (Hother j); [done|lia]. }
  rewrite Hf. cbn [take List.find]. by rewrite Z.eqb_refl.
Qed.

(** The third of the rows with a property is not among the first two. *)
Lemma third_hidden rows (same : list (list byte) -> bool) i j k a b c :
  (i < j)%nat -> (j < k)%nat -> rows !! i = Some a -> rows !! j = Some b -> rows !! k = Some c ->
  same a = true -> same b = true -> NoDup (map audd_key rows) ->
  List.find (fun ss => audd_key ss =? audd_key c) (take 2 (List.filter same rows)) = None.
Proof.
  intros Hij Hjk Hi Hj Hk Ha Hb Hnd.
  assert (Hsp : exists l1 l2 l3, rows = l1 ++ a :: l2 ++ b :: l3 /\ forall x, x ∈ l1 ++ a :: l2 ++ [b] -> audd_key x <> audd_key c).
  { exists (take i rows), (take (j - S i) (drop (S i) rows)), (drop (S j) rows). split.
    - rewrite <- (take_drop_middle rows i a Hi) at 1. do 2 f_equal.
      rewrite <- (take_drop_middle (drop (S i) rows) (j - S i) b) at 1.
      + do 2 f_equal. rewrite drop_drop. do 2 f_equal. lia.
      + rewrite lookup_drop. rewrite <- Hj. f_equal. lia.
    - intros x Hx Hxc.
      assert (Hx' : exists m, (m < k)%nat /\ rows !! m = Some x).
      { apply elem_of_app in Hx as [Hx|Hx]; [apply elem_of_take in Hx as (m & Hm & ?); exists m; split; [lia|done]|].
        apply elem_of_cons in Hx as [->|Hx]; [exists i; split; [lia|done]|].
        apply elem_of_app in Hx as [Hx|Hx].
        - apply elem_of_take in Hx as (m & Hm & ?). rewrite lookup_drop in Hm. exists (S i + m)%nat. split; [lia|done].
        - apply list_elem_of_singleton in Hx as ->. exists j. split; [lia|done]. }
      destruct Hx' as (m & Hmk & Hm).
      assert (m = k); [|lia]. apply (NoDup_lookup _ m k (audd_key c) Hnd); rewrite list_lookup_fmap.
      + by rewrite Hm; cbn; rewrite Hxc.
      + by rewrite Hk. }
  destruct Hsp as (l1 & l2 & l3 & -> & Hne). rewrite !List.filter_app. cbn [List.filter]. rewrite Ha.
  rewrite List.filter_app. cbn [List.filter]. rewrite Hb.
  assert (Hlen : (2 <= length (List.filter same l1 ++ a :: List.filter same l2 ++ [b]))%nat)
    by (rewrite length_app; cbn; rewrite length_app; cbn; lia).
  replace (List.filter same l1 ++ a :: List.filter same l2 ++ b :: List.filter same l3)
    with ((List.filter same l1 ++ a :: List.filter same l2 ++ [b]) ++ List.filter same l3)
    by (rewrite <- app_assoc; cbn; by rewrite <- app_assoc).
  rewrite take_app_le by done. destruct (List.find _ _) as [x|] eqn:E; [|done]. exfalso.
  apply List.find_some in E as [Hin Heq]. b2p. apply (Hne x); [|done].
  apply list_elem_of_In in Hin. apply elem_of_take in Hin as (m & Hm & _). apply list_elem_of_lookup_2 in Hm.
  rewrite elem_of_app, elem_of_cons, elem_of_app in Hm |- *.
  destruct Hm as [Hm|[->|[Hm|Hm]]]; auto.
  - left. apply list_elem_of_In, filter_In in Hm as [Hm _]. by apply list_elem_of_In.
  - right; right; left. apply list_elem_of_In, filter_In in Hm as [Hm _]. by apply list_elem_of_In.
Qed.

(** The names of the segments differ. *)
Lemma keys_differ (p a b : list byte) : a <> b -> p ++ a <> p ++ b.
Proof. intros Hne He. by apply app_inv_head in He. Qed.

Definition audd_count : list byte := str "select count(*) from auto_dial_detail;".
Definition audd_select : list byte :=
  str "select id, phone_type, skill, customer_id, application_id, note, phone_number from auto_dial_detail;".
Definition agents_count : list byte := str "select count(*) from agents where is_enable='true';".
Definition agents_select : list byte := str "select * from agents where is_enable='true';".

Lemma audd_load info prefix db st rows tr :
  text_of info "prefixshmkey" = Ok prefix -> zlen prefix < 240 -> 0 < zlen rows ->
  (zlen rows + 1) * 360 < 2 ^ 31 -> serves db audd_count audd_select rows ->
  Forall (row_fits lcs_mmap_auto_dial_detail audd_all) rows ->
  segment_at st (prefix ++ str ".audd.num") = None ->
  segment_at st (prefix ++ str ".audd.data") = None ->
  exists tr', lcs_audd_shmload info db st tr
  = Ok (((prefix ++ str ".audd.num", NumSegment (zlen rows) (zlen rows)) ::
         (prefix ++ str ".audd.data",
          SlotSegment (g_slots (audd_state (zlen rows) (S (length rows)) rows))) ::
         (prefix ++ str ".audd.num", NumSegment (zlen rows) 0) :: st, 0), tr').
Proof.
  intros Hp Hz Hn Hs [So Se Sc Sr Sm] Hf H1 H2. eexists. unfold lcs_audd_shmload.
  rewrite io_bind_ask, io_bind_emit, So. cbn [negb Z.eqb].
  rewrite (io_bind_ok _ _ _ 0 _ (exec_ok _ _ Se)). cbn [negb Z.eqb].
  fold audd_count audd_select.
  rewrite (io_bind_ok _ _ _ _ _ (exec_cb_ok _ _ _ (zlen rows) _ _ Se (Sc _) (count_ok (zlen rows) ltac:(lia)))).
  cbn [negb Z.eqb]. decide_cmp. rewrite (io_bind_lift _ _ _ prefix) by done.
  io_fits ltac:(text_len).
  rewrite (io_bind_ok _ _ _ _ _ (create_ok _ _ _ _ _ _ H1 Sm (eq_refl : 0 < SZ_AUDD_SHARED))). cbn [negb].
  destruct (fresh_ok (zlen rows) (S (length rows)) ltac:(lia) ltac:(unfold zlen; lia)
    lcs_mmap_auto_dial_detail LCS_AUDD_HASH_ARR_N SZ_AUDD_SHARED_AUH (eq_refl : 0 < SZ_AUDD_SHARED_AUH) Hs) as [Hsz Hfr].
  rewrite (io_bind_lift _ _ _ _ Hsz). io_fits ltac:(text_len).
  assert (Hpos : 0 < (zlen rows + 1) * SZ_AUDD_SHARED_AUH) by (unfold SZ_AUDD_SHARED_AUH; lia).
  assert (Hk : prefix ++ str ".audd.num" <> prefix ++ str ".audd.data") by (by apply keys_differ).
  rewrite (io_bind_ok _ _ _ _ _ (create_ok _ _ _ _ _ _
    (eq_trans (segment_next _ _ _ _ Hk) H2) Sm Hpos)).
  cbn [negb]. rewrite (io_bind_lift _ _ _ _ Hfr).
  assert (He : each lcs_audd_shmwrite (audd_state (zlen rows) (S (length rows)) [])
      (map (map Some) rows) = Ok (audd_state (zlen rows) (S (length rows)) rows)).
  { apply (each_ok (S (length rows)) _ _ (row_fits lcs_mmap_auto_dial_detail audd_all) [] rows);
      [|done|cbn [length]; lia].
    intros. apply audd_write; [lia|unfold zlen; lia|done|done]. }
  rewrite (io_bind_ok _ _ _ _ _ (exec_cb_ok _ _ _ _ _ _ Se (Sr _) He)). cbn [negb Z.eqb].
  rewrite (io_bind_ok _ _ _ 0 _ (exec_ok _ _ Se)). cbn [negb Z.eqb]. reflexivity.
Qed.

Lemma agent_load info prefix db st rows tr :
  text_of info "prefixshmkey" = Ok prefix -> zlen prefix < 240 -> 0 < zlen rows ->
  (zlen rows + 1) * 2224 < 2 ^ 31 -> serves db agents_count agents_select rows ->
  Forall (agent_ok (zlen rows)) rows ->
  segment_at st (prefix ++ str ".agent.num") = None ->
  segment_at st (prefix ++ str ".agent.data") = None ->
  exists tr', lcs_shm_load info db st tr
  = Ok (((prefix ++ str ".agent.num", NumSegment (zlen rows) (zlen rows)) ::
         (prefix ++ str ".agent.data",
          SlotSegment (g_slots (agent_state (zlen rows) (S (length rows)) rows))) ::
         (prefix ++ str ".agent.num", NumSegment (zlen rows) 0) :: st, 0), tr').
Proof.
  intros Hp Hz Hn Hs [So Se Sc Sr Sm] Hf H1 H2. eexists. unfold lcs_shm_load.
  rewrite io_bind_ask, io_bind_emit, So. cbn [negb Z.eqb].
  rewrite (io_bind_ok _ _ _ 0 _ (exec_ok _ _ Se)). cbn [negb Z.eqb].
  fold agents_count agents_select.
  rewrite (io_bind_ok _ _ _ _ _ (exec_cb_ok _ _ _ (zlen rows) _ _ Se (Sc _) (count_ok (zlen rows) ltac:(lia)))).
  cbn [negb Z.eqb]. decide_cmp. rewrite (io_bind_lift _ _ _ prefix) by done.
  io_fits ltac:(text_len).
  rewrite (io_bind_ok _ _ _ _ _ (create_ok _ _ _ _ _ _ H1 Sm (eq_refl : 0 < SZ_AGENTS_SHARED))). cbn [negb].
  destruct (fresh_ok (zlen rows) (S (length rows)) ltac:(lia) ltac:(unfold zlen; lia)
    lcs_mmap_agents LCS_AGENTS_HASH_ARR_N SZ_AGENTS_SHARED_AH (eq_refl : 0 < SZ_AGENTS_SHARED_AH) Hs) as [Hsz Hfr].
  rewrite (io_bind_lift _ _ _ _ Hsz). io_fits ltac:(text_len).
  assert (Hpos : 0 < (zlen rows + 1) * SZ_AGENTS_SHARED_AH) by (unfold SZ_AGENTS_SHARED_AH; lia).
  assert (Hk : prefix ++ str ".agent.num" <> prefix ++ str ".agent.data") by (by apply keys_differ).
  rewrite (io_bind_ok _ _ _ _ _ (create_ok _ _ _ _ _ _
    (eq_trans (segment_next _ _ _ _ Hk) H2) Sm Hpos)).
  cbn [negb]. rewrite (io_bind_lift _ _ _ _ Hfr).
  assert (He : each lcs_shm_write (agent_state (zlen rows) (S (length rows)) [])
      (map (map Some) rows) = Ok (agent_state (zlen rows) (S (length rows)) rows)).
  { apply (each_ok (S (length rows)) _ _ (agent_ok (zlen rows)) [] rows);
      [|done|cbn [length]; lia].
    intros. apply agent_write; [lia|unfold zlen; lia|done|done]. }
  rewrite (io_bind_ok _ _ _ _ _ (exec_cb_ok _ _ _ _ _ _ Se (Sr _) He)). cbn [negb Z.eqb].
  rewrite (io_bind_ok _ _ _ 0 _ (exec_ok _ _ Se)). cbn [negb Z.eqb]. reflexivity.
Qed.

(** The record of every row is in the slot of its place. *)
Lemma laid_records mem N n cap rs hs i r :
  (length rs <= cap)%nat -> rs !! i = Some r -> fst <$> laid mem N n cap rs hs !! i = Some r.
Proof.
  intros Hc Hi. pose proof (lookup_lt_Some _ _ _ Hi). rewrite laid_lookup by lia.
  cbn [fmap option_fmap option_map fst]. unfold nth_record. by rewrite Hi.
Qed.

(** C16: The customers to be called are in shared memory after the loader has run on a database
    that answers and rows that fit their members, when there were no such segments before: the
    segment has a slot more than there are rows, and the slot of the place of every row holds its
    record, with the texts and numbers of the row. A search by number finds the first row with
    this number among the first two rows whose numbers have the same remainder. Rows with
    consecutive numbers are all found; where all numbers differ, of three with one remainder the
    third is in its slot but never found. *)
Theorem customers_found info prefix db st rows tr :
  text_of info "prefixshmkey" = Ok prefix -> zlen prefix < 240 -> 0 < zlen rows ->
  (zlen rows + 1) * 360 < 2 ^ 31 -> serves db audd_count audd_select rows ->
  Forall (row_fits lcs_mmap_auto_dial_detail audd_all) rows ->
  segment_at st (prefix ++ str ".audd.num") = None ->
  segment_at st (prefix ++ str ".audd.data") = None ->
  let n := zlen rows in
  let customer := row_record lcs_mmap_auto_dial_detail audd_all in
  exists st' tr' d,
    lcs_audd_shmload info db st tr = Ok ((st', 0), tr') /\
    segment_at st' (prefix ++ str ".audd.num") = Some (NumSegment n n) /\
    segment_at st' (prefix ++ str ".audd.data") = Some (SlotSegment d) /\
    zlen d = n + 1 /\
    (forall i ss, rows !! i = Some ss ->
       fst <$> d !! i = Some (customer ss) /\ Forall2 (col_set (customer ss)) audd_all ss) /\
    (forall u, 0 <= u -> find_audd n d u = Ok (customer <$>
       List.find (fun ss => audd_key ss =? u)
         (take 2 (List.filter (fun ss => audd_key ss mod n =? u mod n) rows)))) /\
    (forall a, (forall i ss, rows !! i = Some ss -> audd_key ss = a + Z.of_nat i) ->
       forall ss, ss ∈ rows -> find_audd n d (audd_key ss) = Ok (Some (customer ss))) /\
    (forall i j k a b c, (i < j < k)%nat -> rows !! i = Some a -> rows !! j = Some b -> rows !! k = Some c ->
       audd_key a mod n = audd_key c mod n -> audd_key b mod n = audd_key c mod n ->
       NoDup (map audd_key rows) -> find_audd n d (audd_key c) = Ok None).
Proof.
  intros Hp Hz Hn Hs Hsv Hf H1 H2 n customer.
  destruct (audd_load info prefix db st rows tr Hp Hz Hn Hs Hsv Hf H1 H2) as (tr' & Hl).
  eexists _, tr', (g_slots (audd_state n (S (length rows)) rows)). split; [exact Hl|].
  assert (Hfind : forall u, 0 <= u -> find_audd n (g_slots (audd_state n (S (length rows)) rows)) u
    = Ok (customer <$> List.find (fun ss => audd_key ss =? u)
         (take 2 (List.filter (fun ss => audd_key ss mod n =? u mod n) rows)))).
  { intros u Hu. apply find_audd_ok; [lia|unfold n, zlen; lia|lia|done|done]. }
  split; [apply segment_head|]. split.
  { rewrite segment_next by (by apply keys_differ). apply segment_head. }
  split; [cbn [audd_state g_slots]; rewrite laid_length; unfold n, zlen; lia|].
  split; [|split; [exact Hfind|split]].
  - intros i ss Hi. split.
    + cbn [audd_state g_slots]. apply laid_records; [rewrite length_map; lia|].
      by rewrite list_lookup_fmap, Hi.
    + rewrite Forall_forall in Hf. apply (row_record_ok _ _ _ audd_all_nodup).
      apply Hf. by eapply list_elem_of_lookup_2.
  - intros a Ha ss Hss. rewrite Hfind by apply audd_key_range.
    unfold n. by rewrite (consecutive_find rows a ss Ha Hss).
  - intros i j k a b c [Hij Hjk] Hi Hj Hk Ha Hb Hnd. rewrite Hfind by apply audd_key_range.
    by rewrite (third_hidden rows (fun ss => audd_key ss mod n =? audd_key c mod n) i j k a b c) by (done || lia).
Qed.


End Programs.

(** ** A concrete database *)

(** Texts that fit, by evaluation. *)
Ltac fits_cleared :=
  repeat (constructor;
    [match goal with
     | |- col_fits (record_cleared ?m) (Chars ?f) _ =>
         let n := eval vm_compute in (zlen (member (cleared m) f)) in
         split; [repeat constructor; discriminate|exists n; split; [vm_compute; reflexivity|reflexivity]]
     | |- col_fits _ (Num _ _) _ => reflexivity
     | |- col_fits _ (Char1 _) _ => exact I
     end|]);
  constructor.

Module Sample.
Definition customers : list (list (list byte)) :=
  map (map str)
    [["2946"; "1"; "1"; "C001"; "A-2017-000000001"; "first"; "0901"];
     ["2947"; "1"; "2"; "C002"; "A-2"; ""; "0902"];
     ["2948"; "2"; "1"; "C003"; "A-3"; "third"; "0903"]]%string.
Definition agents : list (list (list byte)) :=
  map (map str)
    [["1"; "0"; "1001"; "sales"; "READY"; "no"; "a@b"; "1001"; "Y"; "Y"; "N"; "7"; "Ann"; "x"; "09";
      "3"; "2"; "f1"; "1001"; "C"];
     ["2"; "0"; "mobile"; "sales"; "READY"; "no"; "c@d"; "1002"; "Y"; "Y"; "N"; "8"; "Bob"; "x"; "09";
      "3"; "2"; "f1"; "1002"; "C"]]%string.
#[local] Instance world : World := answering (toy_world [] None None None)
  [(audd_count, [[Some (str "3")]]); (audd_select, map (map Some) customers);
   (agents_count, [[Some (str "2")]]); (agents_select, map (map Some) agents)].
Definition info : cfg := assign (cleared members) "prefixshmkey" (str "u.s.d").

Lemma serves_customers : serves (str "lcs.db") audd_count audd_select customers.
Proof. by split. Qed.
Lemma serves_agents : serves (str "lcs.db") agents_count agents_select agents.
Proof. by split. Qed.
Lemma customers_fit : Forall (row_fits lcs_mmap_auto_dial_detail audd_all) customers.
Proof.
  unfold customers. cbn [map].
  repeat (apply Forall_cons; split; [unfold row_fits, audd_all, audd_columns; cbn [app]; fits_cleared|]).
  constructor.
Qed.
Lemma agents_fit : Forall (agent_ok 2) agents.
Proof.
  unfold agents. cbn [map].
  repeat (apply Forall_cons; split;
    [split; [unfold row_fits, agent_all, agent_columns; cbn [app]; fits_cleared|by vm_compute]|]).
  constructor.
Qed.

Lemma customers_found_witness :
  exists st' tr' d,
    lcs_audd_shmload info (str "lcs.db") [] [] = Ok ((st', 0), tr') /\
    segment_at st' (str "u.s.d.audd.data") = Some (SlotSegment d) /\
    exists r, find_audd 3 d 2947 = Ok (Some r) /\ text_of (chars r) "customer_id" = Ok (str "C002").
Proof.
  destruct (customers_found info (str "u.s.d") (str "lcs.db") [] customers [])
    as (st' & tr' & d & H1 & _ & H2 & _ & _ & _ & H4 & _).
  - by vm_compute.
  - reflexivity.
  - reflexivity.
  - reflexivity.
  - exact serves_customers.
  - exact customers_fit.
  - reflexivity.
  - reflexivity.
  - exists st', tr', d. split; [exact H1|]. split; [exact H2|].
    set (ss := map str ["2947"; "1"; "2"; "C002"; "A-2"; ""; "0902"]%string).
    assert (Hss : ss ∈ customers) by (right; left).
    eexists. split.
    + apply (H4 2946) with (ss := ss); [|exact Hss].
      intros i r Hi. do 3 (destruct i as [|i]; [injection Hi as <-; reflexivity|]). discriminate.
    + vm_compute. reflexivity.
Defined.

End Sample.
