(* ===== verification/CallReport.v ===== *)
(** * The report of the calls that were not connected

    Models src/cluster/A_000008_05m/a_000008.c: for the database of one directory of the
    warehouse it runs the query of the report and joins every row with the customer of the
    call, which it searches in the table in shared memory (SharedTables.v).  The text it
    writes is given by [lcs_exec_cbtrue], row by row. *)
From S2P Require Import Prelude CString OpenSSL World ToyWorld Config.
From S2P Require Import Directories SharedTables.

(** ** Rows of the report *)

Definition tab : byte := x09.
(** ["%s\t"] *)
Definition cell (s : list byte) : list byte := s ++ [tab].
(** A character of a text, its zero included. *)
Definition char_at (s : list byte) (k : nat) : res Z :=
  match (s ++ [x00]) !! k with Some b => Ok (b2z b) | None => Fault OobRead end.

(** [p0->skill == 1]; the pointer is null when no customer was found. *)
Definition auto_skill (p0 : option record) : res bool :=
  match p0 with Some p => Ok (num_of p "skill" =? 1) | None => Fault NullDeref end.
(** [p0 ? p0->f : ""] *)
Definition customer_text (p0 : option record) (f : string) : res (list byte) :=
  match p0 with Some p => text_of (chars p) f | None => Ok [] end.

Section Row.
(** [lcs_audd->n] and [lcs_audd_auh]. *)
Variables (lcs_audd_n : Z) (lcs_audd_auh : list slot).

(** The column ACTION_CODE, by the length of its mark. *)
Definition action_code (p0 : option record) (code : list byte) : res (list byte) :=
  c1 ← char_at code 1;
  if c1 =? 0 then s ← auto_skill p0; Ok (cell (if s : bool then str "PD_NKP" else str "NKP"))
  else
    c2 ← char_at code 2;
    if c2 =? 0 then Ok (cell (str "ANSWER"))
    else s ← auto_skill p0; Ok (cell (if s : bool then str "PD_NAB" else str "NAB")).

Definition remarks (p0 : option record) (rem : list byte) : res (list byte) :=
  match rem with
  | [] => Ok [tab]
  | _ =>
    phone ← customer_text p0 "phone_number";
    let pds := match p0 with Some p => num_of p "skill" =? 1 | None => false end in
    let code := match p0 with
                | None => []
                | Some _ =>
                  if strcmp rem (str "NO ANSWER") =? 0
                  then if pds then str "PD_NKP" else str "NKP"
                  else if pds then str "PD_NAP" else str "NAB"
                end in
    Ok (str "Uptrail_Auto" ++ str "_" ++ phone ++ str "_" ++ cell code ++ [tab])
  end.

Definition lcs_exec_cbtrue (val : row) : res (list byte) :=
  v0 ← col val 0;
  let u := default 0 (scan_lu v0) in
  p0 ← find_audd lcs_audd_n lcs_audd_auh u;
  app ← customer_text p0 "application_id";
  let financier :=
    match v0, p0 with
    | [], _ | _, None => []
    | _, Some _ => if zlen app =? 16 then str "VPBFC" else str "VPBANK"
    end in
  v3 ← col val 3;
  customer ← (match v3 with [] => Ok [] | _ => customer_text p0 "customer_id" end);
  v4 ← col val 4;
  let user :=
    match v4, p0 with
    | [], _ | _, None => []
    | _, Some p => if num_of p "skill" =? 1 then str "PDS00000" else str "ES100000"
    end in
  date ← col val 5; time ← col val 6; code ← col val 7;
  action ← action_code p0 code;
  v8 ← col val 8; v9 ← col val 9; v10 ← col val 10; v11 ← col val 11; v12 ← col val 12;
  v13 ← col val 13;
  by_whom ← (match v13 with
             | [] => Ok [tab]
             | _ => s ← auto_skill p0; Ok (cell (if s : bool then str "PDS" else str "ECS"))
             end);
  v14 ← col val 14;
  rem ← remarks p0 v14;
  Ok (cell financier ++ cell app ++ cell customer ++ cell user ++ cell date ++ cell time ++
      action ++ cell v8 ++ cell v9 ++ cell v10 ++ cell v11 ++ cell v12 ++ by_whom ++ rem ++ [nl]).

End Row.

(** ** The program *)

(** The error codes from [fopen] to the last query: lines of the source, or the error itself. *)
Definition codes : Type := Z * Z * (Z -> Z) * (Z -> Z) * (Z -> Z) * (Z -> Z).
Definition at_lines (l1 l2 l3 l4 l5 l6 : Z) : codes :=
  (l1, l2, fun _ => l3, fun _ => l4, fun _ => l5, fun _ => l6).

Section Program.
Context `{World}.

Definition template_members : list (string * Z) :=
  [("name_ana", 64); ("targetpath", 1024); ("prefixshmkey", 512)]%string.
Definition lcs_cfg_table : list entry :=
  [copy_to "targetpath" "targetpath_0001:"; copy_to "name_ana" "name_ana_0002:";
   copy_to "prefixshmkey" "prefixshmkey_0003:"].
Definition lcs_cfg_load (path : list byte) (info : cfg) (err : Z) : io (cfg * Z) :=
  cfg_load lcs_cfg_table path info err.

(** [shm_open] with [O_CREAT] and [mmap]: a segment that did not exist is empty, and reading
    it is an access outside of it. *)
Definition read_num (st : segments) (key : list byte) : res Z :=
  match segment_at st key with Some (NumSegment n _) => Ok n | _ => Fault OobRead end.
Definition read_slots (st : segments) (key : list byte) : list slot :=
  match segment_at st key with Some (SlotSegment d) => d | _ => [] end.

(** The number of agents and of customers, and their slots. *)
Definition lcs_audd_loadshm (info : cfg) (st : segments) : res (Z * list slot * Z * list slot) :=
  prefix ← text_of info "prefixshmkey";
  k1 ← fits 256 (prefix ++ str ".agent.num"); an ← read_num st k1;
  k2 ← fits 256 (prefix ++ str ".agent.data");
  k3 ← fits 256 (prefix ++ str ".audd.num"); un ← read_num st k3;
  k4 ← fits 256 (prefix ++ str ".audd.data");
  Ok (an, read_slots st k2, un, read_slots st k4).

(** The rows that [sqlite3_exec] hands to the callback, which prints a line for each to the
    file. *)
Fixpoint print_rows (path : list byte) (cb : row -> res (list byte)) (rows : list row) : io unit :=
  match rows with
  | [] => mret tt
  | r :: rows => t ← lift (cb r); _ ← emit (EvPrint path t); print_rows path cb rows
  end.
Definition exec_print (path sql : list byte) (cb : row -> res (list byte)) : io Z :=
  '(e, rows) ← ask (fun tr => sqlite_exec tr sql);
  _ ← emit (EvSqlExec sql);
  _ ← print_rows path cb rows;
  mret e.
Definition run_sql (lines : codes) (cb : row -> res (list byte)) (path sql db : list byte) : io Z :=
  let '(_, _, lo, lb, lx, le) := lines in
  e ← ask (fun tr => (sqlite_open tr db).1);
  _ ← emit (EvSqlOpen db);
  if negb (e =? 0) then mret (lo e)
  else
    e ← exec (str "BEGIN TRANSACTION");
    if negb (e =? 0) then mret (lb e)
    else
      e ← exec_print path sql cb;
      if negb (e =? 0) then mret (lx e)
      else
        e ← exec (str "END TRANSACTION");
        if negb (e =? 0) then mret (le e) else mret 0.
(** The file is empty when it has been opened. *)
Definition lcs_exec_sql (lines : codes) (cb : row -> res (list byte))
    (query db writepath : list byte) (err : Z) : io Z :=
  let '(lf, lq, _, _, _, _) := lines in
  ok ← ask (fun tr => fopen_w tr writepath);
  if negb ok then mret lf
  else
    _ ← emit (EvWrite writepath []);
    '(sql, err) ← lcs_file_text query None err;
    match sql with
    | None => mret lq
    | Some sql => s ← lift (cstr sql); run_sql lines cb writepath s db
    end.

(** [lcs_unit_analysis] with its error codes: without a query, without a database, and those of
    [lcs_exec_sql]. *)
Definition unit_analysis_at (no_query no_db : Z) (lines : codes) (cb : row -> res (list byte))
    (info : cfg) (err : Z) : io Z :=
  path ← lift (text_of info "targetpath");
  name ← lift (text_of info "name_ana");
  qpath ← lift (fits 1024 (str "../sql/" ++ name ++ str ".sql"));
  isexist ← lcs_comm_filexist qpath;
  if negb isexist then mret no_query
  else
    db ← lift (fits 1024 (path ++ str "/lcs.db"));
    isexist ← lcs_comm_filexist db;
    if negb isexist then mret no_db
    else
      writepath ← lift (fits 1024 (path ++ str "/" ++ name ++ str ".analysis"));
      lcs_exec_sql lines cb qpath db writepath err.
Definition lcs_unit_analysis : (row -> res (list byte)) -> cfg -> Z -> io Z :=
  unit_analysis_at 186 196 (at_lines 220 227 234 240 246 252).

(** [main], after the configuration: 0 is [EXIT_SUCCESS]. *)
Definition report_main (path : list byte) (st : segments) : io Z :=
  '(info, _) ← lcs_cfg_load path (cleared template_members) 0;
  '(an, ad, un, ud) ← lift (lcs_audd_loadshm info st);
  err ← lcs_unit_analysis (lcs_exec_cbtrue un ud) info 0;
  mret (if err =? 0 then 0 else 1).

End Program.

(** ** The join *)

(** The line of a call [c] (the fifteen columns of the query) of the customer [ss] (the seven
    columns of the table of customers). *)
Definition skilled (ss : list (list byte)) : bool := wrap 16 (default 0 (scan_lu (nth 2 ss []))) =? 1.
Definition if_text (s : list byte) (t : list byte) : list byte := match s with [] => [] | _ => t end.
Definition code_text (pds : bool) (code : list byte) : list byte :=
  if zlen code =? 1 then (if pds then str "PD_NKP" else str "NKP")
  else if zlen code =? 2 then str "ANSWER"
  else (if pds then str "PD_NAB" else str "NAB").
Definition remark_text (pds : bool) (phone rem : list byte) : list byte :=
  str "Uptrail_Auto_" ++ phone ++ str "_" ++
  cell (if strcmp rem (str "NO ANSWER") =? 0 then (if pds then str "PD_NKP" else str "NKP")
        else (if pds then str "PD_NAP" else str "NAB")).
Definition report_line (ss c : list (list byte)) : list byte :=
  let pds := skilled ss in
  let app := nth 4 ss [] in
  cell (if_text (nth 0 c []) (if zlen app =? 16 then str "VPBFC" else str "VPBANK")) ++
  cell app ++ cell (if_text (nth 3 c []) (nth 3 ss [])) ++
  cell (if_text (nth 4 c []) (if pds then str "PDS00000" else str "ES100000")) ++
  cell (nth 5 c []) ++ cell (nth 6 c []) ++ cell (code_text pds (nth 7 c [])) ++
  cell (nth 8 c []) ++ cell (nth 9 c []) ++ cell (nth 10 c []) ++ cell (nth 11 c []) ++
  cell (nth 12 c []) ++
  cell (if_text (nth 13 c []) (if pds then str "PDS" else str "ECS")) ++
  if_text (nth 14 c []) (remark_text pds (nth 6 ss []) (nth 14 c [])) ++ [tab] ++ [nl].

(** The number of the customer of a call, and the columns a row of the report has; its mark
    of the action is not empty. *)
Definition call_number (c : list (list byte)) : Z := default 0 (scan_lu (nth 0 c [])).
Definition call_ok (c : list (list byte)) : Prop := length c = 15%nat /\ nth 7 c [] <> [] /\
  Forall no_nul c.

(** Takes a list of known length apart. *)
Ltac cells c H :=
  repeat (destruct c as [|? c]; [discriminate H|]); destruct c; [|discriminate H].

Lemma no_nul_head b s : no_nul (b :: s) -> b2z b <> 0.
Proof. intros Hn. apply Forall_cons in Hn as [Hb _]. intros He. apply Hb. by apply b2z_zero. Qed.

Lemma action_code_ok p0 code :
  no_nul code -> code <> [] ->
  action_code p0 code
  = if zlen code =? 2 then Ok (cell (str "ANSWER"))
    else s ← auto_skill p0; Ok (cell (code_text s code)).
Proof.
  intros Hn Hne. unfold action_code, char_at, code_text. destruct code as [|b1 [|b2 [|b3 code]]]; try done.
  - cbn. apply Forall_cons in Hn as [_ Hn]. apply no_nul_head in Hn.
    replace (b2z b2 =? 0) with false by (symmetry; by apply Z.eqb_neq). done.
  - cbn. apply Forall_cons in Hn as [_ Hn]. pose proof (no_nul_head _ _ Hn) as H2.
    apply Forall_cons in Hn as [_ Hn]. pose proof (no_nul_head _ _ Hn) as H3.
    replace (b2z b2 =? 0) with false by (symmetry; by apply Z.eqb_neq).
    replace (b2z b3 =? 0) with false by (symmetry; by apply Z.eqb_neq).
    replace (zlen (b1 :: b2 :: b3 :: code) =? 1) with false; [|symmetry; apply Z.eqb_neq; rewrite !zlen_cons; pose proof (zlen_nonneg code); lia].
    replace (zlen (b1 :: b2 :: b3 :: code) =? 2) with false; [done|symmetry; apply Z.eqb_neq; rewrite !zlen_cons; pose proof (zlen_nonneg code); lia].
Qed.

(** The tests for an empty column. *)
Lemma if_text_ok s t : match s with [] => Ok [] | _ :: _ => Ok t end = Ok (if_text s t).
Proof. by destruct s. Qed.
Lemma if_cell_ok s t : match s with [] => Ok [tab] | _ :: _ => Ok (cell t) end = Ok (cell (if_text s t)).
Proof. by destruct s. Qed.
Lemma code_ok (pds : bool) code :
  (if zlen code =? 2 then Ok (cell (str "ANSWER")) else Ok (cell (code_text pds code)))
  = Ok (cell (code_text pds code)).
Proof.
  destruct (zlen code =? 2) eqn:E; [|done]. unfold code_text. rewrite E. b2p. by rewrite E.
Qed.
Lemma remarks_ok r phone rem :
  text_of (chars r) "phone_number" = Ok phone ->
  remarks (Some r) rem = Ok (if_text rem (remark_text (num_of r "skill" =? 1) phone rem) ++ [tab]).
Proof.
  intros Hp. destruct rem as [|b rem]; [done|]. unfold remarks, customer_text. rewrite Hp.
  cbn [mbind res_bind if_text]. unfold remark_text. change (str "Uptrail_Auto_") with (str "Uptrail_Auto" ++ str "_").
  by rewrite <- !app_assoc.
Qed.

Section Join.
Variables (n : Z) (d : list slot).

(** The line of a call whose customer is found. *)
Lemma line_found c ss r :
  call_ok c -> Forall2 (col_set r) audd_all ss ->
  find_audd n d (call_number c) = Ok (Some r) ->
  lcs_exec_cbtrue n d (map Some c) = Ok (report_line ss c).
Proof.
  intros (Hc & H7 & Hn) Hs Hf.
  pose proof (Forall2_length _ _ _ Hs) as Hl. symmetry in Hl. cells ss Hl. cells c Hc.
  unfold audd_all, audd_columns in Hs. cbn [app] in Hs. rewrite !Forall2_cons in Hs.
  cbn [col_set] in Hs. destruct Hs as (_ & _ & Hskill & Hcust & Happ & _ & Hphone & _).
  rewrite !Forall_cons in Hn. unfold lcs_exec_cbtrue, call_number in *. cbn [map nth] in *.
  unfold col. cbn [row lookup list_lookup mbind res_bind].
  rewrite Hf. cbn [mbind res_bind customer_text auto_skill]. rewrite Happ, Hcust. cbn [mbind res_bind].
  rewrite action_code_ok by tauto. cbn [auto_skill mbind res_bind].
  rewrite code_ok, if_text_ok, if_cell_ok, (remarks_ok _ _ _ Hphone). cbn [mbind res_bind].
  rewrite Hskill. unfold report_line, skilled. cbn [nth]. f_equal. rewrite <- !app_assoc.
  repeat f_equal; match goal with |- match ?l with _ => _ end = _ => by destruct l | _ => idtac end.
  match goal with |- match ?l with _ => _ end _ = _ => by destruct l end.
Qed.

(** Without a customer only an answered call has a line. *)
Lemma line_missing c :
  call_ok c -> find_audd n d (call_number c) = Ok None ->
  if (zlen (nth 7 c []) =? 2) && bool_decide (nth 13 c [] = [])
  then exists t, lcs_exec_cbtrue n d (map Some c) = Ok t
  else lcs_exec_cbtrue n d (map Some c) = Fault NullDeref.
Proof.
  intros (Hc & H7 & Hn) Hf. cells c Hc.
  rewrite !Forall_cons in Hn. unfold lcs_exec_cbtrue, call_number in *. cbn [map nth] in *.
  unfold col. cbn [row lookup list_lookup mbind res_bind].
  rewrite Hf. cbn [mbind res_bind customer_text]. rewrite if_text_ok, action_code_ok by tauto.
  cbn [mbind res_bind auto_skill].
  destruct (zlen _ =? 2); cbn [andb mbind res_bind]; [|done].
  case_bool_decide as E.
  - rewrite E. cbn [mbind res_bind].
    match goal with |- context [remarks None ?r] => destruct r end; eexists; reflexivity.
  - by match goal with |- context [match ?l with [] => Ok [tab] | _ => _ end] => destruct l end.
Qed.
End Join.

(** ** The program on a table that was loaded *)

Section Report.
Context `{World}.

(** The file and the database of a report: its query, the rows the query has. *)
Record reports (qpath db sql : list byte) (calls : list (list (list byte))) : Prop := {
  rp_query : forall tr, exists fp, fopen_r tr qpath = Some fp /\ regular fp /\ f_bytes fp = sql;
  rp_text : no_nul sql;
  rp_db : forall tr, exists fp, fopen_r tr db = Some fp;
  rp_open : forall tr, (sqlite_open tr db).1 = 0;
  rp_exec : forall tr q, (sqlite_exec tr q).1 = 0;
  rp_rows : forall tr, (sqlite_exec tr sql).2 = map (map Some) calls;
  rp_write : forall tr path, fopen_w tr path = true
}.

Lemma print_all path cb f rows tr :
  Forall (fun c => cb (map Some c) = Ok (f c)) rows ->
  print_rows path cb (map (map Some) rows) tr = Ok (tt, tr ++ map (EvPrint path) (map f rows)).
Proof.
  intros Hc. revert tr. induction Hc as [|c rows Hc _ IH]; intros tr; cbn [map print_rows].
  - by rewrite app_nil_r.
  - rewrite (io_bind_lift _ _ _ _ Hc), io_bind_emit, IH. by rewrite <- app_assoc.
Qed.
Lemma print_fault path cb f rows c rest e tr :
  Forall (fun c => cb (map Some c) = Ok (f c)) rows -> cb (map Some c) = Fault e ->
  print_rows path cb (map (map Some) (rows ++ c :: rest)) tr = Fault e.
Proof.
  intros Hc He. revert tr. induction Hc as [|r rows Hr _ IH]; intros tr; cbn [app map print_rows].
  - by apply io_bind_lift_fault.
  - rewrite (io_bind_lift _ _ _ _ Hr), io_bind_emit. apply IH.
Qed.

(** The events of a report: the file is opened, the query is run, the lines are printed. *)
Definition report_events (file db sql : list byte) (lines : list (list byte)) : trace :=
  [EvWrite file []; EvSqlOpen db; EvSqlExec (str "BEGIN TRANSACTION"); EvSqlExec sql] ++
  map (EvPrint file) lines ++ [EvSqlExec (str "END TRANSACTION")].
Lemma report_content file db sql lines :
  content_of file (report_events file db sql lines) = Some (concat lines).
Proof.
  unfold report_events. rewrite app_assoc, content_of_snoc.
  induction lines as [|l lines IH] using rev_ind.
  - unfold content_of. cbn. by rewrite decide_True.
  - rewrite map_app, app_assoc. cbn [map]. rewrite content_of_snoc, decide_True, IH by done.
    by rewrite concat_app, concat_cons, app_nil_r.
Qed.

Lemma exec_sql_ok lines cb f qpath db writepath sql calls tr :
  reports qpath db sql calls -> Forall (fun c => cb (map Some c) = Ok (f c)) calls ->
  lcs_exec_sql lines cb qpath db writepath 0 tr
  = Ok (0, tr ++ report_events writepath db sql (map f calls)).
Proof.
  intros [Rq Rt Rd Ro Re Rr Rw] Hc. destruct lines as [[[[[lf lq] lo] lb] lx] le].
  destruct (Rq (tr ++ [EvWrite writepath []])) as (fp & Hq & Hreg & Hb).
  unfold lcs_exec_sql. rewrite io_bind_ask, Rw. cbn [negb]. rewrite io_bind_emit.
  rewrite (io_bind_ok _ _ _ _ _ (lcs_file_text_ok _ None 0 _ fp Hq Hreg)), Hb.
  rewrite (io_bind_lift _ _ _ sql) by (by apply cstr_terminated). unfold run_sql.
  rewrite io_bind_ask, Ro, io_bind_emit. cbn [negb Z.eqb].
  rewrite (io_bind_ok _ _ _ 0 _ (exec_ok _ _ Re)). cbn [negb Z.eqb].
  unfold exec_print. rewrite io_bind_assoc, io_bind_ask. set (tr1 := _ ++ [EvSqlExec _]).
  pose proof (Re tr1 sql) as E0. pose proof (Rr tr1) as E1. destruct (sqlite_exec tr1 sql) as [e rows]. cbn [fst snd] in E0, E1. subst e rows.
  rewrite io_bind_assoc, io_bind_emit, io_bind_assoc, (io_bind_ok _ _ _ _ _ (print_all _ _ _ _ _ Hc)), io_bind_ret.
  cbn [negb Z.eqb]. rewrite (io_bind_ok _ _ _ 0 _ (exec_ok _ _ Re)).
  cbn [negb Z.eqb]. unfold mret, io_ret, tr1, report_events. by rewrite <- !app_assoc.
Qed.

(** A row without a line ends the program; the lines of the rows before it were printed. *)
Lemma exec_sql_fault lines cb f qpath db writepath sql good c rest e tr :
  reports qpath db sql (good ++ c :: rest) -> Forall (fun c => cb (map Some c) = Ok (f c)) good ->
  cb (map Some c) = Fault e ->
  lcs_exec_sql lines cb qpath db writepath 0 tr = Fault e.
Proof.
  intros [Rq Rt Rd Ro Re Rr Rw] Hc He. destruct lines as [[[[[lf lq] lo] lb] lx] le].
  destruct (Rq (tr ++ [EvWrite writepath []])) as (fp & Hq & Hreg & Hb).
  unfold lcs_exec_sql. rewrite io_bind_ask, Rw. cbn [negb]. rewrite io_bind_emit.
  rewrite (io_bind_ok _ _ _ _ _ (lcs_file_text_ok _ None 0 _ fp Hq Hreg)), Hb.
  rewrite (io_bind_lift _ _ _ sql) by (by apply cstr_terminated). unfold run_sql.
  rewrite io_bind_ask, Ro, io_bind_emit. cbn [negb Z.eqb].
  rewrite (io_bind_ok _ _ _ 0 _ (exec_ok _ _ Re)). cbn [negb Z.eqb]. apply io_bind_fault.
  unfold exec_print. rewrite io_bind_ask. set (tr1 := _ ++ [EvSqlExec _]).
  pose proof (Rr tr1) as E1. destruct (sqlite_exec tr1 sql) as [z rows]. cbn [snd] in E1. subst rows.
  rewrite io_bind_emit. apply io_bind_fault. by apply (print_fault _ _ f).
Qed.

Lemma unit_analysis_at_ok q d lines cb info path name sql calls tr :
  text_of info "targetpath" = Ok path -> text_of info "name_ana" = Ok name ->
  zlen path < 900 -> zlen name < 64 ->
  reports (str "../sql/" ++ name ++ str ".sql") (path ++ str "/lcs.db") sql calls ->
  unit_analysis_at q d lines cb info 0 tr
  = lcs_exec_sql lines cb (str "../sql/" ++ name ++ str ".sql") (path ++ str "/lcs.db")
      (path ++ str "/" ++ name ++ str ".analysis") 0 tr.
Proof.
  intros Hp Hn Zp Zn [Rq _ Rd _ _ _ _]. unfold unit_analysis_at.
  rewrite (io_bind_lift _ _ _ path), (io_bind_lift _ _ _ name) by done.
  io_fits ltac:(text_len). destruct (Rq tr) as (fp & Hq & _). unfold lcs_comm_filexist.
  rewrite io_bind_ask, Hq. cbn [negb]. io_fits ltac:(text_len).
  destruct (Rd tr) as (fd & Hd). rewrite io_bind_ask, Hd. cbn [negb]. by io_fits ltac:(text_len).
Qed.

Lemma unit_analysis_ok q d lines cb f info path name sql calls tr :
  text_of info "targetpath" = Ok path -> text_of info "name_ana" = Ok name ->
  zlen path < 900 -> zlen name < 64 ->
  reports (str "../sql/" ++ name ++ str ".sql") (path ++ str "/lcs.db") sql calls ->
  Forall (fun c => cb (map Some c) = Ok (f c)) calls ->
  unit_analysis_at q d lines cb info 0 tr
  = Ok (0, tr ++ report_events (path ++ str "/" ++ name ++ str ".analysis") (path ++ str "/lcs.db") sql
                   (map f calls)).
Proof.
  intros Hp Hn Zp Zn Hr Hc. rewrite (unit_analysis_at_ok q d lines cb info path name sql calls tr) by done.
  by apply exec_sql_ok.
Qed.

(** The customer of a call, and the line of the call. *)
Definition customer_of (customers : list (list (list byte))) (c : list (list byte))
    : option (list (list byte)) :=
  List.find (fun ss => audd_key ss =? call_number c) customers.
Definition joined (customers : list (list (list byte))) (c : list (list byte)) : list byte :=
  match customer_of customers c with Some ss => report_line ss c | None => [] end.

(** C18: The report is the join of the calls with the customers: when the customers have been
    loaded into shared memory, with consecutive numbers and where there were no such segments,
    and the databases answer with rows that fit, the program for the report opens its file, runs
    the query, and prints for every call, in order, the line of the call and the customer with
    its number, which the file then holds. At the first call without a customer in the table,
    unless it was answered, the program follows a null pointer and ends: the file is open then,
    and the lines of the calls before it were printed, but not the report. *)
Theorem report_joins linfo info prefix ldb st customers a an ai path name sql calls tr :
  text_of linfo "prefixshmkey" = Ok prefix -> text_of info "prefixshmkey" = Ok prefix ->
  zlen prefix < 240 -> 0 < zlen customers -> (zlen customers + 1) * 360 < 2 ^ 31 ->
  serves ldb audd_count audd_select customers ->
  Forall (row_fits lcs_mmap_auto_dial_detail audd_all) customers ->
  (forall i ss, customers !! i = Some ss -> audd_key ss = a + Z.of_nat i) ->
  segment_at st (prefix ++ str ".agent.num") = Some (NumSegment an ai) ->
  segment_at st (prefix ++ str ".audd.num") = None ->
  segment_at st (prefix ++ str ".audd.data") = None ->
  text_of info "targetpath" = Ok path -> text_of info "name_ana" = Ok name ->
  zlen path < 900 -> zlen name < 64 ->
  reports (str "../sql/" ++ name ++ str ".sql") (path ++ str "/lcs.db") sql calls ->
  Forall call_ok calls ->
  exists st' tr' ad un ud,
    lcs_audd_shmload linfo ldb st tr = Ok ((st', 0), tr') /\
    lcs_audd_loadshm info st' = Ok (an, ad, un, ud) /\
    let file := path ++ str "/" ++ name ++ str ".analysis" in
    let evs := report_events file (path ++ str "/lcs.db") sql (map (joined customers) calls) in
    (Forall (fun c => is_Some (customer_of customers c)) calls ->
     lcs_unit_analysis (lcs_exec_cbtrue un ud) info 0 tr' = Ok (0, tr' ++ evs) /\
     content_of file evs = Some (concat (map (joined customers) calls))) /\
    (forall good c rest, calls = good ++ c :: rest ->
       Forall (fun c => is_Some (customer_of customers c)) good -> customer_of customers c = None ->
       (zlen (nth 7 c []) =? 2) && bool_decide (nth 13 c [] = []) = false ->
       lcs_unit_analysis (lcs_exec_cbtrue un ud) info 0 tr' = Fault NullDeref /\
       forall t, print_rows file (lcs_exec_cbtrue un ud) (map (map Some) good) t
                 = Ok (tt, t ++ map (EvPrint file) (map (joined customers) good))).
Proof.
  intros Hl Hp Hz Hn Hs Hsv Hf Ha Sa S1 S2 Ht Hna Zp Zn Hr Hc.
  destruct (audd_load linfo prefix ldb st customers tr Hl Hz Hn Hs Hsv Hf S1 S2) as (tr' & Hload).
  set (n := zlen customers) in *. set (ud := g_slots (audd_state n (S (length customers)) customers)) in *.
  assert (Hfind : forall u, 0 <= u -> find_audd n ud u
    = Ok (row_record lcs_mmap_auto_dial_detail audd_all <$> List.find (fun ss => audd_key ss =? u)
         (take 2 (List.filter (fun ss => audd_key ss mod n =? u mod n) customers)))).
  { intros u Hu. apply find_audd_ok; [lia|unfold n, zlen; lia|lia|done|done]. }
  assert (Hline : forall c, call_ok c -> is_Some (customer_of customers c) ->
                   lcs_exec_cbtrue n ud (map Some c) = Ok (joined customers c)).
  { intros c Hok [ss Hss]. unfold joined.
    rewrite Hss. unfold customer_of in Hss. apply find_some in Hss as [Hin' Hk]. b2p.
    apply list_elem_of_In in Hin'.
    apply (line_found n ud c ss (row_record lcs_mmap_auto_dial_detail audd_all ss)).
    - done.
    - rewrite Forall_forall in Hf. by apply (row_record_ok _ _ _ audd_all_nodup (Hf _ Hin')).
    - rewrite <- Hk, Hfind by apply audd_key_range. unfold n.
      by rewrite (consecutive_find customers a ss Ha Hin'). }
  assert (Hgood : forall l, Forall call_ok l -> Forall (fun c => is_Some (customer_of customers c)) l ->
                   Forall (fun c => lcs_exec_cbtrue n ud (map Some c) = Ok (joined customers c)) l).
  { intros l Hl1 Hl2. rewrite Forall_forall in *. intros c Hin. apply Hline; auto. }
  eexists _, tr', _, n, ud. split; [exact Hload|]. split; [|split].
  - unfold lcs_audd_loadshm. rewrite Hp. cbn [mbind res_bind].
    rewrite !fits_ok by text_len. cbn [mbind res_bind]. unfold read_num.
    set (st' := _ :: _ :: _ :: st).
    assert (E1 : segment_at st' (prefix ++ str ".agent.num") = Some (NumSegment an ai)).
    { unfold st'. by do 3 rewrite segment_next by (by apply keys_differ). }
    assert (E2 : segment_at st' (prefix ++ str ".audd.data") = Some (SlotSegment ud)).
    { unfold st'. rewrite segment_next by (by apply keys_differ). apply segment_head. }
    rewrite E1, (segment_head _ _ _ : segment_at st' (prefix ++ str ".audd.num") = _).
    cbn [mbind res_bind]. unfold read_slots at 2. by rewrite E2.
  - intros Hall. split; [|apply report_content].
    apply (unit_analysis_ok 186 196 _ _ (joined customers) info path name sql calls tr'); auto.
  - intros good c rest -> Hg Hno Hun. apply Forall_app in Hc as [Hcg [Hco _]%Forall_cons].
    assert (Hbad : lcs_exec_cbtrue n ud (map Some c) = Fault NullDeref).
    { pose proof (line_missing n ud c Hco) as Hm. rewrite Hun in Hm. apply Hm. rewrite Hfind.
      + replace (List.find _ _) with (@None (list (list byte))); [done|]. symmetry.
        destruct (List.find _ _) as [ss|] eqn:E; [|done]. apply find_some in E as [Hin Hk].
        apply list_elem_of_In, elem_take_filter, list_elem_of_In in Hin.
        unfold customer_of in Hno. by rewrite (List.find_none _ _ Hno _ Hin) in Hk.
      + unfold call_number. destruct (scan_lu (nth 0 c [])) eqn:E; cbn; [|lia].
        apply scan_lu_range in E. lia. }
    split; [|intros t; by apply print_all, Hgood].
    unfold lcs_unit_analysis. rewrite (unit_analysis_at_ok _ _ _ _ info path name sql _ tr') by done.
    by apply (exec_sql_fault _ _ (joined customers) _ _ _ sql good c rest), Hbad; [|apply Hgood].
Qed.

End Report.

(** ** A concrete report *)

Module Report8.
Definition calls : list (list (list byte)) :=
  map (map str)
    [["2947"; "?"; "?"; "?"; "?"; "29/10/2017"; "08:15"; "?"; "PHONE"; "NOBODY"; "TMPADD"; "VND";
      "MOBC"; "?"; "NO ANSWER"];
     ["2946"; ""; "?"; ""; ""; ""; ""; "?2"; ""; ""; ""; ""; ""; ""; ""]]%string.
Definition query : list byte := str "select x;".
#[local] Instance world : World :=
  answering (reading (toy_world [] None None None) [(str "../sql/A8.sql", query); (str "/w/lcs.db", [])])
    [(audd_count, [[Some (str "3")]]); (audd_select, map (map Some) SharedTables.Sample.customers);
     (query, map (map Some) calls)].
Definition info : cfg :=
  fold_right (fun '(f, v) c => assign c f v) (cleared template_members)
    [("targetpath", str "/w"); ("name_ana", str "A8"); ("prefixshmkey", str "u.s.d")]%string.

Lemma db_customers : serves (str "lcs.db") audd_count audd_select SharedTables.Sample.customers.
Proof. by split. Qed.
Lemma reports_calls : reports (str "../sql/A8.sql") (str "/w/lcs.db") query calls.
Proof.
  split; try done.
  - intros tr. eexists. split; [reflexivity|]. by split.
  - repeat constructor; discriminate.
  - intros tr. eexists. reflexivity.
Qed.
Lemma calls_ok : Forall call_ok calls.
Proof.
  unfold calls. cbn [map].
  repeat (apply Forall_cons; split;
    [split; [reflexivity|split; [discriminate|repeat constructor; discriminate]]|]). constructor.
Qed.

Lemma report_joins_witness :
  exists st' tr' ad un ud,
    lcs_audd_shmload Sample.info (str "lcs.db") [(str "u.s.d.agent.num", NumSegment 0 0)] []
    = Ok ((st', 0), tr') /\
    lcs_audd_loadshm info st' = Ok (0, ad, un, ud) /\
    lcs_unit_analysis (lcs_exec_cbtrue un ud) info 0 tr'
    = Ok (0, tr' ++ report_events (str "/w/A8.analysis") (str "/w/lcs.db") query
                      (map (joined SharedTables.Sample.customers) calls)).
Proof.
  destruct (report_joins Sample.info info (str "u.s.d") (str "lcs.db")
    [(str "u.s.d.agent.num", NumSegment 0 0)] Sample.customers 2946 0 0 (str "/w") (str "A8") query
    calls []) as (st' & tr' & ad & un & ud & H1 & H2 & H3 & _).
  - by vm_compute.
  - by vm_compute.
  - reflexivity.
  - reflexivity.
  - reflexivity.
  - exact db_customers.
  - exact Sample.customers_fit.
  - intros i r Hi. do 3 (destruct i as [|i]; [injection Hi as <-; reflexivity|]). discriminate.
  - reflexivity.
  - reflexivity.
  - reflexivity.
  - by vm_compute.
  - by vm_compute.
  - reflexivity.
  - reflexivity.
  - exact reports_calls.
  - exact calls_ok.
  - destruct H3 as [H3 _]; [repeat (apply Forall_cons; split; [eexists; vm_compute; reflexivity|]); constructor|].
    exists st', tr', ad, un, ud. split; [exact H1|]. split; [exact H2|exact H3].
Defined.
End Report8.
