(* ===== verification/AgentReport.v ===== *)
(** * The reports by agent

    Models src/cluster/A_000007_05m/main.c, A_000009_05m/main.c and A_000010_05m/a_000010_05m.c.
    Each runs the query of its report on the database of one directory and completes every
    row with the agent and, but for the first program, the customer of the call, which it
    searches in the tables in shared memory (SharedTables.v).  A row without agent or customer
    gets the text NULL in their place.  The older callbacks, which print a row cell by cell and
    which nothing calls any more, stand behind them. *)
From S2P Require Import Prelude CString OpenSSL World ToyWorld Config.
From S2P Require Import GenList Directories SharedTables CallReport.

(** ** Rows *)

(** [k] columns from [i] on, each followed by a tab. *)
Fixpoint cells (val : row) (i k : nat) : res (list byte) :=
  match k with
  | O => Ok []
  | S k => s ← col val i; t ← cells val (S i) k; Ok (cell s ++ t)
  end.
(** [p ? p->f : "NULL"] *)
Definition text_or_null (p : option record) (f : string) : res (list byte) :=
  match p with Some p => text_of (chars p) f | None => Ok (str "NULL") end.

Section Row.
(** [lcs_agt->n], [lcs_agt_ah], [lcs_audd->n] and [lcs_audd_auh]. *)
Variables (lcs_agt_n : Z) (lcs_agt_ah : list slot) (lcs_audd_n : Z) (lcs_audd_auh : list slot).

(** The callback of A_000009; that of A_000010 is the same.  Column 8 is printed in any case,
    the others but the last follow. *)
Definition lcs_exec_cbtrue (val : row) : res (list byte) :=
  let ncols := length val in
  v ← col val (ncols - 1);
  p0 ← find_audd lcs_audd_n lcs_audd_auh (default 0 (scan_lu v));
  v7 ← col val 7;
  p1 ← find_agent lcs_agt_n lcs_agt_ah v7;
  first ← cells val 0 6;
  context ← text_or_null p1 "vcontext";
  second ← cells val 6 2;
  name ← text_or_null p1 "name";
  third ← cells val 8 (Nat.max 1 (ncols - 1 - 8));
  phone ← text_or_null p0 "phone_type";
  Ok (first ++ cell context ++ second ++ cell name ++ third ++ cell phone ++ [nl]).

(** The callback of A_000007: the time of the talk counts when the channel of the call names
    the extension of the agent. *)
Definition talk_cbtrue (val : row) : res (list byte) :=
  let n := length val in
  v7 ← col val 7;
  p1 ← find_agent lcs_agt_n lcs_agt_ah v7;
  first ← cells val 0 6;
  context ← text_or_null p1 "vcontext";
  second ← cells val 6 2;
  name ← text_or_null p1 "name";
  third ← cells val 8 1;
  v9 ← col val 9;
  extension ← text_or_null p1 "fixed_extension";
  talk ← (match strstr v9 extension with Some _ => col val 10 | None => Ok (str "0") end);
  note ← col val (n - 1);
  Ok (first ++ cell context ++ second ++ cell name ++ third ++ cell talk ++ cell note ++ [nl]).

(** *** The older callbacks, which nothing calls any more *)

(** What the search for an agent prints: these texts of the agent, or a reminder; nothing when
    the hash is negative. *)
Fixpoint record_cells (p : record) (fs : list string) : res (list byte) :=
  match fs with
  | [] => Ok []
  | f :: fs => s ← text_of (chars p) f; t ← record_cells p fs; Ok (cell s ++ t)
  end.
Definition agent_cells (fs : list string) (number : list byte) : res (list byte) :=
  h ← lcs_comm_hash number (-1) lcs_agt_n;
  if -1 <? h then
    p ← find_agent lcs_agt_n lcs_agt_ah number;
    match p with Some p => record_cells p fs | None => Ok (cell (str "Add agent info here!!!")) end
  else Ok [].
(** The search for the customer does not stop at the first. *)
Fixpoint all_phones (u : Z) (h : list Z) : res (list byte) :=
  match h with
  | [] => Ok []
  | x :: h =>
    if x <? 0 then Ok []
    else
      '(a, _) ← slot_at lcs_audd_auh x;
      s ← (if u =? num_of a "id" then text_of (chars a) "phone_type" else Ok []);
      t ← all_phones u h;
      Ok (s ++ t)
  end.
Definition customer_phones (u : Z) : res (list byte) :=
  h ← lcs_comm_hash_audd u lcs_audd_n;
  if -1 <? as_int h then '(_, arr) ← slot_at lcs_audd_auh (as_int h); all_phones u arr else Ok [].

Definition lcs_exec_cb (val : row) : res (list byte) :=
  let i := (length val - 2)%nat in
  first ← cells val 0 i;
  v ← col val i;
  agent ← agent_cells ["name"; "vcontext"]%string v;
  v ← col val (S i);
  phones ← customer_phones (default 0 (scan_lu v));
  Ok (first ++ agent ++ phones ++ [nl]).
Definition A_000010_05m_cb (val : row) : res (list byte) := lcs_exec_cb val.
Definition A_000008_05m_cb (val : row) : res (list byte) := lcs_exec_cb val.
Definition talk_cb (val : row) : res (list byte) :=
  first ← cells val 0 (length val);
  v ← col val (length val - 1);
  agent ← agent_cells ["name"]%string v;
  Ok (first ++ agent ++ [nl]).

End Row.

(** ** The programs *)

Section Program.
Context `{World}.

Definition agent_members : list (string * Z) :=
  [("targetpath", 1024); ("name_ana", 64); ("prefixshmkey", 512)]%string.
(** [lcs_load_shmagent] of A_000007. *)
Definition lcs_load_shmagent (info : cfg) (st : segments) : res (Z * list slot) :=
  prefix ← text_of info "prefixshmkey";
  k1 ← fits 256 (prefix ++ str ".agent.num"); an ← read_num st k1;
  k2 ← fits 256 (prefix ++ str ".agent.data");
  Ok (an, read_slots st k2).

(** The three programs after [lcs_init_app]: A_000007 passes some errors of the database on and
    its [main] ends with [EXIT_SUCCESS] in any case. *)
Definition A_000007_05m_analysis : (row -> res (list byte)) -> cfg -> Z -> io Z :=
  unit_analysis_at 187 199 (1, 1, fun e => e, fun e => e, fun e => e, fun e => e).
Definition A_000007_05m_main (path : list byte) (st : segments) : io Z :=
  '(info, _) ← lcs_cfg_load path (cleared agent_members) 0;
  '(an, ad) ← lift (lcs_load_shmagent info st);
  _ ← A_000007_05m_analysis (talk_cbtrue an ad) info 0;
  mret 0.
Definition A_000009_05m_analysis : (row -> res (list byte)) -> cfg -> Z -> io Z :=
  unit_analysis_at 186 196 (at_lines 220 227 234 240 246 252).
(** [lcs_read_shmagent] and [lcs_audd_loadshm] are repeated in each program. *)
Definition A_000009_05m_loadshm (info : cfg) (st : segments) := lcs_audd_loadshm info st.
Definition A_000010_05m_loadshm (info : cfg) (st : segments) := lcs_audd_loadshm info st.
Definition A_000009_05m_main (path : list byte) (st : segments) : io Z :=
  '(info, _) ← lcs_cfg_load path (cleared template_members) 0;
  '(an, ad, un, ud) ← lift (A_000009_05m_loadshm info st);
  err ← A_000009_05m_analysis (lcs_exec_cbtrue an ad un ud) info 0;
  mret (if err =? 0 then 0 else 1).
Definition A_000010_05m_cbtrue := lcs_exec_cbtrue.
Definition A_000010_05m_analysis : (row -> res (list byte)) -> cfg -> Z -> io Z :=
  unit_analysis_at 186 196 (at_lines 220 227 234 240 246 252).
Definition A_000010_05m_main (path : list byte) (st : segments) : io Z :=
  '(info, _) ← lcs_cfg_load path (cleared template_members) 0;
  '(an, ad, un, ud) ← lift (A_000010_05m_loadshm info st);
  err ← A_000010_05m_analysis (A_000010_05m_cbtrue an ad un ud) info 0;
  mret (if err =? 0 then 0 else 1).

End Program.

(** ** The joins *)

(** No bucket of a table has more rows than its slots keep, and the numbers of agents are
    numbers: then every row is found. *)
Definition bucket_size (hs : list Z) (b : Z) : Z := zlen (List.filter (fun h => h =? b) hs).
Definition agents_spread (n : Z) (agents : list (list (list byte))) : Prop :=
  Forall (fun ss => scan_d (agent_key ss) <> None) agents /\
  forall b, bucket_size (map (agent_hash n) agents) b <= 4.
Definition customers_spread (n : Z) (customers : list (list (list byte))) : Prop :=
  forall b, bucket_size (map (fun ss => audd_key ss mod n) customers) b <= 2.

(** The agent and the customer with a number. *)
Definition agent_of (agents : list (list (list byte))) (number : list byte)
    : option (list (list byte)) :=
  List.find (fun ss => bool_decide (agent_key ss = number)) agents.
Definition customer_at (customers : list (list (list byte))) (u : Z) : option (list (list byte)) :=
  List.find (fun ss => audd_key ss =? u) customers.

Lemma take_bucket {A} (g : A -> Z) (l : list A) (b : Z) k :
  bucket_size (map g l) b <= Z.of_nat k ->
  take k (List.filter (fun x => g x =? b) l) = List.filter (fun x => g x =? b) l.
Proof.
  intros Hb. apply take_ge. unfold bucket_size, zlen in Hb.
  replace (length (List.filter (fun h => h =? b) (map g l)))
    with (length (List.filter (fun x => g x =? b) l)) in Hb; [lia|].
  clear Hb. induction l as [|x l IH]; [done|]. cbn [map List.filter].
  destruct (g x =? b); cbn [length]; by rewrite IH.
Qed.

(** A search in the rows of the right bucket finds what a search in all rows does. *)
Lemma find_filter {A} (p q : A -> bool) (l : list A) :
  (forall x, x ∈ l -> p x = true -> q x = true) -> List.find p (List.filter q l) = List.find p l.
Proof.
  induction l as [|x l IH]; intros Hpq; [done|]. cbn [List.filter List.find].
  assert (IH' : List.find p (List.filter q l) = List.find p l).
  { apply IH. intros y Hy. apply Hpq. by right. }
  destruct (q x) eqn:Eq; cbn [List.find]; destruct (p x) eqn:Ep; try done.
  rewrite (Hpq x) in Eq; [done|by left|done].
Qed.

Lemma find_customer n cap rows u :
  0 < n < 2 ^ 31 -> Z.of_nat cap = n + 1 -> (length rows <= cap)%nat -> 0 <= u ->
  Forall (row_fits lcs_mmap_auto_dial_detail audd_all) rows -> customers_spread n rows ->
  find_audd n (g_slots (audd_state n cap rows)) u
  = Ok (row_record lcs_mmap_auto_dial_detail audd_all <$> customer_at rows u).
Proof.
  intros Hn Hc Hl Hu Hf Hs. rewrite find_audd_ok by done. do 2 f_equal.
  rewrite (take_bucket (fun ss => audd_key ss mod n) rows (u mod n) 2) by apply Hs.
  apply find_filter. intros ss _ Hk. b2p. subst u. apply Z.eqb_refl.
Qed.

Lemma find_none {A} (p : A -> bool) l : (forall x, x ∈ l -> p x = false) -> List.find p l = None.
Proof.
  induction l as [|x l IH]; intros Hp; [done|]. cbn [List.find]. rewrite (Hp x) by by left.
  apply IH. intros y Hy. apply Hp. by right.
Qed.

Lemma find_agent_of n cap rows number :
  1 < n < 2 ^ 31 -> Z.of_nat cap = n + 1 -> (length rows <= cap)%nat -> no_nul number ->
  Forall (agent_ok n) rows -> agents_spread n rows ->
  find_agent n (g_slots (agent_state n cap rows)) number
  = Ok (row_record lcs_mmap_agents agent_all <$> agent_of rows number).
Proof.
  intros Hn Hc Hl Hnn Hf [Hd Hs]. rewrite Forall_forall in Hf, Hd.
  assert (Hh : exists h, lcs_comm_hash number (-1) n = Ok h /\
    forall ss, ss ∈ rows -> agent_key ss = number -> agent_hash n ss = h).
  { unfold lcs_comm_hash. decide_cmp. eexists. split; [reflexivity|]. intros ss Hin Hk.
    specialize (Hd ss Hin). cbn in Hd. rewrite Hk in Hd. unfold agent_hash. rewrite Hk.
    by destruct (scan_d number). }
  destruct Hh as (h & Hh & Hk). destruct (Z.lt_ge_cases h 0) as [Hneg|Hpos].
  - unfold find_agent. rewrite Hh. cbn [mbind res_bind]. decide_cmp.
    unfold agent_of. rewrite find_none; [done|]. intros ss Hin. apply bool_decide_eq_false.
    intros E. specialize (Hk ss Hin E). destruct (Hf ss Hin) as [_ H0]. lia.
  - rewrite (find_agent_ok n cap rows number h) by (done || lia || by apply Forall_forall).
    do 2 f_equal. rewrite (take_bucket (agent_hash n) rows h 4) by apply Hs.
    apply find_filter. intros ss Hin E. apply Z.eqb_eq, Hk; [done|]. by apply bool_decide_eq_true in E.
Qed.

(** The line of a call [c] in the two reports. *)
Definition field_of (found : option (list (list byte))) (k : nat) : list byte :=
  match found with Some ss => nth k ss [] | None => str "NULL" end.
Definition tabbed (l : list (list byte)) : list byte := concat (map cell l).
Definition agent_line (agents customers : list (list (list byte))) (c : list (list byte)) : list byte :=
  let agent := agent_of agents (nth 7 c []) in
  let customer := customer_at customers (default 0 (scan_lu (nth (length c - 1) c []))) in
  tabbed (take 6 c) ++ cell (field_of agent 3) ++ tabbed (take 2 (drop 6 c)) ++
  cell (field_of agent 12) ++ tabbed (take (length c - 9) (drop 8 c)) ++
  cell (field_of customer 1) ++ [nl].
Definition talk_line (agents : list (list (list byte))) (c : list (list byte)) : list byte :=
  let agent := agent_of agents (nth 7 c []) in
  tabbed (take 6 c) ++ cell (field_of agent 3) ++ tabbed (take 2 (drop 6 c)) ++
  cell (field_of agent 12) ++ tabbed [nth 8 c []] ++
  cell (match strstr (nth 9 c []) (field_of agent 18) with Some _ => nth 10 c [] | None => str "0" end) ++
  cell (nth (length c - 1) c []) ++ [nl].
Definition talk_ok (least : nat) (c : list (list byte)) : Prop :=
  (least <= length c)%nat /\ Forall no_nul c.

Lemma scan_nonneg s : 0 <= default 0 (scan_lu s).
Proof. destruct (scan_lu s) eqn:E; cbn; [apply scan_lu_range in E|]; lia. Qed.

Lemma talk_ok_le a b c : (a <= b)%nat -> talk_ok b c -> talk_ok a c.
Proof. intros Hab [Hl Hc]. split; [lia|done]. Qed.

Lemma col_some c i : (i < length c)%nat -> col (map Some c) i = Ok (nth i c []).
Proof.
  intros Hi. unfold col. destruct (lookup_lt_is_Some_2 c i Hi) as [s Hs].
  assert (Hl : map Some c !! i = Some (Some s)) by (by apply list_lookup_fmap_Some_2).
  unfold row in *. rewrite Hl. by rewrite (nth_lookup_Some _ _ _ _ Hs).
Qed.

Lemma cells_ok c i k :
  (i + k <= length c)%nat -> cells (map Some c) i k = Ok (tabbed (take k (drop i c))).
Proof.
  revert i. induction k as [|k IH]; intros i Hk; [done|]. cbn [cells].
  rewrite col_some by lia. cbn [mbind res_bind]. rewrite IH by lia. cbn [mbind res_bind].
  destruct (lookup_lt_is_Some_2 c i ltac:(lia)) as [s Hs].
  rewrite (drop_S _ _ _ Hs). cbn [take]. by rewrite (nth_lookup_Some _ _ _ _ Hs).
Qed.

(** The texts of what was found. *)
Lemma agent_texts (found : option (list (list byte))) :
  (forall ss, found = Some ss -> row_fits lcs_mmap_agents agent_all ss) ->
  let p := row_record lcs_mmap_agents agent_all <$> found in
  text_or_null p "vcontext" = Ok (field_of found 3) /\
  text_or_null p "name" = Ok (field_of found 12) /\
  text_or_null p "fixed_extension" = Ok (field_of found 18).
Proof.
  destruct found as [ss|]; intros Hf; [|done]. cbn [fmap option_fmap option_map text_or_null field_of].
  destruct (row_record_ok _ _ _ agent_all_nodup (Hf ss eq_refl)) as [_ Hs].
  pose proof (Forall2_length _ _ _ Hs) as Hl. symmetry in Hl. cells ss Hl.
  unfold agent_all, agent_columns in Hs. cbn [app] in Hs. rewrite !Forall2_cons in Hs.
  cbn [col_set] in Hs. cbn [nth]. tauto.
Qed.
(** The older callbacks name the same agent; of an agent that is not there they remind. *)
Lemma agent_cells_ok n cap rows number :
  1 < n < 2 ^ 31 -> Z.of_nat cap = n + 1 -> (length rows <= cap)%nat -> no_nul number ->
  Forall (agent_ok n) rows -> agents_spread n rows ->
  agent_cells n (g_slots (agent_state n cap rows)) ["name"; "vcontext"]%string number
  = Ok (if (match scan_d number with Some v => Z.rem (as_int v) n <? 0 | None => true end) then []
        else match agent_of rows number with
             | Some ss => cell (nth 12 ss []) ++ cell (nth 3 ss [])
             | None => cell (str "Add agent info here!!!")
             end).
Proof.
  intros Hn Hc Hl Hnn Hf Hs. unfold agent_cells, lcs_comm_hash.
  rewrite (proj2 (Z.eqb_neq n 0)) by lia. cbn [mbind res_bind].
  set (h := Z.rem (match scan_d number with Some v => as_int v | None => -1 end) n).
  assert (Hb : (match scan_d number with Some v => Z.rem (as_int v) n <? 0 | None => true end) = negb (-1 <? h)).
  { unfold h. destruct (scan_d number); [destruct (_ <? 0) eqn:E, (-1 <? _) eqn:E'; b2p; (done || lia)|].
    change (-1) with (- (1)). rewrite Z.rem_opp_l, Z.rem_small by lia. done. }
  rewrite Hb. destruct (-1 <? h); [|done]. cbn [negb].
  rewrite (find_agent_of n cap rows number Hn Hc Hl Hnn Hf Hs). cbn [mbind res_bind].
  destruct (agent_of rows number) as [ss|] eqn:E; [|done]. cbn [fmap option_fmap option_map].
  destruct (agent_texts (Some ss)) as (H1 & H2 & _).
  { intros ss' [= <-]. apply find_some in E as [Hin _]. rewrite Forall_forall in Hf. by apply Hf, list_elem_of_In. }
  cbn [fmap option_fmap option_map text_or_null field_of] in H1, H2. cbn [record_cells]. rewrite H2. cbn [mbind res_bind].
  rewrite H1. cbn [mbind res_bind]. by rewrite app_nil_r.
Qed.

Lemma customer_phone (found : option (list (list byte))) :
  (forall ss, found = Some ss -> row_fits lcs_mmap_auto_dial_detail audd_all ss) ->
  text_or_null (row_record lcs_mmap_auto_dial_detail audd_all <$> found) "phone_type"
  = Ok (field_of found 1).
Proof.
  destruct found as [ss|]; intros Hf; [|done]. cbn [fmap option_fmap option_map text_or_null field_of].
  destruct (row_record_ok _ _ _ audd_all_nodup (Hf ss eq_refl)) as [_ Hs].
  pose proof (Forall2_length _ _ _ Hs) as Hl. symmetry in Hl. cells ss Hl.
  unfold audd_all, audd_columns in Hs. cbn [app] in Hs. rewrite !Forall2_cons in Hs.
  cbn [col_set] in Hs. cbn [nth]. tauto.
Qed.
Lemma found_in {A} (p : A -> bool) (P : A -> Prop) l x :
  Forall P l -> List.find p l = Some x -> P x.
Proof.
  rewrite Forall_forall. intros Hp Hx. apply find_some in Hx as [Hin _].
  by apply Hp, list_elem_of_In.
Qed.

Section Lines.
Variables (agents customers : list (list (list byte))).
Let n := zlen agents.
Let m := zlen customers.
Hypotheses (Hn : 1 < n < 2 ^ 31) (Hm : 0 < m < 2 ^ 31).
Hypotheses (Hagents : Forall (agent_ok n) agents) (Hspread : agents_spread n agents).
Hypotheses (Hcustomers : Forall (row_fits lcs_mmap_auto_dial_detail audd_all) customers)
  (Hcspread : customers_spread m customers).

Let an := g_slots (agent_state n (S (length agents)) agents).
Let cn := g_slots (audd_state m (S (length customers)) customers).

Lemma agent_texts_of number :
  let found := agent_of agents number in
  let p := row_record lcs_mmap_agents agent_all <$> found in
  text_or_null p "vcontext" = Ok (field_of found 3) /\
  text_or_null p "name" = Ok (field_of found 12) /\
  text_or_null p "fixed_extension" = Ok (field_of found 18).
Proof.
  apply agent_texts. intros ss Hss. unfold agent_of in Hss.
  by destruct (found_in _ _ _ _ Hagents Hss) as [Hf _].
Qed.

Lemma line_agent c number :
  talk_ok 8 c -> nth 7 c [] = number ->
  find_agent n an number = Ok (row_record lcs_mmap_agents agent_all <$> agent_of agents number).
Proof.
  intros [Hl Hc] <-. apply find_agent_of; [lia|unfold n, zlen; lia|lia| |done|done].
  rewrite Forall_forall in Hc. apply Hc, list_elem_of_In, nth_In. lia.
Qed.

Lemma agent_line_ok c :
  talk_ok 10 c -> lcs_exec_cbtrue n an m cn (map Some c) = Ok (agent_line agents customers c).
Proof.
  intros [Hl Hc]. unfold lcs_exec_cbtrue. rewrite length_map, !col_some by lia.
  cbn [mbind res_bind]. set (u := default 0 (scan_lu (nth (length c - 1) c []))).
  assert (Hu : 0 <= u).
  { apply scan_nonneg. }
  assert (Hf : find_audd m cn u = Ok (row_record lcs_mmap_auto_dial_detail audd_all <$> customer_at customers u)).
  { apply find_customer; first [done | lia | unfold m, zlen; lia]. }
  rewrite Hf.
  cbn [mbind res_bind]. rewrite (line_agent c _ (talk_ok_le 8 10 c ltac:(repeat constructor) (conj Hl Hc)) eq_refl).
  destruct (agent_texts_of (nth 7 c [])) as (H1 & H2 & _).
  assert (H3 := customer_phone (customer_at customers u)
    (fun ss Hss => found_in _ _ _ _ Hcustomers Hss)).
  cbn [mbind res_bind]. rewrite !cells_ok by lia. cbn [mbind res_bind]. rewrite H1, H2.
  cbn [mbind res_bind]. rewrite H3. cbn [mbind res_bind]. unfold agent_line.
  change (drop 0 c) with c. fold u.
  by replace (Nat.max 1 (length c - 1 - 8)) with (length c - 9)%nat by lia.
Qed.

Lemma talk_line_ok c :
  talk_ok 11 c -> talk_cbtrue n an (map Some c) = Ok (talk_line agents c).
Proof.
  intros [Hl Hc]. unfold talk_cbtrue. rewrite length_map, !col_some by lia.
  cbn [mbind res_bind]. rewrite (line_agent c _ (talk_ok_le 8 11 c ltac:(repeat constructor) (conj Hl Hc)) eq_refl).
  destruct (agent_texts_of (nth 7 c [])) as (H1 & H2 & H3).
  cbn [mbind res_bind]. rewrite !cells_ok by lia. cbn [mbind res_bind]. rewrite H1, H2, H3.
  cbn [mbind res_bind]. unfold talk_line. change (drop 0 c) with c.
  destruct (lookup_lt_is_Some_2 c 8 ltac:(lia)) as [s Hs]. rewrite (drop_S _ _ _ Hs).
  rewrite (nth_lookup_Some _ _ _ _ Hs). cbn [take].
  by destruct (strstr (nth 9 c []) (field_of (agent_of agents (nth 7 c [])) 18)).
Qed.

End Lines.

(** ** The reports on tables that were loaded *)

Section Reports.
Context `{World}.

(** Agents and then customers are loaded and read. *)
Lemma read_agents info prefix st agents :
  text_of info "prefixshmkey" = Ok prefix -> zlen prefix < 240 ->
  let n := zlen agents in
  let d := g_slots (agent_state n (S (length agents)) agents) in
  let st' := (prefix ++ str ".agent.num", NumSegment n n) :: (prefix ++ str ".agent.data", SlotSegment d) ::
             (prefix ++ str ".agent.num", NumSegment n 0) :: st in
  lcs_load_shmagent info st' = Ok (n, d).
Proof.
  intros Hp Hz n d st'. unfold lcs_load_shmagent. rewrite Hp. cbn [mbind res_bind].
  rewrite !fits_ok by text_len. cbn [mbind res_bind]. unfold read_num, st'. rewrite segment_head.
  cbn [mbind res_bind]. unfold read_slots. rewrite segment_next by (by apply keys_differ).
  by rewrite segment_head.
Qed.

Lemma read_both info prefix st agents customers :
  text_of info "prefixshmkey" = Ok prefix -> zlen prefix < 240 ->
  let n := zlen agents in
  let m := zlen customers in
  let d := g_slots (agent_state n (S (length agents)) agents) in
  let c := g_slots (audd_state m (S (length customers)) customers) in
  let st' := (prefix ++ str ".audd.num", NumSegment m m) :: (prefix ++ str ".audd.data", SlotSegment c) ::
             (prefix ++ str ".audd.num", NumSegment m 0) ::
             (prefix ++ str ".agent.num", NumSegment n n) :: (prefix ++ str ".agent.data", SlotSegment d) ::
             (prefix ++ str ".agent.num", NumSegment n 0) :: st in
  lcs_audd_loadshm info st' = Ok (n, d, m, c).
Proof.
  intros Hp Hz n m d c st'. unfold lcs_audd_loadshm. rewrite Hp. cbn [mbind res_bind].
  rewrite !fits_ok by text_len. cbn [mbind res_bind]. unfold read_num, read_slots, st'.
  repeat first [rewrite segment_head | rewrite segment_next by (by apply keys_differ) |
                progress cbn [mbind res_bind]].
  reflexivity.
Qed.

Lemma skip_three (p a b c k : list byte) x y z st :
  a <> k -> b <> k -> c <> k ->
  segment_at ((p ++ a, x) :: (p ++ b, y) :: (p ++ c, z) :: st) (p ++ k) = segment_at st (p ++ k).
Proof. intros Ha Hb Hc. by rewrite !segment_next by (by apply keys_differ). Qed.

(** C21: The report by agent (A_000009, A_000010): after the loaders of agents and customers have
    run, in tables none of whose buckets is too small, the program writes for every call, in
    order, its columns with the context and the name of the agent whose number it has and the
    type of telephone of the customer whose number it has; NULL stands for those that are not
    in the tables.  Unlike the report of calls that were not connected it has no fault. *)
Theorem agents_join linfo info prefix ldb st agents customers path name sql calls tr :
  text_of linfo "prefixshmkey" = Ok prefix -> text_of info "prefixshmkey" = Ok prefix ->
  zlen prefix < 240 -> 1 < zlen agents -> (zlen agents + 1) * 2224 < 2 ^ 31 ->
  0 < zlen customers -> (zlen customers + 1) * 360 < 2 ^ 31 ->
  serves ldb agents_count agents_select agents -> serves ldb audd_count audd_select customers ->
  Forall (agent_ok (zlen agents)) agents -> agents_spread (zlen agents) agents ->
  Forall (row_fits lcs_mmap_auto_dial_detail audd_all) customers ->
  customers_spread (zlen customers) customers ->
  segment_at st (prefix ++ str ".agent.num") = None -> segment_at st (prefix ++ str ".agent.data") = None ->
  segment_at st (prefix ++ str ".audd.num") = None -> segment_at st (prefix ++ str ".audd.data") = None ->
  text_of info "targetpath" = Ok path -> text_of info "name_ana" = Ok name ->
  zlen path < 900 -> zlen name < 64 ->
  reports (str "../sql/" ++ name ++ str ".sql") (path ++ str "/lcs.db") sql calls ->
  Forall (talk_ok 10) calls ->
  exists st1 tr1 st2 tr2 an ad un ud,
    lcs_shm_load linfo ldb st tr = Ok ((st1, 0), tr1) /\
    lcs_audd_shmload linfo ldb st1 tr1 = Ok ((st2, 0), tr2) /\
    lcs_audd_loadshm info st2 = Ok (an, ad, un, ud) /\
    let file := path ++ str "/" ++ name ++ str ".analysis" in
    let evs := report_events file (path ++ str "/lcs.db") sql (map (agent_line agents customers) calls) in
    A_000009_05m_analysis (lcs_exec_cbtrue an ad un ud) info 0 tr2 = Ok (0, tr2 ++ evs) /\
    content_of file evs = Some (concat (map (agent_line agents customers) calls)).
Proof.
  intros Hl Hp Hz Hn Hns Hm Hms Hsa Hsc Ha Hspread Hc Hcs S1 S2 S3 S4 Ht Hna Zp Zn Hr Hcalls.
  destruct (agent_load linfo prefix ldb st agents tr Hl Hz ltac:(lia) Hns Hsa Ha S1 S2) as (tr1 & H1).
  match type of H1 with _ = Ok ((?st1, _), _) => set (loaded := st1) in H1 end.
  destruct (audd_load linfo prefix ldb loaded customers tr1 Hl Hz Hm Hms Hsc Hc)
    as (tr2 & H2); [unfold loaded; by rewrite skip_three..|].
  eexists _, tr1, _, tr2, _, _, _, _. split; [exact H1|]. split; [exact H2|].
  split; [by apply read_both|]. split; [|apply report_content].
  apply (unit_analysis_ok 186 196 _ _ (agent_line agents customers) info path name sql calls tr2); try done.
  eapply Forall_impl; [exact Hcalls|]. intros c Hok. apply agent_line_ok; first [done | lia].
Qed.

(** The report of talks (A_000007): after the loader of agents has run, the program writes for
    every call its columns with the context and the name of the agent; the time of the talk is
    0 unless the channel of the call contains the agent's fixed extension. *)
Theorem talks_join linfo info prefix ldb st agents path name sql calls tr :
  text_of linfo "prefixshmkey" = Ok prefix -> text_of info "prefixshmkey" = Ok prefix ->
  zlen prefix < 240 -> 1 < zlen agents -> (zlen agents + 1) * 2224 < 2 ^ 31 ->
  serves ldb agents_count agents_select agents ->
  Forall (agent_ok (zlen agents)) agents -> agents_spread (zlen agents) agents ->
  segment_at st (prefix ++ str ".agent.num") = None -> segment_at st (prefix ++ str ".agent.data") = None ->
  text_of info "targetpath" = Ok path -> text_of info "name_ana" = Ok name ->
  zlen path < 900 -> zlen name < 64 ->
  reports (str "../sql/" ++ name ++ str ".sql") (path ++ str "/lcs.db") sql calls ->
  Forall (talk_ok 11) calls ->
  exists st1 tr1 an ad,
    lcs_shm_load linfo ldb st tr = Ok ((st1, 0), tr1) /\
    lcs_load_shmagent info st1 = Ok (an, ad) /\
    let file := path ++ str "/" ++ name ++ str ".analysis" in
    let evs := report_events file (path ++ str "/lcs.db") sql (map (talk_line agents) calls) in
    A_000007_05m_analysis (talk_cbtrue an ad) info 0 tr1 = Ok (0, tr1 ++ evs) /\
    content_of file evs = Some (concat (map (talk_line agents) calls)).
Proof.
  intros Hl Hp Hz Hn Hns Hsa Ha Hspread S1 S2 Ht Hna Zp Zn Hr Hcalls.
  destruct (agent_load linfo prefix ldb st agents tr Hl Hz ltac:(lia) Hns Hsa Ha S1 S2) as (tr1 & H1).
  eexists _, tr1, _, _. split; [exact H1|]. split; [by apply read_agents|].
  split; [|apply report_content].
  apply (unit_analysis_ok 187 199 _ _ (talk_line agents) info path name sql calls tr1); try done.
  eapply Forall_impl; [exact Hcalls|]. intros c Hok. apply talk_line_ok; first [done | lia].
Qed.

End Reports.

(** ** Concrete reports *)

Module Report9.
Definition agents : list (list (list byte)) :=
  map (map str)
    [["1"; "0"; "1001"; "sales"; "READY"; "no"; "a@b"; "1001"; "Y"; "Y"; "N"; "7"; "Ann"; "x"; "09";
      "3"; "2"; "f1"; "5001"; "C"];
     ["2"; "0"; "1002"; "care"; "READY"; "no"; "c@d"; "1002"; "Y"; "Y"; "N"; "8"; "Bob"; "x"; "09";
      "3"; "2"; "f1"; "5002"; "C"]]%string.
Definition calls : list (list (list byte)) :=
  map (map str)
    [["1"; "2017-10-29 11:00:00"; "09"; "A"; "ANSWERED"; "COMPLETEAGENT"; "3"; "1001"; "5001";
      "SIP/5001"; "40"; "2947"];
     ["2"; "2017-10-29 11:01:00"; "09"; "A"; "ANSWERED"; "COMPLETECALLER"; "3"; "1003"; "5001";
      "SIP/5001"; "50"; "3000"]]%string.
Definition query : list byte := str "select x;".
#[local] Instance world : World :=
  answering (reading (toy_world [] None None None) [(str "../sql/A9.sql", query); (str "/w/lcs.db", [])])
    [(agents_count, [[Some (str "2")]]); (agents_select, map (map Some) agents);
     (audd_count, [[Some (str "3")]]); (audd_select, map (map Some) Sample.customers);
     (query, map (map Some) calls)].
Definition info : cfg :=
  fold_right (fun '(f, v) c => assign c f v) (cleared template_members)
    [("targetpath", str "/w"); ("name_ana", str "A9"); ("prefixshmkey", str "u.s.d")]%string.

Lemma both_tables : serves (str "lcs.db") agents_count agents_select agents /\
  serves (str "lcs.db") audd_count audd_select Sample.customers.
Proof. by repeat split. Qed.
Lemma agents_ok : Forall (agent_ok 2) agents.
Proof.
  unfold agents. cbn [map].
  repeat (apply Forall_cons; split;
    [split; [unfold row_fits, agent_all, agent_columns; cbn [app]; fits_cleared|by vm_compute]|]).
  constructor.
Qed.
(** A list of remainders has no bucket larger than itself. *)
Lemma bucket_size_le hs b : bucket_size hs b <= zlen hs.
Proof. unfold bucket_size, zlen. apply inj_le, List.filter_length_le. Qed.
Lemma agents_room : agents_spread 2 agents.
Proof.
  split; [repeat (apply Forall_cons; split; [by vm_compute|]); constructor|].
  intros b. etrans; [apply bucket_size_le|]. by vm_compute.
Qed.
Lemma customers_room : customers_spread 3 Sample.customers.
Proof.
  intros b. unfold bucket_size. change (map _ Sample.customers) with [0; 1; 2]. cbn [List.filter].
  destruct (0 =? b) eqn:E0, (1 =? b) eqn:E1, (2 =? b) eqn:E2; b2p; subst; try done; by vm_compute.
Qed.
Lemma reports_calls9 : reports (str "../sql/A9.sql") (str "/w/lcs.db") query calls.
Proof.
  split; try done.
  - intros tr. eexists. split; [reflexivity|]. by split.
  - repeat constructor; discriminate.
  - intros tr. eexists. reflexivity.
Qed.
Lemma calls9_ok : Forall (talk_ok 11) calls.
Proof.
  unfold calls. cbn [map]. repeat (apply Forall_cons; split;
    [split; [cbn; lia|repeat (apply Forall_cons; split; [repeat constructor; discriminate|]); constructor]|]).
  constructor.
Qed.

Lemma agents_join_witness :
  exists st1 tr1 st2 tr2 an ad un ud,
    lcs_shm_load Sample.info (str "lcs.db") [] [] = Ok ((st1, 0), tr1) /\
    lcs_audd_shmload Sample.info (str "lcs.db") st1 tr1 = Ok ((st2, 0), tr2) /\
    lcs_audd_loadshm info st2 = Ok (an, ad, un, ud) /\
    let evs := report_events (str "/w/A9.analysis") (str "/w/lcs.db") query (map (agent_line agents Sample.customers) calls) in
    A_000009_05m_analysis (lcs_exec_cbtrue an ad un ud) info 0 tr2 = Ok (0, tr2 ++ evs) /\
    content_of (str "/w/A9.analysis") evs = Some (concat (map (agent_line agents Sample.customers) calls)).
Proof.
  refine (agents_join Sample.info info (str "u.s.d") (str "lcs.db") [] agents Sample.customers
    (str "/w") (str "A9") query calls [] _ _ _ _ _ _ _ (proj1 both_tables) (proj2 both_tables)
    agents_ok agents_room Sample.customers_fit customers_room _ _ _ _ _ _ _ _ reports_calls9 _);
    try (by vm_compute); try reflexivity.
  eapply Forall_impl; [exact calls9_ok|]. intros c. apply talk_ok_le. lia.
Defined.
Lemma talks_join_witness :
  exists st1 tr1 an ad,
    lcs_shm_load Sample.info (str "lcs.db") [] [] = Ok ((st1, 0), tr1) /\
    lcs_load_shmagent info st1 = Ok (an, ad) /\
    let evs := report_events (str "/w/A9.analysis") (str "/w/lcs.db") query (map (talk_line agents) calls) in
    A_000007_05m_analysis (talk_cbtrue an ad) info 0 tr1 = Ok (0, tr1 ++ evs) /\
    content_of (str "/w/A9.analysis") evs = Some (concat (map (talk_line agents) calls)).
Proof.
  refine (talks_join Sample.info info (str "u.s.d") (str "lcs.db") [] agents (str "/w") (str "A9")
    query calls [] _ _ _ _ _ (proj1 both_tables) agents_ok agents_room _ _ _ _ _ _ reports_calls9
    calls9_ok); try (by vm_compute); try reflexivity.
Defined.
Example agent_lines : map (agent_line agents Sample.customers) calls =
  map (map (fun b => if decide (b = x7c) then tab else b))
    [str "1|2017-10-29 11:00:00|09|A|ANSWERED|COMPLETEAGENT|sales|3|1001|Ann|5001|SIP/5001|40|1|" ++ [nl];
     str "2|2017-10-29 11:01:00|09|A|ANSWERED|COMPLETECALLER|NULL|3|1003|NULL|5001|SIP/5001|50|NULL|" ++ [nl]].
Proof. by vm_compute. Qed.
End Report9.
