(* ===== verification/Counting.v ===== *)
(** * Counting calls by minute, hour and day

    Models the programs A_000001 to A_000004 of src/cluster, for five minutes (A_00000N_05m),
    an hour (A_00000N_hour) and a day (A_00000N_day); those of A_000001 are main.c each.  The
    first runs a query that counts calls by their outcome and writes one line for each; the
    other two add the lines of the subdirectories up, for four outcomes, and start the
    program below for the subdirectories that have no result yet.  The day starts one thread
    for each of these and waits for all of them. *)
From S2P Require Import Prelude CString OpenSSL World ToyWorld Config.
From S2P Require Import Directories SharedTables CallReport.

(** ** Lines *)

Definition lcs_arr_key : list (list byte) :=
  [str "ANSWERED"; str "BUSY"; str "FAILED"; str "NO ANSWER"].

(** What follows the number that ["%lu"] takes. *)
Definition number_rest (s : list byte) : list byte :=
  match drop_while is_space s with
  | b :: s' => drop_while is_digit (if (b2z b =? 45) || (b2z b =? 43) then s' else b :: s')
  | [] => []
  end.
(** [sscanf(pch, "%lu\t%s\t", &count, tmp)] with [count] 0 and [tmp] 64 zeros. *)
Definition scan_line (pch : list byte) : res (Z * list byte) :=
  match scan_lu pch with
  | None => Ok (0, [])
  | Some count =>
    tmp ← fits 64 (take_while (fun b => negb (is_space b)) (drop_while is_space (number_rest pch)));
    Ok (count, tmp)
  end.

(** [while(lcs_arr_key[j])]: the first key that starts with [tmp] gets the count. *)
Fixpoint add_count (keys : list (list byte)) (counts : list Z) (tmp : list byte) (count : Z)
    : list Z :=
  match keys, counts with
  | key :: keys, c :: counts =>
    if prefixb tmp key then wrap 32 (c + count) :: counts
    else c :: add_count keys counts tmp count
  | _, _ => counts
  end.

Fixpoint sum_lines (lines : list (list byte)) (counts : list Z) : res (list Z) :=
  match lines with
  | [] => Ok counts
  | pch :: lines =>
    '(count, tmp) ← scan_line pch;
    sum_lines lines (match tmp with [] => counts | _ => add_count lcs_arr_key counts tmp count end)
  end.
Definition lcs_hcollect_sum (text : list byte) (counts : list Z) : res (list Z) :=
  sum_lines (map snd (strtok [x0d; x0a] text)) counts.

(** [fprintf(fp, "%u\t%s\n", ...)] for every key. *)
Definition counts_text (counts : list Z) : list byte :=
  concat (map (fun '(c, key) => utoa c ++ [tab] ++ key ++ [nl]) (zip counts lcs_arr_key)).

Section Programs.
Context `{World}.

(** ** Five minutes *)

Definition unit_members : list (string * Z) := [("targetpath", 1024); ("name_ana", 64)]%string.
Definition unit_cfg_table : list entry :=
  [copy_to "targetpath" "targetpath_0001:"; copy_to "name_ana" "name_ana_0002:"].

(** [do ... while(i < n)] *)
Definition lcs_exec_cbtrue (val : row) : res (list byte) :=
  _ ← col val 0;
  cells ← (fix go (i : nat) (l : row) : res (list byte) :=
             match l with
             | [] => Ok []
             | _ :: l => s ← col val i; t ← go (S i) l; Ok (cell s ++ t)
             end) 0%nat val;
  Ok (cells ++ [nl]).
(** [lines] are the error codes of [lcs_exec_sql], the lines of the source. *)
Definition unit_analysis (lines : codes) (info : cfg) (err : Z) : io Z :=
  path ← lift (text_of info "targetpath");
  name ← lift (text_of info "name_ana");
  dbpath ← lift (fits 1024 (path ++ str "/lcs.db"));
  isexist ← lcs_comm_filexist dbpath;
  if negb isexist then mret err
  else
    writepath ← lift (fits 1024 (path ++ str "/" ++ name ++ str ".analysis"));
    query ← lift (fits 1024 (str "../sql/" ++ name ++ str ".sql"));
    lcs_exec_sql lines lcs_exec_cbtrue query dbpath writepath err.
(** [main] ends with [EXIT_SUCCESS] in any case. *)
Definition unit_main (lines : codes) (path : list byte) : io () :=
  '(info, _) ← cfg_load unit_cfg_table path (cleared unit_members) 0;
  _ ← unit_analysis lines info 0; mret tt.

(** ** One hour *)

Definition hour_members : list (string * Z) :=
  [("targetpath", 1024); ("name_ana", 64); ("subprocess", 1024)]%string.
Definition hour_cfg_table : list entry :=
  [copy_to "targetpath" "targetpath_0001:"; copy_to "name_ana" "name_ana_0002:";
   copy_to "subprocess" "subprocess_0003:"].

(** The path, which is given back also when the file cannot be opened. *)
Definition lcs_unit_config (dir sub ana : list byte) (err : Z) : io (list byte * Z) :=
  path ← lift (fits 1024 (dir ++ str "/" ++ sub ++ str "/" ++ ana ++ str ".config.cfg"));
  ok ← ask (fun tr => fopen_w tr path);
  if negb ok then mret (path, 1)
  else
    _ ← emit (EvWrite path (str "targetpath_0001:" ++ dir ++ str "/" ++ sub ++ [nl] ++
                            str "name_ana_0002:" ++ ana));
    mret (path, err).
Definition lcs_unit_gen (info : cfg) (dir sub ana : list byte) (err : Z) : io Z :=
  '(path, err) ← lcs_unit_config dir sub ana err;
  subprocess ← lift (text_of info "subprocess");
  cmd ← lift (fits 2048 (subprocess ++ str " " ++ path));
  _ ← lcs_bash_cmd cmd;
  mret err.

(** A text that was read is added. *)
Definition add_text (text : option (list byte)) (counts : list Z) : res (list Z) :=
  match text with
  | None => Ok counts
  | Some m => s ← cstr m; match s with [] => Ok counts | _ => lcs_hcollect_sum s counts end
  end.
Fixpoint hour_loop (info : cfg) (dir ana : list byte) (subs : list (list byte)) (counts : list Z)
    (err : Z) : io (list Z * Z) :=
  match subs with
  | [] => mret (counts, err)
  | sub :: subs =>
    tmp ← lift (fits 1024 (dir ++ str "/" ++ sub ++ str "/" ++ ana ++ str ".analysis"));
    '(text, err) ← lcs_file_text tmp None err;
    '(text, err) ← (match text with
                    | Some _ => mret (text, err)
                    | None => err ← lcs_unit_gen info dir sub ana err; lcs_file_text tmp None err
                    end);
    counts ← lift (add_text text counts);
    hour_loop info dir ana subs counts err
  end.

(** The counts and the result of opening the file for them. *)
Definition write_counts (dest : list byte) (counts : list Z) (err : Z) : io Z :=
  ok ← ask (fun tr => fopen_w tr dest);
  if negb ok then mret 1 else _ ← emit (EvWrite dest (counts_text counts)); mret err.
Definition lcs_hcollect_ana (info : cfg) (dir : list byte) (subs : list (list byte)) (err : Z) : io Z :=
  ana ← lift (text_of info "name_ana");
  '(counts, err) ← hour_loop info dir ana subs [0; 0; 0; 0] err;
  tmp ← lift (fits 1024 (dir ++ str "/" ++ ana ++ str ".analysis"));
  write_counts tmp counts err.

(** [main]: the array of names ends in a null pointer when it was not full. *)
Definition hour_main (path : list byte) : io () :=
  '(info, _) ← cfg_load hour_cfg_table path (cleared hour_members) 0;
  target ← lift (text_of info "targetpath");
  '(arrdir, err) ← lcs_comm_subdir target true 0;
  match arrdir with
  | None => lift (Fault NullDeref)
  | Some l =>
    if l_ends l then _ ← lcs_hcollect_ana info target (l_names l) err; mret tt
    else lift (Fault OobRead)
  end.

(** ** One day *)

(** [unit] is the name of the program for five minutes, in which the programs for the day
    differ.  What a thread does: [LCS_ANA001_HOUR] has six bytes for the name of the subdirectory. *)
Definition lcs_dgen_config (unit : list byte) (day hour ana : list byte) : io (option (list byte)) :=
  path ← lift (fits 1024 (day ++ str "/" ++ hour ++ str "/" ++ ana ++ str ".config.cfg"));
  ok ← ask (fun tr => fopen_w tr path);
  if negb ok then mret None
  else
    _ ← emit (EvWrite path (str "targetpath_0001:" ++ day ++ str "/" ++ hour ++ [nl] ++
                            str "name_ana_0002:" ++ ana ++ [nl] ++
                            str "subprocess_0003:" ++ unit));
    mret (Some path).
Definition lcs_dgen_subtask (unit : list byte) (info : cfg) (day hour ana : list byte) : io () :=
  path ← lcs_dgen_config unit day hour ana;
  match path with
  | None => mret tt
  | Some path =>
    subprocess ← lift (text_of info "subprocess");
    cmd ← lift (fits 1024 (subprocess ++ str " " ++ path ++ str " > /dev/null"));
    lcs_bash_cmd cmd
  end.

(** The subdirectories without a result, each with its thread; [room] is the size of the array
    for the name. *)
Fixpoint day_missing (room : Z) (dir ana : list byte) (subs : list (list byte)) : io (list (list byte)) :=
  match subs with
  | [] => mret []
  | sub :: subs =>
    tmp ← lift (fits 1024 (dir ++ str "/" ++ sub ++ str "/" ++ ana ++ str ".analysis"));
    isexist ← lcs_comm_filexist tmp;
    if isexist : bool then day_missing room dir ana subs
    else
      _ ← lift (fits 1024 dir); s ← lift (fits room sub); _ ← lift (fits 64 ana);
      rest ← day_missing room dir ana subs;
      mret (s :: rest)
  end.
Fixpoint day_tasks (unit : list byte) (info : cfg) (dir ana : list byte) (tasks : list (list byte))
    : io () :=
  match tasks with
  | [] => mret tt
  | sub :: tasks => _ ← lcs_dgen_subtask unit info dir sub ana; day_tasks unit info dir ana tasks
  end.
Fixpoint day_loop (dir ana : list byte) (subs : list (list byte)) (counts : list Z) (stale : bool)
    (err : Z) : io (list Z * bool * Z) :=
  match subs with
  | [] => mret (counts, stale, err)
  | sub :: subs =>
    tmp ← lift (fits 1024 (dir ++ str "/" ++ sub ++ str "/" ++ ana ++ str ".analysis"));
    '(text, err) ← lcs_file_text tmp None err;
    let stale := match text with Some _ => true | None => false end in
    counts ← lift (add_text text counts);
    day_loop dir ana subs counts stale err
  end.

(** The threads work in the order [sched] makes of them, while the main thread waits for the
    counter to become 0.  The last path is read once more; without subdirectories it was never
    set.  [stale] tells that [text] still points to the last text, which was freed: when the
    file is gone now, it is freed again. *)
Definition day_collect (unit : list byte) (info : cfg) (sched : list (list byte) -> list (list byte)) (dir : list byte)
    (subs : list (list byte)) (err : Z) : io Z :=
  ana ← lift (text_of info "name_ana");
  dest ← lift (fits 1024 (dir ++ str "/" ++ ana ++ str ".analysis"));
  tasks ← day_missing 6 dir ana subs;
  _ ← (match tasks with [] => mret tt | _ => emit (EvRemove dest) end);
  _ ← day_tasks unit info dir ana (sched tasks);
  '(counts, stale, err) ← day_loop dir ana subs [0; 0; 0; 0] false err;
  ok ← ask (fun tr => fopen_w tr dest);
  if negb ok then mret 1
  else
    _ ← emit (EvWrite dest (counts_text counts));
    match last subs with
    | None => lift (Fault OobRead)
    | Some sub =>
      '(text, err) ← lcs_file_text (dir ++ str "/" ++ sub ++ str "/" ++ ana ++ str ".analysis") None err;
      match text with
      | None => if stale : bool then lift (Fault DeadObject) else mret err
      | Some _ => mret err
      end
    end.
Definition day_main (unit : list byte) (path : list byte)
    (sched : list (list byte) -> list (list byte)) : io () :=
  '(info, _) ← cfg_load hour_cfg_table path (cleared hour_members) 0;
  target ← lift (text_of info "targetpath");
  '(arrdir, err) ← lcs_comm_subdir target true 0;
  match arrdir with
  | None => mret tt
  | Some l =>
    if l_ends l then _ ← day_collect unit info sched target (l_names l) err; mret tt
    else lift (Fault OobRead)
  end.

(** ** The four kinds of counts

    The programs for five minutes and for the day have the name of the one for five minutes
    and their line numbers as their only differences, those for the hour none. *)

Definition A_000001_05m_main := unit_main (at_lines 163 170 177 183 189 195).
Definition A_000001_day_main := day_main (str "../A_000001_05m/lcs_A_000001_05m").

Definition A_000002_05m_analysis := unit_analysis (at_lines 162 169 176 182 188 194).
Definition A_000002_05m_main := unit_main (at_lines 162 169 176 182 188 194).
Definition A_000002_hour_collect := lcs_hcollect_ana.
Definition A_000002_hour_main := hour_main.
Definition A_000002_day_subtask := lcs_dgen_subtask (str "../A_000002_05m/lcs_A_000002_05m").
Definition A_000002_day_collect := day_collect (str "../A_000002_05m/lcs_A_000002_05m").
Definition A_000002_day_main := day_main (str "../A_000002_05m/lcs_A_000002_05m").

Definition A_000003_05m_analysis := unit_analysis (at_lines 162 169 176 182 188 194).
Definition A_000003_05m_main := unit_main (at_lines 162 169 176 182 188 194).
Definition A_000003_hour_collect := lcs_hcollect_ana.
Definition A_000003_hour_main := hour_main.
Definition A_000003_day_subtask := lcs_dgen_subtask (str "../A_000003_05m/lcs_A_000003_05m").
Definition A_000003_day_collect := day_collect (str "../A_000003_05m/lcs_A_000003_05m").
Definition A_000003_day_main := day_main (str "../A_000003_05m/lcs_A_000003_05m").

Definition A_000004_05m_analysis := unit_analysis (at_lines 162 169 176 182 188 194).
Definition A_000004_05m_main := unit_main (at_lines 162 169 176 182 188 194).
Definition A_000004_hour_collect := lcs_hcollect_ana.
Definition A_000004_hour_main := hour_main.
Definition A_000004_day_subtask := lcs_dgen_subtask (str "../A_000004_05m/lcs_A_000004_05m").
Definition A_000004_day_collect := day_collect (str "../A_000004_05m/lcs_A_000004_05m").
Definition A_000004_day_main := day_main (str "../A_000004_05m/lcs_A_000004_05m").

End Programs.

(** ** Texts of counts *)

(** A row: a count and an outcome; its line, which ends in [suf] (the tab of the first program,
    nothing in the others). *)
Abbreviation counted_row := (Z * list byte)%type.
Definition count_line (suf : list byte) (r : counted_row) : list byte := utoa r.1 ++ [tab] ++ r.2 ++ suf.
Definition counted (suf : list byte) (rows : list counted_row) : list byte :=
  concat (map (fun r => count_line suf r ++ [nl]) rows).
Definition count_ok (r : counted_row) : Prop := 0 <= r.1 < 2 ^ 64 /\ r.2 ∈ lcs_arr_key.

(** The sum of the counts of one outcome, and the four counters after adding some rows. *)
Definition tally (key : list byte) (rows : list counted_row) : Z :=
  foldr (fun r s => (if bool_decide (r.2 = key) then r.1 else 0) + s) 0 rows.
Definition added (counts : list Z) (rows : list counted_row) : list Z :=
  zip_with (fun c key => wrap 32 (c + tally key rows)) counts lcs_arr_key.
Definition totals (rows : list counted_row) : list Z :=
  map (fun key => wrap 32 (tally key rows)) lcs_arr_key.

Lemma tally_app key a b : tally key (a ++ b) = tally key a + tally key b.
Proof. unfold tally. induction a; cbn in *; lia. Qed.

Lemma added_totals rows : added [0; 0; 0; 0] rows = totals rows.
Proof. reflexivity. Qed.

Lemma wrap_wrap x : wrap 32 (wrap 32 x) = wrap 32 x.
Proof. unfold wrap. by rewrite Zmod_mod. Qed.

Lemma wrap_add c x y : wrap 32 (wrap 32 (c + x) + y) = wrap 32 (c + (x + y)).
Proof. unfold wrap. rewrite Zplus_mod_idemp_l. f_equal. lia. Qed.

Lemma added_app counts a b : added (added counts a) b = added counts (a ++ b).
Proof.
  unfold added, lcs_arr_key. destruct counts as [|c1 [|c2 [|c3 [|c4 [|c5 counts]]]]]; cbn [zip_with]; try done;
    by rewrite !tally_app, !wrap_add.
Qed.

Lemma key_cases k : k ∈ lcs_arr_key -> k = str "ANSWERED" \/ k = str "BUSY" \/ k = str "FAILED" \/ k = str "NO ANSWER".
Proof.
  unfold lcs_arr_key. intros H. rewrite !elem_of_cons in H. rewrite elem_of_nil in H. tauto.
Qed.

Lemma added_nil counts :
  Forall (fun c => wrap 32 c = c) counts -> length counts = 4%nat -> added counts [] = counts.
Proof.
  intros Hw Hl. destruct counts as [|c1 [|c2 [|c3 [|c4 [|c5 counts]]]]]; try discriminate.
  rewrite !Forall_cons in Hw. unfold added, tally. cbn [foldr zip_with lcs_arr_key].
  rewrite !Z.add_0_r. by destruct Hw as (-> & -> & -> & -> & _).
Qed.

(** The word that is read of an outcome; it is looked for among the beginnings of the keys. *)
Definition word_of (k : list byte) : list byte := take_while (fun b => negb (is_space b)) k.

Lemma rest_word k suf :
  k ∈ lcs_arr_key -> suf = [] \/ suf = [tab] ->
  take_while (fun b => negb (is_space b)) (drop_while is_space (tab :: k ++ suf)) = word_of k /\
  zlen (word_of k) < 64 /\ word_of k <> [].
Proof.
  intros Hk [->| ->]; destruct (key_cases k Hk) as [->|[->|[->| ->]]]; by vm_compute.
Qed.

Lemma number_rest_ok c rest :
  0 <= c -> number_rest (utoa c ++ tab :: rest) = tab :: rest.
Proof.
  intros Hc. pose proof (utoa_digits c Hc) as Hd. pose proof (utoa_ne c). unfold number_rest.
  destruct (utoa c) as [|b s] eqn:E; [done|]. pose proof Hd as Hd'.
  apply Forall_cons in Hd' as [Hb _]. cbn [app drop_while]. rewrite digit_nonspace by done.
  assert (Hb' := Hb). unfold is_digit in Hb'. b2p. decide_cmp. cbn [orb].
  by apply (drop_while_stop is_digit (b :: s) tab rest).
Qed.

Lemma scan_line_ok suf r :
  count_ok r -> suf = [] \/ suf = [tab] -> scan_line (count_line suf r) = Ok (r.1, word_of r.2).
Proof.
  intros [Hc Hk] Hs. unfold scan_line, count_line. cbn [app].
  rewrite scan_lu_utoa by (first [done | by intros b s [= <- _]]).
  rewrite number_rest_ok by lia. destruct (rest_word r.2 suf Hk Hs) as (-> & Hl & _).
  by rewrite fits_ok.
Qed.

Lemma add_count_ok counts r :
  count_ok r -> Forall (fun c => wrap 32 c = c) counts -> length counts = 4%nat ->
  add_count lcs_arr_key counts (word_of r.2) r.1 = added counts [r].
Proof.
  intros [_ Hk] Hw Hl. destruct r as [c k]. cbn [fst snd] in *.
  destruct counts as [|c1 [|c2 [|c3 [|c4 [|c5 counts]]]]]; try discriminate.
  rewrite !Forall_cons in Hw. destruct Hw as (W1 & W2 & W3 & W4 & _).
  unfold added, tally. cbn [foldr fst snd zip_with lcs_arr_key].
  destruct (key_cases k Hk) as [->|[->|[->| ->]]];
    repeat (rewrite bool_decide_true by done || rewrite bool_decide_false by done);
    rewrite !Z.add_0_r, ?W1, ?W2, ?W3, ?W4; reflexivity.
Qed.

Lemma added_wrap counts rows : Forall (fun c => wrap 32 c = c) (added counts rows).
Proof.
  unfold added. generalize lcs_arr_key. induction counts as [|c counts IH]; intros [|key keys]; cbn [zip_with]; constructor; [|apply IH].
  unfold wrap. by rewrite Zmod_mod.
Qed.

Lemma count_line_delims suf r :
  count_ok r -> suf = [] \/ suf = [tab] ->
  count_line suf r <> [] /\ Forall (fun b => is_delim [x0d; x0a] b = false) (count_line suf r) /\
  no_nul (count_line suf r).
Proof.
  intros [[Hc _] Hk] Hs. unfold count_line. split.
  { pose proof (utoa_ne r.1). by destruct (utoa r.1). }
  assert (Hd : Forall (fun b => is_delim [x0d; x0a] b = false /\ b <> x00) (utoa r.1)).
  { eapply Forall_impl; [by apply utoa_digits|]. intros b Hb. unfold is_digit in Hb. b2p.
    split; [|intros ->; change (b2z x00) with 0 in *; lia]. unfold is_delim. cbn [existsb].
    change (b2z x0d) with 13. change (b2z x0a) with 10. by decide_cmp. }
  assert (Hr : Forall (fun b => is_delim [x0d; x0a] b = false /\ b <> x00) ([tab] ++ r.2 ++ suf)).
  { destruct Hs as [->| ->]; destruct (key_cases _ Hk) as [->|[->|[->| ->]]];
      repeat constructor; discriminate. }
  split; unfold no_nul; (eapply Forall_impl; [apply Forall_app; split; [exact Hd|exact Hr]|tauto]).
Qed.

(** Reading a text of counts adds its rows to the counters. *)
Lemma sum_lines_ok suf rows counts off :
  Forall count_ok rows -> suf = [] \/ suf = [tab] ->
  Forall (fun c => wrap 32 c = c) counts -> length counts = 4%nat ->
  sum_lines (map snd (strtok_all [x0d; x0a] (counted suf rows) off None)) counts
  = Ok (added counts rows).
Proof.
  intros Hr Hs. revert counts off. unfold counted.
  induction Hr as [|r rows Hr _ IH]; intros counts off Hw Hl; cbn [map concat].
  - cbn. by rewrite added_nil.
  - destruct (count_line_delims suf r Hr Hs) as (Hne & Hd & _). rewrite <- app_assoc. cbn [app].
    rewrite strtok_token by done. cbn [map snd sum_lines]. rewrite (scan_line_ok suf r Hr Hs).
    cbn [mbind res_bind]. destruct (rest_word r.2 suf (proj2 Hr) Hs) as (_ & _ & Hwd).
    replace (match word_of r.2 with [] => counts | _ => add_count lcs_arr_key counts (word_of r.2) r.1 end)
      with (added counts [r]) by (rewrite <- (add_count_ok counts r Hr Hw Hl); by destruct (word_of r.2)).
    rewrite IH; [by rewrite (added_app counts [r] rows)|apply added_wrap|].
    unfold added. rewrite length_zip_with, Hl. done.
Qed.

Lemma counted_no_nul suf rows :
  Forall count_ok rows -> suf = [] \/ suf = [tab] -> no_nul (counted suf rows).
Proof.
  intros Hr Hs. unfold counted, no_nul. apply Forall_concat, Forall_map.
  eapply Forall_impl; [exact Hr|]. intros r Hok. apply Forall_app. split; [|repeat constructor; discriminate].
  by apply (count_line_delims suf r).
Qed.

Lemma add_text_ok suf rows counts :
  Forall count_ok rows -> suf = [] \/ suf = [tab] ->
  Forall (fun c => wrap 32 c = c) counts -> length counts = 4%nat ->
  add_text (Some (counted suf rows ++ [x00])) counts = Ok (added counts rows).
Proof.
  intros Hr Hs Hw Hl. unfold add_text. rewrite cstr_terminated by by apply counted_no_nul.
  cbn [mbind res_bind]. pose proof (sum_lines_ok suf rows counts 0 Hr Hs Hw Hl) as H.
  destruct (counted suf rows) eqn:E; [|exact H]. by cbn in H.
Qed.

Lemma tally_each (f : list byte -> Z) key :
  key ∈ lcs_arr_key -> tally key (zip (map f lcs_arr_key) lcs_arr_key) = f key.
Proof.
  intros Hk. cbn [lcs_arr_key map zip_with].
  destruct (key_cases key Hk) as [->|[->|[->| ->]]]; unfold tally; cbn [foldr fst snd];
    repeat match goal with |- context [bool_decide ?P] =>
      let v := eval vm_compute in (bool_decide P) in change (bool_decide P) with v
    end; cbv beta iota; lia.
Qed.
Lemma tally_totals key rows :
  key ∈ lcs_arr_key -> tally key (zip (totals rows) lcs_arr_key) = wrap 32 (tally key rows).
Proof. apply (tally_each (fun key => wrap 32 (tally key rows))). Qed.

(** The text the programs write is a text of counts again. *)
Lemma counts_text_counted rows :
  counts_text (totals rows) = counted [] (zip (totals rows) lcs_arr_key) /\
  Forall count_ok (zip (totals rows) lcs_arr_key) /\
  forall key, key ∈ lcs_arr_key -> wrap 32 (tally key (zip (totals rows) lcs_arr_key)) = wrap 32 (tally key rows).
Proof.
  split; [|split].
  - unfold counts_text, counted, count_line. f_equal. apply map_ext. intros [c k]. cbn [fst snd].
    by rewrite app_nil_r, <- !app_assoc.
  - unfold totals, lcs_arr_key. cbn [map zip_with].
    assert (Hw : forall x, 0 <= wrap 32 x < 2 ^ 64).
    { intros x. unfold wrap. pose proof (Z.mod_pos_bound x (2 ^ 32)). lia. }
    repeat (apply Forall_cons; split; [split; [apply Hw|decided]|]). constructor.
  - intros key Hk. rewrite tally_totals, wrap_wrap by done. reflexivity.
Qed.

(** ** The programs on a directory *)

(** The files of a subdirectory: the result and the configuration for the program below. *)
Definition result_of (dir ana sub : list byte) : list byte :=
  dir ++ str "/" ++ sub ++ str "/" ++ ana ++ str ".analysis".
Definition config_of (dir ana sub : list byte) : list byte :=
  dir ++ str "/" ++ sub ++ str "/" ++ ana ++ str ".config.cfg".

Section Sums.
Context `{World}.
Variables (dir ana : list byte).

(** The contract of the program below: a subdirectory has its result, [text sub], when it was
    there at the start or the program has been run for it. *)
Record produced (cmd : list byte -> list byte) (made : list byte -> bool)
    (text : list byte -> list byte) (subs : list (list byte)) : Prop := {
  pd_there : forall tr sub, sub ∈ subs -> made sub = true \/ EvPopen (cmd sub) ∈ tr ->
    exists fp, fopen_r tr (result_of dir ana sub) = Some fp /\ regular fp /\ f_bytes fp = text sub;
  pd_none : forall tr sub, sub ∈ subs -> made sub = false -> EvPopen (cmd sub) ∉ tr ->
    fopen_r tr (result_of dir ana sub) = None;
  pd_write : forall tr path, fopen_w tr path = true;
  pd_len : forall sub, sub ∈ subs -> zlen dir + zlen sub + zlen ana < 1000
}.
Lemma produced_tail cmd made text sub subs :
  produced cmd made text (sub :: subs) -> produced cmd made text subs.
Proof. intros [R1 R2 R3 R4]. split; [| |exact R3|]; intros; eauto using list_elem_of_further. Qed.

(** The results are texts of rows. *)
Record results (suf : list byte) (cmd : list byte -> list byte) (made : list byte -> bool)
    (rows_of : list byte -> list counted_row) (subs : list (list byte)) : Prop := {
  rs_suf : suf = [] \/ suf = [tab];
  rs_rows : forall sub, sub ∈ subs -> Forall count_ok (rows_of sub);
  rs_pd : produced cmd made (fun sub => counted suf (rows_of sub)) subs
}.
Lemma results_tail suf cmd made rows_of sub subs :
  results suf cmd made rows_of (sub :: subs) -> results suf cmd made rows_of subs.
Proof.
  intros [R1 R2 R3]. split; [exact R1| |by eapply produced_tail]. intros; eauto using list_elem_of_further.
Qed.

(** A result is read and added. *)
Lemma add_result suf cmd made rows_of subs sub tr err counts :
  results suf cmd made rows_of subs -> sub ∈ subs -> made sub = true \/ EvPopen (cmd sub) ∈ tr ->
  Forall (fun c => wrap 32 c = c) counts -> length counts = 4%nat ->
  lcs_file_text (result_of dir ana sub) None err tr
    = Ok ((Some (counted suf (rows_of sub) ++ [x00]), err), tr) /\
  add_text (Some (counted suf (rows_of sub) ++ [x00])) counts = Ok (added counts (rows_of sub)).
Proof.
  intros Hr Hs Hd Hw Hl. destruct (pd_there _ _ _ _ (rs_pd _ _ _ _ _ Hr) tr sub Hs Hd) as (fp & Hf & Hreg & Hb). split.
  - by rewrite (lcs_file_text_ok _ None err tr fp Hf Hreg), Hb.
  - apply add_text_ok; [by apply (rs_rows _ _ _ _ _ Hr)|by apply (rs_suf _ _ _ _ _ Hr)|done|done].
Qed.

Lemma length_added counts rows : length counts = 4%nat -> length (added counts rows) = 4%nat.
Proof. intros Hl. unfold added. by rewrite length_zip_with, Hl. Qed.

(** Five minutes: the query counts the calls by outcome, and the program writes a line for
    every row of the query, in order. *)
Lemma minute_counts lines info path name sql rows tr :
  text_of info "targetpath" = Ok path -> text_of info "name_ana" = Ok name ->
  zlen path < 900 -> zlen name < 64 -> Forall count_ok rows ->
  reports (str "../sql/" ++ name ++ str ".sql") (path ++ str "/lcs.db") sql
    (map (fun r : counted_row => [utoa r.1; r.2]) rows) ->
  exists evs, unit_analysis lines info 0 tr = Ok (0, tr ++ evs) /\
    content_of (path ++ str "/" ++ name ++ str ".analysis") evs = Some (counted [tab] rows).
Proof.
  intros Hp Hn Zp Zn Hr Hrep. unfold unit_analysis.
  rewrite (io_bind_lift _ _ _ path), (io_bind_lift _ _ _ name) by done.
  io_fits ltac:(text_len). unfold lcs_comm_filexist. destruct (rp_db _ _ _ _ Hrep tr) as (fd & Hd).
  rewrite io_bind_ask, Hd. cbn [negb]. do 2 io_fits ltac:(text_len). eexists.
  rewrite (exec_sql_ok _ lcs_exec_cbtrue (fun c => concat (map cell c) ++ [nl]) _ _ _ _ _ tr Hrep).
  - split; [done|]. rewrite report_content, map_map. unfold counted, count_line. do 2 f_equal.
    apply map_ext. intros [c k]. cbn [map concat fst snd]. unfold cell. by rewrite app_nil_r, <- !app_assoc.
  - apply Forall_map. eapply Forall_impl; [exact Hr|]. intros [c k] _. reflexivity.
Qed.

(** The events of an hour: the configuration and the program of every minute without a result. *)
Definition hour_cmd (prog sub : list byte) : list byte := prog ++ str " " ++ config_of dir ana sub.
Definition hour_task (prog sub : list byte) : trace :=
  [EvWrite (config_of dir ana sub)
     (str "targetpath_0001:" ++ dir ++ str "/" ++ sub ++ [nl] ++ str "name_ana_0002:" ++ ana);
   EvPopen (hour_cmd prog sub)].
Definition hour_tasks (prog : list byte) (made : list byte -> bool) (subs : list (list byte)) : trace :=
  concat (map (fun sub => if made sub then [] else hour_task prog sub) subs).

Lemma config_of_inj a b : config_of dir ana a = config_of dir ana b -> a = b.
Proof.
  unfold config_of. rewrite !app_assoc. intros He. do 3 (apply app_inv_tail in He).
  by apply app_inv_head in He.
Qed.
Lemma hour_cmd_inj prog a b : hour_cmd prog a = hour_cmd prog b -> a = b.
Proof. unfold hour_cmd. intros He. do 2 apply app_inv_head in He. by apply config_of_inj. Qed.

Lemma unit_gen_ok info prog sub err tr :
  text_of info "subprocess" = Ok prog -> zlen prog < 1024 ->
  zlen dir + zlen sub + zlen ana < 1000 -> (forall tr path, fopen_w tr path = true) ->
  lcs_unit_gen info dir sub ana err tr = Ok (err, tr ++ hour_task prog sub).
Proof.
  intros Hp Zp Hz Hw. unfold lcs_unit_gen, lcs_unit_config. rewrite io_bind_assoc.
  io_fits ltac:(text_len). rewrite io_bind_assoc, io_bind_ask, Hw. cbn [negb].
  rewrite io_bind_assoc, io_bind_emit, io_bind_ret, (io_bind_lift _ _ _ prog) by done.
  change (dir ++ str "/" ++ sub ++ str "/" ++ ana ++ str ".config.cfg") with (config_of dir ana sub).
  assert (Hc : zlen (config_of dir ana sub) < 1020) by (unfold config_of; text_len).
  io_fits ltac:(text_len). unfold lcs_bash_cmd. rewrite io_bind_emit. unfold hour_task, hour_cmd.
  by rewrite <- app_assoc.
Qed.

Lemma hour_loop_ok info prog made rows_of subs tr counts err :
  results [tab] (hour_cmd prog) made rows_of subs -> NoDup subs ->
  text_of info "subprocess" = Ok prog -> zlen prog < 1024 ->
  (forall sub, sub ∈ subs -> EvPopen (hour_cmd prog sub) ∉ tr) ->
  Forall (fun c => wrap 32 c = c) counts -> length counts = 4%nat ->
  hour_loop info dir ana subs counts err tr
  = Ok ((added counts (concat (map rows_of subs)), if forallb made subs then err else 1),
        tr ++ hour_tasks prog made subs).
Proof.
  intros Hr Hnd Hp Zp. revert tr counts err.
  induction subs as [|sub subs IH]; intros tr counts err Htr Hw Hl; cbn [hour_loop map concat forallb].
  - unfold hour_tasks. cbn [map concat]. by rewrite app_nil_r, added_nil.
  - apply NoDup_cons in Hnd as [Hni Hnd].
    assert (Hin : sub ∈ sub :: subs) by left. pose proof (pd_len _ _ _ _ (rs_pd _ _ _ _ _ Hr) sub Hin) as Hz.
    io_fits ltac:(text_len). fold (result_of dir ana sub).
    unfold hour_tasks in *. cbn [map concat].
    destruct (made sub) eqn:Em; cbn [andb app].
    + destruct (add_result _ _ _ _ _ sub tr err counts Hr Hin (or_introl Em) Hw Hl) as [Ht Ha].
      rewrite (io_bind_ok _ _ _ _ _ Ht), io_bind_ret, (io_bind_lift _ _ _ _ Ha).
      rewrite IH; [by rewrite added_app|by eapply results_tail|done| |apply added_wrap|by apply length_added].
      intros sub' Hs'. apply Htr. by right.
    + rewrite (io_bind_ok _ _ _ _ _ (lcs_file_text_none _ None err tr
        (pd_none _ _ _ _ (rs_pd _ _ _ _ _ Hr) tr sub Hin Em (Htr _ Hin)))), io_bind_assoc.
      rewrite (io_bind_ok _ _ _ _ _ (unit_gen_ok info prog sub 1 tr Hp Zp Hz (pd_write _ _ _ _ (rs_pd _ _ _ _ _ Hr)))).
      assert (Hran : EvPopen (hour_cmd prog sub) ∈ tr ++ hour_task prog sub).
      { apply elem_of_app. right. right. left. }
      destruct (add_result _ _ _ _ _ sub _ 1 counts Hr Hin (or_intror Hran) Hw Hl) as [Ht Ha].
      rewrite (io_bind_ok _ _ _ _ _ Ht), (io_bind_lift _ _ _ _ Ha).
      rewrite IH; [rewrite added_app, <- app_assoc; by destruct (forallb made subs)|by eapply results_tail|done| |apply added_wrap|by apply length_added].
      intros sub' Hs' Hb. apply elem_of_app in Hb as [Hb|Hb]; [by apply (Htr sub'); [right|]|].
      unfold hour_task in Hb. rewrite !elem_of_cons, elem_of_nil in Hb.
      destruct Hb as [Hb|[Hb|[]]]; [discriminate|]. injection Hb as Hb. apply hour_cmd_inj in Hb. by subst.
Qed.

(** One hour: when the program below writes, for the directory it is started on, the text
    of the rows of that directory, the program for the hour writes, for each of the four
    outcomes, the sum over all its subdirectories modulo 2^32; it starts the program below
    once for each subdirectory that had no result, in order, after writing its configuration,
    and its return value tells whether there was one. *)
Theorem hour_counts info prog made rows_of subs tr :
  results [tab] (hour_cmd prog) made rows_of subs -> NoDup subs ->
  text_of info "name_ana" = Ok ana -> text_of info "subprocess" = Ok prog ->
  zlen prog < 1024 -> zlen dir + zlen ana < 1000 ->
  (forall sub, sub ∈ subs -> EvPopen (hour_cmd prog sub) ∉ tr) ->
  lcs_hcollect_ana info dir subs 0 tr
  = Ok (if forallb made subs then 0 else 1, (tr ++ hour_tasks prog made subs) ++
      [EvWrite (dir ++ str "/" ++ ana ++ str ".analysis") (counts_text (totals (concat (map rows_of subs))))]).
Proof.
  intros Hr Hnd Ha Hp Zp Zd Htr. unfold lcs_hcollect_ana. rewrite (io_bind_lift _ _ _ ana) by done.
  rewrite (io_bind_ok _ _ _ _ _ (hour_loop_ok info prog made rows_of subs tr [0; 0; 0; 0] 0
    Hr Hnd Hp Zp Htr ltac:(by repeat constructor) eq_refl)).
  io_fits ltac:(text_len). unfold write_counts. rewrite io_bind_ask, (pd_write _ _ _ _ (rs_pd _ _ _ _ _ Hr)). cbn [negb].
  by rewrite io_bind_emit.
Qed.

(** The events of a day: what a thread does for an hour, and the result of the day. *)
Definition day_cmd (prog sub : list byte) : list byte :=
  prog ++ str " " ++ config_of dir ana sub ++ str " > /dev/null".
Definition day_task (unit prog sub : list byte) : trace :=
  [EvWrite (config_of dir ana sub)
     (str "targetpath_0001:" ++ dir ++ str "/" ++ sub ++ [nl] ++ str "name_ana_0002:" ++ ana ++ [nl] ++
      str "subprocess_0003:" ++ unit);
   EvPopen (day_cmd prog sub)].
Definition dest_of : list byte := dir ++ str "/" ++ ana ++ str ".analysis".
Definition day_removes (tasks : list (list byte)) : trace :=
  match tasks with [] => [] | _ => [EvRemove dest_of] end.

Lemma day_missing_ok room cmd made text subs tr :
  produced cmd made text subs -> (forall sub, sub ∈ subs -> EvPopen (cmd sub) ∉ tr) ->
  Forall (fun sub => zlen sub < room) subs -> zlen ana < 64 ->
  day_missing room dir ana subs tr = Ok (List.filter (fun sub => negb (made sub)) subs, tr).
Proof.
  intros Hr Htr Hs Za. induction subs as [|sub subs IH]; cbn [day_missing List.filter]; [done|].
  apply Forall_cons in Hs as [Zs Hs]. assert (Hin : sub ∈ sub :: subs) by left.
  pose proof (pd_len _ _ _ _ Hr sub Hin) as Hz. io_fits ltac:(text_len). fold (result_of dir ana sub).
  unfold lcs_comm_filexist. rewrite io_bind_ask.
  assert (IH' : day_missing room dir ana subs tr = Ok (List.filter (fun sub => negb (made sub)) subs, tr)).
  { apply IH; [by eapply produced_tail| |done]. intros sub' H'. apply Htr. by right. }
  destruct (made sub) eqn:Em; cbn [negb].
  - destruct (pd_there _ _ _ _ Hr tr sub Hin (or_introl Em)) as (fp & -> & _). exact IH'.
  - rewrite (pd_none _ _ _ _ Hr tr sub Hin Em (Htr _ Hin)).
    pose proof (zlen_nonneg dir). pose proof (zlen_nonneg sub). pose proof (zlen_nonneg ana).
    do 3 io_fits lia. by rewrite (io_bind_ok _ _ _ _ _ IH').
Qed.

Lemma day_task_ok unit info prog sub tr :
  text_of info "subprocess" = Ok prog -> zlen dir + zlen sub + zlen ana + zlen prog < 980 ->
  (forall tr path, fopen_w tr path = true) ->
  lcs_dgen_subtask unit info dir sub ana tr = Ok (tt, tr ++ day_task unit prog sub).
Proof.
  intros Hp Hz Hw. pose proof (zlen_nonneg prog). unfold lcs_dgen_subtask, lcs_dgen_config.
  rewrite io_bind_assoc. io_fits ltac:(text_len). rewrite io_bind_assoc, io_bind_ask, Hw. cbn [negb].
  rewrite io_bind_assoc, io_bind_emit, io_bind_ret, (io_bind_lift _ _ _ prog) by done.
  io_fits ltac:(text_len). unfold lcs_bash_cmd, emit, day_task, day_cmd, config_of.
  by rewrite <- !app_assoc.
Qed.
Lemma day_tasks_ok unit info prog tasks tr :
  text_of info "subprocess" = Ok prog -> (forall tr path, fopen_w tr path = true) ->
  Forall (fun sub => zlen dir + zlen sub + zlen ana + zlen prog < 980) tasks ->
  day_tasks unit info dir ana tasks tr = Ok (tt, tr ++ concat (map (day_task unit prog) tasks)).
Proof.
  intros Hp Hw Hz. revert tr. induction Hz as [|sub tasks Hz _ IH]; intros tr; cbn [day_tasks map concat].
  - by rewrite app_nil_r.
  - by rewrite (io_bind_ok _ _ _ _ _ (day_task_ok unit info prog sub tr Hp Hz Hw)), IH, <- app_assoc.
Qed.

Lemma day_loop_ok cmd suf made rows_of subs tr counts stale err :
  results suf cmd made rows_of subs ->
  (forall sub, sub ∈ subs -> made sub = true \/ EvPopen (cmd sub) ∈ tr) ->
  Forall (fun c => wrap 32 c = c) counts -> length counts = 4%nat ->
  exists stale', day_loop dir ana subs counts stale err tr
    = Ok ((added counts (concat (map rows_of subs)), stale', err), tr).
Proof.
  intros Hr. revert counts stale. induction subs as [|sub subs IH]; intros counts stale Hd Hw Hl; cbn [day_loop map concat].
  - exists stale. by rewrite added_nil.
  - assert (Hin : sub ∈ sub :: subs) by left. pose proof (pd_len _ _ _ _ (rs_pd _ _ _ _ _ Hr) sub Hin) as Hz.
    io_fits ltac:(text_len). fold (result_of dir ana sub).
    destruct (add_result _ _ _ _ _ sub tr err counts Hr Hin (Hd _ Hin) Hw Hl) as [Ht Ha].
    rewrite (io_bind_ok _ _ _ _ _ Ht), (io_bind_lift _ _ _ _ Ha).
    rewrite <- added_app. apply IH; [by eapply results_tail| |apply added_wrap|by apply length_added].
    intros sub' H'. apply Hd. by right.
Qed.

(** The rows of the text that an hour writes. *)
Definition sums (rows : list counted_row) : list counted_row := zip (totals rows) lcs_arr_key.
Lemma totals_sums (f : list byte -> list counted_row) subs :
  totals (concat (map (fun sub => sums (f sub)) subs)) = totals (concat (map f subs)).
Proof.
  unfold totals. apply map_ext_in. intros key Hk. apply list_elem_of_In in Hk.
  induction subs as [|sub subs IH]; cbn [map concat]; [done|].
  rewrite !tally_app, (tally_totals key (f sub) Hk : tally key (sums (f sub)) = _). unfold wrap in *.
  rewrite Zplus_mod_idemp_l, Zplus_mod, IH, <- Zplus_mod. done.
Qed.

(** C17: One day: when the program for the hour writes, for the directory it is started on, the
    text of the sums of the hour's rows, the program for the day writes the sums over all rows
    of all hours modulo 2^32, whatever the order in which its threads run.  It removes the old
    result when an hour is missing, and every missing hour has exactly one thread, which writes
    the configuration before it starts the program. *)
Theorem day_counts unit info prog made minutes hours sched tr :
  results [] (day_cmd prog) made (fun hour => sums (minutes hour)) hours -> hours <> [] ->
  (forall tasks, sched tasks ≡ₚ tasks) ->
  text_of info "name_ana" = Ok ana -> text_of info "subprocess" = Ok prog ->
  zlen dir + zlen ana + zlen prog < 970 -> zlen ana < 64 ->
  Forall (fun sub => zlen sub < 6) hours ->
  (forall sub, sub ∈ hours -> EvPopen (day_cmd prog sub) ∉ tr) ->
  let missing := List.filter (fun sub => negb (made sub)) hours in
  day_collect unit info sched dir hours 0 tr
  = Ok (0, tr ++ day_removes missing ++ concat (map (day_task unit prog) (sched missing)) ++
           [EvWrite dest_of (counts_text (totals (concat (map minutes hours))))]).
Proof.
  intros Hr Hne Hsched Ha Hp Zd Za Hs Htr missing. pose proof (zlen_nonneg prog).
  pose proof (pd_write _ _ _ _ (rs_pd _ _ _ _ _ Hr)) as Hw.
  unfold day_collect. rewrite (io_bind_lift _ _ _ ana) by done. io_fits ltac:(text_len).
  rewrite (io_bind_ok _ _ _ _ _ (day_missing_ok _ _ _ _ _ tr (rs_pd _ _ _ _ _ Hr) Htr Hs Za)). fold missing dest_of.
  rewrite (io_bind_ok _ _ tr tt (tr ++ day_removes missing)) by (destruct missing; cbn; [by rewrite app_nil_r|done]).
  assert (Hz : Forall (fun sub => zlen dir + zlen sub + zlen ana + zlen prog < 980) (sched missing)).
  { rewrite Hsched. apply Forall_forall. intros sub Hin. apply list_elem_of_In, filter_In in Hin as [Hin _].
    apply list_elem_of_In in Hin. rewrite Forall_forall in Hs. specialize (Hs sub Hin). cbn in Hs. lia. }
  rewrite (io_bind_ok _ _ _ _ _ (day_tasks_ok unit info prog (sched missing) _ Hp Hw Hz)).
  set (tr' := (tr ++ _) ++ _).
  assert (Hd : forall sub, sub ∈ hours -> made sub = true \/ EvPopen (day_cmd prog sub) ∈ tr').
  { intros sub Hin. destruct (made sub) eqn:Em; [by left|right]. unfold tr'. apply elem_of_app. right.
    apply list_elem_of_In, in_concat. exists (day_task unit prog sub). split; [|right; left; done].
    apply in_map, list_elem_of_In. rewrite Hsched. apply list_elem_of_In, filter_In.
    by rewrite Em, <- list_elem_of_In. }
  destruct (day_loop_ok _ _ _ _ _ tr' [0; 0; 0; 0] false 0 Hr Hd ltac:(by repeat constructor) eq_refl) as [stale Hloop].
  rewrite (io_bind_ok _ _ _ _ _ Hloop).
  rewrite io_bind_ask, Hw. cbn [negb]. rewrite io_bind_emit, added_totals, totals_sums.
  destruct (last hours) as [sub|] eqn:El; [|by apply last_None in El].
  apply last_Some_elem_of in El.
  assert (Hd' : made sub = true \/ EvPopen (day_cmd prog sub) ∈ tr' ++ [EvWrite dest_of (counts_text (totals (concat (map minutes hours))))]).
  { destruct (Hd _ El); [by left|right]. apply elem_of_app. by left. }
  destruct (pd_there _ _ _ _ (rs_pd _ _ _ _ _ Hr) _ _ El Hd') as (fp & Hf & Hreg & _). unfold result_of in Hf.
  rewrite (io_bind_ok _ _ _ _ _ (lcs_file_text_ok _ None 0 _ fp Hf Hreg)).
  unfold tr'. by rewrite <- !app_assoc.
Qed.

End Sums.

(** ** Concrete minutes, hours and days *)

Module Sample.
(** A file there is from the start, or once its program has been run. *)
Definition popened (tr : trace) (cmd : list byte) : bool :=
  existsb (fun e => match e with EvPopen c => bool_decide (c = cmd) | _ => false end) tr.
Lemma popened_spec tr cmd : popened tr cmd = true <-> EvPopen cmd ∈ tr.
Proof.
  unfold popened. rewrite existsb_exists. split.
  - intros ([]& Hin & He); try discriminate. case_bool_decide; [subst|discriminate]. by apply list_elem_of_In.
  - intros Hin. exists (EvPopen cmd). split; [by apply list_elem_of_In|by rewrite bool_decide_true].
Qed.

Definition A_000001_05m : list byte := str "../A_000001_05m/lcs_A_000001_05m".
Definition dir : list byte := str "/w/07".
Definition ana : list byte := str "A1".
Definition prog : list byte := str "prog".
Definition sub1 : list byte := str "05".
Definition sub2 : list byte := str "10".
Definition subs : list (list byte) := [sub1; sub2].
Definition made (sub : list byte) : bool := bool_decide (sub = sub1).
Definition rows_of (sub : list byte) : list counted_row :=
  if made sub then [(7, str "ANSWERED"); (2, str "NO ANSWER")] else [(3, str "ANSWERED"); (4294967295, str "BUSY")].
Definition info : cfg :=
  fold_right (fun '(f, v) c => assign c f v) (cleared hour_members)
    [("targetpath", dir); ("name_ana", ana); ("subprocess", prog)]%string.

Definition file (text : list byte) : option FILE :=
  Some {| f_tell := zlen text; f_bytes := text; f_close := 0 |}.
Definition spawning (cmd text : list byte -> list byte) : World :=
  let w := toy_world [] None None None in {|
  fopen_r tr path :=
    match List.find (fun sub => bool_decide (result_of dir ana sub = path)) subs with
    | Some sub => if made sub || popened tr (cmd sub) then file (text sub) else None
    | None => None
    end;
  fopen_w := @fopen_w w; popen := @popen w; readdir := @readdir w;
  getenv := @getenv w; shm_create := @shm_create w; mysql_init := @mysql_init w;
  mysql_real_connect := @mysql_real_connect w; mysql_query := @mysql_query w;
  mysql_store_result := @mysql_store_result w;
  sqlite_open := @sqlite_open w; sqlite_prepare := @sqlite_prepare w;
  sqlite_exec := @sqlite_exec w; sqlite_bind := @sqlite_bind w; sqlite_step := @sqlite_step w;
  sqlite_clear_bindings := @sqlite_clear_bindings w; sqlite_reset := @sqlite_reset w;
  sqlite_finalize := @sqlite_finalize w; sqlite_close := @sqlite_close w;
  recv := @recv w; send := @send w
|}.

Lemma find_sub sub :
  sub ∈ subs -> List.find (fun s => bool_decide (result_of dir ana s = result_of dir ana sub)) subs = Some sub.
Proof.
  unfold subs. rewrite !elem_of_cons, elem_of_nil. by intros [->|[->|[]]].
Qed.
Lemma spawning_produced cmd text :
  (forall sub, sub ∈ subs -> zlen (text sub) < 2 ^ 32 - 1) ->
  @produced (spawning cmd text) dir ana cmd made text subs.
Proof.
  intros Hz. split; [| |done|].
  - intros tr sub Hin Hd. cbn [fopen_r spawning]. rewrite find_sub by done.
    assert (made sub || popened tr (cmd sub) = true) as ->.
    { destruct Hd as [->|Hd]; [done|]. apply popened_spec in Hd as ->. by rewrite orb_true_r. }
    eexists. split; [reflexivity|]. split; [|done]. split; [done|by apply Hz].
  - intros tr sub Hin Hm Hd. cbn [fopen_r spawning]. rewrite find_sub, Hm by done. cbn [orb].
    destruct (popened tr (cmd sub)) eqn:E; [|done]. by apply popened_spec in E.
  - intros sub. unfold subs. rewrite !elem_of_cons, elem_of_nil. by intros [->|[->|[]]].
Qed.
Lemma spawning_results suf cmd rows :
  suf = [] \/ suf = [tab] -> (forall sub, sub ∈ subs -> Forall count_ok (rows sub)) ->
  (forall sub, sub ∈ subs -> zlen (counted suf (rows sub)) < 2 ^ 32 - 1) ->
  @results (spawning cmd (fun sub => counted suf (rows sub))) dir ana suf cmd made rows subs.
Proof. intros Hs Hr Hz. split; [done|done|by apply spawning_produced]. Qed.
Lemma rows_ok sub : sub ∈ subs -> Forall count_ok (rows_of sub).
Proof.
  unfold subs. rewrite !elem_of_cons, elem_of_nil.
  intros [->|[->|[]]]; repeat (apply Forall_cons; split; [split; [split; by vm_compute|decided]|]); constructor.
Qed.

Lemma hour_counts_witness :
  @lcs_hcollect_ana (spawning (hour_cmd dir ana prog) (fun sub => counted [tab] (rows_of sub))) info dir subs 0 []
  = Ok (1, hour_task dir ana prog sub2 ++
      [EvWrite (str "/w/07/A1.analysis") (counts_text [10; 4294967295; 0; 2])]).
Proof.
  refine (@hour_counts (spawning (hour_cmd dir ana prog) (fun sub => counted [tab] (rows_of sub)))
    dir ana info prog made rows_of subs [] _ _ _ _ _ _ _).
  - apply spawning_results; [by right|exact rows_ok|].
    unfold subs. intros sub. rewrite !elem_of_cons, elem_of_nil. by intros [->|[->|[]]].
  - decided.
  - by vm_compute.
  - by vm_compute.
  - reflexivity.
  - reflexivity.
  - intros sub _. apply not_elem_of_nil.
Defined.

Definition minutes (hour : list byte) : list counted_row := rows_of hour ++ rows_of sub2.
Lemma day_counts_witness :
  @day_collect (spawning (day_cmd dir ana prog) (fun sub => counted [] (sums (minutes sub))))
     A_000001_05m info (@reverse (list byte)) dir subs 0 []
  = Ok (0, [EvRemove (str "/w/07/A1.analysis")] ++ day_task dir ana A_000001_05m prog sub2 ++
      [EvWrite (str "/w/07/A1.analysis") (counts_text [16; 4294967293; 0; 2])]).
Proof.
  refine (@day_counts (spawning (day_cmd dir ana prog) (fun sub => counted [] (sums (minutes sub))))
    dir ana A_000001_05m info prog made minutes subs (@reverse (list byte)) [] _ _ _ _ _ _ _ _ _).
  - apply spawning_results; [by left|intros sub _; apply counts_text_counted|].
    unfold subs. intros sub. rewrite !elem_of_cons, elem_of_nil. by intros [->|[->|[]]].
  - discriminate.
  - intros tasks. apply reverse_Permutation.
  - by vm_compute.
  - by vm_compute.
  - reflexivity.
  - reflexivity.
  - repeat constructor.
  - intros sub _. apply not_elem_of_nil.
Defined.
End Sample.
