(* ===== verification/Reports.v ===== *)
(** * Reports by hour and day

    Models the programs A_000005 to A_000009 of src/cluster for an hour (A_00000N_hour) and a
    day (A_00000N_day), and the two for five minutes that only run a query (A_000005_05m,
    A_000006_05m).  The report of an hour is put together from the reports of its
    subdirectories, which are started where they are missing; that of a day is put together by
    the command [cat].  The counts by hour of A_000005 are merged afterwards (LcsCommon.v). *)
From S2P Require Import Prelude CString OpenSSL World ToyWorld Config.
From S2P Require Import Quicksort LcsCommon Directories SharedTables CallReport Counting.

Section Programs.
Context `{World}.

(** ** Five minutes *)

(** The callback of A_000006: [(val[i]) ? (val[i]) : ("NULL")]. *)
Definition null_cbtrue (val : row) : res (list byte) :=
  match val with
  | [] => Fault OobRead
  | _ => Ok (concat (map (fun c => cell (default (str "NULL") c)) val) ++ [nl])
  end.
Definition A_000005_05m_analysis : cfg -> Z -> io Z :=
  unit_analysis_at 170 180 (at_lines 204 211 218 224 230 236) lcs_exec_cbtrue.
Definition A_000005_05m_main (path : list byte) : io Z :=
  '(info, _) ← cfg_load unit_cfg_table path (cleared unit_members) 0;
  err ← A_000005_05m_analysis info 0;
  mret (if err =? 0 then 0 else 1).
Definition A_000006_05m_analysis (info : cfg) (err : Z) : io Z :=
  path ← lift (text_of info "targetpath");
  name ← lift (text_of info "name_ana");
  dbpath ← lift (fits 1024 (path ++ str "/lcs.db"));
  isexist ← lcs_comm_filexist dbpath;
  if negb isexist then mret 136
  else
    query ← lift (fits 1024 (str "../sql/" ++ name ++ str ".sql"));
    isexist ← lcs_comm_filexist query;
    if negb isexist then mret 146
    else
      writepath ← lift (fits 1024 (path ++ str "/" ++ name ++ str ".analysis"));
      lcs_exec_sql (at_lines 186 193 200 206 212 218) null_cbtrue query dbpath writepath err.
Definition A_000006_05m_main (path : list byte) : io () :=
  '(info, _) ← cfg_load unit_cfg_table path (cleared unit_members) 0;
  _ ← A_000006_05m_analysis info 0; mret tt.

(** ** One hour *)

Definition report_members (room : Z) : list (string * Z) :=
  [("targetpath", 1024); ("name_ana", 64); ("subprocess", 1024); ("prefixshmkey", room)]%string.
Definition report_cfg_table : list entry :=
  hour_cfg_table ++ [copy_to "prefixshmkey" "prefixshmkey_0004:"].

(** [keyed] tells whether the configuration names the tables in shared memory, and [quiet]
    whether the output of the program goes to /dev/null. *)
Definition report_config (keyed : bool) (info : cfg) (dir sub ana : list byte) (err : Z)
    : io (list byte * Z) :=
  path ← lift (fits 1024 (dir ++ str "/" ++ sub ++ str "/" ++ ana ++ str ".config.cfg"));
  ok ← ask (fun tr => fopen_w tr path);
  if negb ok then mret (path, 1)
  else
    key ← (if keyed then p ← lift (text_of info "prefixshmkey"); mret ([nl] ++ str "prefixshmkey_0003:" ++ p)
           else mret []);
    _ ← emit (EvWrite path (str "targetpath_0001:" ++ dir ++ str "/" ++ sub ++ [nl] ++
                            str "name_ana_0002:" ++ ana ++ key));
    mret (path, err).
Definition report_gen (keyed quiet : bool) (info : cfg) (dir sub ana : list byte) (err : Z) : io Z :=
  '(path, err) ← report_config keyed info dir sub ana err;
  subprocess ← lift (text_of info "subprocess");
  cmd ← lift (fits 2048 (subprocess ++ str " " ++ path ++ (if quiet then str " > /dev/null" else [])));
  _ ← lcs_bash_cmd cmd;
  mret err.

(** The first loop over the subdirectories. *)
Fixpoint hour_fill (keyed quiet : bool) (info : cfg) (dir ana : list byte) (subs : list (list byte))
    (err : Z) : io Z :=
  match subs with
  | [] => mret err
  | sub :: subs =>
    tmp ← lift (fits 1024 (dir ++ str "/" ++ sub ++ str "/" ++ ana ++ str ".analysis"));
    isexist ← lcs_comm_filexist tmp;
    err ← (if isexist : bool then mret err else report_gen keyed quiet info dir sub ana err);
    hour_fill keyed quiet info dir ana subs err
  end.

(** The second loop: [fp] tells whether the file is open. *)
Fixpoint append_texts (fp : bool) (dir ana : list byte) (subs : list (list byte)) (out : list byte)
    (err : Z) : io (list byte * Z) :=
  match subs with
  | [] => mret (out, err)
  | sub :: subs =>
    tmp ← lift (fits 1024 (dir ++ str "/" ++ sub ++ str "/" ++ ana ++ str ".analysis"));
    '(text, err) ← lcs_file_text tmp None err;
    s ← lift (match text with Some m => cstr m | None => Ok [] end);
    match s with
    | [] => append_texts fp dir ana subs out err
    | _ => if fp then append_texts fp dir ana subs (out ++ s) err else lift (Fault NullDeref)
    end
  end.
(** From [remove] to the end of the second loop; [fclose] follows the file pointer too. *)
Definition hour_append (dest dir ana : list byte) (subs : list (list byte)) (err : Z)
    : io (list byte * Z) :=
  _ ← emit (EvRemove dest);
  fp ← ask (fun tr => fopen_w tr dest);
  '(out, err) ← append_texts fp dir ana subs [] err;
  if fp : bool then _ ← emit (EvAppend dest out); mret (out, err) else lift (Fault NullDeref).

Definition report_hour (keyed quiet : bool) (info : cfg) (dir : list byte) (subs : list (list byte))
    (err : Z) : io Z :=
  ana ← lift (text_of info "name_ana");
  err ← hour_fill keyed quiet info dir ana subs err;
  dest ← lift (fits 1024 (dir ++ str "/" ++ ana ++ str ".analysis"));
  '(_, err) ← hour_append dest dir ana subs err;
  mret err.

(** A_000005 reads its file back and merges the rows; the result is how the freeing of the
    rows ends. *)
Definition A_000005_hour_collect (info : cfg) (dir : list byte) (subs : list (list byte)) (err : Z)
    : io (res ()) :=
  ana ← lift (text_of info "name_ana");
  err ← hour_fill false false info dir ana subs err;
  dest ← lift (fits 1024 (dir ++ str "/" ++ ana ++ str ".analysis"));
  '(out, err) ← hour_append dest dir ana subs err;
  _ ← emit (EvRemove dest);
  ok ← ask (fun tr => fopen_w tr dest);
  '(file, freed) ← lift (lcs_hcollect005_sum ok (out ++ [x00]));
  _ ← (match file with Some f => emit (EvWrite dest f) | None => mret tt end);
  mret freed.

(** A_000006 has a thread for each subdirectory without a result, which work in the order
    [sched] makes of them. *)
Fixpoint hour_threads (info : cfg) (dir ana : list byte) (tasks : list (list byte)) : io () :=
  match tasks with
  | [] => mret tt
  | sub :: tasks => _ ← report_gen false false info dir sub ana 0; hour_threads info dir ana tasks
  end.
Definition A_000006_hour_collect (info : cfg) (sched : list (list byte) -> list (list byte))
    (dir : list byte) (subs : list (list byte)) (err : Z) : io Z :=
  ana ← lift (text_of info "name_ana");
  tasks ← day_missing 64 dir ana subs;
  _ ← hour_threads info dir ana (sched tasks);
  dest ← lift (fits 1024 (dir ++ str "/" ++ ana ++ str ".analysis"));
  '(_, err) ← hour_append dest dir ana subs err;
  mret err.

Definition A_000007_hour_collect := report_hour true true.
Definition A_000008_hour_collect := report_hour true false.
Definition A_000009_hour_collect := report_hour true false.

(** The subdirectories in order: [lcs_comm_subdir_ext] and [lcs_quick_sort]. *)
Definition sort_listing (l : listing) (count : Z) : res listing :=
  sorted ← Lcs.lcs_quick_sort (S (length (l_names l))) (l_names l) 0 (count - 1);
  Ok {| l_names := sorted; l_ends := l_ends l |}.
(** [collect] on the names, which have to end for its loops and the one that frees them. *)
Definition on_listing {A} (l : listing) (collect : list (list byte) -> io A) : io A :=
  if l_ends l then collect (l_names l) else lift (Fault OobRead).

(** [main] of the programs for an hour; the result is that of the process. *)
Definition hour_report_main (members : list (string * Z)) (table : list entry)
    (collect : cfg -> list byte -> list (list byte) -> Z -> io Z) (path : list byte) : io Z :=
  '(info, _) ← cfg_load table path (cleared members) 0;
  target ← lift (text_of info "targetpath");
  '(arrdir, count, err) ← lcs_comm_subdir_ext target true 0 0;
  err ← (match arrdir with
         | None => mret err
         | Some l => l ← lift (sort_listing l count); on_listing l (fun subs => collect info target subs err)
         end);
  mret (if err =? 0 then 0 else 1).
Definition A_000005_hour_main : list byte -> io Z :=
  hour_report_main hour_members hour_cfg_table
    (fun info dir subs err => freed ← A_000005_hour_collect info dir subs err; _ ← lift freed; mret err).
Definition A_000006_hour_main (path : list byte) (sched : list (list byte) -> list (list byte)) : io Z :=
  _ ← hour_report_main hour_members hour_cfg_table
    (fun info => A_000006_hour_collect info sched) path;
  mret 0.
Definition A_000007_hour_main : list byte -> io Z :=
  hour_report_main (report_members 512) report_cfg_table A_000007_hour_collect.
Definition A_000008_hour_main : list byte -> io Z :=
  hour_report_main (report_members 1024) report_cfg_table A_000008_hour_collect.
Definition A_000009_hour_main : list byte -> io Z :=
  hour_report_main (report_members 1024) report_cfg_table A_000009_hour_collect.

(** ** One day *)

(** What follows the name of the program for five minutes in the configuration of an hour. *)
Definition unit_key (keyed : bool) (unit : list byte) (info : cfg) : res (list byte) :=
  if keyed then p ← text_of info "prefixshmkey"; Ok (unit ++ [nl] ++ str "prefixshmkey_0004:" ++ p)
  else Ok unit.

Definition cat_cmd (src dest : list byte) : list byte := str "cat " ++ src ++ str " >> " ++ dest.
Fixpoint cat_all (dest dir ana : list byte) (subs : list (list byte)) : io () :=
  match subs with
  | [] => mret tt
  | sub :: subs =>
    tmp ← lift (fits 1024 (dir ++ str "/" ++ sub ++ str "/" ++ ana ++ str ".analysis"));
    cmd ← lift (fits 2048 (cat_cmd tmp dest));
    _ ← lcs_bash_cmd cmd;
    cat_all dest dir ana subs
  end.

(** The threads work in the order [sched] makes of them. *)
Definition report_day (keyed : bool) (unit : list byte) (info : cfg)
    (sched : list (list byte) -> list (list byte)) (dir : list byte) (subs : list (list byte))
    (err : Z) : io Z :=
  ana ← lift (text_of info "name_ana");
  dest ← lift (fits 1024 (dir ++ str "/" ++ ana ++ str ".analysis"));
  tasks ← day_missing 6 dir ana subs;
  _ ← (match tasks with
       | [] => mret tt
       | _ =>
         _ ← emit (EvRemove dest);
         unit ← lift (unit_key keyed unit info);
         day_tasks unit info dir ana (sched tasks)
       end);
  _ ← cat_all dest dir ana subs;
  mret err.

(** A_000005 merges the rows of the day; the result is the error and how freeing them ends. *)
Definition A_000005_day_collect (info : cfg) (sched : list (list byte) -> list (list byte))
    (dir : list byte) (subs : list (list byte)) (err : Z) : io (Z * res ()) :=
  err ← report_day false (str "../A_000005_05m/lcs_A_000005_05m") info sched dir subs err;
  ana ← lift (text_of info "name_ana");
  dest ← lift (fits 1024 (dir ++ str "/" ++ ana ++ str ".analysis"));
  having ← lcs_comm_filexist dest;
  if negb having then mret (err, Ok tt)
  else
    '(text, err) ← lcs_file_text dest None err;
    match text with
    | None => mret (err, Ok tt)
    | Some m =>
      s ← lift (cstr m);
      match s with
      | [] => mret (err, Ok tt)
      | _ =>
        ok ← ask (fun tr => fopen_w tr dest);
        '(file, freed) ← lift (lcs_hcollect005_sum ok m);
        _ ← (match file with Some f => emit (EvWrite dest f) | None => mret tt end);
        mret (err, freed)
      end
    end.

(** A_000006 has no threads: an error in the configuration of one hour ends the work on all
    later ones, whose configurations are written nevertheless. *)
Fixpoint day_seq (unit : list byte) (info : cfg) (dir ana : list byte) (subs : list (list byte))
    (count err : Z) : io (Z * Z) :=
  match subs with
  | [] => mret (count, err)
  | sub :: subs =>
    tmp ← lift (fits 1024 (dir ++ str "/" ++ sub ++ str "/" ++ ana ++ str ".analysis"));
    isexist ← lcs_comm_filexist tmp;
    if isexist : bool then day_seq unit info dir ana subs count err
    else
      path ← lcs_dgen_config unit dir sub ana;
      err ← (match path with
             | None => mret 1
             | Some path =>
               if negb (err =? 0) then mret err
               else
                 subprocess ← lift (text_of info "subprocess");
                 cmd ← lift (fits 1024 (subprocess ++ str " " ++ path ++ str " > /dev/null"));
                 _ ← lcs_bash_cmd cmd;
                 mret err
             end);
      day_seq unit info dir ana subs (count + 1) err
  end.
Definition A_000006_day_collect (info : cfg) (dir : list byte) (subs : list (list byte)) (err : Z)
    : io Z :=
  ana ← lift (text_of info "name_ana");
  dest ← lift (fits 1024 (dir ++ str "/" ++ ana ++ str ".analysis"));
  '(count, err) ← day_seq (str "../A_000006_05m/lcs_A_000006_05m") info dir ana subs 0 err;
  _ ← (if count =? 0 then mret tt else emit (EvRemove dest));
  _ ← cat_all dest dir ana subs;
  mret err.

Definition A_000007_day_collect := report_day true (str "../A_000007_05m/lcs_A_000007_05m").
Definition A_000008_day_collect := report_day true (str "../A_000008_05m/lcs_A_000008_05m").
Definition A_000009_day_collect := report_day true (str "../A_000009_05m/lcs_A_000009_05m").

(** [main] of the programs for a day, which end when the directory could not be listed. *)
Definition day_report_main
    (collect : cfg -> (list (list byte) -> list (list byte)) -> list byte -> list (list byte) -> Z -> io Z)
    (path : list byte) (sched : list (list byte) -> list (list byte)) : io Z :=
  '(info, _) ← cfg_load report_cfg_table path (cleared (report_members 512)) 0;
  target ← lift (text_of info "targetpath");
  '(arrdir, count, err) ← lcs_comm_subdir_ext target true 0 0;
  if negb (err =? 0) then mret 1
  else
    err ← (match arrdir with
           | None => mret err
           | Some l =>
             l ← lift (sort_listing l count); on_listing l (fun subs => collect info sched target subs err)
           end);
    mret (if err =? 0 then 0 else 1).
Definition A_000005_day_main : list byte -> (list (list byte) -> list (list byte)) -> io Z :=
  day_report_main (fun info sched dir subs err =>
    '(err, freed) ← A_000005_day_collect info sched dir subs err; _ ← lift freed; mret err).
Definition A_000006_day_main (path : list byte) : io Z :=
  _ ← hour_report_main hour_members hour_cfg_table A_000006_day_collect path; mret 0.
Definition A_000007_day_main := day_report_main A_000007_day_collect.
Definition A_000008_day_main := day_report_main A_000008_day_collect.
Definition A_000009_day_main := day_report_main A_000009_day_collect.

End Programs.

(** ** The report of an hour *)

Section Hours.
Context `{World}.
Variables (dir ana : list byte).

(** The events for an hour without a result: its configuration and its program. *)
Definition report_cmd (quiet : bool) (prog sub : list byte) : list byte :=
  prog ++ str " " ++ config_of dir ana sub ++ (if quiet then str " > /dev/null" else []).
Definition report_task (quiet : bool) (prog key sub : list byte) : trace :=
  [EvWrite (config_of dir ana sub)
     (str "targetpath_0001:" ++ dir ++ str "/" ++ sub ++ [nl] ++ str "name_ana_0002:" ++ ana ++ key);
   EvPopen (report_cmd quiet prog sub)].
Definition report_tasks (quiet : bool) (prog key : list byte) (made : list byte -> bool)
    (subs : list (list byte)) : trace :=
  concat (map (fun sub => if made sub then [] else report_task quiet prog key sub) subs).
(** The last line of the configuration. *)
Definition key_line (keyed : bool) (info : cfg) (key : list byte) : Prop :=
  if keyed then exists p, text_of info "prefixshmkey" = Ok p /\ key = [nl] ++ str "prefixshmkey_0003:" ++ p
  else key = [].

Lemma report_cmd_inj quiet prog a b : report_cmd quiet prog a = report_cmd quiet prog b -> a = b.
Proof.
  unfold report_cmd. intros He. do 2 apply app_inv_head in He. apply app_inv_tail in He.
  by apply config_of_inj in He.
Qed.

Lemma report_gen_ok keyed quiet info prog key sub err tr :
  key_line keyed info key -> text_of info "subprocess" = Ok prog -> zlen prog < 1000 ->
  zlen dir + zlen sub + zlen ana < 1000 -> (forall tr path, fopen_w tr path = true) ->
  report_gen keyed quiet info dir sub ana err tr = Ok (err, tr ++ report_task quiet prog key sub).
Proof.
  intros Hk Hp Zp Hz Hw. unfold report_gen, report_config. rewrite io_bind_assoc.
  io_fits ltac:(text_len). rewrite io_bind_assoc, io_bind_ask, Hw. cbn [negb].
  assert (Hc : zlen (config_of dir ana sub) < 1020) by (unfold config_of; text_len).
  assert (Hq : zlen (if quiet then str " > /dev/null" else []) < 13) by (by destruct quiet).
  rewrite io_bind_assoc, (io_bind_ok _ _ _ key tr).
  2:{ destruct keyed; cbn [key_line] in Hk; [|by subst]. destruct Hk as (p & Hkp & ->).
      by rewrite (io_bind_lift _ _ _ p) by done. }
  rewrite io_bind_assoc, io_bind_emit, io_bind_ret, (io_bind_lift _ _ _ prog) by done.
  change (dir ++ str "/" ++ sub ++ str "/" ++ ana ++ str ".config.cfg") with (config_of dir ana sub).
  set (q := if quiet then _ else _) in *.
  io_fits ltac:(text_len). unfold lcs_bash_cmd. rewrite io_bind_emit. unfold report_task, report_cmd.
  fold q. by rewrite <- app_assoc.
Qed.

Lemma hour_fill_ok keyed quiet info prog key made text subs tr err :
  produced dir ana (report_cmd quiet prog) made text subs -> NoDup subs ->
  key_line keyed info key -> text_of info "subprocess" = Ok prog -> zlen prog < 1000 ->
  (forall sub, sub ∈ subs -> EvPopen (report_cmd quiet prog sub) ∉ tr) ->
  hour_fill keyed quiet info dir ana subs err tr
  = Ok (err, tr ++ report_tasks quiet prog key made subs).
Proof.
  intros Hr Hnd Hk Hp Zp. revert tr err.
  induction subs as [|sub subs IH]; intros tr err Htr; cbn [hour_fill].
  { unfold report_tasks. cbn [map concat]. by rewrite app_nil_r. }
  apply NoDup_cons in Hnd as [Hni Hnd].
  assert (Hin : sub ∈ sub :: subs) by left. pose proof (pd_len _ _ _ _ _ _ Hr sub Hin) as Hz.
  io_fits ltac:(text_len). fold (result_of dir ana sub).
  unfold report_tasks in *. cbn [map concat]. unfold lcs_comm_filexist. rewrite io_bind_ask.
  destruct (made sub) eqn:Em.
  - destruct (pd_there _ _ _ _ _ _ Hr tr sub Hin (or_introl Em)) as (fp & -> & _).
    rewrite io_bind_ret. apply IH; [by eapply produced_tail|done|]. intros s Hs. apply Htr. by right.
  - rewrite (pd_none _ _ _ _ _ _ Hr tr sub Hin Em (Htr _ Hin)).
    rewrite (io_bind_ok _ _ _ _ _ (report_gen_ok keyed quiet info prog key sub err tr Hk Hp Zp Hz
      (pd_write _ _ _ _ _ _ Hr))).
    rewrite IH; [by rewrite <- app_assoc|by eapply produced_tail|done|].
    intros s Hs Hb. apply elem_of_app in Hb as [Hb|Hb]; [by apply (Htr s); [right|]|].
    unfold report_task in Hb. rewrite !elem_of_cons, elem_of_nil in Hb.
    destruct Hb as [Hb|[Hb|[]]]; [discriminate|]. injection Hb as Hb. apply report_cmd_inj in Hb. by subst.
Qed.

(** After the first loop every result is there. *)
Lemma tasks_run quiet prog key made subs tr sub :
  sub ∈ subs ->
  made sub = true \/ EvPopen (report_cmd quiet prog sub) ∈ tr ++ report_tasks quiet prog key made subs.
Proof.
  intros Hin. destruct (made sub) eqn:Em; [by left|right]. apply elem_of_app. right.
  unfold report_tasks. apply list_elem_of_In, in_concat. exists (report_task quiet prog key sub).
  split; [|right; left; done]. apply list_elem_of_In in Hin.
  apply (in_map (fun sub => if made sub then [] else report_task quiet prog key sub)) in Hin.
  by rewrite Em in Hin.
Qed.

Lemma append_texts_ok cmd made text subs tr out err :
  produced dir ana cmd made text subs -> (forall sub, sub ∈ subs -> no_nul (text sub)) ->
  (forall sub, sub ∈ subs -> made sub = true \/ EvPopen (cmd sub) ∈ tr) ->
  append_texts true dir ana subs out err tr = Ok ((out ++ concat (map text subs), err), tr).
Proof.
  intros Hr Hn. revert out. induction subs as [|sub subs IH]; intros out Hd; cbn [append_texts map concat].
  { by rewrite app_nil_r. }
  assert (Hin : sub ∈ sub :: subs) by left. pose proof (pd_len _ _ _ _ _ _ Hr sub Hin) as Hz.
  io_fits ltac:(text_len). fold (result_of dir ana sub).
  destruct (pd_there _ _ _ _ _ _ Hr tr sub Hin (Hd _ Hin)) as (fp & Hf & Hreg & Hb).
  rewrite (io_bind_ok _ _ _ _ _ (lcs_file_text_ok _ None err tr fp Hf Hreg)), Hb.
  rewrite (io_bind_lift _ _ _ (text sub)) by (apply cstr_terminated, Hn; by left).
  assert (IH' : forall out, append_texts true dir ana subs out err tr
    = Ok ((out ++ concat (map text subs), err), tr)).
  { intros out'. apply IH; [by eapply produced_tail|..]; intros s Hs; [apply Hn|apply Hd]; by right. }
  destruct (text sub) as [|b t]; [apply IH'|]. by rewrite IH', <- app_assoc.
Qed.

Lemma hour_append_ok dest cmd made text subs tr err :
  produced dir ana cmd made text subs -> (forall sub, sub ∈ subs -> no_nul (text sub)) ->
  (forall sub, sub ∈ subs -> made sub = true \/ EvPopen (cmd sub) ∈ tr) ->
  hour_append dest dir ana subs err tr
  = Ok ((concat (map text subs), err), tr ++ [EvRemove dest; EvAppend dest (concat (map text subs))]).
Proof.
  intros Hr Hn Hd. unfold hour_append. rewrite io_bind_emit, io_bind_ask, (pd_write _ _ _ _ _ _ Hr).
  rewrite (io_bind_ok _ _ _ _ _ (append_texts_ok cmd made text subs (tr ++ [EvRemove dest]) [] err Hr Hn
    ltac:(intros s Hs; destruct (Hd s Hs); [by left|right; apply elem_of_app; by left]))).
  rewrite io_bind_emit. by rewrite <- app_assoc.
Qed.

(** The report of an hour (A_000007 to A_000009): when the program below writes the report of
    the directory it is started on, the program for the hour starts it once for every
    subdirectory without a report, in order and after writing its configuration, and replaces
    the report of the hour by the reports of all its subdirectories one after the other. *)
Theorem hour_report keyed quiet info prog key made text subs tr :
  produced dir ana (report_cmd quiet prog) made text subs -> NoDup subs ->
  (forall sub, sub ∈ subs -> no_nul (text sub)) ->
  key_line keyed info key -> text_of info "subprocess" = Ok prog -> zlen prog < 1000 ->
  text_of info "name_ana" = Ok ana -> zlen dir + zlen ana < 1000 ->
  (forall sub, sub ∈ subs -> EvPopen (report_cmd quiet prog sub) ∉ tr) ->
  report_hour keyed quiet info dir subs 0 tr
  = Ok (0, (tr ++ report_tasks quiet prog key made subs) ++
           [EvRemove (dest_of dir ana); EvAppend (dest_of dir ana) (concat (map text subs))]).
Proof.
  intros Hr Hnd Hn Hk Hp Zp Ha Zd Htr. unfold report_hour. rewrite (io_bind_lift _ _ _ ana) by done.
  rewrite (io_bind_ok _ _ _ _ _ (hour_fill_ok keyed quiet info prog key made text subs tr 0 Hr Hnd Hk Hp Zp Htr)).
  io_fits ltac:(text_len). fold (dest_of dir ana).
  rewrite (io_bind_ok _ _ _ _ _ (hour_append_ok _ _ _ _ _ _ 0 Hr Hn
    (fun sub Hs => tasks_run quiet prog key made subs tr sub Hs))). done.
Qed.

End Hours.

Lemma concat_rows {A B C} (f : B -> list C) (g : A -> list B) l :
  concat (map f (concat (map g l))) = concat (map (fun x => concat (map f (g x))) l).
Proof. induction l as [|x l IH]; [done|]. cbn [map concat]. by rewrite map_app, concat_app, IH. Qed.

Lemma concat_rows_text (rows_of : list byte -> list LCS_MERGE_COUNTING) subs :
  concat (map (fun sub => concat (map row_text (rows_of sub))) subs)
  = concat (map row_text (concat (map rows_of subs))).
Proof. by rewrite concat_rows. Qed.

Section Merging.
Context `{World}.
Variables (dir ana : list byte).

(** The counts of an hour (A_000005): when the program below writes rows of counts, the
    program for the hour starts it where it is missing, puts the rows of all subdirectories
    together and replaces them by one row for every date and hour with the sums.  It ends by
    freeing the rows, which reads each node after freeing it. *)
Theorem hour_merges info prog made rows_of subs tr :
  let rows := concat (map rows_of subs) in
  produced dir ana (report_cmd dir ana false prog) made (fun sub => concat (map row_text (rows_of sub))) subs ->
  NoDup subs -> rows <> [] -> Forall row_wf rows -> small rows ->
  text_of info "subprocess" = Ok prog -> zlen prog < 1000 ->
  text_of info "name_ana" = Ok ana -> zlen dir + zlen ana < 1000 ->
  (forall sub, sub ∈ subs -> EvPopen (report_cmd dir ana false prog sub) ∉ tr) ->
  exists fp,
    A_000005_hour_collect info dir subs 0 tr
    = Ok (Fault DeadObject, (tr ++ report_tasks dir ana false prog [] made subs) ++
           [EvRemove (dest_of dir ana); EvAppend (dest_of dir ana) (concat (map row_text rows));
            EvRemove (dest_of dir ana); EvWrite (dest_of dir ana) fp]) /\
    merged rows fp.
Proof.
  intros rows Hr Hnd Hne Hwf Hsm Hp Zp Ha Zd Htr.
  destruct (hcollect_ok rows Hne Hwf Hsm) as (fp & Hm & Hmerged). exists fp. split; [|done].
  assert (Hn : forall sub, sub ∈ subs -> no_nul (concat (map row_text (rows_of sub)))).
  { intros sub Hs. apply text_no_nul. rewrite Forall_forall in Hwf |- *. intros r Hin. apply Hwf.
    unfold rows. apply list_elem_of_In, in_concat. exists (rows_of sub). split.
    - apply in_map. by apply list_elem_of_In.
    - by apply list_elem_of_In. }
  unfold A_000005_hour_collect. rewrite (io_bind_lift _ _ _ ana) by done.
  rewrite (io_bind_ok _ _ _ _ _ (hour_fill_ok dir ana false false info prog [] made _ subs tr 0 Hr Hnd
    eq_refl Hp Zp Htr)).
  io_fits ltac:(text_len). fold (dest_of dir ana).
  rewrite (io_bind_ok _ _ _ _ _ (hour_append_ok dir ana _ _ _ _ _ _ 0 Hr Hn
    (fun sub Hs => tasks_run dir ana false prog [] made subs tr sub Hs))).
  rewrite io_bind_emit, io_bind_ask, (pd_write _ _ _ _ _ _ Hr).
  rewrite concat_rows_text. fold rows. rewrite (io_bind_lift _ _ _ _ Hm), io_bind_emit.
  unfold mret, io_ret. by rewrite <- !app_assoc.
Qed.

(** The hour of A_000006: its threads may work in any order. *)
Lemma hour_threads_ok info prog tasks tr :
  text_of info "subprocess" = Ok prog -> zlen prog < 1000 -> (forall tr path, fopen_w tr path = true) ->
  Forall (fun sub => zlen dir + zlen sub + zlen ana < 1000) tasks ->
  hour_threads info dir ana tasks tr
  = Ok (tt, tr ++ concat (map (report_task dir ana false prog []) tasks)).
Proof.
  intros Hp Zp Hw Hz. revert tr. induction Hz as [|sub tasks Hz _ IH]; intros tr; cbn [hour_threads map concat].
  - by rewrite app_nil_r.
  - by rewrite (io_bind_ok _ _ _ _ _ (report_gen_ok dir ana false false info prog [] sub 0 tr eq_refl Hp Zp Hz Hw)),
      IH, <- app_assoc.
Qed.

Lemma missing_run (cmd : list byte -> list byte) (task : list byte -> trace) made subs sched tr sub :
  (forall tasks, sched tasks ≡ₚ tasks) -> (forall sub, EvPopen (cmd sub) ∈ task sub) -> sub ∈ subs ->
  made sub = true \/
  EvPopen (cmd sub) ∈ tr ++ concat (map task (sched (List.filter (fun sub => negb (made sub)) subs))).
Proof.
  intros Hsched Ht Hin. destruct (made sub) eqn:Em; [by left|right]. apply elem_of_app. right.
  apply list_elem_of_In, in_concat. exists (task sub). split; [|by apply list_elem_of_In, Ht].
  apply in_map, list_elem_of_In. rewrite Hsched. apply list_elem_of_In, filter_In.
  by rewrite Em, <- list_elem_of_In.
Qed.
Lemma missing_len cmd made text subs sched :
  produced dir ana cmd made text subs -> (forall tasks, sched tasks ≡ₚ tasks) ->
  Forall (fun sub => zlen dir + zlen sub + zlen ana < 1000)
    (sched (List.filter (fun sub => negb (made sub)) subs)).
Proof.
  intros Hr Hsched. rewrite Hsched. apply Forall_forall. intros sub Hin.
  apply list_elem_of_In, filter_In in Hin as [Hin _]. by apply (pd_len _ _ _ _ _ _ Hr), list_elem_of_In.
Qed.

(** The hour of A_000006 is that of the others whatever the order of its threads. *)
Lemma hour_threads_report info sched prog made text subs tr :
  produced dir ana (report_cmd dir ana false prog) made text subs ->
  (forall tasks, sched tasks ≡ₚ tasks) -> (forall sub, sub ∈ subs -> no_nul (text sub)) ->
  text_of info "subprocess" = Ok prog -> zlen prog < 1000 ->
  text_of info "name_ana" = Ok ana -> zlen dir + zlen ana < 1000 -> zlen ana < 64 ->
  Forall (fun sub => zlen sub < 64) subs ->
  (forall sub, sub ∈ subs -> EvPopen (report_cmd dir ana false prog sub) ∉ tr) ->
  A_000006_hour_collect info sched dir subs 0 tr
  = Ok (0, (tr ++ concat (map (report_task dir ana false prog [])
                    (sched (List.filter (fun sub => negb (made sub)) subs)))) ++
           [EvRemove (dest_of dir ana); EvAppend (dest_of dir ana) (concat (map text subs))]).
Proof.
  intros Hr Hsched Hn Hp Zp Ha Zd Za Hs Htr. unfold A_000006_hour_collect.
  rewrite (io_bind_lift _ _ _ ana) by done.
  rewrite (io_bind_ok _ _ _ _ _ (day_missing_ok _ _ _ _ _ _ _ tr Hr Htr Hs Za)).
  rewrite (io_bind_ok _ _ _ _ _ (hour_threads_ok info prog _ tr Hp Zp (pd_write _ _ _ _ _ _ Hr)
    (missing_len _ _ _ _ sched Hr Hsched))).
  io_fits ltac:(text_len). fold (dest_of dir ana).
  rewrite (io_bind_ok _ _ _ _ _ (hour_append_ok dir ana _ _ _ _ _ _ 0 Hr Hn (fun sub Hin =>
    missing_run _ (report_task dir ana false prog []) made subs sched tr sub Hsched
      ltac:(intros; right; left) Hin))). done.
Qed.

End Merging.

(** ** The report of a day *)

Section Days.
Context `{World}.
Variables (dir ana : list byte).
Let dest := dest_of dir ana.

(** What a file holds. *)
Definition content (tr : trace) (path : list byte) : option (list byte) := f_bytes <$> fopen_r tr path.

(** The shell and the file system, as far as the report of the day goes: [cat] appends to it,
    [remove] removes it and the work on the hours leaves it alone. *)
Record shell (subs : list (list byte)) (task : list byte -> trace) : Prop := {
  sh_cat : forall tr sub a, sub ∈ subs -> content tr (result_of dir ana sub) = Some a ->
    content (tr ++ [EvPopen (cat_cmd (result_of dir ana sub) dest)]) dest
    = Some (default [] (content tr dest) ++ a);
  sh_remove : forall tr, content (tr ++ [EvRemove dest]) dest = None;
  sh_task : forall tr sub, sub ∈ subs -> content (tr ++ task sub) dest = content tr dest
}.

Definition cats (subs : list (list byte)) : trace :=
  map (fun sub => EvPopen (cat_cmd (result_of dir ana sub) dest)) subs.

Lemma produced_sub cmd made text subs subs' :
  produced dir ana cmd made text subs -> subs' ⊆ subs -> produced dir ana cmd made text subs'.
Proof. intros [H1 H2 H3 H4] Hi. split; [| |exact H3|]; intros; eauto. Qed.
Lemma shell_sub subs subs' task : shell subs task -> subs' ⊆ subs -> shell subs' task.
Proof. intros [H1 H2 H3] Hi. split; [|exact H2|]; intros; eauto. Qed.

Lemma cats_cons sub subs : cats (sub :: subs) = [EvPopen (cat_cmd (result_of dir ana sub) dest)] ++ cats subs.
Proof. reflexivity. Qed.

Lemma cat_all_ok cmd made text task subs tr :
  produced dir ana cmd made text subs -> shell subs task -> zlen dir + zlen ana < 500 ->
  (forall sub, sub ∈ subs -> made sub = true \/ EvPopen (cmd sub) ∈ tr) ->
  cat_all dest dir ana subs tr = Ok (tt, tr ++ cats subs) /\
  (subs <> [] -> content (tr ++ cats subs) dest = Some (default [] (content tr dest) ++ concat (map text subs))).
Proof.
  intros Hr Hsh Zd. revert tr. induction subs as [|sub subs IH]; intros tr Hd.
  { unfold cats. cbn [map]. by rewrite app_nil_r. }
  assert (Hin : sub ∈ sub :: subs) by left. pose proof (pd_len _ _ _ _ _ _ Hr sub Hin) as Hz.
  cbn [cat_all map concat]. rewrite cats_cons. io_fits ltac:(text_len). fold (result_of dir ana sub).
  assert (Zr : zlen (result_of dir ana sub) < 1020) by (unfold result_of; text_len).
  assert (Ze : zlen dest < 520) by (unfold dest, dest_of; text_len).
  assert (Zc : zlen (cat_cmd (result_of dir ana sub) dest) < 2048) by (unfold cat_cmd; text_len).
  io_fits ltac:(exact Zc). unfold lcs_bash_cmd. rewrite io_bind_emit, app_assoc.
  set (tr' := tr ++ [EvPopen (cat_cmd (result_of dir ana sub) dest)]).
  destruct (IH (produced_tail _ _ _ _ _ _ _ Hr) (shell_sub _ subs _ Hsh ltac:(by intros ?; right)) tr') as [IH1 IH2].
  { intros s Hs. destruct (Hd s) as [Hm|Hp]; [by right|by left|right; apply elem_of_app; by left]. }
  destruct (pd_there _ _ _ _ _ _ Hr tr sub Hin (Hd _ Hin)) as (fp & Hf & _ & Hb).
  assert (Hc : content tr (result_of dir ana sub) = Some (text sub)).
  { unfold content. by rewrite Hf, <- Hb. }
  pose proof (sh_cat _ _ Hsh tr _ _ Hin Hc) as Hcat. split; [exact IH1|]. intros _.
  destruct subs as [|s subs].
  - unfold cats. cbn [map concat]. by rewrite !app_nil_r.
  - rewrite IH2 by done. unfold tr'. rewrite Hcat. cbn [from_option id]. by rewrite <- app_assoc.
Qed.

Lemma tasks_content task subs tr :
  shell subs task -> content (tr ++ concat (map task subs)) dest = content tr dest.
Proof.
  intros Hsh. revert tr. induction subs as [|sub subs IH]; intros tr; cbn [map concat].
  - by rewrite app_nil_r.
  - rewrite app_assoc, IH by (by apply (shell_sub (sub :: subs)); [|intros ?; right]).
    apply (sh_task _ _ Hsh). by left.
Qed.

(** What the report of the day is when the programs for the hours have run. *)
Definition day_text (old : option (list byte)) (missing : list (list byte)) (texts : list byte) : list byte :=
  (if decide (missing = []) then default [] old else []) ++ texts.

Lemma report_day_ok keyed unit unit' info prog made text hours sched tr err :
  let missing := List.filter (fun sub => negb (made sub)) hours in
  let tr' := tr ++ day_removes dir ana missing ++
             concat (map (day_task dir ana unit' prog) (sched missing)) ++ cats hours in
  produced dir ana (day_cmd dir ana prog) made text hours -> shell hours (day_task dir ana unit' prog) ->
  (forall tasks, sched tasks ≡ₚ tasks) -> unit_key keyed unit info = Ok unit' ->
  text_of info "name_ana" = Ok ana -> text_of info "subprocess" = Ok prog ->
  zlen dir + zlen ana + zlen prog < 500 -> zlen ana < 64 -> Forall (fun sub => zlen sub < 6) hours ->
  (forall sub, sub ∈ hours -> EvPopen (day_cmd dir ana prog sub) ∉ tr) ->
  report_day keyed unit info sched dir hours err tr = Ok (err, tr') /\
  (hours <> [] -> content tr' dest = Some (day_text (content tr dest) missing (concat (map text hours)))).
Proof.
  intros missing tr' Hr Hsh Hsched Hk Ha Hp Zd Za Hs Htr. pose proof (zlen_nonneg prog).
  pose proof (pd_write _ _ _ _ _ _ Hr) as Hw. unfold report_day.
  rewrite (io_bind_lift _ _ _ ana) by done. io_fits ltac:(text_len). fold (dest_of dir ana). fold dest.
  rewrite (io_bind_ok _ _ _ _ _ (day_missing_ok _ _ _ _ _ _ _ tr Hr Htr Hs Za)). fold missing.
  assert (Hz : Forall (fun sub => zlen dir + zlen sub + zlen ana + zlen prog < 980) (sched missing)).
  { rewrite Hsched. apply Forall_forall. intros sub Hin. apply list_elem_of_In, filter_In in Hin as [Hin _].
    apply list_elem_of_In in Hin. rewrite Forall_forall in Hs. specialize (Hs sub Hin). cbn in Hs. lia. }
  set (tr1 := tr ++ day_removes dir ana missing).
  set (tr2 := tr1 ++ concat (map (day_task dir ana unit' prog) (sched missing))).
  rewrite (io_bind_ok _ _ tr tt tr2).
  2:{ unfold tr2, tr1. destruct missing as [|m missing'] eqn:Em.
      - assert (sched [] = []) as -> by (apply Permutation_nil_r, Hsched). cbn [map concat day_removes].
        by rewrite !app_nil_r.
      - rewrite io_bind_emit, (io_bind_lift _ _ _ unit') by done. rewrite <- Em in *.
        rewrite (day_tasks_ok dir ana unit' info prog _ _ Hp Hw Hz). by rewrite Em. }
  destruct (cat_all_ok _ made text _ hours tr2 Hr Hsh ltac:(lia)) as [Hcat Hc].
  { intros sub Hin. apply missing_run; [done| |done]. intros s. right. left. }
  rewrite (io_bind_ok _ _ _ _ _ Hcat). replace tr' with (tr2 ++ cats hours) by (unfold tr', tr2, tr1; by rewrite <- !app_assoc).
  split; [done|]. intros Hne. rewrite (Hc Hne). unfold tr2. rewrite tasks_content
    by (apply (shell_sub hours); [done|]; intros sub Hin; rewrite Hsched in Hin; by apply list_elem_of_In, filter_In in Hin as [?%list_elem_of_In _]).
  unfold day_text, tr1. destruct missing; cbn [day_removes].
  - by rewrite app_nil_r, decide_True.
  - by rewrite (sh_remove _ _ Hsh), decide_False.
Qed.

(** C20: The report of a day (A_000007 to A_000009): when the program for the hour writes the report
    of the directory it is started on, each missing hour has exactly one thread, in whatever
    order, and the file of the day ends with the reports of all hours in order.  It is removed
    before only when an hour was missing: otherwise they are appended to what it held. *)
Theorem day_report keyed unit unit' info prog made text hours sched tr :
  let missing := List.filter (fun sub => negb (made sub)) hours in
  let tr' := tr ++ day_removes dir ana missing ++
             concat (map (day_task dir ana unit' prog) (sched missing)) ++ cats hours in
  produced dir ana (day_cmd dir ana prog) made text hours -> shell hours (day_task dir ana unit' prog) ->
  hours <> [] -> (forall tasks, sched tasks ≡ₚ tasks) -> unit_key keyed unit info = Ok unit' ->
  text_of info "name_ana" = Ok ana -> text_of info "subprocess" = Ok prog ->
  zlen dir + zlen ana + zlen prog < 500 -> zlen ana < 64 -> Forall (fun sub => zlen sub < 6) hours ->
  (forall sub, sub ∈ hours -> EvPopen (day_cmd dir ana prog sub) ∉ tr) ->
  report_day keyed unit info sched dir hours 0 tr = Ok (0, tr') /\
  content tr' (dest_of dir ana)
  = Some (day_text (content tr (dest_of dir ana)) missing (concat (map text hours))).
Proof.
  intros missing tr' Hr Hsh Hne. intros.
  destruct (report_day_ok keyed unit unit' info prog made text hours sched tr 0) as [Hrun Hc]; try done.
  split; [done|by apply Hc].
Qed.

Lemma day_text_rows old missing rows :
  day_text (Some (concat (map row_text old))) missing (concat (map row_text rows))
  = concat (map row_text ((if decide (missing = []) then old else []) ++ rows)).
Proof. unfold day_text. rewrite map_app, concat_app. by case_decide. Qed.

Lemma rows_text_ne rows : rows <> [] -> Forall row_wf rows -> concat (map row_text rows) <> [].
Proof.
  intros Hne Hw He. pose proof (tokens_enough rows 0 Hw) as Ht. rewrite He in Ht. cbn in Ht.
  destruct rows; [done|]. cbn in Ht. lia.
Qed.

(** The counts of a day (A_000005): when the program for the hour writes rows of counts, the
    program for the day merges, for every date and hour, the rows of all hours; and when no
    hour was missing it adds them to the rows of its own earlier result, so that a second run
    counts every call twice. *)
Theorem day_merges info prog made old rows_of hours sched tr :
  let unit := str "../A_000005_05m/lcs_A_000005_05m" in
  let missing := List.filter (fun sub => negb (made sub)) hours in
  let rows := (if decide (missing = []) then old else []) ++ concat (map rows_of hours) in
  let tr' := tr ++ day_removes dir ana missing ++
             concat (map (day_task dir ana unit prog) (sched missing)) ++ cats hours in
  produced dir ana (day_cmd dir ana prog) made (fun sub => concat (map row_text (rows_of sub))) hours ->
  shell hours (day_task dir ana unit prog) -> content tr (dest_of dir ana) = Some (concat (map row_text old)) ->
  (forall fp, fopen_r tr' (dest_of dir ana) = Some fp -> regular fp) ->
  hours <> [] -> rows <> [] -> Forall row_wf rows -> small rows ->
  (forall tasks, sched tasks ≡ₚ tasks) ->
  text_of info "name_ana" = Ok ana -> text_of info "subprocess" = Ok prog ->
  zlen dir + zlen ana + zlen prog < 500 -> zlen ana < 64 -> Forall (fun sub => zlen sub < 6) hours ->
  (forall sub, sub ∈ hours -> EvPopen (day_cmd dir ana prog sub) ∉ tr) ->
  exists fp,
    A_000005_day_collect info sched dir hours 0 tr
    = Ok ((0, Fault DeadObject), tr' ++ [EvWrite (dest_of dir ana) fp]) /\
    merged rows fp.
Proof.
  intros unit missing rows tr' Hr Hsh Hold Hreg Hhne Hne Hwf Hsm Hsched Ha Hp Zd Za Hs Htr.
  destruct (hcollect_ok rows Hne Hwf Hsm) as (fp & Hm & Hmerged). exists fp. split; [|done].
  destruct (report_day_ok false unit unit info prog made _ hours sched tr 0 Hr Hsh Hsched eq_refl Ha Hp
    Zd Za Hs Htr) as [Hrun Hc]. fold missing tr' in Hrun, Hc. specialize (Hc Hhne). fold dest in Hold.
  rewrite Hold, concat_rows_text, day_text_rows in Hc. fold rows in Hc.
  unfold A_000005_day_collect. fold unit. rewrite (io_bind_ok _ _ _ _ _ Hrun), (io_bind_lift _ _ _ ana) by done.
  pose proof (zlen_nonneg prog). io_fits ltac:(text_len). fold (dest_of dir ana).
  unfold lcs_comm_filexist. rewrite io_bind_ask. unfold content in Hc. fold dest in Hreg.
  destruct (fopen_r tr' dest) as [f|] eqn:Hf; [|discriminate]. cbn [fmap option_fmap option_map] in Hc.
  injection Hc as Hc. fold dest. rewrite Hf. cbn [negb].
  rewrite (io_bind_ok _ _ _ _ _ (lcs_file_text_ok _ None 0 tr' f Hf (Hreg f eq_refl))), Hc.
  rewrite (io_bind_lift _ _ _ (concat (map row_text rows))) by by apply text_cstr.
  pose proof (rows_text_ne rows Hne Hwf) as Hte.
  destruct (concat (map row_text rows)) as [|b t]; [done|].
  by rewrite io_bind_ask, (pd_write _ _ _ _ _ _ Hr), (io_bind_lift _ _ _ _ Hm), io_bind_emit.
Qed.

End Days.

(** ** Concrete hours and days *)

Module Reporting.
Import Sample.

Definition text (sub : list byte) : list byte :=
  if made sub then str "1 call" ++ [nl] else str "2 calls" ++ [nl] ++ str "3 calls" ++ [nl].
Definition key : list byte := str "/2016_05_".
Definition report_info : cfg :=
  fold_right (fun '(f, v) c => assign c f v) (cleared (report_members 512))
    [("targetpath", dir); ("name_ana", ana); ("subprocess", prog); ("prefixshmkey", key)]%string.

Lemma subs_cases (P : list byte -> Prop) : P sub1 -> P sub2 -> forall sub, sub ∈ subs -> P sub.
Proof. intros P1 P2 sub. unfold subs. rewrite !elem_of_cons, elem_of_nil. by intros [->|[->|[]]]. Qed.

Lemma hour_report_witness :
  @report_hour (spawning (report_cmd dir ana true prog) text) true true report_info dir subs 0 []
  = Ok (0, report_task dir ana true prog ([nl] ++ str "prefixshmkey_0003:" ++ key) sub2 ++
      [EvRemove (str "/w/07/A1.analysis");
       EvAppend (str "/w/07/A1.analysis")
         (str "1 call" ++ [nl] ++ str "2 calls" ++ [nl] ++ str "3 calls" ++ [nl])]).
Proof.
  refine (@hour_report (spawning (report_cmd dir ana true prog) text) dir ana true true report_info prog
    ([nl] ++ str "prefixshmkey_0003:" ++ key) made text subs [] _ _ _ _ _ _ _ _ _).
  - apply spawning_produced. by apply subs_cases.
  - decided.
  - apply subs_cases; repeat constructor; discriminate.
  - by exists key.
  - reflexivity.
  - reflexivity.
  - reflexivity.
  - reflexivity.
  - intros sub _. apply not_elem_of_nil.
Defined.

(** Rows of the counts by hour. *)
Definition rows_of (sub : list byte) : list LCS_MERGE_COUNTING :=
  if made sub then [day_row "10" 100; day_row "09" 7] else [day_row "10" 23].
Definition rows_text (sub : list byte) : list byte := concat (map row_text (rows_of sub)).
Lemma day_row_wf h k :
  word 4 (str h) -> zlen (str h) = 2 -> 0 <= k < 2 ^ 31 -> row_wf (day_row h k).
Proof.
  intros Hh Hz Hk. split; [|split].
  - exists (str "2016-05-01"). split; [apply word_dec; by vm_compute|done].
  - exists (str h). split; [done|]. cbn [LcsCommon.hour day_row]. by rewrite Hz.
  - repeat constructor; cbn; lia.
Qed.
Lemma rows_wf : Forall row_wf (concat (map rows_of subs)).
Proof. repeat (apply Forall_cons; split; [apply day_row_wf|]); try apply Forall_nil; try lia; try reflexivity; try by apply word_dec. Qed.
Lemma rows_small : small (concat (map rows_of subs)).
Proof. split; repeat constructor; vm_compute; try reflexivity; discriminate. Qed.

Lemma hour_merges_witness :
  exists fp,
    @A_000005_hour_collect (spawning (report_cmd dir ana false prog) rows_text) info dir subs 0 []
    = Ok (Fault DeadObject, ([] ++ report_tasks dir ana false prog [] made subs) ++
           [EvRemove (dest_of dir ana);
            EvAppend (dest_of dir ana) (concat (map row_text (concat (map rows_of subs))));
            EvRemove (dest_of dir ana); EvWrite (dest_of dir ana) fp]) /\
    merged (concat (map rows_of subs)) fp.
Proof.
  refine (@hour_merges (spawning (report_cmd dir ana false prog) rows_text) dir ana info prog made rows_of subs []
    _ _ _ _ _ _ _ _ _ _).
  - apply spawning_produced. by apply subs_cases.
  - decided.
  - discriminate.
  - exact rows_wf.
  - exact rows_small.
  - reflexivity.
  - reflexivity.
  - reflexivity.
  - reflexivity.
  - intros sub _. apply not_elem_of_nil.
Defined.

(** What the file of the day holds after [tr], given in reverse, when it held [old] at first. *)
Section Day.
Variables (text : list byte -> list byte) (old : option (list byte)).
Let dest := dest_of dir ana.
Fixpoint day_file (tr : trace) : option (list byte) :=
  match tr with
  | [] => old
  | EvRemove p :: tr => if bool_decide (p = dest) then None else day_file tr
  | EvWrite p t :: tr => if bool_decide (p = dest) then Some t else day_file tr
  | EvPopen c :: tr =>
    match List.find (fun sub => bool_decide (c = cat_cmd (result_of dir ana sub) dest)) subs with
    | Some sub =>
      if made sub || popened (reverse tr) (day_cmd dir ana prog sub)
      then Some (default [] (day_file tr) ++ text sub) else day_file tr
    | None => day_file tr
    end
  | _ :: tr => day_file tr
  end.
Definition day_world : World :=
  let w := spawning (day_cmd dir ana prog) text in {|
  fopen_r tr path :=
    if bool_decide (path = dest) then b ← day_file (reverse tr); file b else @fopen_r w tr path;
  fopen_w := @fopen_w w; popen := @popen w; readdir := @readdir w;
  getenv := @getenv w; shm_create := @shm_create w; mysql_init := @mysql_init w;
  mysql_real_connect := @mysql_real_connect w; mysql_query := @mysql_query w;
  mysql_store_result := @mysql_store_result w;
  sqlite_open := @sqlite_open w; sqlite_prepare := @sqlite_prepare w;
  sqlite_exec := @sqlite_exec w; sqlite_bind := @sqlite_bind w; sqlite_step := @sqlite_step w;
  sqlite_clear_bindings := @sqlite_clear_bindings w; sqlite_reset := @sqlite_reset w;
  sqlite_finalize := @sqlite_finalize w; sqlite_close := @sqlite_close w;
  recv := @recv w; send := @send w
|}.

Lemma result_dest sub : sub ∈ subs -> result_of dir ana sub <> dest.
Proof. by apply (subs_cases (fun sub => result_of dir ana sub <> dest)). Qed.

Lemma day_produced :
  (forall sub, sub ∈ subs -> zlen (text sub) < 2 ^ 32 - 1) ->
  @produced day_world dir ana (day_cmd dir ana prog) made text subs.
Proof.
  intros Hz. destruct (spawning_produced (day_cmd dir ana prog) text Hz) as [H1 H2 H3 H4].
  split; [| |exact H3|exact H4]; intros tr sub Hin; cbn [fopen_r day_world];
    rewrite bool_decide_false by (by apply result_dest); [by apply H1|by apply H2].
Qed.

Lemma content_dest tr : @content day_world tr dest = day_file (reverse tr).
Proof.
  unfold content. cbn [fopen_r day_world]. rewrite bool_decide_true by done. by destruct (day_file _).
Qed.
Lemma day_regular tr :
  (zlen (default [] (day_file (reverse tr))) <? 2 ^ 32 - 1) = true ->
  forall fp, @fopen_r day_world tr dest = Some fp -> regular fp.
Proof.
  intros Hz%Z.ltb_lt fp. cbn [fopen_r day_world]. rewrite bool_decide_true by done.
  destruct (day_file (reverse tr)); [|done]. by intros [= <-].
Qed.
Lemma content_result tr sub :
  sub ∈ subs ->
  @content day_world tr (result_of dir ana sub)
  = if made sub || popened tr (day_cmd dir ana prog sub) then Some (text sub) else None.
Proof.
  intros Hin. unfold content. cbn [fopen_r day_world spawning].
  rewrite bool_decide_false, find_sub by (done || by apply result_dest). by destruct (_ || _).
Qed.

Lemma day_shell unit : @shell day_world dir ana subs (day_task dir ana unit prog).
Proof.
  split.
  - intros tr sub a Hin Ha. rewrite content_result in Ha by done.
    rewrite !content_dest, reverse_snoc. cbn [day_file]. fold dest.
    assert (List.find (fun s => bool_decide (cat_cmd (result_of dir ana sub) dest = cat_cmd (result_of dir ana s) dest)) subs
      = Some sub) as -> by (clear Ha; revert sub Hin; by apply subs_cases).
    rewrite reverse_involutive. destruct (_ || _); [|done]. by injection Ha as ->.
  - intros tr. rewrite content_dest, reverse_snoc. cbn [day_file]. by rewrite bool_decide_true.
  - intros tr sub Hin. rewrite !content_dest. unfold day_task. rewrite reverse_app. revert sub Hin.
    by apply subs_cases.
Qed.
End Day.

Definition unit8 : list byte := str "../A_000008_05m/lcs_A_000008_05m".
Definition unit8_key : list byte := unit8 ++ [nl] ++ str "prefixshmkey_0004:" ++ key.
(** The hour that is missing gets its report, and what the file held is removed. *)
Lemma day_report_witness :
  let tr' := [EvRemove (dest_of dir ana)] ++ day_task dir ana unit8_key prog sub2 ++ cats dir ana subs in
  @report_day (day_world text (Some (str "old"))) true unit8 report_info (@reverse (list byte)) dir subs 0 []
  = Ok (0, tr') /\
  @content (day_world text (Some (str "old"))) tr' (dest_of dir ana)
  = Some (str "1 call" ++ [nl] ++ str "2 calls" ++ [nl] ++ str "3 calls" ++ [nl]).
Proof.
  refine (@day_report (day_world text (Some (str "old"))) dir ana true unit8 unit8_key report_info prog made text
    subs (@reverse (list byte)) [] _ _ _ _ _ _ _ _ _ _ _).
  - apply day_produced. by apply subs_cases.
  - apply day_shell.
  - discriminate.
  - intros tasks. apply reverse_Permutation.
  - reflexivity.
  - reflexivity.
  - reflexivity.
  - reflexivity.
  - reflexivity.
  - repeat constructor.
  - intros sub _. apply not_elem_of_nil.
Defined.

(** The day is run again with no hour missing: each call is counted twice. *)
Lemma day_merges_witness :
  let again := [sub1] in
  let rows := rows_of sub1 ++ rows_of sub1 in
  let tr' := cats dir ana again in
  exists fp,
    @A_000005_day_collect (day_world rows_text (Some (rows_text sub1))) info (@reverse (list byte)) dir again 0 []
    = Ok ((0, Fault DeadObject), tr' ++ [EvWrite (dest_of dir ana) fp]) /\
    merged rows fp.
Proof.
  assert (Hin : [sub1] ⊆ subs) by (intros sub Hs; apply list_elem_of_singleton in Hs as ->; left).
  refine (@day_merges (day_world rows_text (Some (rows_text sub1))) dir ana info prog made (rows_of sub1) rows_of
    [sub1] (@reverse (list byte)) [] _ _ _ _ _ _ _ _ _ _ _ _ _ _ _).
  - apply (produced_sub _ _ _ _ _ subs); [|done]. apply day_produced. by apply subs_cases.
  - apply (shell_sub _ _ subs); [|done]. apply day_shell.
  - reflexivity.
  - apply day_regular. by vm_compute.
  - discriminate.
  - discriminate.
  - repeat (apply Forall_cons; split; [apply day_row_wf; [by apply word_dec|reflexivity|lia]|]); apply Forall_nil; done.
  - split; repeat constructor; vm_compute; try reflexivity; discriminate.
  - intros tasks. apply reverse_Permutation.
  - reflexivity.
  - reflexivity.
  - reflexivity.
  - reflexivity.
  - repeat constructor.
  - intros sub _. apply not_elem_of_nil.
Defined.

End Reporting.
