(* ===== verification/Handover.v ===== *)
(** * Configuration files handed from program to program

    The manager writes a configuration file and starts a program on it; the export writes one
    for the program that loads its files into a database.  Each theorem runs the writer of
    one program and the loader of another and shows that every setting arrives. *)
From S2P Require Import Prelude CString OpenSSL World ToyWorld Config.
From S2P Require Import Calendar.
From S2P Require Manager Cluster Insert Analysis WhServer.

(** ** Lemmas *)

(** The loop that replaces every ['-'], behind a part without any. *)
Lemma dashes_ok fuel a v r :
  x2d ∉ a -> no_nul (a ++ v) -> (length v < fuel)%nat ->
  Cluster.dashes fuel ((a ++ v) ++ x00 :: r) = Ok ((a ++ redash x5f v) ++ x00 :: r).
Proof.
  revert fuel a. induction v as [|b v IH]; intros fuel a Ha Hn Hf.
  - destruct fuel as [|fuel]; cbn [length] in Hf; [lia|]. cbn [Cluster.dashes].
    rewrite cstr_terminated by done. cbn [mbind res_bind]. rewrite app_nil_r.
    change (str "-") with [x2d]. rewrite strstr_char_none by done. cbn. by rewrite app_nil_r.
  - cbn [redash map]. destruct (b2z b =? 45) eqn:E; b2p.
    + assert (b = x2d) as -> by (apply b2z_inj; done).
      destruct fuel as [|fuel]; cbn [length] in Hf; [lia|]. cbn [Cluster.dashes].
      rewrite cstr_terminated by done. cbn [mbind res_bind]. change (str "-") with [x2d].
      rewrite strstr_char_some by done.
      assert (Hw : wr ((a ++ x2d :: v) ++ x00 :: r) (zlen a) (str "_")
                   = Ok (((a ++ [x5f]) ++ v) ++ x00 :: r)).
      { rewrite <- !app_assoc. change (str "_") with [x5f].
        cbn [app]. change (x2d :: v ++ x00 :: r) with ([x2d] ++ (v ++ x00 :: r)).
        by rewrite (wr_mid a [x2d] [x5f]). }
      rewrite Hw. cbn [mbind res_bind]. rewrite IH.
      * do 2 f_equal. by rewrite <- app_assoc.
      * rewrite elem_of_app. intros [?|Hx]; [done|]. by apply list_elem_of_singleton in Hx.
      * apply Forall_app in Hn as [H1 H2]. apply Forall_cons in H2 as [_ H2]. unfold no_nul.
        rewrite <- app_assoc. apply Forall_app. split; [done|]. by constructor.
      * lia.
    + specialize (IH fuel (a ++ [b])). rewrite <- !app_assoc in IH. cbn [app] in IH.
      rewrite <- !app_assoc. cbn [app]. unfold redash in IH. rewrite IH; [done| | |].
      * rewrite elem_of_app. intros [?|Hx]; [done|]. apply list_elem_of_singleton in Hx.
        subst b. done.
      * done.
      * cbn [length] in Hf. lia.
Qed.

Lemma dashes_all v n :
  no_nul v -> zlen v < n ->
  Cluster.dashes (S (length (v ++ zeros (n - zlen v)))) (v ++ zeros (n - zlen v))
  = Ok (redash x5f v ++ zeros (n - zlen v)).
Proof.
  intros Hn Hl. unfold zeros. replace (Z.to_nat (n - zlen v)) with (S (Z.to_nat (n - zlen v - 1))) by lia.
  cbn [replicate]. apply (dashes_ok _ []); [apply not_elem_of_nil|done|]. rewrite length_app. cbn. lia.
Qed.

(** What [uuidgen] prints: a line. *)
Definition prints_name `{World} (name : list byte) : Prop :=
  (nl ∉ name) /\ no_nul name /\ zlen name < 1022 /\
  forall tr, popen tr (str "uuidgen") = Some (name ++ [nl]).

Section Names.
Context `{World} `{TimeZone}.

(** What a writer leaves behind. *)
Lemma write_cfg_ok name data text tr :
  prints_name name -> (forall tr path, fopen_w tr path = true) -> data = Ok text ->
  Manager.write_cfg data tr
  = Ok (Some name, (tr ++ [EvPopen (str "uuidgen")]) ++ [EvWrite name text]).
Proof. intros (Hnl & Hn & Hz & Hp) Hw Hd. by apply Analysis.write_cfg_at. Qed.

(** A file of lines that has just been written is loaded line by line. *)
Lemma load_written table info err tr path text kvs base last :
  reads_back -> text = file_of (lines_of kvs) (str base ++ last) ->
  Forall (fun kv => line_ok (str kv.1) /\ value_ok kv.2) kvs ->
  line_ok (str base) -> value_ok last -> zlen text < 2 ^ 32 - 1 ->
  cfg_load table path info err (tr ++ [EvWrite path text])
  = (info ← cfg_items table info (lines_of kvs ++ [str base ++ last]); mret (info, err))
      (tr ++ [EvWrite path text]).
Proof.
  intros Hr Ht Hl Hb Hv Hz. destruct (Hr tr path text) as (fp & Hf & Hby & Hte).
  assert (Hlast : line_ok (str base ++ last)) by (by apply line_of_value).
  rewrite (cfg_load_lines table path info err _ fp (lines_of kvs) (str base ++ last)).
  - destruct (str base ++ last) as [|b l] eqn:E; [by destruct Hlast|]. done.
  - done.
  - unfold regular. by rewrite Hby, Hte.
  - by rewrite Hby.
  - apply Forall_map. eapply Forall_impl; [exact Hl|]. intros [k v] [? ?]. by apply line_of_value.
  - by right.
Qed.

End Names.

(** Boolean form of [line_ok], for keys. *)
Definition key_line (s : string) : bool :=
  negb (bool_decide (str s = [])) &&
  forallb (fun b => negb (is_delim delims b) && negb (bool_decide (b = x00))) (str s).
Lemma key_line_ok s : key_line s = true -> line_ok (str s).
Proof.
  unfold key_line. rewrite andb_true_iff, negb_true_iff, bool_decide_eq_false. intros [Hn Hb].
  split; [done|]. apply Forall_forall. intros b Hin. rewrite forallb_forall in Hb.
  specialize (Hb b (proj1 (list_elem_of_In _ _) Hin)).
  rewrite andb_true_iff, !negb_true_iff, bool_decide_eq_false in Hb. done.
Qed.

(** And of [value_ok], for literals. *)
Definition plain (s : string) : bool :=
  forallb (fun b => negb (is_delim delims b) && negb (bool_decide (b = x00)) &&
                    negb (bool_decide (b = colon))) (str s).
Lemma plain_ok s : plain s = true -> value_ok (str s).
Proof.
  unfold plain. intros Hb. apply Forall_forall. intros b Hin. rewrite forallb_forall in Hb.
  specialize (Hb b (proj1 (list_elem_of_In _ _) Hin)).
  rewrite !andb_true_iff, !negb_true_iff, !bool_decide_eq_false in Hb. tauto.
Qed.

(** ** From the manager to the export *)

(** A member of a server's record with a value that can be handed on in a line. *)
Definition setting (p : cfg) (f : string) (v : list byte) (n : Z) : Prop :=
  text_of p f = Ok v /\ value_ok v /\ zlen v < n.

Section DayExport.
Context `{World} `{TimeZone}.

Lemma cluster_keys : keys_ok Cluster.lcs_cfg_table = true.
Proof. reflexivity. Qed.

(** The item of the date sets two members. *)
Lemma date_item info v tr :
  value_ok v -> zlen v < 64 -> member info "date" = zeros 64 -> member info "date_01" = zeros 64 ->
  exists info', Cluster.lcs_cfg_item info (str "date_0011:" ++ v) tr = Ok (info', tr) /\
    text_of info' "date" = Ok v /\ text_of info' "date_01" = Ok (redash x5f v) /\
    forall g, g <> "date"%string -> g <> "date_01"%string -> member info' g = member info g.
Proof.
  intros Hv Hz Hd Hd1. pose proof (value_no_nul v Hv) as Hn. unfold Cluster.lcs_cfg_item.
  rewrite (cfg_item_hit _ "date_0011:" Cluster.copy_date);
    [|exact cluster_keys|by repeat constructor|by apply value_colon].
  unfold Cluster.copy_date. change 10%nat with (length (str "date_0011:")). rewrite drop_key.
  rewrite (io_bind_lift _ _ _ (assign info "date" v))
    by (apply set_member_ok; rewrite Hd, zlen_zeros; lia).
  assert (Hm : member (assign info "date" v) "date_01" = zeros 64) by (by rewrite member_assign_ne).
  rewrite (io_bind_lift _ _ _ (assign (assign info "date" v) "date_01" v))
    by (apply set_member_ok; rewrite Hm, zlen_zeros; lia).
  set (c := assign (assign info "date" v) "date_01" v).
  assert (Hc : member c "date_01" = v ++ zeros (64 - zlen v)).
  { unfold c. rewrite member_assign, Hm. f_equal. unfold zeros, zlen. rewrite drop_replicate.
    f_equal. lia. }
  rewrite Hc, (io_bind_lift _ _ _ _ (dashes_all v 64 Hn Hz)).
  eexists. split; [reflexivity|]. unfold text_of, member. rewrite lookup_insert_eq.
  rewrite lookup_insert_ne by done. cbn [default]. split; [|split].
  - change (default [] (c !! "date"%string)) with (member c "date"). unfold c.
    rewrite member_assign_ne, member_assign by done. rewrite Hd. unfold zeros.
    rewrite drop_replicate. unfold zlen in Hz.
    replace (Z.to_nat 64 - length v)%nat with (S (Z.to_nat 64 - length v - 1)) by lia.
    by apply cstr_terminated.
  - unfold zeros. unfold zlen in *.
    replace (Z.to_nat (64 - Z.of_nat (length v))) with (S (63 - length v)) by lia.
    apply cstr_terminated, redash_no_nul; done.
  - intros g H1 H2. rewrite lookup_insert_ne by done.
    change (default [] (c !! g)) with (member c g). unfold c. by rewrite !member_assign_ne.
Qed.

(** The item of the step. *)
Lemma step_item info tr :
  member info "step" = zeros 4 ->
  exists info', Cluster.lcs_cfg_item info (str "step:" ++ str "60") tr = Ok (info', tr) /\
    Cluster.step info' = 60 /\
    forall g, g <> "step"%string -> member info' g = member info g.
Proof.
  intros Hm. unfold Cluster.lcs_cfg_item.
  rewrite (cfg_item_hit _ "step:" Cluster.scan_step);
    [|exact cluster_keys|by repeat constructor|by apply value_colon, plain_ok].
  unfold Cluster.scan_step. change (if prefixb _ _ then _ else _) with (Some 60). cbv beta iota.
  exists (assign info "step" (le_bytes 4 60)).
  split; [apply lift_ok, set_member_ok; by rewrite Hm|]. split.
  - unfold Cluster.step. by rewrite member_assign, Hm.
  - intros g Hg. by apply member_assign_ne.
Qed.

(** The structure after the login lines: four texts, and every other member as it was. *)
Record logged_in (c : cfg) (server user password db : list byte) : Prop := {
  lg_server : text_of c "server" = Ok server;
  lg_user : text_of c "user" = Ok user;
  lg_password : text_of c "password" = Ok password;
  lg_db : text_of c "db" = Ok db;
  lg_other : forall g, g ∉ ["server"; "user"; "password"; "db"]%string ->
             member c g = member (cleared Cluster.info_members) g
}.

Lemma login_items server user password db tr :
  value_ok server -> value_ok user -> value_ok password -> value_ok db ->
  zlen server < 128 -> zlen user < 64 -> zlen password < 64 -> zlen db < 64 ->
  exists c, cfg_items Cluster.lcs_cfg_table (cleared Cluster.info_members)
      (lines_of [("server:", server); ("user:", user); ("password:", password); ("db:", db)]%string) tr
    = Ok (c, tr) /\ logged_in c server user password db.
Proof.
  intros Vs Vu Vp Vd Zs Zu Zp Zd. set (c0 := cleared Cluster.info_members).
  set (fs := ["server"; "user"; "password"; "db"]%string).
  exists (assign_all c0 fs [server; user; password; db]).
  assert (N : NoDup fs) by decided.
  assert (Hz : forall f n, member c0 f = zeros n -> 0 <= n -> zlen (member c0 f) = n)
    by (intros f n -> Hn; by apply zlen_zeros).
  assert (T : forall i f v n, fs !! i = Some f -> [server; user; password; db] !! i = Some v ->
                member c0 f = zeros n -> zlen v < n -> value_ok v ->
                text_of (assign_all c0 fs [server; user; password; db]) f = Ok v)
    by (intros; eapply text_of_assign_all; try done; by apply value_no_nul).
  split.
  - apply (cfg_items_copies _ _ fs); [exact cluster_keys|].
    repeat constructor; cbn [fst snd]; try (by apply value_colon).
    + rewrite (Hz _ 128) by done. lia.
    + rewrite (Hz _ 64) by done. lia.
    + rewrite (Hz _ 64) by done. lia.
    + rewrite (Hz _ 64) by done. lia.
  - split; [by eapply (T 0%nat)|by eapply (T 1%nat)|by eapply (T 2%nat)|by eapply (T 3%nat)|].
    intros g Hg. by apply member_assign_all_ne.
Qed.

(** The lines behind the login lines. *)
Definition day_lines (root date : list byte) : list (string * list byte) :=
  [("path:", root); ("date_0011:", date); ("step:", str "60"); ("max_duration:", str "900")]%string.

(** A root path that fits sets its member, of 128 characters without a terminating zero; the
    rest of the lines set theirs. *)
Lemma day_items c1 server user password db root date ins tr :
  logged_in c1 server user password db ->
  value_ok root -> value_ok date -> value_ok ins ->
  zlen root <= 128 -> zlen date < 64 -> zlen ins < 1024 ->
  exists c, cfg_items Cluster.lcs_cfg_table c1
      (lines_of (day_lines root date) ++ [str "insertprocess_0009:" ++ ins]) tr = Ok (c, tr) /\
    (forall g, g ∈ ["server"; "user"; "password"; "db"]%string -> text_of c g = text_of c1 g) /\
    text_of c "path" = (if zlen root =? 128 then Fault OobRead else Ok root) /\ text_of c "insertprocess" = Ok ins /\
    text_of c "date" = Ok date /\ text_of c "date_01" = Ok (redash x5f date) /\
    Cluster.step c = 60.
Proof.
  intros [_ _ _ _ Ho] Vr Vt Vi Zr Zt Zi.
  assert (Hpath : member c1 "path" = zeros 128) by (by rewrite Ho by decided).
  set (c2 := assign c1 "path" root).
  assert (H2 : Cluster.lcs_cfg_item c1 (str "path:" ++ root) tr = Ok (c2, tr)).
  { apply cfg_item_copy; [exact cluster_keys|by repeat constructor|by apply value_colon|].
    by rewrite Hpath, zlen_zeros by done. }
  assert (M2 : forall g, g <> "path"%string -> member c2 g = member c1 g)
    by (intros g Hg; apply member_assign_ne; congruence).
  destruct (date_item c2 date tr Vt Zt) as (c3 & H3 & D3 & D3' & M3);
    [by rewrite M2, Ho by decided..|].
  destruct (step_item c3 tr) as (c4 & H4 & S4 & M4); [by rewrite M3, M2, Ho by decided|].
  assert (Hins : member c4 "insertprocess" = zeros 1024) by (by rewrite M4, M3, M2, Ho by decided).
  set (c5 := assign c4 "insertprocess" ins).
  assert (H5 : Cluster.lcs_cfg_item c4 (str "insertprocess_0009:" ++ ins) tr = Ok (c5, tr)).
  { apply cfg_item_copy; [exact cluster_keys|by repeat constructor|by apply value_colon|].
    rewrite Hins, zlen_zeros by done. lia. }
  assert (M5 : forall g, g <> "insertprocess"%string -> member c5 g = member c4 g)
    by (intros g Hg; apply member_assign_ne; congruence).
  exists c5. split.
  { cbn [day_lines lines_of map app fst snd].
    rewrite (cfg_items_step _ _ _ _ _ _ H2), (cfg_items_step _ _ _ _ _ _ H3),
      (cfg_items_step _ _ _ _ _ _ H4), (cfg_items_step _ _ _ _ _ c4).
    - by rewrite (cfg_items_step _ _ _ _ _ _ H5).
    - rewrite (cfg_item_miss _ "max_duration:"); [done|reflexivity|reflexivity|].
      by apply value_colon, plain_ok. }
  split.
  { intros g Hg. unfold text_of. repeat (apply elem_of_cons in Hg as [->|Hg];
      [by rewrite M5, M4, M3, M2 by done|]). by apply not_elem_of_nil in Hg. }
  split.
  { unfold text_of. rewrite M5, M4, M3 by done. destruct (zlen root =? 128) eqn:E; b2p.
    - apply (text_of_assign_full _ _ _ 128); [done|done|by apply value_no_nul].
    - apply (text_of_assign _ _ _ 128); [done|lia|by apply value_no_nul]. }
  split; [apply (text_of_assign _ _ _ 1024); [done|done|by apply value_no_nul]|].
  unfold text_of, Cluster.step. by rewrite !M5, !M4 by done.
Qed.

(** C8: What the manager knows of a server reaches the program that exports a day of it: from the
    file [lcs_get_from_mysql_cfg] writes, the loader of src/cluster/cluster reads the same
    server, user, password, database, root path and program, the day as it is and with
    underscores, and a step of 60 seconds, when none of the values holds a colon, a blank or a
    line end, each is shorter than its member, files can be written and read back, and
    the temporary name is that of one line.  The root path has 512 bytes in the manager and 128
    in the export: one of 129 characters or more is written past the member, and one of exactly
    128 fills it without a terminating zero, so that reading it leaves the member. *)
Theorem mysql_settings p name server user password db root date ins tr :
  reads_back -> (forall tr path, fopen_w tr path = true) -> prints_name name ->
  setting p "server" server 128 -> setting p "user" user 64 -> setting p "password" password 64 ->
  setting p "db" db 64 -> setting p "rootpath" root 512 -> setting p "currentdate" date 64 ->
  setting p "insertprocess" ins 1024 ->
  let r := (path ← Manager.lcs_get_from_mysql_cfg p;
            path ← lift (Cluster.nonnull path);
            Cluster.lcs_cfg_load path (cleared Cluster.info_members) 0) tr in
  if 128 <? zlen root then r = Fault OobWrite
  else exists c tr', r = Ok ((c, 0), tr') /\
    text_of c "server" = Ok server /\ text_of c "user" = Ok user /\
    text_of c "password" = Ok password /\ text_of c "db" = Ok db /\
    text_of c "path" = (if zlen root =? 128 then Fault OobRead else Ok root) /\ text_of c "insertprocess" = Ok ins /\
    text_of c "date" = Ok date /\ text_of c "date_01" = Ok (redash x5f date) /\
    Cluster.step c = 60.
Proof.
  cbv zeta. intros Hrb Hw Hname (Es & Vs & Zs) (Eu & Vu & Zu) (Ep & Vp & Zp) (Ed & Vd & Zd)
    (Er & Vr & Zr) (Et & Vt & Zt) (Ei & Vi & Zi).
  set (kvs := [("server:", server); ("user:", user); ("password:", password); ("db:", db)]%string ++
              day_lines root date).
  set (text := file_of (lines_of kvs) (str "insertprocess_0009:" ++ ins)).
  unfold Manager.lcs_get_from_mysql_cfg, Manager.login.
  rewrite Es, Eu, Ep, Ed, Er, Et, Ei. cbn [mbind res_bind].
  match goal with |- context [Manager.write_cfg (Ok ?x)] =>
    replace x with text by (unfold text, file_of, lines_of, kvs, day_lines, Manager.line;
      cbn [map concat app fst snd]; by rewrite <- !app_assoc) end.
  rewrite (io_bind_ok _ _ _ _ _ (write_cfg_ok name (Ok text) text tr Hname Hw eq_refl)).
  rewrite (io_bind_lift _ _ _ name) by done. unfold Cluster.lcs_cfg_load.
  rewrite (load_written _ _ _ _ _ text kvs "insertprocess_0009:" ins); [|done|done| | |done|].
  2:{ unfold kvs, day_lines. cbn [app].
      repeat (constructor; [split; [by apply key_line_ok|done || by apply plain_ok]|]). constructor. }
  2:{ by apply key_line_ok. }
  2:{ unfold text, kvs, day_lines, file_of, lines_of. cbn [map concat app fst snd]. text_len. }
  set (tr1 := (tr ++ _) ++ _).
  destruct (login_items server user password db tr1) as (c1 & H1 & L1); [done..|].
  unfold kvs, lines_of. rewrite map_app, <- app_assoc. fold (lines_of (day_lines root date)).
  destruct (128 <? zlen root) eqn:E; b2p.
  - apply io_bind_fault. rewrite (cfg_items_app _ _ _ _ _ _ _ H1). cbn [day_lines lines_of map app cfg_items].
    apply io_bind_fault. apply (cfg_item_overflow _ "path"); [exact cluster_keys|by repeat constructor| |].
    + by apply value_colon.
    + rewrite (lg_other _ _ _ _ _ L1) by decided. done.
  - destruct (day_items c1 server user password db root date ins tr1 L1) as (c & Hc & Ht & Hrest);
      [done..|lia|done|done|].
    destruct L1 as [L1 L2 L3 L4 _].
    exists c, tr1. split; [by erewrite io_bind_ok; [|rewrite (cfg_items_app _ _ _ _ _ _ _ H1); exact Hc]|].
    rewrite !Ht by decided. done.
Qed.
End DayExport.

(** ** From the export to the insertion *)

Section Insertion.
Context `{World} `{TimeZone}.

(** The loader of src/cluster/insert_sqlite on the three lines its configuration has. *)
Lemma insert_loads path tables target templ tr :
  reads_back -> value_ok tables -> value_ok target -> value_ok templ ->
  zlen tables < 1024 -> zlen target < 1024 -> zlen templ < 1024 ->
  let text := file_of (lines_of [("tables_0001:", tables); ("targetdir_0002:", target);
                                 ("templatedir_0003:", templ)]%string) [] in
  exists c, Insert.lcs_cfg_load path (cleared Insert.insert_members) 0 (tr ++ [EvWrite path text])
      = Ok ((c, 0), tr ++ [EvWrite path text]) /\
    text_of c "tables" = Ok tables /\ text_of c "targetdir" = Ok target /\
    text_of c "templatedir" = Ok templ.
Proof.
  cbv zeta. intros Hr V1 V2 V3 Z1 Z2 Z3.
  set (kvs := [("tables_0001:", tables); ("targetdir_0002:", target); ("templatedir_0003:", templ)]%string).
  set (fs := ["tables"; "targetdir"; "templatedir"]%string).
  set (c0 := cleared Insert.insert_members).
  assert (Hm : forall g, g ∈ fs -> member c0 g = zeros 1024).
  { intros g Hg. repeat (apply elem_of_cons in Hg as [->|Hg]; [done|]). by apply not_elem_of_nil in Hg. }
  destruct (Hr tr path (file_of (lines_of kvs) [])) as (fp & Hf & Hb & Ht).
  assert (Hlines : Forall line_ok (lines_of kvs)).
  { unfold kvs, lines_of. cbn [map fst snd].
    repeat (constructor; [apply line_of_value; [by apply key_line_ok|done]|]). constructor. }
  exists (assign_all c0 fs [tables; target; templ]). split.
  - unfold Insert.lcs_cfg_load.
    rewrite (cfg_load_lines _ path c0 0 _ fp (lines_of kvs) []); [|done| |done|done|by left].
    + rewrite app_nil_r. erewrite io_bind_ok; [reflexivity|]. apply (cfg_items_copies _ _ fs kvs).
      * reflexivity.
      * repeat constructor; cbn [fst snd]; try (by apply value_colon);
          rewrite Hm by decided; rewrite zlen_zeros by done; lia.
    + unfold regular. rewrite Hb, Ht. split; [done|]. unfold kvs, lines_of, file_of.
      cbn [map concat fst snd]. text_len.
  - assert (N : NoDup fs) by decided.
    split; [|split]; (eapply text_of_assign_all; [done| | |by apply Hm; decided|done|by apply value_no_nul]);
      [by instantiate (1 := 0%nat)|done|by instantiate (1 := 1%nat)|done|by instantiate (1 := 2%nat)|done].
Qed.

(** The directory an export has filled reaches the program that loads it: from the file
    [lcs_geninsert_cfg] writes into the directory, the loader of src/cluster/insert_sqlite
    reads the four tables, the directory and the directory of templates of that server and
    database. *)
Theorem insert_settings (info : Cluster.LCS_MYSQL_INFO) dir root server db tr :
  reads_back -> (forall tr path, fopen_w tr path = true) ->
  setting (Cluster.i_cfg info) "path" root 128 -> setting (Cluster.i_cfg info) "server" server 128 ->
  setting (Cluster.i_cfg info) "db" db 64 -> value_ok dir -> zlen dir < 900 ->
  exists c tr',
    ('(output, _) ← Cluster.lcs_geninsert_cfg info dir;
     output ← lift (Cluster.nonnull output);
     Insert.lcs_cfg_load output (cleared Insert.insert_members) 0) tr = Ok ((c, 0), tr') /\
    text_of c "tables" = Ok (str "cdr,queue_log,monitor_recording,auto_dial_wrapup_history") /\
    text_of c "targetdir" = Ok dir /\
    text_of c "templatedir" = Ok (root ++ str "/" ++ server ++ str "/" ++ db ++ str "/template").
Proof.
  intros Hrb Hw (Er & Vr & Zr) (Es & Vs & Zs) (Ed & Vd & Zd) Vdir Zdir.
  set (templ := root ++ str "/" ++ server ++ str "/" ++ db ++ str "/template").
  set (tables := str "cdr,queue_log,monitor_recording,auto_dial_wrapup_history").
  assert (Vt : value_ok templ).
  { unfold templ, value_ok. repeat (apply Forall_app; split); first [done | by apply plain_ok]. }
  assert (Zt : zlen templ < 345) by (unfold templ; text_len).
  destruct (insert_loads (dir ++ str "/insert.cfg") tables dir templ tr) as (c & Hc & T1 & T2 & T3);
    [done|by apply plain_ok|done|done|reflexivity|lia|lia|].
  exists c. eexists. split; [|done].
  unfold Cluster.lcs_geninsert_cfg. rewrite io_bind_assoc.
  io_fits ltac:(text_len).
  rewrite io_bind_assoc, (io_bind_lift _ _ _ root) by done.
  rewrite io_bind_assoc, (io_bind_lift _ _ _ server) by done.
  rewrite io_bind_assoc, (io_bind_lift _ _ _ db) by done. fold templ.
  rewrite io_bind_assoc. io_fits ltac:(text_len).
  rewrite io_bind_assoc. io_fits ltac:(text_len).
  rewrite io_bind_assoc, io_bind_ask, Hw. cbn [negb].
  rewrite io_bind_assoc. io_fits ltac:(unfold Cluster.list_tables; text_len).
  rewrite io_bind_assoc, io_bind_emit, io_bind_ret, (io_bind_lift _ _ _ (dir ++ str "/insert.cfg")) by done.
  match type of Hc with Insert.lcs_cfg_load _ _ _ (_ ++ [EvWrite _ ?a]) = _ =>
    match goal with |- Insert.lcs_cfg_load _ _ _ (_ ++ [EvWrite _ ?b]) = _ =>
      replace b with a; [exact Hc|] end end.
  unfold file_of, lines_of, Cluster.list_tables, tables. cbn [map concat fst snd].
  change (str "tables_0001:cdr,queue_log,monitor_recording,auto_dial_wrapup_history")
    with (str "tables_0001:" ++ str "cdr,queue_log,monitor_recording,auto_dial_wrapup_history").
  by rewrite <- !app_assoc.
Qed.

End Insertion.

(** ** From the export to the warehouse *)

Section Warehouse.
Context `{World} `{TimeZone}.

(** ["%d"] takes the digits up to another character. *)
Lemma scan_int_digits ds b s :
  Forall (fun x => is_digit x = true) ds -> ds <> [] -> is_digit b = false ->
  Cluster.scan_int (ds ++ b :: s) = Some (atou ds, b :: s).
Proof.
  intros Hd Hne Hb. destruct ds as [|x ds]; [done|]. pose proof Hd as Hd'.
  apply Forall_cons in Hd' as [Hx _]. unfold Cluster.scan_int.
  assert (Hs : drop_while is_space ((x :: ds) ++ b :: s) = (x :: ds) ++ b :: s)
    by (cbn [app drop_while]; by rewrite digit_nonspace).
  rewrite Hs. unfold scan_d. rewrite Hs. cbn [app].
  assert (Hx' := Hx). unfold is_digit in Hx'. b2p. decide_cmp.
  change (x :: ds ++ b :: s) with ((x :: ds) ++ b :: s). unfold scan_digits.
  rewrite take_while_stop by done. cbn [app]. rewrite Hx.
  change (x :: ds ++ b :: s) with ((x :: ds) ++ b :: s). by rewrite drop_while_stop.
Qed.

Lemma pad2_digits n : 0 <= n < 100 -> Forall (fun x => is_digit x = true) (pad2 n).
Proof.
  intros Hn. unfold pad2.
  repeat constructor; apply is_digit_digit; Z.to_euclidean_division_equations; lia.
Qed.

Lemma atou_pad2 n : 0 <= n < 100 -> atou (pad2 n) = n.
Proof.
  intros Hn. unfold atou, pad2. cbn [fold_left].
  rewrite !digit_val by (Z.to_euclidean_division_equations; lia).
  Z.to_euclidean_division_equations; lia.
Qed.

Lemma atou_year y : 1000 <= y <= 9999 -> atou (pad2 (y / 100) ++ pad2 (y mod 100)) = y.
Proof.
  intros Hy. unfold atou, pad2. cbn [app fold_left].
  rewrite !digit_val by (Z.to_euclidean_division_equations; lia).
  Z.to_euclidean_division_equations; lia.
Qed.

Lemma scan_pad2 n b s :
  0 <= n < 100 -> is_digit b = false -> Cluster.scan_int (pad2 n ++ b :: s) = Some (n, b :: s).
Proof.
  intros Hn Hb. rewrite scan_int_digits; [by rewrite atou_pad2|by apply pad2_digits|done|done].
Qed.

(** The directory of a time: its fields are read back from its text. *)
Lemma lcs_get_date_text t :
  tm_ok t -> four_digits t ->
  Cluster.lcs_get_date (time_text t)
  = {| Cluster.year := tm_year t + 1900; Cluster.month := tm_mon t + 1; Cluster.day := tm_mday t;
       Cluster.dhour := tm_hour t; Cluster.min := tm_min t |}.
Proof.
  intros Ht Hy. rewrite time_text_pads by done. pose proof (tm_fields t Ht Hy) as (Hm & _ & Hd).
  pose proof (year_halves _ Hy) as [Y1 Y2]. pose proof Ht as (_ & Hh & Hmi & Hse).
  unfold Cluster.lcs_get_date, Cluster.scan_date.
  rewrite scan_int_digits; [|apply Forall_app; split; apply pad2_digits; lia|done|done].
  rewrite atou_year by done.
  assert (Hl : forall c s, Cluster.scan_lit c (c :: s) = Some s)
    by (intros; unfold Cluster.scan_lit, strp_char; by rewrite Z.eqb_refl).
  rewrite Hl. cbn [option_bind mbind]. rewrite scan_pad2 by (lia || done).
  rewrite Hl. cbn [option_bind mbind]. rewrite scan_pad2 by (lia || done).
  assert (Hsp : forall r, Cluster.scan_int (x20 :: r) = Cluster.scan_int r).
  { intros r. unfold Cluster.scan_int. cbn [drop_while]. change (is_space x20) with true. done. }
  rewrite Hsp, scan_pad2 by (lia || done).
  rewrite Hl. cbn [option_bind mbind]. rewrite scan_pad2 by (lia || done).
  unfold wrap. rewrite !Z.mod_small by (unfold four_digits in Hy; lia). done.
Qed.

Lemma d02_pad2 n : 0 <= n < 100 -> Cluster.d02 n = pad2 n.
Proof.
  intros Hn. unfold Cluster.d02, itoa. decide_cmp. unfold utoa, pad2.
  destruct (Z_lt_le_dec n 10).
  - rewrite utoa_fuel_lt by done. rewrite Z.div_small, Z.mod_small by lia. done.
  - rewrite utoa_fuel_ge by done. rewrite utoa_fuel_lt by (Z.to_euclidean_division_equations; lia). done.
Qed.

Lemma d4_year y : 1000 <= y <= 9999 -> Cluster.d4 y = pad2 (y / 100) ++ pad2 (y mod 100).
Proof. intros Hy. unfold Cluster.d4. by rewrite itoa_four. Qed.

Lemma slashes_app a b : WhServer.slashes (a ++ b) = WhServer.slashes a ++ WhServer.slashes b.
Proof. unfold WhServer.slashes. apply map_app. Qed.

Lemma slashes_mark b s :
  (b2z b =? 45) || (b2z b =? 32) || (b2z b =? 58) = true ->
  WhServer.slashes (b :: s) = x2f :: WhServer.slashes s.
Proof. unfold WhServer.slashes. cbn [map]. by intros ->. Qed.

Lemma slashes_pad2 n : 0 <= n < 100 -> WhServer.slashes (pad2 n) = pad2 n.
Proof.
  intros Hn. unfold pad2, WhServer.slashes. cbn [map].
  rewrite !digit_val by (Z.to_euclidean_division_equations; lia).
  assert (0 <= n / 10 /\ 0 <= n mod 10 < 10 /\ n / 10 < 10) by (Z.to_euclidean_division_equations; lia).
  repeat match goal with |- context [48 + ?x =? ?c] =>
    destruct (48 + x =? c) eqn:?; b2p; [try lia|] end; try done; exfalso; lia.
Qed.

(** The text of a time as the name of the directory of its minute. *)
Lemma period_minute tm :
  tm_ok tm -> four_digits tm ->
  WhServer.period (str "minute") (time_text tm)
  = (pad2 ((tm_year tm + 1900) / 100) ++ pad2 ((tm_year tm + 1900) mod 100)) ++ str "/" ++
    pad2 (tm_mon tm + 1) ++ str "/" ++ pad2 (tm_mday tm) ++ str "/" ++ pad2 (tm_hour tm) ++
    str "/" ++ pad2 (tm_min tm).
Proof.
  intros Ht Hy. pose proof (tm_fields tm Ht Hy) as (Hm & _ & Hd).
  pose proof (year_halves _ Hy) as [Y1 Y2]. pose proof Ht as (_ & Hh & Hmi & Hse).
  unfold WhServer.period. change (WhServer.mode_cut (str "minute")) with (Some 16). cbv beta iota.
  rewrite time_text_pads by done.
  do 6 rewrite ?slashes_app, ?(slashes_mark x2d), ?(slashes_mark x20), ?(slashes_mark x3a) by done.
  by rewrite !slashes_pad2 by lia.
Qed.

Lemma no_tab_pad2 n : 0 <= n < 100 -> x09 ∉ pad2 n.
Proof.
  intros Hn Hin. pose proof (pad2_digits n Hn) as Hd.
  rewrite Forall_forall in Hd. specialize (Hd _ Hin). done.
Qed.

Lemma field_time tm : tm_ok tm -> four_digits tm -> WhServer.field_ok (time_text tm).
Proof.
  intros Ht Hy. split; [by rewrite time_text_length|]. split; [by apply time_text_no_nul|].
  pose proof (tm_fields tm Ht Hy) as (Hm & _ & Hd).
  pose proof (year_halves _ Hy) as [Y1 Y2]. pose proof Ht as (_ & Hh & Hmi & Hse).
  rewrite time_text_pads by done.
  repeat first [apply no_tab_pad2; lia
               | apply not_elem_of_app; split | apply not_elem_of_cons; split; [discriminate|]].
Qed.

(** C25: The warehouse server looks for an analysis of a minute in the directory that the export
    created for the window that starts at that minute: for every time, the path that the
    request for its minute leads to is the directory [lcs_mk_dir] makes of the text of that
    time, with the name of the analysis behind it. *)
Theorem warehouse_directory t root server db to analysis whs :
  printable_time t ->
  Forall WhServer.field_ok [server; db; to; analysis] ->
  zlen server < 32 -> zlen db < 64 -> zlen to < 32 -> zlen analysis < 32 ->
  text_of whs "rootpath" = Ok root -> zlen root < 800 ->
  let from := time_text (localtime t) in
  (p ← WhServer.lcs_whs_gen_request
         (WhServer.tabbed [server; db; from; to; analysis; str "minute"])
         (cleared WhServer.request_members);
   WhServer.lcs_whs_get_path whs p)
  = Ok (Cluster.dir_text root server db (Cluster.lcs_get_date from) ++ analysis ++
        str ".analysis").
Proof.
  intros Hp Hf Z1 Z2 Z4 Z5 Hroot Zr from. destruct (localtime_ok t) as [Ht _].
  subst from. set (tm := localtime t) in *. pose proof (tm_fields tm Ht Hp) as (Hm & _ & Hd).
  pose proof Ht as (_ & Hh & Hmi & Hse).
  pose proof (time_text_length tm Hp) as Hlen. rewrite !Forall_cons in Hf.
  rewrite (WhServer.request_path_ok whs root); try done; [| |lia].
  - f_equal. rewrite lcs_get_date_text by done. unfold Cluster.dir_text.
    cbn [Cluster.year Cluster.month Cluster.day Cluster.dhour Cluster.min].
    rewrite d4_year, !d02_pad2, period_minute by (done || lia). by rewrite <- !app_assoc.
  - pose proof (field_time tm Ht Hp). destruct Hf as (? & ? & ? & ? & _).
    assert (WhServer.field_ok (str "minute")).
    { split; [by vm_compute|]. split; [repeat constructor; discriminate|decided]. }
    by repeat (apply Forall_cons; split; [done|]).
Qed.

End Warehouse.

(** ** A concrete server *)

Module Handing.
#[local] Existing Instance indochina.
#[local] Instance world : World := toy_world [] None (Some (str "0b1c" ++ [nl])) None.

Definition p : cfg :=
  fold_right (fun '(f, v) c => assign c f v) (cleared Manager.server_members)
    [("server", str "10.0.0.7"); ("user", str "u"); ("password", str "p"); ("db", str "asterisk");
     ("rootpath", str "/w"); ("currentdate", str "2017-10-29");
     ("insertprocess", str "./lcs_insert")]%string.

Lemma names : prints_name (str "0b1c").
Proof. split; [decided|]. split; [repeat constructor; discriminate|]. split; [reflexivity|done]. Qed.

Lemma set_of f v n :
  text_of p f = Ok (str v) -> plain v = true -> zlen (str v) < n -> setting p f (str v) n.
Proof. intros H1 H2 H3. split; [done|]. split; [by apply plain_ok|done]. Qed.

Lemma mysql_settings_witness :
  exists c tr',
    (path ← Manager.lcs_get_from_mysql_cfg p;
     path ← lift (Cluster.nonnull path);
     Cluster.lcs_cfg_load path (cleared Cluster.info_members) 0) [] = Ok ((c, 0), tr') /\
    text_of c "server" = Ok (str "10.0.0.7") /\ text_of c "date_01" = Ok (str "2017_10_29") /\
    Cluster.step c = 60.
Proof.
  destruct (mysql_settings p (str "0b1c") (str "10.0.0.7") (str "u") (str "p") (str "asterisk")
    (str "/w") (str "2017-10-29") (str "./lcs_insert") []) as (c & tr' & H1 & H2 & _ & _ & _ & _ & _ & _ & H3 & H4).
  - apply toy_reads_back.
  - done.
  - exact names.
  - by apply set_of.
  - by apply set_of.
  - by apply set_of.
  - by apply set_of.
  - by apply set_of.
  - by apply set_of.
  - by apply set_of.
  - exists c, tr'. split; [exact H1|]. split; [exact H2|]. split; [exact H3|exact H4].
Defined.

Lemma insert_settings_witness :
  exists c tr',
    ('(output, _) ← Cluster.lcs_geninsert_cfg Cluster.Day.info (str "/w/s/d/2017/10/29/08/15/");
     output ← lift (Cluster.nonnull output);
     Insert.lcs_cfg_load output (cleared Insert.insert_members) 0) [] = Ok ((c, 0), tr') /\
    text_of c "tables" = Ok (str "cdr,queue_log,monitor_recording,auto_dial_wrapup_history") /\
    text_of c "targetdir" = Ok (str "/w/s/d/2017/10/29/08/15/") /\
    text_of c "templatedir" = Ok (str "/w/s/d/template").
Proof.
  apply (insert_settings Cluster.Day.info (str "/w/s/d/2017/10/29/08/15/") (str "/w") (str "s")
    (str "d") []).
  - apply toy_reads_back.
  - done.
  - split; [by vm_compute|]. by split; [apply plain_ok|].
  - split; [by vm_compute|]. by split; [apply plain_ok|].
  - split; [by vm_compute|]. by split; [apply plain_ok|].
  - by apply plain_ok.
  - reflexivity.
Defined.

Lemma warehouse_directory_witness :
  (p ← WhServer.lcs_whs_gen_request
         (WhServer.tabbed [str "10.0.0.7"; str "asterisk"; time_text (localtime 1509239700);
                           str "2017-10-29 08:16:00"; str "000001"; str "minute"])
         (cleared WhServer.request_members);
   WhServer.lcs_whs_get_path (assign (cleared WhServer.whs_members) "rootpath" (str "/w")) p)
  = Ok (str "/w/10.0.0.7/asterisk/2017/10/29/08/15/000001.analysis").
Proof.
  transitivity (Ok (Cluster.dir_text (str "/w") (str "10.0.0.7") (str "asterisk")
    (Cluster.lcs_get_date (time_text (localtime 1509239700))) ++ str "000001" ++ str ".analysis"));
    [|by vm_compute].
  apply (warehouse_directory 1509239700); [..|reflexivity].
  - by vm_compute.
  - unfold WhServer.field_ok.
    repeat (constructor; [split; [split; [by vm_compute|reflexivity]|split;
      [repeat constructor; discriminate|decided]]|]). constructor.
  - reflexivity.
  - reflexivity.
  - reflexivity.
  - reflexivity.
  - by vm_compute.
Defined.
End Handing.
