(* ===== verification/Chain.v ===== *)
(** * From the manager to the programs of five minutes

    The manager starts the analysis of a day, the analysis starts the program for the day of
    each report, that one the programs for the hours, and those the programs for five minutes;
    each hands the next a configuration file.  The theorems run the writers and the loaders one
    after the other. *)
From S2P Require Import Prelude CString OpenSSL World ToyWorld Config.
From S2P Require Import Manager Cluster Analysis SharedTables CallReport AgentReport.
From S2P Require Import Counting Reports Handover.

(** ** Files of lines that are all copied *)

(** A member, a key and a value. *)
Definition setting_line : Type := string * (string * list byte).
Fixpoint rendered (l : list setting_line) : list byte :=
  match l with
  | [] => []
  | [(_, (k, v))] => str k ++ v
  | (_, (k, v)) :: l => str k ++ v ++ [nl] ++ rendered l
  end.

Lemma rendered_file l x :
  rendered (l ++ [x]) = file_of (lines_of (map snd l)) (str x.2.1 ++ x.2.2).
Proof.
  unfold file_of, lines_of. induction l as [|[f [k v]] l IH]; [by destruct x as [f [k v]]|].
  cbn [map concat fst snd]. rewrite <- !app_assoc, <- IH. cbn [app]. by destruct l.
Qed.

Section Copies.
Context `{World}.
Variables (table : list entry) (members : list (string * Z)).

(** A line whose key is copied to a member with room for the value. *)
Definition copies (s : setting_line) : Prop :=
  let '(f, (k, v)) := s in
  copy_to f k ∈ table /\ key_line k = true /\ value_ok v /\
  exists n, member (cleared members) f = zeros n /\ zlen v < n.

Lemma copies_line f k v n :
  copy_to f k ∈ table -> key_line k = true -> value_ok v -> member (cleared members) f = zeros n ->
  zlen v < n -> copies (f, (k, v)).
Proof. intros. repeat split; eauto. Qed.

Lemma items_copied l tr :
  keys_ok table = true -> NoDup (map fst l) -> Forall copies l ->
  exists c, cfg_items table (cleared members) (lines_of (map snd l)) tr = Ok (c, tr) /\
    Forall (fun s => text_of c s.1 = Ok s.2.2) l.
Proof.
  intros Hk Hnd Hc.
  exists (assign_all (cleared members) (map fst l) (map snd (map snd l))). split.
  - apply cfg_items_copies; [done|]. apply Forall2_fmap, Forall_Forall2_diag.
    eapply Forall_impl; [exact Hc|]. intros [g [k' v']] (H1 & _ & H3 & m & H4 & H5). cbn [fst snd].
    split; [done|]. split; [by apply value_colon|]. rewrite H4.
    pose proof (zlen_nonneg v'). rewrite zlen_zeros by lia. lia.
  - apply Forall_lookup. intros i [f [k v]] Hi. cbn [fst snd].
    destruct (Forall_lookup_1 _ _ _ _ Hc Hi) as (_ & _ & Hv & n & Hm & Hz).
    apply (text_of_assign_all _ _ _ i f v n); try done; [| |by apply value_no_nul].
    + by apply (list_lookup_fmap_Some_2 fst l i (f, (k, v))).
    + apply (list_lookup_fmap_Some_2 snd _ i (k, v)). by apply (list_lookup_fmap_Some_2 snd l i (f, (k, v))).
Qed.
Lemma copies_line_ok l : Forall copies l -> Forall line_ok (lines_of (map snd l)).
Proof.
  intros Hl. apply Forall_map, Forall_map. eapply Forall_impl; [exact Hl|]. intros [g [k v]] (_ & H1 & H2 & _).
  apply line_of_value; [by apply key_line_ok|done].
Qed.

Lemma load_rendered l path err tr fp :
  keys_ok table = true -> l <> [] -> NoDup (map fst l) -> Forall copies l ->
  fopen_r tr path = Some fp -> regular fp -> f_bytes fp = rendered l ->
  exists c, cfg_load table path (cleared members) err tr = Ok ((c, err), tr) /\
    Forall (fun s => text_of c s.1 = Ok s.2.2) l.
Proof.
  intros Hk Hne Hnd Hc Hf Hr Hb. destruct (items_copied l tr Hk Hnd Hc) as (c & Hi & Ht). exists c. split; [|done].
  destruct l as [|x l _] using rev_ind; [done|].
  assert (Hl : Forall line_ok (lines_of (map snd (l ++ [x])))) by (by apply copies_line_ok).
  rewrite rendered_file in Hb. destruct x as [f [k v]]. cbn [snd fst] in Hb. unfold lines_of in *.
  rewrite !map_app in Hl, Hi. apply Forall_app in Hl as [Hl Hlast%Forall_inv]. cbn [map fst snd] in Hlast, Hi.
  rewrite (cfg_load_lines table path (cleared members) err tr fp _ _ Hf Hr Hb Hl) by (by right).
  replace (match str k ++ v with [] => [] | _ => [str k ++ v] end) with [str k ++ v]
    by (destruct Hlast as [? _]; by destruct (str k ++ v)).
  by rewrite (io_bind_ok _ _ _ _ _ Hi).
Qed.

Lemma load_back l path err tr :
  reads_back -> keys_ok table = true -> l <> [] -> NoDup (map fst l) -> Forall copies l ->
  zlen (rendered l) < 2 ^ 32 - 1 ->
  let tr' := tr ++ [EvWrite path (rendered l)] in
  exists c, cfg_load table path (cleared members) err tr' = Ok ((c, err), tr') /\
    Forall (fun s => text_of c s.1 = Ok s.2.2) l.
Proof.
  intros Hrb Hk Hne Hnd Hc Hz tr'. destruct (Hrb tr path (rendered l)) as (fp & Hf & Hb & Ht).
  apply (load_rendered l path err tr' fp); try done. unfold regular. by rewrite Hb, Ht.
Qed.
End Copies.

(** ** The name of the tables in shared memory *)

Lemma value_redash c s :
  is_delim delims c = false -> c <> x00 -> c <> colon -> value_ok s -> value_ok (redash c s).
Proof.
  intros H1 H2 H3 Hs. apply Forall_map. eapply Forall_impl; [exact Hs|]. intros b Hb. cbn.
  by destruct (b2z b =? 45).
Qed.
Lemma value_app a b : value_ok a -> value_ok b -> value_ok (a ++ b).
Proof. intros Ha Hb. by apply Forall_app. Qed.
Ltac value := repeat (apply value_app || apply value_redash); first [done | by apply plain_ok].

Definition report_lines (dir ana sub key : list byte) : list setting_line :=
  [("targetpath", ("targetpath_0001:", dir)); ("name_ana", ("name_ana_0002:", ana));
   ("subprocess", ("subprocess_0003:", sub)); ("prefixshmkey", ("prefixshmkey_0004:", key))]%string.
Definition minute_lines (dir ana key : list byte) : list setting_line :=
  [("targetpath", ("targetpath_0001:", dir)); ("name_ana", ("name_ana_0002:", ana));
   ("prefixshmkey", ("prefixshmkey_0003:", key))]%string.

Definition table_lines (dbpath key : list byte) : list setting_line :=
  [("dbpath", ("dbpath_0001:", dbpath)); ("prefixshmkey", ("prefixshmkey_0002:", key))]%string.

Section Loads.
Context `{World}.
Variables (dir ana sub key : list byte).
Hypotheses (Vd : value_ok dir) (Va : value_ok ana) (Vs : value_ok sub) (Vk : value_ok key).
Hypotheses (Zd : zlen dir < 1024) (Za : zlen ana < 64) (Zs : zlen sub < 1024) (Zk : zlen key < 512).
Hypothesis Hrb : reads_back.

Lemma report_loads room path err tr :
  512 <= room ->
  let tr' := tr ++ [EvWrite path (rendered (report_lines dir ana sub key))] in
  exists c, cfg_load report_cfg_table path (cleared (report_members room)) err tr' = Ok ((c, err), tr') /\
    text_of c "targetpath" = Ok dir /\ text_of c "name_ana" = Ok ana /\
    text_of c "subprocess" = Ok sub /\ text_of c "prefixshmkey" = Ok key.
Proof.
  intros Hr tr'.
  destruct (load_back report_cfg_table (report_members room) (report_lines dir ana sub key) path err tr)
    as (c & Hc & Ht); [done|reflexivity|done|decided| | |].
  - unfold report_lines. repeat (apply Forall_cons; split); [..|by apply Forall_nil].
    + eapply (copies_line _ _ _ _ _ 1024); [by repeat constructor|reflexivity|done|reflexivity|lia].
    + eapply (copies_line _ _ _ _ _ 64); [by repeat constructor|reflexivity|done|reflexivity|lia].
    + eapply (copies_line _ _ _ _ _ 1024); [by repeat constructor|reflexivity|done|reflexivity|lia].
    + eapply (copies_line _ _ _ _ _ room); [by repeat constructor|reflexivity|done|reflexivity|lia].
  - cbn [rendered report_lines]. text_len.
  - exists c. split; [exact Hc|]. unfold report_lines, minute_lines in Ht. rewrite !Forall_cons in Ht. cbn [fst snd] in Ht. tauto.
Qed.
Lemma minute_loads path err tr :
  let tr' := tr ++ [EvWrite path (rendered (minute_lines dir ana key))] in
  exists c, CallReport.lcs_cfg_load path (cleared template_members) err tr' = Ok ((c, err), tr') /\
    text_of c "targetpath" = Ok dir /\ text_of c "name_ana" = Ok ana /\
    text_of c "prefixshmkey" = Ok key.
Proof.
  intros tr'.
  destruct (load_back CallReport.lcs_cfg_table template_members (minute_lines dir ana key) path err tr)
    as (c & Hc & Ht); [done|reflexivity|done|decided| | |].
  - unfold minute_lines. repeat (apply Forall_cons; split); [..|by apply Forall_nil].
    + eapply (copies_line _ _ _ _ _ 1024); [by repeat constructor|reflexivity|done|reflexivity|lia].
    + eapply (copies_line _ _ _ _ _ 64); [by repeat constructor|reflexivity|done|reflexivity|lia].
    + eapply (copies_line _ _ _ _ _ 512); [by repeat constructor|reflexivity|done|reflexivity|lia].
  - cbn [rendered minute_lines]. text_len.
  - exists c. split; [exact Hc|]. unfold report_lines, minute_lines in Ht. rewrite !Forall_cons in Ht. cbn [fst snd] in Ht. tauto.
Qed.
Lemma table_loads path err tr :
  zlen key < 128 ->
  let tr' := tr ++ [EvWrite path (rendered (table_lines dir key))] in
  exists c, SharedTables.lcs_cfg_load path (cleared SharedTables.members) err tr' = Ok ((c, err), tr') /\
    text_of c "dbpath" = Ok dir /\ text_of c "prefixshmkey" = Ok key.
Proof.
  intros Zk' tr'.
  destruct (load_back SharedTables.lcs_cfg_table SharedTables.members (table_lines dir key) path err tr)
    as (c & Hc & Ht); [done|reflexivity|done|decided| | |].
  - unfold table_lines. repeat (apply Forall_cons; split); [..|by apply Forall_nil].
    + eapply (copies_line _ _ _ _ _ 1024); [by repeat constructor|reflexivity|done|reflexivity|lia].
    + eapply (copies_line _ _ _ _ _ 128); [by repeat constructor|reflexivity|done|reflexivity|lia].
  - cbn [rendered table_lines]. text_len.
  - exists c. split; [exact Hc|]. unfold table_lines in Ht. rewrite !Forall_cons in Ht. cbn [fst snd] in Ht. tauto.
Qed.
End Loads.

Section Names.
Context `{World}.
Variables (root server db d user : list byte).
Hypotheses (Vr : value_ok root) (Vs : value_ok server) (Vb : value_ok db) (Vd : value_ok d) (Vu : value_ok user).
Hypotheses (Zr : zlen root < 512) (Zs : zlen server < 128) (Zb : zlen db < 64) (Zd : zlen d < 12) (Zu : zlen user < 200).

Definition key_of : list byte := user ++ str "." ++ server ++ str "." ++ db ++ str "_" ++ redash x5f d.
Definition day_dir : list byte := root ++ str "/" ++ server ++ str "/" ++ db ++ str "/" ++ redash x2f d.

(** The manager's name is the same. *)
Lemma shm_key_ok p :
  text_of p "server" = Ok server -> text_of p "db" = Ok db -> text_of p "currentdate" = Ok d ->
  getenv (str "USER") = Some user -> shm_key p = Ok key_of.
Proof.
  intros E1 E2 E3 E4. unfold shm_key. rewrite E1, E2, E3, E4. cbn [mbind res_bind].
  rewrite fits_ok by lia. cbn [mbind res_bind]. apply fits_ok.
  pose proof (redash_length x5f d). unfold key_of. text_len.
Qed.

(** The analysis writes, the day reads and writes, the hour reads and writes, and the program for
    five minutes reads. *)
Definition handed_down (path hourprog ana unit hour minute : list byte) : io (cfg * cfg * cfg) :=
  _ ← emit (EvWrite path
        (line "targetpath_0001:" day_dir ++ line "name_ana_0002:" ana ++ line "subprocess_0003:" hourprog ++
         str "prefixshmkey_0004:" ++ key_of));
  '(day, _) ← cfg_load report_cfg_table path (cleared (report_members 512)) 0;
  dir ← lift (text_of day "targetpath");
  name ← lift (text_of day "name_ana");
  unit ← lift (unit_key true unit day);
  path ← lcs_dgen_config unit dir hour name;
  path ← lift (nonnull path);
  '(hourly, _) ← cfg_load report_cfg_table path (cleared (report_members 1024)) 0;
  dir ← lift (text_of hourly "targetpath");
  name ← lift (text_of hourly "name_ana");
  '(path, _) ← report_config true hourly dir minute name 0;
  '(minutely, _) ← CallReport.lcs_cfg_load path (cleared template_members) 0;
  mret (day, hourly, minutely).

Lemma handed_down_ok path hourprog ana unit hour minute tr :
  reads_back -> (forall tr path, fopen_w tr path = true) ->
  value_ok hourprog -> value_ok ana -> value_ok unit -> value_ok hour -> value_ok minute ->
  zlen hourprog < 128 -> zlen ana < 9 -> zlen unit < 128 -> zlen hour < 16 -> zlen minute < 16 ->
  exists day hourly minutely tr',
    handed_down path hourprog ana unit hour minute tr = Ok ((day, hourly, minutely), tr') /\
    (text_of day "targetpath" = Ok day_dir /\ text_of day "name_ana" = Ok ana /\
     text_of day "subprocess" = Ok hourprog /\ text_of day "prefixshmkey" = Ok key_of) /\
    (text_of hourly "targetpath" = Ok (day_dir ++ str "/" ++ hour) /\ text_of hourly "name_ana" = Ok ana /\
     text_of hourly "subprocess" = Ok unit /\ text_of hourly "prefixshmkey" = Ok key_of) /\
    (text_of minutely "targetpath" = Ok (day_dir ++ str "/" ++ hour ++ str "/" ++ minute) /\
     text_of minutely "name_ana" = Ok ana /\ text_of minutely "prefixshmkey" = Ok key_of).
Proof.
  intros Hrb Hw Vp Va Vn Vh Vm Zp Za Zn Zh Zm.
  pose proof (redash_length x5f d) as L1. pose proof (redash_length x2f d) as L2.
  assert (Vk : value_ok key_of) by (unfold key_of; value).
  assert (Zk : zlen key_of < 500) by (unfold key_of; text_len).
  assert (Vdir : value_ok day_dir) by (unfold day_dir; value).
  assert (Zdir : zlen day_dir < 750) by (unfold day_dir; text_len).
  unfold handed_down. rewrite io_bind_emit.
  match goal with |- context [EvWrite path ?x] =>
    replace x with (rendered (report_lines day_dir ana hourprog key_of))
      by (cbn [rendered report_lines]; unfold line; by rewrite <- !app_assoc) end.
  destruct (report_loads day_dir ana hourprog key_of Vdir Va Vp Vk ltac:(lia) ltac:(lia) ltac:(lia) ltac:(lia)
    Hrb 512 path 0 tr ltac:(lia)) as (day & Hday & D1 & D2 & D3 & D4).
  set (tr1 := tr ++ _) in *.
  rewrite (io_bind_ok _ _ _ _ _ Hday), (io_bind_lift _ _ _ _ D1), (io_bind_lift _ _ _ _ D2).
  assert (Hu : unit_key true unit day = Ok (unit ++ [nl] ++ str "prefixshmkey_0004:" ++ key_of))
    by (unfold unit_key; by rewrite D4).
  rewrite (io_bind_lift _ _ _ _ Hu). unfold lcs_dgen_config.
  rewrite io_bind_assoc. io_fits ltac:(text_len). rewrite io_bind_assoc, io_bind_ask, Hw. cbn [negb].
  rewrite io_bind_assoc, io_bind_emit, io_bind_ret.
  set (hpath := day_dir ++ _ ++ hour ++ _). rewrite (io_bind_lift _ _ _ hpath) by done.
  match goal with |- context [EvWrite hpath ?x] =>
    replace x with (rendered (report_lines (day_dir ++ str "/" ++ hour) ana unit key_of))
      by (cbn [rendered report_lines]; by rewrite <- !app_assoc) end.
  destruct (report_loads (day_dir ++ str "/" ++ hour) ana unit key_of ltac:(value) Va Vn Vk
    ltac:(text_len) ltac:(lia) ltac:(lia) ltac:(lia) Hrb 1024 hpath 0 tr1 ltac:(lia))
    as (hourly & Hhour & H1 & H2 & H3 & H4).
  set (tr2 := tr1 ++ _) in *.
  rewrite (io_bind_ok _ _ _ _ _ Hhour), (io_bind_lift _ _ _ _ H1), (io_bind_lift _ _ _ _ H2).
  unfold report_config. rewrite io_bind_assoc. io_fits ltac:(text_len).
  rewrite io_bind_assoc, io_bind_ask, Hw. cbn [negb]. rewrite !io_bind_assoc, (io_bind_lift _ _ _ _ H4).
  rewrite io_bind_ret, io_bind_assoc, io_bind_emit, io_bind_ret.
  set (mpath := (day_dir ++ _ ++ hour) ++ str "/" ++ _).
  match goal with |- context [EvWrite mpath ?x] =>
    replace x with (rendered (minute_lines (day_dir ++ str "/" ++ hour ++ str "/" ++ minute) ana key_of))
      by (cbn [rendered minute_lines]; by rewrite <- !app_assoc) end.
  destruct (minute_loads (day_dir ++ str "/" ++ hour ++ str "/" ++ minute) ana key_of ltac:(value) Va Vk
    ltac:(text_len) ltac:(lia) ltac:(lia) Hrb mpath 0 tr2) as (minutely & Hmin & M1 & M2 & M3).
  rewrite (io_bind_ok _ _ _ _ _ Hmin). exists day, hourly, minutely. eexists. split; [reflexivity|]. done.
Qed.

(** What the loader of the agents reads is the manager's name too. *)
Lemma agent_table_key p name tr :
  reads_back -> (forall tr path, fopen_w tr path = true) -> prints_name name ->
  text_of p "rootpath" = Ok root -> text_of p "server" = Ok server -> text_of p "db" = Ok db ->
  zlen key_of < 128 ->
  exists c tr',
    (path ← lcs_man_shm_agent_cfg p key_of; path ← lift (nonnull path);
     SharedTables.lcs_cfg_load path (cleared SharedTables.members) 0) tr = Ok ((c, 0), tr') /\
    text_of c "dbpath" = Ok (root ++ str "/" ++ server ++ str "/" ++ db ++ str "/agent") /\
    text_of c "prefixshmkey" = Ok key_of.
Proof.
  intros Hrb Hw Hn E1 E2 E3 Zk. unfold lcs_man_shm_agent_cfg, home. rewrite E1, E2, E3. cbn [mbind res_bind].
  set (dbpath := root ++ str "/" ++ server ++ str "/" ++ db ++ str "/agent").
  match goal with |- context [write_cfg (Ok ?x)] =>
    replace x with (rendered (table_lines dbpath key_of))
      by (unfold dbpath; cbn [rendered table_lines]; unfold line; by rewrite <- !app_assoc) end.
  rewrite (io_bind_ok _ _ _ _ _ (write_cfg_ok name (Ok (rendered (table_lines dbpath key_of))) _ tr Hn Hw eq_refl)).
  rewrite (io_bind_lift _ _ _ name) by done.
  destruct (table_loads dbpath key_of ltac:(unfold dbpath; value) ltac:(unfold key_of; value)
    ltac:(unfold dbpath; text_len) Hrb name 0 (tr ++ [EvPopen (str "uuidgen")]) Zk)
    as (c & Hc & C1 & C2).
  exists c. eexists. split; [exact Hc|done].
Qed.
End Names.

(** The name under which the manager has the tables of agents loaded into shared memory is,
    unchanged, the one the programs for five minutes look for: it goes through the
    configurations of the analysis, of the program for the day and of the program for the hour,
    and with it go the directory, the name of the report and the program to start next. *)
Theorem table_name_arrives `{World} (p : cfg) name root server db d user path hourprog ana unit hour minute tr :
  reads_back -> (forall tr path, fopen_w tr path = true) -> prints_name name ->
  setting p "rootpath" root 512 -> setting p "server" server 128 -> setting p "db" db 64 ->
  setting p "currentdate" d 12 -> getenv (str "USER") = Some user -> value_ok user -> zlen user < 200 ->
  zlen (key_of server db d user) < 128 ->
  value_ok hourprog -> value_ok ana -> value_ok unit -> value_ok hour -> value_ok minute ->
  zlen hourprog < 128 -> zlen ana < 9 -> zlen unit < 128 -> zlen hour < 16 -> zlen minute < 16 ->
  let key := key_of server db d user in let dir := day_dir root server db d in
  shm_key p = Ok key /\
  (exists c tr',
    (path ← lcs_man_shm_agent_cfg p key; path ← lift (nonnull path);
     SharedTables.lcs_cfg_load path (cleared SharedTables.members) 0) tr = Ok ((c, 0), tr') /\
    text_of c "prefixshmkey" = Ok key) /\
  exists day hourly minutely tr',
    handed_down root server db d user path hourprog ana unit hour minute tr = Ok ((day, hourly, minutely), tr') /\
    text_of day "subprocess" = Ok hourprog /\ text_of hourly "subprocess" = Ok unit /\
    text_of minutely "targetpath" = Ok (dir ++ str "/" ++ hour ++ str "/" ++ minute) /\
    text_of minutely "name_ana" = Ok ana /\ text_of minutely "prefixshmkey" = Ok key.
Proof.
  intros Hrb Hw Hn (Er & Vr & Zr) (Es & Vs & Zs) (Eb & Vb & Zb) (Ed & Vd & Zd) Eu Vu Zu Zk
    Vp Va Vn Vh Vm Zp Za Zn Zh Zm key dir.
  split; [by apply shm_key_ok|]. split.
  - destruct (agent_table_key root server db d user Vr Vs Vb Vd Vu Zr Zs Zb p name tr
      Hrb Hw Hn Er Es Eb Zk) as (c & tr' & Hc & _ & C2). by exists c, tr'.
  - destruct (handed_down_ok root server db d user Vr Vs Vb Vd Vu Zr Zs Zb Zd Zu path hourprog ana unit hour minute tr
      Hrb Hw Vp Va Vn Vh Vm Zp Za Zn Zh Zm) as (day & hourly & minutely & tr' & H1 & H2 & H3 & H4).
    exists day, hourly, minutely, tr'. tauto.
Qed.

(** ** The manager's list of reports *)

Section Scheduling.
Context `{World}.

Lemma analysis_keys m : keys_ok (analysis_table m) = true.
Proof. reflexivity. Qed.

Lemma value_nl v : value_ok v -> nl ∉ v.
Proof. intros Hv Hin. eapply Forall_forall in Hv; [|exact Hin]. destruct Hv as [Hd _]. by vm_compute in Hd. Qed.

Lemma copied_line f base v rest fuel info tr n :
  (forall m, copy_to f base ∈ analysis_table m) -> key_line base = true -> value_ok v ->
  zlen (str base) < 20 -> member info f = zeros n -> zlen v < n -> n <= 1024 ->
  analysis_lines (S fuel) (str base ++ v ++ nl :: rest) info tr = analysis_lines fuel rest (assign info f v) tr.
Proof.
  intros Hin Hk Hv Zb Hm Zv Zn. pose proof (zlen_nonneg v).
  assert (Hl : line_ok (str base ++ v)) by (apply line_of_value; [by apply key_line_ok|done]).
  rewrite app_assoc. apply analysis_lines_step.
  - destruct Hl as [_ Hl]. eapply Forall_impl; [exact Hl|]. by intros b [_ ?].
  - intros Hn. destruct Hl as [_ Hl]. eapply Forall_forall in Hl; [|exact Hn].
    destruct Hl as [Hd _]. by vm_compute in Hd.
  - rewrite zlen_app. lia.
  - apply cfg_item_copy; [apply analysis_keys|apply Hin|by apply value_colon|]. rewrite Hm, zlen_zeros; lia.
Qed.

(** What the file of the manager is made of. *)
Definition analysis_text (root server db reports d : list byte) : list byte :=
  line "root_path_0001:" root ++ line "server_0002:" server ++ line "dbname_0003:" db ++
  line "list_ana_0004:" reports ++ line "date_0005:" d ++ line "week_0006:" d ++ line "month_0007:" [] ++
  str "year_0008:".

Lemma commas_chars (P : byte -> Prop) names :
  P x2c -> Forall (Forall P) names -> Forall P (commas names).
Proof.
  intros Hc Hn. induction Hn as [|n names Hn _ IH]; [constructor|]. destruct names as [|m names]; [done|].
  change (commas (n :: m :: names)) with (n ++ x2c :: commas (m :: names)).
  apply Forall_app. split; [done|]. by apply Forall_cons.
Qed.

(** A name of a report: no colon and no line end either. *)
Definition report_name (n : list byte) : Prop := name_ok n /\ value_ok n.

Lemma analysis_loads root server db d names n tr :
  value_ok root -> value_ok server -> value_ok db -> value_ok d ->
  zlen root < 1024 -> zlen server < 1024 -> zlen db < 1024 -> zlen d < 12 ->
  Forall report_name names -> head names = Some n -> zlen n < ANA_NAME -> zlen names <= ANA_ROWS ->
  zlen (commas names) < 2048 ->
  let text := analysis_text root server db (commas names) d in
  exists c, analysis_lines (S (length text)) text (cleared analysis_members) tr = Ok (c, tr) /\
    text_of c "root_path" = Ok root /\ text_of c "server" = Ok server /\ text_of c "dbname" = Ok db /\
    text_of c "date" = Ok d /\ filled (zlen n) c names.
Proof.
  intros Vr Vs Vb Vd Zr Zs Zb Zd Hn Hh Zn Hc Zc text.
  assert (Hfuel : exists fuel, S (length text) = (9 + fuel)%nat).
  { exists (length text - 8)%nat. unfold text, analysis_text, line.
    repeat rewrite length_app. cbn [length str]. change (length (str "root_path_0001:")) with 15%nat. lia. }
  destruct Hfuel as [fuel ->]. unfold text, analysis_text, line. rewrite <- !app_assoc. cbn [app].
  set (c0 := cleared analysis_members).
  cbn [Nat.add].
  rewrite (copied_line "root_path" _ root _ _ c0 tr 1024); [|by repeat constructor|done|done|done|done|lia|lia].
  set (c1 := assign c0 "root_path" root).
  rewrite (copied_line "server" _ server _ _ c1 tr 1024); [|by repeat constructor|done|done|done|done|lia|lia].
  set (c2 := assign c1 "server" server).
  rewrite (copied_line "dbname" _ db _ _ c2 tr 1024); [|by repeat constructor|done|done|done|done|lia|lia].
  set (c3 := assign c2 "dbname" db).
  assert (M3 : forall g, g ∉ ["root_path"; "server"; "dbname"]%string -> member c3 g = member c0 g).
  { intros g Hg. rewrite !not_elem_of_cons in Hg. unfold c3, c2, c1. by rewrite !member_assign_ne by (intros <-; tauto). }
  assert (Hnames : Forall name_ok names) by (eapply Forall_impl; [exact Hn|]; by intros m [? _]).
  destruct (list_item_ok names n c3 Hh Zn Hnames Hc ltac:(lia)) as (c4 & H4 & F4 & M4).
  { exists []. split; [constructor|]. rewrite M3 by decided. reflexivity. }
  assert (Vn : value_ok (commas names)).
  { apply commas_chars; [by vm_compute|]. eapply Forall_impl; [exact Hn|]. by intros m [_ ?]. }
  rewrite (app_assoc (str "list_ana_0004:")), (analysis_lines_step _ _ _ c3 tr c4).
  2:{ apply Forall_app. split; [|by apply value_no_nul]. repeat constructor; discriminate. }
  2:{ rewrite not_elem_of_app. split; [decided|by apply value_nl]. }
  2:{ rewrite zlen_app. change (zlen (str "list_ana_0004:")) with 14. lia. }
  2:{ rewrite (cfg_item_hit _ "list_ana_0004:" (fun info item => lift (list_item
        ((str "list_ana_0004:" ++ commas names) ++ zeros (4096 - zlen (str "list_ana_0004:" ++ commas names)))
        "list_ana_0004:" info item)));
      [|apply analysis_keys|do 3 right; left|by apply value_colon]. by apply lift_ok. }
  assert (M : forall g, g ∉ ["root_path"; "server"; "dbname"; "list_ana"]%string -> member c4 g = member c0 g).
  { intros g Hg. rewrite !not_elem_of_cons in Hg. rewrite M4, M3 by (first [tauto | rewrite !not_elem_of_cons; tauto]). done. }
  rewrite (copied_line "date" _ d _ _ c4 tr 12);
    [|by repeat constructor|done|done|done|by rewrite M by decided|lia|lia].
  set (c5 := assign c4 "date" d).
  rewrite (copied_line "week" _ d _ _ c5 tr 12); [|by repeat constructor|done|done|done| |lia|lia].
  2:{ unfold c5. rewrite member_assign_ne by done. by rewrite M by decided. }
  set (c6 := assign c5 "week" d).
  assert (M6 : member c6 "month" = zeros 12).
  { unfold c6, c5. rewrite !member_assign_ne by done. by rewrite M by decided. }
  pose proof (copied_line "month" "month_0007:" [] (str "year_0008:") (S (S fuel)) c6 tr 12
    ltac:(by repeat constructor) eq_refl ltac:(by constructor) eq_refl M6 eq_refl ltac:(done)) as Hmonth.
  cbn [app] in Hmonth. rewrite Hmonth.
  set (c7 := assign c6 "month" []). exists c7. split.
  { apply (analysis_lines_last fuel (str "year_0008") x3a c7 tr c7); [by repeat constructor|decided|done|reflexivity]. }
  assert (T : forall f v n, member c0 f = zeros n -> zlen v < n -> value_ok v -> text_of (assign c0 f v) f = Ok v)
    by (intros; eapply text_of_assign; try done; by apply value_no_nul).
  assert (M7 : forall g, g ∉ ["date"; "week"; "month"]%string -> member c7 g = member c4 g).
  { intros g Hg. rewrite !not_elem_of_cons in Hg. unfold c7, c6, c5. by rewrite !member_assign_ne by (intros <-; tauto). }
  unfold text_of in *. rewrite (M7 "root_path"%string), (M7 "server"%string), (M7 "dbname"%string) by decided.
  rewrite !M4 by done. repeat split.
  - unfold c3, c2. rewrite !member_assign_ne by done. by apply (T "root_path"%string root 1024).
  - unfold c3. rewrite member_assign_ne by done. apply (text_of_assign c1 "server" server 1024); [|done|by apply value_no_nul].
    unfold c1. by rewrite member_assign_ne.
  - apply (text_of_assign c2 "dbname" db 1024); [|done|by apply value_no_nul].
    unfold c2, c1. by rewrite !member_assign_ne.
  - unfold c7, c6. rewrite !member_assign_ne by done.
    apply (text_of_assign c4 "date" d 12); [by rewrite M by decided|done|by apply value_no_nul].
  - destruct F4 as (rows & Hrows & Hm). exists rows. split; [done|]. by rewrite M7 by decided.
Qed.

(** C19: Which programs a day's analysis starts: the file the manager writes for a server and a day is
    loaded by the analysis, and for each report of the list, in order, the program for the day
    is started with a configuration for that server and day, and its configuration is removed
    again.  A report whose first program is for a year, a month or a week starts nothing; one
    without any program makes the process fail.  Every name is cut to the length of the first. *)
Theorem analysis_schedules p root server db d user names n there name tr :
  let rows := map (take (length n)) names in
  let text := analysis_text root server db (commas names) d in
  let tr' := (tr ++ [EvPopen (str "uuidgen")]) ++ [EvWrite (name tr) text] in
  setting p "rootpath" root 512 -> setting p "server" server 128 -> setting p "db" db 64 ->
  setting p "currentdate" d 12 -> text_of p "listanalysis" = Ok (commas names) ->
  Forall report_name names -> head names = Some n -> zlen n < ANA_NAME -> zlen names < ANA_ROWS ->
  zlen (commas names) < 2048 -> getenv (str "USER") = Some user ->
  (forall tr path, fopen_w tr path = true) -> (forall tr, names_file tr (name tr)) ->
  (exists fp, fopen_r tr' (name tr) = Some fp /\ f_bytes fp = text) ->
  Forall (probes there) rows ->
  (path ← lcs_gen_analysis_cfg p; path ← lift (nonnull path); analysis_main path) tr
  = Ok (if forallb (found there) rows then 0 else 1,
        ana_tasks root server db d user there name tr' rows).
Proof.
  intros rows text tr' (Er & Vr & Zr) (Es & Vs & Zs) (Eb & Vb & Zb) (Ed & Vd & Zd) El Hn Hh Zn Hc Zc
    Eu Hw Hname (fp & Hfp & Hby) Hp.
  unfold lcs_gen_analysis_cfg. rewrite Er, Es, Eb, El, Ed. cbn [mbind res_bind].
  destruct (Hname tr) as (N1 & N2 & N3 & N4).
  rewrite (io_bind_ok _ _ _ _ _ (write_cfg_at (name tr) _ text tr N1 N2 ltac:(lia) N4 Hw eq_refl)).
  fold tr'. rewrite (io_bind_lift _ _ _ (name tr)) by done. unfold analysis_main.
  destruct (analysis_loads root server db d names n tr' Vr Vs Vb Vd ltac:(lia) ltac:(lia) ltac:(lia) Zd
    Hn Hh Zn ltac:(lia) Zc) as (c & Hload & C1 & C2 & C3 & C4 & Hf). fold text in Hload.
  rewrite (io_bind_ok _ _ tr' (c, 0) tr').
  2:{ unfold analysis_load. rewrite io_bind_ask, Hfp, Hby. by rewrite (io_bind_ok _ _ _ _ _ Hload). }
  assert (Hne : Forall (fun m => m <> [] /\ probes there (take (Z.to_nat (zlen n)) m)) names).
  { unfold zlen. rewrite Nat2Z.id. unfold rows in Hp. rewrite Forall_map in Hp.
    apply Forall_and. split; [|exact Hp]. eapply Forall_impl; [exact Hn|]. by intros m [[? _] _]. }
  assert (Z0 : 0 < zlen n).
  { destruct names as [|m names]; [done|]. injection Hh as ->. apply Forall_cons in Hn as [[[Hn0 _] _] _].
    destruct n; [done|]. rewrite zlen_cons. pose proof (zlen_nonneg n). lia. }
  rewrite (io_bind_ok _ _ _ _ _ (run_list_ok c root server db d user C1 C2 C3 C4 Zd Eu Hw there name Hname
    (zlen n) names tr' ltac:(lia) Hf Hc Hne)).
  unfold zlen. rewrite Nat2Z.id. fold rows. by destruct (forallb (found there) rows).
Qed.
End Scheduling.

(** ** A concrete server *)

Module Chained.
Definition user : list byte := str "warehouse".

(** A world in which the programs listed exist beside the files that were written, [USER] is set
    and [uuidgen] prints [name]. *)
Definition installed (w : World) (dot : bool) (programs : list (list byte)) (name : trace -> list byte)
    : World := {|
  fopen_r tr path :=
    if dot && prefixb (str ".") path then
      if bool_decide (path ∈ programs) then Some {| f_tell := 0; f_bytes := []; f_close := 0 |} else None
    else @fopen_r w tr path;
  fopen_w := @fopen_w w;
  popen tr cmd := if bool_decide (cmd = str "uuidgen") then Some (name tr ++ [nl]) else Some [];
  readdir := @readdir w; getenv v := if bool_decide (v = str "USER") then Some user else None;
  shm_create := @shm_create w; mysql_init := @mysql_init w; mysql_real_connect := @mysql_real_connect w;
  mysql_query := @mysql_query w; mysql_store_result := @mysql_store_result w;
  sqlite_open := @sqlite_open w; sqlite_prepare := @sqlite_prepare w;
  sqlite_exec := @sqlite_exec w; sqlite_bind := @sqlite_bind w; sqlite_step := @sqlite_step w;
  sqlite_clear_bindings := @sqlite_clear_bindings w; sqlite_reset := @sqlite_reset w;
  sqlite_finalize := @sqlite_finalize w; sqlite_close := @sqlite_close w;
  recv := @recv w; send := @send w
|}.

Definition p : cfg :=
  fold_right (fun '(f, v) c => assign c f v) (cleared Manager.server_members)
    [("server", str "10.0.0.7"); ("db", str "asterisk"); ("rootpath", str "/w");
     ("currentdate", str "2017-10-29"); ("listanalysis", str "A_000001,A_000008,A_000009")]%string.
Definition names : list (list byte) := [str "A_000001"; str "A_000008"; str "A_000009"].

Lemma chain_setting c f v n :
  text_of c f = Ok (str v) -> plain v = true -> zlen (str v) < n -> setting c f (str v) n.
Proof. intros H1 H2 H3. split; [done|]. split; [by apply plain_ok|done]. Qed.

Section Table.
#[local] Instance named : World := installed (toy_world [] None None None) false [] (fun _ => str "0b1c").

Lemma table_name_arrives_witness :
  let key := str "warehouse.10.0.0.7.asterisk_2017_10_29" in
  shm_key p = Ok key /\
  exists day hourly minutely tr',
    handed_down (str "/w") (str "10.0.0.7") (str "asterisk") (str "2017-10-29") user (str "day.cfg")
      (str "./lcs_A_000008_hour") (str "A_000008") (str "./lcs_A_000008_05m") (str "07") (str "05") []
    = Ok ((day, hourly, minutely), tr') /\
    text_of minutely "targetpath" = Ok (str "/w/10.0.0.7/asterisk/2017/10/29/07/05") /\
    text_of minutely "prefixshmkey" = Ok key.
Proof.
  destruct (table_name_arrives p (str "0b1c") (str "/w") (str "10.0.0.7") (str "asterisk") (str "2017-10-29") user
    (str "day.cfg") (str "./lcs_A_000008_hour") (str "A_000008") (str "./lcs_A_000008_05m") (str "07") (str "05") [])
    as (H1 & _ & day & hourly & minutely & tr' & H2 & _ & _ & H3 & _ & H4).
  - intros tr path text. apply (toy_reads_back [] None None None tr path text).
  - done.
  - split; [decided|]. split; [repeat constructor; discriminate|]. split; [reflexivity|done].
  - by apply chain_setting.
  - by apply chain_setting.
  - by apply chain_setting.
  - by apply chain_setting.
  - reflexivity.
  - by apply (plain_ok "warehouse").
  - reflexivity.
  - reflexivity.
  - by apply plain_ok.
  - by apply plain_ok.
  - by apply plain_ok.
  - by apply plain_ok.
  - by apply plain_ok.
  - reflexivity.
  - reflexivity.
  - reflexivity.
  - reflexivity.
  - reflexivity.
  - split; [exact H1|]. exists day, hourly, minutely, tr'. split; [exact H2|]. split; [exact H3|exact H4].
Defined.
End Table.

(** Of the three reports one has a program for the day beside the analysis, one in its own
    directory, and one has none. *)
Definition programs : list (list byte) := [own (str "A_000001") "day"; beside (str "A_000009") "day"].
Definition there (path : list byte) : bool := bool_decide (path ∈ programs).
Definition name (tr : trace) : list byte := str "u" ++ utoa (zlen tr).
#[local] Instance scheduled : World := installed (toy_world [] None None None) true programs name.

Lemma probed ana : zlen ana < 9 -> probes there ana.
Proof.
  intros Zn. split; [exact Zn|]. unfold lcs_comm_filexist, ask, there.
  assert (He : forall tr path, prefixb (str ".") path = true ->
    match fopen_r tr path with Some _ => true | None => false end = bool_decide (path ∈ programs)).
  { intros tr path Hpath. cbn [fopen_r scheduled installed andb]. rewrite Hpath. by case_bool_decide. }
  split.
  - intros tr c Hin. rewrite He; [done|]. unfold places, kinds in Hin. cbn [places_of] in Hin.
    repeat (apply elem_of_cons in Hin as [->|Hin]; [done|]). by apply not_elem_of_nil in Hin.
  - intros tr k. by rewrite He.
Qed.
Lemma named_ok tr : names_file tr (name tr).
Proof.
  assert (Hd : Forall (fun b => is_digit b = true) (utoa (zlen tr))) by (apply utoa_digits, zlen_nonneg).
  assert (Hb : Forall (fun b => b <> nl /\ b <> x00) (name tr)).
  { apply Forall_cons. split; [done|]. eapply Forall_impl; [exact Hd|]. intros b Hb. by split; intros ->. }
  split; [|split; [|split; [|done]]].
  - intros Hin. eapply Forall_forall in Hb; [|exact Hin]. by destruct Hb.
  - eapply Forall_impl; [exact Hb|]. by intros b [_ ?].
  - pose proof (utoa_length (zlen tr)). unfold name. text_len.
Qed.

Definition loaded : trace :=
  [EvPopen (str "uuidgen");
   EvWrite (str "u0") (analysis_text (str "/w") (str "10.0.0.7") (str "asterisk") (commas names) (str "2017-10-29"))].
Lemma analysis_schedules_witness :
  (path ← lcs_gen_analysis_cfg p; path ← lift (nonnull path); analysis_main path) []
  = Ok (1, (loaded ++ ana_task (str "/w") (str "10.0.0.7") (str "asterisk") (str "2017-10-29") user there
                        (str "A_000001") (str "./lcs_A_000001_day") (str "u2"))
           ++ ana_task (str "/w") (str "10.0.0.7") (str "asterisk") (str "2017-10-29") user there
                (str "A_000009") (str "../A_000009_day/lcs_A_000009_day") (str "u6")).
Proof.
  refine (analysis_schedules p (str "/w") (str "10.0.0.7") (str "asterisk") (str "2017-10-29") user names
    (str "A_000001") there name [] _ _ _ _ _ _ _ _ _ _ _ _ _ _ _).
  - by apply chain_setting.
  - by apply chain_setting.
  - by apply chain_setting.
  - by apply chain_setting.
  - reflexivity.
  - repeat (apply Forall_cons; split; [split; [split; [done|repeat constructor; discriminate]|by apply plain_ok]|]).
    by apply Forall_nil.
  - reflexivity.
  - reflexivity.
  - reflexivity.
  - reflexivity.
  - reflexivity.
  - done.
  - exact named_ok.
  - eexists. split; [reflexivity|reflexivity].
  - repeat (apply Forall_cons; split; [by apply probed|]). by apply Forall_nil.
Defined.
End Chained.
