(* ===== verification/Delivery.v ===== *)
(** * From the manager to the copies of agents and history

    For every server the manager starts getagent, and for every day gethistory.  The theorems
    run the manager's writer of the configuration and the whole of the program started on it:
    which directory is made, which queries are sent over which connection, which file each
    table is written to, and which insertion is started at the end. *)
From S2P Require Import Prelude CString OpenSSL World ToyWorld Config.
From S2P Require Import Manager Cluster Analysis Fetch Template Handover.
From S2P Require Import Chain.

Definition login_lines (server user password db : list byte) : list setting_line :=
  [("server", ("server:", server)); ("user", ("user:", user)); ("password", ("password:", password));
   ("db", ("db:", db))]%string.
Definition agent_lines (templ dir tables ins : list byte) : list setting_line :=
  [("pathtemplate", ("pathtemplate_0001:", templ)); ("pathagent", ("pathagent_0002:", dir));
   ("listtable", ("listtable_0003:", tables)); ("insertprocess", ("insertprocess_0004:", ins))]%string.
Definition history_lines (date templ dir tables ins : list byte) : list setting_line :=
  [("date", ("date_0001:", date)); ("pathhistory", ("pathhistory_0002:", dir));
   ("listtable", ("listtable_0003:", tables)); ("pathtemplate", ("pathtemplate_0004:", templ));
   ("insertprocess", ("insertprocess_0005:", ins))]%string.

(** The directory of a server and database. *)
Definition home_of (root server db : list byte) : list byte := root ++ str "/" ++ server ++ str "/" ++ db.

(** A date appended to an array of 32 bytes that nobody has set: it goes behind the text the
    array happens to hold, if there is one and it leaves room. *)
Lemma dated_array junk pre date :
  no_nul date -> zlen junk = 32 -> cstr junk = Ok pre ->
  if zlen pre + zlen date <? 32 then exists m, strcat junk date = Ok m /\ cstr m = Ok (pre ++ date)
  else strcat junk date = Fault OobWrite.
Proof.
  intros Hn Zj Hp. destruct (cstr_inv _ _ Hp) as (Hpn & rest & ->). unfold strcat. rewrite Hp. cbn [mbind res_bind].
  pose proof (zlen_nonneg pre). pose proof (zlen_nonneg date). destruct (_ <? 32) eqn:E; b2p.
  - destruct (wr_some (pre ++ x00 :: rest) (zlen pre) (date ++ [x00])) as (m & Hm & _);
      [lia|rewrite (zlen_app date); change (zlen [x00]) with 1; lia|].
    exists m. split; [done|]. apply wr_inv in Hm as (_ & _ & _ & ->).
    replace (Z.to_nat (zlen pre)) with (length pre) by (unfold zlen; lia).
    rewrite take_app_length, <- app_assoc, app_assoc. cbn [app]. apply cstr_terminated. by apply Forall_app.
  - apply wr_oob. rewrite (zlen_app date). change (zlen [x00]) with 1. lia.
Qed.

(** A date appended to an array that starts with a zero, whatever follows it. *)
Lemma dated_junk junk date :
  no_nul date -> zlen date < 32 -> zlen junk = 31 ->
  exists m, strcat (x00 :: junk) date = Ok m /\ cstr m = Ok date.
Proof.
  intros Hn Zd Zj. unfold strcat. cbn [cstr mbind res_bind]. change (b2z x00 =? 0) with true. cbv beta iota.
  cbn [mbind res_bind]. change (zlen []) with 0. pose proof (zlen_nonneg date).
  rewrite wr_head by (rewrite zlen_app, !zlen_cons; change (zlen []) with 0; lia).
  eexists. split; [reflexivity|]. rewrite <- app_assoc. cbn [app]. by apply cstr_terminated.
Qed.

Section Delivery.
Context `{World}.
Variables (p : cfg) (name root server user password db ins out : list byte).
Hypotheses (Hrb : reads_back) (Hw : forall tr path, fopen_w tr path = true) (Hname : prints_name name).
Hypotheses (Hroot : setting p "rootpath" root 512) (Hserver : setting p "server" server 128)
  (Huser : setting p "user" user 64) (Hpassword : setting p "password" password 64)
  (Hdb : setting p "db" db 64) (Hins : setting p "insertprocess" ins 128).
Hypothesis Zhome : zlen (home_of root server db) < 450.
Let templ := home_of root server db ++ str "/template".

Lemma home_ok : home p = Ok (home_of root server db).
Proof. unfold home. destruct Hroot as [-> _], Hserver as [-> _], Hdb as [-> _]. done. Qed.
Lemma login_ok :
  login p = Ok (line "server:" server ++ line "user:" user ++ line "password:" password ++ line "db:" db).
Proof.
  unfold login. destruct Hserver as [-> _], Huser as [-> _], Hpassword as [-> _], Hdb as [-> _]. done.
Qed.
Lemma home_value : value_ok (home_of root server db).
Proof. destruct Hroot as (_ & ? & _), Hserver as (_ & ? & _), Hdb as (_ & ? & _). unfold home_of. value. Qed.

(** Four lines are copied to members of the sizes the login has everywhere. *)
Lemma login_copies table members server_n rest :
  table = [copy_to "server" "server:"; copy_to "user" "user:"; copy_to "password" "password:";
           copy_to "db" "db:"] ++ rest ->
  member (cleared members) "server" = zeros server_n -> 128 <= server_n ->
  member (cleared members) "user" = zeros 64 -> member (cleared members) "password" = zeros 64 ->
  member (cleared members) "db" = zeros 64 ->
  Forall (copies table members) (login_lines server user password db).
Proof.
  intros -> M1 Zn M2 M3 M4.
  destruct Hserver as (_ & V1 & Z1), Huser as (_ & V2 & Z2), Hpassword as (_ & V3 & Z3), Hdb as (_ & V4 & Z4).
  unfold login_lines. repeat (apply Forall_cons; split); [..|by apply Forall_nil].
  - apply (copies_line _ _ _ _ _ server_n); [by repeat constructor|reflexivity|done|first [done | reflexivity]|lia].
  - apply (copies_line _ _ _ _ _ 64); [by repeat constructor|reflexivity|done|first [done | reflexivity]|lia].
  - apply (copies_line _ _ _ _ _ 64); [by repeat constructor|reflexivity|done|first [done | reflexivity]|lia].
  - apply (copies_line _ _ _ _ _ 64); [by repeat constructor|reflexivity|done|first [done | reflexivity]|lia].
Qed.

Section Templates.
Variables (tables : list (list byte)) (cols : list byte -> list COLUMN).
Let lines := login_lines server user password db ++ [("path", ("path:", templ))]%string.
Let name_line : setting_line := ("pathtemplate", ("pathtemplate:", str "template.sql"))%string.
Let list_line : setting_line := ("listtable", ("listtable:", commas tables))%string.
Let text := rendered (lines ++ [name_line; list_line]).

(** An item whose value is kept in an object of its own. *)
Lemma cfg_item_alloc table f base extra info v tr :
  keys_ok table = true -> alloc_to f base extra ∈ table -> value_ok v -> 0 <= extra ->
  1 <= extra + zlen (str base) -> zlen (str base ++ v) + extra < 2 ^ 32 ->
  exists m, cfg_item table info (str base ++ v) tr = Ok (<[f := m]> info, tr) /\ cstr m = Ok v.
Proof.
  intros Hk Hin Hv He Hb Hz. rewrite (cfg_item_hit _ base (alloc_to f base extra).2) by (done || by apply value_colon).
  unfold alloc_to. cbn [snd]. rewrite drop_key. unfold wrap. pose proof (zlen_nonneg v). pose proof (zlen_nonneg (str base)).
  rewrite zlen_app in *. rewrite Z.mod_small by lia.
  rewrite (io_bind_lift _ _ _ (v ++ zeros (zlen (str base) + zlen v + extra - zlen v))).
  2:{ by rewrite wr_zeros by lia. }
  eexists. split; [reflexivity|].
  replace (zlen (str base) + zlen v + extra - zlen v) with (1 + (zlen (str base) + extra - 1)) by lia.
  rewrite zeros_add by lia. apply cstr_terminated. by apply value_no_nul.
Qed.

Lemma templ_loads tr :
  value_ok (commas tables) -> zlen (commas tables) < 1024 ->
  let tr' := tr ++ [EvWrite name text] in
  exists c, cfg_load templ_cfg_table name (cleared templ_members) 0 tr' = Ok ((c, 0), tr') /\
    login_of c server user password db /\ text_of c "path" = Ok templ /\
    text_of c "pathtemplate" = Ok (str "template.sql") /\ text_of c "listtable" = Ok (commas tables) /\
    is_Some (c !! "pathtemplate"%string) /\ is_Some (c !! "listtable"%string).
Proof.
  intros Vt Zt tr'. pose proof home_value as Vh.
  assert (Vtempl : value_ok templ) by (apply value_app; [done|by apply plain_ok]).
  assert (Vn : value_ok (str "template.sql")) by (by apply plain_ok).
  assert (Ztempl : zlen templ < 1024) by (unfold templ; text_len).
  assert (Hc : Forall (copies templ_cfg_table templ_members) lines).
  { apply Forall_app. split; [by eapply (login_copies _ _ 128)|]. apply Forall_cons. split; [|by apply Forall_nil].
    apply (copies_line _ _ _ _ _ 1024); [by repeat constructor|reflexivity|done|first [done | reflexivity]|done]. }
  destruct (items_copied templ_cfg_table templ_members lines tr' eq_refl ltac:(decided) Hc) as (c & Hi & Ht).
  destruct (Hrb tr name text) as (fp & Hf & Hb & Hp).
  assert (Htext : text = file_of (lines_of (map snd (lines ++ [name_line]))) (str "listtable:" ++ commas tables))
    by (unfold text; rewrite (app_assoc lines [name_line] [list_line] : lines ++ [name_line; list_line] = _); apply rendered_file).
  destruct (cfg_item_alloc templ_cfg_table "pathtemplate" "pathtemplate:" 0 c (str "template.sql") tr' eq_refl
    ltac:(by repeat constructor) Vn ltac:(done) ltac:(done) eq_refl) as (m1 & H1 & M1).
  destruct (cfg_item_alloc templ_cfg_table "listtable" "listtable:" 1 (<["pathtemplate"%string := m1]> c) (commas tables) tr' eq_refl
    ltac:(by repeat constructor) Vt ltac:(done) ltac:(done) ltac:(rewrite zlen_app; change (zlen (str "listtable:")) with 10; lia))
    as (m2 & H2 & M2).
  exists (<["listtable"%string := m2]> (<["pathtemplate"%string := m1]> c)). split.
  - rewrite Htext in Hb. rewrite (cfg_load_lines templ_cfg_table name (cleared templ_members) 0 tr' fp
      (lines_of (map snd (lines ++ [name_line]))) (str "listtable:" ++ commas tables) Hf); [| |exact Hb| |].
    2:{ unfold regular. rewrite Hp, Hb, <- Htext. unfold text, lines, name_line, list_line, login_lines; cbn [app]; cbn [rendered].
        destruct Hserver as (_ & _ & ?), Huser as (_ & _ & ?), Hpassword as (_ & _ & ?), Hdb as (_ & _ & ?).
        text_len. }
    2:{ rewrite map_app. unfold lines_of. rewrite map_app. apply Forall_app. split; [by eapply copies_line_ok|].
        apply Forall_cons. split; [|by apply Forall_nil].
        apply (line_of_value "pathtemplate:"); [by apply key_line_ok|done]. }
    2:{ right. apply (line_of_value "listtable:"); [by apply key_line_ok|done]. }
    rewrite map_app. unfold lines_of. rewrite map_app, <- app_assoc.
    erewrite io_bind_ok; [done|]. rewrite (cfg_items_app _ _ _ _ _ _ _ Hi). cbn [map fst snd name_line app cfg_items].
    rewrite (io_bind_ok _ _ _ _ _ H1).
    change (match str "listtable:" ++ commas tables with [] => [] | _ => [str "listtable:" ++ commas tables] end)
      with [str "listtable:" ++ commas tables]. cbn [cfg_items]. by rewrite (io_bind_ok _ _ _ _ _ H2).
  - unfold lines, login_lines, login_of in *. cbn [app] in Ht. rewrite !Forall_cons in Ht. cbn [fst snd] in Ht.
    destruct Ht as (T1 & T2 & T3 & T4 & T5 & _).
    assert (Hother : forall f, f <> "pathtemplate"%string -> f <> "listtable"%string ->
      text_of (<["listtable"%string := m2]> (<["pathtemplate"%string := m1]> c)) f = text_of c f)
      by (intros; by rewrite !text_of_insert_ne).
    rewrite !Hother by done.
    assert (Q2 : <["listtable"%string := m2]> (<["pathtemplate"%string := m1]> c) !! "listtable"%string = Some m2)
      by apply lookup_insert_eq.
    assert (Q1 : <["listtable"%string := m2]> (<["pathtemplate"%string := m1]> c) !! "pathtemplate"%string = Some m1)
      by (rewrite lookup_insert_ne by done; apply lookup_insert_eq).
    unfold text_of, member in *. rewrite Q1, Q2.
    split; [by split_and!|]. split; [done|]. split; [exact M1|]. split; [exact M2|]. by split; eexists.
Qed.

(** The templates: from the configuration the manager writes, gentemplate makes the template
    directory of the database, removes the old script and asks for the columns of each table
    of the list; it appends the statement that creates the table, with the types the other
    database knows and its primary key, to the script, writes the insertion with one parameter
    for each column in order to the file of the table, and makes an empty database from the
    script. *)
Theorem templates_delivered tr :
  text_of p "listtable" = Ok (commas tables) -> value_ok (commas tables) ->
  Forall table_name tables -> zlen (commas tables) < 1000 -> answers show_columns (described cols) tables ->
  Forall (fun t => columns_fit (cols t) /\ zlen t < 53) tables ->
  (path ← lcs_gen_template_config p; path ← lift (nonnull path); gentemplate_main path) tr
  = Ok (0, ((tr ++ [EvPopen (str "uuidgen")]) ++ [EvWrite name text]) ++
           [EvPopen (str "mkdir -p " ++ templ); EvRemove (templ ++ str "/template.sql")] ++
           connected server user password db ++ concat (map (templated cols templ (str "template.sql")) tables) ++
           [EvClose; database_made templ (str "template.sql")]).
Proof.
  intros El Vt Ht Zt Ha Hfit. unfold lcs_gen_template_config.
  rewrite login_ok, home_ok, El. cbn [mbind res_bind].
  match goal with |- context [write_cfg (Ok ?x)] =>
    replace x with text by (unfold text, templ, lines, name_line, list_line; unfold login_lines; cbn [app];
      cbn [rendered]; change (str "pathtemplate:template.sql") with (str "pathtemplate:" ++ str "template.sql");
      unfold templ, line; by rewrite <- !app_assoc) end.
  rewrite (io_bind_ok _ _ _ _ _ (write_cfg_ok name (Ok text) _ tr Hname Hw eq_refl)).
  rewrite (io_bind_lift _ _ _ name) by done. unfold gentemplate_main.
  destruct (templ_loads (tr ++ [EvPopen (str "uuidgen")]) Vt ltac:(lia)) as (c & Hc & Hl & C1 & C2 & C3 & C4 & C5).
  rewrite (io_bind_ok _ _ _ _ _ Hc).
  assert (Zd : zlen templ < 480) by (unfold templ; text_len).
  rewrite (io_bind_ok _ _ _ _ _ (start_gen_ok cols c tables server user password db templ (str "template.sql") _
    Ha Hl C1 C2 C4 C5 C3 Ht Hfit Zd ltac:(done))). done.
Qed.
End Templates.

Section Agents.
Variables (tables : list (list byte)) (rows_of : list byte -> list row).
Let dir := home_of root server db ++ str "/agent".
Let text := rendered (login_lines server user password db ++ agent_lines templ dir (commas tables) ins).

Lemma agent_loads tr :
  value_ok (commas tables) -> zlen (commas tables) < 1000 ->
  let tr' := tr ++ [EvWrite name text] in
  exists c, cfg_load agent_cfg_table name (cleared Fetch.agent_members) 0 tr' = Ok ((c, 0), tr') /\
    login_of c server user password db /\ text_of c "pathtemplate" = Ok templ /\
    text_of c "pathagent" = Ok dir /\ text_of c "listtable" = Ok (commas tables) /\
    text_of c "insertprocess" = Ok ins.
Proof.
  intros Vt Zt tr'. pose proof home_value as Vh. destruct Hins as (_ & Vi & Zi).
  destruct (load_back agent_cfg_table Fetch.agent_members
    (login_lines server user password db ++ agent_lines templ dir (commas tables) ins) name 0 tr)
    as (c & Hc & Hl); [done|reflexivity|done|decided| | |].
  - apply Forall_app. split; [by eapply (login_copies _ _ 128)|].
    unfold agent_lines. repeat (apply Forall_cons; split); [..|by apply Forall_nil].
    + apply (copies_line _ _ _ _ _ 1024); [by repeat constructor|reflexivity|apply value_app; [done|by apply plain_ok]|first [done | reflexivity]|unfold templ; text_len].
    + apply (copies_line _ _ _ _ _ 1024); [by repeat constructor|reflexivity|apply value_app; [done|by apply plain_ok]|first [done | reflexivity]|unfold dir; text_len].
    + apply (copies_line _ _ _ _ _ 1024); [by repeat constructor|reflexivity|done|first [done | reflexivity]|lia].
    + apply (copies_line _ _ _ _ _ 1024); [by repeat constructor|reflexivity|done|first [done | reflexivity]|lia].
  - destruct Hserver as (_ & _ & Z1), Huser as (_ & _ & Z2), Hpassword as (_ & _ & Z3), Hdb as (_ & _ & Z4).
    unfold templ, dir. unfold login_lines, agent_lines; cbn [app]; cbn [rendered]. text_len.
  - exists c. split; [exact Hc|]. unfold login_lines, agent_lines, login_of in *. cbn [app] in Hl.
    rewrite !Forall_cons in Hl. cbn [fst snd] in Hl. tauto.
Qed.

(** The agents: from the configuration the manager writes, getagent makes the directory of the
    server's agents, connects with the server's user, password and database, selects every
    table of the list once and writes its rows to the file of the table, closes the connection,
    and starts the insertion on the directory with the template of the database and the same
    list. *)
Theorem agents_delivered tr :
  text_of p "listtableagent" = Ok (commas tables) -> value_ok (commas tables) ->
  Forall table_name tables -> zlen (commas tables) < 1000 -> answers agent_select rows_of tables ->
  (forall tr, popen tr (ins ++ str " " ++ dir ++ str "/insert.cfg") = Some out) ->
  (path ← lcs_gen_agent_config p; path ← lift (nonnull path); getagent_main path) tr
  = Ok (0, ((tr ++ [EvPopen (str "uuidgen")]) ++ [EvWrite name text]) ++
           [EvPopen (str "mkdir -p " ++ dir)] ++ connected server user password db ++
           concat (map (copied agent_select rows_of dir) tables) ++ [EvClose] ++
           inserted templ dir (commas tables) ins).
Proof.
  intros El Vt Ht Zt Ha Hp. destruct Hins as (Ei & _ & Zi). unfold lcs_gen_agent_config.
  rewrite login_ok, home_ok, El, Ei. cbn [mbind res_bind].
  match goal with |- context [write_cfg (Ok ?x)] =>
    replace x with text by (unfold text, templ, dir; unfold login_lines, agent_lines; cbn [app]; cbn [rendered]; unfold line;
      by rewrite <- !app_assoc) end.
  rewrite (io_bind_ok _ _ _ _ _ (write_cfg_ok name (Ok text) _ tr Hname Hw eq_refl)).
  rewrite (io_bind_lift _ _ _ name) by done. unfold getagent_main.
  destruct (agent_loads (tr ++ [EvPopen (str "uuidgen")]) Vt Zt) as (c & Hc & Hl & C1 & C2 & C3 & C4).
  rewrite (io_bind_ok _ _ _ _ _ Hc).
  rewrite (io_bind_ok _ _ _ _ _ (agent_start_ok c rows_of tables server user password db templ dir ins out _
    Ha Hl C1 C2 C3 C4 Ht Zt ltac:(unfold dir; text_len) ltac:(unfold templ, dir; text_len)
    ltac:(unfold dir; text_len) Hp)). done.
Qed.
End Agents.

Section History.
Variables (date junk : list byte) (rows_of : list byte -> list row).
Hypothesis Hdate : setting p "currentdate" date 32.
Definition history_tables : list (list byte) := [str "DND_History"; str "agent_history"; str "auto_dial_detail"].
Let dir := home_of root server db ++ str "/" ++ redash x2f date.
Let text := rendered (login_lines server user password db ++ history_lines date templ dir (commas history_tables) ins).
(** The rows of a day, by the column that holds the time of a row. *)
Definition time_column (t : list byte) : list byte :=
  if bool_decide (t = str "DND_History") then str "start_time"
  else if bool_decide (t = str "agent_history") then str "login_at" else str "created_time".
Definition day_query (t : list byte) : list byte :=
  str "select * from " ++ t ++ str " where " ++ time_column t ++ str " >= '" ++ date ++ str " 00:00:00' and " ++
  time_column t ++ str " <= '" ++ date ++ str " 23:59:59';".

Lemma day_query_ok t : t ∈ history_tables -> history_select t date = day_query t.
Proof.
  unfold history_tables. intros Hin. by repeat (apply elem_of_cons in Hin as [->|Hin]; [reflexivity|]);
    apply not_elem_of_nil in Hin.
Qed.

Lemma dir_value : value_ok dir.
Proof.
  destruct Hdate as (_ & Vd & _). pose proof home_value. unfold dir.
  apply value_app; [done|]. apply value_app; [by apply plain_ok|]. by apply value_redash.
Qed.
Lemma dir_len : zlen dir < 500.
Proof. destruct Hdate as (_ & _ & Zd). pose proof (redash_length x2f date). unfold dir. text_len. Qed.

Lemma history_loads tr :
  let tr' := tr ++ [EvWrite name text] in
  exists c, cfg_load history_cfg_table name (cleared history_members) 0 tr' = Ok ((c, 0), tr') /\
    login_of c server user password db /\ text_of c "date" = Ok date /\
    text_of c "pathhistory" = Ok dir /\ text_of c "listtable" = Ok (commas history_tables) /\
    text_of c "pathtemplate" = Ok templ /\ text_of c "insertprocess" = Ok ins.
Proof.
  intros tr'. pose proof home_value as Vh. pose proof dir_value as Vd'. pose proof dir_len as Zd'.
  destruct Hins as (_ & Vi & Zi), Hdate as (_ & Vd & Zd).
  assert (Vt : value_ok (commas history_tables)) by (by apply (plain_ok "DND_History,agent_history,auto_dial_detail")).
  destruct (load_back history_cfg_table history_members
    (login_lines server user password db ++ history_lines date templ dir (commas history_tables) ins) name 0 tr)
    as (c & Hc & Hl); [done|reflexivity|done|decided| | |].
  - apply Forall_app. split; [by eapply (login_copies _ _ 128)|].
    unfold history_lines. repeat (apply Forall_cons; split); [..|by apply Forall_nil].
    + apply (copies_line _ _ _ _ _ 32); [by repeat constructor|reflexivity|done|reflexivity|lia].
    + apply (copies_line _ _ _ _ _ 1024); [by repeat constructor|reflexivity|done|reflexivity|lia].
    + apply (copies_line _ _ _ _ _ 1024); [by repeat constructor|reflexivity|done|reflexivity|reflexivity].
    + apply (copies_line _ _ _ _ _ 1024);
        [by repeat constructor|reflexivity|apply value_app; [done|by apply plain_ok]|reflexivity|unfold templ; text_len].
    + apply (copies_line _ _ _ _ _ 1024); [by repeat constructor|reflexivity|done|reflexivity|lia].
  - destruct Hserver as (_ & _ & Z1), Huser as (_ & _ & Z2), Hpassword as (_ & _ & Z3), Hdb as (_ & _ & Z4).
    assert (Zt : zlen (commas history_tables) < 50) by reflexivity. fold dir in Zd'.
    unfold templ. unfold login_lines, history_lines; cbn [app]; cbn [rendered]. clearbody dir. text_len.
  - exists c. split; [exact Hc|]. unfold login_lines, history_lines, login_of in *. cbn [app] in Hl.
    rewrite !Forall_cons in Hl. cbn [fst snd] in Hl. tauto.
Qed.

(** The history of a day: from the configuration the manager writes, gethistory makes the directory
    of the day, selects the rows of that day from each history table by the column that holds
    its time, writes them to the file of the table, and starts the insertion on the directory.
    The array in which the manager puts the day together with dashes replaced has to start
    with a zero, which nothing sees to. *)
Theorem history_delivered tr :
  zlen junk = 31 -> answers day_query rows_of history_tables ->
  (forall tr, popen tr (ins ++ str " " ++ dir ++ str "/insert.cfg") = Some out) ->
  (path ← lcs_get_history_cfg (x00 :: junk) p; path ← lift (nonnull path); gethistory_main path) tr
  = Ok (0, ((tr ++ [EvPopen (str "uuidgen")]) ++ [EvWrite name text]) ++
           [EvPopen (str "mkdir -p " ++ dir)] ++ connected server user password db ++
           concat (map (copied day_query rows_of dir) history_tables) ++ [EvClose] ++
           inserted templ dir (commas history_tables) ins).
Proof.
  intros Zj Ha0 Hp.
  assert (Ha : answers (fun t => history_select t date) rows_of history_tables).
  { destruct Ha0 as [A1 A2 A3 A4 A5]. split; try done. intros tr' t Hin. rewrite day_query_ok by done. by apply A4. }
  replace (map (copied day_query rows_of dir) history_tables)
    with (map (copied (fun t => history_select t date) rows_of dir) history_tables)
    by (apply map_ext_in; intros t Hin; unfold copied; by rewrite day_query_ok by (by apply list_elem_of_In)).
  pose proof dir_len as Zd'. destruct Hins as (Ei & _ & Zi). destruct Hdate as (Ed & Vd & Zd).
  unfold lcs_get_history_cfg.
  destruct (dated_junk junk date (value_no_nul _ Vd) Zd Zj) as (m & Hm & Hmc).
  rewrite login_ok, home_ok, Ed, Ei. cbn [mbind res_bind]. rewrite Hm. cbn [mbind res_bind]. rewrite Hmc.
  cbn [mbind res_bind].
  match goal with |- context [write_cfg (Ok ?x)] =>
    replace x with text by (unfold text, templ, dir; unfold login_lines, history_lines; cbn [app]; cbn [rendered];
      unfold line; by rewrite <- !app_assoc) end.
  rewrite (io_bind_ok _ _ _ _ _ (write_cfg_ok name (Ok text) _ tr Hname Hw eq_refl)).
  rewrite (io_bind_lift _ _ _ name) by done. unfold gethistory_main.
  destruct (history_loads (tr ++ [EvPopen (str "uuidgen")])) as (c & Hc & Hl & C1 & C2 & C3 & C4 & C5).
  rewrite (io_bind_ok _ _ _ _ _ Hc).
  assert (Zt' : zlen (commas history_tables) < 1000) by reflexivity.
  assert (Zdir : zlen dir < 800) by (clearbody dir; lia).
  assert (Ht : Forall table_name history_tables).
  { unfold history_tables. repeat (apply Forall_cons; split);
      [split; [done|]; split; [reflexivity|]; repeat constructor; discriminate..|by apply Forall_nil]. }
  rewrite (io_bind_ok _ _ _ _ _ (history_start_ok c rows_of history_tables server user password db date dir _
    Ha Hl C1 C2 C3 Ht Zt' Zd Zdir)). cbn [Z.eqb negb].
  assert (Ztd : zlen templ + zlen dir < 1000) by (clearbody dir; unfold templ; text_len).
  rewrite io_bind_assoc, (io_bind_lift _ _ _ _ C4), io_bind_assoc, (io_bind_lift _ _ _ _ C2), io_bind_assoc,
    (io_bind_ok _ _ _ _ _ (commpre_ok templ dir _ Ztd)), io_bind_assoc, (io_bind_lift _ _ _ _ C3), io_bind_assoc,
    (io_bind_lift _ _ _ _ C5), io_bind_assoc.
  assert (Hz : zlen templ < 1000 /\ zlen dir < 900 /\ zlen ins + zlen dir < 1000)
    by (clearbody dir templ; pose proof (zlen_nonneg templ); pose proof (zlen_nonneg dir); lia).
  destruct Hz as (Z1 & Z2 & Z3).
  match goal with |- context [(lcs_comm_moving _ _ _ _ _ _ ≫= _) ?t] =>
    destruct (moving_ok templ dir (commas history_tables) ins out t Hw Z1 Z2 Zt' Z3 Hp)
      as [moved Hmoved] end.
  rewrite (io_bind_ok _ _ _ _ _ Hmoved). unfold mret, io_ret, inserted. cbn [drop Z.eqb].
  by rewrite <- !app_assoc.
Qed.
End History.
End Delivery.

(** ** A concrete server *)

Module Delivered.
Definition p : cfg :=
  fold_right (fun '(f, v) c => assign c f v) (cleared Manager.server_members)
    [("server", str "10.0.0.7"); ("user", str "lcs"); ("password", str "pass"); ("db", str "asterisk");
     ("rootpath", str "/w"); ("currentdate", str "2017-10-29"); ("insertprocess", str "./lcs_insert");
     ("listtableagent", str "agent_infor,users")]%string.
Definition rows : list row := [[Some (str "7"); Some (str "Nguyen  Van A"); None]; [Some [x01]; Some []]].
Definition tables : list (list byte) := [str "agent_infor"; str "users"].
#[local] Instance named : World := Chained.installed (toy_world [] (Some rows) None None) false [] (fun _ => str "0b1c").

Lemma named_reads : reads_back.
Proof. intros tr path text. apply (toy_reads_back [] (Some rows) None None tr path text). Qed.
Lemma named_prints : prints_name (str "0b1c").
Proof. split; [decided|]. split; [repeat constructor; discriminate|]. split; [reflexivity|done]. Qed.
Lemma always sql ts : answers sql (fun _ => rows) ts.
Proof. by split. Qed.

Lemma agents_delivered_witness :
  (path ← lcs_gen_agent_config p; path ← lift (nonnull path); getagent_main path) []
  = Ok (0,
      [EvPopen (str "uuidgen");
       EvWrite (str "0b1c")
         (rendered (login_lines (str "10.0.0.7") (str "lcs") (str "pass") (str "asterisk") ++
                    agent_lines (str "/w/10.0.0.7/asterisk/template") (str "/w/10.0.0.7/asterisk/agent")
                      (str "agent_infor,users") (str "./lcs_insert")));
       EvPopen (str "mkdir -p /w/10.0.0.7/asterisk/agent")] ++
      connected (str "10.0.0.7") (str "lcs") (str "pass") (str "asterisk") ++
      concat (map (copied agent_select (fun _ => rows) (str "/w/10.0.0.7/asterisk/agent")) tables) ++ [EvClose] ++
      inserted (str "/w/10.0.0.7/asterisk/template") (str "/w/10.0.0.7/asterisk/agent") (str "agent_infor,users")
        (str "./lcs_insert")).
Proof.
  refine (agents_delivered p (str "0b1c") (str "/w") (str "10.0.0.7") (str "lcs") (str "pass") (str "asterisk")
    (str "./lcs_insert") [] named_reads _ named_prints _ _ _ _ _ _ _ tables (fun _ => rows) [] _ _ _ _ _ _).
  - done.
  - by apply Chained.chain_setting.
  - by apply Chained.chain_setting.
  - by apply Chained.chain_setting.
  - by apply Chained.chain_setting.
  - by apply Chained.chain_setting.
  - by apply Chained.chain_setting.
  - reflexivity.
  - reflexivity.
  - by apply (plain_ok "agent_infor,users").
  - repeat (apply Forall_cons; split); [split; [done|]; split; [reflexivity|]; repeat constructor; discriminate..|by apply Forall_nil].
  - reflexivity.
  - apply always.
  - done.
Defined.

Lemma history_delivered_witness :
  (path ← lcs_get_history_cfg (x00 :: zeros 31) p; path ← lift (nonnull path); gethistory_main path) []
  = Ok (0,
      [EvPopen (str "uuidgen");
       EvWrite (str "0b1c")
         (rendered (login_lines (str "10.0.0.7") (str "lcs") (str "pass") (str "asterisk") ++
                    history_lines (str "2017-10-29") (str "/w/10.0.0.7/asterisk/template")
                      (str "/w/10.0.0.7/asterisk/2017/10/29") (str "DND_History,agent_history,auto_dial_detail")
                      (str "./lcs_insert")));
       EvPopen (str "mkdir -p /w/10.0.0.7/asterisk/2017/10/29")] ++
      connected (str "10.0.0.7") (str "lcs") (str "pass") (str "asterisk") ++
      concat (map (copied (day_query (str "2017-10-29")) (fun _ => rows)
                     (str "/w/10.0.0.7/asterisk/2017/10/29")) history_tables) ++ [EvClose] ++
      inserted (str "/w/10.0.0.7/asterisk/template") (str "/w/10.0.0.7/asterisk/2017/10/29")
        (str "DND_History,agent_history,auto_dial_detail") (str "./lcs_insert")).
Proof.
  refine (history_delivered p (str "0b1c") (str "/w") (str "10.0.0.7") (str "lcs") (str "pass") (str "asterisk")
    (str "./lcs_insert") [] named_reads _ named_prints _ _ _ _ _ _ _ (str "2017-10-29") (zeros 31) (fun _ => rows) _ [] _ _ _).
  - done.
  - by apply Chained.chain_setting.
  - by apply Chained.chain_setting.
  - by apply Chained.chain_setting.
  - by apply Chained.chain_setting.
  - by apply Chained.chain_setting.
  - by apply Chained.chain_setting.
  - reflexivity.
  - by apply Chained.chain_setting.
  - reflexivity.
  - apply always.
  - done.
Defined.
End Delivered.

Module Templated.
Definition p : cfg :=
  fold_right (fun '(f, v) c => assign c f v) (cleared Manager.server_members)
    [("server", str "10.0.0.7"); ("user", str "lcs"); ("password", str "pass"); ("db", str "asterisk");
     ("rootpath", str "/w"); ("insertprocess", str "./lcs_insert"); ("listtable", str "cdr,queue_log")]%string.
Definition column_of (name ty key : string) : COLUMN := {|
  c_name := str name; c_type := str ty; c_null := Some (str "NO"); c_key := str key; c_more := [None; Some []]
|}.
Definition keyed : list COLUMN :=
  [column_of "id" "int(10) unsigned" "PRI"; column_of "call-date" "datetime" ""; column_of "disposition" "enum('A','B')" "MUL"].
Definition cols (_ : list byte) : list COLUMN := keyed.
#[local] Instance named : World :=
  Chained.installed (toy_world [] (Some (map column_row keyed)) None None) false [] (fun _ => str "0b1c").

Example created :
  create_of (str "cdr") keyed =
  str "drop table if exists cdr;" ++ [nl] ++ str "create table cdr(" ++ [nl] ++
  quoted (str "id") ++ tabs ++ str "bigint(20)," ++ [nl] ++
  quoted (str "call_date") ++ tabs ++ str "datetime," ++ [nl] ++
  quoted (str "disposition") ++ tabs ++ str "varchar(50)," ++ [nl] ++
  str "PRIMARY KEY(id)" ++ [nl] ++ str ");" ++ [nl].
Proof. reflexivity. Qed.

Lemma templates_delivered_witness :
  let templ := str "/w/10.0.0.7/asterisk/template" in
  (path ← lcs_gen_template_config p; path ← lift (nonnull path); gentemplate_main path) []
  = Ok (0,
      [EvPopen (str "uuidgen");
       EvWrite (str "0b1c")
         (rendered (login_lines (str "10.0.0.7") (str "lcs") (str "pass") (str "asterisk") ++
                    [("path", ("path:", templ)); ("pathtemplate", ("pathtemplate:", str "template.sql"));
                     ("listtable", ("listtable:", str "cdr,queue_log"))]%string));
       EvPopen (str "mkdir -p " ++ templ); EvRemove (templ ++ str "/template.sql")] ++
      connected (str "10.0.0.7") (str "lcs") (str "pass") (str "asterisk") ++
      concat (map (templated cols templ (str "template.sql")) [str "cdr"; str "queue_log"]) ++
      [EvClose; database_made templ (str "template.sql")]).
Proof.
  refine (templates_delivered p (str "0b1c") (str "/w") (str "10.0.0.7") (str "lcs") (str "pass") (str "asterisk")
    _ _ _ _ _ _ _ _ _ [str "cdr"; str "queue_log"] cols [] _ _ _ _ _ _).
  - intros tr path text. apply (toy_reads_back [] (Some (map column_row keyed)) None None tr path text).
  - done.
  - split; [decided|]. split; [repeat constructor; discriminate|]. split; [reflexivity|done].
  - by apply Chained.chain_setting.
  - by apply Chained.chain_setting.
  - by apply Chained.chain_setting.
  - by apply Chained.chain_setting.
  - by apply Chained.chain_setting.
  - reflexivity.
  - reflexivity.
  - by apply (plain_ok "cdr,queue_log").
  - repeat (apply Forall_cons; split); [split; [done|]; split; [reflexivity|]; repeat constructor; discriminate..|by apply Forall_nil].
  - reflexivity.
  - by split.
  - repeat (apply Forall_cons; split); [..|by apply Forall_nil]; (split; [|done]);
      (split; [done|]); (split; [repeat (apply Forall_cons; split; [done|]); by apply Forall_nil|done]).
Defined.
End Templated.
