(* ===== verification/Night.v ===== *)
(** * The work of a thread of the manager

    Models nothing of its own: it composes [lcs_thread_spec_date] of Manager.v, the work of one
    server on one day, and states the order of the programs a thread starts, the configuration
    files they find, and what is left behind, in the files and in the shared memory of
    "/dev/shm". *)
From S2P Require Import Prelude CString OpenSSL World ToyWorld Config.
From S2P Require Import Directories Manager Cluster Analysis Handover.
From S2P Require Import Chain Delivery.

(** A program that is started on a configuration: the name [uuidgen] gives, the file, the
    command with its name, and the file is gone. *)
Definition job (name : list byte) (text cmd : list byte) : trace :=
  [EvPopen (str "uuidgen"); EvWrite name text; EvPopen cmd; EvRemove name].

(** ["%s %s > /dev/null"] and ["%s %s > <log>.%s.%s"]. *)
Definition silent_cmd (process name : list byte) : list byte := process ++ str " " ++ name ++ str " > /dev/null".
Definition logged_cmd (process name log date server : list byte) : list byte :=
  process ++ str " " ++ name ++ str " > " ++ log ++ str "." ++ date ++ str "." ++ server.

(** The two tables in shared memory. *)
Definition shm_text (dir key : list byte) : list byte :=
  line "dbpath_0001:" dir ++ str "prefixshmkey_0002:" ++ key.

Section Job.
Context `{World}.
Variable name : trace -> list byte.
Hypotheses (Hname : forall tr, names_file tr (name tr)) (Hw : forall tr path, fopen_w tr path = true).

Lemma job_ok data text cmdf tr :
  data = Ok text -> (forall c, cmdf (name tr) = Ok c -> zlen c < 1024) -> (exists c, cmdf (name tr) = Ok c) ->
  exists c, cmdf (name tr) = Ok c /\
    (path ← write_cfg data; run_on path cmdf) tr = Ok (tt, tr ++ job (name tr) text c).
Proof.
  intros Hd Hz [c Hc]. exists c. split; [done|]. destruct (Hname tr) as (N1 & N2 & N3 & N4).
  rewrite (io_bind_ok _ _ _ _ _ (write_cfg_at (name tr) data text tr N1 N2 ltac:(lia) N4 Hw Hd)).
  unfold run_on. rewrite (io_bind_lift _ _ _ c).
  - unfold job. unfold lcs_bash_cmd. rewrite io_bind_emit. unfold emit. by rewrite <- !app_assoc.
  - rewrite Hc. cbn [mbind res_bind]. apply fits_ok. by apply Hz.
Qed.

(** The segments whose name holds the prefix. *)
Definition ours (key : list byte) (names : list (list byte)) : list (list byte) :=
  List.filter (fun n => match strstr n key with Some _ => true | None => false end) names.

Lemma unlink_all_ok key names tr :
  unlink_all key names tr = Ok (tt, tr ++ map EvShmUnlink (ours key names)).
Proof.
  revert tr. induction names as [|n names IH]; intros tr; cbn [unlink_all ours List.filter map].
  { by rewrite app_nil_r. }
  destruct (strstr n key); [|apply IH]. rewrite io_bind_emit, IH. cbn [map]. by rewrite <- app_assoc.
Qed.

End Job.

Section Thread.
Context `{World}.
Variable name : trace -> list byte.
Hypotheses (Hname : forall tr, names_file tr (name tr)) (Hw : forall tr path, fopen_w tr path = true).
Hypothesis Hshort : forall tr, zlen (name tr) < 700.
(** The record of a server on a day, and the user the manager runs for. *)
Variables (p : cfg) (root server user password db ins date reports env : list byte).
Variables (hist mysql agents customers analysis : list byte).
Hypotheses (Hroot : setting p "rootpath" root 512) (Hserver : setting p "server" server 128)
  (Huser : setting p "user" user 64) (Hpassword : setting p "password" password 64)
  (Hdb : setting p "db" db 64) (Hins : setting p "insertprocess" ins 128)
  (Hdate : setting p "currentdate" date 12) (Hreports : text_of p "listanalysis" = Ok reports).
Hypotheses (Phist : setting p "gethistoryprocess" hist 128) (Pmysql : setting p "getfrommysqlprocess" mysql 128)
  (Pagents : setting p "shmagentprocess" agents 128) (Pcustomers : setting p "shmauddprocess" customers 128)
  (Panalysis : setting p "analysisprocess" analysis 128).
Hypotheses (Henv : getenv (str "USER") = Some env) (Zenv : zlen env < 200).
Let dir : list byte := home_of root server db.
Let key : list byte := key_of server db date env.

(** [pre] is what an array that is not initialised holds in front of the day. *)
Variable pre : list byte.
Definition history_text : list byte :=
  rendered (login_lines server user password db ++
            history_lines date (dir ++ str "/template") (dir ++ str "/" ++ redash x2f (pre ++ date))
              (commas history_tables) ins).
Definition mysql_text : list byte :=
  line "server:" server ++ line "user:" user ++ line "password:" password ++ line "db:" db ++
  line "path:" root ++ line "date_0011:" date ++ line "step:" (str "60") ++
  line "max_duration:" (str "900") ++ str "insertprocess_0009:" ++ ins.

(** The five programs of a thread, each on the names that are given at that point. *)
Definition after_history (tr : trace) : trace :=
  tr ++ job (name tr) history_text (silent_cmd hist (name tr)).
Definition after_logged (text process log : list byte) (tr : trace) : trace :=
  tr ++ job (name tr) text (logged_cmd process (name tr) log date server).
Definition thread_programs (tr : trace) : trace :=
  after_logged (analysis_text root server db reports date) analysis (str "analysis.log")
    (after_logged (shm_text (dir ++ str "/" ++ redash x2f date) key) customers (str "shmaudd.log")
      (after_logged (shm_text (dir ++ str "/agent") key) agents (str "shmagent.log")
        (after_logged mysql_text mysql (str "getfrommysql.log") (after_history tr)))).

Lemma history_job junk tr :
  zlen junk = 32 -> cstr junk = Ok pre -> zlen pre + zlen date < 32 ->
  lcs_get_history junk p tr = Ok (tt, after_history tr).
Proof.
  intros Zj Hpre Zp. destruct Hdate as (Ed & Vd & Zd), Hins as (Ei & _ & _), Phist as (Eh & _ & Zh).
  pose proof (dated_array junk pre date (value_no_nul _ Vd) Zj Hpre) as Hm.
  rewrite (proj2 (Z.ltb_lt _ _)) in Hm by lia. destruct Hm as (m & Hm & Hmc). unfold lcs_get_history, lcs_get_history_cfg.
  destruct (job_ok name Hname Hw (l ← login p; d ← text_of p "currentdate"; tmp ← strcat junk d; tmp ← cstr tmp;
             h ← home p; i ← text_of p "insertprocess";
             Ok (l ++ line "date_0001:" d ++
                 line "pathhistory_0002:" (h ++ str "/" ++ redash x2f tmp) ++
                 line "listtable_0003:" (str "DND_History,agent_history,auto_dial_detail") ++
                 line "pathtemplate_0004:" (h ++ str "/template") ++
                 str "insertprocess_0005:" ++ i)) history_text (silent p "gethistoryprocess") tr) as (c & Hc & Hj).
  - rewrite (login_ok p server user password db), (home_ok p root server db), Ed, Ei by done.
    cbn [mbind res_bind]. rewrite Hm. cbn [mbind res_bind]. rewrite Hmc. cbn [mbind res_bind]. f_equal.
    unfold history_text, login_lines, history_lines. cbn [app rendered]. unfold line. by rewrite <- !app_assoc.
  - intros c. unfold silent. rewrite Eh. cbn [mbind res_bind]. intros [= <-]. specialize (Hshort tr).
    rewrite zlen_app, zlen_cons. text_len.
  - unfold silent. rewrite Eh. by eexists.
  - unfold silent in Hc. rewrite Eh in Hc. cbn [mbind res_bind] in Hc. injection Hc as <-. exact Hj.
Qed.

(** What the array holds leaves no room for the day, or has no end. *)
Lemma history_fault junk tr :
  zlen junk = 32 -> (forall q, cstr junk = Ok q -> 32 <= zlen q + zlen date) ->
  exists f, lcs_get_history junk p tr = Fault f.
Proof.
  intros Zj Hq. destruct Hdate as (Ed & Vd & Zd). destruct (Hname tr) as (N1 & N2 & N3 & N4).
  unfold lcs_get_history, lcs_get_history_cfg, write_cfg.
  rewrite io_bind_assoc, (io_bind_ok _ _ _ _ _ (uuid_name_at (name tr) tr N1 N2 ltac:(lia) N4)),
    io_bind_assoc, io_bind_ask, Hw. cbn [negb].
  rewrite (login_ok p server user password db), Ed by done. cbn [mbind res_bind].
  assert (Hf : exists f, (tmp ← strcat junk date; cstr tmp) = Fault f /\ exists g, strcat junk date = Fault g).
  { destruct (cstr junk) as [q|f] eqn:Eq.
    - specialize (Hq q eq_refl). pose proof (dated_array junk q date (value_no_nul _ Vd) Zj Eq) as Hm.
      rewrite (proj2 (Z.ltb_ge _ _)) in Hm by lia. rewrite Hm. eauto.
    - unfold strcat. rewrite Eq. eauto. }
  destruct Hf as (f & _ & g & ->). by exists g.
Qed.

Lemma logged_job data text field process log tr :
  data = Ok text -> setting p field process 128 -> zlen (str log) <= 20 ->
  (path ← write_cfg data; run_on path (logged p field log)) tr
  = Ok (tt, after_logged text process (str log) tr).
Proof.
  intros Hd (Ep & _ & Zp) Zl. destruct Hdate as (Ed & _ & Zd), Hserver as (Es & _ & Zs).
  assert (Hc : logged p field log (name tr) = Ok (logged_cmd process (name tr) (str log) date server)).
  { unfold logged. by rewrite Ep, Ed, Es. }
  destruct (job_ok name Hname Hw data text (logged p field log) tr Hd) as (c & Hc' & Hj).
  - intros c. rewrite Hc. intros [= <-]. specialize (Hshort tr). unfold logged_cmd. text_len.
  - by eexists.
  - rewrite Hc in Hc'. injection Hc' as <-. exact Hj.
Qed.

Lemma mysql_job tr :
  lcs_get_from_mysql p tr = Ok (tt, after_logged mysql_text mysql (str "getfrommysql.log") tr).
Proof.
  destruct Hdate as (Ed & _), Hroot as (Er & _), Hins as (Ei & _). apply logged_job; [|done|done].
  rewrite (login_ok p server user password db) by done. rewrite Er, Ed, Ei. cbn [mbind res_bind].
  unfold mysql_text. by rewrite <- !app_assoc.
Qed.
Lemma agents_job tr :
  lcs_man_shm_agent p key tr
  = Ok (tt, after_logged (shm_text (dir ++ str "/agent") key) agents (str "shmagent.log") tr).
Proof.
  apply logged_job; [|done|done]. by rewrite (home_ok p root server db).
Qed.
Lemma customers_job tr :
  lcs_man_shm_audd p key tr
  = Ok (tt, after_logged (shm_text (dir ++ str "/" ++ redash x2f date) key) customers (str "shmaudd.log") tr).
Proof.
  pose proof Hdate as (Ed & _ & Zd). unfold lcs_man_shm_audd, lcs_man_shm_audd_cfg.
  rewrite io_bind_assoc, (io_bind_lift _ _ _ date) by (rewrite Ed; by apply fits_ok).
  apply logged_job; [|done|done]. by rewrite (home_ok p root server db).
Qed.
Lemma analysis_job tr :
  (path ← lcs_gen_analysis_cfg p; run_on path (logged p "analysisprocess" "analysis.log")) tr
  = Ok (tt, after_logged (analysis_text root server db reports date) analysis (str "analysis.log") tr).
Proof.
  destruct Hdate as (Ed & _), Hroot as (Er & _), Hserver as (Es & _), Hdb as (Eb & _).
  apply logged_job; [|done|done]. by rewrite Er, Es, Eb, Hreports, Ed.
Qed.

(** The list of what is in "/dev/shm": 62 names are not closed by a null pointer, more are
    written behind the array. *)
Lemma unlink_job tr ents :
  readdir tr (str "/dev/shm") = Some ents ->
  Forall (fun e => 9 + zlen e.1 < 1024) ents -> all_stat ents ->
  lcs_man_shm_unlink p 0 tr
  = let names := names_of is_reg ents in
    if zlen names <? slots then Ok (0, tr ++ map EvShmUnlink (ours key names))
    else Fault (if zlen names =? slots then OobRead else OobWrite).
Proof.
  intros Hdir Hlen Hst. cbv zeta. set (names := names_of is_reg ents). pose proof Hdate as (Ed & _ & Zd). pose proof Hserver as (Es & _ & Zs).
  pose proof Hdb as (Eb & _ & Zb).
  assert (Hk : shm_key p = Ok key) by (apply (shm_key_ok server db date env); done || lia).
  unfold lcs_man_shm_unlink. rewrite (io_bind_lift _ _ _ key) by done.
  destruct (Z.le_gt_cases (zlen names) slots) as [Hn|Hn].
  - rewrite (io_bind_ok _ _ _ _ _ (lcs_comm_list_files_ok (str "/dev/shm") 0 tr ents Hdir Hlen Hst Hn)).
    cbn [listed l_names l_ends]. fold names. rewrite (io_bind_ok _ _ _ _ _ (unlink_all_ok key names tr)).
    destruct (zlen names <? slots) eqn:E; [done|]. b2p. by rewrite (proj2 (Z.eqb_eq _ _)) by lia.
  - rewrite (proj2 (Z.ltb_ge _ _)), (proj2 (Z.eqb_neq _ _)) by lia. apply io_bind_fault.
    unfold lcs_comm_list_files. apply io_bind_fault. unfold dir_scan. rewrite io_bind_ask, Hdir. cbn [negb].
    apply io_bind_lift_fault. apply dir_loop_over; [done|done|]. unfold names in Hn. change (zlen []) with 0. lia.
Qed.

Lemma thread_jobs junk tr ents :
  zlen junk = 32 -> cstr junk = Ok pre -> zlen pre + zlen date < 32 ->
  readdir (thread_programs tr) (str "/dev/shm") = Some ents ->
  Forall (fun e => 9 + zlen e.1 < 1024) ents -> all_stat ents ->
  lcs_thread_spec_date junk p tr
  = let names := names_of is_reg ents in
    if zlen names <? slots then Ok (0, thread_programs tr ++ map EvShmUnlink (ours key names))
    else Fault (if zlen names =? slots then OobRead else OobWrite).
Proof.
  intros Zj Hpre Zp Hdir Hlen Hst. pose proof Hdate as (Ed & _ & Zd). pose proof Hserver as (Es & _ & Zs).
  pose proof Hdb as (Eb & _ & Zb).
  assert (Hk : shm_key p = Ok key) by (apply (shm_key_ok server db date env); done || lia).
  unfold lcs_thread_spec_date. rewrite (io_bind_ok _ _ _ _ _ (history_job junk tr Zj Hpre Zp)).
  rewrite (io_bind_ok _ _ _ _ _ (mysql_job _)). unfold lcs_run_analysis, lcs_manager_shm.
  rewrite io_bind_assoc, (io_bind_lift _ _ _ key) by done.
  rewrite io_bind_assoc, (io_bind_ok _ _ _ _ _ (agents_job _)), (io_bind_ok _ _ _ _ _ (customers_job _)).
  rewrite <- io_bind_assoc, (io_bind_ok _ _ _ _ _ (analysis_job _)). by apply unlink_job.
Qed.
End Thread.

(** What a thread finds: the record of its server on its day, and where it runs. *)
Record on_duty `{World} (p : cfg) (root server user password db ins date reports env : list byte)
    (hist mysql agents customers analysis : list byte) : Prop := {
  od_root : setting p "rootpath" root 512;
  od_server : setting p "server" server 128;
  od_user : setting p "user" user 64;
  od_password : setting p "password" password 64;
  od_db : setting p "db" db 64;
  od_ins : setting p "insertprocess" ins 128;
  od_date : setting p "currentdate" date 12;
  od_reports : text_of p "listanalysis" = Ok reports;
  od_hist : setting p "gethistoryprocess" hist 128;
  od_mysql : setting p "getfrommysqlprocess" mysql 128;
  od_agents : setting p "shmagentprocess" agents 128;
  od_customers : setting p "shmauddprocess" customers 128;
  od_analysis : setting p "analysisprocess" analysis 128;
  od_env : getenv (str "USER") = Some env /\ zlen env < 200
}.

(** C11: The night of a thread, when uuidgen prints a name of less than 700 characters, every
    file opens for writing, and the values of the record are shorter than their members and hold
    no colon, blank or line end: on the server and the day of its record it starts, one after the
    other, the copy of the history, the export, the two programs that load agents and customers
    into shared memory, and only then the analysis, each on a configuration of its own that is
    removed behind it; then it unlinks from shared memory exactly the segments whose name holds
    the prefix of the server and the day, the loaded ones among them, when names are below 1015
    characters and every file there can be looked at. The directory of the history is made in an
    array of 32 bytes that is not initialised: the day is appended to what the array holds,
    [pre], so that the history goes to the directory of the day only when [pre] is empty; when
    the array has no end, or [pre] leaves no room for the day, the thread ends with a fault
    instead. The list of what is in "/dev/shm" has room for 61 files: with 62 the thread reads
    behind it, with more it writes behind it. *)
Theorem thread_work `{World} name p root server user password db ins date reports env
    hist mysql agents customers analysis junk tr :
  (forall tr, names_file tr (name tr)) -> (forall tr, zlen (name tr) < 700) ->
  (forall tr path, fopen_w tr path = true) ->
  on_duty p root server user password db ins date reports env hist mysql agents customers analysis ->
  zlen junk = 32 ->
  let key := key_of server db date env in
  (forall pre ents,
    let finished := thread_programs name root server user password db ins date reports env
                  hist mysql agents customers analysis pre tr in
    let names := names_of is_reg ents in
    cstr junk = Ok pre -> zlen pre + zlen date < 32 ->
    readdir finished (str "/dev/shm") = Some ents -> Forall (fun e => 9 + zlen e.1 < 1024) ents -> all_stat ents ->
    lcs_thread_spec_date junk p tr
    = (if zlen names <? slots then Ok (0, finished ++ map EvShmUnlink (ours key names))
       else Fault (if zlen names =? slots then OobRead else OobWrite)) /\
    forall suffix, key ++ suffix ∈ names -> EvShmUnlink (key ++ suffix) ∈ map EvShmUnlink (ours key names)) /\
  ((forall pre, cstr junk = Ok pre -> 32 <= zlen pre + zlen date) ->
    exists f, lcs_thread_spec_date junk p tr = Fault f).
Proof.
  intros Hname Hshort Hw [] Zj key. destruct od_env0 as [Henv Zenv]. split.
  - intros pre ents finished names Hpre Zp Hdir Hlen Hst. split; [by eapply thread_jobs|].
    intros suffix Hin. apply list_elem_of_In, in_map, filter_In. split; [by apply list_elem_of_In|].
    rewrite strstr_prefix. done.
  - intros Hq. destruct (history_fault name Hname Hw p server user password db date od_server0 od_user0 od_password0 od_db0
      od_date0 junk tr Zj Hq) as (f & Hf). exists f. unfold lcs_thread_spec_date. by apply io_bind_fault.
Qed.

(** ** A concrete night *)

Module Shift.
Definition p : cfg :=
  fold_right (fun '(f, v) c => assign c f v) (cleared server_members)
    [("server", str "10.0.0.7"); ("user", str "reader"); ("password", str "secret"); ("db", str "asterisk");
     ("rootpath", str "/w"); ("currentdate", str "2017-10-29"); ("insertprocess", str "./insert");
     ("listanalysis", str "A_000009"); ("gethistoryprocess", str "./gethistory");
     ("getfrommysqlprocess", str "./getfrommysql"); ("shmagentprocess", str "./shmcreate");
     ("shmauddprocess", str "./shmcreate_audd"); ("analysisprocess", str "./analysis")]%string.
Definition key : list byte := str "warehouse.10.0.0.7.asterisk_2017_10_29".
Definition entries : list (list byte * kind) :=
  [(str ".", Dir); (key ++ str ".agent.num", Reg); (str "warehouse.10.0.0.8.asterisk_2017_10_29.agent.num", Reg);
   (key ++ str ".agent.data", Reg)].
#[local] Instance night : World :=
  Chained.installed (toy_world [] None None (Some entries)) false [] Chained.name.

Lemma night_names tr : names_file tr (Chained.name tr).
Proof. destruct (Chained.named_ok tr) as (A & B & C & _). by split_and!. Qed.

(** The array happens to be cleared, or to hold a text of 30 characters. *)
Definition full : list byte := replicate 30 x41 ++ [x00; x00].
Lemma thread_work_witness :
  (exists before,
    lcs_thread_spec_date (zeros 32) p []
    = Ok (0, before ++ [EvShmUnlink (key ++ str ".agent.num"); EvShmUnlink (key ++ str ".agent.data")])) /\
  exists f, lcs_thread_spec_date full p [] = Fault f.
Proof.
  assert (Hw : forall junk, zlen junk = 32 -> _)
    by (intros junk; refine (thread_work Chained.name p (str "/w") (str "10.0.0.7") (str "reader") (str "secret") (str "asterisk")
      (str "./insert") (str "2017-10-29") (str "A_000009") (str "warehouse") (str "./gethistory") (str "./getfrommysql")
      (str "./shmcreate") (str "./shmcreate_audd") (str "./analysis") junk []
      night_names _ _ _);
      [intros tr; pose proof (utoa_length (zlen tr)); unfold Chained.name; text_len|done
      |split; try (by apply Chained.chain_setting); [reflexivity|by split]]).
  split.
  - eexists. refine (proj1 (proj1 (Hw (zeros 32) eq_refl) [] entries _ _ _ _ _)); try reflexivity.
    + repeat constructor.
    + repeat constructor; discriminate.
  - apply (proj2 (Hw full eq_refl)). intros q. vm_compute. intros [= <-]. discriminate.
Defined.
End Shift.
