(* ===== verification/Download.v ===== *)
(** * A report travels from the warehouse to a client

    The client (WhClient.v) and the server (WhServer.v) run against each other.  The connection
    is a stream of bytes: what the calls of [recv] return are chunks of it, and how they are
    divided is up to the network, while both programs take every chunk for one message.  The
    theorem gives the two traces beforehand, shows that each program follows its trace when
    every chunk is one message of the other one, and that the two traces have an interleaving
    in which nobody waits for a message that was not sent; and it shows what the client makes
    of the stream when the first two messages of the file arrive in one chunk. *)
From S2P Require Import Prelude CString OpenSSL Toy World ToyWorld.
From S2P Require Import Config TripleDes WhServer WhClient.

(** ** Traces of a connection *)

Definition sends (tr : trace) : list (list byte) :=
  concat (map (fun e => match e with EvSend d => [d] | _ => [] end) tr).
Definition recvs (tr : trace) : nat :=
  length (List.filter (fun e => match e with EvRecv => true | _ => false end) tr).

Lemma sends_app a b : sends (a ++ b) = sends a ++ sends b.
Proof. unfold sends. by rewrite map_app, concat_app. Qed.
Lemma recvs_app a b : recvs (a ++ b) = (recvs a + recvs b)%nat.
Proof. unfold recvs. by rewrite List.filter_app, length_app. Qed.
Lemma sends_map ds : sends (map EvSend ds) = ds.
Proof. unfold sends. rewrite map_map. induction ds as [|d ds IH]; [done|]. cbn. by rewrite IH. Qed.

(** A trace of messages only. *)
Definition talk (tr : trace) : Prop :=
  Forall (fun e => match e with EvSend _ | EvRecv => True | _ => False end) tr.

(** What is left for a client and a server to do, with the messages under way to each.  The
    client meets the end when the server is done and nothing is under way. *)
Inductive runs : trace -> trace -> list (list byte) -> list (list byte) -> Prop :=
| runs_done : runs [] [] [] []
| runs_client_send d c s qc qs : runs c s qc (qs ++ [d]) -> runs (EvSend d :: c) s qc qs
| runs_client_recv d c s qc qs : runs c s qc qs -> runs (EvRecv :: c) s (d :: qc) qs
| runs_client_end c qs : runs c [] [] qs -> runs (EvRecv :: c) [] [] qs
| runs_client_file path b c s qc qs : runs c s qc qs -> runs (EvWrite path b :: c) s qc qs
| runs_server_send d c s qc qs : runs c s (qc ++ [d]) qs -> runs c (EvSend d :: s) qc qs
| runs_server_recv d c s qc qs : runs c s qc qs -> runs c (EvRecv :: s) qc (d :: qs).

Lemma runs_sent c ds qc : runs c [] (qc ++ ds) [] -> runs c (map EvSend ds) qc [].
Proof.
  revert qc. induction ds as [|d ds IH]; intros qc Hr; cbn [map]; [by rewrite app_nil_r in Hr|].
  apply runs_server_send, IH. by rewrite <- app_assoc.
Qed.
Lemma runs_drained c q : runs c [] [] [] -> runs (replicate (length q) EvRecv ++ c) [] q [].
Proof. intros Hr. induction q as [|d q IH]; [done|]. cbn. by apply runs_client_recv. Qed.

(** ** The client's side *)

Lemma framed_size `{DESLib} `{!DESLaws} key m c : framed key m c -> 8 <= zlen c <= 512.
Proof.
  intros (k & Hk & Hd & _ & ->). pose proof (zlen_nonneg m.2). rewrite DES_cbc_length; rewrite segment_length by lia; [|done].
  destruct Hk as [q ->]. lia.
Qed.

Lemma framed_div `{DESLib} `{!DESLaws} key m c : framed key m c -> (8 | zlen c).
Proof.
  intros (k & Hk & Hd & _ & ->). pose proof (zlen_nonneg m.2).
  by rewrite DES_cbc_length; rewrite segment_length by lia.
Qed.
Lemma ready_framed `{DESLib} key :
  framed key (LCS_RSA_3DES_OVER, LCS_WHS_READY ++ [x00]) (DES_cbc key cblock0 (segment 16 LCS_RSA_3DES_OVER (LCS_WHS_READY ++ [x00]))).
Proof. exists 16. split; [by exists 2|]. split; [by vm_compute|]. done. Qed.

Section Client.
Context `{World} `{DESLib} `{!DESLaws}.

(** Whatever follows a message in a chunk, the message is found at the start. *)
Lemma decipher_framed key mode d c more :
  framed key (mode, d) c -> (8 | zlen more) -> zlen c + zlen more <= 1024 ->
  exists junk, decipher key (c ++ more) = z2b mode :: le_bytes 2 (zlen d) ++ d ++ junk.
Proof.
  intros Hf Hm8 Hmz. pose proof (framed_size _ _ _ Hf) as Hz. destruct Hf as (k & Hk & Hd & Hm & ->). cbn [fst snd] in *.
  pose proof (zlen_nonneg d). pose proof (zlen_nonneg more). set (c := DES_cbc key cblock0 (segment k mode d)) in *.
  assert (Hc : zlen c = k) by (unfold c; rewrite DES_cbc_length; rewrite segment_length by lia; done).
  unfold decipher, LCS_RSA_3DES_BUF_HIH. rewrite zlen_app.
  replace (1024 + 5 - (zlen c + zlen more)) with ((1024 - k - zlen more) + 5) by lia.
  rewrite zeros_add by lia. rewrite app_assoc.
  assert (Ht : take (Z.to_nat 1024) (((c ++ more) ++ zeros (1024 - k - zlen more)) ++ zeros 5)
               = c ++ more ++ zeros (1024 - k - zlen more)).
  { rewrite <- (app_assoc c more). apply take_app_length'. unfold zlen in *. rewrite !length_app. unfold zeros.
    rewrite length_replicate. lia. }
  rewrite Ht, DES_cbc_inv_app; [|by rewrite Hc|].
  2:{ rewrite zlen_app, zlen_zeros by lia. destruct Hk as [q Hq], Hm8 as [r Hr]. exists (128 - q). lia. }
  unfold c at 1. rewrite DES_cbc_inverse by (rewrite segment_length by lia; done). unfold segment.
  eexists. rewrite <- !app_assoc. cbn [app]. reflexivity.
Qed.
Lemma decipher_message key mode d c :
  framed key (mode, d) c ->
  exists junk, decipher key c = z2b mode :: le_bytes 2 (zlen d) ++ d ++ junk.
Proof.
  intros Hf. pose proof (framed_size _ _ _ Hf). destruct (decipher_framed _ _ _ _ [] Hf) as [junk Hj].
  - by exists 0.
  - change (zlen []) with 0. lia.
  - rewrite app_nil_r in Hj. by exists junk.
Qed.

Variables (key : list byte) (inbox : list (list byte)).
Hypothesis Hrecv : forall tr n, recv tr n = inbox !! recvs tr.

Lemma recv_next fuel f tr c rest :
  drop (recvs tr) inbox = c :: rest -> 8 <= zlen c ->
  recv_parts (S fuel) key f tr
  = (let seg := decipher key c in
     m ← lift (rd1 seg 0);
     if b2z m =? LCS_RSA_3DES_DATA then
       l ← lift (rd seg 1 2); d ← lift (rd seg 3 (le_val l)); recv_parts fuel key (with_data f (le_val l) d)
     else if b2z m =? LCS_RSA_3DES_CHECKSUM then
       s ← lift (cstr (drop 3 seg)); recv_parts fuel key (with_checksum f (default (f_checksum f) (scan_lu s)))
     else if (b2z m =? LCS_RSA_3DES_OVER) || (b2z m =? LCS_RSA_3DES_OFF) then mret f
     else recv_parts fuel key f) (tr ++ [EvRecv]).
Proof.
  intros Hd Hc. cbn [recv_parts]. rewrite io_bind_ask, Hrecv, <- (Nat.add_0_r (recvs tr)), <- lookup_drop, Hd.
  cbn [lookup list_lookup]. rewrite io_bind_emit. destruct c as [|b c]; [change (zlen []) with 0 in Hc; lia|done].
Qed.

(** The parts of a file, whatever way they end. *)
Definition with_parts (f : fetched) (parts : list (list byte)) : fetched :=
  {| f_total := wrap 32 (f_total f + zlen (concat parts)); f_checksum := f_checksum f;
     f_text := f_text f ++ concat parts |}.
Lemma recv_parts_ok parts b frames fuel f tr :
  drop (recvs tr) inbox = frames -> Forall2 (framed key) (file_messages b parts) frames ->
  Forall (fun d => zlen d <= 509) parts -> (length parts < fuel)%nat -> wrap 32 (f_total f) = f_total f ->
  recv_parts fuel key f tr = Ok (with_parts f parts, tr ++ replicate (S (length parts)) EvRecv).
Proof.
  revert frames fuel f tr. unfold file_messages.
  induction parts as [|d parts IH]; intros frames fuel f tr Hd Hf Hl Hfu Hw; (destruct fuel as [|fuel]; [cbn in Hfu; lia|]).
  - assert (He : with_parts f [] = f).
    { unfold with_parts. cbn [concat]. change (zlen []) with 0. rewrite Z.add_0_r, app_nil_r, Hw. by destruct f. }
    rewrite He. cbn [map app length replicate] in *. destruct (zlen b mod 509 =? 0).
    + apply Forall2_nil_inv_l in Hf as ->. cbn [recv_parts]. rewrite io_bind_ask, Hrecv.
      rewrite <- (Nat.add_0_r (recvs tr)), <- lookup_drop, Hd. cbn [lookup list_lookup]. by rewrite io_bind_emit.
    + apply Forall2_cons_inv_l in Hf as (c & rest & Hf & _ & ->). pose proof (framed_size _ _ _ Hf) as Hz.
      rewrite (recv_next _ _ _ _ _ Hd ltac:(lia)). destruct (decipher_message _ _ _ _ Hf) as [junk ->]. done.
  - cbn [map app] in Hf. apply Forall2_cons_inv_l in Hf as (c & rest & Hf & Hrest & ->). pose proof (framed_size _ _ _ Hf) as Hz.
    apply Forall_cons in Hl as [Hd5 Hl]. pose proof (zlen_nonneg d).
    rewrite (recv_next _ _ _ _ _ Hd ltac:(lia)). destruct (decipher_message _ _ _ _ Hf) as [junk ->]. cbv zeta.
    rewrite (io_bind_lift _ _ _ (z2b LCS_RSA_3DES_DATA)) by done.
    change (b2z (z2b LCS_RSA_3DES_DATA) =? LCS_RSA_3DES_DATA) with true. cbv beta iota.
    rewrite (io_bind_lift _ _ _ (le_bytes 2 (zlen d))) by apply (rd_mid [z2b LCS_RSA_3DES_DATA] (le_bytes 2 (zlen d))).
    assert (Hv : le_val (le_bytes 2 (zlen d)) = zlen d).
    { rewrite le_val_le_bytes. change (256 ^ Z.of_nat 2) with 65536. by rewrite Z.mod_small by lia. }
    rewrite Hv, (io_bind_lift _ _ _ d).
    2:{ change 3 with (zlen (z2b LCS_RSA_3DES_DATA :: le_bytes 2 (zlen d))).
        rewrite app_comm_cons. apply (rd_mid (z2b LCS_RSA_3DES_DATA :: le_bytes 2 (zlen d)) d). }
    rewrite (IH rest).
    + unfold with_parts, with_data. cbn [f_total f_checksum f_text concat length replicate].
      rewrite <- !app_assoc. do 3 f_equal. rewrite zlen_app. unfold wrap. rewrite Zplus_mod_idemp_l. f_equal. lia.
    + rewrite recvs_app. change (recvs [EvRecv]) with 1%nat. rewrite <- drop_drop, Hd. done.
    + done.
    + done.
    + cbn in Hfu. lia.
    + cbn [with_data f_total]. unfold wrap. by rewrite Zmod_mod.
Qed.

(** A chunk that starts with the message with the size; the client does not see what else is
    in it. *)
Definition announces (size : Z) (c : list byte) : Prop :=
  8 <= zlen c /\
  exists junk, decipher key c
    = z2b LCS_RSA_3DES_CHECKSUM :: le_bytes 2 (zlen (itoa size ++ [x00])) ++ (itoa size ++ [x00]) ++ junk.

Lemma framed_announces size first more :
  framed key (LCS_RSA_3DES_CHECKSUM, itoa size ++ [x00]) first -> (8 | zlen more) -> zlen first + zlen more <= 1024 ->
  announces size (first ++ more).
Proof.
  intros Hf H8 Hz. pose proof (framed_size _ _ _ Hf). pose proof (zlen_nonneg more).
  split; [rewrite zlen_app; lia|]. by apply decipher_framed.
Qed.

(** The file behind it: the parts whose messages arrive as they were sent. *)
Lemma recv_file_ok parts b size first frames fuel path err tr :
  (forall tr, fopen_w tr path = true) -> keys_ok key = true ->
  drop (recvs tr) inbox = first :: frames -> announces size first ->
  Forall2 (framed key) (file_messages b parts) frames -> Forall (fun d => zlen d <= 509) parts ->
  0 <= size < 2 ^ 32 -> zlen (concat parts) < 2 ^ 32 -> (length parts + 1 < fuel)%nat ->
  lcs_odbc_recv_file fuel key path err tr
  = Ok (if size =? zlen (concat parts) then err else 507,
        tr ++ replicate (2 + length parts) EvRecv ++ [EvWrite path (concat parts)]).
Proof.
  intros Hw Hk Hd (Hs & junk & Hone) Hf Hl Hsz Hz Hfu. unfold lcs_odbc_recv_file. rewrite io_bind_ask, Hw, Hk. cbn [negb].
  destruct fuel as [|fuel]; [lia|]. pose proof (zlen_nonneg (concat parts)).
  assert (Hu : itoa size = utoa size).
  { unfold itoa. by replace (size <? 0) with false by (symmetry; apply Z.ltb_ge; lia). }
  assert (Hno : no_nul (itoa size)).
  { rewrite Hu. eapply Forall_impl; [apply utoa_digits; lia|]. by intros c Hc ->. }
  erewrite io_bind_ok.
  2:{ rewrite (recv_next _ _ _ _ _ Hd ltac:(lia)), Hone. cbv zeta.
      rewrite (io_bind_lift _ _ _ (z2b LCS_RSA_3DES_CHECKSUM)) by done.
      change (b2z (z2b LCS_RSA_3DES_CHECKSUM) =? LCS_RSA_3DES_DATA) with false.
      change (b2z (z2b LCS_RSA_3DES_CHECKSUM) =? LCS_RSA_3DES_CHECKSUM) with true. cbv beta iota.
      rewrite (io_bind_lift _ _ _ (itoa size)).
      2:{ change (cstr ((itoa size ++ [x00]) ++ junk) = Ok (itoa size)). rewrite <- app_assoc.
          by apply cstr_terminated. }
      apply (recv_parts_ok parts b frames); [|done|done|lia|done].
      rewrite recvs_app. change (recvs [EvRecv]) with 1%nat. by rewrite <- drop_drop, Hd. }
  rewrite io_bind_emit. cbn [with_parts with_checksum f_text f_checksum f_total app].
  assert (Hscan : scan_lu (itoa size) = Some size).
  { rewrite Hu, <- (app_nil_r (utoa _)). apply scan_lu_utoa; [|done]. lia. }
  rewrite Hscan. cbn [default]. unfold wrap. rewrite Z.add_0_l, Z.mod_small by lia.
  unfold mret, io_ret. by rewrite <- !app_assoc.
Qed.
End Client.

(** ** The two programs *)

(** A file with a key, of either kind. *)
Definition key_file `{World} `{RSALib} (read : BIO -> option RSA) (path : list byte) (k : RSA) : Prop :=
  exists fp bio, fopen_r [] path = Some fp /\ regular fp /\ no_nul (f_bytes fp) /\
    BIO_new_mem_buf (f_bytes fp) = Some bio /\ read bio = Some k.

Lemma get_key_ok `{World} `{RSALib} read lines path k err :
  key_file read path k -> get_key read lines path err [] = Ok ((Some k, err), []).
Proof.
  intros (fp & bio & Hf & Hreg & Hn & Hbio & Hk). destruct lines as [[l1 l2] l3]. unfold get_key.
  rewrite (io_bind_ok _ _ _ _ _ (lcs_file_text_ok path None err [] fp Hf Hreg)).
  rewrite (io_bind_lift _ _ _ (f_bytes fp)) by (by apply cstr_terminated). by rewrite Hbio, Hk.
Qed.

Definition hello (key : list byte) : list byte := [x00] ++ le_bytes 2 24 ++ key.
Definition message `{DESLib} (key : list byte) (k : Z) (t : list byte) : list byte :=
  DES_cbc key cblock0 (segment k LCS_RSA_3DES_OVER (t ++ [x00])).
(** The request of six fields. *)
Definition request (fs : list (list byte)) : list byte := LCS_WHS_REQUEST ++ str ":" ++ tabbed fs.

Section Run.
Context `{DESLib} `{!DESLaws} `{RSALib} `{!RSALaws}.
Variables (key ct server db from to analysis mode : list byte) (pub prv : RSA) (k : Z).
Hypotheses (Hkey : zlen key = 24) (Hok : keys_ok key = true).
Hypotheses (Hpair : key_pair pub prv) (Hsize : 27 <= RSA_size prv <= 2048)
  (Hct : RSA_public_encrypt (hello key) pub = Some ct).
Let fs := [server; db; from; to; analysis; mode].
Hypotheses (Hfs : Forall field_ok fs) (Z1 : zlen server < 32) (Z2 : zlen db < 64) (Z3 : zlen from < 32)
  (Z4 : zlen to < 32) (Z5 : zlen analysis < 32) (Z6 : zlen mode < 16).
Hypothesis Hk : frame_size (zlen (request fs) + 1) = Ok k.

Lemma request_length : zlen (request fs) < 220.
Proof.
  unfold request, fs, LCS_WHS_REQUEST. cbn [tabbed]. rewrite !zlen_app, !zlen_cons, !zlen_app, !zlen_cons, !zlen_app,
    !zlen_cons, !zlen_app, !zlen_cons, !zlen_app, !zlen_cons. change (zlen (str "REQUEST")) with 7.
  change (zlen (str ":")) with 1. lia.
Qed.
Lemma request_no_nul : no_nul (request fs).
Proof.
  assert (Ht : forall l, Forall field_ok l -> no_nul (tabbed l)).
  { intros l Hl. induction Hl as [|f l (_ & Hn & _) _ IH]; [constructor|]. destruct l as [|g l]; [done|].
    apply Forall_app. split; [done|]. by constructor. }
  unfold request. apply Forall_app. split; [repeat constructor; discriminate|].
  apply Forall_app. split; [repeat constructor; discriminate|]. by apply Ht.
Qed.

Section ClientRun.
Context {W : World} `{DESRandom}.
Variables (info : cfg) (pubfile path first b : list byte) (size : Z) (parts frames inbox : list (list byte)).
Hypothesis Hrecv : forall tr n, recv tr n = inbox !! recvs tr.
Hypotheses (Hsend : forall tr d, send tr d = zlen d) (Hw : forall tr path, fopen_w tr path = true).
Hypothesis Hrandom : lcs_3des_gen [] = Ok (key, []).
Hypotheses (Hpub : text_of info "publickey" = Ok pubfile) (Hfile : key_file PEM_read_bio_RSA_PUBKEY pubfile pub).
Hypotheses (T1 : text_of info "dbserver" = Ok server) (T2 : text_of info "dbname" = Ok db)
  (T3 : text_of info "datefrom" = Ok from) (T4 : text_of info "dateto" = Ok to)
  (T5 : text_of info "analysis" = Ok analysis) (T6 : text_of info "mode" = Ok mode)
  (T7 : text_of info "filepath" = Ok path).
Hypothesis Hinbox : inbox = message key 16 LCS_WHS_READY :: first :: frames.
Hypotheses (Hfirst : announces key size first)
  (Hframes : Forall2 (framed key) (file_messages b parts) frames)
  (Hlen : Forall (fun d => zlen d <= 509) parts) (Hs : 0 <= size < 2 ^ 32) (Hb : zlen (concat parts) < 2 ^ 32).

Definition client_trace : trace :=
  [EvSend ct; EvRecv; EvSend (message key k (request fs))] ++ replicate (2 + length parts) EvRecv ++ [EvWrite path (concat parts)].

Lemma client_3des_ok : lcs_odbc_3des info 0 [] = Ok ((key, 0), [EvSend ct]).
Proof.
  pose proof (RSA_encrypt_size _ _ _ _ Hpair Hct) as Hc. pose proof (key_pair_size _ _ Hpair) as Hps.
  pose proof (key_pair_size_pos _ _ Hpair).
  unfold lcs_odbc_3des. rewrite (io_bind_ok _ _ _ _ _ Hrandom), (io_bind_lift _ _ _ _ Hpub).
  unfold lcs_get_public_key. rewrite (io_bind_ok _ _ _ _ _ (get_key_ok _ _ _ _ _ Hfile)).
  assert (Hbuf : (wr (zeros 32) 1 (le_bytes 2 24) ≫= fun b => wr b 3 key) = Ok (hello key ++ zeros 5)).
  { change (wr (zeros 32) 1 (le_bytes 2 24)) with (Ok (([x00] ++ le_bytes 2 24) ++ zeros 29)). cbn [mbind res_bind].
    change (zeros 29) with (zeros (24 + 5)). rewrite zeros_add, app_assoc by lia.
    change 3 with (zlen ([x00] ++ le_bytes 2 24)). rewrite <- app_assoc.
    rewrite wr_mid by (rewrite zlen_zeros; lia). unfold hello. by rewrite <- !app_assoc. }
  rewrite (io_bind_lift _ _ _ _ Hbuf).
  assert (Hhello : zlen (hello key) = 27) by (unfold hello; rewrite !zlen_app, Hkey; done).
  assert (Henc : lcs_rsa_encrypt pub (hello key ++ zeros 5) 27 = Ok (ct, zlen ct)).
  { unfold lcs_rsa_encrypt. rewrite <- Hhello, rd_head by (rewrite zlen_app, zlen_zeros; pose proof (zlen_nonneg (hello key)); lia).
    rewrite take_app_length' by (unfold zlen; lia). cbn [mbind res_bind]. rewrite Hct, <- Hc, wr_zeros by lia.
    rewrite Z.sub_diag, app_nil_r. cbn [mbind res_bind]. unfold wrap. by rewrite Z.mod_small by lia. }
  rewrite (io_bind_lift _ _ _ _ Henc).
  rewrite (io_bind_lift _ _ _ ct) by (rewrite rd_head by lia; rewrite take_ge by (unfold zlen; lia); done).
  rewrite io_bind_ask, Hsend, io_bind_emit, Z.eqb_refl. done.
Qed.

Lemma client_ok fuel fuel' behind :
  zlen behind = 507 -> (length parts + 1 < fuel')%nat ->
  client_connected (S fuel) fuel' behind info 0 []
  = Ok (if size =? zlen (concat parts) then 0 else 507, client_trace).
Proof.
  intros Hbe Hfu. unfold client_connected. rewrite (io_bind_ok _ _ _ _ _ client_3des_ok). cbn [Z.eqb negb].
  unfold lcs_odbc_transaction.
  assert (Hready : lcs_odbc_recv_ready (S fuel) key behind 0 [EvSend ct] = Ok (0, [EvSend ct; EvRecv])).
  { unfold lcs_odbc_recv_ready.
    erewrite io_bind_ok; [|apply (recv_message_ok key LCS_RSA_3DES_OVER LCS_WHS_READY behind _ 0 fuel _ 16)];
      [|done|repeat constructor; discriminate|by vm_compute|done|by left|reflexivity|].
    - cbn [Z.eqb negb r_data]. rewrite (io_bind_lift _ _ _ LCS_WHS_READY) by done. done.
    - by rewrite Hrecv, Hinbox. }
  rewrite (io_bind_ok _ _ _ _ _ Hready). cbn [Z.eqb negb]. pose proof request_length as Hrl.
  assert (Hreq : request_text info = Ok (request fs)).
  { unfold request_text. rewrite T1, T2, T3, T4, T5, T6. cbn [mbind res_bind]. apply fits_ok.
    change (zlen (request fs) < 1024). lia. }
  unfold lcs_odbc_send_request. rewrite io_bind_assoc, (io_bind_lift _ _ _ _ Hreq).
  rewrite (io_bind_ok _ _ _ _ _ (send_message_ok key LCS_RSA_3DES_OVER (request fs) 0 _ k Hok ltac:(lia) Hk)).
  cbn [Z.eqb negb]. rewrite (io_bind_lift _ _ _ _ T7).
  rewrite (recv_file_ok key inbox Hrecv parts b size first frames fuel' path 0 _ (fun tr => Hw tr path) Hok); [done| |done..].
  by rewrite Hinbox.
Qed.
End ClientRun.

Section ServerRun.
Context {W : World}.
Variables (info : cfg) (prvfile root first : list byte) (frames inbox : list (list byte)).
Hypothesis Hrecv : forall tr n, recv tr n = inbox !! recvs tr.
Hypotheses (Hprv : text_of info "privatekey" = Ok prvfile) (Hfile : key_file PEM_read_bio_RSAPrivateKey prvfile prv).
Hypotheses (Hroot : text_of info "rootpath" = Ok root) (Zroot : zlen root < 800).
Definition report_path : list byte :=
  root ++ str "/" ++ server ++ str "/" ++ db ++ str "/" ++ period mode from ++ str "/" ++ analysis ++ str ".analysis".
Hypothesis Hinbox : inbox = [ct; message key k (request fs)].

Lemma recv_request_ok fuel behind tr :
  zlen behind = 507 -> recvs tr = 1%nat ->
  exists req, lcs_whs_recv_request (S fuel) key behind (cleared request_members) 0 tr = Ok ((req, 0), tr ++ [EvRecv]) /\
    lcs_whs_get_path info req = Ok report_path.
Proof.
  intros Hbe Hr. pose proof request_length as Hrl.
  pose proof (request_path_ok info root server db from to analysis mode Hfs Z1 Z2 Z3 Z4 Z5 Z6 Hroot Zroot) as Hp.
  destruct (lcs_whs_gen_request (tabbed fs) (cleared request_members)) as [req|f] eqn:E;
    unfold fs in E; rewrite E in Hp; [|done]. cbn [mbind res_bind] in Hp. exists req. split; [|exact Hp].
  unfold lcs_whs_recv_request.
  erewrite io_bind_ok; [|apply (recv_message_ok key LCS_RSA_3DES_OVER (request fs) behind _ 0 fuel _ k)];
    [|done|apply request_no_nul|lia|done|by left|exact Hk|by rewrite Hrecv, Hr, Hinbox].
  cbn [r_data]. rewrite (io_bind_lift _ _ _ (request fs)) by (apply (cstr_terminated (request fs) [x00]), request_no_nul).
  assert (Hs1 : strstr (request fs) LCS_WHS_REQUEST = Some 0) by apply strstr_prefix.
  assert (Hs2 : strstr (request fs) (str ":") = Some 7).
  { unfold request. change (str ":" ++ tabbed fs) with (x3a :: tabbed fs). change (str ":") with [x3a].
    rewrite strstr_char_some by decided. done. }
  rewrite Hs1, Hs2. change (drop (Z.to_nat 7 + 1) (request fs)) with (tabbed fs). unfold fs.
  rewrite (io_bind_lift _ _ _ _ E). done.
Qed.

Definition greeted : trace := [EvRecv; EvSend (message key 16 LCS_WHS_READY); EvRecv].
Lemma server_ok fuel behind :
  zlen behind = 507 ->
  lcs_whs_send_file key report_path 0 greeted = Ok (0, greeted ++ EvSend first :: map EvSend frames) ->
  lcs_connected_socket (S fuel) behind info 0 [] = Ok (0, greeted ++ EvSend first :: map EvSend frames).
Proof.
  intros Hbe Hs. unfold lcs_connected_socket.
  destruct Hfile as (kf & bio & Hkf & Hreg & Hn & Hbio & Hpem).
  assert (Hses : lcs_whs_3des info 0 [] = Ok ((Some key, 0), [EvRecv])).
  { apply (session_key info prvfile pub prv kf bio ct key 0 []); try done; [lia| |by rewrite Hrecv, Hinbox].
    pose proof (key_pair_size _ _ Hpair). lia. }
  rewrite (io_bind_ok _ _ _ _ _ Hses). cbn [Z.eqb negb]. unfold lcs_whs_transaction, lcs_whs_send_ready.
  rewrite (io_bind_ok _ _ _ _ _ (send_message_ok key LCS_RSA_3DES_OVER LCS_WHS_READY 0 _ 16 Hok ltac:(by vm_compute) eq_refl)).
  cbn [Z.eqb negb].
  destruct (recv_request_ok fuel behind [EvRecv; EvSend (message key 16 LCS_WHS_READY)] Hbe eq_refl) as (req & Hreq & Hpath).
  change ([EvRecv] ++ [EvSend _]) with [EvRecv; EvSend (message key 16 LCS_WHS_READY)].
  rewrite io_bind_assoc, (io_bind_ok _ _ _ _ _ Hreq). cbn [Z.eqb negb].
  unfold lcs_whs_send_data. rewrite io_bind_assoc, (io_bind_lift _ _ _ _ Hpath).
  rewrite (io_bind_ok _ _ _ _ _ Hs). done.
Qed.
End ServerRun.
End Run.

(** ** The whole download *)

(** What a stream of bytes guarantees: the chunks that [recv] returns, none longer than the array
    it is given, are the bytes that were sent, in order. *)
Definition delivers (cap : Z) (sent chunks : list (list byte)) : Prop :=
  concat chunks = concat sent /\ Forall (fun c => 0 < zlen c <= cap) chunks.

(** A world in which the calls of [recv] return the chunks of [inbox], one each; the arrays the
    programs give have room for them. *)
Definition with_inbox (w : World) (inbox : list (list byte)) : World := {|
  fopen_r := @fopen_r w; fopen_w := @fopen_w w; popen := @popen w; readdir := @readdir w; getenv := @getenv w;
  shm_create := @shm_create w; mysql_init := @mysql_init w; mysql_real_connect := @mysql_real_connect w;
  mysql_query := @mysql_query w; mysql_store_result := @mysql_store_result w;
  sqlite_open := @sqlite_open w; sqlite_prepare := @sqlite_prepare w; sqlite_exec := @sqlite_exec w;
  sqlite_bind := @sqlite_bind w; sqlite_step := @sqlite_step w; sqlite_clear_bindings := @sqlite_clear_bindings w;
  sqlite_reset := @sqlite_reset w; sqlite_finalize := @sqlite_finalize w; sqlite_close := @sqlite_close w;
  recv tr _ := inbox !! recvs tr; send := @send w
|}.

(** The client's settings. *)
Record asks (info : cfg) (server db from to analysis mode path pubfile : list byte) : Prop := {
  as_fields : Forall field_ok [server; db; from; to; analysis; mode];
  as_server : text_of info "dbserver" = Ok server /\ zlen server < 32;
  as_db : text_of info "dbname" = Ok db /\ zlen db < 64;
  as_from : text_of info "datefrom" = Ok from /\ zlen from < 32;
  as_to : text_of info "dateto" = Ok to /\ zlen to < 32;
  as_analysis : text_of info "analysis" = Ok analysis /\ zlen analysis < 32;
  as_mode : text_of info "mode" = Ok mode /\ zlen mode < 16;
  as_path : text_of info "filepath" = Ok path;
  as_key : text_of info "publickey" = Ok pubfile
}.

Lemma parts_length (parts : list (list byte)) :
  Forall (fun d => 0 < zlen d <= 509) parts -> (length parts <= length (concat parts))%nat.
Proof.
  induction 1 as [|d parts [Hd _] _ IH]; [done|]. cbn [length concat]. rewrite length_app. unfold zlen in Hd. lia.
Qed.

(** The two traces interleave. *)
Lemma download_runs ct ready req first frames path b n :
  length frames = S n \/ length frames = n ->
  runs (([EvSend ct; EvRecv; EvSend req] ++ replicate (2 + n) EvRecv ++ [EvWrite path b]))
       ([EvRecv; EvSend ready; EvRecv] ++ EvSend first :: map EvSend frames) [] [].
Proof.
  intros Hn. cbn [app].
  apply runs_client_send, runs_server_recv, runs_server_send, runs_client_recv, runs_client_send, runs_server_recv,
    runs_server_send, runs_sent. cbn [app Nat.add replicate]. apply runs_client_recv.
  assert (Hlast : runs (replicate (S n - length frames) EvRecv ++ [EvWrite path b]) [] [] []).
  { destruct Hn as [-> | ->]; [rewrite Nat.sub_diag|rewrite Nat.sub_succ_l, Nat.sub_diag by lia; cbn; apply runs_client_end];
      apply runs_client_file, runs_done. }
  apply (runs_drained _ frames) in Hlast. rewrite app_assoc, <- replicate_add in Hlast.
  by replace (length frames + (S n - length frames))%nat with (S n) in Hlast by lia.
Qed.

(** One message, one chunk: the connection is free to deliver them so. *)
Lemma messages_delivered `{DESLib} `{!DESLaws} key ms sent :
  Forall2 (framed key) ms sent -> delivers LCS_RSA_3DES_BUF_LOW sent sent.
Proof.
  intros Hf. split; [done|]. induction Hf as [|m c ms cs Hm _ IH]; [done|]. constructor; [|done].
  pose proof (framed_size _ _ _ Hm). unfold LCS_RSA_3DES_BUF_LOW. lia.
Qed.
(** Two of them in one chunk: so it may, when there is room. *)
Lemma glued_delivered `{DESLib} `{!DESLaws} key ms a b c rest :
  Forall2 (framed key) ms (a :: b :: c :: rest) -> zlen b + zlen c <= LCS_RSA_3DES_BUF_LOW ->
  delivers LCS_RSA_3DES_BUF_LOW (a :: b :: c :: rest) (a :: (b ++ c) :: rest).
Proof.
  intros Hf Hz. destruct (messages_delivered _ _ _ Hf) as [_ Hall]. split; [cbn [concat]; by rewrite <- app_assoc|].
  apply Forall_cons in Hall as [Ha Hall]. apply Forall_cons in Hall as [Hb Hall]. apply Forall_cons in Hall as [Hc Hall].
  repeat constructor; [lia|lia|rewrite zlen_app; lia|rewrite zlen_app; lia|done].
Qed.

(** C15: A report is downloaded, provided that the connection keeps the messages apart, which a
    stream does not promise. The settings fit their members, the two key files hold a pair of 38
    to 2048 bytes, the file has less than 2^32 bytes, files open for writing and the connection
    takes what is sent. When every call of [recv] returns exactly one message, then for the
    server, database, period and analysis the client asks for, the file of the warehouse arrives
    at the client as it is. The session key the client makes is the one both work with; the
    greeting, the request, the size and the parts of the file go over the connection in this
    order; both programs end without an error, the client having written the bytes of the file
    and found their number equal to the announced one; and the two runs interleave without either
    waiting for something that is never sent. The same bytes may arrive otherwise: when the
    message with the size and the first part of the file arrive in one chunk (of at most 512
    bytes, the room the client gives), the client does not see that part: it writes the file
    without it and reports an error. *)
Theorem report_downloaded `{DESLib} `{!DESLaws} `{RSALib} `{!RSALaws} `{DESRandom} (wc ws : World)
    cinfo sinfo server db from to analysis mode path pubfile prvfile root key pub prv fp fuel fuel' behind :
  asks cinfo server db from to analysis mode path pubfile ->
  (forall tr d, @send wc tr d = zlen d) -> (forall tr p, @fopen_w wc tr p = true) ->
  lcs_3des_gen [] = Ok (key, []) -> zlen key = 24 -> keys_ok key = true ->
  key_pair pub prv -> 38 <= RSA_size prv <= 2048 ->
  @key_file wc _ PEM_read_bio_RSA_PUBKEY pubfile pub -> @key_file ws _ PEM_read_bio_RSAPrivateKey prvfile prv ->
  text_of sinfo "privatekey" = Ok prvfile -> text_of sinfo "rootpath" = Ok root -> zlen root < 800 ->
  (forall tr, talk tr -> @fopen_r ws tr (report_path server db from analysis mode root) = Some fp) -> f_tell fp = zlen (f_bytes fp) ->
  zlen (f_bytes fp) < 2 ^ 32 -> zlen behind = 507 -> (length (f_bytes fp) + 1 < fuel')%nat ->
  exists trc trs,
    @client_connected (with_inbox wc (sends trs)) _ _ _ (S fuel) fuel' behind cinfo 0 [] = Ok (0, trc) /\
    @lcs_connected_socket (with_inbox ws (sends trc)) _ _ (S fuel) behind sinfo 0 [] = Ok (0, trs) /\
    last trc = Some (EvWrite path (f_bytes fp)) /\ runs trc trs [] [] /\
    delivers LCS_RSA_3DES_BUF_LOW (sends trs) (sends trs) /\
    (forall ready first part rest, sends trs = ready :: first :: part :: rest -> f_bytes fp <> [] ->
      zlen first + zlen part <= LCS_RSA_3DES_BUF_LOW ->
      let chunks := ready :: (first ++ part) :: rest in
      delivers LCS_RSA_3DES_BUF_LOW (sends trs) chunks /\
      exists lost left trc', f_bytes fp = lost ++ left /\ lost <> [] /\
        @client_connected (with_inbox wc chunks) _ _ _ (S fuel) fuel' behind cinfo 0 [] = Ok (507, trc') /\
        last trc' = Some (EvWrite path left)).
Proof.
  intros [Hfs [T1 Z1] [T2 Z2] [T3 Z3] [T4 Z4] [T5 Z5] [T6 Z6] T7 Hpub] Hsend Hw Hrand Hkey Hok Hpair Hsize
    Hcf Hsf Hprv Hroot Zroot Hfp Htell Hlen Hbe Hfu.
  set (fs := [server; db; from; to; analysis; mode]).
  pose proof (zlen_nonneg (f_bytes fp)) as H0'. pose proof (zlen_nonneg (request fs)) as H0r.
  destruct (RSA_encrypt_ok pub prv (hello key) Hpair) as [ct Hct].
  { pose proof (key_pair_size _ _ Hpair). unfold hello. rewrite !zlen_app, Hkey.
    change (zlen [x00]) with 1. change (zlen (le_bytes 2 24)) with 2. lia. }
  pose proof (request_length server db from to analysis mode Z1 Z2 Z3 Z4 Z5 Z6) as Hrl. fold fs in Hrl.
  destruct (frame_size_ok (zlen (request fs) + 1)) as (k & Hk & _); [lia|].
  destruct (@send_file_ok ws _ key (report_path server db from analysis mode root) 0 fp (greeted key))
    as (first & frames & parts & Hs & Hfirst & Hcat & Hparts & Hframes); [apply Hfp; by repeat constructor|done|lia|].
  rewrite Htell in Hfirst. rewrite <- Hcat in Hlen, Hfirst, H0' |- *. pose proof (parts_length parts Hparts) as Hpl.
  rewrite <- Hcat in Hfu.
  assert (Hp509 : Forall (fun d => zlen d <= 509) parts) by (eapply Forall_impl; [exact Hparts|]; intros d ?; cbn in *; lia).
  assert (Hall : Forall2 (framed key) ((LCS_RSA_3DES_OVER, LCS_WHS_READY ++ [x00]) :: (LCS_RSA_3DES_CHECKSUM, itoa (zlen (concat parts)) ++ [x00])
    :: file_messages (f_bytes fp) parts) (message key 16 LCS_WHS_READY :: first :: frames)) by (repeat constructor; [apply ready_framed|done..]).
  set (trs := greeted key ++ EvSend first :: map EvSend frames).
  assert (Htrs : sends trs = message key 16 LCS_WHS_READY :: first :: frames).
  { unfold trs. rewrite sends_app. change (sends (EvSend first :: map EvSend frames)) with (first :: sends (map EvSend frames)).
    by rewrite sends_map. }
  assert (Hclient : forall chunks f fr ps, chunks = message key 16 LCS_WHS_READY :: f :: fr ->
    announces key (zlen (concat parts)) f -> Forall2 (framed key) (file_messages (f_bytes fp) ps) fr ->
    Forall (fun d => zlen d <= 509) ps -> zlen (concat ps) <= zlen (concat parts) -> (length ps <= length parts)%nat ->
    @client_connected (with_inbox wc chunks) _ _ _ (S fuel) fuel' behind cinfo 0 []
    = Ok (if zlen (concat parts) =? zlen (concat ps) then 0 else 507, client_trace key ct server db from to analysis mode k path ps)).
  { intros chunks f fr ps Hc Ha Hfr Hl Hz Hn.
    refine (client_ok (W := with_inbox wc chunks) key ct server db from to analysis mode pub prv k Hkey Hok Hpair _ Hct Z1 Z2 Z3 Z4 Z5 Z6 Hk
      cinfo pubfile path f (f_bytes fp) _ ps fr chunks (fun _ _ => eq_refl) Hsend Hw Hrand Hpub Hcf T1 T2 T3 T4 T5 T6 T7 Hc
      Ha Hfr Hl _ _ fuel fuel' behind Hbe _); lia. }
  set (trc := client_trace key ct server db from to analysis mode k path parts).
  assert (Htrc : sends trc = [ct; message key k (request fs)]).
  { unfold trc, client_trace. rewrite !sends_app.
    assert (Hr : forall n, sends (replicate n EvRecv) = []) by (intros n; induction n as [|n IH]; [done|exact IH]).
    by rewrite Hr. }
  exists trc, trs. rewrite Htrs. split; [|split; [|split; [|split; [|split]]]].
  - rewrite (Hclient _ first frames parts eq_refl); [by rewrite Z.eqb_refl| |done..].
    rewrite <- (app_nil_r first). apply framed_announces; [done|by exists 0|].
    pose proof (framed_size _ _ _ Hfirst). change (zlen []) with 0. lia.
  - refine (server_ok (W := with_inbox ws (sends trc)) key ct server db from to analysis mode pub prv k Hkey Hok Hpair _ Hct Hfs Z1 Z2 Z3 Z4 Z5 Z6 Hk
      sinfo prvfile root first frames (sends trc) (fun _ _ => eq_refl) Hprv Hsf Hroot Zroot Htrc fuel behind Hbe Hs). lia.
  - unfold trc, client_trace. by rewrite !app_assoc, last_snoc.
  - apply download_runs. apply Forall2_length in Hframes. unfold file_messages in Hframes.
    rewrite length_app, length_map in Hframes. destruct (zlen (f_bytes fp) mod 509 =? 0); cbn in Hframes; lia.
  - by eapply messages_delivered.
  - intros ready first' part rest [= <- <- ->] Hne Hz. split; [by eapply glued_delivered|].
    destruct parts as [|d parts]; [done|]. apply Forall_cons in Hparts as [Hd _]. apply Forall_cons in Hp509 as [_ Hp509].
    apply Forall2_cons in Hframes as [Hpart Hrest]. cbn [concat] in Hlen, H0', Hfirst, Hclient |- *.
    pose proof (framed_size _ _ _ Hfirst). pose proof (framed_size _ _ _ Hpart). rewrite zlen_app in H0', Hclient. pose proof (zlen_nonneg (concat parts)).
    exists d, (concat parts). eexists. split; [done|]. split; [intros ->; by destruct Hd|]. split.
    + rewrite (Hclient _ (first ++ part) rest parts eq_refl); [| |exact Hrest|done|lia|cbn; lia].
      * replace (zlen d + zlen (concat parts) =? zlen (concat parts)) with false by (symmetry; apply Z.eqb_neq; lia). reflexivity.
      * rewrite <- zlen_app. unfold LCS_RSA_3DES_BUF_LOW in Hz. apply framed_announces; [done|by eapply framed_div|lia].
    + unfold client_trace. by rewrite !app_assoc, last_snoc.
Qed.

(** ** A concrete download *)

Module Session.
#[local] Instance drawn : DESRandom := fun _ _ => replicate 8 x5a.
Definition key : list byte := replicate 24 x5a.
Definition wc : World := toy_world [(str "public_key.pem", [key_S])] None None None.
Definition report_text : list byte := str "2017-10-29 08:15:00 7".
Definition ws : World :=
  toy_world [(str "key.pem", [key_S]); (str "/w/10.0.0.7/asterisk/2017/10/29/A_000009.analysis", report_text)] None None None.
Definition cinfo : cfg :=
  fold_right (fun '(f, v) c => assign c f v) (cleared client_members)
    [("dbserver", str "10.0.0.7"); ("dbname", str "asterisk"); ("datefrom", str "2017-10-29 00:00:00");
     ("dateto", str "2017-10-29 00:00:00"); ("analysis", str "A_000009"); ("mode", str "day");
     ("filepath", str "./A_000009.data"); ("publickey", str "public_key.pem")]%string.
Definition sinfo : cfg :=
  assign (assign (cleared whs_members) "privatekey" (str "key.pem")) "rootpath" (str "/w").

Lemma fields_fine :
  Forall field_ok [str "10.0.0.7"; str "asterisk"; str "2017-10-29 00:00:00"; str "2017-10-29 00:00:00";
                   str "A_000009"; str "day"].
Proof.
  unfold field_ok.
  repeat (constructor; [split; [split; [by vm_compute|reflexivity]|split; [repeat constructor; discriminate|decided]]|]).
  constructor.
Qed.

Lemma talk_writes path tr : talk tr -> content_of path tr = None.
Proof.
  intros Ht. unfold content_of. induction Ht as [|e tr He _ IH]; [done|]. by destruct e.
Qed.

Lemma report_downloaded_witness :
  exists trc trs,
    @client_connected (with_inbox wc (sends trs)) _ _ _ 1 23 (zeros 507) cinfo 0 [] = Ok (0, trc) /\
    @lcs_connected_socket (with_inbox ws (sends trc)) _ _ 1 (zeros 507) sinfo 0 [] = Ok (0, trs) /\
    last trc = Some (EvWrite (str "./A_000009.data") report_text) /\ runs trc trs [] [].
Proof.
  refine (let '(ex_intro _ trc (ex_intro _ trs (conj A (conj B (conj C (conj D _)))))) := _ in
          ex_intro _ trc (ex_intro _ trs (conj A (conj B (conj C D))))).
  apply (report_downloaded wc ws cinfo sinfo (str "10.0.0.7") (str "asterisk") (str "2017-10-29 00:00:00")
    (str "2017-10-29 00:00:00") (str "A_000009") (str "day") (str "./A_000009.data") (str "public_key.pem")
    (str "key.pem") (str "/w") key key_S key_S {| f_tell := 21; f_bytes := report_text; f_close := 0 |} 0 23 (zeros 507)).
  - split; [exact fields_fine|split; [vm_compute; reflexivity|reflexivity]..|vm_compute; reflexivity|vm_compute; reflexivity].
  - done.
  - done.
  - reflexivity.
  - reflexivity.
  - reflexivity.
  - reflexivity.
  - split; [discriminate|vm_compute; discriminate].
  - exists {| f_tell := 1; f_bytes := [key_S]; f_close := 0 |}, [key_S]. split; [done|]. split; [by split|].
    split; [repeat constructor; discriminate|done].
  - exists {| f_tell := 1; f_bytes := [key_S]; f_close := 0 |}, [key_S]. split; [done|]. split; [by split|].
    split; [repeat constructor; discriminate|done].
  - vm_compute; reflexivity.
  - vm_compute; reflexivity.
  - reflexivity.
  - intros tr Ht. cbn [fopen_r ws toy_world]. by rewrite talk_writes.
  - reflexivity.
  - reflexivity.
  - reflexivity.
  - cbn; lia.
Defined.
End Session.
